(* ===== verification/_CoqProject ===== *)
-Q . S2P
Prelude.v
Errors.v
Utils.v
Base64.v
TimeText.v
LogText.v
Uri.v
SpdmReq.v
SpdmMeasurementRecords.v
SpdmOpaqueData.v
SpdmResp.v
GpuOpaqueData.v
SwitchOpaqueData.v
NvCache.v
Threads.v
StatusBundle.v
OpenSsl.v
Ocsp.v
X509Chain.v
Json.v
Claims.v
Evaluator.v
RegoEngine.v
DetachedEat.v
Http.v
Jwt.v
CacheThreads.v
Certs.v
Rim.v
Report.v
GpuEvidence.v
SwitchEvidence.v
Dumps.v
Driver.v
DriverThreads.v
NvmlClient.v
CorelibClient.v
NscqClient.v
Sdk.v
Loggers.v
Verify.v
GpuVerify.v
SharedStores.v
SwitchVerify.v
Attestation.v
Collectors.v
Nvat.v
Locals.v
CliOptions.v
CliOutput.v
Cli.v
CliCollect.v
Examples.v
EvidenceExamples.v
Offline.v
CliMain.v
