(* ===== verification/Prelude.v ===== *)
(** * NVIDIA Attestation SDK (sol pbc fork): verification library

    The C++ SDK of src/nv-attestation-sdk-cpp, and its command line tool
    nvattest of src/nv-attestation-cli, prove to a relying party that
    the GPUs and NVSwitches of a machine are genuine, run reference firmware
    and were asked just now.  A device signs a report over a nonce; the SDK
    checks the certificate chain and its revocation, parses the report, fetches
    the reference integrity manifests (RIMs) the report names, compares the
    measurements and writes claims and a signed token, or has a remote service
    do it.  Paths below are relative to src/nv-attestation-sdk-cpp, or for the
    tool (cli:) to src/nv-attestation-cli.

    ** The parts and the files that model them

    From the bytes up; each file requires only earlier ones.

    - Prelude: outcomes of C++ code ([outcome]: a value, an error code, an
      exception, undefined behaviour), the stateful monad [sm] with the
      notations [let*], [check*], [do*], [guard*], machine integers, vectors,
      little-endian values, tactics.  Errors: include/nv_attestation/error.h.
    - Utils, Base64, TimeText and Uri: include/nv_attestation/utils.h and
      spdm/utils.h; TimeText has the calendar, and the text of a time.
      LogText: texts made for the log (src/internal/debug.hpp).
    - SpdmReq, SpdmMeasurementRecords, SpdmOpaqueData, SpdmResp (src/spdm):
      the parsers of the signed messages.  GpuOpaqueData, SwitchOpaqueData
      (src/gpu/spdm, src/switch/spdm): the typed vendor fields of the response.
    - NvCache (src/nv_cache.cpp): the LRU cache with a time to live.
    - Threads: programs of several threads over shared memory, mutexes and
      [std::call_once], with their races.  CacheThreads: the methods of the
      cache and of the key store (src/nv_cache.cpp, src/nv_jwt.cpp) as such
      programs.  DriverThreads: the once-only initialization of a driver client.
      SharedStores: threads that verify over shared caching stores (src/rim.cpp,
      src/nv_ocsp.cpp, the worker of examples/parallel-verification/main.c).
    - StatusBundle, OpenSsl, Ocsp (src/nv_ocsp.cpp): the DER bundle of status
      proofs, and the online, offline and caching revocation clients.
      X509Chain (src/nv_x509.cpp): certificate chains and their claims.
    - Json, Claims, Evaluator, DetachedEat (src/claims.cpp, src/gpu/claims.cpp,
      src/switch/claims.cpp, src/claims_evaluator.cpp): claims, their JSON, the
      overall policy, and detached entity-attestation tokens.  RegoEngine
      (src/rego_engine): the policy engine over the library regorus.
    - Http, Jwt (src/nv_http.cpp, src/nv_jwt.cpp): requests with retries, the
      key store and signed tokens.  Certs (src/internal/certs.h), Rim
      (src/rim.cpp): the pinned roots, RIM documents and RIM stores.
    - Report, GpuEvidence, SwitchEvidence (src/gpu/evidence.cpp,
      src/switch/evidence.cpp): attestation reports and evidence.  Dumps: the
      stream operators of messages, typed fields, claims and evidence.
    - Driver (include/nv_attestation/utils.h): loading a library and its
      symbols, once, and calling through them.  NvmlClient, CorelibClient
      (src/gpu/nvml_client.cpp, src/gpu/corelib_client.cpp), NscqClient
      (src/switch/nscq_client.cpp): collecting evidence from the three drivers.
      Sdk (src/init.cpp, src/log.cpp): the library's start and end.  Loggers
      (src/log.cpp, src/nvat.cpp): the loggers, the C calls that make and
      install them, and what reaches them.
    - Verify, GpuVerify, SwitchVerify (src/verify.cpp, src/gpu/verify.cpp,
      src/switch/verify.cpp): the local and the remote verifiers.
    - Attestation (src/attestation.cpp): the attestation context.
      Collectors: the context over the driver clients.  Offline: what a local
      verification does to its store and its client.
    - Nvat (src/nvat.cpp, include/nv_attestation/nvat_private.hpp): the C
      interface, with its handles and the heap behind them.
    - Locals: a logic for code that keeps such handles in local variables, with
      the rules of [nv_unique_ptr] (cli:src/nvattest_types.h).
      CliOptions (cli:src/nvattest_options.h, src/utils.cpp): the options and
      their checks.  CliOutput (cli:src/logging.cpp, and the output of
      src/attest.cpp and src/collect_evidence.cpp).  Cli (cli:src/attest.cpp,
      src/collect_evidence.cpp, src/main.cpp): the subcommands, what [attest]
      amounts to without handles ([spec_calls]), and that it does.  CliCollect:
      the same for the collection.  CliMain: what a run of the tool means.
    - Examples, EvidenceExamples (examples/*/main.c and
      examples/common/example_utils.c): the example programs as clients of
      the C interface.

    The tool calls Sdk and Nvat; Nvat runs the context of Attestation; the context
    makes verifiers (GpuVerify, SwitchVerify) from a RIM store and an OCSP
    client, and gets evidence from a file or a driver client; a verifier parses evidence (GpuEvidence over SpdmResp and the
    opaque-data files), builds chains (X509Chain), asks for revocation (Ocsp)
    and RIMs (Rim), both perhaps through a cache (NvCache), and its claims
    (Claims) go into a token (DetachedEat) under the policy (Evaluator).

    ** How code is modelled

    A function that returns an [Error] and fills out-parameters is a
    computation in [outcome Error]: [Ret] is [Error::Ok] with the
    out-parameters, [Err e] another code, [Throw] an exception, and [UB] what
    the C++ standard leaves undefined (an index out of range with
    [operator[]], a shift by the width, a null or dangling pointer, a read of
    an uninitialized value).  A method that changes its object, also when it
    fails, is in [sm].  Integers are of type Z with their wrap-around written
    out ([u16], [u64], [s32], ...).  Bytes are lists of Z; [is_byte] and
    [vec_ok] (a vector is shorter than PTRDIFF_MAX) are hypotheses where
    needed.  Maps are [gmap]; where the order of iteration matters it is
    written out.  Shared objects that change (caches, the request counters of
    networks, the objects behind handles) are in a store that the pointers
    name.  In the components a log call is not an effect; what it needs and where
    it goes is in Loggers, and texts that are made for it are in LogText.

    ** Interfaces

    Type classes are what one component promises another, or what the code
    relies on outside itself.  [INvCache] (NvCache) has laws, which the cache
    discharges and the caching RIM store and OCSP client use.
    [IOcspHttpClient] (Ocsp) and [IRimStore] (Rim) are the C++ interfaces of
    these names; every theorem about a verifier holds for all their instances.
    [OpenSSL], [LibXml2], [Base64Lib], [JwtLib], [Http.Platform], [Http.Curl],
    [Eat.Env] (clock, random numbers, SHA-256, JSON text, the Rego engine),
    [Regorus] (RegoEngine), [SpdLog] (Loggers), [CurlUrl] (Uri), [NamePrinter]
    (LogText) and
    [World] (Attestation: networks, files, drivers), [DynamicLinker],
    [NvmlLib], [CorelibLib], [NscqLib], [X509Codec] (PEM text of a DER
    certificate), [XmlSec], [CommandLine] (CLI11) and [Build] are third-party or
    system code: parameters without laws.  Where a theorem relies on documented
    behaviour of such code, the behaviour is a named definition in its
    hypotheses ([resp_find_documented], [base64_documented],
    [rego_documented], ...), and a small concrete instance ([toy_openssl],
    [toy_base64], ...) satisfies it in the theorem's witness.

    ** What the theorems show

    - End to end: [Nvat.nvat_attest_gpu_sound] (a successful attestation of
      GPUs with the token means that every item of evidence was authenticated,
      is fresh, and matched verified RIMs, with good chains), over
      [GpuVerify.local_gpu_verify_sound] and its switch counterpart, and
      [Verify.remote_verify_sound] for the remote service.  With the drivers,
      [attest_nvml_sound] and [attest_nscq_sound]: no device is left out.  From
      the shell, [nvattest_gpu_sound] and [nvattest_switch_sound]: what exit
      status 0 with claims means.
      These hold under the built-in policy and when the token is asked for:
      [attest_verdict] and [attest_without_token_unchecked] say what a return
      code means otherwise, [gpu_measres_iff] and [switch_measres_iff] what a matching
      measurement is, and [overall_policy_iff] what the overall result is.
    - Authenticity: [attestation_report_authentic] and
      [switch_report_authentic] (a report is signed under the first certificate
      that comes with it), [chain_claims_verified] (that certificate is under the pinned root),
      [eat_validation_sound], [validate_and_decode_sound].
    - Revocation: [raw_proof_accept_iff], [chain_ocsp_claims_sound],
      [ocsp_response_not_malleable], and the codec of the bundle,
      [bundle_decode_iff] and [bundle_decode_total].
    - Parsers as formats: each parser accepts exactly a format given as an
      encoder ([req_parse_iff], [record_parse_iff], [opaque_parse_iff],
      [resp_parse_iff], [gpu_opaque_create_spec]); claims, tokens and evidence
      survive their JSON ([gpu_claims_roundtrip], ...).
    - State: the cache's invariant, its refinement of a map and its eviction
      order ([cache_reachable_safe], [cache_refines_map],
      [cache_eviction_policy]), all for a time to live that can be added to the
      clock ([put_overflows] when it cannot); the caching clients are transparent
      ([rim_cache_transparent], [ocsp_cache_transparent]); the context agrees
      with its settings, HTTP options aside ([context_coherent]); handles keep
      their types ([handles_typed]), and failing calls, with five exceptions,
      change nothing ([failed_call_changes_nothing]).
    - Drivers: what NVML and NSCQ clients collect is what the driver gave, for
      every device ([nvml_evidence_sound], [nscq_evidence_sound]); the
      collection succeeds with a driver that answers ([nvml_evidence_live]) and
      stays within its buffers ([nvml_evidence_safe]); corelib's objects are
      deleted ([corelib_no_leak]); the conversion of its chains is exact
      ([pem_chain_iff]); a client never restarts ([nvml_never_restarts]) and
      what shutdown closes stays closed ([shutdown_is_final]).
    - The tool: [attest_refines] and [collect_evidence_refines] (the subcommands
      are what their options amount to, and what stays in the heap),
      [collect_nvml_complete], [offline_no_requests] (the offline mode contacts
      no service), [verification_only_build] (such a build touches no device),
      [accepted_options], [verification_time_iff], [backtrace_complete].
    - Threads: the calls of the cache are atomic and race free
      ([cache_calls_atomic], [cache_race_free]), what several threads get from
      the initialization of a client ([concurrent_init],
      [concurrent_init_loses]), and that threads which verify over shared stores
      get what they would get alone ([parallel_verification_sound]).
    - Logging and policies: [logging_safe] (no call of a logger that is not
      there, through any sequence of the C calls), [evaluate_policy_sound] and
      [rego_evaluator_sound] (the engine fails closed and leaks nothing).
    - Examples: [helper_programs] and [evidence_programs] say what each program
      does, and [attest_policy_none_sound] and [evidence_program_sound] what its exit status means.
    - Texts: [format_time_iff] (a time is written as the date of the Gregorian
      calendar that it is), the expiration date in [chain_claims_verified],
      [parse_uri_spec] (with its handles and strings given back),
      [format_cert_chain_spec], [gpu_dump_spec], [switch_dump_spec],
      [ocsp_dump_time].
    - Where the code does not do what it means to: theorems such as
      [shared_client_dropped], [service_key_drops_stores],
      [revocation_reason_lost], [http_authorization], [feature_flag_bounds],
      [vbios_version_short], [put_overflows], [base64_encode_safe], [encode_base64_for_log_safe],
      [name_check_inverted], [attest_main_uninitialized] and
      [unverified_rim_chain_undefined] state exactly what happens and when.

    ** Fuel

    Loops that are not structural run on fuel that is shown to be enough: the
    opaque-data parser on one more than the number of bytes (every field takes
    four; [opaque_parse_total]), the eviction loops of the cache on one more
    than the length of the list they shorten ([evict_expired_spec],
    [evict_lru_spec]), the bundle decoder on the number of bytes
    ([bundle_decode_total]), PEM line breaking on the length of the text, the
    conversion of DER chains on one more than the number of bytes
    ([pem_chain_iff]), the search for certificates in a chain on one more than its
    length ([format_cert_chain_spec]).
    Retries are bounded by the option that limits them.

    ** Not modelled

    - The drivers themselves, OpenSSL, libcurl, libxml2, jwt-cpp, spdlog and
      regorus, which are parameters.
    - CLI11: declaring and parsing the options; the checks that the tool makes
      afterwards are modelled (CliOptions).
    - The wrapper functions of regorus.hpp that the SDK never calls.  The rules
      of the built-in policy are modelled (Evaluator).
    - The branches for Windows with include/nv_attestation/windows_compat.h;
      memory exhaustion ([std::bad_alloc]).
    - Of examples/parallel-verification, everything around the calls of its
      threads: it makes and joins threads of the C library.
    - The Rust bindings and the tests. *)

From stdpp Require Export base numbers list strings gmap.
From Stdlib Require Import ZArith Lia.

#[global] Open Scope Z_scope.

(** ** Outcomes of C++ code *)

(** The exceptions of the standard library and of nlohmann::json that the
    modelled functions can throw. *)
Inductive exn : Type :=
| out_of_range
| length_error
| invalid_argument
| runtime_error
| json_exception.

(** What a call can do: return a value, return an error code, throw, or run
    into undefined behaviour (an out-of-bounds [operator[]], an oversized
    shift, a null dereference). *)
Inductive outcome (E A : Type) : Type :=
| Ret (a : A)
| Err (e : E)
| Throw (x : exn)
| UB.

Arguments Ret {E A} a.
Arguments Err {E A} e.
Arguments Throw {E A} x.
Arguments UB {E A}.

Definition obind {E A B : Type} (m : outcome E A) (k : A -> outcome E B) : outcome E B :=
  match m with
  | Ret a => k a
  | Err e => Err e
  | Throw x => Throw x
  | UB => UB
  end.

Declare Scope nv_scope.
Delimit Scope nv_scope with nv.

Notation "'let*' x := m 'in' k" := (obind m (fun x => k))
  (at level 10, x pattern, m at level 100, k at level 200) : nv_scope.

(** [if (!b) return e; k] *)
Notation "'check*' b 'else' e 'in' k" := (if b then k else Err e)
  (at level 10, b at level 100, e at level 100, k at level 200) : nv_scope.

(** The same in functions that return [bool] and fill an out-parameter, where
    [Ret None] is [return false]. *)
Definition obind_opt {E A B : Type} (m : outcome E (option A)) (k : A -> outcome E (option B)) :
    outcome E (option B) :=
  obind m (fun o => match o with Some a => k a | None => Ret None end).

Notation "'try*' x := m 'in' k" := (obind_opt m (fun x => k))
  (at level 10, x pattern, m at level 100, k at level 200) : nv_scope.

Notation "'test*' b 'in' k" := (if b then k else Ret None)
  (at level 10, b at level 100, k at level 200) : nv_scope.

#[global] Open Scope nv_scope.

(** A [bool] function with an out-parameter: [None] is [return false]. *)
Definition or_err {E A : Type} (m : outcome E (option A)) (e : E) : outcome E A :=
  obind m (fun o => match o with Some a => Ret a | None => Err e end).

(** An error of [m], whichever it is, becomes [e]. *)
Definition on_err {E A : Type} (m : outcome E A) (e : E) : outcome E A :=
  match m with Err _ => Err e | _ => m end.

(** The outcome is a value or an error code: no exception, no undefined
    behaviour. *)
Definition defined {E A : Type} (m : outcome E A) : Prop :=
  match m with Ret _ | Err _ => True | _ => False end.

(** The outcome avoids undefined behaviour (it may throw). *)
Definition no_ub {E A : Type} (m : outcome E A) : Prop :=
  match m with UB => False | _ => True end.

(** Run [f] over [l] from left to right, threading a state. *)
Fixpoint ofold {E A S : Type} (f : S -> A -> outcome E S) (l : list A) (s : S) : outcome E S :=
  match l with
  | [] => Ret s
  | x :: l => obind (f s x) (ofold f l)
  end.

(** ** Stateful code

    A call that changes the state of an object it owns: the outcome, and the
    state it leaves, also when it fails. *)
Definition sm (S E A : Type) : Type := S -> outcome E A * S.

Definition sret {S E A : Type} (a : A) : sm S E A := fun s => (Ret a, s).

(** An outcome that does not touch the state. *)
Definition slift {S E A : Type} (m : outcome E A) : sm S E A := fun s => (m, s).

Definition sbind {S E A B : Type} (m : sm S E A) (k : A -> sm S E B) : sm S E B :=
  fun s =>
    match m s with
    | (Ret a, s) => k a s
    | (Err e, s) => (Err e, s)
    | (Throw x, s) => (Throw x, s)
    | (UB, s) => (UB, s)
    end.

Notation "'do*' x := m 'in' k" := (sbind m (fun x => k))
  (at level 10, x pattern, m at level 100, k at level 200) : nv_scope.

(** [if (!b) return e; k] *)
Notation "'guard*' b 'else' e 'in' k" := (if b then k else slift (Err e))
  (at level 10, b at level 100, e at level 100, k at level 200) : nv_scope.

(** Run [f] over [l] from left to right. *)
Fixpoint smap_m {S E A : Type} (f : A -> sm S E unit) (l : list A) : sm S E unit :=
  match l with
  | [] => sret tt
  | x :: l => sbind (f x) (fun _ => smap_m f l)
  end.

(** ** Machine integers *)

Definition wrap (w z : Z) : Z := z mod 2 ^ w.
Abbreviation u8 := (wrap 8).
Abbreviation u16 := (wrap 16).
Abbreviation u32 := (wrap 32).
Abbreviation u64 := (wrap 64).

(** Two's-complement reading of a [w]-bit value. *)
Definition swrap (w z : Z) : Z := (z + 2 ^ (w - 1)) mod 2 ^ w - 2 ^ (w - 1).
Abbreviation s32 := (swrap 32).
Abbreviation s64 := (swrap 64).

Definition is_byte (z : Z) : Prop := 0 <= z < 256.

(** ** Vectors *)

(** [v.size()]. *)
Definition zlen {A : Type} (l : list A) : Z := Z.of_nat (length l).

(** A vector's size is at most PTRDIFF_MAX. *)
Definition vec_ok {A : Type} (l : list A) : Prop := zlen l < 2 ^ 63.

(** [v[i]]: undefined out of range. *)
Definition vget {E A : Type} (l : list A) (i : Z) : outcome E A :=
  if (0 <=? i) && (i <? zlen l) then
    match l !! Z.to_nat i with Some a => Ret a | None => UB end
  else UB.

(** [v.at(i)]: throws out of range. *)
Definition vat {E A : Type} (l : list A) (i : Z) : outcome E A :=
  if (0 <=? i) && (i <? zlen l) then
    match l !! Z.to_nat i with Some a => Ret a | None => UB end
  else Throw out_of_range.

(** The range [begin + off, begin + off + len). *)
Definition slice {A : Type} (l : list A) (off len : Z) : list A :=
  take (Z.to_nat len) (drop (Z.to_nat off) l).

(** ** Little-endian values *)

Fixpoint le_val (l : list Z) : Z :=
  match l with
  | [] => 0
  | b :: l => b + 256 * le_val l
  end.

Fixpoint le_enc (n : nat) (z : Z) : list Z :=
  match n with
  | O => []
  | S n => z mod 256 :: le_enc n (z / 256)
  end.

(** ** Strings as byte sequences *)

Definition byte_ascii (z : Z) : Ascii.ascii := Ascii.ascii_of_N (Z.to_N z).
Definition ascii_byte (a : Ascii.ascii) : Z := Z.of_N (Ascii.N_of_ascii a).

(** [std::string(v.begin(), v.end())]. *)
Definition string_of_bytes (l : list Z) : string :=
  String.string_of_list_ascii (byte_ascii <$> l).

Definition bytes_of_string (s : string) : list Z :=
  ascii_byte <$> String.list_ascii_of_string s.

(** ** Tactics *)

(** Split a hypothesis that a monadic computation returned. *)
Ltac inv_ret :=
  repeat match goal with
  | H : obind ?m _ = Ret _ |- _ =>
      let E := fresh "E" in
      destruct m eqn:E; cbn [obind] in H; try discriminate H
  | H : (if ?b then _ else Err _) = Ret _ |- _ =>
      let E := fresh "E" in destruct b eqn:E; [|discriminate H]
  | H : Ret _ = Ret _ |- _ => injection H as H
  | H : or_err _ _ = Ret _ |- _ => unfold or_err in H
  | H : match ?o with Some _ => _ | None => Err _ end = Ret _ |- _ =>
      let E := fresh "E" in destruct o eqn:E; [|discriminate H]
  | H : obind_opt _ _ = Ret (Some _) |- _ => unfold obind_opt in H
  | H : (if ?b then _ else Ret None) = Ret (Some _) |- _ =>
      let E := fresh "E" in destruct b eqn:E; [|discriminate H]
  | H : match ?o with Some _ => _ | None => Ret None end = Ret (Some _) |- _ =>
      let E := fresh "E" in destruct o eqn:E; [|discriminate H]
  end.

(** Every element of an explicit concatenation is a byte. *)
Ltac bytes_tac :=
  repeat first [rewrite Forall_app | rewrite Forall_cons | rewrite Forall_nil];
  split_and?; auto with nv; try done; try (unfold is_byte in *; lia).

(** Lengths of explicit concatenations. *)
Ltac len_tac := autorewrite with nv_len in *; lia.

(** Side conditions of a read at a known position; [E] gives the buffer. *)
Tactic Notation "at_tac" hyp(E) :=
  first [eassumption | lia | progress (autorewrite with nv_len); lia
        | rewrite E; rewrite <- ?app_assoc; cbn [app]; reflexivity].

Create HintDb nv discriminated.
Create Rewrite HintDb nv_len.

(** ** Outcome lemmas *)

Lemma obind_Ret {E A B : Type} (m : outcome E A) (k : A -> outcome E B) b :
  obind m k = Ret b <-> exists a, m = Ret a /\ k a = Ret b.
Proof. destruct m; cbn; split; try discriminate; eauto; intros (? & ? & ?); congruence. Qed.

Lemma on_err_Ret {E A : Type} (m : outcome E A) e a : on_err m e = Ret a <-> m = Ret a.
Proof. by destruct m. Qed.

Lemma obind_assoc {E A B C : Type} (m : outcome E A) (k : A -> outcome E B)
    (h : B -> outcome E C) :
  obind (obind m k) h = obind m (fun a => obind (k a) h).
Proof. by destruct m. Qed.

Lemma defined_bind {E A B : Type} (m : outcome E A) (k : A -> outcome E B) :
  defined m -> (forall a, m = Ret a -> defined (k a)) -> defined (obind m k).
Proof. destruct m; cbn; auto. Qed.

Lemma defined_no_ub {E A : Type} (m : outcome E A) : defined m -> no_ub m.
Proof. by destruct m. Qed.

Lemma ofold_app {E A S : Type} (f : S -> A -> outcome E S) l1 l2 s :
  ofold f (l1 ++ l2) s = obind (ofold f l1 s) (ofold f l2).
Proof.
  revert s; induction l1 as [|x l1 IH]; intros s; [done|]. cbn.
  destruct (f s x); cbn; auto.
Qed.

(** An invariant of the loop body is an invariant of the loop. *)
Lemma ofold_inv {E A S : Type} (P : S -> Prop) (f : S -> A -> outcome E S) l s s' :
  (forall s x s', x ∈ l -> P s -> f s x = Ret s' -> P s') ->
  P s -> ofold f l s = Ret s' -> P s'.
Proof.
  revert s; induction l as [|x l IH]; intros s Hf Hs H; cbn in H.
  - injection H as <-. done.
  - destruct (f s x) eqn:Hx; cbn in H; try discriminate.
    eapply IH; [|eapply Hf; [left|..]; eassumption|exact H].
    intros; eapply Hf; eauto. by right.
Qed.

(** ** Lemmas on stateful code *)

Lemma sbind_Ret {S E A B : Type} (m : sm S E A) (k : A -> sm S E B) s b s' :
  sbind m k s = (Ret b, s') <-> exists a s1, m s = (Ret a, s1) /\ k a s1 = (Ret b, s').
Proof.
  unfold sbind. destruct (m s) as [[a|e|x|] s1]; split; try discriminate; eauto;
    intros (? & ? & H & ?); congruence.
Qed.

Lemma slift_Ret {S E A : Type} (m : outcome E A) s a s' :
  slift (S:=S) m s = (Ret a, s') <-> m = Ret a /\ s' = s.
Proof. unfold slift. split; [intros [= -> ->]|intros [-> ->]]; auto. Qed.

(** ** Integer lemmas *)

Lemma wrap_small w z : 0 <= z < 2 ^ w -> wrap w z = z.
Proof. apply Z.mod_small. Qed.

Lemma wrap_range w z : 0 <= w -> 0 <= wrap w z < 2 ^ w.
Proof. intros. apply Z.mod_pos_bound. by apply Z.pow_pos_nonneg. Qed.

Lemma swrap_small w z : 0 < w -> 0 <= z < 2 ^ (w - 1) -> swrap w z = z.
Proof.
  intros Hw Hz. unfold swrap.
  assert (2 ^ w = 2 * 2 ^ (w - 1)) by
    (rewrite <- Z.pow_succ_r by lia; f_equal; lia).
  rewrite Z.mod_small; lia.
Qed.

Lemma swrap_big w z : 0 < w -> 2 ^ (w - 1) <= z < 2 ^ w -> swrap w z < 0.
Proof.
  intros Hw Hz. unfold swrap.
  assert (2 ^ w = 2 * 2 ^ (w - 1)) as E by
    (rewrite <- Z.pow_succ_r by lia; f_equal; lia).
  replace (z + 2 ^ (w - 1)) with (z - 2 ^ (w - 1) + 1 * 2 ^ w) by lia.
  rewrite Z.mod_add, Z.mod_small; lia.
Qed.

(** ** Vector lemmas *)

Lemma zlen_nonneg {A : Type} (l : list A) : 0 <= zlen l.
Proof. unfold zlen; lia. Qed.

Lemma zlen_app {A : Type} (l1 l2 : list A) : zlen (l1 ++ l2) = zlen l1 + zlen l2.
Proof. unfold zlen. rewrite length_app. lia. Qed.

Lemma zlen_cons {A : Type} (x : A) l : zlen (x :: l) = 1 + zlen l.
Proof. unfold zlen; cbn; lia. Qed.

Lemma zlen_nil {A : Type} : zlen (@nil A) = 0.
Proof. done. Qed.

Lemma zlen_0 {A : Type} (l : list A) : zlen l = 0 -> l = [].
Proof. destruct l; [done|]. rewrite zlen_cons. pose proof (zlen_nonneg l). lia. Qed.

Lemma vget_Ret {E A : Type} (l : list A) i a :
  vget (E:=E) l i = Ret a -> 0 <= i < zlen l /\ l !! Z.to_nat i = Some a.
Proof.
  unfold vget. destruct (0 <=? i) eqn:E1, (i <? zlen l) eqn:E2; cbn; try discriminate.
  destruct (l !! Z.to_nat i) eqn:E3; [|discriminate]. intros [= ->]. split; [lia|done].
Qed.

Lemma vget_in_range {E A : Type} (l : list A) i :
  0 <= i < zlen l -> exists a, vget (E:=E) l i = Ret a /\ l !! Z.to_nat i = Some a.
Proof.
  intros H. unfold vget.
  destruct (lookup_lt_is_Some_2 l (Z.to_nat i)) as [a Ha]; [unfold zlen in H; lia|].
  exists a. replace (0 <=? i) with true by lia. replace (i <? zlen l) with true by lia.
  by rewrite Ha.
Qed.

Lemma slice_len {A : Type} (l : list A) off len :
  0 <= off -> 0 <= len -> off + len <= zlen l -> zlen (slice l off len) = len.
Proof.
  intros. unfold slice, zlen in *. rewrite length_take, length_drop. lia.
Qed.

Lemma slice_split {A : Type} (l : list A) off a b :
  0 <= off -> 0 <= a -> 0 <= b -> slice l off (a + b) = slice l off a ++ slice l (off + a) b.
Proof.
  intros. unfold slice.
  rewrite !Z2Nat.inj_add, <- drop_drop, take_take_drop by lia. done.
Qed.

Lemma slice_glue {A : Type} (l : list A) off a off' b :
  off' = off + a -> 0 <= off -> 0 <= a -> 0 <= b ->
  slice l off a ++ slice l off' b = slice l off (a + b).
Proof. intros -> **. by rewrite slice_split. Qed.

Lemma slice_all {A : Type} (l : list A) n : n = zlen l -> slice l 0 n = l.
Proof. intros ->. unfold slice, zlen. rewrite Nat2Z.id. cbn. apply take_ge. lia. Qed.

Lemma slice_0 {A : Type} (l : list A) off : slice l off 0 = [].
Proof. done. Qed.

Lemma slice_vget {E A : Type} (l : list A) i a :
  vget (E:=E) l i = Ret a -> slice l i 1 = [a].
Proof.
  intros [Hi Ha]%vget_Ret. unfold slice. change (Z.to_nat 1) with 1%nat.
  rewrite (drop_S l a) by done. done.
Qed.

(** A read inside an explicit concatenation. *)
Lemma vget_app {E A : Type} (pre post : list A) x i :
  i = zlen pre -> vget (E:=E) (pre ++ x :: post) i = Ret x.
Proof.
  intros ->. destruct (vget_in_range (E:=E) (pre ++ x :: post) (zlen pre)) as (a & -> & Ha).
  { rewrite zlen_app, zlen_cons. pose proof (zlen_nonneg pre). pose proof (zlen_nonneg post). lia. }
  unfold zlen in Ha. rewrite Nat2Z.id, list_lookup_middle in Ha by done. congruence.
Qed.

Lemma slice_app {A : Type} (pre mid post : list A) off len :
  off = zlen pre -> len = zlen mid -> slice (pre ++ mid ++ post) off len = mid.
Proof.
  intros -> ->. unfold slice, zlen. rewrite !Nat2Z.id, drop_app_length, take_app_length. done.
Qed.

(** ** Little-endian lemmas *)

Lemma le_val_range l : Forall is_byte l -> 0 <= le_val l < 256 ^ zlen l.
Proof.
  induction 1 as [|b l Hb Hl IH]; cbn [le_val]; [by split|].
  rewrite zlen_cons, Z.pow_add_r, Z.pow_1_r by (pose proof (zlen_nonneg l); lia).
  unfold is_byte in Hb. lia.
Qed.

Lemma le_enc_length n z : length (le_enc n z) = n.
Proof. revert z; induction n; intros z; cbn; auto. Qed.

Lemma le_enc_zlen n z : zlen (le_enc n z) = Z.of_nat n.
Proof. unfold zlen. by rewrite le_enc_length. Qed.

Lemma le_enc_bytes n z : Forall is_byte (le_enc n z).
Proof.
  revert z; induction n; intros z; cbn; constructor; auto.
  apply Z.mod_pos_bound; lia.
Qed.

Lemma le_val_enc n z : le_val (le_enc n z) = z mod 256 ^ Z.of_nat n.
Proof.
  revert z; induction n as [|n IH]; intros z; cbn [le_enc le_val].
  { rewrite Z.mod_1_r. done. }
  rewrite IH, Nat2Z.inj_succ, Z.pow_succ_r by lia.
  rewrite Z.rem_mul_r; [lia|lia|]. apply Z.pow_pos_nonneg; lia.
Qed.

Lemma le_enc_val l : Forall is_byte l -> le_enc (length l) (le_val l) = l.
Proof.
  induction 1 as [|b l Hb Hl IH]; [done|]. cbn [length le_enc le_val].
  unfold is_byte in Hb. f_equal.
  - rewrite Z.mul_comm, Z.mod_add, Z.mod_small; lia.
  - rewrite Z.mul_comm, Z.div_add, Z.div_small by lia. by rewrite Z.add_0_l.
Qed.

(** ** String lemmas *)

Lemma ascii_byte_range a : is_byte (ascii_byte a).
Proof.
  unfold is_byte, ascii_byte. pose proof (Ascii.N_ascii_bounded a). lia.
Qed.

Lemma ascii_byte_ascii z : is_byte z -> ascii_byte (byte_ascii z) = z.
Proof.
  unfold is_byte, ascii_byte, byte_ascii. intros Hz.
  rewrite Ascii.N_ascii_embedding by lia. lia.
Qed.

Lemma byte_ascii_byte a : byte_ascii (ascii_byte a) = a.
Proof. unfold byte_ascii, ascii_byte. rewrite N2Z.id. apply Ascii.ascii_N_embedding. Qed.

Lemma string_bytes_string s : string_of_bytes (bytes_of_string s) = s.
Proof.
  unfold string_of_bytes, bytes_of_string. rewrite <- list_fmap_compose.
  rewrite <- (String.string_of_list_ascii_of_string s) at 2. f_equal.
  induction (String.list_ascii_of_string s) as [|a l IH]; cbn; [done|]. by rewrite byte_ascii_byte, IH.
Qed.

Lemma bytes_of_string_bytes s : Forall is_byte (bytes_of_string s).
Proof. apply Forall_fmap, Forall_true. intros a. apply ascii_byte_range. Qed.

Lemma string_of_list_length l : String.length (String.string_of_list_ascii l) = length l.
Proof. induction l; cbn; auto. Qed.

Lemma list_of_string_length s : length (String.list_ascii_of_string s) = String.length s.
Proof. induction s; cbn; auto. Qed.

Lemma substring_all s : String.substring 0 (String.length s) s = s.
Proof. induction s as [|a s IH]; cbn; [done|]. by rewrite IH. Qed.

Lemma bytes_string_bytes l : Forall is_byte l -> bytes_of_string (string_of_bytes l) = l.
Proof.
  intros Hl. unfold bytes_of_string, string_of_bytes.
  rewrite String.list_ascii_of_string_of_list_ascii, <- list_fmap_compose.
  induction Hl as [|z l Hz Hl IH]; cbn; [done|]. f_equal; [by apply ascii_byte_ascii|done].
Qed.

#[export] Hint Resolve zlen_nonneg le_enc_bytes ascii_byte_range : nv.
#[export] Hint Rewrite @zlen_app @zlen_cons @zlen_nil @le_enc_zlen : nv_len.
