(* ===== verification/Errors.v ===== *)
(** * Errors: the [Error] enumeration of include/nv_attestation/error.h

    The error codes every fallible function of the SDK returns, the C return
    codes of include/nvat.h.in they are defined by, and their texts.  A
    function that returns an [Error] and fills an out-parameter is modelled as
    a computation in [res]: [Ret v] is [Error::Ok] with the out-parameter set
    to [v]. *)

From S2P Require Import Prelude.

Inductive Error : Type :=
| Ok
| Unknown
| InternalError
| NotInitialized
| BadArgument
| AllocFailed
| FeatureNotEnabled
| XmlInitFailed
| RelyingPartyPolicyMismatch
| OverallResultFalse
| RimForbidden
| RimInternalError
| RimConnectionError
| RimNotFound
| RimInvalidSignature
| RimInvalidSchema
| RimMeasurementNotFound
| RimMeasurementConflict
| NrasAttestationError
| NrasTokenInvalid
| NrasForbidden
| OcspInvalidResponse
| OcspServerError
| OcspInvalidRequest
| OcspStatusNotGood
| OcspForbidden
| PolicyEvaluationError
| SpdmParseError
| SpdmOpaqueDataParseError
| SpdmMeasurementRecordParseError
| SpdmRequestParseError
| SpdmFieldNotFound
| NvmlInitFailed
| NvmlError
| GpuArchitectureNotSupported
| GpuEvidenceInvalid
| GpuEvidenceNonceMismatch
| GpuEvidenceDriverRimVersionMismatch
| GpuEvidenceVbiosRimVersionMismatch
| GpuEvidenceFwidMismatch
| GpuEvidenceInvalidSignature
| GpuModeNotSupported
| GpuFwNotSupported
| CertFwidNotFound
| CertNotFound
| CertChainVerificationFailure
| JsonSerializationError
| LibXml2Error
| NscqInitFailed
| NscqError
| CorelibInitFailed
| CorelibError
| SwitchArchitectureNotSupported
| SwitchEvidenceNonceMismatch
| SwitchEvidenceVbiosRimVersionMismatch
| SwitchEvidenceFwidMismatch
| SwitchEvidenceInvalidSignature
| CacheObjectNotFound.

#[export] Instance Error_eq_dec : EqDecision Error.
Proof. solve_decision. Defined.

Abbreviation res := (outcome Error).

(** ERROR_ENUM_LIST: the C return code each enumerator is defined by. *)
Definition error_code (e : Error) : Z :=
  match e with
  | Ok => 0
  | Unknown => 1
  | InternalError => 2
  | NotInitialized => 3
  | BadArgument => 4
  | AllocFailed => 5
  | FeatureNotEnabled => 6
  | XmlInitFailed => 7
  | RelyingPartyPolicyMismatch => 11
  | OverallResultFalse => 12
  | RimForbidden => 101
  | RimInternalError => 102
  | RimConnectionError => 103
  | RimNotFound => 104
  | RimInvalidSignature => 105
  | RimInvalidSchema => 106
  | RimMeasurementNotFound => 107
  | RimMeasurementConflict => 108
  | NrasAttestationError => 700
  | NrasTokenInvalid => 701
  | NrasForbidden => 702
  | OcspInvalidResponse => 201
  | OcspServerError => 202
  | OcspInvalidRequest => 203
  | OcspStatusNotGood => 204
  | OcspForbidden => 205
  | PolicyEvaluationError => 301
  | SpdmParseError => 401
  | SpdmOpaqueDataParseError => 402
  | SpdmMeasurementRecordParseError => 403
  | SpdmRequestParseError => 404
  | SpdmFieldNotFound => 405
  | NvmlInitFailed => 500
  | NvmlError => 501
  | GpuArchitectureNotSupported => 502
  | GpuEvidenceInvalid => 503
  | GpuEvidenceNonceMismatch => 504
  | GpuEvidenceDriverRimVersionMismatch => 505
  | GpuEvidenceVbiosRimVersionMismatch => 506
  | GpuEvidenceFwidMismatch => 507
  | GpuEvidenceInvalidSignature => 508
  | GpuModeNotSupported => 509
  | GpuFwNotSupported => 510
  | CertFwidNotFound => 800
  | CertNotFound => 801
  | CertChainVerificationFailure => 802
  | JsonSerializationError => 13
  | LibXml2Error => 10
  | NscqInitFailed => 600
  | NscqError => 601
  | CorelibInitFailed => 607
  | CorelibError => 608
  | SwitchArchitectureNotSupported => 602
  | SwitchEvidenceNonceMismatch => 603
  | SwitchEvidenceVbiosRimVersionMismatch => 604
  | SwitchEvidenceFwidMismatch => 605
  | SwitchEvidenceInvalidSignature => 606
  | CacheObjectNotFound => 14
  end.

(** [ErrorValues]: the enumerators in declaration order. *)
Definition ErrorValues : list Error :=
  [Ok;
   Unknown;
   InternalError;
   NotInitialized;
   BadArgument;
   AllocFailed;
   FeatureNotEnabled;
   XmlInitFailed;
   RelyingPartyPolicyMismatch;
   OverallResultFalse;
   RimForbidden;
   RimInternalError;
   RimConnectionError;
   RimNotFound;
   RimInvalidSignature;
   RimInvalidSchema;
   RimMeasurementNotFound;
   RimMeasurementConflict;
   NrasAttestationError;
   NrasTokenInvalid;
   NrasForbidden;
   OcspInvalidResponse;
   OcspServerError;
   OcspInvalidRequest;
   OcspStatusNotGood;
   OcspForbidden;
   PolicyEvaluationError;
   SpdmParseError;
   SpdmOpaqueDataParseError;
   SpdmMeasurementRecordParseError;
   SpdmRequestParseError;
   SpdmFieldNotFound;
   NvmlInitFailed;
   NvmlError;
   GpuArchitectureNotSupported;
   GpuEvidenceInvalid;
   GpuEvidenceNonceMismatch;
   GpuEvidenceDriverRimVersionMismatch;
   GpuEvidenceVbiosRimVersionMismatch;
   GpuEvidenceFwidMismatch;
   GpuEvidenceInvalidSignature;
   GpuModeNotSupported;
   GpuFwNotSupported;
   CertFwidNotFound;
   CertNotFound;
   CertChainVerificationFailure;
   JsonSerializationError;
   LibXml2Error;
   NscqInitFailed;
   NscqError;
   CorelibInitFailed;
   CorelibError;
   SwitchArchitectureNotSupported;
   SwitchEvidenceNonceMismatch;
   SwitchEvidenceVbiosRimVersionMismatch;
   SwitchEvidenceFwidMismatch;
   SwitchEvidenceInvalidSignature;
   CacheObjectNotFound].

(** [to_string(Error)]. *)
Definition error_to_string (e : Error) : string :=
  match e with
  | Ok => "Ok"
  | Unknown => "Unknown"
  | InternalError => "Internal Error"
  | NotInitialized => "Not initialized"
  | BadArgument => "Bad Argument"
  | AllocFailed => "Allocation Failed"
  | FeatureNotEnabled => "Feature is not enabled"
  | XmlInitFailed => "XML Initialization Failed"
  | RelyingPartyPolicyMismatch => "Relying Party Policy Mismatch"
  | OverallResultFalse => "Overall Attestation Result is False"
  | RimForbidden => "RIM Forbidden"
  | RimInternalError => "RIM Internal Error"
  | RimConnectionError => "RIM Connection Error"
  | RimNotFound => "RIM Not Found"
  | RimInvalidSignature => "RIM Invalid Signature"
  | RimInvalidSchema => "RIM Invalid Schema"
  | RimMeasurementNotFound => "RIM Measurement Not Found"
  | RimMeasurementConflict => "RIM Measurement Conflict"
  | NrasAttestationError => "NRAS Attestation Error"
  | NrasTokenInvalid => "NRAS Token Invalid"
  | NrasForbidden => "NRAS Forbidden"
  | OcspInvalidResponse => "OCSP Invalid Response"
  | OcspServerError => "OCSP Server Error"
  | OcspInvalidRequest => "OCSP Invalid Request"
  | OcspStatusNotGood => "OCSP Status Not Good"
  | OcspForbidden => "OCSP Forbidden"
  | PolicyEvaluationError => "Policy Evaluation Error"
  | SpdmParseError => "SPDM Parse Error"
  | SpdmOpaqueDataParseError => "SPDM Opaque Data Parse Error"
  | SpdmMeasurementRecordParseError => "SPDM Measurement Record Parse Error"
  | SpdmRequestParseError => "SPDM Request Parse Error"
  | SpdmFieldNotFound => "SPDM Field Not Found"
  | NvmlInitFailed => "NVML Initialization Failed"
  | NvmlError => "NVML Error"
  | GpuArchitectureNotSupported => "GPU Architecture Not Supported"
  | GpuEvidenceInvalid => "GPU Evidence Invalid"
  | GpuEvidenceNonceMismatch => "GPU Evidence Nonce Mismatch"
  | GpuEvidenceDriverRimVersionMismatch => "GPU Evidence Driver RIM Version Mismatch"
  | GpuEvidenceVbiosRimVersionMismatch => "GPU Evidence VBios RIM Version Mismatch"
  | GpuEvidenceFwidMismatch => "GPU Evidence FWID Mismatch"
  | GpuEvidenceInvalidSignature => "GPU Evidence Invalid Signature"
  | GpuModeNotSupported => "GPU is neither in CC nor in PPCIe mode"
  | GpuFwNotSupported => "GPU FW version exceeds SDK support"
  | CertFwidNotFound => "Certificate FWID Not Found"
  | CertNotFound => "Certificate Not Found"
  | CertChainVerificationFailure => "Certificate Chain Verification Failure"
  | JsonSerializationError => "JSON Serialization Error"
  | LibXml2Error => "LibXml2 Error"
  | NscqInitFailed => "NSCQ Initialization Failed"
  | NscqError => "NSCQ Error"
  | CorelibInitFailed => "Corelib Initialization Failed"
  | CorelibError => "Corelib Error"
  | SwitchArchitectureNotSupported => "NVSwitch Architecture Not Supported"
  | SwitchEvidenceNonceMismatch => "NVSwitch Evidence Nonce Mismatch"
  | SwitchEvidenceVbiosRimVersionMismatch => "NVSwitch Evidence VBIOS RIM Version Mismatch"
  | SwitchEvidenceFwidMismatch => "NVSwitch Evidence FWID Mismatch"
  | SwitchEvidenceInvalidSignature => "NVSwitch Evidence Invalid Signature"
  | CacheObjectNotFound => "Cache Object Not Found"
  end.

(** The public C API's reading of a return code: the enumerator it denotes. *)
Definition error_of_code (z : Z) : option Error :=
  list_find (fun e => error_code e = z) ErrorValues ≫= fun p => Some p.2.

(** P: the C return codes identify the error: decoding the code of any
    enumerator gives the enumerator back, so no two errors share a code and
    only [Ok] is 0. *)
Theorem error_code_roundtrip e :
  error_of_code (error_code e) = Some e /\ (error_code e = 0 <-> e = Ok).
Proof. by destruct e. Qed.
