(* ===== verification/Utils.v ===== *)
(** * Utils: the byte, string and nonce helpers

    include/nv_attestation/utils.h and include/nv_attestation/spdm/utils.h:
    bounds-checked reads of byte vectors with their [size_t] arithmetic at 64
    bits, little-endian integers of a given width, hexadecimal text, strings
    cut at a NUL, paths, environment defaults and nonces.  [getenv] and
    OpenSSL's [RAND_bytes] are parameters. *)

From S2P Require Import Prelude Errors.

(** ** Bounds-checked reads *)

(** [can_read_buffer]: the sum is computed in [size_t]. *)
Definition can_read_buffer (buffer : list Z) (start_offset bytes_to_read : Z) : bool :=
  negb (zlen buffer <? u64 (start_offset + bytes_to_read)).

(** The loop of [read_little_endian<T>] for an unsigned [T] of [w] bits:
    [static_cast<T>(b) << (i * 8)] is computed at the promoted width (at least
    32 bits), where a shift by the width or more is undefined. *)
Fixpoint read_little_endian_loop (w : Z) (buffer : list Z) (offset : Z)
    (n : nat) (i out_value : Z) : res Z :=
  match n with
  | O => Ret out_value
  | S n =>
      let* b := vget buffer (u64 (offset + i)) in
      if i * 8 <? Z.max 32 w then
        read_little_endian_loop w buffer offset n (i + 1)
          (wrap w (Z.lor out_value (Z.shiftl (wrap w b) (i * 8))))
      else UB
  end.

Definition read_little_endian (w : Z) (buffer : list Z) (offset num_bytes : Z) : res (option Z) :=
  if zlen buffer <? u64 (offset + num_bytes) then Ret None
  else
    let* v := read_little_endian_loop w buffer offset (Z.to_nat num_bytes) 0 0 in
    Ret (Some v).

(** The iterator range [begin + offset, begin + offset + length): undefined
    unless it lies inside the vector. *)
Definition viter (source : list Z) (offset length : Z) : res (list Z) :=
  if (0 <=? offset) && (0 <=? length) && (offset + length <=? zlen source)
  then Ret (slice source offset length) else UB.

(** [checked_assign]: [None] is [false], [Some v] is [true] with the target
    assigned to [v]. *)
Definition checked_assign (source : list Z) (u_offset u_length : Z) : res (option (list Z)) :=
  if negb (can_read_buffer source u_offset u_length) then Ret None
  else
    let offset := s64 u_offset in
    if offset <? 0 then Ret None
    else
      let length := s64 u_length in
      if length <? 0 then Ret None
      else let* v := viter source offset length in Ret (Some v).

(** [checked_copy_n<N>]: overwrites the first [u_length] elements of the array
    [target] of [N] elements. *)
Definition checked_copy_n (target source : list Z) (u_offset u_length : Z) : res (option (list Z)) :=
  if zlen target <? u_length then Ret None
  else if negb (can_read_buffer source u_offset u_length) then Ret None
  else
    let offset := s64 u_offset in
    if offset <? 0 then Ret None
    else
      let length := s64 u_length in
      if length <? 0 then Ret None
      else
        let* v := viter source offset length in
        Ret (Some (v ++ drop (Z.to_nat length) target)).

(** ** Hexadecimal text *)

Definition hex_digit (d : Z) : Ascii.ascii := byte_ascii (if d <? 10 then 48 + d else 87 + d).

(** [to_hex_string(uint8_t)]. *)
Definition to_hex_string_byte (byte : Z) : string :=
  String (hex_digit (byte / 16)) (String (hex_digit (byte mod 16)) "").

(** [to_hex_string(std::vector<uint8_t>)], and the [std::array] overload. *)
Definition to_hex_string (data : list Z) : string :=
  foldr (fun byte s => to_hex_string_byte byte +:+ s) "" data.

(** [to_hex_string(uint16_t)]. *)
Definition to_hex_string_u16 (value : Z) : string :=
  to_hex_string_byte (value / 256) +:+ to_hex_string_byte (value mod 256).

(** [strtol(s, nullptr, 16)] of the C library: leading white space, a sign, an
    optional 0x prefix, then digits up to the first other character. *)
Definition hex_value (c : Ascii.ascii) : option Z :=
  let b := ascii_byte c in
  if (48 <=? b) && (b <=? 57) then Some (b - 48)
  else if (65 <=? b) && (b <=? 70) then Some (b - 55)
  else if (97 <=? b) && (b <=? 102) then Some (b - 87)
  else None.

Definition is_space (c : Ascii.ascii) : bool :=
  let b := ascii_byte c in (b =? 32) || ((9 <=? b) && (b <=? 13)).

Fixpoint strtol16_digits (s : string) (acc : Z) : Z :=
  match s with
  | "" => acc
  | String c s => match hex_value c with Some v => strtol16_digits s (acc * 16 + v) | None => acc end
  end.

Definition strtol16_prefix (s : string) : Z :=
  match s with
  | String a (String b (String c s')) =>
      if (ascii_byte a =? 48) && ((ascii_byte b =? 120) || (ascii_byte b =? 88))
         && bool_decide (is_Some (hex_value c))
      then strtol16_digits (String c s') 0 else strtol16_digits s 0
  | _ => strtol16_digits s 0
  end.

Fixpoint strtol16 (s : string) : Z :=
  match s with
  | "" => 0
  | String c s' =>
      if is_space c then strtol16 s'
      else if ascii_byte c =? 45 then - strtol16_prefix s'
      else if ascii_byte c =? 43 then strtol16_prefix s'
      else strtol16_prefix s
  end.

(** [hex_string_to_bytes]: two characters at a time, a last odd one alone. *)
Fixpoint hex_string_to_bytes (hex : string) : list Z :=
  match hex with
  | "" => []
  | String a "" => [u8 (strtol16 (String a ""))]
  | String a (String b rest) => u8 (strtol16 (String a (String b ""))) :: hex_string_to_bytes rest
  end.

(** [toupper] of the C locale, and [std::transform] with it. *)
Definition toupper_ascii (c : Ascii.ascii) : Ascii.ascii :=
  let b := ascii_byte c in
  if (97 <=? b) && (b <=? 122) then byte_ascii (b - 32) else c.

Fixpoint toupper (s : string) : string :=
  match s with
  | "" => ""
  | String c s => String (toupper_ascii c) (toupper s)
  end.

(** ** Strings, paths, environment *)

(** [remove_null_terminators]: cut at the first NUL. *)
Fixpoint remove_null_terminators (str : string) : string :=
  match str with
  | "" => ""
  | String c s => if ascii_byte c =? 0 then "" else String c (remove_null_terminators s)
  end.

(** [s.substr(pos, n)]: throws when [pos > s.size()]. *)
Definition substr (s : string) (pos n : Z) : res string :=
  if Z.of_nat (String.length s) <? pos then Throw out_of_range
  else Ret (String.substring (Z.to_nat pos) (Z.to_nat n) s).

Definition str_back (s : string) : option Ascii.ascii := last (String.list_ascii_of_string s).
Definition str_front (s : string) : option Ascii.ascii := head (String.list_ascii_of_string s).

(** What a [const char*] shows of a text. *)
Fixpoint c_str (s : string) : string :=
  match s with
  | "" => ""
  | String c s => if ascii_byte c =? 0 then "" else String c (c_str s)
  end.

Definition path_join (path1 path2 : string) : string :=
  if String.eqb path1 "" then path2
  else if String.eqb path2 "" then path1
  else
    let separator := byte_ascii 47 in
    let needs_separator :=
      bool_decide (str_back path1 <> Some separator) && bool_decide (str_front path2 <> Some separator) in
    (path1 +:+ (if needs_separator then String separator "" else "")) +:+ path2.

Definition get_env_or_default (getenv : string -> option string) (name default_value : string) : string :=
  match getenv name with
  | None => default_value
  | Some env_val => if String.eqb env_val "" then default_value else env_val
  end.

(** ** Nonces *)

Definition MIN_VALID_NONCE_LEN : Z := 32.

(** [generate_nonce] on a vector of [num_bytes] bytes; [RAND_bytes n] is the
    buffer OpenSSL fills, or [None] when it reports failure. *)
Definition generate_nonce (RAND_bytes : Z -> option (list Z)) (num_bytes : Z) : res (list Z) :=
  if num_bytes <? MIN_VALID_NONCE_LEN then Err BadArgument
  else match RAND_bytes num_bytes with
       | Some buffer => Ret buffer
       | None => Err InternalError
       end.

(** [compare_shared_ptr]. *)
Definition compare_shared_ptr {A : Type} `{EqDecision A} (lhs rhs : option A) : bool :=
  match lhs, rhs with
  | None, None => true
  | Some a, Some b => bool_decide (a = b)
  | _, _ => false
  end.

Definition all_bytes : list Z := seqZ 0 256.

(** ** Lemmas: bounds-checked reads *)

Lemma can_read_buffer_spec buffer off n :
  0 <= off -> 0 <= n -> off + n < 2 ^ 64 ->
  can_read_buffer buffer off n = (off + n <=? zlen buffer).
Proof. intros. unfold can_read_buffer. rewrite wrap_small by lia. lia. Qed.

Lemma can_read_buffer_app pre mid post off n :
  off = zlen pre -> n = zlen mid -> vec_ok (pre ++ mid ++ post) ->
  can_read_buffer (pre ++ mid ++ post) off n = true.
Proof.
  intros -> -> Hok. unfold vec_ok in Hok. rewrite can_read_buffer_spec; [|auto with nv..|].
  all: rewrite !zlen_app in *; pose proof (zlen_nonneg post); lia.
Qed.

Lemma lor_shiftl_add a b k :
  0 <= k -> 0 <= a < 2 ^ k -> Z.lor a (Z.shiftl b k) = a + b * 2 ^ k.
Proof.
  intros Hk Ha. rewrite <- Z.shiftl_mul_pow2 by done. symmetry. apply Z.add_nocarry_lor.
  apply Z.bits_inj'. intros i Hi. rewrite Z.land_spec, Z.bits_0.
  destruct (Z.lt_ge_cases i k).
  - rewrite Z.shiftl_spec_low by lia. apply andb_false_r.
  - rewrite <- (Z.mod_small a (2 ^ k)), Z.mod_pow2_bits_high by lia. done.
Qed.

Lemma pow256 n : 0 <= n -> 256 ^ n = 2 ^ (n * 8).
Proof. intros. change 256 with (2 ^ 8). rewrite <- Z.pow_mul_r by lia. f_equal. lia. Qed.

Lemma le_val_snoc l b : le_val (l ++ [b]) = le_val l + b * 256 ^ zlen l.
Proof.
  induction l as [|x l IH]; cbn [le_val app]; [rewrite (zlen_nil (A:=Z)); lia|].
  rewrite IH, zlen_cons, Z.pow_add_r, Z.pow_1_r by (pose proof (zlen_nonneg l); lia). lia.
Qed.

(** One byte more of a slice. *)
Lemma slice_succ (l : list Z) off i :
  0 <= off -> 0 <= i -> off + i < zlen l ->
  exists b, vget (E:=Error) l (off + i) = Ret b /\ slice l off (i + 1) = slice l off i ++ [b].
Proof.
  intros. destruct (vget_in_range (E:=Error) l (off + i)) as (b & Hb & _); [lia|].
  exists b. split; [done|]. rewrite slice_split by lia. f_equal. by eapply slice_vget.
Qed.

Lemma slice_bytes (l : list Z) off n : Forall is_byte l -> Forall is_byte (slice l off n).
Proof. intros. unfold slice. by apply Forall_take, Forall_drop. Qed.

Lemma read_little_endian_loop_spec w buffer off n i :
  Forall is_byte buffer -> vec_ok buffer -> 8 <= w -> 0 <= off -> 0 <= i ->
  (i + Z.of_nat n) * 8 <= w -> off + i + Z.of_nat n <= zlen buffer ->
  read_little_endian_loop w buffer off n i (le_val (slice buffer off i)) =
  Ret (le_val (slice buffer off (i + Z.of_nat n))).
Proof.
  intros Hb Hok Hw Ho. unfold vec_ok in Hok.
  revert i. induction n as [|n IH]; intros i Hi Hw' Hlen; cbn [read_little_endian_loop].
  { by rewrite Z.add_0_r. }
  rewrite wrap_small by lia.
  destruct (slice_succ buffer off i) as (b & -> & Hs); [lia..|]. cbn [obind].
  assert (Hbb : is_byte b).
  { pose proof (slice_bytes buffer off (i + 1) Hb) as F. rewrite Hs, Forall_app in F.
    destruct F as [_ F]. by inversion F. }
  unfold is_byte in Hbb.
  pose proof (le_val_range _ (slice_bytes buffer off i Hb)) as Hr.
  rewrite slice_len in Hr by lia.
  pose proof (le_val_range _ (slice_bytes buffer off (i + 1) Hb)) as Hr'.
  rewrite slice_len in Hr' by lia.
  rewrite Hs, le_val_snoc, slice_len in Hr' by lia.
  assert (2 ^ 8 <= 2 ^ w) by (apply Z.pow_le_mono_r; lia).
  assert (256 ^ (i + 1) <= 2 ^ w) by (rewrite pow256 by lia; apply Z.pow_le_mono_r; lia).
  replace (i * 8 <? Z.max 32 w) with true by lia.
  rewrite (wrap_small w b) by lia.
  rewrite lor_shiftl_add by (rewrite <- ?pow256 by lia; lia).
  rewrite <- pow256, wrap_small by lia.
  replace (le_val (slice buffer off i) + b * 256 ^ i) with (le_val (slice buffer off (i + 1)))
    by (rewrite Hs, le_val_snoc, slice_len by lia; done).
  rewrite IH by lia. do 3 f_equal. lia.
Qed.

(** In range and with a target type that is wide enough, the read returns the
    little-endian value of the bytes. *)
Lemma read_little_endian_spec w buffer off n :
  Forall is_byte buffer -> vec_ok buffer -> 8 <= w -> 0 <= off -> 0 <= n -> n * 8 <= w ->
  off + n <= zlen buffer ->
  read_little_endian w buffer off n = Ret (Some (le_val (slice buffer off n))).
Proof.
  intros Hb Hok Hw Ho Hn Hw' Hlen. unfold read_little_endian, vec_ok in *.
  rewrite wrap_small by lia. replace (zlen buffer <? off + n) with false by lia.
  pose proof (read_little_endian_loop_spec w buffer off (Z.to_nat n) 0) as L.
  rewrite Z2Nat.id, slice_0, Z.add_0_l in L by done.
  cbn [le_val] in L. rewrite L by (done || lia). done.
Qed.

Lemma read_little_endian_false w buffer off n :
  0 <= off -> 0 <= n -> off + n < 2 ^ 64 -> zlen buffer < off + n ->
  read_little_endian w buffer off n = Ret None.
Proof.
  intros. unfold read_little_endian. rewrite wrap_small by lia.
  by replace (zlen buffer <? off + n) with true by lia.
Qed.

(** The bytes of a field are the encoding of its value. *)
Lemma le_enc_slice (d : list Z) off n :
  Forall is_byte d -> 0 <= off -> off + Z.of_nat n <= zlen d ->
  le_enc n (le_val (slice d off (Z.of_nat n))) = slice d off (Z.of_nat n).
Proof.
  intros Hb Ho Hl. rewrite <- (le_enc_val (slice d off (Z.of_nat n))) at 2 by by apply slice_bytes.
  f_equal. pose proof (slice_len d off (Z.of_nat n)) as L. unfold zlen in *. lia.
Qed.

(** Out of range means [false] for every 64-bit offset and length, whether or
    not [can_read_buffer]'s addition wraps. *)
Lemma checked_assign_spec source off len :
  vec_ok source -> 0 <= off < 2 ^ 64 -> 0 <= len < 2 ^ 64 ->
  checked_assign source off len =
  Ret (if off + len <=? zlen source then Some (slice source off len) else None).
Proof.
  intros Hok Ho Hl. unfold checked_assign, vec_ok in *.
  destruct (Z.lt_ge_cases off (2 ^ 63)) as [Ho'|Ho']; [destruct (Z.lt_ge_cases len (2 ^ 63)) as [Hl'|Hl']|].
  - rewrite can_read_buffer_spec by lia. rewrite !swrap_small by lia.
    replace (off <? 0) with false by lia. replace (len <? 0) with false by lia.
    destruct (off + len <=? zlen source) eqn:E; cbn; [|done].
    unfold viter. by replace ((0 <=? off) && (0 <=? len) && (off + len <=? zlen source)) with true by lia.
  - pose proof (swrap_big 64 len). replace (off + len <=? zlen source) with false by lia.
    destruct (can_read_buffer source off len); cbn; [|done].
    rewrite (swrap_small 64 off) by lia. replace (off <? 0) with false by lia.
    by replace (s64 len <? 0) with true by lia.
  - pose proof (swrap_big 64 off). replace (off + len <=? zlen source) with false by lia.
    destruct (can_read_buffer source off len); cbn; [|done].
    by replace (s64 off <? 0) with true by lia.
Qed.

Lemma checked_copy_n_spec target source off len :
  vec_ok source -> 0 <= off < 2 ^ 64 -> 0 <= len < 2 ^ 63 -> len <= zlen target ->
  checked_copy_n target source off len =
  Ret (if off + len <=? zlen source
       then Some (slice source off len ++ drop (Z.to_nat len) target) else None).
Proof.
  intros Hok Ho Hl Ht. pose proof (checked_assign_spec source off len Hok Ho ltac:(lia)) as C.
  unfold checked_assign, checked_copy_n in *.
  replace (zlen target <? len) with false by lia.
  destruct (can_read_buffer source off len); cbn [negb] in *;
    [|by destruct (off + len <=? zlen source)].
  destruct (s64 off <? 0); [by destruct (off + len <=? zlen source)|].
  rewrite (swrap_small 64 len) in * by lia.
  destruct (len <? 0); [by destruct (off + len <=? zlen source)|].
  destruct (viter source (s64 off) len); cbn in *; try discriminate.
  by destruct (off + len <=? zlen source); simplify_eq.
Qed.

(** Filling a whole array of [N] elements. *)
Lemma checked_copy_n_full target source off N :
  vec_ok source -> 0 <= off < 2 ^ 64 -> N = zlen target -> N < 2 ^ 63 ->
  checked_copy_n target source off N =
  Ret (if off + N <=? zlen source then Some (slice source off N) else None).
Proof.
  intros Hok Ho -> HN. rewrite checked_copy_n_spec by (auto with nv; lia || auto with nv).
  rewrite drop_ge by (unfold zlen; lia). by rewrite app_nil_r.
Qed.

(** Reads at an offset where the contents of the buffer are known. *)
Lemma vget_at (d : list Z) off pre post x :
  d = pre ++ x :: post -> off = zlen pre -> vget (E:=Error) d off = Ret x.
Proof. intros -> ->. by apply vget_app. Qed.

Lemma read_le_at w (d : list Z) off n pre v post :
  d = pre ++ le_enc n v ++ post -> off = zlen pre ->
  Forall is_byte d -> vec_ok d -> 8 <= w -> Z.of_nat n * 8 <= w -> 0 <= v < 256 ^ Z.of_nat n ->
  read_little_endian w d off (Z.of_nat n) = Ret (Some v).
Proof.
  intros Ed -> Hd Hok Hw Hn Hv.
  assert (zlen d = zlen pre + Z.of_nat n + zlen post) by (rewrite Ed; autorewrite with nv_len; lia).
  pose proof (zlen_nonneg pre). pose proof (zlen_nonneg post).
  rewrite read_little_endian_spec by (done || lia).
  rewrite Ed, slice_app, le_val_enc, Z.mod_small by (rewrite ?le_enc_zlen; done). done.
Qed.

Lemma read_u16_at (d : list Z) off pre v post :
  d = pre ++ le_enc 2 v ++ post -> off = zlen pre -> Forall is_byte d -> vec_ok d ->
  0 <= v < 65536 -> read_little_endian 16 d off 2 = Ret (Some v).
Proof. intros. by eapply (read_le_at 16 d off 2). Qed.

Lemma read_u24_at (d : list Z) off pre v post :
  d = pre ++ le_enc 3 v ++ post -> off = zlen pre -> Forall is_byte d -> vec_ok d ->
  0 <= v < 2 ^ 24 -> read_little_endian 32 d off 3 = Ret (Some v).
Proof. intros. by eapply (read_le_at 32 d off 3). Qed.

Lemma checked_assign_at (d : list Z) off len pre mid post :
  d = pre ++ mid ++ post -> off = zlen pre -> len = zlen mid -> vec_ok d ->
  checked_assign d off len = Ret (Some mid).
Proof.
  intros Ed -> -> Hok.
  assert (zlen d = zlen pre + zlen mid + zlen post) by (rewrite Ed; autorewrite with nv_len; lia).
  pose proof (zlen_nonneg pre). pose proof (zlen_nonneg mid). pose proof (zlen_nonneg post).
  unfold vec_ok in *.
  rewrite checked_assign_spec by (unfold vec_ok; lia).
  replace (zlen pre + zlen mid <=? zlen d) with true by lia. by rewrite Ed, slice_app.
Qed.

(** The cases of a read at an offset inside the buffer: it fails, or the bytes
    read are the encoding of the result. *)
Lemma read_byte_cases (d : list Z) off :
  vec_ok d -> 0 <= off <= zlen d ->
  can_read_buffer d off 1 = false \/
  can_read_buffer d off 1 = true /\
  exists b, vget (E:=Error) d off = Ret b /\ slice d off 1 = [b] /\ off + 1 <= zlen d.
Proof.
  intros Hok Ho. unfold vec_ok in Hok. rewrite can_read_buffer_spec by lia.
  destruct (off + 1 <=? zlen d) eqn:E; [right|by left]. split; [done|].
  destruct (vget_in_range (E:=Error) d off) as (b & Hb & _); [lia|].
  exists b. split_and!; [done|by eapply slice_vget|lia].
Qed.

Lemma read_le_cases w (d : list Z) off n :
  Forall is_byte d -> vec_ok d -> 0 <= off <= zlen d -> 8 <= w -> Z.of_nat n * 8 <= w ->
  Z.of_nat n < 2 ^ 63 ->
  zlen d < off + Z.of_nat n /\ read_little_endian w d off (Z.of_nat n) = Ret None \/
  off + Z.of_nat n <= zlen d /\
  exists v, read_little_endian w d off (Z.of_nat n) = Ret (Some v) /\
    0 <= v < 256 ^ Z.of_nat n /\ slice d off (Z.of_nat n) = le_enc n v.
Proof.
  intros Hd Hok Ho Hw Hn Hn'. unfold vec_ok in *.
  destruct (Z.lt_ge_cases (zlen d) (off + Z.of_nat n)); [left|right].
  - split; [done|]. by apply read_little_endian_false; lia.
  - split; [done|]. eexists. split; [apply read_little_endian_spec; unfold vec_ok; (done || lia)|].
    split; [|symmetry; apply le_enc_slice; (done || lia)].
    pose proof (le_val_range _ (slice_bytes d off (Z.of_nat n) Hd)) as R.
    by rewrite slice_len in R by lia.
Qed.

Lemma read_u16_cases (d : list Z) off :
  Forall is_byte d -> vec_ok d -> 0 <= off <= zlen d ->
  zlen d < off + 2 /\ read_little_endian 16 d off 2 = Ret None \/
  off + 2 <= zlen d /\ exists v, read_little_endian 16 d off 2 = Ret (Some v) /\
    0 <= v < 65536 /\ slice d off 2 = le_enc 2 v.
Proof. intros. by apply (read_le_cases 16 d off 2). Qed.

Lemma read_u24_cases (d : list Z) off :
  Forall is_byte d -> vec_ok d -> 0 <= off <= zlen d ->
  zlen d < off + 3 /\ read_little_endian 32 d off 3 = Ret None \/
  off + 3 <= zlen d /\ exists v, read_little_endian 32 d off 3 = Ret (Some v) /\
    0 <= v < 2 ^ 24 /\ slice d off 3 = le_enc 3 v.
Proof. intros. by apply (read_le_cases 32 d off 3). Qed.

Lemma checked_assign_cases (d : list Z) off len :
  vec_ok d -> 0 <= off <= zlen d -> 0 <= len < 2 ^ 63 ->
  zlen d < off + len /\ checked_assign d off len = Ret None \/
  off + len <= zlen d /\ checked_assign d off len = Ret (Some (slice d off len)) /\
    zlen (slice d off len) = len.
Proof.
  intros Hok Ho Hl. rewrite checked_assign_spec by (unfold vec_ok in *; done || lia).
  destruct (off + len <=? zlen d) eqn:E; [right|left]; split_and!; try (done || lia).
  apply slice_len; lia.
Qed.

(** ** Lemmas: hexadecimal text *)

Lemma in_all_bytes b : is_byte b -> b ∈ all_bytes.
Proof. unfold is_byte. intros. apply elem_of_seqZ. lia. Qed.

Lemma hex_byte_roundtrip b : is_byte b -> u8 (strtol16 (to_hex_string_byte b)) = b.
Proof.
  intros Hb. assert (F : Forall (fun b => u8 (strtol16 (to_hex_string_byte b)) = b) all_bytes).
  { apply (bool_decide_unpack _). by vm_compute. }
  rewrite Forall_forall in F. by apply F, in_all_bytes.
Qed.

Lemma hex_roundtrip_lemma data :
  Forall is_byte data -> hex_string_to_bytes (to_hex_string data) = data.
Proof.
  induction 1 as [|b l Hb Hl IH]; [done|].
  change (hex_string_to_bytes (to_hex_string (b :: l)))
    with (u8 (strtol16 (to_hex_string_byte b)) :: hex_string_to_bytes (to_hex_string l)).
  by rewrite IH, hex_byte_roundtrip.
Qed.

Lemma to_hex_string_length data : String.length (to_hex_string data) = (2 * length data)%nat.
Proof.
  induction data as [|b l IH]; [done|].
  change (String.length (to_hex_string (b :: l)))
    with (S (S (String.length (to_hex_string l)))). cbn [length]. lia.
Qed.

Lemma to_hex_string_inj d1 d2 :
  Forall is_byte d1 -> Forall is_byte d2 -> to_hex_string d1 = to_hex_string d2 -> d1 = d2.
Proof.
  intros H1 H2 E. apply (f_equal hex_string_to_bytes) in E.
  by rewrite !hex_roundtrip_lemma in E.
Qed.

Lemma remove_null_terminators_prefix s :
  exists t, s = remove_null_terminators s +:+ t /\
    (t = "" \/ exists c t', t = String c t' /\ ascii_byte c = 0).
Proof.
  induction s as [|c s (t & Hs & Ht)]; cbn; [exists ""; eauto|].
  destruct (ascii_byte c =? 0) eqn:E.
  - exists (String c s). split; [done|]. right. exists c, s. split; [done|lia].
  - exists t. split; [|done].
    change (String c s = String c (remove_null_terminators s +:+ t)). by f_equal.
Qed.

Lemma hex_byte_roundtrip_upper b :
  is_byte b -> u8 (strtol16 (toupper (to_hex_string_byte b))) = b.
Proof.
  intros Hb.
  assert (F : Forall (fun b => u8 (strtol16 (toupper (to_hex_string_byte b))) = b) all_bytes).
  { apply (bool_decide_unpack _). by vm_compute. }
  rewrite Forall_forall in F. by apply F, in_all_bytes.
Qed.

Lemma compare_shared_ptr_spec {A : Type} `{EqDecision A} (lhs rhs : option A) :
  compare_shared_ptr lhs rhs = true <-> lhs = rhs.
Proof.
  destruct lhs, rhs; cbn; rewrite ?bool_decide_eq_true; split; congruence.
Qed.

(** ** Properties *)

(** P: [checked_assign] is memory safe for every 64-bit offset and length, also
    where the addition of its bounds test wraps around: it copies exactly the
    requested bytes when they lie inside the source, and otherwise returns
    false; it never forms an iterator outside the vector. *)
Theorem checked_assign_safe source u_offset u_length :
  vec_ok source -> 0 <= u_offset < 2 ^ 64 -> 0 <= u_length < 2 ^ 64 ->
  checked_assign source u_offset u_length =
  Ret (if u_offset + u_length <=? zlen source
       then Some (slice source u_offset u_length) else None).
Proof. apply checked_assign_spec. Qed.

Lemma checked_assign_safe_witness :
  checked_assign [1; 2; 3; 4] (2 ^ 64 - 1) 3 = Ret None /\
  can_read_buffer [1; 2; 3; 4] (2 ^ 64 - 1) 3 = true.
Proof.
  split; [|done].
  rewrite (checked_assign_safe [1; 2; 3; 4] (2 ^ 64 - 1) 3) by (done || lia). done.
Defined.

(** P: reading a little-endian field returns the number that was written there:
    at any position of a buffer, for every field of at most the target type's
    width. *)
Theorem read_little_endian_roundtrip w pre post n z :
  Forall is_byte pre -> Forall is_byte post -> vec_ok (pre ++ le_enc n z ++ post) ->
  8 <= w -> Z.of_nat n * 8 <= w -> 0 <= z < 256 ^ Z.of_nat n ->
  read_little_endian w (pre ++ le_enc n z ++ post) (zlen pre) (Z.of_nat n) = Ret (Some z).
Proof.
  intros Hpre Hpost Hok Hw Hn Hz. rewrite read_little_endian_spec; [|auto with nv; try lia..].
  - rewrite slice_app, le_val_enc, Z.mod_small by (rewrite ?le_enc_zlen; done). done.
  - rewrite !Forall_app. auto with nv.
  - rewrite !zlen_app, le_enc_zlen. pose proof (zlen_nonneg post). lia.
Qed.

Lemma read_little_endian_roundtrip_witness :
  read_little_endian 32 ([7] ++ le_enc 3 66051 ++ [9]) (zlen [7]) 3 = Ret (Some 66051).
Proof.
  apply (read_little_endian_roundtrip 32 [7] [9] 3 66051); try done; try lia.
  all: repeat constructor; done.
Defined.

(** P: hexadecimal text determines the bytes: decoding the text of any byte
    vector, in the lower case the SDK prints or in the upper case it prints for
    PDIs, gives the vector back. *)
Theorem hex_roundtrip data :
  Forall is_byte data ->
  hex_string_to_bytes (to_hex_string data) = data /\
  hex_string_to_bytes (toupper (to_hex_string data)) = data.
Proof.
  intros Hd. split; [by apply hex_roundtrip_lemma|].
  induction Hd as [|b l Hb Hl IH]; [done|].
  change (hex_string_to_bytes (toupper (to_hex_string (b :: l))))
    with (u8 (strtol16 (toupper (to_hex_string_byte b)))
          :: hex_string_to_bytes (toupper (to_hex_string l))).
  by rewrite IH, hex_byte_roundtrip_upper.
Qed.

Lemma hex_roundtrip_witness :
  hex_string_to_bytes (to_hex_string [0; 171; 255]) = [0; 171; 255] /\
  hex_string_to_bytes (toupper (to_hex_string [0; 171; 255])) = [0; 171; 255].
Proof. apply (hex_roundtrip [0; 171; 255]). repeat constructor; done. Defined.
