(* ===== verification/Base64.v ===== *)
(** * Base64: base64 text through OpenSSL

    [decode_base64] and [encode_base64] of include/nv_attestation/utils.h.
    OpenSSL's block functions are parameters; what they write is compared with
    the buffers the code gives them. *)

From S2P Require Import Prelude Errors Utils.

(** [EVP_DecodeBlock] gives the bytes it wrote, or a negative count ([None]);
    [EVP_EncodeBlock] the characters it wrote before the final NUL, or a
    negative count.  [base64_documented] is what evp.h documents of them. *)
Class Base64Lib : Type := {
  EVP_DecodeBlock : string -> option (list Z);
  EVP_EncodeBlock : list Z -> option string;
}.

Module Base64.

Section base64.
Context `{B64 : Base64Lib}.

Definition count_padding (data : string) : Z :=
  let l := String.list_ascii_of_string data in
  let pad (c : option Ascii.ascii) : Z := if bool_decide (c = Some (byte_ascii 61)) then 1 else 0 in
  if (2 <=? length l)%nat then pad (l !! (length l - 1)%nat) + pad (l !! (length l - 2)%nat) else 0.

(** The length is an [int]: a longer text wraps, and a negative length is no
    vector's size.  A block longer than the buffer, or more padding than
    bytes, is undefined. *)
Definition decode_base64 (base64_data : string) : res (list Z) :=
  let len := s32 (Z.of_nat (String.length base64_data)) in
  if len <? 0 then Throw length_error
  else
    match EVP_DecodeBlock (String.substring 0 (Z.to_nat len) base64_data) with
    | None => Err InternalError
    | Some out =>
        if len <? zlen out then UB
        else
          let outlen := zlen out - count_padding base64_data in
          if outlen <? 0 then UB else Ret (take (Z.to_nat outlen) out)
    end.

Definition decode_base64_string (base64_data : string) : res string :=
  let* decoded_data := decode_base64 base64_data in Ret (string_of_bytes decoded_data).

(** The buffer has twice the data's length; [EVP_EncodeBlock] writes the text
    and a NUL into it. *)
Definition encode_base64 (data : list Z) : res string :=
  let len := s32 (zlen data) in
  if 2 ^ 31 <=? len * 2 then UB
  else if len * 2 <? 0 then Throw length_error
  else
    match EVP_EncodeBlock (take (Z.to_nat len) data) with
    | None => Err InternalError
    | Some text => if len * 2 <? Z.of_nat (String.length text) + 1 then UB else Ret text
    end.

(** What the OpenSSL manual says: the text has four characters for every three
    bytes or part of them, and decoding it gives the bytes followed by a zero
    for every padding character. *)
Definition base64_documented : Prop :=
  (forall d text, EVP_EncodeBlock d = Some text ->
     Z.of_nat (String.length text) = 4 * ((zlen d + 2) / 3)) /\
  (forall d, EVP_EncodeBlock d <> None) /\
  (forall d text, EVP_EncodeBlock d = Some text -> Forall is_byte d ->
     EVP_DecodeBlock text = Some (d ++ repeat 0 (Z.to_nat (count_padding text))) /\
     zlen d + count_padding text <= Z.of_nat (String.length text)).

(** ** Lemmas *)

Lemma s32_small z : 0 <= z < 2 ^ 31 -> s32 z = z.
Proof. intros. by apply swrap_small. Qed.

(** The lengths for which the buffer is too short. *)
Definition short_buffer (len : Z) : bool :=
  (len =? 0) || (len =? 1) || (len =? 2) || (len =? 4).

Lemma short_buffer_spec len :
  0 <= len -> (len * 2 <? 4 * ((len + 2) / 3) + 1) = short_buffer len.
Proof.
  intros Hl. unfold short_buffer.
  destruct (Z.leb_spec len 8) as [Hs|Hs].
  - assert (len = 0 \/ len = 1 \/ len = 2 \/ len = 3 \/ len = 4 \/ len = 5 \/ len = 6 \/ len = 7 \/ len = 8)
      as E by lia.
    by repeat destruct E as [->|E]; subst.
  - replace (len =? 0) with false by lia. replace (len =? 1) with false by lia.
    replace (len =? 2) with false by lia. replace (len =? 4) with false by lia. cbn.
    apply Z.ltb_ge. pose proof (Z.mul_div_le (len + 2) 3). lia.
Qed.

Lemma encode_cases data :
  base64_documented -> zlen data < 2 ^ 30 ->
  exists text, EVP_EncodeBlock data = Some text /\
    encode_base64 data = if short_buffer (zlen data) then UB else Ret text.
Proof.
  intros (Hlen & Hok & _) Hb. pose proof (zlen_nonneg data) as H0.
  destruct (EVP_EncodeBlock data) as [text|] eqn:E; [|by apply Hok in E].
  exists text. split; [done|]. unfold encode_base64. rewrite s32_small by lia.
  rewrite (proj2 (Z.leb_gt _ _)), (proj2 (Z.ltb_ge _ _)) by lia.
  rewrite take_ge by (unfold zlen; lia). rewrite E, (Hlen _ _ E), <- short_buffer_spec by done. done.
Qed.

(** What is encoded decodes to the data. *)
Lemma encode_decode data text :
  base64_documented -> Forall is_byte data -> zlen data < 2 ^ 29 ->
  encode_base64 data = Ret text -> decode_base64 text = Ret data.
Proof.
  intros Hdoc Hbytes Hb. destruct (encode_cases data Hdoc ltac:(lia)) as (text' & Et & ->).
  destruct (short_buffer _); [done|]. intros [= ->].
  pose proof (zlen_nonneg data) as H0. destruct Hdoc as (Hlen & _ & Hdec).
  destruct (Hdec _ _ Et Hbytes) as [Hd Hp]. pose proof (Hlen _ _ Et) as Hl.
  assert (0 <= count_padding text) as Hc by (unfold count_padding; repeat case_bool_decide; case_match; lia).
  pose proof (Z.mul_div_le (zlen data + 2) 3).
  unfold decode_base64. rewrite s32_small by lia. rewrite (proj2 (Z.ltb_ge _ _)) by lia.
  rewrite Nat2Z.id, substring_all, Hd, zlen_app.
  assert (zlen (repeat 0 (Z.to_nat (count_padding text))) = count_padding text) as ->
    by (unfold zlen; rewrite repeat_length; lia).
  rewrite (proj2 (Z.ltb_ge _ _)) by lia.
  replace (zlen data + count_padding text - count_padding text) with (zlen data) by lia.
  rewrite (proj2 (Z.ltb_ge _ _)) by lia. unfold zlen. rewrite Nat2Z.id.
  by rewrite take_app_length.
Qed.

(** ** Properties *)

(** P: encoding stays inside its buffer exactly when the data has not 0, 1, 2
    or 4 bytes: the buffer of twice the length cannot hold the text and the
    NUL of those.  Otherwise, decoding the text gives the data back. *)
Theorem base64_encode_safe data :
  base64_documented -> Forall is_byte data -> zlen data < 2 ^ 29 ->
  (encode_base64 data = UB <-> zlen data ∈ [0; 1; 2; 4]) /\
  (encode_base64 data <> UB ->
     exists text, encode_base64 data = Ret text /\ decode_base64 text = Ret data).
Proof.
  intros Hdoc Hbytes Hb. destruct (encode_cases data Hdoc ltac:(lia)) as (text & _ & E).
  pose proof (encode_decode data text Hdoc Hbytes Hb) as Hr. rewrite E in *. unfold short_buffer in *.
  destruct (_ || _) eqn:Es; rewrite !elem_of_cons, elem_of_nil; (split; [split|]); try done; try lia; eauto.
Qed.

End base64.

(** A small instance with the shape of base64: a full group of three bytes is
    two characters and two halves, and a last group of two or one byte ends in
    one or two padding characters. *)

Fixpoint toy_encode (d : list Z) : list Ascii.ascii :=
  match d with
  | a :: b :: c :: d =>
      byte_ascii a :: byte_ascii b :: byte_ascii (c / 16) :: byte_ascii (c mod 16) :: toy_encode d
  | [a; b] => [byte_ascii a; byte_ascii b; byte_ascii 0; byte_ascii 61]
  | [a] => [byte_ascii a; byte_ascii 0; byte_ascii 61; byte_ascii 61]
  | [] => []
  end.

Fixpoint toy_decode (l : list Ascii.ascii) : list Z :=
  match l with
  | x :: y :: z :: w :: l =>
      ascii_byte x :: ascii_byte y ::
      (if ascii_byte w =? 61 then 0 else 16 * ascii_byte z + ascii_byte w) :: toy_decode l
  | _ => []
  end.

Definition toy_base64 : Base64Lib := {|
  EVP_DecodeBlock := fun s => Some (toy_decode (String.list_ascii_of_string s));
  EVP_EncodeBlock := fun d => Some (String.string_of_list_ascii (toy_encode d));
|}.

(** Induction in steps of three. *)
Lemma triples_ind {A : Type} (P : list A -> Prop) :
  P [] -> (forall a, P [a]) -> (forall a b, P [a; b]) ->
  (forall a b c l, P l -> P (a :: b :: c :: l)) -> forall l, P l.
Proof.
  intros H0 H1 H2 H3. fix IH 1. intros [|a [|b [|c l]]]; [exact H0|apply H1|apply H2|]. apply H3, IH.
Qed.

Lemma count_padding_tail l l' :
  (2 <= length l')%nat ->
  count_padding (String.string_of_list_ascii (l ++ l')) = count_padding (String.string_of_list_ascii l').
Proof.
  intros Hl. unfold count_padding. rewrite !String.list_ascii_of_string_of_list_ascii, length_app.
  rewrite !(proj2 (Nat.leb_le _ _)), !lookup_app_r by lia.
  replace (length l + length l' - 1 - length l)%nat with (length l' - 1)%nat by lia.
  by replace (length l + length l' - 2 - length l)%nat with (length l' - 2)%nat by lia.
Qed.

Lemma toy_encode_length d : Z.of_nat (length (toy_encode d)) = 4 * ((zlen d + 2) / 3).
Proof.
  induction d as [| | |a b c d IH] using triples_ind; try done.
  cbn [toy_encode length]. rewrite !Nat2Z.inj_succ, IH, !zlen_cons.
  replace (1 + (1 + (1 + zlen d)) + 2) with (zlen d + 2 + 1 * 3) by lia.
  rewrite Z.div_add by lia. lia.
Qed.

Lemma toy_roundtrip d : Forall is_byte d ->
  let p := count_padding (String.string_of_list_ascii (toy_encode d)) in
  toy_decode (toy_encode d) = d ++ repeat 0 (Z.to_nat p) /\ zlen d + p <= Z.of_nat (length (toy_encode d)).
Proof.
  induction d as [|a|a b|a b c d IH] using triples_ind; intros Hd.
  - done.
  - inversion_clear Hd. cbn. by rewrite ascii_byte_ascii.
  - inversion_clear Hd as [|? ? ? Hd']. inversion_clear Hd'. cbn. by rewrite !ascii_byte_ascii.
  - apply Forall_cons in Hd as [Ha Hd]. apply Forall_cons in Hd as [Hb Hd].
    apply Forall_cons in Hd as [Hc Hd]. destruct (IH Hd) as [E1 E2]. clear IH.
    assert (is_byte (c / 16) /\ is_byte (c mod 16) /\ c mod 16 < 16 /\ 16 * (c / 16) + c mod 16 = c) as (? & ? & ? & Ec).
    { clear E1 E2 Hd. unfold is_byte in *. Z.to_euclidean_division_equations. lia. }
    cbn [toy_encode]. set (q := count_padding _). cbn [toy_decode app].
    rewrite !ascii_byte_ascii by done.
    destruct (Z.eqb_spec (c mod 16) 61) as [E|_]; [lia|]. rewrite Ec, E1.
    assert (q = count_padding (String.string_of_list_ascii (toy_encode d))) as ->.
    { subst q. destruct d as [|x [|y [|z d]]].
      - etrans; [apply (count_padding_tail [byte_ascii a; byte_ascii b] [byte_ascii (c / 16); byte_ascii (c mod 16)]); done|].
        unfold count_padding. cbn. assert (forall t, is_byte t -> t < 16 -> byte_ascii t <> byte_ascii 61) as Hne.
        { intros t Ht Hlt Et. apply (f_equal ascii_byte) in Et. rewrite !ascii_byte_ascii in Et; by try lia. }
        rewrite !bool_decide_false; [done|..]; intros [= E]; revert E; apply Hne; try done.
        unfold is_byte in *. apply Z.div_lt_upper_bound; lia.
      - apply (count_padding_tail [byte_ascii a; byte_ascii b; byte_ascii (c / 16); byte_ascii (c mod 16)]).
        cbn; lia.
      - apply (count_padding_tail [byte_ascii a; byte_ascii b; byte_ascii (c / 16); byte_ascii (c mod 16)]).
        cbn; lia.
      - apply (count_padding_tail [byte_ascii a; byte_ascii b; byte_ascii (c / 16); byte_ascii (c mod 16)]).
        cbn; lia. }
    split; [done|]. rewrite !zlen_cons. cbn [length]. lia.
Qed.

Lemma toy_base64_documented : base64_documented (B64:=toy_base64).
Proof.
  split_and!.
  - intros d text [= <-]. by rewrite string_of_list_length, toy_encode_length.
  - done.
  - intros d text [= <-] Hd. destruct (toy_roundtrip d Hd) as [E1 E2]. cbn [EVP_DecodeBlock toy_base64].
    rewrite String.list_ascii_of_string_of_list_ascii, E1. split; [done|].
    by rewrite string_of_list_length.
Qed.

Lemma base64_encode_safe_witness :
  encode_base64 (B64:=toy_base64) [1; 2; 3; 4] = UB /\
  exists text, encode_base64 (B64:=toy_base64) [1; 2; 3] = Ret text /\
    decode_base64 (B64:=toy_base64) text = Ret [1; 2; 3].
Proof.
  split.
  - destruct (base64_encode_safe (B64:=toy_base64) [1; 2; 3; 4] toy_base64_documented) as [H _];
      [by repeat constructor|done|]. apply H. cbn. set_solver.
  - destruct (base64_encode_safe (B64:=toy_base64) [1; 2; 3] toy_base64_documented) as [_ Hs];
      [by repeat constructor|done|]. by apply Hs.
Defined.

End Base64.
