(* ===== verification/TimeText.v ===== *)
(** * TimeText: the text of a time

    [format_time] of include/nv_attestation/utils.h: the date and the time of
    day, in UTC, of a number of seconds since 1970.  [gmtime_r] and [strftime]
    are the C library's, modelled for what is used of them: the Gregorian
    calendar, a year that an [int] must hold, and a buffer of 80 bytes. *)

From S2P Require Import Prelude Errors Utils.
From stdpp Require Import pretty.

Local Open Scope Z_scope.

Module TimeText.

(** ** The calendar *)

(** [struct tm], with the year and the month as they are printed. *)
Record tm : Type := mk_tm {
  tm_year : Z;
  tm_mon : Z;
  tm_mday : Z;
  tm_hour : Z;
  tm_min : Z;
  tm_sec : Z;
}.

Definition leap_year (y : Z) : bool := (y mod 4 =? 0) && (negb (y mod 100 =? 0) || (y mod 400 =? 0)).

Definition month_lengths (y : Z) : list Z :=
  [31; if leap_year y then 29 else 28; 31; 30; 31; 30; 31; 31; 30; 31; 30; 31].

(** The month and the day of a day of the year, from the months that are
    left. *)
Fixpoint month_of (lengths : list Z) (month day : Z) : Z * Z :=
  match lengths with
  | [] => (month, day)
  | n :: lengths => if day <? n then (month, day) else month_of lengths (month + 1) (day - n)
  end.

(** The year, and the day in it, of a day counted from the first of the year
    1: periods of 400, 100, 4 and 1 years, of which the last one of a period
    may be a day longer than the others. *)
Definition year_of (day : Z) : Z * Z :=
  let n400 := day / 146097 in let day := day mod 146097 in
  let n100 := Z.min 3 (day / 36524) in let day := day - 36524 * n100 in
  let n4 := day / 1461 in let day := day mod 1461 in
  let n1 := Z.min 3 (day / 365) in let day := day - 365 * n1 in
  (400 * n400 + 100 * n100 + 4 * n4 + n1 + 1, day).

(** The days from the first of the year 1 to the first of 1970. *)
Definition EPOCH : Z := 719162.

Definition INT_MAX : Z := 2 ^ 31 - 1.

(** A year that [tm_year], which counts from 1900, does not hold is an error
    (EOVERFLOW). *)
Definition gmtime_r (timestamp : Z) : option tm :=
  let days := timestamp / 86400 in let second := timestamp mod 86400 in
  let '(year, yday) := year_of (days + EPOCH) in
  let '(mon, mday) := month_of (month_lengths year) 1 yday in
  if (- INT_MAX - 1 <=? year - 1900) && (year - 1900 <=? INT_MAX)
  then Some (mk_tm year mon (mday + 1) (second / 3600) (second / 60 mod 60) (second mod 60)) else None.

(** ** The text *)

Definition two_digits (z : Z) : string :=
  let digit (n : Z) := String (byte_ascii (48 + n)) "" in digit (z / 10) +:+ digit (z mod 10).

(** [%Y-%m-%d %H:%M:%S UTC]. *)
Definition date_text (t : tm) : string :=
  pretty (tm_year t) +:+ "-" +:+ two_digits (tm_mon t) +:+ "-" +:+ two_digits (tm_mday t) +:+ " " +:+
  two_digits (tm_hour t) +:+ ":" +:+ two_digits (tm_min t) +:+ ":" +:+ two_digits (tm_sec t) +:+ " UTC".

(** [%Y-%m-%dT%H:%M:%SZ]. *)
Definition iso_text (t : tm) : string :=
  pretty (tm_year t) +:+ "-" +:+ two_digits (tm_mon t) +:+ "-" +:+ two_digits (tm_mday t) +:+ "T" +:+
  two_digits (tm_hour t) +:+ ":" +:+ two_digits (tm_min t) +:+ ":" +:+ two_digits (tm_sec t) +:+ "Z".

(** Nothing is written when the text does not fit with its null byte. *)
Definition strftime (max : Z) (text : string) : string :=
  if Z.of_nat (String.length text) <? max then text else "".

Definition format_time (timestamp : Z) : res string :=
  check* negb (timestamp <=? 0) else InternalError in
  match gmtime_r timestamp with
  | None => Err InternalError
  | Some tm_info =>
      let buffer := strftime 80 (date_text tm_info) in
      check* negb (bool_decide (buffer = "")) else InternalError in
      Ret buffer
  end.

(** ** Specification: counting days *)

Definition sum (l : list Z) : Z := foldr Z.add 0 l.

Definition year_length (y : Z) : Z := if leap_year y then 366 else 365.

(** The days before a year, from the year 1 on. *)
Definition days_before_year (y : Z) : Z := sum (year_length <$> seqZ 1 (y - 1)).

Definition valid_date (t : tm) : Prop :=
  1 <= tm_year t /\ 1 <= tm_mon t <= 12 /\
  (exists n, month_lengths (tm_year t) !! Z.to_nat (tm_mon t - 1) = Some n /\ 1 <= tm_mday t <= n) /\
  0 <= tm_hour t < 24 /\ 0 <= tm_min t < 60 /\ 0 <= tm_sec t < 60.

(** The seconds since 1970 that a date stands for. *)
Definition seconds_of (t : tm) : Z :=
  (days_before_year (tm_year t) - days_before_year 1970 +
   sum (take (Z.to_nat (tm_mon t - 1)) (month_lengths (tm_year t))) + (tm_mday t - 1)) * 86400 +
  tm_hour t * 3600 + tm_min t * 60 + tm_sec t.

#[local] Arguments gmtime_r : simpl never.
#[local] Arguments strftime : simpl never.

(** ** Lemmas *)

Lemma sum_app l k : sum (l ++ k) = sum l + sum k.
Proof. induction l as [|x l IH]; cbn; [done|]. unfold sum in *. lia. Qed.

Lemma days_before_next y : 1 <= y -> days_before_year (y + 1) = days_before_year y + year_length y.
Proof.
  intros Hy. unfold days_before_year. replace (y + 1 - 1) with (y - 1 + 1) by lia.
  rewrite seqZ_app by lia. rewrite fmap_app, sum_app. f_equal.
  replace (1 + (y - 1)) with y by lia. unfold seqZ. change (Z.to_nat 1) with 1%nat. cbn [seq fmap list_fmap Z.of_nat]. rewrite Z.add_0_l.
  cbn. lia.
Qed.

Lemma div_pred k y : 0 < k -> y / k - (y - 1) / k = if y mod k =? 0 then 1 else 0.
Proof. intros Hk. destruct (y mod k =? 0) eqn:E; Z.to_euclidean_division_equations; nia. Qed.

Lemma leap_year_count y :
  (if leap_year y then 1 else 0) = (y / 4 - (y - 1) / 4) - (y / 100 - (y - 1) / 100) + (y / 400 - (y - 1) / 400).
Proof.
  rewrite !div_pred by done. unfold leap_year.
  destruct (y mod 4 =? 0) eqn:E4, (y mod 100 =? 0) eqn:E100, (y mod 400 =? 0) eqn:E400; cbn [andb orb negb]; try done;
    exfalso; Z.to_euclidean_division_equations; lia.
Qed.

Lemma days_before_closed y : 1 <= y -> days_before_year y = 365 * (y - 1) + (y - 1) / 4 - (y - 1) / 100 + (y - 1) / 400.
Proof.
  intros Hy. rewrite <- (Z2Nat.id (y - 1)) by lia. replace y with (Z.of_nat (Z.to_nat (y - 1)) + 1) at 1 by lia.
  generalize (Z.to_nat (y - 1)). clear. intros n. induction n as [|n IH]; [done|].
  replace (Z.of_nat (S n) + 1) with (Z.of_nat n + 1 + 1) by lia. rewrite days_before_next, IH by lia.
  pose proof (leap_year_count (Z.of_nat n + 1)) as H. unfold year_length. rewrite Nat2Z.inj_succ.
  replace (Z.of_nat n + 1 - 1) with (Z.of_nat n) in H by lia. replace (Z.succ (Z.of_nat n)) with (Z.of_nat n + 1) by lia.
  destruct (leap_year (Z.of_nat n + 1)); lia.
Qed.

Lemma year_of_spec d :
  0 <= d ->
  let '(y, r) := year_of d in 1 <= y /\ d = days_before_year y + r /\ 0 <= r < year_length y.
Proof.
  intros Hd. unfold year_of.
  set (a := d / 146097). set (d1 := d mod 146097). set (b := Z.min 3 (d1 / 36524)).
  set (d2 := d1 - 36524 * b). set (c := d2 / 1461). set (d3 := d2 mod 1461).
  set (e := Z.min 3 (d3 / 365)). set (r := d3 - 365 * e).
  assert (Ha : d = 146097 * a + d1 /\ 0 <= d1 < 146097 /\ 0 <= a) by (subst a d1; Z.to_euclidean_division_equations; lia).
  assert (Hb : 0 <= b <= 3 /\ 0 <= d2 < 36525 /\ (b < 3 -> d2 < 36524)) by (subst b d2; Z.to_euclidean_division_equations; lia).
  assert (Hc : d2 = 1461 * c + d3 /\ 0 <= d3 < 1461 /\ 0 <= c <= 24) by (subst c d3; Z.to_euclidean_division_equations; lia).
  assert (He : 0 <= e <= 3 /\ 0 <= r < 366 /\ (e < 3 -> r < 365)) by (subst e r; Z.to_euclidean_division_equations; lia).
  assert (Hr : d3 = 365 * e + r) by (subst r; lia). assert (Hd2 : d1 = 36524 * b + d2) by (subst d2; lia).
  clearbody a d1 b d2 c d3 e r. split; [lia|].
  set (y := 400 * a + 100 * b + 4 * c + e + 1).
  assert ((y - 1) / 4 = 100 * a + 25 * b + c /\ (y - 1) / 100 = 4 * a + b /\ (y - 1) / 400 = a) as (H4 & H100 & H400)
    by (subst y; Z.to_euclidean_division_equations; lia).
  rewrite days_before_closed, H4, H100, H400 by lia. split; [lia|].
  pose proof (leap_year_count y) as Hl. rewrite H4, H100, H400 in Hl. unfold year_length.
  assert (y / 4 = 100 * a + 25 * b + c + (if e =? 3 then 1 else 0)) by (destruct (e =? 3) eqn:?; subst y; Z.to_euclidean_division_equations; lia).
  assert (Hx : y / 100 = 4 * a + b + (if (e =? 3) && (c =? 24) then 1 else 0)) by
    (destruct (e =? 3) eqn:?, (c =? 24) eqn:?; cbn [andb]; subst y; Z.to_euclidean_division_equations; lia).
  assert (y / 400 = a + (if (e =? 3) && (c =? 24) && (b =? 3) then 1 else 0)) by
    (destruct (e =? 3) eqn:?, (c =? 24) eqn:?, (b =? 3) eqn:?; cbn [andb]; subst y; Z.to_euclidean_division_equations; lia).
  destruct (leap_year y), (e =? 3) eqn:?, (c =? 24) eqn:?, (b =? 3) eqn:?; cbn [andb] in *; lia.
Qed.

(** Every month but February has its length in every year. *)
Lemma month_lengths_sum y : sum (month_lengths y) = year_length y.
Proof. unfold month_lengths, year_length. destruct (leap_year y); reflexivity. Qed.

Lemma month_of_spec l m d :
  0 <= d < sum l ->
  exists i n, month_of l m d = (m + Z.of_nat i, d - sum (take i l)) /\ l !! i = Some n /\ 0 <= d - sum (take i l) < n.
Proof.
  revert m d. induction l as [|n l IH]; intros m d Hd; cbn in *; [lia|].
  destruct (d <? n) eqn:E.
  - exists 0%nat, n. cbn. repeat split; [f_equal; lia|lia|lia].
  - destruct (IH (m + 1) (d - n)) as (i & k & Hm & Hi & Hr); [unfold sum in *; lia|].
    exists (S i), k. rewrite Hm. cbn. fold (sum (take i l)). repeat split; [f_equal; lia|done|lia|lia].
Qed.

Lemma days_before_mono y y' : 1 <= y < y' -> days_before_year y + year_length y <= days_before_year y'.
Proof.
  intros Hy. rewrite <- days_before_next, !days_before_closed by lia. Z.to_euclidean_division_equations; lia.
Qed.

Lemma sum_take_mono l i j n :
  (forall x, x ∈ l -> 0 <= x) -> (i < j)%nat -> l !! i = Some n -> sum (take i l) + n <= sum (take j l).
Proof.
  revert i j. induction l as [|x l IH]; intros [|i] [|j] Hl Hij Hi; cbn in *; try done; try lia; simplify_eq.
  - assert (H : forall k, 0 <= sum (take k l)); [|specialize (H j); unfold sum in *; lia].
    clear - Hl. assert (Hp : forall x, x ∈ l -> 0 <= x) by (intros; apply Hl; by right). clear Hl.
    induction l as [|x l IH]; intros [|k]; cbn; try done.
    pose proof (Hp x ltac:(left)). specialize (IH ltac:(intros; apply Hp; by right) k). unfold sum in *. lia.
  - specialize (IH i j ltac:(intros; apply Hl; by right) ltac:(lia) Hi). unfold sum in *. lia.
Qed.

Lemma month_lengths_nonneg y x : x ∈ month_lengths y -> 0 <= x.
Proof.
  revert x. apply Forall_forall. unfold month_lengths. destruct (leap_year y); repeat constructor; lia.
Qed.

Lemma sum_take_nonneg y i : 0 <= sum (take i (month_lengths y)).
Proof.
  destruct i as [|i]; [done|]. pose proof (sum_take_mono (month_lengths y) 0 (S i) 31 (month_lengths_nonneg y) ltac:(lia) eq_refl) as H.
  change (sum (take 0 (month_lengths y))) with 0 in H. lia.
Qed.

(** A date has its own seconds: the calendar counts no day twice. *)
Lemma seconds_of_inj d d' : valid_date d -> valid_date d' -> seconds_of d = seconds_of d' -> d = d'.
Proof.
  destruct d as [y m a h mi s], d' as [y' m' a' h' mi' s']. unfold valid_date, seconds_of. cbn [tm_year tm_mon tm_mday tm_hour tm_min tm_sec].
  intros (Hy & Hm & (n & Hn & Ha) & Hh & Hmi & Hs) (Hy' & Hm' & (n' & Hn' & Ha') & Hh' & Hmi' & Hs') E.
  pose proof (sum_take_mono _ (Z.to_nat (m - 1)) 12 _ (month_lengths_nonneg y) ltac:(lia) Hn) as Hy1.
  pose proof (sum_take_mono _ (Z.to_nat (m' - 1)) 12 _ (month_lengths_nonneg y') ltac:(lia) Hn') as Hy2.
  change (take 12 (month_lengths y)) with (month_lengths y) in Hy1. rewrite month_lengths_sum in Hy1.
  change (take 12 (month_lengths y')) with (month_lengths y') in Hy2. rewrite month_lengths_sum in Hy2.
  pose proof (sum_take_nonneg y (Z.to_nat (m - 1))). pose proof (sum_take_nonneg y' (Z.to_nat (m' - 1))).
  assert (y = y') as <-.
  { destruct (Z.lt_trichotomy y y') as [Hlt|[?|Hlt]]; [|done|].
    - pose proof (days_before_mono y y' ltac:(lia)). lia.
    - pose proof (days_before_mono y' y ltac:(lia)). lia. }
  assert (m = m') as <-.
  { destruct (Z.lt_trichotomy m m') as [Hlt|[?|Hlt]]; [|done|].
    - pose proof (sum_take_mono _ (Z.to_nat (m - 1)) (Z.to_nat (m' - 1)) _ (month_lengths_nonneg y) ltac:(lia) Hn). lia.
    - pose proof (sum_take_mono _ (Z.to_nat (m' - 1)) (Z.to_nat (m - 1)) _ (month_lengths_nonneg y) ltac:(lia) Hn'). lia. }
  f_equal; lia.
Qed.

Lemma days_before_1970 : days_before_year 1970 = EPOCH.
Proof. rewrite days_before_closed by lia. reflexivity. Qed.

Lemma gmtime_r_spec t :
  0 <= t ->
  exists d, valid_date d /\ seconds_of d = t /\
    gmtime_r t = if (- INT_MAX - 1 <=? tm_year d - 1900) && (tm_year d - 1900 <=? INT_MAX) then Some d else None.
Proof.
  intros Ht. unfold gmtime_r.
  assert (0 <= t / 86400) by (apply Z.div_pos; lia).
  pose proof (year_of_spec (t / 86400 + EPOCH) ltac:(unfold EPOCH; lia)) as Hy.
  destruct (year_of (t / 86400 + EPOCH)) as [y r]. destruct Hy as (Hy & Hd & Hr).
  rewrite <- month_lengths_sum in Hr. destruct (month_of_spec _ 1 _ Hr) as (i & n & -> & Hi & Hm).
  assert (i < 12)%nat by (apply lookup_lt_Some in Hi; exact Hi).
  eexists (mk_tm y _ _ _ _ _). cbn. split; [|split]; [..|reflexivity].
  - unfold valid_date. cbn. repeat split; try (Z.to_euclidean_division_equations; lia).
    exists n. replace (Z.to_nat (1 + Z.of_nat i - 1)) with i by lia. split; [done|lia].
  - unfold seconds_of. cbn. replace (Z.to_nat (1 + Z.of_nat i - 1)) with i by lia. rewrite days_before_1970.
    set (x := sum (take i (month_lengths y))) in *. clearbody x. Z.to_euclidean_division_equations; lia.
Qed.

Lemma pretty_N_go_length k x s :
  (x < 10 ^ N.of_nat k)%N -> (String.length (pretty_N_go x s) <= k + String.length s)%nat.
Proof.
  revert x s. induction k as [|k IH]; intros x s Hx.
  - change (10 ^ N.of_nat 0)%N with 1%N in Hx. assert (x = 0)%N as -> by lia. rewrite pretty_N_go_0. lia.
  - destruct (decide (x = 0)%N) as [->|Hx0]; [rewrite pretty_N_go_0; lia|].
    rewrite pretty_N_go_step by lia. rewrite IH; [cbn; lia|].
    rewrite Nat2N.inj_succ, N.pow_succ_r' in Hx. apply N.Div0.div_lt_upper_bound. lia.
Qed.

Lemma string_length_app s s' : String.length (s +:+ s') = (String.length s + String.length s')%nat.
Proof. induction s as [|c s IH]; [done|]. change (String c s +:+ s') with (String c (s +:+ s')). cbn. by rewrite IH. Qed.

Lemma two_digits_length z : String.length (two_digits z) = 2%nat.
Proof. reflexivity. Qed.

Lemma pretty_year_length k y : 1 <= y < 10 ^ Z.of_nat k -> (String.length (pretty y) <= k)%nat.
Proof.
  intros Hy. destruct y as [|p|p]; try lia. change (pretty (Zpos p)) with (pretty_N_go (Npos p) "").
  rewrite (pretty_N_go_length k); [cbn; lia|]. apply N2Z.inj_lt. rewrite N2Z.inj_pow, nat_N_Z. apply Hy.
Qed.

Lemma date_text_length d : 1 <= tm_year d < 10 ^ 10 -> (0 < String.length (date_text d) <= 30)%nat.
Proof.
  intros Hy. unfold date_text. rewrite !string_length_app, !two_digits_length. cbn [String.length].
  pose proof (pretty_year_length 10 (tm_year d) Hy). lia.
Qed.

Lemma iso_text_length d : 1 <= tm_year d < 10 ^ 4 -> (0 < String.length (iso_text d) <= 20)%nat.
Proof.
  intros Hy. unfold iso_text. rewrite !string_length_app, !two_digits_length. cbn [String.length].
  pose proof (pretty_year_length 4 (tm_year d) Hy). lia.
Qed.

(** The last second of the year 9999. *)
Definition LAST_SECOND : Z := 253402300799.

Lemma year_9999 d : valid_date d -> seconds_of d <= LAST_SECOND -> tm_year d < 10 ^ 4.
Proof.
  intros Hd Hs. destruct (Z.lt_ge_cases (tm_year d) 10000) as [|Hy]; [done|]. exfalso.
  destruct d as [y m a h mi s]. unfold valid_date, seconds_of, LAST_SECOND in *.
  cbn [tm_year tm_mon tm_mday tm_hour tm_min tm_sec] in *. destruct Hd as (Hy1 & Hm & (n & _ & Ha) & Hh & Hmi & Hse).
  pose proof (sum_take_nonneg y (Z.to_nat (m - 1))).
  assert (3652059 <= days_before_year y) as Hdy
    by (rewrite days_before_closed by lia; Z.to_euclidean_division_equations; lia).
  rewrite days_before_1970 in Hs. unfold EPOCH in Hs. lia.
Qed.

(** P: [format_time] writes the date a timestamp stands for: it succeeds exactly
    for a positive number of seconds that is the number of seconds of a date
    of the Gregorian calendar whose year fits [struct tm], and then with the
    text of that date (there is one), which the 80 bytes always hold. *)
Theorem format_time_iff t s :
  format_time t = Ret s <->
  0 < t /\ exists d, valid_date d /\ seconds_of d = t /\ tm_year d - 1900 <= INT_MAX /\ s = date_text d.
Proof.
  unfold format_time. destruct (Z.leb_spec t 0) as [Ht|Ht]; cbn [negb]; cbn.
  { split; [done|]. intros [? _]. lia. }
  destruct (gmtime_r_spec t ltac:(lia)) as (d & Hd & Hs & ->).
  assert (Hl : forall d, valid_date d -> tm_year d - 1900 <= INT_MAX -> strftime 80 (date_text d) = date_text d /\ date_text d <> "").
  { intros e He Hi. destruct (date_text_length e) as [H0 H1]; [destruct He; unfold INT_MAX in *; lia|].
    unfold strftime. rewrite (proj2 (Z.ltb_lt _ _)) by lia. split; [done|]. intros E. rewrite E in H0. cbn in H0. lia. }
  assert (H1 : 1 <= tm_year d) by apply Hd.
  rewrite (proj2 (Z.leb_le _ _)) by (unfold INT_MAX; lia). cbn [andb].
  destruct (Z.leb_spec (tm_year d - 1900) INT_MAX) as [Hi|Hi].
  - destruct (Hl d Hd Hi) as [-> Hne]. rewrite bool_decide_eq_false_2 by done. cbn. split.
    + intros [= <-]. eauto 10.
    + intros (_ & e & He & Hes & _ & ->). rewrite (seconds_of_inj d e) by (done || congruence). done.
  - cbn. split; [done|]. intros (_ & e & He & Hes & Hei & _).
    rewrite (seconds_of_inj d e) in Hi by (done || congruence). lia.
Qed.

Example format_time_leap_day : format_time 951827696 = Ret "2000-02-29 12:34:56 UTC".
Proof. vm_compute. reflexivity. Qed.

End TimeText.
