(* ===== verification/LogText.v ===== *)
(** * LogText: texts made for messages

    src/internal/debug.hpp: certificate chains, reports and certificate names for the
    log; [copy_string_to_buffer] of include/nv_attestation/utils.h; the names
    of the codes of NSCQ (src/switch/nscq_client.cpp) and of corelib
    (src/gpu/corelib_client.cpp).  OpenSSL's functions are parameters. *)

From S2P Require Import Prelude Errors Utils Base64.
From stdpp Require Import pretty.

Local Open Scope Z_scope.

Module LogText.

(** ** Searching in a string *)

Abbreviation chars := (list Ascii.ascii).

Fixpoint starts_with (needle l : chars) : bool :=
  match needle, l with
  | [], _ => true
  | c :: needle, d :: l => bool_decide (c = d) && starts_with needle l
  | _, [] => false
  end.

(** [l.find(needle)]: the first place where it starts. *)
Fixpoint find_from_start (needle l : chars) : option Z :=
  if starts_with needle l then Some 0
  else match l with [] => None | _ :: l => Z.succ <$> find_from_start needle l end.

(** [s.find(needle, start)]. *)
Definition find (needle s : chars) (start : Z) : option Z :=
  if Z.of_nat (length s) <? start then None else Z.add start <$> find_from_start needle (drop (Z.to_nat start) s).

(** ** Certificate chains *)

Definition begin_marker : chars := String.list_ascii_of_string "-----BEGIN CERTIFICATE-----".
Definition end_marker : chars := String.list_ascii_of_string "-----END CERTIFICATE-----".

Definition npos : Z := 2 ^ 64 - 1.

(** [s.substr(pos, count)]: the rest from [pos], at most [count] characters. *)
Definition substr (s : chars) (pos count : Z) : res chars :=
  if Z.of_nat (length s) <? pos then Throw out_of_range
  else Ret (take (Z.to_nat (count `min` (zlen s - pos))) (drop (Z.to_nat pos) s)).

Definition newline : Ascii.ascii := byte_ascii 10.
Definition carriage_return : Ascii.ascii := byte_ascii 13.

(** [erase(remove(...))] of both. *)
Definition one_line (content : chars) : chars :=
  filter (fun c => c <> carriage_return) (filter (fun c => c <> newline) content).

Definition cert_line (cert_num : nat) (content : chars) : string :=
  "  cert[" +:+ pretty cert_num +:+ "]: " +:+ String.string_of_list_ascii content.

(** The loop, for at most [fuel] rounds: [None] when they are not enough.  A
    difference of positions is of type [size_t]. *)
Fixpoint format_loop (fuel : nat) (s : chars) (start : Z) (cert_num : nat) (result : string) : res (option string) :=
  match fuel with
  | O => Ret None
  | S fuel =>
      match find begin_marker s start with
      | None => Ret (Some result)
      | Some begin_pos =>
          match find end_marker s begin_pos with
          | None => Ret (Some result)
          | Some end_pos =>
              let content_start := begin_pos + zlen begin_marker in
              let* content := substr s content_start (wrap 64 (end_pos - content_start)) in
              let result := if bool_decide (result = "") then result else result +:+ String newline "" in
              format_loop fuel s (end_pos + zlen end_marker) (S cert_num) (result +:+ cert_line cert_num (one_line content))
          end
      end
  end.

(** Every round starts after the one before it. *)
Definition format_cert_chain_for_log (pem_cert_chain : string) : res (option string) :=
  let s := String.list_ascii_of_string pem_cert_chain in format_loop (S (length s)) s 0 0 "".

(** ** Reports *)

Definition encode_base64_for_log `{Base64Lib} (data : list Z) : res string :=
  match data with
  | [] => Ret ""
  | _ => match Base64.encode_base64 data with Err _ => Ret "<base64 encoding failed>" | encoded => encoded end
  end.

(** ** Names of certificates *)

(** OpenSSL's functions: whether there is memory for a BIO, and
    X509_NAME_print_ex, its result and what it has written, for the subject
    and for the issuer. *)
Class NamePrinter (X509 : Type) : Type := {
  BIO_new : bool;
  print_subject : X509 -> Z * string;
  print_issuer : X509 -> Z * string;
}.

Section names.
Context {X509 : Type} `{NamePrinter X509}.

Definition get_cert_subject_issuer_str (cert : option X509) : string :=
  match cert with
  | None => "Subject: <null>, Issuer: <null>"
  | Some cert =>
      if negb BIO_new then "Subject: <BIO allocation failed>, Issuer: <BIO allocation failed>"
      else
        let '(printed, text) := print_subject cert in
        if printed =? 0 then "Subject: <error printing subject>"
        else
          let result := "Subject: " +:+ (if bool_decide (text = "") then "<error reading subject>" else text) in
          let result := result +:+ ", Issuer: " in
          let '(printed, text) := print_issuer cert in
          if printed =? 0 then "Issuer: <error printing issuer>"
          else result +:+ (if bool_decide (text = "") then "<error reading issuer>" else text)
  end.

End names.

(** ** Names of codes *)

(** nscq_rc_t has eight bits. *)
Definition nscq_rc_to_string (rc : Z) : string :=
  if rc =? 0 then "NSCQ_RC_SUCCESS"
  else if 0 <? rc then
    let desc := if rc =? 1 then "RDT init failure" else "Unknown" in
    "NSCQ_RC_WARNING: " +:+ desc +:+ " (Code " +:+ pretty rc +:+ ")"
  else
    let desc :=
      if rc =? -1 then "Not implemented" else if rc =? -2 then "Invalid UUID"
      else if rc =? -3 then "Resource not mountable" else if rc =? -4 then "Overflow"
      else if rc =? -5 then "Unexpected value" else if rc =? -6 then "Unsupported driver"
      else if rc =? -7 then "Driver error" else if rc =? -8 then "Timeout"
      else if rc =? -127 then "External error" else if rc =? -128 then "Unspecified" else "Unknown" in
    "NSCQ_RC_ERROR: " +:+ desc +:+ " (Code " +:+ pretty rc +:+ ")".

(** [get_error_string] of corelib_client.cpp. *)
Definition corelib_error_string (error : Z) : string :=
  if error =? 0 then "Success" else if error =? 1 then "Failed" else if error =? 2 then "Invalid argument"
  else if error =? 3 then "Buffer too small" else if error =? 4 then "Not found"
  else if error =? 5 then "Not supported" else if error =? 6 then "Out of memory" else "Unknown error".

(** ** Copying a string to a caller's buffer *)

(** [buffer] is what the caller really has, which may be less than
    [buffer_len] says.  The sum is of type [size_t]. *)
Definition copy_string_to_buffer (str : list Z) (buffer : list Z) (buffer_len : Z) : res (list Z) :=
  let size := zlen str in
  let size_null_term := wrap 64 (size + 1) in
  if buffer_len <? size_null_term then Err BadArgument
  else if zlen buffer <? size + 1 then UB
  else Ret (str ++ 0 :: drop (length str + 1) buffer).

(** ** Lemmas *)

Lemma starts_with_app needle l : starts_with needle (needle ++ l) = true.
Proof. induction needle as [|c needle IH]; cbn; [done|]. by rewrite bool_decide_eq_true_2. Qed.

Lemma starts_with_spec needle l : starts_with needle l = true -> exists rest, l = needle ++ rest.
Proof.
  revert l. induction needle as [|c needle IH]; intros l Hs; [by exists l|].
  destruct l as [|d l]; cbn in Hs; [done|]. apply andb_true_iff in Hs as [Hc Hs].
  apply bool_decide_eq_true in Hc as <-. destruct (IH l Hs) as [rest ->]. by exists rest.
Qed.

Lemma find_from_start_spec needle l i :
  find_from_start needle l = Some i ->
  exists pre rest, l = pre ++ needle ++ rest /\ i = zlen pre.
Proof.
  revert i. induction l as [|c l IH]; intros i; cbn [find_from_start].
  - destruct (starts_with needle []) eqn:E; [|done]. intros [= <-]. apply starts_with_spec in E as [rest E]. by exists [], rest.
  - destruct (starts_with needle (c :: l)) eqn:E.
    + intros [= <-]. apply starts_with_spec in E as [rest E]. by exists [], rest.
    + destruct (find_from_start needle l) as [j|]; [|done]. intros [= <-].
      destruct (IH j eq_refl) as (pre & rest & -> & ->). exists (c :: pre), rest. split; [done|].
      unfold zlen. cbn [length]. lia.
Qed.

(** A place that a search finds is inside the string, with room for the text. *)
Lemma find_bounds needle s start i :
  0 <= start -> find needle s start = Some i -> start <= i /\ i + zlen needle <= zlen s.
Proof.
  intros H0. unfold find. destruct (Z.ltb_spec (Z.of_nat (length s)) start) as [?|Hl]; [done|].
  destruct (find_from_start needle _) as [j|] eqn:E; [|done]. intros [= <-].
  apply find_from_start_spec in E as (pre & rest & E & ->). apply (f_equal length) in E.
  rewrite length_drop, !length_app in E. unfold zlen. lia.
Qed.

Lemma format_loop_total fuel s start cert_num result :
  0 <= start <= zlen s -> zlen s - start < Z.of_nat fuel ->
  exists text, format_loop fuel s start cert_num result = Ret (Some text).
Proof.
  revert start cert_num result. induction fuel as [|fuel IH]; intros start cert_num result H0 Hf; cbn [format_loop]; [lia|].
  destruct (find begin_marker s start) as [b|] eqn:Eb; [|by eexists].
  destruct (find end_marker s b) as [e|] eqn:Ee; [|by eexists].
  apply find_bounds in Eb as [Hb Hb']; [|lia]. apply find_bounds in Ee as [He He']; [|lia].
  unfold substr. change (zlen begin_marker) with 27 in *. change (zlen end_marker) with 25 in *.
  rewrite (proj2 (Z.ltb_ge _ _)) by (fold (zlen s); lia). cbn [obind].
  apply IH; lia.
Qed.

(** Skipping a part of the text where nothing starts. *)
Lemma find_skip needle p l :
  (forall i, (i < length p)%nat -> starts_with needle (drop i p ++ l) = false) ->
  find_from_start needle (p ++ l) = Z.add (zlen p) <$> find_from_start needle l.
Proof.
  induction p as [|c p IH]; intros Hp.
  - cbn. by destruct (find_from_start needle l).
  - assert (starts_with needle (c :: p ++ l) = false) as H0 by (apply (Hp 0%nat); cbn; lia).
    cbn [app find_from_start]. rewrite H0, IH.
    + destruct (find_from_start needle l) as [j|]; [|done]. cbn. f_equal. unfold zlen. cbn [length]. lia.
    + intros i Hi. apply (Hp (S i)). cbn. lia.
Qed.

Lemma find_here needle l : find_from_start needle (needle ++ l) = Some 0.
Proof. destruct (needle ++ l) eqn:E; cbn; rewrite <- E, starts_with_app; done. Qed.

Definition dash : Ascii.ascii := byte_ascii 45.

Lemma find_after_plain c needle p l :
  c ∉ p -> find_from_start (c :: needle) (p ++ (c :: needle) ++ l) = Some (zlen p).
Proof.
  intros Hp. rewrite find_skip, find_here; [cbn; f_equal; lia|]. intros i Hi.
  destruct (drop i p) as [|d q] eqn:E; [apply (f_equal length) in E; rewrite length_drop in E; cbn in E; lia|].
  cbn. rewrite bool_decide_eq_false_2; [done|]. intros <-. apply Hp. apply (list_elem_of_lookup_2 _ i).
  by rewrite <- (Nat.add_0_r i), <- lookup_drop, E.
Qed.

Lemma find_none_plain c needle p : c ∉ p -> find_from_start (c :: needle) p = None.
Proof.
  intros Hp. rewrite <- (app_nil_r p), find_skip; [done|]. intros i Hi. rewrite app_nil_r.
  destruct (drop i p) as [|d q] eqn:E; [done|]. cbn. rewrite bool_decide_eq_false_2; [done|]. intros <-. apply Hp.
  apply (list_elem_of_lookup_2 _ i). by rewrite <- (Nat.add_0_r i), <- lookup_drop, E.
Qed.

(** What is between the markers: anything without a dash that does not begin
    like the rest of the other marker. *)
Definition plain_body (body : chars) : Prop :=
  dash ∉ body /\ exists c b, body = c :: b /\ c <> byte_ascii 69.

Lemma find_end body l :
  plain_body body ->
  find_from_start end_marker (begin_marker ++ body ++ end_marker ++ l) = Some (zlen begin_marker + zlen body).
Proof.
  intros (Hd & c & b & Hb & HE). rewrite find_skip.
  - assert (find_from_start end_marker (body ++ end_marker ++ l) = Some (zlen body)) as -> by (by apply find_after_plain). done.
  - assert (c <> dash) as Hc by (intros ->; apply Hd; rewrite Hb; left).
    assert (bool_decide (byte_ascii 69 = c) = false) as He by (apply bool_decide_eq_false; congruence).
    assert (bool_decide (byte_ascii 45 = c) = false) as Hm by (apply bool_decide_eq_false; unfold dash in *; congruence).
    vm_compute byte_ascii in He. vm_compute byte_ascii in Hm.
    rewrite Hb. intros i Hi. change (length begin_marker) with 27%nat in Hi.
    do 27 (destruct i as [|i]; [cbn -[bool_decide]; rewrite ?He, ?Hm; reflexivity|]). lia.
Qed.

(** A chain: text, a certificate between its markers, text, a certificate, and
    so on, and text at the end. *)
Definition chain_text (blocks : list (chars * chars)) (tail : chars) : chars :=
  concat ((fun '(pre, body) => pre ++ begin_marker ++ body ++ end_marker) <$> blocks) ++ tail.

Definition block_ok (block : chars * chars) : Prop := dash ∉ block.1 /\ plain_body block.2.

Fixpoint lines_from (n : nat) (blocks : list (chars * chars)) : list string :=
  match blocks with
  | [] => []
  | (_, body) :: blocks => cert_line n (one_line body) :: lines_from (S n) blocks
  end.

(** The lines after those that there are. *)
Fixpoint add_lines (result : string) (lines : list string) : string :=
  match lines with
  | [] => result
  | line :: lines => add_lines ((if bool_decide (result = "") then result else result +:+ String newline "") +:+ line) lines
  end.

Lemma format_loop_chain fuel before blocks tail n result :
  Forall block_ok blocks -> dash ∉ tail -> zlen (before ++ chain_text blocks tail) < 2 ^ 63 ->
  zlen (chain_text blocks tail) < Z.of_nat fuel ->
  format_loop fuel (before ++ chain_text blocks tail) (zlen before) n result = Ret (Some (add_lines result (lines_from n blocks))).
Proof.
  revert before blocks n result. induction fuel as [|fuel IH]; intros before blocks n result Hb Ht Hv Hf.
  { pose proof (zlen_nonneg (chain_text blocks tail)). lia. }
  cbn [format_loop]. unfold find at 1. rewrite (proj2 (Z.ltb_ge _ _)) by (rewrite length_app; unfold zlen; lia).
  assert (drop (Z.to_nat (zlen before)) (before ++ chain_text blocks tail) = chain_text blocks tail) as ->
    by (unfold zlen; by rewrite Nat2Z.id, drop_app_length).
  destruct blocks as [|[pre body] blocks].
  { cbn [chain_text concat fmap list_fmap app lines_from add_lines].
    assert (find_from_start begin_marker tail = None) as -> by (by apply find_none_plain). done. }
  apply Forall_cons in Hb as [[Hp Hbody] Hb]. cbn [fst snd] in *.
  set (s := before ++ chain_text ((pre, body) :: blocks) tail) in *. set (rest := chain_text blocks tail).
  assert (s = (before ++ pre) ++ begin_marker ++ body ++ end_marker ++ rest) as Es
    by (unfold s, rest, chain_text; cbn [fmap list_fmap concat]; by rewrite <- !app_assoc).
  assert (chain_text ((pre, body) :: blocks) tail = pre ++ begin_marker ++ (body ++ end_marker ++ rest)) as Ec
    by (unfold rest, chain_text; cbn [fmap list_fmap concat]; by rewrite <- !app_assoc).
  rewrite Ec in *. assert (find_from_start begin_marker (pre ++ begin_marker ++ (body ++ end_marker ++ rest)) = Some (zlen pre)) as ->
    by (by apply find_after_plain).
  cbn [fmap option_fmap option_map]. unfold find. pose proof (zlen_nonneg before). pose proof (zlen_nonneg pre).
  assert (zlen s = zlen before + zlen pre + 27 + zlen body + 25 + zlen rest) as Hs
    by (rewrite Es, !zlen_app; change (zlen begin_marker) with 27; change (zlen end_marker) with 25; lia).
  pose proof (zlen_nonneg body). pose proof (zlen_nonneg rest).
  rewrite (proj2 (Z.ltb_ge _ _)) by (fold (zlen s); lia).
  replace (zlen before + zlen pre) with (zlen (before ++ pre)) by (by rewrite zlen_app).
  assert (drop (Z.to_nat (zlen (before ++ pre))) s = begin_marker ++ body ++ end_marker ++ rest) as ->
    by (rewrite Es; unfold zlen; by rewrite Nat2Z.id, drop_app_length).
  rewrite find_end by done. cbn [fmap option_fmap option_map]. unfold substr.
  rewrite zlen_app in *. change (zlen begin_marker) with 27 in *. change (zlen end_marker) with 25 in *.
  rewrite (proj2 (Z.ltb_ge _ _)) by (fold (zlen s); lia). cbn [obind].
  replace (wrap 64 _) with (zlen body) by (unfold wrap; rewrite Z.mod_small; lia).
  rewrite Z.min_l by lia.
  assert (take (Z.to_nat (zlen body)) (drop (Z.to_nat (zlen before + zlen pre + 27)) s) = body) as ->.
  { rewrite Es, app_assoc. replace (Z.to_nat (zlen before + zlen pre + 27)) with (length ((before ++ pre) ++ begin_marker)).
    - rewrite drop_app_length. unfold zlen. by rewrite Nat2Z.id, take_app_length.
    - rewrite !length_app. change (length begin_marker) with 27%nat. unfold zlen. lia. }
  assert (s = (before ++ pre ++ begin_marker ++ body ++ end_marker) ++ rest) as Es' by (rewrite Es; by rewrite <- !app_assoc).
  replace (zlen before + zlen pre + (27 + zlen body) + 25) with (zlen (before ++ pre ++ begin_marker ++ body ++ end_marker))
    by (rewrite !zlen_app; change (zlen begin_marker) with 27; change (zlen end_marker) with 25; lia).
  rewrite Es'. unfold rest. rewrite IH; [done|done|done| |].
  - fold rest. rewrite <- Es'. exact Hv.
  - unfold rest in *. rewrite !zlen_app in Hf. change (zlen begin_marker) with 27 in *. change (zlen end_marker) with 25 in *. lia.
Qed.

(** ** Properties *)

(** P: the loop that splits a chain ends on every text, within one round more than
    its length, and no position is outside the text; for a chain of
    certificates between their markers the log has a numbered line for each,
    in order, without its line ends. *)
Theorem format_cert_chain_spec pem_cert_chain :
  (exists text, format_cert_chain_for_log pem_cert_chain = Ret (Some text)) /\
  forall blocks tail,
    pem_cert_chain = String.string_of_list_ascii (chain_text blocks tail) ->
    Forall block_ok blocks -> dash ∉ tail -> zlen (chain_text blocks tail) < 2 ^ 63 ->
    format_cert_chain_for_log pem_cert_chain = Ret (Some (add_lines "" (lines_from 0 blocks))).
Proof.
  unfold format_cert_chain_for_log. split.
  - apply format_loop_total; unfold zlen; lia.
  - intros blocks tail -> Hb Ht Hv. rewrite String.list_ascii_of_string_of_list_ascii.
    apply (format_loop_chain _ []); try done. unfold zlen. lia.
Qed.

(** P: logging a report overruns the buffer of the base64 text when the report has one, two
    or four bytes, before the report is parsed; any other report is logged. *)
Theorem encode_base64_for_log_safe `{Base64Lib} (data : list Z) :
  Base64.base64_documented -> Forall is_byte data -> zlen data < 2 ^ 29 ->
  (encode_base64_for_log data = UB <-> zlen data ∈ [1; 2; 4]) /\
  (encode_base64_for_log data <> UB -> exists text, encode_base64_for_log data = Ret text).
Proof.
  intros Hd Hb Hl. unfold encode_base64_for_log. destruct data as [|x l].
  { split; [|by eexists]. split; [done|]. rewrite !elem_of_cons, elem_of_nil. change (zlen (@nil Z)) with 0. lia. }
  destruct (Base64.encode_cases (x :: l) Hd ltac:(lia)) as (text & _ & ->).
  assert (zlen (x :: l) <> 0) by (unfold zlen; cbn [length]; lia).
  unfold Base64.short_buffer. rewrite !elem_of_cons, elem_of_nil.
  destruct (_ || _) eqn:Es; (split; [split|]); try done; try lia; eauto.
Qed.

(** P: X509_NAME_print_ex answers -1 to an error and the number of characters
    otherwise (with XN_FLAG_ONELINE): then an error in printing a name is
    taken for success, and an empty name for an error. *)
Theorem name_check_inverted {X509 : Type} `{NamePrinter X509} (cert : X509) :
  BIO_new = true -> (print_issuer cert).1 <> 0 ->
  (print_subject cert = (-1, "") ->
     exists issuer, get_cert_subject_issuer_str (Some cert) = "Subject: <error reading subject>, Issuer: " +:+ issuer) /\
  (print_subject cert = (0, "") -> get_cert_subject_issuer_str (Some cert) = "Subject: <error printing subject>").
Proof.
  intros Hb Hi. unfold get_cert_subject_issuer_str. rewrite Hb. cbn [negb]. split; intros ->; cbn [Z.eqb]; [|done].
  destruct (print_issuer cert) as [p t]. cbn in Hi. rewrite (proj2 (Z.eqb_neq p 0)) by done. by eexists.
Qed.

(** P: a copy stays inside a buffer that is as long as the caller says, and is
    the string with its null byte; a string that does not fit is refused. *)
Theorem copy_string_to_buffer_spec str buffer :
  vec_ok str ->
  copy_string_to_buffer str buffer (zlen buffer) =
  if zlen str <? zlen buffer then Ret (str ++ 0 :: drop (length str + 1) buffer) else Err BadArgument.
Proof.
  unfold vec_ok. intros Hv. unfold copy_string_to_buffer. pose proof (zlen_nonneg str).
  replace (wrap 64 (zlen str + 1)) with (zlen str + 1) by (unfold wrap; rewrite Z.mod_small; lia).
  destruct (Z.ltb_spec (zlen str) (zlen buffer)).
  - by rewrite (proj2 (Z.ltb_ge (zlen buffer) (zlen str + 1))) by lia.
  - by rewrite (proj2 (Z.ltb_lt _ _)) by lia.
Qed.

Definition lf : string := String newline "".

Example log_two_certificates :
  format_cert_chain_for_log
    ("-----BEGIN CERTIFICATE-----" +:+ lf +:+ "QUJD" +:+ lf +:+ "REVG" +:+ lf +:+ "-----END CERTIFICATE-----" +:+ lf +:+
     "-----BEGIN CERTIFICATE-----" +:+ lf +:+ "R0hJ" +:+ lf +:+ "-----END CERTIFICATE-----" +:+ lf) =
  Ret (Some ("  cert[0]: QUJDREVG" +:+ lf +:+ "  cert[1]: R0hJ")).
Proof. vm_compute. reflexivity. Qed.

(** The end marker may share the dashes of the other: the length of what is
    between them then wraps, and the rest of the text is logged. *)
Example log_shared_dashes :
  format_cert_chain_for_log "-----BEGIN CERTIFICATE-----END CERTIFICATE-----" =
  Ret (Some "  cert[0]: END CERTIFICATE-----").
Proof. vm_compute. reflexivity. Qed.

End LogText.
