(* ===== verification/Uri.v ===== *)
(** * Uri: taking a URL apart with libcurl

    [parse_uri] of include/nv_attestation/utils.h.  The URL interface of
    libcurl is a parameter; the handle and the strings that it hands out live
    in a heap until [curl_url_cleanup] and [curl_free] take them back.  A
    pointer that is used or given back when libcurl no longer has it is
    undefined behaviour. *)

From S2P Require Import Prelude Errors Utils.

(** The parts and the flags that the SDK uses. *)
Inductive CURLUPart : Type := CURLUPART_SCHEME | CURLUPART_HOST | CURLUPART_PORT | CURLUPART_PATH.
Inductive curl_url_flag : Type := no_flags | CURLU_DEFAULT_PORT | CURLU_URLDECODE.

(** The URL interface of libcurl: a new handle unless there is no memory, a URL
    that a handle takes or not, and a part of it, as a code and a string that may be
    null. *)
Class CurlUrl : Type := {
  CURLU : Type;
  curl_url : option CURLU;
  curl_url_set : string -> CURLU -> Z * CURLU;
  curl_url_get : CURLUPart -> curl_url_flag -> CURLU -> Z * option string;
}.

(** As documented, a part that was got is a string, which ends with its null
    byte, and the pointer is null when there was an error. *)
Definition parts_documented `{CurlUrl} : Prop :=
  forall part flag h code s, curl_url_get part flag h = (code, s) ->
    match s with Some x => code = 0 /\ c_str x = x | None => code <> 0 end.

Module Uri.

Section curl.
Context `{C : CurlUrl}.

Definition CURLUE_OK : Z := 0.

(** The strings of the caller. *)
Record uri : Type := mk_uri {
  out_scheme : string;
  out_host : string;
  out_port : string;
  out_path : string;
}.

(** What libcurl has handed out and not got back, by address, and the caller's
    strings. *)
Record heap : Type := mk_heap {
  handles : gmap nat CURLU;
  strings : gmap nat string;
  next : nat;
  out : uri;
}.

Abbreviation curl := (sm heap Error).

(** ** libcurl's functions on the heap *)

Definition new_url : curl (option nat) := fun st =>
  match curl_url with
  | None => (Ret None, st)
  | Some h => (Ret (Some (next st)), mk_heap (<[next st := h]> (handles st)) (strings st) (S (next st)) (out st))
  end.

Definition set_url (handle : nat) (url : string) : curl Z := fun st =>
  match handles st !! handle with
  | None => (UB, st)
  | Some h => let '(code, h) := curl_url_set (c_str url) h in
      (Ret code, mk_heap (<[handle := h]> (handles st)) (strings st) (next st) (out st))
  end.

(** The code, and the pointer that is null unless there is a string. *)
Definition get_url (handle : nat) (part : CURLUPart) (flag : curl_url_flag) : curl (Z * option nat) := fun st =>
  match handles st !! handle with
  | None => (UB, st)
  | Some h =>
      match curl_url_get part flag h with
      | (code, None) => (Ret (code, None), st)
      | (code, Some s) =>
          (Ret (code, Some (next st)), mk_heap (handles st) (<[next st := s]> (strings st)) (S (next st)) (out st))
      end
  end.

(** An assignment of a [char*] to a caller's string. *)
Definition assign (set : string -> uri -> uri) (p : option nat) : curl unit := fun st =>
  match p ≫= (fun p => strings st !! p) with
  | None => (UB, st)
  | Some s => (Ret tt, mk_heap (handles st) (strings st) (next st) (set (c_str s) (out st)))
  end.

Definition curl_free (p : option nat) : curl unit := fun st =>
  match p with
  | None => (Ret tt, st)
  | Some p =>
      match strings st !! p with
      | None => (UB, st)
      | Some _ => (Ret tt, mk_heap (handles st) (delete p (strings st)) (next st) (out st))
      end
  end.

Definition curl_url_cleanup (handle : nat) : curl unit := fun st =>
  match handles st !! handle with
  | None => (UB, st)
  | Some _ => (Ret tt, mk_heap (delete handle (handles st)) (strings st) (next st) (out st))
  end.

(** ** The function *)

Definition set_scheme (s : string) (u : uri) : uri := mk_uri s (out_host u) (out_port u) (out_path u).
Definition set_host (s : string) (u : uri) : uri := mk_uri (out_scheme u) s (out_port u) (out_path u).
Definition set_port (s : string) (u : uri) : uri := mk_uri (out_scheme u) (out_host u) s (out_path u).
Definition set_path (s : string) (u : uri) : uri := mk_uri (out_scheme u) (out_host u) (out_port u) s.

(** One part, and what follows it. *)
Definition parse_part (handle : nat) (part : CURLUPart) (flag : curl_url_flag) (set : string -> uri -> uri)
    (k : curl unit) : curl unit :=
  do* got := get_url handle part flag in
  let '(result, s) := got in
  if result =? CURLUE_OK
  then do* _ := assign set s in do* _ := curl_free s in k
  else do* _ := curl_url_cleanup handle in slift (Err BadArgument).

Definition parse_uri (url : string) : curl unit :=
  do* handle := new_url in
  match handle with
  | None => slift (Err InternalError)
  | Some handle =>
      do* result := set_url handle url in
      if negb (result =? CURLUE_OK) then do* _ := curl_url_cleanup handle in slift (Err BadArgument)
      else
        parse_part handle CURLUPART_SCHEME no_flags set_scheme (
        parse_part handle CURLUPART_HOST no_flags set_host (
        parse_part handle CURLUPART_PORT CURLU_DEFAULT_PORT set_port (
        parse_part handle CURLUPART_PATH CURLU_URLDECODE set_path (
        do* _ := curl_url_cleanup handle in sret tt))))
  end.

(** ** Specification *)

(** The parts of a URL that libcurl takes, in the order they are asked for,
    up to the first that it does not have. *)
Definition steps : list (CURLUPart * curl_url_flag * (string -> uri -> uri)) :=
  [(CURLUPART_SCHEME, no_flags, set_scheme); (CURLUPART_HOST, no_flags, set_host);
   (CURLUPART_PORT, CURLU_DEFAULT_PORT, set_port); (CURLUPART_PATH, CURLU_URLDECODE, set_path)].

Fixpoint read_parts (h : CURLU) (l : list (CURLUPart * curl_url_flag * (string -> uri -> uri))) (u : uri) :
    outcome Error unit * uri :=
  match l with
  | [] => (Ret tt, u)
  | (part, flag, set) :: l =>
      match curl_url_get part flag h with
      | (0, Some s) => read_parts h l (set s u)
      | _ => (Err BadArgument, u)
      end
  end.

Definition uri_of (url : string) (u : uri) : outcome Error unit * uri :=
  match curl_url with
  | None => (Err InternalError, u)
  | Some h => match curl_url_set (c_str url) h with (0, h) => read_parts h steps u | _ => (Err BadArgument, u) end
  end.

(** ** Lemmas *)

Definition fresh (st : heap) : Prop :=
  (forall p, is_Some (strings st !! p) -> (p < next st)%nat) /\ (forall e, is_Some (handles st !! e) -> (e < next st)%nat).

(** [m] is what reading [l] from the handle [h] computes, and gives the handle
    back. *)
Definition reads (e : nat) (h : CURLU) (l : list (CURLUPart * curl_url_flag * (string -> uri -> uri))) (m : curl unit) : Prop :=
  forall st, handles st !! e = Some h -> fresh st ->
    exists n, (next st <= n)%nat /\
      m st = ((read_parts h l (out st)).1, mk_heap (delete e (handles st)) (strings st) n (read_parts h l (out st)).2).

Lemma reads_done e h : reads e h [] (do* _ := curl_url_cleanup e in sret tt).
Proof. intros st He _. exists (next st). split; [done|]. unfold sbind, curl_url_cleanup. by rewrite He. Qed.

Lemma reads_part e h part flag set l k :
  parts_documented -> reads e h l k -> reads e h ((part, flag, set) :: l) (parse_part e part flag set k).
Proof.
  intros Hd Hk st He [Hs Hh]. unfold parse_part, get_url, sbind, CURLUE_OK. rewrite He. cbn [read_parts].
  destruct (curl_url_get part flag h) as [code s] eqn:E. pose proof (Hd _ _ _ _ _ E) as Hd'.
  destruct s as [s|].
  - destruct Hd' as [-> Hx]. unfold assign, curl_free. cbn [Z.eqb mbind option_bind strings handles next out].
    assert (strings st !! next st = None) as Hn by (apply eq_None_not_Some; intros ?%Hs; lia).
    rewrite !lookup_insert_eq. cbn [strings handles next out]. rewrite lookup_insert_eq, Hx, delete_insert_id by done.
    destruct (Hk (mk_heap (handles st) (strings st) (S (next st)) (set s (out st)))) as (n & Hle & ->); [done| |].
    + split; intros p Hp; cbn in *; [specialize (Hs p Hp)|specialize (Hh p Hp)]; lia.
    + exists n. cbn in *. split; [lia|done].
  - rewrite (proj2 (Z.eqb_neq code 0)) by done. unfold curl_url_cleanup. rewrite He. exists (next st).
    destruct code; done.
Qed.

(** P: with a documented libcurl, [parse_uri] gives a caller the scheme, the
    host, the port (with the default of its scheme) and the decoded path of a URL that
    libcurl takes and that has all four; otherwise it is BadArgument, or
    InternalError without a handle, and the caller's strings have the parts
    before the first that is missing.  On every path the handle and every
    string are given back exactly once, and nothing is used after that. *)
Theorem parse_uri_spec url st :
  parts_documented -> fresh st ->
  exists n, (next st <= n)%nat /\
    parse_uri url st = ((uri_of url (out st)).1, mk_heap (handles st) (strings st) n (uri_of url (out st)).2).
Proof.
  intros Hd [Hs Hh]. unfold parse_uri, new_url, set_url, uri_of, sbind, CURLUE_OK. destruct curl_url as [h|].
  2: { exists (next st). by destruct st. }
  cbn [handles strings next out]. rewrite lookup_insert_eq. destruct (curl_url_set (c_str url) h) as [code h'].
  rewrite insert_insert_eq.
  assert (handles st !! next st = None) as Hn by (apply eq_None_not_Some; intros ?%Hh; lia).
  destruct (Z.eqb_spec code 0) as [->|Hc]; cbn [negb].
  - set (k := parse_part _ _ _ _ _).
    assert (reads (next st) h' steps k) as Hk by (repeat (apply reads_part; [done|]); apply reads_done).
    destruct (Hk (mk_heap (<[next st := h']> (handles st)) (strings st) (S (next st)) (out st))) as (n & Hle & ->).
    + apply lookup_insert_eq.
    + split; cbn; intros p Hp; [specialize (Hs p Hp); lia|]. rewrite lookup_insert in Hp. case_decide; [lia|].
      specialize (Hh p Hp). lia.
    + cbn [handles strings next out] in *. exists n. split; [lia|]. by rewrite delete_insert_id.
  - unfold curl_url_cleanup. cbn [handles strings next out]. rewrite lookup_insert_eq, delete_insert_id by done.
    exists (S (next st)). split; [lia|]. destruct code; done.
Qed.

(** An answer is all four parts, in the caller's strings. *)
Lemma uri_of_ok url u u' :
  parts_documented -> uri_of url u = (Ret tt, u') ->
  exists h0 h, curl_url = Some h0 /\ curl_url_set (c_str url) h0 = (0, h) /\
    curl_url_get CURLUPART_SCHEME no_flags h = (0, Some (out_scheme u')) /\
    curl_url_get CURLUPART_HOST no_flags h = (0, Some (out_host u')) /\
    curl_url_get CURLUPART_PORT CURLU_DEFAULT_PORT h = (0, Some (out_port u')) /\
    curl_url_get CURLUPART_PATH CURLU_URLDECODE h = (0, Some (out_path u')).
Proof.
  intros Hd. unfold uri_of. destruct curl_url as [h0|]; [|done].
  destruct (curl_url_set _ h0) as [[] h] eqn:E; try done. cbn [read_parts steps].
  destruct (curl_url_get CURLUPART_SCHEME no_flags h) as [[] [s1|]] eqn:E1; try done.
  destruct (curl_url_get CURLUPART_HOST no_flags h) as [[] [s2|]] eqn:E2; try done.
  destruct (curl_url_get CURLUPART_PORT CURLU_DEFAULT_PORT h) as [[] [s3|]] eqn:E3; try done.
  destruct (curl_url_get CURLUPART_PATH CURLU_URLDECODE h) as [[] [s4|]] eqn:E4; try done.
  intros [= <-]. exists h0, h. cbn. by rewrite E.
Qed.

End curl.

(** *** A libcurl that knows one URL *)

Definition toy_url : CurlUrl := {|
  CURLU := bool;
  curl_url := Some false;
  curl_url_set url _ := if bool_decide (url = "https://example.com") then (0, true) else (3, false);
  curl_url_get part _ h :=
    if h then (0, Some match part with
      | CURLUPART_SCHEME => "https" | CURLUPART_HOST => "example.com" | CURLUPART_PORT => "443" | CURLUPART_PATH => "/" end)
    else (12, None);
|}.

Lemma toy_url_documented : parts_documented (H:=toy_url).
Proof. intros part flag [] code s [= <- <-]; [|done]. by destruct part. Qed.

Lemma parse_uri_spec_witness :
  exists n, (0 <= n)%nat /\
    parse_uri (C:=toy_url) "https://example.com" (mk_heap (C:=toy_url) ∅ ∅ 0 (mk_uri "" "" "" "")) =
    (Ret tt, mk_heap (C:=toy_url) ∅ ∅ n (mk_uri "https" "example.com" "443" "/")).
Proof.
  apply (parse_uri_spec (C:=toy_url) "https://example.com" (mk_heap (C:=toy_url) ∅ ∅ 0 (mk_uri "" "" "" "")) toy_url_documented).
  split; intros ? []; done.
Defined.

End Uri.
