(* ===== verification/SpdmReq.v ===== *)
(** * SpdmReq: the SPDM GET_MEASUREMENTS request

    src/spdm/spdm_req.cpp ([SpdmMeasurementRequestMessage11]) with the
    constants of include/nv_attestation/spdm/utils.h, the wire format as an
    encoder, and the equivalence of the parser with it. *)

From S2P Require Import Prelude Errors Utils.

Definition SPDM_VERSION_1_1 : Z := 0x11.
Definition SPDM_REQ_CODE_GET_MEASUREMENTS : Z := 0xe0.
Definition SPDM_RES_CODE_MEASUREMENTS : Z := 0x60.

Module SpdmReq.

Definition kSpdmVersionSize : Z := 1.
Definition kRequestResponseCodeSize : Z := 1.
Definition kParam1Size : Z := 1.
Definition kParam2Size : Z := 1.
Definition kNonceSize : Z := 32.
Definition kSlotIDParamSize : Z := 1.
Definition kRequestLength : Z := 37.

Record SpdmMeasurementRequestMessage11 : Type := mk_request {
  m_spdm_version : Z;
  m_request_response_code : Z;
  m_param1 : Z;
  m_param2 : Z;
  m_nonce : list Z;
  m_slot_id_param : Z;
}.

(** [SpdmMeasurementRequestMessage11::parse], and [create], which calls it. *)
Definition parse (request_data : list Z) : res SpdmMeasurementRequestMessage11 :=
  check* zlen request_data =? kRequestLength else SpdmRequestParseError in
  let offset := 0 in
  check* can_read_buffer request_data offset kSpdmVersionSize else SpdmRequestParseError in
  let* spdm_version := vget request_data offset in
  let offset := offset + kSpdmVersionSize in
  check* spdm_version =? SPDM_VERSION_1_1 else SpdmRequestParseError in
  check* can_read_buffer request_data offset kRequestResponseCodeSize else SpdmRequestParseError in
  let* request_response_code := vget request_data offset in
  let offset := offset + kRequestResponseCodeSize in
  check* request_response_code =? SPDM_REQ_CODE_GET_MEASUREMENTS else SpdmRequestParseError in
  check* can_read_buffer request_data offset kParam1Size else SpdmRequestParseError in
  let* param1 := vget request_data offset in
  let offset := offset + kParam1Size in
  check* can_read_buffer request_data offset kParam2Size else SpdmRequestParseError in
  let* param2 := vget request_data offset in
  let offset := offset + kParam2Size in
  let* nonce := or_err (checked_copy_n (replicate 32 0) request_data offset kNonceSize)
                  SpdmRequestParseError in
  let offset := offset + kNonceSize in
  check* can_read_buffer request_data offset kSlotIDParamSize else SpdmRequestParseError in
  let* slot_id_param := vget request_data offset in
  let offset := offset + kSlotIDParamSize in
  check* offset =? kRequestLength else SpdmRequestParseError in
  Ret (mk_request spdm_version request_response_code param1 param2 nonce slot_id_param).

(** The wire format of the request. *)
Definition encode (m : SpdmMeasurementRequestMessage11) : list Z :=
  [m_spdm_version m] ++ [m_request_response_code m] ++ [m_param1 m] ++ [m_param2 m]
  ++ m_nonce m ++ [m_slot_id_param m].

(** The messages the parser accepts. *)
Definition well_formed (m : SpdmMeasurementRequestMessage11) : Prop :=
  m_spdm_version m = SPDM_VERSION_1_1 /\
  m_request_response_code m = SPDM_REQ_CODE_GET_MEASUREMENTS /\
  zlen (m_nonce m) = kNonceSize.

Lemma req_parse_sound d m : parse d = Ret m -> d = encode m /\ well_formed m.
Proof.
  unfold parse. cbn zeta. intros H. inv_ret.
  assert (Hlen : zlen d = 37) by (unfold kRequestLength in *; lia).
  assert (Hok : vec_ok d) by (unfold vec_ok; lia).
  rewrite checked_copy_n_full in * by (done || (vm_compute; split; congruence)).
  rewrite Hlen in *. simplify_eq.
  repeat match goal with E : vget _ _ = Ret _ |- _ => apply slice_vget in E end.
  unfold kSpdmVersionSize, kRequestResponseCodeSize, kParam1Size, kParam2Size, kNonceSize in *.
  split; [|unfold well_formed; cbn; rewrite slice_len by lia; split_and!; done || lia].
  unfold encode. cbn [m_spdm_version m_request_response_code m_param1 m_param2 m_nonce m_slot_id_param].
  repeat match goal with E : slice _ _ 1 = [_] |- _ => rewrite <- E; clear E end.
  rewrite !slice_glue by lia. by rewrite slice_all.
Qed.

Lemma encode_zlen m : zlen (m_nonce m) = kNonceSize -> zlen (encode m) = kRequestLength.
Proof.
  intros H. unfold encode. autorewrite with nv_len. rewrite H. done.
Qed.

Lemma req_parse_complete m : well_formed m -> parse (encode m) = Ret m.
Proof.
  intros (Hv & Hc & Hn). pose proof (encode_zlen m Hn) as Hlen.
  assert (Hok : vec_ok (encode m)) by (unfold vec_ok; rewrite Hlen; done).
  unfold parse. cbn zeta.
  rewrite checked_copy_n_full by (done || (vm_compute; split; congruence)).
  rewrite !can_read_buffer_spec by (vm_compute; congruence). rewrite Hlen.
  destruct m as [v c p1 p2 n sl]; cbn in Hv, Hc, Hn; subst v c.
  unfold encode; cbn [m_spdm_version m_request_response_code m_param1 m_param2 m_nonce m_slot_id_param].
  set (d := [SPDM_VERSION_1_1] ++ _).
  assert (G : forall (pre post : list Z) x i, d = pre ++ x :: post -> i = zlen pre ->
    vget (E:=Error) d i = Ret x) by (intros ? ? ? ? -> ?; by apply vget_app).
  rewrite (G [] _ SPDM_VERSION_1_1) by done.
  rewrite (G [_] _ SPDM_REQ_CODE_GET_MEASUREMENTS) by done.
  rewrite (G [_; _] _ p1) by done.
  rewrite (G [_; _; _] _ p2) by done.
  rewrite (G ([_; _; _; _] ++ n) [] sl) by (done || (rewrite zlen_app, Hn; done)).
  assert (Hs : slice d 4 32 = n) by (by apply (slice_app [_; _; _; _] n [sl])).
  change (0 + kSpdmVersionSize + kRequestResponseCodeSize + kParam1Size + kParam2Size) with 4.
  change kNonceSize with 32. rewrite Hs. reflexivity.
Qed.

(** ** Properties *)

(** P: the request parser is exactly the wire format: it returns a message for
    a buffer precisely when the buffer is the encoding of that message and the
    message has SPDM version 1.1, the GET_MEASUREMENTS code and a 32-byte
    nonce. *)
Theorem req_parse_iff d m : parse d = Ret m <-> d = encode m /\ well_formed m.
Proof.
  split; [apply req_parse_sound|]. intros [-> H]. by apply req_parse_complete.
Qed.

(** P: on every input the request parser returns a message or the one error
    code SpdmRequestParseError; it never reads outside the buffer. *)
Theorem req_parse_total d :
  (exists m, parse d = Ret m) \/ parse d = Err SpdmRequestParseError.
Proof.
  unfold parse. cbn zeta.
  destruct (zlen d =? kRequestLength) eqn:Hlen; [|by right].
  assert (Hd : zlen d = 37) by (unfold kRequestLength in *; lia).
  assert (Hok : vec_ok d) by (unfold vec_ok; lia).
  assert (G : forall i, 0 <= i < 37 -> exists a, vget (E:=Error) d i = Ret a).
  { intros i Hi. destruct (vget_in_range (E:=Error) d i) as (a & ? & _); [lia|eauto]. }
  rewrite checked_copy_n_full by (done || (vm_compute; split; congruence)).
  rewrite !can_read_buffer_spec by (vm_compute; congruence). rewrite Hd.
  unfold kSpdmVersionSize, kRequestResponseCodeSize, kParam1Size, kParam2Size, kNonceSize, kSlotIDParamSize.
  destruct (G 0 ltac:(lia)) as [a0 ->], (G (0+1) ltac:(lia)) as [a1 ->],
    (G (0+1+1) ltac:(lia)) as [a2 ->], (G (0+1+1+1) ltac:(lia)) as [a3 ->],
    (G (0+1+1+1+1+32) ltac:(lia)) as [a4 ->].
  cbn -[slice]. destruct (a0 =? _); [|by right]. destruct (a1 =? _); [|by right]. left; eauto.
Qed.

End SpdmReq.
