(* ===== verification/SpdmMeasurementRecords.v ===== *)
(** * SpdmMeasurementRecords: the measurement record of the response

    src/spdm/spdm_measurement_records.cpp: a DMTF measurement value
    ([DmtfMeasurementBlock]), one measurement block, and the record of
    [NumberOfBlocks] blocks ([SpdmMeasurementRecordParser]).  The map from
    index to block, an [std::unordered_map<uint8_t, ...>], is a [gmap]; a
    [bool] result with its out-parameter is an option.  The record grammar is
    given as an encoder and the parser is shown to accept exactly it. *)

From S2P Require Import Prelude Errors Utils.

Module Records.

Definition kDmtfSpecMeasurementValueTypeSize : Z := 1.
Definition kDmtfSpecMeasurementValueSizeSize : Z := 2.
Definition kIndexSize : Z := 1.
Definition kMeasurementSpecificationSize : Z := 1.
Definition kMeasurementSizeSize : Z := 2.
Definition kMeasurementSpecification : Z := 1.

Record DmtfMeasurementBlock : Type := mk_dmtf {
  m_type : Z;
  m_value_size : Z;
  m_value : list Z;
}.

(** [DmtfMeasurementBlock::parse]: the block and the offset after it. *)
Definition dmtf_parse (data : list Z) (offset : Z) : res (option (DmtfMeasurementBlock * Z)) :=
  test* can_read_buffer data offset kDmtfSpecMeasurementValueTypeSize in
  let* type := vget data offset in
  let offset := offset + kDmtfSpecMeasurementValueTypeSize in
  try* value_size := read_little_endian 16 data offset kDmtfSpecMeasurementValueSizeSize in
  let offset := offset + kDmtfSpecMeasurementValueSizeSize in
  try* value := checked_assign data offset value_size in
  let offset := offset + value_size in
  Ret (Some (mk_dmtf type value_size value, offset)).

(** [DmtfMeasurementBlock::create]: the offset is passed by value. *)
Definition dmtf_create (data : list Z) (offset : Z) : res (option DmtfMeasurementBlock) :=
  try* (b, _) := dmtf_parse data offset in
  Ret (Some b).

(** [SpdmMeasurementRecordParser::parse_measurement_block] on the current
    offset and map. *)
Definition parse_measurement_block (record_data : list Z) (offset : Z)
    (blocks : gmap Z DmtfMeasurementBlock) : res (option (Z * gmap Z DmtfMeasurementBlock)) :=
  test* can_read_buffer record_data offset kIndexSize in
  let* index := vget record_data offset in
  test* negb (index <? 1) in
  let offset := offset + kIndexSize in
  test* can_read_buffer record_data offset kMeasurementSpecificationSize in
  let* measurement_specification := vget record_data offset in
  let offset := offset + kMeasurementSpecificationSize in
  test* measurement_specification =? kMeasurementSpecification in
  test* can_read_buffer record_data offset kMeasurementSizeSize in
  try* measurement_size := read_little_endian 16 record_data offset kMeasurementSizeSize in
  let offset := offset + kMeasurementSizeSize in
  try* measurement_hash := checked_assign record_data offset measurement_size in
  let offset := offset + measurement_size in
  try* dmtf_measurement_value := dmtf_create measurement_hash 0 in
  Ret (Some (offset, <[index := dmtf_measurement_value]> blocks)).

(** The loop over [num_blocks] blocks. *)
Fixpoint parse_blocks (record_data : list Z) (n : nat) (offset : Z)
    (blocks : gmap Z DmtfMeasurementBlock) : res (option (Z * gmap Z DmtfMeasurementBlock)) :=
  match n with
  | O => Ret (Some (offset, blocks))
  | S n =>
      try* (offset, blocks) := parse_measurement_block record_data offset blocks in
      parse_blocks record_data n offset blocks
  end.

(** [SpdmMeasurementRecordParser::parse], and [create], which calls it on a
    fresh object. *)
Definition parse (record_data : list Z) (num_blocks : Z) :
    res (option (gmap Z DmtfMeasurementBlock)) :=
  if (num_blocks =? 0) && negb (zlen record_data =? 0) then Ret None
  else if (0 <? num_blocks) && (zlen record_data =? 0) then Ret None
  else if (num_blocks =? 0) && (zlen record_data =? 0) then Ret (Some ∅)
  else
    try* (offset, blocks) := parse_blocks record_data (Z.to_nat num_blocks) 0 ∅ in
    test* offset =? zlen record_data in
    Ret (Some blocks).

(** [get_dmtf_measurement_block]. *)
Definition get_dmtf_measurement_block (blocks : gmap Z DmtfMeasurementBlock) (index : Z) :
    res DmtfMeasurementBlock :=
  match blocks !! index with
  | Some b => Ret b
  | None => Err SpdmFieldNotFound
  end.

(** ** The record grammar *)

(** A block on the wire: its index, the measurement value type and value, and
    the bytes the measurement carries after its value, which the parser
    skips. *)
Record wire_block : Type := mk_wire {
  w_index : Z;
  w_type : Z;
  w_value : list Z;
  w_trailing : list Z;
}.

Definition encode_dmtf (b : wire_block) : list Z :=
  [w_type b] ++ le_enc 2 (zlen (w_value b)) ++ w_value b ++ w_trailing b.

Definition encode_block (b : wire_block) : list Z :=
  [w_index b] ++ [kMeasurementSpecification] ++ le_enc 2 (zlen (encode_dmtf b)) ++ encode_dmtf b.

Definition encode_record (bs : list wire_block) : list Z := concat (encode_block <$> bs).

Definition wf_block (b : wire_block) : Prop :=
  1 <= w_index b < 256 /\ is_byte (w_type b) /\ Forall is_byte (w_value b) /\
  Forall is_byte (w_trailing b) /\ zlen (encode_dmtf b) < 65536.

Definition dmtf_of (b : wire_block) : DmtfMeasurementBlock :=
  mk_dmtf (w_type b) (zlen (w_value b)) (w_value b).

(** Blocks are stored in wire order: a later block with the same index
    replaces an earlier one. *)
Definition store_blocks (m : gmap Z DmtfMeasurementBlock) (bs : list wire_block) :
    gmap Z DmtfMeasurementBlock :=
  foldl (fun m b => <[w_index b := dmtf_of b]> m) m bs.

(** ** Lemmas *)

Lemma encode_dmtf_zlen b :
  zlen (encode_dmtf b) = 3 + zlen (w_value b) + zlen (w_trailing b).
Proof. unfold encode_dmtf. autorewrite with nv_len. lia. Qed.

Lemma encode_block_zlen b : zlen (encode_block b) = 4 + zlen (encode_dmtf b).
Proof. unfold encode_block. autorewrite with nv_len. lia. Qed.

Lemma encode_dmtf_bytes b : wf_block b -> Forall is_byte (encode_dmtf b).
Proof.
  intros (_ & ? & ? & ? & _). unfold encode_dmtf. bytes_tac.
Qed.

Lemma encode_block_bytes b : wf_block b -> Forall is_byte (encode_block b).
Proof.
  intros H. pose proof (encode_dmtf_bytes b H). destruct H as (? & _).
  unfold encode_block, kMeasurementSpecification. bytes_tac.
Qed.

Lemma encode_record_bytes bs : Forall wf_block bs -> Forall is_byte (encode_record bs).
Proof.
  induction 1 as [|b bs Hb Hbs IH]; [constructor|].
  change (encode_record (b :: bs)) with (encode_block b ++ encode_record bs).
  apply Forall_app. split; [by apply encode_block_bytes|done].
Qed.

Lemma dmtf_create_complete b :
  wf_block b -> dmtf_create (encode_dmtf b) 0 = Ret (Some (dmtf_of b)).
Proof.
  intros Hwf. pose proof (encode_dmtf_bytes b Hwf) as Hb. pose proof (encode_dmtf_zlen b) as Hl.
  destruct Hwf as (_ & Ht & Hv & Htr & Hlen).
  pose proof (zlen_nonneg (w_value b)). pose proof (zlen_nonneg (w_trailing b)).
  assert (Hok : vec_ok (encode_dmtf b)) by (unfold vec_ok; lia).
  unfold dmtf_create, dmtf_parse. cbn zeta.
  unfold kDmtfSpecMeasurementValueTypeSize, kDmtfSpecMeasurementValueSizeSize.
  rewrite can_read_buffer_spec by lia. replace (0 + 1 <=? zlen (encode_dmtf b)) with true by lia.
  erewrite (vget_at (encode_dmtf b) 0 [] _ (w_type b)) by done. cbn [obind obind_opt].
  erewrite (read_u16_at (encode_dmtf b) _ [w_type b] (zlen (w_value b))) by (done || lia).
  cbn [obind obind_opt].
  erewrite (checked_assign_at (encode_dmtf b) _ _ ([w_type b] ++ le_enc 2 (zlen (w_value b))))
    by (done || len_tac).
  done.
Qed.

Lemma parse_block_complete d pre post b m :
  Forall is_byte d -> vec_ok d -> wf_block b -> d = pre ++ encode_block b ++ post ->
  parse_measurement_block d (zlen pre) m =
  Ret (Some (zlen pre + zlen (encode_block b), <[w_index b := dmtf_of b]> m)).
Proof.
  intros Hd Hok Hwf Ed. pose proof (encode_block_zlen b) as Hel.
  pose proof (encode_dmtf_zlen b) as Hdl. pose proof (dmtf_create_complete b Hwf) as Hdc.
  destruct Hwf as (Hi & Ht & Hv & Htr & Hlen).
  pose proof (zlen_nonneg (w_value b)). pose proof (zlen_nonneg (w_trailing b)).
  pose proof (zlen_nonneg pre). pose proof (zlen_nonneg post).
  assert (Hl : zlen d = zlen pre + zlen (encode_block b) + zlen post)
    by (rewrite Ed, !zlen_app; lia).
  assert (Hok' := Hok). unfold vec_ok in Hok'.
  unfold parse_measurement_block. cbn zeta.
  unfold kIndexSize, kMeasurementSpecificationSize, kMeasurementSizeSize.
  rewrite !can_read_buffer_spec by lia.
  rewrite !(proj2 (Z.leb_le _ (zlen d))) by lia.
  erewrite (vget_at d _ pre _ (w_index b)) by at_tac Ed. cbn [obind obind_opt].
  replace (w_index b <? 1) with false by lia. cbn [negb].
  erewrite (vget_at d _ (pre ++ [w_index b]) _ kMeasurementSpecification)
    by at_tac Ed. cbn [obind obind_opt].
  rewrite Z.eqb_refl.
  rewrite (read_u16_at d _ (pre ++ [w_index b; kMeasurementSpecification]) (zlen (encode_dmtf b))
    (encode_dmtf b ++ post))
    by at_tac Ed.
  cbn [obind obind_opt].
  rewrite (checked_assign_at d _ _ (pre ++ [w_index b; kMeasurementSpecification]
     ++ le_enc 2 (zlen (encode_dmtf b))) (encode_dmtf b) post)
    by at_tac Ed.
  cbn [obind obind_opt]. rewrite Hdc. cbn [obind obind_opt].
  by replace (zlen pre + 1 + 1 + 2 + zlen (encode_dmtf b)) with (zlen pre + zlen (encode_block b)) by lia.
Qed.

(** A value that parses is the encoding of its fields and the bytes after. *)
Lemma dmtf_create_sound d :
  Forall is_byte d -> zlen d < 65536 ->
  dmtf_create d 0 = Ret None \/
  exists t v tr, forall i, 1 <= i < 256 ->
    let b := mk_wire i t v tr in
    wf_block b /\ d = encode_dmtf b /\ dmtf_create d 0 = Ret (Some (dmtf_of b)).
Proof.
  intros Hd Hlen. assert (Hok : vec_ok d) by (unfold vec_ok; lia).
  pose proof (zlen_nonneg d). unfold dmtf_create, dmtf_parse. cbn zeta.
  unfold kDmtfSpecMeasurementValueTypeSize, kDmtfSpecMeasurementValueSizeSize.
  destruct (read_byte_cases d 0 Hok) as [->|(-> & t & -> & Ht & Hl1)]; [lia|by left|].
  cbn [obind obind_opt]. rewrite Z.add_0_l in *.
  destruct (read_u16_cases d 1 Hd Hok) as [(_ & ->)|(Hl2 & n & -> & Hn & En)]; [lia|by left|].
  cbn [obind obind_opt]. change (1 + 2) with 3 in *.
  destruct (checked_assign_cases d 3 n Hok) as [(_ & ->)|(Hl3 & -> & Hln)]; [lia..|by left|].
  cbn [obind obind_opt]. right. exists t, (slice d 3 n), (slice d (3 + n) (zlen d - (3 + n))).
  intros i Hi. cbn zeta.
  assert (Ed : d = encode_dmtf (mk_wire i t (slice d 3 n) (slice d (3 + n) (zlen d - (3 + n))))).
  { unfold encode_dmtf. cbn [w_type w_value w_trailing]. rewrite Hln, <- En, <- Ht.
    rewrite !slice_glue by lia. by rewrite slice_all by lia. }
  split_and!; [|done|by unfold dmtf_of; cbn; rewrite Hln].
  unfold wf_block. rewrite <- Ed. cbn [w_index w_type w_value w_trailing].
  split_and!; auto using slice_bytes; try lia.
  all: pose proof (slice_bytes d 0 1 Hd) as F; rewrite Ht in F; inversion F; unfold is_byte in *; lia.
Qed.

(** One block: the parser fails, or consumes exactly one encoded block. *)
Lemma parse_block_sound d off m :
  Forall is_byte d -> vec_ok d -> 0 <= off <= zlen d ->
  parse_measurement_block d off m = Ret None \/
  exists b, wf_block b /\ off + zlen (encode_block b) <= zlen d /\
    slice d off (zlen (encode_block b)) = encode_block b /\
    parse_measurement_block d off m =
      Ret (Some (off + zlen (encode_block b), <[w_index b := dmtf_of b]> m)).
Proof.
  intros Hd Hok Ho. assert (Hok' := Hok). unfold vec_ok in Hok'.
  unfold parse_measurement_block. cbn zeta.
  unfold kIndexSize, kMeasurementSpecificationSize, kMeasurementSizeSize.
  destruct (read_byte_cases d off Hok) as [->|(-> & i & -> & Ei & Hl1)]; [lia|by left|].
  cbn [obind obind_opt]. destruct (i <? 1) eqn:Hi; cbn [negb]; [by left|].
  destruct (read_byte_cases d (off + 1) Hok) as [->|(-> & ms & -> & Ems & Hl2)]; [lia|by left|].
  cbn [obind obind_opt]. destruct (ms =? kMeasurementSpecification) eqn:Hms; [|by left].
  destruct (can_read_buffer d (off + 1 + 1) 2); [|by left].
  destruct (read_u16_cases d (off + 1 + 1) Hd Hok) as [(_ & ->)|(Hl3 & n & -> & Hn & En)];
    [lia|by left|]. cbn [obind obind_opt].
  destruct (checked_assign_cases d (off + 1 + 1 + 2) n Hok) as [(_ & ->)|(Hl4 & -> & Hln)];
    [lia..|by left|]. cbn [obind obind_opt].
  set (h := slice d (off + 1 + 1 + 2) n) in *.
  destruct (dmtf_create_sound h) as [->|(t & v & tr & Hb)]; [by apply slice_bytes|lia|by left|].
  right. destruct (Hb i) as (Hwf & Eh & Hc).
  { pose proof (slice_bytes d off 1 Hd) as F. rewrite Ei in F. inversion F. unfold is_byte in *. lia. }
  exists (mk_wire i t v tr). rewrite encode_block_zlen, <- Eh, Hln, Hc. cbn [obind obind_opt].
  split_and!; [done|lia| |do 3 f_equal; lia].
  unfold encode_block. rewrite <- Eh, Hln. cbn [w_index].
  assert (ms = kMeasurementSpecification) as <- by lia.
  rewrite <- En, <- Ems, <- Ei. unfold h. rewrite !slice_glue by lia. f_equal. lia.
Qed.

Lemma encode_record_cons b bs : encode_record (b :: bs) = encode_block b ++ encode_record bs.
Proof. done. Qed.

(** The loop: it fails, or consumes exactly [n] encoded blocks. *)
Lemma parse_blocks_sound d n off m :
  Forall is_byte d -> vec_ok d -> 0 <= off <= zlen d ->
  parse_blocks d n off m = Ret None \/
  exists bs, length bs = n /\ Forall wf_block bs /\ off + zlen (encode_record bs) <= zlen d /\
    slice d off (zlen (encode_record bs)) = encode_record bs /\
    parse_blocks d n off m = Ret (Some (off + zlen (encode_record bs), store_blocks m bs)).
Proof.
  intros Hd Hok. revert off m. induction n as [|n IH]; intros off m Ho; cbn [parse_blocks].
  { right. exists []. rewrite Z.add_0_r. split_and!; done || lia. }
  destruct (parse_block_sound d off m Hd Hok Ho) as [->|(b & Hwf & Hl & Es & ->)]; [by left|].
  cbn [obind obind_opt]. pose proof (zlen_nonneg (encode_block b)).
  destruct (IH (off + zlen (encode_block b)) (<[w_index b := dmtf_of b]> m))
    as [->|(bs & <- & Hbs & Hl' & Es' & ->)]; [lia|by left|].
  right. exists (b :: bs). rewrite encode_record_cons, zlen_app.
  pose proof (zlen_nonneg (encode_record bs)).
  split_and!; [done|by constructor|lia| |].
  - by rewrite slice_split, Es, Es' by lia.
  - by rewrite Z.add_assoc.
Qed.

Lemma parse_blocks_complete d pre post bs m :
  Forall is_byte d -> vec_ok d -> Forall wf_block bs -> d = pre ++ encode_record bs ++ post ->
  parse_blocks d (length bs) (zlen pre) m =
  Ret (Some (zlen pre + zlen (encode_record bs), store_blocks m bs)).
Proof.
  intros Hd Hok Hbs. revert pre m. induction Hbs as [|b bs Hb Hbs IH]; intros pre m Ed.
  { cbn [length parse_blocks]. by rewrite Z.add_0_r. }
  rewrite encode_record_cons, <- app_assoc in Ed. cbn [length parse_blocks].
  rewrite (parse_block_complete d pre (encode_record bs ++ post) b) by done.
  cbn [obind obind_opt]. rewrite <- zlen_app, IH by (by rewrite <- app_assoc).
  by rewrite encode_record_cons, !zlen_app, Z.add_assoc.
Qed.

Lemma encode_record_nonempty bs : bs <> [] -> zlen (encode_record bs) <> 0.
Proof.
  destruct bs as [|b bs]; [done|]. intros _. rewrite encode_record_cons, zlen_app, encode_block_zlen.
  pose proof (zlen_nonneg (encode_dmtf b)). pose proof (zlen_nonneg (encode_record bs)). lia.
Qed.

Lemma record_parse_sound d n :
  Forall is_byte d -> vec_ok d -> 0 <= n ->
  parse d n = Ret None \/
  exists bs, zlen bs = n /\ Forall wf_block bs /\ d = encode_record bs /\
    parse d n = Ret (Some (store_blocks ∅ bs)).
Proof.
  intros Hd Hok Hn. pose proof (zlen_nonneg d). unfold parse.
  destruct ((n =? 0) && negb (zlen d =? 0)) eqn:E1; [by left|].
  destruct ((0 <? n) && (zlen d =? 0)) eqn:E2; [by left|].
  destruct ((n =? 0) && (zlen d =? 0)) eqn:E3.
  { right. exists []. rewrite (zlen_0 d) by lia. split_and!; try done. change (0 = n). lia. }
  destruct (parse_blocks_sound d (Z.to_nat n) 0 ∅ Hd Hok) as [->|(bs & Hl & Hbs & _ & Es & ->)];
    [lia|by left|]. cbn [obind obind_opt]. rewrite Z.add_0_l.
  destruct (zlen (encode_record bs) =? zlen d) eqn:E; [right|by left].
  exists bs. split_and!; [unfold zlen; lia|done| |done].
  rewrite <- Es. symmetry. apply slice_all. lia.
Qed.

Lemma record_parse_complete bs :
  Forall wf_block bs -> vec_ok (encode_record bs) ->
  parse (encode_record bs) (zlen bs) = Ret (Some (store_blocks ∅ bs)).
Proof.
  intros Hbs Hok. destruct (decide (bs = [])) as [->|Hne]; [done|].
  pose proof (encode_record_nonempty bs Hne). pose proof (zlen_nonneg bs).
  assert (zlen bs <> 0) by (intros ?%zlen_0; done). unfold parse.
  rewrite (proj2 (Z.eqb_neq (zlen bs) 0)), (proj2 (Z.eqb_neq (zlen (encode_record bs)) 0)) by done.
  rewrite andb_false_r. cbn [andb].
  unfold zlen at 1. rewrite Nat2Z.id.
  pose proof (parse_blocks_complete (encode_record bs) [] [] bs ∅) as C.
  rewrite (zlen_nil (A:=Z)) in C. rewrite C by (try apply encode_record_bytes; try done; by rewrite app_nil_r).
  cbn [obind obind_opt]. rewrite Z.add_0_l, Z.eqb_refl. done.
Qed.

(** ** Properties *)

(** P: the measurement-record parser is exactly the record grammar: for a byte
    vector and a block count it returns a map precisely when the vector is the
    concatenation of that many well-formed DMTF blocks with nothing left over,
    and the map then holds each index's last block. *)
Theorem record_parse_iff d n m :
  Forall is_byte d -> vec_ok d -> 0 <= n < 256 ->
  parse d n = Ret (Some m) <->
  exists bs, zlen bs = n /\ Forall wf_block bs /\ d = encode_record bs /\ m = store_blocks ∅ bs.
Proof.
  intros Hd Hok Hn. split.
  - intros H. destruct (record_parse_sound d n Hd Hok) as [E|(bs & ? & ? & ? & E)]; [lia|congruence|].
    exists bs. split_and!; try done. congruence.
  - intros (bs & <- & Hbs & -> & ->). by apply record_parse_complete.
Qed.

Lemma record_parse_iff_witness :
  parse [1; 1; 5; 0; 7; 2; 0; 170; 187] 1 = Ret (Some {[1 := mk_dmtf 7 2 [170; 187]]}).
Proof.
  apply (record_parse_iff [1; 1; 5; 0; 7; 2; 0; 170; 187] 1); try done; try lia.
  - repeat constructor; done.
  - exists [mk_wire 1 7 [170; 187] []]. split_and!; try done.
    repeat constructor; done.
Defined.

(** P: on every byte vector and block count the measurement-record parser
    returns success or failure: no read outside the vector, no exception. *)
Theorem record_parse_total d n :
  Forall is_byte d -> vec_ok d -> 0 <= n < 256 -> exists o, parse d n = Ret o.
Proof.
  intros Hd Hok Hn. destruct (record_parse_sound d n Hd Hok) as [E|(bs & _ & _ & _ & E)]; [lia|eauto..].
Qed.

Lemma record_parse_total_witness : exists o, parse [1; 1; 5; 0; 7] 1 = Ret o.
Proof. apply (record_parse_total [1; 1; 5; 0; 7] 1); try done. repeat constructor; done. Defined.

End Records.
