(* ===== verification/SpdmOpaqueData.v ===== *)
(** * SpdmOpaqueData: the type-length-value opaque data of the response

    src/spdm/spdm_opaque_data_parser.cpp ([OpaqueDataParser],
    [ParsedOpaqueFieldData]).  The [while] loop runs on fuel; every iteration
    consumes at least four bytes, so one more than the number of bytes is
    enough, and [opaque_parse_total] shows the fuel never runs out. *)

From S2P Require Import Prelude Errors Utils.

Module Opaque.

Definition DATA_TYPE_SIZE : Z := 2.
Definition DATA_SIZE_FIELD_SIZE : Z := 2.

Record ParsedOpaqueFieldData : Type := mk_field {
  m_data : list Z;
  m_type : Z;
}.

(** One iteration of the loop: the field and the offset after it. *)
Definition parse_field (raw_data : list Z) (current_offset : Z) :
    res (ParsedOpaqueFieldData * Z) :=
  check* can_read_buffer raw_data current_offset DATA_TYPE_SIZE else InternalError in
  let* data_type_val_raw :=
    or_err (read_little_endian 16 raw_data current_offset DATA_TYPE_SIZE) InternalError in
  let current_offset := current_offset + DATA_TYPE_SIZE in
  check* can_read_buffer raw_data current_offset DATA_SIZE_FIELD_SIZE else InternalError in
  let* data_size :=
    or_err (read_little_endian 16 raw_data current_offset DATA_SIZE_FIELD_SIZE) InternalError in
  let current_offset := current_offset + DATA_SIZE_FIELD_SIZE in
  let* value_bytes := or_err (checked_assign raw_data current_offset data_size) InternalError in
  let current_offset := current_offset + data_size in
  Ret (mk_field value_bytes data_type_val_raw, current_offset).

(** The loop appends to the fields parsed so far; [UB] marks fuel that ran
    out. *)
Fixpoint parse_loop (fuel : nat) (raw_data : list Z) (current_offset : Z)
    (m_fields : list ParsedOpaqueFieldData) : res (list ParsedOpaqueFieldData * Z) :=
  match fuel with
  | O => UB
  | S fuel =>
      if current_offset <? zlen raw_data then
        let* (field_data, current_offset) := parse_field raw_data current_offset in
        parse_loop fuel raw_data current_offset (m_fields ++ [field_data])
      else Ret (m_fields, current_offset)
  end.

(** [OpaqueDataParser::parse] on a parser that holds [m_fields]. *)
Definition parse_into (m_fields : list ParsedOpaqueFieldData) (raw_data : list Z) :
    res (list ParsedOpaqueFieldData) :=
  let* (m_fields, current_offset) := parse_loop (S (length raw_data)) raw_data 0 m_fields in
  check* current_offset =? zlen raw_data else InternalError in
  Ret m_fields.

(** [OpaqueDataParser::create] on a fresh parser. *)
Definition create (raw_data : list Z) : res (list ParsedOpaqueFieldData) :=
  parse_into [] raw_data.

(** ** The wire format *)

Definition encode_field (f : ParsedOpaqueFieldData) : list Z :=
  le_enc 2 (m_type f) ++ le_enc 2 (zlen (m_data f)) ++ m_data f.

Definition encode_fields (fs : list ParsedOpaqueFieldData) : list Z :=
  concat (encode_field <$> fs).

Definition wf_field (f : ParsedOpaqueFieldData) : Prop :=
  0 <= m_type f < 65536 /\ zlen (m_data f) < 65536 /\ Forall is_byte (m_data f).

(** ** Lemmas *)

Lemma encode_field_zlen f : zlen (encode_field f) = 4 + zlen (m_data f).
Proof. unfold encode_field. autorewrite with nv_len. lia. Qed.

Lemma encode_fields_cons f fs : encode_fields (f :: fs) = encode_field f ++ encode_fields fs.
Proof. done. Qed.

Lemma encode_fields_bytes fs : Forall wf_field fs -> Forall is_byte (encode_fields fs).
Proof.
  induction 1 as [|f fs (_ & _ & Hf) Hfs IH]; [constructor|].
  rewrite encode_fields_cons. unfold encode_field. bytes_tac.
Qed.

Lemma parse_field_complete d pre post f :
  Forall is_byte d -> vec_ok d -> wf_field f -> d = pre ++ encode_field f ++ post ->
  parse_field d (zlen pre) = Ret (f, zlen pre + zlen (encode_field f)).
Proof.
  intros Hd Hok (Ht & Hl & Hb) Ed. pose proof (encode_field_zlen f) as Hel.
  assert (Hz : zlen d = zlen pre + zlen (encode_field f) + zlen post) by (rewrite Ed, !zlen_app; lia).
  pose proof (zlen_nonneg (m_data f)). pose proof (zlen_nonneg pre). pose proof (zlen_nonneg post).
  assert (Hok' := Hok). unfold vec_ok in Hok'.
  unfold parse_field, DATA_TYPE_SIZE, DATA_SIZE_FIELD_SIZE. cbn zeta.
  rewrite !can_read_buffer_spec by lia. rewrite !(proj2 (Z.leb_le _ (zlen d))) by lia.
  unfold encode_field in Ed. rewrite <- !app_assoc in Ed.
  rewrite (read_u16_at d _ pre (m_type f) (le_enc 2 (zlen (m_data f)) ++ m_data f ++ post)) by at_tac Ed. cbn [obind or_err].
  rewrite (read_u16_at d _ (pre ++ le_enc 2 (m_type f)) (zlen (m_data f)) (m_data f ++ post)) by at_tac Ed. cbn [obind or_err].
  rewrite (checked_assign_at d _ _ (pre ++ le_enc 2 (m_type f) ++ le_enc 2 (zlen (m_data f)))
    (m_data f) post) by at_tac Ed.
  cbn [obind or_err]. destruct f as [data type]. cbn [m_data m_type] in *.
  do 2 f_equal. lia.
Qed.

Lemma parse_field_sound d off :
  Forall is_byte d -> vec_ok d -> 0 <= off <= zlen d ->
  parse_field d off = Err InternalError \/
  exists f, wf_field f /\ off + zlen (encode_field f) <= zlen d /\
    slice d off (zlen (encode_field f)) = encode_field f /\
    parse_field d off = Ret (f, off + zlen (encode_field f)).
Proof.
  intros Hd Hok Ho. assert (Hok' := Hok). unfold vec_ok in Hok'.
  unfold parse_field, DATA_TYPE_SIZE, DATA_SIZE_FIELD_SIZE. cbn zeta.
  destruct (can_read_buffer d off 2); [|by left].
  destruct (read_u16_cases d off Hd Hok) as [(_ & ->)|(Hl1 & t & -> & Ht & Et)]; [lia|by left|].
  cbn [obind or_err]. destruct (can_read_buffer d (off + 2) 2); [|by left].
  destruct (read_u16_cases d (off + 2) Hd Hok) as [(_ & ->)|(Hl2 & n & -> & Hn & En)];
    [lia|by left|]. cbn [obind or_err].
  destruct (checked_assign_cases d (off + 2 + 2) n Hok) as [(_ & ->)|(Hl3 & -> & Hln)];
    [lia..|by left|]. cbn [obind or_err]. right.
  exists (mk_field (slice d (off + 2 + 2) n) t). rewrite encode_field_zlen. cbn [m_data m_type].
  rewrite Hln. split_and!; [|lia| |do 2 f_equal; lia].
  - unfold wf_field. cbn [m_data m_type]. rewrite Hln. split_and!; try lia. by apply slice_bytes.
  - unfold encode_field. cbn [m_data m_type]. rewrite Hln, <- En, <- Et.
    rewrite !slice_glue by lia. f_equal. lia.
Qed.

(** The loop from an offset: it fails, or the rest of the buffer is a sequence
    of encoded fields. *)
Lemma parse_loop_sound fuel d off fs :
  Forall is_byte d -> vec_ok d -> 0 <= off <= zlen d -> zlen d - off < Z.of_nat fuel ->
  parse_loop fuel d off fs = Err InternalError \/
  exists gs, Forall wf_field gs /\ slice d off (zlen d - off) = encode_fields gs /\
    parse_loop fuel d off fs = Ret (fs ++ gs, zlen d).
Proof.
  intros Hd Hok. revert off fs. induction fuel as [|fuel IH]; intros off fs Ho Hf; [lia|].
  cbn [parse_loop]. destruct (off <? zlen d) eqn:E.
  2: { right. exists []. replace off with (zlen d) by lia.
       rewrite Z.sub_diag, app_nil_r. split_and!; done. }
  destruct (parse_field_sound d off Hd Hok Ho) as [->|(f & Hwf & Hl & Es & ->)]; [by left|].
  cbn [obind]. rewrite encode_field_zlen in *. pose proof (zlen_nonneg (m_data f)).
  destruct (IH (off + (4 + zlen (m_data f))) (fs ++ [f])) as [->|(gs & Hgs & Es' & ->)]; [lia..|by left|].
  right. exists (f :: gs). split_and!; [by constructor| |by rewrite <- app_assoc].
  rewrite encode_fields_cons, <- Es, <- Es', slice_glue by lia. f_equal. lia.
Qed.

Lemma parse_loop_complete fuel d pre gs fs :
  Forall is_byte d -> vec_ok d -> Forall wf_field gs -> d = pre ++ encode_fields gs ->
  zlen (encode_fields gs) < Z.of_nat fuel ->
  parse_loop fuel d (zlen pre) fs = Ret (fs ++ gs, zlen d).
Proof.
  intros Hd Hok Hgs. revert fuel pre fs. induction Hgs as [|g gs Hg Hgs IH]; intros fuel pre fs Ed Hf.
  all: destruct fuel as [|fuel]; [rewrite Nat2Z.inj_0 in Hf;
    match type of Hf with zlen ?x < _ => pose proof (zlen_nonneg x) end; lia|]; cbn [parse_loop].
  { cbn in Ed. rewrite app_nil_r in Ed. subst. rewrite Z.ltb_irrefl, app_nil_r. done. }
  rewrite encode_fields_cons, zlen_app, encode_field_zlen in *.
  pose proof (zlen_nonneg (m_data g)). pose proof (zlen_nonneg (encode_fields gs)).
  rewrite (proj2 (Z.ltb_lt _ _)) by (rewrite Ed, !zlen_app, encode_field_zlen; lia).
  rewrite (parse_field_complete d pre (encode_fields gs) g) by done. cbn [obind].
  rewrite <- zlen_app, IH by (by rewrite <- app_assoc || lia). by rewrite <- app_assoc.
Qed.

Lemma create_sound d :
  Forall is_byte d -> vec_ok d ->
  create d = Err InternalError \/
  exists fs, Forall wf_field fs /\ d = encode_fields fs /\ create d = Ret fs.
Proof.
  intros Hd Hok. pose proof (zlen_nonneg d). unfold create, parse_into.
  destruct (parse_loop_sound (S (length d)) d 0 [] Hd Hok) as [->|(fs & Hfs & Es & ->)];
    [lia|unfold zlen; lia|by left|]. right. exists fs.
  cbn [obind]. rewrite Z.eqb_refl. split_and!; try done.
  rewrite <- Es. symmetry. apply slice_all. lia.
Qed.

Lemma create_complete fs :
  Forall wf_field fs -> vec_ok (encode_fields fs) -> create (encode_fields fs) = Ret fs.
Proof.
  intros Hfs Hok. unfold create, parse_into.
  pose proof (parse_loop_complete (S (length (encode_fields fs))) (encode_fields fs) [] fs []) as C.
  rewrite (zlen_nil (A:=Z)) in C. rewrite C.
  - cbn [obind app]. by rewrite Z.eqb_refl.
  - by apply encode_fields_bytes.
  - done.
  - done.
  - done.
  - unfold zlen. lia.
Qed.

(** ** Properties *)

(** P: the opaque-data parser is exactly the type-length-value format: it
    returns a list of fields precisely when the buffer is the concatenation of
    their encodings, in order and without trailing bytes. *)
Theorem opaque_parse_iff d fs :
  Forall is_byte d -> vec_ok d ->
  create d = Ret fs <-> Forall wf_field fs /\ d = encode_fields fs.
Proof.
  intros Hd Hok. split.
  - intros H. destruct (create_sound d Hd Hok) as [E|(gs & ? & ? & E)]; [congruence|].
    rewrite H in E. injection E as ->. done.
  - intros (Hfs & ->). by apply create_complete.
Qed.

Lemma opaque_parse_iff_witness :
  create [1; 0; 2; 0; 170; 187; 2; 1; 0; 0] = Ret [mk_field [170; 187] 1; mk_field [] 258].
Proof.
  apply (opaque_parse_iff [1; 0; 2; 0; 170; 187; 2; 1; 0; 0]); [repeat constructor; done|done|].
  split; [repeat constructor; done|done].
Defined.

(** P: the opaque-data loop terminates within its bytes and, on any byte
    vector, returns the fields or InternalError; it never reads outside. *)
Theorem opaque_parse_total d :
  Forall is_byte d -> vec_ok d -> (exists fs, create d = Ret fs) \/ create d = Err InternalError.
Proof.
  intros Hd Hok. destruct (create_sound d Hd Hok) as [E|(gs & _ & _ & E)]; eauto.
Qed.

Lemma opaque_parse_total_witness :
  (exists fs, create [1; 0; 9; 0] = Ret fs) \/ create [1; 0; 9; 0] = Err InternalError.
Proof. apply (opaque_parse_total [1; 0; 9; 0]); [repeat constructor; done|done]. Defined.

End Opaque.
