(* ===== verification/SpdmResp.v ===== *)
(** * SpdmResp: the SPDM MEASUREMENTS response

    src/spdm/spdm_resp.cpp ([SpdmMeasurementResponseMessage11]).  [parse] is
    one function of the source; its model is cut into its three stages (fixed
    header, measurement record, rest) in the source's order, over the record
    and opaque-data parsers of the two previous files.  The message is parsed
    into a freshly constructed object. *)

From S2P Require Import Prelude Errors Utils SpdmReq SpdmMeasurementRecords SpdmOpaqueData.

Module SpdmResp.

Definition kSpdmVersionSize : Z := 1.
Definition kRequestResponseCodeSize : Z := 1.
Definition kParam1Size : Z := 1.
Definition kParam2Size : Z := 1.
Definition kNumberOfBlocksSize : Z := 1.
Definition kMeasurementRecordLengthSize : Z := 3.
Definition kNonceSize : Z := 32.
Definition kOpaqueLengthSize : Z := 2.

Record SpdmMeasurementResponseMessage11 : Type := mk_response {
  m_spdm_version : Z;
  m_request_response_code : Z;
  m_param1 : Z;
  m_param2 : Z;
  m_number_of_blocks : Z;
  m_measurement_record_length : Z;
  m_measurement_record_data : list Z;
  m_parsed_measurement_records : gmap Z Records.DmtfMeasurementBlock;
  m_nonce : list Z;
  m_opaque_data_length : Z;
  m_opaque_data : list Z;
  m_parsed_opaque_data : list Opaque.ParsedOpaqueFieldData;
  m_signature : list Z;
}.

(** SPDMVersion, RequestResponseCode, Param1, Param2, NumberOfBlocks. *)
Definition parse_header (response_data : list Z) : res (Z * Z * Z * Z * Z * Z) :=
  let current_offset := 0 in
  check* can_read_buffer response_data current_offset kSpdmVersionSize else SpdmParseError in
  let* spdm_version := vget response_data current_offset in
  check* spdm_version =? SPDM_VERSION_1_1 else SpdmParseError in
  let current_offset := current_offset + kSpdmVersionSize in
  check* can_read_buffer response_data current_offset kRequestResponseCodeSize else SpdmParseError in
  let* request_response_code := vget response_data current_offset in
  check* request_response_code =? SPDM_RES_CODE_MEASUREMENTS else SpdmParseError in
  let current_offset := current_offset + kRequestResponseCodeSize in
  check* can_read_buffer response_data current_offset kParam1Size else SpdmParseError in
  let* param1 := vget response_data current_offset in
  let current_offset := current_offset + kParam1Size in
  check* can_read_buffer response_data current_offset kParam2Size else SpdmParseError in
  let* param2 := vget response_data current_offset in
  let current_offset := current_offset + kParam2Size in
  check* can_read_buffer response_data current_offset kNumberOfBlocksSize else SpdmParseError in
  let* number_of_blocks := vget response_data current_offset in
  let current_offset := current_offset + kNumberOfBlocksSize in
  check* negb (number_of_blocks =? 0) else SpdmParseError in
  Ret (spdm_version, request_response_code, param1, param2, number_of_blocks, current_offset).

(** MeasurementRecordLength and MeasurementRecord. *)
Definition parse_record (response_data : list Z) (number_of_blocks current_offset : Z) :
    res (Z * list Z * gmap Z Records.DmtfMeasurementBlock * Z) :=
  check* can_read_buffer response_data current_offset kMeasurementRecordLengthSize
    else SpdmParseError in
  let* measurement_record_length :=
    or_err (read_little_endian 32 response_data current_offset kMeasurementRecordLengthSize)
      SpdmParseError in
  let current_offset := current_offset + kMeasurementRecordLengthSize in
  let* measurement_record_data :=
    or_err (checked_assign response_data current_offset measurement_record_length) SpdmParseError in
  let current_offset := current_offset + measurement_record_length in
  let* records :=
    or_err (Records.parse measurement_record_data number_of_blocks)
      SpdmMeasurementRecordParseError in
  Ret (measurement_record_length, measurement_record_data, records, current_offset).

(** Nonce, OpaqueLength, OpaqueData, Signature and the check that nothing is
    left. *)
Definition parse_tail (response_data : list Z) (signature_length current_offset : Z) :
    res (list Z * Z * list Z * list Opaque.ParsedOpaqueFieldData * list Z) :=
  let* nonce :=
    or_err (checked_copy_n (replicate 32 0) response_data current_offset kNonceSize)
      SpdmParseError in
  let current_offset := current_offset + kNonceSize in
  check* can_read_buffer response_data current_offset kOpaqueLengthSize else SpdmParseError in
  let* opaque_data_length :=
    or_err (read_little_endian 16 response_data current_offset kOpaqueLengthSize)
      SpdmParseError in
  let current_offset := current_offset + kOpaqueLengthSize in
  let* opaque_data :=
    or_err (checked_assign response_data current_offset opaque_data_length) SpdmParseError in
  let current_offset := current_offset + opaque_data_length in
  check* negb (zlen opaque_data =? 0) else SpdmParseError in
  let* fields :=
    match Opaque.create opaque_data with
    | Err _ => Err SpdmOpaqueDataParseError
    | o => o
    end in
  let* signature :=
    or_err (checked_assign response_data current_offset signature_length) SpdmParseError in
  let current_offset := u64 (current_offset + signature_length) in
  check* current_offset =? zlen response_data else SpdmParseError in
  Ret (nonce, opaque_data_length, opaque_data, fields, signature).

(** [SpdmMeasurementResponseMessage11::parse], and [create], which calls it. *)
Definition parse (response_data : list Z) (signature_length : Z) :
    res SpdmMeasurementResponseMessage11 :=
  let* (spdm_version, request_response_code, param1, param2, number_of_blocks, current_offset) :=
    parse_header response_data in
  let* (measurement_record_length, measurement_record_data, records, current_offset) :=
    parse_record response_data number_of_blocks current_offset in
  let* (nonce, opaque_data_length, opaque_data, fields, signature) :=
    parse_tail response_data signature_length current_offset in
  Ret (mk_response spdm_version request_response_code param1 param2 number_of_blocks
         measurement_record_length measurement_record_data records nonce opaque_data_length
         opaque_data fields signature).

(** ** The wire format *)

Definition encode_tail (nonce opaque signature : list Z) : list Z :=
  nonce ++ le_enc 2 (zlen opaque) ++ opaque ++ signature.

Definition encode_body (record tail : list Z) : list Z :=
  le_enc 3 (zlen record) ++ record ++ tail.

Definition encode (m : SpdmMeasurementResponseMessage11) : list Z :=
  [m_spdm_version m; m_request_response_code m; m_param1 m; m_param2 m; m_number_of_blocks m]
  ++ encode_body (m_measurement_record_data m)
       (encode_tail (m_nonce m) (m_opaque_data m) (m_signature m)).

Definition wf_record (n len : Z) (record : list Z) (blocks : gmap Z Records.DmtfMeasurementBlock) : Prop :=
  len = zlen record /\ len < 2 ^ 24 /\ Records.parse record n = Ret (Some blocks).

Definition wf_tail (signature_length : Z) (nonce : list Z) (olen : Z) (opaque : list Z)
    (fields : list Opaque.ParsedOpaqueFieldData) (signature : list Z) : Prop :=
  zlen nonce = 32 /\ olen = zlen opaque /\ 0 < olen < 65536 /\
  Opaque.create opaque = Ret fields /\ zlen signature = signature_length.

(** What the parser guarantees of a message. *)
Definition well_formed (signature_length : Z) (m : SpdmMeasurementResponseMessage11) : Prop :=
  m_spdm_version m = SPDM_VERSION_1_1 /\
  m_request_response_code m = SPDM_RES_CODE_MEASUREMENTS /\
  m_number_of_blocks m <> 0 /\
  wf_record (m_number_of_blocks m) (m_measurement_record_length m) (m_measurement_record_data m)
    (m_parsed_measurement_records m) /\
  wf_tail signature_length (m_nonce m) (m_opaque_data_length m) (m_opaque_data m)
    (m_parsed_opaque_data m) (m_signature m).

(** The three errors of the parser. *)
Definition parse_error (e : Error) : Prop :=
  e = SpdmParseError \/ e = SpdmMeasurementRecordParseError \/ e = SpdmOpaqueDataParseError.

(** A response with one block, one opaque field and a 4-byte signature. *)
Definition sample_response : list Z :=
  [17; 96; 0; 0; 1; 9; 0; 0; 1; 1; 5; 0; 7; 2; 0; 170; 187]
  ++ replicate 32 5 ++ [6; 0; 1; 0; 2; 0; 9; 9] ++ [1; 2; 3; 4].

Definition sample_message : SpdmMeasurementResponseMessage11 :=
  mk_response 17 96 0 0 1 9 [1; 1; 5; 0; 7; 2; 0; 170; 187]
    {[1 := Records.mk_dmtf 7 2 [170; 187]]} (replicate 32 5) 6 [1; 0; 2; 0; 9; 9]
    [Opaque.mk_field [9; 9] 1] [1; 2; 3; 4].

(** ** Lemmas *)

Ltac resp_fields := cbn [m_spdm_version m_request_response_code m_param1 m_param2
  m_number_of_blocks m_measurement_record_length m_measurement_record_data
  m_parsed_measurement_records m_nonce m_opaque_data_length m_opaque_data
  m_parsed_opaque_data m_signature] in *.

Section sound.

Context (d : list Z) (Hd : Forall is_byte d) (Hok : vec_ok d).

Lemma parse_header_sound :
  parse_header d = Err SpdmParseError \/
  exists p1 p2 n, 0 < n < 256 /\ 5 <= zlen d /\
    slice d 0 5 = [SPDM_VERSION_1_1; SPDM_RES_CODE_MEASUREMENTS; p1; p2; n] /\
    parse_header d = Ret (SPDM_VERSION_1_1, SPDM_RES_CODE_MEASUREMENTS, p1, p2, n, 5).
Proof.
  pose proof (zlen_nonneg d). unfold parse_header. cbn zeta.
  unfold kSpdmVersionSize, kRequestResponseCodeSize, kParam1Size, kParam2Size, kNumberOfBlocksSize.
  destruct (read_byte_cases d 0 Hok) as [->|(-> & v & -> & Ev & ?)]; [lia|by left|].
  cbn [obind]. destruct (v =? SPDM_VERSION_1_1) eqn:Hv; [|by left]. apply Z.eqb_eq in Hv as ->.
  destruct (read_byte_cases d (0 + 1) Hok) as [->|(-> & c & -> & Ec & ?)]; [lia|by left|].
  cbn [obind]. destruct (c =? SPDM_RES_CODE_MEASUREMENTS) eqn:Hc; [|by left]. apply Z.eqb_eq in Hc as ->.
  destruct (read_byte_cases d (0 + 1 + 1) Hok) as [->|(-> & p1 & -> & E1 & ?)]; [lia|by left|].
  cbn [obind].
  destruct (read_byte_cases d (0 + 1 + 1 + 1) Hok) as [->|(-> & p2 & -> & E2 & ?)]; [lia|by left|].
  cbn [obind].
  destruct (read_byte_cases d (0 + 1 + 1 + 1 + 1) Hok) as [->|(-> & n & -> & En & ?)]; [lia|by left|].
  cbn [obind]. destruct (n =? 0) eqn:Hn; cbn [negb]; [by left|]. right. exists p1, p2, n.
  pose proof (slice_bytes d (0 + 1 + 1 + 1 + 1) 1 Hd) as F. rewrite En in F. inversion F as [|? ? Fn _].
  unfold is_byte in Fn. split_and!; [lia..| |done].
  change [SPDM_VERSION_1_1; SPDM_RES_CODE_MEASUREMENTS; p1; p2; n] with
    ([SPDM_VERSION_1_1] ++ [SPDM_RES_CODE_MEASUREMENTS] ++ [p1] ++ [p2] ++ [n]).
  rewrite <- En, <- E2, <- E1, <- Ec, <- Ev. by rewrite !slice_glue by lia.
Qed.

Lemma parse_record_sound n off :
  0 <= n < 256 -> 0 <= off <= zlen d ->
  (exists e, parse_record d n off = Err e /\ parse_error e) \/
  exists len rec blocks, wf_record n len rec blocks /\ off + 3 + len <= zlen d /\
    slice d off (3 + len) = le_enc 3 len ++ rec /\
    parse_record d n off = Ret (len, rec, blocks, off + 3 + len).
Proof.
  intros Hn Ho. assert (Hok' := Hok). unfold vec_ok in Hok'.
  unfold parse_record, kMeasurementRecordLengthSize. cbn zeta. unfold parse_error.
  destruct (can_read_buffer d off 3); [|eauto].
  destruct (read_u24_cases d off Hd Hok Ho) as [(_ & ->)|(Hl1 & len & -> & Hlen & El)];
    [cbn; eauto 10|]. cbn [obind or_err].
  destruct (checked_assign_cases d (off + 3) len Hok) as [(_ & ->)|(Hl2 & -> & Hln)];
    [lia..|cbn; eauto 10|]. cbn [obind or_err].
  set (rec := slice d (off + 3) len) in *.
  destruct (Records.record_parse_sound rec n) as [->|(bs & _ & _ & _ & Hp)];
    [by apply slice_bytes|unfold vec_ok; lia|lia|cbn; eauto 10|]. rewrite Hp.
  cbn [obind or_err]. right. exists len, rec, (Records.store_blocks ∅ bs).
  unfold wf_record. rewrite Hln. split_and!; try done; [lia|].
  rewrite <- El. unfold rec. by rewrite slice_glue by lia.
Qed.

Lemma parse_tail_sound sl off :
  0 <= sl < 2 ^ 64 -> 0 <= off <= zlen d ->
  (exists e, parse_tail d sl off = Err e /\ parse_error e) \/
  exists nonce olen opaque fields sig, wf_tail sl nonce olen opaque fields sig /\
    slice d off (zlen d - off) = encode_tail nonce opaque sig /\
    parse_tail d sl off = Ret (nonce, olen, opaque, fields, sig).
Proof.
  intros Hsl Ho. assert (Hok' := Hok). unfold vec_ok in Hok'.
  unfold parse_tail, parse_error, kNonceSize, kOpaqueLengthSize. cbn zeta.
  rewrite checked_copy_n_full by (done || lia || (vm_compute; split; congruence)).
  destruct (off + 32 <=? zlen d) eqn:En; [|cbn; eauto]. cbn [obind or_err].
  destruct (can_read_buffer d (off + 32) 2); [|eauto].
  destruct (read_u16_cases d (off + 32) Hd Hok) as [(_ & ->)|(Hl1 & olen & -> & Hol & El)];
    [lia|cbn; eauto 10|]. cbn [obind or_err].
  destruct (checked_assign_cases d (off + 32 + 2) olen Hok) as [(_ & ->)|(Hl2 & -> & Hln)];
    [lia..|cbn; eauto 10|]. cbn [obind or_err]. rewrite Hln.
  destruct (olen =? 0) eqn:Hz; cbn [negb]; [eauto|].
  set (op := slice d (off + 32 + 2) olen) in *.
  destruct (Opaque.create_sound op) as [->|(fs & _ & _ & Hc)];
    [by apply slice_bytes|unfold vec_ok; lia|cbn; eauto 10|]. rewrite Hc. cbn [obind].
  rewrite checked_assign_spec by (done || lia).
  destruct (off + 32 + 2 + olen + sl <=? zlen d) eqn:Es; cbn [obind or_err]; [|eauto].
  rewrite wrap_small by lia.
  destruct (off + 32 + 2 + olen + sl =? zlen d) eqn:Et; [|eauto]. right.
  exists (slice d off 32), olen, op, fs, (slice d (off + 32 + 2 + olen) sl).
  unfold wf_tail, encode_tail. rewrite Hln, !slice_len by lia. split_and!; try (done || lia).
  rewrite <- El. unfold op. rewrite !slice_glue by lia. f_equal. lia.
Qed.

(** The parser returns one of its errors, or the message the bytes encode. *)
Lemma resp_parse_sound sl :
  0 <= sl < 2 ^ 64 ->
  (exists e, parse d sl = Err e /\ parse_error e) \/
  exists m, parse d sl = Ret m /\ well_formed sl m /\ d = encode m.
Proof.
  intros Hsl. unfold parse.
  destruct parse_header_sound as [->|(p1 & p2 & n & Hn & Hl & Eh & ->)];
    [left; eexists; split; [done|by left]|]. cbn [obind].
  destruct (parse_record_sound n 5) as [(e & -> & He)|(len & rec & bl & Hwr & Hl' & Er & ->)];
    [lia..|eauto|]. cbn [obind]. pose proof Hwr as (Hlen & _ & _). pose proof (zlen_nonneg rec).
  destruct (parse_tail_sound sl (5 + 3 + len)) as [(e & -> & He)|(no & ol & op & fs & sg & Hwt & Et & ->)];
    [lia..|eauto|]. cbn [obind]. right. eexists. split; [done|].
  unfold well_formed, encode, encode_body. resp_fields. split_and!; try (done || lia).
  rewrite <- Hlen, <- Et, <- Eh, (app_assoc (le_enc 3 len)), <- Er, !slice_glue by lia.
  by rewrite slice_all by lia.
Qed.

End sound.

Lemma parse_header_complete d p1 p2 n rest :
  d = [SPDM_VERSION_1_1; SPDM_RES_CODE_MEASUREMENTS; p1; p2; n] ++ rest -> vec_ok d -> n <> 0 ->
  parse_header d = Ret (SPDM_VERSION_1_1, SPDM_RES_CODE_MEASUREMENTS, p1, p2, n, 5).
Proof.
  intros Ed Hok Hn. unfold parse_header. cbn zeta.
  unfold kSpdmVersionSize, kRequestResponseCodeSize, kParam1Size, kParam2Size, kNumberOfBlocksSize.
  assert (zlen d = 5 + zlen rest) by (rewrite Ed; len_tac). pose proof (zlen_nonneg rest).
  unfold vec_ok in Hok. rewrite !can_read_buffer_spec by lia.
  rewrite !(proj2 (Z.leb_le _ (zlen d))) by lia.
  set (v := SPDM_VERSION_1_1) in *. set (c := SPDM_RES_CODE_MEASUREMENTS) in *.
  rewrite (vget_at d 0 [] ([c; p1; p2; n] ++ rest) v),
    (vget_at d (0 + 1) [v] ([p1; p2; n] ++ rest) c),
    (vget_at d (0 + 1 + 1) [v; c] ([p2; n] ++ rest) p1),
    (vget_at d (0 + 1 + 1 + 1) [v; c; p1] ([n] ++ rest) p2),
    (vget_at d (0 + 1 + 1 + 1 + 1) [v; c; p1; p2] rest n) by (exact Ed || done).
  cbn [obind]. rewrite !Z.eqb_refl. by replace (n =? 0) with false by lia.
Qed.

Lemma parse_record_complete d pre n len rec blocks post :
  d = pre ++ le_enc 3 len ++ rec ++ post -> Forall is_byte d -> vec_ok d ->
  wf_record n len rec blocks ->
  parse_record d n (zlen pre) = Ret (len, rec, blocks, zlen pre + 3 + len).
Proof.
  intros Ed Hd Hok (Hlen & Hb & Hp). pose proof (zlen_nonneg rec). pose proof (zlen_nonneg pre).
  pose proof (zlen_nonneg post). assert (Hok' := Hok). unfold vec_ok in Hok'.
  assert (zlen d = zlen pre + 3 + zlen rec + zlen post) by (rewrite Ed; len_tac).
  unfold parse_record, kMeasurementRecordLengthSize. cbn zeta.
  rewrite can_read_buffer_spec, (proj2 (Z.leb_le _ (zlen d))) by lia.
  rewrite (read_u24_at d _ pre len (rec ++ post)) by at_tac Ed. cbn [obind or_err].
  rewrite (checked_assign_at d _ _ (pre ++ le_enc 3 len) rec post) by at_tac Ed.
  cbn [obind or_err]. by rewrite Hp.
Qed.

Lemma parse_tail_complete d pre sl nonce olen opaque fields sig :
  d = pre ++ encode_tail nonce opaque sig -> Forall is_byte d -> vec_ok d ->
  wf_tail sl nonce olen opaque fields sig ->
  parse_tail d sl (zlen pre) = Ret (nonce, olen, opaque, fields, sig).
Proof.
  intros Ed Hd Hok (Hn & -> & Hol & Hc & Hs). unfold encode_tail in Ed.
  rewrite <- (app_nil_r sig) in Ed.
  pose proof (zlen_nonneg opaque). pose proof (zlen_nonneg pre). pose proof (zlen_nonneg sig).
  assert (Hok' := Hok). unfold vec_ok in Hok'.
  assert (zlen d = zlen pre + 32 + 2 + zlen opaque + sl) by (rewrite Ed; autorewrite with nv_len; lia).
  unfold parse_tail, kNonceSize, kOpaqueLengthSize. cbn zeta.
  rewrite checked_copy_n_full by (done || lia || (vm_compute; split; congruence)).
  rewrite can_read_buffer_spec by lia. rewrite !(proj2 (Z.leb_le _ (zlen d))) by lia.
  cbn [obind or_err].
  rewrite (read_u16_at d _ (pre ++ nonce) (zlen opaque) (opaque ++ sig ++ [])) by at_tac Ed.
  cbn [obind or_err].
  rewrite (checked_assign_at d _ (zlen opaque) (pre ++ nonce ++ le_enc 2 (zlen opaque)) opaque (sig ++ []))
    by at_tac Ed.
  cbn [obind or_err]. replace (zlen opaque =? 0) with false by lia. cbn [negb].
  rewrite Hc. cbn [obind].
  rewrite (checked_assign_at d _ sl (pre ++ nonce ++ le_enc 2 (zlen opaque) ++ opaque) sig [])
    by at_tac Ed.
  cbn [obind or_err]. rewrite wrap_small by lia.
  rewrite (proj2 (Z.eqb_eq _ (zlen d))) by lia.
  by rewrite Ed, (slice_app pre nonce).
Qed.

Lemma resp_parse_complete sl m :
  Forall is_byte (encode m) -> vec_ok (encode m) -> well_formed sl m -> parse (encode m) sl = Ret m.
Proof.
  intros Hd Hok (Hv & Hc & Hn & Hr & Ht). pose proof Hr as (Hlen & _ & _).
  remember (encode m) as d eqn:Ed. unfold encode, encode_body in Ed. rewrite Hv, Hc, <- Hlen in Ed.
  unfold parse. erewrite (parse_header_complete d) by done. cbn [obind].
  erewrite (parse_record_complete d [_; _; _; _; _]) by done. cbn [obind].
  set (pre := [SPDM_VERSION_1_1; SPDM_RES_CODE_MEASUREMENTS; m_param1 m; m_param2 m;
    m_number_of_blocks m] ++ le_enc 3 (m_measurement_record_length m) ++ m_measurement_record_data m).
  replace (zlen _ + 3 + m_measurement_record_length m) with (zlen pre)
    by (unfold pre; autorewrite with nv_len; lia).
  erewrite (parse_tail_complete d pre) by (done || by rewrite Ed; unfold pre; rewrite <- !app_assoc).
  cbn [obind]. rewrite <- Hv, <- Hc. by destruct m.
Qed.

(** ** Properties *)

(** C34: the response parser is exactly the SPDM 1.1 MEASUREMENTS format: for a
    byte vector and a signature length it returns a message precisely when the
    vector is that message's encoding, the version and code are right, there is
    at least one block, the record and the opaque data parse to the stored
    structures, the nonce has 32 bytes, the opaque data is not empty and the
    signature has the given length. *)
Theorem resp_parse_iff d signature_length m :
  Forall is_byte d -> vec_ok d -> 0 <= signature_length < 2 ^ 64 ->
  parse d signature_length = Ret m <-> d = encode m /\ well_formed signature_length m.
Proof.
  intros Hd Hok Hs. split.
  - intros H. destruct (resp_parse_sound d Hd Hok _ Hs) as [(e & E & _)|(m' & E & Hw & Ed)]; [congruence|].
    rewrite H in E. by injection E as ->.
  - intros (-> & Hw). by apply resp_parse_complete.
Qed.

Lemma resp_parse_iff_witness : parse sample_response 4 = Ret sample_message.
Proof.
  apply (resp_parse_iff sample_response 4); [repeat constructor; done|done|done|].
  split; [done|]. unfold well_formed, wf_record, wf_tail. split_and!; vm_compute; done.
Defined.

(** P: on every byte vector and signature length, also one whose sum with the
    offset wraps around, the response parser returns a message or one of its
    three error codes; it never reads outside the vector and never throws. *)
Theorem resp_parse_total d signature_length :
  Forall is_byte d -> vec_ok d -> 0 <= signature_length < 2 ^ 64 ->
  (exists m, parse d signature_length = Ret m) \/
  (exists e, parse d signature_length = Err e /\ parse_error e).
Proof.
  intros Hd Hok Hs. destruct (resp_parse_sound d Hd Hok _ Hs) as [?|(m & E & _)]; eauto.
Qed.

Lemma resp_parse_total_witness :
  (exists m, parse sample_response (2 ^ 64 - 1) = Ret m) \/
  (exists e, parse sample_response (2 ^ 64 - 1) = Err e /\ parse_error e).
Proof.
  apply (resp_parse_total sample_response (2 ^ 64 - 1)); [repeat constructor; done|done|done].
Defined.

End SpdmResp.
