(* ===== verification/GpuOpaqueData.v ===== *)
(** * GpuOpaqueData: the typed opaque fields of a GPU

    src/gpu/spdm/gpu_opaque_data_parser.cpp and its header: the field types,
    the parsed values ([GpuParsedOpaqueFieldData], a tagged union), the element
    parsers and [GpuOpaqueDataParser::create].  A [GpuOpaqueDataType] is its
    16-bit code, since the code casts any code from 1 to 36 to it. *)

From S2P Require Import Prelude Errors Utils SpdmOpaqueData.

(** [for (i = 0; i < n; ++i) { ...(data, i * size)...; push_back }], with
    [InternalError] when a read fails. *)
Fixpoint read_elements {A : Type} (size : Z) (rd : Z -> res (option A)) (n : nat) (i : Z) :
    res (list A) :=
  match n with
  | O => Ret []
  | S n =>
      let* v := or_err (rd (i * size)) InternalError in
      let* vs := read_elements size rd n (i + 1) in
      Ret (v :: vs)
  end.

(** A 16-bit value printed with [std::hex]. *)
Definition hex_u16 (v : Z) : string :=
  if v <? 16 then String (hex_digit v) ""
  else if v <? 256 then to_hex_string_byte v
  else if v <? 4096 then String (hex_digit (v / 256)) (to_hex_string_byte (v mod 256))
  else to_hex_string_u16 v.

Module GpuOpaque.

Definition CERT_ISSUER_NAME : Z := 1.
Definition CERT_AUTHORITY_KEY_IDENTIFIER : Z := 2.
Definition DRIVER_VERSION : Z := 3.
Definition GPU_INFO : Z := 4.
Definition SKU : Z := 5.
Definition VBIOS_VERSION : Z := 6.
Definition MANUFACTURER_ID : Z := 7.
Definition TAMPER_DETECTION : Z := 8.
Definition SMC : Z := 9.
Definition VPR : Z := 10.
Definition NVDEC0_STATUS : Z := 11.
Definition MSRSCNT : Z := 12.
Definition CPRINFO : Z := 13.
Definition BOARD_ID : Z := 14.
Definition CHIP_SKU : Z := 15.
Definition CHIP_SKU_MOD : Z := 16.
Definition PROJECT : Z := 17.
Definition PROJECT_SKU : Z := 18.
Definition PROJECT_SKU_MOD : Z := 19.
Definition FWID : Z := 20.
Definition PROTECTED_PCIE_STATUS : Z := 21.
Definition SWITCH_PDI : Z := 22.
Definition FLOORSWEPT_PORTS : Z := 23.
Definition POSITION_ID : Z := 24.
Definition LOCK_SWITCH_STATUS : Z := 25.
Definition GPU_LINK_CONN : Z := 32.
Definition SYS_ENABLE_STATUS : Z := 33.
Definition OPAQUE_DATA_VERSION : Z := 34.
Definition CHIP_INFO : Z := 35.
Definition FEATURE_FLAG : Z := 36.

Definition is_valid_gpu_opaque_data_type (data_type_val_raw : Z) : bool :=
  (1 <=? data_type_val_raw) && (data_type_val_raw <=? 36).

(** The named types, with the names [to_string] prints. *)
Definition type_names : list (Z * string) :=
  [(1, "CERT_ISSUER_NAME"); (2, "CERT_AUTHORITY_KEY_IDENTIFIER"); (3, "DRIVER_VERSION");
   (4, "GPU_INFO"); (5, "SKU"); (6, "VBIOS_VERSION"); (7, "MANUFACTURER_ID");
   (8, "TAMPER_DETECTION"); (9, "SMC"); (10, "VPR"); (11, "NVDEC0_STATUS"); (12, "MSRSCNT");
   (13, "CPRINFO"); (14, "BOARD_ID"); (15, "CHIP_SKU"); (16, "CHIP_SKU_MOD"); (17, "PROJECT");
   (18, "PROJECT_SKU"); (19, "PROJECT_SKU_MOD"); (20, "FWID"); (21, "PROTECTED_PCIE_STATUS");
   (22, "SWITCH_PDI"); (23, "FLOORSWEPT_PORTS"); (24, "POSITION_ID"); (25, "LOCK_SWITCH_STATUS");
   (32, "GPU_LINK_CONN"); (33, "SYS_ENABLE_STATUS"); (34, "OPAQUE_DATA_VERSION");
   (35, "CHIP_INFO"); (36, "FEATURE_FLAG"); (255, "INVALID"); (0, "UNKNOWN")].

Definition to_string (type : Z) : string :=
  match list_find (fun p => fst p = type) type_names with
  | Some (_, (_, name)) => "OPAQUE_FIELD_ID_" +:+ name
  | None => "UNKNOWN_OPAQUE_TYPE(0x" +:+ hex_u16 type +:+ ")"
  end.

Definition PDI_DATA_SIZE : Z := 8.
Definition MSR_COUNT_ELEMENT_SIZE : Z := 4.
Definition MAX_OPAQUE_DATA_VERSION_SIZE : Z := 8.
Definition MAX_OPAQUE_DATA_VERSION : Z := 1.

(** [GpuParsedOpaqueFieldData] with its active type. *)
Inductive GpuParsedOpaqueFieldData : Type :=
| BYTE_VECTOR (m_byte_data : list Z)
| UINT32_VECTOR (m_uint32_data : list Z)
| PDI_VECTOR (m_pdi_data : list (list Z)).

Definition get_byte_vector (f : GpuParsedOpaqueFieldData) : res (list Z) :=
  match f with BYTE_VECTOR d => Ret d | _ => Err SpdmFieldNotFound end.

Definition get_uint32_vector (f : GpuParsedOpaqueFieldData) : res (list Z) :=
  match f with UINT32_VECTOR d => Ret d | _ => Err SpdmFieldNotFound end.

Definition get_pdi_vector (f : GpuParsedOpaqueFieldData) : res (list (list Z)) :=
  match f with PDI_VECTOR d => Ret d | _ => Err SpdmFieldNotFound end.

Definition parse_msr_count_internal (data_bytes : list Z) : res (list Z) :=
  check* zlen data_bytes mod MSR_COUNT_ELEMENT_SIZE =? 0 else InternalError in
  read_elements MSR_COUNT_ELEMENT_SIZE
    (fun offset => read_little_endian 32 data_bytes offset MSR_COUNT_ELEMENT_SIZE)
    (Z.to_nat (zlen data_bytes / MSR_COUNT_ELEMENT_SIZE)) 0.

Definition parse_switch_pdis_internal (data_bytes : list Z) : res (list (list Z)) :=
  check* zlen data_bytes mod PDI_DATA_SIZE =? 0 else InternalError in
  read_elements PDI_DATA_SIZE
    (fun offset => checked_copy_n (replicate 8 0) data_bytes offset PDI_DATA_SIZE)
    (Z.to_nat (zlen data_bytes / PDI_DATA_SIZE)) 0.

Definition parse_opaque_data_version (data_bytes : list Z) : res Z :=
  check* zlen data_bytes <=? MAX_OPAQUE_DATA_VERSION_SIZE else InternalError in
  or_err (read_little_endian 64 data_bytes 0 (zlen data_bytes)) InternalError.

Record GpuOpaqueDataParser : Type := mk_parser {
  m_fields : gmap Z GpuParsedOpaqueFieldData;
  m_opaque_data_version : Z;
}.

(** The first loop of [create]: the last version field wins. *)
Definition version_step (opaque_data_version : Z) (field : Opaque.ParsedOpaqueFieldData) : res Z :=
  if Opaque.m_type field =? OPAQUE_DATA_VERSION
  then parse_opaque_data_version (Opaque.m_data field)
  else Ret opaque_data_version.

(** The value a field of a type parses to. *)
Definition parse_value (type : Z) (data : list Z) : res GpuParsedOpaqueFieldData :=
  if type =? MSRSCNT then
    let* msr_counts := parse_msr_count_internal data in Ret (UINT32_VECTOR msr_counts)
  else if type =? SWITCH_PDI then
    let* switch_pdis := parse_switch_pdis_internal data in Ret (PDI_VECTOR switch_pdis)
  else Ret (BYTE_VECTOR data).

(** The second loop of [create]. *)
Definition field_step (fields : gmap Z GpuParsedOpaqueFieldData)
    (field : Opaque.ParsedOpaqueFieldData) : res (gmap Z GpuParsedOpaqueFieldData) :=
  check* is_valid_gpu_opaque_data_type (Opaque.m_type field) else BadArgument in
  let* parsed_field := parse_value (Opaque.m_type field) (Opaque.m_data field) in
  Ret (<[Opaque.m_type field := parsed_field]> fields).

Definition create (opaque_fields : list Opaque.ParsedOpaqueFieldData) : res GpuOpaqueDataParser :=
  let* opaque_data_version := ofold version_step opaque_fields 0 in
  check* opaque_data_version <=? MAX_OPAQUE_DATA_VERSION else GpuFwNotSupported in
  let* fields := ofold field_step opaque_fields ∅ in
  Ret (mk_parser fields opaque_data_version).

Definition get_field (p : GpuOpaqueDataParser) (type : Z) : res GpuParsedOpaqueFieldData :=
  match m_fields p !! type with
  | Some f => Ret f
  | None => Err SpdmFieldNotFound
  end.

(** The last field of a type. *)
Definition last_of (type : Z) (fs : list Opaque.ParsedOpaqueFieldData) :
    option Opaque.ParsedOpaqueFieldData :=
  last (filter (fun f => Opaque.m_type f = type) fs).

(** What [create] asks of each field. *)
Definition field_ok (f : Opaque.ParsedOpaqueFieldData) : Prop :=
  1 <= Opaque.m_type f <= 36 /\
  (Opaque.m_type f = MSRSCNT -> zlen (Opaque.m_data f) mod 4 = 0) /\
  (Opaque.m_type f = SWITCH_PDI -> zlen (Opaque.m_data f) mod 8 = 0).

Definition version_ok (f : Opaque.ParsedOpaqueFieldData) : Prop :=
  Opaque.m_type f = OPAQUE_DATA_VERSION -> zlen (Opaque.m_data f) <= 8.

(** The version a list of fields announces. *)
Definition version_of (v0 : Z) (fs : list Opaque.ParsedOpaqueFieldData) : Z :=
  match last_of OPAQUE_DATA_VERSION fs with
  | Some f => le_val (Opaque.m_data f)
  | None => v0
  end.

End GpuOpaque.

(** ** Lemmas: fixed-size elements *)

Lemma read_elements_concat {A : Type} (enc : A -> list Z) (size : Z) rd (vs : list A) d pre post i :
  (forall pre a post, a ∈ vs -> d = pre ++ enc a ++ post -> rd (zlen pre) = Ret (Some a)) ->
  Forall (fun a => zlen (enc a) = size) vs ->
  d = pre ++ concat (enc <$> vs) ++ post -> zlen pre = i * size ->
  read_elements size rd (length vs) i = Ret vs.
Proof.
  intros Hrd Hsz. revert pre i Hrd. induction Hsz as [|a vs Ha Hvs IH]; intros pre i Hrd Ed Hi; [done|].
  cbn [length read_elements]. change (concat (enc <$> a :: vs)) with (enc a ++ concat (enc <$> vs)) in Ed.
  rewrite <- app_assoc in Ed. rewrite <- Hi, (Hrd pre a _ ltac:(left) Ed). cbn [obind or_err].
  rewrite (IH (pre ++ enc a)); [done| | |].
  - intros pre' a' post' Hin. apply Hrd. by right.
  - by rewrite <- app_assoc.
  - rewrite zlen_app. lia.
Qed.

(** A vector of [n] blocks of [k] elements. *)
Lemma split_blocks {A : Type} (k : Z) (n : nat) (d : list A) :
  0 <= k -> zlen d = Z.of_nat n * k ->
  exists ls, length ls = n /\ Forall (fun l => zlen l = k) ls /\ d = concat ls.
Proof.
  intros Hk. revert d. induction n as [|n IH]; intros d Hd.
  { exists []. rewrite (zlen_0 d) by lia. done. }
  destruct (IH (drop (Z.to_nat k) d)) as (ls & Hl & Hls & E).
  { unfold zlen in *. rewrite length_drop. lia. }
  exists (take (Z.to_nat k) d :: ls). cbn [length concat]. rewrite <- E, take_drop.
  split_and!; [lia| |done]. constructor; [|done]. unfold zlen in *. rewrite length_take. nia.
Qed.

Lemma concat_zlen {A : Type} (k : Z) (ls : list (list A)) :
  Forall (fun l => zlen l = k) ls -> zlen (concat ls) = zlen ls * k.
Proof.
  induction 1 as [|l ls Hl Hls IH]; [done|]. cbn [concat]. rewrite zlen_app, zlen_cons, IH. lia.
Qed.

Lemma concat_bytes_inv (ls : list (list Z)) :
  Forall is_byte (concat ls) -> Forall (Forall is_byte) ls.
Proof. induction ls; cbn; [constructor|]. rewrite Forall_app. intros []. constructor; auto. Qed.

(** Words and their encodings. *)
Lemma words_of_blocks n (ls : list (list Z)) :
  Forall (fun l => zlen l = Z.of_nat n) ls -> Forall (Forall is_byte) ls ->
  Forall (fun v => 0 <= v < 256 ^ Z.of_nat n) (le_val <$> ls) /\ le_enc n <$> (le_val <$> ls) = ls.
Proof.
  induction 1 as [|l ls Hl Hls IH]; intros Hb; [done|]. inversion Hb as [|? ? Hb1 Hb2]; subst.
  destruct (IH Hb2) as [IH1 IH2]. cbn. split.
  - constructor; [|done]. rewrite <- Hl. by apply le_val_range.
  - f_equal; [|done]. replace n with (length l) by (unfold zlen in Hl; lia). by apply le_enc_val.
Qed.

Module GpuOpaqueFacts.

Import GpuOpaque.

Lemma msr_complete vs :
  Forall (fun v => 0 <= v < 2 ^ 32) vs -> vec_ok (concat (le_enc 4 <$> vs)) ->
  parse_msr_count_internal (concat (le_enc 4 <$> vs)) = Ret vs.
Proof.
  intros Hvs Hok. set (d := concat _) in *. unfold parse_msr_count_internal, MSR_COUNT_ELEMENT_SIZE.
  assert (Hl : zlen d = zlen vs * 4).
  { unfold d. rewrite (concat_zlen 4); [unfold zlen; by rewrite length_fmap|].
    apply Forall_fmap, Forall_true. intros v. cbn. apply (le_enc_zlen 4). }
  rewrite Hl, Z.mod_mul, Z.div_mul by lia. unfold zlen at 1. rewrite Nat2Z.id.
  rewrite Forall_forall in Hvs.
  assert (Hd : Forall is_byte d).
  { unfold d. apply Forall_concat, Forall_fmap, Forall_true. intros v. apply le_enc_bytes. }
  cbn. eapply (read_elements_concat (le_enc 4) 4 _ vs d [] []); [| |by rewrite app_nil_r|done].
  - intros pre v post Hv Ed. by apply (read_le_at 32 d (zlen pre) 4 pre v post); auto.
  - apply Forall_true. intros v. apply (le_enc_zlen 4).
Qed.

Lemma msr_sound d :
  Forall is_byte d -> vec_ok d -> zlen d mod 4 = 0 ->
  exists vs, Forall (fun v => 0 <= v < 2 ^ 32) vs /\ d = concat (le_enc 4 <$> vs) /\
    parse_msr_count_internal d = Ret vs.
Proof.
  intros Hd Hok Hm. destruct (split_blocks 4 (Z.to_nat (zlen d / 4)) d) as (ls & _ & Hls & E); [lia| |].
  { pose proof (zlen_nonneg d). pose proof (Z.div_mod (zlen d) 4 ltac:(lia)).
    pose proof (Z.div_pos (zlen d) 4). lia. }
  subst d. destruct (words_of_blocks 4 ls) as [Hv He]; [done|by apply concat_bytes_inv|].
  exists (le_val <$> ls). rewrite He. split_and!; [done|done|].
  rewrite <- He at 1. apply msr_complete; [done|by rewrite He].
Qed.

Lemma pdis_complete ps :
  Forall (fun p => zlen p = 8) ps -> vec_ok (concat ps) ->
  parse_switch_pdis_internal (concat ps) = Ret ps.
Proof.
  intros Hps Hok. unfold parse_switch_pdis_internal, PDI_DATA_SIZE.
  rewrite (concat_zlen 8), Z.mod_mul, Z.div_mul by done. unfold zlen at 1. rewrite Nat2Z.id.
  cbn. eapply (read_elements_concat (fun p => p) 8 _ ps (concat ps) [] []);
    [|done|by rewrite list_fmap_id, app_nil_r|done].
  intros pre p post Hp Ed. rewrite Forall_forall in Hps. specialize (Hps p Hp).
  assert (zlen (concat ps) = zlen pre + 8 + zlen post) by (rewrite Ed, !zlen_app; lia).
  pose proof (zlen_nonneg pre). pose proof (zlen_nonneg post). unfold vec_ok in *.
  rewrite checked_copy_n_full by (unfold vec_ok; done || lia || (vm_compute; congruence)).
  rewrite (proj2 (Z.leb_le _ _)) by lia. rewrite Ed. by rewrite slice_app.
Qed.

Lemma pdis_sound d :
  vec_ok d -> zlen d mod 8 = 0 ->
  exists ps, Forall (fun p => zlen p = 8) ps /\ d = concat ps /\ parse_switch_pdis_internal d = Ret ps.
Proof.
  intros Hok Hm. destruct (split_blocks 8 (Z.to_nat (zlen d / 8)) d) as (ls & _ & Hls & E); [lia| |].
  { pose proof (zlen_nonneg d). pose proof (Z.div_mod (zlen d) 8 ltac:(lia)).
    pose proof (Z.div_pos (zlen d) 8). lia. }
  subst d. exists ls. split_and!; [done|done|]. by apply pdis_complete.
Qed.

Lemma version_spec d :
  Forall is_byte d ->
  parse_opaque_data_version d = if zlen d <=? 8 then Ret (le_val d) else Err InternalError.
Proof.
  intros Hd. unfold parse_opaque_data_version, MAX_OPAQUE_DATA_VERSION_SIZE.
  destruct (zlen d <=? 8) eqn:E; [|done]. pose proof (zlen_nonneg d).
  rewrite read_little_endian_spec by (done || unfold vec_ok; lia).
  by rewrite slice_all.
Qed.

Lemma last_of_snoc t fs f :
  last_of t (fs ++ [f]) = if decide (Opaque.m_type f = t) then Some f else last_of t fs.
Proof.
  unfold last_of. rewrite filter_app, filter_cons, filter_nil. destruct (decide _).
  - by rewrite last_snoc.
  - by rewrite app_nil_r.
Qed.

Lemma version_fold fs v0 :
  Forall Opaque.wf_field fs ->
  Forall version_ok fs /\ ofold version_step fs v0 = Ret (version_of v0 fs) \/
  ~ Forall version_ok fs /\ ofold version_step fs v0 = Err InternalError.
Proof.
  induction fs as [|f fs IH] using rev_ind; intros Hwf; [by left|].
  apply Forall_app in Hwf as [Hwf (_ & _ & Hb)%Forall_singleton].
  rewrite Forall_app, Forall_singleton, ofold_app. unfold version_of. rewrite last_of_snoc.
  destruct (IH Hwf) as [(Hok & ->)|(Hok & ->)]; cbn [obind]; [|right; tauto].
  cbn [ofold]. unfold version_step, version_ok.
  destruct (Opaque.m_type f =? OPAQUE_DATA_VERSION) eqn:E;
    [rewrite decide_True by lia|rewrite decide_False by lia].
  - rewrite version_spec by done. destruct (zlen _ <=? 8) eqn:E8; [left|right]; cbn.
    + split; [split; [done|lia]|done].
    + split; [|done]. intros [_ H]. specialize (H ltac:(lia)). lia.
  - left. cbn. split; [split; [done|lia]|done].
Qed.

Lemma parse_value_spec f :
  Opaque.wf_field f -> 1 <= Opaque.m_type f <= 36 ->
  field_ok f /\ (exists v, parse_value (Opaque.m_type f) (Opaque.m_data f) = Ret v) \/
  ~ field_ok f /\ parse_value (Opaque.m_type f) (Opaque.m_data f) = Err InternalError.
Proof.
  intros (Ht & Hl & Hb) Hv. assert (Hok : vec_ok (Opaque.m_data f)) by (unfold vec_ok; lia).
  unfold parse_value, field_ok. destruct (Opaque.m_type f =? MSRSCNT) eqn:E1.
  - destruct (decide (zlen (Opaque.m_data f) mod 4 = 0)) as [Hm|Hm]; [left|right].
    + destruct (msr_sound (Opaque.m_data f)) as (vs & _ & _ & ->); [done..|].
      split; [|by eexists]. split_and!; [lia|lia|done|]. unfold MSRSCNT, SWITCH_PDI in *. lia.
    + split; [intros (_ & H & _); apply Hm, H; lia|].
      unfold parse_msr_count_internal, MSR_COUNT_ELEMENT_SIZE.
      by replace (zlen (Opaque.m_data f) mod 4 =? 0) with false by lia.
  - destruct (Opaque.m_type f =? SWITCH_PDI) eqn:E2.
    + destruct (decide (zlen (Opaque.m_data f) mod 8 = 0)) as [Hm|Hm]; [left|right].
      * destruct (pdis_sound (Opaque.m_data f)) as (vs & _ & _ & ->); [done..|].
        split; [|by eexists]. split_and!; [lia|lia| |done]. lia.
      * split; [intros (_ & _ & H); apply Hm, H; lia|].
        unfold parse_switch_pdis_internal, PDI_DATA_SIZE.
        by replace (zlen (Opaque.m_data f) mod 8 =? 0) with false by lia.
    + left. split; [|by eexists]. split_and!; lia.
Qed.

(** One step of the second loop. *)
Lemma field_step_spec m f :
  Opaque.wf_field f ->
  field_ok f /\ (exists v, parse_value (Opaque.m_type f) (Opaque.m_data f) = Ret v /\
    field_step m f = Ret (<[Opaque.m_type f := v]> m)) \/
  ~ field_ok f /\ exists e, field_step m f = Err e.
Proof.
  intros Hwf. unfold field_step, is_valid_gpu_opaque_data_type.
  destruct ((1 <=? Opaque.m_type f) && (Opaque.m_type f <=? 36)) eqn:Hv.
  2: { right. split; [intros (H & _); lia|by eexists]. }
  destruct (parse_value_spec f Hwf) as [(Hok & v & E)|(Hok & E)]; [lia|left|right];
    rewrite E; cbn [obind]; eauto.
Qed.

Lemma field_fold fs m :
  Forall Opaque.wf_field fs ->
  Forall field_ok fs /\ (exists m', ofold field_step fs m = Ret m' /\ forall t,
    match last_of t fs with
    | Some f => exists v, parse_value t (Opaque.m_data f) = Ret v /\ m' !! t = Some v
    | None => m' !! t = m !! t
    end) \/
  ~ Forall field_ok fs /\ exists e, ofold field_step fs m = Err e.
Proof.
  induction fs as [|f fs IH] using rev_ind; intros Hwf; [left; cbn; eauto|].
  apply Forall_app in Hwf as [Hwf Hf]. rewrite Forall_singleton in Hf.
  rewrite Forall_app, Forall_singleton, ofold_app.
  destruct (IH Hwf) as [(Hok & m1 & -> & Hm1)|(Hok & e & ->)]; cbn [obind];
    [|right; split; [tauto|by eexists]]. cbn [ofold].
  destruct (field_step_spec m1 f Hf) as [(Hfok & v & Ev & ->)|(Hfok & e & ->)]; cbn [obind];
    [left|right; split; [tauto|by eexists]].
  split; [done|]. eexists. split; [done|]. intros t. rewrite last_of_snoc.
  destruct (decide (Opaque.m_type f = t)) as [<-|Hne].
  - exists v. by rewrite lookup_insert_eq.
  - rewrite lookup_insert_ne by done. apply Hm1.
Qed.

(** ** Properties *)

(** P: the measurement-count field holds exactly the little-endian 32-bit words
    of its bytes: the parser returns a list of counts precisely when the bytes
    are their encodings one after the other. *)
Theorem gpu_msr_count_iff d vs :
  Forall is_byte d -> vec_ok d ->
  parse_msr_count_internal d = Ret vs <->
  Forall (fun v => 0 <= v < 2 ^ 32) vs /\ d = concat (le_enc 4 <$> vs).
Proof.
  intros Hd Hok. split.
  - intros H. assert (Hm : zlen d mod 4 = 0).
    { unfold parse_msr_count_internal, MSR_COUNT_ELEMENT_SIZE in H.
      destruct (zlen d mod 4 =? 0) eqn:E; [lia|discriminate]. }
    destruct (msr_sound d Hd Hok Hm) as (vs' & Hv & E & E'). rewrite H in E'. by injection E' as ->.
  - intros (Hv & ->). by apply msr_complete.
Qed.

Lemma gpu_msr_count_iff_witness :
  parse_msr_count_internal [1; 0; 0; 0; 2; 1; 0; 0] = Ret [1; 258].
Proof.
  apply (gpu_msr_count_iff [1; 0; 0; 0; 2; 1; 0; 0]); [repeat constructor; done|done|].
  split; [repeat constructor; done|done].
Defined.

(** P: [GpuOpaqueDataParser::create] accepts a list of parsed fields exactly
    when every field has a known type and a size that fits it, and the announced
    version is at most 1; on success each type maps to the value of its last
    field and to nothing when it has none, and otherwise an error code is
    returned. *)
Theorem gpu_opaque_create_spec fs :
  Forall Opaque.wf_field fs ->
  (Forall version_ok fs /\ version_of 0 fs <= 1 /\ Forall field_ok fs ->
   exists p, create fs = Ret p /\ m_opaque_data_version p = version_of 0 fs /\
     forall t, match last_of t fs with
               | Some f => exists v, parse_value t (Opaque.m_data f) = Ret v /\ get_field p t = Ret v
               | None => get_field p t = Err SpdmFieldNotFound
               end) /\
  (~ (Forall version_ok fs /\ version_of 0 fs <= 1 /\ Forall field_ok fs) ->
   exists e, create fs = Err e).
Proof.
  intros Hwf. unfold create, MAX_OPAQUE_DATA_VERSION.
  destruct (version_fold fs 0 Hwf) as [(Hv & ->)|(Hv & ->)]; cbn [obind]; [|split; [tauto|eauto]].
  destruct (version_of 0 fs <=? 1) eqn:E; [|split; [intros (_ & H & _); lia|eauto]].
  destruct (field_fold fs ∅ Hwf) as [(Hf & m & -> & Hm)|(Hf & e & ->)]; cbn [obind];
    [|split; [tauto|eauto]].
  split; [|intros []; split_and!; (done || lia)]. intros _. eexists. split_and!; [done..|].
  intros t. specialize (Hm t). unfold get_field. cbn [m_fields]. destruct (last_of t fs).
  - destruct Hm as (v & ? & ->). eauto.
  - by rewrite Hm, lookup_empty.
Qed.

Lemma gpu_opaque_create_spec_witness :
  exists p, create [Opaque.mk_field [5] 3; Opaque.mk_field [1; 0; 0; 0] 12] = Ret p /\
    get_field p 12 = Ret (UINT32_VECTOR [1]) /\ get_field p 4 = Err SpdmFieldNotFound.
Proof.
  destruct (gpu_opaque_create_spec [Opaque.mk_field [5] 3; Opaque.mk_field [1; 0; 0; 0] 12]) as [H _].
  { repeat constructor; done. }
  destruct H as (p & Hc & _ & Hp).
  { split_and!; [repeat constructor; done|done|repeat constructor; done]. }
  exists p. split; [done|]. pose proof (Hp 12) as (v & [= <-] & ->). split; [done|]. apply (Hp 4).
Defined.

End GpuOpaqueFacts.
