(* ===== verification/SwitchOpaqueData.v ===== *)
(** * SwitchOpaqueData: the typed opaque fields of an NVSwitch

    src/switch/spdm/switch_opaque_data_parser.cpp and its header: the parsed
    values, the count, PDI/port and disabled-port parsers and
    [SwitchOpaqueDataParser::create]. *)

From S2P Require Import Prelude Errors Utils SpdmOpaqueData GpuOpaqueData.

Module SwitchOpaque.

Definition VBIOS_VERSION : Z := 6.
Definition MSRSCNT : Z := 12.
Definition FWID : Z := 20.
Definition DEVICE_PDI : Z := 22.
Definition DISABLED_PORTS : Z := 23.
Definition SWITCH_POSITION_ID : Z := 24.
Definition SWITCH_LOCK_STATUS : Z := 25.
Definition SWITCH_GPU_PDIS : Z := 26.
Definition SWITCH_PORTS : Z := 27.

Definition is_valid_switch_opaque_data_type (data_type_val_raw : Z) : bool :=
  (1 <=? data_type_val_raw) && (data_type_val_raw <=? 27).

(** The named types, with the names [to_string] prints. *)
Definition type_names : list (Z * string) :=
  [(1, "CERT_ISSUER_NAME"); (2, "CERT_AUTHORITY_KEY_IDENTIFIER"); (3, "DRIVER_VERSION");
   (4, "GPU_INFO"); (5, "SKU"); (6, "VBIOS_VERSION"); (7, "MANUFACTURER_ID");
   (8, "TAMPER_DETECTION"); (9, "SMC"); (10, "VPR"); (11, "NVDEC0_STATUS"); (12, "MSRSCNT");
   (13, "CPRINFO"); (14, "BOARD_ID"); (15, "CHIP_SKU"); (16, "CHIP_SKU_MOD"); (17, "PROJECT");
   (18, "PROJECT_SKU"); (19, "PROJECT_SKU_MOD"); (20, "FWID"); (21, "PROTECTED_PCIE_STATUS");
   (22, "DEVICE_PDI"); (23, "DISABLED_PORTS"); (24, "SWITCH_POSITION_ID");
   (25, "SWITCH_LOCK_STATUS"); (26, "SWITCH_GPU_PDIS"); (27, "SWITCH_PORT");
   (255, "INVALID"); (0, "UNKNOWN")].

Definition to_string (type : Z) : string :=
  match list_find (fun p => fst p = type) type_names with
  | Some (_, (_, name)) => "OPAQUE_FIELD_ID_" +:+ name
  | None => "UNKNOWN_OPAQUE_TYPE(0x" +:+ hex_u16 type +:+ ")"
  end.

Definition PDI_DATA_SIZE : Z := 8.
Definition MSR_COUNT_ELEMENT_SIZE : Z := 4.
Definition PORT_ID_SIZE : Z := 1.
Definition TOTAL_NUMBER_OF_PDI : Z := 8.

(** [SwitchParsedOpaqueFieldData] with its active type. *)
Inductive SwitchParsedOpaqueFieldData : Type :=
| BYTE_VECTOR (m_byte_data : list Z)
| UINT32_VECTOR (m_uint32_data : list Z)
| PDI_VECTOR (m_pdi_data : list (list Z))
| PORT_VECTOR (m_port_data : list (list Z)).

Definition get_byte_vector (f : SwitchParsedOpaqueFieldData) : res (list Z) :=
  match f with BYTE_VECTOR d => Ret d | _ => Err SpdmFieldNotFound end.

Definition get_uint32_vector (f : SwitchParsedOpaqueFieldData) : res (list Z) :=
  match f with UINT32_VECTOR d => Ret d | _ => Err SpdmFieldNotFound end.

Definition get_pdi_vector (f : SwitchParsedOpaqueFieldData) : res (list (list Z)) :=
  match f with PDI_VECTOR d => Ret d | _ => Err SpdmFieldNotFound end.

Definition get_port_vector (f : SwitchParsedOpaqueFieldData) : res (list (list Z)) :=
  match f with PORT_VECTOR d => Ret d | _ => Err SpdmFieldNotFound end.

Definition parse_msr_count_internal (data_bytes : list Z) : res (list Z) :=
  check* zlen data_bytes mod MSR_COUNT_ELEMENT_SIZE =? 0 else InternalError in
  read_elements MSR_COUNT_ELEMENT_SIZE
    (fun offset => read_little_endian 32 data_bytes offset MSR_COUNT_ELEMENT_SIZE)
    (Z.to_nat (zlen data_bytes / MSR_COUNT_ELEMENT_SIZE)) 0.

(** The [while] loop over one-byte port ids; [UB] marks fuel that ran out. *)
Fixpoint parse_ports (fuel : nat) (data_bytes : list Z) (offset : Z) : res (list (list Z)) :=
  match fuel with
  | O => UB
  | S fuel =>
      if offset <? zlen data_bytes then
        let* port_element :=
          or_err (checked_copy_n (replicate 1 0) data_bytes offset PORT_ID_SIZE) InternalError in
        let* ports := parse_ports fuel data_bytes (offset + PORT_ID_SIZE) in
        Ret (port_element :: ports)
      else Ret []
  end.

Definition parse_pdis_internal (data_bytes : list Z) : res (list (list Z) * list (list Z)) :=
  let* pdis :=
    read_elements PDI_DATA_SIZE
      (fun offset => checked_copy_n (replicate 8 0) data_bytes offset PDI_DATA_SIZE)
      (Z.to_nat TOTAL_NUMBER_OF_PDI) 0 in
  let* ports :=
    parse_ports (S (length data_bytes)) data_bytes (TOTAL_NUMBER_OF_PDI * PDI_DATA_SIZE) in
  Ret (pdis, ports).

(** [parse_floorswept_ports_internal]: every bit, most significant first,
    stands for four ports. *)
Definition port_bits (byte_val : Z) : list Z :=
  i ← [7; 6; 5; 4; 3; 2; 1; 0];
  if negb (Z.land (Z.shiftr byte_val i) 1 =? 0) then replicate 4 1 else replicate 4 0.

Definition parse_floorswept_ports_internal (data_bytes : list Z) : list Z :=
  byte_val ← data_bytes; port_bits byte_val.

(** The loop body of [create]. *)
Definition field_step (fields : gmap Z SwitchParsedOpaqueFieldData)
    (field : Opaque.ParsedOpaqueFieldData) : res (gmap Z SwitchParsedOpaqueFieldData) :=
  let type := Opaque.m_type field in
  let data := Opaque.m_data field in
  check* is_valid_switch_opaque_data_type type else BadArgument in
  if type =? MSRSCNT then
    let* msr_counts := parse_msr_count_internal data in
    Ret (<[type := UINT32_VECTOR msr_counts]> fields)
  else if type =? SWITCH_GPU_PDIS then
    let* (pdis, ports) := parse_pdis_internal data in
    Ret (<[type := PDI_VECTOR pdis]> (<[SWITCH_PORTS := PORT_VECTOR ports]> fields))
  else if type =? DISABLED_PORTS then
    Ret (<[type := BYTE_VECTOR (parse_floorswept_ports_internal data)]> fields)
  else Ret (<[type := BYTE_VECTOR data]> fields).

Definition create (opaque_fields : list Opaque.ParsedOpaqueFieldData) :
    res (gmap Z SwitchParsedOpaqueFieldData) :=
  ofold field_step opaque_fields ∅.

Definition get_field (fields : gmap Z SwitchParsedOpaqueFieldData) (type : Z) :
    res SwitchParsedOpaqueFieldData :=
  match fields !! type with
  | Some f => Ret f
  | None => Err SpdmFieldNotFound
  end.

(** ** Lemmas *)

Lemma parse_ports_spec fuel d pre ps :
  vec_ok d -> d = pre ++ ps -> zlen ps < Z.of_nat fuel ->
  parse_ports fuel d (zlen pre) = Ret ((fun p => [p]) <$> ps).
Proof.
  intros Hok. revert pre ps. induction fuel as [|fuel IH]; intros pre ps Ed Hf.
  { pose proof (zlen_nonneg ps). lia. }
  cbn [parse_ports]. pose proof (zlen_nonneg pre). pose proof (zlen_nonneg ps).
  assert (Hz : zlen d = zlen pre + zlen ps) by (rewrite Ed, zlen_app; lia).
  destruct ps as [|p ps].
  { rewrite Hz, (zlen_nil (A:=Z)). by replace (zlen pre <? zlen pre + 0) with false by lia. }
  rewrite zlen_cons in *. pose proof (zlen_nonneg ps).
  replace (zlen pre <? zlen d) with true by lia. unfold PORT_ID_SIZE, vec_ok in *.
  rewrite checked_copy_n_full by (unfold vec_ok; done || lia || (vm_compute; congruence)).
  replace (zlen pre + 1 <=? zlen d) with true by lia. cbn [obind or_err].
  replace (zlen pre + 1) with (zlen (pre ++ [p])) by len_tac.
  rewrite (IH _ ps) by (rewrite <- ?app_assoc; done || lia). cbn [obind].
  rewrite Ed. rewrite (slice_app pre [p] ps) by done. done.
Qed.

Lemma parse_pdis_complete ps ports :
  Forall (fun p => zlen p = 8) ps -> length ps = 8%nat -> vec_ok (concat ps ++ ports) ->
  parse_pdis_internal (concat ps ++ ports) = Ret (ps, (fun p => [p]) <$> ports).
Proof.
  intros Hps Hl Hok. set (d := _ ++ _) in *. unfold parse_pdis_internal.
  assert (Hc : zlen (concat ps) = 64) by (rewrite (concat_zlen 8) by done; unfold zlen; by rewrite Hl).
  change (Z.to_nat TOTAL_NUMBER_OF_PDI) with 8%nat. rewrite <- Hl.
  rewrite (read_elements_concat (fun p => p) PDI_DATA_SIZE _ ps d [] ports);
    [|intros pre p post Hp Ed|done|by rewrite list_fmap_id|done].
  - cbn [obind]. change (TOTAL_NUMBER_OF_PDI * PDI_DATA_SIZE) with 64. rewrite <- Hc.
    rewrite (parse_ports_spec _ d _ ports); [done|done|done|].
    unfold zlen, d. rewrite length_app. lia.
  - rewrite Hl, Forall_forall in *. specialize (Hps p Hp).
    assert (zlen d = zlen pre + 8 + zlen post) by (rewrite Ed, !zlen_app; lia).
    pose proof (zlen_nonneg pre). pose proof (zlen_nonneg post). unfold PDI_DATA_SIZE, vec_ok in *.
    rewrite checked_copy_n_full by (unfold vec_ok; done || lia || (vm_compute; congruence)).
    rewrite (proj2 (Z.leb_le _ _)) by lia. rewrite Ed. by rewrite slice_app.
Qed.

Lemma parse_pdis_short d : vec_ok d -> zlen d < 64 -> parse_pdis_internal d = Err InternalError.
Proof.
  intros Hok Hs. unfold parse_pdis_internal. change (Z.to_nat TOTAL_NUMBER_OF_PDI) with 8%nat.
  assert (R : forall i, 0 <= i < 8 -> exists o,
    checked_copy_n (replicate 8 0) d (i * PDI_DATA_SIZE) PDI_DATA_SIZE = Ret o /\
    (i = 7 -> o = None)).
  { intros i Hi. unfold PDI_DATA_SIZE.
    rewrite checked_copy_n_full by (unfold vec_ok in *; done || lia). eexists. split; [done|].
    intros ->. by replace (7 * 8 + 8 <=? zlen d) with false by lia. }
  cbn [read_elements].
  do 8 (match goal with |- context [checked_copy_n _ _ (?i * _) _] =>
    destruct (R i ltac:(lia)) as (? & -> & ?) end;
    match goal with H : _ -> ?o = None |- _ => destruct o; [|done] end; cbn [obind or_err]).
  match goal with H : _ -> Some _ = None |- _ => by specialize (H ltac:(lia)) end.
Qed.

Lemma parse_pdis_sound d :
  vec_ok d -> 64 <= zlen d ->
  exists ps ports, length ps = 8%nat /\ Forall (fun p => zlen p = 8) ps /\ d = concat ps ++ ports /\
    parse_pdis_internal d = Ret (ps, (fun p => [p]) <$> ports).
Proof.
  intros Hok Hl. destruct (split_blocks 8 8 (take 64 d)) as (ps & Hps & Hf & E); [lia| |].
  { unfold zlen in *. rewrite length_take. lia. }
  exists ps, (drop 64 d).
  assert (Ed : d = concat ps ++ drop 64 d) by (by rewrite <- E, take_drop).
  split_and!; try done. rewrite Ed at 1. apply parse_pdis_complete; try done. by rewrite <- Ed.
Qed.

Lemma concat_singletons (l : list Z) : concat ((fun p => [p]) <$> l) = l.
Proof. induction l; cbn; congruence. Qed.

Lemma singletons_inv (ls : list (list Z)) :
  Forall (fun p => zlen p = 1) ls -> exists l, ls = (fun p => [p]) <$> l.
Proof.
  induction 1 as [|p ls Hp Hls (l & ->)]; [by exists []|].
  destruct p as [|x [|y p]]; [done| |]; rewrite !zlen_cons in Hp.
  - by exists (x :: l).
  - pose proof (zlen_nonneg p). lia.
Qed.

Lemma port_bits_length b : length (port_bits b) = 32%nat.
Proof.
  unfold port_bits. cbn. rewrite !length_app.
  repeat case_match; done.
Qed.

Lemma port_bits_lookup b k :
  is_byte b -> (k < 32)%nat ->
  port_bits b !! k = Some (if Z.testbit b (7 - Z.of_nat k / 4) then 1 else 0).
Proof.
  intros Hb Hk.
  assert (F : Forall (fun b => Forall (fun k =>
    port_bits b !! k = Some (if Z.testbit b (7 - Z.of_nat k / 4) then 1 else 0)) (seq 0 32)) all_bytes).
  { apply (bool_decide_unpack _). by vm_compute. }
  rewrite Forall_forall in F. specialize (F b (in_all_bytes b Hb)).
  rewrite Forall_forall in F. apply F, elem_of_seq. lia.
Qed.

Lemma ports_app d1 d2 :
  parse_floorswept_ports_internal (d1 ++ d2) =
  parse_floorswept_ports_internal d1 ++ parse_floorswept_ports_internal d2.
Proof. unfold parse_floorswept_ports_internal. by rewrite bind_app. Qed.

Lemma ports_length d : length (parse_floorswept_ports_internal d) = (32 * length d)%nat.
Proof.
  induction d as [|b d IH]; [done|].
  change (b :: d) with ([b] ++ d). rewrite ports_app, !length_app, IH.
  unfold parse_floorswept_ports_internal at 1. cbn [mbind list_bind]. rewrite app_nil_r.
  rewrite port_bits_length. cbn. lia.
Qed.

(** ** Properties *)

(** P: the GPU-PDI field of a switch is eight 8-byte identifiers followed by
    one byte per port: on such data the parser returns them, and data shorter
    than 64 bytes is rejected with InternalError. *)
Theorem switch_pdis_spec d :
  vec_ok d ->
  (forall ps ports, parse_pdis_internal d = Ret (ps, ports) <->
     length ps = 8%nat /\ Forall (fun p => zlen p = 8) ps /\ Forall (fun p => zlen p = 1) ports /\
     d = concat ps ++ concat ports) /\
  (zlen d < 64 -> parse_pdis_internal d = Err InternalError).
Proof.
  intros Hok. split.
  - intros ps ports. split.
    + intros H. destruct (decide (zlen d < 64)) as [Hs|Hs].
      { by rewrite parse_pdis_short in H. }
      destruct (parse_pdis_sound d Hok ltac:(lia)) as (ps' & pt & Hl & Hps & Ed & E).
      rewrite H in E. injection E as -> ->. split_and!; try done.
      * by apply Forall_fmap, Forall_true.
      * by rewrite concat_singletons.
    + intros (Hl & Hps & Hpt & Ed). destruct (singletons_inv ports Hpt) as (pt & ->).
      rewrite concat_singletons in Ed. subst d. by apply parse_pdis_complete.
  - by apply parse_pdis_short.
Qed.

Lemma switch_pdis_spec_witness :
  parse_pdis_internal (replicate 64 7 ++ [1; 2]) = Ret (replicate 8 (replicate 8 7), [[1]; [2]]).
Proof.
  apply (switch_pdis_spec (replicate 64 7 ++ [1; 2])); [done|].
  split_and!; [done|repeat constructor; done|repeat constructor; done|done].
Defined.

(** P: the disabled-port bitmap is expanded to one entry per port: port [p]'s
    entry is the bit of the byte [p / 32], most significant bit first, that
    covers the group of four ports [p] lies in. *)
Theorem switch_disabled_ports_spec d k b :
  Forall is_byte d -> d !! (k / 32)%nat = Some b ->
  length (parse_floorswept_ports_internal d) = (32 * length d)%nat /\
  parse_floorswept_ports_internal d !! k =
    Some (if Z.testbit b (7 - Z.of_nat (k mod 32) / 4) then 1 else 0).
Proof.
  intros Hd Hb. split; [apply ports_length|].
  rewrite <- (take_drop_middle d (k / 32) b Hb).
  change (b :: drop (S (k / 32)) d) with ([b] ++ drop (S (k / 32)) d). rewrite !ports_app.
  pose proof (lookup_lt_Some _ _ _ Hb) as Hlt.
  pose proof (Nat.div_mod k 32 ltac:(lia)). pose proof (Nat.mod_upper_bound k 32 ltac:(lia)).
  rewrite lookup_app_r by (rewrite ports_length, length_take; lia).
  rewrite ports_length, length_take, Nat.min_l by lia.
  replace (k - 32 * (k / 32))%nat with (k mod 32)%nat by lia.
  change (parse_floorswept_ports_internal [b]) with (port_bits b ++ []). rewrite app_nil_r.
  rewrite lookup_app_l by (rewrite port_bits_length; lia).
  apply port_bits_lookup; [|lia]. by eapply Forall_lookup_1.
Qed.

Lemma switch_disabled_ports_spec_witness :
  parse_floorswept_ports_internal [0; 64] !! 36%nat = Some 1.
Proof.
  apply (switch_disabled_ports_spec [0; 64] 36 64); [repeat constructor; done|done].
Defined.

End SwitchOpaque.
