(* ===== verification/NvCache.v ===== *)
(** * NvCache: the size-bounded LRU cache with a time to live

    src/nv_cache.cpp ([NvCache]).  The two [std::list]s are lists of nodes with
    an identity, the iterators kept in the map are those identities, and using
    an iterator whose node is gone is undefined behaviour, as is the
    [m_cache[key]] of [remove_helper] for a key that is not there.  Here
    operations are atomic steps; that threads see them so is proved in
    CacheThreads.v; [time(nullptr)] is read several times in an operation, so
    [now k] is its [k]-th reading.  [INvCache], the interface the RIM store and
    the OCSP client use, is a class whose laws the implementation discharges. *)

From S2P Require Import Prelude Errors.

(** ** The interface *)

Class INvCache (C V : Type) : Type := {
  cache_put : C -> string -> V -> Z -> (nat -> Z) -> res C;
  cache_get : C -> string -> Z -> res (V * C);
  cache_remove : C -> string -> res C;
  cache_inv : C -> Prop;
  cache_clock : C -> (nat -> Z) -> Prop;
  cache_content : C -> string -> option V;
  cache_put_defined c k v n now :
    cache_inv c -> 0 <= n < 2 ^ 64 -> cache_clock c now -> defined (cache_put c k v n now);
  cache_put_law c k v n now c' :
    cache_inv c -> 0 <= n < 2 ^ 64 -> cache_put c k v n now = Ret c' ->
    cache_inv c' /\ cache_content c' k = Some v /\
    forall k', k' <> k -> cache_content c' k' = cache_content c k' \/ cache_content c' k' = None;
  cache_get_defined c k t : cache_inv c -> defined (cache_get c k t);
  cache_get_miss c k t e : cache_inv c -> cache_get c k t = Err e -> e = CacheObjectNotFound;
  cache_get_law c k t v c' :
    cache_inv c -> cache_get c k t = Ret (v, c') ->
    cache_inv c' /\ cache_content c k = Some v /\ (forall k', cache_content c' k' = cache_content c k');
  cache_remove_law c k : cache_inv c ->
    exists c', cache_remove c k = Ret c' /\ cache_inv c' /\ cache_content c' k = None /\
      forall k', k' <> k -> cache_content c' k' = cache_content c k';
}.

(** ** The implementation *)

Module NvCache.

Section cache.

Context {V : Type}.

Definition DEFAULT_MAX_SIZE : Z := 1024 * 1024.
Definition DEFAULT_TTL : Z := 60 * 60.

Record NvCacheOptions : Type := mk_options {
  max_size_bytes : Z;
  ttl_seconds : Z;
}.

Record NvCacheObject : Type := mk_object {
  m_value : V;
  m_size_bytes : Z;
  m_expiry_time : Z;
  m_lru_node_ptr : nat;
  m_insertion_node_ptr : nat;
}.

(** [next_node] names the next list node to be allocated. *)
Record NvCache : Type := mk_cache {
  m_cache : gmap string NvCacheObject;
  m_lru_list : list (nat * string);
  m_insertion_list : list (nat * string);
  m_current_size_bytes : Z;
  m_options : NvCacheOptions;
  next_node : nat;
}.

(** The constructor: default options for a null pointer. *)
Definition ctor (options : option NvCacheOptions) : NvCache :=
  mk_cache ∅ [] [] 0
    (match options with Some o => o | None => mk_options DEFAULT_MAX_SIZE DEFAULT_TTL end) 0.

(** [l.erase(it)]. *)
Definition erase (it : nat) (l : list (nat * string)) : res (list (nat * string)) :=
  if bool_decide (it ∈ l.*1) then Ret (filter (fun n => n.1 <> it) l) else UB.

(** [l.splice(l.begin(), l, it)]. *)
Definition splice_front (it : nat) (l : list (nat * string)) : res (list (nat * string)) :=
  if bool_decide (it ∈ l.*1)
  then Ret (filter (fun n => n.1 = it) l ++ filter (fun n => n.1 <> it) l) else UB.

(** [remove_helper]: [m_cache[key]] on an absent key would insert an object
    with singular iterators, which the two [erase]s then use. *)
Definition remove_helper (c : NvCache) (key : string) : res NvCache :=
  match m_cache c !! key with
  | None => UB
  | Some o =>
      let current := u64 (m_current_size_bytes c - m_size_bytes o) in
      let* lru := erase (m_lru_node_ptr o) (m_lru_list c) in
      let* ins := erase (m_insertion_node_ptr o) (m_insertion_list c) in
      Ret (mk_cache (delete key (m_cache c)) lru ins current (m_options c) (next_node c))
  end.

(** [m_current_size_bytes + size_bytes > m_options->max_size_bytes] in
    [uint64_t]. *)
Definition too_big (c : NvCache) (size_bytes : Z) : bool :=
  max_size_bytes (m_options c) <? u64 (m_current_size_bytes c + size_bytes).

(** The first [while] of [put]: expired objects in insertion order, oldest
    first.  [k] counts the readings of the clock. *)
Fixpoint evict_expired (fuel : nat) (c : NvCache) (size_bytes : Z) (now : nat -> Z) (k : nat) :
    res (NvCache * nat) :=
  match fuel with
  | O => UB
  | S fuel =>
      match last (m_insertion_list c) with
      | None => Ret (c, k)
      | Some (_, oldest_key) =>
          if too_big c size_bytes then
            match m_cache c !! oldest_key with
            | None => UB
            | Some o =>
                if now k <? m_expiry_time o then Ret (c, S k)
                else
                  let* c := remove_helper c oldest_key in
                  evict_expired fuel c size_bytes now (S k)
            end
          else Ret (c, k)
      end
  end.

(** The second [while]: least recently used first. *)
Fixpoint evict_lru (fuel : nat) (c : NvCache) (size_bytes : Z) : res NvCache :=
  match fuel with
  | O => UB
  | S fuel =>
      match last (m_lru_list c) with
      | None => Ret c
      | Some (_, oldest_key) =>
          if too_big c size_bytes then
            let* c := remove_helper c oldest_key in
            evict_lru fuel c size_bytes
          else Ret c
      end
  end.

(** [time(nullptr) + m_options->ttl_seconds], both [time_t]: a signed sum that
    does not fit is undefined. *)
Definition expiry_time (now ttl : Z) : res Z :=
  let sum := now + ttl in if (- 2 ^ 63 <=? sum) && (sum <? 2 ^ 63) then Ret sum else UB.

Definition put (c : NvCache) (key : string) (value : V) (size_bytes : Z) (now : nat -> Z) :
    res NvCache :=
  check* size_bytes <=? max_size_bytes (m_options c) else BadArgument in
  let* c := if bool_decide (is_Some (m_cache c !! key)) then remove_helper c key else Ret c in
  let* (c, k) := evict_expired (S (length (m_insertion_list c))) c size_bytes now 0 in
  let* c := evict_lru (S (length (m_lru_list c))) c size_bytes in
  let n := next_node c in
  let* expiry := expiry_time (now k) (ttl_seconds (m_options c)) in
  Ret (mk_cache
    (<[key := mk_object value size_bytes expiry n n]> (m_cache c))
    ((n, key) :: m_lru_list c) ((n, key) :: m_insertion_list c)
    (u64 (m_current_size_bytes c + size_bytes)) (m_options c) (S n)).

Definition get (c : NvCache) (key : string) (now : Z) : res (V * NvCache) :=
  match m_cache c !! key with
  | None => Err CacheObjectNotFound
  | Some o =>
      if m_expiry_time o <=? now then Err CacheObjectNotFound
      else
        let* lru := splice_front (m_lru_node_ptr o) (m_lru_list c) in
        Ret (m_value o, mk_cache (m_cache c) lru (m_insertion_list c) (m_current_size_bytes c)
                          (m_options c) (next_node c))
  end.

Definition remove (c : NvCache) (key : string) : res NvCache :=
  match m_cache c !! key with
  | None => Ret c
  | Some o =>
      let current := u64 (m_current_size_bytes c - m_size_bytes o) in
      let* lru := erase (m_lru_node_ptr o) (m_lru_list c) in
      let* ins := erase (m_insertion_node_ptr o) (m_insertion_list c) in
      Ret (mk_cache (delete key (m_cache c)) lru ins current (m_options c) (next_node c))
  end.

Definition clear (c : NvCache) : NvCache :=
  mk_cache ∅ [] [] 0 (m_options c) (next_node c).

(** ** Invariant *)

(** The sizes of all objects. *)
Definition total (m : gmap string NvCacheObject) : Z :=
  map_fold (fun _ o acc => m_size_bytes o + acc) 0 m.

(** A list holds exactly one node per cached key, the one its object points
    to. *)
Definition tracks (ptr : NvCacheObject -> nat) (m : gmap string NvCacheObject)
    (l : list (nat * string)) : Prop :=
  NoDup l.*1 /\ forall n k, (n, k) ∈ l <-> exists o, m !! k = Some o /\ ptr o = n.

Record wf (c : NvCache) : Prop := mk_wf {
  wf_lru : tracks m_lru_node_ptr (m_cache c) (m_lru_list c);
  wf_ins : tracks m_insertion_node_ptr (m_cache c) (m_insertion_list c);
  wf_fresh : forall n, n ∈ (m_lru_list c).*1 ++ (m_insertion_list c).*1 -> (n < next_node c)%nat;
  wf_size : m_current_size_bytes c = total (m_cache c);
  wf_nonneg : forall k o, m_cache c !! k = Some o -> 0 <= m_size_bytes o;
  wf_bound : total (m_cache c) <= max_size_bytes (m_options c) < 2 ^ 63;
}.

(** Removing objects: what is left was there, in the same order. *)
Record restricts (c c' : NvCache) : Prop := mk_restricts {
  restricts_options : m_options c' = m_options c;
  restricts_next : next_node c' = next_node c;
  restricts_map : m_cache c' ⊆ m_cache c;
  restricts_lru : m_lru_list c' `sublist_of` m_lru_list c;
}.

(** Clock readings to which the time to live can be added. *)
Definition clock_ok (options : NvCacheOptions) (now : nat -> Z) : Prop :=
  forall j, - 2 ^ 63 <= now j + ttl_seconds options < 2 ^ 63.

(** One call of a client, and the states calls can reach from a new cache. *)
Inductive step (c : NvCache) : NvCache -> Prop :=
| step_put key value size now c' :
    0 <= size < 2 ^ 64 -> put c key value size now = Ret c' -> step c c'
| step_get key now v c' : get c key now = Ret (v, c') -> step c c'
| step_remove key c' : remove c key = Ret c' -> step c c'
| step_clear : step c (clear c).


(** What the cache holds for a key. *)
Definition content (c : NvCache) (k : string) : option V := m_value <$> m_cache c !! k.

(** A client's calls, and what each answers: a value, a success without one, or an
    error. *)
Inductive op : Type :=
| OpPut (key : string) (value : V) (size_bytes : Z) (now : nat -> Z)
| OpGet (key : string) (now : Z)
| OpRemove (key : string)
| OpClear.

(** A failed call changes nothing. *)
Definition call (o : op) (c : NvCache) : res (option V) * NvCache :=
  let ran (r : res NvCache) :=
    match r with Ret c' => (Ret None, c') | Err e => (Err e, c) | Throw x => (Throw x, c) | UB => (UB, c) end in
  match o with
  | OpPut key value size_bytes now => ran (put c key value size_bytes now)
  | OpGet key now =>
      match get c key now with
      | Ret (v, c') => (Ret (Some v), c')
      | Err e => (Err e, c)
      | Throw x => (Throw x, c)
      | UB => (UB, c)
      end
  | OpRemove key => ran (remove c key)
  | OpClear => (Ret None, clear c)
  end.

(** A session: the answers of its calls, in order. *)
Fixpoint session (ops : list op) (c : NvCache) : list (res (option V)) * NvCache :=
  match ops with
  | [] => ([], c)
  | o :: ops =>
      let '(r, c) := call o c in
      let '(rs, c) := session ops c in
      (r :: rs, c)
  end.

Definition op_ok (options : NvCacheOptions) (o : op) : Prop :=
  match o with OpPut _ _ size_bytes now => 0 <= size_bytes < 2 ^ 64 /\ clock_ok options now | _ => True end.

(** *** The specification: a bounded map with expiry *)

(** An entry: its value, its size and its expiry time. *)
Record entry : Type := mk_entry { e_value : V; e_size : Z; e_expiry : Z }.

Definition sizes (m : gmap string entry) : Z := map_fold (fun _ e acc => e_size e + acc) 0 m.

(** What a call may answer, and the map after it.  A put is refused exactly when
    the object is larger than the whole cache; otherwise its entry is there,
    with its expiry, and every other entry is as it was, or is gone because the
    new object did not fit beside them all; a get answers exactly what the map has for
    the key, unless it has expired. *)
Inductive spec_step (options : NvCacheOptions) (m : gmap string entry) :
    op -> res (option V) -> gmap string entry -> Prop :=
| spec_put_refused key v size now :
    max_size_bytes options < size ->
    spec_step options m (OpPut key v size now) (Err BadArgument) m
| spec_put key v size now j m' :
    size <= max_size_bytes options ->
    m' !! key = Some (mk_entry v size (now j + ttl_seconds options)) ->
    (forall k, k <> key -> m' !! k = m !! k \/ m' !! k = None) ->
    (sizes (delete key m) + size <= max_size_bytes options -> forall k, k <> key -> m' !! k = m !! k) ->
    sizes m' <= max_size_bytes options ->
    spec_step options m (OpPut key v size now) (Ret None) m'
| spec_get key now :
    spec_step options m (OpGet key now)
      (match m !! key with
       | Some e => if e_expiry e <=? now then Err CacheObjectNotFound else Ret (Some (e_value e))
       | None => Err CacheObjectNotFound
       end) m
| spec_remove key : spec_step options m (OpRemove key) (Ret None) (delete key m)
| spec_clear : spec_step options m OpClear (Ret None) ∅.

Inductive spec_session (options : NvCacheOptions) :
    gmap string entry -> list op -> list (res (option V)) -> gmap string entry -> Prop :=
| spec_nil m : spec_session options m [] [] m
| spec_cons m m1 m2 o ops r rs :
    spec_step options m o r m1 -> spec_session options m1 ops rs m2 ->
    spec_session options m (o :: ops) (r :: rs) m2.

(** The map that a cache stands for. *)
Definition abs (c : NvCache) : gmap string entry :=
  (fun o => mk_entry (m_value o) (m_size_bytes o) (m_expiry_time o)) <$> m_cache c.

(** ** Lemmas: totals *)

Lemma total_empty : total ∅ = 0.
Proof. apply map_fold_empty. Qed.

Lemma total_insert m k o : m !! k = None -> total (<[k := o]> m) = m_size_bytes o + total m.
Proof.
  intros H. unfold total. rewrite map_fold_insert_L; [done| |done]. intros. lia.
Qed.

Lemma total_delete m k o : m !! k = Some o -> total m = m_size_bytes o + total (delete k m).
Proof.
  intros H. unfold total. rewrite (map_fold_delete_L _ _ k o); [done| |done]. intros. lia.
Qed.

Lemma total_nonneg m : (forall k o, m !! k = Some o -> 0 <= m_size_bytes o) -> 0 <= total m.
Proof.
  induction m as [|k o m Hk IH] using map_ind; intros H; [by rewrite total_empty|].
  rewrite total_insert by done. pose proof (H k o). rewrite lookup_insert_eq in *.
  assert (0 <= total m).
  { apply IH. intros k' o' Hk'. apply (H k'). rewrite lookup_insert_ne; [done|]. by intros ->; simplify_eq. }
  specialize (H0 eq_refl). lia.
Qed.

(** ** Lemmas: the lists *)

Lemma tracks_in ptr m l k o : tracks ptr m l -> m !! k = Some o -> ptr o ∈ l.*1.
Proof. intros [_ H] Hk. apply list_elem_of_fmap. exists (ptr o, k). split; [done|]. apply H. eauto. Qed.

(** A node determines its key. *)
Lemma tracks_inj ptr m l n k k' : tracks ptr m l -> (n, k) ∈ l -> (n, k') ∈ l -> k = k'.
Proof.
  intros [Hnd _] H H'. apply list_elem_of_lookup in H as [i Hi], H' as [j Hj].
  assert (i = j) as ->.
  { eapply (NoDup_lookup l.*1); [done|..]; rewrite list_lookup_fmap, ?Hi, ?Hj; done. }
  congruence.
Qed.

Lemma tracks_erase ptr m l k o :
  tracks ptr m l -> m !! k = Some o ->
  tracks ptr (delete k m) (filter (fun n => n.1 <> ptr o) l).
Proof.
  intros Ht Hk. pose proof Ht as [Hnd Hin]. split.
  - eapply sublist_NoDup; [exact Hnd|]. apply fmap_sublist, sublist_filter.
  - intros n k'. rewrite list_elem_of_filter, Hin. cbn. split.
    + intros (Hne & o' & Hk' & <-). exists o'. split; [|done].
      apply lookup_delete_Some. split; [|done]. intros ->. congruence.
    + intros (o' & (Hne & Hk')%lookup_delete_Some & <-). split; [|eauto].
      intros E. apply Hne. eapply tracks_inj; [done|apply Hin; eauto|]. rewrite <- E. apply Hin; eauto.
Qed.

Lemma tracks_splice ptr m l n :
  tracks ptr m l -> tracks ptr m (filter (fun x => x.1 = n) l ++ filter (fun x => x.1 <> n) l).
Proof.
  intros [Hnd Hin].
  assert (P : filter (fun x => x.1 = n) l ++ filter (fun x => x.1 <> n) l ≡ₚ l)
    by apply filter_app_complement. split.
  - by rewrite P.
  - intros n' k. by rewrite P.
Qed.

Lemma tracks_cons ptr m l k o :
  tracks ptr m l -> m !! k = None -> ptr o ∉ l.*1 ->
  tracks ptr (<[k := o]> m) ((ptr o, k) :: l).
Proof.
  intros [Hnd Hin] Hk Hn. split.
  - cbn. by constructor.
  - intros n k'. rewrite elem_of_cons, Hin. split.
    + intros [[= -> ->]|(o' & Hk' & <-)]; [exists o; by rewrite lookup_insert_eq|].
      exists o'. rewrite lookup_insert_ne; [done|]. intros ->. congruence.
    + intros (o' & [(-> & ->)|(Hne & Hk')]%lookup_insert_Some & <-); [by left|right; eauto].
Qed.

Lemma tracks_length ptr m l : tracks ptr m l -> length l = size m.
Proof.
  intros Ht. pose proof Ht as [Hnd Hin].
  assert (E : l.*2 ≡ₚ (map_to_list m).*1).
  { apply NoDup_Permutation.
    - apply NoDup_fmap_2_strong; [|by eapply NoDup_fmap_1].
      intros [n k] [n' k'] H1 H2. cbn. intros ->. f_equal.
      apply Hin in H1 as (o & ? & <-), H2 as (o' & ? & <-). congruence.
    - apply NoDup_fst_map_to_list.
    - intros k. rewrite !list_elem_of_fmap. split.
      + intros ([n k'] & -> & (o & Hk & _)%Hin). exists (k', o). by rewrite elem_of_map_to_list.
      + intros ([k' o] & -> & Hk%elem_of_map_to_list). exists (ptr o, k'). split; [done|]. apply Hin; eauto. }
  apply Permutation_length in E. rewrite !length_fmap, length_map_to_list in E. done.
Qed.

Lemma tracks_nil ptr m : tracks ptr m [] -> m = ∅.
Proof. intros H%tracks_length. by apply map_size_empty_inv. Qed.

Lemma erase_last (l : list (nat * string)) x :
  NoDup (l ++ [x]).*1 -> filter (fun n => n.1 <> x.1) (l ++ [x]) = l.
Proof.
  rewrite fmap_app, NoDup_app. intros (_ & Hd & _). rewrite filter_app, filter_cons, filter_nil.
  rewrite decide_False by (intros H; by apply H). rewrite app_nil_r.
  induction l as [|y l IH]; [done|]. rewrite filter_cons, decide_True.
  - f_equal. apply IH. intros z Hz. apply Hd. by right.
  - intros E. eapply (Hd y.1); [by left|]. rewrite E. by left.
Qed.

(** ** Lemmas: removing objects *)

#[local] Instance restricts_preorder : PreOrder restricts.
Proof.
  split; [by intros c; split|].
  intros c1 c2 c3 [] []. split; [congruence|congruence|by etrans|by etrans].
Qed.

Lemma wf_remove c k o :
  wf c -> m_cache c !! k = Some o ->
  let c' := mk_cache (delete k (m_cache c)) (filter (fun n => n.1 <> m_lru_node_ptr o) (m_lru_list c))
    (filter (fun n => n.1 <> m_insertion_node_ptr o) (m_insertion_list c))
    (u64 (m_current_size_bytes c - m_size_bytes o)) (m_options c) (next_node c) in
  remove_helper c k = Ret c' /\ wf c' /\ restricts c c'.
Proof.
  intros [Hl Hi Hf Hs Hn Hb] Hk c'.
  assert (Ht : total (m_cache c) = m_size_bytes o + total (delete k (m_cache c)))
    by by apply total_delete.
  assert (Hn' : forall k' o', delete k (m_cache c) !! k' = Some o' -> 0 <= m_size_bytes o').
  { intros k' o' [_ H]%lookup_delete_Some. eauto. }
  pose proof (total_nonneg _ Hn'). pose proof (Hn k o Hk).
  split_and!.
  - unfold remove_helper, erase. rewrite Hk.
    rewrite !bool_decide_true by (by eapply tracks_in). done.
  - split; cbn; try done.
    + by apply tracks_erase.
    + by apply tracks_erase.
    + intros n. rewrite elem_of_app, !list_elem_of_fmap. intros Hx. apply Hf. apply elem_of_app.
      rewrite !list_elem_of_fmap. destruct Hx as [(x & ? & [_ ?]%list_elem_of_filter)|(x & ? & [_ ?]%list_elem_of_filter)];
        eauto.
    + rewrite wrap_small by lia. lia.
    + lia.
  - split; cbn; [done|done|apply delete_subseteq|apply sublist_filter].
Qed.

Lemma last_tracked ptr m l n k :
  tracks ptr m l -> last l = Some (n, k) -> exists o, m !! k = Some o /\ ptr o = n.
Proof. intros [_ Hin] Hl. apply Hin. apply last_Some in Hl as [l' ->]. apply elem_of_app. right. by left. Qed.

Lemma evict_expired_spec fuel c size now k :
  wf c -> (length (m_insertion_list c) < fuel)%nat ->
  exists c' k', evict_expired fuel c size now k = Ret (c', k') /\ wf c' /\ restricts c c' /\
    (too_big c size = false -> c' = c) /\
    forall key o, m_cache c !! key = Some o -> m_cache c' !! key = None ->
      exists j, m_expiry_time o <= now j.
Proof.
  revert c k. induction fuel as [|fuel IH]; intros c k Hwf Hf; [lia|]. cbn [evict_expired].
  assert (Hstop : forall k' : nat, exists c' k'', Ret (E:=Error) (c, k') = Ret (c', k'') /\ wf c' /\ restricts c c' /\
    (too_big c size = false -> c' = c) /\
    forall key o, m_cache c !! key = Some o -> m_cache c' !! key = None -> exists j, m_expiry_time o <= now j).
  { intros k'. exists c, k'. split_and!; try done. intros. congruence. }
  destruct (last (m_insertion_list c)) as [[n key]|] eqn:Hl; [|apply Hstop].
  destruct (too_big c size) eqn:Htb; [|apply Hstop].
  destruct (last_tracked _ _ _ _ _ (wf_ins c Hwf) Hl) as (o & Hk & Hptr). rewrite Hk.
  destruct (now k <? m_expiry_time o) eqn:He; [apply Hstop|].
  destruct (wf_remove c key o Hwf Hk) as (-> & Hwf' & Hr). cbn [obind].
  set (c1 := mk_cache _ _ _ _ _ _) in *.
  destruct (IH c1 (S k) Hwf') as (c2 & k2 & -> & Hwf2 & Hr2 & _ & Hexp).
  { pose proof (tracks_length _ _ _ (wf_ins c1 Hwf')) as H1.
    pose proof (tracks_length _ _ _ (wf_ins c Hwf)) as H2. unfold c1 in H1. cbn in H1.
    rewrite map_size_delete_Some in H1 by eauto. unfold c1. cbn. destruct (m_insertion_list c); [done|]. cbn in *. lia. }
  exists c2, k2. split_and!; [done|done|by etrans|done|].
  intros key' o' Hk' Hn. destruct (decide (key' = key)) as [->|Hne].
  - exists k. assert (o' = o) as -> by congruence. lia.
  - eapply Hexp; [|exact Hn]. cbn. by rewrite lookup_delete_ne.
Qed.

Lemma evict_lru_spec fuel c size :
  wf c -> (length (m_lru_list c) < fuel)%nat -> 0 <= size <= max_size_bytes (m_options c) ->
  exists c' ev, evict_lru fuel c size = Ret c' /\ wf c' /\ restricts c c' /\
    too_big c' size = false /\ m_lru_list c = m_lru_list c' ++ ev /\
    (too_big c size = false -> c' = c).
Proof.
  revert c. induction fuel as [|fuel IH]; intros c Hwf Hf Hs; [lia|]. cbn [evict_lru].
  destruct (last (m_lru_list c)) as [[n key]|] eqn:Hl.
  2: { exists c, []. apply last_None in Hl. split_and!; try done; [|by rewrite app_nil_r].
       destruct Hwf as [Ht _ _ Hcur _ Hb]. rewrite Hl in Ht. apply tracks_nil in Ht.
       rewrite Ht, total_empty in *. unfold too_big. rewrite Hcur, wrap_small by lia. lia. }
  destruct (too_big c size) eqn:Htb; [|exists c, []; rewrite app_nil_r; done].
  destruct (last_tracked _ _ _ _ _ (wf_lru c Hwf) Hl) as (o & Hk & Hptr).
  destruct (wf_remove c key o Hwf Hk) as (-> & Hwf' & Hr). cbn [obind].
  apply last_Some in Hl as [l El].
  assert (Ef : filter (fun x => x.1 <> m_lru_node_ptr o) (m_lru_list c) = l).
  { rewrite El, Hptr. apply (erase_last l (n, key)). rewrite <- El. apply (wf_lru c Hwf). }
  set (c1 := mk_cache _ _ _ _ _ _) in *.
  destruct (IH c1 Hwf') as (c2 & ev & -> & Hwf2 & Hr2 & Htb2 & Hev & _); [|done|].
  { unfold c1. cbn. rewrite Ef. rewrite El, length_app in Hf. cbn in Hf. lia. }
  exists c2, (ev ++ [(n, key)]). split_and!; [done|done|by etrans|done| |done].
  rewrite app_assoc, <- Hev. unfold c1. cbn. by rewrite Ef.
Qed.

Lemma wf_insert c key v size e :
  wf c -> m_cache c !! key = None -> 0 <= size < 2 ^ 64 -> size <= max_size_bytes (m_options c) ->
  too_big c size = false ->
  let n := next_node c in
  wf (mk_cache (<[key := mk_object v size e n n]> (m_cache c)) ((n, key) :: m_lru_list c)
        ((n, key) :: m_insertion_list c) (u64 (m_current_size_bytes c + size)) (m_options c) (S n)).
Proof.
  intros [Hl Hi Hf Hs Hn Hb] Hk Hsz Hmax Htb n. pose proof (total_nonneg _ Hn).
  unfold too_big in Htb. rewrite Hs, wrap_small in Htb by lia.
  assert (Hfr : forall l, l = (m_lru_list c).*1 \/ l = (m_insertion_list c).*1 -> n ∉ l).
  { intros l Hl' Hin. assert (n < n)%nat; [|lia]. apply Hf, elem_of_app. destruct Hl' as [<-| <-]; eauto. }
  split; cbn.
  - by apply (tracks_cons m_lru_node_ptr _ _ _ (mk_object v size e n n)); auto.
  - by apply (tracks_cons m_insertion_node_ptr _ _ _ (mk_object v size e n n)); auto.
  - intros m Hm. assert (m = n \/ (m < n)%nat) as [->|]; [|lia|lia].
    apply elem_of_cons in Hm as [->|Hm]; [by left|]. apply elem_of_app in Hm as [Hm|Hm].
    + right. apply Hf, elem_of_app. by left.
    + apply elem_of_cons in Hm as [->|Hm]; [by left|]. right. apply Hf, elem_of_app. by right.
  - rewrite total_insert, Hs, wrap_small by (done || lia). cbn. lia.
  - intros k o [(-> & <-)|(_ & Hk')]%lookup_insert_Some; [cbn; lia|eauto].
  - rewrite total_insert by done. cbn. lia.
Qed.

(** Before the eviction loops [put] drops an object with the same key. *)
Lemma put_drop c key :
  wf c ->
  exists c0, (if bool_decide (is_Some (m_cache c !! key)) then remove_helper c key else Ret c) = Ret c0 /\
    wf c0 /\ restricts c c0 /\ m_cache c0 = delete key (m_cache c).
Proof.
  intros Hwf. destruct (m_cache c !! key) as [o|] eqn:Hk.
  - rewrite bool_decide_true by eauto. destruct (wf_remove c key o Hwf Hk) as (-> & Hwf' & Hr). eauto.
  - rewrite bool_decide_false by (intros [? ?]; congruence). exists c. split_and!; try done.
    by rewrite delete_id.
Qed.

(** An object the second loop evicted is older than every survivor. *)
Lemma evicted_order c1 c2 ev k o n' k' :
  wf c1 -> wf c2 -> m_lru_list c1 = m_lru_list c2 ++ ev ->
  m_cache c1 !! k = Some o -> m_cache c2 !! k = None -> (n', k') ∈ m_lru_list c2 ->
  [(n', k'); (m_lru_node_ptr o, k)] `sublist_of` m_lru_list c1.
Proof.
  intros Hwf1 Hwf2 El Hk Hn Hin. rewrite El.
  assert (He : (m_lru_node_ptr o, k) ∈ ev).
  { assert (H : (m_lru_node_ptr o, k) ∈ m_lru_list c1) by (apply (wf_lru c1 Hwf1); eauto).
    rewrite El in H. apply elem_of_app in H as [H|H]; [|done].
    apply (wf_lru c2 Hwf2) in H as (o' & ? & _). congruence. }
  change [(n', k'); (m_lru_node_ptr o, k)] with ([(n', k')] ++ [(m_lru_node_ptr o, k)]).
  apply sublist_app; by apply singleton_sublist_l.
Qed.

Lemma expiry_time_Ret now ttl e : expiry_time now ttl = Ret e -> e = now + ttl.
Proof. unfold expiry_time. destruct (_ && _); congruence. Qed.

(** A put that fits does all its work but for the last sum. *)
Lemma put_work c key v size now :
  wf c -> 0 <= size < 2 ^ 64 -> size <= max_size_bytes (m_options c) ->
  exists c2 j, let n := next_node c in
    let e := now j + ttl_seconds (m_options c) in
    let c' := mk_cache (<[key := mk_object v size e n n]> (m_cache c2)) ((n, key) :: m_lru_list c2)
      ((n, key) :: m_insertion_list c2) (u64 (m_current_size_bytes c2 + size)) (m_options c) (S n) in
    put c key v size now = (let* _ := expiry_time (now j) (ttl_seconds (m_options c)) in Ret c') /\
    wf c' /\ restricts c c2 /\ m_cache c2 !! key = None /\
    (total (delete key (m_cache c)) + size <= max_size_bytes (m_options c) ->
     m_cache c2 = delete key (m_cache c)) /\
    forall k o, k <> key -> m_cache c !! k = Some o -> m_cache c2 !! k = None ->
      (exists j, m_expiry_time o <= now j) \/
      forall n' k', (n', k') ∈ m_lru_list c2 ->
        [(n', k'); (m_lru_node_ptr o, k)] `sublist_of` m_lru_list c.
Proof.
  intros Hwf Hs Hmax. unfold put. rewrite (proj2 (Z.leb_le _ _)) by done.
  destruct (put_drop c key Hwf) as (c0 & -> & Hwf0 & Hr0 & Hm0). cbn [obind].
  destruct (evict_expired_spec (S (length (m_insertion_list c0))) c0 size now 0 Hwf0)
    as (c1 & k1 & -> & Hwf1 & Hr1 & Hfit1 & Hexp1); [lia|]. cbn [obind].
  assert (Hr01 : restricts c c1) by by etrans.
  destruct (evict_lru_spec (S (length (m_lru_list c1))) c1 size Hwf1)
    as (c2 & ev & -> & Hwf2 & Hr2 & Htb2 & Hev2 & Hfit2); [lia|rewrite (restricts_options _ _ Hr01); lia|].
  assert (Hr02 : restricts c c2) by by etrans. cbn [obind].
  assert (Hnone : m_cache c2 !! key = None).
  { destruct (m_cache c2 !! key) eqn:E; [|done].
    eapply lookup_weaken in E; [|apply (restricts_map c0); by etrans]. by rewrite Hm0, lookup_delete_eq in E. }
  exists c2, k1. cbn zeta. rewrite <- (restricts_next _ _ Hr02), <- (restricts_options _ _ Hr02).
  split_and!; [|by apply wf_insert; rewrite ?(restricts_options _ _ Hr02)|done|done| |].
  - destruct (expiry_time _ _) as [e| | |] eqn:Ee; cbn [obind]; try done. by rewrite (expiry_time_Ret _ _ _ Ee).
  - rewrite (restricts_options _ _ Hr02). intros Hfit. assert (Htb0 : too_big c0 size = false).
    { unfold too_big. rewrite (wf_size _ Hwf0), Hm0, (restricts_options _ _ Hr0).
      pose proof (total_nonneg _ (wf_nonneg _ Hwf0)) as H0. rewrite Hm0 in H0.
      pose proof (wf_bound _ Hwf). rewrite wrap_small by lia. lia. }
    specialize (Hfit1 Htb0). subst c1. specialize (Hfit2 Htb0). by subst c2.
  - intros k o Hne Hk Hn. assert (Hk0 : m_cache c0 !! k = Some o) by (by rewrite Hm0, lookup_delete_ne).
    destruct (m_cache c1 !! k) as [o'|] eqn:Hk1; [|left; by eapply Hexp1].
    right. intros n' k' Hin. assert (o' = o) as ->.
    { eapply lookup_weaken in Hk1; [|apply (restricts_map _ _ Hr1)]. congruence. }
    etrans; [eapply (evicted_order c1 c2); eassumption|apply restricts_lru, Hr01].
Qed.

(** A put that returned. *)
Lemma put_spec c key v size now c' :
  wf c -> 0 <= size < 2 ^ 64 -> put c key v size now = Ret c' ->
  size <= max_size_bytes (m_options c) /\
  exists c2 j, let n := next_node c in
    wf c' /\ restricts c c2 /\ m_cache c2 !! key = None /\
    m_cache c' = <[key := mk_object v size (now j + ttl_seconds (m_options c)) n n]> (m_cache c2) /\
    m_options c' = m_options c /\ m_lru_list c' = (n, key) :: m_lru_list c2 /\
    (total (delete key (m_cache c)) + size <= max_size_bytes (m_options c) ->
     m_cache c2 = delete key (m_cache c)) /\
    forall k o, k <> key -> m_cache c !! k = Some o -> m_cache c2 !! k = None ->
      (exists j, m_expiry_time o <= now j) \/
      forall n' k', (n', k') ∈ m_lru_list c2 ->
        [(n', k'); (m_lru_node_ptr o, k)] `sublist_of` m_lru_list c.
Proof.
  intros Hwf Hs Hput. assert (Hmax : size <= max_size_bytes (m_options c)).
  { apply Z.leb_le. unfold put in Hput. by destruct (size <=? _). }
  split; [done|]. destruct (put_work c key v size now Hwf Hs Hmax) as (c2 & j & E & Hwf' & Hr & Hn & Hfit & Hpol).
  rewrite Hput in E. destruct (expiry_time _ _) as [e| | |]; cbn [obind] in E; try done. injection E as ->.
  by exists c2, j.
Qed.

(** With a clock to which the time to live can be added, it returns. *)
Lemma put_returns c key v size now :
  wf c -> 0 <= size < 2 ^ 64 -> clock_ok (m_options c) now -> size <= max_size_bytes (m_options c) ->
  exists c', put c key v size now = Ret c'.
Proof.
  intros Hwf Hs Hclock Hmax. destruct (put_work c key v size now Hwf Hs Hmax) as (c2 & j & -> & _).
  unfold expiry_time. specialize (Hclock j).
  rewrite (proj2 (Z.leb_le _ _)), (proj2 (Z.ltb_lt _ _)) by lia. cbn. by eexists.
Qed.

Lemma get_spec c key now v c' :
  wf c -> get c key now = Ret (v, c') ->
  exists o, m_cache c !! key = Some o /\ m_value o = v /\ now < m_expiry_time o /\
    m_cache c' = m_cache c /\ m_options c' = m_options c /\ wf c' /\
    head (m_lru_list c') = Some (m_lru_node_ptr o, key).
Proof.
  intros Hwf. unfold get. destruct (m_cache c !! key) as [o|] eqn:Hk; [|done].
  destruct (m_expiry_time o <=? now) eqn:He; [done|]. unfold splice_front.
  rewrite bool_decide_true by (by eapply tracks_in; [apply (wf_lru c Hwf)|]).
  cbn [obind]. intros [= <- <-]. exists o. split_and!; try done; [lia| |].
  - destruct Hwf as [Hl Hi Hf Hs Hn Hb]. split; cbn; try done.
    + by apply tracks_splice.
    + intros n Hin. apply Hf. revert Hin. rewrite !elem_of_app. intros [Hin|]; [left|by right].
      eapply elem_of_Permutation_proper; [|exact Hin]. apply fmap_Permutation. symmetry.
      apply filter_app_complement.
  - cbn. assert (Hin : (m_lru_node_ptr o, key) ∈ m_lru_list c) by (apply (wf_lru c Hwf); eauto).
    destruct (filter (fun x => x.1 = m_lru_node_ptr o) (m_lru_list c)) as [|[n k] l] eqn:Ef.
    + exfalso. eapply (filter_nil_not_elem_of (fun x => x.1 = m_lru_node_ptr o)); [exact Ef| |exact Hin].
      done.
    + assert (H : (n, k) ∈ filter (fun x => x.1 = m_lru_node_ptr o) (m_lru_list c)) by (rewrite Ef; by left).
      apply list_elem_of_filter in H as [Hn H]. cbn in Hn. subst n. cbn. do 2 f_equal.
      by eapply tracks_inj; [apply (wf_lru c Hwf)|..].
Qed.

Lemma get_defined c key now : wf c -> defined (get c key now).
Proof.
  intros Hwf. unfold get. destruct (m_cache c !! key) as [o|] eqn:Hk; [|done].
  destruct (m_expiry_time o <=? now); [done|]. unfold splice_front.
  by rewrite bool_decide_true by (by eapply tracks_in; [apply (wf_lru c Hwf)|]).
Qed.

Lemma remove_spec c key :
  wf c -> exists c', remove c key = Ret c' /\ wf c' /\ m_cache c' = delete key (m_cache c) /\
    m_options c' = m_options c.
Proof.
  intros Hwf. destruct (m_cache c !! key) as [o|] eqn:Hk.
  - destruct (wf_remove c key o Hwf Hk) as (E & Hwf' & Hr).
    eexists. unfold remove, remove_helper in *. rewrite Hk in *. split_and!; [exact E|done..].
  - exists c. unfold remove. rewrite Hk. split_and!; try done. by rewrite delete_id.
Qed.

Lemma wf_empty m n : 0 <= max_size_bytes m < 2 ^ 63 -> wf (mk_cache ∅ [] [] 0 m n).
Proof.
  intros Hm. split; cbn; try (rewrite ?total_empty; done || lia).
  - split; [constructor|]. intros ? ?. split; [by intros ?%elem_of_nil|]. by intros (? & ? & _).
  - split; [constructor|]. intros ? ?. split; [by intros ?%elem_of_nil|]. by intros (? & ? & _).
  - by intros ? ?%elem_of_nil.
Qed.

Lemma step_wf c c' : wf c -> step c c' -> wf c' /\ m_options c' = m_options c.
Proof.
  intros Hwf [key value size now c1 Hsz Hput|key now v c1 Hget|key c1 Hrm|].
  - by destruct (put_spec c key value size now c1 Hwf Hsz Hput) as (_ & c2 & j & ? & _ & _ & _ & ? & _).
  - by edestruct get_spec as (o & _ & _ & _ & _ & ? & ? & _).
  - destruct (remove_spec c key Hwf) as (c'' & E & ? & _ & ?). rewrite Hrm in E. by injection E as <-.
  - split; [|done]. pose proof (wf_bound _ Hwf). pose proof (total_nonneg _ (wf_nonneg _ Hwf)).
    apply wf_empty. lia.
Qed.


Lemma put_content c key v size now c' :
  wf c -> 0 <= size < 2 ^ 64 -> put c key v size now = Ret c' ->
  wf c' /\ content c' key = Some v /\
  forall k', k' <> key -> content c' k' = content c k' \/ content c' k' = None.
Proof.
  intros Hwf Hs Hput. destruct (put_spec c key v size now c' Hwf Hs Hput) as (_ & c2 & j & Hwf' & Hr & Hn & Hm & _).
  unfold content. rewrite Hm. split_and!; [done|by rewrite lookup_insert_eq|].
  intros k' Hne. rewrite lookup_insert_ne by done.
  destruct (m_cache c2 !! k') as [o|] eqn:Hk; [left|by right].
  by rewrite (lookup_weaken _ _ _ _ Hk (restricts_map _ _ Hr)).
Qed.

Lemma put_defined c key v size now :
  wf c -> 0 <= size < 2 ^ 64 -> clock_ok (m_options c) now -> defined (put c key v size now).
Proof.
  intros Hwf Hs Hclock. destruct (Z.leb_spec size (max_size_bytes (m_options c))).
  - by destruct (put_returns c key v size now) as [c' ->].
  - unfold put. by rewrite (proj2 (Z.leb_gt _ _)).
Qed.

#[global] Program Instance nv_cache : INvCache NvCache V := {|
  cache_put := put;
  cache_get := get;
  cache_remove := remove;
  cache_inv := wf;
  cache_clock c := clock_ok (m_options c);
  cache_content := content;
|}.
Next Obligation. intros. by apply put_defined. Qed.
Next Obligation. intros. by eapply put_content. Qed.
Next Obligation. intros. by apply get_defined. Qed.
Next Obligation.
  intros c k t e Hwf. pose proof (get_defined c k t Hwf) as Hd. unfold get in *.
  destruct (m_cache c !! k) as [o|]; [|congruence]. destruct (m_expiry_time o <=? t); [congruence|].
  unfold splice_front in *. by case_bool_decide.
Qed.
Next Obligation.
  intros c k t v c' Hwf Hg. destruct (get_spec c k t v c' Hwf Hg) as (o & Hk & Hv & _ & Hm & _ & Hwf' & _).
  split_and!; [done| |].
  - unfold content. by rewrite Hk; cbn; rewrite Hv.
  - intros k'. unfold content. by rewrite Hm.
Qed.
Next Obligation.
  intros c k Hwf. destruct (remove_spec c k Hwf) as (c' & E & Hwf' & Hm & _). exists c'.
  split_and!; [done|done| |].
  - unfold content. by rewrite Hm, lookup_delete_eq.
  - intros k' Hne. unfold content. by rewrite Hm, lookup_delete_ne.
Qed.

(** *** The specification *)

Lemma sizes_abs c : sizes (abs c) = total (m_cache c).
Proof. unfold sizes, total, abs. by rewrite map_fold_fmap. Qed.

Lemma abs_lookup c k :
  abs c !! k = (fun o => mk_entry (m_value o) (m_size_bytes o) (m_expiry_time o)) <$> m_cache c !! k.
Proof. apply lookup_fmap. Qed.

Lemma abs_delete c key : sizes (delete key (abs c)) = total (delete key (m_cache c)).
Proof. unfold sizes, total, abs. by rewrite <- fmap_delete, map_fold_fmap. Qed.

(** What is left of a cache is a part of the map it stood for. *)
Lemma abs_restricts c c' k : restricts c c' -> abs c' !! k = abs c !! k \/ abs c' !! k = None.
Proof.
  intros Hr. rewrite !abs_lookup. destruct (m_cache c' !! k) as [o|] eqn:Hk; [left|by right].
  by rewrite (lookup_weaken _ _ _ _ Hk (restricts_map _ _ Hr)).
Qed.

(** One call, against the specification. *)
Lemma call_refines c o :
  wf c -> op_ok (m_options c) o ->
  let '(r, c') := call o c in wf c' /\ m_options c' = m_options c /\ spec_step (m_options c) (abs c) o r (abs c').
Proof.
  intros Hwf Hok. destruct o as [key v size now|key now|key|]; cbn [call].
  - destruct Hok as [Hs Hclock]. destruct (Z.leb_spec size (max_size_bytes (m_options c))) as [Hmax|Hmax].
    2: { unfold put. rewrite (proj2 (Z.leb_gt _ _)) by done. split_and!; [done..|by constructor]. }
    destruct (put_returns c key v size now) as [c' Hput]; [done..|]. rewrite Hput.
    destruct (put_spec c key v size now c' Hwf Hs Hput) as (_ & c2 & j & Hwf' & Hr & _ & Hm & Ho & _ & Hfit & _).
    assert (forall k, k <> key -> abs c' !! k = abs c2 !! k) as Ha.
    { intros k Hne. by rewrite !abs_lookup, Hm, lookup_insert_ne. }
    split_and!; [done|done|]. apply (spec_put _ _ _ _ _ _ j); [done| | | |].
    + by rewrite abs_lookup, Hm, lookup_insert_eq.
    + intros k Hne. rewrite Ha by done. by apply abs_restricts.
    + rewrite abs_delete. intros Hf k Hne. by rewrite Ha, !abs_lookup, Hfit, lookup_delete_ne.
    + rewrite sizes_abs, <- Ho. apply (wf_bound _ Hwf').
  - pose proof (get_defined c key now Hwf) as Hd. pose proof (spec_get (m_options c) (abs c) key now) as Hg.
    rewrite abs_lookup in Hg. destruct (get c key now) as [[v c']|e|x|] eqn:E; try done.
    + destruct (get_spec c key now v c' Hwf E) as (o & Hk & <- & Ht & Hm & Ho & Hwf' & _).
      rewrite Hk in Hg. cbn in Hg. rewrite (proj2 (Z.leb_gt _ _)) in Hg by done.
      split_and!; [done|done|]. unfold abs at 2. rewrite Hm. exact Hg.
    + split_and!; [done|done|]. unfold get in E. destruct (m_cache c !! key) as [o|]; cbn in *; [|by injection E as <-].
      destruct (m_expiry_time o <=? now); [by injection E as <-|]. unfold splice_front in E. by case_bool_decide.
  - destruct (remove_spec c key Hwf) as (c' & -> & Hwf' & Hm & Ho). split_and!; [done|done|].
    replace (abs c') with (delete key (abs c)) by (unfold abs; by rewrite Hm, fmap_delete). constructor.
  - destruct (step_wf c (clear c) Hwf (step_clear c)). split_and!; [done|done|].
    replace (abs (clear c)) with (∅ : gmap string entry) by (unfold abs; cbn; by rewrite fmap_empty). constructor.
Qed.

Lemma session_refines ops c :
  wf c -> Forall (op_ok (m_options c)) ops ->
  let '(rs, c') := session ops c in
  wf c' /\ m_options c' = m_options c /\ spec_session (m_options c) (abs c) ops rs (abs c').
Proof.
  revert c. induction ops as [|o ops IH]; intros c Hwf Hops; cbn [session]; [split_and!; [done|done|apply spec_nil]|].
  apply Forall_cons in Hops as [Ho Hops]. pose proof (call_refines c o Hwf Ho) as Hc.
  destruct (call o c) as [r c1]. destruct Hc as (Hwf1 & Ho1 & Hc). rewrite <- Ho1 in Hops.
  specialize (IH c1 Hwf1 Hops). destruct (session ops c1) as [rs c2]. destruct IH as (Hwf2 & Ho2 & Hs).
  rewrite Ho1 in *. split_and!; [done|done|]. by econstructor.
Qed.

(** ** Properties *)


(** P: the sum of the time to live and the clock is not guarded: with a time to
    live near the largest [time_t], which the C interface takes, a put of an object that fits
    is undefined. *)
Theorem put_overflows options key (v : V) size now :
  let c := ctor (Some options) in
  0 <= max_size_bytes options < 2 ^ 63 -> 0 <= size <= max_size_bytes options ->
  (forall j, 2 ^ 63 <= now j + ttl_seconds options) ->
  put c key v size now = UB.
Proof.
  intros c Hm Hs Hclock. destruct (put_work c key v size now) as (c2 & j & -> & _); [by apply wf_empty|lia|cbn; lia|].
  unfold expiry_time. cbn [m_options c ctor]. rewrite (proj2 (Z.ltb_ge _ _)) by done. by rewrite andb_false_r.
Qed.

(** C36: the cache implements a bounded map with expiry: any session of calls
    runs to the end, and its answers and the objects it leaves are those of
    the map, in which a put is refused exactly when the object is larger than
    the cache, other entries go only when the new one does not fit beside
    them, and a get answers the last accepted value of its key that was
    neither removed nor evicted, until it expires.  Times to live are such
    that the clock can be added to them, and the maximum is below 2^63. *)
Theorem cache_refines_map options ops :
  let c := ctor options in
  0 <= max_size_bytes (m_options c) < 2 ^ 63 -> Forall (op_ok (m_options c)) ops ->
  let '(answers, c') := session ops c in
  wf c' /\ spec_session (m_options c) ∅ ops answers (abs c').
Proof.
  intros c Hmax Hops. pose proof (session_refines ops c) as H.
  destruct (session ops c) as [rs c'] eqn:E. destruct H as (Hwf & _ & Hs); [by apply wf_empty|done|].
  split; [done|]. replace (∅ : gmap string entry) with (abs c); [done|]. unfold abs, c, ctor. cbn. by rewrite fmap_empty.
Qed.

(** P: after a successful put, get returns the value until its expiry time and
    reports CacheObjectNotFound from then on; the expiry is a clock reading of
    the put plus the time to live. *)
Theorem cache_put_get c key v size now c' :
  wf c -> 0 <= size < 2 ^ 64 -> put c key v size now = Ret c' ->
  exists j, forall t,
    (t < now j + ttl_seconds (m_options c) -> exists c'', get c' key t = Ret (v, c'')) /\
    (now j + ttl_seconds (m_options c) <= t -> get c' key t = Err CacheObjectNotFound).
Proof.
  intros Hwf Hs Hput. destruct (put_spec c key v size now c' Hwf Hs Hput) as (_ & c2 & j & Hwf' & _ & _ & Hm & _).
  exists j. intros t. pose proof (get_defined c' key t Hwf') as Hd. unfold get in *.
  rewrite Hm, lookup_insert_eq in *. cbn [m_expiry_time m_value] in *.
  split; intros Ht; [|by rewrite (proj2 (Z.leb_le _ _)) by lia].
  rewrite (proj2 (Z.leb_gt _ _)) in * by lia.
  destruct (splice_front _ (m_lru_list c')) as [lru| | |] eqn:Es; try done; [cbn; eauto|].
  unfold splice_front in Es. by destruct (bool_decide _).
Qed.

(** P: eviction follows the policy: put drops another key only when the new
    object does not fit, and then an object that has expired, or one that was
    used less recently than every object that stays. *)
Theorem cache_eviction_policy c key v size now c' k o :
  wf c -> 0 <= size < 2 ^ 64 -> put c key v size now = Ret c' ->
  k <> key -> m_cache c !! k = Some o -> m_cache c' !! k = None ->
  max_size_bytes (m_options c) < total (delete key (m_cache c)) + size /\
  ((exists j, m_expiry_time o <= now j) \/
   forall k' n', k' <> key -> (n', k') ∈ m_lru_list c' ->
     [(n', k'); (m_lru_node_ptr o, k)] `sublist_of` m_lru_list c).
Proof.
  intros Hwf Hs Hput Hne Hk Hn.
  destruct (put_spec c key v size now c' Hwf Hs Hput) as (Hmax & c2 & j & Hwf' & Hr & Hn2 & Hm & _ & Hl & Hfit & Hpol).
  rewrite Hm, lookup_insert_ne in Hn by done. split.
  - destruct (Z.lt_ge_cases (max_size_bytes (m_options c)) (total (delete key (m_cache c)) + size)); [done|].
    rewrite Hfit, lookup_delete_ne in Hn by lia || done. congruence.
  - destruct (Hpol k o Hne Hk Hn) as [?|Ho]; [by left|right]. intros k' n' Hne' Hin. apply Ho.
    rewrite Hl in Hin. apply elem_of_cons in Hin as [[= -> ->]|]; done.
Qed.

End cache.

Arguments NvCache : clear implicits.

(** ** Witnesses *)

Definition sample_options : option NvCacheOptions := Some (mk_options 10 60).

Definition sample_ops : list (op (V:=Z)) :=
  [OpPut "a" 1 4 (fun _ => 0); OpPut "b" 2 4 (fun _ => 0); OpGet "a" 5].


Lemma cache_refines_map_witness :
  exists m, spec_session (mk_options 10 60) ∅ sample_ops [Ret None; Ret None; Ret (Some 1)] m.
Proof.
  destruct (cache_refines_map sample_options sample_ops) as (_ & H); [done| |eexists; exact H].
  repeat constructor; cbn; lia.
Defined.

Lemma cache_put_get_witness :
  exists c' c'', put (ctor sample_options) "a" 7 4 (fun _ => 100) = Ret c' /\
    get c' "a" 159 = Ret (7, c'') /\ get c' "a" 160 = Err CacheObjectNotFound.
Proof.
  destruct (put (ctor sample_options) "a" 7 4 (fun _ => 100)) as [c'| | |] eqn:E; [|done..].
  destruct (cache_put_get (ctor sample_options) "a" 7 4 (fun _ => 100) c') as (j & H);
    [by apply wf_empty|done|done|].
  destruct (proj1 (H 159)) as [c'' Hc]; [by vm_compute|].
  exists c', c''. split; [done|]. split; [exact Hc|apply (H 160); by vm_compute].
Defined.

Lemma cache_eviction_policy_witness :
  let c := (session sample_ops (ctor sample_options)).2 in
  exists c' o, put c "d" 3 4 (fun _ => 10) = Ret c' /\ m_cache c !! "b" = Some o /\
    10 < total (delete "d" (m_cache c)) + 4.
Proof.
  intros c. assert (Hwf : wf c).
  { apply (session_refines sample_ops (ctor sample_options)); [by apply wf_empty|repeat constructor; cbn; lia]. }
  destruct (put c "d" 3 4 (fun _ => 10)) as [c'| | |] eqn:E; [|by vm_compute in E..].
  destruct (m_cache c !! "b") as [o|] eqn:Eb; [|by vm_compute in Eb].
  exists c', o. refine (conj eq_refl (conj eq_refl _)).
  apply (cache_eviction_policy c "d" 3 4 (fun _ => 10) c' "b" o Hwf); try done.
  vm_compute in E. injection E as <-. by vm_compute.
Defined.

End NvCache.
