(* ===== verification/Threads.v ===== *)
(** * Threads: interleavings of threads that share objects

    A library for the concurrent use of the SDK.  A thread is a program of
    atomic steps on a shared state; a pool of threads runs by taking one step
    of any thread that is not blocked; two threads race when their next steps
    touch the same variable and one of them writes it, which C++ leaves
    undefined.  A monitor is an object whose methods hold its mutex
    ([std::lock_guard]) while they work on its data: pools of its clients
    behave as if every call were one step ([monitor_refines]), do not race as
    long as no call touches the data before it has the mutex
    ([monitor_race_free]), and never deadlock ([monitor_progress]).  Pools of
    finite programs terminate ([pool_terminates]).  The object cache, the key
    store and the driver clients are instances (CacheThreads, DriverThreads). *)

From S2P Require Import Prelude.

(** ** Programs and pools *)

Inductive access (Loc : Type) : Type :=
| Reads (l : Loc)
| Writes (l : Loc).
Arguments Reads {Loc} l.
Arguments Writes {Loc} l.

(** Two accesses, of different threads, to the same variable, one a write. *)
Definition conflict {Loc : Type} (a b : access Loc) : Prop :=
  match a, b with
  | Reads _, Reads _ => False
  | Reads l, Writes l' | Writes l, Reads l' | Writes l, Writes l' => l = l'
  end.

(** A step has the accesses it makes and what it does; [None] is blocked. *)
Inductive prog (Loc S A : Type) : Type :=
| Done (a : A)
| Act (accesses : list (access Loc)) (f : S -> option (S * prog Loc S A)).
Arguments Done {Loc S A} a.
Arguments Act {Loc S A} accesses f.

(** Induction that reaches the programs behind a step. *)
Lemma prog_ind' {Loc S A : Type} (P : prog Loc S A -> Prop) :
  (forall a, P (Done a)) ->
  (forall l f, (forall s s' p, f s = Some (s', p) -> P p) -> P (Act l f)) ->
  forall p, P p.
Proof.
  intros Hd Ha. fix IH 1. intros [a|l f]; [clear IH; apply Hd|]. apply Ha.
  intros s. destruct (f s) as [[s0 p0]|]; [|clear IH; discriminate].
  pose proof (IH p0) as H0. clear IH. intros s1 p1 E. by injection E as _ <-.
Qed.

Fixpoint pbind {Loc S A B : Type} (p : prog Loc S A) (k : A -> prog Loc S B) : prog Loc S B :=
  match p with
  | Done a => k a
  | Act l f => Act l (fun s => match f s with Some (s', p') => Some (s', pbind p' k) | None => None end)
  end.

Section pool.
Context {Loc S A : Type}.

Definition pool : Type := list (prog Loc S A) * S.

Inductive step : pool -> pool -> Prop :=
| step_thread i ps s l f s' p :
    ps !! i = Some (Act l f) -> f s = Some (s', p) -> step (ps, s) (<[i := p]> ps, s').

(** Two threads can move now, and their steps conflict. *)
Definition racy (c : pool) : Prop :=
  exists i j l f l' f' a b,
    i <> j /\ c.1 !! i = Some (Act l f) /\ c.1 !! j = Some (Act l' f') /\
    f c.2 <> None /\ f' c.2 <> None /\ a ∈ l /\ b ∈ l' /\ conflict a b.

(** Every thread has its result. *)
Definition finished (c : pool) (results : list A) : Prop := c.1 = Done <$> results.

(** Some thread has a step. *)
Definition moves (c : pool) : Prop := exists c', step c c'.

Lemma step_length c c' : step c c' -> length c'.1 = length c.1.
Proof. intros []. cbn. apply length_insert. Qed.

Lemma steps_length c c' : rtc step c c' -> length c'.1 = length c.1.
Proof. induction 1 as [|c1 c2 c3 H _ IH]; [done|]. by rewrite IH, (step_length _ _ H). Qed.

(** A thread that is not finished has a next step in the list. *)
Lemma finished_or_act (ps : list (prog Loc S A)) :
  (exists results, ps = Done <$> results) \/ exists i l f, ps !! i = Some (Act l f).
Proof.
  induction ps as [|[a|l f] ps IH].
  - left. by exists [].
  - destruct IH as [[results ->]|(i & l & f & H)].
    + left. by exists (a :: results).
    + right. by exists (Datatypes.S i), l, f.
  - right. by exists 0%nat, l, f.
Qed.

(** *** Termination *)

(** A program after one of its steps. *)
Definition sub (p' p : prog Loc S A) : Prop :=
  exists l f s s', p = Act l f /\ f s = Some (s', p').

Lemma sub_acc p : Acc sub p.
Proof.
  induction p as [a|l f IH] using prog_ind'; constructor; intros p' (l' & f' & s & s' & E & H); [done|].
  injection E as -> ->. by eapply IH.
Qed.

(** One thread moves. *)
Inductive lsub : list (prog Loc S A) -> list (prog Loc S A) -> Prop :=
| lsub_here p p' ps : sub p' p -> lsub (p' :: ps) (p :: ps)
| lsub_there p ps ps' : lsub ps' ps -> lsub (p :: ps') (p :: ps).

Lemma lsub_acc ps : Acc lsub ps.
Proof.
  induction ps as [|p ps IH]; [constructor; intros ? H; inversion H|].
  revert ps IH. induction (sub_acc p) as [p _ IHp]. intros ps IH.
  induction IH as [ps Hps IHps]. constructor. intros ps' H. inversion H; subst.
  - apply IHp; [done|]. by constructor.
  - by apply IHps.
Qed.

Lemma lsub_insert ps i p p' : ps !! i = Some p -> sub p' p -> lsub (<[i := p']> ps) ps.
Proof.
  revert i. induction ps as [|q ps IH]; intros [|i] H Hs; try done; cbn in *.
  - injection H as ->. by constructor.
  - constructor. by apply IH.
Qed.

(** Whatever the scheduler does, a pool runs only finitely many steps. *)
Lemma pool_terminates c : Acc (fun c' c => step c c') c.
Proof.
  destruct c as [ps s]. revert s. induction (lsub_acc ps) as [ps _ IH]. intros s.
  constructor. intros c' H. inversion H as [i ps0 s0 l f s' p Hi Hf]; subst.
  apply IH. eapply lsub_insert; [done|]. by exists l, f, s, s'.
Qed.

(** So a pool that always moves runs to its end. *)
Lemma pool_finishes c :
  (forall c', rtc step c c' -> (exists results, finished c' results) \/ moves c') ->
  exists c' results, rtc step c c' /\ finished c' results.
Proof.
  induction (pool_terminates c) as [c _ IH]. intros Hp.
  destruct (Hp c) as [[results Hf]|[c1 H1]]; [done|by exists c, results|].
  destruct (IH c1 H1) as (c2 & results & H & Hf).
  - intros c' H. apply Hp. by eapply rtc_l.
  - exists c2, results. split; [by eapply rtc_l|done].
Qed.

(** A step of thread [i], for examples: nothing happens when it has none. *)
Definition sched (c : pool) (i : nat) : pool :=
  match c.1 !! i with
  | Some (Act _ f) => match f c.2 with Some (s', p) => (<[i := p]> c.1, s') | None => c end
  | _ => c
  end.

Lemma sched_steps c schedule : rtc step c (foldl sched c schedule).
Proof.
  revert c. induction schedule as [|i schedule IH]; intros c; [done|]. cbn. etrans; [|apply IH].
  unfold sched. destruct c as [ps s]. cbn. destruct (ps !! i) as [[a|l f]|] eqn:Ei; try done.
  destruct (f s) as [[s' p]|] eqn:Ef; [|done]. apply rtc_once. by eapply step_thread.
Qed.

End pool.

Arguments pool Loc S A : clear implicits.

(** ** Monitors *)

(** The body of a method: steps on the object's data that are never blocked. *)
Inductive code (Loc D Out : Type) : Type :=
| CDone (out : Out)
| CAct (accesses : list (access Loc)) (f : D -> D * code Loc D Out).
Arguments CDone {Loc D Out} out.
Arguments CAct {Loc D Out} accesses f.

Lemma code_ind' {Loc D Out : Type} (P : code Loc D Out -> Prop) :
  (forall out, P (CDone out)) ->
  (forall l f, (forall d, P (f d).2) -> P (CAct l f)) ->
  forall c, P c.
Proof.
  intros Hd Ha. fix IH 1. intros [out|l f]; [clear IH; apply Hd|]. apply Ha.
  intros d. destruct (f d) as [d' c]. apply IH.
Qed.

(** The body alone. *)
Fixpoint run {Loc D Out : Type} (c : code Loc D Out) (d : D) : Out * D :=
  match c with
  | CDone out => (out, d)
  | CAct _ f => run (f d).2 (f d).1
  end.

(** What a client of an object does: calls, each chosen by the results of the
    earlier ones, and a result. *)
Inductive client (Op Out A : Type) : Type :=
| Return (a : A)
| Call (o : Op) (k : Out -> client Op Out A).
Arguments Return {Op Out A} a.
Arguments Call {Op Out A} o k.

(** All its calls are of a kind. *)
Inductive only {Op Out A : Type} (P : Op -> Prop) : client Op Out A -> Prop :=
| only_return a : only P (Return a)
| only_call o k : P o -> (forall out, only P (k out)) -> only P (Call o k).

Lemma only_weaken {Op Out A : Type} (P Q : Op -> Prop) (c : client Op Out A) :
  (forall o, P o -> Q o) -> only P c -> only Q c.
Proof. intros H. induction 1; constructor; auto. Qed.

Lemma only_all {Op Out A : Type} (P Q : Op -> Prop) (cs : list (client Op Out A)) :
  (forall o, P o -> Q o) -> Forall (only P) cs -> Forall (only Q) cs.
Proof. intros H. intros Hc. eapply Forall_impl; [exact Hc|]. intros c. by apply only_weaken. Qed.

Section monitor.
Context {Loc D Op Out : Type}.

(** The methods: an early return before the mutex is taken, which may still
    touch the data, or a body under the mutex. *)
Context (early : Op -> option (list (access Loc) * Out)).
Context (body : Op -> code Loc D Out).

(** The object: is its mutex taken, and its data. *)
Definition object : Type := bool * D.

(** A body under the mutex, which is released at the end. *)
Fixpoint critical (c : code Loc D Out) : prog Loc object Out :=
  match c with
  | CDone out => Act [] (fun s : object => Some ((false, s.2), Done out))
  | CAct l f => Act l (fun s : object => Some ((s.1, (f s.2).1), critical (f s.2).2))
  end.

(** [std::lock_guard<std::mutex> lock(m_mutex)]: wait until nobody has it. *)
Definition method (o : Op) : prog Loc object Out :=
  match early o with
  | Some (l, out) => Act l (fun s : object => Some (s, Done out))
  | None => Act [] (fun s : object => if s.1 then None else Some ((true, s.2), critical (body o)))
  end.

Fixpoint compile {A : Type} (c : client Op Out A) : prog Loc object A :=
  match c with
  | Return a => Done a
  | Call o k => pbind (method o) (fun out => compile (k out))
  end.

(** The specification: every call is one step. *)
Context (exec : Op -> D -> Out * D).

Fixpoint atomic {A : Type} (c : client Op Out A) : prog Loc D A :=
  match c with
  | Return a => Done a
  | Call o k => Act [] (fun d => Some ((exec o d).2, atomic (k (exec o d).1)))
  end.

(** What an object owes its clients: for the calls [P], in the states [Inv], a
    method does what [exec] says, and the states stay so. *)
Context (P : Op -> Prop) (Inv : D -> Prop).

Record implements : Prop := {
  early_law o l out d : P o -> Inv d -> early o = Some (l, out) -> exec o d = (out, d);
  body_law o d : P o -> Inv d -> early o = None -> run (body o) d = exec o d;
  exec_inv o d : P o -> Inv d -> Inv (exec o d).2;
}.

(** *** The refinement *)

Section refinement.
Context {A : Type}.

(** A thread is between calls, or in the body of one. *)
Inductive thread : Type :=
| Outside (c : client Op Out A)
| Inside (rest : code Loc D Out) (o : Op) (k : Out -> client Op Out A).

Definition concrete (t : thread) : prog Loc object A :=
  match t with
  | Outside c => compile c
  | Inside rest o k => pbind (critical rest) (fun out => compile (k out))
  end.

Definition abstract (t : thread) : prog Loc D A :=
  match t with
  | Outside c => atomic c
  | Inside _ o k => atomic (Call o k)
  end.

Definition allowed (t : thread) : Prop :=
  match t with
  | Outside c => only P c
  | Inside _ o k => P o /\ forall out, only P (k out)
  end.

Definition inside (t : thread) : Prop := match t with Outside _ => False | Inside _ _ _ => True end.

(** The mutex is taken exactly while one thread is inside, and then the rest of
    its body will have done the call. *)
Definition holds (held : bool) (d d0 : D) (ts : list thread) : Prop :=
  if held then
    exists h rest o k, ts !! h = Some (Inside rest o k) /\ run rest d = exec o d0 /\
      forall i t, ts !! i = Some t -> inside t -> i = h
  else d = d0 /\ forall i t, ts !! i = Some t -> ~ inside t.

Record sim (c : pool Loc object A) (a : pool Loc D A) (ts : list thread) : Prop := {
  sim_concrete : c.1 = concrete <$> ts;
  sim_abstract : a.1 = abstract <$> ts;
  sim_allowed : forall i t, ts !! i = Some t -> allowed t;
  sim_inv : Inv a.2;
  sim_holds : holds c.2.1 c.2.2 a.2 ts;
}.

Lemma lookup_after (ts : list thread) i t j t' :
  <[i := t]> ts !! j = Some t' -> (i = j /\ t = t') \/ (i <> j /\ ts !! j = Some t').
Proof. intros [(-> & -> & _)|[Hn H]]%list_lookup_insert_Some; auto. Qed.

Lemma lookup_here (ts : list thread) i t t0 : ts !! i = Some t0 -> <[i := t]> ts !! i = Some t.
Proof. intros H. apply list_lookup_insert_eq. by eapply lookup_lt_Some. Qed.

Lemma allowed_insert (ts : list thread) i t :
  (forall j t, ts !! j = Some t -> allowed t) -> allowed t ->
  forall j t', <[i := t]> ts !! j = Some t' -> allowed t'.
Proof. intros H Ht j t' [[_ <-]|[_ Hj]]%lookup_after; [done|by eapply H]. Qed.

(** A thread that stays outside does not matter to who is inside. *)
Lemma holds_outside held d d0 ts i c c' :
  ts !! i = Some (Outside c) -> holds held d d0 ts -> holds held d d0 (<[i := Outside c']> ts).
Proof.
  intros Hi. unfold holds. destruct held.
  - intros (h & rest & o & k & Hh & Hr & Hu). exists h, rest, o, k.
    assert (i <> h) by (intros ->; congruence). split_and!; [by rewrite list_lookup_insert_ne|done|].
    intros j t [[_ <-]|[_ Hj]]%lookup_after; [done|]. by eapply Hu.
  - intros [-> Hn]. split; [done|]. intros j t [[_ <-]|[_ Hj]]%lookup_after; [by intros []|by eapply Hn].
Qed.

Lemma sim_step (Himp : implements) c a ts c' :
  sim c a ts -> step c c' -> exists a' ts', rtc step a a' /\ sim c' a' ts'.
Proof.
  intros [Hc Ha Hal Hi Hh] H. destruct H as [i ps s l f s' p Hp Hf]. destruct a as [qs d0], s as [held d].
  cbn in *. subst ps qs. rewrite list_lookup_fmap in Hp.
  destruct (ts !! i) as [t|] eqn:Ht; [|done]. injection Hp as Hp.
  pose proof (Hal _ _ Ht) as Hat. destruct t as [[a|o k]|rest o k]; [done| |].
  - inversion Hat as [|? ? HP Hk]; subst. cbn in Hp. unfold method in Hp. destruct (early o) as [[l0 out]|] eqn:Ee.
    + injection Hp as <- <-. injection Hf as <- <-. pose proof (early_law Himp _ _ _ _ HP Hi Ee) as Hx.
      exists (abstract <$> <[i := Outside (k out)]> ts, d0), (<[i := Outside (k out)]> ts). split.
      * apply rtc_once. rewrite list_fmap_insert. eapply step_thread; [by rewrite list_lookup_fmap, Ht|].
        cbn. by rewrite Hx.
      * split; cbn; rewrite ?list_fmap_insert; try done; [|by eapply holds_outside].
        apply allowed_insert; [done|]. apply Hk.
    + injection Hp as <- <-. cbn in Hf. destruct held; [done|]. injection Hf as <- <-.
      exists (abstract <$> ts, d0), (<[i := Inside (body o) o k]> ts). split; [done|].
      destruct Hh as [-> Hn]. split; cbn; try done.
      * by rewrite list_fmap_insert.
      * rewrite list_fmap_insert. symmetry. apply list_insert_id. by rewrite list_lookup_fmap, Ht.
      * by apply allowed_insert.
      * exists i, (body o), o, k. split_and!; [by eapply lookup_here|by apply Himp|].
        intros j t [[-> _]|[_ Hj]]%lookup_after Hin; [done|]. by destruct (Hn _ _ Hj).
  - destruct Hat as [HP Hk]. unfold holds in Hh.
    destruct held; [|by destruct (proj2 Hh _ _ Ht)].
    destruct Hh as (h & rest0 & o0 & k0 & Hh & Hr & Hu).
    assert (i = h) as -> by by eapply Hu. rewrite Ht in Hh. injection Hh as <- <- <-.
    destruct rest as [out|l0 g]; injection Hp as <- <-; injection Hf as <- <-.
    + cbn in Hr. exists (abstract <$> <[h := Outside (k out)]> ts, d), (<[h := Outside (k out)]> ts). split.
      * apply rtc_once. rewrite list_fmap_insert. eapply step_thread; [by rewrite list_lookup_fmap, Ht|].
        cbn. by rewrite <- Hr.
      * split; cbn; try done.
        -- by rewrite list_fmap_insert.
        -- apply allowed_insert; [done|]. apply Hk.
        -- pose proof (exec_inv Himp o d0 HP Hi) as Hd. by rewrite <- Hr in Hd.
        -- split; [done|]. intros j t [[_ <-]|[Hj Hj']]%lookup_after; [by intros []|].
           intros Hin. destruct Hj. symmetry. by eapply Hu.
    + exists (abstract <$> ts, d0), (<[h := Inside (g d).2 o k]> ts). split; [done|]. split; cbn; try done.
      * by rewrite list_fmap_insert.
      * rewrite list_fmap_insert. symmetry. apply list_insert_id. by rewrite list_lookup_fmap, Ht.
      * by apply allowed_insert.
      * exists h, (g d).2, o, k. split_and!; [by eapply lookup_here|by rewrite <- Hr|].
        intros j t [[-> _]|[Hj Hj']]%lookup_after Hin; [done|]. by eapply Hu.
Qed.

Lemma sim_steps (Himp : implements) c a ts c' :
  sim c a ts -> rtc step c c' -> exists a' ts', rtc step a a' /\ sim c' a' ts'.
Proof.
  intros Hs H. revert a ts Hs. induction H as [c|c c1 c2 H _ IH]; intros a ts Hs; [by exists a, ts|].
  destruct (sim_step Himp _ _ _ _ Hs H) as (a1 & ts1 & Ha1 & Hs1).
  destruct (IH _ _ Hs1) as (a2 & ts2 & Ha2 & Hs2). exists a2, ts2. split; [by etrans|done].
Qed.

Lemma sim_start (cs : list (client Op Out A)) d :
  Forall (only P) cs -> Inv d -> sim (compile <$> cs, (false, d)) (atomic <$> cs, d) (Outside <$> cs).
Proof.
  intros Hcs Hd. split; cbn; try done; [by rewrite <- list_fmap_compose..| |].
  - intros i t. rewrite list_lookup_fmap. destruct (cs !! i) as [c|] eqn:E; [|done]. intros [= <-].
    apply (Forall_lookup_1 _ _ _ _ Hcs E).
  - split; [done|]. intros i t. rewrite list_lookup_fmap. destruct (cs !! i); [|done]. by intros [= <-] [].
Qed.

Lemma method_act o : exists l f, method o = Act l f.
Proof. unfold method. destruct (early o) as [[l out]|]; eauto. Qed.

Lemma critical_act rest : exists l f, critical rest = Act l f.
Proof. destruct rest; cbn; eauto. Qed.

(** A thread that has its result has it in both machines. *)
Lemma concrete_done t a : concrete t = Done a -> t = Outside (Return a).
Proof.
  destruct t as [[b|o k]|rest o k]; cbn.
  - by intros [= ->].
  - destruct (method_act o) as (l & f & ->). done.
  - destruct (critical_act rest) as (l & f & ->). done.
Qed.

Lemma concrete_all_done (ts : list thread) (results : list A) : concrete <$> ts = Done <$> results -> ts = Outside ∘ Return <$> results.
Proof.
  revert results. induction ts as [|t ts IH]; intros [|r results]; try done. cbn.
  intros [= Ht Hts]. apply concrete_done in Ht as ->. f_equal. by apply IH.
Qed.

(** The refinement: what a pool of clients of the object returns, and the data
    it leaves, a pool returns and leaves whose calls are single steps. *)
Lemma monitor_refines (Himp : implements) (cs : list (client Op Out A)) d c results :
  Forall (only P) cs -> Inv d -> rtc step (compile <$> cs, (false, d)) c -> finished c results ->
  rtc step (atomic <$> cs, d) (Done <$> results, c.2.2) /\ c.2.1 = false /\ Inv c.2.2.
Proof.
  intros Hcs Hd H Hf. apply (sim_steps Himp _ (atomic <$> cs, d) (Outside <$> cs)) in H; [|by apply sim_start].
  destruct H as ([qs d0] & ts & Ha & [Hc Hab Hal Hi Hh]). destruct c as [ps [held d1]].
  pose proof (eq_trans (eq_sym Hc) Hf) as Hd'. apply concrete_all_done in Hd' as ->. cbn in *.
  assert (forall i t, (Outside ∘ Return <$> results) !! i = Some t -> ~ inside t) as Hn.
  { intros i t. rewrite list_lookup_fmap. destruct (results !! i); [|done]. by intros [= <-] []. }
  destruct held.
  { destruct Hh as (h & rest & o & k & Hh & _). by destruct (Hn _ _ Hh). }
  destruct Hh as [-> _]. subst qs. split_and!; try done.
  by rewrite <- list_fmap_compose in Ha.
Qed.

(** Reachable pools, by their threads. *)
Lemma reachable_sim (Himp : implements) (cs : list (client Op Out A)) d c :
  Forall (only P) cs -> Inv d -> rtc step (compile <$> cs, (false, d)) c -> exists a ts, sim c a ts.
Proof.
  intros Hcs Hd H. apply (sim_steps Himp _ (atomic <$> cs, d) (Outside <$> cs)) in H; [|by apply sim_start].
  destruct H as (a & ts & _ & Hs). by exists a, ts.
Qed.

(** A thread outside the mutex touches nothing when early returns do not. *)
Lemma outside_quiet t l f :
  (forall o l out, P o -> early o = Some (l, out) -> l = []) ->
  allowed t -> concrete t = Act l f -> ~ inside t -> l = [].
Proof.
  intros Hq Ha Ht Hn. destruct t as [[a|o k]|rest o k]; [done| |by destruct Hn].
  inversion Ha as [|? ? HP _]; subst. cbn in Ht. unfold method in Ht.
  destruct (early o) as [[l0 out]|] eqn:E; [|by injection Ht as <- _].
  injection Ht as <- _. by eapply Hq.
Qed.

Lemma monitor_race_free (Himp : implements) (cs : list (client Op Out A)) d c :
  (forall o l out, P o -> early o = Some (l, out) -> l = []) ->
  Forall (only P) cs -> Inv d -> rtc step (compile <$> cs, (false, d)) c -> ~ racy c.
Proof.
  intros Hq Hcs Hd H. destruct (reachable_sim Himp _ _ _ Hcs Hd H) as (a0 & ts & [Hc _ Hal _ Hh]).
  intros (i & j & l & f & l' & f' & a & b & Hij & Hi & Hj & _ & _ & Ha & Hb & _).
  destruct c as [ps [held d1]]. cbn in *. subst ps. rewrite list_lookup_fmap in Hi, Hj.
  destruct (ts !! i) as [t|] eqn:Ei; [|done]. destruct (ts !! j) as [t'|] eqn:Ej; [|done].
  injection Hi as Hi. injection Hj as Hj.
  assert (inside t) as Ht.
  { destruct t; [|done]. by rewrite (outside_quiet _ _ _ Hq (Hal _ _ Ei) Hi id) in Ha; apply elem_of_nil in Ha. }
  assert (inside t') as Ht'.
  { destruct t'; [|done]. by rewrite (outside_quiet _ _ _ Hq (Hal _ _ Ej) Hj id) in Hb; apply elem_of_nil in Hb. }
  destruct held.
  - destruct Hh as (h & rest & o & k & _ & _ & Hu). apply Hij. trans h; [by eapply Hu|symmetry; by eapply Hu].
  - by destruct (proj2 Hh _ _ Ei).
Qed.

(** No deadlock: the thread that has the mutex moves; when nobody has it,
    everybody moves. *)
Lemma monitor_progress (Himp : implements) (cs : list (client Op Out A)) d c :
  Forall (only P) cs -> Inv d -> rtc step (compile <$> cs, (false, d)) c ->
  (exists results, finished c results) \/ moves c.
Proof.
  intros Hcs Hd H. destruct (reachable_sim Himp _ _ _ Hcs Hd H) as (a0 & ts & [Hc _ _ _ Hh]).
  destruct c as [ps [held d1]]. cbn in *. subst ps.
  destruct (finished_or_act (concrete <$> ts)) as [[results Hf]|(i & l & f & Hi)]; [left; by exists results|].
  right. destruct held.
  - destruct Hh as (h & rest & o & k & Hh & _).
    destruct rest as [out|l0 g]; eexists; eapply step_thread; rewrite ?list_lookup_fmap, ?Hh; cbn; reflexivity.
  - destruct Hh as [_ Hn]. rewrite list_lookup_fmap in Hi. destruct (ts !! i) as [t|] eqn:Ei; [|done].
    destruct t as [[a|o k]|rest o k]; [done| |by destruct (Hn _ _ Ei)]. cbn in Hi. unfold method in Hi.
    destruct (early o) as [[l0 out]|] eqn:Ee; eexists; eapply step_thread; rewrite ?list_lookup_fmap, ?Ei; cbn;
      unfold method; rewrite ?Ee; cbn; reflexivity.
Qed.

(** So every schedule can be completed, and none goes on forever
    ([pool_terminates]). *)
Lemma monitor_finishes (Himp : implements) (cs : list (client Op Out A)) d c :
  Forall (only P) cs -> Inv d -> rtc step (compile <$> cs, (false, d)) c ->
  exists c' results, rtc step c c' /\ finished c' results.
Proof.
  intros Hcs Hd H. apply pool_finishes. intros c' H'. eapply monitor_progress; [done..|]. by etrans.
Qed.

End refinement.

End monitor.

Lemma implements_weaken {Loc D Op Out : Type} early body exec (P P' : Op -> Prop) (Inv : D -> Prop) :
  (forall o, P' o -> P o) -> implements (Loc:=Loc) (Out:=Out) early body exec P Inv -> implements early body exec P' Inv.
Proof. intros H [H1 H2 H3]. split; intros; [eapply H1|eapply H2|eapply H3]; eauto. Qed.
