(* ===== verification/StatusBundle.v ===== *)
(** * StatusBundle: the DER codec of the status-proof bundle

    src/nv_ocsp.cpp, [read_der_length], [read_der_tlv] and
    [RawProofOcspClient::decode_bundle]: a version 1 bundle is
    SEQUENCE { INTEGER 1, SEQUENCE OF OCTET STRING }.  A string is its list of
    bytes.  The grammar is given as an encoder, and the decoder accepts exactly
    the encodings of bounded bundles: DER has one encoding per value, so no two
    byte strings decode to the same proofs. *)

From S2P Require Import Prelude Errors Utils.

Module Bundle.

Definition BUNDLE_VERSION : Z := 1.
Definition MAX_BUNDLE_BYTES : Z := 16384.
Definition MAX_RESPONSES : Z := 16.
Definition MAX_RESPONSE_BYTES : Z := 2048.

(** The loop of [read_der_length]: big-endian value of [n] bytes. *)
Fixpoint der_value (data : list Z) (offset : Z) (n : nat) (i value : Z) : res Z :=
  match n with
  | O => Ret value
  | S n =>
      let* b := vget data (offset + i) in
      der_value data offset n (i + 1) (Z.lor (u64 (Z.shiftl value 8)) b)
  end.

(** [read_der_length]: the length and the offset after it. *)
Definition read_der_length (data : list Z) (offset : Z) : res (option (Z * Z)) :=
  test* offset <? zlen data in
  let* first := vget data offset in
  let offset := offset + 1 in
  if first <? 0x80 then Ret (Some (first, offset))
  else
    let count := Z.land first 0x7f in
    if (count =? 0) || (2 <? count) || (zlen data <? u64 (offset + count)) then Ret None
    else
      let* value := der_value data offset (Z.to_nat count) 0 0 in
      let* b := vget data offset in
      if (b =? 0) || (value <? 0x80) then Ret None
      else Ret (Some (value, offset + count)).

(** [read_der_tlv]: start and length of the contents, and the offset after
    them. *)
Definition read_der_tlv (data : list Z) (offset limit tag : Z) : res (option (Z * Z * Z)) :=
  test* offset <? limit in
  let* t := vget data offset in
  test* t =? tag in
  let offset := offset + 1 in
  try* (length, offset) := read_der_length data offset in
  test* (offset <=? limit) && (length <=? limit - offset) in
  Ret (Some (offset, length, offset + length)).

(** [s.substr(pos, n)] on bytes. *)
Definition substr_bytes (data : list Z) (pos n : Z) : res (list Z) :=
  if zlen data <? pos then Throw out_of_range else Ret (slice data pos n).

(** The [while] loop over the responses; [UB] marks fuel that ran out. *)
Fixpoint decode_items (fuel : nat) (bundle_der : list Z) (item list_end : Z)
    (responses : list (list Z)) : res (list (list Z)) :=
  match fuel with
  | O => UB
  | S fuel =>
      if item <? list_end then
        check* zlen responses <? MAX_RESPONSES else OcspInvalidResponse in
        let* (response_start, response_length, item) :=
          or_err (read_der_tlv bundle_der item list_end 0x04) OcspInvalidResponse in
        check* negb (response_length =? 0) && (response_length <=? MAX_RESPONSE_BYTES)
          else OcspInvalidResponse in
        let* response := substr_bytes bundle_der response_start response_length in
        decode_items fuel bundle_der item list_end (responses ++ [response])
      else Ret responses
  end.

Definition decode_bundle (bundle_der : list Z) : res (list (list Z)) :=
  check* negb (zlen bundle_der =? 0) && (zlen bundle_der <=? MAX_BUNDLE_BYTES)
    else OcspInvalidResponse in
  let* (body_start, body_length, offset) :=
    or_err (read_der_tlv bundle_der 0 (zlen bundle_der) 0x30) OcspInvalidResponse in
  check* offset =? zlen bundle_der else OcspInvalidResponse in
  let body_end := body_start + body_length in
  let cursor := body_start in
  let* (version_start, version_length, cursor) :=
    or_err (read_der_tlv bundle_der cursor body_end 0x02) OcspInvalidResponse in
  check* version_length =? 1 else OcspInvalidResponse in
  let* v := vget bundle_der version_start in
  check* v =? BUNDLE_VERSION else OcspInvalidResponse in
  let* (list_start, list_length, cursor) :=
    or_err (read_der_tlv bundle_der cursor body_end 0x30) OcspInvalidResponse in
  check* cursor =? body_end else OcspInvalidResponse in
  let list_end := list_start + list_length in
  let* responses := decode_items (S (length bundle_der)) bundle_der list_start list_end [] in
  check* negb (zlen responses =? 0) else OcspInvalidResponse in
  Ret responses.

(** ** The grammar *)

(** The minimal definite length. *)
Definition der_length (n : Z) : list Z :=
  if n <? 128 then [n] else if n <? 256 then [0x81; n] else [0x82; n / 256; n mod 256].

Definition tlv (tag : Z) (content : list Z) : list Z :=
  [tag] ++ der_length (zlen content) ++ content.

Definition encode_items (rs : list (list Z)) : list Z := concat (tlv 0x04 <$> rs).

Definition encode_bundle (rs : list (list Z)) : list Z :=
  tlv 0x30 (tlv 0x02 [BUNDLE_VERSION] ++ tlv 0x30 (encode_items rs)).

Definition response_ok (r : list Z) : Prop := 0 < zlen r <= MAX_RESPONSE_BYTES.

Definition bundle_ok (rs : list (list Z)) : Prop :=
  Forall response_ok rs /\ 0 < zlen rs <= MAX_RESPONSES /\
  zlen (encode_bundle rs) <= MAX_BUNDLE_BYTES.

(** ** Lemmas *)

Lemma der_length_zlen n : 1 <= zlen (der_length n) <= 3.
Proof. unfold der_length. repeat case_match; cbv; split; congruence. Qed.

Lemma tlv_zlen tag c : zlen (tlv tag c) = 1 + zlen (der_length (zlen c)) + zlen c.
Proof. unfold tlv. autorewrite with nv_len. lia. Qed.

Lemma der_value_2 d off a b :
  is_byte a -> is_byte b -> vget (E:=Error) d (off + 0) = Ret a ->
  vget (E:=Error) d (off + (0 + 1)) = Ret b ->
  der_value d off 2 0 0 = Ret (a * 256 + b).
Proof.
  intros Ha Hb Ea Eb. unfold is_byte in *. cbn [der_value]. rewrite Ea. cbn [obind]. rewrite Eb.
  cbn [obind]. f_equal. change (u64 (Z.shiftl 0 8)) with 0. rewrite Z.lor_0_l.
  rewrite Z.shiftl_mul_pow2, wrap_small by lia. rewrite Z.lor_comm, <- Z.shiftl_mul_pow2 by lia.
  rewrite lor_shiftl_add by lia. lia.
Qed.

Lemma der_value_1 d off a : is_byte a -> vget (E:=Error) d (off + 0) = Ret a -> der_value d off 1 0 0 = Ret a.
Proof. intros Ha Ea. cbn [der_value]. rewrite Ea. cbn [obind]. by rewrite Z.lor_0_l. Qed.

Section codec.

Context (d : list Z) (Hd : Forall is_byte d) (Hok : zlen d <= MAX_BUNDLE_BYTES).

Lemma get_byte off :
  0 <= off < zlen d -> exists b, vget (E:=Error) d off = Ret b /\ is_byte b /\ slice d off 1 = [b].
Proof.
  intros Ho. destruct (vget_in_range (E:=Error) d off Ho) as (b & E & Hb). exists b.
  split_and!; [done| |by eapply slice_vget]. by eapply Forall_lookup_1.
Qed.

(** A length field that is read is the minimal encoding of its value. *)
Lemma read_der_length_sound off :
  0 <= off ->
  read_der_length d off = Ret None \/
  exists len, 0 <= len < 65536 /\ off + zlen (der_length len) <= zlen d /\
    slice d off (zlen (der_length len)) = der_length len /\
    read_der_length d off = Ret (Some (len, off + zlen (der_length len))).
Proof.
  intros Ho. unfold read_der_length, MAX_BUNDLE_BYTES in *.
  destruct (off <? zlen d) eqn:E0; [|by left].
  destruct (get_byte off) as (f & -> & Hf & Sf); [lia|]. cbn [obind]. unfold is_byte in Hf.
  destruct (f <? 128) eqn:E1.
  { right. exists f. unfold der_length. rewrite E1. change (zlen [f]) with 1. split_and!; (done || lia). }
  assert (Hc : Z.land f 127 = f - 128).
  { change 127 with (Z.ones 7). rewrite Z.land_ones by lia.
    replace f with (f - 128 + 1 * 2 ^ 7) at 1 by lia. rewrite Z.mod_add, Z.mod_small; lia. }
  rewrite Hc. destruct ((f - 128 =? 0) || (2 <? f - 128) || _) eqn:E2; [by left|].
  apply orb_false_iff in E2 as [[E2 E3]%orb_false_iff E4]. rewrite wrap_small in E4 by lia.
  destruct (get_byte (off + 1)) as (a & Ea & Ha & Sa); [lia|].
  assert (f - 128 = 1 \/ f - 128 = 2) as [Hf1|Hf2] by lia.
  - rewrite Hf1. change (Z.to_nat 1) with 1%nat.
    rewrite (der_value_1 _ _ a) by (done || by rewrite Z.add_0_r). cbn [obind]. rewrite Ea. cbn [obind].
    unfold is_byte in Ha. destruct ((a =? 0) || (a <? 128)) eqn:E5; [by left|].
    right. exists a. unfold der_length. replace (a <? 128) with false by lia.
    replace (a <? 256) with true by lia. change (zlen [129; a]) with 2. split_and!; try lia; [|by rewrite <- Z.add_assoc].
    change [129; a] with ([129] ++ [a]). replace 129 with f by lia. rewrite <- Sf, <- Sa.
    by rewrite slice_glue by lia.
  - destruct (get_byte (off + 1 + 1)) as (b & Eb & Hb & Sb); [lia|].
    rewrite Hf2. change (Z.to_nat 2) with 2%nat.
    rewrite (der_value_2 _ _ a b) by (done || by rewrite Z.add_0_r). cbn [obind]. rewrite Ea. cbn [obind].
    unfold is_byte in Ha, Hb. destruct ((a =? 0) || (a * 256 + b <? 128)) eqn:E5; [by left|].
    right. exists (a * 256 + b). unfold der_length. replace (a * 256 + b <? 128) with false by lia.
    replace (a * 256 + b <? 256) with false by lia.
    rewrite Z.div_add_l, Z.div_small, Z.add_0_r, (Z.add_comm (a * 256)), Z.mod_add, Z.mod_small by lia.
    change (zlen [130; a; b]) with 3. split_and!; try lia; [|by rewrite <- Z.add_assoc].
    change [130; a; b] with ([130] ++ [a] ++ [b]). replace 130 with f by lia. rewrite <- Sf, <- Sa, <- Sb.
    by rewrite !slice_glue by lia.
Qed.

Lemma read_der_length_complete off len pre post :
  d = pre ++ der_length len ++ post -> off = zlen pre -> 0 <= len < 65536 ->
  read_der_length d off = Ret (Some (len, off + zlen (der_length len))).
Proof.
  intros Ed -> Hl. pose proof (zlen_nonneg pre). pose proof (zlen_nonneg post).
  assert (Hz : zlen d = zlen pre + zlen (der_length len) + zlen post) by (rewrite Ed, !zlen_app; lia).
  pose proof (der_length_zlen len). unfold read_der_length, MAX_BUNDLE_BYTES in *.
  replace (zlen pre <? zlen d) with true by lia.
  unfold der_length in *. destruct (len <? 128) eqn:E1; [|destruct (len <? 256) eqn:E2].
  - rewrite (vget_at d _ pre post len) by done. cbn [obind]. by rewrite E1.
  - rewrite (vget_at d _ pre (len :: post) 129) by done. cbn [obind]. change (129 <? 128) with false.
    change (Z.land 129 127) with 1. change (zlen [129; len]) with 2 in *.
    rewrite wrap_small by lia. replace ((1 =? 0) || (2 <? 1) || (zlen d <? zlen pre + 1 + 1)) with false by lia.
    assert (G : vget (E:=Error) d (zlen pre + 1) = Ret len)
      by (apply (vget_at d _ (pre ++ [129]) post); [by rewrite <- app_assoc|len_tac]).
    change (Z.to_nat 1) with 1%nat.
    rewrite (der_value_1 _ _ len) by (rewrite ?Z.add_0_r; done || unfold is_byte; lia). cbn [obind].
    rewrite G. cbn [obind]. replace ((len =? 0) || (len <? 128)) with false by lia.
    by rewrite <- Z.add_assoc.
  - rewrite (vget_at d _ pre ([len / 256; len mod 256] ++ post) 130) by done. cbn [obind].
    change (130 <? 128) with false. change (Z.land 130 127) with 2.
    change (zlen [130; len / 256; len mod 256]) with 3 in *. rewrite wrap_small by lia.
    replace ((2 =? 0) || (2 <? 2) || (zlen d <? zlen pre + 1 + 2)) with false by lia.
    assert (G : vget (E:=Error) d (zlen pre + 1) = Ret (len / 256))
      by (apply (vget_at d _ (pre ++ [130]) (len mod 256 :: post)); [by rewrite <- app_assoc|len_tac]).
    assert (G' : vget (E:=Error) d (zlen pre + 1 + 1) = Ret (len mod 256))
      by (apply (vget_at d _ (pre ++ [130; len / 256]) post); [by rewrite <- app_assoc|len_tac]).
    pose proof (Z.div_mod len 256 ltac:(lia)). pose proof (Z.mod_pos_bound len 256 ltac:(lia)).
    change (Z.to_nat 2) with 2%nat.
    rewrite (der_value_2 _ _ (len / 256) (len mod 256)) by (rewrite ?Z.add_0_r; done || unfold is_byte; lia).
    cbn [obind]. rewrite G. cbn [obind].
    replace ((len / 256 =? 0) || (len / 256 * 256 + len mod 256 <? 128)) with false by lia.
    rewrite <- Z.add_assoc. do 3 f_equal. lia.
Qed.

(** A value that is read is one encoded value inside the limit. *)
Lemma read_der_tlv_sound off limit tag :
  0 <= off -> limit <= zlen d ->
  read_der_tlv d off limit tag = Ret None \/
  exists c start, off + zlen (tlv tag c) <= limit /\ start = off + 1 + zlen (der_length (zlen c)) /\
    slice d off (zlen (tlv tag c)) = tlv tag c /\ c = slice d start (zlen c) /\
    read_der_tlv d off limit tag = Ret (Some (start, zlen c, off + zlen (tlv tag c))).
Proof.
  intros Ho Hl. unfold read_der_tlv. destruct (off <? limit) eqn:E0; [|by left].
  destruct (get_byte off) as (t & -> & _ & St); [lia|]. cbn [obind].
  destruct (t =? tag) eqn:E1; [|by left]. assert (t = tag) as -> by lia.
  destruct (read_der_length_sound (off + 1)) as [->|(len & Hlen & Hl1 & Sl & ->)]; [lia|by left|].
  cbn [obind obind_opt]. set (dl := zlen (der_length len)) in *. pose proof (der_length_zlen len) as Hdl. fold dl in Hdl.
  destruct ((off + 1 + dl <=? limit) && (len <=? limit - (off + 1 + dl))) eqn:E2; [|by left].
  right. exists (slice d (off + 1 + dl) len), (off + 1 + dl).
  assert (Hz : zlen (slice d (off + 1 + dl) len) = len) by (apply slice_len; lia).
  rewrite tlv_zlen, Hz. fold dl. split_and!; try (done || lia).
  - unfold tlv. rewrite Hz, <- Sl, <- St. rewrite !slice_glue by lia. f_equal. lia.
  - do 3 f_equal. lia.
Qed.

Lemma read_der_tlv_complete off limit tag c pre post :
  d = pre ++ tlv tag c ++ post -> off = zlen pre -> off + zlen (tlv tag c) <= limit -> limit <= zlen d ->
  read_der_tlv d off limit tag =
  Ret (Some (off + 1 + zlen (der_length (zlen c)), zlen c, off + zlen (tlv tag c))).
Proof.
  intros Ed -> Hl Hl'. pose proof (zlen_nonneg pre). pose proof (zlen_nonneg c).
  pose proof (der_length_zlen (zlen c)). rewrite tlv_zlen in *.
  unfold read_der_tlv, MAX_BUNDLE_BYTES in *. replace (zlen pre <? limit) with true by lia.
  unfold tlv in Ed. rewrite <- !app_assoc in Ed.
  rewrite (vget_at d _ pre (der_length (zlen c) ++ c ++ post) tag) by done. cbn [obind].
  rewrite Z.eqb_refl.
  rewrite (read_der_length_complete (zlen pre + 1) (zlen c) (pre ++ [tag]) (c ++ post))
    by (rewrite ?Ed, <- ?app_assoc; done || len_tac || lia).
  cbn [obind obind_opt].
  match goal with |- (if ?b then _ else _) = _ => replace b with true by lia end.
  do 3 f_equal. lia.
Qed.

Lemma encode_items_cons r rs : encode_items (r :: rs) = tlv 0x04 r ++ encode_items rs.
Proof. done. Qed.

(** The loop: it fails, or the list is a sequence of octet strings. *)
Lemma decode_items_sound fuel item list_end acc :
  0 <= item <= list_end -> list_end <= zlen d -> list_end - item < Z.of_nat fuel ->
  zlen acc <= MAX_RESPONSES ->
  decode_items fuel d item list_end acc = Err OcspInvalidResponse \/
  exists rs, Forall response_ok rs /\ zlen (acc ++ rs) <= MAX_RESPONSES /\
    slice d item (list_end - item) = encode_items rs /\
    decode_items fuel d item list_end acc = Ret (acc ++ rs).
Proof.
  revert item acc. induction fuel as [|fuel IH]; intros item acc Hi Hle Hf Hacc; [lia|].
  cbn [decode_items]. destruct (item <? list_end) eqn:E0.
  2: { right. exists []. replace (list_end - item) with 0 by lia. rewrite !app_nil_r. done. }
  destruct (zlen acc <? MAX_RESPONSES) eqn:E1; [|by left].
  destruct (read_der_tlv_sound item list_end 0x04) as [->|(c & start & Hl & Hs & Sc & Ec & ->)]; [lia..|by left|].
  cbn [obind or_err]. pose proof (zlen_nonneg c). pose proof (der_length_zlen (zlen c)).
  rewrite tlv_zlen in *.
  destruct (negb (zlen c =? 0) && (zlen c <=? MAX_RESPONSE_BYTES)) eqn:E2; [|by left].
  unfold substr_bytes. replace (zlen d <? start) with false by lia. cbn [obind]. rewrite <- Ec.
  destruct (IH (item + (1 + zlen (der_length (zlen c)) + zlen c)) (acc ++ [c]))
    as [->|(rs & Hrs & Hn & Ss & ->)]; [lia..|rewrite zlen_app; change (zlen [c]) with 1; lia|by left|].
  right. exists (c :: rs). rewrite <- app_assoc in *. cbn [app] in *. split_and!; try done.
  - constructor; [|done]. unfold response_ok. lia.
  - rewrite encode_items_cons, <- Sc, <- Ss, slice_glue by lia. f_equal. lia.
Qed.

Lemma decode_items_complete fuel rs acc pre post item list_end :
  d = pre ++ encode_items rs ++ post -> item = zlen pre -> list_end = item + zlen (encode_items rs) ->
  Forall response_ok rs -> zlen (acc ++ rs) <= MAX_RESPONSES ->
  zlen (encode_items rs) < Z.of_nat fuel ->
  decode_items fuel d item list_end acc = Ret (acc ++ rs).
Proof.
  intros Ed Hi He Hrs. revert fuel pre item acc Ed Hi He.
  induction Hrs as [|r rs Hr Hrs IH]; intros fuel pre item acc Ed Hi He Hn Hf.
  all: destruct fuel as [|fuel];
    [match type of Hf with zlen ?x < _ => pose proof (zlen_nonneg x) end; lia|]; cbn [decode_items].
  { subst. change (zlen (encode_items [])) with 0. rewrite Z.add_0_r, Z.ltb_irrefl, app_nil_r. done. }
  rewrite encode_items_cons, zlen_app in *. rewrite tlv_zlen in *. pose proof (der_length_zlen (zlen r)).
  pose proof (zlen_nonneg r). pose proof (zlen_nonneg (encode_items rs)). pose proof (zlen_nonneg post).
  pose proof (zlen_nonneg rs). pose proof (zlen_nonneg pre). rewrite zlen_app, zlen_cons in Hn.
  rewrite <- app_assoc in Ed. unfold response_ok in Hr.
  assert (Hz : zlen d = zlen pre + zlen (tlv 4 r) + zlen (encode_items rs) + zlen post)
    by (rewrite Ed, !zlen_app; lia). rewrite tlv_zlen in Hz.
  replace (item <? list_end) with true by lia. replace (zlen acc <? MAX_RESPONSES) with true by lia.
  rewrite (read_der_tlv_complete item list_end 4 r pre (encode_items rs ++ post))
    by (rewrite ?tlv_zlen; done || lia).
  cbn [obind or_err]. replace (negb (zlen r =? 0) && (zlen r <=? MAX_RESPONSE_BYTES)) with true by lia.
  unfold substr_bytes. replace (zlen d <? item + 1 + zlen (der_length (zlen r))) with false by lia.
  cbn [obind].
  replace (slice d _ (zlen r)) with r.
  2: { unfold tlv in Ed. rewrite <- !app_assoc in Ed. rewrite Ed.
       rewrite (app_assoc [4]), (app_assoc pre). rewrite slice_app; [done| |done]. len_tac. }
  rewrite (IH _ (pre ++ tlv 4 r)); [by rewrite <- app_assoc| | | | |].
  - by rewrite <- app_assoc.
  - rewrite zlen_app. lia.
  - rewrite tlv_zlen. lia.
  - rewrite <- app_assoc, zlen_app, zlen_app. change (zlen [r]) with 1. lia.
  - lia.
Qed.

Lemma decode_bundle_sound :
  decode_bundle d = Err OcspInvalidResponse \/
  exists rs, bundle_ok rs /\ d = encode_bundle rs /\ decode_bundle d = Ret rs.
Proof.
  pose proof (zlen_nonneg d). unfold decode_bundle.
  destruct (negb (zlen d =? 0) && (zlen d <=? MAX_BUNDLE_BYTES)) eqn:E0; [|by left].
  destruct (read_der_tlv_sound 0 (zlen d) 0x30) as [->|(c0 & s0 & Hl0 & Hs0 & S0 & C0 & ->)]; [lia..|by left|].
  cbn [obind or_err]. rewrite Z.add_0_l in *.
  destruct (zlen (tlv 48 c0) =? zlen d) eqn:E1; [|by left]. rewrite tlv_zlen in *.
  pose proof (zlen_nonneg c0). pose proof (der_length_zlen (zlen c0)).
  replace (s0 + zlen c0) with (zlen d) by lia.
  destruct (read_der_tlv_sound s0 (zlen d) 0x02) as [->|(cv & sv & Hlv & Hsv & Sv & Cv & ->)]; [lia..|by left|].
  cbn [obind or_err]. destruct (zlen cv =? 1) eqn:E2; [|by left]. apply Z.eqb_eq in E2.
  pose proof (der_length_zlen (zlen cv)).
  assert (sv < zlen d) by (rewrite tlv_zlen in Hlv; lia).
  destruct (get_byte sv) as (v & -> & _ & Sb); [lia|]. cbn [obind].
  destruct (v =? BUNDLE_VERSION) eqn:E3; [|by left]. apply Z.eqb_eq in E3 as ->.
  rewrite E2, Sb in Cv. subst cv. set (n1 := zlen (tlv 2 [BUNDLE_VERSION])) in *.
  pose proof (zlen_nonneg (tlv 2 [BUNDLE_VERSION])) as Hn1. fold n1 in Hn1.
  destruct (read_der_tlv_sound (s0 + n1) (zlen d) 0x30) as [->|(cl & sl & Hll & Hsl & Sl & Cl & ->)];
    [lia..|by left|]. cbn [obind or_err].
  destruct (s0 + n1 + zlen (tlv 48 cl) =? zlen d) eqn:E4; [|by left]. apply Z.eqb_eq in E4.
  pose proof (zlen_nonneg cl). pose proof (der_length_zlen (zlen cl)).
  assert (Hend : sl + zlen cl = zlen d) by (rewrite tlv_zlen in E4; lia).
  destruct (decode_items_sound (S (length d)) sl (sl + zlen cl) [])
    as [->|(rs & Hrs & Hn & Ss & ->)]; [lia|lia|unfold zlen in *; lia|done|by left|].
  cbn [obind app]. replace (sl + zlen cl - sl) with (zlen cl) in Ss by lia.
  rewrite <- Cl in Ss. destruct (zlen rs =? 0) eqn:E5; cbn [negb]; [by left|]. right. exists rs.
  assert (Ed : d = encode_bundle rs).
  { unfold encode_bundle. rewrite <- Ss, <- Sl, <- Sv. fold n1. rewrite slice_glue by lia.
    replace (n1 + zlen (tlv 48 cl)) with (zlen c0) by lia. rewrite Hs0, <- Hs0, <- C0.
    rewrite <- S0. symmetry. apply slice_all. lia. }
  split_and!; [|done|done]. unfold bundle_ok. rewrite <- Ed. pose proof (zlen_nonneg rs).
  cbn [app] in Hn. split_and!; (done || lia).
Qed.

Lemma decode_bundle_complete rs : bundle_ok rs -> d = encode_bundle rs -> decode_bundle d = Ret rs.
Proof.
  intros (Hrs & Hn & Hm) Ed. set (cl := encode_items rs).
  set (c0 := tlv 0x02 [BUNDLE_VERSION] ++ tlv 0x30 cl).
  assert (E0 : d = tlv 48 c0) by done.
  pose proof (zlen_nonneg cl). pose proof (der_length_zlen (zlen cl)).
  pose proof (der_length_zlen (zlen c0)).
  assert (Hc0 : zlen c0 = 3 + zlen (tlv 48 cl)) by (unfold c0; rewrite zlen_app; done).
  assert (Hz : zlen d = 1 + zlen (der_length (zlen c0)) + zlen c0) by (rewrite E0, tlv_zlen; done).
  pose proof (tlv_zlen 48 cl). set (pre := [48] ++ der_length (zlen c0)).
  assert (E1 : d = pre ++ tlv 2 [BUNDLE_VERSION] ++ tlv 48 cl)
    by (rewrite E0; unfold tlv at 1, pre; by rewrite <- !app_assoc).
  assert (Hp : zlen pre = 0 + 1 + zlen (der_length (zlen c0))) by (unfold pre; len_tac).
  unfold decode_bundle. rewrite <- Ed in Hm.
  replace (negb (zlen d =? 0) && (zlen d <=? MAX_BUNDLE_BYTES)) with true by lia.
  rewrite (read_der_tlv_complete 0 (zlen d) 48 c0 [] []) by (rewrite ?tlv_zlen, ?app_nil_r; done || lia).
  cbn [obind or_err]. rewrite tlv_zlen. rewrite (proj2 (Z.eqb_eq _ (zlen d))) by lia.
  rewrite <- Hp. replace (zlen pre + zlen c0) with (zlen d) by lia.
  rewrite (read_der_tlv_complete (zlen pre) (zlen d) 2 [BUNDLE_VERSION] pre (tlv 48 cl))
    by (done || change (zlen (tlv 2 [BUNDLE_VERSION])) with 3; lia).
  cbn [obind or_err]. change (zlen [BUNDLE_VERSION]) with 1. change (1 =? 1) with true. cbn iota.
  change (zlen (der_length 1)) with 1.
  rewrite (vget_at d _ (pre ++ [2; 1]) (tlv 48 cl) BUNDLE_VERSION)
    by (rewrite ?E1, <- ?app_assoc; done || len_tac).
  cbn [obind]. rewrite Z.eqb_refl. change (zlen (tlv 2 [BUNDLE_VERSION])) with 3.
  rewrite (read_der_tlv_complete (zlen pre + 3) (zlen d) 48 cl (pre ++ [2; 1; BUNDLE_VERSION]) [])
    by first [lia | by rewrite E1, app_nil_r, <- app_assoc | len_tac].
  cbn [obind or_err]. rewrite (proj2 (Z.eqb_eq _ (zlen d))) by lia.
  rewrite (decode_items_complete _ rs [] (pre ++ [2; 1; BUNDLE_VERSION; 48] ++ der_length (zlen cl)) []).
  - cbn [obind app]. replace (zlen rs =? 0) with false by lia. done.
  - rewrite E1, app_nil_r. unfold tlv, cl. by rewrite <- !app_assoc.
  - autorewrite with nv_len. change (zlen [2; 1; BUNDLE_VERSION; 48]) with 4. lia.
  - done.
  - done.
  - cbn [app]. lia.
  - fold cl. unfold zlen in *. lia.
Qed.

End codec.

(** ** Properties *)

(** C33: the status-proof bundle decoder accepts exactly the DER encodings of
    bounded bundles: it returns a list of proofs precisely when there are
    between 1 and 16 of them, of 1 to 2048 bytes each, and the bytes are their
    one canonical encoding of at most 16384 bytes; so a bundle cannot be
    re-encoded, padded or extended without being refused. *)
Theorem bundle_decode_iff d rs :
  Forall is_byte d ->
  decode_bundle d = Ret rs <-> bundle_ok rs /\ d = encode_bundle rs.
Proof.
  intros Hd. destruct (decide (zlen d <= MAX_BUNDLE_BYTES)) as [Hm|Hm]; [split|].
  - intros H. destruct (decode_bundle_sound d Hd Hm) as [E|(rs' & Hb & Ed & E)]; [congruence|].
    rewrite H in E. by injection E as ->.
  - intros (Hb & Ed). by apply decode_bundle_complete.
  - split.
    + unfold decode_bundle. replace (zlen d <=? MAX_BUNDLE_BYTES) with false by lia.
      by rewrite andb_false_r.
    + intros ((_ & _ & H) & ->). lia.
Qed.

Lemma bundle_decode_iff_witness :
  decode_bundle [0x30; 0x09; 0x02; 0x01; 0x01; 0x30; 0x04; 0x04; 0x02; 0xaa; 0xbb]
  = Ret [[0xaa; 0xbb]].
Proof.
  apply (bundle_decode_iff [0x30; 0x09; 0x02; 0x01; 0x01; 0x30; 0x04; 0x04; 0x02; 0xaa; 0xbb]).
  - repeat constructor; done.
  - split; [|done]. split_and!; [repeat constructor; done|done..].
Defined.

(** P: on any byte string, of any length, the bundle decoder returns proofs or
    OcspInvalidResponse: it never reads outside, its [substr] never throws and
    its loop terminates. *)
Theorem bundle_decode_total d :
  Forall is_byte d ->
  (exists rs, decode_bundle d = Ret rs) \/ decode_bundle d = Err OcspInvalidResponse.
Proof.
  intros Hd. destruct (decide (zlen d <= MAX_BUNDLE_BYTES)) as [Hm|Hm].
  - destruct (decode_bundle_sound d Hd Hm) as [E|(rs' & Hb & Ed & E)]; eauto.
  - right. unfold decode_bundle. replace (zlen d <=? MAX_BUNDLE_BYTES) with false by lia.
    by rewrite andb_false_r.
Qed.

Lemma bundle_decode_total_witness :
  (exists rs, decode_bundle [0x30; 0x84; 0; 0] = Ret rs) \/
  decode_bundle [0x30; 0x84; 0; 0] = Err OcspInvalidResponse.
Proof. apply (bundle_decode_total [0x30; 0x84; 0; 0]). repeat constructor; done. Defined.

End Bundle.
