(* ===== verification/OpenSsl.v ===== *)
(** * OpenSsl: the third-party operations the certificate code calls

    OpenSSL's X.509 and OCSP functions, as the parameters of the certificate
    and OCSP files: one field per function the source calls, named after it,
    with NULL and non-success results as [None] or the documented integer.
    Nothing is assumed about them here; the files that rely on documented
    behaviour state it as named hypotheses. *)

From S2P Require Import Prelude Errors.

Class OpenSSL : Type := {
  X509 : Type;
  X509_STORE : Type;
  EVP_PKEY : Type;
  EVP_MD : Type;
  ASN1_TIME : Type;
  OCSP_RESPONSE : Type;
  OCSP_BASICRESP : Type;
  OCSP_SINGLERESP : Type;
  OCSP_CERTID : Type;
  OCSP_REQUEST : Type;
  (** X.509 *)
  PEM_read_bio_X509 : string -> option X509;
  X509_STORE_new : option X509_STORE;
  X509_STORE_add_cert : X509_STORE -> X509 -> option X509_STORE;
  X509_cmp : X509 -> X509 -> Z;
  (** [X509_verify_cert] with expiry checks off, on a store, a target and the
      untrusted certificates: the return value and [get0_chain]. *)
  X509_verify_cert : X509_STORE -> X509 -> list X509 -> Z * option (list X509);
  X509_get0_notAfter : X509 -> option ASN1_TIME;
  (** [ASN1_TIME_to_tm], then [timegm]. *)
  ASN1_TIME_to_unix : ASN1_TIME -> option Z;
  X509_get_pubkey : X509 -> option EVP_PKEY;
  EVP_sha384 : option EVP_MD;
  EVP_MD_CTX_new : bool;
  EVP_DigestVerifyInit : EVP_MD -> EVP_PKEY -> Z;
  EVP_DigestVerifyUpdate : EVP_MD -> EVP_PKEY -> list Z -> Z;
  EVP_DigestVerifyFinal : EVP_MD -> EVP_PKEY -> list Z -> list Z -> Z;
  BN_new : bool;
  BN_bin2bn : list Z -> option Z;
  ECDSA_SIG_new : bool;
  ECDSA_SIG_set0 : Z -> Z -> Z;
  i2d_ECDSA_SIG : Z -> Z -> option (list Z);
  (** The contents of the extension with an OID: [None] when there is none. *)
  OBJ_txt2obj : string -> bool;
  X509_get_ext_by_OBJ : X509 -> string -> Z;
  X509_get_ext_data : X509 -> Z -> option (option (list Z));
  (** [d2i_ASN1_SEQUENCE_ANY]: per element its contents, [None] for NULL. *)
  d2i_ASN1_SEQUENCE_ANY : list Z -> option (list (option (list Z)));
  X509_subject_common_name : X509 -> option (list Z);
  X509_serial_decimal : X509 -> option string;
  sk_X509_new_null : bool;
  sk_X509_insert_ok : bool;
  X509_up_ref : X509 -> Z;
  (** OCSP *)
  d2i_OCSP_RESPONSE : list Z -> option (OCSP_RESPONSE * Z);
  i2d_OCSP_RESPONSE : OCSP_RESPONSE -> option (list Z);
  OCSP_response_status : OCSP_RESPONSE -> Z;
  OCSP_response_get1_basic : OCSP_RESPONSE -> option OCSP_BASICRESP;
  OCSP_response_create : Z -> OCSP_BASICRESP -> option OCSP_RESPONSE;
  OCSP_basic_verify : OCSP_BASICRESP -> list X509 -> X509_STORE -> Z -> Z;
  (** [OCSP_resp_count] and [OCSP_resp_get0] for every index. *)
  OCSP_resp_all : OCSP_BASICRESP -> list (option OCSP_SINGLERESP);
  OCSP_SINGLERESP_get0_id : OCSP_SINGLERESP -> option OCSP_CERTID;
  OCSP_id_cmp : OCSP_CERTID -> OCSP_CERTID -> Z;
  OCSP_resp_find : OCSP_BASICRESP -> OCSP_CERTID -> Z;
  (** [OCSP_single_get0_status]: status, reason, thisUpdate, nextUpdate. *)
  OCSP_single_get0_status : OCSP_SINGLERESP -> Z * Z * option ASN1_TIME * option ASN1_TIME;
  OCSP_crl_reason_str : Z -> string;
  OCSP_cert_to_id : option X509 -> option X509 -> option OCSP_CERTID;
  i2d_OCSP_CERTID : OCSP_CERTID -> option (list Z);
  OCSP_CERTID_dup : OCSP_CERTID -> option OCSP_CERTID;
  (** [OCSP_REQUEST_new] with [OCSP_request_add1_nonce]. *)
  OCSP_request_with_nonce : option OCSP_REQUEST;
  OCSP_request_add0_id : OCSP_REQUEST -> OCSP_CERTID -> option OCSP_REQUEST;
  (** [BIO_new], [i2d_OCSP_REQUEST_bio] and [BIO_get_mem_data]. *)
  OCSP_request_der : OCSP_REQUEST -> option (list Z);
  OCSP_check_nonce : OCSP_REQUEST -> OCSP_BASICRESP -> Z;
}.

(** The status codes of RFC 6960 as OpenSSL numbers them. *)
Definition OCSP_RESPONSE_STATUS_SUCCESSFUL : Z := 0.
Definition OCSP_RESPONSE_STATUS_MALFORMEDREQUEST : Z := 1.
Definition OCSP_RESPONSE_STATUS_INTERNALERROR : Z := 2.
Definition OCSP_RESPONSE_STATUS_TRYLATER : Z := 3.
Definition OCSP_RESPONSE_STATUS_SIGREQUIRED : Z := 5.
Definition OCSP_RESPONSE_STATUS_UNAUTHORIZED : Z := 6.
Definition V_OCSP_CERTSTATUS_GOOD : Z := 0.
Definition V_OCSP_CERTSTATUS_REVOKED : Z := 1.
Definition V_OCSP_CERTSTATUS_UNKNOWN : Z := 2.

(** ** A small instance, for examples

    Certificates, stores and CertIDs are numbers; an OCSP response is its list
    of bytes, each a SingleResponse [10 * CertID + status] signed at time 1000
    and good until 2000. *)
Definition toy_openssl : OpenSSL := {|
  X509 := Z;
  X509_STORE := Z;
  EVP_PKEY := Z;
  EVP_MD := Z;
  ASN1_TIME := Z;
  OCSP_RESPONSE := list Z;
  OCSP_BASICRESP := list Z;
  OCSP_SINGLERESP := Z;
  OCSP_CERTID := Z;
  OCSP_REQUEST := Z;
  PEM_read_bio_X509 s := if String.eqb s "" then None else Some (Z.of_nat (String.length s));
  X509_STORE_new := Some 0;
  X509_STORE_add_cert _ x := Some x;
  X509_cmp a b := if a =? b then 0 else 1;
  X509_verify_cert _ x l := (1, Some (x :: l));
  X509_get0_notAfter x := Some (5000 + x);
  ASN1_TIME_to_unix t := Some t;
  X509_get_pubkey x := Some x;
  EVP_sha384 := Some 384;
  EVP_MD_CTX_new := true;
  EVP_DigestVerifyInit _ _ := 1;
  EVP_DigestVerifyUpdate _ _ _ := 1;
  EVP_DigestVerifyFinal _ _ _ s := if zlen s =? 0 then 0 else 1;
  BN_new := true;
  BN_bin2bn l := Some (le_val l);
  ECDSA_SIG_new := true;
  ECDSA_SIG_set0 _ _ := 1;
  i2d_ECDSA_SIG r s := Some [r; s];
  OBJ_txt2obj _ := true;
  X509_get_ext_by_OBJ _ _ := 0;
  X509_get_ext_data _ _ := Some (Some (replicate 60 7));
  d2i_ASN1_SEQUENCE_ANY l := Some (replicate 7 (Some l));
  X509_subject_common_name _ := Some [71; 72];
  X509_serial_decimal _ := Some "1234";
  sk_X509_new_null := true;
  sk_X509_insert_ok := true;
  X509_up_ref _ := 1;
  d2i_OCSP_RESPONSE l := Some (l, zlen l);
  i2d_OCSP_RESPONSE l := Some l;
  OCSP_response_status _ := 0;
  OCSP_response_get1_basic l := Some l;
  OCSP_response_create _ l := Some l;
  OCSP_basic_verify _ _ _ _ := 1;
  OCSP_resp_all l := Some <$> l;
  OCSP_SINGLERESP_get0_id b := Some (b / 10);
  OCSP_id_cmp a b := if a =? b then 0 else 1;
  OCSP_resp_find l id :=
    match list_find (fun b => b / 10 = id) l with Some (i, _) => Z.of_nat i | None => -1 end;
  OCSP_single_get0_status b := (b mod 10, -1, Some 1000, Some 2000);
  OCSP_crl_reason_str _ := "unspecified";
  OCSP_cert_to_id s i := s;
  i2d_OCSP_CERTID id := Some [id];
  OCSP_CERTID_dup id := Some id;
  OCSP_request_with_nonce := Some 0;
  OCSP_request_add0_id _ id := Some id;
  OCSP_request_der r := Some [r];
  OCSP_check_nonce _ _ := 1;
|}.
