(* ===== verification/Ocsp.v ===== *)
(** * Ocsp: OCSP responses and the clients that obtain them

    src/nv_ocsp.cpp: [OcspResponseVerifier], the online [NvHttpOcspClient], the
    offline [RawProofOcspClient] and the caching [NvHttpOcspCacheClient].
    [IOcspHttpClient], the interface the certificate chain uses, is a class
    whose instances are the three clients.  [time_t] values are integers: the
    source keeps them far from overflow. *)

From S2P Require Import Prelude Errors Utils NvCache StatusBundle OpenSsl.

(** [NvOcspResponse]. *)
Record NvOcspResponse : Type := mk_ocsp {
  thisupd : Z;
  nextupd : Z;
  reason : Z;
  status : Z;
  nonce_matches : bool;
  response_valid : bool;
  signed_age : bool;
  verification_time : Z;
  status_deadline : Z;
}.

#[global] Instance NvOcspResponse_eq_dec : EqDecision NvOcspResponse.
Proof. solve_decision. Defined.

(** A client, with the state its calls change. *)
Class IOcspHttpClient `{OpenSSL} (S : Type) : Type :=
  get_ocsp_response : S -> option X509 -> option X509 -> list X509 -> option X509_STORE ->
    res NvOcspResponse * S.

Module Ocsp.

Section ocsp.

Context `{OSSL : OpenSSL}.

Definition asn1_time_to_unix (value : option ASN1_TIME) : res Z :=
  match value with
  | None => Err OcspInvalidResponse
  | Some t => match ASN1_TIME_to_unix t with Some z => Ret z | None => Err OcspInvalidResponse end
  end.

(** ** OcspResponseVerifier *)

(** The bytes are exactly what [i2d] gives back. *)
Definition canonical (reencoded : option (list Z)) (der : list Z) : bool :=
  match reencoded with
  | Some l => (0 <? zlen l) && bool_decide (l = der)
  | None => false
  end.

Definition parse_basic_response (der : list Z) : res OCSP_BASICRESP :=
  check* negb ((zlen der =? 0) || (2 ^ 63 - 1 <? zlen der)) else OcspInvalidResponse in
  match d2i_OCSP_RESPONSE der with
  | None => Err OcspInvalidResponse
  | Some (ocsp_resp, consumed) =>
      check* consumed =? zlen der else OcspInvalidResponse in
      check* canonical (i2d_OCSP_RESPONSE ocsp_resp) der else OcspInvalidResponse in
      let response_status_val := OCSP_response_status ocsp_resp in
      if response_status_val =? OCSP_RESPONSE_STATUS_SUCCESSFUL then
        match OCSP_response_get1_basic ocsp_resp with
        | None => Err OcspInvalidResponse
        | Some basic_resp =>
            let rebuilt := OCSP_response_create OCSP_RESPONSE_STATUS_SUCCESSFUL basic_resp in
            check* canonical (rebuilt ≫= i2d_OCSP_RESPONSE) der else OcspInvalidResponse in
            Ret basic_resp
        end
      else if (response_status_val =? OCSP_RESPONSE_STATUS_INTERNALERROR)
              || (response_status_val =? OCSP_RESPONSE_STATUS_TRYLATER) then Err OcspServerError
      else if (response_status_val =? OCSP_RESPONSE_STATUS_MALFORMEDREQUEST)
              || (response_status_val =? OCSP_RESPONSE_STATUS_SIGREQUIRED)
              || (response_status_val =? OCSP_RESPONSE_STATUS_UNAUTHORIZED)
           then Err OcspInvalidRequest
      else Err OcspInvalidResponse
  end.

Definition verify_signature (basic_response : option OCSP_BASICRESP) (intermediates : list X509)
    (trust_store : option X509_STORE) : res unit :=
  match basic_response, trust_store with
  | Some basic, Some store =>
      let verification_status := OCSP_basic_verify basic intermediates store 0 in
      if verification_status =? 1 then Ret tt
      else if verification_status =? 0 then Err OcspInvalidResponse
      else Err InternalError
  | _, _ => Err InternalError
  end.

(** A SingleResponse is for a CertID. *)
Definition single_matches (id : OCSP_CERTID) (single : option OCSP_SINGLERESP) : bool :=
  match single ≫= OCSP_SINGLERESP_get0_id with
  | Some single_id => OCSP_id_cmp single_id id =? 0
  | None => false
  end.

Definition count_single_responses (basic_response : OCSP_BASICRESP) (id : OCSP_CERTID) : Z :=
  foldl (fun matches single => if single_matches id single then matches + 1 else matches) 0
    (OCSP_resp_all basic_response).

(** [get_single_status]: status, reason, thisUpdate and, if present,
    nextUpdate. *)
Definition get_single_status (basic_response : OCSP_BASICRESP) (id : OCSP_CERTID) :
    res (Z * Z * Z * option Z) :=
  check* count_single_responses basic_response id =? 1 else OcspInvalidResponse in
  let index := OCSP_resp_find basic_response id in
  let single :=
    if index <? 0 then None else mjoin (OCSP_resp_all basic_response !! Z.to_nat index) in
  match single with
  | None => Err OcspInvalidResponse
  | Some single =>
      let '(status, reason, thisupd, nextupd) := OCSP_single_get0_status single in
      check* negb (status <? 0) else OcspInvalidResponse in
      let* this_update := asn1_time_to_unix thisupd in
      match nextupd with
      | None => Ret (status, reason, this_update, None)
      | Some _ =>
          let* next_update := asn1_time_to_unix nextupd in
          Ret (status, reason, this_update, Some next_update)
      end
  end.

(** ** RawProofOcspClient *)

Definition MAX_SIGNED_AGE_SECONDS : Z := 86400.
Definition FUTURE_TOLERANCE_SECONDS : Z := 60.
Definition MAX_VERIFICATION_TIME : Z := 253402300799.

Record RawProofOcspClient : Type := mk_raw {
  m_responses : list OCSP_BASICRESP;
  m_verification_time : Z;
}.

(** One iteration of the loop of [create]. *)
Definition create_step (responses : list OCSP_BASICRESP) (response : list Z) :
    res (list OCSP_BASICRESP) :=
  check* negb ((zlen response =? 0) || (Bundle.MAX_RESPONSE_BYTES <? zlen response))
    else OcspInvalidResponse in
  match parse_basic_response response with
  | Err _ => Err OcspInvalidResponse
  | Ret basic_response => Ret (responses ++ [basic_response])
  | Throw x => Throw x
  | UB => UB
  end.

Definition raw_create (responses : list (list Z)) (verification_time : Z) : res RawProofOcspClient :=
  check* negb ((zlen responses =? 0) || (Bundle.MAX_RESPONSES <? zlen responses))
    else OcspInvalidResponse in
  check* negb ((verification_time <=? 0) || (MAX_VERIFICATION_TIME <? verification_time))
    else BadArgument in
  let* parsed := ofold create_step responses [] in
  Ret (mk_raw parsed verification_time).

Definition create_from_bundle (bundle_der : list Z) (verification_time : Z) : res RawProofOcspClient :=
  let* responses := Bundle.decode_bundle bundle_der in
  raw_create responses verification_time.

(** The coverage loop: the number of matches and the first response with
    one. *)
Definition coverage_step (id : OCSP_CERTID) (acc : Z * option OCSP_BASICRESP)
    (response : OCSP_BASICRESP) : Z * option OCSP_BASICRESP :=
  let '(coverage, covering) := acc in
  let matches := count_single_responses response id in
  (coverage + matches,
   match covering with
   | None => if 0 <? matches then Some response else None
   | Some _ => covering
   end).

Definition raw_get_ocsp_response (c : RawProofOcspClient) (subject_cert issuer_cert : option X509)
    (intermediates : list X509) (trust_store : option X509_STORE) : res NvOcspResponse :=
  check* bool_decide (is_Some subject_cert) && bool_decide (is_Some issuer_cert) else InternalError in
  match OCSP_cert_to_id subject_cert issuer_cert with
  | None => Err InternalError
  | Some id =>
      let '(coverage, covering) := foldl (coverage_step id) (0, None) (m_responses c) in
      check* coverage =? 1 else OcspInvalidResponse in
      let* _ := verify_signature covering intermediates trust_store in
      match covering with
      | None => UB
      | Some covering =>
          let* (status, reason, this_update, next_update) := get_single_status covering id in
          match next_update with
          | None => Err OcspInvalidResponse
          | Some next_update =>
              check* negb (next_update <=? this_update) else OcspInvalidResponse in
              check* negb (m_verification_time c <? this_update - FUTURE_TOLERANCE_SECONDS)
                else OcspInvalidResponse in
              let deadline := Z.min next_update (this_update + MAX_SIGNED_AGE_SECONDS) in
              check* negb (deadline <=? m_verification_time c) else OcspInvalidResponse in
              Ret (mk_ocsp this_update next_update reason status false true true
                     (m_verification_time c) deadline)
          end
      end
  end.

#[global] Instance raw_client : IOcspHttpClient RawProofOcspClient :=
  fun c subject issuer intermediates store =>
    (raw_get_ocsp_response c subject issuer intermediates store, c).

(** The SingleResponses for a CertID in all proofs. *)
Definition coverage (id : OCSP_CERTID) (l : list OCSP_BASICRESP) : Z :=
  foldr (fun b a => count_single_responses b id + a) 0 l.

(** What makes a proof acceptable for a certificate at the verification time. *)
Definition acceptable (c : RawProofOcspClient) (intermediates : list X509) (trust_store : option X509_STORE)
    (id : OCSP_CERTID) (b : OCSP_BASICRESP) (st rs this_update next_update : Z) : Prop :=
  coverage id (m_responses c) = 1 /\ b ∈ m_responses c /\ count_single_responses b id = 1 /\
  (exists store, trust_store = Some store /\ OCSP_basic_verify b intermediates store 0 = 1) /\
  get_single_status b id = Ret (st, rs, this_update, Some next_update) /\
  this_update < next_update /\
  this_update - FUTURE_TOLERANCE_SECONDS <= m_verification_time c /\
  m_verification_time c < Z.min next_update (this_update + MAX_SIGNED_AGE_SECONDS).

(** ** NvHttpOcspClient *)

Definition DEFAULT_NEXT_UPDATE_TTL_SECONDS : Z := 3600.
Definition HTTP_STATUS_OK : Z := 200.
Definition HTTP_STATUS_UNAUTHORIZED : Z := 401.
Definition HTTP_STATUS_FORBIDDEN : Z := 403.

(** The client's HTTP exchange: the request body to a status and a body. *)
Record NvHttpOcspClient : Type := mk_http {
  m_http_post : list Z -> res (Z * list Z);
}.

(** The request, up to its serialization. *)
Definition ocsp_request_for (subject_cert issuer_cert : option X509) :
    res (OCSP_REQUEST * OCSP_CERTID * list Z) :=
  match OCSP_request_with_nonce with
  | None => Err InternalError
  | Some ocsp_req =>
      match OCSP_cert_to_id subject_cert issuer_cert with
      | None => Err InternalError
      | Some id_orig =>
          match OCSP_CERTID_dup id_orig ≫= OCSP_request_add0_id ocsp_req with
          | None => Err InternalError
          | Some ocsp_req =>
              match OCSP_request_der ocsp_req with
              | None => Err InternalError
              | Some der =>
                  check* (0 <? zlen der) && (0 <=? s32 (zlen der)) else InternalError in
                  Ret (ocsp_req, id_orig, der)
              end
          end
      end
  end.

Definition http_get_ocsp_response (c : NvHttpOcspClient) (subject_cert issuer_cert : option X509)
    (intermediates : list X509) (trust_store : option X509_STORE) : res NvOcspResponse :=
  let* (ocsp_req, id_orig, request_payload) := ocsp_request_for subject_cert issuer_cert in
  let* (http_status, response_body) := m_http_post c request_payload in
  if negb (http_status =? HTTP_STATUS_OK) then
    if (http_status =? HTTP_STATUS_FORBIDDEN) || (http_status =? HTTP_STATUS_UNAUTHORIZED)
    then Err OcspForbidden else Err OcspServerError
  else
    check* negb (zlen response_body =? 0) else OcspInvalidResponse in
    let* openssl_ocsp_resp := parse_basic_response response_body in
    let* _ := verify_signature (Some openssl_ocsp_resp) intermediates trust_store in
    let result := OCSP_check_nonce ocsp_req openssl_ocsp_resp in
    let* (status, reason, this_update_time, next_update_time) :=
      get_single_status openssl_ocsp_resp id_orig in
    Ret (mk_ocsp this_update_time
           (match next_update_time with
            | Some n => n
            | None => this_update_time + DEFAULT_NEXT_UPDATE_TTL_SECONDS
            end)
           reason status (result =? 1) true false 0 0).

#[global] Instance http_client : IOcspHttpClient NvHttpOcspClient :=
  fun c subject issuer intermediates store =>
    (http_get_ocsp_response c subject issuer intermediates store, c).

(** [NvHttpOcspClient::init_from_env]: the base URL it uses; [None] is a null
    pointer. *)
Definition DEFAULT_BASE_URL : string := "https://ocsp.ndis.nvidia.com".

Definition ocsp_base_url (getenv : string -> option string) (base_url : option string) : string :=
  match base_url with
  | None | Some "" => get_env_or_default getenv "NVAT_OCSP_BASE_URL" DEFAULT_BASE_URL
  | Some u => u
  end.

(** ** NvHttpOcspCacheClient *)

Definition NV_OCSP_RESPONSE_SIZE_BYTES : Z := 20.

Section cache_client.

Context {C S : Type} `{!INvCache C NvOcspResponse} `{!IOcspHttpClient S}.

Record NvHttpOcspCacheClient : Type := mk_cache_client {
  m_inner_client : S;
  m_cache : C;
}.

Definition get_cache_key (subject_cert issuer_cert : option X509) : res string :=
  match OCSP_cert_to_id subject_cert issuer_cert with
  | None => Err InternalError
  | Some id =>
      match i2d_OCSP_CERTID id with
      | None => Err InternalError
      | Some der => Ret (string_of_bytes der)
      end
  end.

(** Ask the inner client and store what it returns; [now] are the clock's
    readings in the cache. *)
Definition refresh (c : NvHttpOcspCacheClient) (key : string) (subject issuer : option X509)
    (intermediates : list X509) (store : option X509_STORE) (now : nat -> Z) :
    res NvOcspResponse * NvHttpOcspCacheClient :=
  let '(r, s) := get_ocsp_response (m_inner_client c) subject issuer intermediates store in
  match r with
  | Ret r =>
      match cache_put (m_cache c) key r (NV_OCSP_RESPONSE_SIZE_BYTES + Z.of_nat (String.length key)) now with
      | Ret cache => (Ret r, mk_cache_client s cache)
      | Err e => (Err e, mk_cache_client s (m_cache c))
      | Throw x => (Throw x, mk_cache_client s (m_cache c))
      | UB => (UB, mk_cache_client s (m_cache c))
      end
  | r => (r, mk_cache_client s (m_cache c))
  end.

(** [NvHttpOcspCacheClient::get_ocsp_response]: [t0] is the cache's reading of
    the clock, [t1] the client's own. *)
Definition cache_get_ocsp_response (t0 t1 : Z) (now : nat -> Z) (c : NvHttpOcspCacheClient)
    (subject_cert issuer_cert : option X509) (intermediates : list X509)
    (trust_store : option X509_STORE) : res NvOcspResponse * NvHttpOcspCacheClient :=
  match get_cache_key subject_cert issuer_cert with
  | Ret key =>
      match cache_get (m_cache c) key t0 with
      | Ret (cached, cache) =>
          let c := mk_cache_client (m_inner_client c) cache in
          if nextupd cached <? t1
          then refresh c key subject_cert issuer_cert intermediates trust_store now
          else (Ret cached, c)
      | Err e =>
          if bool_decide (e = CacheObjectNotFound)
          then refresh c key subject_cert issuer_cert intermediates trust_store now
          else (Err e, c)
      | Throw x => (Throw x, c)
      | UB => (UB, c)
      end
  | Err e => (Err e, c)
  | Throw x => (Throw x, c)
  | UB => (UB, c)
  end.

End cache_client.

End ocsp.

(** ** Lemmas *)

Section facts.

Context `{OSSL : OpenSSL}.

(** The number of SingleResponses for a CertID, over a list. *)
Lemma count_eq basic id :
  count_single_responses basic id = zlen (filter (single_matches id) (OCSP_resp_all basic)).
Proof.
  unfold count_single_responses.
  enough (G : forall l n, foldl (fun m s => if single_matches id s then m + 1 else m) n l =
    n + zlen (filter (single_matches id) l)) by (by rewrite G).
  induction l as [|s l IH]; intros n; cbn [foldl].
  - rewrite filter_nil, (zlen_nil (A:=option OCSP_SINGLERESP)). lia.
  - rewrite IH, filter_cons. destruct (single_matches id s) eqn:E.
    + rewrite decide_True by done. rewrite zlen_cons. lia.
    + by rewrite decide_False by (by intros ?).
Qed.

Lemma count_nonneg basic id : 0 <= count_single_responses basic id.
Proof. rewrite count_eq. apply zlen_nonneg. Qed.

Lemma coverage_spec id l n o :
  (foldl (coverage_step id) (n, o) l).1 = n + coverage id l /\
  (foldl (coverage_step id) (n, o) l).2 =
    match o with
    | Some b => Some b
    | None => head (filter (fun b => 0 < count_single_responses b id) l)
    end.
Proof.
  revert n o. induction l as [|b l IH]; intros n o; cbn [foldl].
  { split; [cbn; lia|]. by destruct o. }
  change (coverage id (b :: l)) with (count_single_responses b id + coverage id l).
  destruct (IH (n + count_single_responses b id) (coverage_step id (n, o) b).2) as [IH1 IH2].
  unfold coverage_step in *. cbn [fst snd] in *. split; [rewrite IH1; lia|]. rewrite IH2.
  destruct o; [done|]. rewrite filter_cons.
  destruct (0 <? count_single_responses b id) eqn:E.
  - rewrite decide_True by lia. done.
  - by rewrite decide_False by lia.
Qed.

Lemma coverage_nonneg id l : 0 <= coverage id l.
Proof.
  induction l as [|b l IH]; [done|]. pose proof (count_nonneg b id). unfold coverage in *. cbn. lia.
Qed.

(** With coverage one, the response that covers is the only one. *)
Lemma coverage_one id l b :
  coverage id l = 1 -> b ∈ l -> 0 < count_single_responses b id ->
  head (filter (fun b => 0 < count_single_responses b id) l) = Some b.
Proof.
  induction l as [|b' l IH]; intros Hc Hin Hb; [by apply elem_of_nil in Hin|].
  change (coverage id (b' :: l)) with (count_single_responses b' id + coverage id l) in Hc.
  pose proof (coverage_nonneg id l). pose proof (count_nonneg b' id). rewrite filter_cons.
  apply elem_of_cons in Hin as [->|Hin]; [by rewrite decide_True|].
  assert (H1 : count_single_responses b id <= coverage id l).
  { clear -Hin. induction l as [|x l IH]; [by apply elem_of_nil in Hin|].
    change (coverage id (x :: l)) with (count_single_responses x id + coverage id l).
    pose proof (coverage_nonneg id l). pose proof (count_nonneg x id).
    apply elem_of_cons in Hin as [->|Hin]; [lia|]. specialize (IH Hin). lia. }
  rewrite decide_False by lia. apply IH; (done || lia).
Qed.

Lemma coverage_member id l :
  coverage id l = 1 -> exists b,
    head (filter (fun b => 0 < count_single_responses b id) l) = Some b /\
    b ∈ l /\ count_single_responses b id = 1.
Proof.
  induction l as [|b l IH]; intros Hc; [done|].
  change (coverage id (b :: l)) with (count_single_responses b id + coverage id l) in Hc.
  pose proof (coverage_nonneg id l). pose proof (count_nonneg b id). rewrite filter_cons.
  destruct (decide (0 < count_single_responses b id)) as [Hb|Hb].
  - exists b. split_and!; [done|by left|lia].
  - destruct IH as (b' & ? & ? & ?); [lia|]. exists b'. split_and!; [done|by right|done].
Qed.

Lemma verify_signature_Ret o inter store :
  verify_signature o inter store = Ret tt <->
  exists b st, o = Some b /\ store = Some st /\ OCSP_basic_verify b inter st 0 = 1.
Proof.
  unfold verify_signature. split.
  - destruct o as [b|], store as [st|]; try done. destruct (_ =? 1) eqn:E; [|by destruct (_ =? 0)].
    intros _. exists b, st. split_and!; (done || lia).
  - intros (b & st & -> & -> & ->). done.
Qed.

Lemma raw_get_Ret c subject issuer inter store r :
  raw_get_ocsp_response c subject issuer inter store = Ret r <->
  is_Some subject /\ is_Some issuer /\ exists id b st rs tu nu,
    OCSP_cert_to_id subject issuer = Some id /\ acceptable c inter store id b st rs tu nu /\
    r = mk_ocsp tu nu rs st false true true (m_verification_time c)
          (Z.min nu (tu + MAX_SIGNED_AGE_SECONDS)).
Proof.
  unfold raw_get_ocsp_response. split.
  - intros H. destruct (bool_decide (is_Some subject) && bool_decide (is_Some issuer)) eqn:E0; [|done].
    apply andb_true_iff in E0 as [?%bool_decide_eq_true ?%bool_decide_eq_true]. split_and!; [done..|].
    destruct (OCSP_cert_to_id subject issuer) as [id|] eqn:Eid; [|done].
    destruct (foldl (coverage_step id) (0, None) (m_responses c)) as [cov o] eqn:Ef.
    destruct (coverage_spec id (m_responses c) 0 None) as [C1 C2]. rewrite Ef in C1, C2. cbn in C1, C2.
    destruct (cov =? 1) eqn:E1; [|done].
    destruct (coverage_member id (m_responses c)) as (b & Hh & Hin & Hb); [lia|]. rewrite Hh in C2. subst o.
    destruct (verify_signature (Some b) inter store) as [[]| | |] eqn:Ev; cbn [obind] in H; try done.
    destruct (get_single_status b id) as [[[[st rs] tu] [nu|]]| | |] eqn:Es; cbn [obind] in H; try done.
    destruct (nu <=? tu) eqn:E2; [done|]. destruct (_ <? tu - _) eqn:E3; [done|].
    destruct (Z.min nu (tu + MAX_SIGNED_AGE_SECONDS) <=? _) eqn:E4; [done|]. injection H as <-.
    exists id, b, st, rs, tu, nu. split_and!; [done| |done]. unfold acceptable.
    apply verify_signature_Ret in Ev as (? & s & [= <-] & ? & ?).
    split_and!; eauto; lia.
  - intros (Hs & Hi & id & b & st & rs & tu & nu & Eid & (Hc & Hin & Hb & (s & -> & Hv) & Hg & H1 & H2 & H3) & ->).
    rewrite !bool_decide_true by done. cbn [andb]. rewrite Eid.
    destruct (foldl (coverage_step id) (0, None) (m_responses c)) as [cov o] eqn:Ef.
    destruct (coverage_spec id (m_responses c) 0 None) as [C1 C2]. rewrite Ef in C1, C2. cbn in C1, C2.
    rewrite (coverage_one id _ b) in C2 by (done || lia). subst o.
    replace (cov =? 1) with true by lia.
    rewrite (proj2 (verify_signature_Ret (Some b) inter (Some s))) by eauto. cbn [obind].
    rewrite Hg. cbn [obind]. replace (nu <=? tu) with false by lia.
    replace (m_verification_time c <? tu - FUTURE_TOLERANCE_SECONDS) with false by lia.
    by replace (Z.min nu (tu + MAX_SIGNED_AGE_SECONDS) <=? m_verification_time c) with false by lia.
Qed.

Lemma parse_basic_canonical der b :
  parse_basic_response der = Ret b ->
  (OCSP_response_create OCSP_RESPONSE_STATUS_SUCCESSFUL b ≫= i2d_OCSP_RESPONSE) = Some der.
Proof.
  unfold parse_basic_response. intros H. destruct (negb _); [|done].
  destruct (d2i_OCSP_RESPONSE der) as [[resp n]|]; [|done].
  destruct (n =? zlen der); [|done]. destruct (canonical _ der); [|done].
  destruct (_ =? OCSP_RESPONSE_STATUS_SUCCESSFUL).
  2: { destruct (_ || _); [done|]. by destruct (_ || _). }
  destruct (OCSP_response_get1_basic resp) as [b'|]; [|done].
  destruct (canonical (_ ≫= _) der) eqn:Ec; [|done]. injection H as ->.
  unfold canonical in Ec. destruct (_ ≫= _) as [l|]; [|done].
  apply andb_true_iff in Ec as [_ ->%bool_decide_eq_true]. done.
Qed.

(** A SingleResponse is about a CertID. *)
Definition status_for (id : OCSP_CERTID) (s : OCSP_SINGLERESP) : Prop :=
  exists sid, OCSP_SINGLERESP_get0_id s = Some sid /\ OCSP_id_cmp sid id = 0.

(** OpenSSL's documented lookup: [OCSP_resp_find] gives the index of the first
    SingleResponse for the CertID. *)
Definition resp_find_documented : Prop :=
  forall b id j s, OCSP_resp_all b !! j = Some (Some s) -> status_for id s ->
    (forall j' s', (j' < j)%nat -> OCSP_resp_all b !! j' = Some (Some s') -> ~ status_for id s') ->
    OCSP_resp_find b id = Z.of_nat j.

(** In all the proofs together there is one status for the CertID, and it is
    [s], of the proof [b]. *)
Definition only_status (c : RawProofOcspClient) (id : OCSP_CERTID) (b : OCSP_BASICRESP) (s : OCSP_SINGLERESP) : Prop :=
  exists i j, m_responses c !! i = Some b /\ OCSP_resp_all b !! j = Some (Some s) /\ status_for id s /\
    forall i' j' b' s', m_responses c !! i' = Some b' -> OCSP_resp_all b' !! j' = Some (Some s') ->
      status_for id s' -> i' = i /\ j' = j.

Lemma single_matches_iff id o : single_matches id o <-> exists s, o = Some s /\ status_for id s.
Proof.
  unfold single_matches, status_for. split.
  - destruct o as [s|]; cbn; [|done]. destruct (OCSP_SINGLERESP_get0_id s) as [sid|] eqn:E; [|done].
    intros Hc. exists s. split; [done|]. exists sid. split; [done|]. by apply Z.eqb_eq, Is_true_true.
  - intros (s & -> & sid & E & Hc). cbn. by rewrite E, Hc.
Qed.

Lemma filter_none {A} (f : A -> bool) l : zlen (filter f l) = 0 <-> forall x, x ∈ l -> ~ f x.
Proof.
  split.
  - intros Hl x Hx Hf. assert (x ∈ filter f l) as Hin by (by apply list_elem_of_filter).
    destruct (filter f l); [by apply elem_of_nil in Hin|]. rewrite zlen_cons in Hl.
    pose proof (zlen_nonneg l0). lia.
  - intros Hx. destruct (filter f l) as [|y k] eqn:E; [done|].
    assert (y ∈ filter f l) as [Hf Hin]%list_elem_of_filter by (rewrite E; by left). by destruct (Hx y).
Qed.

(** One element of a list passes a test exactly when it is so at one index. *)
Lemma filter_one {A} (f : A -> bool) l :
  zlen (filter f l) = 1 <->
  exists i x, l !! i = Some x /\ f x /\ forall i' x', l !! i' = Some x' -> f x' -> i' = i.
Proof.
  induction l as [|y l IH]; [split; [done|by intros (i & x & ? & _)]|].
  rewrite filter_cons. destruct (decide (f y)) as [Hy|Hy].
  - rewrite zlen_cons. split.
    + intros H. assert (zlen (filter f l) = 0) as Hn by lia. rewrite filter_none in Hn.
      exists 0%nat, y. split_and!; [done..|]. intros [|i'] x' Hi Hx; [done|].
      by destruct (Hn x'); [eapply list_elem_of_lookup_2|].
    + intros (i & x & Hi & Hx & Hu). pose proof (Hu 0%nat y eq_refl Hy) as <-.
      enough (zlen (filter f l) = 0) by lia. apply filter_none. intros x' [k Hk]%list_elem_of_lookup Hx'.
      by specialize (Hu (S k) x' Hk Hx').
  - rewrite IH. split.
    + intros (i & x & Hi & Hx & Hu). exists (S i), x. split_and!; [done..|].
      intros [|i'] x' Hi' Hx'; [by injection Hi' as ->|]. by rewrite (Hu i' x').
    + intros ([|i] & x & Hi & Hx & Hu); [by injection Hi as ->|]. exists i, x. split_and!; [done..|].
      intros i' x' Hi' Hx'. specialize (Hu (S i') x' Hi' Hx'). lia.
Qed.

Lemma count_pos b id : 0 < count_single_responses b id <-> exists j s, OCSP_resp_all b !! j = Some (Some s) /\ status_for id s.
Proof.
  pose proof (count_nonneg b id). rewrite count_eq in *. split.
  - intros Hp. destruct (filter _ _) as [|x k] eqn:E; [done|].
    assert (x ∈ filter (single_matches id) (OCSP_resp_all b)) as Hin by (rewrite E; by left).
    apply list_elem_of_filter in Hin as [(s & -> & Hs)%single_matches_iff [j Hj]%list_elem_of_lookup]. eauto.
  - intros (j & s & Hj & Hs). destruct (Z.eq_dec (zlen (filter (single_matches id) (OCSP_resp_all b))) 0) as [Hz|]; [|lia].
    rewrite filter_none in Hz. destruct (Hz (Some s)); [by eapply list_elem_of_lookup_2|].
    apply single_matches_iff. eauto.
Qed.

Lemma coverage_zero id l : coverage id l = 0 <-> forall b, b ∈ l -> count_single_responses b id = 0.
Proof.
  induction l as [|b l IH]; [split; [by intros _ ? ?%elem_of_nil|done]|].
  change (coverage id (b :: l)) with (count_single_responses b id + coverage id l).
  pose proof (coverage_nonneg id l). pose proof (count_nonneg b id). split.
  - intros Hz b' [->|Hb]%elem_of_cons; [lia|]. by apply IH; [lia|].
  - intros Hz. rewrite (Hz b) by (by left). apply IH. intros b' Hb. apply Hz. by right.
Qed.

Lemma coverage_one_iff id l :
  coverage id l = 1 <->
  exists i b, l !! i = Some b /\ count_single_responses b id = 1 /\
    forall i' b', l !! i' = Some b' -> 0 < count_single_responses b' id -> i' = i.
Proof.
  induction l as [|y l IH]; [split; [done|by intros (i & x & ? & _)]|].
  change (coverage id (y :: l)) with (count_single_responses y id + coverage id l).
  pose proof (coverage_nonneg id l). pose proof (count_nonneg y id). split.
  - intros Hc. destruct (decide (count_single_responses y id = 0)) as [Hy|Hy].
    + destruct IH as [(i & b & Hi & Hb & Hu) _]; [lia|]. exists (S i), b. split_and!; [done..|].
      intros [|i'] b' Hi' Hb'; [injection Hi' as ->; lia|]. by rewrite (Hu i' b').
    + assert (coverage id l = 0) as Hz by lia. rewrite coverage_zero in Hz.
      exists 0%nat, y. split_and!; [done|lia|]. intros [|i'] b' Hi' Hb'; [done|].
      rewrite (Hz b') in Hb'; [lia|by eapply list_elem_of_lookup_2].
  - intros (i & b & Hi & Hb & Hu). destruct (decide (0 < count_single_responses y id)) as [Hy|Hy].
    + pose proof (Hu 0%nat y eq_refl Hy) as <-. injection Hi as ->.
      enough (coverage id l = 0) by lia. apply coverage_zero. intros b' [k Hk]%list_elem_of_lookup.
      pose proof (count_nonneg b' id). destruct (decide (0 < count_single_responses b' id)) as [Hp|]; [|lia].
      by specialize (Hu (S k) b' Hk Hp).
    + destruct i as [|i]; [injection Hi as ->; lia|]. enough (coverage id l = 1) by lia. apply IH.
      exists i, b. split_and!; [done..|]. intros i' b' Hi' Hb'. specialize (Hu (S i') b' Hi' Hb'). lia.
Qed.

(** The two counts of the code, of the proofs and in the covering proof, find
    the only status there is. *)
Lemma only_status_iff c id b :
  coverage id (m_responses c) = 1 /\ b ∈ m_responses c /\ count_single_responses b id = 1 <->
  exists s, only_status c id b s.
Proof.
  split.
  - intros (Hc & [k Hk]%list_elem_of_lookup & Hb). apply coverage_one_iff in Hc as (i & b0 & Hi & _ & Hu).
    assert (k = i) as -> by (eapply Hu; [done|lia]).
    pose proof Hb as Hb'. rewrite count_eq, filter_one in Hb'. destruct Hb' as (j & o & Hj & (s & -> & Hs)%single_matches_iff & Huj).
    exists s, i, j. split_and!; try done. intros i' j' b' s' Hi' Hj' Hs'.
    assert (i' = i) as -> by (eapply Hu; [done|apply count_pos; eauto]). split; [done|].
    assert (b' = b) as -> by congruence. eapply Huj; [done|]. apply single_matches_iff. eauto.
  - intros (s & i & j & Hi & Hj & Hs & Hu).
    assert (count_single_responses b id = 1) as Hb.
    { rewrite count_eq, filter_one. exists j, (Some s). split_and!; [done|apply single_matches_iff; eauto|].
      intros j' o' Hj' (s' & -> & Hs')%single_matches_iff. by destruct (Hu i j' b s' Hi Hj' Hs'). }
    split_and!; [|by eapply list_elem_of_lookup_2|done]. apply coverage_one_iff. exists i, b. split_and!; [done..|].
    intros i' b' Hi' (j' & s' & Hj' & Hs')%count_pos. by destruct (Hu i' j' b' s' Hi' Hj' Hs').
Qed.

(** Under the documented lookup, the status read is that of the only
    SingleResponse for the CertID. *)
Lemma get_single_status_iff c id b s st rs tu nu :
  resp_find_documented -> only_status c id b s ->
  get_single_status b id = Ret (st, rs, tu, Some nu) <->
  exists ta na, OCSP_single_get0_status s = (st, rs, Some ta, Some na) /\ 0 <= st /\
    ASN1_TIME_to_unix ta = Some tu /\ ASN1_TIME_to_unix na = Some nu.
Proof.
  intros Hdoc Ho. destruct (proj2 (only_status_iff c id b) (ex_intro _ s Ho)) as (_ & _ & Hb).
  destruct Ho as (i & j & Hi & Hj & Hs & Hu). unfold get_single_status. rewrite Hb. cbn [Z.eqb Pos.eqb].
  rewrite (Hdoc b id j s Hj Hs).
  2: { intros j' s' Hlt Hj' Hs'. destruct (Hu i j' b s' Hi Hj' Hs'). lia. }
  rewrite (proj2 (Z.ltb_ge (Z.of_nat j) 0) (Nat2Z.is_nonneg j)), Nat2Z.id, Hj. cbn [mjoin option_join].
  destruct (OCSP_single_get0_status s) as [[[st' rs'] ta] na] eqn:Es. split.
  - destruct (st' <? 0) eqn:Hst; cbn [negb]; [done|]. destruct ta as [ta|]; [|done]. cbn [asn1_time_to_unix].
    destruct (ASN1_TIME_to_unix ta) eqn:Eta; [|done]. destruct na as [na|]; [|done]. cbn.
    destruct (ASN1_TIME_to_unix na) eqn:Ena; [|done]. intros [= <- <- <- <-]. exists ta, na. split_and!; (done || lia).
  - intros (ta' & na' & [= -> -> -> ->] & Hst & Eta & Ena). replace (st <? 0) with false by lia.
    cbn. rewrite Eta. cbn. by rewrite Ena.
Qed.

(** ** Properties *)

(** C31: the offline client answers for a certificate exactly when all the
    proofs together hold one single status for its CertID, the signature of
    the proof that holds it verifies against the trust store, the status can be read and has
    both times, nextUpdate is after thisUpdate, thisUpdate is at most 60
    seconds after the verification time, and the verification time is strictly
    before both nextUpdate and a day after thisUpdate.  The answer is then that
    status (good, revoked or unknown) with its reason and its times, never with
    a nonce match, and its deadline is the earlier of the two limits. *)
Theorem raw_proof_accept_iff c subject issuer intermediates store r :
  resp_find_documented ->
  raw_get_ocsp_response c subject issuer intermediates store = Ret r <->
  is_Some subject /\ is_Some issuer /\ exists id b s trusted st rs ta na tu nu,
    OCSP_cert_to_id subject issuer = Some id /\ only_status c id b s /\
    store = Some trusted /\ OCSP_basic_verify b intermediates trusted 0 = 1 /\
    OCSP_single_get0_status s = (st, rs, Some ta, Some na) /\ 0 <= st /\
    ASN1_TIME_to_unix ta = Some tu /\ ASN1_TIME_to_unix na = Some nu /\
    tu < nu /\ tu - 60 <= m_verification_time c /\
    m_verification_time c < nu /\ m_verification_time c < tu + 86400 /\
    r = mk_ocsp tu nu rs st false true true (m_verification_time c) (Z.min nu (tu + 86400)).
Proof.
  intros Hdoc. rewrite raw_get_Ret. unfold acceptable, MAX_SIGNED_AGE_SECONDS, FUTURE_TOLERANCE_SECONDS.
  apply and_iff_compat_l, and_iff_compat_l. split.
  - intros (id & b & st & rs & tu & nu & Eid & (Hc & Hin & Hb & (t & -> & Hv) & Hg & H1 & H2 & H3) & ->).
    destruct (proj1 (only_status_iff c id b)) as [s Ho]; [done|].
    apply (get_single_status_iff c id b s) in Hg as (ta & na & Hg & Hst & Ha & Hn); [|done..].
    exists id, b, s, t, st, rs, ta, na, tu, nu. split_and!; (done || lia).
  - intros (id & b & s & t & st & rs & ta & na & tu & nu & Eid & Ho & -> & Hv & Hg & Hst & Ha & Hn & H1 & H2 & H3 & H4 & ->).
    destruct (proj2 (only_status_iff c id b)) as (Hc & Hin & Hb); [by exists s|].
    exists id, b, st, rs, tu, nu. split_and!; try (done || lia); [by exists t|].
    apply (get_single_status_iff c id b s); [done..|]. exists ta, na. done.
Qed.

(** C32: no two byte strings are accepted as the same OCSP response: a proof
    cannot be re-encoded or padded, inside or outside its OCTET STRING. *)
Theorem ocsp_response_not_malleable der1 der2 b :
  parse_basic_response der1 = Ret b -> parse_basic_response der2 = Ret b -> der1 = der2.
Proof.
  intros H1%parse_basic_canonical H2%parse_basic_canonical. congruence.
Qed.

End facts.

Section cache_facts.

Context `{OSSL : OpenSSL} {C S : Type} `{!INvCache C NvOcspResponse} `{!IOcspHttpClient S}.

(** A property of answers for a cache key, such as "the inner client returned
    it for a certificate with this key". *)
Context (Q : string -> NvOcspResponse -> Prop).

(** The cache holds only answers with the property. *)
Definition cache_good (c : NvHttpOcspCacheClient (C:=C) (S:=S)) : Prop :=
  cache_inv (m_cache c) /\ forall k r, cache_content (m_cache c) k = Some r -> Q k r.

Definition inner_good : Prop :=
  forall s subject issuer im st r s' key,
    get_ocsp_response s subject issuer im st = (Ret r, s') ->
    get_cache_key subject issuer = Ret key -> Q key r.

Lemma refresh_good c key subject issuer im st now o c' :
  inner_good -> cache_good c -> get_cache_key subject issuer = Ret key ->
  Z.of_nat (String.length key) < 2 ^ 63 ->
  refresh c key subject issuer im st now = (o, c') ->
  cache_good c' /\ forall r, o = Ret r -> Q key r /\
    exists s', get_ocsp_response (m_inner_client c) subject issuer im st = (Ret r, s').
Proof.
  intros Hin [Hinv Hc] Hkey Hlen. unfold refresh.
  destruct (get_ocsp_response (m_inner_client c) subject issuer im st) as [r s] eqn:Eg.
  destruct r as [r|e|x|]; [|intros [= <- <-]; split; [by split|done]..].
  pose proof (Hin _ _ _ _ _ _ _ _ Eg Hkey) as Hq.
  destruct (cache_put (m_cache c) key r _ now) as [cache|e|x|] eqn:Ep;
    intros [= <- <-]; (split; [|intros r' [=]; subst; eauto]); [|by split..].
  apply cache_put_law in Ep as (Hinv' & Hk & Ho); [|done|unfold NV_OCSP_RESPONSE_SIZE_BYTES; lia].
  split; [done|]. intros k r' Hr'. cbn in Hr'. destruct (decide (k = key)) as [->|Hne]; [congruence|].
  destruct (Ho k Hne) as [E|E]; rewrite E in Hr'; [by apply Hc|done].
Qed.

(** P: the caching client is transparent: whatever holds of the inner client's
    answers for a certificate holds of its answers, it gives no answer whose
    nextUpdate has passed unless the inner client gave it in this call, and its
    cache stays consistent whether the call succeeds or fails. *)
Theorem ocsp_cache_transparent t0 t1 now c subject issuer im st o c' :
  inner_good -> cache_good c ->
  (forall key, get_cache_key subject issuer = Ret key -> Z.of_nat (String.length key) < 2 ^ 63) ->
  cache_get_ocsp_response t0 t1 now c subject issuer im st = (o, c') ->
  cache_good c' /\ forall r, o = Ret r ->
    exists key, get_cache_key subject issuer = Ret key /\ Q key r /\
      (t1 <= nextupd r \/
       exists s s', get_ocsp_response s subject issuer im st = (Ret r, s') /\ s = m_inner_client c).
Proof.
  intros Hin Hgood Hlen. unfold cache_get_ocsp_response.
  destruct (get_cache_key subject issuer) as [key|e|x|] eqn:Ek; [|intros [= <- <-]; done..].
  specialize (Hlen key eq_refl). pose proof Hgood as [Hinv Hc].
  destruct (cache_get (m_cache c) key t0) as [[cached cache]|e|x|] eqn:Eg; [| |intros [= <- <-]; done..].
  - apply cache_get_law in Eg as (Hinv' & Hk & Ho); [|done].
    assert (Hg' : cache_good (mk_cache_client (m_inner_client c) cache)).
    { split; [done|]. intros k r. cbn. rewrite Ho. apply Hc. }
    destruct (nextupd cached <? t1) eqn:En.
    + intros Hr. destruct (refresh_good _ _ _ _ _ _ _ _ _ Hin Hg' Ek Hlen Hr) as [Hg Ha].
      split; [done|]. intros r Er. destruct (Ha r Er) as (Hq & s' & Hs). eauto 10.
    + intros [= <- <-]. split; [done|]. intros r [= <-]. exists key. split_and!; [done|by apply Hc|left; lia].
  - case_bool_decide; [|intros [= <- <-]; done].
    intros Hr. destruct (refresh_good _ _ _ _ _ _ _ _ _ Hin Hgood Ek Hlen Hr) as [Hg Ha].
    split; [done|]. intros r Er. destruct (Ha r Er) as (Hq & s' & Hs). eauto 10.
Qed.

End cache_facts.

(** *** Examples over the small OpenSSL instance: one proof with a GOOD status
    for CertID 7, signed at 1000 and valid until 2000. *)

Lemma toy_find_first (l : list Z) id j s :
  (Some <$> l) !! j = Some (Some s) -> s / 10 = id ->
  (forall j' s', (j' < j)%nat -> (Some <$> l) !! j' = Some (Some s') -> s' / 10 <> id) ->
  match list_find (fun b => b / 10 = id) l with Some (i, _) => Z.of_nat i | None => -1 end = Z.of_nat j.
Proof.
  rewrite list_lookup_fmap. destruct (l !! j) as [z|] eqn:Ez; [|done]. intros [= ->] Hs Hfirst.
  rewrite (proj2 (list_find_Some _ _ j s)); [done|]. split_and!; [done..|].
  intros k y Hy Hlt. apply (Hfirst k y Hlt). by rewrite list_lookup_fmap, Hy.
Qed.

Lemma toy_id_cmp (a b : Z) : (if a =? b then 0 else 1) = 0 <-> a = b.
Proof. by destruct (Z.eqb_spec a b). Qed.

Lemma toy_find_documented : resp_find_documented (OSSL:=toy_openssl).
Proof.
  intros b id j s Hj (sid & [= <-] & Hc) Hfirst. eapply (toy_find_first b id j s Hj (proj1 (toy_id_cmp _ _) Hc)).
  intros j' s' Hlt Hj' Hs'. apply (Hfirst j' s' Hlt Hj'). exists (s' / 10). split; [done|]. exact (proj2 (toy_id_cmp _ _) Hs').
Qed.

Lemma raw_proof_accept_iff_witness :
  raw_get_ocsp_response (OSSL:=toy_openssl) (mk_raw (OSSL:=toy_openssl) [[70]; [80]] 1500)
    (Some 7) (Some 9) [] (Some 0) = Ret (mk_ocsp 1000 2000 (-1) 0 false true true 1500 2000).
Proof.
  apply (raw_proof_accept_iff (OSSL:=toy_openssl) (mk_raw (OSSL:=toy_openssl) [[70]; [80]] 1500)
    (Some 7) (Some 9) [] (Some 0)); [exact toy_find_documented|].
  split; [by eexists|]. split; [by eexists|]. exists 7, [70], 70, 0, 0, (-1), 1000, 2000, 1000, 2000.
  split; [done|]. split.
  { exists 0%nat, 0%nat. split; [done|]. split; [done|]. split; [by exists 7|].
    intros [|[|i']] [|j'] b' s' [= <-] [= <-] (sid & [= <-] & Hc); [done|discriminate Hc]. }
  split_and!; (done || by vm_compute).
Defined.

(** A cache over the offline client, from a fresh cache. *)
Definition toy_cache_client :=
  mk_cache_client (C:=NvCache.NvCache NvOcspResponse)
    (S:=RawProofOcspClient (OSSL:=toy_openssl))
    (mk_raw (OSSL:=toy_openssl) [[70]; [80]] 1500) (NvCache.ctor None).

Definition toy_call :=
  cache_get_ocsp_response (OSSL:=toy_openssl) 1500 1500 (fun _ => 1500) toy_cache_client
    (Some 7) (Some 9) [] (Some 0).

Example toy_call_answer : toy_call.1 = Ret (mk_ocsp 1000 2000 (-1) 0 false true true 1500 2000).
Proof. vm_compute. reflexivity. Qed.

Lemma ocsp_cache_transparent_witness :
  exists key, get_cache_key (OSSL:=toy_openssl) (Some 7) (Some 9) = Ret key /\
    signed_age (mk_ocsp 1000 2000 (-1) 0 false true true 1500 2000) = true.
Proof.
  destruct (ocsp_cache_transparent (OSSL:=toy_openssl) (fun _ r => signed_age r = true) 1500 1500
    (fun _ => 1500) toy_cache_client (Some 7) (Some 9) [] (Some 0) toy_call.1 toy_call.2) as [_ H].
  - intros s subject issuer im st r s' key [= Hr <-] _.
    apply (raw_get_Ret (OSSL:=toy_openssl)) in Hr as (_ & _ & id & b & ? & ? & ? & ? & _ & _ & ->). done.
  - split; [by apply NvCache.wf_empty|]. intros k r. cbn. unfold NvCache.content. cbn.
    by rewrite lookup_empty.
  - by intros key [= <-].
  - exact (surjective_pairing toy_call).
  - destruct (H _ toy_call_answer) as (key & Hk & Hs & _). exists key. exact (conj Hk Hs).
Defined.
Lemma ocsp_response_not_malleable_witness : [70] = [70].
Proof. by apply (ocsp_response_not_malleable (OSSL:=toy_openssl) [70] [70] [70]). Defined.

End Ocsp.
