(* ===== verification/X509Chain.v ===== *)
(** * X509Chain: certificate chains and their claims

    src/nv_x509.cpp ([X509CertChain]) and its header: building a chain from PEM
    text, signature checks, path verification with the rule that the presented
    chain is the verified path, expiry, the revocation claims collected along
    the path, and the firmware-id, model and serial readers.  OpenSSL is the
    class [OpenSSL]; the OCSP client is any instance of [IOcspHttpClient]. *)

From S2P Require Import Prelude Errors Utils TimeText OpenSsl NvCache Ocsp.

Inductive CertificateChainType : Type :=
| GPU_DEVICE_IDENTITY | GPU_VBIOS_RIM | GPU_DRIVER_RIM
| NVSWITCH_DEVICE_IDENTITY | NVSWITCH_VBIOS_RIM.

#[global] Instance CertificateChainType_eq_dec : EqDecision CertificateChainType.
Proof. solve_decision. Defined.

(** The source spells [UNKOWN] so. *)
Inductive OCSPStatus : Type := UNDEFINED | GOOD | REVOKED | UNKOWN.

#[global] Instance OCSPStatus_eq_dec : EqDecision OCSPStatus.
Proof. solve_decision. Defined.

Definition OCSPStatus_to_string (status : OCSPStatus) : string :=
  match status with
  | GOOD => "good" | REVOKED => "revoked" | UNKOWN => "unknown" | UNDEFINED => "undefined"
  end.

Record OCSPClaims : Type := mk_ocsp_claims {
  oc_status : OCSPStatus;
  oc_revocation_reason : option string;
  oc_nonce_matches : bool;
  oc_ocsp_resp_expiration_time : Z;
  oc_ocsp_response_valid : bool;
  oc_signed_age : bool;
  oc_verification_time : Z;
  oc_status_deadline : Z;
  oc_oldest_this_update : Z;
  oc_covered_certificates : Z;
}.

(** The default constructor. *)
Definition OCSPClaims_default : OCSPClaims :=
  mk_ocsp_claims UNDEFINED None false 0 false false 0 0 0 0.

Inductive CertChainStatus : Type := CS_VALID | CS_INVALID | CS_REVOKED | CS_EXPIRED.

Definition CertChainStatus_to_string (status : CertChainStatus) : string :=
  match status with
  | CS_VALID => "valid" | CS_INVALID => "invalid" | CS_REVOKED => "revoked" | CS_EXPIRED => "expired"
  end.

Record CertChainClaims : Type := mk_cert_chain_claims {
  cc_expiration_date : string;
  cc_status : CertChainStatus;
  cc_ocsp_claims : OCSPClaims;
}.

(** ** ISO 8601 time *)

(** Neither result is checked: without a date, or when its text does not fit
    the buffer of 25 bytes, what is read is indeterminate. *)
Definition iso8601 (t : Z) : res string :=
  match TimeText.gmtime_r t with
  | None => UB
  | Some tm_iso =>
      let iso8601_time := TimeText.strftime 25 (TimeText.iso_text tm_iso) in
      if bool_decide (iso8601_time = "") then UB else Ret iso8601_time
  end.

Module X509CertChain.

Section chain.

Context `{OSSL : OpenSSL}.

Record X509CertChain : Type := mk_chain {
  m_certs : list X509;
  m_type : CertificateChainType;
  m_trust_store : option X509_STORE;
}.

Inductive FWIDType : Type := FWID_2_23_133_5_4_1 | FWID_2_23_133_5_4_1_1.

Definition FWIDType_to_string (t : FWIDType) : string :=
  match t with
  | FWID_2_23_133_5_4_1 => "2.23.133.5.4.1"
  | FWID_2_23_133_5_4_1_1 => "2.23.133.5.4.1.1"
  end.

Definition m_fwid_hash_length : Z := 48.

(** [x509_from_cert_string]: null when the text does not parse. *)
Definition x509_from_cert_string (cert_string : string) : option X509 := PEM_read_bio_X509 cert_string.

(** [create_trust_store]. *)
Definition create_trust_store (trust_anchor_cert : option X509) : option X509_STORE :=
  match trust_anchor_cert with
  | None => None
  | Some anchor => X509_STORE_new ≫= fun store => X509_STORE_add_cert store anchor
  end.

Definition create (type : CertificateChainType) (root_cert_str : string) : res X509CertChain :=
  match x509_from_cert_string root_cert_str with
  | None => Err InternalError
  | Some root_cert =>
      match create_trust_store (Some root_cert) with
      | None => Err InternalError
      | Some trust_store => Ret (mk_chain [] type (Some trust_store))
      end
  end.

Definition set_root_cert (c : X509CertChain) (root_cert : option X509) : res X509CertChain :=
  match root_cert with
  | None => Err InternalError
  | Some _ =>
      match create_trust_store root_cert with
      | None => Err InternalError
      | Some trust_store => Ret (mk_chain (m_certs c) (m_type c) (Some trust_store))
      end
  end.

Definition push_back (c : X509CertChain) (cert_string : string) : res X509CertChain :=
  match x509_from_cert_string cert_string with
  | None => Err InternalError
  | Some cert => Ret (mk_chain (m_certs c ++ [cert]) (m_type c) (m_trust_store c))
  end.

(** ** Building from PEM text *)

Definition pem_delimiter : string := "-----END CERTIFICATE-----".

(** The first position after the line breaks at [start]. *)
Fixpoint skip_newlines (s : string) (start : nat) : nat :=
  match s with
  | "" => start
  | String c s' =>
      let b := ascii_byte c in
      if (b =? 10) || (b =? 13) then skip_newlines s' (S start) else start
  end.

(** [substring] from [n] to the end. *)
Definition str_drop (n : nat) (s : string) : string := String.substring n (String.length s - n) s.

(** The [while (true)] loop over the text; [UB] marks fuel that ran out. *)
Fixpoint split_loop (fuel : nat) (cert_chain : string) (start : nat) (c : X509CertChain) :
    res X509CertChain :=
  match fuel with
  | O => UB
  | S fuel =>
      match String.index start pem_delimiter cert_chain with
      | None => Ret c
      | Some end_ =>
          let cert_end := (end_ + String.length pem_delimiter)%nat in
          let cert_str := String.substring start (cert_end - start) cert_chain in
          match push_back c cert_str with
          | Ret c => split_loop fuel cert_chain (skip_newlines (str_drop cert_end cert_chain) cert_end) c
          | Err _ => Err InternalError
          | Throw x => Throw x
          | UB => UB
          end
      end
  end.

(** [create_from_cert_chain_str]: its [type] argument is not used. *)
Definition create_from_cert_chain_str (type : CertificateChainType) (root_cert_str cert_chain : string) :
    res X509CertChain :=
  if String.eqb cert_chain "" then Err InternalError
  else
    let* c := create GPU_DEVICE_IDENTITY root_cert_str in
    let* c := split_loop (S (String.length cert_chain)) cert_chain 0 c in
    check* negb (zlen (m_certs c) =? 0) else InternalError in
    Ret c.

(** ** Signatures *)

(** [verify_signature]; [md] is null when [None]. *)
Definition verify_signature (c : X509CertChain) (data signature : list Z) (md : option EVP_MD) : res unit :=
  match m_certs c with
  | [] => Err InternalError
  | leaf :: _ =>
      match md with
      | None => Err InternalError
      | Some md =>
          match X509_get_pubkey leaf with
          | None => Err InternalError
          | Some pkey =>
              check* EVP_MD_CTX_new else InternalError in
              check* EVP_DigestVerifyInit md pkey =? 1 else InternalError in
              check* EVP_DigestVerifyUpdate md pkey data =? 1 else InternalError in
              check* EVP_DigestVerifyFinal md pkey data signature =? 1 else InternalError in
              Ret tt
          end
      end
  end.

(** [verify_signature_pkcs11]: the signature is R and S of equal length. *)
Definition verify_signature_pkcs11 (c : X509CertChain) (data pkcs11_signature : list Z)
    (md : option EVP_MD) : res unit :=
  check* zlen pkcs11_signature mod 2 =? 0 else InternalError in
  let component_len := zlen pkcs11_signature / 2 in
  check* BN_new else InternalError in
  match BN_bin2bn (slice pkcs11_signature 0 component_len) with
  | None => Err InternalError
  | Some r =>
      match BN_bin2bn (slice pkcs11_signature component_len component_len) with
      | None => Err InternalError
      | Some s =>
          check* ECDSA_SIG_new else InternalError in
          check* ECDSA_SIG_set0 r s =? 1 else InternalError in
          match i2d_ECDSA_SIG r s with
          | None => Err InternalError
          | Some der_signature => verify_signature c data der_signature md
          end
      end
  end.

(** ** Path verification *)

(** The comparison loop: the verified path, certificate by certificate. *)
Fixpoint same_path (verified_chain certs : list X509) : res (list X509) :=
  match verified_chain, certs with
  | v :: verified_chain, p :: certs =>
      check* X509_cmp v p =? 0 else CertChainVerificationFailure in
      check* X509_up_ref v =? 1 else InternalError in
      let* path := same_path verified_chain certs in
      Ret (v :: path)
  | _, _ => Ret []
  end.

(** [X509CertChain::verify]: the verified path. *)
Definition verify (c : X509CertChain) : res (list X509) :=
  match m_certs c, m_trust_store c with
  | [], _ => Err InternalError
  | _, None => Err InternalError
  | leaf :: untrusted, Some store =>
      check* sk_X509_new_null else InternalError in
      let '(ret, chain) := X509_verify_cert store leaf untrusted in
      check* ret =? 1 else CertChainVerificationFailure in
      match chain with
      | None => Err CertChainVerificationFailure
      | Some verified_chain =>
          check* zlen verified_chain =? zlen (m_certs c) else CertChainVerificationFailure in
          same_path verified_chain (m_certs c)
      end
  end.

(** ** Expiry *)

Definition TIME_MAX : Z := 2 ^ 63 - 1.

Definition expiration_step (acc : Z * bool) (cert : X509) : res (Z * bool) :=
  match X509_get0_notAfter cert ≫= ASN1_TIME_to_unix with
  | None => Err InternalError
  | Some cert_expiration =>
      Ret (if cert_expiration <? acc.1 then (cert_expiration, true) else acc)
  end.

(** The time, and its text. *)
Definition calculate_min_expiration_time (c : X509CertChain) : res (Z * string) :=
  check* negb (zlen (m_certs c) =? 0) else InternalError in
  let* (min_expiration_time, valid_expiration_found) :=
    ofold expiration_step (m_certs c) (TIME_MAX, false) in
  check* valid_expiration_found else InternalError in
  let* iso8601_time := iso8601 min_expiration_time in
  Ret (min_expiration_time, iso8601_time).

(** ** Revocation claims *)

Definition map_status (status : Z) : OCSPStatus :=
  if status =? V_OCSP_CERTSTATUS_REVOKED then REVOKED
  else if status =? V_OCSP_CERTSTATUS_GOOD then GOOD
  else if status =? V_OCSP_CERTSTATUS_UNKNOWN then UNKOWN
  else UNDEFINED.

(** The loop body of [generate_ocsp_claims_for_path] after the client answered:
    the claims so far and whether they are initialized. *)
Definition merge_response (claims_initialized : bool) (o : OCSPClaims) (r : NvOcspResponse) :
    res OCSPClaims :=
  let valid :=
    if negb claims_initialized then response_valid r
    else oc_ocsp_response_valid o && response_valid r in
  let nonce :=
    if negb claims_initialized then nonce_matches r else oc_nonce_matches o && nonce_matches r in
  let mapped_status := map_status (status r) in
  let '(st, why) :=
    if negb claims_initialized then (mapped_status, oc_revocation_reason o)
    else if bool_decide (oc_status o = GOOD) then
      (mapped_status,
       if bool_decide (mapped_status = REVOKED) then Some (OCSP_crl_reason_str (reason r))
       else oc_revocation_reason o)
    else (oc_status o, oc_revocation_reason o) in
  check* negb (claims_initialized && negb (Bool.eqb (oc_signed_age o) (signed_age r)))
    else OcspInvalidResponse in
  let* (vt, deadline, oldest) :=
    if signed_age r then
      check* negb (nonce_matches r) else OcspInvalidResponse in
      if negb claims_initialized
      then Ret (verification_time r, status_deadline r, thisupd r)
      else
        check* oc_verification_time o =? verification_time r else OcspInvalidResponse in
        Ret (oc_verification_time o, Z.min (oc_status_deadline o) (status_deadline r),
             Z.min (oc_oldest_this_update o) (thisupd r))
    else Ret (oc_verification_time o, oc_status_deadline o, oc_oldest_this_update o) in
  let expiration :=
    if (oc_ocsp_resp_expiration_time o =? 0) || (nextupd r <? oc_ocsp_resp_expiration_time o)
    then nextupd r else oc_ocsp_resp_expiration_time o in
  Ret (mk_ocsp_claims st why nonce expiration valid (signed_age r) vt deadline oldest
         (oc_covered_certificates o + 1)).

Section client.

Context {S : Type} `{!IOcspHttpClient S}.

(** The loop, over the subject indices still to check; the client's state is
    threaded. *)
Fixpoint ocsp_loop (path : list X509) (store : option X509_STORE) (idxs : list Z) (s : S)
    (intermediates : list X509) (o : OCSPClaims) (claims_initialized : bool) : res OCSPClaims * S :=
  match idxs with
  | [] => (Ret o, s)
  | subject_idx :: idxs =>
      match vget (E:=Error) path subject_idx, vget (E:=Error) path (subject_idx + 1) with
      | Ret subject, Ret issuer =>
          let '(r, s) := get_ocsp_response s (Some subject) (Some issuer) intermediates store in
          match r with
          | Ret r =>
              match merge_response claims_initialized o r with
              | Ret o =>
                  if sk_X509_insert_ok
                  then ocsp_loop path store idxs s (subject :: intermediates) o true
                  else (Err InternalError, s)
              | e => (e, s)
              end
          | Err e => (Err e, s)
          | Throw x => (Throw x, s)
          | UB => (UB, s)
          end
      | _, _ => (UB, s)
      end
  end.

Definition start_indx (type : CertificateChainType) : Z :=
  if bool_decide (type = GPU_DEVICE_IDENTITY \/ type = NVSWITCH_DEVICE_IDENTITY) then 1 else 0.

(** From the certificate below the root down to [start_indx]. *)
Definition subject_indices (type : CertificateChainType) (path : list X509) : list Z :=
  reverse (seqZ (start_indx type) (zlen path - 1 - start_indx type)).

Definition generate_ocsp_claims_for_path (c : X509CertChain) (verified_path : list X509) (s : S) :
    res OCSPClaims * S :=
  match m_trust_store c with
  | None => (Err InternalError, s)
  | Some _ =>
      if negb sk_X509_new_null then (Err InternalError, s)
      else ocsp_loop verified_path (m_trust_store c) (subject_indices (m_type c) verified_path) s []
             OCSPClaims_default false
  end.

Definition generate_ocsp_claims (c : X509CertChain) (s : S) : res OCSPClaims * S :=
  match verify c with
  | Ret verified_path => generate_ocsp_claims_for_path c verified_path s
  | Err e => (Err e, s)
  | Throw x => (Throw x, s)
  | UB => (UB, s)
  end.

(** [generate_cert_chain_claims]; [now] is [time(nullptr)]. *)
Definition generate_cert_chain_claims (now : Z) (c : X509CertChain) (s : S) : res CertChainClaims * S :=
  match calculate_min_expiration_time c with
  | Ret (min_expiration_time, min_expiration_time_str) =>
      let status := if min_expiration_time <? now then CS_EXPIRED else CS_VALID in
      match verify c with
      | Ret verified_path =>
          let '(r, s) := generate_ocsp_claims_for_path c verified_path s in
          (let* ocsp_claims := r in
           Ret (mk_cert_chain_claims min_expiration_time_str status ocsp_claims), s)
      | Err e => (Err e, s)
      | Throw x => (Throw x, s)
      | UB => (UB, s)
      end
  | Err e => (Err e, s)
  | Throw x => (Throw x, s)
  | UB => (UB, s)
  end.

(** What the client was asked and answered along the path. *)
Inductive asked (path : list X509) (store : option X509_STORE) :
    S -> list X509 -> list Z -> list NvOcspResponse -> S -> Prop :=
| asked_nil s im : asked path store s im [] [] s
| asked_cons s im i idxs r rs s' s'' subject issuer :
    path !! Z.to_nat i = Some subject -> path !! Z.to_nat (i + 1) = Some issuer ->
    get_ocsp_response s (Some subject) (Some issuer) im store = (Ret r, s') ->
    asked path store s' (subject :: im) idxs rs s'' ->
    asked path store s im (i :: idxs) (r :: rs) s''.

End client.

(** ** The firmware id *)

(** One element of the list from the offset, and the offset after it. *)
Definition fwid_element (fwid_list_data_vec : list Z) (offset : Z) : res (list Z * Z) :=
  let offset := offset + 2 in
  let offset := offset + 1 in
  check* can_read_buffer fwid_list_data_vec offset 1 else InternalError in
  let* hash_alg_len := vget fwid_list_data_vec offset in
  let offset := offset + 1 in
  let offset := offset + hash_alg_len in
  let offset := offset + 1 in
  check* can_read_buffer fwid_list_data_vec offset 1 else InternalError in
  let* fwid_len := vget fwid_list_data_vec offset in
  let offset := offset + 1 in
  check* can_read_buffer fwid_list_data_vec offset fwid_len else InternalError in
  let* fwid_vec := viter fwid_list_data_vec offset fwid_len in
  Ret (fwid_vec, offset + fwid_len).

Fixpoint fwid_loop (fuel : nat) (data : list Z) (offset : Z) (fwid_list : list (list Z)) :
    res (list (list Z) * Z) :=
  match fuel with
  | O => UB
  | S fuel =>
      if offset <? zlen data then
        let* (fwid_vec, offset) := fwid_element data offset in
        fwid_loop fuel data offset (fwid_list ++ [fwid_vec])
      else Ret (fwid_list, offset)
  end.

(** [get_fwid_2_23_133_5_4_1_1] from the seventh element of the sequence. *)
Definition fwid_from_list (fwid_list_data_vec : list Z) : res (list Z) :=
  let* (fwid_list, offset) := fwid_loop (S (length fwid_list_data_vec)) fwid_list_data_vec 2 [] in
  check* offset =? zlen fwid_list_data_vec else InternalError in
  match fwid_list with
  | [] => Err InternalError
  | fwid :: _ => Ret fwid
  end.

Definition get_fwid_2_23_133_5_4_1_1 (extension_data : list Z) : res (list Z) :=
  match d2i_ASN1_SEQUENCE_ANY extension_data with
  | None => Err InternalError
  | Some seq =>
      check* 6 <? zlen seq else InternalError in
      match seq !! 6%nat with
      | Some (Some fwid_list_data) => fwid_from_list fwid_list_data
      | _ => Err InternalError
      end
  end.

Definition get_fwid (c : X509CertChain) (cert_index : Z) (fwid_type : FWIDType) : res (list Z) :=
  let fwid_oid := FWIDType_to_string fwid_type in
  check* negb (zlen (m_certs c) <=? cert_index) else CertNotFound in
  let* cert := vget (m_certs c) cert_index in
  check* OBJ_txt2obj fwid_oid else CertFwidNotFound in
  let loc := X509_get_ext_by_OBJ cert fwid_oid in
  check* negb (loc <? 0) else CertFwidNotFound in
  match X509_get_ext_data cert loc with
  | None => Err InternalError
  | Some None => Err InternalError
  | Some (Some data) =>
      let length := zlen data in
      check* negb (length =? 0) else InternalError in
      check* negb (length <? m_fwid_hash_length) else InternalError in
      match fwid_type with
      | FWID_2_23_133_5_4_1 =>
          check* negb (length <? m_fwid_hash_length) else InternalError in
          Ret (slice data (length - m_fwid_hash_length) m_fwid_hash_length)
      | FWID_2_23_133_5_4_1_1 => get_fwid_2_23_133_5_4_1_1 data
      end
  end.

(** [get_hwmodel]: the common name of the certificate at index 1. *)
Definition get_hwmodel (c : X509CertChain) : res string :=
  match m_certs c !! 1%nat with
  | None => Err CertNotFound
  | Some cert =>
      match X509_subject_common_name cert with
      | None => Err InternalError
      | Some cn_data =>
          check* negb (zlen cn_data =? 0) else InternalError in
          Ret (string_of_bytes cn_data)
      end
  end.

(** [get_ueid]: the leaf's serial number in decimal. *)
Definition get_ueid (c : X509CertChain) : res string :=
  match m_certs c with
  | [] => Err CertNotFound
  | cert :: _ =>
      match X509_serial_decimal cert with
      | None => Err InternalError
      | Some dec_str => Ret dec_str
      end
  end.

(** The firmware-id list on the wire: two header bytes, then elements of a
    sequence header, a tagged hash algorithm and a tagged digest. *)
Record fwid_wire : Type := mk_fwid {
  fw_header : Z * Z;
  fw_alg_tag : Z;
  fw_alg : list Z;
  fw_tag : Z;
  fw_digest : list Z;
}.

Definition encode_fwid (f : fwid_wire) : list Z :=
  [fst (fw_header f); snd (fw_header f); fw_alg_tag f; zlen (fw_alg f)] ++ fw_alg f ++
  [fw_tag f; zlen (fw_digest f)] ++ fw_digest f.

Definition encode_fwids (fs : list fwid_wire) : list Z := concat (encode_fwid <$> fs).

(** ** What the claims summarise *)

(** The status reported for a list of answers, closest to the root first: the
    first one that is not GOOD. *)
Fixpoint first_not_good (rs : list NvOcspResponse) : OCSPStatus :=
  match rs with
  | [] => GOOD
  | r :: rs => if bool_decide (map_status (status r) = GOOD) then first_not_good rs else map_status (status r)
  end.

Record summarises (rs : list NvOcspResponse) (o : OCSPClaims) : Prop := mk_summarises {
  sum_status : oc_status o = first_not_good rs;
  sum_nonce : oc_nonce_matches o = forallb nonce_matches rs;
  sum_valid : oc_ocsp_response_valid o = forallb response_valid rs;
  sum_covered : oc_covered_certificates o = zlen rs;
  sum_mode : Forall (fun r => signed_age r = oc_signed_age o) rs;
  sum_signed : oc_signed_age o = true ->
    Forall (fun r => nonce_matches r = false /\ verification_time r = oc_verification_time o /\
                     oc_status_deadline o <= status_deadline r /\ oc_oldest_this_update o <= thisupd r) rs /\
    Exists (fun r => oc_status_deadline o = status_deadline r) rs /\
    Exists (fun r => oc_oldest_this_update o = thisupd r) rs;
  sum_expiry : Forall (fun r => 0 < nextupd r) rs ->
    Forall (fun r => oc_ocsp_resp_expiration_time o <= nextupd r) rs /\ 0 < oc_ocsp_resp_expiration_time o;
}.

(** ** Lemmas: answers *)

Lemma first_not_good_snoc rs r :
  first_not_good (rs ++ [r]) =
  if bool_decide (first_not_good rs = GOOD) then map_status (status r) else first_not_good rs.
Proof.
  induction rs as [|x rs IH]; cbn [first_not_good app].
  - rewrite (bool_decide_true (GOOD = GOOD)) by done. by case_bool_decide.
  - destruct (decide (map_status (status x) = GOOD)).
    + by rewrite !(bool_decide_true (map_status (status x) = GOOD)).
    + by rewrite !(bool_decide_false (map_status (status x) = GOOD)).
Qed.

Lemma first_not_good_GOOD rs : first_not_good rs = GOOD <-> Forall (fun r => status r = V_OCSP_CERTSTATUS_GOOD) rs.
Proof.
  assert (M : forall z, map_status z = GOOD <-> z = V_OCSP_CERTSTATUS_GOOD).
  { intros z. unfold map_status, V_OCSP_CERTSTATUS_GOOD, V_OCSP_CERTSTATUS_REVOKED, V_OCSP_CERTSTATUS_UNKNOWN.
    destruct (z =? 1) eqn:?, (z =? 0) eqn:?, (z =? 2) eqn:?; split; (done || lia). }
  induction rs as [|r rs IH]; cbn [first_not_good]; [done|].
  rewrite Forall_cons, <- IH, <- M. case_bool_decide; [tauto|]. split; [done|]. by intros [? _].
Qed.

Lemma merge_first o r o' :
  merge_response false OCSPClaims_default r = Ret o' -> o = OCSPClaims_default -> summarises [r] o'.
Proof.
  intros H _. unfold merge_response in H. cbn [negb andb OCSPClaims_default oc_revocation_reason
    oc_ocsp_resp_expiration_time oc_covered_certificates oc_verification_time oc_status_deadline
    oc_oldest_this_update Z.eqb orb] in H.
  destruct (signed_age r) eqn:Es; [destruct (nonce_matches r) eqn:En; cbn [negb] in H; [done|]|];
    cbn [obind] in H; injection H as <-; split; cbn; rewrite ?Es, ?En, ?andb_true_r; try done;
    try by repeat constructor.
  1, 3: by case_bool_decide.
  all: rewrite !Forall_singleton; intros; split; lia.
Qed.

Lemma merge_next rs o r o' :
  rs <> [] -> summarises rs o -> merge_response true o r = Ret o' -> summarises (rs ++ [r]) o'.
Proof.
  intros Hne [Hst Hno Hva Hco Hmo Hsi Hex] H. unfold merge_response in H. cbn [negb andb] in H.
  destruct (Bool.eqb (oc_signed_age o) (signed_age r)) eqn:Em; cbn [negb] in H;
    [apply Bool.eqb_prop in Em|by destruct (bool_decide _)].
  assert (Hx : forall e, (e = if (oc_ocsp_resp_expiration_time o =? 0) || (nextupd r <? oc_ocsp_resp_expiration_time o)
      then nextupd r else oc_ocsp_resp_expiration_time o) ->
    Forall (fun r => 0 < nextupd r) (rs ++ [r]) -> Forall (fun r => e <= nextupd r) (rs ++ [r]) /\ 0 < e).
  { intros e -> [Hp [Hr _]%Forall_cons]%Forall_app. destruct (Hex Hp) as [Hle Hpos].
    rewrite Forall_app, Forall_singleton. rewrite (proj2 (Z.eqb_neq _ 0)) by lia. cbn [orb].
    destruct (nextupd r <? _) eqn:E; split_and!; try lia; [|done].
    eapply Forall_impl; [exact Hle|]. cbn. intros. lia. }
  set (p := if bool_decide (oc_status o = GOOD) then _ else _) in H.
  assert (Hp : p.1 = first_not_good (rs ++ [r])).
  { unfold p. rewrite first_not_good_snoc, <- Hst. by case_bool_decide. }
  destruct p as [st why]. cbn [fst] in Hp. rewrite <- Em in H.
  destruct (oc_signed_age o) eqn:Es.
  - destruct (nonce_matches r) eqn:En; cbn [negb] in H; [done|].
    destruct (oc_verification_time o =? verification_time r) eqn:Ev; [|done]. cbn [obind] in H.
    injection H as <-. destruct (Hsi eq_refl) as (Hall & Hd & Ho). split; cbn.
    + done.
    + by rewrite forallb_app, Hno, <- En; cbn; rewrite andb_true_r.
    + by rewrite forallb_app, Hva; cbn; rewrite andb_true_r.
    + rewrite zlen_app, Hco. done.
    + rewrite Forall_app, Forall_singleton. done.
    + intros _. split_and!.
      * rewrite Forall_app, Forall_singleton. split; [|split_and!; (done || lia)].
        eapply Forall_impl; [exact Hall|]. cbn. intros x (? & ? & ? & ?). split_and!; (done || lia).
      * apply Exists_app. destruct (Z.min_spec (oc_status_deadline o) (status_deadline r)) as [[_ ->]|[_ ->]];
          [by left|right; by constructor].
      * apply Exists_app. destruct (Z.min_spec (oc_oldest_this_update o) (thisupd r)) as [[_ ->]|[_ ->]];
          [by left|right; by constructor].
    + by apply Hx.
  - cbn [obind] in H. injection H as <-. split; cbn; try done.
    + by rewrite forallb_app, Hno; cbn; rewrite andb_true_r.
    + by rewrite forallb_app, Hva; cbn; rewrite andb_true_r.
    + rewrite zlen_app, Hco. done.
    + rewrite Forall_app, Forall_singleton. done.
    + by apply Hx.
Qed.

(** The loop has asked about every index and its claims summarise the
    answers. *)
Lemma ocsp_loop_sound {S : Type} `{!IOcspHttpClient S} path store idxs s im o seen o' s' :
  ocsp_loop path store idxs s im o (negb (bool_decide (seen = []))) = (Ret o', s') ->
  Forall (fun i => 0 <= i) idxs ->
  (seen = [] -> o = OCSPClaims_default) -> (seen <> [] -> summarises seen o) ->
  exists rs, asked path store s im idxs rs s' /\
    (seen ++ rs = [] -> o' = OCSPClaims_default) /\ (seen ++ rs <> [] -> summarises (seen ++ rs) o').
Proof.
  revert s im o seen. induction idxs as [|i idxs IH]; intros s im o seen H Hi H0 H1; cbn [ocsp_loop] in H.
  { injection H as <- <-. exists []. rewrite app_nil_r. split_and!; [constructor|done..]. }
  apply Forall_cons in Hi as [Hi0 Hi].
  destruct (vget path i) as [subject| | |] eqn:Es; try done.
  destruct (vget path (i + 1)) as [issuer| | |] eqn:Ei; try done.
  apply vget_Ret in Es as [_ Es], Ei as [_ Ei].
  destruct (get_ocsp_response s (Some subject) (Some issuer) im store) as [r s1] eqn:Eg.
  destruct r as [r| | |]; try done.
  destruct (merge_response _ o r) as [o1| | |] eqn:Em; try done. destruct sk_X509_insert_ok; [|done].
  assert (Hs : summarises (seen ++ [r]) o1).
  { destruct (decide (seen = [])) as [->|Hne].
    - rewrite (H0 eq_refl) in Em. by eapply merge_first.
    - rewrite bool_decide_false in Em by done. cbn [negb] in Em. eapply merge_next; eauto. }
  assert (Hb : true = negb (bool_decide (seen ++ [r] = []))).
  { by rewrite bool_decide_false by (by destruct seen). }
  rewrite Hb in H. destruct (IH s1 (subject :: im) o1 (seen ++ [r]) H Hi) as (rs & Ha & Hn0 & Hn1);
    [by destruct seen|done|].
  exists (r :: rs). rewrite <- app_assoc in *. split_and!; [|done..]. by econstructor.
Qed.

Lemma asked_length {S : Type} `{!IOcspHttpClient S} path store s im idxs rs s' :
  asked path store s im idxs rs s' -> length rs = length idxs.
Proof. induction 1; cbn; congruence. Qed.

(** ** Lemmas: paths and expiry *)

(** A date that certificates can have is written as it is. *)
Lemma iso8601_date t :
  0 <= t <= TimeText.LAST_SECOND ->
  exists d, TimeText.valid_date d /\ TimeText.seconds_of d = t /\ iso8601 t = Ret (TimeText.iso_text d).
Proof.
  intros Ht. destruct (TimeText.gmtime_r_spec t ltac:(lia)) as (d & Hd & Hs & E). exists d. split_and!; try done.
  unfold iso8601. rewrite E. assert (1 <= TimeText.tm_year d) by apply Hd.
  pose proof (TimeText.year_9999 d Hd ltac:(lia)). pose proof (TimeText.iso_text_length d ltac:(lia)) as Hl.
  rewrite (proj2 (Z.leb_le (- _ - 1) _)), (proj2 (Z.leb_le _ TimeText.INT_MAX)) by (unfold TimeText.INT_MAX; lia).
  cbn [andb]. unfold TimeText.strftime. rewrite (proj2 (Z.ltb_lt _ _)) by lia.
  rewrite bool_decide_eq_false_2; [done|]. intros E'. rewrite E' in Hl. cbn in Hl. lia.
Qed.

Lemma same_path_sound vs ps path :
  same_path vs ps = Ret path -> length vs = length ps ->
  path = vs /\ Forall2 (fun v p => X509_cmp v p = 0) vs ps.
Proof.
  revert ps path. induction vs as [|v vs IH]; intros [|p ps] path H Hl; cbn in *; try done.
  - injection H as <-. done.
  - destruct (X509_cmp v p =? 0) eqn:Ec; [|done]. destruct (X509_up_ref v =? 1); [|done].
    destruct (same_path vs ps) as [path'| | |] eqn:Ep; cbn [obind] in H; try done. injection H as <-.
    destruct (IH ps path' Ep) as [-> Hf]; [lia|]. split; [done|]. constructor; [lia|done].
Qed.

Lemma verify_sound c path :
  verify c = Ret path ->
  exists store leaf rest, m_trust_store c = Some store /\ m_certs c = leaf :: rest /\
    X509_verify_cert store leaf rest = (1, Some path) /\
    Forall2 (fun v p => X509_cmp v p = 0) path (m_certs c).
Proof.
  unfold verify. destruct (m_certs c) as [|leaf rest] eqn:Ec; [done|].
  destruct (m_trust_store c) as [store|]; [|done]. destruct sk_X509_new_null; [|done].
  destruct (X509_verify_cert store leaf rest) as [ret chain] eqn:Ev.
  destruct (ret =? 1) eqn:Er; [|done]. destruct chain as [chain|]; [|done].
  destruct (zlen chain =? zlen (leaf :: rest)) eqn:El; [|done]. intros H.
  apply same_path_sound in H as [-> Hf]; [|unfold zlen in El; lia].
  exists store, leaf, rest. replace ret with 1 in Ev by lia. done.
Qed.

Definition not_after (cert : X509) : option Z := X509_get0_notAfter cert ≫= ASN1_TIME_to_unix.

Lemma expiration_fold certs acc acc' :
  ofold expiration_step certs acc = Ret acc' ->
  acc'.1 <= acc.1 /\
  Forall (fun cert => exists t, not_after cert = Some t /\ acc'.1 <= t) certs /\
  (acc' = acc \/ acc'.2 = true /\ Exists (fun cert => not_after cert = Some (acc'.1)) certs).
Proof.
  revert acc. induction certs as [|cert certs IH]; intros acc H; cbn [ofold] in H.
  { injection H as <-. split_and!; [lia|constructor|by left]. }
  unfold expiration_step at 1 in H. fold (not_after cert) in H.
  destruct (not_after cert) as [t|] eqn:Et; [|done]. cbn [obind] in H.
  destruct (IH _ H) as (H1 & H2 & H3). destruct (t <? acc.1) eqn:E; cbn [fst snd] in *.
  - split_and!; [lia|constructor; [exists t; split; [done|lia]|done]|]. right.
    destruct H3 as [->|[? ?]]; [split; [done|left; done]|split; [done|by right]].
  - split_and!; [lia|constructor; [exists t; split; [done|lia]|done]|].
    destruct H3 as [->|[? ?]]; [by left|right; split; [done|by right]].
Qed.

Lemma min_expiration_sound c t text :
  calculate_min_expiration_time c = Ret (t, text) ->
  iso8601 t = Ret text /\
  Forall (fun cert => exists u, not_after cert = Some u /\ t <= u) (m_certs c) /\
  Exists (fun cert => not_after cert = Some t) (m_certs c).
Proof.
  unfold calculate_min_expiration_time. intros H. destruct (negb _); [|done].
  destruct (ofold expiration_step (m_certs c) (TIME_MAX, false)) as [[m b]| | |] eqn:E; cbn [obind] in H; try done.
  destruct b; [|done]. destruct (iso8601 m) as [x| | |] eqn:Ei; cbn [obind] in H; try done. injection H as <- <-.
  apply expiration_fold in E as (_ & H2 & [E|[_ H3]]); [done|]. by split.
Qed.

Lemma subject_indices_elem type path i :
  i ∈ subject_indices type path <-> start_indx type <= i < zlen path - 1.
Proof. unfold subject_indices. rewrite elem_of_reverse, elem_of_seqZ. lia. Qed.

Lemma subject_indices_nonneg type path : Forall (fun i => 0 <= i) (subject_indices type path).
Proof.
  apply Forall_forall. intros i. rewrite subject_indices_elem. unfold start_indx. case_bool_decide; lia.
Qed.

Lemma for_path_sound {S : Type} `{!IOcspHttpClient S} c path (s : S) o s' :
  generate_ocsp_claims_for_path c path s = (Ret o, s') ->
  exists rs, asked path (m_trust_store c) s [] (subject_indices (m_type c) path) rs s' /\
    (rs = [] -> o = OCSPClaims_default) /\ (rs <> [] -> summarises rs o).
Proof.
  unfold generate_ocsp_claims_for_path. intros H.
  destruct (m_trust_store c); [|done]. destruct (negb sk_X509_new_null); [done|].
  by apply (ocsp_loop_sound _ _ _ _ _ _ []) in H; [|apply subject_indices_nonneg|..].
Qed.

(** Once a status is not GOOD the reason does not change any more. *)
Lemma merge_keeps_reason o r o' :
  oc_status o <> GOOD -> merge_response true o r = Ret o' ->
  oc_status o' = oc_status o /\ oc_revocation_reason o' = oc_revocation_reason o.
Proof.
  intros Hg. unfold merge_response. cbn [negb]. rewrite (bool_decide_false (oc_status o = GOOD)) by done.
  intros H. destruct (negb _); [|done]. destruct (signed_age r).
  - destruct (negb (nonce_matches r)); [|done]. destruct (_ =? _); [|done]. by injection H as <-.
  - by injection H as <-.
Qed.

Lemma loop_keeps_reason {S : Type} `{!IOcspHttpClient S} path store idxs (s : S) im o o' s' :
  oc_status o <> GOOD -> ocsp_loop path store idxs s im o true = (Ret o', s') ->
  oc_status o' = oc_status o /\ oc_revocation_reason o' = oc_revocation_reason o.
Proof.
  revert s im o. induction idxs as [|i idxs IH]; intros s im o Hg H; cbn [ocsp_loop] in H.
  { by injection H as <- <-. }
  destruct (vget path i) as [subject| | |]; try done. destruct (vget path (i + 1)) as [issuer| | |]; try done.
  destruct (get_ocsp_response _ _ _ _ _) as [r s1]. destruct r as [r| | |]; try done.
  destruct (merge_response true o r) as [o1| | |] eqn:Em; try done. destruct sk_X509_insert_ok; [|done].
  destruct (merge_keeps_reason _ _ _ Hg Em) as [E1 E2].
  destruct (IH s1 (subject :: im) o1) as [-> ->]; [congruence|done|done].
Qed.

(** ** Lemmas: the firmware id *)

Definition wf_fwid (f : fwid_wire) : Prop :=
  zlen (fw_alg f) < 256 /\ zlen (fw_digest f) < 256.

Lemma encode_fwid_zlen f : zlen (encode_fwid f) = 6 + zlen (fw_alg f) + zlen (fw_digest f).
Proof. unfold encode_fwid. autorewrite with nv_len. lia. Qed.

Lemma fwid_element_complete d pre f post :
  vec_ok d -> wf_fwid f -> d = pre ++ encode_fwid f ++ post ->
  fwid_element d (zlen pre) = Ret (fw_digest f, zlen pre + zlen (encode_fwid f)).
Proof.
  intros Hok [Ha Hg] Ed. pose proof (encode_fwid_zlen f).
  assert (Hz : zlen d = zlen pre + zlen (encode_fwid f) + zlen post) by (rewrite Ed, !zlen_app; lia).
  pose proof (zlen_nonneg pre). pose proof (zlen_nonneg post). pose proof (zlen_nonneg (fw_alg f)).
  pose proof (zlen_nonneg (fw_digest f)). unfold vec_ok in Hok.
  unfold fwid_element. cbn zeta. rewrite !can_read_buffer_spec by lia.
  rewrite !(proj2 (Z.leb_le _ (zlen d))) by lia.
  unfold encode_fwid in Ed. destruct (fw_header f) as [h1 h2]. cbn [fst snd] in Ed. rewrite <- !app_assoc in Ed.
  rewrite (vget_at d _ (pre ++ [h1; h2; fw_alg_tag f]) (fw_alg f ++ [fw_tag f; zlen (fw_digest f)] ++ fw_digest f ++ post)
    (zlen (fw_alg f))) by at_tac Ed. cbn [obind].
  rewrite can_read_buffer_spec, (proj2 (Z.leb_le _ (zlen d))) by lia.
  rewrite (vget_at d _ (pre ++ [h1; h2; fw_alg_tag f; zlen (fw_alg f)] ++ fw_alg f ++ [fw_tag f])
    (fw_digest f ++ post) (zlen (fw_digest f))) by at_tac Ed. cbn [obind].
  rewrite can_read_buffer_spec, (proj2 (Z.leb_le _ (zlen d))) by lia.
  unfold viter. match goal with |- context [if ?b then Ret _ else UB] => replace b with true by lia end.
  cbn [obind].
  assert (Es : slice d (zlen pre + 2 + 1 + 1 + zlen (fw_alg f) + 1 + 1) (zlen (fw_digest f)) = fw_digest f).
  { rewrite Ed. change ([h1; h2; fw_alg_tag f; zlen (fw_alg f)] ++ fw_alg f ++ [fw_tag f; zlen (fw_digest f)] ++ fw_digest f ++ post)
      with ([h1; h2; fw_alg_tag f; zlen (fw_alg f)] ++ (fw_alg f ++ ([fw_tag f; zlen (fw_digest f)] ++ (fw_digest f ++ post)))).
    rewrite !(app_assoc pre), (app_assoc _ (fw_alg f)), (app_assoc _ [fw_tag f; zlen (fw_digest f)]).
    apply slice_app; [len_tac|done]. }
  rewrite Es. do 2 f_equal. lia.
Qed.

Lemma fwid_loop_complete fuel d pre fs acc :
  vec_ok d -> Forall wf_fwid fs -> d = pre ++ encode_fwids fs -> zlen (encode_fwids fs) < Z.of_nat fuel ->
  fwid_loop fuel d (zlen pre) acc = Ret (acc ++ (fw_digest <$> fs), zlen d).
Proof.
  intros Hok Hfs. revert fuel pre acc. induction Hfs as [|f fs Hf Hfs IH]; intros fuel pre acc Ed Hfu.
  all: destruct fuel as [|fuel];
    [match type of Hfu with zlen ?x < _ => pose proof (zlen_nonneg x) end; lia|]; cbn [fwid_loop].
  { cbn in Ed. rewrite app_nil_r in Ed. subst. by rewrite Z.ltb_irrefl, app_nil_r. }
  change (encode_fwids (f :: fs)) with (encode_fwid f ++ encode_fwids fs) in *.
  rewrite zlen_app, encode_fwid_zlen in Hfu. pose proof (zlen_nonneg (fw_alg f)).
  pose proof (zlen_nonneg (fw_digest f)). pose proof (zlen_nonneg (encode_fwids fs)).
  rewrite (proj2 (Z.ltb_lt _ _)) by (rewrite Ed, !zlen_app, encode_fwid_zlen; lia).
  rewrite (fwid_element_complete d pre f (encode_fwids fs)) by done. cbn [obind].
  rewrite <- zlen_app, IH by (by rewrite <- app_assoc || lia). by rewrite <- app_assoc.
Qed.

(** Any element that is read advances the offset. *)
Lemma fwid_element_total d off :
  Forall is_byte d -> vec_ok d -> 0 <= off <= zlen d ->
  fwid_element d off = Err InternalError \/
  exists v off', fwid_element d off = Ret (v, off') /\ off < off' <= zlen d.
Proof.
  intros Hd Hok Ho. assert (Hok' := Hok). unfold vec_ok in Hok'. unfold fwid_element. cbn zeta.
  rewrite can_read_buffer_spec by lia. destruct (off + 2 + 1 + 1 <=? zlen d) eqn:E1; [|by left].
  destruct (vget_in_range (E:=Error) d (off + 2 + 1)) as (a & -> & Ha); [lia|]. cbn [obind].
  eapply Forall_lookup_1 in Ha; [|done]. unfold is_byte in Ha.
  rewrite can_read_buffer_spec by lia. destruct (off + 2 + 1 + 1 + a + 1 + 1 <=? zlen d) eqn:E2; [|by left].
  destruct (vget_in_range (E:=Error) d (off + 2 + 1 + 1 + a + 1)) as (n & -> & Hn); [lia|]. cbn [obind].
  eapply Forall_lookup_1 in Hn; [|done]. unfold is_byte in Hn.
  rewrite can_read_buffer_spec by lia. destruct (off + 2 + 1 + 1 + a + 1 + 1 + n <=? zlen d) eqn:E3; [|by left]. right.
  unfold viter. match goal with |- context [if ?b then Ret _ else UB] => replace b with true by lia end.
  cbn [obind]. eexists _, _. split; [done|]. lia.
Qed.

Lemma fwid_loop_total fuel d off acc :
  Forall is_byte d -> vec_ok d -> 0 <= off <= zlen d -> zlen d - off < Z.of_nat fuel ->
  fwid_loop fuel d off acc = Err InternalError \/ exists r, fwid_loop fuel d off acc = Ret r.
Proof.
  intros Hd Hok. revert off acc. induction fuel as [|fuel IH]; intros off acc Ho Hf; [lia|].
  cbn [fwid_loop]. destruct (off <? zlen d); [|eauto].
  destruct (fwid_element_total d off Hd Hok Ho) as [->|(v & off' & -> & Hoff)]; [by left|].
  cbn [obind]. apply IH; lia.
Qed.

(** ** Properties *)

(** C30: the revocation claims of a chain summarise the client's answers for
    every certificate of the verified path from the one below the root down to
    the first index of the chain's type, each asked with its issuer: the status
    is GOOD only if every answer is, a nonce match or a valid response is
    reported only if all answers say so, answers of both status modes are never
    mixed, and a signed-age chain carries the common verification time and the
    earliest deadline. *)
Theorem chain_ocsp_claims_sound {S : Type} `{!IOcspHttpClient S} c path (s : S) o s' :
  generate_ocsp_claims_for_path c path s = (Ret o, s') ->
  exists rs, asked path (m_trust_store c) s [] (subject_indices (m_type c) path) rs s' /\
    length rs = length (subject_indices (m_type c) path) /\
    (forall i, i ∈ subject_indices (m_type c) path <-> start_indx (m_type c) <= i < zlen path - 1) /\
    (rs = [] -> o = OCSPClaims_default) /\ (rs <> [] -> summarises rs o) /\
    (oc_status o = GOOD <-> rs <> [] /\ Forall (fun r => status r = V_OCSP_CERTSTATUS_GOOD) rs).
Proof.
  intros H. destruct (for_path_sound c path s o s' H) as (rs & Ha & H0 & H1).
  exists rs. split_and!; [done|by eapply asked_length|apply subject_indices_elem|done|done|].
  destruct (decide (rs = [])) as [->|Hne].
  - rewrite H0 by done. split; [done|]. by intros [? _].
  - rewrite (sum_status _ _ (H1 Hne)), first_not_good_GOOD. tauto.
Qed.

(** P: chain claims are only produced for a chain OpenSSL verified to a trust
    anchor along exactly the presented certificates, in their order; the status
    says expired exactly when some certificate's notAfter has passed, and the
    expiration date is the date of the earliest notAfter. *)
Theorem chain_claims_verified {S : Type} `{!IOcspHttpClient S} now c (s : S) cc s' :
  generate_cert_chain_claims now c s = (Ret cc, s') ->
  exists path store leaf rest,
    m_trust_store c = Some store /\ m_certs c = leaf :: rest /\
    X509_verify_cert store leaf rest = (1, Some path) /\
    Forall2 (fun v p => X509_cmp v p = 0) path (m_certs c) /\
    generate_ocsp_claims_for_path c path s = (Ret (cc_ocsp_claims cc), s') /\
    (cc_status cc = CS_EXPIRED <-> Exists (fun cert => exists t, not_after cert = Some t /\ t < now) (m_certs c)) /\
    (cc_status cc = CS_VALID <-> Forall (fun cert => exists t, not_after cert = Some t /\ now <= t) (m_certs c)) /\
    exists t,
      Exists (fun cert => not_after cert = Some t) (m_certs c) /\
      Forall (fun cert => exists u, not_after cert = Some u /\ t <= u) (m_certs c) /\
      (0 <= t <= TimeText.LAST_SECOND ->
       exists d, TimeText.valid_date d /\ TimeText.seconds_of d = t /\ cc_expiration_date cc = TimeText.iso_text d).
Proof.
  unfold generate_cert_chain_claims. intros H.
  destruct (calculate_min_expiration_time c) as [[t text]| | |] eqn:Et; try done.
  destruct (verify c) as [path| | |] eqn:Ev; try done.
  destruct (generate_ocsp_claims_for_path c path s) as [r s1] eqn:Eg.
  destruct r as [o| | |]; cbn [obind] in H; try done. injection H as <- <-. cbn [cc_ocsp_claims cc_status].
  destruct (verify_sound c path Ev) as (store & leaf & rest & Hs & Hc & Hv & Hf).
  destruct (min_expiration_sound c t text Et) as (Hi & Hall' & Hex).
  pose proof Hall' as Hall. rewrite Forall_forall in Hall.
  exists path, store, leaf, rest. split_and!; try done.
  - split.
    + destruct (t <? now) eqn:E; [|done]. intros _. eapply Exists_impl; [exact Hex|]. cbn. intros x Hx. exists t. split; [done|lia].
    + intros (x & Hx & u & Hu & Hlt)%Exists_exists. destruct (Hall x Hx) as (u' & Hu' & Hle).
      assert (u' = u) as -> by congruence. by replace (t <? now) with true by lia.
  - split.
    + destruct (t <? now) eqn:E; [done|]. intros _. apply Forall_forall. intros x Hx.
      destruct (Hall x Hx) as (u & Hu & Hle). exists u. split; [done|lia].
    + intros Hf'. apply Exists_exists in Hex as (x & Hx & Hn). rewrite Forall_forall in Hf'.
      destruct (Hf' x Hx) as (u & Hu & Hle). assert (u = t) as -> by congruence.
      by replace (t <? now) with false by lia.
  - exists t. split_and!; [done|done|]. intros Ht. destruct (iso8601_date t Ht) as (d & Hd & Hsd & E).
    exists d. split_and!; [done|done|]. cbn. congruence.
Qed.

(** P: when the certificate closest to the root is revoked, the claims report
    the status but never a revocation reason: the reason is only recorded for
    a later certificate of the loop. *)
Theorem revocation_reason_lost {S : Type} `{!IOcspHttpClient S} c path (s : S) i idxs subject issuer r s1 o s' :
  subject_indices (m_type c) path = i :: idxs ->
  path !! Z.to_nat i = Some subject -> path !! Z.to_nat (i + 1) = Some issuer ->
  get_ocsp_response s (Some subject) (Some issuer) [] (m_trust_store c) = (Ret r, s1) ->
  status r = V_OCSP_CERTSTATUS_REVOKED ->
  generate_ocsp_claims_for_path c path s = (Ret o, s') ->
  oc_status o = REVOKED /\ oc_revocation_reason o = None.
Proof.
  intros Ei Hs Hi Hg Hr. unfold generate_ocsp_claims_for_path. intros H.
  destruct (m_trust_store c) as [store|]; [|done]. destruct (negb sk_X509_new_null); [done|].
  rewrite Ei in H. cbn [ocsp_loop] in H.
  destruct (vget path i) as [x| | |] eqn:E1; try done. destruct (vget path (i + 1)) as [y| | |] eqn:E2; try done.
  apply vget_Ret in E1 as [_ E1], E2 as [_ E2]. simplify_eq. rewrite Hg in H.
  destruct (merge_response false OCSPClaims_default r) as [o1| | |] eqn:Em; try done.
  destruct sk_X509_insert_ok; [|done].
  assert (H1 : oc_status o1 = REVOKED /\ oc_revocation_reason o1 = None).
  { unfold merge_response in Em. cbn [negb andb] in Em. rewrite Hr in Em.
    destruct (signed_age r); [destruct (negb (nonce_matches r)); [|done]|]; by injection Em as <-. }
  destruct H1 as [H1 H2]. apply loop_keeps_reason in H as [-> ->]; [done|by rewrite H1].
Qed.

(** P: the firmware id of the DICE extension is the digest of the first element
    of its list: on a well-formed list of elements the parser returns that
    digest, whatever the number and sizes of the elements. *)
Theorem fwid_list_first h1 h2 f fs :
  Forall wf_fwid (f :: fs) -> vec_ok ([h1; h2] ++ encode_fwids (f :: fs)) ->
  fwid_from_list ([h1; h2] ++ encode_fwids (f :: fs)) = Ret (fw_digest f).
Proof.
  intros Hfs Hok. set (d := _ ++ _) in *. unfold fwid_from_list.
  change 2 with (zlen [h1; h2]). rewrite (fwid_loop_complete _ d [h1; h2] (f :: fs) []).
  - cbn [obind]. by rewrite Z.eqb_refl.
  - done.
  - done.
  - done.
  - unfold d, zlen. rewrite length_app. lia.
Qed.

(** P: the firmware-id parser is memory safe: on any bytes, in particular with
    length fields that point outside, it returns a digest or InternalError, and
    its loop terminates. *)
Theorem fwid_list_total d :
  Forall is_byte d -> vec_ok d ->
  (exists v, fwid_from_list d = Ret v) \/ fwid_from_list d = Err InternalError.
Proof.
  intros Hd Hok. unfold fwid_from_list. pose proof (zlen_nonneg d).
  destruct (Z.le_gt_cases 2 (zlen d)).
  - destruct (fwid_loop_total (Datatypes.S (length d)) d 2 [] Hd Hok) as [->|[[l off] ->]];
      [lia|unfold zlen; lia|by right|]. cbn [obind].
    destruct (off =? zlen d); [|by right]. destruct l; [by right|eauto].
  - right. cbn [fwid_loop]. replace (2 <? zlen d) with false by lia. cbn [obind].
    by replace (2 =? zlen d) with false by lia.
Qed.

End chain.

(** ** Examples: a leaf, an intermediate and a root over the small OpenSSL
    instance, with an offline client that holds the intermediate's proof. *)

Definition toy_chain : X509CertChain (OSSL:=toy_openssl) :=
  mk_chain (OSSL:=toy_openssl) [3; 5; 9] GPU_DEVICE_IDENTITY (Some 0).

Definition toy_client (proof : Z) : Ocsp.RawProofOcspClient (OSSL:=toy_openssl) :=
  Ocsp.mk_raw (OSSL:=toy_openssl) [[proof]] 1500.

Definition toy_claims (status : OCSPStatus) : OCSPClaims :=
  mk_ocsp_claims status None false 2000 true true 1500 2000 1000 1.

Example toy_good :
  generate_ocsp_claims_for_path (OSSL:=toy_openssl) toy_chain [3; 5; 9] (toy_client 50) =
  (Ret (toy_claims GOOD), toy_client 50).
Proof. vm_compute. reflexivity. Qed.

Example toy_revoked :
  generate_ocsp_claims_for_path (OSSL:=toy_openssl) toy_chain [3; 5; 9] (toy_client 51) =
  (Ret (toy_claims REVOKED), toy_client 51).
Proof. vm_compute. reflexivity. Qed.

Example toy_chain_good :
  generate_cert_chain_claims (OSSL:=toy_openssl) 4000 toy_chain (toy_client 50) =
  (Ret (mk_cert_chain_claims "1970-01-01T01:23:23Z" CS_VALID (toy_claims GOOD)), toy_client 50).
Proof. vm_compute. reflexivity. Qed.

Lemma chain_ocsp_claims_sound_witness :
  exists rs : list NvOcspResponse,
    rs <> [] /\ Forall (fun r => status r = V_OCSP_CERTSTATUS_GOOD) rs.
Proof.
  destruct (chain_ocsp_claims_sound (OSSL:=toy_openssl) toy_chain [3; 5; 9] (toy_client 50) _ _ toy_good)
    as (rs & _ & _ & _ & _ & _ & Hgood).
  exists rs. exact (proj1 Hgood (eq_refl GOOD)).
Defined.

Lemma chain_claims_verified_witness :
  exists path : list Z, CS_VALID = CS_VALID /\
    generate_ocsp_claims_for_path (OSSL:=toy_openssl) toy_chain path (toy_client 50) =
    (Ret (toy_claims GOOD), toy_client 50).
Proof.
  destruct (chain_claims_verified (OSSL:=toy_openssl) 4000 toy_chain (toy_client 50) _ _ toy_chain_good)
    as (path & store & leaf & rest & _ & _ & _ & _ & Hp & _ & _).
  exists path. exact (conj (eq_refl CS_VALID) Hp).
Defined.

Lemma revocation_reason_lost_witness :
  oc_status (toy_claims REVOKED) = REVOKED /\ oc_revocation_reason (toy_claims REVOKED) = None.
Proof.
  exact (revocation_reason_lost (OSSL:=toy_openssl) toy_chain [3; 5; 9] (toy_client 51) 1 [] 5 9
    (mk_ocsp 1000 2000 (-1) 1 false true true 1500 2000) (toy_client 51) _ _
    (eq_refl _) (eq_refl _) (eq_refl _) (eq_refl _) (eq_refl _) toy_revoked).
Defined.

Lemma fwid_list_first_witness :
  fwid_from_list ([166; 10] ++ encode_fwids [mk_fwid (48, 8) 6 [1; 2] 4 [7; 8]]) = Ret [7; 8].
Proof.
  apply (fwid_list_first 166 10 (mk_fwid (48, 8) 6 [1; 2] 4 [7; 8]) []); [|done].
  repeat constructor; done.
Defined.

Lemma fwid_list_total_witness :
  (exists v, fwid_from_list [166; 3; 48; 8; 6; 255; 0] = Ret v) \/
  fwid_from_list [166; 3; 48; 8; 6; 255; 0] = Err InternalError.
Proof. apply (fwid_list_total [166; 3; 48; 8; 6; 255; 0]); [repeat constructor; done|done]. Defined.

End X509CertChain.

Example iso8601_last : iso8601 253402300799 = Ret "9999-12-31T23:59:59Z".
Proof. vm_compute. reflexivity. Qed.
