(* ===== verification/Json.v ===== *)
(** * Json: the values of nlohmann::json the code uses

    JSON values (numbers are the integers the code stores), object assignment
    [j[key] = v] and the checked readers [at], [get<T>] and [contains], which
    throw [nlohmann::json::exception]; the optional fields of
    include/nv_attestation/utils.h; and the wrappers [serialize_to_json] and
    [deserialize_from_json] that turn exceptions into error codes.  The text
    parser and printer of the library are parameters. *)

From S2P Require Import Prelude Errors.

#[warnings="-register-all"]
Inductive json : Type :=
| JNull
| JBool (b : bool)
| JInt (z : Z)
| JString (s : string)
| JArray (l : list json)
| JObject (m : list (string * json)).

(** [j[key] = v] on an object, whose keys are ordered. *)
Fixpoint jset (key : string) (v : json) (m : list (string * json)) : list (string * json) :=
  match m with
  | [] => [(key, v)]
  | (k, w) :: m' =>
      match String.compare key k with
      | Lt => (key, v) :: m
      | Eq => (key, v) :: m'
      | Gt => (k, w) :: jset key v m'
      end
  end.

(** The object that a sequence of assignments builds. *)
Definition jobject (kvs : list (string * json)) : json :=
  JObject (foldl (fun m kv => jset kv.1 kv.2 m) [] kvs).

Fixpoint jlookup (key : string) (m : list (string * json)) : option json :=
  match m with
  | [] => None
  | (k, v) :: m => if String.eqb key k then Some v else jlookup key m
  end.

(** The member of an object, if there is one. *)
Definition jfield (j : json) (key : string) : option json :=
  match j with JObject m => jlookup key m | _ => None end.

(** [j.at(key)]. *)
Definition jat (j : json) (key : string) : res json :=
  match jfield j key with Some v => Ret v | None => Throw json_exception end.

(** [j.at(index)] on an array. *)
Definition jat_index (j : json) (i : nat) : res json :=
  match j with
  | JArray l => match l !! i with Some v => Ret v | None => Throw json_exception end
  | _ => Throw json_exception
  end.

Definition jcontains (j : json) (key : string) : bool := bool_decide (is_Some (jfield j key)).

Definition get_string (j : json) : res string :=
  match j with JString s => Ret s | _ => Throw json_exception end.

Definition get_bool (j : json) : res bool :=
  match j with JBool b => Ret b | _ => Throw json_exception end.

Definition get_number (j : json) : res Z :=
  match j with JInt z => Ret z | _ => Throw json_exception end.

(** The narrow integer types also read a boolean. *)
Definition get_arith (j : json) : res Z :=
  match j with JInt z => Ret z | JBool b => Ret (Z.b2z b) | _ => Throw json_exception end.

Definition get_int (j : json) : res Z := let* z := get_arith j in Ret (s32 z).
Definition get_int64 (j : json) : res Z := let* z := get_number j in Ret (s64 z).
Definition get_uint32 (j : json) : res Z := let* z := get_arith j in Ret (u32 z).
Definition get_uint64 (j : json) : res Z := let* z := get_number j in Ret (u64 z).

Fixpoint omap_list {A B : Type} (f : A -> res B) (l : list A) : res (list B) :=
  match l with
  | [] => Ret []
  | x :: l => let* y := f x in let* ys := omap_list f l in Ret (y :: ys)
  end.

(** [get<std::vector<T>>()]. *)
Definition get_vector {A : Type} (get : json -> res A) (j : json) : res (list A) :=
  match j with JArray l => omap_list get l | _ => Throw json_exception end.

(** [deserialize_optional_shared_ptr] and [serialize_optional_shared_ptr]. *)
Definition deserialize_optional_shared_ptr {A : Type} (get : json -> res A) (j : json)
    (field_name : string) : res (option A) :=
  match jfield j field_name with
  | None | Some JNull => Ret None
  | Some v => let* a := get v in Ret (Some a)
  end.

Definition serialize_optional_shared_ptr {A : Type} (to : A -> json) (ptr : option A) : json :=
  match ptr with Some a => to a | None => JNull end.

(** [NLOHMANN_JSON_SERIALIZE_ENUM]: an unknown value reads as the first
    entry. *)
Definition enum_to_json {A : Type} `{EqDecision A} (table : list (A * string)) (a : A) : json :=
  match list_find (fun p => p.1 = a) table with
  | Some (_, (_, s)) => JString s
  | None => match table with (_, s) :: _ => JString s | [] => JNull end
  end.

Definition enum_from_json {A : Type} (table : list (A * string)) (dflt : A) (j : json) : A :=
  match j with
  | JString s =>
      match list_find (fun p => p.2 = s) table with Some (_, (a, _)) => a | None => dflt end
  | _ => dflt
  end.

(** The [try] block of [deserialize_from_json]: every exception is
    [InternalError]. *)
Definition catch_internal {A : Type} (m : res A) : res A :=
  match m with Throw _ => Err InternalError | r => r end.

(** [deserialize_from_json<T>] over a text parser that throws on [None]. *)
Definition deserialize_from_json {A : Type} (json_parse : string -> option json) (from_json : json -> res A)
    (json_string : string) : res A :=
  catch_internal
    (match json_parse json_string with None => Throw json_exception | Some j => from_json j end).

(** ** Lemmas *)

Lemma jlookup_jset_eq k v m : jlookup k (jset k v m) = Some v.
Proof.
  induction m as [|[k' w] m IH]; cbn [jset jlookup]; [by rewrite String.eqb_refl|].
  destruct (String.compare k k') eqn:E; cbn [jlookup]; [by rewrite String.eqb_refl..|].
  destruct (String.eqb_spec k k') as [->|_]; [|done].
  pose proof (String.compare_antisym k' k') as Ha. by rewrite E in Ha.
Qed.

Lemma jlookup_jset_ne k k' v m : k <> k' -> jlookup k (jset k' v m) = jlookup k m.
Proof.
  intros Hne. induction m as [|[k'' w] m IH]; cbn [jset jlookup].
  { by destruct (String.eqb_spec k k'). }
  destruct (String.compare k' k'') eqn:E; cbn [jlookup].
  - apply String.compare_eq_iff in E as ->. by destruct (String.eqb_spec k k'').
  - by destruct (String.eqb_spec k k').
  - by rewrite IH.
Qed.

Lemma catch_internal_defined {A : Type} (m : res A) : no_ub m -> defined (catch_internal m).
Proof. by destruct m. Qed.

Lemma omap_list_round {A B : Type} (f : B -> res A) (g : A -> B) (l : list A) :
  Forall (fun a => f (g a) = Ret a) l -> omap_list f (g <$> l) = Ret l.
Proof. induction 1 as [|a l Ha Hl IH]; [done|]. cbn. by rewrite Ha; cbn; rewrite IH. Qed.
