(* ===== verification/Claims.v ===== *)
(** * Claims: the claims of a device and their JSON

    include/nv_attestation/claims.h, src/gpu/claims.cpp, src/switch/claims.cpp
    and the data of src/claims.cpp: certificate-chain claims with the
    signed-age status, mismatched measurements, the GPU and switch claims with
    [to_json], [from_json] and [operator==].  A [shared_ptr] to a value is an
    option. *)

From S2P Require Import Prelude Errors Utils Json OpenSsl NvCache Ocsp X509Chain.

(** ** Signed-age status *)

Module SignedAge.

Definition VERSION : Z := 1.

Record SerializableSignedAgeStatus : Type := mk_status {
  m_version : Z;
  m_verification_time_unix : Z;
  m_status_deadline_unix : Z;
  m_oldest_this_update_unix : Z;
  m_covered_certificates : Z;
}.

#[global] Instance status_eq_dec : EqDecision SerializableSignedAgeStatus.
Proof. solve_decision. Defined.

Definition to_json (status : SerializableSignedAgeStatus) : json :=
  jobject
    [("version", JInt (m_version status));
     ("mode", JString "signed-age");
     ("verification_time_unix", JInt (m_verification_time_unix status));
     ("status_deadline_unix", JInt (m_status_deadline_unix status));
     ("oldest_this_update_unix", JInt (m_oldest_this_update_unix status));
     ("covered_certificates", JInt (m_covered_certificates status))].

Definition from_json (j : json) : res SerializableSignedAgeStatus :=
  let* version := let* v := jat j "version" in get_int v in
  let* verification_time := let* v := jat j "verification_time_unix" in get_int64 v in
  let* deadline := let* v := jat j "status_deadline_unix" in get_int64 v in
  let* oldest := let* v := jat j "oldest_this_update_unix" in get_int64 v in
  let* covered := let* v := jat j "covered_certificates" in get_uint64 v in
  Ret (mk_status version verification_time deadline oldest covered).

Definition make_signed_age_status (signed_age : bool)
    (verification_time status_deadline oldest_this_update covered_certificates : Z) :
    option SerializableSignedAgeStatus :=
  if negb signed_age then None
  else Some (mk_status VERSION verification_time status_deadline oldest_this_update
               covered_certificates).

Definition in_range (s : SerializableSignedAgeStatus) : Prop :=
  - 2 ^ 31 <= m_version s < 2 ^ 31 /\ - 2 ^ 63 <= m_verification_time_unix s < 2 ^ 63 /\
  - 2 ^ 63 <= m_status_deadline_unix s < 2 ^ 63 /\ - 2 ^ 63 <= m_oldest_this_update_unix s < 2 ^ 63 /\
  0 <= m_covered_certificates s < 2 ^ 64.

End SignedAge.

(** ** Certificate-chain claims *)

Module ChainClaims.

Record SerializableCertChainClaims : Type := mk_chain_claims {
  m_cert_expiration_date : string;
  m_cert_status : string;
  m_cert_ocsp_status : string;
  m_cert_revocation_reason : option string;
  m_ocsp_nonce_matches : bool;
  m_ocsp_response_valid : bool;
  m_ocsp_signed_age : option SignedAge.SerializableSignedAgeStatus;
}.

Definition default : SerializableCertChainClaims := mk_chain_claims "" "" "" None false false None.

Definition to_json (claims : SerializableCertChainClaims) : json :=
  jobject
    ([("x-nvidia-cert-expiration-date", JString (m_cert_expiration_date claims));
      ("x-nvidia-cert-status", JString (m_cert_status claims));
      ("x-nvidia-cert-ocsp-status", JString (m_cert_ocsp_status claims));
      ("x-nvidia-cert-revocation-reason",
        serialize_optional_shared_ptr JString (m_cert_revocation_reason claims));
      ("x-nvidia-cert-ocsp-nonce-matches", JBool (m_ocsp_nonce_matches claims));
      ("x-nvidia-cert-ocsp-response-valid", JBool (m_ocsp_response_valid claims))]
     ++ match m_ocsp_signed_age claims with
        | Some s => [("x-sol-cert-ocsp-signed-age", SignedAge.to_json s)]
        | None => []
        end).

Definition from_json (j : json) : res SerializableCertChainClaims :=
  let* expiration_date := let* v := jat j "x-nvidia-cert-expiration-date" in get_string v in
  let* cert_status := let* v := jat j "x-nvidia-cert-status" in get_string v in
  let* ocsp_status := let* v := jat j "x-nvidia-cert-ocsp-status" in get_string v in
  let* revocation_reason :=
    deserialize_optional_shared_ptr get_string j "x-nvidia-cert-revocation-reason" in
  let* nonce_matches :=
    if jcontains j "x-nvidia-cert-ocsp-nonce-matches"
    then let* v := jat j "x-nvidia-cert-ocsp-nonce-matches" in get_bool v else Ret true in
  let* response_valid :=
    if jcontains j "x-nvidia-cert-ocsp-response-valid"
    then let* v := jat j "x-nvidia-cert-ocsp-response-valid" in get_bool v else Ret true in
  let* signed_age :=
    if jcontains j "x-sol-cert-ocsp-signed-age"
    then let* v := jat j "x-sol-cert-ocsp-signed-age" in
         let* s := SignedAge.from_json v in Ret (Some s)
    else Ret None in
  Ret (mk_chain_claims expiration_date cert_status ocsp_status revocation_reason nonce_matches
         response_valid signed_age).

(** [operator==]: four of the seven members. *)
Definition eqb (lhs rhs : SerializableCertChainClaims) : bool :=
  bool_decide (m_cert_expiration_date lhs = m_cert_expiration_date rhs) &&
  bool_decide (m_cert_status lhs = m_cert_status rhs) &&
  bool_decide (m_cert_ocsp_status lhs = m_cert_ocsp_status rhs) &&
  compare_shared_ptr (m_cert_revocation_reason lhs) (m_cert_revocation_reason rhs).

Definition in_range (c : SerializableCertChainClaims) : Prop :=
  match m_ocsp_signed_age c with Some s => SignedAge.in_range s | None => True end.

End ChainClaims.

(** ** Measurement claims *)

Inductive SerializableMeasresClaim : Type := Success | Failure | NotRun | Absent.

#[global] Instance SerializableMeasresClaim_eq_dec : EqDecision SerializableMeasresClaim.
Proof. solve_decision. Defined.

Definition measres_table : list (SerializableMeasresClaim * string) :=
  [(Success, "success"); (Failure, "fail"); (NotRun, "not-run"); (Absent, "absent")].

Inductive MeasurementSource : Type := VBIOS | DRIVER.

#[global] Instance MeasurementSource_eq_dec : EqDecision MeasurementSource.
Proof. solve_decision. Defined.

Definition source_table : list (MeasurementSource * string) := [(VBIOS, "Firmware"); (DRIVER, "Driver")].

Module Mismatch.

Record SerializableMismatchedMeasurements : Type := mk_mismatch {
  m_index : Z;
  m_golden_size : Z;
  m_golden_value : string;
  m_runtime_size : Z;
  m_runtime_value : string;
  m_source : MeasurementSource;
}.

#[global] Instance mismatch_eq_dec : EqDecision SerializableMismatchedMeasurements.
Proof. solve_decision. Defined.

Definition to_json (m : SerializableMismatchedMeasurements) : json :=
  jobject
    [("index", JInt (m_index m));
     ("goldenSize", JInt (m_golden_size m));
     ("goldenValue", JString (m_golden_value m));
     ("runtimeSize", JInt (m_runtime_size m));
     ("runtimeValue", JString (m_runtime_value m));
     ("measurementSource", enum_to_json source_table (m_source m))].

Definition from_json (j : json) : res SerializableMismatchedMeasurements :=
  let* index := let* v := jat j "index" in get_uint32 v in
  let* golden_size := let* v := jat j "goldenSize" in get_uint32 v in
  let* golden_value := let* v := jat j "goldenValue" in get_string v in
  let* runtime_size := let* v := jat j "runtimeSize" in get_uint32 v in
  let* runtime_value := let* v := jat j "runtimeValue" in get_string v in
  let* source := let* v := jat j "measurementSource" in Ret (enum_from_json source_table VBIOS v) in
  Ret (mk_mismatch index golden_size golden_value runtime_size runtime_value source).

Definition eqb (lhs rhs : SerializableMismatchedMeasurements) : bool :=
  (m_index lhs =? m_index rhs) && (m_golden_size lhs =? m_golden_size rhs) &&
  bool_decide (m_golden_value lhs = m_golden_value rhs) &&
  (m_runtime_size lhs =? m_runtime_size rhs) &&
  bool_decide (m_runtime_value lhs = m_runtime_value rhs) &&
  bool_decide (m_source lhs = m_source rhs).

Definition in_range (m : SerializableMismatchedMeasurements) : Prop :=
  0 <= m_index m < 2 ^ 32 /\ 0 <= m_golden_size m < 2 ^ 32 /\ 0 <= m_runtime_size m < 2 ^ 32.

End Mismatch.

(** [NrasErrorClaim]. *)
Module NrasError.

Record NrasErrorClaim : Type := mk_nras_error {
  code : Z;
  http_status : string;
  description : string;
  message : string;
}.

Definition from_json (j : json) : res NrasErrorClaim :=
  let* code := let* v := jat j "code" in get_int v in
  let* http_status := let* v := jat j "httpStatus" in get_string v in
  let* description := let* v := jat j "description" in get_string v in
  let* message := let* v := jat j "message" in get_string v in
  Ret (mk_nras_error code http_status description message).

Definition to_json (e : NrasErrorClaim) : json :=
  jobject
    [("code", JInt (code e)); ("httpStatus", JString (http_status e));
     ("description", JString (description e)); ("message", JString (message e))].

End NrasError.

(** The members that hold an optional vector of mismatched measurements. *)
Definition mismatches_to_json (l : list Mismatch.SerializableMismatchedMeasurements) : json :=
  JArray (Mismatch.to_json <$> l).

(** ** GPU claims *)

Module GpuClaims.

Inductive GpuClaimsVersion : Type := V2 | V3.

#[global] Instance GpuClaimsVersion_eq_dec : EqDecision GpuClaimsVersion.
Proof. solve_decision. Defined.

Definition NVAT_GPU_CLAIMS_VERSION_V3 : Z := 3.

Definition version_to_string (version : GpuClaimsVersion) : string :=
  match version with V2 => "2.0" | V3 => "3.0" end.

Definition gpu_claims_version_from_c (value : Z) : res GpuClaimsVersion :=
  if value =? NVAT_GPU_CLAIMS_VERSION_V3 then Ret V3 else Err BadArgument.

Record SerializableGpuClaimsV3 : Type := mk_gpu_claims {
  m_nonce : string;
  m_hwmodel : string;
  m_ueid : string;
  m_oem_id : string;
  m_driver_version : string;
  m_vbios_version : string;
  m_gpu_switch_pdis : list string;
  m_measurements_matching : SerializableMeasresClaim;
  m_gpu_arch_match : bool;
  m_secure_boot : option bool;
  m_debug_status : option string;
  m_mismatched_measurements : option (list Mismatch.SerializableMismatchedMeasurements);
  m_ar_cert_chain : ChainClaims.SerializableCertChainClaims;
  m_ar_cert_chain_fwid_match : bool;
  m_ar_parsed : bool;
  m_gpu_ar_nonce_match : bool;
  m_ar_signature_verified : bool;
  m_driver_rim_fetched : bool;
  m_driver_rim_cert_chain : ChainClaims.SerializableCertChainClaims;
  m_driver_rim_signature_verified : bool;
  m_gpu_driver_rim_version_match : bool;
  m_driver_rim_measurements_available : bool;
  m_vbios_rim_fetched : bool;
  m_vbios_rim_cert_chain : ChainClaims.SerializableCertChainClaims;
  m_gpu_vbios_rim_version_match : bool;
  m_vbios_rim_signature_verified : bool;
  m_vbios_rim_measurements_available : bool;
  m_vbios_index_no_conflict : bool;
  m_mode : string;
  m_version : string;
}.

Definition to_json (c : SerializableGpuClaimsV3) : json :=
  jobject
    ([("eat_nonce", JString (m_nonce c));
      ("measres", enum_to_json measres_table (m_measurements_matching c));
      ("secboot", serialize_optional_shared_ptr JBool (m_secure_boot c));
      ("dbgstat", serialize_optional_shared_ptr JString (m_debug_status c));
      ("hwmodel", JString (m_hwmodel c));
      ("ueid", JString (m_ueid c));
      ("oemid", JString (m_oem_id c));
      ("x-nvidia-device-type", JString "gpu");
      ("x-nvidia-mismatch-measurement-records",
        serialize_optional_shared_ptr mismatches_to_json (m_mismatched_measurements c));
      ("x-nvidia-gpu-arch-check", JBool (m_gpu_arch_match c));
      ("x-nvidia-gpu-driver-version", JString (m_driver_version c));
      ("x-nvidia-gpu-vbios-version", JString (m_vbios_version c))]
     ++ (if bool_decide (m_gpu_switch_pdis c = []) then []
         else [("x-nvidia-gpu-switch-pdis", JArray (JString <$> m_gpu_switch_pdis c))])
     ++ [("x-nvidia-gpu-attestation-report-cert-chain", ChainClaims.to_json (m_ar_cert_chain c));
      ("x-nvidia-gpu-attestation-report-cert-chain-fwid-match", JBool (m_ar_cert_chain_fwid_match c));
      ("x-nvidia-gpu-attestation-report-parsed", JBool (m_ar_parsed c));
      ("x-nvidia-gpu-attestation-report-nonce-match", JBool (m_gpu_ar_nonce_match c));
      ("x-nvidia-gpu-attestation-report-signature-verified", JBool (m_ar_signature_verified c));
      ("x-nvidia-gpu-driver-rim-fetched", JBool (m_driver_rim_fetched c));
      ("x-nvidia-gpu-driver-rim-cert-chain", ChainClaims.to_json (m_driver_rim_cert_chain c));
      ("x-nvidia-gpu-driver-rim-signature-verified", JBool (m_driver_rim_signature_verified c));
      ("x-nvidia-gpu-driver-rim-version-match", JBool (m_gpu_driver_rim_version_match c));
      ("x-nvidia-gpu-driver-rim-measurements-available", JBool (m_driver_rim_measurements_available c));
      ("x-nvidia-gpu-vbios-rim-fetched", JBool (m_vbios_rim_fetched c));
      ("x-nvidia-gpu-vbios-rim-cert-chain", ChainClaims.to_json (m_vbios_rim_cert_chain c));
      ("x-nvidia-gpu-vbios-rim-version-match", JBool (m_gpu_vbios_rim_version_match c));
      ("x-nvidia-gpu-vbios-rim-signature-verified", JBool (m_vbios_rim_signature_verified c));
      ("x-nvidia-gpu-vbios-rim-measurements-available", JBool (m_vbios_rim_measurements_available c));
      ("x-nvidia-gpu-vbios-index-no-conflict", JBool (m_vbios_index_no_conflict c));
      ("x-nvidia-gpu-claims-version", JString "3.0")]).

(** [from_json] into a default-constructed object. *)
Definition from_json (js : json) : res SerializableGpuClaimsV3 :=
  let* nonce := let* v := jat js "eat_nonce" in get_string v in
  let* measres := let* v := jat js "measres" in Ret (enum_from_json measres_table Success v) in
  let* secure_boot := deserialize_optional_shared_ptr get_bool js "secboot" in
  let* debug_status := deserialize_optional_shared_ptr get_string js "dbgstat" in
  let* mismatched :=
    deserialize_optional_shared_ptr (get_vector Mismatch.from_json) js
      "x-nvidia-mismatch-measurement-records" in
  let* arch_match := let* v := jat js "x-nvidia-gpu-arch-check" in get_bool v in
  let* hwmodel := let* v := jat js "hwmodel" in get_string v in
  let* ueid := let* v := jat js "ueid" in get_string v in
  let* oem_id := let* v := jat js "oemid" in get_string v in
  let* driver_version := let* v := jat js "x-nvidia-gpu-driver-version" in get_string v in
  let* vbios_version := let* v := jat js "x-nvidia-gpu-vbios-version" in get_string v in
  let* pdis :=
    if jcontains js "x-nvidia-gpu-switch-pdis"
    then let* v := jat js "x-nvidia-gpu-switch-pdis" in get_vector get_string v else Ret [] in
  let* ar_chain := let* v := jat js "x-nvidia-gpu-attestation-report-cert-chain" in ChainClaims.from_json v in
  let* fwid_match := let* v := jat js "x-nvidia-gpu-attestation-report-cert-chain-fwid-match" in get_bool v in
  let* ar_parsed := let* v := jat js "x-nvidia-gpu-attestation-report-parsed" in get_bool v in
  let* nonce_match := let* v := jat js "x-nvidia-gpu-attestation-report-nonce-match" in get_bool v in
  let* ar_verified := let* v := jat js "x-nvidia-gpu-attestation-report-signature-verified" in get_bool v in
  let* d_fetched := let* v := jat js "x-nvidia-gpu-driver-rim-fetched" in get_bool v in
  let* d_chain := let* v := jat js "x-nvidia-gpu-driver-rim-cert-chain" in ChainClaims.from_json v in
  let* d_verified := let* v := jat js "x-nvidia-gpu-driver-rim-signature-verified" in get_bool v in
  let* d_version := let* v := jat js "x-nvidia-gpu-driver-rim-version-match" in get_bool v in
  let* d_meas := let* v := jat js "x-nvidia-gpu-driver-rim-measurements-available" in get_bool v in
  let* v_fetched := let* v := jat js "x-nvidia-gpu-vbios-rim-fetched" in get_bool v in
  let* v_chain := let* v := jat js "x-nvidia-gpu-vbios-rim-cert-chain" in ChainClaims.from_json v in
  let* v_version := let* v := jat js "x-nvidia-gpu-vbios-rim-version-match" in get_bool v in
  let* v_verified := let* v := jat js "x-nvidia-gpu-vbios-rim-signature-verified" in get_bool v in
  let* v_meas := let* v := jat js "x-nvidia-gpu-vbios-rim-measurements-available" in get_bool v in
  let* no_conflict := let* v := jat js "x-nvidia-gpu-vbios-index-no-conflict" in get_bool v in
  Ret (mk_gpu_claims nonce hwmodel ueid oem_id driver_version vbios_version pdis measres arch_match
         secure_boot debug_status mismatched ar_chain fwid_match ar_parsed nonce_match ar_verified
         d_fetched d_chain d_verified d_version d_meas v_fetched v_chain v_version v_verified v_meas
         no_conflict "" "3.0").

(** [operator==]; [m_mode] is not compared. *)
Definition eqb (lhs rhs : SerializableGpuClaimsV3) : bool :=
  bool_decide (m_nonce lhs = m_nonce rhs) && bool_decide (m_hwmodel lhs = m_hwmodel rhs) &&
  bool_decide (m_ueid lhs = m_ueid rhs) && bool_decide (m_oem_id lhs = m_oem_id rhs) &&
  bool_decide (m_measurements_matching lhs = m_measurements_matching rhs) &&
  Bool.eqb (m_gpu_arch_match lhs) (m_gpu_arch_match rhs) &&
  compare_shared_ptr (m_secure_boot lhs) (m_secure_boot rhs) &&
  compare_shared_ptr (m_debug_status lhs) (m_debug_status rhs) &&
  compare_shared_ptr (m_mismatched_measurements lhs) (m_mismatched_measurements rhs) &&
  bool_decide (m_driver_version lhs = m_driver_version rhs) &&
  bool_decide (m_vbios_version lhs = m_vbios_version rhs) &&
  bool_decide (m_gpu_switch_pdis lhs = m_gpu_switch_pdis rhs) &&
  ChainClaims.eqb (m_ar_cert_chain lhs) (m_ar_cert_chain rhs) &&
  Bool.eqb (m_ar_cert_chain_fwid_match lhs) (m_ar_cert_chain_fwid_match rhs) &&
  Bool.eqb (m_ar_parsed lhs) (m_ar_parsed rhs) &&
  Bool.eqb (m_gpu_ar_nonce_match lhs) (m_gpu_ar_nonce_match rhs) &&
  Bool.eqb (m_ar_signature_verified lhs) (m_ar_signature_verified rhs) &&
  Bool.eqb (m_driver_rim_fetched lhs) (m_driver_rim_fetched rhs) &&
  ChainClaims.eqb (m_driver_rim_cert_chain lhs) (m_driver_rim_cert_chain rhs) &&
  Bool.eqb (m_driver_rim_signature_verified lhs) (m_driver_rim_signature_verified rhs) &&
  Bool.eqb (m_gpu_driver_rim_version_match lhs) (m_gpu_driver_rim_version_match rhs) &&
  Bool.eqb (m_driver_rim_measurements_available lhs) (m_driver_rim_measurements_available rhs) &&
  Bool.eqb (m_vbios_rim_fetched lhs) (m_vbios_rim_fetched rhs) &&
  ChainClaims.eqb (m_vbios_rim_cert_chain lhs) (m_vbios_rim_cert_chain rhs) &&
  Bool.eqb (m_gpu_vbios_rim_version_match lhs) (m_gpu_vbios_rim_version_match rhs) &&
  Bool.eqb (m_vbios_rim_signature_verified lhs) (m_vbios_rim_signature_verified rhs) &&
  Bool.eqb (m_vbios_rim_measurements_available lhs) (m_vbios_rim_measurements_available rhs) &&
  Bool.eqb (m_vbios_index_no_conflict lhs) (m_vbios_index_no_conflict rhs) &&
  bool_decide (m_version lhs = m_version rhs).

(** The default constructor. *)
Definition default : SerializableGpuClaimsV3 :=
  mk_gpu_claims "" "" "" "" "" "" [] Failure false None None None ChainClaims.default false false
    false false false ChainClaims.default false false false false ChainClaims.default false false
    false false "" "3.0".

(** The claims JSON can carry: the widths of the numbers, and what [from_json]
    fixes. *)
Definition in_range (c : SerializableGpuClaimsV3) : Prop :=
  ChainClaims.in_range (m_ar_cert_chain c) /\ ChainClaims.in_range (m_driver_rim_cert_chain c) /\
  ChainClaims.in_range (m_vbios_rim_cert_chain c) /\
  match m_mismatched_measurements c with Some l => Forall Mismatch.in_range l | None => True end /\
  m_version c = "3.0".

(** The same claims with the mode of a new object: what remains of claims in
    their JSON, since [to_json] does not write the mode (claims.cpp:193). *)
Definition without_mode (c : SerializableGpuClaimsV3) : SerializableGpuClaimsV3 :=
  mk_gpu_claims (m_nonce c) (m_hwmodel c) (m_ueid c) (m_oem_id c) (m_driver_version c) (m_vbios_version c)
    (m_gpu_switch_pdis c) (m_measurements_matching c) (m_gpu_arch_match c) (m_secure_boot c) (m_debug_status c)
    (m_mismatched_measurements c) (m_ar_cert_chain c) (m_ar_cert_chain_fwid_match c) (m_ar_parsed c)
    (m_gpu_ar_nonce_match c) (m_ar_signature_verified c) (m_driver_rim_fetched c) (m_driver_rim_cert_chain c)
    (m_driver_rim_signature_verified c) (m_gpu_driver_rim_version_match c) (m_driver_rim_measurements_available c)
    (m_vbios_rim_fetched c) (m_vbios_rim_cert_chain c) (m_gpu_vbios_rim_version_match c)
    (m_vbios_rim_signature_verified c) (m_vbios_rim_measurements_available c) (m_vbios_index_no_conflict c)
    "" (m_version c).

End GpuClaims.

(** ** Switch claims *)

Module SwitchClaims.

Inductive SwitchClaimsVersion : Type := V3.

Definition NVAT_SWITCH_CLAIMS_VERSION_V3 : Z := 3.

Definition version_to_string (claims_version : SwitchClaimsVersion) : string :=
  match claims_version with V3 => "3.0" end.

Definition switch_claims_version_from_c (value : Z) : res SwitchClaimsVersion :=
  if value =? NVAT_SWITCH_CLAIMS_VERSION_V3 then Ret V3 else Err BadArgument.

Record SerializableSwitchClaimsV3 : Type := mk_switch_claims {
  m_nonce : string;
  m_hwmodel : string;
  m_ueid : string;
  m_measurements_matching : SerializableMeasresClaim;
  m_secure_boot : option bool;
  m_debug_status : option string;
  m_mismatched_measurements : option (list Mismatch.SerializableMismatchedMeasurements);
  m_switch_arch_match : bool;
  m_switch_ar_nonce_match : bool;
  m_switch_bios_version : string;
  m_switch_pdi : string;
  m_switch_gpu_pdis : list string;
  m_ar_cert_chain_claims : ChainClaims.SerializableCertChainClaims;
  m_ar_cert_chain_fwid_match : bool;
  m_ar_parsed : bool;
  m_ar_signature_verified : bool;
  m_bios_rim_fetched : bool;
  m_bios_rim_cert_chain : ChainClaims.SerializableCertChainClaims;
  m_bios_rim_signature_verified : bool;
  m_switch_bios_rim_version_match : bool;
  m_bios_rim_measurements_available : bool;
  m_version : string;
}.

Definition to_json (c : SerializableSwitchClaimsV3) : json :=
  jobject
    ([("eat_nonce", JString (m_nonce c));
      ("measres", enum_to_json measres_table (m_measurements_matching c));
      ("secboot", serialize_optional_shared_ptr JBool (m_secure_boot c));
      ("dbgstat", serialize_optional_shared_ptr JString (m_debug_status c));
      ("x-nvidia-device-type", JString "nvswitch");
      ("x-nvidia-mismatch-measurement-records",
        serialize_optional_shared_ptr mismatches_to_json (m_mismatched_measurements c));
      ("hwmodel", JString (m_hwmodel c));
      ("ueid", JString (m_ueid c));
      ("x-nvidia-switch-arch-check", JBool (m_switch_arch_match c));
      ("x-nvidia-switch-bios-version", JString (m_switch_bios_version c))]
     ++ (if bool_decide (m_switch_pdi c = "") then []
         else [("x-nvidia-switch-pdi", JString (m_switch_pdi c))])
     ++ (if bool_decide (m_switch_gpu_pdis c = []) then []
         else [("x-nvidia-switch-gpu-pdis", JArray (JString <$> m_switch_gpu_pdis c))])
     ++ [("x-nvidia-switch-attestation-report-cert-chain", ChainClaims.to_json (m_ar_cert_chain_claims c));
      ("x-nvidia-switch-attestation-report-cert-chain-fwid-match", JBool (m_ar_cert_chain_fwid_match c));
      ("x-nvidia-switch-attestation-report-parsed", JBool (m_ar_parsed c));
      ("x-nvidia-switch-attestation-report-nonce-match", JBool (m_switch_ar_nonce_match c));
      ("x-nvidia-switch-attestation-report-signature-verified", JBool (m_ar_signature_verified c));
      ("x-nvidia-switch-bios-rim-fetched", JBool (m_bios_rim_fetched c));
      ("x-nvidia-switch-bios-rim-cert-chain", ChainClaims.to_json (m_bios_rim_cert_chain c));
      ("x-nvidia-switch-bios-rim-signature-verified", JBool (m_bios_rim_signature_verified c));
      ("x-nvidia-switch-bios-rim-version-match", JBool (m_switch_bios_rim_version_match c));
      ("x-nvidia-switch-bios-rim-measurements-available", JBool (m_bios_rim_measurements_available c));
      ("x-nvidia-version", JString "3.0")]).

Definition from_json (js : json) : res SerializableSwitchClaimsV3 :=
  let* nonce := let* v := jat js "eat_nonce" in get_string v in
  let* measres := let* v := jat js "measres" in Ret (enum_from_json measres_table Success v) in
  let* secure_boot := deserialize_optional_shared_ptr get_bool js "secboot" in
  let* debug_status := deserialize_optional_shared_ptr get_string js "dbgstat" in
  let* mismatched :=
    deserialize_optional_shared_ptr (get_vector Mismatch.from_json) js
      "x-nvidia-mismatch-measurement-records" in
  let* hwmodel := let* v := jat js "hwmodel" in get_string v in
  let* ueid := let* v := jat js "ueid" in get_string v in
  let* arch_match := let* v := jat js "x-nvidia-switch-arch-check" in get_bool v in
  let* bios_version := let* v := jat js "x-nvidia-switch-bios-version" in get_string v in
  let* pdi :=
    if jcontains js "x-nvidia-switch-pdi"
    then let* v := jat js "x-nvidia-switch-pdi" in get_string v else Ret "" in
  let* gpu_pdis :=
    if jcontains js "x-nvidia-switch-gpu-pdis"
    then let* v := jat js "x-nvidia-switch-gpu-pdis" in get_vector get_string v else Ret [] in
  let* ar_chain := let* v := jat js "x-nvidia-switch-attestation-report-cert-chain" in ChainClaims.from_json v in
  let* fwid_match := let* v := jat js "x-nvidia-switch-attestation-report-cert-chain-fwid-match" in get_bool v in
  let* ar_parsed := let* v := jat js "x-nvidia-switch-attestation-report-parsed" in get_bool v in
  let* nonce_match := let* v := jat js "x-nvidia-switch-attestation-report-nonce-match" in get_bool v in
  let* ar_verified := let* v := jat js "x-nvidia-switch-attestation-report-signature-verified" in get_bool v in
  let* b_fetched := let* v := jat js "x-nvidia-switch-bios-rim-fetched" in get_bool v in
  let* b_chain := let* v := jat js "x-nvidia-switch-bios-rim-cert-chain" in ChainClaims.from_json v in
  let* b_verified := let* v := jat js "x-nvidia-switch-bios-rim-signature-verified" in get_bool v in
  let* b_version := let* v := jat js "x-nvidia-switch-bios-rim-version-match" in get_bool v in
  let* b_meas := let* v := jat js "x-nvidia-switch-bios-rim-measurements-available" in get_bool v in
  Ret (mk_switch_claims nonce hwmodel ueid measres secure_boot debug_status mismatched arch_match
         nonce_match bios_version pdi gpu_pdis ar_chain fwid_match ar_parsed ar_verified b_fetched
         b_chain b_verified b_version b_meas "3.0").

Definition eqb (lhs rhs : SerializableSwitchClaimsV3) : bool :=
  bool_decide (m_nonce lhs = m_nonce rhs) && bool_decide (m_hwmodel lhs = m_hwmodel rhs) &&
  bool_decide (m_ueid lhs = m_ueid rhs) &&
  bool_decide (m_measurements_matching lhs = m_measurements_matching rhs) &&
  compare_shared_ptr (m_secure_boot lhs) (m_secure_boot rhs) &&
  compare_shared_ptr (m_debug_status lhs) (m_debug_status rhs) &&
  compare_shared_ptr (m_mismatched_measurements lhs) (m_mismatched_measurements rhs) &&
  Bool.eqb (m_switch_arch_match lhs) (m_switch_arch_match rhs) &&
  Bool.eqb (m_switch_ar_nonce_match lhs) (m_switch_ar_nonce_match rhs) &&
  bool_decide (m_switch_bios_version lhs = m_switch_bios_version rhs) &&
  bool_decide (m_switch_pdi lhs = m_switch_pdi rhs) &&
  bool_decide (m_switch_gpu_pdis lhs = m_switch_gpu_pdis rhs) &&
  ChainClaims.eqb (m_ar_cert_chain_claims lhs) (m_ar_cert_chain_claims rhs) &&
  Bool.eqb (m_ar_cert_chain_fwid_match lhs) (m_ar_cert_chain_fwid_match rhs) &&
  Bool.eqb (m_ar_parsed lhs) (m_ar_parsed rhs) &&
  Bool.eqb (m_ar_signature_verified lhs) (m_ar_signature_verified rhs) &&
  Bool.eqb (m_bios_rim_fetched lhs) (m_bios_rim_fetched rhs) &&
  ChainClaims.eqb (m_bios_rim_cert_chain lhs) (m_bios_rim_cert_chain rhs) &&
  Bool.eqb (m_bios_rim_signature_verified lhs) (m_bios_rim_signature_verified rhs) &&
  Bool.eqb (m_switch_bios_rim_version_match lhs) (m_switch_bios_rim_version_match rhs) &&
  Bool.eqb (m_bios_rim_measurements_available lhs) (m_bios_rim_measurements_available rhs) &&
  bool_decide (m_version lhs = m_version rhs).

Definition default : SerializableSwitchClaimsV3 :=
  mk_switch_claims "" "" "" Failure None None None false false "" "" [] ChainClaims.default false
    false false false ChainClaims.default false false false "3.0".

Definition in_range (c : SerializableSwitchClaimsV3) : Prop :=
  ChainClaims.in_range (m_ar_cert_chain_claims c) /\ ChainClaims.in_range (m_bios_rim_cert_chain c) /\
  match m_mismatched_measurements c with Some l => Forall Mismatch.in_range l | None => True end /\
  m_version c = "3.0".

End SwitchClaims.

(** ** Collections of claims *)

Module Collection.

(** A [shared_ptr<Claims>]: the two classes that implement the interface. *)
Inductive Claims : Type :=
| Gpu (c : GpuClaims.SerializableGpuClaimsV3)
| Switch (c : SwitchClaims.SerializableSwitchClaimsV3).

Definition get_nonce (c : Claims) : string :=
  match c with Gpu c => GpuClaims.m_nonce c | Switch c => SwitchClaims.m_nonce c end.

Definition get_version (c : Claims) : string :=
  match c with Gpu c => GpuClaims.m_version c | Switch c => SwitchClaims.m_version c end.

Definition get_device_type (c : Claims) : string :=
  match c with Gpu _ => "gpu" | Switch _ => "switch" end.

Definition to_json_object (c : Claims) : json :=
  match c with Gpu c => GpuClaims.to_json c | Switch c => SwitchClaims.to_json c end.

(** What a claims object keeps in its JSON. *)
Definition without_mode (c : Claims) : Claims :=
  match c with Gpu c => Gpu (GpuClaims.without_mode c) | Switch c => Switch c end.

Abbreviation ClaimsCollection := (list Claims).

Definition to_json (claims : ClaimsCollection) : json := JArray (to_json_object <$> claims).

(** [serialize_json]; [dump] is the library's printer, [None] when it throws. *)
Definition serialize_json (dump : json -> option string) (claims : ClaimsCollection) : res string :=
  match dump (to_json claims) with Some text => Ret text | None => Err InternalError end.

Definition extend (claims other : ClaimsCollection) : ClaimsCollection := claims ++ other.
Definition append (claims : ClaimsCollection) (c : Claims) : ClaimsCollection := claims ++ [c].
Definition empty (claims : ClaimsCollection) : bool := bool_decide (claims = []).
Definition size (claims : ClaimsCollection) : Z := zlen claims.

End Collection.

(** ** Lemmas: reading back what was written *)

Lemma swrap_in w z : 0 < w -> - 2 ^ (w - 1) <= z < 2 ^ (w - 1) -> swrap w z = z.
Proof.
  intros Hw Hz. unfold swrap.
  assert (2 ^ w = 2 * 2 ^ (w - 1)) by (rewrite <- Z.pow_succ_r by lia; f_equal; lia).
  rewrite Z.mod_small; lia.
Qed.

Lemma signed_age_round s : SignedAge.in_range s -> SignedAge.from_json (SignedAge.to_json s) = Ret s.
Proof.
  intros (H1 & H2 & H3 & H4 & H5). destruct s as [v vt dl ol n]. cbn in *.
  unfold SignedAge.from_json, SignedAge.to_json. lazy -[swrap wrap].
  rewrite !swrap_in, wrap_small by (done || lia). done.
Qed.

Lemma chain_claims_round c : ChainClaims.in_range c -> ChainClaims.from_json (ChainClaims.to_json c) = Ret c.
Proof.
  destruct c as [d s o r n v [a|]]; unfold ChainClaims.in_range; cbn [ChainClaims.m_ocsp_signed_age].
  - intros Ha. unfold ChainClaims.from_json, ChainClaims.to_json.
    lazy -[SignedAge.from_json SignedAge.to_json]. rewrite signed_age_round by done.
    by destruct r.
  - intros _. by destruct r.
Qed.

Lemma mismatch_round m : Mismatch.in_range m -> Mismatch.from_json (Mismatch.to_json m) = Ret m.
Proof.
  intros (H1 & H2 & H3). destruct m as [i gs gv rs rv src]. cbn in *.
  unfold Mismatch.from_json, Mismatch.to_json. lazy -[wrap].
  rewrite !wrap_small by done. by destruct src.
Qed.

Lemma mismatches_round l :
  Forall Mismatch.in_range l -> get_vector Mismatch.from_json (mismatches_to_json l) = Ret l.
Proof.
  intros Hl. apply omap_list_round. eapply Forall_impl; [exact Hl|]. apply mismatch_round.
Qed.

Lemma strings_round l : omap_list get_string (JString <$> l) = Ret l.
Proof. apply omap_list_round. by apply Forall_true. Qed.

Lemma mismatch_list_round l :
  Forall Mismatch.in_range l -> omap_list Mismatch.from_json (Mismatch.to_json <$> l) = Ret l.
Proof. apply mismatches_round. Qed.

Lemma measres_round m :
  enum_from_json measres_table Success (enum_to_json measres_table m) = m.
Proof. by destruct m. Qed.

Ltac claims_round :=
  lazy -[ChainClaims.to_json ChainClaims.from_json omap_list fmap list_fmap enum_to_json enum_from_json
         measres_table serialize_optional_shared_ptr Mismatch.to_json Mismatch.from_json get_string];
  rewrite ?measres_round, ?strings_round, ?chain_claims_round by done.

Ltac optional_round sb dbg mis :=
  destruct sb, dbg, mis; cbn [serialize_optional_shared_ptr mismatches_to_json];
  rewrite ?mismatch_list_round by done; done.

Lemma gpu_json_round (c : GpuClaims.SerializableGpuClaimsV3) :
  GpuClaims.in_range c -> GpuClaims.from_json (GpuClaims.to_json c) = Ret (GpuClaims.without_mode c).
Proof.
  intros (Ha & Hd & Hv & Hm & Hver).
  destruct c as [? ? ? ? ? ? pdis me ? sb dbg mis ? ? ? ? ? ? ? ? ? ? ? ? ? ? ? ? ? ?].
  cbn in Ha, Hd, Hv, Hm, Hver. subst.
  destruct pdis; claims_round; optional_round sb dbg mis.
Qed.

Lemma switch_json_round (c : SwitchClaims.SerializableSwitchClaimsV3) :
  SwitchClaims.in_range c -> SwitchClaims.from_json (SwitchClaims.to_json c) = Ret c.
Proof.
  intros (Ha & Hb & Hm & Hver).
  destruct c as [? ? ? me sb dbg mis ? ? ? pdi pdis ? ? ? ? ? ? ? ? ? ?].
  cbn in Ha, Hb, Hm, Hver. subst.
  destruct pdi, pdis; claims_round; optional_round sb dbg mis.
Qed.

(** ** Properties *)

(** C40: reading back the JSON of GPU claims gives the claims but for the mode:
    every other member survives, the optional ones too, when the numbers fit
    their widths and the version is that of the class; the mode, which the
    verifier sets (gpu/verify.cpp:414), is not written and reads back as
    empty. *)
Theorem gpu_claims_roundtrip (c : GpuClaims.SerializableGpuClaimsV3) :
  GpuClaims.in_range c -> GpuClaims.from_json (GpuClaims.to_json c) = Ret (GpuClaims.without_mode c).
Proof. apply gpu_json_round. Qed.

Example gpu_claims_roundtrip_witness :
  let c := GpuClaims.mk_gpu_claims "ab" "GH100" "77" "5703" "550.1" "96.0" ["p1"; "p2"] Failure true
    (Some true) (Some "disabled") (Some [Mismatch.mk_mismatch 3 48 "aa" 48 "bb" DRIVER])
    (ChainClaims.mk_chain_claims "2026-01-01" "valid" "good" None true true
       (Some (SignedAge.mk_status 1 1700000000 1700086400 1699990000 4)))
    true true true true true ChainClaims.default true true true true ChainClaims.default true true
    true true "SPT" "3.0" in
  GpuClaims.from_json (GpuClaims.to_json c) = Ret (GpuClaims.without_mode c).
Proof.
  cbv zeta. apply gpu_claims_roundtrip. split; [repeat split; by vm_compute|].
  split; [done|]. split; [done|]. split; [|done].
  constructor; [|constructor]. repeat split; by vm_compute.
Defined.

(** P: reading back the JSON of switch claims gives the claims, the port
    identifiers that are left out when empty included. *)
Theorem switch_claims_roundtrip (c : SwitchClaims.SerializableSwitchClaimsV3) :
  SwitchClaims.in_range c -> SwitchClaims.from_json (SwitchClaims.to_json c) = Ret c.
Proof. apply switch_json_round. Qed.

Example switch_claims_roundtrip_witness :
  let c := SwitchClaims.mk_switch_claims "ab" "LS10" "88" Success None (Some "enabled") (Some [])
    true true "96.10" "dead" ["p1"] ChainClaims.default true true true true
    (ChainClaims.mk_chain_claims "2026-01-01" "revoked" "revoked" (Some "keyCompromise") true true None)
    true true false "3.0" in
  SwitchClaims.from_json (SwitchClaims.to_json c) = Ret c.
Proof.
  cbv zeta. apply switch_claims_roundtrip.
  split; [done|]. split; [done|]. split; [constructor|done].
Defined.

(** P: [operator==] on certificate-chain claims does not look at the OCSP
    nonce, the validity of the OCSP response or the signed-age status: claims
    that agree on the other four members are equal to it, and these four are
    what equality decides. *)
Theorem chain_claims_equality (c d : ChainClaims.SerializableCertChainClaims) :
  ChainClaims.eqb c d = true <->
  ChainClaims.m_cert_expiration_date c = ChainClaims.m_cert_expiration_date d /\
  ChainClaims.m_cert_status c = ChainClaims.m_cert_status d /\
  ChainClaims.m_cert_ocsp_status c = ChainClaims.m_cert_ocsp_status d /\
  ChainClaims.m_cert_revocation_reason c = ChainClaims.m_cert_revocation_reason d.
Proof.
  unfold ChainClaims.eqb. rewrite !andb_true_iff, !bool_decide_eq_true.
  rewrite compare_shared_ptr_spec. tauto.
Qed.
