(* ===== verification/Evaluator.v ===== *)
(** * Evaluator: the overall-result policy and its evaluator

    src/claims_evaluator.cpp.  The text of the overall-result policy is a
    source of this repository; its rules are translated into boolean functions
    on JSON values, with Rego's undefined values as [None].  The Rego engine
    and the JSON text functions are parameters of the evaluator. *)

From S2P Require Import Prelude Errors Utils Json OpenSsl NvCache Ocsp X509Chain Claims.

(** ** The overall-result policy *)

Module Policy.

(** [e == "s"], [e == b], [e == n] on a possibly undefined value. *)
Definition is_string (e : option json) (s : string) : bool :=
  match e with Some (JString t) => String.eqb t s | _ => false end.

Definition is_bool (e : option json) (b : bool) : bool :=
  match e with Some (JBool c) => Bool.eqb c b | _ => false end.

Definition is_int (e : option json) (n : Z) : bool :=
  match e with Some (JInt m) => m =? n | _ => false end.

(** [not e]: [e] is undefined or false. *)
Definition rego_not (e : option json) : bool :=
  match e with None | Some (JBool false) => true | _ => false end.

(** Rego orders values of different types by their type. *)
Definition rego_rank (j : json) : Z :=
  match j with
  | JNull => 0 | JBool _ => 1 | JInt _ => 2 | JString _ => 3 | JArray _ => 4 | JObject _ => 5
  end.

(** [a > b]; within a type, on numbers, booleans and strings (the claims carry
    numbers here). *)
Definition rego_gt (a b : option json) : bool :=
  match a, b with
  | Some (JInt m), Some (JInt n) => n <? m
  | Some (JBool m), Some (JBool n) => m && negb n
  | Some (JString m), Some (JString n) => String.ltb n m
  | Some a, Some b => rego_rank b <? rego_rank a
  | _, _ => false
  end.

Definition check_cert_chain_status_freshness (cert_chain : json) : bool :=
  (is_bool (jfield cert_chain "x-nvidia-cert-ocsp-nonce-matches") true &&
   rego_not (jfield cert_chain "x-sol-cert-ocsp-signed-age")) ||
  (is_bool (jfield cert_chain "x-nvidia-cert-ocsp-nonce-matches") false &&
   match jfield cert_chain "x-sol-cert-ocsp-signed-age" with
   | Some signed_age =>
       is_int (jfield signed_age "version") 1 && is_string (jfield signed_age "mode") "signed-age" &&
       rego_gt (jfield signed_age "covered_certificates") (Some (JInt 0)) &&
       rego_gt (jfield signed_age "status_deadline_unix") (jfield signed_age "verification_time_unix")
   | None => false
   end).

(** The body of the five rules [check_*_cert_chain]. *)
Definition check_cert_chain (claims : json) (key : string) : bool :=
  match jfield claims key with
  | Some cert_chain =>
      is_string (jfield cert_chain "x-nvidia-cert-status") "valid" &&
      is_string (jfield cert_chain "x-nvidia-cert-ocsp-status") "good" &&
      is_bool (jfield cert_chain "x-nvidia-cert-ocsp-response-valid") true &&
      check_cert_chain_status_freshness cert_chain
  | None => false
  end.

Definition check_measurements_match (claims : json) : bool :=
  is_string (jfield claims "measres") "success".

Definition validate_gpu_claims (claims : json) : bool :=
  check_measurements_match claims &&
  check_cert_chain claims "x-nvidia-gpu-attestation-report-cert-chain" &&
  check_cert_chain claims "x-nvidia-gpu-driver-rim-cert-chain" &&
  check_cert_chain claims "x-nvidia-gpu-vbios-rim-cert-chain".

Definition validate_switch_claims (claims : json) : bool :=
  check_measurements_match claims &&
  check_cert_chain claims "x-nvidia-switch-attestation-report-cert-chain" &&
  check_cert_chain claims "x-nvidia-switch-bios-rim-cert-chain".

Definition validate_claim_by_device_type (claim : json) : bool :=
  (is_string (jfield claim "x-nvidia-device-type") "gpu" && validate_gpu_claims claim) ||
  (is_string (jfield claim "x-nvidia-device-type") "nvswitch" && validate_switch_claims claim).

(** [nv_match] on an array of claims. *)
Definition nv_match (input : list json) : bool :=
  (0 <? zlen input) && forallb validate_claim_by_device_type input.

(** *** What the policy asks of claims *)

Definition chain_fresh (c : ChainClaims.SerializableCertChainClaims) : Prop :=
  match ChainClaims.m_ocsp_signed_age c with
  | None => ChainClaims.m_ocsp_nonce_matches c = true
  | Some s =>
      ChainClaims.m_ocsp_nonce_matches c = false /\ SignedAge.m_version s = 1 /\
      0 < SignedAge.m_covered_certificates s /\
      SignedAge.m_verification_time_unix s < SignedAge.m_status_deadline_unix s
  end.

Definition chain_good (c : ChainClaims.SerializableCertChainClaims) : Prop :=
  ChainClaims.m_cert_status c = "valid" /\ ChainClaims.m_cert_ocsp_status c = "good" /\
  ChainClaims.m_ocsp_response_valid c = true /\ chain_fresh c.

Definition device_good (c : Collection.Claims) : Prop :=
  match c with
  | Collection.Gpu g =>
      GpuClaims.m_measurements_matching g = Success /\ chain_good (GpuClaims.m_ar_cert_chain g) /\
      chain_good (GpuClaims.m_driver_rim_cert_chain g) /\ chain_good (GpuClaims.m_vbios_rim_cert_chain g)
  | Collection.Switch s =>
      SwitchClaims.m_measurements_matching s = Success /\
      chain_good (SwitchClaims.m_ar_cert_chain_claims s) /\
      chain_good (SwitchClaims.m_bios_rim_cert_chain s)
  end.

End Policy.

(** ** The evaluator *)

Module RegoClaimsEvaluator.

Definition ENTRYPOINT : string := "data.policy.nv_match".

(** [json.at("result").at(0).at("expressions").at(0).at("value")] read as a
    [bool]. *)
Definition result_value (answer : json) : res bool :=
  let* result := jat answer "result" in
  let* first := jat_index result 0 in
  let* expressions := jat first "expressions" in
  let* expression := jat_index expressions 0 in
  let* value := jat expression "value" in
  get_bool value.

(** [evaluate_claims]: [dump] and [parse] are the library's text functions
    ([None] when they throw), [evaluate_policy] the engine ([None] is the null
    pointer). *)
Definition evaluate_claims (dump : json -> option string) (parse : string -> option json)
    (evaluate_policy : string -> string -> string -> option string) (m_policy : string)
    (claims : Collection.ClaimsCollection) : res bool :=
  let* text := Collection.serialize_json dump claims in
  match evaluate_policy m_policy text ENTRYPOINT with
  | None => Err PolicyEvaluationError
  | Some evaluation_result =>
      match
        match parse evaluation_result with
        | None => Throw json_exception
        | Some answer => result_value answer
        end
      with
      | Throw _ => Ret false
      | r => r
      end
  end.

End RegoClaimsEvaluator.

(** ** Lemmas *)

Lemma chain_fields (c : ChainClaims.SerializableCertChainClaims) :
  jfield (ChainClaims.to_json c) "x-nvidia-cert-status" = Some (JString (ChainClaims.m_cert_status c)) /\
  jfield (ChainClaims.to_json c) "x-nvidia-cert-ocsp-status" =
    Some (JString (ChainClaims.m_cert_ocsp_status c)) /\
  jfield (ChainClaims.to_json c) "x-nvidia-cert-ocsp-response-valid" =
    Some (JBool (ChainClaims.m_ocsp_response_valid c)) /\
  jfield (ChainClaims.to_json c) "x-nvidia-cert-ocsp-nonce-matches" =
    Some (JBool (ChainClaims.m_ocsp_nonce_matches c)) /\
  jfield (ChainClaims.to_json c) "x-sol-cert-ocsp-signed-age" =
    SignedAge.to_json <$> ChainClaims.m_ocsp_signed_age c.
Proof. by destruct c as [? ? ? ? ? ? [a|]]. Qed.

Lemma signed_age_fields (s : SignedAge.SerializableSignedAgeStatus) :
  jfield (SignedAge.to_json s) "version" = Some (JInt (SignedAge.m_version s)) /\
  jfield (SignedAge.to_json s) "mode" = Some (JString "signed-age") /\
  jfield (SignedAge.to_json s) "covered_certificates" =
    Some (JInt (SignedAge.m_covered_certificates s)) /\
  jfield (SignedAge.to_json s) "status_deadline_unix" =
    Some (JInt (SignedAge.m_status_deadline_unix s)) /\
  jfield (SignedAge.to_json s) "verification_time_unix" =
    Some (JInt (SignedAge.m_verification_time_unix s)).
Proof. done. Qed.

Lemma freshness_json (c : ChainClaims.SerializableCertChainClaims) :
  Policy.check_cert_chain_status_freshness (ChainClaims.to_json c) = true <-> Policy.chain_fresh c.
Proof.
  unfold Policy.check_cert_chain_status_freshness, Policy.chain_fresh.
  destruct (chain_fields c) as (_ & _ & _ & -> & ->).
  destruct (ChainClaims.m_ocsp_signed_age c) as [s|]; cbn [fmap option_fmap option_map].
  - destruct (signed_age_fields s) as (-> & -> & -> & -> & ->).
    change (Policy.rego_not (Some (SignedAge.to_json s))) with false.
    cbn [Policy.is_int Policy.is_string Policy.is_bool Policy.rego_gt].
    rewrite andb_false_r, orb_false_l, String.eqb_refl, !andb_true_iff, Z.eqb_eq, !Z.ltb_lt.
    rewrite Bool.eqb_true_iff. tauto.
  - cbn. rewrite andb_true_r, andb_false_r, orb_false_r, Bool.eqb_true_iff. done.
Qed.

Lemma chain_json_good key (fs : json) (c : ChainClaims.SerializableCertChainClaims) :
  jfield fs key = Some (ChainClaims.to_json c) ->
  Policy.check_cert_chain fs key = true <-> Policy.chain_good c.
Proof.
  unfold Policy.check_cert_chain. intros ->. unfold Policy.chain_good.
  rewrite !andb_true_iff, freshness_json.
  destruct (chain_fields c) as (-> & -> & -> & _ & _). cbn [Policy.is_string Policy.is_bool].
  rewrite !String.eqb_eq, Bool.eqb_true_iff. tauto.
Qed.

Lemma measres_json m :
  Policy.is_string (Some (enum_to_json measres_table m)) "success" = true <-> m = Success.
Proof. destruct m; vm_compute; split; congruence. Qed.

Lemma gpu_fields (c : GpuClaims.SerializableGpuClaimsV3) :
  jfield (GpuClaims.to_json c) "x-nvidia-device-type" = Some (JString "gpu") /\
  jfield (GpuClaims.to_json c) "measres" =
    Some (enum_to_json measres_table (GpuClaims.m_measurements_matching c)) /\
  jfield (GpuClaims.to_json c) "x-nvidia-gpu-attestation-report-cert-chain" =
    Some (ChainClaims.to_json (GpuClaims.m_ar_cert_chain c)) /\
  jfield (GpuClaims.to_json c) "x-nvidia-gpu-driver-rim-cert-chain" =
    Some (ChainClaims.to_json (GpuClaims.m_driver_rim_cert_chain c)) /\
  jfield (GpuClaims.to_json c) "x-nvidia-gpu-vbios-rim-cert-chain" =
    Some (ChainClaims.to_json (GpuClaims.m_vbios_rim_cert_chain c)).
Proof. unfold GpuClaims.to_json. by destruct (GpuClaims.m_gpu_switch_pdis c). Qed.

Lemma switch_fields (c : SwitchClaims.SerializableSwitchClaimsV3) :
  jfield (SwitchClaims.to_json c) "x-nvidia-device-type" = Some (JString "nvswitch") /\
  jfield (SwitchClaims.to_json c) "measres" =
    Some (enum_to_json measres_table (SwitchClaims.m_measurements_matching c)) /\
  jfield (SwitchClaims.to_json c) "x-nvidia-switch-attestation-report-cert-chain" =
    Some (ChainClaims.to_json (SwitchClaims.m_ar_cert_chain_claims c)) /\
  jfield (SwitchClaims.to_json c) "x-nvidia-switch-bios-rim-cert-chain" =
    Some (ChainClaims.to_json (SwitchClaims.m_bios_rim_cert_chain c)).
Proof.
  unfold SwitchClaims.to_json.
  by destruct (SwitchClaims.m_switch_pdi c), (SwitchClaims.m_switch_gpu_pdis c).
Qed.

Lemma validate_claim_json (c : Collection.Claims) :
  Policy.validate_claim_by_device_type (Collection.to_json_object c) = true <-> Policy.device_good c.
Proof.
  unfold Policy.validate_claim_by_device_type, Policy.validate_gpu_claims,
    Policy.validate_switch_claims, Policy.check_measurements_match, Policy.device_good.
  destruct c as [c|c]; cbn [Collection.to_json_object].
  - destruct (gpu_fields c) as (-> & -> & Ha & Hd & Hv).
    change (Policy.is_string (Some (JString "gpu")) "gpu") with true.
    change (Policy.is_string (Some (JString "gpu")) "nvswitch") with false.
    rewrite andb_true_l, andb_false_l, orb_false_r, !andb_true_iff, measres_json.
    rewrite (chain_json_good _ _ _ Ha), (chain_json_good _ _ _ Hd), (chain_json_good _ _ _ Hv). tauto.
  - destruct (switch_fields c) as (-> & -> & Ha & Hb).
    change (Policy.is_string (Some (JString "nvswitch")) "gpu") with false.
    change (Policy.is_string (Some (JString "nvswitch")) "nvswitch") with true.
    rewrite andb_true_l, andb_false_l, orb_false_l, !andb_true_iff, measres_json.
    rewrite (chain_json_good _ _ _ Ha), (chain_json_good _ _ _ Hb). tauto.
Qed.

Lemma nv_match_json (claims : Collection.ClaimsCollection) :
  Policy.nv_match (Collection.to_json_object <$> claims) = true <->
  claims <> [] /\ Forall Policy.device_good claims.
Proof.
  unfold Policy.nv_match. rewrite andb_true_iff. f_equiv.
  - destruct claims; cbn [fmap list_fmap]; [by split|]. rewrite zlen_cons.
    pose proof (zlen_nonneg (Collection.to_json_object <$> claims)).
    split; [done|]. intros _. apply Z.ltb_lt. lia.
  - induction claims as [|c claims IH]; [done|].
    cbn [fmap list_fmap forallb]. rewrite andb_true_iff, Forall_cons, validate_claim_json.
    by rewrite <- IH.
Qed.

Lemma jat_shape j k : match jat j k with Ret _ | Throw _ => True | _ => False end.
Proof. unfold jat. by destruct (jfield j k). Qed.

Lemma jat_index_shape j i : match jat_index j i with Ret _ | Throw _ => True | _ => False end.
Proof. destruct j; try done. cbn. by destruct (_ !! i). Qed.

Lemma result_value_shape j :
  match RegoClaimsEvaluator.result_value j with Ret _ | Throw _ => True | _ => False end.
Proof.
  unfold RegoClaimsEvaluator.result_value.
  repeat first
    [ match goal with |- context [obind (jat ?j ?k) _] =>
        pose proof (jat_shape j k); destruct (jat j k); cbn [obind]; try done end
    | match goal with |- context [obind (jat_index ?j ?i) _] =>
        pose proof (jat_index_shape j i); destruct (jat_index j i); cbn [obind]; try done end ].
  match goal with |- context [get_bool ?v] => by destruct v end.
Qed.

(** ** Properties *)

(** C28: the overall-result policy accepts the claims of a platform exactly
    when there is at least one device, every device's measurements matched,
    and each of its certificate chains is valid, not revoked, covered by valid
    OCSP responses and fresh: online by the request nonce without a signed-age
    status, or offline by a signed-age status that covers certificates and has
    a deadline in the future, and then without a nonce match. *)
Theorem overall_policy_iff (claims : Collection.ClaimsCollection) :
  Policy.nv_match (Collection.to_json_object <$> claims) = true <->
  claims <> [] /\ Forall Policy.device_good claims.
Proof. apply nv_match_json. Qed.

(** P: evaluating claims never throws and fails closed: it reports a match
    only when the claims were printed, the engine answered, the answer is JSON
    and [result[0].expressions[0].value] of it is [true]; an answer of any
    other shape is "no match", a missing answer is [PolicyEvaluationError]. *)
Theorem evaluate_claims_fail_closed dump parse evaluate_policy m_policy
    (claims : Collection.ClaimsCollection) :
  match RegoClaimsEvaluator.evaluate_claims dump parse evaluate_policy m_policy claims with
  | Ret true =>
      exists text answer j,
        dump (Collection.to_json claims) = Some text /\
        evaluate_policy m_policy text RegoClaimsEvaluator.ENTRYPOINT = Some answer /\
        parse answer = Some j /\ RegoClaimsEvaluator.result_value j = Ret true
  | Ret false =>
      exists text answer,
        dump (Collection.to_json claims) = Some text /\
        evaluate_policy m_policy text RegoClaimsEvaluator.ENTRYPOINT = Some answer /\
        forall j, parse answer = Some j -> RegoClaimsEvaluator.result_value j <> Ret true
  | Err InternalError => dump (Collection.to_json claims) = None
  | Err PolicyEvaluationError =>
      exists text, dump (Collection.to_json claims) = Some text /\
        evaluate_policy m_policy text RegoClaimsEvaluator.ENTRYPOINT = None
  | _ => False
  end.
Proof.
  unfold RegoClaimsEvaluator.evaluate_claims, Collection.serialize_json.
  destruct (dump _) as [text|] eqn:Ed; cbn [obind]; [|done].
  destruct (evaluate_policy _ _ _) as [answer|] eqn:Ea; [|by exists text].
  destruct (parse answer) as [j|] eqn:Ej; [|exists text, answer; split_and!; naive_solver].
  pose proof (result_value_shape j) as Hj.
  destruct (RegoClaimsEvaluator.result_value j) as [[]| | |] eqn:Er; try done.
  - by exists text, answer, j.
  - exists text, answer. split; [done|split; [done|]]. intros j' Hj'. congruence.
  - exists text, answer. split; [done|split; [done|]]. intros j' Hj'. congruence.
Qed.
