(* ===== verification/RegoEngine.v ===== *)
(** * RegoEngine: evaluating Rego policies with regorus

    src/rego_engine/regorus_rego_engine.cpp over the wrapper of
    src/internal/rego_engine/regorus.hpp.  The functions of regorus's C
    interface are a parameter; the engine and the results it hands out live in
    a heap, which the destructors of the wrapper's objects clear. *)

From S2P Require Import Prelude Errors Utils Json Claims Evaluator.

(** The result of a call of regorus: pointers may be null. *)
Record RegorusResult : Type := mk_regorus_result {
  status_ok : bool;
  result_output : option string;
  result_error_message : option string;
}.

(** The functions of regorus that the SDK calls. *)
Class Regorus : Type := {
  engine : Type;
  regorus_engine_new : engine;
  regorus_engine_set_rego_v0 : bool -> engine -> RegorusResult * engine;
  regorus_engine_add_policy : string -> string -> engine -> RegorusResult * engine;
  regorus_engine_set_input_json : string -> engine -> RegorusResult * engine;
  regorus_engine_eval_query : string -> engine -> RegorusResult * engine;
}.

Module RegoEngine.

Section rego.
Context `{R : Regorus}.

(** ** The wrapper *)

(** What regorus has handed out and not got back, by address. *)
Record ffi : Type := mk_ffi {
  engines : gmap nat engine;
  results : gmap nat RegorusResult;
  next : nat;
}.

Abbreviation rego := (sm ffi Error).

(** The methods of [Result]. *)
Definition result_bool (r : RegorusResult) : bool := status_ok r.

Definition output (r : RegorusResult) : string :=
  if result_bool r then match result_output r with Some s => s | None => "" end else "".

Definition error (r : RegorusResult) : string :=
  if negb (result_bool r) then match result_error_message r with Some s => s | None => "" end else "".

(** An [Engine] over the code that has it: made, and dropped at the end. *)
Definition with_engine {A : Type} (k : nat -> rego A) : rego A := fun st =>
  let e := next st in
  let '(r, st) := k e (mk_ffi (<[e := regorus_engine_new]> (engines st)) (results st) (S e)) in
  match engines st !! e with
  | Some _ => (r, mk_ffi (delete e (engines st)) (results st) (next st))
  | None => (UB, st)
  end.

(** A [Result] over the code that has it: what a call of the engine hands out,
    dropped at the end. *)
Definition with_result {A : Type} (call : engine -> RegorusResult * engine) (e : nat) (k : nat -> rego A) : rego A := fun st =>
  match engines st !! e with
  | None => (UB, st)
  | Some x =>
      let '(res, x) := call x in
      let p := next st in
      let '(r, st) := k p (mk_ffi (<[e := x]> (engines st)) (<[p := res]> (results st)) (S p)) in
      match results st !! p with
      | Some _ => (r, mk_ffi (engines st) (delete p (results st)) (next st))
      | None => (UB, st)
      end
  end.

(** Reading a result. *)
Definition get_result (p : nat) : rego RegorusResult := fun st =>
  (match results st !! p with Some r => Ret r | None => UB end, st).

(** ** The engine of the SDK *)

(** A step: the call, and what follows when it succeeds. *)
Definition rego_step (call : engine -> RegorusResult * engine) (e : nat) (k : nat -> rego (option string)) :
    rego (option string) :=
  with_result call e (fun p =>
    do* r := get_result p in
    if negb (result_bool r) then sret None else k p).

Definition evaluate_policy (policy input entrypoint : string) : rego (option string) :=
  with_engine (fun engine =>
    rego_step (regorus_engine_set_rego_v0 true) engine (fun _ =>
    rego_step (regorus_engine_add_policy "policy.rego" (c_str policy)) engine (fun _ =>
    rego_step (regorus_engine_set_input_json (c_str input)) engine (fun _ =>
    rego_step (regorus_engine_eval_query (c_str entrypoint)) engine (fun evaluate_query_result =>
    do* r := get_result evaluate_query_result in
    sret (Some (c_str (output r)))))))).

(** ** What it computes *)

(** What regorus says: the query's answer, from a fresh engine that was given
    the old syntax, the policy and the input before, if it reports no error for
    any of the four calls; a null answer is the empty string. *)
Definition answer (policy input entrypoint : string) : option string :=
  let '(r0, x1) := regorus_engine_set_rego_v0 true regorus_engine_new in
  let '(r1, x2) := regorus_engine_add_policy "policy.rego" (c_str policy) x1 in
  let '(r2, x3) := regorus_engine_set_input_json (c_str input) x2 in
  let '(r3, _) := regorus_engine_eval_query (c_str entrypoint) x3 in
  if forallb status_ok [r0; r1; r2; r3] then Some (c_str (default "" (result_output r3))) else None.

(** ** Lemmas *)

(** [m] ends with [a] when engine [e] is in state [x]; whatever it was handed is
    given back, and [e] is still there. *)
Definition leaves (e : nat) (x : engine) (m : rego (option string)) (a : option string) : Prop :=
  forall st, engines st !! e = Some x -> (forall p, is_Some (results st !! p) -> (p < next st)%nat) ->
    exists x' n, (next st <= n)%nat /\ m st = (Ret a, mk_ffi (<[e := x']> (engines st)) (results st) n).

Lemma leaves_step e x call k a :
  (let '(r, x') := call x in
   if status_ok r then
     forall p st, engines st !! e = Some x' -> results st !! p = Some r ->
       (forall q, is_Some (results st !! q) -> (q < next st)%nat) ->
       exists x'' n, (next st <= n)%nat /\ k p st = (Ret a, mk_ffi (<[e := x'']> (engines st)) (results st) n)
   else a = None) ->
  leaves e x (rego_step call e k) a.
Proof.
  intros H st He Hf. unfold rego_step, with_result. rewrite He. destruct (call x) as [r x']. unfold sbind, get_result.
  cbn [engines results next]. rewrite lookup_insert_eq.
  assert (results st !! next st = None) as Hn.
  { apply eq_None_not_Some. intros Hs%Hf. lia. }
  change (result_bool r) with (status_ok r). destruct (status_ok r); cbn [negb].
  - destruct (H (next st) (mk_ffi (<[e := x']> (engines st)) (<[next st := r]> (results st)) (S (next st))))
      as (x'' & n & Hle & ->); cbn [engines results next] in *.
    + apply lookup_insert_eq.
    + apply lookup_insert_eq.
    + intros q [r' Hq]. rewrite lookup_insert in Hq. case_decide; [lia|].
      assert (q < next st)%nat by (apply Hf; by exists r'). lia.
    + rewrite lookup_insert_eq. exists x'', n. split; [lia|]. by rewrite insert_insert_eq, delete_insert_id.
  - subst a. cbn. rewrite lookup_insert_eq. exists x', (S (next st)). split; [lia|]. by rewrite delete_insert_id.
Qed.

(** The last thing of a chain that has succeeded so far. *)
Lemma leaves_chain e x call k a :
  (forall r x', call x = (r, x') -> if status_ok r then leaves e x' (k 0%nat) a else a = None) ->
  (forall p q, k p = k q) -> leaves e x (rego_step call e k) a.
Proof.
  intros H Hk. apply leaves_step. destruct (call x) as [r x'] eqn:E. specialize (H r x' eq_refl).
  destruct (status_ok r); [|done]. intros p st He _ Hf. rewrite (Hk p 0%nat). by apply H.
Qed.

Lemma evaluate_policy_answer policy input entrypoint st :
  (forall p, is_Some (results st !! p) -> (p < next st)%nat) -> (forall e, is_Some (engines st !! e) -> (e < next st)%nat) ->
  exists n, (next st <= n)%nat /\
    evaluate_policy policy input entrypoint st = (Ret (answer policy input entrypoint), mk_ffi (engines st) (results st) n).
Proof.
  intros Hr He. unfold evaluate_policy, with_engine.
  assert (engines st !! next st = None) as Hn.
  { apply eq_None_not_Some. intros Hs%He. lia. }
  set (st1 := mk_ffi _ _ _). set (k := rego_step _ _ _).
  enough (leaves (next st) regorus_engine_new k (answer policy input entrypoint)) as Hk.
  { destruct (Hk st1) as (x' & n & Hle & ->); [apply lookup_insert_eq| |].
    - intros p Hp%Hr. cbn. lia.
    - cbn in *. rewrite lookup_insert_eq. exists n. split; [lia|]. by rewrite insert_insert_eq, delete_insert_id. }
  unfold k, answer. clear. destruct (regorus_engine_set_rego_v0 _ _) as [r0 x1] eqn:E0.
  destruct (regorus_engine_add_policy _ _ _) as [r1 x2] eqn:E1.
  destruct (regorus_engine_set_input_json _ _) as [r2 x3] eqn:E2.
  destruct (regorus_engine_eval_query _ _) as [r3 x4] eqn:E3. cbn [forallb].
  apply leaves_chain; [|done]. intros r x. rewrite E0. intros [= <- <-]. destruct (status_ok r0); [|done].
  apply leaves_chain; [|done]. intros r x. rewrite E1. intros [= <- <-]. destruct (status_ok r1); [|done].
  apply leaves_chain; [|done]. intros r x. rewrite E2. intros [= <- <-]. destruct (status_ok r2); [|done].
  apply leaves_step. rewrite E3. destruct (status_ok r3) eqn:B3; [|done].
  intros p s He Hp _. cbn. unfold sbind, get_result. rewrite Hp. unfold output, result_bool. rewrite B3.
  exists x4, (next s). split; [done|]. rewrite insert_id by done. destruct s. by destruct (result_output r3).
Qed.

Lemma answer_Some policy input entrypoint text :
  answer policy input entrypoint = Some text <->
  exists x1 x2 x3 r0 r1 r2 r3 x4,
    regorus_engine_set_rego_v0 true regorus_engine_new = (r0, x1) /\ status_ok r0 = true /\
    regorus_engine_add_policy "policy.rego" (c_str policy) x1 = (r1, x2) /\ status_ok r1 = true /\
    regorus_engine_set_input_json (c_str input) x2 = (r2, x3) /\ status_ok r2 = true /\
    regorus_engine_eval_query (c_str entrypoint) x3 = (r3, x4) /\ status_ok r3 = true /\
    text = c_str (default "" (result_output r3)).
Proof.
  unfold answer. split.
  - destruct (regorus_engine_set_rego_v0 _ _) as [r0 x1] eqn:E0. destruct (regorus_engine_add_policy _ _ _) as [r1 x2] eqn:E1.
    destruct (regorus_engine_set_input_json _ _) as [r2 x3] eqn:E2. destruct (regorus_engine_eval_query _ _) as [r3 x4] eqn:E3.
    destruct (forallb _ _) eqn:B; [|done]. intros [= <-]. cbn in B. rewrite !andb_true_iff in B. exists x1, x2, x3, r0, r1, r2, r3, x4.
    by destruct B as (? & ? & ? & ? & _).
  - intros (x1 & x2 & x3 & r0 & r1 & r2 & r3 & x4 & -> & B0 & -> & B1 & -> & B2 & -> & B3 & ->). cbn.
    by rewrite B0, B1, B2, B3.
Qed.

(** ** Properties *)

(** C29: from any heap, evaluating a policy returns what regorus answers to the
    query after the policy and the input, or nothing when regorus reports an error
    for one of the four calls; the engine and every result are given back
    exactly once, none is used after that, and nothing else in the heap
    changes. *)
Theorem evaluate_policy_sound policy input entrypoint st :
  (forall p, is_Some (results st !! p) -> (p < next st)%nat) -> (forall e, is_Some (engines st !! e) -> (e < next st)%nat) ->
  let '(r, st') := evaluate_policy policy input entrypoint st in
  r = Ret (answer policy input entrypoint) /\ engines st' = engines st /\ results st' = results st.
Proof. intros Hr He. by destruct (evaluate_policy_answer policy input entrypoint st Hr He) as (n & _ & ->). Qed.

(** P: the claims evaluator over regorus fails closed: it reports a match only
    when all four calls succeed on the policy and on the printed claims, and
    the answer is JSON whose value is [true]; when the engine refuses the
    policy, the claims or the query there is an error, and never a match. *)
Theorem rego_evaluator_sound dump parse (policy : string) (claims : Collection.ClaimsCollection) :
  let ENTRYPOINT := RegoClaimsEvaluator.ENTRYPOINT in
  match RegoClaimsEvaluator.evaluate_claims dump parse answer policy claims with
  | Ret b =>
      exists text x1 x2 x3 r0 r1 r2 r3 x4,
        dump (Collection.to_json claims) = Some text /\
        regorus_engine_set_rego_v0 true regorus_engine_new = (r0, x1) /\ status_ok r0 = true /\
        regorus_engine_add_policy "policy.rego" (c_str policy) x1 = (r1, x2) /\ status_ok r1 = true /\
        regorus_engine_set_input_json (c_str text) x2 = (r2, x3) /\ status_ok r2 = true /\
        regorus_engine_eval_query ENTRYPOINT x3 = (r3, x4) /\ status_ok r3 = true /\
        (b = true <-> exists j, parse (c_str (default "" (result_output r3))) = Some j /\ RegoClaimsEvaluator.result_value j = Ret true)
  | Err e => (e = InternalError /\ dump (Collection.to_json claims) = None) \/ e = PolicyEvaluationError
  | _ => False
  end.
Proof.
  cbv zeta. unfold RegoClaimsEvaluator.evaluate_claims, Collection.serialize_json.
  destruct (dump _) as [text|]; cbn [obind]; [|by left].
  destruct (answer policy text _) as [out|] eqn:Ea; [|by right].
  apply answer_Some in Ea as (x1 & x2 & x3 & r0 & r1 & r2 & r3 & x4 & E0 & B0 & E1 & B1 & E2 & B2 & E3 & B3 & ->).
  change (c_str RegoClaimsEvaluator.ENTRYPOINT) with RegoClaimsEvaluator.ENTRYPOINT in E3.
  set (out := c_str (default "" (result_output r3))). destruct (parse out) as [j|] eqn:Ej.
  2: { exists text, x1, x2, x3, r0, r1, r2, r3, x4. split_and!; try done. split; [done|]. intros (j & Hj & _). unfold out in Ej. congruence. }
  assert (forall b : bool, (b = true <-> RegoClaimsEvaluator.result_value j = Ret true) ->
    (b = true <-> exists j', parse out = Some j' /\ RegoClaimsEvaluator.result_value j' = Ret true)) as Hw.
  { intros b Hb. rewrite Hb, Ej. split; [by exists j|]. by intros (j' & [= <-] & ?). }
  pose proof (result_value_shape j) as Hj.
  destruct (RegoClaimsEvaluator.result_value j) as [[]|e|x|] eqn:Er; try done;
    exists text, x1, x2, x3, r0, r1, r2, r3, x4; split_and!; try done; apply Hw; split; done.
Qed.

End rego.

(** *** A regorus whose engine remembers its input and answers with it *)

Definition toy_regorus : Regorus := {|
  engine := option string;
  regorus_engine_new := None;
  regorus_engine_set_rego_v0 _ x := (mk_regorus_result true None None, x);
  regorus_engine_add_policy _ _ x := (mk_regorus_result true None None, x);
  regorus_engine_set_input_json s _ := (mk_regorus_result true None None, Some s);
  regorus_engine_eval_query _ x :=
    (match x with Some _ => mk_regorus_result true x None | None => mk_regorus_result false None (Some "no input") end, x);
|}.

Lemma evaluate_policy_sound_witness :
  (evaluate_policy (R:=toy_regorus) "package p" "[]" "data.p.x" (mk_ffi (R:=toy_regorus) ∅ ∅ 0)).1 = Ret (Some "[]").
Proof.
  refine (proj1 (_ : _ = Ret (answer (R:=toy_regorus) "package p" "[]" "data.p.x") /\ _)).
  pose proof (evaluate_policy_sound (R:=toy_regorus) "package p" "[]" "data.p.x" (mk_ffi (R:=toy_regorus) ∅ ∅ 0)) as H.
  apply H; intros ? []; done.
Defined.

End RegoEngine.
