(* ===== verification/DetachedEat.v ===== *)
(** * DetachedEat: detached entity-attestation tokens

    src/claims.cpp: the payloads of the overall and device tokens with their
    JSON, and [ClaimsCollection::get_detached_eat].  The clock, the random
    generator, SHA-256, the JWT signer, the JSON text functions and the policy
    engine are parameters. *)

From stdpp Require Import pretty.
From S2P Require Import Prelude Errors Utils Json OpenSsl NvCache Ocsp X509Chain Claims Evaluator.

Module Eat.

Definition JWT_TTL_SECONDS : Z := 3600.
Definition JTI_SIZE_BYTES : Z := 32.

Record DetachedEATOptions : Type := mk_options {
  m_private_key_pem : string;
  m_issuer : string;
  m_kid : string;
}.

Record SerializableCommonEATClaims : Type := mk_common {
  m_iat : Z;
  m_exp : Z;
  m_iss : string;
  m_jti : string;
}.

Record SerializableOverallEATClaims : Type := mk_overall {
  m_sub : string;
  m_common_claims : SerializableCommonEATClaims;
  m_claims_version : string;
  m_submod_digests : gmap string string;
  m_overall_result : bool;
  m_eat_nonce : string;
}.

Record SerializableEATSubmodClaims : Type := mk_submod {
  s_common_claims : SerializableCommonEATClaims;
  s_device_claims : Collection.Claims;
}.

Record SerializableDetachedEAT : Type := mk_eat {
  m_overall_jwt_token : string;
  m_device_jwt_tokens : gmap string string;
}.

(** *** JSON *)

(** [to_json(js, common)] assigns into an existing object. *)
Definition common_to_json (js : list (string * json)) (c : SerializableCommonEATClaims) :
    list (string * json) :=
  foldl (fun m kv => jset kv.1 kv.2 m) js
    [("iat", JInt (m_iat c)); ("exp", JInt (m_exp c)); ("jti", JString (m_jti c));
     ("iss", JString (m_iss c))].

(** [js.update(other)]. *)
Definition jupdate (m : list (string * json)) (other : json) : list (string * json) :=
  match other with
  | JObject m' => foldl (fun m kv => jset kv.1 kv.2 m) m m'
  | _ => m
  end.

Definition submod_to_json (s : SerializableEATSubmodClaims) : json :=
  JObject (jupdate (common_to_json [] (s_common_claims s))
             (Collection.to_json_object (s_device_claims s))).

Definition overall_to_json (o : SerializableOverallEATClaims) : json :=
  let js := jset "sub" (JString (m_sub o)) [] in
  let js := common_to_json js (m_common_claims o) in
  let js := jset "x-nvidia-ver" (JString (m_claims_version o)) js in
  let js := jset "x-nvidia-overall-att-result" (JBool (m_overall_result o)) js in
  let js := jset "eat_nonce" (JString (m_eat_nonce o)) js in
  match map_to_list (m_submod_digests o) with
  | [] => JObject js
  | items =>
      JObject (jset "submods"
        (jobject ((fun p => (p.1, JArray [JString "DIGEST"; JArray [JString "SHA256"; JString p.2]]))
                    <$> items)) js)
  end.

Definition eat_to_json (e : SerializableDetachedEAT) : json :=
  JArray
    [JArray [JString "JWT"; JString (m_overall_jwt_token e)];
     jobject ((fun p => (p.1, JString p.2)) <$> map_to_list (m_device_jwt_tokens e))].

(** [j.items()]. *)
Definition items (j : json) : list (string * json) :=
  match j with
  | JObject m => m
  | JArray l => imap (fun i v => (pretty i, v)) l
  | JNull => []
  | v => [("", v)]
  end.

(** The map that the items of an object fill, each value read by [get]; the
    keys of an object are distinct, so insertion and assignment agree. *)
Definition read_items (get : json -> res string) (j : json) : res (gmap string string) :=
  let* kvs := omap_list (fun kv => let* v := get kv.2 in Ret (kv.1, v)) (items j) in
  Ret (list_to_map kvs).

Definition eat_from_json (j : json) : res SerializableDetachedEAT :=
  let* token := let* v := jat_index j 0 in let* v := jat_index v 1 in get_string v in
  let* submods := jat_index j 1 in
  let* tokens := read_items get_string submods in
  Ret (mk_eat token tokens).

Definition common_from_json (j : json) : res SerializableCommonEATClaims :=
  let* iat := let* v := jat j "iat" in get_int64 v in
  let* exp := let* v := jat j "exp" in get_int64 v in
  let* jti := let* v := jat j "jti" in get_string v in
  let* iss := let* v := jat j "iss" in get_string v in
  Ret (mk_common iat exp iss jti).

Definition submod_from_json (j : json) : res SerializableEATSubmodClaims :=
  let* common := common_from_json j in
  if jcontains j "x-nvidia-gpu-attestation-report-cert-chain" then
    let* gpu_claims := GpuClaims.from_json j in
    Ret (mk_submod common (Collection.Gpu gpu_claims))
  else if jcontains j "x-nvidia-switch-attestation-report-cert-chain" then
    let* switch_claims := SwitchClaims.from_json j in
    Ret (mk_submod common (Collection.Switch switch_claims))
  else Throw runtime_error.

Definition overall_from_json (j : json) : res SerializableOverallEATClaims :=
  let* sub := let* v := jat j "sub" in get_string v in
  let* common := common_from_json j in
  let* version := let* v := jat j "x-nvidia-ver" in get_string v in
  let* result := let* v := jat j "x-nvidia-overall-att-result" in get_bool v in
  let* nonce := let* v := jat j "eat_nonce" in get_string v in
  let* submods := jat j "submods" in
  let* digests :=
    read_items (fun v => let* v := jat_index v 1 in let* v := jat_index v 1 in get_string v) submods in
  Ret (mk_overall sub common version digests result nonce).

(** *** Making the token *)

(** What the code takes from the platform and from libraries. *)
Class Env : Type := {
  now : Z;
  RAND_bytes : nat -> Z -> option (list Z);
  sha256 : list Z -> option (list Z);
  sign_none : option string -> json -> string;
  sign_es384 : string -> option string -> json -> option string;
  json_dump : json -> option string;
  json_parse : string -> option json;
  rego : string -> string -> string -> option string;
  overall_result_policy : string;
}.

Section Make.
Context `{env : Env}.

(** [get_current_times]: issued at and expires at. *)
Definition get_current_times : Z * Z := (now, now + JWT_TTL_SECONDS).

Definition compute_sha256_hex (data : string) : res string :=
  match sha256 (bytes_of_string data) with
  | Some digest => Ret (to_hex_string digest)
  | None => Err InternalError
  end.

(** The token of a payload: unsecured without a key, ES384 with one; the
    signer throws on a key it cannot use. *)
Definition sign_token (options : DetachedEATOptions) (payload : json) : res string :=
  let kid := if bool_decide (m_kid options = "") then None else Some (m_kid options) in
  if bool_decide (m_private_key_pem options = "") then Ret (sign_none kid payload)
  else match sign_es384 (m_private_key_pem options) kid payload with
       | Some token => Ret token
       | None => Throw runtime_error
       end.

(** A fresh token identifier from the [n]-th draw of the generator. *)
Definition make_jti (n : nat) : res string :=
  let* jti := generate_nonce (RAND_bytes n) JTI_SIZE_BYTES in Ret (to_hex_string jti).

Definition submod_key (device_type : string) (index : Z) : string :=
  device_type +:+ "-" +:+ pretty index.

Record loop_state : Type := mk_loop {
  overall_nonce : string;
  device_index : gmap string Z;
  digests : gmap string string;
  tokens : gmap string string;
  draws : nat;
}.

(** One device: its label, the nonce check, its token and its digest. *)
Definition add_submod (options : DetachedEATOptions) (common : SerializableCommonEATClaims)
    (st : loop_state) (claim : Collection.Claims) : res loop_state :=
  let device_type := toupper (Collection.get_device_type claim) in
  check* bool_decide (device_type = "GPU") || bool_decide (device_type = "SWITCH") else BadArgument in
  let index := default 0 (device_index st !! device_type) in
  let device_index' := <[device_type := index + 1]> (device_index st) in
  let key := submod_key device_type index in
  let nonce := Collection.get_nonce claim in
  check* bool_decide (overall_nonce st = "") || bool_decide (overall_nonce st = nonce)
    else BadArgument in
  let overall_nonce' := if bool_decide (overall_nonce st = "") then nonce else overall_nonce st in
  let* jti := make_jti (draws st) in
  let payload :=
    submod_to_json (mk_submod (mk_common (m_iat common) (m_exp common) (m_iss common) jti) claim) in
  let* token := sign_token options payload in
  let* digest_hex := compute_sha256_hex token in
  Ret (mk_loop overall_nonce' device_index' (<[key := digest_hex]> (digests st))
         (<[key := token]> (tokens st)) (S (draws st))).

Definition get_detached_eat (claims : Collection.ClaimsCollection) (options : DetachedEATOptions) :
    res (string * option Error) :=
  let '(iat, exp) := get_current_times in
  let* overall_jti := make_jti 0 in
  let common := mk_common iat exp (m_issuer options) overall_jti in
  let* st := ofold (add_submod options common) claims (mk_loop "" ∅ ∅ ∅ 1) in
  let* overall_result :=
    RegoClaimsEvaluator.evaluate_claims json_dump json_parse rego overall_result_policy claims in
  (* a false result is logged, which prints the claims once more *)
  let* _ := if overall_result then Ret ""
            else Collection.serialize_json json_dump claims in
  let payload :=
    overall_to_json (mk_overall "NVIDIA-PLATFORM-ATTESTATION" common "3.0" (digests st) overall_result
                       (overall_nonce st)) in
  let* overall_token := sign_token options payload in
  match json_dump (eat_to_json (mk_eat overall_token (tokens st))) with
  | None => Err InternalError
  | Some out_json => Ret (out_json, if overall_result then None else Some OverallResultFalse)
  end.

End Make.

End Eat.

(** A platform and libraries to evaluate the code on: a printer that shows the
    shape of a token, an engine that accepts, an unsecured signer that shows
    the device type. *)
Definition toy_env : Eat.Env := {|
  Eat.now := 1700000000;
  Eat.RAND_bytes := fun n len => Some (repeat (Z.of_nat n) (Z.to_nat len));
  Eat.sha256 := fun l => Some (take 2 l);
  Eat.sign_none := fun _ j =>
    match jfield j "x-nvidia-device-type" with Some (JString t) => t | _ => "overall" end;
  Eat.sign_es384 := fun _ _ _ => None;
  Eat.json_dump := fun j =>
    match j with
    | JArray [JArray [_; JString t]; JObject m] => Some (String.concat "," (t :: m.*1))
    | _ => Some "claims"
    end;
  Eat.json_parse := fun _ =>
    Some (jobject [("result", JArray [jobject [("expressions", JArray [jobject [("value", JBool true)]])]])]);
  Eat.rego := fun _ _ _ => Some "answer";
  Eat.overall_result_policy := "policy";
|}.

Definition toy_claims : list Collection.Claims :=
  [Collection.Gpu GpuClaims.default; Collection.Switch SwitchClaims.default;
   Collection.Gpu GpuClaims.default].

Definition toy_options : Eat.DetachedEATOptions := Eat.mk_options "" "me" "".

(** ** Lemmas: objects as maps *)

Lemma list_to_map_jset k v m :
  list_to_map (M:=gmap string json) (jset k v m) = <[k := v]> (list_to_map m).
Proof.
  induction m as [|[k' w] m IH]; [done|]. cbn [jset].
  destruct (String.compare k k') eqn:E.
  - apply String.compare_eq_iff in E as <-. cbn. by rewrite insert_insert_eq.
  - done.
  - cbn. rewrite IH. apply insert_insert_ne. intros <-.
    pose proof (String.compare_antisym k' k') as Ha. by rewrite E in Ha.
Qed.

Lemma list_to_map_foldl_jset kvs m :
  NoDup kvs.*1 ->
  list_to_map (M:=gmap string json) (foldl (fun m kv => jset kv.1 kv.2 m) m kvs) =
  list_to_map kvs ∪ list_to_map m.
Proof.
  revert m; induction kvs as [|[k v] kvs IH]; intros m Hn; cbn [foldl fst snd].
  { cbn. by rewrite map_empty_union. }
  cbn in Hn. apply NoDup_cons in Hn as [Hk Hn]. rewrite IH, list_to_map_jset by done. cbn.
  rewrite <- insert_union_r; [by rewrite insert_union_l|]. by apply not_elem_of_list_to_map.
Qed.

Lemma jset_Forall (P : json -> Prop) k v m :
  P v -> Forall (fun kv => P kv.2) m -> Forall (fun kv => P kv.2) (jset k v m).
Proof.
  intros Hv. induction 1 as [|[k' w] m Hw Hm IH]; cbn [jset]; [by constructor|].
  destruct (String.compare k k'); by repeat constructor.
Qed.

Lemma foldl_jset_Forall (P : json -> Prop) kvs m :
  Forall (fun kv => P kv.2) kvs -> Forall (fun kv => P kv.2) m ->
  Forall (fun kv => P kv.2) (foldl (fun m kv => jset kv.1 kv.2 m) m kvs).
Proof.
  intros Hk. revert m; induction Hk as [|[k v] kvs Hv Hk IH]; intros m Hm; cbn [foldl]; [done|].
  apply IH. by apply jset_Forall.
Qed.

Definition read_value (get : json -> res string) (v : json) : string :=
  match get v with Ret s => s | _ => "" end.

Lemma omap_list_read get (l : list (string * json)) :
  Forall (fun kv => get kv.2 = Ret (read_value get kv.2)) l ->
  omap_list (fun kv => let* v := get kv.2 in Ret (kv.1, v)) l =
  Ret (prod_map id (read_value get) <$> l).
Proof.
  induction 1 as [|kv l Hkv Hl IH]; [done|]. cbn. rewrite Hkv. cbn. by rewrite IH.
Qed.

Lemma read_items_map get (f : string -> json) (M : gmap string string) :
  (forall s, get (f s) = Ret s) ->
  Eat.read_items get (jobject ((fun p => (p.1, f p.2)) <$> map_to_list M)) = Ret M.
Proof.
  intros Hf. unfold Eat.read_items, jobject. cbn [Eat.items].
  change (fun p : string * string => (p.1, f p.2)) with (prod_map (A:=string) id f).
  rewrite omap_list_read.
  2:{ apply (foldl_jset_Forall (fun v => get v = Ret (read_value get v))); [|done].
      apply Forall_fmap, Forall_true. intros [k s]. cbn. unfold read_value. by rewrite Hf. }
  cbn [obind]. f_equal. rewrite list_to_map_fmap, list_to_map_foldl_jset.
  - rewrite list_to_map_fmap, list_to_map_to_list. cbn [list_to_map foldr].
    rewrite map_union_empty, <- map_fmap_compose. rewrite <- (map_fmap_id M) at 2.
    apply map_fmap_ext. intros k s _. unfold compose, read_value. by rewrite Hf.
  - rewrite <- list_fmap_compose.
    replace (fst ∘ prod_map id f) with (fst (A:=string) (B:=string)) by done.
    apply NoDup_fst_map_to_list.
Qed.

Lemma jlookup_foldl k kvs m :
  Forall (fun kv => kv.1 <> k) kvs ->
  jlookup k (foldl (fun m kv => jset kv.1 kv.2 m) m kvs) = jlookup k m.
Proof.
  intros Hk. revert m; induction Hk as [|[k' v] kvs Hv Hk IH]; intros m; cbn [foldl]; [done|].
  cbn in *. rewrite IH. by apply jlookup_jset_ne.
Qed.

Lemma overall_fields (o : Eat.SerializableOverallEATClaims) :
  Eat.m_submod_digests o <> ∅ ->
  jfield (Eat.overall_to_json o) "submods" =
    Some (jobject ((fun p => (p.1, JArray [JString "DIGEST"; JArray [JString "SHA256"; JString p.2]]))
                     <$> map_to_list (Eat.m_submod_digests o))) /\
  jfield (Eat.overall_to_json o) "sub" = Some (JString (Eat.m_sub o)) /\
  jfield (Eat.overall_to_json o) "x-nvidia-ver" = Some (JString (Eat.m_claims_version o)) /\
  jfield (Eat.overall_to_json o) "x-nvidia-overall-att-result" = Some (JBool (Eat.m_overall_result o)) /\
  jfield (Eat.overall_to_json o) "eat_nonce" = Some (JString (Eat.m_eat_nonce o)) /\
  jfield (Eat.overall_to_json o) "iat" = Some (JInt (Eat.m_iat (Eat.m_common_claims o))) /\
  jfield (Eat.overall_to_json o) "exp" = Some (JInt (Eat.m_exp (Eat.m_common_claims o))) /\
  jfield (Eat.overall_to_json o) "jti" = Some (JString (Eat.m_jti (Eat.m_common_claims o))) /\
  jfield (Eat.overall_to_json o) "iss" = Some (JString (Eat.m_iss (Eat.m_common_claims o))).
Proof.
  intros Hd. unfold Eat.overall_to_json.
  destruct (map_to_list (Eat.m_submod_digests o)) as [|x l] eqn:E.
  { by apply map_to_list_empty_iff in E. }
  generalize (jobject ((fun p => (p.1, JArray [JString "DIGEST"; JArray [JString "SHA256"; JString p.2]]))
                         <$> x :: l)).
  intros j. by split_and!.
Qed.

(** ** Lemmas: labels of the devices *)

Definition device_label (c : Collection.Claims) : string := toupper (Collection.get_device_type c).

(** How many of the claims are of a device type. *)
Definition count_type (ty : string) (cs : list Collection.Claims) : Z :=
  zlen (filter (fun c => device_label c = ty) cs).

(** The labels: each device's type and its index among the devices of the
    type. *)
Definition labels (cs : list Collection.Claims) : list string :=
  imap (fun i c => Eat.submod_key (device_label c) (count_type (device_label c) (take i cs))) cs.

Lemma labels_snoc cs c :
  labels (cs ++ [c]) = labels cs ++ [Eat.submod_key (device_label c) (count_type (device_label c) cs)].
Proof.
  unfold labels. rewrite imap_app. cbn. rewrite Nat.add_0_r, take_app_length. f_equal.
  apply imap_ext. intros i x Hx. rewrite take_app_le; [done|].
  apply lookup_lt_Some in Hx. lia.
Qed.

Lemma labels_length cs : length (labels cs) = length cs.
Proof. apply length_imap. Qed.

Lemma device_label_cases c : device_label c = "GPU" \/ device_label c = "SWITCH".
Proof. destruct c; [by left|by right]. Qed.

Lemma submod_key_inj c d m n :
  Eat.submod_key (device_label c) m = Eat.submod_key (device_label d) n ->
  device_label c = device_label d /\ m = n.
Proof.
  unfold Eat.submod_key.
  destruct (device_label_cases c) as [-> | ->], (device_label_cases d) as [-> | ->];
    intros H; try discriminate H; split; try done;
    injection H as H; exact (inj (pretty (A:=Z)) m n H).
Qed.

Lemma count_type_snoc ty cs c :
  count_type ty (cs ++ [c]) = count_type ty cs + (if decide (device_label c = ty) then 1 else 0).
Proof.
  unfold count_type. rewrite filter_app, zlen_app. f_equal.
  rewrite filter_cons. by destruct (decide _).
Qed.

Lemma labels_below cs c n :
  Eat.submod_key (device_label c) n ∈ labels cs -> n < count_type (device_label c) cs.
Proof.
  induction cs as [|d cs IH] using rev_ind; [by intros ?%elem_of_nil|].
  rewrite labels_snoc, elem_of_app, list_elem_of_singleton, count_type_snoc.
  intros [Hi|[Ht ->]%submod_key_inj].
  - apply IH in Hi. destruct (decide _); lia.
  - rewrite decide_True, Ht by done. lia.
Qed.

Lemma labels_fresh cs c : Eat.submod_key (device_label c) (count_type (device_label c) cs) ∉ labels cs.
Proof. intros H%labels_below. lia. Qed.

Lemma labels_NoDup cs : NoDup (labels cs).
Proof.
  induction cs as [|c cs IH] using rev_ind; [constructor|].
  rewrite labels_snoc. apply NoDup_app. split_and!; [done| |apply NoDup_singleton].
  intros x Hx ->%list_elem_of_singleton. by eapply labels_fresh.
Qed.

(** ** Lemmas: the loop over the devices *)

Section Loop.
Context `{env : Eat.Env} (options : Eat.DetachedEATOptions) (common : Eat.SerializableCommonEATClaims).

(** A device's token: a signed payload of the common claims with a fresh
    identifier and the device's claims. *)
Definition token_of (c : Collection.Claims) (token : string) : Prop :=
  exists jti,
    Eat.sign_token options
      (Eat.submod_to_json
         (Eat.mk_submod (Eat.mk_common (Eat.m_iat common) (Eat.m_exp common) (Eat.m_iss common) jti) c)) =
    Ret token.

(** The claims agree on the nonce, leading empty ones apart. *)
Definition nonces_agree (cs : list Collection.Claims) (nonce : string) : Prop :=
  exists pre post, cs = pre ++ post /\ Forall (fun c => Collection.get_nonce c = "") pre /\
    Forall (fun c => Collection.get_nonce c = nonce) post /\ (nonce = "" -> post = []).

Definition loop_inv (cs : list Collection.Claims) (st : Eat.loop_state) : Prop :=
  (forall ty, default 0 (Eat.device_index st !! ty) = count_type ty cs) /\
  nonces_agree cs (Eat.overall_nonce st) /\
  exists toks digs,
    Forall2 token_of cs toks /\
    Forall2 (fun t d => Eat.compute_sha256_hex t = Ret d) toks digs /\
    Eat.tokens st = list_to_map (zip (labels cs) toks) /\
    Eat.digests st = list_to_map (zip (labels cs) digs).

Lemma loop_inv_nil n : loop_inv [] (Eat.mk_loop "" ∅ ∅ ∅ n).
Proof.
  split_and!; [intros ty; cbn [Eat.device_index]; by rewrite lookup_empty|by exists [], []|by exists [], []].
Qed.

Lemma zip_labels_snoc cs c (ts : list string) t :
  length ts = length cs ->
  list_to_map (M:=gmap string string) (zip (labels (cs ++ [c])) (ts ++ [t])) =
  <[Eat.submod_key (device_label c) (count_type (device_label c) cs) := t]>
    (list_to_map (zip (labels cs) ts)).
Proof.
  intros Hl. rewrite labels_snoc, zip_with_app by (by rewrite labels_length). cbn.
  apply list_to_map_snoc. rewrite fst_zip by (rewrite labels_length; lia). apply labels_fresh.
Qed.

Lemma nonces_agree_snoc cs nonce c :
  nonces_agree cs nonce -> nonce = "" \/ nonce = Collection.get_nonce c ->
  nonces_agree (cs ++ [c]) (if bool_decide (nonce = "") then Collection.get_nonce c else nonce).
Proof.
  intros (pre & post & -> & Hpre & Hpost & He) Hn.
  destruct (decide (nonce = "")) as [Hz|Hz].
  - rewrite bool_decide_true by done. rewrite (He Hz), app_nil_r.
    destruct (decide (Collection.get_nonce c = "")) as [Hc|Hc].
    + exists (pre ++ [c]), []. rewrite app_nil_r, Forall_app, Forall_singleton. by split_and!.
    + exists pre, [c]. rewrite Forall_singleton. by split_and!.
  - rewrite bool_decide_false by done. destruct Hn as [?|Hn]; [done|].
    exists pre, (post ++ [c]). rewrite Forall_app, Forall_singleton, app_assoc. by split_and!.
Qed.

Lemma add_submod_inv cs st c st' :
  loop_inv cs st -> Eat.add_submod options common st c = Ret st' -> loop_inv (cs ++ [c]) st'.
Proof.
  intros (Hi & Hn & toks & digs & Ht & Hd & Etok & Edig) Hs. unfold Eat.add_submod in Hs.
  fold (device_label c) in Hs. inv_ret. subst st'.
  match goal with E : bool_decide (Eat.overall_nonce st = "") || _ = true |- _ =>
    apply orb_true_iff in E; rewrite !bool_decide_eq_true in E; rename E into Hnonce end.
  rename a into jti, a0 into tok, a1 into dig. split_and!; cbn.
  - intros ty. rewrite count_type_snoc. destruct (decide (device_label c = ty)) as [<-|Hne].
    + by rewrite lookup_insert_eq, Hi.
    + rewrite lookup_insert_ne, Hi by done. lia.
  - by apply nonces_agree_snoc.
  - exists (toks ++ [tok]), (digs ++ [dig]). rewrite Hi, Etok, Edig.
    rewrite !zip_labels_snoc by
      (by rewrite ?(Forall2_length _ _ _ Ht), <- ?(Forall2_length _ _ _ Hd), ?(Forall2_length _ _ _ Ht)).
    split_and!; [apply Forall2_app; [done|constructor; [by exists jti|constructor]]| |done|done].
    apply Forall2_app; [done|by constructor].
Qed.

Lemma loop_spec n cs st' :
  ofold (Eat.add_submod options common) cs (Eat.mk_loop "" ∅ ∅ ∅ n) = Ret st' -> loop_inv cs st'.
Proof.
  revert st'. induction cs as [|c cs IH] using rev_ind; intros st'.
  - intros [= <-]. apply loop_inv_nil.
  - rewrite ofold_app. intros (st & Hst & Hc)%obind_Ret. cbn in Hc.
    destruct (Eat.add_submod _ _ _ _) eqn:E; cbn in Hc; [|done..]. injection Hc as <-.
    eapply add_submod_inv; [by apply IH|done].
Qed.

End Loop.

Lemma gpu_submod_field (s : Eat.SerializableCommonEATClaims) (m : list (string * json)) k :
  k <> "iat" -> k <> "exp" -> k <> "jti" -> k <> "iss" ->
  NoDup m.*1 ->
  jlookup k (Eat.jupdate (Eat.common_to_json [] s) (JObject m)) = jlookup k m.
Proof.
  intros H1 H2 H3 H4 Hn. unfold Eat.jupdate.
  assert (Hb : jlookup k (Eat.common_to_json [] s) = None).
  { unfold Eat.common_to_json. cbn [foldl fst snd]. rewrite !jlookup_jset_ne by done. done. }
  revert Hb. generalize (Eat.common_to_json [] s) as base. induction m as [|[k' v] m IH]; intros base Hb; [done|].
  cbn [foldl fst snd]. cbn in Hn. apply NoDup_cons in Hn as [Hk Hn].
  destruct (decide (k = k')) as [<-|Hne].
  - cbn [jlookup]. rewrite String.eqb_refl, jlookup_foldl; [apply jlookup_jset_eq|].
    apply Forall_forall. intros kv Hin <-. apply Hk. by apply list_elem_of_fmap_2.
  - cbn [jlookup]. destruct (String.eqb_spec k k') as [|_]; [done|]. apply IH; [done|].
    by rewrite jlookup_jset_ne.
Qed.

Lemma gpu_from_json_ext j j' :
  (forall k, k <> "iat" -> k <> "exp" -> k <> "jti" -> k <> "iss" -> jfield j k = jfield j' k) ->
  GpuClaims.from_json j = GpuClaims.from_json j'.
Proof.
  intros Hk. unfold GpuClaims.from_json, jat, jcontains, deserialize_optional_shared_ptr.
  rewrite !Hk by done. done.
Qed.

Lemma switch_from_json_ext j j' :
  (forall k, k <> "iat" -> k <> "exp" -> k <> "jti" -> k <> "iss" -> jfield j k = jfield j' k) ->
  SwitchClaims.from_json j = SwitchClaims.from_json j'.
Proof.
  intros Hk. unfold SwitchClaims.from_json, jat, jcontains, deserialize_optional_shared_ptr.
  rewrite !Hk by done. done.
Qed.

(** The object of a device's claims: distinct keys, none of them one of the
    common claims'. *)
Lemma device_keys (c : Collection.Claims) :
  exists m, Collection.to_json_object c = JObject m /\ NoDup m.*1 /\
    Forall (fun kv => kv.1 <> "iat") m /\ Forall (fun kv => kv.1 <> "exp") m /\
    Forall (fun kv => kv.1 <> "jti") m /\ Forall (fun kv => kv.1 <> "iss") m.
Proof.
  destruct c as [c|c]; (eexists; split; [reflexivity|]).
  - destruct c as [? ? ? ? ? ? pdis]; destruct pdis; split_and!;
      apply (bool_decide_unpack _); vm_compute; exact I.
  - destruct c as [? ? ? ? ? ? ? ? ? ? pdi pdis]; destruct pdi, pdis; split_and!;
      apply (bool_decide_unpack _); vm_compute; exact I.
Qed.

Lemma submod_common_fields common c :
  jfield (Eat.submod_to_json (Eat.mk_submod common c)) "iat" = Some (JInt (Eat.m_iat common)) /\
  jfield (Eat.submod_to_json (Eat.mk_submod common c)) "exp" = Some (JInt (Eat.m_exp common)) /\
  jfield (Eat.submod_to_json (Eat.mk_submod common c)) "jti" = Some (JString (Eat.m_jti common)) /\
  jfield (Eat.submod_to_json (Eat.mk_submod common c)) "iss" = Some (JString (Eat.m_iss common)).
Proof.
  destruct (device_keys c) as (m & E & _ & H1 & H2 & H3 & H4).
  unfold Eat.submod_to_json. cbn [Eat.s_device_claims Eat.s_common_claims]. rewrite E.
  cbn [jfield Eat.jupdate]. by rewrite !jlookup_foldl.
Qed.

Lemma submod_device_fields common c k :
  k <> "iat" -> k <> "exp" -> k <> "jti" -> k <> "iss" ->
  jfield (Eat.submod_to_json (Eat.mk_submod common c)) k = jfield (Collection.to_json_object c) k.
Proof.
  intros H1 H2 H3 H4. destruct (device_keys c) as (m & E & Hn & _).
  unfold Eat.submod_to_json. cbn [Eat.s_device_claims Eat.s_common_claims]. rewrite E.
  by apply gpu_submod_field.
Qed.

Lemma gpu_no_switch_key c :
  jfield (SwitchClaims.to_json c) "x-nvidia-gpu-attestation-report-cert-chain" = None.
Proof. destruct c as [? ? ? ? ? ? ? ? ? ? pdi pdis]; by destruct pdi, pdis. Qed.

Lemma common_round j c :
  jfield j "iat" = Some (JInt (Eat.m_iat c)) -> jfield j "exp" = Some (JInt (Eat.m_exp c)) ->
  jfield j "jti" = Some (JString (Eat.m_jti c)) -> jfield j "iss" = Some (JString (Eat.m_iss c)) ->
  - 2 ^ 63 <= Eat.m_iat c < 2 ^ 63 -> - 2 ^ 63 <= Eat.m_exp c < 2 ^ 63 ->
  Eat.common_from_json j = Ret c.
Proof.
  intros F1 F2 F3 F4 Hi He. unfold Eat.common_from_json, jat. rewrite F1, F2, F3, F4.
  cbn [obind get_string get_int64 get_number]. rewrite !swrap_in by lia. by destruct c.
Qed.

(** ** Properties *)

(** P: reading back the JSON of a detached token gives the token: the overall
    token and every device token under its label. *)
Theorem detached_eat_roundtrip (e : Eat.SerializableDetachedEAT) :
  Eat.eat_from_json (Eat.eat_to_json e) = Ret e.
Proof.
  destruct e as [t M]. unfold Eat.eat_from_json, Eat.eat_to_json.
  cbn [jat_index obind get_string lookup list_lookup Eat.m_overall_jwt_token Eat.m_device_jwt_tokens].
  by rewrite (read_items_map get_string JString).
Qed.

(** P: reading back the payload of the overall token gives its claims, the
    digest of every device token included, when there is at least one device
    and the times fit their width; without a device there is no [submods]
    member and reading throws. *)
Theorem overall_claims_roundtrip (o : Eat.SerializableOverallEATClaims) :
  - 2 ^ 63 <= Eat.m_iat (Eat.m_common_claims o) < 2 ^ 63 ->
  - 2 ^ 63 <= Eat.m_exp (Eat.m_common_claims o) < 2 ^ 63 ->
  Eat.overall_from_json (Eat.overall_to_json o) =
  if bool_decide (Eat.m_submod_digests o = ∅) then Throw json_exception else Ret o.
Proof.
  intros Hi He. case_bool_decide as Hd.
  { unfold Eat.overall_to_json. rewrite Hd, map_to_list_empty. done. }
  destruct (overall_fields o Hd) as (Hs & F1 & F2 & F3 & F4 & F5 & F6 & F7 & F8).
  unfold Eat.overall_from_json. rewrite (common_round _ (Eat.m_common_claims o)) by done.
  unfold jat. rewrite F1, F2, F3, F4, Hs. cbn [obind get_string get_bool].
  rewrite (read_items_map _ (fun s => JArray [JString "DIGEST"; JArray [JString "SHA256"; JString s]])) by done.
  by destruct o as [? [] ? ? ? ?].
Qed.

Lemma overall_claims_roundtrip_witness :
  let o := Eat.mk_overall "NVIDIA-PLATFORM-ATTESTATION" (Eat.mk_common 1700000000 1700003600 "me" "aa") "3.0"
    {[ "GPU-0" := "d0"; "GPU-1" := "d1" ]} true "nonce" in
  Eat.overall_from_json (Eat.overall_to_json o) = Ret o.
Proof. cbv zeta. rewrite (overall_claims_roundtrip _) by (vm_compute; split; congruence). done. Defined.

(** P: reading back the payload of a device token gives the common claims and
    the device's claims (but for the mode of a GPU, which is not written), of the
    kind of device they are about. *)
Theorem submod_claims_roundtrip (s : Eat.SerializableEATSubmodClaims) :
  - 2 ^ 63 <= Eat.m_iat (Eat.s_common_claims s) < 2 ^ 63 ->
  - 2 ^ 63 <= Eat.m_exp (Eat.s_common_claims s) < 2 ^ 63 ->
  match Eat.s_device_claims s with
  | Collection.Gpu c => GpuClaims.in_range c
  | Collection.Switch c => SwitchClaims.in_range c
  end ->
  Eat.submod_from_json (Eat.submod_to_json s) =
  Ret (Eat.mk_submod (Eat.s_common_claims s) (Collection.without_mode (Eat.s_device_claims s))).
Proof.
  destruct s as [common d]. cbn [Eat.s_common_claims Eat.s_device_claims]. intros Hi He Hd.
  destruct (submod_common_fields common d) as (F1 & F2 & F3 & F4).
  unfold Eat.submod_from_json. rewrite (common_round _ common) by done. cbn [obind].
  unfold jcontains. rewrite !submod_device_fields by done.
  destruct d as [c|c]; cbn [Collection.to_json_object].
  - destruct (gpu_fields c) as (_ & _ & -> & _). rewrite bool_decide_true by done.
    rewrite (gpu_from_json_ext _ (GpuClaims.to_json c)), gpu_json_round by (done || apply (submod_device_fields common (Collection.Gpu c))).
    done.
  - rewrite gpu_no_switch_key, bool_decide_false by (by intros [? ?]).
    destruct (switch_fields c) as (_ & _ & -> & _). rewrite bool_decide_true by done.
    rewrite (switch_from_json_ext _ (SwitchClaims.to_json c)), switch_json_round by (done || apply (submod_device_fields common (Collection.Switch c))).
    done.
Qed.

Lemma submod_claims_roundtrip_witness :
  let s := Eat.mk_submod (Eat.mk_common 1700000000 1700003600 "me" "aa")
             (Collection.Switch SwitchClaims.default) in
  Eat.submod_from_json (Eat.submod_to_json s) = Ret s.
Proof.
  cbv zeta. apply (submod_claims_roundtrip (Eat.mk_submod _ (Collection.Switch _))); [by vm_compute; split|by vm_compute; split|].
  by split_and!.
Defined.

(** The status that comes with a token is the verdict of the policy. *)
Lemma detached_eat_status (env : Eat.Env) claims options out status :
  Eat.get_detached_eat claims options = Ret (out, status) ->
  exists result,
    RegoClaimsEvaluator.evaluate_claims Eat.json_dump Eat.json_parse Eat.rego Eat.overall_result_policy claims =
      Ret result /\ status = if result then None else Some OverallResultFalse.
Proof.
  unfold Eat.get_detached_eat, Eat.get_current_times. intros (jti & _ & Hr)%obind_Ret.
  apply obind_Ret in Hr as (st & _ & Hr). apply obind_Ret in Hr as (result & He & Hr).
  apply obind_Ret in Hr as (_ & _ & Hr). apply obind_Ret in Hr as (token & _ & Hr).
  destruct (Eat.json_dump _); [|done]. injection Hr as _ <-. by exists result.
Qed.

(** P: a detached token that is returned is made of one signed token per
    device, of the common claims and the device's claims, under distinct
    labels that give the device's type and index; the overall token is signed
    over the SHA-256 digest of every device token under the same label, the
    nonce the devices agree on, and the verdict of the overall policy on the
    claims, which is also the status: [OverallResultFalse] exactly when the
    policy did not match. *)
Theorem get_detached_eat_spec (env : Eat.Env) claims options out status :
  Eat.get_detached_eat claims options = Ret (out, status) ->
  exists common result nonce toks digs overall_token,
    Eat.m_iat common = Eat.now /\ Eat.m_exp common = Eat.now + 3600 /\
    Eat.m_iss common = Eat.m_issuer options /\
    RegoClaimsEvaluator.evaluate_claims Eat.json_dump Eat.json_parse Eat.rego Eat.overall_result_policy
      claims = Ret result /\
    status = (if result then None else Some OverallResultFalse) /\
    nonces_agree claims nonce /\
    NoDup (labels claims) /\ Forall2 (token_of options common) claims toks /\
    Forall2 (fun t d => Eat.compute_sha256_hex t = Ret d) toks digs /\
    Eat.sign_token options
      (Eat.overall_to_json
         (Eat.mk_overall "NVIDIA-PLATFORM-ATTESTATION" common "3.0"
            (list_to_map (zip (labels claims) digs)) result nonce)) = Ret overall_token /\
    Eat.json_dump
      (Eat.eat_to_json (Eat.mk_eat overall_token (list_to_map (zip (labels claims) toks)))) = Some out.
Proof.
  intros Hr. unfold Eat.get_detached_eat, Eat.get_current_times in Hr.
  destruct (Eat.make_jti 0) as [jti| | |] eqn:Ej; cbn [obind] in Hr; try discriminate Hr.
  destruct (ofold _ _ _) as [st| | |] eqn:Est; cbn [obind] in Hr; try discriminate Hr.
  apply loop_spec in Est as (_ & Hn & toks & digs & Ht & Hd & Etok & Edig).
  destruct (RegoClaimsEvaluator.evaluate_claims _ _ _ _ _) as [result| | |] eqn:Ee; cbn [obind] in Hr;
    try discriminate Hr.
  apply obind_Ret in Hr as (_ & _ & Hr). rewrite Etok, Edig in Hr.
  destruct (Eat.sign_token _ _) as [token| | |] eqn:Es; cbn [obind] in Hr; try discriminate Hr.
  destruct (Eat.json_dump _) as [text|] eqn:Et; [|discriminate Hr]. injection Hr as <- <-.
  eexists _, result, (Eat.overall_nonce st), toks, digs, token.
  split_and!; try done; try reflexivity. apply labels_NoDup.
Qed.

Example toy_eat :
  Eat.get_detached_eat (env := toy_env) toy_claims toy_options =
  Ret ("overall,GPU-0,GPU-1,SWITCH-0", None).
Proof. vm_compute. reflexivity. Qed.

Lemma get_detached_eat_spec_witness :
  exists common toks,
    Forall2 (token_of (env := toy_env) toy_options common) toy_claims toks /\
    NoDup (labels toy_claims) /\ Eat.m_exp common = 1700003600.
Proof.
  destruct (get_detached_eat_spec toy_env toy_claims toy_options _ _ toy_eat)
    as (common & result & nonce & toks & digs & t & _ & He & _ & _ & _ & _ & Hn & Ht & _).
  exists common, toks. exact (conj Ht (conj Hn He)).
Defined.
