(* ===== verification/Http.v ===== *)
(** * Http: the HTTP client

    src/nv_http.cpp and include/nv_attestation/nv_http.h: the options, the
    choice of the CA bundle, the request libcurl performs and the retry loop
    with its jittered backoff.  libcurl, the file system, the environment and
    the random generator are parameters. *)

From S2P Require Import Prelude Errors Utils.

Module Http.

Definition HTTP_STATUS_OK : Z := 200.
Definition HTTP_STATUS_NOT_FOUND : Z := 404.
Definition HTTP_STATUS_UNAUTHORIZED : Z := 401.
Definition HTTP_STATUS_FORBIDDEN : Z := 403.

Definition NVAT_HTTP_DEFAULT_RETRY_COUNT : Z := 5.
Definition NVAT_HTTP_DEFAULT_BASE_BACKOFF_MS : Z := 100.
Definition NVAT_HTTP_DEFAULT_MAX_BACKOFF_MS : Z := 30000.
Definition NVAT_HTTP_DEFAULT_CONNECTION_TIMEOUT_MS : Z := 5000.
Definition NVAT_HTTP_DEFAULT_REQUEST_TIMEOUT_MS : Z := 30000.

Definition is_http_status_2xx (code : Z) : bool := (200 <=? code) && (code <? 300).
Definition is_http_status_5xx (code : Z) : bool := 500 <=? code.

Definition is_http_retryable (code : Z) : bool :=
  bool_decide (code ∈ [408; 429; 500; 502; 503; 504]).

(** The libcurl codes the client looks at. *)
Definition CURLE_OK : Z := 0.
Definition CURLE_COULDNT_RESOLVE_HOST : Z := 6.
Definition CURLE_COULDNT_CONNECT : Z := 7.
Definition CURLE_OPERATION_TIMEDOUT : Z := 28.

Inductive NvHttpMethod : Type :=
| HTTP_METHOD_GET | HTTP_METHOD_POST | HTTP_METHOD_PUT | HTTP_METHOD_DELETE.

Definition method_str (m : NvHttpMethod) : string :=
  match m with
  | HTTP_METHOD_GET => "GET"
  | HTTP_METHOD_POST => "POST"
  | HTTP_METHOD_PUT => "PUT"
  | HTTP_METHOD_DELETE => "DELETE"
  end.

(** A request; the headers in the order the map yields them. *)
Record NvRequest : Type := mk_request {
  url : string;
  method : NvHttpMethod;
  headers : list (string * string);
  payload : string;
}.

(** What the components that fetch documents need of an HTTP client: the
    status and the body of a request, with the state its calls change. *)
Class INvHttpClient (S : Type) : Type :=
  send_request : S -> NvRequest -> res (Z * string) * S.

(** What libcurl is asked to perform; [None] headers when CURLOPT_HTTPHEADER
    is not set, [None] payload when CURLOPT_POSTFIELDS is not set. *)
Record curl_request : Type := mk_curl {
  c_url : string;
  c_method : string;
  c_headers : option (list string);
  c_payload : option string;
  c_ca_bundle : string;
  c_connect_timeout : Z;
  c_timeout : Z;
}.

(** libcurl, per attempt: its code, the response code and the bytes it wrote;
    and the [n]-th draw of the uniform distribution on [0, b]. *)
Class Curl : Type := {
  curl_easy_perform : nat -> curl_request -> Z * Z * string;
  jitter : nat -> Z -> Z;
}.

(** The platform the CA bundle is looked up on. *)
Class Platform : Type := {
  getenv : string -> option string;
  is_readable_regular_file : string -> bool;
  compiled_default_ca_bundle_path : string;
}.

(** *** The CA bundle *)

Definition CA_BUNDLE_PROBE_PATHS : list string :=
  ["/etc/ssl/certs/ca-certificates.crt"; "/etc/pki/tls/certs/ca-bundle.crt"; "/etc/ssl/ca-bundle.pem";
   "/etc/ca-certificates/extracted/tls-ca-bundle.pem"; "/etc/ssl/cert.pem"].

Section bundle.
Context `{Platform}.

(** The error code with the path and the tier that are filled in. *)
Definition use_authoritative_ca_bundle_path (path tier : string) : Error * string * string :=
  (if negb (is_readable_regular_file path) then InternalError else Ok, path, tier).

Fixpoint first_environment_tier (tiers : list string) : option (string * string) :=
  match tiers with
  | [] => None
  | tier :: tiers =>
      let path := get_env_or_default getenv tier "" in
      if bool_decide (path = "") then first_environment_tier tiers else Some (path, tier)
  end.

Fixpoint first_readable (paths : list string) : option string :=
  match paths with
  | [] => None
  | p :: paths => if is_readable_regular_file p then Some p else first_readable paths
  end.

Definition resolve_ca_bundle_path_with_overrides (explicit_path : string)
    (compiled_default_override : option string) (probe_paths_override : option (list string)) :
    Error * string * string :=
  if negb (bool_decide (explicit_path = "")) then use_authoritative_ca_bundle_path explicit_path "--ca-bundle"
  else
    match first_environment_tier ["NVAT_CA_BUNDLE"; "CURL_CA_BUNDLE"; "SSL_CERT_FILE"] with
    | Some (path, tier) => use_authoritative_ca_bundle_path path tier
    | None =>
        let compiled_default := default compiled_default_ca_bundle_path compiled_default_override in
        if is_readable_regular_file compiled_default then (Ok, compiled_default, "libcurl compiled default")
        else
          match first_readable (default CA_BUNDLE_PROBE_PATHS probe_paths_override) with
          | Some path => (Ok, path, "system CA bundle probe")
          | None => (InternalError, "", "no readable CA bundle; provide one with --ca-bundle or NVAT_CA_BUNDLE")
          end
    end.

Definition resolve_ca_bundle_path (explicit_path : string) : Error * string * string :=
  resolve_ca_bundle_path_with_overrides explicit_path None None.

End bundle.

(** *** Options *)

Record HttpOptions : Type := mk_http_options {
  max_retry_count : Z;
  base_backoff_ms : Z;
  max_backoff_ms : Z;
  connection_timeout_ms : Z;
  request_timeout_ms : Z;
  ca_bundle_path : string;
  ca_bundle_path_tier : string;
  ca_bundle_path_error : Error;
}.

Definition HttpOptions_of `{Platform} (retry base_backoff max_backoff connection_timeout request_timeout : Z) :
    HttpOptions :=
  let '(err, path, tier) := resolve_ca_bundle_path "" in
  mk_http_options (Z.max 0 retry) (Z.max 0 base_backoff) (Z.max 0 max_backoff) (Z.max 0 connection_timeout)
    (Z.max 0 request_timeout) path tier err.

Definition HttpOptions_default `{Platform} : HttpOptions :=
  HttpOptions_of NVAT_HTTP_DEFAULT_RETRY_COUNT NVAT_HTTP_DEFAULT_BASE_BACKOFF_MS
    NVAT_HTTP_DEFAULT_MAX_BACKOFF_MS NVAT_HTTP_DEFAULT_CONNECTION_TIMEOUT_MS
    NVAT_HTTP_DEFAULT_REQUEST_TIMEOUT_MS.

Definition set_ca_bundle_path `{Platform} (o : HttpOptions) (path : string) : Error * HttpOptions :=
  let '(err, out_path, tier) := resolve_ca_bundle_path path in
  (err, mk_http_options (max_retry_count o) (base_backoff_ms o) (max_backoff_ms o)
          (connection_timeout_ms o) (request_timeout_ms o) out_path tier err).

(** *** Requests *)

Record NvHttpClient : Type := mk_client {
  m_options : HttpOptions;
  m_service_key : string;
}.

Definition create (service_key : string) (options : HttpOptions) : NvHttpClient :=
  mk_client options service_key.

(** CURLOPT_HTTPHEADER is set from the request's headers; the Authorization
    header is appended to the list afterwards, and a list that was empty until
    then is never handed to libcurl. *)
Definition curl_headers (c : NvHttpClient) (r : NvRequest) : option (list string) :=
  match headers r with
  | [] => None
  | hs =>
      Some (((fun h => h.1 +:+ ": " +:+ h.2) <$> hs) ++
            (if bool_decide (m_service_key c = "") then []
             else ["Authorization: Bearer " +:+ m_service_key c]))
  end.

Definition to_curl (c : NvHttpClient) (r : NvRequest) : curl_request :=
  mk_curl (url r) (method_str (method r)) (curl_headers c r)
    (if bool_decide (payload r = "") then None else Some (payload r))
    (ca_bundle_path (m_options c)) (connection_timeout_ms (m_options c)) (request_timeout_ms (m_options c)).

Definition retryable_curl_error (code : Z) : bool :=
  (code =? CURLE_COULDNT_CONNECT) || (code =? CURLE_COULDNT_RESOLVE_HOST) || (code =? CURLE_OPERATION_TIMEDOUT).

Section Request.
Context `{Curl}.

(** The loop from the [k]-th attempt with [n] retries left after it: the
    sleeps, and the status and response or the error. [last_error] and
    [out_status] are what the attempts so far left. *)
Fixpoint attempts (n k : nat) (q : curl_request) (max_backoff backoff : Z) (last_error : Error)
    (out_status : Z) : list Z * res (Z * string) :=
  let '(sleeps, backoff', ok) :=
    if bool_decide (k = O) then ([], backoff, true)
    else ([jitter k backoff], Z.min (backoff * 2) max_backoff, backoff * 2 <? 2 ^ 63) in
  if negb ok then (sleeps, UB) else
  let '(curl_code, response_code, out_response) := curl_easy_perform k q in
  let again last_error out_status :=
    match n with
    | O => (sleeps, if bool_decide (last_error = Ok) then Ret (out_status, out_response) else Err last_error)
    | S n =>
        let '(more, r) := attempts n (S k) q max_backoff backoff' last_error out_status in
        (sleeps ++ more, r)
    end in
  if negb (curl_code =? CURLE_OK) then
    if retryable_curl_error curl_code then again last_error out_status else (sleeps, Err InternalError)
  else if is_http_status_2xx response_code then (sleeps, Ret (response_code, out_response))
  else if negb (is_http_retryable response_code) then (sleeps, Ret (response_code, out_response))
  else again Ok response_code.

(** [do_request_as_string], with the sleeps it makes. *)
Definition do_request (c : NvHttpClient) (request : NvRequest) : list Z * res (Z * string) :=
  let o := m_options c in
  if negb (bool_decide (ca_bundle_path_error o = Ok)) || bool_decide (ca_bundle_path o = "")
  then ([], Err InternalError)
  else attempts (Z.to_nat (max_retry_count o)) 0 (to_curl c request) (max_backoff_ms o) (base_backoff_ms o)
         InternalError 0.

Definition do_request_as_string (c : NvHttpClient) (request : NvRequest) : res (Z * string) :=
  (do_request c request).2.

End Request.

(** A client over a network that changes from request to request. *)
Record session : Type := mk_session {
  client : NvHttpClient;
  requests : nat;
  network : nat -> Curl;
}.

#[global] Instance session_client : INvHttpClient session :=
  fun s request =>
    (do_request_as_string (H:=network s (requests s)) (client s) request,
     mk_session (client s) (S (requests s)) (network s)).

(** *** What the retry loop means *)

(** What one attempt amounts to. *)
Inductive verdict : Type :=
| Fatal
| Answered (status : Z) (body : string)
| NoConnection (body : string)
| Busy (status : Z) (body : string).

Definition verdict_of (r : Z * Z * string) : verdict :=
  let '(curl_code, response_code, body) := r in
  if curl_code =? CURLE_OK then
    if is_http_status_2xx response_code || negb (is_http_retryable response_code)
    then Answered response_code body else Busy response_code body
  else if retryable_curl_error curl_code then NoConnection body else Fatal.

(** The specification: the first attempt that is fatal or answered decides;
    when all are used up, the last busy status with the last response's body,
    or an error when no attempt reached the server. *)
Fixpoint retry_spec (busy : option Z) (vs : list verdict) (last_body : string) : res (Z * string) :=
  match vs with
  | [] => match busy with Some status => Ret (status, last_body) | None => Err InternalError end
  | Fatal :: _ => Err InternalError
  | Answered status body :: _ => Ret (status, body)
  | NoConnection body :: vs => retry_spec busy vs body
  | Busy status body :: vs => retry_spec (Some status) vs body
  end.

(** The upper ends of the backoff windows: the base, then doubled up to the
    maximum. *)
Fixpoint windows (n : nat) (max_backoff backoff : Z) : list Z :=
  match n with
  | O => []
  | S n => backoff :: windows n max_backoff (Z.min (backoff * 2) max_backoff)
  end.

(** The attempts that are made: up to and with the first that decides. *)
Fixpoint attempts_made (vs : list verdict) : nat :=
  match vs with
  | [] => O
  | Fatal :: _ | Answered _ _ :: _ => 1
  | NoConnection _ :: vs | Busy _ _ :: vs => S (attempts_made vs)
  end.

(** A server that is busy once and then answers, and a client of it. *)
Definition toy_curl : Curl := {|
  curl_easy_perform := fun k _ => if bool_decide (k = O) then (0, 503, "busy") else (0, 200, "hello");
  jitter := fun _ b => b / 2;
|}.

Definition toy_http_client : NvHttpClient :=
  mk_client (mk_http_options 3 100 30000 5000 30000 "/ca.pem" "--ca-bundle" Ok) "key".

Definition toy_request : NvRequest := mk_request "https://host/x" HTTP_METHOD_GET [("A", "b")] "".

End Http.

(** ** Lemmas *)

Module HttpFacts.
Import Http.

Section facts.
Context `{Curl}.

Lemma attempts_first n q maxb b :
  attempts n 0 q maxb b InternalError 0 =
  let '(curl_code, response_code, out_response) := curl_easy_perform 0 q in
  let again last_error out_status :=
    match n with
    | O => ([], if bool_decide (last_error = Ok) then Ret (out_status, out_response) else Err last_error)
    | S n => attempts n 1 q maxb b last_error out_status
    end in
  match verdict_of (curl_easy_perform 0 q) with
  | Fatal => ([], Err InternalError)
  | Answered status body => ([], Ret (status, body))
  | NoConnection _ => again InternalError 0
  | Busy status _ => again Ok status
  end.
Proof.
  destruct n as [|n]; cbn [attempts]; rewrite bool_decide_true by done; cbn [negb];
    destruct (curl_easy_perform 0 q) as [[code status] body]; unfold verdict_of;
    destruct (code =? CURLE_OK), (is_http_status_2xx status), (is_http_retryable status),
      (retryable_curl_error code); cbn [negb orb]; try done; by destruct (attempts _ _ _ _ _ _ _).
Qed.

(** A retry, when doubling the window does not overflow. *)
Lemma attempts_next n k q maxb b le st :
  b * 2 < 2 ^ 63 ->
  attempts n (S k) q maxb b le st =
  let '(curl_code, response_code, out_response) := curl_easy_perform (S k) q in
  let again last_error out_status :=
    match n with
    | O => ([jitter (S k) b],
            if bool_decide (last_error = Ok) then Ret (out_status, out_response) else Err last_error)
    | S n => let '(more, r) := attempts n (S (S k)) q maxb (Z.min (b * 2) maxb) last_error out_status in
             ([jitter (S k) b] ++ more, r)
    end in
  match verdict_of (curl_easy_perform (S k) q) with
  | Fatal => ([jitter (S k) b], Err InternalError)
  | Answered status body => ([jitter (S k) b], Ret (status, body))
  | NoConnection _ => again le st
  | Busy status _ => again Ok status
  end.
Proof.
  intros Hb. destruct n as [|n]; cbn [attempts]; rewrite bool_decide_false by done;
    (replace (b * 2 <? 2 ^ 63) with true by lia); cbn [negb];
    destruct (curl_easy_perform (S k) q) as [[code status] body]; unfold verdict_of;
    destruct (code =? CURLE_OK), (is_http_status_2xx status), (is_http_retryable status),
      (retryable_curl_error code); cbn [negb orb]; done.
Qed.

Definition verdicts (q : curl_request) (k n : nat) : list verdict :=
  (fun k => verdict_of (curl_easy_perform k q)) <$> seq k n.

Definition busy_of (le : Error) (st : Z) : option Z :=
  if bool_decide (le = Ok) then Some st else None.

Lemma retries_spec n k q maxb b le st :
  le = Ok \/ le = InternalError -> 0 <= b -> 0 <= maxb -> b * 2 < 2 ^ 63 -> maxb * 2 < 2 ^ 63 ->
  (forall body, (attempts n (S k) q maxb b le st).2 = retry_spec (busy_of le st) (verdicts q (S k) (S n)) body) /\
  (attempts n (S k) q maxb b le st).1 =
    zip_with jitter (seq (S k) (attempts_made (verdicts q (S k) (S n)))) (windows (S n) maxb b).
Proof.
  intros Hle H0 H1 H2 H3. revert k b le st Hle H0 H2.
  induction n as [|n IH]; intros k b le st Hle H0 H2; rewrite attempts_next by done;
    destruct (curl_easy_perform (S k) q) as [[code status] body] eqn:Ep;
    unfold verdicts; cbn [seq fmap list_fmap retry_spec attempts_made windows]; rewrite Ep;
    destruct (verdict_of (code, status, body)) as [|s' body'|body'|s' body'] eqn:Ev.
  all: try (split; done).
  all: try match goal with
       | IH : forall k b le st, _ |- context [attempts ?n (S ?k') ?q ?mx ?b' ?le' ?st'] =>
           destruct (IH k' b' le' st') as [IH1 IH2]; [auto|lia|lia|];
           destruct (attempts n (S k') q mx b' le' st') as [more r] eqn:Ea; cbn in IH1, IH2
       end.
  all: try (split; [let w := fresh in intros w; exact (IH1 w)|by rewrite IH2]).
  all: split; [intros ?|done].
  all: unfold busy_of; assert (body' = body) as -> by (unfold verdict_of in Ev; repeat case_match; congruence).
  all: try (rewrite bool_decide_true by done); try done.
  destruct Hle as [-> | ->]; done.
Qed.

Lemma request_spec n q maxb b :
  0 <= b -> 0 <= maxb -> b * 2 < 2 ^ 63 -> maxb * 2 < 2 ^ 63 ->
  (attempts n 0 q maxb b InternalError 0).2 = retry_spec None (verdicts q 0 (S n)) "" /\
  (attempts n 0 q maxb b InternalError 0).1 =
    zip_with jitter (seq 1 (attempts_made (verdicts q 0 (S n)) - 1)) (windows n maxb b).
Proof.
  intros H0 H1 H2 H3. rewrite attempts_first.
  destruct (curl_easy_perform 0 q) as [[code status] body] eqn:Ep.
  unfold verdicts. cbn [seq fmap list_fmap retry_spec attempts_made]. rewrite Ep.
  destruct (verdict_of (code, status, body)) as [|s' body'|body'|s' body'] eqn:Ev; rewrite ?Nat.sub_succ, ?Nat.sub_0_r.
  1,2: split; done.
  - destruct n as [|n]; [split; done|].
    destruct (retries_spec n 0 q maxb b InternalError 0) as [IH1 IH2]; [auto|lia|lia|lia|lia|].
    split; [exact (IH1 body')|exact IH2].
  - destruct n as [|n].
    + split; [|done]. rewrite bool_decide_true by done. cbn.
      by assert (body' = body) as -> by (unfold verdict_of in Ev; repeat case_match; congruence).
    + destruct (retries_spec n 0 q maxb b Ok s') as [IH1 IH2]; [auto|lia|lia|lia|lia|].
      split; [exact (IH1 body')|exact IH2].
Qed.

End facts.

Section platform.
Context `{Platform}.

Lemma first_tier_Some tiers path tier :
  first_environment_tier tiers = Some (path, tier) ->
  exists i, tiers !! i = Some tier /\ path = get_env_or_default getenv tier "" /\ path <> "" /\
    Forall (fun v => get_env_or_default getenv v "" = "") (take i tiers).
Proof.
  induction tiers as [|t tiers IH]; cbn [first_environment_tier]; [done|]. case_bool_decide as Ht.
  - intros (i & ? & ? & ? & ?)%IH. exists (S i). split_and!; try done. by constructor.
  - intros [= <- <-]. exists O. by split_and!.
Qed.

Lemma first_tier_None tiers :
  first_environment_tier tiers = None -> Forall (fun v => get_env_or_default getenv v "" = "") tiers.
Proof.
  induction tiers as [|t tiers IH]; cbn [first_environment_tier]; [constructor|].
  case_bool_decide; [|done]. constructor; auto.
Qed.

Lemma first_readable_Some paths p :
  first_readable paths = Some p -> p ∈ paths /\ is_readable_regular_file p = true.
Proof.
  induction paths as [|q paths IH]; cbn [first_readable]; [done|].
  destruct (is_readable_regular_file q) eqn:E.
  - intros [= <-]. split; [by left|done].
  - intros [? ?]%IH. split; [by right|done].
Qed.

Lemma first_readable_None paths :
  first_readable paths = None -> ~ Exists (fun p => is_readable_regular_file p = true) paths.
Proof.
  induction paths as [|q paths IH]; cbn [first_readable]; [intros _ Hx; by apply Exists_nil in Hx|].
  destruct (is_readable_regular_file q) eqn:E; [done|]. intros Hn Hx. apply Exists_cons in Hx. revert Hx.
  intros [?|?]; [congruence|]. by apply IH.
Qed.

End platform.

(** ** Properties *)

Section request_properties.
Context `{Curl}.

(** C39: a request ends after at most [max_retry_count] retries with the result
    of the first attempt that is answered or fails for good, or, when all are
    used up, with the last busy status or an error; it sleeps exactly once for
    every retry that it makes, and for the [i]-th a draw from the [i]-th
    backoff window, the base and then twice the previous window, at most the
    maximum.  The CA bundle is there and the windows are below 2^62. *)
Theorem http_retry_spec (c : NvHttpClient) (r : NvRequest) :
  let o := m_options c in
  ca_bundle_path_error o = Ok -> ca_bundle_path o <> "" ->
  0 <= base_backoff_ms o < 2 ^ 62 -> 0 <= max_backoff_ms o < 2 ^ 62 ->
  do_request_as_string c r =
    retry_spec None (verdicts (to_curl c r) 0 (S (Z.to_nat (max_retry_count o)))) "" /\
  (do_request c r).1 =
    zip_with jitter
      (seq 1 (attempts_made (verdicts (to_curl c r) 0 (S (Z.to_nat (max_retry_count o)))) - 1))
      (windows (Z.to_nat (max_retry_count o)) (max_backoff_ms o) (base_backoff_ms o)).
Proof.
  intros o He Hp [Hb Hb'] [Hm Hm']. unfold do_request_as_string, do_request. fold o.
  rewrite (bool_decide_true (_ = Ok)), bool_decide_false by done. cbn [negb orb].
  apply request_spec; lia.
Qed.

(** P: the Authorization header carries the service key exactly when the
    request has headers of its own: without any, the header list is built but
    never handed to libcurl and the request goes out unauthenticated. *)
Theorem http_authorization (c : NvHttpClient) (r : NvRequest) :
  m_service_key c <> "" ->
  (headers r <> [] ->
     exists hs, c_headers (to_curl c r) = Some (hs ++ ["Authorization: Bearer " +:+ m_service_key c])) /\
  (headers r = [] -> c_headers (to_curl c r) = None).
Proof.
  intros Hk. unfold to_curl, curl_headers. cbn. rewrite bool_decide_false by done.
  split; [|by intros E; rewrite E]. destruct (headers r) as [|h l]; [done|]. intros _.
  by exists ((fun h => h.1 +:+ ": " +:+ h.2) <$> h :: l).
Qed.

End request_properties.

Lemma http_retry_spec_witness :
  do_request_as_string (H:=toy_curl) toy_http_client toy_request = Ret (200, "hello") /\
  (do_request (H:=toy_curl) toy_http_client toy_request).1 = [50].
Proof.
  destruct (http_retry_spec (H:=toy_curl) toy_http_client toy_request) as [-> ->]; try (by cbn; lia); done.
Defined.

Lemma http_authorization_witness :
  exists hs, c_headers (to_curl toy_http_client toy_request) = Some (hs ++ ["Authorization: Bearer key"]).
Proof. apply (http_authorization toy_http_client toy_request); done. Defined.


(** P: the CA bundle is the explicit path when there is one, else the first
    environment variable that is set; such a path is authoritative, readable
    or not.  Only without them is a readable file looked for, at libcurl's
    compiled default and then at the known places.  The result is [Ok] only
    with a readable file. *)
Theorem ca_bundle_resolution `{Platform} (explicit_path : string) :
  let envs := ["NVAT_CA_BUNDLE"; "CURL_CA_BUNDLE"; "SSL_CERT_FILE"] in
  let unset v := get_env_or_default getenv v "" = "" in
  let '(err, path, tier) := resolve_ca_bundle_path explicit_path in
  (err = Ok \/ err = InternalError) /\ (err = Ok -> is_readable_regular_file path = true) /\
  (explicit_path <> "" -> path = explicit_path /\ tier = "--ca-bundle") /\
  (forall i v, explicit_path = "" -> envs !! i = Some v -> ~ unset v -> Forall unset (take i envs) ->
     path = get_env_or_default getenv v "" /\ tier = v) /\
  (explicit_path = "" -> Forall unset envs ->
     (err = Ok <-> Exists (fun p => is_readable_regular_file p = true)
                     (compiled_default_ca_bundle_path :: CA_BUNDLE_PROBE_PATHS)) /\
     (err = Ok -> path ∈ compiled_default_ca_bundle_path :: CA_BUNDLE_PROBE_PATHS)).
Proof.
  intros envs unset. unfold resolve_ca_bundle_path, resolve_ca_bundle_path_with_overrides.
  unfold use_authoritative_ca_bundle_path. fold envs.
  destruct (decide (explicit_path = "")) as [->|He].
  2:{ rewrite bool_decide_false by done. cbn [negb].
      destruct (is_readable_regular_file explicit_path) eqn:Er; cbn [negb];
        (split; [auto|]; split; [done|]; split; [done|]; split; [by intros ? ? ?|by intros ?]). }
  rewrite bool_decide_true by done. cbn [negb default].
  destruct (first_environment_tier envs) as [[path tier]|] eqn:Ee.
  - apply first_tier_Some in Ee as (i & Hi & Hp & Hu & Hb).
    destruct (is_readable_regular_file path) eqn:Er; cbn [negb];
      (split; [auto|]; split; [done|]; split; [done|]; split;
       [|intros _ Hall; exfalso; apply Hu; rewrite Forall_lookup in Hall; rewrite Hp; exact (Hall i tier Hi)]);
      intros j v _ Hj Hv Hbj;
      (assert (j = i) as ->; [|by simplify_eq]);
      destruct (Nat.lt_trichotomy j i) as [Hlt|[->|Hlt]]; try done; exfalso.
    all: first [apply Hv; rewrite Forall_lookup in Hb; apply (Hb j); rewrite lookup_take_lt by done; exact Hj
               |apply Hu; rewrite Forall_lookup in Hbj; rewrite Hp; apply (Hbj i); rewrite lookup_take_lt by done; exact Hi].
  - apply first_tier_None in Ee.
    destruct (is_readable_regular_file compiled_default_ca_bundle_path) eqn:Ec.
    + split; [auto|]; split; [done|]; split; [done|]; split.
      * intros i v _ Hi Hv. exfalso. apply Hv. rewrite Forall_lookup in Ee. exact (Ee i v Hi).
      * intros _ _. split; [|by left]. split; [by left|done].
    + destruct (first_readable CA_BUNDLE_PROBE_PATHS) as [p|] eqn:Ep.
      * apply first_readable_Some in Ep as [Hin Hr].
        split; [auto|]; split; [done|]; split; [done|]; split.
        -- intros i v _ Hi Hv. exfalso. apply Hv. rewrite Forall_lookup in Ee. exact (Ee i v Hi).
        -- intros _ _. split; [|by right]. split; [|done]. intros _. right. apply Exists_exists. eauto.
      * split; [auto|]; split; [done|]; split; [done|]; split.
        -- intros i v _ Hi Hv. exfalso. apply Hv. rewrite Forall_lookup in Ee. exact (Ee i v Hi).
        -- intros _ _. split; [|done]. split; [done|]. rewrite Exists_cons.
           intros [?|Hex]; [congruence|]. by apply first_readable_None in Ep.
Qed.

End HttpFacts.
