(* ===== verification/Jwt.v ===== *)
(** * Jwt: signed tokens and the key store

    src/nv_jwt.cpp: the store of JSON web keys with its refresh, and the
    validation of a token.  The JWT library, the JSON parser and the HTTP
    client are parameters. *)

From S2P Require Import Prelude Errors Utils Json OpenSsl NvCache Ocsp X509Chain Claims Evaluator DetachedEat Http.

(** What the code takes from the libraries: [jwt_decode] splits a token into
    its header and payload texts and throws ([None]) on a malformed one;
    [es384_usable] tells whether the ES384 verifier takes a key, or its
    constructor throws; [es384_verify] is the verifier on a token. *)
Class JwtLib : Type := {
  jwt_decode : string -> option (string * string);
  es384_usable : string -> bool;
  es384_verify : string -> string -> bool;
  jwt_json_parse : string -> option json;
}.

Module Jwt.

Section jwt.
Context `{L : JwtLib} {C : Type} `{!Http.INvHttpClient C}.

Record Jwk : Type := mk_jwk {
  kid : string;
  pem_public_key : string;
}.

Definition DEFAULT_JWKS_CACHE_DURATION_MS : Z := 900000.
Definition PEM_LINE_LENGTH : nat := 64.

Record JwkStore : Type := mk_store {
  m_jwks_url : string;
  m_cache_duration_ms : Z;
  m_last_update_unix_ms : Z;
  m_jwks : gmap string Jwk;
  m_http_client : C;
}.

Definition init_from_env (jwks_url : string) (http_client : C) (cache_duration_ms : Z) : JwkStore :=
  mk_store jwks_url cache_duration_ms 0 ∅ http_client.

(** The lines of 64 characters the loop makes of the base64 text. *)
Fixpoint pem_lines (fuel : nat) (raw : string) : string :=
  match fuel with
  | O => ""
  | S fuel =>
      if bool_decide (raw = "") then ""
      else (String.substring 0 PEM_LINE_LENGTH raw +:+ String (byte_ascii 10) "") +:+
           pem_lines fuel (String.substring PEM_LINE_LENGTH (String.length raw - PEM_LINE_LENGTH) raw)
  end.

Definition newline : string := String (byte_ascii 10) "".

Definition wrap_public_key (raw_public_key : string) : string :=
  ("-----BEGIN CERTIFICATE-----" +:+ newline) +:+
  pem_lines (String.length raw_public_key) raw_public_key +:+
  ("-----END CERTIFICATE-----" +:+ newline).

(** One entry of the key set; entries without a key id or a certificate are
    skipped. *)
Definition add_key (jwks : gmap string Jwk) (key : json) : res (gmap string Jwk) :=
  match jfield key "kid", jfield key "x5c" with
  | Some (JString kid), Some (JArray (cert :: _)) =>
      let* raw_public_key := get_string cert in
      Ret (<[kid := mk_jwk kid (wrap_public_key raw_public_key)]> jwks)
  | _, _ => Ret jwks
  end.

(** The keys of a response's body. *)
Definition read_jwks (response : string) : res (gmap string Jwk) :=
  let* jwks_response := deserialize_from_json jwt_json_parse Ret response in
  match jfield jwks_response "keys" with
  | None => Err NrasAttestationError
  | Some keys => ofold add_key (Eat.items keys).*2 ∅
  end.

(** [refresh_jwks], from the emptied store; the entries read before an entry
    that throws stay in the store. *)
Fixpoint keep_keys (keys : list json) (jwks : gmap string Jwk) : res unit * gmap string Jwk :=
  match keys with
  | [] => (Ret tt, jwks)
  | key :: keys =>
      match add_key jwks key with
      | Ret jwks => keep_keys keys jwks
      | Err e => (Err e, jwks)
      | Throw x => (Throw x, jwks)
      | UB => (UB, jwks)
      end
  end.

Definition set_jwks (s : JwkStore) (jwks : gmap string Jwk) (http : C) : JwkStore :=
  mk_store (m_jwks_url s) (m_cache_duration_ms s) (m_last_update_unix_ms s) jwks http.

Definition refresh_jwks : sm JwkStore Error unit := fun s =>
  let '(r, http) := Http.send_request (m_http_client s)
                      (Http.mk_request (m_jwks_url s) Http.HTTP_METHOD_GET [] "") in
  match r with
  | Ret (_, response) =>
      match deserialize_from_json jwt_json_parse Ret response with
      | Ret jwks_response =>
          match jfield jwks_response "keys" with
          | None => (Err NrasAttestationError, set_jwks s (m_jwks s) http)
          | Some keys =>
              let '(r, jwks) := keep_keys (Eat.items keys).*2 (m_jwks s) in (r, set_jwks s jwks http)
          end
      | Err e => (Err e, set_jwks s (m_jwks s) http)
      | Throw x => (Throw x, set_jwks s (m_jwks s) http)
      | UB => (UB, set_jwks s (m_jwks s) http)
      end
  | Err e => (Err e, set_jwks s (m_jwks s) http)
  | Throw x => (Throw x, set_jwks s (m_jwks s) http)
  | UB => (UB, set_jwks s (m_jwks s) http)
  end.

Definition in_int64 (z : Z) : bool := (- 2 ^ 63 <=? z) && (z <? 2 ^ 63).

(** [get_jwk_by_kid] at the time [now_ms]; an exception leaves the time of the
    last update as it was. *)
Definition get_jwk_by_kid (now_ms : Z) (kid : string) : sm JwkStore Error Jwk := fun s =>
  if negb (in_int64 (m_last_update_unix_ms s + m_cache_duration_ms s)) then (UB, s) else
  let cache_expired := m_last_update_unix_ms s + m_cache_duration_ms s <? now_ms in
  let cache_miss := bool_decide (m_jwks s !! kid = None) in
  let find (s : JwkStore) : res Jwk * JwkStore :=
    match m_jwks s !! kid with Some jwk => (Ret jwk, s) | None => (Err CertNotFound, s) end in
  if cache_expired || cache_miss then
    let '(r, s) := refresh_jwks (set_jwks s ∅ (m_http_client s)) in
    let updated := mk_store (m_jwks_url s) (m_cache_duration_ms s) now_ms (m_jwks s) (m_http_client s) in
    match r with
    | Ret _ => find updated
    | Err e => (Err e, updated)
    | Throw x => (Throw x, s)
    | UB => (UB, s)
    end
  else find s.

(** [NvJwt::validate_and_decode]. *)
Definition validate_and_decode (now_ms : Z) (jwt_token eat_issuer : string) : sm JwkStore Error string :=
  match jwt_decode jwt_token with
  | None => slift (Throw runtime_error)
  | Some (header_text, payload_text) =>
      let texts : res (string * string) :=
        match jwt_json_parse header_text, jwt_json_parse payload_text with
        | Some decoded_header, Some decoded_payload =>
            let* kid := let* v := jat decoded_header "kid" in get_string v in
            let* issuer := let* v := jat decoded_payload "iss" in get_string v in
            Ret (kid, issuer)
        | _, _ => Throw json_exception
        end in
      match texts with
      | Ret (kid, issuer) =>
          guard* bool_decide (issuer = eat_issuer) else NrasTokenInvalid in
          do* jwk := get_jwk_by_kid now_ms kid in
          if negb (es384_usable (pem_public_key jwk)) then slift (Throw runtime_error)
          else
            guard* es384_verify (pem_public_key jwk) jwt_token else NrasTokenInvalid in
            sret payload_text
      | _ => slift (Err NrasTokenInvalid)
      end
  end.

(** ** Lemmas *)

Lemma keep_keys_Ret keys jwks jwks' :
  keep_keys keys jwks = (Ret tt, jwks') <-> ofold add_key keys jwks = Ret jwks'.
Proof.
  revert jwks. induction keys as [|key keys IH]; intros jwks; cbn.
  { split; [by intros [= ->]|by intros [= ->]]. }
  destruct (add_key jwks key); cbn; [apply IH|split; congruence..].
Qed.

(** A successful refresh stores the keys of the response it received. *)
Lemma refresh_Ret s s' :
  refresh_jwks (set_jwks s ∅ (m_http_client s)) = (Ret tt, s') ->
  exists status response http,
    Http.send_request (m_http_client s) (Http.mk_request (m_jwks_url s) Http.HTTP_METHOD_GET [] "") =
      (Ret (status, response), http) /\
    read_jwks response = Ret (m_jwks s') /\ s' = set_jwks s (m_jwks s') http.
Proof.
  unfold refresh_jwks, read_jwks. cbn [set_jwks m_http_client m_jwks_url m_jwks].
  destruct (Http.send_request _ _) as [[[status response]|e|x|] http] eqn:Es; try discriminate.
  destruct (deserialize_from_json _ _ response) as [j| | |] eqn:Ed; try discriminate.
  destruct (jfield j "keys") as [keys|] eqn:Ek; [|discriminate].
  destruct (keep_keys _ _) as [r jwks] eqn:Er. intros [= -> <-].
  apply keep_keys_Ret in Er. exists status, response, http.
  rewrite Ed. cbn [obind]. rewrite Ek. by split_and!.
Qed.

(** How a key comes out of the store: cached and not expired, or just
    downloaded. *)
Definition key_source (now_ms : Z) (kid : string) (s : JwkStore) (jwk : Jwk) (s' : JwkStore) : Prop :=
  (s' = s /\ m_jwks s !! kid = Some jwk /\ now_ms <= m_last_update_unix_ms s + m_cache_duration_ms s) \/
  (exists status response http jwks,
     Http.send_request (m_http_client s) (Http.mk_request (m_jwks_url s) Http.HTTP_METHOD_GET [] "") =
       (Ret (status, response), http) /\
     read_jwks response = Ret jwks /\ jwks !! kid = Some jwk /\
     s' = mk_store (m_jwks_url s) (m_cache_duration_ms s) now_ms jwks http).

Lemma get_jwk_source now_ms kid s jwk s' :
  get_jwk_by_kid now_ms kid s = (Ret jwk, s') -> key_source now_ms kid s jwk s'.
Proof.
  unfold get_jwk_by_kid. destruct (in_int64 _); cbn [negb]; [|discriminate].
  destruct (_ || bool_decide (m_jwks s !! kid = None)) eqn:Er.
  - destruct (refresh_jwks _) as [[[]|e|x|] s1] eqn:E1; try discriminate.
    apply refresh_Ret in E1 as (status & response & http & Hs & Hr & ->). cbn.
    destruct (m_jwks s1 !! kid) as [jwk'|] eqn:Ek; [|discriminate]. intros [= <- <-]. right.
    by exists status, response, http, (m_jwks s1).
  - apply orb_false_iff in Er as [Ht _]. apply Z.ltb_ge in Ht.
    destruct (m_jwks s !! kid) as [jwk'|] eqn:Ek; [|discriminate]. intros [= <- <-]. by left.
Qed.

(** A validated token: issuer, key and signature. *)
Definition valid_token (now_ms : Z) (token eat_issuer : string) (s : JwkStore) (payload : string)
    (s' : JwkStore) : Prop :=
  exists header_text header body kid jwk,
    jwt_decode token = Some (header_text, payload) /\
    jwt_json_parse header_text = Some header /\ jwt_json_parse payload = Some body /\
    jfield header "kid" = Some (JString kid) /\ jfield body "iss" = Some (JString eat_issuer) /\
    key_source now_ms kid s jwk s' /\ es384_verify (pem_public_key jwk) token = true.

Lemma jat_string j k s : (let* v := jat j k in get_string v) = Ret s -> jfield j k = Some (JString s).
Proof. unfold jat. destruct (jfield j k) as [[]|]; cbn; congruence. Qed.

Lemma validate_sound now_ms token eat_issuer s payload s' :
  validate_and_decode now_ms token eat_issuer s = (Ret payload, s') ->
  valid_token now_ms token eat_issuer s payload s'.
Proof.
  unfold validate_and_decode. destruct (jwt_decode token) as [[ht pt]|] eqn:Ed; [|discriminate].
  destruct (jwt_json_parse ht) as [header|] eqn:Eh; [|discriminate].
  destruct (jwt_json_parse pt) as [body|] eqn:Eb; [|discriminate].
  destruct (let* v := jat header "kid" in get_string v) as [kid| | |] eqn:Ek; cbn [obind]; try discriminate.
  destruct (let* v := jat body "iss" in get_string v) as [iss| | |] eqn:Ei; cbn [obind]; try discriminate.
  case_bool_decide as Hi; [subst iss|discriminate].
  intros (jwk & s1 & Hj & Hr)%sbind_Ret.
  destruct (es384_usable (pem_public_key jwk)); cbn [negb] in Hr; [|discriminate].
  destruct (es384_verify (pem_public_key jwk) token) eqn:Ev; [|discriminate].
  injection Hr as <- <-. exists ht, header, body, kid, jwk.
  split_and!; try done; [by apply jat_string|by apply jat_string|by apply get_jwk_source].
Qed.

(** *** Keys of a service

    [K] is a property of the keys a service serves at an address; a store is
    good when it is for that address and holds only such keys. *)
Section trust.
Context (url : string) (K : string -> Jwk -> Prop).

Definition served_good : Prop :=
  forall http status response http' jwks kid jwk,
    Http.send_request http (Http.mk_request url Http.HTTP_METHOD_GET [] "") = (Ret (status, response), http') ->
    read_jwks response = Ret jwks -> jwks !! kid = Some jwk -> K kid jwk.

Definition store_good (s : JwkStore) : Prop :=
  m_jwks_url s = url /\ forall kid jwk, m_jwks s !! kid = Some jwk -> K kid jwk.

(** A token signed under one of those keys. *)
Definition signed_token (token eat_issuer payload : string) : Prop :=
  exists header_text header body kid jwk,
    jwt_decode token = Some (header_text, payload) /\
    jwt_json_parse header_text = Some header /\ jwt_json_parse payload = Some body /\
    jfield header "kid" = Some (JString kid) /\ jfield body "iss" = Some (JString eat_issuer) /\
    K kid jwk /\ es384_verify (pem_public_key jwk) token = true.

Lemma key_good now_ms kid s jwk s' :
  served_good -> store_good s -> key_source now_ms kid s jwk s' -> K kid jwk /\ store_good s'.
Proof.
  intros Hserved [Hurl Hs] [(-> & Hk & _)|(st & resp & http & jwks & Hsend & Hr & Hk & ->)].
  - split; [by apply Hs|by split].
  - rewrite Hurl in Hsend. split; [by eapply Hserved|]. split; [done|].
    intros kid' jwk' Hk'. cbn in Hk'. by eapply Hserved.
Qed.

Lemma validate_good now_ms token eat_issuer s payload s' :
  served_good -> store_good s ->
  validate_and_decode now_ms token eat_issuer s = (Ret payload, s') ->
  signed_token token eat_issuer payload /\ store_good s'.
Proof.
  intros Hserved Hs (ht & h & b & kid & jwk & Hd & Hh & Hb & Hkid & Hiss & Hk & Hv)%validate_sound.
  destruct (key_good _ _ _ _ _ Hserved Hs Hk) as [HK Hs']. split; [|done].
  exists ht, h, b, kid, jwk. by split_and!.
Qed.

End trust.

(** ** Properties *)

(** C38: a token is accepted only from the expected issuer and with a good
    signature under a key with the token's key id that is cached and not
    expired, or was downloaded in this very call. *)
Theorem validate_and_decode_sound now_ms token eat_issuer s payload s' :
  validate_and_decode now_ms token eat_issuer s = (Ret payload, s') ->
  valid_token now_ms token eat_issuer s payload s'.
Proof. apply validate_sound. Qed.

End jwt.

(** A library with one token and one key set, and a client that serves it. *)
Definition toy_jwt : JwtLib := {|
  jwt_decode := fun _ => Some ("h", "p");
  es384_usable := fun _ => true;
  es384_verify := fun _ _ => true;
  jwt_json_parse := fun s =>
    if bool_decide (s = "h") then Some (jobject [("kid", JString "k1")])
    else if bool_decide (s = "p") then Some (jobject [("iss", JString "nras")])
    else Some (jobject [("keys", JArray [jobject [("kid", JString "k1"); ("x5c", JArray [JString "AAAA"])]])]);
|}.

#[export] Instance toy_jwks_client : Http.INvHttpClient unit := fun u _ => (Ret (200, "jwks"), u).

Definition toy_jwk_store : JwkStore (C:=unit) := init_from_env "https://host/jwks" tt DEFAULT_JWKS_CACHE_DURATION_MS.

Definition toy_validate := validate_and_decode (L:=toy_jwt) 5 "a.b.c" "nras" toy_jwk_store.

Example toy_validate_answer : toy_validate.1 = Ret "p".
Proof. vm_compute. reflexivity. Qed.

Lemma validate_and_decode_sound_witness :
  exists header_text, jwt_decode (JwtLib:=toy_jwt) "a.b.c" = Some (header_text, "p").
Proof.
  destruct (validate_and_decode_sound (L:=toy_jwt) 5 "a.b.c" "nras" toy_jwk_store "p" toy_validate.2)
    as (header_text & _ & _ & _ & _ & H & _).
  - rewrite <- toy_validate_answer. apply surjective_pairing.
  - exists header_text. exact H.
Defined.

End Jwt.
