(* ===== verification/CacheThreads.v ===== *)
(** * CacheThreads: the object cache and the key store in several threads

    The methods of src/nv_cache.cpp and [JwkStore::get_jwk_by_kid] of
    src/nv_jwt.cpp in steps, each with the members it reads and writes, and the
    mutex they hold.  A pool of threads that share one gets the results and
    leaves the state that single-step calls would; it does not race, unless a
    thread puts an object that is larger than the whole cache: then [put] logs
    the cache's size before it has the mutex. *)

From S2P Require Import Prelude Errors Utils Json OpenSsl NvCache Threads Ocsp X509Chain Claims Evaluator DetachedEat Http Jwt.

(** ** The cache *)

Module CacheThreads.
Import NvCache.

Section cache.
Context {V : Type}.

(** The members of [NvCache] that change. *)
Inductive field : Type := F_cache | F_lru_list | F_insertion_list | F_current_size_bytes.

(** What [remove_helper] and the end of [put] touch. *)
Definition everything : list (access field) :=
  [Writes F_cache; Writes F_current_size_bytes; Writes F_lru_list; Writes F_insertion_list].

Abbreviation cache := (NvCache V).
Abbreviation body_code := (code field cache (res (option V))).

(** A step that may go wrong, and what follows it. *)
Definition cact {X : Type} (l : list (access field)) (m : cache -> res (X * cache)) (k : X -> body_code) : body_code :=
  CAct l (fun c =>
    match m c with
    | Ret (x, c') => (c', k x)
    | Err e => (c, CDone (Err e))
    | Throw x => (c, CDone (Throw x))
    | UB => (c, CDone UB)
    end).

(** A step that only reads. *)
Definition look {X : Type} (l : list (access field)) (f : cache -> X) (k : X -> body_code) : body_code :=
  CAct l (fun c => (c, k (f c))).

Definition remove_code (key : string) (k : unit -> body_code) : body_code :=
  cact everything (fun c => let* c' := remove_helper c key in Ret (tt, c')) k.

(** The loops of [put]; [next] is what follows, from a clock reading on. *)
Fixpoint evict_expired_code (fuel : nat) (size_bytes : Z) (now : nat -> Z) (j : nat) (next : nat -> body_code) :
    body_code :=
  match fuel with
  | O => CDone UB
  | S fuel =>
      look [Reads F_insertion_list] (fun c => last (m_insertion_list c)) (fun oldest =>
        match oldest with
        | None => next j
        | Some (_, oldest_key) =>
            look [Reads F_current_size_bytes] (fun c => too_big c size_bytes) (fun big : bool =>
              if big then
                look [Reads F_cache] (fun c => m_cache c !! oldest_key) (fun o =>
                  match o with
                  | None => CDone UB
                  | Some o =>
                      if now j <? m_expiry_time o then next (S j)
                      else remove_code oldest_key (fun _ => evict_expired_code fuel size_bytes now (S j) next)
                  end)
              else next j)
        end)
  end.

Fixpoint evict_lru_code (fuel : nat) (size_bytes : Z) (next : body_code) : body_code :=
  match fuel with
  | O => CDone UB
  | S fuel =>
      look [Reads F_lru_list] (fun c => last (m_lru_list c)) (fun oldest =>
        match oldest with
        | None => next
        | Some (_, oldest_key) =>
            look [Reads F_current_size_bytes] (fun c => too_big c size_bytes) (fun big : bool =>
              if big then remove_code oldest_key (fun _ => evict_lru_code fuel size_bytes next) else next)
        end)
  end.

(** The end of [put]. *)
Definition insert (key : string) (value : V) (size_bytes now : Z) (c : cache) : res (unit * cache) :=
  let n := next_node c in
  let* expiry := expiry_time now (ttl_seconds (m_options c)) in
  Ret (tt, mk_cache (<[key := mk_object value size_bytes expiry n n]> (m_cache c))
    ((n, key) :: m_lru_list c) ((n, key) :: m_insertion_list c)
    (u64 (m_current_size_bytes c + size_bytes)) (m_options c) (S n)).

(** [put] from the line that takes the mutex on. *)
Definition put_code (key : string) (value : V) (size_bytes : Z) (now : nat -> Z) : body_code :=
  let evict :=
    look [Reads F_insertion_list] (fun c => S (length (m_insertion_list c))) (fun fuel =>
      evict_expired_code fuel size_bytes now 0 (fun j =>
        look [Reads F_lru_list] (fun c => S (length (m_lru_list c))) (fun fuel =>
          evict_lru_code fuel size_bytes
            (cact everything (insert key value size_bytes (now j)) (fun _ => CDone (Ret None)))))) in
  look [Reads F_cache] (fun c => bool_decide (is_Some (m_cache c !! key))) (fun found : bool =>
    if found then remove_code key (fun _ => evict) else evict).

Definition get_code (key : string) (now : Z) : body_code :=
  look [Reads F_cache] (fun c => m_cache c !! key) (fun o =>
    match o with
    | None => CDone (Err CacheObjectNotFound)
    | Some o =>
        if m_expiry_time o <=? now then CDone (Err CacheObjectNotFound)
        else
          cact [Reads F_cache; Writes F_lru_list]
            (fun c =>
               let* lru := splice_front (m_lru_node_ptr o) (m_lru_list c) in
               Ret (tt, mk_cache (m_cache c) lru (m_insertion_list c) (m_current_size_bytes c) (m_options c) (next_node c)))
            (fun _ => CDone (Ret (Some (m_value o))))
    end).

Definition cache_remove_code (key : string) : body_code :=
  look [Reads F_cache] (fun c => bool_decide (is_Some (m_cache c !! key))) (fun found : bool =>
    if found then remove_code key (fun _ => CDone (Ret None)) else CDone (Ret None)).

Definition clear_code : body_code := CAct everything (fun c => (clear c, CDone (Ret None))).

Definition cache_body (o : op (V:=V)) : body_code :=
  match o with
  | OpPut key value size_bytes now => put_code key value size_bytes now
  | OpGet key now => get_code key now
  | OpRemove key => cache_remove_code key
  | OpClear => clear_code
  end.

(** [put] compares with the maximum, which never changes, before it takes the
    mutex; the second log line of the early return reads the current size. *)
Definition cache_early (options : NvCacheOptions) (o : op (V:=V)) : option (list (access field) * res (option V)) :=
  match o with
  | OpPut _ _ size_bytes _ =>
      if max_size_bytes options <? size_bytes then Some ([Reads F_current_size_bytes], Err BadArgument) else None
  | _ => None
  end.

(** A client of a cache with [options]. *)
Definition cache_client (options : NvCacheOptions) {A : Type} (c : client (op (V:=V)) (res (option V)) A) :
    prog field (object (D:=cache)) A :=
  compile (cache_early options) cache_body c.

(** ** Lemmas *)

Lemma run_cact {X : Type} l (m : cache -> res (X * cache)) (k : X -> body_code) c x c' :
  m c = Ret (x, c') -> run (cact l m k) c = run (k x) c'.
Proof. intros H. cbn. by rewrite H. Qed.

Lemma run_remove key (k : unit -> body_code) c c' :
  remove_helper c key = Ret c' -> run (remove_code key k) c = run (k tt) c'.
Proof. intros H. apply run_cact. by rewrite H. Qed.

Lemma run_evict_expired fuel size_bytes now j (next : nat -> body_code) c c' j' :
  evict_expired fuel c size_bytes now j = Ret (c', j') ->
  run (evict_expired_code fuel size_bytes now j next) c = run (next j') c'.
Proof.
  revert c j. induction fuel as [|fuel IH]; intros c j; [done|]. cbn [evict_expired evict_expired_code run look fst snd].
  destruct (last (m_insertion_list c)) as [[n key]|]; [|by intros [= <- <-]]. cbn [run look fst snd].
  destruct (too_big c size_bytes); [|by intros [= <- <-]]. cbn [run look fst snd].
  destruct (m_cache c !! key) as [o|]; [|done].
  destruct (now j <? m_expiry_time o); [by intros [= <- <-]|].
  intros (c1 & Hr & He)%obind_Ret. rewrite (run_remove _ _ _ _ Hr). by apply IH.
Qed.

Lemma run_evict_lru fuel size_bytes (next : body_code) c c' :
  evict_lru fuel c size_bytes = Ret c' -> run (evict_lru_code fuel size_bytes next) c = run next c'.
Proof.
  revert c. induction fuel as [|fuel IH]; intros c; [done|]. cbn [evict_lru evict_lru_code run look fst snd].
  destruct (last (m_lru_list c)) as [[n key]|]; [|by intros [= <-]]. cbn [run look fst snd].
  destruct (too_big c size_bytes); [|by intros [= <-]].
  intros (c1 & Hr & He)%obind_Ret. rewrite (run_remove _ _ _ _ Hr). by apply IH.
Qed.

Lemma run_put key value size_bytes now c c' :
  put c key value size_bytes now = Ret c' -> run (put_code key value size_bytes now) c = (Ret None, c').
Proof.
  unfold put. destruct (_ <=? _); [|done]. intros (c1 & H1 & H)%obind_Ret.
  apply obind_Ret in H as ([c2 j] & H2 & H). apply obind_Ret in H as (c3 & H3 & H).
  apply obind_Ret in H as (e & He & [= <-]).
  unfold put_code. cbn [run look fst snd].
  case_bool_decide; [rewrite (run_remove _ _ _ _ H1)|injection H1 as <-].
  all: cbn [run look fst snd]; rewrite (run_evict_expired _ _ _ _ _ _ _ _ H2); cbn [run look fst snd];
    rewrite (run_evict_lru _ _ _ _ _ H3).
  all: unfold cact, insert; cbn [run fst snd]; by rewrite He.
Qed.

(** The calls that fit, and the states of the cache. *)
Definition states (options : NvCacheOptions) (c : cache) : Prop := wf c /\ m_options c = options.

Lemma cache_implements options :
  implements (cache_early options) cache_body call (op_ok options) (states options).
Proof.
  split.
  - intros [key value size now| | |] l out c Hok [Hwf <-]; try done. cbn. unfold put.
    destruct (Z.ltb_spec (max_size_bytes (m_options c)) size); [|done]. intros [= <- <-].
    by rewrite (proj2 (Z.leb_gt _ _)).
  - intros [key value size now|key now|key|] c Hok [Hwf <-]; cbn [cache_early cache_body call]; intros He.
    + destruct (Z.ltb_spec (max_size_bytes (m_options c)) size); [done|].
      destruct Hok as [Hs Hclock]. destruct (put_returns c key value size now) as [c' E]; [done..|].
      rewrite E. by apply run_put.
    + pose proof (get_defined c key now Hwf) as Hd. unfold get_code, get in *. cbn [run look fst snd].
      destruct (m_cache c !! key) as [o|]; [|done]. destruct (_ <=? _); [done|]. cbn.
      by destruct (splice_front _ _).
    + unfold cache_remove_code, remove. cbn [run look fst snd].
      destruct (m_cache c !! key) as [o|] eqn:Hk; [rewrite bool_decide_true by eauto|by rewrite bool_decide_false by (by intros [])].
      destruct (wf_remove c key o Hwf Hk) as (E & _). rewrite (run_remove _ _ _ _ E).
      unfold remove_helper in E. rewrite Hk in E. by rewrite E.
    + done.
  - intros o c Hok [Hwf <-]. unfold states. destruct o as [key value size now|key now|key|]; cbn.
    + destruct (put c key value size now) as [c'|e|x|] eqn:E; try done. destruct Hok. by apply (step_wf c); [|by eapply step_put].
    + destruct (get c key now) as [[v c']|e|x|] eqn:E; try done. by apply (step_wf c); [|by eapply step_get].
    + destruct (remove c key) as [c'|e|x|] eqn:E; try done. by apply (step_wf c); [|by eapply step_remove].
    + exact (step_wf c _ Hwf (step_clear c)).
Qed.

(** Calls that put nothing larger than the cache. *)
Definition fits (options : NvCacheOptions) (o : op (V:=V)) : Prop :=
  match o with
  | OpPut _ _ size_bytes now => 0 <= size_bytes <= max_size_bytes options /\ clock_ok options now
  | _ => True
  end.

Lemma fits_ok options (o : op (V:=V)) : max_size_bytes options < 2 ^ 64 -> fits options o -> op_ok options o.
Proof. destruct o; cbn; [|done..]. intros ? []. split; [lia|done]. Qed.

Lemma cache_implements_fits options :
  max_size_bytes options < 2 ^ 64 -> implements (cache_early options) cache_body call (fits options) (states options).
Proof. intros Hm. eapply implements_weaken; [|apply cache_implements]. intros o. by apply fits_ok. Qed.

Lemma states_ctor options : 0 <= max_size_bytes options < 2 ^ 63 -> states options (ctor (Some options)).
Proof. intros H. split; [by apply wf_empty|done]. Qed.

(** ** Properties *)

(** C37: threads that share a cache cannot tell its calls from single steps:
    whatever the schedule, a pool of clients never gets stuck, and when all
    have their results, a pool whose calls are single steps can return these
    results and leave this cache, which is well-formed.  The clock is one to which the time
    to live can be added. *)
Theorem cache_calls_atomic options {A : Type} (cs : list (client (op (V:=V)) (res (option V)) A))
    (c : pool field (object (D:=NvCache V)) A) :
  0 <= max_size_bytes options < 2 ^ 63 -> Forall (only (op_ok options)) cs ->
  rtc Threads.step (cache_client options <$> cs, (false, ctor (Some options))) c ->
  (exists c' results, rtc Threads.step c c' /\ finished c' results) /\
  forall results, finished c results ->
    rtc Threads.step (atomic (Loc:=field) call <$> cs, ctor (Some options)) (Done <$> results, c.2.2) /\ wf c.2.2.
Proof.
  intros Hm%states_ctor Hcs H. pose proof (cache_implements options) as Himp. split.
  - by eapply monitor_finishes.
  - intros results Hf. by destruct (monitor_refines _ _ _ _ _ Himp _ _ _ _ Hcs Hm H Hf) as (Ha & _ & [Hwf _]).
Qed.

(** P: no schedule of clients whose objects fit makes two threads race on the
    members of the cache; but a put of an object larger than the cache races
    with any put that fits, since it logs the current size before it has the
    mutex. *)
Theorem cache_race_free options {A : Type} (cs : list (client (op (V:=V)) (res (option V)) A))
    (c : pool field (object (D:=NvCache V)) A) :
  0 <= max_size_bytes options < 2 ^ 63 ->
  (Forall (only (fits options)) cs ->
   rtc Threads.step (cache_client options <$> cs, (false, ctor (Some options))) c -> ~ racy c) /\
  forall key (v : V) size now key' (v' : V) size' now',
    size' <= max_size_bytes options < size ->
    exists c, rtc Threads.step (cache_client options <$> [Call (OpPut key v size now) Return; Call (OpPut key' v' size' now') Return],
                        (false, ctor (Some options))) c /\ racy c.
Proof.
  intros Hm. split.
  - intros Hcs H. apply states_ctor in Hm as Hs.
    eapply (monitor_race_free _ _ _ _ _ (cache_implements_fits options ltac:(lia))); [|done..].
    intros [key value size now| | |] l out; try done. cbn. intros [Hf _].
    destruct (Z.ltb_spec (max_size_bytes options) size); [lia|done].
  - intros key v size now key' v' size' now' Hsz.
    unfold cache_client. cbn [fmap list_fmap compile]. unfold method. cbn [cache_early cache_body].
    rewrite (proj2 (Z.ltb_lt _ _)) by lia. rewrite (proj2 (Z.ltb_ge _ _)) by lia. cbn [pbind].
    eexists. split.
    + do 6 (eapply rtc_l; [eapply (step_thread 1); reflexivity|]; cbn). apply rtc_refl.
    + exists 0%nat, 1%nat. do 4 eexists. exists (Reads F_current_size_bytes), (Writes F_current_size_bytes).
      split_and!; [done|reflexivity|reflexivity|done|done|left|right; left|done].
Qed.

End cache.

(** *** Two clients of a cache of 10 bytes: one puts, one looks *)

Definition toy_options : NvCacheOptions := mk_options 10 100.

Definition toy_clients : list (client (op (V:=Z)) (res (option Z)) (res (option Z))) :=
  [Call (OpPut "a" 7 4 (fun _ => 0)) Return; Call (OpGet "a" 50) Return].

Definition toy_start : pool field (object (D:=NvCache Z)) (res (option Z)) :=
  (cache_client toy_options <$> toy_clients, (false, ctor (Some toy_options))).

Definition toy_end := foldl sched toy_start (replicate 12 0%nat ++ replicate 12 1%nat).

Example toy_results : toy_end.1 = Done <$> [Ret None; Ret (Some 7)].
Proof. vm_compute. reflexivity. Qed.

Lemma toy_fit : Forall (only (fits toy_options)) toy_clients.
Proof. repeat constructor; cbn; try lia; intros ?; cbn; lia. Qed.

Lemma cache_calls_atomic_witness :
  rtc Threads.step (atomic (Loc:=field) call <$> toy_clients, ctor (Some toy_options))
    (Done <$> [Ret None; Ret (Some 7)], toy_end.2.2).
Proof.
  destruct (cache_calls_atomic toy_options toy_clients toy_end) as [_ H].
  - cbn. lia.
  - eapply only_all; [|exact toy_fit]. intros o. apply fits_ok. cbn. lia.
  - apply sched_steps.
  - apply H. exact toy_results.
Defined.

Lemma cache_race_free_witness : ~ racy toy_end.
Proof.
  apply (cache_race_free toy_options toy_clients toy_end); [cbn; lia|exact toy_fit|apply sched_steps].
Defined.

End CacheThreads.

(** ** The key store *)

Module KeyThreads.
Import Jwt.

Section keys.
Context `{L : JwtLib} {C : Type} `{!Http.INvHttpClient C}.

(** The members of [JwkStore] that change, and what its client does outside. *)
Inductive field : Type := F_jwks | F_last_update_unix_ms | F_http_client.

Abbreviation store := (JwkStore (C:=C)).
Abbreviation body_code := (code field store (res Jwk)).

(** A call: the clock, read under the mutex, and the key. *)
Record op : Type := mk_op { now_ms : Z; key_id : string }.

Definition find_code (kid : string) : body_code :=
  CAct [Reads F_jwks] (fun s =>
    (s, CDone (match m_jwks s !! kid with Some jwk => Ret jwk | None => Err CertNotFound end))).

Definition updated (now_ms : Z) (s : store) : store :=
  mk_store (m_jwks_url s) (m_cache_duration_ms s) now_ms (m_jwks s) (m_http_client s).

(** [m_jwks.clear()], [refresh_jwks()], and the time of the update; an exception
    leaves the function there, and the mutex. *)
Definition refresh_code (now_ms : Z) (kid : string) : body_code :=
  CAct [Writes F_jwks] (fun s => (set_jwks s ∅ (m_http_client s),
    CAct [Writes F_http_client; Writes F_jwks] (fun s =>
      let '(r, s) := refresh_jwks s in
      (s, match r with
          | Ret _ => CAct [Writes F_last_update_unix_ms] (fun s => (updated now_ms s, find_code kid))
          | Err e => CAct [Writes F_last_update_unix_ms] (fun s => (updated now_ms s, CDone (Err e)))
          | Throw x => CDone (Throw x)
          | UB => CDone UB
          end)))).

Definition get_jwk_code (o : op) : body_code :=
  CAct [Reads F_last_update_unix_ms; Reads F_jwks] (fun s =>
    (s, if negb (in_int64 (m_last_update_unix_ms s + m_cache_duration_ms s)) then CDone UB
        else if (m_last_update_unix_ms s + m_cache_duration_ms s <? now_ms o) || bool_decide (m_jwks s !! key_id o = None)
             then refresh_code (now_ms o) (key_id o)
             else find_code (key_id o))).

Definition key_early (o : op) : option (list (access field) * res Jwk) := None.

Definition key_call (o : op) (s : store) : res Jwk * store := get_jwk_by_kid (now_ms o) (key_id o) s.

Definition key_client {A : Type} (c : client op (res Jwk) A) : prog field (object (D:=store)) A :=
  compile key_early get_jwk_code c.

Lemma key_implements : implements key_early get_jwk_code key_call (fun _ => True) (fun _ => True).
Proof.
  split; try done. intros [t kid] s _ _ _. unfold key_call, get_jwk_by_kid, get_jwk_code. cbn [run fst snd now_ms key_id].
  destruct (in_int64 _); [|done]. cbn [negb].
  destruct (_ || _); [|by cbn; destruct (m_jwks s !! kid)]. cbn [run refresh_code fst snd].
  destruct (refresh_jwks _) as [r s']. destruct r; cbn; try done. by destruct (m_jwks s' !! kid).
Qed.

(** P: threads that share a key store, as verifiers of one JWKS address do, get
    the keys that single-step calls would give, without a race or a deadlock:
    the mutex covers the download, too. *)
Theorem key_store_atomic {A : Type} (cs : list (client op (res Jwk) A)) (s : store)
    (c : pool field (object (D:=store)) A) :
  rtc Threads.step (key_client <$> cs, (false, s)) c ->
  ~ racy c /\ (exists c' results, rtc Threads.step c c' /\ finished c' results) /\
  forall results, finished c results ->
    rtc Threads.step (atomic (Loc:=field) key_call <$> cs, s) (Done <$> results, c.2.2).
Proof.
  intros Hr. pose proof key_implements as Himp.
  assert (Forall (only (fun _ : op => True)) cs) as Hcs.
  { apply Forall_true. intros k. induction k; by constructor. }
  split_and!.
  - by eapply (monitor_race_free _ _ _ _ _ Himp).
  - by eapply monitor_finishes.
  - intros results Hf. by destruct (monitor_refines _ _ _ _ _ Himp _ _ _ _ Hcs I Hr Hf) as (Ha & _ & _).
Qed.

End keys.

End KeyThreads.
