(* ===== verification/Rim.v ===== *)
(** * Rim: reference integrity manifests

    src/rim.cpp, include/nv_attestation/rim.h and the evidence policy of
    include/nv_attestation/verify.h: golden measurements, the documents with
    their versions, certificate chains, signatures and claims, and the three
    RIM stores.  libxml2, xmlsec, base64 and the file system are parameters. *)

From stdpp Require Import sorting pretty.
From S2P Require Import Prelude Errors Utils Json OpenSsl NvCache Ocsp X509Chain Claims Http Certs Base64.

(** ** libxml2 and xmlsec

    A document, its nodes and an XPath context; [None] stands for a null
    pointer or a failure code. *)
Class LibXml2 : Type := {
  xmlDoc : Type;
  xmlNode : Type;
  xmlXPathContext : Type;
  xmlReadDoc : string -> option xmlDoc;
  xmlXPathNewContext : option xmlDoc -> option xmlXPathContext;
  xmlXPathRegisterNs : xmlXPathContext -> string -> string -> option xmlXPathContext;
  (** the object, then its [nodesetval] *)
  xmlXPathEvalExpression : string -> xmlXPathContext -> option (option (list xmlNode));
  xmlGetProp : xmlNode -> string -> option string;
  xmlGetNsProp : xmlNode -> string -> string -> option string;
  xmlNodeGetContent : xmlNode -> option string;
  xmlDocGetRootElement : option xmlDoc -> option xmlNode;
  (** [xmlSecKeysMngrCreate] and [xmlSecCryptoAppDefaultKeysMngrInit] *)
  xmlSecKeysMngrCreate : bool;
  xmlSecCryptoAppDefaultKeysMngrInit : Z;
  (** the signature node under a node *)
  xmlSecFindSignature : xmlNode -> option xmlNode;
  xmlSecDSigCtxCreate : bool;
  (** [xmlSecDSigCtxVerify], with the certificates left unverified: a negative
      code is [None]; else whether the status is "succeeded" *)
  xmlSecDSigCtxVerify : xmlNode -> option bool;
}.

(** *** Decimal text *)

(** [std::stoi]: leading white space, a sign, digits; what follows is
    ignored. *)
Fixpoint stoi_digits (s : string) (acc : option Z) : option Z :=
  match s with
  | String c s' =>
      if (48 <=? ascii_byte c) && (ascii_byte c <=? 57)
      then stoi_digits s' (Some (10 * default 0 acc + (ascii_byte c - 48)))
      else acc
  | "" => acc
  end.

Fixpoint stoi_skip (s : string) : string :=
  match s with
  | String c s' => if is_space c then stoi_skip s' else s
  | "" => ""
  end.

Definition stoi (s : string) : res Z :=
  let r :=
    match stoi_skip s with
    | String c s' =>
        if ascii_byte c =? 45 then Z.opp <$> stoi_digits s' None
        else if ascii_byte c =? 43 then stoi_digits s' None
        else stoi_digits (String c s') None
    | "" => None
    end in
  match r with
  | None => Throw invalid_argument
  | Some z => if (- 2 ^ 31 <=? z) && (z <? 2 ^ 31) then Ret z else Throw out_of_range
  end.

(** ** Measurements and documents *)

Module Rim.

(** The policy: the claims versions asked for and what to verify of a RIM. *)
Record EvidencePolicy : Type := mk_policy {
  gpu_claims_version : GpuClaims.GpuClaimsVersion;
  switch_claims_version : SwitchClaims.SwitchClaimsVersion;
  verify_rim_signature : bool;
  verify_rim_cert_chain : bool;
}.

Definition EvidencePolicy_default : EvidencePolicy :=
  mk_policy GpuClaims.V3 SwitchClaims.V3 true true.

Record Measurement : Type := mk_measurement {
  m_active : bool;
  m_index : Z;
  m_size : Z;
  m_count : Z;
  m_values : list (list Z);
  m_name : string;
}.

Abbreviation Measurements := (gmap Z Measurement).

Definition get_measurement_at_index (m : Measurements) (index : Z) : res Measurement :=
  match m !! index with Some x => Ret x | None => Err RimMeasurementNotFound end.

Definition has_measurement_at_index (m : Measurements) (index : Z) : bool :=
  bool_decide (is_Some (m !! index)).

(** The indices of the [std::map], in increasing order. *)
Definition get_all_indices (m : Measurements) : list Z := merge_sort Z.le (map_to_list m).*1.

Definition add_measurement (m : Measurements) (x : Measurement) : res Measurements :=
  match m !! m_index x with
  | Some _ => Err RimInvalidSchema
  | None => Ret (<[m_index x := x]> m)
  end.

(** The constructor leaves the status of the chain claims uninitialized: [None]
    until they are generated. *)
Record RimClaims : Type := mk_rim_claims {
  m_cert_chain_claims : option CertChainClaims;
  m_signature_verified : bool;
}.

Definition RimClaims_default : RimClaims := mk_rim_claims None false.

(** Reading the chain claims: an uninitialized status is an indeterminate
    value. *)
Definition read_chain_claims (c : RimClaims) : res CertChainClaims :=
  match m_cert_chain_claims c with Some cc => Ret cc | None => UB end.

Definition XML_DSIG_NAMESPACE_URI : string := "http://www.w3.org/2000/09/xmldsig#".
Definition ISO_19770_SCHEMA_NAMESPACE_URI : string :=
  "http://standards.iso.org/iso/19770/-2/2015/schema.xsd".
Definition XML_ENC_SHA384_NAMESPACE_URI : string := "http://www.w3.org/2001/04/xmlenc#sha384".
Definition TCG_RIM_NAMESPACE_URI : string :=
  "https://trustedcomputinggroup.org/resource/tcg-reference-integrity-manifest-rim-information-model/".

Section rim.
Context `{OSSL : OpenSSL} `{XML : LibXml2}.

Record RimDocument : Type := mk_rim {
  m_rim_id : string;
  m_doc : option xmlDoc;
  m_rim_data : string;
}.

Definition RimDocument_default : RimDocument := mk_rim "" None "".

Definition set_rim_id (d : RimDocument) (rim_id : string) : RimDocument :=
  mk_rim rim_id (m_doc d) (m_rim_data d).

Definition get_rim_id (d : RimDocument) : string :=
  if bool_decide (m_rim_id d = "") then "[unknown]" else m_rim_id d.

(** [create_from_rim_data] into a document: libxml2 reads the text up to its
    first null character, and the identifier stays as it was. *)
Definition create_from_rim_data (rim_data : string) (out : RimDocument) : res RimDocument :=
  match xmlReadDoc (remove_null_terminators rim_data) with
  | None => Err InternalError
  | Some doc => Ret (mk_rim (m_rim_id out) (Some doc) rim_data)
  end.

(** A new context with namespaces registered. *)
Fixpoint register_all (ctx : xmlXPathContext) (ns : list (string * string)) : option xmlXPathContext :=
  match ns with
  | [] => Some ctx
  | (prefix, uri) :: ns => xmlXPathRegisterNs ctx prefix uri ≫= fun ctx => register_all ctx ns
  end.

(** The node set of an expression: the errors for a context that cannot be
    made, for no object and for no node set. *)
Definition select (doc : option xmlDoc) (ns : list (string * string)) (expr : string)
    (ctx_error obj_error set_error : Error) : res (list xmlNode) :=
  match xmlXPathNewContext doc ≫= fun ctx => register_all ctx ns with
  | None => Err ctx_error
  | Some ctx =>
      match xmlXPathEvalExpression expr ctx with
      | None => Err obj_error
      | Some None => Err set_error
      | Some (Some nodes) => Ret nodes
      end
  end.

Definition newline : string := String (byte_ascii 10) "".

Definition push_node (c : X509CertChain.X509CertChain) (node : xmlNode) : res X509CertChain.X509CertChain :=
  match xmlNodeGetContent node with
  | Some content =>
      X509CertChain.push_back c
        (("-----BEGIN CERTIFICATE-----" +:+ newline) +:+ content +:+ "-----END CERTIFICATE-----")
  | None => Ret c
  end.

Definition get_cert_chain (d : RimDocument) : res X509CertChain.X509CertChain :=
  let* nodes := select (m_doc d) [("ds", XML_DSIG_NAMESPACE_URI)] "//ds:X509Certificate"
                  InternalError InternalError InternalError in
  check* negb (zlen nodes =? 0) else InternalError in
  match X509CertChain.x509_from_cert_string RIM_ROOT_CERT with
  | None => Err InternalError
  | Some _ =>
      let* chain := X509CertChain.create GPU_DRIVER_RIM RIM_ROOT_CERT in
      ofold push_node nodes chain
  end.

Definition get_version (d : RimDocument) : res string :=
  let* nodes := select (m_doc d) [("ns0", ISO_19770_SCHEMA_NAMESPACE_URI)] "//ns0:Meta[@colloquialVersion]"
                  InternalError RimInvalidSchema RimInvalidSchema in
  match nodes with
  | [] => Err RimInvalidSchema
  | meta_node :: _ =>
      match xmlGetProp meta_node "colloquialVersion" with
      | None => Err RimInvalidSchema
      | Some version => Ret version
      end
  end.

Definition get_manufacturer_id (d : RimDocument) : res string :=
  let* nodes := select (m_doc d)
                  [("ns0", ISO_19770_SCHEMA_NAMESPACE_URI); ("ns1", TCG_RIM_NAMESPACE_URI)]
                  "//ns0:Meta[@ns1:FirmwareManufacturerId]" InternalError RimInvalidSchema RimInvalidSchema in
  match nodes with
  | [meta_node] =>
      match xmlGetNsProp meta_node "FirmwareManufacturerId" TCG_RIM_NAMESPACE_URI with
      | None => Err RimInvalidSchema
      | Some id => Ret id
      end
  | _ => Err RimInvalidSchema
  end.

Definition verify_signature (d : RimDocument) : res unit :=
  check* xmlSecKeysMngrCreate else InternalError in
  check* negb (xmlSecCryptoAppDefaultKeysMngrInit <? 0) else InternalError in
  match xmlDocGetRootElement (m_doc d) with
  | None => Err InternalError
  | Some root =>
      match xmlSecFindSignature root with
      | None => Err RimInvalidSchema
      | Some node =>
          check* xmlSecDSigCtxCreate else InternalError in
          match xmlSecDSigCtxVerify node with
          | None => Err InternalError
          | Some succeeded => check* succeeded else RimInvalidSignature in Ret tt
          end
      end
  end.

(** *** Golden measurements *)

(** The hashes [Hash0] .. of a node. *)
Fixpoint get_hashes (node : xmlNode) (n : nat) (alt : Z) : res (list (list Z)) :=
  match n with
  | O => Ret []
  | S n =>
      match xmlGetNsProp node ("Hash" +:+ pretty alt) XML_ENC_SHA384_NAMESPACE_URI with
      | None => Err RimInvalidSchema
      | Some hex_string =>
          let* hs := get_hashes node n (alt + 1) in Ret (hex_string_to_bytes hex_string :: hs)
      end
  end.

(** One [Resource] node: [None] when it is inactive. *)
Definition parse_measurement (node : xmlNode) : res (option Measurement) :=
  match xmlGetProp node "active", xmlGetProp node "index", xmlGetProp node "alternatives",
        xmlGetProp node "name", xmlGetProp node "size" with
  | Some active_attr, Some index_attr, Some alternatives_attr, Some name, Some size_attr =>
      let active := bool_decide (active_attr = "True") in
      let* index := stoi index_attr in
      let* alternatives := stoi alternatives_attr in
      let* size := stoi size_attr in
      if negb active then Ret None
      else
        let* hash_values := get_hashes node (Z.to_nat alternatives) 0 in
        check* zlen hash_values =? u64 alternatives else RimInvalidSchema in
        Ret (Some (mk_measurement active index size alternatives hash_values name))
  | _, _, _, _, _ => Err RimInvalidSchema
  end.

Definition measurement_step (m : Measurements) (node : xmlNode) : res Measurements :=
  let* x := parse_measurement node in
  match x with Some x => add_measurement m x | None => Ret m end.

Definition get_measurements (d : RimDocument) : res Measurements :=
  match m_doc d with
  | None => Err InternalError
  | Some _ =>
      let* nodes := select (m_doc d)
                      [("ns0", ISO_19770_SCHEMA_NAMESPACE_URI); ("ns2", XML_ENC_SHA384_NAMESPACE_URI)]
                      "//ns0:Resource[@type='Measurement']" LibXml2Error LibXml2Error RimInvalidSchema in
      ofold measurement_step nodes ∅
  end.

(** *** Claims *)

Section claims.
Context {S : Type} `{!IOcspHttpClient S}.

Definition generate_rim_claims (now : Z) (d : RimDocument) (policy : EvidencePolicy) : sm S Error RimClaims :=
  do* chain_claims :=
    if verify_rim_cert_chain policy then
      do* chain := slift (get_cert_chain d) in
      do* cc := X509CertChain.generate_cert_chain_claims now chain in
      sret (Some cc)
    else sret (m_cert_chain_claims RimClaims_default) in
  if verify_rim_signature policy then
    do* _ := slift (verify_signature d) in
    sret (mk_rim_claims chain_claims true)
  else sret (mk_rim_claims chain_claims false).

End claims.

(** ** Stores *)

(** [IRimStore]: the document for an identifier, into a fresh document. *)
Class IRimStore (S : Type) : Type := get_rim : S -> string -> res RimDocument * S.

(** *** The RIM service *)

Record RimResponse : Type := mk_response {
  rr_id : string;
  rr_rim : string;
  rr_request_id : string;
  rr_sha256 : string;
}.

Definition response_from_json (j : json) : res RimResponse :=
  let* id := let* v := jat j "id" in get_string v in
  let* rim := let* v := jat j "rim" in get_string v in
  let* request_id := let* v := jat j "request_id" in get_string v in
  let* sha256 := let* v := jat j "sha256" in get_string v in
  Ret (mk_response id rim request_id sha256).

Section remote.
Context `{B64 : Base64Lib} (json_parse : string -> option json) {C : Type} `{!Http.INvHttpClient C}.

Definition DEFAULT_BASE_URL : string := "https://rim.attestation.nvidia.com".

Record NvRemoteRimStoreImpl : Type := mk_remote {
  m_base_url : string;
  m_http_client : C;
}.

(** [init_from_env] over a client that was created. *)
Definition init_from_env (getenv : string -> option string) (base_url : option string) (http_client : C) :
    NvRemoteRimStoreImpl :=
  match base_url with
  | Some url =>
      if bool_decide (url = "")
      then mk_remote (get_env_or_default getenv "NVAT_RIM_SERVICE_BASE_URL" DEFAULT_BASE_URL) http_client
      else mk_remote url http_client
  | None => mk_remote (get_env_or_default getenv "NVAT_RIM_SERVICE_BASE_URL" DEFAULT_BASE_URL) http_client
  end.

Definition extract_rim_document (rim_response_data : string) : res RimDocument :=
  let* decoded_rim_data := on_err (Base64.decode_base64_string rim_response_data) InternalError in
  on_err (create_from_rim_data decoded_rim_data RimDocument_default) InternalError.

Definition remote_status (http_code : Z) : res unit :=
  if http_code =? Http.HTTP_STATUS_OK then Ret tt
  else if http_code =? Http.HTTP_STATUS_NOT_FOUND then Err RimNotFound
  else if (http_code =? Http.HTTP_STATUS_FORBIDDEN) || (http_code =? Http.HTTP_STATUS_UNAUTHORIZED)
       then Err RimForbidden
  else Err RimInternalError.

(** What the store makes of the service's answer. *)
Definition remote_answer (rim_id : string) (http_code : Z) (response : string) : res RimDocument :=
  let* _ := remote_status http_code in
  let* rim_response := deserialize_from_json json_parse response_from_json response in
  check* bool_decide (rim_id = rr_id rim_response) else InternalError in
  let* d := extract_rim_document (rr_rim rim_response) in
  Ret (set_rim_id d rim_id).

Definition remote_get_rim (s : NvRemoteRimStoreImpl) (rim_id : string) :
    res RimDocument * NvRemoteRimStoreImpl :=
  let '(r, http) := Http.send_request (m_http_client s)
                      (Http.mk_request (m_base_url s +:+ "/v1/rim/" +:+ rim_id) Http.HTTP_METHOD_GET [] "") in
  (let* (http_code, response) := r in remote_answer rim_id http_code response,
   mk_remote (m_base_url s) http).

#[global] Instance remote_store : IRimStore NvRemoteRimStoreImpl := remote_get_rim.

End remote.

(** *** A directory *)

Definition TCG_EXT : string := ".xml".
Definition CORIM_EXT : string := ".corim".

Section filesystem.

(** [path_exists], [path_is_directory] and the contents of a file that opens. *)
Context (path_exists path_is_directory : string -> bool) (file : string -> option string).

Definition readFileIntoString (path : string) : res string :=
  match file path with Some content => Ret content | None => Err InternalError end.

Definition filesystem_get_rim (path rim_id : string) : res RimDocument :=
  check* path_exists path else RimNotFound in
  check* path_is_directory path else RimNotFound in
  let tcg_path := path_join path (rim_id +:+ TCG_EXT) in
  if path_exists tcg_path then
    let* rim_data := readFileIntoString tcg_path in
    let* d := on_err (create_from_rim_data rim_data RimDocument_default) InternalError in
    Ret (set_rim_id d rim_id)
  else if path_exists (path_join path (rim_id +:+ CORIM_EXT)) then Err InternalError
  else Err RimNotFound.

End filesystem.

(** *** The cache *)

Section caching.
Context {S C : Type} `{!IRimStore S} `{!INvCache C string}.

Record InMemoryCachingRimStoreImpl : Type := mk_caching {
  m_inner_client : S;
  m_cache : C;
}.

(** [t] is the cache's reading of the clock in [get], [now] its readings in
    [put].  An error of the cache other than a miss leaves a null pointer to
    the data. *)
Definition caching_get_rim (t : Z) (now : nat -> Z) (s : InMemoryCachingRimStoreImpl) (rim_id : string) :
    res RimDocument * InMemoryCachingRimStoreImpl :=
  match cache_get (m_cache s) rim_id t with
  | Ret (rim_document_data, cache) =>
      (create_from_rim_data rim_document_data RimDocument_default, mk_caching (m_inner_client s) cache)
  | Err e =>
      if bool_decide (e = CacheObjectNotFound) then
        let '(r, inner) := get_rim (m_inner_client s) rim_id in
        match r with
        | Ret d =>
            match cache_put (m_cache s) rim_id (m_rim_data d)
                    (Z.of_nat (String.length (m_rim_data d))) now with
            | Ret cache => (Ret d, mk_caching inner cache)
            | Err e => (Err e, mk_caching inner (m_cache s))
            | Throw x => (Throw x, mk_caching inner (m_cache s))
            | UB => (UB, mk_caching inner (m_cache s))
            end
        | _ => (r, mk_caching inner (m_cache s))
        end
      else (UB, s)
  | Throw x => (Throw x, s)
  | UB => (UB, s)
  end.

End caching.

(** ** Lemmas *)

Section facts.
Context {S C : Type} `{!IRimStore S} `{!INvCache C string}.

(** A property of the data a store has for an identifier. *)
Context (Q : string -> string -> Prop).

Definition inner_good : Prop :=
  forall s rim_id d s', get_rim s rim_id = (Ret d, s') -> Q rim_id (m_rim_data d).

Definition caching_good (s : InMemoryCachingRimStoreImpl (S:=S) (C:=C)) : Prop :=
  cache_inv (m_cache s) /\ forall k data, cache_content (m_cache s) k = Some data -> Q k data.

(** The data of documents stays below the largest string. *)
Definition data_bounded : Prop :=
  forall s rim_id d s', get_rim (S:=S) s rim_id = (Ret d, s') -> Z.of_nat (String.length (m_rim_data d)) < 2 ^ 63.

Lemma create_data rim_data out d :
  create_from_rim_data rim_data out = Ret d -> m_rim_data d = rim_data /\
    m_doc d = xmlReadDoc (remove_null_terminators rim_data) /\ m_doc d <> None /\ m_rim_id d = m_rim_id out.
Proof. unfold create_from_rim_data. destruct (xmlReadDoc _) eqn:E; [|done]. intros [= <-]. done. Qed.

Lemma caching_step t now s rim_id o s' :
  inner_good -> data_bounded -> caching_good s -> cache_clock (m_cache s) now ->
  caching_get_rim t now s rim_id = (o, s') ->
  caching_good s' /\
  (cache_get (m_cache s) rim_id t = Err CacheObjectNotFound /\
     (exists inner, get_rim (m_inner_client s) rim_id = (o, inner) \/
        (exists d e, get_rim (m_inner_client s) rim_id = (Ret d, inner) /\ o = Err e /\
           cache_put (m_cache s) rim_id (m_rim_data d) (Z.of_nat (String.length (m_rim_data d))) now = Err e)) \/
   exists data, cache_content (m_cache s) rim_id = Some data /\ Q rim_id data /\
     o = create_from_rim_data data RimDocument_default /\ m_inner_client s' = m_inner_client s).
Proof.
  intros Hin Hb [Hinv Hc] Hclock. unfold caching_get_rim.
  pose proof (cache_get_defined (m_cache s) rim_id t Hinv) as Hd.
  destruct (cache_get (m_cache s) rim_id t) as [[data cache]|e|x|] eqn:Eg; try done.
  { apply cache_get_law in Eg as (Hinv' & Hk & Ho); [|done]. intros [= <- <-].
    split; [split; [done|]; intros k v; cbn; rewrite Ho; apply Hc|]. right. eauto 6. }
  apply cache_get_miss in Eg as ->; [|done]. rewrite bool_decide_true by done.
  destruct (get_rim (m_inner_client s) rim_id) as [r inner] eqn:Er.
  destruct r as [d|e|x|]; [|intros [= <- <-]; split; [by split|left; eauto]..].
  pose proof (Hb _ _ _ _ Er) as Hlen.
  pose proof (cache_put_defined (m_cache s) rim_id (m_rim_data d) (Z.of_nat (String.length (m_rim_data d))) now
    Hinv ltac:(lia) Hclock) as Hpd.
  destruct (cache_put _ _ _ _ now) as [cache|e|x|] eqn:Ep; try done; intros [= <- <-].
  - apply cache_put_law in Ep as (Hinv' & Hk & Ho); [|done|lia]. split; [|left; eauto].
    split; [done|]. intros k v Hv. cbn in Hv. destruct (decide (k = rim_id)) as [->|Hne].
    + rewrite Hk in Hv. injection Hv as <-. eapply Hin. exact Er.
    + destruct (Ho k Hne) as [E|E]; rewrite E in Hv; [by apply Hc|done].
  - split; [by split|]. left. split; [done|]. exists inner. right. eauto 6.
Qed.

End facts.

(** *** Golden measurements *)

Lemma measurement_fold nodes m0 m :
  ofold measurement_step nodes m0 = Ret m <->
  exists xs, Forall2 (fun n x => parse_measurement n = Ret x) nodes xs /\
    NoDup (m_index <$> omap id xs) /\
    (forall i, i ∈ m_index <$> omap id xs -> m0 !! i = None) /\
    m = list_to_map ((fun x => (m_index x, x)) <$> omap id xs) ∪ m0.
Proof.
  revert m0. induction nodes as [|n nodes IH]; intros m0; cbn [ofold].
  { split.
    - intros [= ->]. exists []. split_and!; [by constructor|by constructor|by intros i ?%elem_of_nil|].
      exact (eq_sym (left_id_L ∅ (∪) m)).
    - intros (xs & Hxs & _ & _ & ->). inversion Hxs. f_equal. exact (eq_sym (left_id_L ∅ (∪) m0)). }
  unfold measurement_step at 1. rewrite obind_Ret. setoid_rewrite IH.
  split.
  - intros (m1 & (x & Hx & Hm1)%obind_Ret & xs & Hxs & Hnd & Hnew & ->).
    exists (x :: xs). destruct x as [x|]; cbn.
    + unfold add_measurement in Hm1. destruct (m0 !! m_index x) eqn:Ei; [done|]. injection Hm1 as <-.
      split_and!; [by constructor| | |].
      * apply NoDup_cons. split; [|done]. intros Hi. specialize (Hnew _ Hi). by rewrite lookup_insert_eq in Hnew.
      * intros i [->|Hi]%elem_of_cons; [done|]. specialize (Hnew _ Hi). by apply lookup_insert_None in Hnew as [].
      * rewrite <- insert_union_r; [apply insert_union_l|].
        apply not_elem_of_list_to_map_1. rewrite <- list_fmap_compose. cbn. intros Hi.
        specialize (Hnew _ Hi). by rewrite lookup_insert_eq in Hnew.
    + injection Hm1 as <-. by split_and!; [constructor| | |].
  - intros (xs & Hxs & Hnd & Hnew & ->). inversion Hxs as [|? x ? xs' Hx Hxs']; subst; clear Hxs.
    destruct x as [x|]; cbn in *.
    + apply NoDup_cons in Hnd as [Hni Hnd]. pose proof (Hnew (m_index x) ltac:(by left)) as E0.
      exists (<[m_index x := x]> m0). split; [rewrite Hx; cbn [obind]; unfold add_measurement; by rewrite E0|].
      exists xs'. split_and!; [done|done| |].
      * intros i Hi. apply lookup_insert_None. split; [by apply Hnew; right|]. intros <-. by apply Hni.
      * rewrite <- insert_union_r; [symmetry; apply insert_union_l|].
        apply not_elem_of_list_to_map_1. rewrite <- list_fmap_compose. exact Hni.
    + exists m0. split; [by rewrite Hx|]. exists xs'. by split_and!.
Qed.

Lemma get_hashes_length node n alt hs : get_hashes node n alt = Ret hs -> length hs = n.
Proof.
  revert alt hs. induction n as [|n IH]; intros alt hs; cbn; [by intros [= <-]|].
  destruct (xmlGetNsProp _ _ _); [|done]. intros (l & Hl & [= <-])%obind_Ret. cbn. f_equal. eauto.
Qed.

(** An active measurement has the number of values it declares. *)
Lemma parse_measurement_active node x :
  parse_measurement node = Ret (Some x) ->
  m_active x = true /\ 0 <= m_count x /\ zlen (m_values x) = m_count x /\
  xmlGetProp node "active" = Some "True".
Proof.
  unfold parse_measurement.
  destruct (xmlGetProp node "active") as [a|]; [|done]. destruct (xmlGetProp node "index"); [|done].
  destruct (xmlGetProp node "alternatives"); [|done]. destruct (xmlGetProp node "name"); [|done].
  destruct (xmlGetProp node "size"); [|done]. cbv zeta.
  intros (i & _ & (n & En & (sz & _ & H)%obind_Ret)%obind_Ret)%obind_Ret.
  case_bool_decide as Ea; cbn [negb] in H; [|done]. apply obind_Ret in H as (hs & Eh & H).
  apply get_hashes_length in Eh. destruct (Z.eqb_spec (zlen hs) (u64 n)) as [E|]; [|done].
  injection H as <-. cbn. unfold zlen in *. rewrite Eh in *.
  assert (0 <= n); [|split_and!; [done|done|lia|by subst]].
  destruct (Z.leb_spec 0 n); [done|]. rewrite Z2Nat.nonpos in E by lia.
  assert (- 2 ^ 31 <= n) as Hlo.
  { unfold stoi in En. destruct (match stoi_skip _ with "" => _ | _ => _ end); [|done].
    destruct (_ && _) eqn:Er; [|done]. injection En as <-. lia. }
  unfold wrap in E. rewrite <- (Z.mod_add n 1 (2 ^ 64)), Z.mod_small in E by lia. lia.
Qed.

(** ** Properties *)

(** P: the golden measurements of a document are exactly its active
    [Resource] nodes, by index, when every node parses and no two active ones
    have the same index; any other document is refused.  Each measurement is
    active, sits at its own index and has as many values as it declares. *)
Theorem rim_measurements_spec d m :
  (get_measurements d = Ret m <->
   exists nodes xs, m_doc d <> None /\
     select (m_doc d) [("ns0", ISO_19770_SCHEMA_NAMESPACE_URI); ("ns2", XML_ENC_SHA384_NAMESPACE_URI)]
       "//ns0:Resource[@type='Measurement']" LibXml2Error LibXml2Error RimInvalidSchema = Ret nodes /\
     Forall2 (fun n x => parse_measurement n = Ret x) nodes xs /\
     NoDup (m_index <$> omap id xs) /\
     m = list_to_map ((fun x => (m_index x, x)) <$> omap id xs)) /\
  (get_measurements d = Ret m ->
   forall i x, m !! i = Some x -> m_index x = i /\ m_active x = true /\ zlen (m_values x) = m_count x).
Proof.
  assert (get_measurements d = Ret m <->
   exists nodes xs, m_doc d <> None /\
     select (m_doc d) [("ns0", ISO_19770_SCHEMA_NAMESPACE_URI); ("ns2", XML_ENC_SHA384_NAMESPACE_URI)]
       "//ns0:Resource[@type='Measurement']" LibXml2Error LibXml2Error RimInvalidSchema = Ret nodes /\
     Forall2 (fun n x => parse_measurement n = Ret x) nodes xs /\
     NoDup (m_index <$> omap id xs) /\
     m = list_to_map ((fun x => (m_index x, x)) <$> omap id xs)) as Hiff.
  { unfold get_measurements. destruct (m_doc d) as [doc|]; [|by split; [|intros (? & ? & [] & _)]].
    rewrite obind_Ret. setoid_rewrite measurement_fold. setoid_rewrite (right_id_L ∅ (∪)). split.
    - intros (nodes & Hs & xs & Hf & Hn & _ & ->). by exists nodes, xs.
    - intros (nodes & xs & _ & Hs & Hf & Hn & ->). exists nodes. split; [done|].
      exists xs. by split_and!. }
  split; [exact Hiff|]. intros (nodes & xs & _ & _ & Hf & Hn & ->)%Hiff i x Hx.
  apply elem_of_list_to_map_2, list_elem_of_fmap in Hx as (x' & [= -> ->] & Hx).
  apply list_elem_of_omap in Hx as (o & Ho & E). cbn in E. subst o. split; [done|].
  apply list_elem_of_lookup in Ho as [k Hk]. destruct (Forall2_lookup_r _ _ _ _ _ Hf Hk) as (n & _ & Hp).
  by apply parse_measurement_active in Hp as (? & _ & ? & _).
Qed.

(** P: the RIM service is believed only for an answer 200 whose JSON carries
    the identifier asked for; the document is then the one its base64 text
    decodes to. *)
Theorem remote_rim_iff `{B64 : Base64Lib} (json_parse : string -> option json) {C : Type} `{!Http.INvHttpClient C}
    (s : NvRemoteRimStoreImpl (C:=C)) rim_id d s' :
  remote_get_rim json_parse s rim_id = (Ret d, s') <->
  exists body response data doc http,
    Http.send_request (m_http_client s)
      (Http.mk_request (m_base_url s +:+ "/v1/rim/" +:+ rim_id) Http.HTTP_METHOD_GET [] "") =
      (Ret (200, body), http) /\
    deserialize_from_json json_parse response_from_json body = Ret response /\ rr_id response = rim_id /\
    Base64.decode_base64_string (rr_rim response) = Ret data /\
    xmlReadDoc (remove_null_terminators data) = Some doc /\
    d = mk_rim rim_id (Some doc) data /\ s' = mk_remote (m_base_url s) http.
Proof.
  unfold remote_get_rim. destruct (Http.send_request _ _) as [r http]. split.
  - intros [= Hr <-]. apply obind_Ret in Hr as ([code body] & -> & Hr).
    unfold remote_answer in Hr. apply obind_Ret in Hr as ([] & Hst & Hr).
    apply obind_Ret in Hr as (resp & Hresp & Hr). case_bool_decide as Hid; [|done].
    apply obind_Ret in Hr as (d0 & Hd0 & [= <-]).
    unfold extract_rim_document in Hd0. apply obind_Ret in Hd0 as (data & Hdata & Hd0).
    destruct (Base64.decode_base64_string (rr_rim resp)) as [data'| | |] eqn:Eb; try done. injection Hdata as ->.
    unfold create_from_rim_data in Hd0. destruct (xmlReadDoc _) as [doc|] eqn:Ex; [|done]. injection Hd0 as <-.
    assert (code = 200) as ->.
    { unfold remote_status in Hst. destruct (Z.eqb_spec code Http.HTTP_STATUS_OK); [done|].
      by repeat destruct (_ =? _). }
    exists body, resp, data, doc, http. by split_and!.
  - intros (body & resp & data & doc & http' & [= -> ->] & Hresp & Hid & Hdata & Hdoc & -> & ->).
    cbn [obind remote_answer]. unfold remote_answer. change (remote_status 200) with (Ret (E:=Error) tt).
    cbn [obind]. rewrite Hresp. cbn [obind]. rewrite bool_decide_true by done.
    unfold extract_rim_document. rewrite Hdata. cbn [obind on_err].
    unfold create_from_rim_data. by rewrite Hdoc.
Qed.

(** P: the caching store is transparent: the data of every document it gives
    for an identifier, cached or fresh, is data the inner store gave for that
    identifier, no call is undefined unless the inner store's is (with a clock
    to which the time to live can be added), and its cache stays consistent
    also when it fails. *)
Theorem rim_cache_transparent {S C : Type} `{!IRimStore S} `{!INvCache C string}
    (Q : string -> string -> Prop) t now (s : InMemoryCachingRimStoreImpl (S:=S) (C:=C)) rim_id o s' :
  inner_good Q -> data_bounded (S:=S) -> caching_good Q s -> cache_clock (m_cache s) now ->
  caching_get_rim t now s rim_id = (o, s') ->
  caching_good Q s' /\
  (forall d, o = Ret d -> Q rim_id (m_rim_data d) /\
     (m_doc d = xmlReadDoc (remove_null_terminators (m_rim_data d)) \/
      exists inner, get_rim (m_inner_client s) rim_id = (Ret d, inner))) /\
  (o = UB -> exists inner, get_rim (m_inner_client s) rim_id = (UB, inner)).
Proof.
  intros Hin Hb Hg Hclock H. pose proof (caching_step Q t now s rim_id o s' Hin Hb Hg Hclock H) as [Hg' Hc].
  split; [done|]. destruct Hc as [[_ (inner & [Hi|(d & e & Hi & -> & _)])]|(data & Hk & Hq & -> & _)].
  - split; [|by intros ->; eauto]. intros d ->. split; [by eapply Hin|eauto].
  - done.
  - split.
    + intros d Hd. apply create_data in Hd as (Hd & Hx & _ & _). rewrite Hx, Hd. auto.
    + unfold create_from_rim_data. by destruct (xmlReadDoc _).
Qed.

End rim.

(** A small XML library: a document has one measurement node, whose index is
    the first character of the text (inactive for 0) and whose value is the
    rest; a good signature. *)
Definition toy_node (index active value : string) : list (string * string) :=
  [("active", active); ("index", index); ("alternatives", "1"); ("name", "m"); ("size", "96");
   ("Hash0", value)].

Definition toy_lookup (n : list (string * string)) (name : string) : option string :=
  snd <$> List.find (fun kv => bool_decide (kv.1 = name)) n.

Definition toy_xml : LibXml2 := {|
  xmlDoc := list (list (string * string));
  xmlNode := list (string * string);
  xmlXPathContext := list (list (string * string));
  xmlReadDoc := fun s =>
    match s with
    | "" => None
    | String c s => Some [toy_node (String c "") (if ascii_byte c =? 48 then "False" else "True") s]
    end;
  xmlXPathNewContext := id;
  xmlXPathRegisterNs := fun c _ _ => Some c;
  xmlXPathEvalExpression := fun e c =>
    Some (Some (if bool_decide (e = "//ns0:Resource[@type='Measurement']") then c
                else [[("colloquialVersion", "96.00"); ("FirmwareManufacturerId", "nv")]]));
  xmlGetProp := toy_lookup;
  xmlGetNsProp := fun n name _ => toy_lookup n name;
  xmlNodeGetContent := fun _ => Some "cert";
  xmlDocGetRootElement := fun _ => Some [];
  xmlSecKeysMngrCreate := true;
  xmlSecCryptoAppDefaultKeysMngrInit := 0;
  xmlSecFindSignature := fun n => Some n;
  xmlSecDSigCtxCreate := true;
  xmlSecDSigCtxVerify := fun _ => Some true;
|}.

(** A store that has the same document for every identifier. *)
#[local] Instance toy_store : IRimStore (XML:=toy_xml) unit :=
  fun u rim_id =>
    ((let* d := create_from_rim_data (XML:=toy_xml) "10a0b" (RimDocument_default (XML:=toy_xml)) in
      Ret (set_rim_id (XML:=toy_xml) d rim_id)), u).

Definition toy_caching : InMemoryCachingRimStoreImpl (S:=unit) (C:=NvCache.NvCache string) :=
  mk_caching (C:=NvCache.NvCache string) tt (NvCache.ctor None).

Lemma rim_cache_transparent_witness :
  caching_good (C:=NvCache.NvCache string) (S:=unit) (fun _ data => data = "10a0b")
    (caching_get_rim (XML:=toy_xml) 5 (fun _ => 5) toy_caching "id").2.
Proof.
  destruct (rim_cache_transparent (XML:=toy_xml) (fun _ data => data = "10a0b") 5 (fun _ => 5) toy_caching "id"
    (caching_get_rim (XML:=toy_xml) 5 (fun _ => 5) toy_caching "id").1
    (caching_get_rim (XML:=toy_xml) 5 (fun _ => 5) toy_caching "id").2) as [H _].
  - by intros [] rim_id d s' [= <- <-].
  - by intros [] rim_id d s' [= <- <-].
  - split; [by apply NvCache.wf_empty|]. intros k r. cbn. unfold NvCache.content. cbn.
    by rewrite lookup_empty.
  - intros j. cbn. unfold NvCache.DEFAULT_TTL. lia.
  - apply surjective_pairing.
  - exact H.
Defined.

End Rim.
