(* ===== verification/Report.v ===== *)
(** * Report: what the GPU's and the switch's evidence share

    src/gpu/evidence.cpp and src/switch/evidence.cpp have the same code for
    the parts of an attestation report (a SPDM request, a SPDM response that
    ends in a signature over everything before it), for the runtime
    measurements and for evidence as JSON.  Here are the definitions and the
    lemmas both use. *)

From S2P Require Import Prelude Errors Utils SpdmReq SpdmMeasurementRecords SpdmOpaqueData SpdmResp.
From S2P Require Import Json Base64.

(** *** Sorted sets of strings: [std::set<std::string>] *)

Fixpoint sset_insert (x : string) (l : list string) : list string :=
  match l with
  | [] => [x]
  | y :: l' =>
      match String.compare x y with
      | Lt => x :: l
      | Eq => l
      | Gt => y :: sset_insert x l'
      end
  end.

Definition sset (l : list string) : list string := foldl (fun s x => sset_insert x s) [] l.

(** [erase(remove(..., '.'))]. *)
Fixpoint remove_dots (s : string) : string :=
  match s with
  | "" => ""
  | String c s => if ascii_byte c =? 46 then remove_dots s else String c (remove_dots s)
  end.

(** The runtime measurements by index from 0: the record counts from 1. *)
Definition runtime_measurements (blocks : gmap Z Records.DmtfMeasurementBlock) : gmap Z (list Z) :=
  list_to_map ((fun kv => (kv.1 - 1, Records.m_value kv.2)) <$> map_to_list blocks).

(** ** Evidence as JSON *)

Section evidence_json.
Context `{B64 : Base64Lib}.

(** An error is thrown as a [std::runtime_error]. *)
Definition or_throw {A : Type} (m : res A) : res A :=
  match m with Err _ => Throw runtime_error | _ => m end.

Definition evidence_to_json (arch nonce : string) (attestation_report : list Z) (cert_chain : string) :
    res json :=
  let* encoded_evidence := or_throw (Base64.encode_base64 attestation_report) in
  let* encoded_certificate := or_throw (Base64.encode_base64 (bytes_of_string cert_chain)) in
  Ret (jobject [("arch", JString arch); ("nonce", JString nonce); ("evidence", JString encoded_evidence);
                ("certificate", JString encoded_certificate)]).

(** With the architectures that are known. *)
Definition evidence_from_json {A : Type} (known_arch : string -> option A) (j : json) :
    res (A * list Z * list Z * string) :=
  let* arch_str := let* v := jat j "arch" in get_string v in
  match known_arch arch_str with
  | None => Throw runtime_error
  | Some architecture =>
      let* nonce_str := let* v := jat j "nonce" in get_string v in
      let* evidence_base64 := let* v := jat j "evidence" in get_string v in
      let* attestation_report := or_throw (Base64.decode_base64 evidence_base64) in
      let* certificate_base64 := let* v := jat j "certificate" in get_string v in
      let* certificate_str := or_throw (Base64.decode_base64_string certificate_base64) in
      Ret (architecture, hex_string_to_bytes nonce_str, attestation_report, certificate_str)
  end.

Lemma or_throw_Ret {A : Type} (m : res A) a : or_throw m = Ret a -> m = Ret a.
Proof. by destruct m. Qed.

(** Reading back what was written. *)
Lemma evidence_json_lemma {A : Type} (known_arch : string -> option A) arch a nonce report chain j :
  Base64.base64_documented -> Forall is_byte report -> zlen report < 2 ^ 29 ->
  Z.of_nat (String.length chain) < 2 ^ 29 -> Forall is_byte nonce -> known_arch arch = Some a ->
  evidence_to_json arch (to_hex_string nonce) report chain = Ret j ->
  evidence_from_json known_arch j = Ret (a, nonce, report, chain).
Proof.
  intros Hdoc Hr Hrl Hcl Hn Ha. unfold evidence_to_json.
  intros (ev & Hev%or_throw_Ret & H)%obind_Ret. apply obind_Ret in H as (ce & Hce%or_throw_Ret & [= <-]).
  apply Base64.encode_decode in Hev; [|done..].
  apply Base64.encode_decode in Hce; [|done|apply bytes_of_string_bytes|].
  2: { unfold zlen, bytes_of_string. by rewrite length_fmap, list_of_string_length. }
  unfold evidence_from_json, jat.
  change (jfield (jobject _) "arch") with (Some (JString arch)).
  change (jfield (jobject _) "nonce") with (Some (JString (to_hex_string nonce))).
  change (jfield (jobject _) "evidence") with (Some (JString ev)).
  change (jfield (jobject _) "certificate") with (Some (JString ce)). cbn [obind get_string].
  rewrite Ha, Hev. cbn [or_throw obind].
  unfold Base64.decode_base64_string. rewrite Hce. cbn [or_throw obind].
  rewrite string_bytes_string. by rewrite hex_roundtrip_lemma.
Qed.

End evidence_json.

(** [serialize_to_json] of a vector: any exception is an internal error. *)
Fixpoint json_list {A : Type} (to_json : A -> res json) (l : list A) : res (list json) :=
  match l with
  | [] => Ret []
  | x :: l => let* j := to_json x in let* js := json_list to_json l in Ret (j :: js)
  end.

Definition serialize_list {A : Type} (to_json : A -> res json) (json_dump : json -> option string) (l : list A) :
    res string :=
  match json_list to_json l with
  | Ret js => match json_dump (JArray js) with Some text => Ret text | None => Err InternalError end
  | UB => UB
  | _ => Err InternalError
  end.

(** ** Lemmas *)

Lemma viter_Ret (d : list Z) off len x :
  viter d off len = Ret x -> x = slice d off len /\ 0 <= off /\ 0 <= len /\ off + len <= zlen d.
Proof.
  unfold viter. destruct (_ && _) eqn:E; [|done]. intros [= <-]. split; [done|]. lia.
Qed.

(** Splitting a vector at a length. *)
Lemma slice_prefix_suffix (d : list Z) n :
  0 <= n <= zlen d -> slice d 0 n ++ slice d n (zlen d - n) = d.
Proof. intros. rewrite slice_glue by lia. apply slice_all. lia. Qed.

Lemma last_slice (pre post : list Z) :
  slice (pre ++ post) 0 (zlen (pre ++ post) - zlen post) = pre /\
  slice (pre ++ post) (zlen (pre ++ post) - zlen post) (zlen post) = post.
Proof.
  rewrite zlen_app. replace (zlen pre + zlen post - zlen post) with (zlen pre) by lia. split.
  - exact (slice_app [] pre post 0 (zlen pre) eq_refl eq_refl).
  - pose proof (slice_app pre post [] (zlen pre) (zlen post) eq_refl eq_refl) as E.
    by rewrite app_nil_r in E.
Qed.

(** The response ends in its signature. *)
Lemma encode_signature (m : SpdmResp.SpdmMeasurementResponseMessage11) :
  exists pre, SpdmResp.encode m = pre ++ SpdmResp.m_signature m.
Proof.
  unfold SpdmResp.encode, SpdmResp.encode_body, SpdmResp.encode_tail.
  exists ([SpdmResp.m_spdm_version m; SpdmResp.m_request_response_code m; SpdmResp.m_param1 m;
          SpdmResp.m_param2 m; SpdmResp.m_number_of_blocks m] ++
         le_enc 3 (zlen (SpdmResp.m_measurement_record_data m)) ++ SpdmResp.m_measurement_record_data m ++
         SpdmResp.m_nonce m ++ le_enc 2 (zlen (SpdmResp.m_opaque_data m)) ++ SpdmResp.m_opaque_data m).
  by rewrite <- !app_assoc.
Qed.

(** The parts of a report that was cut at its signature and after its
    request, and parsed. *)
Lemma signed_report_sound data signed sig rq req rs resp n :
  Forall is_byte data -> vec_ok data -> 0 <= n < 2 ^ 64 ->
  viter data 0 (zlen data - n) = Ret signed ->
  viter data (zlen data - n) n = Ret sig ->
  viter data 0 SpdmReq.kRequestLength = Ret rq -> SpdmReq.parse rq = Ret req ->
  viter data SpdmReq.kRequestLength (zlen data - SpdmReq.kRequestLength) = Ret rs ->
  SpdmResp.parse rs n = Ret resp ->
  data = SpdmReq.encode req ++ SpdmResp.encode resp /\
  SpdmReq.well_formed req /\ SpdmResp.well_formed n resp /\
  sig = SpdmResp.m_signature resp /\ data = signed ++ SpdmResp.m_signature resp.
Proof.
  intros Hd Hok Hn (Esd & _)%viter_Ret (Esg & _)%viter_Ret (Erq & _)%viter_Ret Hreq (Ers & Hrs)%viter_Ret Hresp.
  apply SpdmReq.req_parse_sound in Hreq as [Eq Hwq].
  destruct (SpdmResp.resp_parse_sound rs ltac:(subst rs; by apply slice_bytes)
    ltac:(unfold vec_ok in *; rewrite Ers, slice_len; lia) n Hn) as [(e & E & _)|(m & E & Hwr & Er)];
    rewrite Hresp in E; [done|]. injection E as ->.
  assert (data = SpdmReq.encode req ++ SpdmResp.encode m) as Edata.
  { rewrite <- Eq, <- Er, Erq, Ers. symmetry. apply slice_prefix_suffix. lia. }
  split_and!; try done.
  all: destruct (encode_signature m) as [pre Epre].
  all: assert (data = (SpdmReq.encode req ++ pre) ++ SpdmResp.m_signature m) as Esplit
    by (by rewrite Edata, Epre, app_assoc).
  all: assert (zlen (SpdmResp.m_signature m) = n) as Hz by apply Hwr.
  all: destruct (last_slice (SpdmReq.encode req ++ pre) (SpdmResp.m_signature m)) as [E1 E2].
  all: rewrite <- Esplit, Hz in E1, E2.
  - by rewrite <- E2, <- Esg.
  - by rewrite Esd, E1.
Qed.

(** Runtime index [i] is the block with index [i + 1]. *)
Lemma runtime_measurements_lookup (m : gmap Z Records.DmtfMeasurementBlock) i :
  runtime_measurements m !! i = Records.m_value <$> m !! (i + 1).
Proof.
  unfold runtime_measurements.
  destruct (m !! (i + 1)) as [b|] eqn:E; cbn.
  - apply elem_of_list_to_map_1'.
    + intros v Hv. apply list_elem_of_fmap in Hv as ([k x] & [= -> ->] & Hx%elem_of_map_to_list). cbn.
      replace (k - 1 + 1) with k in E by lia. congruence.
    + apply list_elem_of_fmap. exists (i + 1, b). split; [cbn; f_equal; lia|]. by apply elem_of_map_to_list.
  - apply not_elem_of_list_to_map_1. rewrite <- list_fmap_compose.
    intros ([k x] & -> & Hx%elem_of_map_to_list)%list_elem_of_fmap. cbn in E.
    replace (k - 1 + 1) with k in E by lia. congruence.
Qed.
