(* ===== verification/GpuEvidence.v ===== *)
(** * GpuEvidence: a GPU's evidence and its attestation report

    src/gpu/evidence.cpp and include/nv_attestation/gpu/evidence.h: the
    supported architectures, [GpuEvidence::AttestationReport] (certificate
    chain, signed SPDM request and response, opaque fields), its readers, the
    evidence claims, and evidence as JSON.  Collecting evidence from a device is
    in NvmlClient and CorelibClient. *)

From S2P Require Import Prelude Errors Utils SpdmReq SpdmMeasurementRecords SpdmOpaqueData SpdmResp GpuOpaqueData.
From S2P Require Import OpenSsl NvCache Ocsp X509Chain Json Certs Base64 Report.

Module GpuEvidence.

(** ** Architectures *)

Inductive GpuArchitecture : Type := Unknown | Ampere | Hopper | Blackwell.

#[global] Instance GpuArchitecture_eq_dec : EqDecision GpuArchitecture.
Proof. solve_decision. Defined.

Definition arch_to_string (arch : GpuArchitecture) : string :=
  match arch with Hopper => "HOPPER" | Blackwell => "BLACKWELL" | _ => "UNKNOWN" end.

Definition arch_from_string (arch_str : string) : GpuArchitecture :=
  let upper_arch := toupper arch_str in
  if bool_decide (upper_arch = "HOPPER") then Hopper
  else if bool_decide (upper_arch = "BLACKWELL") then Blackwell
  else Unknown.

Definition m_supported_architectures : list GpuArchitecture := [Hopper; Blackwell].

Section gpu_evidence.
Context `{OSSL : OpenSSL}.

Record GpuArchitectureData : Type := mk_arch_data {
  m_arch : GpuArchitecture;
  m_ar_signature_hash_algorithm : option EVP_MD;
  m_ar_signature_length : Z;
  m_fwid_type : X509CertChain.FWIDType;
}.

Definition arch_data_create (arch : GpuArchitecture) : res GpuArchitectureData :=
  check* bool_decide (arch ∈ m_supported_architectures) else GpuArchitectureNotSupported in
  match arch with
  | Hopper => Ret (mk_arch_data arch EVP_sha384 96 X509CertChain.FWID_2_23_133_5_4_1)
  | Blackwell => Ret (mk_arch_data arch EVP_sha384 96 X509CertChain.FWID_2_23_133_5_4_1_1)
  | _ => Err GpuArchitectureNotSupported
  end.

(** ** The attestation report *)

Record AttestationReport : Type := mk_report {
  m_spdm_response : SpdmResp.SpdmMeasurementResponseMessage11;
  m_spdm_request : SpdmReq.SpdmMeasurementRequestMessage11;
  m_gpu_opaque_data_parser : GpuOpaque.GpuOpaqueDataParser;
  m_attestation_cert_chain : X509CertChain.X509CertChain;
}.

Definition create (attestation_report_data : list Z) (ar_cert_chain : string)
    (architecture : GpuArchitecture) : res AttestationReport :=
  let* chain :=
    on_err (X509CertChain.create_from_cert_chain_str GPU_DEVICE_IDENTITY DEVICE_ROOT_CERT ar_cert_chain)
      InternalError in
  let* arch_data := arch_data_create architecture in
  let ar_signature_length := m_ar_signature_length arch_data in
  check* negb (zlen attestation_report_data <=? ar_signature_length) else InternalError in
  let signed := zlen attestation_report_data - ar_signature_length in
  let* data_wo_signature := viter attestation_report_data 0 signed in
  let* signature := viter attestation_report_data signed ar_signature_length in
  let* _ :=
    on_err (X509CertChain.verify_signature_pkcs11 chain data_wo_signature signature
              (m_ar_signature_hash_algorithm arch_data)) GpuEvidenceInvalidSignature in
  let spdm_request_length := SpdmReq.kRequestLength in
  let* spdm_request := viter attestation_report_data 0 spdm_request_length in
  let* request := on_err (SpdmReq.parse spdm_request) GpuEvidenceInvalid in
  let* spdm_response :=
    viter attestation_report_data spdm_request_length (zlen attestation_report_data - spdm_request_length) in
  let* response := on_err (SpdmResp.parse spdm_response ar_signature_length) GpuEvidenceInvalid in
  let* parser := GpuOpaque.create (SpdmResp.m_parsed_opaque_data response) in
  Ret (mk_report response request parser chain).

(** A field that holds bytes. *)
Definition byte_field (r : AttestationReport) (type : Z) : res (list Z) :=
  let* field := GpuOpaque.get_field (m_gpu_opaque_data_parser r) type in
  GpuOpaque.get_byte_vector field.

(** The same as text, up to the first null character. *)
Definition text_field (r : AttestationReport) (type : Z) : res string :=
  let* data := byte_field r type in Ret (remove_null_terminators (string_of_bytes data)).

Definition get_driver_version (r : AttestationReport) : res string := text_field r GpuOpaque.DRIVER_VERSION.

(** The loop that puts dots between pairs of characters. *)
Fixpoint dotted (temp : string) (result : string) : string :=
  let sep := if bool_decide (result = "") then "" else "." in
  match temp with
  | "" => result
  | String a "" => (result +:+ sep) +:+ String a ""
  | String a (String b temp) => dotted temp ((result +:+ sep) +:+ String a (String b ""))
  end.

Definition format_vbios_version (vbios_version_data : list Z) : res string :=
  let hex_value := to_hex_string (reverse vbios_version_data) in
  let half_len := Z.of_nat (String.length hex_value) / 2 in
  let* second_half := substr hex_value half_len (Z.of_nat (String.length hex_value)) in
  let* before_middle := substr hex_value (u64 (half_len - 2)) 2 in
  Ret (remove_null_terminators (toupper (dotted (second_half +:+ before_middle) ""))).

Definition get_vbios_version (r : AttestationReport) : res string :=
  let* data := byte_field r GpuOpaque.VBIOS_VERSION in format_vbios_version data.

Definition get_gpu_switch_pdis (r : AttestationReport) : res (list string) :=
  let* pdis_field := GpuOpaque.get_field (m_gpu_opaque_data_parser r) GpuOpaque.SWITCH_PDI in
  let* pdis_data := GpuOpaque.get_pdi_vector pdis_field in
  Ret (sset ((fun pdi => toupper (to_hex_string (reverse pdi))) <$> pdis_data)).

Definition get_fwid (r : AttestationReport) : res (list Z) := byte_field r GpuOpaque.FWID.

Definition get_driver_rim_id (r : AttestationReport) (architecture : GpuArchitecture) : res string :=
  let* driver_version := get_driver_version r in
  match architecture with
  | Hopper => Ret ("NV_GPU_DRIVER_GH100_" +:+ driver_version)
  | Blackwell =>
      match GpuOpaque.get_field (m_gpu_opaque_data_parser r) GpuOpaque.CHIP_INFO with
      | Ret chip_info_field =>
          let* chip_info_data := GpuOpaque.get_byte_vector chip_info_field in
          let chip_type_string := remove_null_terminators (string_of_bytes chip_info_data) in
          Ret (("NV_GPU_CC_DRIVER_" +:+ chip_type_string) +:+ "_" +:+ driver_version)
      | Err SpdmFieldNotFound => Ret ("NV_GPU_CC_DRIVER_GB100_" +:+ driver_version)
      | Err e => Err e
      | Throw x => Throw x
      | UB => UB
      end
  | _ => Err InternalError
  end.

Definition get_vbios_rim_id (r : AttestationReport) : res string :=
  let* project_id := text_field r GpuOpaque.PROJECT in
  let* project_sku := text_field r GpuOpaque.PROJECT_SKU in
  let* chip_sku := text_field r GpuOpaque.CHIP_SKU in
  let* vbios_version := get_vbios_version r in
  Ret ("NV_GPU_VBIOS_" +:+ project_id +:+ "_" +:+ project_sku +:+ "_" +:+ chip_sku +:+ "_" +:+
       remove_dots vbios_version).

Definition get_nvdec0_status (r : AttestationReport) : res Z :=
  let* nvdec0_data := byte_field r GpuOpaque.NVDEC0_STATUS in vat nvdec0_data 0.

Definition get_measurements (r : AttestationReport) : gmap Z (list Z) :=
  runtime_measurements (SpdmResp.m_parsed_measurement_records (m_spdm_response r)).

Definition get_opaque_data_version (r : AttestationReport) : res Z :=
  Ret (GpuOpaque.m_opaque_data_version (m_gpu_opaque_data_parser r)).

(** [OpaqueDataFeatureFlag], an [int]: the cast keeps the low 32 bits.  A field
    of more than 8 bytes is only logged. *)
Definition get_feature_flag (r : AttestationReport) : res Z :=
  let* feature_flag_data := byte_field r GpuOpaque.FEATURE_FLAG in
  let* feature_flag :=
    or_err (read_little_endian 64 feature_flag_data 0 (zlen feature_flag_data)) InternalError in
  Ret (s32 feature_flag).

Definition feature_flag_to_string (feature_flag : Z) : string :=
  if feature_flag =? 0 then "mpt"
  else if feature_flag =? 1 then "spt"
  else if feature_flag =? 2 then "ppcie"
  else "invalid".

(** ** Claims *)

Record AttestationReportClaims : Type := mk_ar_claims {
  m_cert_chain_claims : CertChainClaims;
  m_fwid_match : bool;
  m_hwmodel : string;
  m_ueid : string;
  m_parsed : bool;
  m_signature_verified : bool;
}.

Record GpuEvidenceClaims : Type := mk_evidence_claims {
  m_gpu_ar_arch_match : bool;
  m_driver_version : string;
  m_vbios_version : string;
  m_gpu_switch_pdis : list string;
  m_attestation_report_claims : AttestationReportClaims;
  m_gpu_ar_nonce_match : bool;
}.

(** The firmware id of the report, if it has one, is that of the leaf. *)
Definition check_fwid (r : AttestationReport) (arch_data : GpuArchitectureData) : res bool :=
  match get_fwid r with
  | Ret fwid =>
      let* cert_fwid := X509CertChain.get_fwid (m_attestation_cert_chain r) 0 (m_fwid_type arch_data) in
      check* bool_decide (fwid = cert_fwid) else GpuEvidenceFwidMismatch in
      Ret true
  | Err SpdmFieldNotFound => Ret true
  | Err e => Err e
  | Throw x => Throw x
  | UB => UB
  end.

Section claims.
Context {S : Type} `{!IOcspHttpClient S}.

Definition generate_attestation_report_claims (now : Z) (r : AttestationReport)
    (arch_data : GpuArchitectureData) : sm S Error AttestationReportClaims :=
  do* fwid_match := slift (check_fwid r arch_data) in
  do* cert_chain_claims := X509CertChain.generate_cert_chain_claims now (m_attestation_cert_chain r) in
  do* hwmodel := slift (X509CertChain.get_hwmodel (m_attestation_cert_chain r)) in
  do* ueid := slift (X509CertChain.get_ueid (m_attestation_cert_chain r)) in
  sret (mk_ar_claims cert_chain_claims fwid_match hwmodel ueid true true).

End claims.

(** ** Evidence *)

(** [m_board_id] stays uninitialized ([None]) in evidence read from JSON. *)
Record GpuEvidence : Type := mk_evidence {
  m_gpu_architecture : GpuArchitecture;
  m_board_id : option Z;
  m_uuid : string;
  m_attestation_report : list Z;
  m_cert_chain : string;
  m_nonce : list Z;
}.

Definition get_hex_nonce (e : GpuEvidence) : string := to_hex_string (m_nonce e).

Definition get_parsed_attestation_report (e : GpuEvidence) : res AttestationReport :=
  create (m_attestation_report e) (m_cert_chain e) (m_gpu_architecture e).

(** The request's nonce is the evidence's. *)
Definition check_nonce (e : GpuEvidence) (r : AttestationReport) : res unit :=
  let nonce_from_ar := SpdmReq.m_nonce (m_spdm_request r) in
  check* zlen nonce_from_ar =? zlen (m_nonce e) else GpuEvidenceNonceMismatch in
  check* bool_decide (nonce_from_ar = m_nonce e) else GpuEvidenceNonceMismatch in
  Ret tt.

Definition generate_gpu_evidence_claims {S : Type} `{!IOcspHttpClient S} (now : Z) (e : GpuEvidence)
    (r : AttestationReport) : sm S Error GpuEvidenceClaims :=
  do* driver_version := slift (get_driver_version r) in
  do* vbios_version := slift (get_vbios_version r) in
  do* pdis := slift (match get_gpu_switch_pdis r with Err SpdmFieldNotFound => Ret [] | m => m end) in
  do* arch_data := slift (arch_data_create (m_gpu_architecture e)) in
  do* _ := slift (check_nonce e r) in
  do* ar_claims := generate_attestation_report_claims now r arch_data in
  sret (mk_evidence_claims true driver_version vbios_version pdis ar_claims true).

(** ** Evidence as JSON *)

Section evidence_json.
Context `{B64 : Base64Lib} (json_parse : string -> option json).

Definition to_json (e : GpuEvidence) : res json :=
  evidence_to_json (arch_to_string (m_gpu_architecture e)) (get_hex_nonce e) (m_attestation_report e)
    (m_cert_chain e).

Definition known_arch (arch_str : string) : option GpuArchitecture :=
  let architecture := arch_from_string arch_str in
  if bool_decide (architecture = Unknown) then None else Some architecture.

Definition from_json (j : json) : res GpuEvidence :=
  let* (architecture, nonce, report, chain) := evidence_from_json known_arch j in
  Ret (mk_evidence architecture None "" report chain nonce).

Definition collection_to_json (json_dump : json -> option string) (collection : list GpuEvidence) : res string :=
  serialize_list to_json json_dump collection.

Definition collection_from_json (json_string : string) : res (list GpuEvidence) :=
  deserialize_from_json json_parse (get_vector from_json) json_string.

(** [GpuEvidenceSourceFromJsonString]: the evidence is read at creation and
    given out only for the nonce it carries. *)
Definition source_create (json_string : string) : res (list GpuEvidence) := collection_from_json json_string.

Fixpoint source_get_evidence (evidence : list GpuEvidence) (nonce_input : list Z) : res (list GpuEvidence) :=
  match evidence with
  | [] => Ret []
  | e :: evidence =>
      check* bool_decide (m_nonce e = nonce_input) else GpuEvidenceNonceMismatch in
      let* es := source_get_evidence evidence nonce_input in
      Ret (e :: es)
  end.

(** [GpuEvidenceSourceFromJsonFile::create]. *)
Definition file_source_create (file : string -> option string) (file_path : string) : res (list GpuEvidence) :=
  check* negb (bool_decide (file_path = "")) else BadArgument in
  match file file_path with
  | None => Err InternalError
  | Some file_contents => source_create file_contents
  end.

End evidence_json.

(** ** Lemmas *)

Lemma arch_data_Ret arch a :
  arch_data_create arch = Ret a ->
  (arch = Hopper \/ arch = Blackwell) /\ m_ar_signature_length a = 96 /\
  m_ar_signature_hash_algorithm a = EVP_sha384 /\
  m_fwid_type a = match arch with Hopper => X509CertChain.FWID_2_23_133_5_4_1
                                | _ => X509CertChain.FWID_2_23_133_5_4_1_1 end.
Proof. unfold arch_data_create. case_bool_decide; [|done]. destruct arch; try done; intros [= <-]; auto. Qed.

Lemma check_fwid_Ret r a b :
  check_fwid r a = Ret b ->
  b = true /\ (get_fwid r = Err SpdmFieldNotFound \/
    exists fwid, get_fwid r = Ret fwid /\
      X509CertChain.get_fwid (m_attestation_cert_chain r) 0 (m_fwid_type a) = Ret fwid).
Proof.
  unfold check_fwid. destruct (get_fwid r) as [fwid|e|x|]; try done.
  - intros (cf & Hcf & H)%obind_Ret. case_bool_decide as E; [subst cf|done]. injection H as <-. eauto.
  - destruct e; try done. intros [= <-]. auto.
Qed.

Lemma check_nonce_Ret e r : check_nonce e r = Ret tt <-> SpdmReq.m_nonce (m_spdm_request r) = m_nonce e.
Proof.
  unfold check_nonce. split.
  - destruct (_ =? _); [|done]. by case_bool_decide.
  - intros ->. by rewrite Z.eqb_refl, bool_decide_true.
Qed.

(** What evidence claims say of the report and its evidence. *)
Record claims_hold {S : Type} `{!IOcspHttpClient S} (now : Z) (e : GpuEvidence) (r : AttestationReport)
    (s s' : S) (c : GpuEvidenceClaims) : Prop := mk_claims_hold {
  ch_arch : m_gpu_architecture e = Hopper \/ m_gpu_architecture e = Blackwell;
  ch_nonce : SpdmReq.m_nonce (m_spdm_request r) = m_nonce e;
  ch_driver : get_driver_version r = Ret (m_driver_version c);
  ch_vbios : get_vbios_version r = Ret (m_vbios_version c);
  ch_fwid : get_fwid r = Err SpdmFieldNotFound \/
    exists fwid a, get_fwid r = Ret fwid /\ arch_data_create (m_gpu_architecture e) = Ret a /\
      X509CertChain.get_fwid (m_attestation_cert_chain r) 0 (m_fwid_type a) = Ret fwid;
  ch_chain : X509CertChain.generate_cert_chain_claims now (m_attestation_cert_chain r) s =
    (Ret (m_cert_chain_claims (m_attestation_report_claims c)), s');
  ch_hwmodel : X509CertChain.get_hwmodel (m_attestation_cert_chain r) =
    Ret (m_hwmodel (m_attestation_report_claims c));
  ch_ueid : X509CertChain.get_ueid (m_attestation_cert_chain r) = Ret (m_ueid (m_attestation_report_claims c));
  ch_flags : m_gpu_ar_arch_match c = true /\ m_gpu_ar_nonce_match c = true /\
    m_fwid_match (m_attestation_report_claims c) = true /\ m_parsed (m_attestation_report_claims c) = true /\
    m_signature_verified (m_attestation_report_claims c) = true;
}.

Lemma evidence_claims_sound {S : Type} `{!IOcspHttpClient S} now e r (s : S) c s' :
  generate_gpu_evidence_claims now e r s = (Ret c, s') -> claims_hold now e r s s' c.
Proof.
  unfold generate_gpu_evidence_claims.
  intros (dv & s1 & [Hdv ->]%slift_Ret & H)%sbind_Ret.
  apply sbind_Ret in H as (vb & s1 & [Hvb ->]%slift_Ret & H).
  apply sbind_Ret in H as (pd & s1 & [Hpd ->]%slift_Ret & H).
  apply sbind_Ret in H as (a & s1 & [Ha ->]%slift_Ret & H).
  apply sbind_Ret in H as ([] & s1 & [Hn%check_nonce_Ret ->]%slift_Ret & H).
  apply sbind_Ret in H as (ar & s1 & Har & [= <- <-]).
  unfold generate_attestation_report_claims in Har.
  apply sbind_Ret in Har as (fm & s2 & [Hf ->]%slift_Ret & Har).
  apply sbind_Ret in Har as (cc & s2 & Hcc & Har).
  apply sbind_Ret in Har as (hw & s3 & [Hhw ->]%slift_Ret & Har).
  apply sbind_Ret in Har as (ue & s3 & [Hue ->]%slift_Ret & [= <- <-]).
  apply check_fwid_Ret in Hf as [-> Hf].
  destruct (arch_data_Ret _ _ Ha) as (Harch & _). constructor; try done.
  destruct Hf as [Hf|(fw & Hf & Hc)]; [by left|right]. by exists fw, a.
Qed.

(** Runtime index [i] is the block with index [i + 1]. *)
Lemma get_measurements_lookup r i :
  get_measurements r !! i =
  Records.m_value <$> SpdmResp.m_parsed_measurement_records (m_spdm_response r) !! (i + 1).
Proof. apply runtime_measurements_lookup. Qed.

Lemma format_vbios_cases data :
  zlen data < 2 /\ format_vbios_version data = Throw out_of_range \/
  2 <= zlen data /\ exists version, format_vbios_version data = Ret version.
Proof.
  unfold format_vbios_version. rewrite to_hex_string_length, length_reverse.
  replace (Z.of_nat (2 * length data) / 2) with (zlen data)
    by (unfold zlen; rewrite Nat2Z.inj_mul, Z.mul_comm, Z.div_mul; lia).
  pose proof (zlen_nonneg data) as H0. unfold substr. rewrite to_hex_string_length, length_reverse.
  rewrite (proj2 (Z.ltb_ge _ _)) by (unfold zlen; lia). cbn [obind].
  destruct (Z.ltb_spec (zlen data) 2) as [Hs|Hs]; [left|right]; (split; [done|]).
  - assert (u64 (zlen data - 2) = 2 ^ 64 + (zlen data - 2)) as ->.
    { unfold wrap. rewrite <- (Z.mod_add _ 1) by lia. rewrite Z.mod_small; lia. }
    by rewrite (proj2 (Z.ltb_lt _ _)) by (unfold zlen in *; lia).
  - pose proof (Z.mod_le (zlen data - 2) (2 ^ 64)). unfold wrap in *.
    rewrite (proj2 (Z.ltb_ge _ _)) by (unfold zlen in *; lia). eauto.
Qed.

(** ** Properties *)

(** C7: what an attestation report that is created is: its bytes are
    exactly a request followed by a response, both well formed, the response
    ends in the 96-byte signature, and OpenSSL verified that signature over
    all the bytes before it under the key of the first certificate of the PEM
    text that came with it.  The chain object is made with the pinned device root
    as its trust store; that the certificates lead up to this root is verified
    when the claims are made ([local_gpu_verify_sound]), not here. *)
Theorem attestation_report_authentic data chain_text arch r :
  Forall is_byte data -> vec_ok data -> create data chain_text arch = Ret r ->
  (arch = Hopper \/ arch = Blackwell) /\
  data = SpdmReq.encode (m_spdm_request r) ++ SpdmResp.encode (m_spdm_response r) /\
  SpdmReq.well_formed (m_spdm_request r) /\ SpdmResp.well_formed 96 (m_spdm_response r) /\
  X509CertChain.create_from_cert_chain_str GPU_DEVICE_IDENTITY DEVICE_ROOT_CERT chain_text =
    Ret (m_attestation_cert_chain r) /\
  GpuOpaque.create (SpdmResp.m_parsed_opaque_data (m_spdm_response r)) = Ret (m_gpu_opaque_data_parser r) /\
  exists signed, data = signed ++ SpdmResp.m_signature (m_spdm_response r) /\
    X509CertChain.verify_signature_pkcs11 (m_attestation_cert_chain r) signed
      (SpdmResp.m_signature (m_spdm_response r)) EVP_sha384 = Ret tt.
Proof.
  intros Hd Hok. unfold create.
  intros (chain & Hchain%on_err_Ret & H)%obind_Ret.
  apply obind_Ret in H as (a & Ha & H). apply arch_data_Ret in Ha as (Harch & Hsl & Hmd & _).
  rewrite Hsl, Hmd in H. destruct (zlen data <=? 96) eqn:El; [done|]. cbn [negb] in H.
  apply obind_Ret in H as (signed & Esd & H). apply obind_Ret in H as (sig & Esg & H).
  apply obind_Ret in H as ([] & Hver%on_err_Ret & H). apply obind_Ret in H as (rq & Erq & H).
  apply obind_Ret in H as (req & Hreq%on_err_Ret & H). apply obind_Ret in H as (rs & Ers & H).
  apply obind_Ret in H as (resp & Hresp%on_err_Ret & H).
  apply obind_Ret in H as (parser & Hp & [= <-]).
  destruct (signed_report_sound data signed sig rq req rs resp 96) as (E & Hq & Hs & -> & Esplit); try done.
  cbn. split_and!; try done. by exists signed.
Qed.

(** The shift of [read_little_endian] reaches the width of the target. *)
Lemma read_little_endian_loop_wide buffer n i v :
  vec_ok buffer -> 0 <= i <= 8 -> 8 < i + Z.of_nat n -> i + Z.of_nat n <= zlen buffer ->
  read_little_endian_loop 64 buffer 0 n i v = UB.
Proof.
  unfold vec_ok. intros Hok. revert i v. induction n as [|n IH]; intros i v Hi Hn Hl; [lia|].
  cbn [read_little_endian_loop]. rewrite wrap_small, Z.add_0_l by lia.
  destruct (slice_succ buffer 0 i) as (b & Hb & _); [lia..|]. rewrite Z.add_0_l in Hb. rewrite Hb. cbn [obind].
  case_match; [|done]. apply IH; lia.
Qed.

(** P: reading the feature flag is defined exactly when the field has at most
    eight bytes, and then gives their little-endian value; for a longer field,
    which the code logs but does not refuse, it shifts by the width of the
    integer or more. *)
Theorem feature_flag_bounds r data :
  byte_field r GpuOpaque.FEATURE_FLAG = Ret data -> Forall is_byte data -> vec_ok data ->
  (get_feature_flag r = UB <-> 8 < zlen data) /\
  (zlen data <= 8 -> get_feature_flag r = Ret (s32 (le_val data))).
Proof.
  intros Hf Hb Hok. unfold get_feature_flag. rewrite Hf. cbn [obind].
  assert (0 <= zlen data) by apply Zle_0_nat.
  assert (Hsmall : zlen data <= 8 ->
    read_little_endian 64 data 0 (zlen data) = Ret (Some (le_val data))).
  { intros. rewrite read_little_endian_spec by (done || lia). do 3 f_equal. unfold slice.
    rewrite drop_0. apply take_ge. unfold zlen. lia. }
  split; [split|].
  - intros HU. destruct (Z.le_gt_cases (zlen data) 8) as [Hle|]; [|lia]. by rewrite Hsmall in HU by done.
  - intros Hlong. unfold read_little_endian. unfold vec_ok in Hok. rewrite wrap_small by lia.
    replace (zlen data <? 0 + zlen data) with false by lia.
    rewrite read_little_endian_loop_wide; [done|done|lia|rewrite Z2Nat.id; lia..].
  - intros. by rewrite Hsmall.
Qed.

(** P: reading the VBIOS version throws, and nothing in the library catches
    it before the C interface, exactly when the field has fewer than two
    bytes. *)
Theorem vbios_version_short data :
  (format_vbios_version data = Throw out_of_range <-> zlen data < 2) /\
  (2 <= zlen data -> exists version, format_vbios_version data = Ret version).
Proof.
  destruct (format_vbios_cases data) as [[Hs ->]|[Hs [v ->]]]; (split; [split|]); try done; try lia; eauto.
Qed.

(** P: evidence written as JSON and read back is the same evidence, but for
    the board and the UUID, which the text does not carry. *)
Theorem gpu_evidence_json_roundtrip `{B64 : Base64Lib} e j :
  Base64.base64_documented -> m_gpu_architecture e ∈ m_supported_architectures ->
  Forall is_byte (m_attestation_report e) -> zlen (m_attestation_report e) < 2 ^ 29 ->
  Z.of_nat (String.length (m_cert_chain e)) < 2 ^ 29 -> Forall is_byte (m_nonce e) ->
  to_json e = Ret j ->
  from_json j = Ret (mk_evidence (m_gpu_architecture e) None "" (m_attestation_report e) (m_cert_chain e)
                       (m_nonce e)).
Proof.
  intros Hdoc Harch Hr Hrl Hcl Hn Hj. unfold from_json.
  rewrite (evidence_json_lemma known_arch (arch_to_string (m_gpu_architecture e)) (m_gpu_architecture e) (m_nonce e) _ _ _ Hdoc Hr Hrl Hcl Hn); [done| |exact Hj].
  unfold m_supported_architectures in Harch. set_unfold in Harch. by destruct Harch as [->|[->|[]]].
Qed.

(** P: a JSON source gives out evidence only when all of it carries the nonce
    asked for, and then exactly what was read. *)
Theorem source_nonce_bound es nonce :
  (source_get_evidence es nonce = Ret es <-> Forall (fun e => m_nonce e = nonce) es) /\
  (~ Forall (fun e => m_nonce e = nonce) es -> source_get_evidence es nonce = Err GpuEvidenceNonceMismatch).
Proof.
  induction es as [|e es [IH1 IH2]]; cbn; [by split; [split; [constructor|]|intros []; constructor]|].
  rewrite Forall_cons. case_bool_decide as Hn; [|by split; [split; [|intros []]|]].
  destruct (decide (Forall (fun e => m_nonce e = nonce) es)) as [Hf|Hf].
  - rewrite (proj2 IH1 Hf). cbn. split; [split; [by split|done]|]. by intros [].
  - rewrite (IH2 Hf). cbn. split; [split; [done|by intros []]|done].
Qed.

End gpu_evidence.

(** *** A small report: driver and VBIOS version 96.00, NVDEC0 enabled, one
    measurement; a chain of two certificates. *)

Definition toy_field (type : Z) (data : list Z) : list Z := le_enc 2 type ++ le_enc 2 (zlen data) ++ data.

Definition toy_opaque : list Z :=
  toy_field GpuOpaque.DRIVER_VERSION (bytes_of_string "96.00") ++
  toy_field GpuOpaque.VBIOS_VERSION [150; 0] ++
  toy_field GpuOpaque.NVDEC0_STATUS [0xAA] ++
  toy_field GpuOpaque.PROJECT [80] ++ toy_field GpuOpaque.PROJECT_SKU [81] ++
  toy_field GpuOpaque.CHIP_SKU [82].

Definition toy_record : list Z := [2; 1; 5; 0; 7; 2; 0; 10; 11].

Definition toy_data : list Z :=
  ([17; 224; 0; 0] ++ replicate 32 9 ++ [0]) ++
  [17; 96; 0; 0; 1] ++ le_enc 3 (zlen toy_record) ++ toy_record ++ replicate 32 5 ++
  le_enc 2 (zlen toy_opaque) ++ toy_opaque ++ replicate 96 1.

Definition toy_chain_text : string := "A-----END CERTIFICATE-----BB-----END CERTIFICATE-----".

Definition toy_evidence : GpuEvidence :=
  mk_evidence Hopper None "" toy_data toy_chain_text (replicate 32 9).

Lemma toy_data_bytes : Forall is_byte toy_data.
Proof. unfold is_byte. apply (bool_decide_unpack _). vm_compute. done. Qed.

Lemma toy_report_created : exists r, create (OSSL:=toy_openssl) toy_data toy_chain_text Hopper = Ret r.
Proof. eexists. vm_compute. reflexivity. Qed.

Lemma attestation_report_authentic_witness :
  exists r : AttestationReport (OSSL:=toy_openssl),
    toy_data = SpdmReq.encode (m_spdm_request r) ++ SpdmResp.encode (m_spdm_response r).
Proof.
  destruct toy_report_created as [r Hr]. exists r.
  destruct (attestation_report_authentic (OSSL:=toy_openssl) toy_data toy_chain_text Hopper r) as (_ & E & _);
    [exact toy_data_bytes|done|exact Hr|exact E].
Defined.

(** A report whose feature flag has nine bytes. *)
Definition toy_flag_opaque : list Z := toy_opaque ++ toy_field GpuOpaque.FEATURE_FLAG (replicate 9 1).

Definition toy_flag_data : list Z :=
  ([17; 224; 0; 0] ++ replicate 32 9 ++ [0]) ++
  [17; 96; 0; 0; 1] ++ le_enc 3 (zlen toy_record) ++ toy_record ++ replicate 32 5 ++
  le_enc 2 (zlen toy_flag_opaque) ++ toy_flag_opaque ++ replicate 96 1.

Lemma feature_flag_bounds_witness :
  exists r : AttestationReport (OSSL:=toy_openssl),
    create (OSSL:=toy_openssl) toy_flag_data toy_chain_text Hopper = Ret r /\ get_feature_flag r = UB.
Proof.
  eexists. split; [vm_compute; reflexivity|].
  eapply (feature_flag_bounds (OSSL:=toy_openssl)); [vm_compute; reflexivity| | |reflexivity].
  - by repeat constructor.
  - done.
Defined.

(** Evidence with a report of three bytes, for the text. *)
Definition toy_small_evidence : GpuEvidence := mk_evidence Blackwell (Some 4) "u" [1; 2; 3] "abc" [7].

Lemma gpu_evidence_json_roundtrip_witness :
  exists j, to_json (B64:=Base64.toy_base64) toy_small_evidence = Ret j /\
    from_json (B64:=Base64.toy_base64) j = Ret (mk_evidence Blackwell None "" [1; 2; 3] "abc" [7]).
Proof.
  exists (jobject [("arch", JString "BLACKWELL"); ("nonce", JString "07");
                   ("evidence", JString (String.string_of_list_ascii (Base64.toy_encode [1; 2; 3])));
                   ("certificate", JString (String.string_of_list_ascii (Base64.toy_encode [97; 98; 99])))]).
  split; [vm_compute; reflexivity|].
  apply (gpu_evidence_json_roundtrip (B64:=Base64.toy_base64) toy_small_evidence);
    [apply Base64.toy_base64_documented|by right; left|by repeat constructor|done|done|by repeat constructor|].
  vm_compute. reflexivity.
Defined.

End GpuEvidence.
