(* ===== verification/SwitchEvidence.v ===== *)
(** * SwitchEvidence: an NVSwitch's evidence and its attestation report

    src/switch/evidence.cpp and include/nv_attestation/switch/evidence.h: the
    supported architecture, [SwitchEvidence::AttestationReport], its readers,
    the evidence claims, and evidence as JSON.  Collecting evidence from a
    device is in NscqClient. *)

From S2P Require Import Prelude Errors Utils SpdmReq SpdmMeasurementRecords SpdmOpaqueData SpdmResp SwitchOpaqueData.
From S2P Require Import OpenSsl NvCache Ocsp X509Chain Json Certs Base64 Report.

Module SwitchEvidence.

(** ** Architectures *)

Inductive SwitchArchitecture : Type := Unknown | LS10 | SV10 | LR10.

#[global] Instance SwitchArchitecture_eq_dec : EqDecision SwitchArchitecture.
Proof. solve_decision. Defined.

Definition arch_to_string (arch : SwitchArchitecture) : string :=
  match arch with LS10 => "LS10" | SV10 => "SV10" | LR10 => "LR10" | Unknown => "UNKNOWN" end.

Definition arch_from_string (arch_str : string) : SwitchArchitecture :=
  if bool_decide (arch_str = "LS10") then LS10
  else if bool_decide (arch_str = "SV10") then SV10
  else if bool_decide (arch_str = "LR10") then LR10
  else Unknown.

Definition m_supported_architectures : list SwitchArchitecture := [LS10].

Section switch_evidence.
Context `{OSSL : OpenSSL}.

Record SwitchArchitectureData : Type := mk_arch_data {
  m_arch : SwitchArchitecture;
  m_ar_signature_hash_algorithm : option EVP_MD;
  m_ar_signature_length : Z;
  project : string;
  project_sku : string;
  chip_sku : string;
  m_fwid_type : X509CertChain.FWIDType;
}.

Definition arch_data_create (arch : SwitchArchitecture) : res SwitchArchitectureData :=
  check* bool_decide (arch ∈ m_supported_architectures) else SwitchArchitectureNotSupported in
  match arch with
  | LS10 => Ret (mk_arch_data arch EVP_sha384 96 "5612" "0002" "890" X509CertChain.FWID_2_23_133_5_4_1)
  | _ => Err SwitchArchitectureNotSupported
  end.

(** ** The attestation report *)

Record AttestationReport : Type := mk_report {
  m_spdm_response : SpdmResp.SpdmMeasurementResponseMessage11;
  m_spdm_request : SpdmReq.SpdmMeasurementRequestMessage11;
  m_switch_opaque_data_parser : gmap Z SwitchOpaque.SwitchParsedOpaqueFieldData;
  m_attestation_cert_chain : X509CertChain.X509CertChain;
}.

Definition create (attestation_report_data : list Z) (ar_cert_chain : string)
    (architecture : SwitchArchitecture) : res AttestationReport :=
  let* chain :=
    on_err (X509CertChain.create_from_cert_chain_str NVSWITCH_DEVICE_IDENTITY DEVICE_ROOT_CERT ar_cert_chain)
      InternalError in
  let* arch_data := arch_data_create architecture in
  let ar_signature_length := m_ar_signature_length arch_data in
  check* negb (zlen attestation_report_data <=? ar_signature_length) else InternalError in
  let signed := zlen attestation_report_data - ar_signature_length in
  let* data_wo_signature := viter attestation_report_data 0 signed in
  let* signature := viter attestation_report_data signed ar_signature_length in
  let* _ :=
    on_err (X509CertChain.verify_signature_pkcs11 chain data_wo_signature signature
              (m_ar_signature_hash_algorithm arch_data)) SwitchEvidenceInvalidSignature in
  let spdm_request_length := SpdmReq.kRequestLength in
  let* spdm_request := viter attestation_report_data 0 spdm_request_length in
  let* request := on_err (SpdmReq.parse spdm_request) InternalError in
  let* spdm_response :=
    viter attestation_report_data spdm_request_length (zlen attestation_report_data - spdm_request_length) in
  let* response := on_err (SpdmResp.parse spdm_response ar_signature_length) InternalError in
  let* parser := on_err (SwitchOpaque.create (SpdmResp.m_parsed_opaque_data response)) InternalError in
  Ret (mk_report response request parser chain).

Definition byte_field (r : AttestationReport) (type : Z) : res (list Z) :=
  let* field := SwitchOpaque.get_field (m_switch_opaque_data_parser r) type in
  SwitchOpaque.get_byte_vector field.

Definition get_fwid (r : AttestationReport) : res (list Z) := byte_field r SwitchOpaque.FWID.

Definition get_vbios_version (r : AttestationReport) : res string :=
  let* bios_version_data := byte_field r SwitchOpaque.VBIOS_VERSION in
  Ret (remove_null_terminators (string_of_bytes bios_version_data)).

Definition get_switch_pdi (r : AttestationReport) : res string :=
  let* pdi_data := byte_field r SwitchOpaque.DEVICE_PDI in
  Ret (toupper (to_hex_string pdi_data)).

Definition get_switch_gpu_pdis (r : AttestationReport) : res (list string) :=
  let* pdis_field := SwitchOpaque.get_field (m_switch_opaque_data_parser r) SwitchOpaque.SWITCH_GPU_PDIS in
  let* pdis_data := SwitchOpaque.get_pdi_vector pdis_field in
  Ret (sset ((fun pdi => toupper (to_hex_string pdi)) <$> pdis_data)).

Definition get_vbios_rim_id (r : AttestationReport) (architecture : SwitchArchitecture) : res string :=
  let* vbios_version := get_vbios_version r in
  let vbios_version := toupper (remove_dots vbios_version) in
  let* arch_data := arch_data_create architecture in
  Ret ("NV_SWITCH_BIOS_" +:+ project arch_data +:+ "_" +:+ project_sku arch_data +:+ "_" +:+
       chip_sku arch_data +:+ "_" +:+ vbios_version).

Definition get_spdm_req_nonce (r : AttestationReport) : list Z := SpdmReq.m_nonce (m_spdm_request r).

Definition get_measurements (r : AttestationReport) : gmap Z (list Z) :=
  runtime_measurements (SpdmResp.m_parsed_measurement_records (m_spdm_response r)).

(** ** Claims *)

Record AttestationReportClaims : Type := mk_ar_claims {
  m_cert_chain_claims : CertChainClaims;
  m_fwid_match : bool;
  m_hwmodel : string;
  m_ueid : string;
  m_parsed : bool;
  m_signature_verified : bool;
}.

Record SwitchEvidenceClaims : Type := mk_evidence_claims {
  m_switch_arch_match : bool;
  m_switch_bios_version : string;
  m_switch_pdi : string;
  m_switch_gpu_pdis : list string;
  m_switch_ar_nonce_match : bool;
  m_attestation_report_claims : AttestationReportClaims;
}.

(** The firmware id of the report, if it has one, is that of the leaf. *)
Definition check_fwid (r : AttestationReport) (arch_data : SwitchArchitectureData) : res bool :=
  match get_fwid r with
  | Ret fwid =>
      let* cert_fwid := X509CertChain.get_fwid (m_attestation_cert_chain r) 0 (m_fwid_type arch_data) in
      check* bool_decide (fwid = cert_fwid) else SwitchEvidenceFwidMismatch in
      Ret true
  | Err SpdmFieldNotFound => Ret true
  | Err e => Err e
  | Throw x => Throw x
  | UB => UB
  end.

Definition generate_attestation_report_claims {S : Type} `{!IOcspHttpClient S} (now : Z) (r : AttestationReport)
    (arch_data : SwitchArchitectureData) : sm S Error AttestationReportClaims :=
  do* fwid_match := slift (check_fwid r arch_data) in
  do* cert_chain_claims := X509CertChain.generate_cert_chain_claims now (m_attestation_cert_chain r) in
  do* hwmodel := slift (X509CertChain.get_hwmodel (m_attestation_cert_chain r)) in
  do* ueid := slift (X509CertChain.get_ueid (m_attestation_cert_chain r)) in
  sret (mk_ar_claims cert_chain_claims fwid_match hwmodel ueid true true).

(** ** Evidence *)

(** The two modes stay uninitialized ([None]) in evidence read from JSON. *)
Record SwitchEvidence : Type := mk_evidence {
  m_switch_architecture : SwitchArchitecture;
  m_uuid : string;
  m_attestation_report : list Z;
  m_cert_chain : string;
  m_tnvl_mode : option bool;
  m_lock_mode : option bool;
  m_nonce : list Z;
}.

Definition get_hex_nonce (e : SwitchEvidence) : string := to_hex_string (m_nonce e).

Definition get_parsed_attestation_report (e : SwitchEvidence) : res AttestationReport :=
  create (m_attestation_report e) (m_cert_chain e) (m_switch_architecture e).

(** The request's nonce is the evidence's. *)
Definition check_nonce (e : SwitchEvidence) (r : AttestationReport) : res unit :=
  let nonce_from_ar := get_spdm_req_nonce r in
  check* zlen nonce_from_ar =? zlen (m_nonce e) else SwitchEvidenceNonceMismatch in
  check* bool_decide (nonce_from_ar = m_nonce e) else SwitchEvidenceNonceMismatch in
  Ret tt.

(** A field that is missing leaves its default. *)
Definition or_default {A : Type} (m : res A) (default : A) : res A :=
  match m with Err SpdmFieldNotFound => Ret default | _ => m end.

Definition generate_switch_evidence_claims {S : Type} `{!IOcspHttpClient S} (now : Z) (e : SwitchEvidence)
    (r : AttestationReport) : sm S Error SwitchEvidenceClaims :=
  do* arch_data := slift (arch_data_create (m_switch_architecture e)) in
  do* _ := slift (check_nonce e r) in
  do* bios_version := slift (get_vbios_version r) in
  do* pdi := slift (or_default (get_switch_pdi r) "") in
  do* gpu_pdis := slift (or_default (get_switch_gpu_pdis r) []) in
  do* ar_claims := generate_attestation_report_claims now r arch_data in
  sret (mk_evidence_claims true bios_version pdi gpu_pdis true ar_claims).

(** ** Evidence as JSON *)

Section evidence_json.
Context `{B64 : Base64Lib} (json_parse : string -> option json).

Definition to_json (e : SwitchEvidence) : res json :=
  evidence_to_json (arch_to_string (m_switch_architecture e)) (get_hex_nonce e) (m_attestation_report e)
    (m_cert_chain e).

Definition known_arch (arch_str : string) : option SwitchArchitecture :=
  let architecture := arch_from_string arch_str in
  if bool_decide (architecture = Unknown) then None else Some architecture.

Definition from_json (j : json) : res SwitchEvidence :=
  let* (architecture, nonce, report, chain) := evidence_from_json known_arch j in
  Ret (mk_evidence architecture "" report chain None None nonce).

Definition collection_to_json (json_dump : json -> option string) (collection : list SwitchEvidence) : res string :=
  serialize_list to_json json_dump collection.

Definition collection_from_json (json_string : string) : res (list SwitchEvidence) :=
  deserialize_from_json json_parse (get_vector from_json) json_string.

(** [SwitchEvidenceSourceFromJsonString]: the evidence is read at creation and
    given out only for the nonce it carries. *)
Definition source_create (json_string : string) : res (list SwitchEvidence) := collection_from_json json_string.

Fixpoint source_get_evidence (evidence : list SwitchEvidence) (nonce_input : list Z) : res (list SwitchEvidence) :=
  match evidence with
  | [] => Ret []
  | e :: evidence =>
      check* bool_decide (m_nonce e = nonce_input) else SwitchEvidenceNonceMismatch in
      let* es := source_get_evidence evidence nonce_input in
      Ret (e :: es)
  end.

(** [SwitchEvidenceSourceFromJsonFile::create]. *)
Definition file_source_create (file : string -> option string) (file_path : string) : res (list SwitchEvidence) :=
  check* negb (bool_decide (file_path = "")) else BadArgument in
  match file file_path with
  | None => Err InternalError
  | Some file_contents => source_create file_contents
  end.

End evidence_json.

(** ** Lemmas *)

Lemma switch_arch_data_Ret arch a :
  arch_data_create arch = Ret a ->
  arch = LS10 /\ m_ar_signature_length a = 96 /\ m_ar_signature_hash_algorithm a = EVP_sha384 /\
  m_fwid_type a = X509CertChain.FWID_2_23_133_5_4_1.
Proof. unfold arch_data_create. case_bool_decide; [|done]. destruct arch; try done; intros [= <-]; auto. Qed.

Lemma switch_check_fwid_Ret r a b :
  check_fwid r a = Ret b ->
  b = true /\ (get_fwid r = Err SpdmFieldNotFound \/
    exists fwid, get_fwid r = Ret fwid /\
      X509CertChain.get_fwid (m_attestation_cert_chain r) 0 (m_fwid_type a) = Ret fwid).
Proof.
  unfold check_fwid. destruct (get_fwid r) as [fwid|e|x|]; try done.
  - intros (cf & Hcf & H)%obind_Ret. case_bool_decide as E; [subst cf|done]. injection H as <-. eauto.
  - destruct e; try done. intros [= <-]. auto.
Qed.

Lemma switch_check_nonce_Ret e r : check_nonce e r = Ret tt <-> SpdmReq.m_nonce (m_spdm_request r) = m_nonce e.
Proof.
  unfold check_nonce, get_spdm_req_nonce. split.
  - destruct (_ =? _); [|done]. by case_bool_decide.
  - intros ->. by rewrite Z.eqb_refl, bool_decide_true.
Qed.

(** What evidence claims say of the report and its evidence. *)
Record claims_hold {S : Type} `{!IOcspHttpClient S} (now : Z) (e : SwitchEvidence) (r : AttestationReport)
    (s s' : S) (c : SwitchEvidenceClaims) : Prop := mk_claims_hold {
  ch_arch : m_switch_architecture e = LS10;
  ch_nonce : SpdmReq.m_nonce (m_spdm_request r) = m_nonce e;
  ch_vbios : get_vbios_version r = Ret (m_switch_bios_version c);
  ch_pdi : or_default (get_switch_pdi r) "" = Ret (m_switch_pdi c);
  ch_gpu_pdis : or_default (get_switch_gpu_pdis r) [] = Ret (m_switch_gpu_pdis c);
  ch_fwid : get_fwid r = Err SpdmFieldNotFound \/
    exists fwid, get_fwid r = Ret fwid /\
      X509CertChain.get_fwid (m_attestation_cert_chain r) 0 X509CertChain.FWID_2_23_133_5_4_1 = Ret fwid;
  ch_chain : X509CertChain.generate_cert_chain_claims now (m_attestation_cert_chain r) s =
    (Ret (m_cert_chain_claims (m_attestation_report_claims c)), s');
  ch_hwmodel : X509CertChain.get_hwmodel (m_attestation_cert_chain r) =
    Ret (m_hwmodel (m_attestation_report_claims c));
  ch_ueid : X509CertChain.get_ueid (m_attestation_cert_chain r) = Ret (m_ueid (m_attestation_report_claims c));
  ch_flags : m_switch_arch_match c = true /\ m_switch_ar_nonce_match c = true /\
    m_fwid_match (m_attestation_report_claims c) = true /\ m_parsed (m_attestation_report_claims c) = true /\
    m_signature_verified (m_attestation_report_claims c) = true;
}.

Lemma switch_evidence_claims_sound {S : Type} `{!IOcspHttpClient S} now e r (s : S) c s' :
  generate_switch_evidence_claims now e r s = (Ret c, s') -> claims_hold now e r s s' c.
Proof.
  unfold generate_switch_evidence_claims.
  intros (a & s1 & [Ha ->]%slift_Ret & H)%sbind_Ret.
  apply sbind_Ret in H as ([] & s1 & [Hn%switch_check_nonce_Ret ->]%slift_Ret & H).
  apply sbind_Ret in H as (vb & s1 & [Hvb ->]%slift_Ret & H).
  apply sbind_Ret in H as (pdi & s1 & [Hpdi ->]%slift_Ret & H).
  apply sbind_Ret in H as (pds & s1 & [Hpds ->]%slift_Ret & H).
  apply sbind_Ret in H as (ar & s1 & Har & [= <- <-]).
  unfold generate_attestation_report_claims in Har.
  apply sbind_Ret in Har as (fm & s2 & [Hf ->]%slift_Ret & Har).
  apply sbind_Ret in Har as (cc & s2 & Hcc & Har).
  apply sbind_Ret in Har as (hw & s3 & [Hhw ->]%slift_Ret & Har).
  apply sbind_Ret in Har as (ue & s3 & [Hue ->]%slift_Ret & [= <- <-]).
  apply switch_check_fwid_Ret in Hf as [-> Hf].
  destruct (switch_arch_data_Ret _ _ Ha) as (Harch & _ & _ & Hft). rewrite Hft in Hf. by constructor.
Qed.

(** ** Properties *)

(** P: an attestation report that is created is authentic: its bytes are
    exactly a request followed by a response, both well formed, the response
    ends in the 96-byte signature, and OpenSSL verified that signature over
    all the bytes before it under the first certificate of a chain built
    against the pinned device root. *)
Theorem switch_report_authentic data chain_text arch r :
  Forall is_byte data -> vec_ok data -> create data chain_text arch = Ret r ->
  arch = LS10 /\
  data = SpdmReq.encode (m_spdm_request r) ++ SpdmResp.encode (m_spdm_response r) /\
  SpdmReq.well_formed (m_spdm_request r) /\ SpdmResp.well_formed 96 (m_spdm_response r) /\
  X509CertChain.create_from_cert_chain_str NVSWITCH_DEVICE_IDENTITY DEVICE_ROOT_CERT chain_text =
    Ret (m_attestation_cert_chain r) /\
  SwitchOpaque.create (SpdmResp.m_parsed_opaque_data (m_spdm_response r)) = Ret (m_switch_opaque_data_parser r) /\
  exists signed, data = signed ++ SpdmResp.m_signature (m_spdm_response r) /\
    X509CertChain.verify_signature_pkcs11 (m_attestation_cert_chain r) signed
      (SpdmResp.m_signature (m_spdm_response r)) EVP_sha384 = Ret tt.
Proof.
  intros Hd Hok. unfold create.
  intros (chain & Hchain%on_err_Ret & H)%obind_Ret.
  apply obind_Ret in H as (a & Ha & H). apply switch_arch_data_Ret in Ha as (Harch & Hsl & Hmd & _).
  rewrite Hsl, Hmd in H. destruct (zlen data <=? 96) eqn:El; [done|]. cbn [negb] in H.
  apply obind_Ret in H as (signed & Esd & H). apply obind_Ret in H as (sig & Esg & H).
  apply obind_Ret in H as ([] & Hver%on_err_Ret & H). apply obind_Ret in H as (rq & Erq & H).
  apply obind_Ret in H as (req & Hreq%on_err_Ret & H). apply obind_Ret in H as (rs & Ers & H).
  apply obind_Ret in H as (resp & Hresp%on_err_Ret & H).
  apply obind_Ret in H as (parser & Hp%on_err_Ret & [= <-]).
  destruct (signed_report_sound data signed sig rq req rs resp 96) as (E & Hq & Hs & -> & Esplit); try done.
  cbn. split_and!; try done. by exists signed.
Qed.

(** P: evidence written as JSON and read back is the same evidence, but for
    the UUID and the two modes, which the text does not carry. *)
Theorem switch_evidence_json_roundtrip `{B64 : Base64Lib} e j :
  Base64.base64_documented -> m_switch_architecture e <> Unknown ->
  Forall is_byte (m_attestation_report e) -> zlen (m_attestation_report e) < 2 ^ 29 ->
  Z.of_nat (String.length (m_cert_chain e)) < 2 ^ 29 -> Forall is_byte (m_nonce e) ->
  to_json e = Ret j ->
  from_json j = Ret (mk_evidence (m_switch_architecture e) "" (m_attestation_report e) (m_cert_chain e) None None
                       (m_nonce e)).
Proof.
  intros Hdoc Harch Hr Hrl Hcl Hn Hj. unfold from_json.
  rewrite (evidence_json_lemma known_arch (arch_to_string (m_switch_architecture e)) (m_switch_architecture e)
    (m_nonce e) _ _ _ Hdoc Hr Hrl Hcl Hn); [done| |exact Hj].
  by destruct (m_switch_architecture e).
Qed.

End switch_evidence.

(** *** A small report of a switch: BIOS version 96.00, one measurement; a
    chain of two certificates. *)

Definition toy_field (type : Z) (data : list Z) : list Z := le_enc 2 type ++ le_enc 2 (zlen data) ++ data.

Definition toy_opaque : list Z :=
  toy_field SwitchOpaque.VBIOS_VERSION (bytes_of_string "96.00") ++ toy_field SwitchOpaque.DEVICE_PDI [1; 2].

Definition toy_record : list Z := [2; 1; 5; 0; 7; 2; 0; 10; 11].

Definition toy_data : list Z :=
  ([17; 224; 0; 0] ++ replicate 32 9 ++ [0]) ++
  [17; 96; 0; 0; 1] ++ le_enc 3 (zlen toy_record) ++ toy_record ++ replicate 32 5 ++
  le_enc 2 (zlen toy_opaque) ++ toy_opaque ++ replicate 96 1.

Definition toy_chain_text : string := "A-----END CERTIFICATE-----BB-----END CERTIFICATE-----".

Definition toy_evidence : SwitchEvidence :=
  mk_evidence LS10 "" toy_data toy_chain_text None None (replicate 32 9).

Lemma toy_switch_data_bytes : Forall is_byte toy_data.
Proof. unfold is_byte. apply (bool_decide_unpack _). vm_compute. done. Qed.

Lemma toy_switch_report_created : exists r, create (OSSL:=toy_openssl) toy_data toy_chain_text LS10 = Ret r.
Proof. eexists. vm_compute. reflexivity. Qed.

Lemma switch_report_authentic_witness :
  exists r : AttestationReport (OSSL:=toy_openssl),
    toy_data = SpdmReq.encode (m_spdm_request r) ++ SpdmResp.encode (m_spdm_response r).
Proof.
  destruct toy_switch_report_created as [r Hr]. exists r.
  destruct (switch_report_authentic (OSSL:=toy_openssl) toy_data toy_chain_text LS10 r) as (_ & E & _);
    [exact toy_switch_data_bytes|done|exact Hr|exact E].
Defined.

Definition toy_small_evidence : SwitchEvidence :=
  mk_evidence SV10 "u" [1; 2; 3] "abc" (Some true) (Some true) [7].

Lemma switch_evidence_json_roundtrip_witness :
  exists j, to_json (B64:=Base64.toy_base64) toy_small_evidence = Ret j /\
    from_json (B64:=Base64.toy_base64) j = Ret (mk_evidence SV10 "" [1; 2; 3] "abc" None None [7]).
Proof.
  exists (jobject [("arch", JString "SV10"); ("nonce", JString "07");
                   ("evidence", JString (String.string_of_list_ascii (Base64.toy_encode [1; 2; 3])));
                   ("certificate", JString (String.string_of_list_ascii (Base64.toy_encode [97; 98; 99])))]).
  split; [vm_compute; reflexivity|].
  apply (switch_evidence_json_roundtrip (B64:=Base64.toy_base64) toy_small_evidence);
    [apply Base64.toy_base64_documented|done|by repeat constructor|done|done|by repeat constructor|].
  vm_compute. reflexivity.
Defined.

End SwitchEvidence.
