(* ===== verification/Dumps.v ===== *)
(** * Dumps: the text of parsed messages and of claims

    The stream operators of src/spdm (measurement blocks and records, opaque
    data, the response), of the GPU's and the switch's typed opaque data
    (src/gpu/spdm, src/switch/spdm), and of the claims and the evidence of a
    GPU (src/nv_x509.cpp, src/gpu/evidence.cpp), on a stream in its default
    format.  [std::map] is printed in the order of its keys; the order of an
    [unordered_map] is an argument. *)

From stdpp Require Import pretty sorting.
From S2P Require Import Prelude Errors Utils TimeText SpdmOpaqueData SpdmMeasurementRecords SpdmResp.
From S2P Require Import GpuOpaqueData SwitchOpaqueData X509Chain GpuEvidence.

Local Open Scope Z_scope.

Module Dumps.

Definition newline : string := String (byte_ascii 10) "".

(** [[a, b, c]]. *)
Definition print_list {A : Type} (f : A -> string) (l : list A) : string :=
  "[" +:+ String.concat ", " (f <$> l) +:+ "]".

(** A value or "(empty)". *)
Definition hex_or_empty (data : list Z) : string :=
  match data with [] => "(empty)" | _ => to_hex_string data end.

Definition print_bool (b : bool) : string := if b then "true" else "false".

(** What the getter of an active type gives, or the text of an error. *)
Definition print_got {A : Type} (got : res A) (f : A -> string) (error : string) : string :=
  match got with Ret d => f d | _ => error end.

(** The order of the keys. *)
Definition key_le {A : Type} (p q : Z * A) : Prop := p.1 <= q.1.

#[local] Instance key_le_dec {A : Type} : RelDecision (@key_le A) := fun p q => decide (p.1 <= q.1).
#[local] Instance key_le_total {A : Type} : Total (@key_le A).
Proof. intros p q. unfold key_le. lia. Qed.
#[local] Instance key_le_trans {A : Type} : Transitive (@key_le A).
Proof. intros p q r. unfold key_le. lia. Qed.

(** The pairs of a [std::map]. *)
Definition map_pairs {A : Type} (m : gmap Z A) : list (Z * A) := merge_sort key_le (map_to_list m).

(** ** SPDM *)

Definition print_block (dmtf_measurement : Records.DmtfMeasurementBlock) : string :=
  "    DMTFSpecMeasurementValueType : " +:+ to_hex_string_byte (Records.m_type dmtf_measurement) +:+ newline +:+
  "    DMTFSpecMeasurementValueSize : " +:+ pretty (Records.m_value_size dmtf_measurement) +:+ newline +:+
  "    DMTFSpecMeasurementValue     : " +:+ hex_or_empty (Records.m_value dmtf_measurement).

(** [blocks]: the pairs in the order of iteration. *)
Definition print_records (blocks : list (Z * Records.DmtfMeasurementBlock)) : string :=
  "--- SPDM Measurement Record ---" +:+
  match blocks with
  | [] => newline +:+ "  (No measurement blocks or parsing failed)"
  | _ =>
      String.concat "" ((fun '(index, block) =>
        newline +:+ "  ----------------------------------------" +:+ newline +:+
        "  Measurement Block index : " +:+ pretty (index + 1) +:+ newline +:+ print_block block) <$> blocks)
  end.

Definition print_field (field : Opaque.ParsedOpaqueFieldData) : string :=
  newline +:+ "  " +:+ to_hex_string_u16 (Opaque.m_type field) +:+ " (" +:+ pretty (Opaque.m_type field) +:+ "): " +:+
  to_hex_string (Opaque.m_data field).

Definition print_opaque (fields : list Opaque.ParsedOpaqueFieldData) : string :=
  "--- Parsed Opaque Data ---" +:+
  match fields with
  | [] => newline +:+ "(No fields parsed or opaque data was empty)"
  | _ => String.concat "" (print_field <$> fields)
  end.

Definition print_response (msg : SpdmResp.SpdmMeasurementResponseMessage11) : string :=
  "--- SPDM GET_MEASUREMENT Response Message ---" +:+ newline +:+
  "SPDMVersion             : " +:+ to_hex_string_byte (SpdmResp.m_spdm_version msg) +:+ newline +:+
  "RequestResponseCode     : " +:+ to_hex_string_byte (SpdmResp.m_request_response_code msg) +:+ newline +:+
  "Param1                  : " +:+ to_hex_string_byte (SpdmResp.m_param1 msg) +:+ newline +:+
  "Param2                  : " +:+ to_hex_string_byte (SpdmResp.m_param2 msg) +:+ newline +:+
  "NumberOfBlocks          : " +:+ pretty (SpdmResp.m_number_of_blocks msg) +:+ newline +:+
  "MeasurementRecordLength : " +:+ pretty (SpdmResp.m_measurement_record_length msg) +:+ newline +:+
  "MeasurementRecordData (" +:+ pretty (zlen (SpdmResp.m_measurement_record_data msg)) +:+ " bytes): " +:+
  hex_or_empty (SpdmResp.m_measurement_record_data msg) +:+ newline +:+
  "Nonce (32 bytes)        : " +:+ to_hex_string (SpdmResp.m_nonce msg) +:+ newline +:+
  "OpaqueLength            : " +:+ pretty (SpdmResp.m_opaque_data_length msg) +:+ newline +:+
  "OpaqueData (" +:+ pretty (zlen (SpdmResp.m_opaque_data msg)) +:+ " bytes)    : " +:+
  hex_or_empty (SpdmResp.m_opaque_data msg) +:+ newline +:+
  print_opaque (SpdmResp.m_parsed_opaque_data msg) +:+ newline +:+
  "Signature (" +:+ pretty (zlen (SpdmResp.m_signature msg)) +:+ " bytes)       : " +:+
  hex_or_empty (SpdmResp.m_signature msg) +:+ newline +:+
  "--- End SPDM GET_MEASUREMENT Response Message ---".

(** ** Typed opaque data of a GPU *)

Module Gpu.
Import GpuOpaque.

Inductive GpuParsedFieldType : Type :=
| UNINITIALIZED | BYTE_VECTOR_TYPE | UINT32_VECTOR_TYPE | PDI_VECTOR_TYPE | UNKNOWN.

(** The values of the enumeration. *)
Definition type_value (type : GpuParsedFieldType) : Z :=
  match type with
  | UNINITIALIZED => 0 | BYTE_VECTOR_TYPE => 1 | UINT32_VECTOR_TYPE => 2 | PDI_VECTOR_TYPE => 3 | UNKNOWN => 4
  end.

Definition type_to_string (type : GpuParsedFieldType) : string :=
  match type with
  | BYTE_VECTOR_TYPE => "BYTE_VECTOR"
  | UINT32_VECTOR_TYPE => "UINT32_VECTOR"
  | PDI_VECTOR_TYPE => "PDI_VECTOR"
  | UNKNOWN => "UNKNOWN"
  | UNINITIALIZED => "UNKNOWN_PARSED_FIELD_TYPE(0x" +:+ hex_u16 (type_value type) +:+ ")"
  end.

Definition get_type (field : GpuParsedOpaqueFieldData) : GpuParsedFieldType :=
  match field with
  | BYTE_VECTOR _ => BYTE_VECTOR_TYPE | UINT32_VECTOR _ => UINT32_VECTOR_TYPE | PDI_VECTOR _ => PDI_VECTOR_TYPE
  end.

(** The type that the header declares for each field. *)
Definition get_gpu_opaque_field_type (source_type : Z) : GpuParsedFieldType :=
  if source_type =? MSRSCNT then UINT32_VECTOR_TYPE
  else if source_type =? SWITCH_PDI then PDI_VECTOR_TYPE
  else if bool_decide (1 <= source_type <= 25 \/ 32 <= source_type <= 36) then BYTE_VECTOR_TYPE
  else UNKNOWN.

Definition print_value (field : GpuParsedOpaqueFieldData) : string :=
  match get_type field with
  | BYTE_VECTOR_TYPE => print_got (get_byte_vector field) to_hex_string "[ERROR: Failed to get byte vector data]"
  | UINT32_VECTOR_TYPE =>
      print_got (get_uint32_vector field) (print_list pretty) "[ERROR: Failed to get uint32 vector data]"
  | PDI_VECTOR_TYPE =>
      print_got (get_pdi_vector field) (print_list to_hex_string) "[ERROR: Failed to get PDI vector data]"
  | UNINITIALIZED => "[UNINITIALIZED]"
  | UNKNOWN => "[UNKNOWN TYPE]"
  end.

Definition print_entry (pair : Z * GpuParsedOpaqueFieldData) : string :=
  newline +:+ to_string pair.1 +:+ " (" +:+ type_to_string (get_type pair.2) +:+ "): " +:+ print_value pair.2.

Definition print_parser (parser : GpuOpaqueDataParser) : string :=
  "--- Parsed GPU Opaque Data ---" +:+ String.concat "" (print_entry <$> map_pairs (m_fields parser)).

End Gpu.

(** ** Typed opaque data of a switch *)

Module Switch.
Import SwitchOpaque.

Inductive SwitchParsedFieldType : Type :=
| UNINITIALIZED | BYTE_VECTOR_TYPE | UINT32_VECTOR_TYPE | PDI_VECTOR_TYPE | PORT_VECTOR_TYPE | UNKNOWN.

Definition type_value (type : SwitchParsedFieldType) : Z :=
  match type with
  | UNINITIALIZED => 0 | BYTE_VECTOR_TYPE => 1 | UINT32_VECTOR_TYPE => 2 | PDI_VECTOR_TYPE => 3
  | PORT_VECTOR_TYPE => 4 | UNKNOWN => 5
  end.

Definition type_to_string (type : SwitchParsedFieldType) : string :=
  match type with
  | BYTE_VECTOR_TYPE => "BYTE_VECTOR"
  | UINT32_VECTOR_TYPE => "UINT32_VECTOR"
  | PDI_VECTOR_TYPE => "PDI_VECTOR"
  | PORT_VECTOR_TYPE => "PORT_VECTOR"
  | UNKNOWN => "UNKNOWN"
  | UNINITIALIZED => "UNKNOWN_PARSED_FIELD_TYPE(0x" +:+ hex_u16 (type_value type) +:+ ")"
  end.

Definition get_type (field : SwitchParsedOpaqueFieldData) : SwitchParsedFieldType :=
  match field with
  | BYTE_VECTOR _ => BYTE_VECTOR_TYPE | UINT32_VECTOR _ => UINT32_VECTOR_TYPE | PDI_VECTOR _ => PDI_VECTOR_TYPE
  | PORT_VECTOR _ => PORT_VECTOR_TYPE
  end.

Definition get_switch_opaque_field_type (source_type : Z) : SwitchParsedFieldType :=
  if source_type =? MSRSCNT then UINT32_VECTOR_TYPE
  else if source_type =? SWITCH_GPU_PDIS then PDI_VECTOR_TYPE
  else if source_type =? SWITCH_PORTS then PORT_VECTOR_TYPE
  else if bool_decide (1 <= source_type <= 25) then BYTE_VECTOR_TYPE
  else UNKNOWN.

Definition print_value (field : SwitchParsedOpaqueFieldData) : string :=
  match get_type field with
  | BYTE_VECTOR_TYPE => print_got (get_byte_vector field) to_hex_string "[ERROR: Failed to get byte vector data]"
  | UINT32_VECTOR_TYPE =>
      print_got (get_uint32_vector field) (print_list pretty) "[ERROR: Failed to get uint32 vector data]"
  | PORT_VECTOR_TYPE =>
      print_got (get_port_vector field) (print_list to_hex_string) "[ERROR: Failed to get PORT vector data]"
  | PDI_VECTOR_TYPE =>
      print_got (get_pdi_vector field) (print_list to_hex_string) "[ERROR: Failed to get PDI vector data]"
  | UNINITIALIZED => "[UNINITIALIZED]"
  | UNKNOWN => "[UNKNOWN TYPE]"
  end.

Definition print_entry (pair : Z * SwitchParsedOpaqueFieldData) : string :=
  newline +:+ to_string pair.1 +:+ " (" +:+ type_to_string (get_type pair.2) +:+ "): " +:+ print_value pair.2.

Definition print_parser (fields : gmap Z SwitchParsedOpaqueFieldData) : string :=
  "--- Parsed SWITCH Opaque Data ---" +:+ String.concat "" (print_entry <$> map_pairs fields).

End Switch.

(** ** Claims and evidence *)

Definition print_ocsp_claims (claims : OCSPClaims) : string :=
  "--- OCSP Claims ---" +:+ newline +:+
  "OCSP Status: " +:+ OCSPStatus_to_string (oc_status claims) +:+ newline +:+
  "Revocation Reason: " +:+ default "None" (oc_revocation_reason claims) +:+ newline +:+
  "Nonce Matches: " +:+ print_bool (oc_nonce_matches claims) +:+ newline +:+
  "OCSP Response Expiration (timestamp): " +:+ pretty (oc_ocsp_resp_expiration_time claims) +:+ newline +:+
  "OCSP Response Expiration (readable): " +:+
  print_got (TimeText.format_time (oc_ocsp_resp_expiration_time claims)) (fun formatted_time => formatted_time) "Format error" +:+
  newline.

Definition print_chain_claims (claims : CertChainClaims) : string :=
  "--- Certificate Chain Claims ---" +:+ newline +:+
  "Expiration Date: " +:+ cc_expiration_date claims +:+ newline +:+
  "Cert Chain Status: " +:+ CertChainStatus_to_string (cc_status claims) +:+ newline +:+
  newline +:+
  print_ocsp_claims (cc_ocsp_claims claims).

Definition print_report_claims (claims : GpuEvidence.AttestationReportClaims) : string :=
  "--- Attestation Report Claims ---" +:+ newline +:+
  "Parsed: " +:+ print_bool (GpuEvidence.m_parsed claims) +:+ newline +:+
  "Signature Verified: " +:+ print_bool (GpuEvidence.m_signature_verified claims) +:+ newline +:+
  "FWID Match: " +:+ print_bool (GpuEvidence.m_fwid_match claims) +:+ newline +:+
  newline +:+
  print_chain_claims (GpuEvidence.m_cert_chain_claims claims).

Definition print_gpu_claims (claims : GpuEvidence.GpuEvidenceClaims) : string :=
  newline +:+ "=== GPU Evidence Claims Debug Output ===" +:+ newline +:+
  "Driver Version: " +:+ GpuEvidence.m_driver_version claims +:+ newline +:+
  "VBios Version: " +:+ GpuEvidence.m_vbios_version claims +:+ newline +:+
  "Architecture Match: " +:+ print_bool (GpuEvidence.m_gpu_ar_arch_match claims) +:+ newline +:+
  "Nonce Match: " +:+ print_bool (GpuEvidence.m_gpu_ar_nonce_match claims) +:+ newline +:+
  newline +:+
  print_report_claims (GpuEvidence.m_attestation_report_claims claims) +:+
  "========================================" +:+ newline +:+ newline.

Definition print_gpu_evidence (evidence : GpuEvidence.GpuEvidence) : string :=
  "--- GPU Evidence ---" +:+ newline +:+
  "GPU Architecture: " +:+ GpuEvidence.arch_to_string (GpuEvidence.m_gpu_architecture evidence) +:+ newline +:+
  "Nonce: " +:+ GpuEvidence.get_hex_nonce evidence +:+ newline +:+
  "Attestation Report: " +:+ to_hex_string (GpuEvidence.m_attestation_report evidence) +:+ newline +:+
  "Attestation Cert Chain: " +:+ GpuEvidence.m_cert_chain evidence +:+ newline.

(** ** Lemmas *)

(** The pairs are those of the map, each once, by ascending key. *)
Lemma map_pairs_spec {A : Type} (m : gmap Z A) :
  map_pairs m ≡ₚ map_to_list m /\ StronglySorted key_le (map_pairs m) /\ NoDup (map_pairs m).*1.
Proof.
  unfold map_pairs. split_and!.
  - apply merge_sort_Permutation.
  - apply StronglySorted_merge_sort; apply _.
  - rewrite merge_sort_Permutation. apply NoDup_fst_map_to_list.
Qed.

Lemma append_assoc a b c : a +:+ (b +:+ c) = (a +:+ b) +:+ c.
Proof.
  induction a as [|x a IH]; [done|]. change (String x (a +:+ (b +:+ c)) = String x ((a +:+ b) +:+ c)). by rewrite IH.
Qed.

(** *** The types of parsed fields *)

Lemma gpu_created_types fs p t f :
  GpuOpaque.create fs = Ret p -> GpuOpaque.m_fields p !! t = Some f ->
  1 <= t <= 36 /\
  Gpu.get_type f = if bool_decide (26 <= t <= 31) then Gpu.BYTE_VECTOR_TYPE else Gpu.get_gpu_opaque_field_type t.
Proof.
  unfold GpuOpaque.create. destruct (ofold GpuOpaque.version_step fs 0) as [v| | |]; cbn [obind]; try done.
  destruct (v <=? GpuOpaque.MAX_OPAQUE_DATA_VERSION); [|done].
  destruct (ofold GpuOpaque.field_step fs ∅) as [m| | |] eqn:E; cbn [obind]; try done. intros [= <-]. cbn [GpuOpaque.m_fields].
  revert t f. refine (ofold_inv
    (fun m => forall t f, m !! t = Some f -> 1 <= t <= 36 /\
       Gpu.get_type f = if bool_decide (26 <= t <= 31) then Gpu.BYTE_VECTOR_TYPE else Gpu.get_gpu_opaque_field_type t) GpuOpaque.field_step fs ∅ m _ _ E).
  - clear. intros m [data type] m' _ Hm. unfold GpuOpaque.field_step, GpuOpaque.is_valid_gpu_opaque_data_type.
    cbn [Opaque.m_type Opaque.m_data]. destruct (_ && _) eqn:Ev; [|done].
    destruct (GpuOpaque.parse_value type data) as [v| | |] eqn:Ep; cbn [obind]; try done. intros [= <-] t f.
    rewrite lookup_insert. case_decide as Ht; [|apply Hm]. subst t. intros [= <-]. split; [lia|].
    unfold GpuOpaque.parse_value in Ep. unfold Gpu.get_gpu_opaque_field_type, GpuOpaque.MSRSCNT, GpuOpaque.SWITCH_PDI in *.
    destruct (Z.eqb_spec type 12) as [->|H12].
    { destruct (GpuOpaque.parse_msr_count_internal data); cbn in Ep; try done. by injection Ep as <-. }
    destruct (Z.eqb_spec type 22) as [->|H22].
    { destruct (GpuOpaque.parse_switch_pdis_internal data); cbn in Ep; try done. by injection Ep as <-. }
    injection Ep as <-. cbn. case_bool_decide; [done|]. rewrite bool_decide_eq_true_2; [done|lia].
  - intros t f. by rewrite lookup_empty.
Qed.

Lemma switch_created_types fs m t f :
  SwitchOpaque.create fs = Ret m -> m !! t = Some f ->
  1 <= t <= 27 /\
  (Switch.get_type f = Switch.get_switch_opaque_field_type t \/
   t = SwitchOpaque.SWITCH_PORTS /\ Switch.get_type f = Switch.BYTE_VECTOR_TYPE).
Proof.
  unfold SwitchOpaque.create. intros E. revert t f. refine (ofold_inv
    (fun m => forall t f, m !! t = Some f -> 1 <= t <= 27 /\
       (Switch.get_type f = Switch.get_switch_opaque_field_type t \/
        t = SwitchOpaque.SWITCH_PORTS /\ Switch.get_type f = Switch.BYTE_VECTOR_TYPE)) SwitchOpaque.field_step fs ∅ m _ _ E).
  - clear. intros m [data type] m' _ Hm. unfold SwitchOpaque.field_step, SwitchOpaque.is_valid_switch_opaque_data_type.
    cbn [Opaque.m_type Opaque.m_data]. destruct (_ && _) eqn:Ev; [|done].
    unfold SwitchOpaque.MSRSCNT, SwitchOpaque.SWITCH_GPU_PDIS, SwitchOpaque.DISABLED_PORTS, SwitchOpaque.SWITCH_PORTS in *.
    destruct (Z.eqb_spec type 12) as [->|H12].
    { destruct (SwitchOpaque.parse_msr_count_internal data); cbn [obind]; try done. intros [= <-] t f.
      rewrite lookup_insert. case_decide; [|apply Hm]. subst t. intros [= <-]. split; [lia|by left]. }
    destruct (Z.eqb_spec type 26) as [->|H26].
    { destruct (SwitchOpaque.parse_pdis_internal data) as [[pdis ports]| | |]; cbn [obind]; try done. intros [= <-] t f.
      rewrite !lookup_insert. case_decide; [subst t; intros [= <-]; split; [lia|by left]|].
      case_decide; [subst t; intros [= <-]; split; [lia|by left]|apply Hm]. }
    assert (forall d t f, <[type := SwitchOpaque.BYTE_VECTOR d]> m !! t = Some f -> 1 <= t <= 27 /\
      (Switch.get_type f = Switch.get_switch_opaque_field_type t \/ t = 27 /\ Switch.get_type f = Switch.BYTE_VECTOR_TYPE)) as Hb.
    { intros d t f. rewrite lookup_insert. case_decide; [|apply Hm]. subst t. intros [= <-]. split; [lia|].
      unfold Switch.get_switch_opaque_field_type, SwitchOpaque.MSRSCNT, SwitchOpaque.SWITCH_GPU_PDIS, SwitchOpaque.SWITCH_PORTS.
      rewrite (proj2 (Z.eqb_neq type 12)), (proj2 (Z.eqb_neq type 26)) by done.
      destruct (Z.eqb_spec type 27); [by right|]. left. rewrite bool_decide_eq_true_2; [done|lia]. }
    destruct (type =? 23); intros [= <-]; apply Hb.
  - intros t f. by rewrite lookup_empty.
Qed.

(** ** Properties *)

(** P: a parsed field has the type the header declares for it (a byte vector
    for a code without a name), so that no parser is printed with the text of
    an error; its fields are printed once each, by ascending code. *)
Theorem gpu_dump_spec fs p :
  GpuOpaque.create fs = Ret p ->
  Gpu.print_parser p = "--- Parsed GPU Opaque Data ---" +:+ String.concat "" (Gpu.print_entry <$> map_pairs (GpuOpaque.m_fields p)) /\
  StronglySorted key_le (map_pairs (GpuOpaque.m_fields p)) /\
  (forall t f, (t, f) ∈ map_pairs (GpuOpaque.m_fields p) <-> GpuOpaque.m_fields p !! t = Some f) /\
  forall t f, GpuOpaque.m_fields p !! t = Some f ->
    (26 <= t <= 31 \/ Gpu.get_type f = Gpu.get_gpu_opaque_field_type t) /\
    Gpu.print_value f =
    match f with
    | GpuOpaque.BYTE_VECTOR d => to_hex_string d
    | GpuOpaque.UINT32_VECTOR d => print_list pretty d
    | GpuOpaque.PDI_VECTOR d => print_list to_hex_string d
    end.
Proof.
  intros Hc. destruct (map_pairs_spec (GpuOpaque.m_fields p)) as (Hp & Hs & _). split_and!; [done|done| |].
  - intros t f. rewrite Hp. apply elem_of_map_to_list.
  - intros t f Hf. destruct (gpu_created_types fs p t f Hc Hf) as [_ Ht]. split; [|by destruct f].
    case_bool_decide; [by left|by right].
Qed.

(** P: the same for a switch, except that a field the device sends with the
    code of the ports (27) is stored as bytes although ports are declared: the
    ports getter then refuses it. *)
Theorem switch_dump_spec fs m :
  SwitchOpaque.create fs = Ret m ->
  StronglySorted key_le (map_pairs m) /\
  (forall t f, (t, f) ∈ map_pairs m <-> m !! t = Some f) /\
  forall t f, m !! t = Some f ->
    (Switch.get_type f = Switch.get_switch_opaque_field_type t \/
     t = SwitchOpaque.SWITCH_PORTS /\ SwitchOpaque.get_port_vector f = Err SpdmFieldNotFound) /\
    Switch.print_value f =
    match f with
    | SwitchOpaque.BYTE_VECTOR d => to_hex_string d
    | SwitchOpaque.UINT32_VECTOR d => print_list pretty d
    | SwitchOpaque.PDI_VECTOR d | SwitchOpaque.PORT_VECTOR d => print_list to_hex_string d
    end.
Proof.
  intros Hc. destruct (map_pairs_spec m) as (Hp & Hs & _). split_and!; [done| |].
  - intros t f. rewrite Hp. apply elem_of_map_to_list.
  - intros t f Hf. destruct (switch_created_types fs m t f Hc Hf) as [_ Ht]. split; [|by destruct f].
    destruct Ht as [Ht|[-> Ht]]; [by left|right]. split; [done|]. by destruct f.
Qed.

(** P: the readable time of revocation claims is the date of their expiration,
    for every time that a response can have. *)
Theorem ocsp_dump_time claims :
  let t := oc_ocsp_resp_expiration_time claims in
  0 < t <= TimeText.LAST_SECOND ->
  exists d, TimeText.valid_date d /\ TimeText.seconds_of d = t /\
    TimeText.format_time t = Ret (TimeText.date_text d) /\
    exists before, print_ocsp_claims claims = before +:+ (TimeText.date_text d +:+ newline).
Proof.
  intros t Ht. destruct (TimeText.gmtime_r_spec t ltac:(lia)) as (d & Hd & Hs & _). exists d.
  assert (TimeText.format_time t = Ret (TimeText.date_text d)) as E.
  { apply TimeText.format_time_iff. split; [lia|]. exists d. split_and!; try done.
    pose proof (TimeText.year_9999 d Hd ltac:(lia)). unfold TimeText.INT_MAX. lia. }
  split_and!; [done|done|done|]. unfold print_ocsp_claims. fold t. rewrite E. cbn [print_got].
  rewrite !(append_assoc _ _ (TimeText.date_text d +:+ newline)). by eexists.
Qed.

End Dumps.
