(* ===== verification/Driver.v ===== *)
(** * Driver: a driver's library, loaded at run time

    What src/gpu/nvml_client.cpp, src/gpu/corelib_client.cpp and
    src/switch/nscq_client.cpp have in common: the library handle, the table
    of function pointers, the [std::once_flag] and the flag that says that the
    library is initialized; [load_symbol] of include/nv_attestation/utils.h;
    and the way the collectors append to the caller's evidence.  The driver is
    a state [D] that calls change; the dynamic linker is a parameter. *)

From S2P Require Import Prelude Errors.

(** [dlopen] succeeds; [dlsym] finds the symbol and [dlerror] reports
    nothing. *)
Class DynamicLinker : Type := {
  dlopen : string -> bool;
  dlsym : string -> string -> bool;
}.

(** A linker that finds everything, for examples. *)
Definition toy_linker : DynamicLinker := {| dlopen _ := true; dlsym _ _ := true |}.

Module Driver.

Section driver.
Context `{DL : DynamicLinker} {D : Type}.

(** ** The state of a client *)

(** The static variables of a client's file: is the handle set, which function
    pointers are set, the flags, and the driver behind the library. *)
Record client : Type := mk_client {
  library_handle : bool;
  symbols : list string;
  g_initialized : bool;
  g_initialized_flag : bool;
  driver : D;
}.

Definition new_client (d : D) : client := mk_client false [] false false d.

Definition with_handle (s : client) (h : bool) : client :=
  mk_client h (symbols s) (g_initialized s) (g_initialized_flag s) (driver s).

Definition with_symbols (s : client) (l : list string) : client :=
  mk_client (library_handle s) l (g_initialized s) (g_initialized_flag s) (driver s).

Definition with_initialized (s : client) : client :=
  mk_client (library_handle s) (symbols s) true (g_initialized_flag s) (driver s).

Definition with_flag (s : client) : client :=
  mk_client (library_handle s) (symbols s) (g_initialized s) true (driver s).

Definition with_driver (s : client) (d : D) : client :=
  mk_client (library_handle s) (symbols s) (g_initialized s) (g_initialized_flag s) d.

(** ** Calls *)

(** A call through a function pointer: undefined when the pointer is null or
    the library is closed. *)
Definition call {A : Type} (name : string) (f : D -> A * D) : sm client Error A := fun s =>
  if library_handle s && bool_decide (name ∈ symbols s) then
    let '(a, d) := f (driver s) in (Ret a, with_driver s d)
  else (UB, s).

(** A call that returns a code, 0 for success, and fills an out-parameter. *)
Definition checked {A : Type} (e : Error) (name : string) (f : D -> (Z * A) * D) : sm client Error A :=
  do* (result, a) := call name f in
  guard* result =? 0 else e in
  sret a.

(** ** Loading *)

Definition load_symbol (library name : string) (syms : list string) : bool * list string :=
  if dlsym library name then (true, name :: syms) else (false, syms).

(** Every symbol is tried, also after one is missing. *)
Fixpoint load_all_symbols (library : string) (names : list string) (success : bool) (syms : list string) :
    bool * list string :=
  match names with
  | [] => (success, syms)
  | name :: names =>
      let '(found, syms) := load_symbol library name syms in
      load_all_symbols library names (found && success) syms
  end.

(** What runs once: open the library, find its symbols, start it.  [start] is
    whether the driver's own initialization succeeds. *)
Definition open_library (e : Error) (library : string) (names : list string) (start : sm client Error bool) :
    sm client Error unit := fun s =>
  if negb (dlopen library) then (Err e, with_handle s false)
  else
  let s := with_handle s true in
  let '(success, syms) := load_all_symbols library names true (symbols s) in
  let s := with_symbols s syms in
  if negb success then (Err e, with_handle s false)
  else
  match start s with
  | (Ret true, s) => (Ret tt, with_initialized s)
  | (Ret false, s) => (Err e, with_handle s false)
  | (Err e, s) => (Err e, s)
  | (Throw x, s) => (Throw x, s)
  | (UB, s) => (UB, s)
  end.

(** [std::call_once] of a function that leaves [init_result]; when it ran
    before, [init_result] keeps its first value [e]. *)
Definition call_once (e : Error) (f : sm client Error unit) : sm client Error unit := fun s =>
  if g_initialized_flag s then (Err e, s)
  else let '(r, s) := f s in (r, with_flag s).

Definition init (e : Error) (library : string) (names : list string) (start : sm client Error bool) :
    sm client Error unit := fun s =>
  if g_initialized s then (Ret tt, s)
  else call_once e (open_library e library names start) s.

(** [stop] is the driver's own shutdown; the pointers are reset. *)
Definition shutdown (stop : sm client Error unit) : sm client Error unit := fun s =>
  if negb (g_initialized s) || negb (library_handle s) then (Ret tt, s)
  else
  match stop s with
  | (Ret _, s) => (Ret tt, mk_client false [] false (g_initialized_flag s) (driver s))
  | (Err e, s) => (Err e, s)
  | (Throw x, s) => (Throw x, s)
  | (UB, s) => (UB, s)
  end.

End driver.

Arguments client : clear implicits.

(** ** Buffers the driver writes *)

(** A zeroed buffer of [cap] bytes after the driver wrote [l] at its start;
    writing past its end is undefined. *)
Definition filled {E : Type} (cap : Z) (l : list Z) : outcome E (list Z) :=
  if zlen l <=? cap then Ret (l ++ replicate (Z.to_nat (cap - zlen l)) 0) else UB.

(** The first [n] bytes of a buffer. *)
Definition read_buffer {E : Type} (buffer : list Z) (n : Z) : outcome E (list Z) :=
  if (0 <=? n) && (n <=? zlen buffer) then Ret (slice buffer 0 n) else UB.

(** [std::string(p)] of a character array: up to the first null character,
    which must be there. *)
Fixpoint c_chars {E : Type} (l : list Z) : outcome E (list Z) :=
  match l with
  | [] => UB
  | b :: l => if b =? 0 then Ret [] else let* l := c_chars l in Ret (b :: l)
  end.

Definition c_string {E : Type} (buffer : list Z) : outcome E string :=
  let* l := c_chars buffer in Ret (string_of_bytes l).

(** ** Collecting *)

(** A collector works on its client and the caller's list of evidence. *)
Definition on_client {S Ev A : Type} (m : sm S Error A) : sm (S * list Ev) Error A := fun s =>
  let '(r, c) := m s.1 in (r, (c, s.2)).

(** [out_evidence.push_back(evidence)]. *)
Definition push_back {S Ev : Type} (e : Ev) : sm (S * list Ev) Error unit := fun s => (Ret tt, (s.1, s.2 ++ [e])).

(** The loop over the devices: [one] for each, in order. *)
Fixpoint collect_loop {S X Ev : Type} (one : X -> sm S Error Ev) (l : list X) : sm (S * list Ev) Error unit :=
  match l with
  | [] => sret tt
  | x :: l =>
      do* evidence := on_client (one x) in
      do* _ := push_back evidence in
      collect_loop one l
  end.

(** [0, 1, ..., n - 1], what a counted loop runs over. *)
Definition indices (n : Z) : list Z := Z.of_nat <$> seq 0 (Z.to_nat n).

(** What the caller sees of a collector: the outcome with the list. *)
Definition collected {S Ev : Type} (m : sm (S * list Ev) Error unit) (s : S) : res (list Ev) :=
  let '(r, (_, out)) := m (s, []) in let* _ := r in Ret out.

(** ** Lemmas *)

Section lemmas.
Context `{DL : DynamicLinker} {D : Type}.

Implicit Types (s : client D).

(** A client that can be called. *)
Definition usable (names : list string) (s : client D) : Prop :=
  library_handle s = true /\ (forall n, n ∈ names -> n ∈ symbols s).

(** What holds of a client at any time: initialized means usable, and after
    the first attempt the flag stays set. *)
Definition sound (names : list string) (s : client D) : Prop :=
  (g_initialized s = true -> usable names s /\ g_initialized_flag s = true) /\
  (library_handle s = true -> g_initialized s = true).

Lemma call_Ret {A : Type} name (f : D -> A * D) s a s' :
  call name f s = (Ret a, s') <->
  library_handle s = true /\ name ∈ symbols s /\ exists d, f (driver s) = (a, d) /\ s' = with_driver s d.
Proof.
  unfold call. destruct (library_handle s); cbn; [|split; [done|by intros [? _]]].
  case_bool_decide; cbn; [|split; [done|by intros (_ & ? & _)]].
  destruct (f (driver s)) as [a0 d]. split.
  - intros [= -> <-]. eauto.
  - intros (_ & _ & d0 & [= <- <-] & ->). done.
Qed.

Lemma call_usable {A : Type} names name (f : D -> A * D) s :
  usable names s -> name ∈ names -> call name f s = (Ret (f (driver s)).1, with_driver s (f (driver s)).2).
Proof.
  intros [Hh Hs] Hn. unfold call. rewrite Hh, bool_decide_true by auto. cbn. by destruct (f (driver s)).
Qed.

Lemma checked_Ret {A : Type} e name (f : D -> (Z * A) * D) s a s' :
  checked e name f s = (Ret a, s') <-> call name f s = (Ret (0, a), s').
Proof.
  unfold checked. rewrite sbind_Ret. split.
  - intros ([rc b] & s1 & H & Hk). destruct (rc =? 0) eqn:E; [|done].
    injection Hk as <- <-. replace rc with 0 in H by lia. done.
  - intros H. exists (0, a), s'. split; [done|]. done.
Qed.

Lemma usable_driver names s d : usable names (with_driver s d) <-> usable names s.
Proof. done. Qed.

Lemma sound_driver names s d : sound names (with_driver s d) <-> sound names s.
Proof. done. Qed.

Lemma load_all_symbols_found library names success syms syms' :
  load_all_symbols library names success syms = (true, syms') ->
  success = true /\ (forall n, n ∈ names -> n ∈ syms') /\ (forall n, n ∈ syms -> n ∈ syms').
Proof.
  revert success syms; induction names as [|n names IH]; intros success syms; cbn.
  { intros [= -> <-]. split_and!; auto. intros n Hn. by apply not_elem_of_nil in Hn. }
  unfold load_symbol. destruct (dlsym library n); intros H.
  - apply IH in H as (Hs & Hn & Hk). split_and!; auto.
    + intros m [->|Hm]%elem_of_cons; [|auto]. apply Hk. by left.
    + intros m Hm. apply Hk. by right.
  - apply IH in H as (? & _ & _). done.
Qed.

Lemma load_all_symbols_all library names syms :
  (forall n, n ∈ names -> dlsym library n = true) -> (load_all_symbols library names true syms).1 = true.
Proof.
  revert syms; induction names as [|n names IH]; intros syms H; [done|]. cbn. unfold load_symbol.
  rewrite H by left. apply IH. intros m Hm. apply H. by right.
Qed.

Lemma new_client_sound names d : sound names (new_client d).
Proof. split; done. Qed.

Lemma init_sound e library names start s r s' :
  (forall s r s', usable names s -> start s = (r, s') -> exists b d, r = Ret b /\ s' = with_driver s d) ->
  sound names s -> init e library names start s = (r, s') ->
  sound names s' /\ (r = Ret tt \/ r = Err e) /\ (r = Ret tt -> g_initialized s' = true).
Proof.
  intros Hstart Hs. unfold init, call_once. destruct (g_initialized s) eqn:Ei.
  { intros [= <- <-]. auto. }
  destruct (g_initialized_flag s).
  { intros [= <- <-]. split_and!; auto; done. }
  unfold open_library. destruct (dlopen library); cbn [negb].
  2: { intros [= <- <-]. split_and!; auto; [|done]. unfold sound. cbn. by rewrite Ei. }
  destruct (load_all_symbols _ _ _ _) as [ok syms] eqn:El. destruct ok; cbn [negb].
  2: { intros [= <- <-]. split_and!; auto; [|done]. unfold sound. cbn. by rewrite Ei. }
  apply load_all_symbols_found in El as (_ & Hn & _).
  destruct (start _) as [r0 s0] eqn:E0.
  apply Hstart in E0 as (b & d & -> & ->); [|done].
  destruct b; intros [= <- <-].
  - split_and!; auto. unfold sound. cbn. split; auto; done.
  - split_and!; auto; [|done]. unfold sound. cbn. by rewrite Ei.
Qed.

Lemma shutdown_sound names stop s r s' :
  (forall s r s', usable names s -> stop s = (r, s') -> exists d, r = Ret tt /\ s' = with_driver s d) ->
  sound names s -> shutdown stop s = (r, s') ->
  sound names s' /\ r = Ret tt /\ g_initialized s' = false.
Proof.
  intros Hstop Hs. unfold shutdown. destruct (g_initialized s) eqn:Ei; cbn [negb orb].
  2: { intros [= <- <-]. auto. }
  destruct Hs as [Hi Hh]. destruct (Hi Ei) as [Hu Hf]. pose proof Hu as [Hl Hn]. rewrite Hl. cbn [negb].
  destruct (stop s) as [r0 s0] eqn:E0. apply Hstop in E0 as (d & -> & ->); [|done].
  intros [= <- <-]. split_and!; auto. split; done.
Qed.

(** *** Code that changes nothing but the driver *)

Definition drives {A : Type} (m : sm (client D) Error A) : Prop :=
  forall s r s', m s = (r, s') -> exists d, s' = with_driver s d.

Lemma with_driver_same s : s = with_driver s (driver s).
Proof. by destruct s. Qed.

Lemma drives_ret {A : Type} (a : A) : drives (sret a).
Proof. intros s r s' [= <- <-]. eauto using with_driver_same. Qed.

Lemma drives_lift {A : Type} (m : res A) : drives (slift m).
Proof. intros s r s' [= <- <-]. eauto using with_driver_same. Qed.

Lemma drives_call {A : Type} name (f : D -> A * D) : drives (call name f).
Proof.
  intros s r s'. unfold call. destruct (_ && _).
  - destruct (f (driver s)) as [a d]. intros [= <- <-]. eauto.
  - intros [= <- <-]. eauto using with_driver_same.
Qed.

Lemma drives_bind {A B : Type} (m : sm (client D) Error A) (k : A -> sm (client D) Error B) :
  drives m -> (forall a, drives (k a)) -> drives (sbind m k).
Proof.
  intros Hm Hk s r s'. unfold sbind. destruct (m s) as [r0 s0] eqn:E. apply Hm in E as [d ->].
  destruct r0 as [a|e|x|]; [|intros [= <- <-]; eauto..]. intros H. apply Hk in H as [d' ->]. by exists d'.
Qed.

Lemma drives_guard {A : Type} (b : bool) e (k : sm (client D) Error A) : drives k -> drives (guard* b else e in k).
Proof. destruct b; [done|]. intros _. apply drives_lift. Qed.

Lemma drives_checked {A : Type} e name (f : D -> (Z * A) * D) : drives (checked e name f).
Proof.
  apply drives_bind; [apply drives_call|]. intros [rc a]. apply drives_guard, drives_ret.
Qed.

(** *** Code that has an outcome

    Of a usable client: a value or, when [errs] is set, an error code; no
    exception and no undefined behaviour. *)

Definition good {A : Type} (errs : bool) (r : res A) : Prop :=
  match r with Ret _ => True | Err _ => errs = true | _ => False end.

Definition well {A : Type} (errs : bool) (names : list string) (m : sm (client D) Error A) : Prop :=
  forall s, usable names s -> good errs (m s).1.

(** The driver's function succeeds, or its failures are accepted. *)
Definition answers {A : Type} (errs : bool) (f : D -> (Z * A) * D) : Prop :=
  errs = true \/ forall d, (f d).1.1 = 0.

Lemma well_ret {A : Type} errs names (a : A) : well errs names (sret a).
Proof. done. Qed.

Lemma well_lift {A : Type} errs names (m : res A) : good errs m -> well errs names (slift m).
Proof. by intros H s _. Qed.

Lemma well_guard {A : Type} errs names (b : bool) e (k : sm (client D) Error A) :
  (errs = true \/ b = true) -> well errs names k -> well errs names (guard* b else e in k).
Proof. intros [-> | ->] Hk; [|done]. destruct b; [done|]. by apply well_lift. Qed.

Lemma well_call {A : Type} errs names name (f : D -> A * D) : name ∈ names -> well errs names (call name f).
Proof. intros Hn s Hs. by rewrite (call_usable names) by done. Qed.

Lemma well_checked {A : Type} errs names e name (f : D -> (Z * A) * D) :
  name ∈ names -> answers errs f -> well errs names (checked e name f).
Proof.
  intros Hn Hf s Hs. unfold checked, sbind. rewrite (call_usable names) by done.
  destruct (f (driver s)) as [[rc a] d] eqn:E. cbn. destruct (rc =? 0) eqn:Erc; [done|]. cbn.
  destruct Hf as [->|Hf]; [done|]. specialize (Hf (driver s)). rewrite E in Hf. cbn in Hf. subst. done.
Qed.

(** The rest only has to cope with the values the first part returns. *)
Lemma well_bind {A B : Type} errs names (m : sm (client D) Error A) (k : A -> sm (client D) Error B) :
  drives m -> well errs names m ->
  (forall a s s', m s = (Ret a, s') -> well errs names (k a)) -> well errs names (sbind m k).
Proof.
  intros Hd Hm Hk s Hs. unfold sbind. specialize (Hm s Hs). destruct (m s) as [r s1] eqn:E.
  pose proof E as Ed. apply Hd in Ed as [d ->]. destruct r; try done. by eapply Hk.
Qed.

Lemma well_Ret {A : Type} names (m : sm (client D) Error A) s :
  well false names m -> usable names s -> exists a s', m s = (Ret a, s').
Proof. intros Hm Hs. specialize (Hm s Hs). destruct (m s) as [[a|e|x|] s']; try done. eauto. Qed.

(** *** The life of a client *)

Section life.
Context (e : Error) (library : string) (names : list string).
Context (start : sm (client D) Error bool) (stop : sm (client D) Error unit).

Inductive life_step : client D -> client D -> Prop :=
| step_init s r s' : init e library names start s = (r, s') -> life_step s s'
| step_shutdown s r s' : shutdown stop s = (r, s') -> life_step s s'
| step_use {A : Type} (m : sm (client D) Error A) s r s' : drives m -> m s = (r, s') -> life_step s s'.

Hypothesis start_drives : forall s r s', usable names s -> start s = (r, s') -> exists b d, r = Ret b /\ s' = with_driver s d.
Hypothesis stop_drives : forall s r s', usable names s -> stop s = (r, s') -> exists d, r = Ret tt /\ s' = with_driver s d.

Lemma life_step_sound s s' : sound names s -> life_step s s' -> sound names s'.
Proof.
  intros Hs H. destruct H as [s r s' H|s r s' H|A m s r s' Hm H].
  - by eapply init_sound in H as [? _].
  - by eapply shutdown_sound in H as [? _].
  - by apply Hm in H as [d ->].
Qed.

Lemma life_sound s s' : sound names s -> rtc life_step s s' -> sound names s'.
Proof. intros Hs H. induction H; eauto using life_step_sound. Qed.

(** A library that was tried once and is not up stays down. *)
Definition down (s : client D) : Prop := g_initialized_flag s = true /\ g_initialized s = false.

Lemma down_init s : down s -> init e library names start s = (Err e, s).
Proof. intros [Hf Hi]. unfold init, call_once. by rewrite Hi, Hf. Qed.

Lemma down_stays s s' : down s -> rtc life_step s s' -> down s'.
Proof.
  intros Hd H. induction H as [|s s1 s2 H _ IH]; [done|]. apply IH. clear s2 IH.
  destruct H as [s r s1 H|s r s1 H|A m s r s1 Hm H].
  - rewrite down_init in H by done. by injection H as <- <-.
  - destruct Hd as [Hf Hi]. unfold shutdown in H. rewrite Hi in H. by injection H as <- <-.
  - by apply Hm in H as [d ->].
Qed.

(** Shutting down, and failing to start, leave it down. *)
Lemma shutdown_down s r s' : sound names s -> g_initialized s = true -> shutdown stop s = (r, s') -> down s'.
Proof.
  intros Hs Hi H. pose proof Hs as [Hu _]. destruct (Hu Hi) as [Hus Hf].
  unfold shutdown in H. pose proof Hus as [Hl _]. rewrite Hi, Hl in H. cbn in H.
  destruct (stop s) as [r0 s0] eqn:E0. apply stop_drives in E0 as (d & -> & ->); [|done].
  injection H as <- <-. done.
Qed.

Lemma init_ready s r s' :
  sound names s -> init e library names start s = (r, s') ->
  sound names s' /\ ((r = Ret tt /\ g_initialized s' = true) \/ (r = Err e /\ down s')).
Proof.
  intros Hs H. pose proof H as Hx. apply init_sound in Hx as (Hs' & Hr & Hi); [|done..]. split; [done|].
  destruct Hr as [-> | ->]; [by left; auto|]. right. split; [done|].
  revert H. unfold init, call_once. destruct (g_initialized s) eqn:Ei; [done|].
  destruct (g_initialized_flag s) eqn:Ef; [by intros [= <-]|].
  unfold open_library. destruct (dlopen library); cbn [negb]; [|intros [= <-]; done].
  destruct (load_all_symbols _ _ _ _) as [ok syms] eqn:El. destruct ok; cbn [negb]; [|intros [= <-]; done].
  apply load_all_symbols_found in El as (_ & Hn & _).
  destruct (start _) as [r0 s0] eqn:E0. apply start_drives in E0 as (b & d & -> & ->); [|done].
  by destruct b; intros [= <-].
Qed.

End life.

End lemmas.

Lemma on_client_Ret {S Ev A : Type} (m : sm S Error A) (s : S * list Ev) a s' :
  on_client m s = (Ret a, s') <-> exists c, m s.1 = (Ret a, c) /\ s' = (c, s.2).
Proof.
  unfold on_client. destruct (m s.1) as [r c]. split; [intros [= -> <-]|intros (? & [= -> <-] & ->)]; eauto.
Qed.

(** Whatever the outcome, the loop has appended evidence of a prefix of the
    devices, in order; of all of them when it succeeds. *)
Lemma collect_loop_spec {S X Ev : Type} (one : X -> sm S Error Ev) (P : X -> Ev -> Prop) (I : S -> Prop) l c out r s' :
  (forall x c r c', I c -> one x c = (r, c') -> I c' /\ (forall e, r = Ret e -> P x e)) ->
  I c -> collect_loop one l (c, out) = (r, s') ->
  I s'.1 /\ exists es l1 l2, s'.2 = out ++ es /\ l = l1 ++ l2 /\ Forall2 P l1 es /\ (r = Ret tt <-> l2 = []).
Proof.
  intros Hone. revert c out; induction l as [|x l IH]; intros c out Hc; cbn [collect_loop].
  { intros [= <- <-]. split; [done|]. exists [], [], []. rewrite app_nil_r. by split_and!. }
  unfold sbind, on_client at 1, push_back. cbn. destruct (one x c) as [r0 c0] eqn:E0.
  apply Hone in E0 as [HI He]; [|done].
  destruct r0 as [e|e|y|];
    [|intros [= <- <-]; split; [done|]; exists [], [], (x :: l); cbn; rewrite app_nil_r; by split_and!..].
  intros H. apply IH in H as [HI' (es & l1 & l2 & Hout & -> & Hf & Hr)]; [|done].
  split; [done|]. exists (e :: es), (x :: l1), l2. rewrite Hout, <- app_assoc. split_and!; auto.
Qed.

(** When the body has an outcome, so has the loop. *)
Lemma collect_loop_good {D X Ev : Type} errs names (one : X -> sm (client D) Error Ev) l c out :
  (forall x, x ∈ l -> drives (one x) /\ well errs names (one x)) ->
  usable names c -> good errs (collect_loop one l (c, out)).1.
Proof.
  revert c out; induction l as [|x l IH]; intros c out Hone Hc; cbn [collect_loop]; [done|].
  destruct (Hone x) as [Hd Hw]; [by left|]. specialize (Hw c Hc).
  unfold sbind, on_client at 1, push_back. cbn. destruct (one x c) as [r c'] eqn:E. apply Hd in E as [d ->].
  destruct r; try done. apply IH; [|done]. intros y Hy. apply Hone. by right.
Qed.

Ltac drives_tac :=
  repeat first [apply drives_ret|apply drives_lift|apply drives_call|apply drives_checked|apply drives_guard
               |apply drives_bind; [|intros ?]].

(** A computation that returned, step by step, down to the driver's answers. *)
Ltac drv_inv :=
  repeat match goal with
  | H : sbind _ _ _ = (Ret _, _) |- _ => apply sbind_Ret in H as (? & ? & ? & ?)
  | H : slift _ _ = (Ret _, _) |- _ => apply slift_Ret in H as [? ?]
  | H : sret _ _ = (Ret _, _) |- _ => unfold sret in H; simplify_eq
  | H : checked _ _ _ _ = (Ret _, _) |- _ => apply checked_Ret in H
  | H : call _ _ _ = (Ret _, _) |- _ => apply call_Ret in H as (_ & _ & ? & ? & ?)
  | H : (if ?b then _ else slift (Err _)) _ = (Ret _, _) |- _ => destruct b eqn:?; [|done]
  end; subst.

Lemma filled_zlen {E : Type} cap l (buffer : list Z) : filled (E:=E) cap l = Ret buffer -> zlen buffer = cap.
Proof.
  unfold filled. destruct (zlen l <=? cap) eqn:H; [|done]. intros [= <-].
  rewrite zlen_app. unfold zlen at 2. rewrite length_replicate. pose proof (zlen_nonneg l). lia.
Qed.

Lemma filled_Ret {E : Type} cap l : zlen l <= cap -> exists buffer, filled (E:=E) cap l = Ret buffer.
Proof. intros H. unfold filled. replace (zlen l <=? cap) with true by lia. eauto. Qed.

(** The first [n] bytes of a zeroed buffer that the driver wrote [l] into. *)
Definition contents (cap : Z) (l : list Z) (n : Z) (bytes : list Z) : Prop :=
  zlen l <= cap /\ 0 <= n <= cap /\ bytes = slice (l ++ replicate (Z.to_nat (cap - zlen l)) 0) 0 n.

(** The text in such a buffer: what is before its first null character. *)
Definition text_of (cap : Z) (l : list Z) (text : string) : Prop :=
  zlen l <= cap /\
  exists l1 l2, l ++ replicate (Z.to_nat (cap - zlen l)) 0 = l1 ++ 0 :: l2 /\ 0 ∉ l1 /\ text = string_of_bytes l1.

Lemma buffer_contents {E : Type} cap l buffer n bytes :
  filled (E:=E) cap l = Ret buffer -> read_buffer (E:=E) buffer n = Ret bytes -> contents cap l n bytes.
Proof.
  intros Hf Hr. pose proof (filled_zlen _ _ _ Hf) as Hz. revert Hf Hr. unfold filled, read_buffer.
  destruct (zlen l <=? cap) eqn:H; [|done]. intros [= <-]. rewrite Hz.
  destruct (_ && _) eqn:Hn; [|done]. intros [= <-]. split_and!; try lia. done.
Qed.

Lemma contents_buffer {E : Type} cap l n :
  zlen l <= cap -> 0 <= n <= cap ->
  exists buffer bytes, filled (E:=E) cap l = Ret buffer /\ read_buffer (E:=E) buffer n = Ret bytes /\ zlen bytes = n.
Proof.
  intros Hl Hn. destruct (filled_Ret (E:=E) cap l Hl) as [buffer Hb]. exists buffer, (slice buffer 0 n).
  pose proof (filled_zlen _ _ _ Hb) as Hz. split; [done|]. unfold read_buffer. rewrite Hz.
  replace ((0 <=? n) && (n <=? cap)) with true by lia. split; [done|]. apply slice_len; lia.
Qed.

Lemma c_chars_inv {E : Type} l l1 : c_chars (E:=E) l = Ret l1 -> 0 ∉ l1 /\ exists l2, l = l1 ++ 0 :: l2.
Proof.
  revert l1; induction l as [|b l IH]; intros l1; cbn; [done|]. destruct (b =? 0) eqn:Eb.
  - intros [= <-]. split; [apply not_elem_of_nil|]. exists l. apply Z.eqb_eq in Eb. by subst.
  - intros (l0 & H & [= <-])%obind_Ret. apply IH in H as [Hn [l2 ->]].
    split; [|by exists l2]. apply not_elem_of_cons. split; [lia|done].
Qed.

Lemma buffer_text {E : Type} cap l buffer text :
  filled (E:=E) cap l = Ret buffer -> c_string (E:=E) buffer = Ret text -> text_of cap l text.
Proof.
  unfold filled, c_string. destruct (zlen l <=? cap) eqn:H; [|done].
  intros [= <-] (l1 & [Hn [l2 Hl]]%c_chars_inv & [= <-])%obind_Ret. split; [lia|]. eauto.
Qed.

Lemma c_chars_Ret {E : Type} l1 l2 : 0 ∉ l1 -> c_chars (E:=E) (l1 ++ 0 :: l2) = Ret l1.
Proof.
  induction l1 as [|b l1 IH]; cbn; [done|]. intros [Hb H]%not_elem_of_cons.
  replace (b =? 0) with false by lia. by rewrite IH.
Qed.

Lemma c_chars_some {E : Type} l : 0 ∈ l -> exists l1, c_chars (E:=E) l = Ret l1.
Proof.
  induction l as [|b l IH]; intros H; [by apply not_elem_of_nil in H|]. cbn.
  destruct (b =? 0) eqn:Eb; [eauto|]. apply elem_of_cons in H as [?|H]; [lia|].
  destruct (IH H) as [l1 ->]. cbn. eauto.
Qed.

Lemma indices_elem n i : i ∈ indices n <-> 0 <= i < n.
Proof.
  unfold indices. rewrite list_elem_of_fmap. setoid_rewrite elem_of_seq. split.
  - intros (k & -> & Hk). lia.
  - intros Hi. exists (Z.to_nat i). lia.
Qed.

Lemma indices_length n : 0 <= n -> zlen (indices n) = n.
Proof. intros. unfold indices, zlen. rewrite length_fmap, length_seq. lia. Qed.

Lemma indices_lookup n k i : indices n !! k = Some i -> i = Z.of_nat k.
Proof.
  unfold indices. rewrite list_lookup_fmap. destruct (seq 0 (Z.to_nat n) !! k) as [j|] eqn:E; [|done].
  apply lookup_seq in E as [-> _]. cbn. by intros [= <-].
Qed.

End Driver.
