(* ===== verification/DriverThreads.v ===== *)
(** * DriverThreads: threads that initialize a driver's library at once

    [init_nvml], [init_corelib] and [init_nscq] (src/gpu/nvml_client.cpp,
    src/gpu/corelib_client.cpp, src/switch/nscq_client.cpp) in several threads.
    Each reads its flag without a lock, and then [std::call_once] lets one
    thread run the initializer while the others wait.  The library is opened
    once, as by a single thread; but a thread that waited gets the error its
    [init_result] started with, also when the initializer succeeded, and the
    first read of the flag races with the write in the initializer. *)

From S2P Require Import Prelude Errors Threads Driver.

Module DriverThreads.
Import Driver.

Section init.
Context `{DL : DynamicLinker} {D : Type}.
Context (e : Error) (library : string) (names : list string) (start : sm (client D) Error bool).

(** The static variables of a client's file. *)
Inductive variable : Type := V_library_handle | V_symbols | V_initialized | V_driver.

Abbreviation body_code := (code variable (client D) (res unit)).

Definition close_code : body_code :=
  CAct [Writes V_library_handle] (fun s => (with_handle s false, CDone (Err e))).

Definition mark_code : body_code :=
  CAct [Writes V_initialized] (fun s => (with_initialized s, CDone (Ret tt))).

Definition start_code : body_code :=
  CAct [Reads V_library_handle; Reads V_symbols; Writes V_driver] (fun s =>
    match start s with
    | (Ret true, s) => (s, mark_code)
    | (Ret false, s) => (s, close_code)
    | (Err e, s) => (s, CDone (Err e))
    | (Throw x, s) => (s, CDone (Throw x))
    | (UB, s) => (s, CDone UB)
    end).

Fixpoint load_code (names : list string) (success : bool) : body_code :=
  match names with
  | [] => if success then start_code else close_code
  | name :: names =>
      CAct [Writes V_symbols] (fun s =>
        let '(found, syms) := load_symbol library name (symbols s) in
        (with_symbols s syms, load_code names (found && success)))
  end.

(** The function that [std::call_once] runs. *)
Definition open_code : body_code :=
  CAct [Writes V_library_handle] (fun s =>
    if dlopen library then (with_handle s true, load_code names true) else (with_handle s false, CDone (Err e))).

(** Whether a thread is inside [std::call_once], and the client. *)
Definition shared : Type := bool * client D.

Abbreviation init_prog := (prog variable shared (res unit)).

(** Inside; at the end the flag is set and the waiting threads go on. *)
Fixpoint once_body (c : body_code) : init_prog :=
  match c with
  | CDone r => Act [] (fun s : shared => Some ((false, with_flag s.2), Done r))
  | CAct l f => Act l (fun s : shared => Some ((s.1, (f s.2).1), once_body (f s.2).2))
  end.

(** [std::call_once]: run the function, wait for the thread that runs it, or
    return at once; [init_result] is local and is [e] unless the function ran
    here. *)
Definition call_once_prog : init_prog :=
  Act [] (fun s : shared =>
    if s.1 then None
    else if g_initialized_flag s.2 then Some (s, Done (Err e))
    else Some ((true, s.2), once_body open_code)).

Definition init_prog_of : init_prog :=
  Act [Reads V_initialized] (fun s : shared =>
    if g_initialized s.2 then Some (s, Done (Ret tt)) else Some (s, call_once_prog)).

(** ** The body alone is what a single thread runs *)

Lemma run_load ns ok s :
  run (load_code ns ok) s =
  let '(success, syms) := load_all_symbols library ns ok (symbols s) in
  run (if success then start_code else close_code) (with_symbols s syms).
Proof.
  revert ok s. induction ns as [|n ns IH]; intros ok s; [by destruct s|]. cbn [load_code run load_all_symbols].
  destruct (load_symbol library n (symbols s)) as [found syms]. cbn [fst snd]. by rewrite IH.
Qed.

Lemma run_open s : run open_code s = open_library e library names start s.
Proof.
  unfold open_code, open_library. cbn [run fst snd]. destruct (dlopen library); cbn [negb]; [|done].
  cbn [fst snd]. rewrite run_load. destruct (load_all_symbols _ _ _ _) as [ok syms]. destruct ok; cbn [negb]; [|done].
  cbn. by destruct (start _) as [[[]|e'|x|] s'].
Qed.

(** ** The pool *)

(** A client before the first initialization. *)
Context (s0 : client D) (fresh : g_initialized s0 = false /\ g_initialized_flag s0 = false).
Context (start_drives : drives start).

Abbreviation first := (open_library e library names start s0).

(** Where the initializer can be: the flag is still unset, or it is the last
    thing it did. *)
Definition early_in (c : body_code) (s : client D) : Prop :=
  g_initialized s = false \/ c = CDone (Ret tt).

(** A body that only sets the flag in its last step. *)
Fixpoint careful (c : body_code) : Prop :=
  match c with
  | CDone _ => True
  | CAct _ f => forall s, g_initialized s = false ->
      early_in (f s).2 (f s).1 /\ g_initialized_flag (f s).1 = g_initialized_flag s /\ careful (f s).2
  end.

Lemma careful_load ns ok : careful (load_code ns ok).
Proof.
  revert ok. induction ns as [|n ns IH]; intros ok; cbn [load_code].
  - assert (careful close_code) as Hc by (intros s Hs; split_and!; [by left|done..]).
    destruct ok; [|done]. intros s Hs. destruct (start s) as [r s'] eqn:E.
    apply start_drives in E as [d ->]. destruct r as [[]|e'|x|]; cbn; (split_and!; [by left|done|]); try done.
    intros s' Hs'. cbn. split_and!; [by right|done..].
  - intros s Hs. destruct (load_symbol library n (symbols s)) as [found syms]. cbn. split_and!; [by left|done|apply IH].
Qed.

Lemma careful_open : careful open_code.
Proof.
  intros s Hs. destruct (dlopen library); cbn; (split_and!; [by left|done|]); [apply careful_load|done].
Qed.

(** The life of the pool: nobody inside yet, one thread inside, or all over. *)
Inductive life (ps : list init_prog) : shared -> Prop :=
| before :
    (forall i p, ps !! i = Some p -> p = init_prog_of \/ p = call_once_prog) -> life ps (false, s0)
| during h c s :
    ps !! h = Some (once_body c) -> run c s = first -> early_in c s -> careful c ->
    g_initialized_flag s = false ->
    (forall i p, ps !! i = Some p -> i <> h ->
       p = init_prog_of \/ p = call_once_prog \/ (p = Done (Ret tt) /\ g_initialized s = true)) ->
    life ps (true, s)
| after h :
    ps !! h = Some (Done first.1) ->
    (forall i p, ps !! i = Some p ->
       p = init_prog_of \/ p = call_once_prog \/ p = Done first.1 \/ p = Done (Err e)) ->
    (first.1 = Ret tt <-> g_initialized first.2 = true) ->
    life ps (false, with_flag first.2).

Lemma open_ret s s' : open_library e library names start s = (Ret tt, s') -> g_initialized s' = true.
Proof.
  unfold open_library. destruct (dlopen library); [|done]. cbn [negb].
  destruct (load_all_symbols _ _ _ _) as [ok syms]. destruct ok; [|done]. cbn [negb].
  destruct (start _) as [[[]|e'|x|] s1]; try done. by intros [= <-].
Qed.

Lemma once_body_act c : exists l f, once_body c = Act l f.
Proof. destruct c; cbn; eauto. Qed.

Lemma life_step ps s ps' s' : life ps s -> step (ps, s) (ps', s') -> life ps' s'.
Proof.
  intros Hl Hs. inversion Hs as [i ps1 s1 l f s2 p Hi Hf]; subst. clear Hs.
  destruct Hl as [Hb|h c s Hh Hr He Hc Hg Ho|h Hh Ho Hiff].
  - destruct (Hb _ _ Hi) as [[= -> ->]|[= -> ->]]; cbn in Hf.
    + rewrite (proj1 fresh) in Hf. injection Hf as <- <-. apply before.
      intros j q [(_ & <- & _)|[_ Hj]]%list_lookup_insert_Some; [by right|by eapply Hb].
    + rewrite (proj2 fresh) in Hf. injection Hf as <- <-. apply (during _ i open_code).
      * apply list_lookup_insert_eq. by eapply lookup_lt_Some.
      * apply run_open.
      * left. apply fresh.
      * apply careful_open.
      * apply fresh.
      * intros j q [(<- & _)|[_ Hj]]%list_lookup_insert_Some Hne; [done|].
        destruct (Hb _ _ Hj) as [->| ->]; auto.
  - destruct (decide (i = h)) as [->|Hne].
    + rewrite Hh in Hi. injection Hi as Hi. destruct c as [r|l0 g]; cbn in Hi; injection Hi as <- <-; injection Hf as <- <-.
      * cbn in Hr. assert (s = first.2 /\ r = first.1) as [Hs1 Hr1] by (by rewrite <- Hr).
        change (life (<[h:=Done r]> ps) (false, with_flag s)). rewrite Hs1. apply (after _ h); rewrite <- ?Hr; cbn.
        -- apply list_lookup_insert_eq. by eapply lookup_lt_Some.
        -- intros j q [(_ & <- & _)|[Hj Hj']]%list_lookup_insert_Some; [auto|].
           destruct (Ho _ _ Hj' (not_eq_sym Hj)) as [->|[->|[-> Hi]]]; auto.
           destruct He as [He|He]; [congruence|]. injection He as ->. auto.
        -- split; [intros ->; by eapply open_ret|]. intros Hi. destruct He as [He|[= ->]]; [congruence|done].
      * cbn. assert (g_initialized s = false) as Hi by (destruct He; [done|discriminate]).
        destruct (Hc s Hi) as (He' & Hg' & Hc'). apply (during _ h (g s).2).
        -- apply list_lookup_insert_eq. by eapply lookup_lt_Some.
        -- exact Hr.
        -- exact He'.
        -- exact Hc'.
        -- by rewrite Hg'.
        -- intros j q [(<- & _)|[Hj Hj']]%list_lookup_insert_Some Hne; [done|].
           destruct (Ho _ _ Hj' Hne) as [->|[->|[-> Hi']]]; auto. congruence.
    + assert (s' = (true, s) /\ (p = call_once_prog \/ (p = Done (Ret tt) /\ g_initialized s = true))) as [-> Hp].
      { destruct (Ho _ _ Hi Hne) as [[= -> ->]|[[= -> ->]|[[=] _]]]; cbn in Hf; [|done].
        destruct (g_initialized s); injection Hf as <- <-; auto. }
      apply (during _ h c); try done; [by rewrite list_lookup_insert_ne|].
      intros j q [(_ & <- & _)|[Hj Hj']]%list_lookup_insert_Some Hne'; [auto|by eapply Ho].
  - assert (s' = (false, with_flag first.2) /\
      (p = call_once_prog \/ p = Done first.1 \/ p = Done (Err e))) as [-> Hp].
    { destruct (Ho _ _ Hi) as [[= -> ->]|[[= -> ->]|[[=]|[=]]]]; cbn in Hf.
      - destruct (g_initialized first.2) eqn:E; injection Hf as <- <-; split; auto.
        right; left. by rewrite (proj2 Hiff).
      - injection Hf as <- <-. auto. }
    assert (i <> h) as Hne by (intros ->; rewrite Hh in Hi; discriminate).
    apply (after _ h); [by rewrite list_lookup_insert_ne| |done].
    intros j q [(_ & <- & _)|[Hj Hj']]%list_lookup_insert_Some; [naive_solver|by eapply Ho].
Qed.

(** A pool that has not finished moves: the threads that wait, wait for one that
    has a step. *)
Lemma life_moves ps s : life ps s -> (exists results, ps = Done <$> results) \/ moves (ps, s).
Proof.
  intros Hl. destruct (finished_or_act ps) as [?|(i & l & f & Hi)]; [by left|]. right.
  destruct Hl as [Hb|h c s Hh Hr He Hc Hg Ho|h Hh Ho Hiff].
  - destruct (Hb _ _ Hi) as [E|E]; rewrite E in Hi; eexists; eapply step_thread; try exact Hi.
    + cbn. rewrite (proj1 fresh). reflexivity.
    + cbn. rewrite (proj2 fresh). reflexivity.
  - destruct c as [r|l0 g]; cbn in Hh; eexists; eapply step_thread; try exact Hh; reflexivity.
  - destruct (Ho _ _ Hi) as [E|[E|[E|E]]]; try done; rewrite E in Hi.
    + destruct (g_initialized (with_flag first.2)) eqn:Eg; eexists; eapply step_thread; try exact Hi;
        cbn in *; rewrite Eg; reflexivity.
    + eexists; eapply step_thread; [exact Hi|]. reflexivity.
Qed.

Abbreviation threads n := (replicate n init_prog_of, (false, s0)).

Lemma reachable_life n c : rtc step (threads n) c -> life c.1 c.2.
Proof.
  intros H. assert (life (replicate n init_prog_of) (false, s0)) as Hl.
  { apply before. intros i p [-> _]%lookup_replicate. by left. }
  change (life (threads n).1 (threads n).2) in Hl. revert Hl.
  induction H as [|c [ps1 s1] c2 Hs _ IH]; [done|]. intros Hl. apply IH. destruct c as [ps s]. by eapply life_step.
Qed.

(** A step of the first of two threads. *)
Lemma head_step l f (q p : init_prog) s s' : f s = Some (s', p) -> step ([Act l f; q], s) ([p; q], s').
Proof. intros H. by apply (step_thread 0%nat [Act l f; q] s l f s' p). Qed.

Lemma second_step l f (q p : init_prog) s s' : f s = Some (s', p) -> step ([q; Act l f], s) ([q; p], s').
Proof. intros H. by apply (step_thread 1%nat [q; Act l f] s l f s' p). Qed.

(** Thread 0 inside, to the end. *)
Lemma once_runs c q s :
  rtc step ([once_body c; q], (true, s)) ([Done (run c s).1; q], (false, with_flag (run c s).2)).
Proof.
  revert s. induction c as [r|l f IH] using code_ind'; intros s; cbn [run].
  - apply rtc_once. by apply head_step.
  - eapply rtc_l; [apply head_step; reflexivity|]. apply IH.
Qed.

Lemma once_reaches_mark ns ok s q s' :
  run (load_code ns ok) s = (Ret tt, s') ->
  exists s1, rtc step ([once_body (load_code ns ok); q], (true, s)) ([once_body mark_code; q], (true, s1)).
Proof.
  revert ok s. induction ns as [|n ns IH]; intros ok s; cbn [load_code].
  - destruct ok; [|done]. cbn [run start_code]. destruct (start s) as [[[]|e'|x|] s1] eqn:E; try done.
    intros _. exists s1. apply rtc_once.
    apply head_step. cbn. by rewrite E.
  - cbn [run]. destruct (load_symbol library n (symbols s)) as [found syms] eqn:E. cbn [fst snd].
    intros [s1 H]%IH. exists s1. eapply rtc_l; [|exact H].
    apply head_step. cbn. by rewrite E.
Qed.

(** ** Properties *)

(** C20: threads that initialize a driver's library at once open it as one thread
    would: no schedule is stuck, and when all have returned, the client is the
    one that a single initialization leaves, at least one thread has its
    result, and every other thread has that result or the error. *)
Theorem concurrent_init n c :
  (0 < n)%nat -> rtc step (threads n) c ->
  (exists c' results, rtc step c c' /\ finished c' results) /\
  forall results, finished c results ->
    c.2 = (false, (init e library names start s0).2) /\
    (exists i, results !! i = Some (init e library names start s0).1) /\
    forall i r, results !! i = Some r -> r = (init e library names start s0).1 \/ r = Err e.
Proof.
  intros Hn H. assert (init e library names start s0 = (first.1, with_flag first.2)) as ->.
  { unfold init, call_once. rewrite (proj1 fresh), (proj2 fresh). by destruct first. }
  split.
  - apply pool_finishes. intros [ps s] H'. apply life_moves. apply (reachable_life n (ps, s)). by etrans.
  - intros results Hf. pose proof (reachable_life n c H) as Hl. apply steps_length in H. unfold finished in Hf.
    rewrite Hf in H, Hl. cbn in H. rewrite length_fmap, length_replicate in H.
    assert (forall i r, results !! i = Some r -> (Done <$> results : list init_prog) !! i = Some (Done r)) as Hr.
    { intros i r Hi. by rewrite list_lookup_fmap, Hi. }
    destruct c as [ps s]. cbn in *. destruct Hl as [Hb|h c s1 Hh _ _ _ _ _|h Hh Ho _].
    + destruct (lookup_lt_is_Some_2 results 0) as [r Hi]; [lia|]. by destruct (Hb _ _ (Hr _ _ Hi)).
    + destruct (once_body_act c) as (l & f & E). rewrite E, list_lookup_fmap in Hh. by destruct (results !! h).
    + split_and!; [done| |].
      * rewrite list_lookup_fmap in Hh. exists h. destruct (results !! h); [|done]. by injection Hh as ->.
      * intros i r Hi. destruct (Ho _ _ (Hr _ _ Hi)) as [E|[E|[E|E]]]; try done; injection E as ->; auto.
Qed.

(** C21: but a second thread can lose: when the initialization succeeds, two
    threads can end with one success and one error, although the client is
    initialized; and they can race, one reading the flag before
    [std::call_once] while the other sets it. *)
Theorem concurrent_init_loses :
  (init e library names start s0).1 = Ret tt ->
  (exists s, rtc step (threads 2) ([Done (Ret tt); Done (Err e)], s) /\ g_initialized s.2 = true) /\
  exists c, rtc step (threads 2) c /\ racy c.
Proof.
  assert (init e library names start s0 = (first.1, with_flag first.2)) as ->.
  { unfold init, call_once. rewrite (proj1 fresh), (proj2 fresh). by destruct first. }
  cbn [fst]. intros Hr. destruct first as [r s'] eqn:Ef. cbn in Hr. subst r. pose proof (open_ret _ _ Ef) as Hi.
  assert (Hread : forall i p q, ([p; q] : list init_prog) !! i = Some init_prog_of ->
    step ([p; q], (false, s0)) (<[i := call_once_prog]> [p; q], (false, s0))).
  { intros i p q Hp. eapply step_thread; [exact Hp|]. cbn. by rewrite (proj1 fresh). }
  assert (Henter : forall q, step ([call_once_prog; q], (false, s0)) ([once_body open_code; q], (true, s0))).
  { intros q. apply head_step. cbn. by rewrite (proj2 fresh). }
  split.
  - exists (false, with_flag s'). split; [|done].
    eapply rtc_l; [by apply (Hread 1%nat)|]. eapply rtc_l; [by apply (Hread 0%nat)|]. cbn.
    eapply rtc_l; [apply Henter|]. etrans; [apply once_runs|]. rewrite run_open, Ef. apply rtc_once.
    apply second_step. reflexivity.
  - rewrite <- run_open in Ef. unfold open_code in Ef. cbn [run] in Ef.
    destruct (dlopen library) eqn:Ed; cbn [fst snd] in Ef; [|done].
    destruct (once_reaches_mark _ _ _ init_prog_of _ Ef) as [s1 Hm].
    exists ([once_body mark_code; init_prog_of], (true, s1)). split.
    + eapply rtc_l; [by apply (Hread 0%nat)|]. cbn. eapply rtc_l; [apply Henter|].
      eapply rtc_l; [|exact Hm].
      apply head_step. cbn. by rewrite Ed.
    + exists 0%nat, 1%nat. do 4 eexists. exists (Writes V_initialized), (Reads V_initialized).
      split_and!; [done|reflexivity|reflexivity|done| |by left|by left|done]. cbn. by destruct (g_initialized s1).
Qed.


End init.

(** *** A library of one function *)

Lemma toy_drives : drives (fun s : client unit => (Ret true, s)).
Proof. intros s r s' [= _ <-]. exists tt. by destruct s as [? ? ? ? []]. Qed.

Abbreviation toy_threads :=
  (init_prog_of (DL:=toy_linker) (D:=unit) NvmlInitFailed "lib" ["f"] (fun s => (Ret true, s))).

(** Thread 1 reads the flag, thread 0 initializes, thread 1 goes on. *)
Definition toy_schedule : list nat := [1; 0; 0; 0; 0; 0; 0; 0; 1]%nat.

Lemma concurrent_init_witness :
  exists i, ([Ret tt; Err NvmlInitFailed] : list (res unit)) !! i = Some (Ret tt).
Proof.
  destruct (concurrent_init (DL:=toy_linker) NvmlInitFailed "lib" ["f"] (fun s => (Ret true, s)) (new_client tt)
    (conj eq_refl eq_refl) toy_drives 2 (foldl sched (replicate 2 toy_threads, (false, new_client tt)) toy_schedule))
    as [_ H].
  - lia.
  - apply sched_steps.
  - destruct (H [Ret tt; Err NvmlInitFailed]) as (_ & Hi & _); [vm_compute; reflexivity|]. exact Hi.
Defined.

Lemma concurrent_init_loses_witness :
  exists c, rtc step (replicate 2 toy_threads, (false, new_client tt)) c /\ racy c.
Proof.
  destruct (concurrent_init_loses (DL:=toy_linker) NvmlInitFailed "lib" ["f"] (fun s => (Ret true, s)) (new_client tt)
    (conj eq_refl eq_refl) eq_refl) as [_ H].
  exact H.
Defined.

End DriverThreads.
