(* ===== verification/NvmlClient.v ===== *)
(** * NvmlClient: evidence of the GPUs through NVML

    src/gpu/nvml_client.cpp and [NvmlEvidenceCollector] of
    src/gpu/evidence.cpp: loading libnvidia-ml, initializing and shutting it
    down, the queries, and the collection of evidence from every GPU.  NVML
    itself is a parameter: a state that its functions change.  A function that
    fills a buffer returns the bytes it wrote at the buffer's start. *)

From S2P Require Import Prelude Errors Utils SpdmReq SpdmMeasurementRecords SpdmOpaqueData SpdmResp GpuOpaqueData.
From S2P Require Import OpenSsl NvCache Ocsp X509Chain Json Certs Base64 Report GpuEvidence Driver.

Module Nvml.

(** ** The C interface of NVML *)

Record nvmlConfComputeSystemState_t : Type := mk_system_state {
  environment : Z;
  ccFeature : Z;
  devToolsMode : Z;
}.

Record nvmlConfComputeSettings_t : Type := mk_settings {
  s_version : Z;
  s_environment : Z;
  s_ccFeature : Z;
  s_devToolsMode : Z;
  multiGpuMode : Z;
}.

Record nvmlConfComputeGpuCertificate_t : Type := mk_certificate {
  certChainSize : Z;
  attestationCertChainSize : Z;
  certChain : list Z;
  attestationCertChain : list Z;
}.

Record nvmlConfComputeGpuAttestationReport_t : Type := mk_attestation_report {
  isCecAttestationReportPresent : Z;
  attestationReportSize : Z;
  cecAttestationReportSize : Z;
  nonce : list Z;
  attestationReport : list Z;
  cecAttestationReport : list Z;
}.

Definition NVML_SUCCESS : Z := 0.
Definition NVML_SYSTEM_DRIVER_VERSION_BUFFER_SIZE : Z := 80.
Definition NVML_DEVICE_VBIOS_VERSION_BUFFER_SIZE : Z := 32.
Definition NVML_DEVICE_UUID_BUFFER_SIZE : Z := 80.
Definition NVML_CC_SYSTEM_FEATURE_ENABLED : Z := 1.
Definition NVML_CC_SYSTEM_MULTIGPU_PROTECTED_PCIE : Z := 1.
(** [sizeof(nvmlConfComputeSettings_t)], five [unsigned int]s, with the
    version in the top byte. *)
Definition nvmlConfComputeSettings_v1 : Z := Z.lor 20 (Z.shiftl 1 24).
Definition NVML_GPU_ATTESTATION_CERT_CHAIN_SIZE : Z := 5120.
Definition NVML_CC_GPU_CEC_NONCE_SIZE : Z := 32.
Definition NVML_CC_GPU_ATTESTATION_REPORT_SIZE : Z := 8192.
Definition NVML_DEVICE_ARCH_AMPERE : Z := 7.
Definition NVML_DEVICE_ARCH_HOPPER : Z := 9.
Definition NVML_DEVICE_ARCH_BLACKWELL : Z := 10.

(** A device handle is a pointer that only NVML reads. *)
Abbreviation nvmlDevice_t := Z.

(** The functions, each with its return code first. *)
Class NvmlLib : Type := {
  nvml : Type;
  nvmlInit_v2 : nvml -> Z * nvml;
  nvmlShutdown : nvml -> Z * nvml;
  nvmlSystemGetConfComputeState : nvml -> (Z * nvmlConfComputeSystemState_t) * nvml;
  nvmlSystemGetConfComputeSettings : nvmlConfComputeSettings_t -> nvml -> (Z * nvmlConfComputeSettings_t) * nvml;
  nvmlSystemGetConfComputeGpusReadyState : nvml -> (Z * Z) * nvml;
  nvmlSystemGetDriverVersion : Z -> nvml -> (Z * list Z) * nvml;
  nvmlDeviceGetCount : nvml -> (Z * Z) * nvml;
  nvmlDeviceGetHandleByIndex : Z -> nvml -> (Z * nvmlDevice_t) * nvml;
  nvmlDeviceGetConfComputeGpuCertificate : nvmlDevice_t -> nvml -> (Z * nvmlConfComputeGpuCertificate_t) * nvml;
  (** The nonce is what the caller put into the structure. *)
  nvmlDeviceGetConfComputeGpuAttestationReport :
    nvmlDevice_t -> list Z -> nvml -> (Z * nvmlConfComputeGpuAttestationReport_t) * nvml;
  nvmlDeviceGetVbiosVersion : nvmlDevice_t -> Z -> nvml -> (Z * list Z) * nvml;
  nvmlDeviceGetUUID : nvmlDevice_t -> Z -> nvml -> (Z * list Z) * nvml;
  nvmlDeviceGetArchitecture : nvmlDevice_t -> nvml -> (Z * Z) * nvml;
  nvmlDeviceGetBoardId : nvmlDevice_t -> nvml -> (Z * Z) * nvml;
}.

(** ** The client *)

Section nvml.
Context `{DL : DynamicLinker} `{NV : NvmlLib}.

Abbreviation client := (Driver.client nvml).

Definition nvml_so : string := "libnvidia-ml.so.1".

Definition nvml_symbols : list string :=
  ["nvmlInit_v2"; "nvmlShutdown"; "nvmlErrorString"; "nvmlSystemGetConfComputeState";
   "nvmlSystemGetConfComputeSettings"; "nvmlSystemSetConfComputeGpusReadyState";
   "nvmlSystemGetConfComputeGpusReadyState"; "nvmlSystemGetDriverVersion"; "nvmlDeviceGetCount";
   "nvmlDeviceGetHandleByIndex"; "nvmlDeviceGetConfComputeGpuCertificate";
   "nvmlDeviceGetConfComputeGpuAttestationReport"; "nvmlDeviceGetVbiosVersion"; "nvmlDeviceGetUUID";
   "nvmlDeviceGetArchitecture"; "nvmlDeviceGetBoardId"].

Definition init_nvml : sm client Error unit :=
  Driver.init NvmlInitFailed nvml_so nvml_symbols
    (do* result := Driver.call "nvmlInit_v2" nvmlInit_v2 in sret (result =? NVML_SUCCESS)).

(** A failure of the driver is only logged. *)
Definition shutdown_nvml : sm client Error unit :=
  Driver.shutdown (do* _ := Driver.call "nvmlShutdown" nvmlShutdown in sret tt).

Definition is_cc_enabled : sm client Error bool :=
  do* state := Driver.checked NvmlError "nvmlSystemGetConfComputeState" nvmlSystemGetConfComputeState in
  sret (ccFeature state =? NVML_CC_SYSTEM_FEATURE_ENABLED).

Definition is_ppcie_mode_enabled : sm client Error bool :=
  do* settings := Driver.checked NvmlError "nvmlSystemGetConfComputeSettings"
                    (nvmlSystemGetConfComputeSettings (mk_settings nvmlConfComputeSettings_v1 0 0 0 0)) in
  sret (multiGpuMode settings =? NVML_CC_SYSTEM_MULTIGPU_PROTECTED_PCIE).

Definition get_device_count : sm client Error Z :=
  Driver.checked NvmlError "nvmlDeviceGetCount" nvmlDeviceGetCount.

Definition get_gpu_ready_state : sm client Error Z := fun s =>
  if negb (Driver.g_initialized s) ||
     negb (bool_decide ("nvmlSystemGetConfComputeGpusReadyState" ∈ Driver.symbols s)) then (Err NvmlError, s)
  else
  Driver.checked NvmlError "nvmlSystemGetConfComputeGpusReadyState" nvmlSystemGetConfComputeGpusReadyState s.

Definition get_attestation_cert_chain (device_handle : nvmlDevice_t) : sm client Error string :=
  do* cert_data := Driver.checked NvmlError "nvmlDeviceGetConfComputeGpuCertificate"
                     (nvmlDeviceGetConfComputeGpuCertificate device_handle) in
  slift (let* buffer := Driver.filled NVML_GPU_ATTESTATION_CERT_CHAIN_SIZE (attestationCertChain cert_data) in
         let* chain := Driver.read_buffer buffer (attestationCertChainSize cert_data) in
         Ret (string_of_bytes chain)).

(** What the structure holds when the driver reads it: without a nonce,
    zeros. *)
Definition report_nonce (nonce_input : list Z) : res (list Z) :=
  if bool_decide (nonce_input = []) then Ret (replicate (Z.to_nat NVML_CC_GPU_CEC_NONCE_SIZE) 0)
  else check* zlen nonce_input =? NVML_CC_GPU_CEC_NONCE_SIZE else NvmlError in Ret nonce_input.

Definition get_attestation_report (device_handle : nvmlDevice_t) (nonce_input : list Z) :
    sm client Error (list Z) :=
  do* nonce := slift (report_nonce nonce_input) in
  do* report := Driver.checked NvmlError "nvmlDeviceGetConfComputeGpuAttestationReport"
                  (nvmlDeviceGetConfComputeGpuAttestationReport device_handle nonce) in
  slift (let* buffer := Driver.filled NVML_CC_GPU_ATTESTATION_REPORT_SIZE (attestationReport report) in
         let* out_attestation_report := Driver.read_buffer buffer (attestationReportSize report) in
         check* negb (bool_decide (out_attestation_report = [])) else NvmlError in
         Ret out_attestation_report).

Definition get_driver_version : sm client Error string :=
  do* version := Driver.checked NvmlError "nvmlSystemGetDriverVersion"
                   (nvmlSystemGetDriverVersion NVML_SYSTEM_DRIVER_VERSION_BUFFER_SIZE) in
  slift (let* buffer := Driver.filled NVML_SYSTEM_DRIVER_VERSION_BUFFER_SIZE version in Driver.c_string buffer).

Definition get_device_handle_by_index (index : Z) : sm client Error nvmlDevice_t :=
  Driver.checked NvmlError "nvmlDeviceGetHandleByIndex" (nvmlDeviceGetHandleByIndex index).

Definition get_vbios_version (device_handle : nvmlDevice_t) : sm client Error string :=
  do* vbios := Driver.checked NvmlError "nvmlDeviceGetVbiosVersion"
                 (nvmlDeviceGetVbiosVersion device_handle NVML_DEVICE_VBIOS_VERSION_BUFFER_SIZE) in
  slift (let* buffer := Driver.filled NVML_DEVICE_VBIOS_VERSION_BUFFER_SIZE vbios in
         let* vbios_str := Driver.c_string buffer in
         Ret (toupper vbios_str)).

Definition get_uuid (device_handle : nvmlDevice_t) : sm client Error string :=
  do* uuid := Driver.checked NvmlError "nvmlDeviceGetUUID"
                (nvmlDeviceGetUUID device_handle NVML_DEVICE_UUID_BUFFER_SIZE) in
  slift (let* buffer := Driver.filled NVML_DEVICE_UUID_BUFFER_SIZE uuid in Driver.c_string buffer).

Definition known_architecture (arch : Z) : GpuEvidence.GpuArchitecture :=
  if arch =? NVML_DEVICE_ARCH_AMPERE then GpuEvidence.Ampere
  else if arch =? NVML_DEVICE_ARCH_HOPPER then GpuEvidence.Hopper
  else if arch =? NVML_DEVICE_ARCH_BLACKWELL then GpuEvidence.Blackwell
  else GpuEvidence.Unknown.

Definition get_gpu_architecture (device_handle : nvmlDevice_t) : sm client Error GpuEvidence.GpuArchitecture :=
  do* arch := Driver.checked NvmlError "nvmlDeviceGetArchitecture" (nvmlDeviceGetArchitecture device_handle) in
  sret (known_architecture arch).

Definition get_gpu_board_id (device_handle : nvmlDevice_t) : sm client Error Z :=
  Driver.checked NvmlError "nvmlDeviceGetBoardId" (nvmlDeviceGetBoardId device_handle).

(** ** Collecting evidence *)

(** The body of the loop: the evidence of the device with an index. *)
Definition collect_one (nonce_input : list Z) (i : Z) : sm client Error GpuEvidence.GpuEvidence :=
  do* device_handle := get_device_handle_by_index i in
  do* architecture := get_gpu_architecture device_handle in
  do* board_id := get_gpu_board_id device_handle in
  do* uuid := get_uuid device_handle in
  do* attestation_report := get_attestation_report device_handle nonce_input in
  do* attestation_cert_chain := get_attestation_cert_chain device_handle in
  sret (GpuEvidence.mk_evidence architecture (Some board_id) uuid attestation_report attestation_cert_chain
          nonce_input).

(** What comes before the loop: the number of devices. *)
Definition collect_start : sm client Error Z :=
  do* cc_enabled := is_cc_enabled in
  do* ppcie_enabled := is_ppcie_mode_enabled in
  guard* cc_enabled || ppcie_enabled else GpuModeNotSupported in
  do* device_count := get_device_count in
  guard* negb (device_count =? 0) else NvmlError in
  sret device_count.

Definition collect_evidence_nvml (nonce_input : list Z) :
    sm (client * list GpuEvidence.GpuEvidence) Error unit := fun s =>
  if negb (Driver.g_initialized s.1) then (Err NvmlError, s)
  else
  (do* device_count := Driver.on_client collect_start in
   Driver.collect_loop (collect_one nonce_input) (Driver.indices device_count)) s.

(** [NvmlEvidenceCollector::get_evidence]. *)
Definition get_evidence (nonce_input : list Z) : sm (client * list GpuEvidence.GpuEvidence) Error unit :=
  do* _ := Driver.on_client init_nvml in
  collect_evidence_nvml nonce_input.

(** ** What the evidence of a device is *)

(** The driver answered [a] at some time. *)
Definition answered {A : Type} (f : nvml -> (Z * A) * nvml) (a : A) : Prop :=
  exists d, (f d).1 = (NVML_SUCCESS, a).

(** Evidence of the device with index [i], as the driver gave it. *)
Record item_of (nonce_input : list Z) (i : Z) (e : GpuEvidence.GpuEvidence) : Prop := {
  item_nonce : GpuEvidence.m_nonce e = nonce_input;
  item_device : exists h n report cert chain uuid arch board,
    answered (nvmlDeviceGetHandleByIndex i) h /\
    report_nonce nonce_input = Ret n /\
    answered (nvmlDeviceGetConfComputeGpuAttestationReport h n) report /\
    Driver.contents NVML_CC_GPU_ATTESTATION_REPORT_SIZE (attestationReport report) (attestationReportSize report)
      (GpuEvidence.m_attestation_report e) /\
    GpuEvidence.m_attestation_report e <> [] /\
    answered (nvmlDeviceGetConfComputeGpuCertificate h) cert /\
    Driver.contents NVML_GPU_ATTESTATION_CERT_CHAIN_SIZE (attestationCertChain cert) (attestationCertChainSize cert)
      chain /\
    GpuEvidence.m_cert_chain e = string_of_bytes chain /\
    answered (nvmlDeviceGetUUID h NVML_DEVICE_UUID_BUFFER_SIZE) uuid /\
    Driver.text_of NVML_DEVICE_UUID_BUFFER_SIZE uuid (GpuEvidence.m_uuid e) /\
    answered (nvmlDeviceGetArchitecture h) arch /\ GpuEvidence.m_gpu_architecture e = known_architecture arch /\
    answered (nvmlDeviceGetBoardId h) board /\ GpuEvidence.m_board_id e = Some board;
}.

Lemma answer_of {A : Type} (f : nvml -> (Z * A) * nvml) d a d' : f d = ((0, a), d') -> answered f a.
Proof. intros H. exists d. by rewrite H. Qed.

Lemma nvml_collect_one_item nonce_input i s e s' :
  collect_one nonce_input i s = (Ret e, s') -> item_of nonce_input i e.
Proof.
  intros H. unfold collect_one, get_device_handle_by_index, get_gpu_architecture, get_gpu_board_id, get_uuid,
    get_attestation_report, get_attestation_cert_chain in H.
  Driver.drv_inv. inv_ret. subst.
  repeat match goal with H : _ = (0, _, _) |- _ => apply answer_of in H end.
  match goal with H : Driver.filled NVML_DEVICE_UUID_BUFFER_SIZE _ = _ |- _ =>
    pose proof (Driver.buffer_text _ _ _ _ H ltac:(eassumption)) end.
  constructor; [done|]. cbn. do 8 eexists.
  split_and!; try eassumption; try done; try by eapply Driver.buffer_contents.
  by destruct (bool_decide_reflect (x7 = [])).
Qed.

(** The two modes in which the driver gives evidence. *)
Definition mode_reported : Prop :=
  (exists state, answered nvmlSystemGetConfComputeState state /\ ccFeature state = NVML_CC_SYSTEM_FEATURE_ENABLED) \/
  (exists settings,
     answered (nvmlSystemGetConfComputeSettings (mk_settings nvmlConfComputeSettings_v1 0 0 0 0)) settings /\
     multiGpuMode settings = NVML_CC_SYSTEM_MULTIGPU_PROTECTED_PCIE).

Lemma nvml_collect_start_Ret s n s' :
  collect_start s = (Ret n, s') -> mode_reported /\ answered nvmlDeviceGetCount n /\ n <> 0.
Proof.
  unfold collect_start, is_cc_enabled, is_ppcie_mode_enabled, get_device_count. intros H.
  Driver.drv_inv. repeat match goal with H : _ = (0, _, _) |- _ => apply answer_of in H end.
  split_and!; [|done|lia]. unfold mode_reported. destruct (ccFeature _ =? _) eqn:Ec; [left|right]; eexists; split; try eassumption; lia.
Qed.

Lemma nvml_collect_one_drives nonce_input i : Driver.drives (collect_one nonce_input i).
Proof.
  unfold collect_one, get_device_handle_by_index, get_gpu_architecture, get_gpu_board_id, get_uuid,
    get_attestation_report, get_attestation_cert_chain.
  Driver.drives_tac.
Qed.

Lemma nvml_collect_start_drives : Driver.drives collect_start.
Proof.
  unfold collect_start, is_cc_enabled, is_ppcie_mode_enabled, get_device_count.
  Driver.drives_tac.
Qed.

(** ** What NVML documents *)

(** It writes within the buffers it is given, says how much it wrote, and ends
    text with a null character. *)
Record nvml_documented : Prop := {
  doc_report : forall h n r, answered (nvmlDeviceGetConfComputeGpuAttestationReport h n) r ->
    zlen (attestationReport r) <= NVML_CC_GPU_ATTESTATION_REPORT_SIZE /\
    0 <= attestationReportSize r <= NVML_CC_GPU_ATTESTATION_REPORT_SIZE;
  doc_cert : forall h c, answered (nvmlDeviceGetConfComputeGpuCertificate h) c ->
    zlen (attestationCertChain c) <= NVML_GPU_ATTESTATION_CERT_CHAIN_SIZE /\
    0 <= attestationCertChainSize c <= NVML_GPU_ATTESTATION_CERT_CHAIN_SIZE;
  doc_uuid : forall h l, answered (nvmlDeviceGetUUID h NVML_DEVICE_UUID_BUFFER_SIZE) l ->
    zlen l <= NVML_DEVICE_UUID_BUFFER_SIZE /\ 0 ∈ l;
}.

(** Every call succeeds, there are [n] devices in the confidential-computing
    mode, and reports are not empty. *)
Record healthy (n : Z) : Prop := {
  up_init : forall d, (nvmlInit_v2 d).1 = NVML_SUCCESS;
  up_state : forall d, exists state, (nvmlSystemGetConfComputeState d).1 = (NVML_SUCCESS, state) /\
               ccFeature state = NVML_CC_SYSTEM_FEATURE_ENABLED;
  up_settings : forall t, Driver.answers false (nvmlSystemGetConfComputeSettings t);
  up_count : forall d, (nvmlDeviceGetCount d).1 = (NVML_SUCCESS, n);
  up_handle : forall i d, 0 <= i < n -> (nvmlDeviceGetHandleByIndex i d).1.1 = NVML_SUCCESS;
  up_arch : forall h, Driver.answers false (nvmlDeviceGetArchitecture h);
  up_board : forall h, Driver.answers false (nvmlDeviceGetBoardId h);
  up_uuid : forall h k, Driver.answers false (nvmlDeviceGetUUID h k);
  up_report : forall h k, Driver.answers false (nvmlDeviceGetConfComputeGpuAttestationReport h k);
  up_size : forall h k r, answered (nvmlDeviceGetConfComputeGpuAttestationReport h k) r -> 0 < attestationReportSize r;
  up_cert : forall h, Driver.answers false (nvmlDeviceGetConfComputeGpuCertificate h);
}.

Lemma nvml_checked_answered {A : Type} e name (f : nvml -> (Z * A) * nvml) s a s' :
  Driver.checked e name f s = (Ret a, s') -> answered f a.
Proof. intros H%Driver.checked_Ret%Driver.call_Ret. destruct H as (_ & _ & d & Hd & _). by eapply answer_of. Qed.

Lemma get_uuid_well errs h :
  nvml_documented -> (forall k, Driver.answers errs (nvmlDeviceGetUUID h k)) ->
  Driver.well errs nvml_symbols (get_uuid h).
Proof.
  intros Hd Ha. apply Driver.well_bind; [Driver.drives_tac|apply Driver.well_checked; [set_solver|done]|].
  intros l s s' [Hl H0]%nvml_checked_answered%(doc_uuid Hd). apply Driver.well_lift.
  destruct (Driver.filled_Ret (E:=Error) _ _ Hl) as [b Hb]. rewrite Hb. cbn. unfold Driver.c_string.
  destruct (Driver.c_chars_some (E:=Error) b) as [l1 ->]; [|done].
  revert Hb. unfold Driver.filled. destruct (_ <=? _); [|done]. intros [= <-]. by apply elem_of_app; left.
Qed.

Lemma get_cert_well errs h :
  nvml_documented -> Driver.answers errs (nvmlDeviceGetConfComputeGpuCertificate h) ->
  Driver.well errs nvml_symbols (get_attestation_cert_chain h).
Proof.
  intros Hd Ha. apply Driver.well_bind; [Driver.drives_tac|apply Driver.well_checked; [set_solver|done]|].
  intros c s s' [Hl Hn]%nvml_checked_answered%(doc_cert Hd). apply Driver.well_lift.
  by destruct (Driver.contents_buffer (E:=Error) _ _ _ Hl Hn) as (b & l & -> & Hr & _); cbn; rewrite Hr.
Qed.

Lemma get_report_well errs h nonce_input :
  nvml_documented -> (forall k, Driver.answers errs (nvmlDeviceGetConfComputeGpuAttestationReport h k)) ->
  (errs = true \/ (exists n, report_nonce nonce_input = Ret n) /\
     (forall k r, answered (nvmlDeviceGetConfComputeGpuAttestationReport h k) r -> 0 < attestationReportSize r)) ->
  Driver.well errs nvml_symbols (get_attestation_report h nonce_input).
Proof.
  intros Hd Ha Hok. apply Driver.well_bind; [Driver.drives_tac|apply Driver.well_lift|].
  { destruct Hok as [-> | [[n ->] _]]; [|done]. unfold report_nonce. case_bool_decide; [done|]. by destruct (_ =? _). }
  intros n _ _ _. apply Driver.well_bind; [Driver.drives_tac|apply Driver.well_checked; [set_solver|done]|].
  intros r s s' Hr%nvml_checked_answered. pose proof (doc_report Hd _ _ _ Hr) as [Hl Hn]. apply Driver.well_lift.
  destruct (Driver.contents_buffer (E:=Error) _ _ _ Hl Hn) as (b & l & -> & Hrd & Hz). cbn. rewrite Hrd. cbn.
  case_bool_decide as Hl0; cbn; [|done]. destruct Hok as [-> | [_ Hpos]]; [done|].
  apply Hpos in Hr. subst l. rewrite zlen_nil in Hz. lia.
Qed.

(** Errors are accepted, or the driver is healthy and the nonce is one it
    takes. *)
Definition fine (errs : bool) (n : Z) (nonce_input : list Z) : Prop :=
  errs = true \/ healthy n /\ exists k, report_nonce nonce_input = Ret k.

Lemma fine_answers {A : Type} errs n nonce_input (f : nvml -> (Z * A) * nvml) :
  (healthy n -> Driver.answers false f) -> fine errs n nonce_input -> Driver.answers errs f.
Proof. intros Hf [-> | [Hh _]]; [by left|]. destruct (Hf Hh) as [|H]; [done|]. by right. Qed.

Lemma nvml_collect_one_well errs n nonce_input i :
  nvml_documented -> fine errs n nonce_input -> 0 <= i < n -> Driver.well errs nvml_symbols (collect_one nonce_input i).
Proof.
  intros Hd Hf Hi. pose proof (fun A f H => fine_answers (A:=A) errs n nonce_input f H Hf) as Ha.
  apply Driver.well_bind; [Driver.drives_tac|apply Driver.well_checked; [set_solver|]|intros h _ _ _].
  { apply Ha. intros Hh. right. intros d. by apply (up_handle _ Hh). }
  apply Driver.well_bind; [Driver.drives_tac|
    apply Driver.well_bind; [Driver.drives_tac|apply Driver.well_checked; [set_solver|]|by intros]|intros arch _ _ _].
  { apply Ha. intros Hh. apply (up_arch _ Hh). }
  apply Driver.well_bind; [Driver.drives_tac|apply Driver.well_checked; [set_solver|]|intros board _ _ _].
  { apply Ha. intros Hh. apply (up_board _ Hh). }
  apply Driver.well_bind; [Driver.drives_tac|apply get_uuid_well; [done|]|intros uuid _ _ _].
  { intros k. apply Ha. intros Hh. apply (up_uuid _ Hh). }
  apply Driver.well_bind; [Driver.drives_tac|apply get_report_well; [done|..]|intros report _ _ _].
  { intros k. apply Ha. intros Hh. apply (up_report _ Hh). }
  { destruct Hf as [-> | [Hh Hk]]; [by left|]. right. split; [done|]. intros k r. apply (up_size _ Hh). }
  apply Driver.well_bind; [Driver.drives_tac|apply get_cert_well; [done|]|by intros].
  apply Ha. intros Hh. apply (up_cert _ Hh).
Qed.

Lemma nvml_collect_start_well errs n nonce_input :
  fine errs n nonce_input -> 0 < n -> Driver.well errs nvml_symbols collect_start.
Proof.
  intros Hf Hn. pose proof (fun A f H => fine_answers (A:=A) errs n nonce_input f H Hf) as Ha.
  apply Driver.well_bind; [Driver.drives_tac| |intros cc sc sc' Hcc].
  { apply Driver.well_bind; [Driver.drives_tac|apply Driver.well_checked; [set_solver|]|by intros].
    apply Ha. intros Hh. right. intros d. by destruct (up_state _ Hh d) as (st & -> & _). }
  apply Driver.well_bind; [Driver.drives_tac| |intros pp _ _ _].
  { apply Driver.well_bind; [Driver.drives_tac|apply Driver.well_checked; [set_solver|]|by intros].
    apply Ha. intros Hh. apply (up_settings _ Hh). }
  apply Driver.well_guard.
  { destruct Hf as [-> | [Hh _]]; [by left|right]. unfold is_cc_enabled in Hcc. Driver.drv_inv.
    destruct (up_state _ Hh (Driver.driver sc)) as (st & Hst & Hcf).
    match goal with H : nvmlSystemGetConfComputeState _ = _ |- _ => rewrite H in Hst end.
    injection Hst as <-. by rewrite Hcf. }
  apply Driver.well_bind; [Driver.drives_tac|apply Driver.well_checked; [set_solver|]|].
  { apply Ha. intros Hh. right. intros d. by rewrite (up_count _ Hh). }
  intros c s s' (d & Hc)%nvml_checked_answered. apply Driver.well_guard; [|done].
  destruct Hf as [-> | [Hh _]]; [by left|right]. rewrite (up_count _ Hh) in Hc. injection Hc as <-.
  by replace (n =? 0) with false by lia.
Qed.

Lemma nvml_start_drives s r s' :
  Driver.usable nvml_symbols s ->
  (do* result := Driver.call "nvmlInit_v2" nvmlInit_v2 in sret (result =? NVML_SUCCESS)) s = (r, s') ->
  exists b d, r = Ret b /\ s' = Driver.with_driver s d.
Proof.
  intros Hs. unfold sbind. rewrite (Driver.call_usable nvml_symbols) by (done || set_solver).
  intros [= <- <-]. eauto.
Qed.

Lemma nvml_stop_drives s r s' :
  Driver.usable nvml_symbols s ->
  (do* _ := Driver.call "nvmlShutdown" nvmlShutdown in sret tt) s = (r, s') ->
  exists d, r = Ret tt /\ s' = Driver.with_driver s d.
Proof.
  intros Hs. unfold sbind. rewrite (Driver.call_usable nvml_symbols) by (done || set_solver).
  intros [= <- <-]. eauto.
Qed.

(** The life of the client: initialization, shutdown and calls in any
    order. *)
Definition life : client -> client -> Prop :=
  rtc (Driver.life_step NvmlInitFailed nvml_so nvml_symbols
         (do* result := Driver.call "nvmlInit_v2" nvmlInit_v2 in sret (result =? NVML_SUCCESS))
         (do* _ := Driver.call "nvmlShutdown" nvmlShutdown in sret tt)).

Lemma nvml_life_sound d s : life (Driver.new_client d) s -> Driver.sound nvml_symbols s.
Proof. apply Driver.life_sound; [exact nvml_start_drives|exact nvml_stop_drives|apply Driver.new_client_sound]. Qed.

Lemma init_nvml_ready s r s' :
  Driver.sound nvml_symbols s -> init_nvml s = (r, s') ->
  Driver.sound nvml_symbols s' /\
  ((r = Ret tt /\ Driver.g_initialized s' = true) \/ (r = Err NvmlInitFailed /\ Driver.down s')).
Proof. apply Driver.init_ready. exact nvml_start_drives. Qed.

(** A client that is up, or that was never tried, comes up when the library
    is there. *)
Lemma init_nvml_up s :
  dlopen nvml_so = true -> (forall name, name ∈ nvml_symbols -> dlsym nvml_so name = true) ->
  (forall d, (nvmlInit_v2 d).1 = NVML_SUCCESS) ->
  Driver.sound nvml_symbols s -> ~ Driver.down s ->
  exists s', init_nvml s = (Ret tt, s') /\ Driver.g_initialized s' = true.
Proof.
  intros Hopen Hsym Hinit Hs Hdown. destruct (init_nvml s) as [r s'] eqn:E.
  destruct (init_nvml_ready _ _ _ Hs E) as [_ [[-> Hi]|[-> _]]]; [eauto|]. exfalso. revert E.
  unfold init_nvml, Driver.init, Driver.call_once. destruct (Driver.g_initialized s) eqn:Ei; [done|].
  destruct (Driver.g_initialized_flag s) eqn:Ef; [by destruct Hdown|].
  unfold Driver.open_library. rewrite Hopen. cbn [negb].
  destruct (Driver.load_all_symbols _ _ _ _) as [ok syms] eqn:El.
  pose proof (Driver.load_all_symbols_all _ _ (Driver.symbols (Driver.with_handle s true)) Hsym) as Hall.
  rewrite El in Hall. cbn in Hall. subst ok. cbn [negb].
  apply Driver.load_all_symbols_found in El as (_ & Hn & _).
  unfold sbind. rewrite (Driver.call_usable nvml_symbols) by (done || set_solver). cbn. by rewrite Hinit.
Qed.

(** What a collection is: the client comes up, then the loop. *)
Lemma nvml_get_evidence_cases nonce_input s out r s' out' :
  Driver.sound nvml_symbols s -> get_evidence nonce_input (s, out) = (r, (s', out')) ->
  (r = Err NvmlInitFailed /\ out' = out /\ Driver.down s') \/
  exists s1, init_nvml s = (Ret tt, s1) /\ Driver.usable nvml_symbols s1 /\
    ((exists r1, collect_start s1 = (r1, s') /\ out' = out /\ (forall n, r1 <> Ret n) /\
                 r = (let* _ := r1 in Ret tt)) \/
     exists n s2, collect_start s1 = (Ret n, s2) /\ Driver.usable nvml_symbols s2 /\
       Driver.collect_loop (collect_one nonce_input) (Driver.indices n) (s2, out) = (r, (s', out'))).
Proof.
  intros Hs. unfold get_evidence, sbind at 1, Driver.on_client at 1. cbn.
  destruct (init_nvml s) as [r1 s1] eqn:E1.
  pose proof (init_nvml_ready _ _ _ Hs E1) as [Hs1 [[-> Hi]|[-> Hd]]]; [|intros [= <- <- <-]; by left].
  right. exists s1. split; [done|]. pose proof (proj1 Hs1 Hi) as [Hu _]. split; [done|].
  revert H. unfold collect_evidence_nvml. cbn. rewrite Hi. cbn.
  unfold sbind, Driver.on_client at 1. cbn. destruct (collect_start s1) as [r2 s2] eqn:E2.
  pose proof E2 as Hu2. apply nvml_collect_start_drives in Hu2 as [d ->].
  destruct r2 as [n|e|x|]; [|intros [= <- <- <-]; left; eexists; split_and!; try done..].
  intros H. right. eauto.
Qed.

Lemma nvml_evidence_lemma nonce_input s out r s' out' :
  Driver.sound nvml_symbols s ->
  get_evidence nonce_input (s, out) = (r, (s', out')) ->
  exists es, out' = out ++ es /\
    (forall k e, es !! k = Some e -> item_of nonce_input (Z.of_nat k) e) /\
    (r = Ret tt ->
     mode_reported /\
     exists n, answered nvmlDeviceGetCount n /\ n <> 0 /\ length es = Z.to_nat n).
Proof.
  intros Hs H. apply nvml_get_evidence_cases in H as [(-> & -> & _)|(s1 & _ & _ & H)]; [|..|done].
  { exists []. rewrite app_nil_r. by split_and!. }
  destruct H as [(r1 & _ & -> & Hr1 & ->)|(n & s2 & Hc & Hu & H)].
  { exists []. rewrite app_nil_r. split_and!; [done|done|]. destruct r1; try done. by destruct (Hr1 a). }
  apply nvml_collect_start_Ret in Hc as (Hm & Hn & Hn0).
  apply (Driver.collect_loop_spec _ (item_of nonce_input) (fun _ => True)) in H as [_ (es & l1 & l2 & Ho & Hl & Hf & Hr)];
    [|by intros x c r0 c' _ Hx; split; [|intros e ->; eapply nvml_collect_one_item]|done].
  cbn in Ho. subst out'. exists es. split_and!; [done|..].
  - intros k e He. destruct (Forall2_lookup_r _ _ _ _ _ Hf He) as (i & Hi & HP).
    replace (Z.of_nat k) with i; [done|]. apply (Driver.indices_lookup n). rewrite Hl.
    by apply lookup_app_l_Some.
  - intros Hret. split; [done|]. apply Hr in Hret as ->. exists n. split_and!; [done..|].
    rewrite <- (Forall2_length _ _ _ Hf). rewrite app_nil_r in Hl. subst l1.
    unfold Driver.indices. by rewrite length_fmap, length_seq.
Qed.

(** P: Whatever happens, a collector through NVML only appends, in the order of
    the devices, evidence that the driver gave for the device with that index:
    the report over the nonce that was asked for (over zeros for an empty
    nonce), the certificate chain, the UUID, the architecture and the board.
    When it succeeds, the driver reported confidential computing or protected
    PCIe and a number of devices, and there is evidence of every one. *)
Theorem nvml_evidence_sound nonce_input s out r s' out' :
  Driver.sound nvml_symbols s ->
  get_evidence nonce_input (s, out) = (r, (s', out')) ->
  exists es, out' = out ++ es /\
    (forall k e, es !! k = Some e -> item_of nonce_input (Z.of_nat k) e) /\
    (r = Ret tt ->
     mode_reported /\
     exists n, answered nvmlDeviceGetCount n /\ n <> 0 /\ length es = Z.to_nat n).
Proof. apply nvml_evidence_lemma. Qed.

(** C19: With a driver that keeps to its documentation, a collector through NVML
    never has undefined behaviour and never throws: at any time in the life of
    the client it returns evidence or an error code. *)
Theorem nvml_evidence_safe nonce_input d s out :
  nvml_documented -> life (Driver.new_client d) s ->
  defined (get_evidence nonce_input (s, out)).1.
Proof.
  intros Hd Hs%nvml_life_sound. destruct (get_evidence nonce_input (s, out)) as [r [s' out']] eqn:H. cbn.
  apply nvml_get_evidence_cases in H as [(-> & _)|(s1 & _ & Hu & H)]; [done| |done].
  assert (fine true 1 nonce_input) as Hf by by left.
  destruct H as [(r1 & Hc & _ & _ & ->)|(n & s2 & Hc & Hu2 & H)].
  - pose proof (nvml_collect_start_well true 1 nonce_input Hf ltac:(lia) s1 Hu) as Hg. rewrite Hc in Hg. by destruct r1.
  - assert (Driver.good true r) as Hg.
    { change r with (r, (s', out')).1. rewrite <- H. apply (Driver.collect_loop_good true nvml_symbols); [|done].
      intros i Hi%Driver.indices_elem. split; [apply nvml_collect_one_drives|].
      apply (nvml_collect_one_well true n); [done|by left|lia]. }
    by destruct r.
Qed.

(** C18: A collector through NVML always gets there: when the library can be
    loaded, was not shut down before, and the driver answers every call in the
    confidential-computing mode, it returns, for any nonce of 32 bytes (or
    none), one item per device in the order of the indices, each what the
    driver gave for the device with that index: the report over that nonce,
    the certificate chain, the UUID, the architecture and the board. *)
Theorem nvml_evidence_live nonce_input d s out n :
  nvml_documented -> healthy n -> 0 < n ->
  dlopen nvml_so = true -> (forall name, name ∈ nvml_symbols -> dlsym nvml_so name = true) ->
  (nonce_input = [] \/ zlen nonce_input = 32) ->
  life (Driver.new_client d) s -> ~ Driver.down s ->
  exists s' es, get_evidence nonce_input (s, out) = (Ret tt, (s', out ++ es)) /\ zlen es = n /\
    forall k e, es !! k = Some e -> item_of nonce_input (Z.of_nat k) e.
Proof.
  intros Hd Hh Hn Hopen Hsym Hnonce Hs%nvml_life_sound Hdown.
  assert (fine false n nonce_input) as Hf.
  { right. split; [done|]. unfold report_nonce. case_bool_decide; [eauto|]. destruct Hnonce as [?|Hz]; [done|].
    rewrite Hz. cbn. eauto. }
  destruct (init_nvml_up s Hopen Hsym (up_init _ Hh) Hs Hdown) as (s1 & E1 & Hi).
  destruct (init_nvml_ready _ _ _ Hs E1) as [[Hu1 _] _]. apply Hu1 in Hi as Hu. destruct Hu as [Hu _].
  destruct (Driver.well_Ret nvml_symbols collect_start s1) as (k & s2 & Hc); [by eapply nvml_collect_start_well|done|].
  pose proof (nvml_collect_start_Ret _ _ _ Hc) as (_ & [d0 Hk] & _). rewrite (up_count _ Hh) in Hk. injection Hk as <-.
  pose proof Hc as Hu2. apply nvml_collect_start_drives in Hu2 as [d2 ->].
  destruct (Driver.collect_loop (collect_one nonce_input) (Driver.indices n) (Driver.with_driver s1 d2, out))
    as [r [s' out']] eqn:El.
  assert (Driver.good false r) as Hg.
  { change r with (r, (s', out')).1. rewrite <- El. apply (Driver.collect_loop_good false nvml_symbols); [|done].
    intros i Hin%Driver.indices_elem. split; [apply nvml_collect_one_drives|]. by apply (nvml_collect_one_well false n). }
  destruct r as [[]|e|x|]; try done.
  pose proof El as Hsp.
  apply (Driver.collect_loop_spec _ (item_of nonce_input) (fun _ => True)) in Hsp
    as [_ (es & l1 & l2 & Ho & Hl & Hfa & Hr)];
    [|by intros x c r0 c' _ Hx; split; [|intros e ->; eapply nvml_collect_one_item]|done].
  exists s', es. cbn in Ho. subst out'. apply proj1 in Hr. rewrite (Hr eq_refl), app_nil_r in Hl. subst l1. split_and!.
  - unfold get_evidence, sbind at 1, Driver.on_client at 1. cbn. rewrite E1. unfold collect_evidence_nvml. cbn.
    rewrite Hi. cbn. unfold sbind, Driver.on_client at 1. cbn. rewrite Hc. done.
  - unfold zlen. rewrite <- (Forall2_length _ _ _ Hfa). apply (Driver.indices_length n). lia.
  - intros k e He. destruct (Forall2_lookup_r _ _ _ _ _ Hfa He) as (i & Hix & HP).
    by rewrite <- (Driver.indices_lookup n k i Hix).
Qed.

(** P: Once NVML was shut down, or its first initialization failed, nothing
    brings it back in this process: [std::call_once] does not run again, so
    every later collection fails with [NvmlInitFailed], whatever happened in
    between. *)
Theorem nvml_never_restarts nonce_input d s0 r s1 s2 out :
  life (Driver.new_client d) s0 ->
  (Driver.g_initialized s0 = true /\ shutdown_nvml s0 = (r, s1)) \/ init_nvml s0 = (Err NvmlInitFailed, s1) ->
  life s1 s2 ->
  get_evidence nonce_input (s2, out) = (Err NvmlInitFailed, (s2, out)).
Proof.
  intros Hs%nvml_life_sound Hend Hlife.
  assert (Driver.down s1) as Hd.
  { destruct Hend as [[Hi H]|H]; [by eapply (Driver.shutdown_down nvml_symbols); [exact nvml_stop_drives|..]|].
    apply init_nvml_ready in H as [_ [[? _]|[_ ?]]]; done. }
  pose proof (Driver.down_stays _ _ _ _ _ _ _ Hd Hlife) as Hd2.
  unfold get_evidence, sbind, Driver.on_client. cbn.
  unfold init_nvml. by rewrite Driver.down_init by done.
Qed.

End nvml.

(** ** A driver, for examples

    Two GPUs whose reports are the nonce and their number; it counts the
    calls. *)

Definition toy_nvml : NvmlLib := {|
  nvml := nat;
  nvmlInit_v2 d := (0, S d);
  nvmlShutdown d := (0, S d);
  nvmlSystemGetConfComputeState d := ((0, mk_system_state 0 1 0), S d);
  nvmlSystemGetConfComputeSettings t d := ((0, mk_settings (s_version t) 0 1 0 0), S d);
  nvmlSystemGetConfComputeGpusReadyState d := ((0, 1), S d);
  nvmlSystemGetDriverVersion _ d := ((0, [53; 55; 48]), S d);
  nvmlDeviceGetCount d := ((0, 2), S d);
  nvmlDeviceGetHandleByIndex i d := (if (0 <=? i) && (i <? 2) then (0, 100 + i) else (2, 0), S d);
  nvmlDeviceGetConfComputeGpuCertificate h d := ((0, mk_certificate 0 3 [] [80; 69; h]), S d);
  nvmlDeviceGetConfComputeGpuAttestationReport h n d := ((0, mk_attestation_report 0 33 0 n (take 32 n ++ [h]) []), S d);
  nvmlDeviceGetVbiosVersion _ _ d := ((0, [57; 54]), S d);
  nvmlDeviceGetUUID h _ d := ((0, [71; 80; 85; 45; h; 0]), S d);
  nvmlDeviceGetArchitecture _ d := ((0, 9), S d);
  nvmlDeviceGetBoardId h d := ((0, h), S d);
|}.

Abbreviation toy_life := (life (DL:=toy_linker) (NV:=toy_nvml)).
Abbreviation toy_get_evidence := (get_evidence (DL:=toy_linker) (NV:=toy_nvml)).
Abbreviation toy_client := (Driver.new_client (D:=nvml (NvmlLib:=toy_nvml)) 0%nat).
Abbreviation toy_nonce := (replicate 32 7).


Lemma toy_nvml_documented : nvml_documented (NV:=toy_nvml).
Proof.
  split.
  - intros h n r [d [= <-]]. cbn [attestationReport attestationReportSize]. split; [|done].
    rewrite zlen_app. unfold zlen, NVML_CC_GPU_ATTESTATION_REPORT_SIZE. rewrite length_take. cbn [length]. lia.
  - by intros h c [d [= <-]].
  - intros h l [d [= <-]]. split; [done|]. set_solver.
Qed.

Lemma toy_nvml_healthy : healthy (NV:=toy_nvml) 2.
Proof.
  split; try (intros; by right); try done.
  - intros d. eexists. split; [reflexivity|done].
  - intros i d Hi. cbn. by replace ((0 <=? i) && (i <? 2)) with true by lia.
  - by intros h k r [d [= <-]].
Qed.

Lemma nvml_evidence_sound_witness :
  exists es, (toy_get_evidence toy_nonce (toy_client, [])).2.2 = es /\ length es = 2%nat /\
    GpuEvidence.m_attestation_report <$> es = [toy_nonce ++ [100]; toy_nonce ++ [101]].
Proof.
  destruct (nvml_evidence_sound (DL:=toy_linker) (NV:=toy_nvml) toy_nonce toy_client []
              (toy_get_evidence toy_nonce (toy_client, [])).1 (toy_get_evidence toy_nonce (toy_client, [])).2.1
              (toy_get_evidence toy_nonce (toy_client, [])).2.2) as (es & He & _ & Hn);
    [apply Driver.new_client_sound|vm_compute; reflexivity|].
  exists es. split; [exact He|]. rewrite app_nil_l in He. rewrite <- He. split; vm_compute; reflexivity.
Defined.

Lemma nvml_evidence_safe_witness : defined (toy_get_evidence toy_nonce (toy_client, [])).1.
Proof.
  apply (nvml_evidence_safe (DL:=toy_linker) (NV:=toy_nvml) toy_nonce 0%nat);
    [apply toy_nvml_documented|apply rtc_refl].
Defined.

Lemma nvml_evidence_live_witness :
  exists s' es, toy_get_evidence toy_nonce (toy_client, []) = (Ret tt, (s', [] ++ es)) /\ zlen es = 2 /\
    forall k e, es !! k = Some e -> item_of (NV:=toy_nvml) toy_nonce (Z.of_nat k) e.
Proof.
  apply (nvml_evidence_live (DL:=toy_linker) (NV:=toy_nvml) toy_nonce 0%nat);
    [apply toy_nvml_documented|apply toy_nvml_healthy|done|done|done|by right|apply rtc_refl|by intros [? _]].
Defined.

Lemma nvml_never_restarts_witness :
  let s1 := (init_nvml (DL:=toy_linker) (NV:=toy_nvml) toy_client).2 in
  let s2 := (shutdown_nvml (NV:=toy_nvml) s1).2 in
  Driver.g_initialized s1 = true /\ toy_get_evidence toy_nonce (s2, []) = (Err NvmlInitFailed, (s2, [])).
Proof.
  intros s1 s2. split; [reflexivity|].
  apply (nvml_never_restarts (DL:=toy_linker) (NV:=toy_nvml) toy_nonce 0%nat s1
           (shutdown_nvml (NV:=toy_nvml) s1).1 s2).
  - apply rtc_once. apply (Driver.step_init _ _ _ _ _ _ (init_nvml (DL:=toy_linker) (NV:=toy_nvml) toy_client).1).
    vm_compute. reflexivity.
  - left. split; [reflexivity|]. subst s1 s2. vm_compute. reflexivity.
  - apply rtc_refl.
Defined.

End Nvml.
