(* ===== verification/CorelibClient.v ===== *)
(** * CorelibClient: evidence of the GPUs through corelib

    src/gpu/corelib_client.cpp and [CorelibEvidenceCollector] of
    src/gpu/evidence.cpp: loading libcorelib, the conversion of DER
    certificate chains, and the collection of evidence over SPDM, with the
    objects corelib creates and the smart pointers that destroy them.
    Corelib is a parameter: a state that its functions change; so are the two
    OpenSSL functions that read and write single certificates.  Pointers are
    numbers, 0 for null.  A function that fills a buffer returns what it wrote
    at the start of it; without a buffer it only returns the size. *)

From S2P Require Import Prelude Errors Utils SpdmReq SpdmMeasurementRecords SpdmOpaqueData SpdmResp GpuOpaqueData.
From S2P Require Import OpenSsl NvCache Ocsp X509Chain Json Certs Base64 Report GpuEvidence Driver.

(** [d2i_X509]: the certificate at the start, and the bytes it takes;
    [PEM_write_bio_X509] and [BIO_get_mem_data]: its text. *)
Class X509Codec `{OSSL : OpenSSL} : Type := {
  d2i_X509 : list Z -> option (X509 * Z);
  BIO_new_mem : bool;
  PEM_write_bio_X509 : X509 -> option string;
}.

Module Corelib.

(** ** The C interface of corelib *)

Definition CORELIB_SUCCESS : Z := 0.
Definition SPDM_NONCE_SIZE : Z := 32.
Definition SPDM_CERT_DIGEST_SIZE : Z := 52.

Record corelib_spdm_digest_t : Type := mk_digest {
  index : Z;
  data : list Z;
}.

(** The return code, then what is filled.  A buffer is given by its
    capacity. *)
Class CorelibLib : Type := {
  corelib : Type;
  corelib_device_manager_create : corelib -> (Z * Z) * corelib;
  corelib_device_manager_destroy : Z -> corelib -> corelib;
  corelib_device_manager_discover_inband_gpus : Z -> option Z -> corelib -> (Z * (list Z * Z)) * corelib;
  corelib_device_destroy : Z -> corelib -> corelib;
  corelib_device_get_description : Z -> Z -> corelib -> (Z * (list Z * Z)) * corelib;
  corelib_spdm_client_create : Z -> corelib -> (Z * Z) * corelib;
  corelib_spdm_client_destroy : Z -> corelib -> corelib;
  corelib_spdm_reset_session : Z -> corelib -> (Z * unit) * corelib;
  corelib_spdm_get_digests : Z -> option Z -> corelib -> (Z * (list corelib_spdm_digest_t * Z)) * corelib;
  corelib_spdm_get_certificate : Z -> Z -> option Z -> corelib -> (Z * (list Z * Z)) * corelib;
  corelib_spdm_get_measurement_transcript :
    Z -> Z -> list Z -> option Z -> corelib -> (Z * (list Z * Z)) * corelib;
}.

(** ** Vectors *)

(** [std::vector<T> v(n)] throws when the elements of [size] bytes are too
    many. *)
Definition new_vector (size n : Z) : res unit :=
  if (2 ^ 63 - 1) / size <? n then Throw length_error else Ret tt.

(** [v.resize(n)]: cut, or extended with zeros. *)
Definition resize (l : list Z) (n : Z) : res (list Z) :=
  let* _ := new_vector 1 n in
  Ret (take (Z.to_nat n) l ++ replicate (Z.to_nat (n - zlen l)) 0).

Section corelib.
Context `{OSSL : OpenSSL} `{CD : !X509Codec} `{DL : DynamicLinker} `{CL : CorelibLib}.

Abbreviation client := (Driver.client corelib).

Definition corelib_so : string := "libcorelib.so.1".

Definition corelib_symbols : list string :=
  ["corelib_device_manager_create"; "corelib_device_manager_destroy";
   "corelib_device_manager_discover_inband_gpus"; "corelib_device_destroy"; "corelib_device_get_description";
   "corelib_spdm_client_create"; "corelib_spdm_client_destroy"; "corelib_spdm_reset_session";
   "corelib_spdm_get_digests"; "corelib_spdm_get_certificate"; "corelib_spdm_get_measurement_transcript"].

(** There is nothing to start or stop but the library. *)
Definition init_corelib : sm client Error unit :=
  Driver.init CorelibInitFailed corelib_so corelib_symbols (sret true).

Definition shutdown_corelib : sm client Error unit := Driver.shutdown (sret tt).

(** ** Certificate chains *)

Fixpoint der_loop (fuel : nat) (der : list Z) (pem_certs : list string) : res (list string) :=
  match fuel with
  | O => UB
  | S fuel =>
      if bool_decide (der = []) then Ret pem_certs
      else
      match d2i_X509 der with
      | None => Err InternalError
      | Some (cert, n) =>
          check* BIO_new_mem else InternalError in
          match PEM_write_bio_X509 cert with
          | None => Err InternalError
          | Some pem =>
              check* negb (bool_decide (pem = "")) else InternalError in
              der_loop fuel (drop (Z.to_nat n) der) (pem_certs ++ [pem])
          end
      end
  end.

Definition convert_der_cert_chain_to_pem (der_chain : list Z) : res string :=
  check* negb (bool_decide (der_chain = [])) else InternalError in
  let* pem_certs := der_loop (S (length der_chain)) der_chain [] in
  check* negb (bool_decide (pem_certs = [])) else InternalError in
  Ret (foldl (fun out pem => out +:+ pem) "" (reverse pem_certs)).

(** ** Objects with owners *)

(** Run [m] with an object owned by a [nv_unique_ptr]: whatever [m] does, the
    object is destroyed when its scope ends. *)
Definition owning {S A : Type} (destroy : sm S Error unit) (m : sm S Error A) : sm S Error A := fun s =>
  let '(r, s) := m s in
  match r with
  | UB => (UB, s)
  | _ => match destroy s with (UB, s) => (UB, s) | (_, s) => (r, s) end
  end.

(** [DeleterOf]: a null pointer is left, and so is everything when the function
    is not loaded. *)
Definition deleter (name : string) (f : Z -> corelib -> corelib) (ptr : Z) : sm client Error unit := fun s =>
  if negb (ptr =? 0) && bool_decide (name ∈ Driver.symbols s) then Driver.call name (fun d => (tt, f ptr d)) s
  else (Ret tt, s).

Definition delete_manager : Z -> sm client Error unit :=
  deleter "corelib_device_manager_destroy" corelib_device_manager_destroy.

Definition delete_client : Z -> sm client Error unit :=
  deleter "corelib_spdm_client_destroy" corelib_spdm_client_destroy.

(** A vector destroys its elements in order. *)
Fixpoint delete_devices (devices : list Z) : sm client Error unit :=
  match devices with
  | [] => sret tt
  | device :: devices =>
      do* _ := deleter "corelib_device_destroy" corelib_device_destroy device in delete_devices devices
  end.

(** ** Collecting evidence *)

(** A size is asked for first; it is an error that it is zero. *)
Definition size_query {A : Type} (name : string) (f : corelib -> (Z * (A * Z)) * corelib) : sm client Error Z :=
  do* (_, n) := Driver.checked CorelibError name f in
  guard* negb (n =? 0) else CorelibError in
  sret n.

(** Bytes are asked for twice: their size, then the bytes, in a vector of that
    size that is resized to what came. *)
Definition bytes_query (name : string) (f : option Z -> corelib -> (Z * (list Z * Z)) * corelib) :
    sm client Error (list Z) :=
  do* size := size_query name (f None) in
  do* _ := slift (new_vector 1 size) in
  do* (written, size') := Driver.checked CorelibError name (f (Some size)) in
  slift (let* data := Driver.filled size written in resize data size').

(** The slot of the first certificate. *)
Definition certificate_slot (spdm_client : Z) : sm client Error Z :=
  do* digest_count := size_query "corelib_spdm_get_digests" (corelib_spdm_get_digests spdm_client None) in
  do* _ := slift (new_vector (1 + SPDM_CERT_DIGEST_SIZE) digest_count) in
  do* (digests, _) := Driver.checked CorelibError "corelib_spdm_get_digests"
                        (corelib_spdm_get_digests spdm_client (Some digest_count)) in
  if digest_count <? zlen digests then slift UB
  else sret (match digests with d :: _ => index d | [] => 0 end).

Definition reset_session (spdm_client : Z) : sm client Error unit :=
  Driver.checked CorelibError "corelib_spdm_reset_session" (corelib_spdm_reset_session spdm_client).

Definition ALL_MEASUREMENTS_INDEX : Z := 255.

(** With the client of a device. *)
Definition collect_with_client (architecture : GpuEvidence.GpuArchitecture) (nonce_input : list Z)
    (device_desc : string) (spdm_client : Z) : sm client Error GpuEvidence.GpuEvidence :=
  do* cert_slot := certificate_slot spdm_client in
  do* _ := reset_session spdm_client in
  do* cert_data := bytes_query "corelib_spdm_get_certificate" (corelib_spdm_get_certificate spdm_client cert_slot) in
  guard* negb (zlen cert_data <=? SPDM_CERT_DIGEST_SIZE) else CorelibError in
  let cert_chain := drop (Z.to_nat SPDM_CERT_DIGEST_SIZE) cert_data in
  do* _ := reset_session spdm_client in
  do* transcript_data :=
    bytes_query "corelib_spdm_get_measurement_transcript"
      (corelib_spdm_get_measurement_transcript spdm_client ALL_MEASUREMENTS_INDEX nonce_input) in
  do* pem_cert_chain := slift (on_err (convert_der_cert_chain_to_pem cert_chain) CorelibError) in
  sret (GpuEvidence.mk_evidence architecture (Some 0) device_desc transcript_data pem_cert_chain nonce_input).

(** The body of the loop: the evidence of [devices[i]].  The description goes
    into an array that is not initialized, so what is read must be written. *)
Definition collect_one (architecture : GpuEvidence.GpuArchitecture) (nonce_input : list Z) (devices : list Z) (i : Z) :
    sm client Error GpuEvidence.GpuEvidence :=
  do* device := slift (vget devices i) in
  do* (result, (desc_buffer, desc_len)) :=
    Driver.call "corelib_device_get_description" (corelib_device_get_description device 256) in
  do* device_desc :=
    if result =? CORELIB_SUCCESS then
      slift (let* desc := Driver.read_buffer desc_buffer desc_len in Ret (string_of_bytes desc))
    else sret "Unknown" in
  do* spdm_client := Driver.checked CorelibError "corelib_spdm_client_create" (corelib_spdm_client_create device) in
  owning (delete_client spdm_client) (collect_with_client architecture nonce_input device_desc spdm_client).

(** With the manager: discover the devices, then the loop. *)
Definition collect_with_manager (architecture : GpuEvidence.GpuArchitecture) (nonce_input : list Z) (manager : Z) :
    sm (client * list GpuEvidence.GpuEvidence) Error unit :=
  do* device_count :=
    Driver.on_client (size_query "corelib_device_manager_discover_inband_gpus"
                        (corelib_device_manager_discover_inband_gpus manager None)) in
  do* _ := slift (new_vector 8 device_count) in
  do* (found, device_count') :=
    Driver.on_client (Driver.checked CorelibError "corelib_device_manager_discover_inband_gpus"
                        (corelib_device_manager_discover_inband_gpus manager (Some device_count))) in
  do* devices := slift (Driver.filled device_count found) in
  do* _ := slift (new_vector 8 device_count') in
  owning (Driver.on_client (delete_devices devices))
    (Driver.collect_loop (collect_one architecture nonce_input devices) (Driver.indices device_count')).

Definition collect_evidence_corelib (nonce_input : list Z) (architecture : GpuEvidence.GpuArchitecture) :
    sm (client * list GpuEvidence.GpuEvidence) Error unit :=
  guard* zlen nonce_input =? SPDM_NONCE_SIZE else BadArgument in
  do* manager := Driver.on_client (Driver.checked CorelibError "corelib_device_manager_create"
                                     corelib_device_manager_create) in
  owning (Driver.on_client (delete_manager manager)) (collect_with_manager architecture nonce_input manager).

(** [CorelibEvidenceCollector::get_evidence]. *)
Definition get_evidence (architecture : GpuEvidence.GpuArchitecture) (nonce_input : list Z) :
    sm (client * list GpuEvidence.GpuEvidence) Error unit :=
  guard* negb (bool_decide (nonce_input = [])) else BadArgument in
  do* _ := Driver.on_client init_corelib in
  collect_evidence_corelib nonce_input architecture.

End corelib.

(** ** Objects created and destroyed *)

Inductive object : Type := Manager | Device | SpdmClient.

Inductive event : Type :=
| Created (o : object) (ptr : Z)
| Destroyed (o : object) (ptr : Z).

(** The non-null pointers among some. *)
Definition owned (o : object) (ptrs : list Z) : list (object * Z) :=
  (fun ptr => (o, ptr)) <$> filter (fun ptr => ptr <> 0) ptrs.

Definition created (t : list event) : list (object * Z) :=
  omap (fun e => match e with Created o ptr => Some (o, ptr) | _ => None end) t.

Definition destroyed (t : list event) : list (object * Z) :=
  omap (fun e => match e with Destroyed o ptr => Some (o, ptr) | _ => None end) t.

(** The same library, which also records the objects it hands out when it
    succeeds and those it gets back. *)
Section traced.
Context (CL : CorelibLib).

Definition quiet {A : Type} (f : corelib -> A * corelib) (d : corelib * list event) : A * (corelib * list event) :=
  let '(a, d1) := f d.1 in (a, (d1, d.2)).

Definition handing {A : Type} (o : object) (ptrs : A -> list Z) (f : corelib -> (Z * A) * corelib)
    (d : corelib * list event) : (Z * A) * (corelib * list event) :=
  let '((rc, a), d1) := f d.1 in
  ((rc, a), (d1, d.2 ++ if rc =? CORELIB_SUCCESS then (fun x => Created x.1 x.2) <$> owned o (ptrs a) else [])).

Definition taking (o : object) (f : Z -> corelib -> corelib) (ptr : Z) (d : corelib * list event) :
    corelib * list event :=
  (f ptr d.1, d.2 ++ [Destroyed o ptr]).

Definition traced : CorelibLib := {|
  corelib := corelib * list event;
  corelib_device_manager_create := handing Manager (fun ptr => [ptr]) corelib_device_manager_create;
  corelib_device_manager_destroy := taking Manager corelib_device_manager_destroy;
  corelib_device_manager_discover_inband_gpus manager buffer :=
    handing Device (fun x => match buffer with Some _ => x.1 | None => [] end)
      (corelib_device_manager_discover_inband_gpus manager buffer);
  corelib_device_destroy := taking Device corelib_device_destroy;
  corelib_device_get_description device len := quiet (corelib_device_get_description device len);
  corelib_spdm_client_create device := handing SpdmClient (fun ptr => [ptr]) (corelib_spdm_client_create device);
  corelib_spdm_client_destroy := taking SpdmClient corelib_spdm_client_destroy;
  corelib_spdm_reset_session c := quiet (corelib_spdm_reset_session c);
  corelib_spdm_get_digests c buffer := quiet (corelib_spdm_get_digests c buffer);
  corelib_spdm_get_certificate c slot buffer := quiet (corelib_spdm_get_certificate c slot buffer);
  corelib_spdm_get_measurement_transcript c i nonce buffer :=
    quiet (corelib_spdm_get_measurement_transcript c i nonce buffer);
|}.

End traced.

Section leaks.
Context `{OSSL : OpenSSL} `{CD : !X509Codec} `{DL : DynamicLinker} (CL : CorelibLib).

Abbreviation tclient := (Driver.client (corelib (CorelibLib:=traced CL))).

Definition log (s : tclient) : list event := (Driver.driver s).2.

(** [m], which takes over the objects [pre], returns owning [own] of its
    result and owns nothing when it fails; it works on a state that has the
    client at [proj]. *)
Definition leaves {S A : Type} (proj : S -> tclient) (pre : list (object * Z)) (m : sm S Error A)
    (own : A -> list (object * Z)) : Prop :=
  forall s r s', Driver.usable corelib_symbols (proj s) -> m s = (r, s') -> defined r ->
    Driver.usable corelib_symbols (proj s') /\
    exists t, log (proj s') = log (proj s) ++ t /\
      pre ++ created t ≡ₚ destroyed t ++ match r with Ret a => own a | _ => [] end.

Definition nothing {A : Type} (_ : A) : list (object * Z) := [].

Lemma created_app t1 t2 : created (t1 ++ t2) = created t1 ++ created t2.
Proof. apply omap_app. Qed.

Lemma destroyed_app t1 t2 : destroyed (t1 ++ t2) = destroyed t1 ++ destroyed t2.
Proof. apply omap_app. Qed.

Lemma leaves_ret {S A : Type} proj (a : A) : leaves (S:=S) proj [] (sret a) nothing.
Proof. intros s r s' Hs [= <- <-] _. split; [done|]. exists []. cbn. by rewrite !app_nil_r. Qed.

Lemma leaves_lift {S A : Type} proj (m : res A) : leaves (S:=S) proj [] (slift m) nothing.
Proof. intros s r s' Hs [= <- <-] _. split; [done|]. exists []. cbn. rewrite app_nil_r. by destruct m. Qed.

Lemma leaves_guard {S A : Type} proj (b : bool) e (k : sm S Error A) own :
  leaves proj [] k own -> leaves proj [] (guard* b else e in k) own.
Proof. destruct b; [done|]. intros _ s r s' Hs [= <- <-] _. split; [done|]. exists []. cbn. by rewrite app_nil_r. Qed.

Lemma leaves_bind {S A B : Type} proj pre (m : sm S Error A) mid (k : A -> sm S Error B) own :
  leaves proj pre m mid -> (forall a, leaves proj (mid a) (k a) own) -> leaves proj pre (sbind m k) own.
Proof.
  intros Hm Hk s r s' Hs. unfold sbind. destruct (m s) as [r1 s1] eqn:E1.
  destruct r1 as [a|e|x|]; [|intros [= <- <-] Hd; exact (Hm _ _ _ Hs E1 Hd)..].
  intros H Hd. destruct (Hm _ _ _ Hs E1 I) as (Hs1 & t1 & Ht1 & Hp1).
  destruct (Hk a _ _ _ Hs1 H Hd) as (Hs2 & t2 & Ht2 & Hp2). split; [done|].
  exists (t1 ++ t2). split; [by rewrite Ht2, Ht1, app_assoc|].
  rewrite created_app, destroyed_app, app_assoc, Hp1, <- !app_assoc. by rewrite Hp2.
Qed.

Lemma leaves_on_client {Ev A : Type} pre (m : sm tclient Error A) own :
  leaves id pre m own -> leaves (S:=tclient * list Ev) fst pre (Driver.on_client m) own.
Proof.
  intros Hm s r s' Hs. unfold Driver.on_client. destruct (m s.1) as [r1 c] eqn:E. intros [= <- <-] Hd.
  exact (Hm _ _ _ Hs E Hd).
Qed.

Lemma leaves_quiet {A : Type} name (f : corelib -> A * corelib) : leaves id [] (Driver.call name (quiet CL f)) nothing.
Proof.
  intros s r s' Hs. unfold Driver.call, quiet. destruct (_ && _); [|by intros [= <- <-]].
  destruct (f _) as [a d]. cbn. intros [= <- <-] _. split; [done|].
  exists []. by rewrite app_nil_r.
Qed.

Lemma leaves_checked {A : Type} e name (f : corelib -> (Z * A) * corelib) :
  leaves id [] (Driver.checked e name (quiet CL f)) nothing.
Proof.
  eapply leaves_bind; [apply leaves_quiet|]. intros [rc a]. apply leaves_guard, leaves_ret.
Qed.

Lemma created_events l : created ((fun x => Created x.1 x.2) <$> l) = l.
Proof. induction l as [|[o p] l IH]; [done|]. cbn. f_equal. exact IH. Qed.

Lemma destroyed_events l : destroyed ((fun x => Created x.1 x.2) <$> l) = [].
Proof. by induction l. Qed.

Lemma leaves_handing {A : Type} e name o (ptrs : A -> list Z) f :
  leaves id [] (Driver.checked e name (handing CL o ptrs f)) (fun a => owned o (ptrs a)).
Proof.
  intros s r s' Hs. unfold Driver.checked, sbind, Driver.call, handing.
  destruct (_ && _); [|by intros [= <- <-]]. destruct (f _) as [[rc a] d].
  unfold CORELIB_SUCCESS. cbn. destruct (rc =? 0); intros [= <- <-] _; (split; [done|]).
  - eexists. split; [done|]. by rewrite created_events, destroyed_events.
  - exists []. cbn. by rewrite !app_nil_r.
Qed.

(** [destroy] gives back [pre] and returns. *)
Definition clears {S : Type} (proj : S -> tclient) (pre : list (object * Z)) (destroy : sm S Error unit) : Prop :=
  forall s, Driver.usable corelib_symbols (proj s) ->
    exists s' t, destroy s = (Ret tt, s') /\ Driver.usable corelib_symbols (proj s') /\
      log (proj s') = log (proj s) ++ t /\ created t = [] /\ pre = destroyed t.

Lemma clears_deleter name o f ptr :
  name ∈ corelib_symbols ->
  clears id (owned o [ptr]) (deleter (CL:=traced CL) name (taking CL o f) ptr).
Proof.
  intros Hn s Hs. unfold deleter, owned. rewrite (bool_decide_true (name ∈ _)) by (by apply Hs). rewrite andb_true_r.
  destruct (ptr =? 0) eqn:Ep; cbn [negb].
  - exists s, []. rewrite app_nil_r. split_and!; try done. apply Z.eqb_eq in Ep. by subst.
  - rewrite (Driver.call_usable corelib_symbols) by done.
    eexists _, [Destroyed o ptr]. split_and!; try done. rewrite filter_cons_True by lia. done.
Qed.

Lemma owned_cons o p l : owned o (p :: l) = owned o [p] ++ owned o l.
Proof. unfold owned. rewrite !filter_cons. by case_decide. Qed.

Lemma clears_devices devices : clears id (owned Device devices) (delete_devices (CL:=traced CL) devices).
Proof.
  induction devices as [|p devices IH]; intros s Hs; cbn.
  { exists s, []. by rewrite app_nil_r. }
  destruct (clears_deleter "corelib_device_destroy" Device corelib_device_destroy p ltac:(set_solver) s Hs)
    as (s1 & t1 & E1 & Hs1 & Hl1 & Hc1 & Hd1).
  destruct (IH s1 Hs1) as (s2 & t2 & E2 & Hs2 & Hl2 & Hc2 & Hd2).
  exists s2, (t1 ++ t2). unfold sbind. cbn in E1. rewrite E1, E2. split_and!; [done|done|..].
  - cbn in Hl1, Hl2 |- *. by rewrite Hl2, Hl1, app_assoc.
  - by rewrite created_app, Hc1, Hc2.
  - rewrite destroyed_app, <- Hd1, <- Hd2. apply owned_cons.
Qed.

Lemma clears_on_client {Ev : Type} pre destroy :
  clears id pre destroy -> clears (S:=tclient * list Ev) fst pre (Driver.on_client destroy).
Proof.
  intros H s Hs. destruct (H s.1 Hs) as (c & t & E & Hc & Hrest). exists (c, s.2), t.
  unfold Driver.on_client. rewrite E. exact (conj eq_refl (conj Hc Hrest)).
Qed.

Lemma leaves_owning {S A : Type} (proj : S -> tclient) pre destroy (m : sm S Error A) :
  clears proj pre destroy -> leaves proj [] m nothing -> leaves proj pre (owning destroy m) nothing.
Proof.
  intros Hd Hm s r s' Hs. unfold owning. destruct (m s) as [r1 s1] eqn:E1. intros H Hdef.
  assert (defined r1) as Hdef1.
  { destruct r1; try done; [|by injection H as <- <-]. destruct (destroy s1) as [[] ?]; by injection H as <- <-. }
  destruct (Hm _ _ _ Hs E1 Hdef1) as (Hs1 & t1 & Ht1 & Hp1).
  destruct (Hd s1 Hs1) as (s2 & t2 & E2 & Hs2 & Ht2 & Hc & Hdt). rewrite E2 in H.
  assert (r = r1 /\ s' = s2) as [-> ->] by (destruct r1; try done; by injection H as <- <-). split; [done|].
  exists (t1 ++ t2). split; [by rewrite Ht2, Ht1, app_assoc|].
  rewrite created_app, destroyed_app, Hc, app_nil_r, Hdt.
  assert (created t1 ≡ₚ destroyed t1) as -> by (rewrite Hp1; destruct r1; cbn; by rewrite app_nil_r).
  destruct r1; cbn; rewrite app_nil_r; apply Permutation_app_comm.
Qed.

Lemma leaves_loop {X Ev : Type} (one : X -> sm tclient Error Ev) l :
  (forall x, leaves id [] (one x) nothing) -> leaves fst [] (Driver.collect_loop one l) nothing.
Proof.
  intros Hone. induction l as [|x l IH]; cbn [Driver.collect_loop]; [apply leaves_ret|].
  eapply leaves_bind; [apply leaves_on_client, Hone|]. intros e.
  eapply (leaves_bind _ _ _ nothing); [|intros u; exact IH].
  intros s r s' Hs [= <- <-] _. split; [done|]. exists []. by rewrite app_nil_r.
Qed.

Lemma leaves_size_query {A : Type} name (f : corelib -> (Z * (A * Z)) * corelib) :
  leaves id [] (size_query (CL:=traced CL) name (quiet CL f)) nothing.
Proof.
  eapply leaves_bind; [apply leaves_checked|]. intros [x n]. apply leaves_guard, leaves_ret.
Qed.

Lemma leaves_bytes_query name (f : option Z -> corelib -> (Z * (list Z * Z)) * corelib) :
  leaves id [] (bytes_query (CL:=traced CL) name (fun buffer => quiet CL (f buffer))) nothing.
Proof.
  eapply leaves_bind; [apply leaves_size_query|]. intros size.
  eapply leaves_bind; [apply leaves_lift|]. intros _u.
  eapply leaves_bind; [apply leaves_checked|]. intros [w n]. apply leaves_lift.
Qed.

Lemma leaves_slot c : leaves id [] (certificate_slot (CL:=traced CL) c) nothing.
Proof.
  eapply leaves_bind; [apply leaves_size_query|]. intros n.
  eapply leaves_bind; [apply leaves_lift|]. intros _u.
  eapply leaves_bind; [apply leaves_checked|]. intros [digests n'].
  destruct (_ <? _); [apply leaves_lift|]. apply leaves_ret.
Qed.

Lemma leaves_with_client architecture nonce_input desc c :
  leaves id [] (collect_with_client (CL:=traced CL) architecture nonce_input desc c) nothing.
Proof.
  eapply leaves_bind; [apply leaves_slot|]. intros slot.
  eapply leaves_bind; [apply leaves_checked|]. intros _u1.
  eapply leaves_bind; [apply leaves_bytes_query|]. intros cert. apply leaves_guard.
  eapply leaves_bind; [apply leaves_checked|]. intros _u2.
  eapply leaves_bind; [apply leaves_bytes_query|]. intros transcript.
  eapply leaves_bind; [apply leaves_lift|]. intros pem. apply leaves_ret.
Qed.

Lemma leaves_one architecture nonce_input devices i :
  leaves id [] (collect_one (CL:=traced CL) architecture nonce_input devices i) nothing.
Proof.
  eapply leaves_bind; [apply leaves_lift|]. intros device.
  eapply leaves_bind; [apply leaves_quiet|]. intros [rc [buffer len]].
  eapply leaves_bind; [|intros desc].
  { destruct (rc =? _); [apply leaves_lift|]. apply leaves_ret. }
  eapply leaves_bind; [apply leaves_handing|]. intros c.
  apply leaves_owning; [|apply leaves_with_client]. apply clears_deleter. set_solver.
Qed.

(** A device handle the driver left null is not an object. *)
Lemma owned_filled (cap : Z) found devices :
  Driver.filled (E:=Error) cap found = Ret devices -> owned Device devices = owned Device found.
Proof.
  unfold Driver.filled. destruct (_ <=? _); [|done]. intros [= <-].
  generalize (Z.to_nat (cap - zlen found)). intros k. induction found as [|p found IH].
  - induction k as [|k IH]; [done|]. cbn [replicate app] in *. by rewrite owned_cons, IH.
  - cbn [app]. rewrite owned_cons, IH. symmetry. apply owned_cons.
Qed.

(** Owned objects are kept by what cannot fail with a code. *)
Lemma leaves_hold {S A B : Type} (proj : S -> tclient) pre (m : res A) (k : A -> sm S Error B) own :
  (forall e, m <> Err e) -> (forall a, m = Ret a -> leaves proj pre (k a) own) ->
  leaves proj pre (sbind (slift m) k) own.
Proof.
  intros He Hk s r s' Hs. unfold sbind, slift. destruct m as [a|e|x|].
  - by apply Hk.
  - by destruct (He e).
  - by intros [= <- <-].
  - by intros [= <- <-].
Qed.

Lemma leaves_with_manager architecture nonce_input manager :
  leaves fst [] (collect_with_manager (CL:=traced CL) architecture nonce_input manager) nothing.
Proof.
  eapply leaves_bind; [apply leaves_on_client|].
  { eapply leaves_bind; [apply (leaves_handing _ _ Device (fun _ => []))|]. intros [x n].
    apply leaves_guard, leaves_ret. }
  intros device_count. eapply leaves_bind; [apply leaves_lift|]. intros _u.
  eapply leaves_bind; [apply leaves_on_client, (leaves_handing _ _ Device fst)|]. intros [found n]. cbn [fst].
  apply leaves_hold; [intros e; unfold Driver.filled; by destruct (_ <=? _)|]. intros devices Hf.
  apply leaves_hold; [intros e; unfold new_vector; by destruct (_ <? _)|]. intros _u1 _.
  apply leaves_owning; [|apply leaves_loop, leaves_one].
  rewrite <- (owned_filled _ _ _ Hf). apply clears_on_client, clears_devices.
Qed.

Lemma leaves_collect nonce_input architecture :
  leaves fst [] (collect_evidence_corelib (CL:=traced CL) nonce_input architecture) nothing.
Proof.
  apply leaves_guard. eapply leaves_bind; [apply leaves_on_client, (leaves_handing _ _ Manager (fun p => [p]))|].
  intros manager. apply leaves_owning; [|apply leaves_with_manager].
  apply clears_on_client, clears_deleter. set_solver.
Qed.

(** C23: Every device manager, device and SPDM client that corelib hands out
    while evidence is collected is given back exactly once by the time the
    collection ends, on every path that returns evidence or an error code. *)
Theorem corelib_no_leak nonce_input architecture s out r s' out' :
  Driver.usable corelib_symbols s ->
  collect_evidence_corelib (CL:=traced CL) nonce_input architecture (s, out) = (r, (s', out')) ->
  defined r ->
  exists t, log s' = log s ++ t /\ created t ≡ₚ destroyed t.
Proof.
  intros Hs H Hd. destruct (leaves_collect nonce_input architecture (s, out) r (s', out') Hs H Hd)
    as (_ & t & Ht & Hp). exists t. split; [exact Ht|]. rewrite Hp. destruct r; cbn; by rewrite app_nil_r.
Qed.

End leaks.

(** ** Chains and evidence *)

Section evidence.
Context `{OSSL : OpenSSL} `{CD : !X509Codec} `{DL : DynamicLinker} `{CL : CorelibLib}.

(** [d2i_X509] takes a non-empty piece of what it is given. *)
Definition d2i_documented : Prop := forall der cert n, d2i_X509 der = Some (cert, n) -> 0 < n <= zlen der.

(** The certificates whose encodings follow one another. *)
Inductive der_certs : list Z -> list X509 -> Prop :=
| der_nil : der_certs [] []
| der_cons der cert n certs :
    der <> [] -> d2i_X509 der = Some (cert, n) -> der_certs (drop (Z.to_nat n) der) certs ->
    der_certs der (cert :: certs).

(** The text of each. *)
Definition pem_texts (certs : list X509) (texts : list string) : Prop :=
  Forall2 (fun cert pem => PEM_write_bio_X509 cert = Some pem /\ pem <> "") certs texts.

Lemma d2i_shorter der cert n :
  d2i_documented -> d2i_X509 der = Some (cert, n) -> (length (drop (Z.to_nat n) der) < length der)%nat.
Proof. intros Hd Hn. apply Hd in Hn. unfold zlen in Hn. rewrite length_drop. lia. Qed.

Lemma der_loop_iff fuel der acc out :
  d2i_documented -> BIO_new_mem = true -> (length der < fuel)%nat ->
  der_loop fuel der acc = Ret out <->
  exists certs texts, der_certs der certs /\ pem_texts certs texts /\ out = acc ++ texts.
Proof.
  intros Hd Hb. revert der acc; induction fuel as [|fuel IH]; intros der acc Hf; [lia|]. cbn [der_loop].
  case_bool_decide as He.
  { subst der. split.
    - intros [= <-]. exists [], []. rewrite app_nil_r. split_and!; [constructor|constructor|done].
    - intros (certs & texts & Hc & Ht & ->). inversion Hc; [|done]. subst. inversion Ht. by rewrite app_nil_r. }
  destruct (d2i_X509 der) as [[cert n]|] eqn:En.
  2: { split; [done|]. intros (certs & texts & Hc & _). inversion Hc; congruence. }
  rewrite Hb. pose proof (d2i_shorter _ _ _ Hd En) as Hlen.
  destruct (PEM_write_bio_X509 cert) as [pem|] eqn:Ep.
  2: { split; [done|]. intros (certs & texts & Hc & Ht & _). inversion Hc; [done|]. subst. inversion Ht as [|? ? ? ? [? _]].
       congruence. }
  case_bool_decide as Hpem; cbn [negb].
  { split; [done|]. intros (certs & texts & Hc & Ht & _). inversion Hc; [done|]. subst. inversion Ht as [|? ? ? ? [? ?]].
    congruence. }
  rewrite IH by lia. split.
  - intros (certs & texts & Hc & Ht & ->). exists (cert :: certs), (pem :: texts). rewrite <- app_assoc.
    split_and!; [by econstructor|by constructor|done].
  - intros (certs & texts & Hc & Ht & ->). inversion Hc as [|? cert' n' certs' _ En' Hc']; [done|]. subst.
    inversion Ht as [|? pem' ? texts' [Hp _] Ht']. subst. rewrite En in En'. injection En' as <- <-.
    rewrite Ep in Hp. injection Hp as <-. exists certs', texts'. by rewrite <- app_assoc.
Qed.

Lemma der_loop_defined fuel der acc :
  d2i_documented -> (length der < fuel)%nat -> defined (der_loop fuel der acc).
Proof.
  intros Hd. revert der acc; induction fuel as [|fuel IH]; intros der acc Hf; [lia|]. cbn [der_loop].
  case_bool_decide; [done|]. destruct (d2i_X509 der) as [[cert n]|] eqn:En; [|done].
  destruct BIO_new_mem; [|done]. destruct (PEM_write_bio_X509 cert); [|done]. case_bool_decide; [done|]. cbn.
  apply IH. pose proof (d2i_shorter _ _ _ Hd En). lia.
Qed.

Lemma string_append_assoc a b c : (a +:+ b) +:+ c = a +:+ (b +:+ c).
Proof.
  induction a as [|x a IH]; [done|]. change (String x ((a +:+ b) +:+ c) = String x (a +:+ (b +:+ c))). by rewrite IH.
Qed.

Lemma string_append_nil a : a +:+ "" = a.
Proof. induction a as [|x a IH]; [done|]. change (String x (a +:+ "") = String x a). by rewrite IH. Qed.

Lemma foldl_append l a : foldl (fun out pem => out +:+ pem) a l = a +:+ foldr String.append "" l.
Proof.
  revert a; induction l as [|pem l IH]; intros a; cbn [foldl foldr]; [by rewrite string_append_nil|].
  by rewrite IH, string_append_assoc.
Qed.

(** P: Converting a chain ends, with text or with an error code, and it succeeds
    on exactly the byte strings that are certificates one after another: the
    text is theirs, the last certificate (the device's) first. *)
Theorem pem_chain_iff der_chain pem :
  d2i_documented -> BIO_new_mem = true ->
  defined (convert_der_cert_chain_to_pem der_chain) /\
  (convert_der_cert_chain_to_pem der_chain = Ret pem <->
   der_chain <> [] /\
   exists certs texts, der_certs der_chain certs /\ pem_texts certs texts /\
     pem = foldr String.append "" (reverse texts)).
Proof.
  intros Hd Hb. unfold convert_der_cert_chain_to_pem. case_bool_decide as He; cbn [negb].
  { split; [done|]. split; [done|]. by intros [? _]. }
  split.
  - apply defined_bind; [apply der_loop_defined; [done|lia]|]. intros l _. by case_bool_decide.
  - split.
    + intros (l & (certs & texts & Hc & Ht & ->)%der_loop_iff & H)%obind_Ret; [|done..|lia].
      cbn in H. case_bool_decide; [done|]. injection H as <-. split; [done|].
      exists certs, texts. split_and!; [done..|]. apply foldl_append.
    + intros (_ & certs & texts & Hc & Ht & ->). apply obind_Ret. exists texts. split.
      * apply der_loop_iff; [done..|lia|]. by exists certs, texts.
      * case_bool_decide as Hx; cbn [negb]; [|f_equal; apply foldl_append].
        subst texts. inversion Ht. subst. by inversion Hc.
Qed.

(** *** Evidence *)

Definition answered {A : Type} (f : corelib -> (Z * A) * corelib) (a : A) : Prop :=
  exists d, (f d).1 = (CORELIB_SUCCESS, a).

(** Bytes that were asked for twice. *)
Definition fetched (f : option Z -> corelib -> (Z * (list Z * Z)) * corelib) (bytes : list Z) : Prop :=
  exists l size written size', answered (f None) (l, size) /\ size <> 0 /\
    answered (f (Some size)) (written, size') /\ zlen written <= size /\
    resize (written ++ replicate (Z.to_nat (size - zlen written)) 0) size' = Ret bytes.

(** Evidence that corelib gave for a device it found. *)
Record item_of (architecture : GpuEvidence.GpuArchitecture) (nonce_input : list Z) (e : GpuEvidence.GpuEvidence) :
    Prop := {
  item_nonce : GpuEvidence.m_nonce e = nonce_input /\ GpuEvidence.m_gpu_architecture e = architecture;
  item_device : exists device c slot cert,
    answered (corelib_spdm_client_create device) c /\
    fetched (corelib_spdm_get_certificate c slot) cert /\ SPDM_CERT_DIGEST_SIZE < zlen cert /\
    convert_der_cert_chain_to_pem (drop (Z.to_nat SPDM_CERT_DIGEST_SIZE) cert) = Ret (GpuEvidence.m_cert_chain e) /\
    fetched (corelib_spdm_get_measurement_transcript c ALL_MEASUREMENTS_INDEX nonce_input)
      (GpuEvidence.m_attestation_report e);
}.

Lemma checked_answer {A : Type} e name (f : corelib -> (Z * A) * corelib) s a s' :
  Driver.checked e name f s = (Ret a, s') -> answered f a.
Proof. intros H%Driver.checked_Ret%Driver.call_Ret. destruct H as (_ & _ & d & Hd & _). exists (Driver.driver s). by rewrite Hd. Qed.

Lemma bytes_query_Ret name f s bytes s' : bytes_query name f s = (Ret bytes, s') -> fetched f bytes.
Proof.
  unfold bytes_query. intros (size & s1 & Hq & H)%sbind_Ret. unfold size_query in Hq.
  apply sbind_Ret in Hq as ([l n] & s2 & Hl%checked_answer & Hn). destruct (negb _) eqn:En; [|done].
  injection Hn as <- <-. apply sbind_Ret in H as (u & s3 & _ & H).
  apply sbind_Ret in H as ([w n'] & s4 & Hw%checked_answer & [H _]%slift_Ret). revert H.
  unfold Driver.filled. destruct (_ <=? _) eqn:Hle; [|done]. cbn. intros H.
  exists l, n, w, n'. split_and!; try done; lia.
Qed.

Lemma owning_Ret {S A : Type} (destroy : sm S Error unit) (m : sm S Error A) s a s' :
  owning destroy m s = (Ret a, s') -> exists s1, m s = (Ret a, s1).
Proof.
  unfold owning. destruct (m s) as [r s1]. destruct r as [b|e|x|]; destruct (destroy s1) as [[] s2]; intros [= -> _];
    eauto.
Qed.

Lemma corelib_one_item architecture nonce_input devices i s e s' :
  collect_one architecture nonce_input devices i s = (Ret e, s') -> item_of architecture nonce_input e.
Proof.
  unfold collect_one. intros (device & s1 & _ & H)%sbind_Ret. apply sbind_Ret in H as ([rc [buf len]] & s2 & _ & H).
  apply sbind_Ret in H as (desc & s3 & _ & H). apply sbind_Ret in H as (c & s4 & Hc%checked_answer & H).
  apply owning_Ret in H as [s5 H]. unfold collect_with_client in H.
  apply sbind_Ret in H as (slot & s6 & _ & H). apply sbind_Ret in H as (u1 & s7 & _ & H).
  apply sbind_Ret in H as (cert & s8 & Hcert%bytes_query_Ret & H). destruct (negb _) eqn:Hz; [|done].
  apply sbind_Ret in H as (u2 & s9 & _ & H). apply sbind_Ret in H as (tr & s10 & Htr%bytes_query_Ret & H).
  apply sbind_Ret in H as (pem & s11 & [Hp%on_err_Ret _]%slift_Ret & [= <- _]).
  constructor; [done|]. exists device, c, slot, cert. split_and!; try done. lia.
Qed.

Lemma owning_out {Ev A : Type} (destroy : sm (Driver.client corelib) Error unit)
    (m : sm (Driver.client corelib * list Ev) Error A) s r s' :
  owning (Driver.on_client destroy) m s = (r, s') ->
  exists r1 s1, m s = (r1, s1) /\ s'.2 = s1.2 /\ (forall a, r = Ret a -> r1 = Ret a).
Proof.
  unfold owning, Driver.on_client. destruct (m s) as [r1 s1]. intros H. exists r1, s1. split; [done|].
  destruct r1 as [b|e|x|]; destruct (destroy s1.1) as [[] c]; injection H as <- <-; split; try done.
Qed.

(** Either nothing was collected, or the loop ran over the devices found. *)
Lemma collect_corelib_cases nonce_input architecture s out r s' out' :
  collect_evidence_corelib nonce_input architecture (s, out) = (r, (s', out')) ->
  (out' = out /\ forall u, r <> Ret u) \/
  zlen nonce_input = SPDM_NONCE_SIZE /\
  exists manager l n found n' devices s1 r1 s2,
    answered corelib_device_manager_create manager /\
    answered (corelib_device_manager_discover_inband_gpus manager None) (l, n) /\ n <> 0 /\
    answered (corelib_device_manager_discover_inband_gpus manager (Some n)) (found, n') /\
    Driver.collect_loop (collect_one architecture nonce_input devices) (Driver.indices n') (s1, out) = (r1, (s2, out')) /\
    (forall u, r = Ret u -> r1 = Ret u).
Proof.
  unfold collect_evidence_corelib. destruct (_ =? _) eqn:Hz; [|intros [= <- <- <-]; by left].
  unfold sbind at 1, Driver.on_client at 1. cbn. destruct (Driver.checked _ _ _ s) as [rm c1] eqn:Em.
  destruct rm as [manager|e|x|]; [|intros [= <- <- <-]; by left..]. apply checked_answer in Em.
  intros (r1 & [s2 o2] & H & Ho & Hr)%owning_out. cbn in Ho. subst o2. revert H. unfold collect_with_manager.
  unfold sbind at 1, Driver.on_client at 1. cbn. destruct (size_query _ _ c1) as [rn c2] eqn:En.
  destruct rn as [n|e|x|]; [|intros [= <- <- <-]; left; split; [done|]; by intros u ?%Hr..].
  unfold size_query in En. apply sbind_Ret in En as ([l n0] & c3 & Hn%checked_answer & En).
  destruct (negb (n0 =? 0)) eqn:Hn0; [|done]. injection En as -> ->.
  unfold sbind at 1, slift at 1. destruct (new_vector 8 n) as [u|e|x|];
    [|intros [= <- <- <-]; left; split; [done|]; by intros ? ?%Hr..].
  unfold sbind at 1, Driver.on_client at 1. cbn. destruct (Driver.checked _ _ _ c2) as [rf c4] eqn:Ef.
  destruct rf as [[found n']|e|x|]; [|intros [= <- <- <-]; left; split; [done|]; by intros ? ?%Hr..].
  apply checked_answer in Ef. destruct (Driver.filled n found) as [devices|e|x|];
    [|intros [= <- <- <-]; left; split; [done|]; by intros ? ?%Hr..].
  destruct (new_vector 8 n') as [u'|e|x|];
    [|intros [= <- <- <-]; left; split; [done|]; by intros ? ?%Hr..].
  intros (r2 & [s5 o5] & H & Ho & Hr2)%owning_out. cbn in Ho. subst o5. right. split; [lia|].
  exists manager, l, n, found, n', devices, c4, r2, s5. split_and!; try done; [lia|]. intros v Hv. by apply Hr2, Hr.
Qed.

(** P: Whatever happens, a collector through corelib only appends evidence that
    corelib gave for a device it found: the transcript of all measurements over
    the nonce, and the device's certificate chain without its digest, turned
    around into text.  When it succeeds the nonce has 32 bytes and there is
    evidence of every device found. *)
Theorem corelib_evidence_sound architecture nonce_input s out r s' out' :
  get_evidence architecture nonce_input (s, out) = (r, (s', out')) ->
  exists es, out' = out ++ es /\ Forall (item_of architecture nonce_input) es /\
    (r = Ret tt ->
     zlen nonce_input = SPDM_NONCE_SIZE /\
     exists manager l n found n',
       answered (corelib_device_manager_discover_inband_gpus manager None) (l, n) /\ n <> 0 /\
       answered (corelib_device_manager_discover_inband_gpus manager (Some n)) (found, n') /\
       length es = Z.to_nat n').
Proof.
  unfold get_evidence. destruct (negb _); [|intros [= <- <- <-]; exists []; by rewrite app_nil_r].
  unfold sbind, Driver.on_client at 1. cbn. destruct (init_corelib s) as [ri c].
  destruct ri as [u|e|x|]; [|intros [= <- <- <-]; exists []; by rewrite app_nil_r..].
  intros [[-> Hr]|(Hz & manager & l & n & found & n' & devices & s1 & r1 & s2 & _ & Hn & Hn0 & Hf & H & Hr)]%collect_corelib_cases.
  { exists []. rewrite app_nil_r. split_and!; [done|constructor|]. intros H. by destruct (Hr tt). }
  apply (Driver.collect_loop_spec _ (fun _ => item_of architecture nonce_input) (fun _ => True)) in H
    as [_ (es & l1 & l2 & Ho & Hl & Hfa & Hr1)];
    [|by intros i c' r0 c'' _ Hx; split; [|intros e ->; eapply corelib_one_item]|done].
  cbn in Ho. subst out'. exists es. split_and!; [done|by eapply Forall2_Forall_r, Forall_true|].
  intros Hret. split; [done|]. exists manager, l, n, found, n'. split_and!; try done.
  apply Hr in Hret. apply Hr1 in Hret as ->. rewrite app_nil_r in Hl. subst l1.
  rewrite <- (Forall2_length _ _ _ Hfa). unfold Driver.indices. by rewrite length_fmap, length_seq.
Qed.

End evidence.

(** ** A driver, for examples

    Two devices whose certificate chain is a digest and two certificates of
    two bytes; the transcript is the nonce and the number of the client. *)

Definition toy_d2i (der : list Z) : option (Z * Z) :=
  match der with a :: _ :: _ => Some (a, 2) | _ => None end.

Definition toy_pem (cert : Z) : option string := Some (string_of_bytes [cert; 10]).

Definition toy_codec : X509Codec (OSSL:=toy_openssl) := Build_X509Codec toy_openssl toy_d2i true toy_pem.

Definition sized (buffer : option Z) (bytes : list Z) : Z * (list Z * Z) :=
  (0, (match buffer with Some _ => bytes | None => [] end, zlen bytes)).

Definition toy_corelib : CorelibLib := {|
  corelib := unit;
  corelib_device_manager_create d := ((0, 5), d);
  corelib_device_manager_destroy _ d := d;
  corelib_device_manager_discover_inband_gpus _ buffer d := (sized buffer [1; 2], d);
  corelib_device_destroy _ d := d;
  corelib_device_get_description device _ d := ((0, ([71; 80; 85; 48 + device], 4)), d);
  corelib_spdm_client_create device d := ((0, 10 + device), d);
  corelib_spdm_client_destroy _ d := d;
  corelib_spdm_reset_session _ d := ((0, tt), d);
  corelib_spdm_get_digests _ buffer d := ((0, (match buffer with Some _ => [mk_digest 3 []] | None => [] end, 1)), d);
  corelib_spdm_get_certificate _ _ buffer d := (sized buffer (replicate 52 0 ++ [65; 0; 66; 0]), d);
  corelib_spdm_get_measurement_transcript c _ nonce buffer d := (sized buffer (nonce ++ [c]), d);
|}.

Abbreviation toy_nonce := (replicate 32 7).

Lemma toy_d2i_documented : d2i_documented (OSSL:=toy_openssl) (CD:=toy_codec).
Proof.
  intros der cert n. destruct der as [|a [|b der]]; try done. intros [= <- <-].
  rewrite !zlen_cons. pose proof (zlen_nonneg der). lia.
Qed.

Lemma pem_chain_iff_witness :
  convert_der_cert_chain_to_pem (OSSL:=toy_openssl) (CD:=toy_codec) [65; 0; 66; 0] =
    Ret (string_of_bytes [66; 10; 65; 10]).
Proof.
  apply (pem_chain_iff (OSSL:=toy_openssl) (CD:=toy_codec)); [apply toy_d2i_documented|done|]. split; [done|].
  exists [65; 66], [string_of_bytes [65; 10]; string_of_bytes [66; 10]].
  split_and!; [
    apply (der_cons (OSSL:=toy_openssl) (CD:=toy_codec) _ 65 2); [done|reflexivity|];
    apply (der_cons (OSSL:=toy_openssl) (CD:=toy_codec) _ 66 2); [done|reflexivity|]; constructor|by repeat constructor|reflexivity].
Defined.

Abbreviation toy_run :=
  (get_evidence (OSSL:=toy_openssl) (CD:=toy_codec) (DL:=toy_linker) (CL:=toy_corelib) GpuEvidence.Hopper toy_nonce
     (Driver.new_client tt, [])).

Lemma corelib_evidence_sound_witness :
  exists es, toy_run.2.2 = es /\ length es = 2%nat /\
    GpuEvidence.m_uuid <$> es = ["GPU1"; "GPU2"].
Proof.
  destruct (corelib_evidence_sound (OSSL:=toy_openssl) (CD:=toy_codec) (DL:=toy_linker) (CL:=toy_corelib)
              GpuEvidence.Hopper toy_nonce (Driver.new_client tt) [] toy_run.1 toy_run.2.1 toy_run.2.2)
    as (es & He & _); [vm_compute; reflexivity|].
  exists es. split; [exact He|]. rewrite app_nil_l in He. rewrite <- He. split; vm_compute; reflexivity.
Defined.

Abbreviation toy_traced_client :=
  (init_corelib (DL:=toy_linker) (CL:=traced toy_corelib)
     (Driver.new_client (D:=corelib (CorelibLib:=traced toy_corelib)) (tt, []))).2.

Abbreviation toy_traced_run :=
  (collect_evidence_corelib (OSSL:=toy_openssl) (CD:=toy_codec) (CL:=traced toy_corelib) toy_nonce GpuEvidence.Hopper
     (toy_traced_client, [])).

Lemma corelib_no_leak_witness :
  exists t, log toy_corelib toy_traced_run.2.1 = log toy_corelib toy_traced_client ++ t /\
    created t ≡ₚ destroyed t /\
    created t = [(Manager, 5); (Device, 1); (Device, 2); (SpdmClient, 11); (SpdmClient, 12)].
Proof.
  destruct (corelib_no_leak (OSSL:=toy_openssl) (CD:=toy_codec) toy_corelib toy_nonce GpuEvidence.Hopper
              toy_traced_client [] toy_traced_run.1 toy_traced_run.2.1 toy_traced_run.2.2) as (t & Ht & Hp);
    [split; [reflexivity|]; apply Forall_forall, (bool_decide_unpack _); vm_compute; exact I
    |vm_compute; reflexivity|vm_compute; exact I|].
  exists t. split_and!; [exact Ht|exact Hp|].
  apply (f_equal created) in Ht. rewrite created_app in Ht. etransitivity; [|vm_compute in Ht; exact (eq_sym Ht)]. done.
Defined.

End Corelib.
