(* ===== verification/NscqClient.v ===== *)
(** * NscqClient: evidence of the switches through NSCQ

    src/switch/nscq_client.cpp and [NscqEvidenceCollector] of
    src/switch/evidence.cpp: loading libnvidia-nscq, its session, the queries,
    which NSCQ answers through callbacks, and the collection of evidence from
    every switch.  NSCQ is a parameter: a state its functions change, and for
    an observed path the callbacks it makes, in order. *)

From S2P Require Import Prelude Errors Utils SpdmReq SpdmMeasurementRecords SpdmOpaqueData SpdmResp.
From S2P Require Import SwitchOpaqueData OpenSsl NvCache Ocsp X509Chain Json Certs Base64 Report SwitchEvidence Driver.

Module Nscq.

(** ** The C interface of NSCQ *)

Definition NSCQ_RC_SUCCESS : Z := 0.
Definition NSCQ_ARCH_SV10 : Z := 0.
Definition NSCQ_ARCH_LR10 : Z := 1.
Definition NSCQ_ARCH_LS10 : Z := 2.
Definition NSCQ_LABEL_SIZE : Z := 64.
Definition NSCQ_ATTESTATION_REPORT_SIZE : Z := 8192.
Definition NSCQ_CERTIFICATE_CERT_CHAIN_MAX_SIZE : Z := 5120.
Definition NSCQ_SESSION_CREATE_MOUNT_DEVICES : Z := 1.
Definition NSCQ_ATTESTATION_REPORT_NONCE_SIZE : Z := 32.

Definition NSCQ_PATH_NVSWITCH_UUID : string := "/drv/nvswitch/{device}/uuid".
Definition NSCQ_PATH_NVSWITCH_ARCH : string := "/{nvswitch}/id/arch".
Definition NSCQ_PATH_PCIE_MODE : string := "/config/pcie_mode".
Definition NSCQ_PATH_CERTIFICATE : string := "/config/certificate".
Definition NSCQ_PATH_ATTESTATION_REPORT : string := "/config/attestation_report".

(** [SwitchTnvlMode], by value. *)
Definition TnvlUnknown : Z := -1.
Definition TnvlEnabled : Z := 1.
Definition TnvlLocked : Z := 3.

Record nscq_attestation_certificate_t : Type := mk_certificate {
  cert_chain : list Z;
  cert_chain_size : Z;
}.

Record nscq_attestation_report_t : Type := mk_report {
  report_size : Z;
  report : list Z;
}.

(** What a callback is called with, besides the code: which it is depends on
    the path.  A UUID is a pointer, which may be null. *)
Inductive nscq_data : Type :=
| DataUuid (uuid : option (list Z))
| DataArch (arch : Z)
| DataTnvl (tnvl_status : Z)
| DataCertificate (cert : nscq_attestation_certificate_t)
| DataReport (r : nscq_attestation_report_t).

(** A session is a pointer, 0 for null. *)
Class NscqLib : Type := {
  nscq : Type;
  nscq_session_create : Z -> nscq -> (Z * Z) * nscq;
  nscq_session_destroy : Z -> nscq -> nscq;
  (** The return code, and the callbacks made before it returns. *)
  nscq_session_path_observe : Z -> string -> nscq -> (Z * list (Z * nscq_data)) * nscq;
  nscq_session_set_input : Z -> list Z -> nscq -> Z * nscq;
  (** The text of a UUID: what is written into the label. *)
  nscq_uuid_to_label : list Z -> Z * list Z;
}.

(** ** The client *)

Section nscq.
Context `{DL : DynamicLinker} `{NQ : NscqLib}.

(** [g_nscq_session] is kept with the driver. *)
Record nscq_driver : Type := mk_driver {
  library : nscq;
  g_nscq_session : Z;
}.

Abbreviation client := (Driver.client nscq_driver).

Definition new_client (d : nscq) : client := Driver.new_client (mk_driver d 0).

Definition session (s : client) : Z := g_nscq_session (Driver.driver s).

(** A call that passes the session. *)
Definition with_session {A : Type} (f : Z -> nscq -> A * nscq) (d : nscq_driver) : A * nscq_driver :=
  let '(a, l) := f (g_nscq_session d) (library d) in (a, mk_driver l (g_nscq_session d)).

Definition set_session (session : Z) (d : nscq_driver) : unit * nscq_driver := (tt, mk_driver (library d) session).

Definition nscq_so : string := "libnvidia-nscq.so.2".

Definition nscq_symbols : list string :=
  ["nscq_session_create"; "nscq_session_destroy"; "nscq_session_path_observe"; "nscq_session_set_input";
   "nscq_uuid_to_label"].

Definition start_session : sm client Error bool :=
  do* (rc, session) := Driver.call "nscq_session_create"
                         (fun d => with_session (fun _ => nscq_session_create NSCQ_SESSION_CREATE_MOUNT_DEVICES) d) in
  if negb (rc =? NSCQ_RC_SUCCESS) then sret false
  else do* _ := (fun s => (Ret tt, Driver.with_driver s (set_session session (Driver.driver s)).2)) in sret true.

Definition init_nscq : sm client Error unit := Driver.init NscqInitFailed nscq_so nscq_symbols start_session.

Definition stop_session : sm client Error unit :=
  do* _ := Driver.call "nscq_session_destroy"
             (with_session (fun session d => (tt, nscq_session_destroy session d))) in
  fun s => (Ret tt, Driver.with_driver s (set_session 0 (Driver.driver s)).2).

Definition shutdown_nscq : sm client Error unit := Driver.shutdown stop_session.

(** *** The callbacks

    Each gets the object its [user_data] points to; one that reports an error
    leaves it. *)

Fixpoint callbacks {A : Type} (callback : A -> Z * nscq_data -> sm client Error A) (calls : list (Z * nscq_data))
    (a : A) : sm client Error A :=
  match calls with
  | [] => sret a
  | c :: calls => do* a := callback a c in callbacks callback calls a
  end.

Definition uuid_callback (uuids : list string) (c : Z * nscq_data) : sm client Error (list string) :=
  if negb (c.1 =? NSCQ_RC_SUCCESS) then sret uuids
  else
  match c.2 with
  | DataUuid None => sret uuids
  | DataUuid (Some uuid) =>
      do* (label_rc, label) := Driver.call "nscq_uuid_to_label" (fun d => (nscq_uuid_to_label uuid, d)) in
      if negb (label_rc =? NSCQ_RC_SUCCESS) then sret uuids
      else slift (let* buffer := Driver.filled NSCQ_LABEL_SIZE label in
                  let* name := Driver.c_string buffer in
                  Ret (uuids ++ [name]))
  | _ => slift UB
  end.

Definition tnvl_status_callback (mode : Z) (c : Z * nscq_data) : sm client Error Z :=
  if negb (c.1 =? NSCQ_RC_SUCCESS) then sret mode
  else match c.2 with DataTnvl tnvl_status => sret tnvl_status | _ => slift UB end.

Definition attestation_cert_chain_callback (chain : string) (c : Z * nscq_data) : sm client Error string :=
  if negb (c.1 =? NSCQ_RC_SUCCESS) then sret chain
  else
  match c.2 with
  | DataCertificate cert =>
      slift (let* buffer := Driver.filled NSCQ_CERTIFICATE_CERT_CHAIN_MAX_SIZE (cert_chain cert) in
             let* bytes := Driver.read_buffer buffer (cert_chain_size cert) in
             Ret (string_of_bytes bytes))
  | _ => slift UB
  end.

Definition attestation_report_callback (data : list Z) (c : Z * nscq_data) : sm client Error (list Z) :=
  if negb (c.1 =? NSCQ_RC_SUCCESS) then sret data
  else
  match c.2 with
  | DataReport r =>
      slift (let* buffer := Driver.filled NSCQ_ATTESTATION_REPORT_SIZE (report r) in
             Driver.read_buffer buffer (report_size r))
  | _ => slift UB
  end.

Definition architecture_callback (arch_val : Z) (c : Z * nscq_data) : sm client Error Z :=
  if negb (c.1 =? NSCQ_RC_SUCCESS) then sret arch_val
  else match c.2 with DataArch arch => sret arch | _ => slift UB end.

(** *** The queries *)

(** There is a session, and these functions are loaded. *)
Definition has_session (functions : list string) (s : client) : bool :=
  negb (session s =? 0) && forallb (fun f => bool_decide (f ∈ Driver.symbols s)) functions.

(** Observe a path with a callback and what it fills. *)
Definition observe {A : Type} (path : string) (callback : A -> Z * nscq_data -> sm client Error A) (a : A) :
    sm client Error A :=
  do* (observe_rc, calls) := Driver.call "nscq_session_path_observe"
                               (with_session (fun session => nscq_session_path_observe session path)) in
  do* a := callbacks callback calls a in
  guard* observe_rc =? NSCQ_RC_SUCCESS else NscqError in
  sret a.

Definition get_switch_architecture : sm client Error SwitchEvidence.SwitchArchitecture := fun s =>
  if negb (has_session ["nscq_session_path_observe"] s) then (Err NscqError, s)
  else
  (do* arch_val := observe NSCQ_PATH_NVSWITCH_ARCH architecture_callback (-1) in
   if arch_val =? NSCQ_ARCH_SV10 then sret SwitchEvidence.SV10
   else if arch_val =? NSCQ_ARCH_LR10 then sret SwitchEvidence.LR10
   else if arch_val =? NSCQ_ARCH_LS10 then sret SwitchEvidence.LS10
   else slift (Err NscqError)) s.

Definition get_all_switch_uuid : sm client Error (list string) := fun s =>
  if negb (has_session ["nscq_session_path_observe"] s) then (Err NscqError, s)
  else observe NSCQ_PATH_NVSWITCH_UUID uuid_callback [] s.

Definition get_switch_tnvl_status (uuid : string) : sm client Error Z := fun s =>
  if negb (has_session ["nscq_session_path_observe"] s) then (Err NscqError, s)
  else if bool_decide (uuid = "") then (Err NscqError, s)
  else observe (("/" +:+ uuid) +:+ NSCQ_PATH_PCIE_MODE) tnvl_status_callback TnvlUnknown s.

Definition get_attestation_cert_chain (uuid : string) : sm client Error string := fun s =>
  if negb (has_session ["nscq_session_path_observe"] s) then (Err NscqError, s)
  else if bool_decide (uuid = "") then (Err NscqError, s)
  else
  (do* out_cert_chain := observe (("/" +:+ uuid) +:+ NSCQ_PATH_CERTIFICATE) attestation_cert_chain_callback "" in
   guard* negb (bool_decide (out_cert_chain = "")) else NscqError in
   sret out_cert_chain) s.

Definition get_attestation_report (uuid : string) (nonce_input : list Z) : sm client Error (list Z) := fun s =>
  if negb (has_session ["nscq_session_set_input"; "nscq_session_path_observe"] s) then (Err NscqError, s)
  else if bool_decide (uuid = "") then (Err NscqError, s)
  else if negb (zlen nonce_input =? NSCQ_ATTESTATION_REPORT_NONCE_SIZE) then (Err NscqError, s)
  else
  (do* set_input_rc := Driver.call "nscq_session_set_input"
                         (with_session (fun session => nscq_session_set_input session nonce_input)) in
   guard* set_input_rc =? NSCQ_RC_SUCCESS else NscqError in
   do* out_attestation_report :=
     observe (("/" +:+ uuid) +:+ NSCQ_PATH_ATTESTATION_REPORT) attestation_report_callback [] in
   guard* negb (bool_decide (out_attestation_report = [])) else NscqError in
   sret out_attestation_report) s.

(** ** Collecting evidence *)

(** The body of the loop. *)
Definition collect_one (arch : SwitchEvidence.SwitchArchitecture) (nonce_input : list Z) (uuid : string) :
    sm client Error SwitchEvidence.SwitchEvidence :=
  do* attestation_report := get_attestation_report uuid nonce_input in
  do* attestation_cert_chain := get_attestation_cert_chain uuid in
  do* tnvl_mode_status := get_switch_tnvl_status uuid in
  sret (SwitchEvidence.mk_evidence arch uuid attestation_report attestation_cert_chain
          (Some (tnvl_mode_status =? TnvlEnabled)) (Some (tnvl_mode_status =? TnvlLocked)) nonce_input).

(** What comes before the loop. *)
Definition collect_start : sm client Error (list string * SwitchEvidence.SwitchArchitecture) :=
  do* uuids := get_all_switch_uuid in
  guard* negb (bool_decide (uuids = [])) else NscqError in
  do* arch := get_switch_architecture in
  sret (uuids, arch).

Definition collect_evidence_nscq (nonce_input : list Z) :
    sm (client * list SwitchEvidence.SwitchEvidence) Error unit := fun s =>
  if negb (Driver.g_initialized s.1) then (Err NscqError, s)
  else
  (do* (uuids, arch) := Driver.on_client collect_start in
   Driver.collect_loop (collect_one arch nonce_input) uuids) s.

(** [NscqEvidenceCollector::get_evidence]. *)
Definition get_evidence (nonce_input : list Z) :
    sm (client * list SwitchEvidence.SwitchEvidence) Error unit :=
  do* _ := Driver.on_client init_nscq in
  collect_evidence_nscq nonce_input.

(** ** What the evidence of a switch is *)

(** The data of the last callback without an error. *)
Definition last_ok (calls : list (Z * nscq_data)) : option nscq_data :=
  foldl (fun a c => if c.1 =? NSCQ_RC_SUCCESS then Some c.2 else a) None calls.

(** The name a UUID callback adds: none when the callback or the conversion
    reports an error. *)
Definition label_of (c : Z * nscq_data) : option string :=
  if c.1 =? NSCQ_RC_SUCCESS then
    match c.2 with
    | DataUuid (Some uuid) =>
        let '(label_rc, label) := nscq_uuid_to_label uuid in
        if label_rc =? NSCQ_RC_SUCCESS then
          match (let* buffer := Driver.filled (E:=Error) NSCQ_LABEL_SIZE label in Driver.c_string buffer) with
          | Ret name => Some name
          | _ => None
          end
        else None
    | _ => None
    end
  else None.

(** NSCQ answered the observation of a path with these callbacks, from a state
    of which [I] holds. *)
Definition observed (I : Z -> nscq -> Prop) (path : string) (calls : list (Z * nscq_data)) : Prop :=
  exists session d, I session d /\ (nscq_session_path_observe session path d).1 = (NSCQ_RC_SUCCESS, calls).

Definition anytime (_ : Z) (_ : nscq) : Prop := True.

(** The nonce was the last thing given to the session. *)
Definition nonce_given (nonce_input : list Z) (session : Z) (d : nscq) : Prop :=
  exists d0, nscq_session_set_input session nonce_input d0 = (NSCQ_RC_SUCCESS, d).

Definition tnvl_mode (calls : list (Z * nscq_data)) : Z :=
  match last_ok calls with Some (DataTnvl mode) => mode | _ => TnvlUnknown end.

Record item_of (arch : SwitchEvidence.SwitchArchitecture) (nonce_input : list Z) (uuid : string)
    (e : SwitchEvidence.SwitchEvidence) : Prop := {
  item_nonce : SwitchEvidence.m_nonce e = nonce_input /\ zlen nonce_input = NSCQ_ATTESTATION_REPORT_NONCE_SIZE;
  item_uuid : SwitchEvidence.m_uuid e = uuid;
  item_arch : SwitchEvidence.m_switch_architecture e = arch;
  item_report : exists calls r,
    observed (nonce_given nonce_input) (("/" +:+ uuid) +:+ NSCQ_PATH_ATTESTATION_REPORT) calls /\
    last_ok calls = Some (DataReport r) /\
    Driver.contents NSCQ_ATTESTATION_REPORT_SIZE (report r) (report_size r) (SwitchEvidence.m_attestation_report e) /\
    SwitchEvidence.m_attestation_report e <> [];
  item_cert : exists calls c chain,
    observed anytime (("/" +:+ uuid) +:+ NSCQ_PATH_CERTIFICATE) calls /\
    last_ok calls = Some (DataCertificate c) /\
    Driver.contents NSCQ_CERTIFICATE_CERT_CHAIN_MAX_SIZE (cert_chain c) (cert_chain_size c) chain /\
    SwitchEvidence.m_cert_chain e = string_of_bytes chain;
  item_mode : exists calls,
    observed anytime (("/" +:+ uuid) +:+ NSCQ_PATH_PCIE_MODE) calls /\
    SwitchEvidence.m_tnvl_mode e = Some (tnvl_mode calls =? TnvlEnabled) /\
    SwitchEvidence.m_lock_mode e = Some (tnvl_mode calls =? TnvlLocked);
}.

(** A callback that assigns: on success it leaves a value related to its data,
    else it keeps what is there. *)
Lemma callbacks_assign {A : Type} (cb : A -> Z * nscq_data -> sm client Error A) (Q : nscq_data -> A -> Prop) calls a s r s' :
  (forall a c s r s', cb a c s = (Ret r, s') ->
     s' = s /\ (if c.1 =? NSCQ_RC_SUCCESS then Q c.2 r else r = a)) ->
  callbacks cb calls a s = (Ret r, s') ->
  s' = s /\ match last_ok calls with Some x => Q x r | None => r = a end.
Proof.
  intros Hcb. unfold last_ok.
  enough (forall b acc, match acc with Some x => Q x b | None => b = a end ->
            callbacks cb calls b s = (Ret r, s') ->
            s' = s /\ match foldl (fun a c => if c.1 =? NSCQ_RC_SUCCESS then Some c.2 else a) acc calls with
                      | Some x => Q x r | None => r = a end) as H by by apply H.
  revert s; induction calls as [|c calls IH]; intros s b acc Hacc; cbn; [by intros [= <- <-]|].
  intros (b' & s1 & Hb & H)%sbind_Ret. apply Hcb in Hb as [-> Hb]. eapply IH; [|exact H].
  destruct (c.1 =? NSCQ_RC_SUCCESS); [done|]. by subst.
Qed.

Lemma callbacks_drives {A : Type} (cb : A -> Z * nscq_data -> sm client Error A) calls a :
  (forall a c, Driver.drives (cb a c)) -> Driver.drives (callbacks cb calls a).
Proof.
  intros H. revert a; induction calls as [|c calls IH]; intros a; cbn; [apply Driver.drives_ret|].
  apply Driver.drives_bind; [apply H|exact IH].
Qed.

Lemma uuid_callback_drives uuids c : Driver.drives (uuid_callback uuids c).
Proof.
  unfold uuid_callback. destruct (negb _); [Driver.drives_tac|]. destruct c.2 as [[u|]| | | |]; Driver.drives_tac.
  destruct a as [rc l]. destruct (negb _); Driver.drives_tac.
Qed.

Lemma observe_Ret {A : Type} path (cb : A -> Z * nscq_data -> sm client Error A) a s r s' :
  observe path cb a s = (Ret r, s') ->
  exists calls s1,
    (nscq_session_path_observe (session s) path (library (Driver.driver s))).1 = (NSCQ_RC_SUCCESS, calls) /\
    callbacks cb calls a s1 = (Ret r, s').
Proof.
  unfold observe. intros (x & s1 & (_ & _ & d & Hc & ->)%Driver.call_Ret & H)%sbind_Ret.
  unfold with_session in Hc. fold (session s) in Hc.
  destruct (nscq_session_path_observe _ _ _) as [[rc calls] l] eqn:E. simplify_eq.
  apply sbind_Ret in H as (r1 & s2 & Hcb & H). destruct (rc =? _) eqn:Erc; [|done]. injection H as <- <-.
  exists calls, (Driver.with_driver s (mk_driver l (g_nscq_session (Driver.driver s)))). split; [|done].
  cbn. f_equal. unfold NSCQ_RC_SUCCESS in *. lia.
Qed.

Lemma uuid_callback_Ret uuids c s r s' :
  uuid_callback uuids c s = (Ret r, s') -> r = uuids ++ option_list (label_of c).
Proof.
  unfold uuid_callback, label_of. destruct (c.1 =? NSCQ_RC_SUCCESS); cbn [negb];
    [|intros [= <- _]; by rewrite app_nil_r].
  destruct c.2 as [[u|]| | | |]; try done; [|intros [= <- _]; by rewrite app_nil_r]. intros H. Driver.drv_inv.
  destruct (nscq_uuid_to_label u) as [rc l]. simplify_eq.
  destruct (rc =? NSCQ_RC_SUCCESS); cbn [negb] in *; Driver.drv_inv; [|by rewrite app_nil_r].
  inv_ret. subst. cbn. by rewrite E0.
Qed.

Lemma uuid_callbacks_Ret calls uuids s r s' :
  callbacks uuid_callback calls uuids s = (Ret r, s') -> r = uuids ++ omap label_of calls.
Proof.
  revert uuids s; induction calls as [|c calls IH]; intros uuids s; cbn; [intros [= <- _]; by rewrite app_nil_r|].
  intros (b & s1 & Hb%uuid_callback_Ret & H)%sbind_Ret. apply IH in H as ->. subst b.
  rewrite <- app_assoc. by destruct (label_of c).
Qed.

Lemma get_all_switch_uuid_Ret s uuids s' :
  get_all_switch_uuid s = (Ret uuids, s') ->
  exists calls, observed anytime NSCQ_PATH_NVSWITCH_UUID calls /\ uuids = omap label_of calls.
Proof.
  unfold get_all_switch_uuid. destruct (negb _); [done|].
  intros (calls & s1 & Ho & H%uuid_callbacks_Ret)%observe_Ret. exists calls. split; [|done]. by eexists _, _.
Qed.

Lemma assign_cases {A : Type} (cb : A -> Z * nscq_data -> sm client Error A) path a s r s' (Q : nscq_data -> A -> Prop) :
  (forall a c s r s', cb a c s = (Ret r, s') ->
     s' = s /\ (if c.1 =? NSCQ_RC_SUCCESS then Q c.2 r else r = a)) ->
  observe path cb a s = (Ret r, s') ->
  exists calls,
    (nscq_session_path_observe (session s) path (library (Driver.driver s))).1 = (NSCQ_RC_SUCCESS, calls) /\
    match last_ok calls with Some x => Q x r | None => r = a end.
Proof.
  intros Hcb (calls & s1 & Ho & H)%observe_Ret. exists calls. split; [done|].
  by apply (callbacks_assign _ Q) in H as [_ H].
Qed.

Lemma get_switch_tnvl_status_Ret uuid s mode s' :
  get_switch_tnvl_status uuid s = (Ret mode, s') ->
  exists calls, observed anytime (("/" +:+ uuid) +:+ NSCQ_PATH_PCIE_MODE) calls /\ mode = tnvl_mode calls.
Proof.
  unfold get_switch_tnvl_status. destruct (negb _); [done|]. case_bool_decide as Hu; [done|].
  intros H. apply (assign_cases _ _ _ _ _ _ (fun x m => x = DataTnvl m)) in H as (calls & Ho & H).
  - exists calls. split; [by eexists _, _|]. unfold tnvl_mode. destruct (last_ok calls); by subst.
  - intros a c s0 r s1. unfold tnvl_status_callback. destruct (c.1 =? _); cbn [negb]; [|by intros [= <- <-]].
    destruct c.2; try done. by intros [= <- <-].
Qed.

Lemma get_attestation_cert_chain_Ret uuid s text s' :
  get_attestation_cert_chain uuid s = (Ret text, s') ->
  exists calls c chain, observed anytime (("/" +:+ uuid) +:+ NSCQ_PATH_CERTIFICATE) calls /\
    last_ok calls = Some (DataCertificate c) /\
    Driver.contents NSCQ_CERTIFICATE_CERT_CHAIN_MAX_SIZE (cert_chain c) (cert_chain_size c) chain /\
    text = string_of_bytes chain.
Proof.
  unfold get_attestation_cert_chain. destruct (negb _); [done|]. case_bool_decide as Hu; [done|].
  intros (t & s1 & H & Ht)%sbind_Ret. case_bool_decide; [done|]. injection Ht as <- <-.
  apply (assign_cases _ _ _ _ _ _ (fun x t => exists c chain, x = DataCertificate c /\
    Driver.contents NSCQ_CERTIFICATE_CERT_CHAIN_MAX_SIZE (cert_chain c) (cert_chain_size c) chain /\
    t = string_of_bytes chain)) in H as (calls & Ho & H).
  - destruct (last_ok calls) as [x|] eqn:E; [|done]. destruct H as (c & chain & -> & Hc & ->).
    exists calls, c, chain. split_and!; [by eexists _, _|done..].
  - intros a c s0 r s2. unfold attestation_cert_chain_callback.
    destruct (c.1 =? _); cbn [negb]; [|by intros [= <- <-]].
    destruct c.2; try done. intros [Hx ->]%slift_Ret. split; [done|]. inv_ret. subst.
    eexists _, _. split_and!; [done| |done]. by eapply Driver.buffer_contents.
Qed.

Lemma get_attestation_report_Ret uuid nonce_input s data s' :
  get_attestation_report uuid nonce_input s = (Ret data, s') ->
  zlen nonce_input = NSCQ_ATTESTATION_REPORT_NONCE_SIZE /\
  exists calls r, observed (nonce_given nonce_input) (("/" +:+ uuid) +:+ NSCQ_PATH_ATTESTATION_REPORT) calls /\
    last_ok calls = Some (DataReport r) /\
    Driver.contents NSCQ_ATTESTATION_REPORT_SIZE (report r) (report_size r) data /\ data <> [].
Proof.
  unfold get_attestation_report. destruct (negb _); [done|]. case_bool_decide as Hu; [done|].
  destruct (negb (zlen _ =? _)) eqn:Hz; [done|]. intros H. split; [lia|]. revert H.
  intros (rc & s1 & (_ & _ & d & Hc & ->)%Driver.call_Ret & H)%sbind_Ret. unfold with_session in Hc.
  destruct (nscq_session_set_input _ _ _) as [rc' l] eqn:E. simplify_eq.
  destruct (rc =? _) eqn:Erc; [|done]. apply sbind_Ret in H as (x & s2 & H & Hx).
  case_bool_decide as Hn; [done|]. injection Hx as <- <-.
  apply (assign_cases _ _ _ _ _ _ (fun x data => exists r, x = DataReport r /\
    Driver.contents NSCQ_ATTESTATION_REPORT_SIZE (report r) (report_size r) data)) in H as (calls & Ho & H).
  - destruct (last_ok calls) as [y|] eqn:El; [|done]. destruct H as (r & -> & Hc).
    exists calls, r. split_and!; [|done..]. eexists _, _. split; [|exact Ho]. cbn.
    exists (library (Driver.driver s)). rewrite E. f_equal. unfold NSCQ_RC_SUCCESS in *. lia.
  - intros a c s0 r s3. unfold attestation_report_callback. destruct (c.1 =? _); cbn [negb]; [|by intros [= <- <-]].
    destruct c.2; try done. intros [Hx ->]%slift_Ret. split; [done|]. inv_ret.
    eexists. split; [done|]. by eapply Driver.buffer_contents.
Qed.

Lemma nscq_collect_one_item arch nonce_input uuid s e s' :
  collect_one arch nonce_input uuid s = (Ret e, s') -> item_of arch nonce_input uuid e.
Proof.
  intros H. unfold collect_one in H. Driver.drv_inv.
  match goal with H : get_attestation_report _ _ _ = _ |- _ => apply get_attestation_report_Ret in H as [Hz Hr] end.
  match goal with H : get_attestation_cert_chain _ _ = _ |- _ => apply get_attestation_cert_chain_Ret in H end.
  match goal with H : get_switch_tnvl_status _ _ = _ |- _ => apply get_switch_tnvl_status_Ret in H as (calls & Ho & ->) end.
  constructor; cbn; try done. by exists calls.
Qed.

(** *** The life of the client *)

Lemma nscq_start_drives s r s' :
  Driver.usable nscq_symbols s -> start_session s = (r, s') -> exists b d, r = Ret b /\ s' = Driver.with_driver s d.
Proof.
  intros Hs. unfold start_session, sbind at 1. rewrite (Driver.call_usable nscq_symbols) by (done || set_solver).
  destruct (with_session _ _) as [[rc session] d]. cbn. destruct (negb _); intros [= <- <-]; eauto.
Qed.

Lemma nscq_stop_drives s r s' :
  Driver.usable nscq_symbols s -> stop_session s = (r, s') -> exists d, r = Ret tt /\ s' = Driver.with_driver s d.
Proof.
  intros Hs. unfold stop_session, sbind. rewrite (Driver.call_usable nscq_symbols) by (done || set_solver).
  intros [= <- <-]. eauto.
Qed.

Definition life : client -> client -> Prop :=
  rtc (Driver.life_step NscqInitFailed nscq_so nscq_symbols start_session stop_session).

Lemma nscq_life_sound d s : life (new_client d) s -> Driver.sound nscq_symbols s.
Proof. apply Driver.life_sound; [exact nscq_start_drives|exact nscq_stop_drives|apply Driver.new_client_sound]. Qed.

Lemma init_nscq_ready s r s' :
  Driver.sound nscq_symbols s -> init_nscq s = (r, s') ->
  Driver.sound nscq_symbols s' /\
  ((r = Ret tt /\ Driver.g_initialized s' = true) \/ (r = Err NscqInitFailed /\ Driver.down s')).
Proof. apply Driver.init_ready. exact nscq_start_drives. Qed.

Lemma observe_drives {A : Type} path (cb : A -> Z * nscq_data -> sm client Error A) a :
  (forall a c, Driver.drives (cb a c)) -> Driver.drives (observe path cb a).
Proof.
  intros H. unfold observe. apply Driver.drives_bind; [Driver.drives_tac|]. intros [rc calls].
  apply Driver.drives_bind; [by apply callbacks_drives|]. intros x. Driver.drives_tac.
Qed.

(** A query that first checks the session. *)
Lemma drives_if {A : Type} (b : client -> bool) e (m : sm client Error A) :
  Driver.drives m -> Driver.drives (fun s => if b s then (Err e, s) else m s).
Proof. intros Hm s r s'. destruct (b s); [apply Driver.drives_lift|apply Hm]. Qed.

Lemma tnvl_status_callback_drives m c : Driver.drives (tnvl_status_callback m c).
Proof. unfold tnvl_status_callback. destruct (negb _), c.2; Driver.drives_tac. Qed.

Lemma cert_chain_callback_drives t c : Driver.drives (attestation_cert_chain_callback t c).
Proof. unfold attestation_cert_chain_callback. destruct (negb _), c.2; Driver.drives_tac. Qed.

Lemma report_callback_drives l c : Driver.drives (attestation_report_callback l c).
Proof. unfold attestation_report_callback. destruct (negb _), c.2; Driver.drives_tac. Qed.

Lemma architecture_callback_drives a c : Driver.drives (architecture_callback a c).
Proof. unfold architecture_callback. destruct (negb _), c.2; Driver.drives_tac. Qed.

Lemma get_attestation_report_drives uuid nonce_input : Driver.drives (get_attestation_report uuid nonce_input).
Proof.
  do 3 apply (drives_if _ _ _). apply Driver.drives_bind; [Driver.drives_tac|intros rc].
  apply Driver.drives_guard, Driver.drives_bind; [|intros x; Driver.drives_tac].
  apply observe_drives, report_callback_drives.
Qed.

Lemma get_attestation_cert_chain_drives uuid : Driver.drives (get_attestation_cert_chain uuid).
Proof.
  do 2 apply (drives_if _ _ _). apply Driver.drives_bind; [|intros x; Driver.drives_tac].
  apply observe_drives, cert_chain_callback_drives.
Qed.

Lemma get_switch_tnvl_status_drives uuid : Driver.drives (get_switch_tnvl_status uuid).
Proof. do 2 apply (drives_if _ _ _). apply observe_drives, tnvl_status_callback_drives. Qed.

Lemma get_all_switch_uuid_drives : Driver.drives get_all_switch_uuid.
Proof. apply (drives_if _ _ _), observe_drives, uuid_callback_drives. Qed.

Lemma get_switch_architecture_drives : Driver.drives get_switch_architecture.
Proof.
  apply (drives_if _ _ _), Driver.drives_bind; [|intros arch; repeat destruct (arch =? _); Driver.drives_tac].
  apply observe_drives, architecture_callback_drives.
Qed.

Lemma nscq_collect_one_drives arch nonce_input uuid : Driver.drives (collect_one arch nonce_input uuid).
Proof.
  apply Driver.drives_bind; [apply get_attestation_report_drives|intros report].
  apply Driver.drives_bind; [apply get_attestation_cert_chain_drives|intros chain].
  apply Driver.drives_bind; [apply get_switch_tnvl_status_drives|intros mode]. apply Driver.drives_ret.
Qed.

Lemma nscq_collect_start_drives : Driver.drives collect_start.
Proof.
  apply Driver.drives_bind; [apply get_all_switch_uuid_drives|intros uuids].
  apply Driver.drives_guard, Driver.drives_bind; [apply get_switch_architecture_drives|intros arch].
  apply Driver.drives_ret.
Qed.

Lemma nscq_collect_start_Ret s uuids arch s' :
  collect_start s = (Ret (uuids, arch), s') ->
  uuids <> [] /\ exists calls, observed anytime NSCQ_PATH_NVSWITCH_UUID calls /\ uuids = omap label_of calls.
Proof.
  unfold collect_start. intros H. apply sbind_Ret in H as (us & s1 & Hu & H).
  case_bool_decide as Hn; [done|]. apply sbind_Ret in H as (a & s2 & _ & [= -> -> _]).
  split; [done|]. by eapply get_all_switch_uuid_Ret.
Qed.

Lemma nscq_get_evidence_cases nonce_input s out r s' out' :
  Driver.sound nscq_symbols s -> get_evidence nonce_input (s, out) = (r, (s', out')) ->
  (r = Err NscqInitFailed /\ out' = out /\ Driver.down s') \/
  exists s1, init_nscq s = (Ret tt, s1) /\ Driver.usable nscq_symbols s1 /\
    ((exists r1, collect_start s1 = (r1, s') /\ out' = out /\ (forall n, r1 <> Ret n) /\
                 r = (let* _ := r1 in Ret tt)) \/
     exists uuids arch s2, collect_start s1 = (Ret (uuids, arch), s2) /\ Driver.usable nscq_symbols s2 /\
       Driver.collect_loop (collect_one arch nonce_input) uuids (s2, out) = (r, (s', out'))).
Proof.
  intros Hs. unfold get_evidence, sbind at 1, Driver.on_client at 1. cbn.
  destruct (init_nscq s) as [r1 s1] eqn:E1.
  pose proof (init_nscq_ready _ _ _ Hs E1) as [Hs1 [[-> Hi]|[-> Hd]]]; [|intros [= <- <- <-]; by left].
  right. exists s1. split; [done|]. pose proof (proj1 Hs1 Hi) as [Hu _]. split; [done|].
  revert H. unfold collect_evidence_nscq. cbn. rewrite Hi. cbn.
  unfold sbind, Driver.on_client at 1. cbn. destruct (collect_start s1) as [r2 s2] eqn:E2.
  pose proof E2 as Hu2. apply nscq_collect_start_drives in Hu2 as [d ->].
  destruct r2 as [[uuids arch]|e|x|]; [|intros [= <- <- <-]; left; eexists; split_and!; try done..].
  intros H. right. eauto 10.
Qed.

(** ** What NSCQ documents *)

(** It calls back with the kind of data that the path has, within the buffers,
    and leaves room for the end of a label. *)
Record nscq_documented : Prop := {
  doc_uuid : forall session d c, c ∈ (nscq_session_path_observe session NSCQ_PATH_NVSWITCH_UUID d).1.2 ->
    exists uuid, c.2 = DataUuid uuid;
  doc_arch : forall session d c, c ∈ (nscq_session_path_observe session NSCQ_PATH_NVSWITCH_ARCH d).1.2 ->
    exists arch, c.2 = DataArch arch;
  doc_mode : forall session uuid d c,
    c ∈ (nscq_session_path_observe session (("/" +:+ uuid) +:+ NSCQ_PATH_PCIE_MODE) d).1.2 ->
    exists mode, c.2 = DataTnvl mode;
  doc_cert : forall session uuid d c,
    c ∈ (nscq_session_path_observe session (("/" +:+ uuid) +:+ NSCQ_PATH_CERTIFICATE) d).1.2 ->
    exists x, c.2 = DataCertificate x /\ zlen (cert_chain x) <= NSCQ_CERTIFICATE_CERT_CHAIN_MAX_SIZE /\
      0 <= cert_chain_size x <= NSCQ_CERTIFICATE_CERT_CHAIN_MAX_SIZE;
  doc_report : forall session uuid d c,
    c ∈ (nscq_session_path_observe session (("/" +:+ uuid) +:+ NSCQ_PATH_ATTESTATION_REPORT) d).1.2 ->
    exists x, c.2 = DataReport x /\ zlen (report x) <= NSCQ_ATTESTATION_REPORT_SIZE /\
      0 <= report_size x <= NSCQ_ATTESTATION_REPORT_SIZE;
  doc_label : forall uuid l, nscq_uuid_to_label uuid = (NSCQ_RC_SUCCESS, l) -> zlen l < NSCQ_LABEL_SIZE;
}.

Lemma observe_well {A : Type} path (cb : A -> Z * nscq_data -> sm client Error A) a :
  (forall a c, Driver.drives (cb a c)) ->
  (forall session d c, c ∈ (nscq_session_path_observe session path d).1.2 ->
     forall a, Driver.well true nscq_symbols (cb a c)) ->
  Driver.well true nscq_symbols (observe path cb a).
Proof.
  intros Hd Hw. unfold observe.
  apply Driver.well_bind; [Driver.drives_tac|apply Driver.well_call; set_solver|].
  intros [rc calls] s s' (_ & _ & d & Hc & _)%Driver.call_Ret. unfold with_session in Hc.
  pose proof (Hw (g_nscq_session (Driver.driver s)) (library (Driver.driver s))) as Hw'.
  destruct (nscq_session_path_observe _ _ _) as [[rc' calls'] l]. cbn in Hw'. simplify_eq.
  apply Driver.well_bind; [by apply callbacks_drives| |intros; apply Driver.well_guard; [by left|done]].
  clear -Hd Hw'. revert a Hw'. induction calls as [|c calls IH]; intros a Hw; cbn; [done|].
  apply Driver.well_bind; [apply Hd|apply Hw; by left|]. intros b _ _ _. apply IH. intros c' Hc. apply Hw. by right.
Qed.

Lemma well_if {A : Type} (b : client -> bool) e (m : sm client Error A) :
  Driver.well true nscq_symbols m -> Driver.well true nscq_symbols (fun s => if b s then (Err e, s) else m s).
Proof. intros Hm s Hs. destruct (b s); [done|by apply Hm]. Qed.

Lemma uuid_callback_well c uuids :
  nscq_documented -> (exists uuid, c.2 = DataUuid uuid) -> Driver.well true nscq_symbols (uuid_callback uuids c).
Proof.
  intros Hdoc [u Hu]. unfold uuid_callback. destruct (negb _); [done|]. rewrite Hu. destruct u as [u|]; [|done].
  apply Driver.well_bind; [Driver.drives_tac|apply Driver.well_call; set_solver|].
  intros [rc l] s s' (_ & _ & d & Hc & _)%Driver.call_Ret. simplify_eq.
  destruct (rc =? NSCQ_RC_SUCCESS) eqn:Erc; cbn [negb]; [|done].
  assert (zlen l < NSCQ_LABEL_SIZE) as Hl.
  { apply (doc_label Hdoc u). destruct (nscq_uuid_to_label u) as [rc' l'] eqn:E. simplify_eq. f_equal.
    unfold NSCQ_RC_SUCCESS in *. lia. }
  apply Driver.well_lift. destruct (Driver.filled_Ret (E:=Error) NSCQ_LABEL_SIZE l) as [b Hb]; [lia|]. rewrite Hb.
  cbn. unfold Driver.c_string. destruct (Driver.c_chars_some (E:=Error) b) as [l1 ->]; [|done].
  revert Hb. unfold Driver.filled. destruct (_ <=? _); [|done]. intros [= <-]. apply elem_of_app. right.
  rewrite elem_of_replicate. split; [done|lia].
Qed.

(** Bytes a callback copies out of a buffer. *)
Lemma copied_good {A : Type} cap l n (f : list Z -> A) :
  zlen l <= cap -> 0 <= n <= cap ->
  Driver.good true (let* buffer := Driver.filled cap l in
                    let* bytes := Driver.read_buffer buffer n in Ret (f bytes)).
Proof.
  intros Hl Hn. by destruct (Driver.contents_buffer (E:=Error) _ _ _ Hl Hn) as (b & x & -> & Hr & _); cbn; rewrite Hr.
Qed.

Lemma cert_chain_callback_well c t :
  (exists x, c.2 = DataCertificate x /\ zlen (cert_chain x) <= NSCQ_CERTIFICATE_CERT_CHAIN_MAX_SIZE /\
     0 <= cert_chain_size x <= NSCQ_CERTIFICATE_CERT_CHAIN_MAX_SIZE) ->
  Driver.well true nscq_symbols (attestation_cert_chain_callback t c).
Proof.
  intros (x & Hx & Hl & Hn). unfold attestation_cert_chain_callback. destruct (negb _); [done|]. rewrite Hx.
  by apply Driver.well_lift, copied_good.
Qed.

Lemma report_callback_well c l :
  (exists x, c.2 = DataReport x /\ zlen (report x) <= NSCQ_ATTESTATION_REPORT_SIZE /\
     0 <= report_size x <= NSCQ_ATTESTATION_REPORT_SIZE) ->
  Driver.well true nscq_symbols (attestation_report_callback l c).
Proof.
  intros (x & Hx & Hl & Hn). unfold attestation_report_callback. destruct (negb _); [done|]. rewrite Hx.
  apply Driver.well_lift. pose proof (copied_good _ _ _ id Hl Hn) as H. revert H.
  destruct (Driver.filled _ _); [|done..]. cbn. by destruct (Driver.read_buffer _ _).
Qed.

Lemma nscq_collect_one_well arch nonce_input uuid :
  nscq_documented -> Driver.well true nscq_symbols (collect_one arch nonce_input uuid).
Proof.
  intros Hdoc. apply Driver.well_bind; [apply get_attestation_report_drives| |intros report _ _ _].
  { do 3 apply (well_if _ _ _). apply Driver.well_bind; [Driver.drives_tac|apply Driver.well_call; set_solver|].
    intros rc _ _ _. apply Driver.well_guard; [by left|].
    apply Driver.well_bind; [apply observe_drives, report_callback_drives|
                            |intros; apply Driver.well_guard; [by left|done]].
    apply observe_well; [apply report_callback_drives|]. intros session d c Hc l.
    by eapply report_callback_well, doc_report. }
  apply Driver.well_bind; [apply get_attestation_cert_chain_drives| |intros chain _ _ _].
  { do 2 apply (well_if _ _ _).
    apply Driver.well_bind; [apply observe_drives, cert_chain_callback_drives|
                            |intros; apply Driver.well_guard; [by left|done]].
    apply observe_well; [apply cert_chain_callback_drives|]. intros session d c Hc t.
    by eapply cert_chain_callback_well, doc_cert. }
  apply Driver.well_bind; [apply get_switch_tnvl_status_drives| |done].
  do 2 apply (well_if _ _ _). apply observe_well; [apply tnvl_status_callback_drives|].
  intros session d c Hc m. unfold tnvl_status_callback. destruct (negb _); [done|].
  by apply (doc_mode Hdoc) in Hc as [mode ->].
Qed.

Lemma nscq_collect_start_well : nscq_documented -> Driver.well true nscq_symbols collect_start.
Proof.
  intros Hdoc. apply Driver.well_bind; [apply get_all_switch_uuid_drives| |intros uuids _ _ _].
  { apply (well_if _ _ _), observe_well; [apply uuid_callback_drives|]. intros session d c Hc a.
    by eapply uuid_callback_well, doc_uuid. }
  apply Driver.well_guard; [by left|]. apply Driver.well_bind; [apply get_switch_architecture_drives| |done].
  apply (well_if _ _ _), Driver.well_bind; [apply observe_drives, architecture_callback_drives| |].
  - apply observe_well; [apply architecture_callback_drives|]. intros session d c Hc a.
    unfold architecture_callback. destruct (negb _); [done|]. by apply (doc_arch Hdoc) in Hc as [arch ->].
  - intros arch _ _ _. by repeat destruct (arch =? _).
Qed.

Lemma nscq_evidence_lemma nonce_input s out r s' out' :
  Driver.sound nscq_symbols s ->
  get_evidence nonce_input (s, out) = (r, (s', out')) ->
  exists es uuids arch, out' = out ++ es /\
    Forall2 (item_of arch nonce_input) (take (length es) uuids) es /\
    (r = Ret tt ->
     uuids <> [] /\ SwitchEvidence.m_uuid <$> es = uuids /\
     exists calls, observed anytime NSCQ_PATH_NVSWITCH_UUID calls /\ uuids = omap label_of calls).
Proof.
  intros Hs H. apply nscq_get_evidence_cases in H as [(-> & -> & _)|(s1 & _ & _ & H)]; [|..|done].
  { exists [], [], SwitchEvidence.Unknown. rewrite app_nil_r. split_and!; [done|constructor|done]. }
  destruct H as [(r1 & _ & -> & Hr1 & ->)|(uuids & arch & s2 & Hc & Hu & H)].
  { exists [], [], SwitchEvidence.Unknown. rewrite app_nil_r. split_and!; [done|constructor|].
    destruct r1; try done. by destruct (Hr1 a). }
  apply nscq_collect_start_Ret in Hc as (Hne & Hcalls).
  apply (Driver.collect_loop_spec _ (item_of arch nonce_input) (fun _ => True)) in H
    as [_ (es & l1 & l2 & Ho & Hl & Hf & Hr)];
    [|by intros x c r0 c' _ Hx; split; [|intros e ->; eapply nscq_collect_one_item]|done].
  cbn in Ho. subst out'. exists es, uuids, arch. pose proof (Forall2_length _ _ _ Hf) as Hlen. split; [done|].
  split; [by rewrite Hl, <- Hlen, take_app_length|]. intros Hret. apply Hr in Hret as ->.
  rewrite app_nil_r in Hl. subst l1. split_and!; [done| |done].
  clear -Hf. induction Hf as [|u e us es He Hf IH]; cbn; [done|]. by rewrite IH, (item_uuid _ _ _ _ He).
Qed.

(** P: Whatever happens, a collector through NSCQ only appends evidence that NSCQ
    gave for a switch it named, in the order of the names: the report read
    right after the session was given the nonce of 32 bytes, the certificate
    chain, and the modes from the last status reported without an error (not
    enabled and not locked when there was none).  When it succeeds there is
    evidence for every switch whose name came back without an error; a switch
    whose callback reported one is left out. *)
Theorem nscq_evidence_sound nonce_input s out r s' out' :
  Driver.sound nscq_symbols s ->
  get_evidence nonce_input (s, out) = (r, (s', out')) ->
  exists es uuids arch, out' = out ++ es /\
    Forall2 (item_of arch nonce_input) (take (length es) uuids) es /\
    (r = Ret tt ->
     uuids <> [] /\ SwitchEvidence.m_uuid <$> es = uuids /\
     exists calls, observed anytime NSCQ_PATH_NVSWITCH_UUID calls /\ uuids = omap label_of calls).
Proof. apply nscq_evidence_lemma. Qed.

(** P: With a driver that keeps to its documentation, a collector through NSCQ
    never has undefined behaviour and never throws, at any time in the life of
    the client. *)
Theorem nscq_evidence_safe nonce_input d s out :
  nscq_documented -> life (new_client d) s ->
  defined (get_evidence nonce_input (s, out)).1.
Proof.
  intros Hd Hs%nscq_life_sound. destruct (get_evidence nonce_input (s, out)) as [r [s' out']] eqn:H. cbn.
  apply nscq_get_evidence_cases in H as [(-> & _)|(s1 & _ & Hu & H)]; [done| |done].
  destruct H as [(r1 & Hc & _ & _ & ->)|(uuids & arch & s2 & Hc & Hu2 & H)].
  - pose proof (nscq_collect_start_well Hd s1 Hu) as Hg. rewrite Hc in Hg. by destruct r1.
  - assert (Driver.good true r) as Hg; [|by destruct r].
    change r with (r, (s', out')).1. rewrite <- H. apply (Driver.collect_loop_good true nscq_symbols); [|done].
    intros uuid _. split; [apply nscq_collect_one_drives|by apply nscq_collect_one_well].
Qed.

End nscq.

(** ** A driver, for examples

    Two switches, of which the second reports an error when asked for its
    UUID; a report is the nonce given last. *)

(** What a path asks for shows in its last letter but one. *)
Definition toy_callbacks (path : string) (nonce : list Z) : list (Z * nscq_data) :=
  match ascii_byte <$> reverse (String.list_ascii_of_string path) with
  | _ :: 105 :: _ => [(0, DataUuid (Some [1])); (-7, DataUuid (Some [2]))]
  | _ :: 99 :: _ => [(0, DataArch 2)]
  | _ :: 100 :: _ => [(0, DataTnvl 3)]
  | _ :: 116 :: _ => [(0, DataCertificate (mk_certificate [80; 69] 2))]
  | _ :: 114 :: _ => [(0, DataReport (mk_report 32 (take 32 nonce)))]
  | _ => []
  end.

Definition toy_nscq : NscqLib := {|
  nscq := list Z;
  nscq_session_create _ d := ((0, 1), d);
  nscq_session_destroy _ d := d;
  nscq_session_path_observe _ path d := ((0, toy_callbacks path d), d);
  nscq_session_set_input _ nonce _ := (0, nonce);
  nscq_uuid_to_label uuid := (0, (fun b => 64 + b) <$> take 1 uuid);
|}.

Abbreviation toy_get_evidence := (get_evidence (DL:=toy_linker) (NQ:=toy_nscq)).
Abbreviation toy_client := (new_client (NQ:=toy_nscq) []).
Abbreviation toy_nonce := (replicate 32 7).

Lemma nscq_evidence_sound_witness :
  exists es, (toy_get_evidence toy_nonce (toy_client, [])).2.2 = es /\
    SwitchEvidence.m_uuid <$> es = ["A"] /\ SwitchEvidence.m_lock_mode <$> es = [Some true].
Proof.
  destruct (nscq_evidence_sound (DL:=toy_linker) (NQ:=toy_nscq) toy_nonce toy_client []
              (toy_get_evidence toy_nonce (toy_client, [])).1 (toy_get_evidence toy_nonce (toy_client, [])).2.1
              (toy_get_evidence toy_nonce (toy_client, [])).2.2) as (es & uuids & arch & He & _ & _);
    [apply Driver.new_client_sound|vm_compute; reflexivity|].
  exists es. split; [exact He|]. rewrite app_nil_l in He. rewrite <- He. split; vm_compute; reflexivity.
Defined.

Lemma list_of_string_app a b :
  String.list_ascii_of_string (a +:+ b) = String.list_ascii_of_string a ++ String.list_ascii_of_string b.
Proof. induction a as [|c a IH]; [done|]. change (String c a +:+ b) with (String c (a +:+ b)). cbn. by rewrite IH. Qed.

Lemma toy_nscq_documented : nscq_documented (NQ:=toy_nscq).
Proof.
  split.
  - intros session d c [->|[->|[]%not_elem_of_nil]%elem_of_cons]%elem_of_cons; eauto.
  - intros session d c [->|[]%not_elem_of_nil]%elem_of_cons; eauto.
  - intros session uuid d c Hc. change (c ∈ toy_callbacks (("/" +:+ uuid) +:+ NSCQ_PATH_PCIE_MODE) d) in Hc.
    unfold toy_callbacks in Hc. rewrite list_of_string_app, reverse_app in Hc. cbn in Hc.
    apply elem_of_cons in Hc as [->|[]%not_elem_of_nil]; eauto.
  - intros session uuid d c Hc. change (c ∈ toy_callbacks (("/" +:+ uuid) +:+ NSCQ_PATH_CERTIFICATE) d) in Hc.
    unfold toy_callbacks in Hc. rewrite list_of_string_app, reverse_app in Hc. cbn in Hc.
    apply elem_of_cons in Hc as [->|[]%not_elem_of_nil]. by eexists.
  - intros session uuid d c Hc. change (c ∈ toy_callbacks (("/" +:+ uuid) +:+ NSCQ_PATH_ATTESTATION_REPORT) d) in Hc.
    unfold toy_callbacks in Hc. rewrite list_of_string_app, reverse_app in Hc. cbn -[take] in Hc.
    apply elem_of_cons in Hc as [->|[]%not_elem_of_nil]. eexists. split; [done|]. cbn -[take]. split; [|done].
    unfold zlen, NSCQ_ATTESTATION_REPORT_SIZE. rewrite length_take. lia.
  - intros uuid l [= <-]. unfold zlen, NSCQ_LABEL_SIZE. rewrite length_fmap, length_take. lia.
Qed.

Lemma nscq_evidence_safe_witness : defined (toy_get_evidence toy_nonce (toy_client, [])).1.
Proof.
  apply (nscq_evidence_safe (DL:=toy_linker) (NQ:=toy_nscq) toy_nonce []);
    [apply toy_nscq_documented|apply rtc_refl].
Defined.

End Nscq.
