(* ===== verification/Sdk.v ===== *)
(** * Sdk: initialization and shutdown of the library

    src/init.cpp, the global logger of src/log.cpp, and [nvat_sdk_init] and
    [nvat_sdk_shutdown] of src/nvat.cpp: the options, the logger, the XML
    security library, and the two driver clients that shutdown closes
    (NvmlClient, NscqClient; corelib is left open).  Text output has no model,
    but that a log call needs a logger has.  As built for anything but
    Windows. *)

From S2P Require Import Prelude Errors Utils SpdmReq SpdmMeasurementRecords SpdmOpaqueData SpdmResp GpuOpaqueData.
From S2P Require Import SwitchOpaqueData OpenSsl NvCache Ocsp X509Chain Json Certs Base64 Report GpuEvidence.
From S2P Require Import SwitchEvidence Driver NvmlClient NscqClient.

(** The return values of xmlsec, and whether spdlog makes a logger with a name
    (it throws when there is one). *)
Class XmlSec : Type := {
  xmlSecInit_rc : Z;
  xmlSecCheckVersion_rc : Z;
  xmlSecCryptoAppInit_rc : Z;
  xmlSecCryptoInit_rc : Z;
  stderr_color_mt : string -> bool;
}.

Module Sdk.

(** ** Log levels *)

Inductive LogLevel : Type := TRACE | DEBUG | INFO | WARNING | ERROR | OFF.

Definition NVAT_LOG_LEVEL_OFF : Z := 0.
Definition NVAT_LOG_LEVEL_TRACE : Z := 1.
Definition NVAT_LOG_LEVEL_DEBUG : Z := 2.
Definition NVAT_LOG_LEVEL_INFO : Z := 3.
Definition NVAT_LOG_LEVEL_WARN : Z := 4.
Definition NVAT_LOG_LEVEL_ERROR : Z := 5.

Definition log_level_to_c (level : LogLevel) : Z :=
  match level with
  | TRACE => NVAT_LOG_LEVEL_TRACE
  | DEBUG => NVAT_LOG_LEVEL_DEBUG
  | INFO => NVAT_LOG_LEVEL_INFO
  | WARNING => NVAT_LOG_LEVEL_WARN
  | ERROR => NVAT_LOG_LEVEL_ERROR
  | OFF => NVAT_LOG_LEVEL_OFF
  end.

Definition log_level_from_c (level : Z) : LogLevel :=
  if level =? NVAT_LOG_LEVEL_OFF then OFF
  else if level =? NVAT_LOG_LEVEL_TRACE then TRACE
  else if level =? NVAT_LOG_LEVEL_DEBUG then DEBUG
  else if level =? NVAT_LOG_LEVEL_INFO then INFO
  else if level =? NVAT_LOG_LEVEL_WARN then WARNING
  else if level =? NVAT_LOG_LEVEL_ERROR then ERROR
  else INFO.

Section sdk.
Context `{XS : XmlSec} `{DL : DynamicLinker} `{NV : Nvml.NvmlLib} `{NQ : Nscq.NscqLib}.
(** The loggers a client makes. *)
Context {L : Type}.

Inductive logger : Type :=
| ClientLogger (l : L)
| SpdLogLogger (name : string) (level : LogLevel).

Record SdkOptions : Type := mk_options { option_logger : option logger }.

(** What is called in libxml2 and xmlsec. *)
Inductive xml_call : Type :=
| xmlInitParser | xmlSecInit | xmlSecCheckVersion | xmlSecCryptoAppInit | xmlSecCryptoInit
| xmlSecCryptoShutdown | xmlSecCryptoAppShutdown | xmlSecShutdown | xmlCleanupParser.

(** ** The global state

    [initialized] is the static variable in [init]: unset until the first call
    has stored its result. *)
Record sdk : Type := mk_sdk {
  g_sdkOptions : option SdkOptions;
  initialized : option (option Error);
  g_logger : option logger;
  xml_calls : list xml_call;
  nvml_client : Driver.client Nvml.nvml;
  nscq_client : Driver.client Nscq.nscq_driver;
}.

Definition new_sdk (n : Nvml.nvml) (q : Nscq.nscq) : sdk :=
  mk_sdk None None None [] (Driver.new_client n) (Nscq.new_client q).

Definition with_options (s : sdk) (o : option SdkOptions) : sdk :=
  mk_sdk o (initialized s) (g_logger s) (xml_calls s) (nvml_client s) (nscq_client s).
Definition with_result (s : sdk) (r : option Error) : sdk :=
  mk_sdk (g_sdkOptions s) (Some r) (g_logger s) (xml_calls s) (nvml_client s) (nscq_client s).
Definition with_logger (s : sdk) (l : option logger) : sdk :=
  mk_sdk (g_sdkOptions s) (initialized s) l (xml_calls s) (nvml_client s) (nscq_client s).
Definition with_xml (s : sdk) (c : list xml_call) : sdk :=
  mk_sdk (g_sdkOptions s) (initialized s) (g_logger s) (xml_calls s ++ c) (nvml_client s) (nscq_client s).
Definition with_nvml (s : sdk) (c : Driver.client Nvml.nvml) : sdk :=
  mk_sdk (g_sdkOptions s) (initialized s) (g_logger s) (xml_calls s) c (nscq_client s).
Definition with_nscq (s : sdk) (c : Driver.client Nscq.nscq_driver) : sdk :=
  mk_sdk (g_sdkOptions s) (initialized s) (g_logger s) (xml_calls s) (nvml_client s) c.

Definition xml (c : xml_call) : sm sdk Error unit := fun s => (Ret tt, with_xml s [c]).

(** A log call: [get_logger()->...], which asserts that there is one. *)
Definition LOG : sm sdk Error unit := fun s => (match g_logger s with Some _ => Ret tt | None => UB end, s).

Definition set_logger (l : logger) : sm sdk Error unit := fun s => (Ret tt, with_logger s (Some l)).

Definition destroy_logger : sm sdk Error unit := fun s => (Ret tt, with_logger s None).

(** ** Initialization *)

Definition handle_init_logger (options : SdkOptions) : sm sdk Error unit :=
  match option_logger options with
  | Some l => set_logger l
  | None => if stderr_color_mt "nvat" then set_logger (SpdLogLogger "nvat" DEBUG) else slift (Throw runtime_error)
  end.

(** A step of xmlsec that fails logs and returns. *)
Definition xml_step (c : xml_call) (ok : bool) : sm sdk Error unit :=
  do* _ := xml c in
  if ok then sret tt else do* _ := LOG in slift (Err XmlInitFailed).

Definition handle_init_xmlsec : sm sdk Error unit :=
  do* _ := xml xmlInitParser in
  do* _ := xml_step xmlSecInit (negb (xmlSecInit_rc <? 0)) in
  do* _ := xml_step xmlSecCheckVersion (xmlSecCheckVersion_rc =? 1) in
  do* _ := xml_step xmlSecCryptoAppInit (negb (xmlSecCryptoAppInit_rc <? 0)) in
  xml_step xmlSecCryptoInit (negb (xmlSecCryptoInit_rc <? 0)).

(** The initializer of the static variable. *)
Definition init_body (options : option SdkOptions) : sm sdk Error unit := fun s =>
  let options := match options with Some o => o | None => mk_options None end in
  (do* _ := handle_init_logger options in handle_init_xmlsec) (with_options s (Some options)).

(** The initializer runs until it has returned once: an exception leaves the
    variable unset. *)
Definition init (sdk_options : option SdkOptions) : sm sdk Error unit := fun s =>
  match initialized s with
  | Some None => (Ret tt, s)
  | Some (Some e) => (Err e, s)
  | None =>
      match init_body sdk_options s with
      | (Ret _, s) => (Ret tt, with_result s None)
      | (Err e, s) => (Err e, with_result s (Some e))
      | (Throw x, s) => (Throw x, s)
      | (UB, s) => (UB, s)
      end
  end.

(** ** Shutdown *)

Definition handle_shutdown_xmlsec : sm sdk Error unit :=
  do* _ := xml xmlSecCryptoShutdown in
  do* _ := xml xmlSecCryptoAppShutdown in
  do* _ := xml xmlSecShutdown in
  xml xmlCleanupParser.

Definition uninitialize {D : Type} (c : Driver.client D) : Driver.client D :=
  Driver.mk_client (Driver.library_handle c) (Driver.symbols c) false (Driver.g_initialized_flag c) (Driver.driver c).

(** The client's shutdown, which logs, and then its flag. *)
Definition handle_shutdown_nvml : sm sdk Error unit := fun s =>
  if negb (Driver.g_initialized (nvml_client s)) then (Ret tt, s)
  else
  (do* _ := (if Driver.library_handle (nvml_client s) then LOG else sret tt) in
   fun s => let '(r, c) := Nvml.shutdown_nvml (nvml_client s) in (r, with_nvml s (uninitialize c))) s.

Definition handle_shutdown_nscq : sm sdk Error unit := fun s =>
  if negb (Driver.g_initialized (nscq_client s)) then (Ret tt, s)
  else
  (do* _ := (if Driver.library_handle (nscq_client s) then LOG else sret tt) in
   fun s => let '(r, c) := Nscq.shutdown_nscq (nscq_client s) in (r, with_nscq s (uninitialize c))) s.

Definition handle_delete_sdk_options : sm sdk Error unit := fun s => (Ret tt, with_options s None).

Definition shutdown : sm sdk Error unit := fun s =>
  match g_sdkOptions s with
  | None => (Ret tt, s)
  | Some _ =>
      (do* _ := handle_shutdown_xmlsec in
       do* _ := handle_shutdown_nvml in
       do* _ := handle_shutdown_nscq in
       do* _ := handle_delete_sdk_options in
       destroy_logger) s
  end.

(** ** The C calls *)

Definition nvat_sdk_init (opts : option SdkOptions) : sm sdk Error unit :=
  do* _ := init opts in LOG.

Definition nvat_sdk_shutdown : sm sdk Error unit := shutdown.

(** ** The life of the library *)

Lemma log_level_roundtrip level : log_level_from_c (log_level_to_c level) = level.
Proof. by destruct level. Qed.

(** Initialization, shutdown, and whatever the clients of the drivers do in
    between. *)
Inductive sdk_step : sdk -> sdk -> Prop :=
| step_init o s r s' : nvat_sdk_init o s = (r, s') -> r <> UB -> sdk_step s s'
| step_shutdown s r s' : nvat_sdk_shutdown s = (r, s') -> r <> UB -> sdk_step s s'
| step_nvml s c : Nvml.life (nvml_client s) c -> sdk_step s (with_nvml s c)
| step_nscq s c : Nscq.life (nscq_client s) c -> sdk_step s (with_nscq s c).

Definition reachable (s : sdk) : Prop := exists n q, rtc sdk_step (new_sdk n q) s.

(** The clients are sound, and once [init] returned, the library has options
    exactly as long as it has a logger. *)
Record sane (s : sdk) : Prop := {
  sane_nvml : Driver.sound Nvml.nvml_symbols (nvml_client s);
  sane_nscq : Driver.sound Nscq.nscq_symbols (nscq_client s);
  sane_logger : initialized s <> None -> (g_sdkOptions s = None <-> g_logger s = None);
}.

(** Only the calls of the XML libraries, and an error code at worst. *)
Definition xml_only (m : sm sdk Error unit) : Prop :=
  forall s r s', g_logger s <> None -> m s = (r, s') ->
    (exists cs, s' = with_xml s cs) /\ (r = Ret tt \/ r = Err XmlInitFailed).

Lemma with_xml_app s a b : with_xml (with_xml s a) b = with_xml s (a ++ b).
Proof. unfold with_xml. cbn. by rewrite app_assoc. Qed.

Lemma xml_only_bind m k : xml_only m -> xml_only k -> xml_only (do* _ := m in k).
Proof.
  intros Hm Hk s r s' Hl. unfold sbind. destruct (m s) as [r1 s1] eqn:E1.
  destruct (Hm _ _ _ Hl E1) as [[a ->] [-> | ->]]; [|intros [= <- <-]; eauto].
  intros H. apply Hk in H as [[b ->] Hr]; [|done]. split; [|done]. rewrite with_xml_app. eauto.
Qed.

Lemma xml_only_step c ok : xml_only (xml_step c ok).
Proof.
  intros s r s' Hl. unfold xml_step, sbind, xml, LOG. cbn. destruct ok; [intros [= <- <-]; eauto|]. cbn.
  destruct (g_logger s); [|done]. intros [= <- <-]. eauto.
Qed.

Lemma xml_only_init : xml_only handle_init_xmlsec.
Proof.
  apply xml_only_bind; [intros s r s' _ [= <- <-]; eauto|].
  repeat (apply xml_only_bind; [apply xml_only_step|]). apply xml_only_step.
Qed.

(** [init] runs its initializer at most once to the end: after that every call
    returns the same result and changes nothing. *)
Lemma init_again o o' s r s' : init o s = (r, s') -> defined r -> init o' s' = (r, s').
Proof.
  unfold init at 1. destruct (initialized s) as [[e|]|] eqn:Ei.
  1,2: intros [= <- <-] _; unfold init; by rewrite Ei.
  destruct (init_body o s) as [r1 s1]. destruct r1 as [[]|e|x|]; intros [= <- <-] H; try done.
Qed.

(** What the initializer does: the options and a logger are set, or it throws
    before there is a logger. *)
Lemma init_body_cases o s r s' :
  init_body o s = (r, s') ->
  g_sdkOptions s' <> None /\ nvml_client s' = nvml_client s /\ nscq_client s' = nscq_client s /\
  initialized s' = initialized s /\
  ((r = Throw runtime_error /\ g_logger s' = g_logger s) \/
   ((r = Ret tt \/ r = Err XmlInitFailed) /\ g_logger s' <> None)).
Proof.
  unfold init_body. set (o' := match o with Some o => o | None => _ end).
  unfold sbind, handle_init_logger, set_logger.
  destruct (option_logger o') as [l|]; [|destruct (stderr_color_mt "nvat"); [|intros [= <- <-]; split_and!; auto]].
  all: cbn -[handle_init_xmlsec]; destruct (handle_init_xmlsec _) as [r1 s1] eqn:E; intros [= <- <-];
    apply xml_only_init in E as [[cs ->] Hr]; [|done]; split_and!; auto; right; done.
Qed.

(** A client that is shut down and marked. *)
Lemma closed {D : Type} names (stop : sm (Driver.client D) Error unit) c r c' :
  (forall s r s', Driver.usable names s -> stop s = (r, s') -> exists d, r = Ret tt /\ s' = Driver.with_driver s d) ->
  Driver.sound names c -> Driver.g_initialized c = true -> Driver.shutdown stop c = (r, c') ->
  r = Ret tt /\ Driver.sound names (uninitialize c') /\ Driver.down (uninitialize c').
Proof.
  intros Hstop Hs Hi H. pose proof H as Hd. apply (Driver.shutdown_down names) in Hd as [Hf _]; [|done..].
  apply (Driver.shutdown_sound names) in H as (Hc & -> & Hi'); [|done..]. split_and!; [done| |done].
  destruct Hc as [_ Hh]. split; [done|]. cbn. intros Hl. apply Hh in Hl. by rewrite Hi' in Hl.
Qed.

Lemma shutdown_nvml_cases s :
  Driver.sound Nvml.nvml_symbols (nvml_client s) ->
  (g_logger s = None /\ (handle_shutdown_nvml s).1 = UB) \/
  exists c, handle_shutdown_nvml s = (Ret tt, with_nvml s c) /\ Driver.g_initialized c = false /\
    Driver.sound Nvml.nvml_symbols c /\ (Driver.g_initialized (nvml_client s) = true -> Driver.down c).
Proof.
  intros Hs. unfold handle_shutdown_nvml. destruct (Driver.g_initialized (nvml_client s)) eqn:Ei; cbn [negb].
  2: { right. exists (nvml_client s). split_and!; try done. by destruct s. }
  rewrite (proj1 (proj1 (proj1 Hs Ei))). unfold sbind, LOG. destruct (g_logger s); [|by left].
  destruct (Nvml.shutdown_nvml (nvml_client s)) as [r c] eqn:E.
  apply (closed _ _ _ _ _ Nvml.nvml_stop_drives Hs Ei) in E as (-> & Hc & Hd).
  right. exists (uninitialize c). by split_and!.
Qed.

Lemma shutdown_nscq_cases s :
  Driver.sound Nscq.nscq_symbols (nscq_client s) ->
  (g_logger s = None /\ (handle_shutdown_nscq s).1 = UB) \/
  exists c, handle_shutdown_nscq s = (Ret tt, with_nscq s c) /\ Driver.g_initialized c = false /\
    Driver.sound Nscq.nscq_symbols c /\ (Driver.g_initialized (nscq_client s) = true -> Driver.down c).
Proof.
  intros Hs. unfold handle_shutdown_nscq. destruct (Driver.g_initialized (nscq_client s)) eqn:Ei; cbn [negb].
  2: { right. exists (nscq_client s). split_and!; try done. by destruct s. }
  rewrite (proj1 (proj1 (proj1 Hs Ei))). unfold sbind, LOG. destruct (g_logger s); [|by left].
  destruct (Nscq.shutdown_nscq (nscq_client s)) as [r c] eqn:E.
  apply (closed _ _ _ _ _ Nscq.nscq_stop_drives Hs Ei) in E as (-> & Hc & Hd).
  right. exists (uninitialize c). by split_and!.
Qed.

(** The whole of [shutdown]: undefined only when there is no logger. *)
Lemma shutdown_cases s :
  sane s -> g_sdkOptions s <> None ->
  (g_logger s = None /\ (shutdown s).1 = UB) \/
  exists n q,
    shutdown s =
      (Ret tt, mk_sdk None (initialized s) None
                 (xml_calls s ++ [xmlSecCryptoShutdown; xmlSecCryptoAppShutdown; xmlSecShutdown; xmlCleanupParser]) n q) /\
    Driver.sound Nvml.nvml_symbols n /\ Driver.g_initialized n = false /\
    (Driver.g_initialized (nvml_client s) = true -> Driver.down n) /\
    Driver.sound Nscq.nscq_symbols q /\ Driver.g_initialized q = false /\
    (Driver.g_initialized (nscq_client s) = true -> Driver.down q).
Proof.
  intros Hs Ho. unfold shutdown. destruct (g_sdkOptions s) as [o|] eqn:Eo; [|done].
  set (s1 := with_xml (with_xml (with_xml (with_xml s [xmlSecCryptoShutdown]) [xmlSecCryptoAppShutdown]) [xmlSecShutdown])
               [xmlCleanupParser]).
  unfold sbind at 1 5. change (handle_shutdown_xmlsec s) with (Ret (E:=Error) tt, s1). cbv beta iota.
  destruct (shutdown_nvml_cases s1 (sane_nvml _ Hs)) as [[Hl Hu]|(n & En & Hn & Hsn & Hdn)].
  { left. split; [exact Hl|]. unfold sbind at 1. destruct (handle_shutdown_nvml s1) as [r s2]. cbn in Hu. by subst r. }
  destruct (shutdown_nscq_cases (with_nvml s1 n) (sane_nscq _ Hs)) as [[Hl Hu]|(q & Eq & Hq & Hsq & Hdq)].
  { left. split; [exact Hl|]. unfold sbind at 1. rewrite En. unfold sbind at 1.
    destruct (handle_shutdown_nscq _) as [r s2]. cbn in Hu. by subst r. }
  right. exists n, q. split_and!; try done.
  unfold sbind at 1. rewrite En. unfold sbind at 1. rewrite Eq. subst s1. cbn.
  unfold destroy_logger, with_options, with_nscq, with_nvml, with_logger. cbn. by rewrite <- !app_assoc.
Qed.

Lemma sdk_init_sane o s r s' : sane s -> nvat_sdk_init o s = (r, s') -> sane s'.
Proof.
  intros Hs. unfold nvat_sdk_init, sbind. destruct (init o s) as [r1 s1] eqn:E. intros H.
  assert (s' = s1) as ->.
  { revert H. unfold LOG. by destruct r1; intros [= <- <-]. }
  clear H. revert E. unfold init. destruct (initialized s) as [[e|]|] eqn:Ei; [by intros [= <- <-]..|].
  destruct (init_body o s) as [r2 s2] eqn:E.
  apply init_body_cases in E as (Ho & Hn & Hq & Hi2 & [[-> Hl]|[Hr Hl]]).
  - intros [= <- <-]. split; rewrite ?Hn, ?Hq; try apply Hs. by rewrite Hi2, Ei.
  - assert (sane (with_result s2 None) /\ forall e, sane (with_result s2 (Some e))) as [Hs1 Hs2].
    { split; [|intros e]; (split; cbn; [rewrite Hn; apply Hs|rewrite Hq; apply Hs|done]). }
    destruct Hr as [-> | ->]; intros [= <- <-]; auto.
Qed.

Lemma sdk_step_sane s s' : sane s -> sdk_step s s' -> sane s'.
Proof.
  intros Hs H. destruct H as [o s r s' H _|s r s' H Hr|s c H|s c H].
  - by eapply sdk_init_sane.
  - unfold nvat_sdk_shutdown in H. destruct (g_sdkOptions s) as [o|] eqn:Eo.
    2: { unfold shutdown in H. rewrite Eo in H. by injection H as <- <-. }
    destruct (shutdown_cases s Hs) as [[_ Hu]|(n & q & E & Hn & _ & _ & Hq & _)]; [by rewrite Eo|by rewrite H in Hu|].
    rewrite E in H. injection H as <- <-. by split.
  - split; cbn; [|apply Hs..]. apply (Driver.life_sound _ _ _ _ _ Nvml.nvml_start_drives Nvml.nvml_stop_drives _ _ (sane_nvml _ Hs) H).
  - split; cbn; [apply Hs| |apply Hs]. apply (Driver.life_sound _ _ _ _ _ Nscq.nscq_start_drives Nscq.nscq_stop_drives _ _ (sane_nscq _ Hs) H).
Qed.

Lemma reachable_sane s : reachable s -> sane s.
Proof.
  intros (n & q & H). assert (sane (new_sdk n q)) as Hs.
  { split; [apply Driver.new_client_sound..|done]. }
  revert Hs. induction H; eauto using sdk_step_sane.
Qed.

(** C24: What shutdown closes stays closed.  Once the library was initialized,
    shutting it down closes the XML libraries in the reverse order, drops the
    options and the logger, and closes NVML and NSCQ if they were up: neither is
    up afterwards, and one that was up cannot come up again.  (The client of corelib is no part of
    this: nothing calls [shutdown_corelib].)  A second shutdown does nothing;
    initializing again returns what the first initialization did without
    doing any of it, so that after a success the first log message finds no
    logger. *)
Theorem shutdown_is_final s r :
  reachable s -> initialized s = Some r -> g_sdkOptions s <> None ->
  exists s', nvat_sdk_shutdown s = (Ret tt, s') /\
    g_sdkOptions s' = None /\ g_logger s' = None /\
    xml_calls s' = xml_calls s ++ [xmlSecCryptoShutdown; xmlSecCryptoAppShutdown; xmlSecShutdown; xmlCleanupParser] /\
    Driver.g_initialized (nvml_client s') = false /\ Driver.g_initialized (nscq_client s') = false /\
    (Driver.g_initialized (nvml_client s) = true -> Driver.down (nvml_client s')) /\
    (Driver.g_initialized (nscq_client s) = true -> Driver.down (nscq_client s')) /\
    nvat_sdk_shutdown s' = (Ret tt, s') /\
    forall o, nvat_sdk_init o s' = (match r with None => UB | Some e => Err e end, s').
Proof.
  intros Hs%reachable_sane Hi Ho.
  destruct (shutdown_cases s Hs Ho) as [[Hl _]|(n & q & E & _ & Hn & Hdn & _ & Hq & Hdq)].
  { exfalso. apply Ho, (sane_logger _ Hs); [by rewrite Hi|done]. }
  eexists. split; [exact E|]. split_and!; try done. cbn. intros o.
  unfold nvat_sdk_init, sbind, init. cbn. rewrite Hi. by destruct r.
Qed.

End sdk.

(** ** Examples *)

Definition toy_xmlsec : XmlSec := {|
  xmlSecInit_rc := 0; xmlSecCheckVersion_rc := 1; xmlSecCryptoAppInit_rc := 0; xmlSecCryptoInit_rc := 0;
  stderr_color_mt _ := true;
|}.

Abbreviation toy_sdk := (new_sdk (NV:=Nvml.toy_nvml) (NQ:=Nscq.toy_nscq) (L:=unit) 0%nat []).
Abbreviation toy_up := (nvat_sdk_init (XS:=toy_xmlsec) (NV:=Nvml.toy_nvml) (NQ:=Nscq.toy_nscq) (L:=unit) None toy_sdk).

Lemma shutdown_is_final_witness :
  exists s', nvat_sdk_shutdown (NV:=Nvml.toy_nvml) (NQ:=Nscq.toy_nscq) toy_up.2 = (Ret tt, s') /\
    nvat_sdk_init (XS:=toy_xmlsec) (NV:=Nvml.toy_nvml) (NQ:=Nscq.toy_nscq) None s' = (UB, s').
Proof.
  destruct (shutdown_is_final (XS:=toy_xmlsec) (DL:=toy_linker) (NV:=Nvml.toy_nvml) (NQ:=Nscq.toy_nscq) (L:=unit) toy_up.2 None)
    as (s' & E & _ & _ & _ & _ & _ & _ & _ & _ & Hi).
  - exists 0%nat, []. apply rtc_once. eapply (step_init None); [vm_compute; reflexivity|done].
  - vm_compute. reflexivity.
  - vm_compute. discriminate.
  - exists s'. split; [exact E|apply Hi].
Defined.

End Sdk.
