(* ===== verification/Loggers.v ===== *)
(** * Loggers: what the SDK logs to

    src/log.cpp and include/nv_attestation/log.h: the logger of spdlog, the one
    that calls the client back, the log macros, and the C calls of src/nvat.cpp
    that make loggers and SDK options and install them.  What is recorded is
    what reaches the client's callbacks and spdlog; the log calls inside the
    other components are not. *)

From S2P Require Import Prelude Errors Utils SpdmReq SpdmMeasurementRecords SpdmOpaqueData SpdmResp GpuOpaqueData.
From S2P Require Import SwitchOpaqueData OpenSsl NvCache Ocsp X509Chain Json Certs Base64 Report GpuEvidence.
From S2P Require Import SwitchEvidence Driver NvmlClient NscqClient Sdk.

(** The levels of spdlog that the SDK uses. *)
Inductive spd_level : Type := spd_trace | spd_debug | spd_info | spd_warn | spd_err | spd_off.

(** Whether a logger of spdlog with a level lets a message of a level through,
    and the text of an exception. *)
Class SpdLog : Type := {
  spd_should_log : spd_level -> spd_level -> bool;
  exn_what : exn -> string;
}.

(** spdlog numbers its levels, with critical before off. *)
Definition spd_rank (l : spd_level) : Z :=
  match l with spd_trace => 0 | spd_debug => 1 | spd_info => 2 | spd_warn => 3 | spd_err => 4 | spd_off => 6 end.

Definition spdlog_documented `{SpdLog} : Prop := forall t l, spd_should_log t l = (spd_rank t <=? spd_rank l).

Module Loggers.
Import Sdk.

Section loggers.
Context `{XS : XmlSec} `{DL : DynamicLinker} `{NV : Nvml.NvmlLib} `{NQ : Nscq.NscqLib} `{SL : SpdLog}.

(** ** Loggers *)

(** __FILE__, __FUNCTION__ and __LINE__. *)
Record site : Type := mk_site { filename : string; function : string; line_number : Z }.

(** The callbacks may be null; the one that filters answers by the level, the
    place and the user's data. *)
Record CallbackLogger : Type := mk_callback_logger {
  m_should_log_callback : option (Z -> site -> Z -> bool);
  m_log_callback : bool;
  m_flush_callback : bool;
  m_user_data : Z;
}.

Abbreviation ILogger := (logger (L:=CallbackLogger)).

(** What reaches the client and spdlog. *)
Inductive event : Type :=
| asked_callback (level : Z) (s : site) (user_data : Z)
| called_back (level : Z) (message : string) (s : site) (user_data : Z)
| flushed_back (user_data : Z)
| spdlog_message (name : string) (level : spd_level) (message : string) (s : site)
| spdlog_flush (name : string).

Definition get_spdlog_level (level : LogLevel) : spd_level :=
  match level with
  | TRACE => spd_trace
  | DEBUG => spd_debug
  | INFO => spd_info
  | WARNING => spd_warn
  | ERROR => spd_err
  | OFF => spd_off
  end.

Definition log_level_to_string (level : LogLevel) : string :=
  match level with
  | TRACE => "TRACE"
  | DEBUG => "DEBUG"
  | INFO => "INFO"
  | WARNING => "WARNING"
  | ERROR => "ERROR"
  | OFF => "UNKNOWN"
  end.

Definition CallbackLogger_log (c : CallbackLogger) (level : LogLevel) (message : string) (s : site) : list event :=
  if m_log_callback c then [called_back (log_level_to_c level) message s (m_user_data c)] else [].

Definition CallbackLogger_should_log (c : CallbackLogger) (level : LogLevel) (s : site) : bool * list event :=
  match m_should_log_callback c with
  | None => (true, [])
  | Some f =>
      (f (log_level_to_c level) s (m_user_data c), [asked_callback (log_level_to_c level) s (m_user_data c)])
  end.

Definition CallbackLogger_flush (c : CallbackLogger) : list event :=
  if m_flush_callback c then [flushed_back (m_user_data c)] else [].

(** spdlog applies its level again in its own [log]. *)
Definition SpdLogLogger_log (name : string) (threshold level : LogLevel) (message : string) (s : site) : list event :=
  if spd_should_log (get_spdlog_level threshold) (get_spdlog_level level)
  then [spdlog_message name (get_spdlog_level level) message s] else [].

Definition SpdLogLogger_should_log (threshold level : LogLevel) : bool :=
  spd_should_log (get_spdlog_level threshold) (get_spdlog_level level).

(** The virtual calls. *)
Definition log (l : ILogger) (level : LogLevel) (message : string) (s : site) : list event :=
  match l with
  | ClientLogger c => CallbackLogger_log c level message s
  | SpdLogLogger name threshold => SpdLogLogger_log name threshold level message s
  end.

Definition should_log (l : ILogger) (level : LogLevel) (s : site) : bool * list event :=
  match l with
  | ClientLogger c => CallbackLogger_should_log c level s
  | SpdLogLogger _ threshold => (SpdLogLogger_should_log threshold level, [])
  end.

Definition flush (l : ILogger) : list event :=
  match l with
  | ClientLogger c => CallbackLogger_flush c
  | SpdLogLogger name _ => [spdlog_flush name]
  end.

(** The message of a log statement: what the macro makes of it. *)
Definition LOG_events (l : ILogger) (level : LogLevel) (message : string) (s : site) : list event :=
  let '(b, asked) := should_log l level s in asked ++ (if b then log l level message s else []).

(** ** The library's globals and the client's handles *)

(** Behind a handle is a shared pointer: to a logger, which never changes, or to
    options, which are named by an address. *)
Inductive object : Type :=
| o_logger (l : ILogger)
| o_sdk_opts (address : nat).

(** [installed] is the address of the options that [g_sdkOptions] points to. *)
Record lib : Type := mk_lib {
  sdk_of : sdk (L:=CallbackLogger);
  options : gmap nat (option ILogger);
  handles : gmap nat object;
  next : nat;
  installed : option nat;
  events : list event;
}.

Abbreviation api := (sm lib Error).

Definition with_sdk (st : lib) (s : sdk) : lib :=
  mk_lib s (options st) (handles st) (next st) (installed st) (events st).
Definition with_events (st : lib) (es : list event) : lib :=
  mk_lib (sdk_of st) (options st) (handles st) (next st) (installed st) (events st ++ es).
Definition with_installed (st : lib) (a : option nat) : lib :=
  mk_lib (sdk_of st) (options st) (handles st) (next st) a (events st).

Definition new_lib (n : Nvml.nvml) (q : Nscq.nscq) : lib := mk_lib (new_sdk n q) ∅ ∅ 0 None [].

(** [LOG_TRACE] ... [LOG_ERROR]. *)
Definition LOG (level : LogLevel) (message : string) (s : site) : api unit := fun st =>
  match g_logger (sdk_of st) with
  | None => (UB, st)
  | Some l => (Ret tt, with_events st (LOG_events l level message s))
  end.

(** A new handle. *)
Definition new_handle (o : object) : api nat := fun st =>
  (Ret (next st), mk_lib (sdk_of st) (options st) (<[next st := o]> (handles st)) (S (next st)) (installed st) (events st)).

(** New options, with no logger. *)
Definition make_options : api nat := fun st =>
  (Ret (next st), mk_lib (sdk_of st) (<[next st := None]> (options st)) (handles st) (S (next st)) (installed st) (events st)).

Definition deref {A : Type} (f : object -> option A) (h : nat) : api A := fun st =>
  (match handles st !! h ≫= f with Some a => Ret a | None => UB end, st).

Definition to_logger (o : object) := match o with o_logger l => Some l | _ => None end.
Definition to_opts (o : object) := match o with o_sdk_opts a => Some a | _ => None end.

(** NVAT_C_API_END: the handler logs, too. *)
Definition api_end {A : Type} (where_ : site) (m : api A) : api A := fun st =>
  match m st with
  | (Throw x, st) =>
      (do* _ := LOG ERROR ("Unexpected exception caught: " +:+ exn_what x) where_ in slift (Err InternalError)) st
  | r => r
  end.

(** ** The C calls

    [out] is whether the output parameter is given. *)

Definition nvat_logger_spdlog_create (out : bool) (c_name : option string) (c_level : Z) : api nat :=
  api_end (mk_site "nvat.cpp" "nvat_logger_spdlog_create" 168) (
    guard* out else BadArgument in
    match c_name with
    | None => slift (Err BadArgument)
    | Some name =>
        let level := log_level_from_c c_level in
        if stderr_color_mt name then new_handle (o_logger (SpdLogLogger name level)) else slift (Throw runtime_error)
    end).

Definition nvat_logger_callback_create (out : bool) (log_callback : bool)
    (should_log_callback : option (Z -> site -> Z -> bool)) (flush_callback : bool) (user_data : Z) : api nat :=
  api_end (mk_site "nvat.cpp" "nvat_logger_callback_create" 191) (
    guard* out else BadArgument in
    new_handle (o_logger (ClientLogger (mk_callback_logger should_log_callback log_callback flush_callback user_data)))).

Definition nvat_sdk_opts_create (out : bool) : api nat :=
  api_end (mk_site "nvat.cpp" "nvat_sdk_opts_create" 117) (
    guard* out else BadArgument in
    do* a := make_options in
    new_handle (o_sdk_opts a)).

(** The options that are installed are the same object. *)
Definition set_option_logger (a : nat) (l : ILogger) : api unit := fun st =>
  let s := sdk_of st in
  let s := if bool_decide (installed st = Some a) then with_options s (Some (mk_options (Some l))) else s in
  (Ret tt, mk_lib s (<[a := Some l]> (options st)) (handles st) (next st) (installed st) (events st)).

Definition nvat_sdk_opts_set_logger (opts logger : option nat) : api unit :=
  match opts, logger with
  | Some opts, Some logger =>
      do* a := deref to_opts opts in
      do* l := deref to_logger logger in
      set_option_logger a l
  | _, _ => sret tt
  end.

(** [init] of init.cpp, with the object that becomes [g_sdkOptions]. *)
Definition init_with (a : option nat) : api unit := fun st =>
  let o := match a with Some a => Some (mk_options (default None (options st !! a))) | None => None end in
  let '(r, s) := init o (sdk_of st) in
  let ran := bool_decide (initialized (sdk_of st) = None) in
  (r, with_installed (with_sdk st s) (if ran then a else installed st)).

Definition nvat_sdk_init (version : string) (opts : option nat) : api unit :=
  api_end (mk_site "nvat.cpp" "nvat_sdk_init" 143) (
    do* a := match opts with None => sret None | Some h => do* a := deref to_opts h in sret (Some a) end in
    do* _ := init_with a in
    LOG DEBUG ("Successfully initialized NVIDIA Attestation SDK v" +:+ version) (mk_site "nvat.cpp" "nvat_sdk_init" 141)).

(** The logger is flushed before it is forgotten. *)
Definition nvat_sdk_shutdown : api unit := fun st =>
  let last := match g_sdkOptions (sdk_of st), g_logger (sdk_of st) with Some _, Some l => flush l | _, _ => [] end in
  let '(r, s) := shutdown (sdk_of st) in
  (r, with_events (with_installed (with_sdk st s) None) last).

(** NVAT_FREE_FUNCTION for the two types: the shared pointer goes, not what it
    points to. *)
Definition free_handle {A : Type} (f : object -> option A) (h : option nat) : api unit :=
  match h with
  | None => sret tt
  | Some h =>
      do* _ := deref f h in
      fun st => (Ret tt, mk_lib (sdk_of st) (options st) (delete h (handles st)) (next st) (installed st) (events st))
  end.

Definition nvat_logger_free : option nat -> api unit := free_handle to_logger.
Definition nvat_sdk_opts_free : option nat -> api unit := free_handle to_opts.

(** ** Where messages go *)

(** The order of the levels. *)
Definition level_rank (l : LogLevel) : Z :=
  match l with TRACE => 0 | DEBUG => 1 | INFO => 2 | WARNING => 3 | ERROR => 4 | OFF => 5 end.

(** What a client's filter says; none lets everything through. *)
Definition passes (c : CallbackLogger) (level : LogLevel) (s : site) : bool :=
  match m_should_log_callback c with None => true | Some f => f (log_level_to_c level) s (m_user_data c) end.

Lemma spd_rank_level a b : (spd_rank (get_spdlog_level a) <=? spd_rank (get_spdlog_level b)) = (level_rank a <=? level_rank b).
Proof. by destruct a, b. Qed.

(** P: a log statement at any point where a logger is installed returns, and
    reaches that logger exactly when it should: a client's callbacks are asked
    once and, if they agree, called once, with the level in C's numbers, from
    which it can be read back; spdlog gets the message when its level is at
    least the logger's, never at OFF. *)
Theorem log_delivery st l level message s :
  g_logger (sdk_of st) = Some l -> spdlog_documented ->
  LOG level message s st = (Ret tt, with_events st (LOG_events l level message s)) /\
  log_level_from_c (log_level_to_c level) = level /\
  match l with
  | ClientLogger c =>
      LOG_events l level message s =
        (if m_should_log_callback c then [asked_callback (log_level_to_c level) s (m_user_data c)] else []) ++
        (if passes c level s && m_log_callback c then [called_back (log_level_to_c level) message s (m_user_data c)] else [])
  | SpdLogLogger name threshold =>
      LOG_events l level message s =
        (if level_rank threshold <=? level_rank level then [spdlog_message name (get_spdlog_level level) message s] else []) /\
      (threshold = OFF -> level <> OFF -> LOG_events l level message s = [])
  end.
Proof.
  intros Hl Hd. split; [unfold LOG; by rewrite Hl|]. split; [by destruct level|].
  destruct l as [c|name t]; unfold LOG_events; cbn.
  - unfold CallbackLogger_should_log, CallbackLogger_log, passes.
    destruct (m_should_log_callback c) as [f|]; [|done]. by destruct (f _ _ _).
  - unfold SpdLogLogger_should_log, SpdLogLogger_log. rewrite Hd, spd_rank_level. split.
    + by destruct (_ <=? _).
    + intros ->. by destruct level.
Qed.

(** ** Making loggers *)

(** P: a logger with a name that spdlog has already is refused by an exception.
    The handler of the C interface logs it, which before the library is
    initialized is undefined: there is no logger yet. *)
Theorem logger_name_taken st name level :
  stderr_color_mt name = false ->
  match g_logger (sdk_of st) with
  | None => (nvat_logger_spdlog_create true (Some name) level st).1 = UB
  | Some l =>
      nvat_logger_spdlog_create true (Some name) level st =
        (Err InternalError,
         with_events st (LOG_events l ERROR ("Unexpected exception caught: " +:+ exn_what runtime_error)
                           (mk_site "nvat.cpp" "nvat_logger_spdlog_create" 168)))
  end.
Proof.
  intros Hn. unfold nvat_logger_spdlog_create, api_end, slift. rewrite Hn. unfold sbind, LOG.
  by destruct (g_logger (sdk_of st)).
Qed.

(** ** The life of the library *)

Inductive lib_step : lib -> lib -> Prop :=
| step_spdlog out name level st r st' :
    nvat_logger_spdlog_create out name level st = (r, st') -> r <> UB -> lib_step st st'
| step_callback out lcb slcb fcb u st r st' :
    nvat_logger_callback_create out lcb slcb fcb u st = (r, st') -> r <> UB -> lib_step st st'
| step_opts out st r st' : nvat_sdk_opts_create out st = (r, st') -> r <> UB -> lib_step st st'
| step_set o l st r st' : nvat_sdk_opts_set_logger o l st = (r, st') -> r <> UB -> lib_step st st'
| lib_init v o st r st' : nvat_sdk_init v o st = (r, st') -> r <> UB -> lib_step st st'
| lib_shutdown st r st' : nvat_sdk_shutdown st = (r, st') -> r <> UB -> lib_step st st'
| step_free_logger h st r st' : nvat_logger_free h st = (r, st') -> r <> UB -> lib_step st st'
| step_free_opts h st r st' : nvat_sdk_opts_free h st = (r, st') -> r <> UB -> lib_step st st'
| step_log level message s st r st' : LOG level message s st = (r, st') -> r <> UB -> lib_step st st'.

Definition lib_reachable (st : lib) : Prop := exists n q, rtc lib_step (new_lib n q) st.

(** The library is sane; handles of options point to options; addresses are
    new; the installed options are those of the client, as they are now. *)
Record coherent (st : lib) : Prop := {
  co_sane : sane (sdk_of st);
  co_handles h a : handles st !! h = Some (o_sdk_opts a) -> is_Some (options st !! a);
  co_fresh a : is_Some (options st !! a) -> (a < next st)%nat;
  co_installed a : installed st = Some a ->
    is_Some (options st !! a) /\ g_sdkOptions (sdk_of st) = Some (mk_options (default None (options st !! a)));
}.

Lemma coherent_events st es : coherent st -> coherent (with_events st es).
Proof. by intros []. Qed.

Lemma LOG_coherent level message s st r st' : coherent st -> LOG level message s st = (r, st') -> coherent st'.
Proof. intros Hc. unfold LOG. destruct (g_logger _); intros [= _ <-]; [by apply coherent_events|done]. Qed.

Lemma api_end_coherent {A : Type} w (m : api A) st r st' :
  (forall r st', m st = (r, st') -> coherent st') -> api_end w m st = (r, st') -> coherent st'.
Proof.
  intros Hm. unfold api_end. destruct (m st) as [r1 st1] eqn:E. specialize (Hm _ _ eq_refl).
  destruct r1 as [a|e|x|]; try (by intros [= <- <-]). unfold sbind.
  destruct (LOG _ _ _ st1) as [r2 st2] eqn:El. eapply LOG_coherent in El; [|done].
  by destruct r2 as [[]|e|y|]; intros [= <- <-].
Qed.

Lemma new_handle_coherent o st r st' :
  (forall a, o = o_sdk_opts a -> is_Some (options st !! a)) -> coherent st -> new_handle o st = (r, st') -> coherent st'.
Proof.
  intros Ho [H1 H2 H3 H4] [= _ <-]. split; cbn; try done.
  - intros h a [[_ Hx]|[_ Hh]]%lookup_insert_Some; [by apply Ho|by eapply H2].
  - intros a Ha. pose proof (H3 a Ha). lia.
Qed.

Lemma deref_Ret {A : Type} (f : object -> option A) h st a st' :
  deref f h st = (Ret a, st') -> st' = st /\ exists o, handles st !! h = Some o /\ f o = Some a.
Proof.
  unfold deref. destruct (handles st !! h) as [o|]; cbn; [|done]. destruct (f o) eqn:E; [|done].
  intros [= <- <-]. eauto.
Qed.

Lemma deref_state {A : Type} (f : object -> option A) h st : (deref f h st).2 = st.
Proof. done. Qed.

(** The initializer only sets the options it is given. *)
Lemma init_options (o : option (SdkOptions (L:=CallbackLogger))) s r s' :
  init o s = (r, s') ->
  match initialized s with
  | None => g_sdkOptions s' = Some (default (mk_options None) o)
  | Some _ => s' = s
  end.
Proof.
  unfold init. destruct (initialized s) as [[e|]|] eqn:Ei; [by intros [= _ <-]..|].
  destruct (init_body o s) as [r1 s1] eqn:E.
  assert (g_sdkOptions s1 = Some (default (mk_options None) o)) as Ho.
  { revert E. unfold init_body, sbind, handle_init_logger, set_logger. destruct o as [[[l|]]|]; cbn -[handle_init_xmlsec].
    2,3: destruct (stderr_color_mt "nvat"); [|by intros [= _ <-]].
    all: intros E; apply xml_only_init in E as [[cs ->] _]; [done|discriminate]. }
  destruct r1 as [[]|e|x|]; intros [= _ <-]; exact Ho.
Qed.

Lemma init_sane (o : option (SdkOptions (L:=CallbackLogger))) s r s' : sane s -> init o s = (r, s') -> sane s'.
Proof.
  intros Hs E. destruct r; (eapply (sdk_init_sane o s); [done|]); unfold Sdk.nvat_sdk_init, sbind; rewrite E; reflexivity.
Qed.

Lemma init_with_coherent a st r st' :
  coherent st -> (forall a', a = Some a' -> is_Some (options st !! a')) -> init_with a st = (r, st') -> coherent st'.
Proof.
  intros [H1 H2 H3 H4] Ha. unfold init_with. destruct (init _ (sdk_of st)) as [r1 s1] eqn:E. intros [= _ <-].
  pose proof (init_sane _ _ _ _ H1 E) as Hs. apply init_options in E.
  split; cbn; try done. intros a' Hi. destruct (initialized (sdk_of st)) eqn:Ei.
  - rewrite bool_decide_false in Hi by done. subst s1. by apply H4.
  - rewrite bool_decide_true in Hi by done. subst a. split; [by apply Ha|exact E].
Qed.

Lemma coherent_set a l st r st' :
  coherent st -> is_Some (options st !! a) -> set_option_logger a l st = (r, st') -> coherent st'.
Proof.
  intros [H1 H2 H3 H4] Ha [= _ <-]. split; cbn.
  - case_bool_decide as Hi; [|done]. destruct (H4 _ Hi) as [_ Ho]. destruct H1 as [Hn Hq Hg]. split; cbn; try done.
    intros Hin. specialize (Hg Hin). rewrite Ho in Hg. split; [done|]. intros Hl. by apply Hg in Hl.
  - intros h a' Hh. destruct (decide (a = a')) as [->|Hne]; [by rewrite lookup_insert_eq|].
    rewrite lookup_insert_ne by done. by eapply H2.
  - intros a' Ha'. destruct (decide (a = a')) as [->|Hne]; [by apply H3|].
    rewrite lookup_insert_ne in Ha' by done. by apply H3.
  - intros a' Hi. destruct (H4 _ Hi) as [Hs Ho]. destruct (decide (a = a')) as [->|Hne].
    + rewrite bool_decide_true by done. by rewrite lookup_insert_eq.
    + rewrite bool_decide_false by (rewrite Hi; congruence). by rewrite lookup_insert_ne.
Qed.

Lemma free_coherent {A : Type} (f : object -> option A) h st r st' :
  coherent st -> free_handle f h st = (r, st') -> coherent st'.
Proof.
  intros Hc. unfold free_handle. destruct h as [h|]; [|by intros [= _ <-]]. unfold sbind.
  destruct (deref f h st) as [[b|e|x|] st1] eqn:E; pose proof (f_equal snd E) as Hst; cbn in Hst; subst st1;
    intros [= _ <-]; try done.
  destruct Hc as [H1 H2 H3 H4]. split; cbn; try done. intros h' a [_ Hh]%lookup_delete_Some. by eapply H2.
Qed.

Lemma make_opts_coherent (out : bool) st r st' :
  coherent st -> nvat_sdk_opts_create out st = (r, st') -> coherent st'.
Proof.
  intros Hc. apply api_end_coherent. intros r1 st1. destruct out; [|by intros [= _ <-]]. unfold sbind, make_options.
  intros E. eapply new_handle_coherent; [| |exact E]; cbn.
  - intros a [= ->]. by rewrite lookup_insert_eq.
  - destruct Hc as [H1 H2 H3 H4].
    assert (forall a, is_Some (options st !! a) -> <[next st := None]> (options st) !! a = options st !! a) as Hk.
    { intros a Ha. rewrite lookup_insert_ne; [done|]. specialize (H3 a Ha). lia. }
    split; cbn; try done.
    + intros h a Hh. rewrite Hk; by eapply H2.
    + intros a Ha. destruct (decide (a = next st)) as [->|Hne]; [lia|].
      rewrite lookup_insert_ne in Ha by done. specialize (H3 a Ha). lia.
    + intros a Hi. destruct (H4 a Hi) as [Hs Ho]. by rewrite Hk.
Qed.

Lemma nvat_init_coherent v o st r st' : coherent st -> nvat_sdk_init v o st = (r, st') -> coherent st'.
Proof.
  intros Hc. apply api_end_coherent. intros r1 st1. unfold sbind at 1.
  assert (forall a r2 st2, (forall a', a = Some a' -> is_Some (options st !! a')) ->
    (do* _ := init_with a in
     LOG DEBUG ("Successfully initialized NVIDIA Attestation SDK v" +:+ v) (mk_site "nvat.cpp" "nvat_sdk_init" 141)) st =
    (r2, st2) -> coherent st2) as Hi.
  { intros a r2 st2 Ha. unfold sbind. destruct (init_with a st) as [r3 st3] eqn:E.
    pose proof (init_with_coherent a st _ _ Hc Ha E) as Hc3.
    destruct r3 as [[]|e|x|]; [|by intros [= _ <-]..]. by apply LOG_coherent. }
  destruct o as [h|]; [|by apply (Hi None)]. unfold sbind at 1.
  destruct (deref to_opts h st) as [[a|e|x|] st2] eqn:E; pose proof (f_equal snd E) as Hst; cbn in Hst; subst st2;
    [|by intros [= _ <-]..].
  apply (Hi (Some a)). intros a' [= <-]. apply deref_Ret in E as (_ & ob & Hh & Hf).
  destruct ob; [done|]. injection Hf as ->. by eapply (co_handles _ Hc).
Qed.

Lemma lib_step_coherent st st' : coherent st -> lib_step st st' -> coherent st'.
Proof.
  intros Hc Hs. destruct Hs as [out name level st r st' H _|out lcb slcb fcb u st r st' H _|out st r st' H _
    |o l st r st' H _|v o st r st' H _|st r st' H Hr|h st r st' H _|h st r st' H _|level m s st r st' H _].
  - revert H. apply api_end_coherent. intros r1 st1. destruct out, name as [name|]; try (by intros [= _ <-]).
    destruct (stderr_color_mt name); [|by intros [= _ <-]]. by apply new_handle_coherent.
  - revert H. apply api_end_coherent. intros r1 st1. destruct out; [|by intros [= _ <-]]. by apply new_handle_coherent.
  - by eapply make_opts_coherent.
  - revert H. unfold nvat_sdk_opts_set_logger. destruct o as [o|], l as [l|]; try (by intros [= _ <-]). unfold sbind.
    destruct (deref to_opts o st) as [[a|e|x|] st1] eqn:E; pose proof (f_equal snd E) as Hst; cbn in Hst; subst st1;
      try (by intros [= _ <-]).
    destruct (deref to_logger l st) as [[lg|e|x|] st1] eqn:El; pose proof (f_equal snd El) as Hst; cbn in Hst; subst st1;
      try (by intros [= _ <-]).
    apply coherent_set; [done|]. apply deref_Ret in E as (_ & ob & Hh & Hf). destruct ob; [done|].
    injection Hf as ->. by eapply (co_handles _ Hc).
  - by eapply nvat_init_coherent.
  - revert H. unfold nvat_sdk_shutdown. destruct (shutdown (sdk_of st)) as [r1 s1] eqn:E. intros [= <- <-].
    apply coherent_events. destruct Hc as [H1 H2 H3 H4]. split; cbn; try done.
    apply (sdk_step_sane (sdk_of st)); [done|]. by eapply step_shutdown.
  - by eapply free_coherent.
  - by eapply free_coherent.
  - by eapply LOG_coherent.
Qed.

Lemma lib_reachable_coherent st : lib_reachable st -> coherent st.
Proof.
  intros (n & q & H). assert (coherent (new_lib n q)) as Hc.
  { split; cbn.
    - split; [apply Driver.new_client_sound..|done].
    - done.
    - by intros a [].
    - done. }
  revert Hc. induction H; eauto using lib_step_coherent.
Qed.

(** C25: in whatever order a client makes and frees loggers and options, installs
    them, initializes, logs and shuts down: from a successful initialization to
    the shutdown every log statement has a logger; the options in use are the
    client's object, as it is now, freed handles or not; but setting their
    logger does not change the one that messages go to. *)
Theorem logging_safe st :
  lib_reachable st -> initialized (sdk_of st) <> None -> g_sdkOptions (sdk_of st) <> None ->
  (forall level message s, (LOG level message s st).1 = Ret tt) /\
  (forall a, installed st = Some a -> exists o, options st !! a = Some o /\ g_sdkOptions (sdk_of st) = Some (mk_options o)) /\
  (forall o l r st', nvat_sdk_opts_set_logger o l st = (r, st') -> g_logger (sdk_of st') = g_logger (sdk_of st)).
Proof.
  intros Hr%lib_reachable_coherent Hi Ho. split_and!.
  - intros level m s. unfold LOG. destruct (g_logger (sdk_of st)) eqn:El; [done|].
    destruct Ho. by apply (sane_logger _ (co_sane _ Hr) Hi).
  - intros a Ha. destruct (co_installed _ Hr a Ha) as [[o Hs] E]. rewrite Hs in E. by exists o.
  - intros o l r st'. unfold nvat_sdk_opts_set_logger. destruct o as [o|], l as [l|]; try (by intros [= _ <-]). unfold sbind.
    destruct (deref to_opts o st) as [[a|e|x|] st1] eqn:E; pose proof (f_equal snd E) as Hst; cbn in Hst; subst st1;
      try (by intros [= _ <-]).
    destruct (deref to_logger l st) as [[lg|e|x|] st1] eqn:El; pose proof (f_equal snd El) as Hst; cbn in Hst; subst st1;
      try (by intros [= _ <-]).
    intros [= _ <-]. cbn. by case_bool_decide.
Qed.

(** *** examples/custom-logger/main.c *)

Definition should_log_cb (level : Z) (_ : site) (_ : Z) : bool := log_level_to_c ERROR <=? level.

(** [nvat_http_options_create_default] with a null pointer. *)
Definition http_options_create_default_null : api unit :=
  do* _ := LOG ERROR "http_options is null" (mk_site "nvat.cpp" "nvat_http_options_create_default" 197) in
  slift (Err BadArgument).

(** The result of a C call is ignored. *)
Definition ignoring {A : Type} (m : api A) : api unit := fun st =>
  match m st with (Err _, st) => (Ret tt, st) | (Ret _, st) => (Ret tt, st) | (Throw x, st) => (Throw x, st) | (UB, st) => (UB, st) end.

Definition custom_logger_run (version : string) (user_data : Z) : api unit :=
  do* opts := nvat_sdk_opts_create true in
  do* logger := nvat_logger_callback_create true true (Some should_log_cb) true user_data in
  do* _ := nvat_sdk_opts_set_logger (Some opts) (Some logger) in
  fun st =>
    match nvat_sdk_init version (Some opts) st with
    | (Err e, st) =>
        (do* _ := nvat_sdk_opts_free (Some opts) in
         do* _ := nvat_logger_free (Some logger) in
         slift (Err e)) st
    | (Ret _, st) => ignoring http_options_create_default_null st
    | r => r
    end.

(** The exit code. *)
Definition custom_logger_main (version : string) (user_data : Z) : api Z := fun st =>
  match custom_logger_run version user_data st with
  | (Ret _, st) => (do* _ := nvat_sdk_shutdown in sret 0) st
  | (Err _, st) => (do* _ := nvat_sdk_shutdown in sret 1) st
  | (Throw x, st) => (Throw x, st)
  | (UB, st) => (UB, st)
  end.

End loggers.

(** *** A client that initializes with a spdlog logger *)

Definition toy_spdlog : SpdLog := {| spd_should_log t l := spd_rank t <=? spd_rank l; exn_what _ := "error" |}.

Abbreviation toy_lib := (new_lib (NV:=Nvml.toy_nvml) (NQ:=Nscq.toy_nscq) 0%nat []).
Abbreviation toy_up :=
  (nvat_sdk_init (XS:=toy_xmlsec) (NV:=Nvml.toy_nvml) (NQ:=Nscq.toy_nscq) (SL:=toy_spdlog) "1" None toy_lib).

Lemma toy_up_reachable : lib_reachable (XS:=toy_xmlsec) (NV:=Nvml.toy_nvml) (NQ:=Nscq.toy_nscq) (SL:=toy_spdlog) toy_up.2.
Proof.
  exists 0%nat, []. apply rtc_once. eapply (lib_init (SL:=toy_spdlog) "1" None); [apply surjective_pairing|].
  vm_compute. discriminate.
Qed.

Lemma logging_safe_witness :
  (LOG (NV:=Nvml.toy_nvml) (NQ:=Nscq.toy_nscq) (SL:=toy_spdlog) INFO "hello" (mk_site "a.c" "f" 1) toy_up.2).1 = Ret tt.
Proof.
  refine (proj1 (logging_safe (XS:=toy_xmlsec) (DL:=toy_linker) (NV:=Nvml.toy_nvml) (NQ:=Nscq.toy_nscq) (SL:=toy_spdlog) toy_up.2 _ _ _)
            INFO "hello" _).
  - exact toy_up_reachable.
  - vm_compute. discriminate.
  - vm_compute. discriminate.
Defined.

Lemma log_delivery_witness :
  exists l, g_logger (sdk_of toy_up.2) = Some l /\
    LOG (NV:=Nvml.toy_nvml) (NQ:=Nscq.toy_nscq) (SL:=toy_spdlog) INFO "hello" (mk_site "a.c" "f" 1) toy_up.2 =
      (Ret tt, with_events toy_up.2 [spdlog_message "nvat" spd_info "hello" (mk_site "a.c" "f" 1)]).
Proof.
  exists (SpdLogLogger "nvat" DEBUG). split; [reflexivity|].
  apply (log_delivery (NV:=Nvml.toy_nvml) (NQ:=Nscq.toy_nscq) (SL:=toy_spdlog) toy_up.2 (SpdLogLogger "nvat" DEBUG)
    INFO "hello" (mk_site "a.c" "f" 1)); [reflexivity|by intros t l].
Defined.

(** The client is asked about both messages, sees the error, and is told to
    flush when the library is shut down. *)
Example toy_custom :
  let '(r, st) := custom_logger_main (XS:=toy_xmlsec) (NV:=Nvml.toy_nvml) (NQ:=Nscq.toy_nscq) (SL:=toy_spdlog) "1" 7 toy_lib in
  let s1 := mk_site "nvat.cpp" "nvat_sdk_init" 141 in
  let s2 := mk_site "nvat.cpp" "nvat_http_options_create_default" 197 in
  r = Ret 0 /\ events st =
  [asked_callback 2 s1 7; asked_callback 5 s2 7; called_back 5 "http_options is null" s2 7; flushed_back 7].
Proof. vm_compute. split; reflexivity. Qed.

End Loggers.
