(* ===== verification/Verify.v ===== *)
(** * Verify: what the local and the remote verifiers share

    src/verify.cpp and include/nv_attestation/verify.h: verifier types, the
    request to the remote attestation service (NRAS), the validation of its
    detached EAT, and its error claim. *)

From stdpp Require Import sorting.
From S2P Require Import Prelude Errors Utils Json OpenSsl NvCache Ocsp X509Chain.
From S2P Require Import Claims Evaluator DetachedEat Http Jwt Certs Base64 Rim.

(** ** The state of a local verification: the RIM store, the OCSP client and the
    collection of claims it fills *)
Section vstate.
Context {R S : Type}.

Record vstate : Type := mk_vstate {
  rims : R;
  ocsp : S;
  out_claims : Collection.ClaimsCollection;
}.

Definition on_rims {A : Type} (f : R -> res A * R) : sm vstate Error A :=
  fun v => let '(o, r) := f (rims v) in (o, mk_vstate r (ocsp v) (out_claims v)).

Definition on_ocsp {A : Type} (f : sm S Error A) : sm vstate Error A :=
  fun v => let '(o, s) := f (ocsp v) in (o, mk_vstate (rims v) s (out_claims v)).

Definition append_claims (c : Collection.Claims) : sm vstate Error unit :=
  fun v => (Ret tt, mk_vstate (rims v) (ocsp v) (Collection.append (out_claims v) c)).

Lemma on_rims_Ret {A : Type} (f : R -> res A * R) v a v' :
  on_rims f v = (Ret a, v') <->
  f (rims v) = (Ret a, rims v') /\ ocsp v' = ocsp v /\ out_claims v' = out_claims v.
Proof.
  unfold on_rims. destruct v as [r s c], v' as [r' s' c']. cbn. destruct (f r) as [o r1].
  split; [by intros [= -> -> -> ->]|by intros ([= -> ->] & -> & ->)].
Qed.

Lemma on_ocsp_Ret {A : Type} (f : sm S Error A) v a v' :
  on_ocsp f v = (Ret a, v') <->
  f (ocsp v) = (Ret a, ocsp v') /\ rims v' = rims v /\ out_claims v' = out_claims v.
Proof.
  unfold on_ocsp. destruct v as [r s c], v' as [r' s' c']. cbn. destruct (f s) as [o s1].
  split; [by intros [= -> -> -> ->]|by intros ([= -> ->] & -> & ->)].
Qed.

End vstate.

Module Verify.

(** ** Verifier types *)

Inductive VerifierType : Type := Local | Remote.

#[global] Instance VerifierType_eq_dec : EqDecision VerifierType.
Proof. solve_decision. Defined.

Definition NVAT_VERIFY_LOCAL : Z := 0.
Definition NVAT_VERIFY_REMOTE : Z := 1.
Definition NVAT_DEVICE_GPU : Z := 0.
Definition NVAT_DEVICE_NVSWITCH : Z := 1.

Definition verifier_type_from_c (c_type : Z) : res VerifierType :=
  if c_type =? NVAT_VERIFY_LOCAL then Ret Local
  else if c_type =? NVAT_VERIFY_REMOTE then Ret Remote
  else Err BadArgument.

Definition type_to_string (verifier_type : VerifierType) : string :=
  match verifier_type with Local => "LOCAL" | Remote => "REMOTE" end.

(** ** Measurements

    The comparison loop of [generate_set_measurement_claims], the same in the
    GPU and the switch verifier: over some golden measurements, with the
    indices to skip. *)

(** What is recorded for a golden measurement, if it does not match: its first
    alternative, of which there may be none, and the runtime value. *)
Definition compare_measurements (runtime_measurements : gmap Z (list Z)) (index : Z)
    (golden_measurement : Rim.Measurement) (source : MeasurementSource) :
    res (option Mismatch.SerializableMismatchedMeasurements) :=
  match runtime_measurements !! index with
  | None =>
      let* golden := vget (Rim.m_values golden_measurement) 0 in
      Ret (Some (Mismatch.mk_mismatch (u32 index) (u32 (Rim.m_size golden_measurement))
                   (to_hex_string golden) 0 "NA" source))
  | Some runtime_value =>
      if existsb (fun golden_alternative => bool_decide (runtime_value = golden_alternative))
           (Rim.m_values golden_measurement)
      then Ret None
      else
        let* golden := vget (Rim.m_values golden_measurement) 0 in
        Ret (Some (Mismatch.mk_mismatch (u32 index) (u32 (Rim.m_size golden_measurement))
                     (to_hex_string golden) (u32 (zlen runtime_value)) (to_hex_string runtime_value) source))
  end.

(** One index, on whether all match so far and the mismatches found. *)
Definition compare_step (runtime : gmap Z (list Z)) (skip : Z -> bool) (golden : Rim.Measurements)
    (source : MeasurementSource) (acc : bool * list Mismatch.SerializableMismatchedMeasurements) (index : Z) :
    res (bool * list Mismatch.SerializableMismatchedMeasurements) :=
  if skip index then Ret acc
  else
    let* golden_measurement := Rim.get_measurement_at_index golden index in
    let* mismatch := compare_measurements runtime index golden_measurement source in
    Ret (match mismatch with None => acc | Some m => (false, acc.2 ++ [m]) end).

Definition compare_all (runtime : gmap Z (list Z)) (skip : Z -> bool) (golden : Rim.Measurements)
    (source : MeasurementSource) (acc : bool * list Mismatch.SerializableMismatchedMeasurements) :
    res (bool * list Mismatch.SerializableMismatchedMeasurements) :=
  ofold (compare_step runtime skip golden source) (Rim.get_all_indices golden) acc.

(** The claims made of it: result, secure boot, debug status, mismatches. *)
Definition measurement_result (acc : bool * list Mismatch.SerializableMismatchedMeasurements) :
    res (SerializableMeasresClaim * option bool * option string *
         option (list Mismatch.SerializableMismatchedMeasurements)) :=
  let '(all_measurements_match, mismatched_measurements) := acc in
  if all_measurements_match then Ret (Success, Some true, Some "disabled", None)
  else
    check* negb (bool_decide (mismatched_measurements = [])) else InternalError in
    Ret (Failure, None, None, Some mismatched_measurements).

(** The claims about a certificate chain, as they are serialized. *)
Definition serialize_chain (cc : CertChainClaims) : ChainClaims.SerializableCertChainClaims :=
  let o := cc_ocsp_claims cc in
  ChainClaims.mk_chain_claims (cc_expiration_date cc) (CertChainStatus_to_string (cc_status cc))
    (OCSPStatus_to_string (oc_status o)) (oc_revocation_reason o) (oc_nonce_matches o)
    (oc_ocsp_response_valid o)
    (SignedAge.make_signed_age_status (oc_signed_age o) (oc_verification_time o) (oc_status_deadline o)
       (oc_oldest_this_update o) (oc_covered_certificates o)).

(** What it means for a golden measurement to match. *)
Definition matched (runtime : gmap Z (list Z)) (index : Z) (golden : Rim.Measurement) : Prop :=
  exists v, runtime !! index = Some v /\ v ∈ Rim.m_values golden.

(** An index that is compared and does not match. *)
Definition mismatching (runtime : gmap Z (list Z)) (skip : Z -> bool) (golden : Rim.Measurements) (i : Z) : Prop :=
  exists g, golden !! i = Some g /\ skip i = false /\ ~ matched runtime i g.

Lemma compare_cases runtime i g source :
  matched runtime i g /\ compare_measurements runtime i g source = Ret None \/
  ~ matched runtime i g /\
    (Rim.m_values g = [] /\ compare_measurements runtime i g source = UB \/
     exists m, compare_measurements runtime i g source = Ret (Some m) /\ Mismatch.m_index m = u32 i /\
       Mismatch.m_source m = source).
Proof.
  unfold compare_measurements.
  assert (Rim.m_values g = [] /\ vget (E:=Error) (Rim.m_values g) 0 = UB \/
          exists w, vget (E:=Error) (Rim.m_values g) 0 = Ret w) as Hg.
  { destruct (Rim.m_values g) as [|w l]; [by left|]. right. exists w. apply (vget_app []). done. }
  destruct (runtime !! i) as [v|] eqn:Ev.
  - destruct (existsb _ _) eqn:Ex.
    + left. split; [|done]. apply existsb_exists in Ex as (w & Hw & ->%bool_decide_eq_true).
      exists w. split; [done|]. by apply list_elem_of_In.
    + right. split.
      * intros (w & Hr & Hw). rewrite Ev in Hr. injection Hr as <-. apply (Bool.not_true_iff_false (existsb _ _)) in Ex. apply Ex, existsb_exists.
        exists v. split; [by apply list_elem_of_In|]. by apply bool_decide_eq_true.
      * destruct Hg as [[-> ->]|[w ->]]; [by left|right; cbn; eauto].
  - right. split; [intros (w & Hr & _); congruence|]. destruct Hg as [[-> ->]|[w ->]]; [by left|right; cbn; eauto].
Qed.

Lemma compare_fold runtime skip golden source l ok acc ok' acc' :
  ofold (compare_step runtime skip golden source) l (ok, acc) = Ret (ok', acc') ->
  exists new, acc' = acc ++ new /\ ok' = ok && bool_decide (new = []) /\
    forall j, j ∈ Mismatch.m_index <$> new <-> exists i, i ∈ l /\ mismatching runtime skip golden i /\ j = u32 i.
Proof.
  revert ok acc. induction l as [|i l IH]; intros ok acc; cbn.
  { intros [= <- <-]. exists []. rewrite app_nil_r, andb_true_r. split_and!; [done|done|].
    intros j. split; [by intros ?%elem_of_nil|by intros (? & ?%elem_of_nil & _)]. }
  intros ([ok1 acc1] & Hs & Hr)%obind_Ret. apply IH in Hr as (new & -> & -> & Hn). clear IH.
  assert (forall P : Z -> Prop, (P i -> False) ->
    forall j, (exists k, k ∈ i :: l /\ P k /\ j = u32 k) <-> exists k, k ∈ l /\ P k /\ j = u32 k) as Hskip.
  { intros P HP j. split; intros (k & Hk & HPk & ->); [|exists k; split_and!; [by right|done|done]].
    apply elem_of_cons in Hk as [->|Hk]; [by apply HP in HPk|by exists k]. }
  unfold compare_step in Hs. destruct (skip i) eqn:Esk.
  { injection Hs as <- <-. exists new. split_and!; [done|done|]. intros j. rewrite Hn, Hskip; [done|].
    intros (g & _ & ? & _). congruence. }
  apply obind_Ret in Hs as (g & Hg & Hs). unfold Rim.get_measurement_at_index in Hg.
  destruct (golden !! i) as [g'|] eqn:Eg; [|done]. injection Hg as ->.
  destruct (compare_cases runtime i g source) as [[Hm E]|[Hm [[_ E]|(m & E & Hi & _)]]];
    rewrite E in Hs; cbn in Hs; [|done|].
  - injection Hs as <- <-. exists new. split_and!; [done|done|]. intros j. rewrite Hn, Hskip; [done|].
    intros (g' & Hg' & _ & Hno). apply Hno. by simplify_eq.
  - injection Hs as <- <-. exists (m :: new). rewrite <- app_assoc, andb_false_r. split_and!; [done|done|].
    intros j. cbn. rewrite elem_of_cons, Hn, Hi. split.
    + intros [->|(k & Hk & HP & ->)]; [|exists k; split_and!; [by right|done|done]].
      exists i. split_and!; [by left| |done]. by exists g.
    + intros (k & [->|Hk]%elem_of_cons & HP & ->); [by left|right; by exists k].
Qed.

Lemma matched_dec runtime i g : matched runtime i g \/ ~ matched runtime i g.
Proof. destruct (compare_cases runtime i g VBIOS) as [[? _]|[? _]]; auto. Qed.

Lemma all_indices_elem (m : Rim.Measurements) i : i ∈ Rim.get_all_indices m <-> is_Some (m !! i).
Proof.
  unfold Rim.get_all_indices. rewrite merge_sort_Permutation, list_elem_of_fmap. split.
  - intros ([k x] & -> & Hx%elem_of_map_to_list). by exists x.
  - intros [x Hx]. exists (i, x). split; [done|]. by apply elem_of_map_to_list.
Qed.

Lemma compare_all_sound runtime skip golden source ok acc ok' acc' :
  compare_all runtime skip golden source (ok, acc) = Ret (ok', acc') ->
  exists new, acc' = acc ++ new /\ ok' = ok && bool_decide (new = []) /\
    forall j, j ∈ Mismatch.m_index <$> new <-> exists i, mismatching runtime skip golden i /\ j = u32 i.
Proof.
  intros (new & Ha & Ho & Hn)%compare_fold. exists new. split_and!; [done|done|]. intros j. rewrite Hn.
  split; intros (i & H); [by exists i; apply H|].
  exists i. split; [|done]. destruct H as ((g & Hg & _) & _). apply all_indices_elem. by exists g.
Qed.

(** The two results. *)
Lemma measurement_result_Ret ok ms measres sb dbg mm :
  (ok = true -> ms = []) -> (ok = false -> ms <> []) ->
  measurement_result (ok, ms) = Ret (measres, sb, dbg, mm) ->
  ms = [] /\ measres = Success /\ sb = Some true /\ dbg = Some "disabled" /\ mm = None \/
  ms <> [] /\ measres = Failure /\ sb = None /\ dbg = None /\ mm = Some ms.
Proof.
  intros Ht Hf. unfold measurement_result. destruct ok.
  - intros [= <- <- <- <-]. left. auto.
  - case_bool_decide; [done|]. intros [= <- <- <- <-]. right. auto.
Qed.

(** *** A RIM that was checked: its chain, and its signature if the policy asks
    for it. *)
Section rim_checked.
Context `{OSSL : OpenSSL} `{XML : LibXml2} {S : Type} `{!IOcspHttpClient S}.

Definition rim_checked (now : Z) (policy : Rim.EvidencePolicy) (d : Rim.RimDocument) (s s' : S)
    (cc : CertChainClaims) (signature_verified : bool) : Prop :=
  (exists chain, Rim.get_cert_chain d = Ret chain /\
     X509CertChain.generate_cert_chain_claims now chain s = (Ret cc, s')) /\
  signature_verified = Rim.verify_rim_signature policy /\
  (Rim.verify_rim_signature policy = true -> Rim.verify_signature d = Ret tt).

Lemma rim_claims_checked now d policy s rc s' cc :
  Rim.generate_rim_claims now d policy s = (Ret rc, s') -> Rim.read_chain_claims rc = Ret cc ->
  rim_checked now policy d s s' cc (Rim.m_signature_verified rc).
Proof.
  unfold Rim.generate_rim_claims. intros (o & s1 & Hc & Hr)%sbind_Ret Hread.
  assert (o = Some cc /\ s' = s1 /\ Rim.m_signature_verified rc = Rim.verify_rim_signature policy /\
          (Rim.verify_rim_signature policy = true -> Rim.verify_signature d = Ret tt)) as (-> & -> & -> & Hsig).
  { destruct (Rim.verify_rim_signature policy).
    - apply sbind_Ret in Hr as ([] & s2 & [Hv ->]%slift_Ret & [= <- <-]).
      unfold Rim.read_chain_claims in Hread. cbn in Hread. destruct o; [|done]. injection Hread as ->. done.
    - injection Hr as <- <-. unfold Rim.read_chain_claims in Hread. cbn in Hread. destruct o; [|done].
      injection Hread as ->. done. }
  split; [|done]. destruct (Rim.verify_rim_cert_chain policy); [|done].
  apply sbind_Ret in Hc as (chain & s2 & [Hch ->]%slift_Ret & Hc).
  apply sbind_Ret in Hc as (cc' & s2 & Hcc & [= -> <-]). by exists chain.
Qed.

(** Without the chain the claims have none that could be read. *)
Lemma rim_claims_unchecked now d policy s rc s' :
  Rim.verify_rim_cert_chain policy = false ->
  Rim.generate_rim_claims now d policy s = (Ret rc, s') -> Rim.read_chain_claims rc = UB.
Proof.
  intros Hp. unfold Rim.generate_rim_claims. rewrite Hp. intros (o & s1 & [= <- <-] & Hr)%sbind_Ret.
  destruct (Rim.verify_rim_signature policy).
  - by apply sbind_Ret in Hr as ([] & s2 & _ & [= <- <-]).
  - by injection Hr as <- <-.
Qed.

End rim_checked.

(** ** The request to the service *)

Record NRASAttestRequestV4 : Type := mk_attest_request {
  nonce : string;
  arch : string;
  claims_version : string;
  evidence_list : list (string * string);
}.

Definition request_to_json (r : NRASAttestRequestV4) : json :=
  jobject [("nonce", JString (nonce r)); ("arch", JString (arch r));
           ("claims_version", JString (claims_version r));
           ("evidence_list",
             JArray ((fun e => jobject [("evidence", JString e.1); ("certificate", JString e.2)])
                       <$> evidence_list r))].

(** ** The detached EAT *)

Section eat.
Context `{env : Eat.Env} `{L : JwtLib} {C : Type} `{!Http.INvHttpClient C}.

(** The loop over the digests of the overall token; [clock] gives the time of
    each token's validation. *)
Fixpoint submods_loop (clock : nat -> Z) (eat_issuer : string) (device_jwt_tokens : gmap string string)
    (items : list (string * string)) (k : nat) (out_claims : gmap string string) :
    sm (Jwt.JwkStore (C:=C)) Error (gmap string string) :=
  match items with
  | [] => sret out_claims
  | (device_id, submod_digest_from_overall_jwt) :: items =>
      match device_jwt_tokens !! device_id with
      | None => slift (Err NrasTokenInvalid)
      | Some device_claims_jwt =>
          do* claims_payload := Jwt.validate_and_decode (clock k) device_claims_jwt eat_issuer in
          do* device_claims_digest := slift (Eat.compute_sha256_hex device_claims_jwt) in
          guard* bool_decide (device_claims_digest = submod_digest_from_overall_jwt) else NrasTokenInvalid in
          submods_loop clock eat_issuer device_jwt_tokens items (S k) (<[device_id := claims_payload]> out_claims)
      end
  end.

(** [validate_and_decode_EAT]: the nonce, the payload of every device and the
    overall result.  The order of the loop is that of [map_to_list]; the
    source's hash map leaves it open. *)
Definition validate_and_decode_EAT (clock : nat -> Z) (detached_eat : Eat.SerializableDetachedEAT)
    (eat_issuer : string) : sm (Jwt.JwkStore (C:=C)) Error (list Z * gmap string string * bool) :=
  do* overall_jwt_payload :=
    Jwt.validate_and_decode (clock O) (Eat.m_overall_jwt_token detached_eat) eat_issuer in
  do* overall :=
    slift (deserialize_from_json Eat.json_parse Eat.overall_from_json overall_jwt_payload) in
  guard* negb (bool_decide (Eat.m_eat_nonce overall = "")) else NrasTokenInvalid in
  do* out_claims :=
    submods_loop clock eat_issuer (Eat.m_device_jwt_tokens detached_eat)
      (map_to_list (Eat.m_submod_digests overall)) 1 ∅ in
  guard* (size (Eat.m_submod_digests overall) =? size (Eat.m_device_jwt_tokens detached_eat))%nat
    else NrasTokenInvalid in
  sret (hex_string_to_bytes (Eat.m_eat_nonce overall), out_claims, Eat.m_overall_result overall).

(** ** The error claim *)

Definition INVALID_NONCE : Z := 4003.
Definition NONCE_NOT_MATCHING : Z := 4010.
Definition INVALID_CERT_CHAIN : Z := 4007.
Definition INVALID_ATTESTATION_CERTIFICATE_CHAIN : Z := 4014.
Definition INVALID_RIM_CERTIFICATE_CHAIN : Z := 4015.
Definition INVALID_EVIDENCE_SIGNATURE : Z := 4013.
Definition INVALID_RIM_SIGNATURE : Z := 5013.

Definition by_device (device_type : Z) (gpu switch : Error) : Error :=
  if device_type =? NVAT_DEVICE_GPU then gpu
  else if device_type =? NVAT_DEVICE_NVSWITCH then switch
  else InternalError.

Definition handle_nras_error_claim (nras_claims : json) (device_type : Z) (policy : Rim.EvidencePolicy) : res unit :=
  match jfield nras_claims "x-nvidia-error-details" with
  | None | Some JNull => Ret tt
  | Some details =>
      let* nras_error_claim := NrasError.from_json details in
      let code := NrasError.code nras_error_claim in
      if (code =? INVALID_NONCE) || (code =? NONCE_NOT_MATCHING) then
        Err (by_device device_type GpuEvidenceNonceMismatch SwitchEvidenceNonceMismatch)
      else if (code =? INVALID_CERT_CHAIN) || (code =? INVALID_ATTESTATION_CERTIFICATE_CHAIN)
              || (code =? INVALID_RIM_CERTIFICATE_CHAIN) then Err CertChainVerificationFailure
      else if code =? INVALID_EVIDENCE_SIGNATURE then
        Err (by_device device_type GpuEvidenceInvalidSignature SwitchEvidenceInvalidSignature)
      else if code =? INVALID_RIM_SIGNATURE then
        if Rim.verify_rim_signature policy then Err RimInvalidSignature else Ret tt
      else Err InternalError
  end.

(** ** Remote verification

    [NvRemoteGpuVerifier::verify_evidence] and its switch counterpart are the
    same code over different evidence and claims; [device] is what differs. *)

Section remote.
Context `{B64 : Base64Lib}.

(** What is sent of an item of evidence. *)
Record remote_evidence : Type := mk_remote_evidence {
  re_nonce : list Z;
  re_report : list Z;
  re_cert_chain : string;
}.

Record device : Type := mk_device {
  device_type : Z;
  version_text : string;
  claims_from_json : json -> res Collection.Claims;
}.

Record NvRemoteVerifier : Type := mk_remote_verifier {
  m_nras_url : string;
  m_eat_issuer : string;
}.

(** [init_from_env]: the URLs; the key store's is under the same base. *)
Definition remote_urls (getenv : string -> option string) (path : string) (nras_url : option string) :
    NvRemoteVerifier * string :=
  let base :=
    match nras_url with
    | Some url => if bool_decide (url = "") then get_env_or_default getenv "NVAT_NRAS_BASE_URL"
                    "https://nras.attestation.nvidia.com" else url
    | None => get_env_or_default getenv "NVAT_NRAS_BASE_URL" "https://nras.attestation.nvidia.com"
    end in
  (mk_remote_verifier (base +:+ path) base, base +:+ "/.well-known/jwks.json").

(** The state: the HTTP client, the key store and the claims to fill. *)
Record rstate : Type := mk_rstate {
  r_http : C;
  r_jwks : Jwt.JwkStore (C:=C);
  r_out_claims : Collection.ClaimsCollection;
}.

Definition on_http {A : Type} (f : C -> res A * C) : sm rstate Error A :=
  fun v => let '(o, c) := f (r_http v) in (o, mk_rstate c (r_jwks v) (r_out_claims v)).

Definition on_jwks {A : Type} (f : sm (Jwt.JwkStore (C:=C)) Error A) : sm rstate Error A :=
  fun v => let '(o, j) := f (r_jwks v) in (o, mk_rstate (r_http v) j (r_out_claims v)).

Definition set_out_claims (f : Collection.ClaimsCollection -> Collection.ClaimsCollection) :
    sm rstate Error unit :=
  fun v => (Ret tt, mk_rstate (r_http v) (r_jwks v) (f (r_out_claims v))).

Fixpoint encode_evidence (evidence : list remote_evidence) : res (list (string * string)) :=
  match evidence with
  | [] => Ret []
  | e :: evidence =>
      let* evidence_b64 := Base64.encode_base64 (re_report e) in
      let* cert_chain_b64 := Base64.encode_base64 (bytes_of_string (re_cert_chain e)) in
      let* l := encode_evidence evidence in
      Ret ((evidence_b64, cert_chain_b64) :: l)
  end.

Definition response_status (status : Z) : res unit :=
  if status =? Http.HTTP_STATUS_OK then Ret tt
  else if (status =? Http.HTTP_STATUS_FORBIDDEN) || (status =? Http.HTTP_STATUS_UNAUTHORIZED)
  then Err NrasForbidden
  else Err NrasAttestationError.

(** The claims of one device of the EAT. *)
Definition device_claims (dev : device) (policy : Rim.EvidencePolicy) (payload : string) : res Collection.Claims :=
  let* nras_claims := deserialize_from_json Eat.json_parse Ret payload in
  let* _ := handle_nras_error_claim nras_claims (device_type dev) policy in
  catch_internal (claims_from_json dev nras_claims).

(** [verify_evidence]: the detached EAT, which is the response's text, and the
    error [OverallResultFalse] that is reported with it. *)
Definition remote_verify_evidence (dev : device) (verifier : NvRemoteVerifier) (clock : nat -> Z)
    (arch_text : string) (evidence : list remote_evidence) (policy : Rim.EvidencePolicy) :
    sm rstate Error (string * option Error) :=
  match evidence with
  | [] => slift (Err BadArgument)
  | first :: _ =>
      do* evidence_list := slift (encode_evidence evidence) in
      let attest_request :=
        mk_attest_request (to_hex_string (re_nonce first)) arch_text (version_text dev) evidence_list in
      do* request_payload :=
        slift (match Eat.json_dump (request_to_json attest_request) with
               | Some text => Ret text | None => Err InternalError end) in
      do* (status, attest_response_str) :=
        on_http (fun c => Http.send_request c
          (Http.mk_request (m_nras_url verifier) Http.HTTP_METHOD_POST
             [("Content-Type", "application/json")] request_payload)) in
      do* _ := slift (response_status status) in
      do* attest_response :=
        slift (deserialize_from_json Eat.json_parse Eat.eat_from_json attest_response_str) in
      do* (eat_nonce, claims, overall_result) :=
        on_jwks (validate_and_decode_EAT clock attest_response (m_eat_issuer verifier)) in
      guard* bool_decide (eat_nonce = re_nonce first) else NrasTokenInvalid in
      do* _ := set_out_claims (fun _ => []) in
      do* _ :=
        smap_m (fun item : string * string =>
                  do* c := slift (device_claims dev policy item.2) in
                  set_out_claims (fun cs => Collection.append cs c))
          (map_to_list claims) in
      sret (attest_response_str, if overall_result then None else Some OverallResultFalse)
  end.

End remote.

(** ** Lemmas *)

Section trust.
Context (url : string) (K : string -> Jwt.Jwk -> Prop).
Hypothesis served : Jwt.served_good (C:=C) url K.

(** What the loop has established of a device: its token is the one the
    overall token has the digest of, and is signed. *)
Definition device_ok (eat_issuer : string) (tokens digests : gmap string string) (device payload : string) : Prop :=
  exists token digest, tokens !! device = Some token /\ digests !! device = Some digest /\
    Eat.compute_sha256_hex token = Ret digest /\ Jwt.signed_token K token eat_issuer payload.

Lemma submods_sound clock eat_issuer tokens digests items k claims s claims' s' :
  Jwt.store_good url K s ->
  (forall d h, (d, h) ∈ items -> digests !! d = Some h) ->
  submods_loop clock eat_issuer tokens items k claims s = (Ret claims', s') ->
  Jwt.store_good url K s' /\ dom claims' = list_to_set items.*1 ∪ dom claims /\
  forall d p, claims' !! d = Some p -> claims !! d = Some p \/ device_ok eat_issuer tokens digests d p.
Proof.
  revert k claims s. induction items as [|[d h] items IH]; intros k claims s Hs Hit; cbn.
  { intros [= <- <-]. split; [done|]. split; [set_solver|]. auto. }
  destruct (tokens !! d) as [token|] eqn:Et; [|done].
  intros (payload & s1 & [Hsig Hs1]%(Jwt.validate_good url K) & Hr)%sbind_Ret; [|done..].
  apply sbind_Ret in Hr as (digest & s2 & [Hd ->]%slift_Ret & Hr).
  case_bool_decide as E; [subst digest|done].
  apply IH in Hr as (Hs' & Hdom & Hc); [|done|intros; apply Hit; by right].
  split; [done|]. split; [rewrite Hdom, dom_insert_L; set_solver|].
  intros d' p Hp. destruct (Hc d' p Hp) as [Hi|]; [|by right].
  destruct (decide (d' = d)) as [->|Hne]; [|rewrite lookup_insert_ne in Hi by done; by left].
  rewrite lookup_insert_eq in Hi. injection Hi as <-. right. exists token, h. split_and!; try done.
  apply Hit. by left.
Qed.

Lemma eat_sound clock eat eat_issuer s nonce claims result s' :
  Jwt.store_good url K s ->
  validate_and_decode_EAT clock eat eat_issuer s = (Ret (nonce, claims, result), s') ->
  Jwt.store_good url K s' /\
  exists payload overall,
    Jwt.signed_token K (Eat.m_overall_jwt_token eat) eat_issuer payload /\
    deserialize_from_json Eat.json_parse Eat.overall_from_json payload = Ret overall /\
    Eat.m_eat_nonce overall <> "" /\ nonce = hex_string_to_bytes (Eat.m_eat_nonce overall) /\
    result = Eat.m_overall_result overall /\
    dom claims = dom (Eat.m_device_jwt_tokens eat) /\ dom claims = dom (Eat.m_submod_digests overall) /\
    forall d p, claims !! d = Some p ->
      device_ok eat_issuer (Eat.m_device_jwt_tokens eat) (Eat.m_submod_digests overall) d p.
Proof.
  intros Hs. unfold validate_and_decode_EAT.
  intros (payload & s1 & [Hsig Hs1]%(Jwt.validate_good url K) & Hr)%sbind_Ret; [|done..].
  apply sbind_Ret in Hr as (overall & s2 & [Ho ->]%slift_Ret & Hr).
  case_bool_decide as En; [done|]. cbn [negb] in Hr.
  apply sbind_Ret in Hr as (out & s2 & Hloop & Hr).
  destruct (_ =? _)%nat eqn:Esz; [|done]. injection Hr as <- <- <- <-. apply Nat.eqb_eq in Esz.
  apply (submods_sound _ _ _ (Eat.m_submod_digests overall)) in Hloop as (Hs2 & Hdom & Hc); [|done|].
  2: { intros d h. apply elem_of_map_to_list. }
  split; [done|]. exists payload, overall.
  assert (forall d p, out !! d = Some p -> device_ok eat_issuer (Eat.m_device_jwt_tokens eat)
            (Eat.m_submod_digests overall) d p) as Hok.
  { intros d p Hp. destruct (Hc d p Hp) as [Hi|]; [by rewrite lookup_empty in Hi|done]. }
  assert (dom out = dom (Eat.m_submod_digests overall)) as Hdd.
  { rewrite Hdom, dom_empty_L, union_empty_r_L. apply set_eq. intros d.
    rewrite elem_of_list_to_set, elem_of_dom, list_elem_of_fmap. split.
    - intros ([d' h] & -> & Hin%elem_of_map_to_list). cbn. by exists h.
    - intros [h Hh]. exists (d, h). split; [done|]. by apply elem_of_map_to_list. }
  split_and!; try done.
  rewrite Hdd. apply set_subseteq_size_eq.
  - intros d Hd. rewrite <- Hdd in Hd. apply elem_of_dom in Hd as [p Hp].
    destruct (Hok d p Hp) as (token & _ & Ht & _). apply elem_of_dom. by exists token.
  - by rewrite !size_dom, Esz.
Qed.

End trust.

(** The loop that appends the claims of every device. *)
Lemma append_loop (dev : device) policy (items : list (string * string)) v v' :
  smap_m (fun item : string * string =>
            do* c := slift (device_claims dev policy item.2) in
            set_out_claims (fun cs => Collection.append cs c)) items v = (Ret tt, v') ->
  exists cs, r_out_claims v' = r_out_claims v ++ cs /\ r_jwks v' = r_jwks v /\ r_http v' = r_http v /\
    Forall2 (fun item c => device_claims dev policy item.2 = Ret c) items cs.
Proof.
  revert v. induction items as [|item items IH]; intros v; cbn [smap_m].
  { intros [= <-]. exists []. by rewrite app_nil_r. }
  intros ([] & v1 & (c & v2 & [Hc ->]%slift_Ret & [= <-])%sbind_Ret & Hr)%sbind_Ret.
  apply IH in Hr as (cs & Hcs & Hj & Hh & Hf). exists (c :: cs). cbn in *.
  rewrite Hcs. unfold Collection.append. rewrite <- app_assoc. by repeat constructor.
Qed.

(** ** Properties *)

(** C26: a detached EAT that validates is what the service signed: the overall
    token and every device's token carry a signature under a key the service
    serves, each device's token hashes to the digest the overall token has for
    it, and the devices are the same on both sides, so none can be added,
    dropped or exchanged.  The nonce and the overall result are those of the
    overall token. *)
Theorem eat_validation_sound (url : string) (K : string -> Jwt.Jwk -> Prop) clock eat eat_issuer s
    nonce claims result s' :
  Jwt.served_good (C:=C) url K -> Jwt.store_good url K s ->
  validate_and_decode_EAT clock eat eat_issuer s = (Ret (nonce, claims, result), s') ->
  Jwt.store_good url K s' /\
  exists payload overall,
    Jwt.signed_token K (Eat.m_overall_jwt_token eat) eat_issuer payload /\
    deserialize_from_json Eat.json_parse Eat.overall_from_json payload = Ret overall /\
    Eat.m_eat_nonce overall <> "" /\ nonce = hex_string_to_bytes (Eat.m_eat_nonce overall) /\
    result = Eat.m_overall_result overall /\
    dom claims = dom (Eat.m_device_jwt_tokens eat) /\ dom claims = dom (Eat.m_submod_digests overall) /\
    forall d p, claims !! d = Some p ->
      device_ok K eat_issuer (Eat.m_device_jwt_tokens eat) (Eat.m_submod_digests overall) d p.
Proof. intros Hserved. by apply eat_sound. Qed.

(** What the service must be sent: the nonce of the first item in hexadecimal,
    the architecture, the version of the claims, and for every item the base64
    text of its report and of its certificate chain. *)
Definition attest_request_is `{B64 : Base64Lib} (dev : device) (arch_text : string) (first : remote_evidence)
    (evidence : list remote_evidence) (request : json) : Prop :=
  jfield request "nonce" = Some (JString (to_hex_string (re_nonce first))) /\
  jfield request "arch" = Some (JString arch_text) /\
  jfield request "claims_version" = Some (JString (version_text dev)) /\
  exists items, jfield request "evidence_list" = Some (JArray items) /\
    Forall2 (fun e item => exists report chain,
      Base64.encode_base64 (re_report e) = Ret report /\
      Base64.encode_base64 (bytes_of_string (re_cert_chain e)) = Ret chain /\
      jfield item "evidence" = Some (JString report) /\ jfield item "certificate" = Some (JString chain)) evidence items.

(** The claims of a device token are those its payload reads as, and the payload
    reports no error; a bad RIM signature (5013) is tolerated by a policy
    that does not verify it. *)
Definition device_answer (dev : device) (policy : Rim.EvidencePolicy) (payload : string) (c : Collection.Claims) : Prop :=
  exists j, Eat.json_parse payload = Some j /\ claims_from_json dev j = Ret c /\
    match jfield j "x-nvidia-error-details" with
    | None | Some JNull => True
    | Some details =>
        Rim.verify_rim_signature policy = false /\
        exists code, jfield details "code" = Some code /\ get_int code = Ret 5013
    end.

Lemma encode_evidence_spec `{B64 : Base64Lib} evidence l :
  encode_evidence evidence = Ret l ->
  Forall2 (fun e item => Base64.encode_base64 (re_report e) = Ret item.1 /\
    Base64.encode_base64 (bytes_of_string (re_cert_chain e)) = Ret item.2) evidence l.
Proof.
  revert l. induction evidence as [|e evidence IH]; intros l; cbn [encode_evidence]; [by intros [= <-]|].
  intros (a & Ha & Hr)%obind_Ret. apply obind_Ret in Hr as (b & Hb & Hr). apply obind_Ret in Hr as (k & Hk & [= <-]).
  constructor; [done|by apply IH].
Qed.

Lemma request_json_spec `{B64 : Base64Lib} dev arch_text first evidence l :
  encode_evidence evidence = Ret l ->
  attest_request_is dev arch_text first evidence
    (request_to_json (mk_attest_request (to_hex_string (re_nonce first)) arch_text (version_text dev) l)).
Proof.
  intros Hl%encode_evidence_spec. unfold attest_request_is. split_and!; [done..|].
  eexists. split; [reflexivity|]. cbn [evidence_list]. apply Forall2_fmap_r. eapply Forall2_impl; [exact Hl|].
  intros e [a b] [Ha Hb]. exists a, b. done.
Qed.

Lemma device_claims_answer dev policy payload c :
  device_claims dev policy payload = Ret c -> device_answer dev policy payload c.
Proof.
  unfold device_claims, deserialize_from_json. intros (j & Hj & Hr)%obind_Ret.
  apply obind_Ret in Hr as ([] & He & Hc). exists j.
  destruct (Eat.json_parse payload) as [j'|]; [|done]. injection Hj as ->. split; [done|].
  split; [unfold catch_internal in Hc; by destruct (claims_from_json dev j)|].
  unfold handle_nras_error_claim in He. destruct (jfield j "x-nvidia-error-details") as [details|]; [|done].
  assert (details = JNull \/
    (let* nras_error_claim := NrasError.from_json details in
     let code := NrasError.code nras_error_claim in
     if (code =? INVALID_NONCE) || (code =? NONCE_NOT_MATCHING) then
       Err (by_device (device_type dev) GpuEvidenceNonceMismatch SwitchEvidenceNonceMismatch)
     else if (code =? INVALID_CERT_CHAIN) || (code =? INVALID_ATTESTATION_CERTIFICATE_CHAIN)
             || (code =? INVALID_RIM_CERTIFICATE_CHAIN) then Err CertChainVerificationFailure
     else if code =? INVALID_EVIDENCE_SIGNATURE then
       Err (by_device (device_type dev) GpuEvidenceInvalidSignature SwitchEvidenceInvalidSignature)
     else if code =? INVALID_RIM_SIGNATURE then
       if Rim.verify_rim_signature policy then Err RimInvalidSignature else Ret tt
     else Err InternalError) = Ret tt) as [->|Hd]; [destruct details; auto|done|].
  apply obind_Ret in Hd as (e & Hfrom & Hd). cbv zeta in Hd.
  assert (NrasError.code e = 5013 /\ Rim.verify_rim_signature policy = false) as [Hcode Hpol].
  { destruct (_ || _); [done|]. destruct (_ || _); [done|]. destruct (_ =? INVALID_EVIDENCE_SIGNATURE); [done|].
    destruct (Z.eqb_spec (NrasError.code e) INVALID_RIM_SIGNATURE); [|done].
    by destruct (Rim.verify_rim_signature policy). }
  assert (exists code, jfield details "code" = Some code /\ get_int code = Ret 5013) as Hx.
  { unfold NrasError.from_json in Hfrom. apply obind_Ret in Hfrom as (code & Hx & Hfrom).
    apply obind_Ret in Hx as (v & Hv & Hx). unfold jat in Hv. destruct (jfield details "code") as [w|]; [|done].
    injection Hv as ->. exists v. split; [done|]. repeat (apply obind_Ret in Hfrom as (? & _ & Hfrom)).
    injection Hfrom as <-. cbn in Hcode. congruence. }
  by destruct details.
Qed.

(** C27: remote verification that returns sent the service the nonce of the
    first item of evidence and the reports and chains of every item, and
    returns the service's answer 200 to this request: the EAT validated, its
    nonce is that nonce, its tokens are signed for the issuer and bound by their
    digests, the claims are those that each device's payload reads as, in
    which the service reports no error (but for a RIM signature that the
    policy does not verify), and the result is the overall result that the service
    signed. *)
Theorem remote_verify_sound `{B64 : Base64Lib} (url : string) (K : string -> Jwt.Jwk -> Prop) dev verifier clock
    arch_text evidence policy v text err v' :
  Jwt.served_good (C:=C) url K -> Jwt.store_good url K (r_jwks v) ->
  remote_verify_evidence dev verifier clock arch_text evidence policy v = (Ret (text, err), v') ->
  Jwt.store_good url K (r_jwks v') /\
  exists first rest request payload_sent eat payload overall (claims : gmap string string),
    evidence = first :: rest /\
    attest_request_is dev arch_text first evidence request /\ Eat.json_dump request = Some payload_sent /\
    Http.send_request (r_http v)
      (Http.mk_request (m_nras_url verifier) Http.HTTP_METHOD_POST [("Content-Type", "application/json")] payload_sent) =
      (Ret (200, text), r_http v') /\
    deserialize_from_json Eat.json_parse Eat.eat_from_json text = Ret eat /\
    Jwt.signed_token K (Eat.m_overall_jwt_token eat) (m_eat_issuer verifier) payload /\
    deserialize_from_json Eat.json_parse Eat.overall_from_json payload = Ret overall /\
    hex_string_to_bytes (Eat.m_eat_nonce overall) = re_nonce first /\
    err = (if Eat.m_overall_result overall then None else Some OverallResultFalse) /\
    dom claims = dom (Eat.m_device_jwt_tokens eat) /\
    (forall d p, claims !! d = Some p ->
       device_ok K (m_eat_issuer verifier) (Eat.m_device_jwt_tokens eat) (Eat.m_submod_digests overall) d p) /\
    Forall2 (fun item c => device_answer dev policy item.2 c) (map_to_list claims) (r_out_claims v').
Proof.
  intros Hserved Hs. unfold remote_verify_evidence. destruct evidence as [|first rest]; [done|].
  intros (l & v1 & [Hl ->]%slift_Ret & Hr)%sbind_Ret.
  apply sbind_Ret in Hr as (pl & v1 & [Hpl ->]%slift_Ret & Hr).
  apply sbind_Ret in Hr as ([status body] & v1 & Hh & Hr). unfold on_http in Hh.
  destruct (Http.send_request _ _) as [o c1] eqn:Esend. injection Hh as -> <-.
  apply sbind_Ret in Hr as ([] & v2 & [Hst ->]%slift_Ret & Hr).
  apply sbind_Ret in Hr as (eat & v2 & [Heat ->]%slift_Ret & Hr).
  apply sbind_Ret in Hr as ([[nonce claims] result] & v2 & Hv & Hr). unfold on_jwks in Hv. cbn in Hv.
  destruct (validate_and_decode_EAT _ _ _ _) as [o j1] eqn:Eval. injection Hv as -> <-.
  apply (eat_sound url K) in Eval as (Hj & payload & overall & Hsig & Ho & _ & -> & -> & Hdom & _ & Hok); [|done..].
  case_bool_decide as En; [|done].
  apply sbind_Ret in Hr as ([] & v2 & [= <-] & Hr). apply sbind_Ret in Hr as ([] & v3 & Hloop & [= <- <- <-]).
  apply append_loop in Hloop as (cs & Hcs & Hj' & Hhttp & Hf). cbn in Hcs, Hj', Hhttp. rewrite Hj', Hcs, Hhttp. split; [done|].
  assert (status = 200) as ->.
  { unfold response_status in Hst. destruct (Z.eqb_spec status Http.HTTP_STATUS_OK); [done|]. by destruct (_ || _). }
  exists first, rest, (request_to_json (mk_attest_request (to_hex_string (re_nonce first)) arch_text (version_text dev) l)),
    pl, eat, payload, overall, claims.
  split_and!; try done; [by apply request_json_spec|by destruct (Eat.json_dump _); [injection Hpl as ->|]|].
  eapply Forall2_impl; [exact Hf|]. intros item c. apply device_claims_answer.
Qed.

End eat.

(** A service with one device: every token has the payload "p", which reads as
    the overall claims below. *)
Definition toy_overall : Eat.SerializableOverallEATClaims :=
  Eat.mk_overall "NVIDIA-PLATFORM-ATTESTATION" (Eat.mk_common 1 2 "nras" "j") "3.0"
    {["GPU-0" := to_hex_string [100; 46]]} true "0102".

Definition toy_eat : Eat.SerializableDetachedEAT := Eat.mk_eat "o.o.o" {["GPU-0" := "d.d.d"]}.

Definition toy_eat_env : Eat.Env := {|
  Eat.now := 0;
  Eat.RAND_bytes := fun _ _ => None;
  Eat.sha256 := fun l => Some (take 2 l);
  Eat.sign_none := fun _ _ => "";
  Eat.sign_es384 := fun _ _ _ => None;
  Eat.json_dump := fun _ => Some "{}";
  Eat.json_parse := fun text =>
    Some (if bool_decide (text = "jwks") then Eat.eat_to_json toy_eat else Eat.overall_to_json toy_overall);
  Eat.rego := fun _ _ _ => None;
  Eat.overall_result_policy := "";
|}.

#[local] Existing Instance Jwt.toy_jwks_client.

Definition toy_eat_call :=
  validate_and_decode_EAT (env:=toy_eat_env) (L:=Jwt.toy_jwt) (fun _ => 5) toy_eat "nras" Jwt.toy_jwk_store.

Example toy_eat_answer : toy_eat_call.1 = Ret ([1; 2], {["GPU-0" := "p"]}, true).
Proof. vm_compute. reflexivity. Qed.

Lemma eat_validation_sound_witness :
  exists token digest, Eat.m_device_jwt_tokens toy_eat !! "GPU-0" = Some token /\
    Eat.compute_sha256_hex (env:=toy_eat_env) token = Ret digest.
Proof.
  destruct (eat_validation_sound (env:=toy_eat_env) (L:=Jwt.toy_jwt) "https://host/jwks" (fun _ _ => True)
    (fun _ => 5) toy_eat "nras" Jwt.toy_jwk_store [1; 2] {["GPU-0" := "p"]} true toy_eat_call.2)
    as (_ & payload & overall & _ & _ & _ & _ & _ & _ & _ & Hd).
  - done.
  - by split.
  - rewrite <- toy_eat_answer. apply surjective_pairing.
  - destruct (Hd "GPU-0" "p") as (token & digest & H1 & _ & H2 & _); [by rewrite lookup_singleton_eq|].
    exists token, digest. exact (conj H1 H2).
Defined.

Definition toy_device : device := mk_device 0 "3.0" (fun _ => Ret (Collection.Gpu GpuClaims.default)).

Definition toy_remote_call :=
  remote_verify_evidence (env:=toy_eat_env) (L:=Jwt.toy_jwt) (B64:=Base64.toy_base64) toy_device
    (mk_remote_verifier "https://host/v4/attest/gpu" "nras") (fun _ => 5) "HOPPER"
    [mk_remote_evidence [1; 2] [1; 2; 3] "abc"] Rim.EvidencePolicy_default
    (mk_rstate tt Jwt.toy_jwk_store []).

Example toy_remote_answer : toy_remote_call.1 = Ret ("jwks", None).
Proof. vm_compute. reflexivity. Qed.

Lemma remote_verify_sound_witness :
  exists eat payload, deserialize_from_json (Eat.json_parse (Env:=toy_eat_env)) Eat.eat_from_json "jwks" = Ret eat /\
    Jwt.signed_token (L:=Jwt.toy_jwt) (fun _ _ => True) (Eat.m_overall_jwt_token eat) "nras" payload.
Proof.
  destruct (remote_verify_sound (env:=toy_eat_env) (L:=Jwt.toy_jwt) (B64:=Base64.toy_base64)
    "https://host/jwks" (fun _ _ => True) toy_device (mk_remote_verifier "https://host/v4/attest/gpu" "nras")
    (fun _ => 5) "HOPPER" [mk_remote_evidence [1; 2] [1; 2; 3] "abc"] Rim.EvidencePolicy_default
    (mk_rstate tt Jwt.toy_jwk_store []) "jwks" None toy_remote_call.2)
    as (_ & first & rest & request & sent & eat & payload & overall & claims & _ & _ & _ & _ & H1 & H2 & _).
  - done.
  - by split.
  - rewrite <- toy_remote_answer. apply surjective_pairing.
  - exists eat, payload. exact (conj H1 H2).
Defined.

End Verify.
