(* ===== verification/GpuVerify.v ===== *)
(** * GpuVerify: verification of GPU evidence

    src/gpu/verify.cpp and include/nv_attestation/gpu/verify.h: the local
    verifier, which checks the report, fetches the driver and the VBIOS RIM,
    checks them, compares measurements and fills the claims, and the remote
    one, an instance of the code in Verify.  Times are the readings of the
    clock, three per item of evidence. *)

From S2P Require Import Prelude Errors Utils SpdmReq SpdmMeasurementRecords SpdmOpaqueData SpdmResp GpuOpaqueData.
From S2P Require Import Json OpenSsl NvCache Ocsp X509Chain Claims Evaluator DetachedEat.
From S2P Require Import Http Jwt Certs Base64 Rim GpuEvidence Verify.

Module GpuVerify.

Definition NVDEC_STATUS_ENABLED : Z := 0xAA.
Definition NVDEC_STATUS_DISABLED : Z := 0x55.
Definition MIN_OPAQUE_DATA_VERSION_FOR_FEATURE_FLAG : Z := 1.

Abbreviation Claims3 := GpuClaims.SerializableGpuClaimsV3.

Section gpu_verify.
Context `{OSSL : OpenSSL} `{XML : LibXml2} `{env : Eat.Env}.

(** ** Filling the claims *)

(** [set_gpu_evidence_claims], with the nonce, on fresh claims. *)
Definition set_gpu_evidence_claims (nonce : string) (ec : GpuEvidence.GpuEvidenceClaims) : Claims3 :=
  let ar := GpuEvidence.m_attestation_report_claims ec in
  let d := GpuClaims.default in
  GpuClaims.mk_gpu_claims nonce (GpuEvidence.m_hwmodel ar) (GpuEvidence.m_ueid ar) (GpuClaims.m_oem_id d)
    (GpuEvidence.m_driver_version ec) (GpuEvidence.m_vbios_version ec) (GpuEvidence.m_gpu_switch_pdis ec)
    (GpuClaims.m_measurements_matching d) (GpuEvidence.m_gpu_ar_arch_match ec) (GpuClaims.m_secure_boot d)
    (GpuClaims.m_debug_status d) (GpuClaims.m_mismatched_measurements d)
    (Verify.serialize_chain (GpuEvidence.m_cert_chain_claims ar)) (GpuEvidence.m_fwid_match ar)
    (GpuEvidence.m_parsed ar) (GpuEvidence.m_gpu_ar_nonce_match ec) (GpuEvidence.m_signature_verified ar)
    (GpuClaims.m_driver_rim_fetched d) (GpuClaims.m_driver_rim_cert_chain d)
    (GpuClaims.m_driver_rim_signature_verified d) (GpuClaims.m_gpu_driver_rim_version_match d)
    (GpuClaims.m_driver_rim_measurements_available d) (GpuClaims.m_vbios_rim_fetched d)
    (GpuClaims.m_vbios_rim_cert_chain d) (GpuClaims.m_gpu_vbios_rim_version_match d)
    (GpuClaims.m_vbios_rim_signature_verified d) (GpuClaims.m_vbios_rim_measurements_available d)
    (GpuClaims.m_vbios_index_no_conflict d) (GpuClaims.m_mode d) (GpuClaims.m_version d).

(** The assignments that set the mode. *)
Definition with_mode (c : Claims3) (mode : string) : Claims3 :=
  GpuClaims.mk_gpu_claims (GpuClaims.m_nonce c) (GpuClaims.m_hwmodel c) (GpuClaims.m_ueid c)
    (GpuClaims.m_oem_id c) (GpuClaims.m_driver_version c) (GpuClaims.m_vbios_version c)
    (GpuClaims.m_gpu_switch_pdis c) (GpuClaims.m_measurements_matching c) (GpuClaims.m_gpu_arch_match c)
    (GpuClaims.m_secure_boot c) (GpuClaims.m_debug_status c) (GpuClaims.m_mismatched_measurements c)
    (GpuClaims.m_ar_cert_chain c) (GpuClaims.m_ar_cert_chain_fwid_match c) (GpuClaims.m_ar_parsed c)
    (GpuClaims.m_gpu_ar_nonce_match c) (GpuClaims.m_ar_signature_verified c)
    (GpuClaims.m_driver_rim_fetched c) (GpuClaims.m_driver_rim_cert_chain c)
    (GpuClaims.m_driver_rim_signature_verified c) (GpuClaims.m_gpu_driver_rim_version_match c)
    (GpuClaims.m_driver_rim_measurements_available c) (GpuClaims.m_vbios_rim_fetched c)
    (GpuClaims.m_vbios_rim_cert_chain c) (GpuClaims.m_gpu_vbios_rim_version_match c)
    (GpuClaims.m_vbios_rim_signature_verified c) (GpuClaims.m_vbios_rim_measurements_available c)
    (GpuClaims.m_vbios_index_no_conflict c) mode (GpuClaims.m_version c).

(** The driver RIM: fetched, its chain, its signature, the version, the
    manufacturer. *)
Definition with_driver_rim (c : Claims3) (version_match : bool) (chain : ChainClaims.SerializableCertChainClaims)
    (signature_verified : bool) (oem_id : string) : Claims3 :=
  GpuClaims.mk_gpu_claims (GpuClaims.m_nonce c) (GpuClaims.m_hwmodel c) (GpuClaims.m_ueid c)
    oem_id (GpuClaims.m_driver_version c) (GpuClaims.m_vbios_version c)
    (GpuClaims.m_gpu_switch_pdis c) (GpuClaims.m_measurements_matching c) (GpuClaims.m_gpu_arch_match c)
    (GpuClaims.m_secure_boot c) (GpuClaims.m_debug_status c) (GpuClaims.m_mismatched_measurements c)
    (GpuClaims.m_ar_cert_chain c) (GpuClaims.m_ar_cert_chain_fwid_match c) (GpuClaims.m_ar_parsed c)
    (GpuClaims.m_gpu_ar_nonce_match c) (GpuClaims.m_ar_signature_verified c)
    true chain signature_verified version_match
    (GpuClaims.m_driver_rim_measurements_available c) (GpuClaims.m_vbios_rim_fetched c)
    (GpuClaims.m_vbios_rim_cert_chain c) (GpuClaims.m_gpu_vbios_rim_version_match c)
    (GpuClaims.m_vbios_rim_signature_verified c) (GpuClaims.m_vbios_rim_measurements_available c)
    (GpuClaims.m_vbios_index_no_conflict c) (GpuClaims.m_mode c) (GpuClaims.m_version c).

Definition with_vbios_rim (c : Claims3) (version_match : bool) (chain : ChainClaims.SerializableCertChainClaims)
    (signature_verified : bool) : Claims3 :=
  GpuClaims.mk_gpu_claims (GpuClaims.m_nonce c) (GpuClaims.m_hwmodel c) (GpuClaims.m_ueid c)
    (GpuClaims.m_oem_id c) (GpuClaims.m_driver_version c) (GpuClaims.m_vbios_version c)
    (GpuClaims.m_gpu_switch_pdis c) (GpuClaims.m_measurements_matching c) (GpuClaims.m_gpu_arch_match c)
    (GpuClaims.m_secure_boot c) (GpuClaims.m_debug_status c) (GpuClaims.m_mismatched_measurements c)
    (GpuClaims.m_ar_cert_chain c) (GpuClaims.m_ar_cert_chain_fwid_match c) (GpuClaims.m_ar_parsed c)
    (GpuClaims.m_gpu_ar_nonce_match c) (GpuClaims.m_ar_signature_verified c)
    (GpuClaims.m_driver_rim_fetched c) (GpuClaims.m_driver_rim_cert_chain c)
    (GpuClaims.m_driver_rim_signature_verified c) (GpuClaims.m_gpu_driver_rim_version_match c)
    (GpuClaims.m_driver_rim_measurements_available c) true chain version_match
    signature_verified (GpuClaims.m_vbios_rim_measurements_available c)
    (GpuClaims.m_vbios_index_no_conflict c) (GpuClaims.m_mode c) (GpuClaims.m_version c).

(** The measurements: available from both RIMs, without a conflict, and the
    result. *)
Definition with_measurements (c : Claims3) (measres : SerializableMeasresClaim) (secure_boot : option bool)
    (debug_status : option string) (mismatched : option (list Mismatch.SerializableMismatchedMeasurements)) :
    Claims3 :=
  GpuClaims.mk_gpu_claims (GpuClaims.m_nonce c) (GpuClaims.m_hwmodel c) (GpuClaims.m_ueid c)
    (GpuClaims.m_oem_id c) (GpuClaims.m_driver_version c) (GpuClaims.m_vbios_version c)
    (GpuClaims.m_gpu_switch_pdis c) measres (GpuClaims.m_gpu_arch_match c)
    secure_boot debug_status mismatched
    (GpuClaims.m_ar_cert_chain c) (GpuClaims.m_ar_cert_chain_fwid_match c) (GpuClaims.m_ar_parsed c)
    (GpuClaims.m_gpu_ar_nonce_match c) (GpuClaims.m_ar_signature_verified c)
    (GpuClaims.m_driver_rim_fetched c) (GpuClaims.m_driver_rim_cert_chain c)
    (GpuClaims.m_driver_rim_signature_verified c) (GpuClaims.m_gpu_driver_rim_version_match c)
    true (GpuClaims.m_vbios_rim_fetched c)
    (GpuClaims.m_vbios_rim_cert_chain c) (GpuClaims.m_gpu_vbios_rim_version_match c)
    (GpuClaims.m_vbios_rim_signature_verified c) true true (GpuClaims.m_mode c) (GpuClaims.m_version c).

Definition add_gpu_mode_claim (r : GpuEvidence.AttestationReport) (c : Claims3) : res Claims3 :=
  match GpuEvidence.get_opaque_data_version r with
  | Ret opaque_data_version =>
      if opaque_data_version <? MIN_OPAQUE_DATA_VERSION_FOR_FEATURE_FLAG then Ret c
      else
        let* feature_flag := GpuEvidence.get_feature_flag r in
        Ret (with_mode c (GpuEvidence.feature_flag_to_string feature_flag))
  | Err SpdmFieldNotFound => Ret c
  | Err e => Err e
  | Throw x => Throw x
  | UB => UB
  end.

(** MSR 35 is validated unless NVDEC0 is disabled. *)
Definition is_msr_35_valid (nvdec0_status : Z) : res bool :=
  if nvdec0_status =? NVDEC_STATUS_DISABLED then Ret false
  else if nvdec0_status =? NVDEC_STATUS_ENABLED then Ret true
  else Err InternalError.

Definition index_conflict (driver vbios : Rim.Measurements) : bool :=
  existsb (fun index => Rim.has_measurement_at_index driver index && Rim.has_measurement_at_index vbios index)
    (Rim.get_all_indices driver ++ Rim.get_all_indices vbios).

Definition generate_set_measurement_claims (driver vbios : Rim.Measurements)
    (r : GpuEvidence.AttestationReport) (c : Claims3) : res Claims3 :=
  check* negb (index_conflict driver vbios) else RimMeasurementConflict in
  let* nvdec0_status := GpuEvidence.get_nvdec0_status r in
  let* msr_35_valid := is_msr_35_valid nvdec0_status in
  let runtime_measurements := GpuEvidence.get_measurements r in
  let skip index := (index =? 35) && negb msr_35_valid in
  let* acc := Verify.compare_all runtime_measurements skip driver DRIVER (true, []) in
  let* acc := Verify.compare_all runtime_measurements skip vbios VBIOS acc in
  let* (measres, secure_boot, debug_status, mismatched) := Verify.measurement_result acc in
  Ret (with_measurements c measres secure_boot debug_status mismatched).

(** ** The local verifier *)

Section local.
Context {R S : Type} `{!Rim.IRimStore R} `{!IOcspHttpClient S}.

Record LocalGpuVerifier : Type := mk_local {
  m_rim_store : R;
  m_ocsp_http_client : S;
  m_detached_eat_options : Eat.DetachedEATOptions;
}.

(** [LocalGpuVerifier::create]; null pointers are [None]. *)
Definition create (rim_store : option R) (ocsp_http_client : option S)
    (detached_eat_options : Eat.DetachedEATOptions) : res LocalGpuVerifier :=
  match rim_store, ocsp_http_client with
  | None, _ => Err BadArgument
  | _, None => Err BadArgument
  | Some rim_store, Some ocsp => Ret (mk_local rim_store ocsp detached_eat_options)
  end.

Abbreviation vsm A := (sm (vstate (R:=R) (S:=S)) Error A).

Definition set_driver_rim_claims (now : Z) (driver_rim_document : Rim.RimDocument) (policy : Rim.EvidencePolicy)
    (c : Claims3) : vsm Claims3 :=
  do* driver_rim_claims := on_ocsp (Rim.generate_rim_claims now driver_rim_document policy) in
  do* cc := slift (Rim.read_chain_claims driver_rim_claims) in
  do* oemid := slift (Rim.get_manufacturer_id driver_rim_document) in
  sret (with_driver_rim c true (Verify.serialize_chain cc) (Rim.m_signature_verified driver_rim_claims) oemid).

Definition set_vbios_rim_claims (now : Z) (vbios_rim_document : Rim.RimDocument) (policy : Rim.EvidencePolicy)
    (c : Claims3) : vsm Claims3 :=
  do* vbios_rim_claims := on_ocsp (Rim.generate_rim_claims now vbios_rim_document policy) in
  do* cc := slift (Rim.read_chain_claims vbios_rim_claims) in
  sret (with_vbios_rim c true (Verify.serialize_chain cc) (Rim.m_signature_verified vbios_rim_claims)).

(** The loop body of [generate_claims_v3]. *)
Definition verify_one (t0 t1 t2 : Z) (policy : Rim.EvidencePolicy) (e : GpuEvidence.GpuEvidence) : vsm Claims3 :=
  do* report := slift (GpuEvidence.get_parsed_attestation_report e) in
  do* ec := on_ocsp (GpuEvidence.generate_gpu_evidence_claims t0 e report) in
  let c := set_gpu_evidence_claims (to_hex_string (GpuEvidence.m_nonce e)) ec in
  do* c := slift (add_gpu_mode_claim report c) in
  do* driver_rim_id := slift (GpuEvidence.get_driver_rim_id report (GpuEvidence.m_gpu_architecture e)) in
  do* driver_rim := on_rims (fun r => Rim.get_rim r driver_rim_id) in
  do* driver_version_from_rim := slift (Rim.get_version driver_rim) in
  guard* bool_decide (driver_version_from_rim = GpuEvidence.m_driver_version ec)
    else GpuEvidenceDriverRimVersionMismatch in
  do* c := set_driver_rim_claims t1 driver_rim policy c in
  do* vbios_rim_id := slift (GpuEvidence.get_vbios_rim_id report) in
  do* vbios_rim := on_rims (fun r => Rim.get_rim r vbios_rim_id) in
  do* vbios_version_from_rim := slift (Rim.get_version vbios_rim) in
  guard* bool_decide (vbios_version_from_rim = GpuEvidence.m_vbios_version ec)
    else GpuEvidenceVbiosRimVersionMismatch in
  do* c := set_vbios_rim_claims t2 vbios_rim policy c in
  do* driver_measurements := slift (Rim.get_measurements driver_rim) in
  do* vbios_measurements := slift (Rim.get_measurements vbios_rim) in
  slift (generate_set_measurement_claims driver_measurements vbios_measurements report c).

Fixpoint verify_loop (clock : nat -> Z) (k : nat) (policy : Rim.EvidencePolicy)
    (evidence : list GpuEvidence.GpuEvidence) : vsm unit :=
  match evidence with
  | [] => sret tt
  | e :: evidence =>
      do* c := verify_one (clock k) (clock (k + 1)%nat) (clock (k + 2)%nat) policy e in
      do* _ := append_claims (Collection.Gpu c) in
      verify_loop clock (k + 3) policy evidence
  end.

(** [generate_claims_v3]: the detached EAT when it is asked for, and the error
    that is reported with it. *)
Definition generate_claims_v3 (clock : nat -> Z) (options : Eat.DetachedEATOptions)
    (evidence : list GpuEvidence.GpuEvidence) (policy : Rim.EvidencePolicy) (want_detached_eat : bool) :
    vsm (option string * option Error) :=
  do* _ := verify_loop clock 0 policy evidence in
  if want_detached_eat then
    fun v => (let* (text, err) := Eat.get_detached_eat (out_claims v) options in Ret (Some text, err), v)
  else sret (None, None).

(** [verify_evidence]: another claims version is no error and no claims. *)
Definition verify_evidence (clock : nat -> Z) (options : Eat.DetachedEATOptions)
    (evidence : list GpuEvidence.GpuEvidence) (policy : Rim.EvidencePolicy) (want_detached_eat : bool) :
    vsm (option string * option Error) :=
  if bool_decide (Rim.gpu_claims_version policy = GpuClaims.V3)
  then generate_claims_v3 clock options evidence policy want_detached_eat
  else sret (None, None).

End local.

(** ** The remote verifier *)

Definition gpu_device : Verify.device :=
  Verify.mk_device Verify.NVAT_DEVICE_GPU (GpuClaims.version_to_string GpuClaims.V3)
    (fun j => let* c := GpuClaims.from_json j in Ret (Collection.Gpu c)).

Definition to_remote (e : GpuEvidence.GpuEvidence) : Verify.remote_evidence :=
  Verify.mk_remote_evidence (GpuEvidence.m_nonce e) (GpuEvidence.m_attestation_report e) (GpuEvidence.m_cert_chain e).

Definition remote_init_from_env (getenv : string -> option string) (nras_url : option string) :=
  Verify.remote_urls getenv "/v4/attest/gpu" nras_url.

Definition remote_verify_evidence `{B64 : Base64Lib} `{L : JwtLib} {C : Type} `{!Http.INvHttpClient C}
    (verifier : Verify.NvRemoteVerifier) (clock : nat -> Z) (evidence : list GpuEvidence.GpuEvidence)
    (policy : Rim.EvidencePolicy) : sm (Verify.rstate (C:=C)) Error (string * option Error) :=
  Verify.remote_verify_evidence gpu_device verifier clock
    (match evidence with e :: _ => GpuEvidence.arch_to_string (GpuEvidence.m_gpu_architecture e) | [] => "" end)
    (to_remote <$> evidence) policy.

(** ** Lemmas *)

Lemma conflict_disjoint (driver vbios : Rim.Measurements) :
  index_conflict driver vbios = false <-> driver ##ₘ vbios.
Proof.
  rewrite map_disjoint_spec. unfold index_conflict. split.
  - intros Hc i x y Hx Hy. apply not_true_iff_false in Hc. apply Hc, existsb_exists. exists i. split.
    + apply list_elem_of_In, elem_of_app. left. apply Verify.all_indices_elem. by exists x.
    + unfold Rim.has_measurement_at_index. rewrite !bool_decide_true; [done|by exists y|by exists x].
  - intros Hd. apply not_true_iff_false. intros (i & _ & Hb)%existsb_exists.
    unfold Rim.has_measurement_at_index in Hb. apply andb_true_iff in Hb as [H1%bool_decide_eq_true H2%bool_decide_eq_true].
    destruct H1 as [x Hx], H2 as [y Hy]. by eapply Hd.
Qed.

(** An index of either RIM that is compared. *)
Definition compared (driver vbios : Rim.Measurements) (status i : Z) (g : Rim.Measurement) : Prop :=
  (driver !! i = Some g \/ vbios !! i = Some g) /\ ~ (i = 35 /\ status = NVDEC_STATUS_DISABLED).

(** The result of the comparison, and the record of what does not match. *)
Definition measres_meaning (driver vbios : Rim.Measurements) (r : GpuEvidence.AttestationReport) (c : Claims3) : Prop :=
  driver ##ₘ vbios /\
  exists status, GpuEvidence.get_nvdec0_status r = Ret status /\
    (status = NVDEC_STATUS_ENABLED \/ status = NVDEC_STATUS_DISABLED) /\
    let bad i := exists g, compared driver vbios status i g /\ ~ Verify.matched (GpuEvidence.get_measurements r) i g in
    (GpuClaims.m_measurements_matching c = Success /\ GpuClaims.m_secure_boot c = Some true /\
       GpuClaims.m_debug_status c = Some "disabled" /\ GpuClaims.m_mismatched_measurements c = None /\
       (forall i g, compared driver vbios status i g -> Verify.matched (GpuEvidence.get_measurements r) i g)) \/
    (GpuClaims.m_measurements_matching c = Failure /\ GpuClaims.m_secure_boot c = None /\
       GpuClaims.m_debug_status c = None /\ (exists i, bad i) /\
       exists ms, GpuClaims.m_mismatched_measurements c = Some ms /\
         forall j, j ∈ Mismatch.m_index <$> ms <-> exists i, bad i /\ j = u32 i).

Lemma measurement_claims_sound driver vbios r c c' :
  generate_set_measurement_claims driver vbios r c = Ret c' ->
  measres_meaning driver vbios r c' /\
  exists measres sb dbg mm, c' = with_measurements c measres sb dbg mm.
Proof.
  unfold generate_set_measurement_claims.
  destruct (index_conflict driver vbios) eqn:Ec; [done|]. cbn [negb]. apply conflict_disjoint in Ec.
  intros (status & Hst & (valid & Hv & Hr)%obind_Ret)%obind_Ret.
  assert ((status = NVDEC_STATUS_ENABLED \/ status = NVDEC_STATUS_DISABLED) /\
          (valid = false <-> status = NVDEC_STATUS_DISABLED)) as [Hs Hvalid].
  { unfold is_msr_35_valid in Hv. destruct (Z.eqb_spec status NVDEC_STATUS_DISABLED) as [->|]; [injection Hv as <-; by split; [right|]|].
    destruct (Z.eqb_spec status NVDEC_STATUS_ENABLED) as [->|]; [|done]. injection Hv as <-. by split; [left|]. }
  apply obind_Ret in Hr as ([ok1 ms1] & H1 & Hr). apply obind_Ret in Hr as ([ok2 ms2] & H2 & Hr).
  apply obind_Ret in Hr as ([[[measres sb] dbg] mm] & Hm & [= <-]).
  split; [|by exists measres, sb, dbg, mm]. split; [done|]. exists status. split; [done|]. split; [done|]. cbv zeta.
  apply Verify.compare_all_sound in H1 as (n1 & -> & -> & Hn1).
  apply Verify.compare_all_sound in H2 as (n2 & -> & -> & Hn2). cbn [app andb] in Hm.
  set (runtime := GpuEvidence.get_measurements r) in *.
  assert (forall j, j ∈ Mismatch.m_index <$> n1 ++ n2 <->
     exists i, (exists g, compared driver vbios status i g /\ ~ Verify.matched runtime i g) /\ j = u32 i) as Hbad.
  { intros j. rewrite fmap_app, elem_of_app, Hn1, Hn2. unfold Verify.mismatching, compared.
    assert (forall i, (i =? 35) && negb valid = false <-> ~ (i = 35 /\ status = NVDEC_STATUS_DISABLED)) as Hskip.
    { intros i. rewrite <- Hvalid. destruct valid, (Z.eqb_spec i 35); cbn; naive_solver. }
    setoid_rewrite Hskip. naive_solver. }
  apply Verify.measurement_result_Ret in Hm as [(Hnil & -> & -> & -> & ->)|(Hnil & -> & -> & -> & ->)].
  - left. cbn. split_and!; try done. intros i g Hc.
    destruct (Verify.matched_dec runtime i g) as [|Hno]; [done|exfalso].
    assert (u32 i ∈ Mismatch.m_index <$> n1 ++ n2) as Hin by (apply Hbad; by exists i; eauto).
    rewrite Hnil in Hin. by apply elem_of_nil in Hin.
  - right. cbn. split_and!; try done; [|by exists (n1 ++ n2)].
    destruct (n1 ++ n2) as [|m ms] eqn:E; [done|].
    destruct (proj1 (Hbad (Mismatch.m_index m))) as (i & Hi & _); [by left|]. by exists i.
  - intros [E1%bool_decide_eq_true E2%bool_decide_eq_true]%andb_true_iff. by rewrite E1, E2.
  - rewrite andb_false_iff. intros [E%bool_decide_eq_false|E%bool_decide_eq_false] [E1 E2]%app_eq_nil; done.
Qed.

(** *** One item of evidence *)

Section local_facts.
Context {R S : Type} `{!Rim.IRimStore R} `{!IOcspHttpClient S}.

(** The claims carry what was established: identity and versions, the three
    chains, and every check as passed. *)
Definition claims_reflect (e : GpuEvidence.GpuEvidence) (ec : GpuEvidence.GpuEvidenceClaims)
    (driver_chain vbios_chain : CertChainClaims) (c : Claims3) : Prop :=
  GpuClaims.m_nonce c = to_hex_string (GpuEvidence.m_nonce e) /\
  GpuClaims.m_driver_version c = GpuEvidence.m_driver_version ec /\
  GpuClaims.m_vbios_version c = GpuEvidence.m_vbios_version ec /\
  GpuClaims.m_hwmodel c = GpuEvidence.m_hwmodel (GpuEvidence.m_attestation_report_claims ec) /\
  GpuClaims.m_ueid c = GpuEvidence.m_ueid (GpuEvidence.m_attestation_report_claims ec) /\
  GpuClaims.m_ar_cert_chain c =
    Verify.serialize_chain (GpuEvidence.m_cert_chain_claims (GpuEvidence.m_attestation_report_claims ec)) /\
  GpuClaims.m_driver_rim_cert_chain c = Verify.serialize_chain driver_chain /\
  GpuClaims.m_vbios_rim_cert_chain c = Verify.serialize_chain vbios_chain /\
  forallb id [GpuClaims.m_gpu_arch_match c; GpuClaims.m_ar_cert_chain_fwid_match c; GpuClaims.m_ar_parsed c;
    GpuClaims.m_gpu_ar_nonce_match c; GpuClaims.m_ar_signature_verified c; GpuClaims.m_driver_rim_fetched c;
    GpuClaims.m_gpu_driver_rim_version_match c; GpuClaims.m_driver_rim_measurements_available c;
    GpuClaims.m_vbios_rim_fetched c; GpuClaims.m_gpu_vbios_rim_version_match c;
    GpuClaims.m_vbios_rim_measurements_available c; GpuClaims.m_vbios_index_no_conflict c] = true.

(** What the verifier establishes of an item of evidence before it has claims
    for it. *)
Definition gpu_verified (t0 t1 t2 : Z) (policy : Rim.EvidencePolicy) (e : GpuEvidence.GpuEvidence)
    (v v' : vstate (R:=R) (S:=S)) (c : Claims3) : Prop :=
  exists r ec driver_id driver r1 vbios_id vbios s1 s2 driver_chain vbios_chain dm vm,
    GpuEvidence.get_parsed_attestation_report e = Ret r /\
    GpuEvidence.claims_hold t0 e r (ocsp v) s1 ec /\
    GpuEvidence.get_driver_rim_id r (GpuEvidence.m_gpu_architecture e) = Ret driver_id /\
    Rim.get_rim (rims v) driver_id = (Ret driver, r1) /\
    Rim.get_version driver = Ret (GpuEvidence.m_driver_version ec) /\
    Verify.rim_checked t1 policy driver s1 s2 driver_chain (GpuClaims.m_driver_rim_signature_verified c) /\
    GpuEvidence.get_vbios_rim_id r = Ret vbios_id /\
    Rim.get_rim r1 vbios_id = (Ret vbios, rims v') /\
    Rim.get_version vbios = Ret (GpuEvidence.m_vbios_version ec) /\
    Verify.rim_checked t2 policy vbios s2 (ocsp v') vbios_chain (GpuClaims.m_vbios_rim_signature_verified c) /\
    Rim.get_measurements driver = Ret dm /\ Rim.get_measurements vbios = Ret vm /\
    measres_meaning dm vm r c /\ claims_reflect e ec driver_chain vbios_chain c.

Lemma add_mode_Ret r c c' : add_gpu_mode_claim r c = Ret c' -> exists mode, c' = with_mode c mode.
Proof.
  unfold add_gpu_mode_claim, GpuEvidence.get_opaque_data_version.
  destruct (_ <? _); [intros [= <-]; exists (GpuClaims.m_mode c); by destruct c|].
  intros (f & _ & [= <-])%obind_Ret. eauto.
Qed.

Lemma set_driver_Ret t d policy c (v : vstate (R:=R) (S:=S)) c' v' :
  set_driver_rim_claims t d policy c v = (Ret c', v') ->
  exists cc sig oem, Verify.rim_checked t policy d (ocsp v) (ocsp v') cc sig /\
    rims v' = rims v /\ out_claims v' = out_claims v /\
    c' = with_driver_rim c true (Verify.serialize_chain cc) sig oem.
Proof.
  intros (rc & v1 & (Hrc & Hr & Ho)%on_ocsp_Ret & Hn)%sbind_Ret.
  apply sbind_Ret in Hn as (cc & v2 & [Hcc ->]%slift_Ret & Hn).
  apply sbind_Ret in Hn as (oem & v2 & [_ ->]%slift_Ret & [= <- <-]).
  exists cc, (Rim.m_signature_verified rc), oem. split_and!; try done. by eapply Verify.rim_claims_checked.
Qed.

Lemma set_vbios_Ret t d policy c (v : vstate (R:=R) (S:=S)) c' v' :
  set_vbios_rim_claims t d policy c v = (Ret c', v') ->
  exists cc sig, Verify.rim_checked t policy d (ocsp v) (ocsp v') cc sig /\
    rims v' = rims v /\ out_claims v' = out_claims v /\
    c' = with_vbios_rim c true (Verify.serialize_chain cc) sig.
Proof.
  intros (rc & v1 & (Hrc & Hr & Ho)%on_ocsp_Ret & Hn)%sbind_Ret.
  apply sbind_Ret in Hn as (cc & v2 & [Hcc ->]%slift_Ret & [= <- <-]).
  exists cc, (Rim.m_signature_verified rc). split_and!; try done. by eapply Verify.rim_claims_checked.
Qed.

Lemma verify_one_sound t0 t1 t2 policy e v c v' :
  verify_one t0 t1 t2 policy e v = (Ret c, v') ->
  gpu_verified t0 t1 t2 policy e v v' c /\ out_claims v' = out_claims v.
Proof.
  unfold verify_one. intros (r & v0 & [Hr ->]%slift_Ret & Hn)%sbind_Ret.
  apply sbind_Ret in Hn as (ec & v1 & (Hec%GpuEvidence.evidence_claims_sound & Hr1 & Ho1)%on_ocsp_Ret & Hn).
  apply sbind_Ret in Hn as (c1 & v2 & [[mode ->]%add_mode_Ret ->]%slift_Ret & Hn).
  apply sbind_Ret in Hn as (did & v2 & [Hdid ->]%slift_Ret & Hn).
  apply sbind_Ret in Hn as (driver & v2 & (Hd & Hs2 & Ho2)%on_rims_Ret & Hn).
  apply sbind_Ret in Hn as (dver & v3 & [Hdv ->]%slift_Ret & Hn).
  case_bool_decide as Ed; [subst dver|done].
  apply sbind_Ret in Hn as (c2 & v3 & (dcc & dsig & oem & Hdc & Hr3 & Ho3 & ->)%set_driver_Ret & Hn).
  apply sbind_Ret in Hn as (vid & v4 & [Hvid ->]%slift_Ret & Hn).
  apply sbind_Ret in Hn as (vbios & v4 & (Hb & Hs4 & Ho4)%on_rims_Ret & Hn).
  apply sbind_Ret in Hn as (vver & v5 & [Hvv ->]%slift_Ret & Hn).
  case_bool_decide as Ev; [subst vver|done].
  apply sbind_Ret in Hn as (c3 & v5 & (vcc & vsig & Hvc & Hr5 & Ho5 & ->)%set_vbios_Ret & Hn).
  apply sbind_Ret in Hn as (dm & v6 & [Hdm ->]%slift_Ret & Hn).
  apply sbind_Ret in Hn as (vm & v6 & [Hvm ->]%slift_Ret & Hn).
  apply slift_Ret in Hn as [(Hmeas & measres & sb & dbg & mm & ->)%measurement_claims_sound ->].
  split; [|congruence]. rewrite Hr1 in Hd. rewrite Hs2 in Hdc. rewrite Hr3 in Hb. rewrite Hs4 in Hvc.
  exists r, ec, did, driver, (rims v2), vid, vbios, (ocsp v1), (ocsp v3), dcc, vcc, dm, vm.
  destruct (GpuEvidence.ch_flags _ _ _ _ _ _ Hec) as (F1 & F2 & F3 & F4 & F5).
  rewrite Hr5. unfold claims_reflect. split_and!; try done.
  cbn. by rewrite F1, F2, F3, F4, F5.
Qed.

(** The loop: one more claim for every item, each verified from the state its
    predecessors left. *)
Inductive all_verified (clock : nat -> Z) (policy : Rim.EvidencePolicy) :
    nat -> list GpuEvidence.GpuEvidence -> vstate (R:=R) (S:=S) -> list Collection.Claims -> Prop :=
| all_nil k v : all_verified clock policy k [] v []
| all_cons k e es v v1 c cs :
    gpu_verified (clock k) (clock (k + 1)%nat) (clock (k + 2)%nat) policy e v v1 c ->
    all_verified clock policy (k + 3) es (mk_vstate (rims v1) (ocsp v1)
      (out_claims v1 ++ [Collection.Gpu c])) cs ->
    all_verified clock policy k (e :: es) v (Collection.Gpu c :: cs).

Lemma verify_loop_sound clock policy es k v v' :
  verify_loop clock k policy es v = (Ret tt, v') ->
  exists cs, out_claims v' = out_claims v ++ cs /\ all_verified clock policy k es v cs.
Proof.
  revert k v. induction es as [|e es IH]; intros k v; cbn [verify_loop].
  { intros [= <-]. exists []. rewrite app_nil_r. split; [done|constructor]. }
  intros (c & v1 & [Hv Ho]%verify_one_sound & Hn)%sbind_Ret.
  apply sbind_Ret in Hn as ([] & v2 & [= <-] & Hn). apply IH in Hn as (cs & Hcs & Hall).
  exists (Collection.Gpu c :: cs). cbn in Hcs. rewrite Hcs, <- Ho. unfold Collection.append.
  rewrite <- app_assoc. split; [done|]. by eapply all_cons.
Qed.

End local_facts.

(** The local verification as a whole. *)
Lemma local_gpu_sound {R S : Type} `{!Rim.IRimStore R} `{!IOcspHttpClient S} clock options evidence policy want
    (v : vstate (R:=R) (S:=S)) text err v' :
  Rim.gpu_claims_version policy = GpuClaims.V3 ->
  verify_evidence clock options evidence policy want v = (Ret (text, err), v') ->
  exists cs, out_claims v' = out_claims v ++ cs /\ length cs = length evidence /\
    all_verified clock policy 0 evidence v cs /\
    (if want then exists t, text = Some t /\ Eat.get_detached_eat (out_claims v') options = Ret (t, err)
     else text = None /\ err = None).
Proof.
  intros Hp. unfold verify_evidence. rewrite bool_decide_true by done. unfold generate_claims_v3.
  intros ([] & v1 & (cs & Hcs & Hall)%verify_loop_sound & Hn)%sbind_Ret.
  assert (v' = v1 /\ if want then exists t, text = Some t /\ Eat.get_detached_eat (out_claims v1) options = Ret (t, err)
     else text = None /\ err = None) as [-> Hw].
  { destruct want; [|by injection Hn as <- <- <-].
    injection Hn as Hg <-. split; [done|]. apply obind_Ret in Hg as ([t e'] & Hg & [= <- <-]). eauto. }
  exists cs. split_and!; try done. clear -Hall. induction Hall; cbn; auto.
Qed.

(** ** Properties *)

(** C6: when local verification returns, one claim was appended for every item
    of evidence, and for each item: its report was parsed and authenticated,
    its nonce and firmware id match, both RIMs came from the store under the
    identifiers the report gives, carry the report's versions and were
    verified as the policy asks, and the claims say exactly this, with the
    measurement result meaning that every compared golden measurement has the
    runtime value among its alternatives.  The detached EAT is made of these
    claims. *)
Theorem local_gpu_verify_sound {R S : Type} `{!Rim.IRimStore R} `{!IOcspHttpClient S} clock options evidence policy want
    (v : vstate (R:=R) (S:=S)) text err v' :
  Rim.gpu_claims_version policy = GpuClaims.V3 ->
  verify_evidence clock options evidence policy want v = (Ret (text, err), v') ->
  exists cs, out_claims v' = out_claims v ++ cs /\ length cs = length evidence /\
    all_verified clock policy 0 evidence v cs /\
    (if want then exists t, text = Some t /\ Eat.get_detached_eat (out_claims v') options = Ret (t, err)
     else text = None /\ err = None).
Proof. apply local_gpu_sound. Qed.

(** C8: the measurement result is a success exactly when every golden
    measurement of the driver and the VBIOS RIM, index 35 aside while NVDEC0
    is disabled, has the runtime value of its index among its alternatives;
    otherwise it is a failure, with neither secure boot nor debug status
    claimed, that lists exactly the indices that do not match.  An index in
    both RIMs is refused. *)
Theorem gpu_measres_iff driver vbios r c c' :
  generate_set_measurement_claims driver vbios r c = Ret c' ->
  measres_meaning driver vbios r c' /\
  (forall i, GpuEvidence.get_measurements r !! i =
     Records.m_value <$> SpdmResp.m_parsed_measurement_records (GpuEvidence.m_spdm_response r) !! (i + 1)).
Proof.
  intros [Hm _]%measurement_claims_sound. split; [done|]. intros i. apply GpuEvidence.get_measurements_lookup.
Qed.

(** P: a policy that does not verify the RIM's certificate chain makes the
    verifier read the chain status that was never initialized: it never
    produces driver claims, it is undefined whenever the RIM's other claims
    can be generated. *)
Theorem unverified_rim_chain_undefined {R S : Type} `{!Rim.IRimStore R} `{!IOcspHttpClient S} now d policy c
    (v : vstate (R:=R) (S:=S)) :
  Rim.verify_rim_cert_chain policy = false ->
  (forall c' v', set_driver_rim_claims now d policy c v <> (Ret c', v')) /\
  ((Rim.verify_rim_signature policy = true -> Rim.verify_signature d = Ret tt) ->
   (set_driver_rim_claims now d policy c v).1 = UB).
Proof.
  intros Hp. unfold set_driver_rim_claims.
  assert (forall rc v1, on_ocsp (Rim.generate_rim_claims now d policy) v = (Ret rc, v1) ->
            Rim.read_chain_claims rc = UB) as Hub.
  { intros rc v1 (Hrc & _)%on_ocsp_Ret. by eapply Verify.rim_claims_unchecked. }
  split.
  - intros c' v' (rc & v1 & Hrc & (cc & v2 & [Hcc _]%slift_Ret & _)%sbind_Ret)%sbind_Ret.
    rewrite (Hub _ _ Hrc) in Hcc. done.
  - intros Hsig. destruct (on_ocsp (Rim.generate_rim_claims now d policy) v) as [o v1] eqn:E.
    assert (exists rc, o = Ret rc) as [rc ->].
    { unfold on_ocsp, Rim.generate_rim_claims in E. rewrite Hp in E.
      destruct (Rim.verify_rim_signature policy); unfold sbind, slift, sret in E.
      - rewrite Hsig in E by done. injection E as <- _. eauto.
      - injection E as <- _. eauto. }
    unfold sbind. rewrite E. unfold slift. by rewrite (Hub _ _ eq_refl).
Qed.

End gpu_verify.

(** *** The small report against two small RIMs: the driver's has the
    measurement of index 1, the VBIOS's has none. *)

#[local] Instance toy_rims : Rim.IRimStore (XML:=Rim.toy_xml) unit :=
  fun u rim_id =>
    (Rim.create_from_rim_data (XML:=Rim.toy_xml)
       (if String.prefix "NV_GPU_DRIVER" rim_id then "10a0b" else "0") (Rim.RimDocument_default (XML:=Rim.toy_xml)), u).

Definition toy_vstate : vstate (R:=unit) (S:=Ocsp.RawProofOcspClient (OSSL:=toy_openssl)) :=
  mk_vstate tt (Ocsp.mk_raw (OSSL:=toy_openssl) [] 1500) [].

Definition toy_verify :=
  verify_evidence (OSSL:=toy_openssl) (XML:=Rim.toy_xml) (env:=toy_env) (fun _ => 1500) toy_options
    [GpuEvidence.toy_evidence] Rim.EvidencePolicy_default false toy_vstate.

Example toy_verify_answer : toy_verify.1 = Ret (None, None).
Proof. vm_compute. reflexivity. Qed.

Lemma local_gpu_verify_sound_witness :
  exists cs, out_claims toy_verify.2 = cs /\ length cs = 1%nat.
Proof.
  destruct (local_gpu_verify_sound (OSSL:=toy_openssl) (XML:=Rim.toy_xml) (env:=toy_env) (fun _ => 1500) toy_options
    [GpuEvidence.toy_evidence] Rim.EvidencePolicy_default false toy_vstate None None toy_verify.2)
    as (cs & H1 & H2 & _).
  - done.
  - rewrite <- toy_verify_answer. apply surjective_pairing.
  - exists cs. exact (conj H1 H2).
Defined.

(** Golden measurements for the report's runtime value. *)
Definition toy_golden (value : Z) : Rim.Measurements :=
  {[1 := Rim.mk_measurement true 1 4 1 [[10; value]] "m"]}.

Definition toy_measres_run : res Claims3 :=
  let* r := GpuEvidence.create (OSSL:=toy_openssl) GpuEvidence.toy_data GpuEvidence.toy_chain_text GpuEvidence.Hopper in
  generate_set_measurement_claims (OSSL:=toy_openssl) (toy_golden 11) ∅ r GpuClaims.default.

Example toy_measres : (match toy_measres_run with Ret c => GpuClaims.m_secure_boot c | _ => None end) = Some true.
Proof. vm_compute. reflexivity. Qed.

Lemma gpu_measres_iff_witness :
  exists r c, measres_meaning (OSSL:=toy_openssl) (toy_golden 11) ∅ r c /\ GpuClaims.m_secure_boot c = Some true.
Proof.
  pose proof toy_measres as Hs. destruct toy_measres_run as [c|e|x|] eqn:E; [|discriminate Hs..].
  unfold toy_measres_run in E. apply obind_Ret in E as (r & _ & E).
  destruct (gpu_measres_iff (OSSL:=toy_openssl) (toy_golden 11) ∅ r GpuClaims.default c E) as [H _].
  exists r, c. exact (conj H Hs).
Defined.

Lemma unverified_rim_chain_undefined_witness :
  (set_driver_rim_claims (OSSL:=toy_openssl) (XML:=Rim.toy_xml) 1500 (Rim.RimDocument_default (XML:=Rim.toy_xml))
     (Rim.mk_policy GpuClaims.V3 SwitchClaims.V3 true false) GpuClaims.default toy_vstate).1 = UB.
Proof.
  apply (unverified_rim_chain_undefined (OSSL:=toy_openssl) (XML:=Rim.toy_xml) 1500
    (Rim.RimDocument_default (XML:=Rim.toy_xml)) (Rim.mk_policy GpuClaims.V3 SwitchClaims.V3 true false)
    GpuClaims.default toy_vstate); done.
Defined.

End GpuVerify.
