(* ===== verification/SharedStores.v ===== *)
(** * SharedStores: verifiers in several threads over shared caching stores

    What examples/parallel-verification/main.c does with the SDK: threads that
    verify evidence with one verifier, whose RIM store and OCSP client keep
    caches (src/rim.cpp, src/nv_ocsp.cpp).  A call of a caching store is three
    steps, the look-up in the cache, the request to the inner store and the
    insertion, and other threads run between them; each step is atomic (the
    cache by CacheThreads, the inner store because its client is [const] and
    makes its own curl handle).  A verifying thread is the code of GpuVerify
    over stores that replay the answers it has had so far: where the answers
    end, it makes its next call. *)

From S2P Require Import Prelude Errors Utils OpenSsl NvCache Threads Ocsp X509Chain Claims DetachedEat Rim.
From S2P Require Import GpuEvidence Verify GpuVerify.

Module SharedStores.

Section stores.
Context `{OSSL : OpenSSL} `{XML : LibXml2}.
Context {R S C1 C2 : Type} `{!Rim.IRimStore R} `{!IOcspHttpClient S} `{!INvCache C1 string} `{!INvCache C2 NvOcspResponse}.

(** ** What the threads share

    The two inner stores, the two caches, and what the inner stores have given
    so far (an account of the run, which no code reads). *)
Record shared : Type := mk_shared {
  rim_inner : R;
  rim_cache : C1;
  ocsp_inner : S;
  ocsp_cache : C2;
  given_rims : list (string * string);
  given_ocsp : list (string * NvOcspResponse);
}.

Definition with_rim_cache (s : shared) (c : C1) : shared :=
  mk_shared (rim_inner s) c (ocsp_inner s) (ocsp_cache s) (given_rims s) (given_ocsp s).
Definition with_ocsp_cache (s : shared) (c : C2) : shared :=
  mk_shared (rim_inner s) (rim_cache s) (ocsp_inner s) c (given_rims s) (given_ocsp s).

(** ** Calls in steps *)

Abbreviation steps A := (prog Empty_set shared A).

Definition atomically {A : Type} (f : shared -> A * shared) : steps A :=
  Act [] (fun s => let '(a, s') := f s in Some (s', Done a)).

(** The look-up, the request and the insertion of
    [InMemoryCachingRimStoreImpl::get_rim]. *)
Definition rim_lookup (t : Z) (rim_id : string) (s : shared) : res string * shared :=
  match cache_get (rim_cache s) rim_id t with
  | Ret (data, cache) => (Ret data, with_rim_cache s cache)
  | Err e => (Err e, s)
  | Throw x => (Throw x, s)
  | UB => (UB, s)
  end.

Definition rim_request (rim_id : string) (s : shared) : res Rim.RimDocument * shared :=
  let '(r, inner) := Rim.get_rim (rim_inner s) rim_id in
  (r, mk_shared inner (rim_cache s) (ocsp_inner s) (ocsp_cache s)
        (match r with Ret d => (rim_id, Rim.m_rim_data d) :: given_rims s | _ => given_rims s end) (given_ocsp s)).

Definition rim_insert (now : nat -> Z) (rim_id : string) (d : Rim.RimDocument) (s : shared) : res Rim.RimDocument * shared :=
  match cache_put (rim_cache s) rim_id (Rim.m_rim_data d) (Z.of_nat (String.length (Rim.m_rim_data d))) now with
  | Ret cache => (Ret d, with_rim_cache s cache)
  | Err e => (Err e, s)
  | Throw x => (Throw x, s)
  | UB => (UB, s)
  end.

Definition rim_call (t : Z) (now : nat -> Z) (rim_id : string) : steps (res Rim.RimDocument) :=
  pbind (atomically (rim_lookup t rim_id)) (fun found =>
    match found with
    | Ret data => Done (Rim.create_from_rim_data data Rim.RimDocument_default)
    | Err e =>
        if bool_decide (e = CacheObjectNotFound) then
          pbind (atomically (rim_request rim_id)) (fun r =>
            match r with
            | Ret d => atomically (rim_insert now rim_id d)
            | r => Done r
            end)
        else Done UB
    | Throw x => Done (Throw x)
    | UB => Done UB
    end).

(** The arguments of [get_ocsp_response]. *)
Record ocsp_args : Type := mk_args {
  subject_cert : option X509;
  issuer_cert : option X509;
  intermediates : list X509;
  trust_store : option X509_STORE;
}.

Definition ocsp_lookup (t0 : Z) (key : string) (s : shared) : res NvOcspResponse * shared :=
  match cache_get (ocsp_cache s) key t0 with
  | Ret (r, cache) => (Ret r, with_ocsp_cache s cache)
  | Err e => (Err e, s)
  | Throw x => (Throw x, s)
  | UB => (UB, s)
  end.

Definition ocsp_request (key : string) (a : ocsp_args) (s : shared) : res NvOcspResponse * shared :=
  let '(r, inner) := get_ocsp_response (ocsp_inner s) (subject_cert a) (issuer_cert a) (intermediates a) (trust_store a) in
  (r, mk_shared (rim_inner s) (rim_cache s) inner (ocsp_cache s) (given_rims s)
        (match r with Ret o => (key, o) :: given_ocsp s | _ => given_ocsp s end)).

Definition ocsp_insert (now : nat -> Z) (key : string) (r : NvOcspResponse) (s : shared) : res NvOcspResponse * shared :=
  match cache_put (ocsp_cache s) key r (Ocsp.NV_OCSP_RESPONSE_SIZE_BYTES + Z.of_nat (String.length key)) now with
  | Ret cache => (Ret r, with_ocsp_cache s cache)
  | Err e => (Err e, s)
  | Throw x => (Throw x, s)
  | UB => (UB, s)
  end.

(** [NvHttpOcspCacheClient::get_ocsp_response] from the look-up on. *)
Definition ocsp_call (t0 t1 : Z) (now : nat -> Z) (key : string) (a : ocsp_args) : steps (res NvOcspResponse) :=
  let refresh :=
    pbind (atomically (ocsp_request key a)) (fun r =>
      match r with
      | Ret o => atomically (ocsp_insert now key o)
      | r => Done r
      end) in
  pbind (atomically (ocsp_lookup t0 key)) (fun found =>
    match found with
    | Ret cached => if nextupd cached <? t1 then refresh else Done (Ret cached)
    | Err e => if bool_decide (e = CacheObjectNotFound) then refresh else Done (Err e)
    | Throw x => Done (Throw x)
    | UB => Done UB
    end).

(** *** Alone, they are the sequential calls *)

Fixpoint alone {A : Type} (p : steps A) (s : shared) : option (A * shared) :=
  match p with
  | Done a => Some (a, s)
  | Act _ f => match f s with Some (s', p') => alone p' s' | None => None end
  end.

Definition rim_view (s : shared) : Rim.InMemoryCachingRimStoreImpl (S:=R) (C:=C1) :=
  Rim.mk_caching (rim_inner s) (rim_cache s).

Definition ocsp_view (s : shared) : Ocsp.NvHttpOcspCacheClient (S:=S) (C:=C2) :=
  Ocsp.mk_cache_client (ocsp_inner s) (ocsp_cache s).

Lemma rim_call_alone t now rim_id s :
  exists s', alone (rim_call t now rim_id) s = Some ((Rim.caching_get_rim t now (rim_view s) rim_id).1, s') /\
    rim_view s' = (Rim.caching_get_rim t now (rim_view s) rim_id).2 /\ ocsp_view s' = ocsp_view s.
Proof.
  unfold rim_call, Rim.caching_get_rim, rim_view, ocsp_view. cbn. unfold rim_lookup.
  destruct (cache_get (rim_cache s) rim_id t) as [[data cache]|e|x|]; cbn; [by eexists| |by eexists..].
  case_bool_decide; cbn; [|by eexists]. unfold rim_request.
  destruct (Rim.get_rim (rim_inner s) rim_id) as [r inner]. destruct r as [d|e'|x|]; cbn; [|by eexists..].
  unfold rim_insert. cbn. by destruct (cache_put _ _ _ _ now); cbn; eexists.
Qed.

Lemma ocsp_call_alone t0 t1 now key a s :
  Ocsp.get_cache_key (subject_cert a) (issuer_cert a) = Ret key ->
  let seq := Ocsp.cache_get_ocsp_response t0 t1 now (ocsp_view s) (subject_cert a) (issuer_cert a) (intermediates a) (trust_store a) in
  exists s', alone (ocsp_call t0 t1 now key a) s = Some (seq.1, s') /\ ocsp_view s' = seq.2 /\ rim_view s' = rim_view s.
Proof.
  intros Hk seq. subst seq. unfold ocsp_call, Ocsp.cache_get_ocsp_response, ocsp_view, rim_view. rewrite Hk. cbn.
  unfold ocsp_lookup, Ocsp.refresh.
  destruct (cache_get (ocsp_cache s) key t0) as [[cached cache]|e|x|]; cbn; [| |by eexists..].
  - destruct (nextupd cached <? t1); cbn; [|by eexists]. unfold ocsp_request. cbn.
    destruct (get_ocsp_response (ocsp_inner s) _ _ _ _) as [r inner]. destruct r as [o|e'|x|]; cbn; [|by eexists..].
    unfold ocsp_insert. cbn. by destruct (cache_put _ _ _ _ now); cbn; eexists.
  - case_bool_decide; cbn; [|by eexists]. unfold ocsp_request.
    destruct (get_ocsp_response (ocsp_inner s) _ _ _ _) as [r inner]. destruct r as [o|e'|x|]; cbn; [|by eexists..].
    unfold ocsp_insert. cbn. by destruct (cache_put _ _ _ _ now); cbn; eexists.
Qed.

(** ** Verifying threads *)

(** Stores that replay answers; where the answers end, or do not fit the
    question, the run stops, and [asked] keeps the question. *)
Record RimOracle : Type := mk_rim_oracle {
  ro_answers : list (string * res Rim.RimDocument);
  ro_asked : option string;
}.

#[global] Instance rim_oracle : Rim.IRimStore RimOracle := fun o rim_id =>
  match ro_answers o with
  | [] => (UB, mk_rim_oracle [] (Some rim_id))
  | (rim_id', r) :: rest =>
      if bool_decide (rim_id = rim_id') then (r, mk_rim_oracle rest (ro_asked o)) else (UB, o)
  end.

Record OcspOracle : Type := mk_ocsp_oracle {
  oo_answers : list (string * res NvOcspResponse);
  oo_asked : option ocsp_args;
}.

(** The cache key is made before the look-up; without one there is no call. *)
#[global] Instance ocsp_oracle : IOcspHttpClient OcspOracle := fun o subject issuer im st =>
  match Ocsp.get_cache_key subject issuer with
  | Ret key =>
      match oo_answers o with
      | [] => (UB, mk_ocsp_oracle [] (Some (mk_args subject issuer im st)))
      | (key', r) :: rest =>
          if bool_decide (key = key') then (r, mk_ocsp_oracle rest (oo_asked o)) else (UB, o)
      end
  | Err e => (Err e, o)
  | Throw x => (Throw x, o)
  | UB => (UB, o)
  end.

Abbreviation vview := (vstate (R:=RimOracle) (S:=OcspOracle)).

Inductive request : Type :=
| RimRequest (rim_id : string)
| OcspRequest (key : string) (a : ocsp_args).

Inductive reply : Type :=
| RimReply (rim_id : string) (r : res Rim.RimDocument)
| OcspReply (key : string) (r : res NvOcspResponse).

(** A thread: the answers it has had, and the call it is in. *)
Record vthread : Type := mk_vthread {
  rim_log : list (string * res Rim.RimDocument);
  ocsp_log : list (string * res NvOcspResponse);
  current : option (steps reply);
}.

Definition new_vthread : vthread := mk_vthread [] [] None.

Definition view (th : vthread) : vview :=
  mk_vstate (mk_rim_oracle (rim_log th) None) (mk_ocsp_oracle (ocsp_log th) None) [].

Section jobs.
Context {X : Type}.

(** What a thread runs. *)
Definition job : Type := sm vview Error X.

Definition asks (j : job) (th : vthread) : option request :=
  let v := (j (view th)).2 in
  match ro_asked (rims v), oo_asked (ocsp v) with
  | Some rim_id, _ => Some (RimRequest rim_id)
  | None, Some a =>
      match Ocsp.get_cache_key (subject_cert a) (issuer_cert a) with Ret key => Some (OcspRequest key a) | _ => None end
  | None, None => None
  end.

(** The readings of the clock in a call. *)
Record times : Type := mk_times { at_lookup : Z; at_check : Z; at_insert : nat -> Z }.

Definition start_call (t : times) (q : request) : steps reply :=
  match q with
  | RimRequest rim_id => pbind (rim_call (at_lookup t) (at_insert t) rim_id) (fun r => Done (RimReply rim_id r))
  | OcspRequest key a =>
      pbind (ocsp_call (at_lookup t) (at_check t) (at_insert t) key a) (fun r => Done (OcspReply key r))
  end.

Definition logged (th : vthread) (r : reply) : vthread :=
  match r with
  | RimReply rim_id r => mk_vthread (rim_log th ++ [(rim_id, r)]) (ocsp_log th) None
  | OcspReply key r => mk_vthread (rim_log th) (ocsp_log th ++ [(key, r)]) None
  end.

Definition in_call (th : vthread) (p : steps reply) : vthread := mk_vthread (rim_log th) (ocsp_log th) (Some p).

(** One step of one thread: start the next call, a step of the call, or go on
    with its result. *)
Inductive vstep (jobs : list job) : list vthread * shared -> list vthread * shared -> Prop :=
| v_start i j th q t ths s :
    jobs !! i = Some j -> ths !! i = Some th -> current th = None -> asks j th = Some q ->
    vstep jobs (ths, s) (<[i := in_call th (start_call t q)]> ths, s)
| v_call i th l f p s' ths s :
    ths !! i = Some th -> current th = Some (Act l f) -> f s = Some (s', p) ->
    vstep jobs (ths, s) (<[i := in_call th p]> ths, s')
| v_return i th r ths s :
    ths !! i = Some th -> current th = Some (Done r) ->
    vstep jobs (ths, s) (<[i := logged th r]> ths, s).

(** A thread has run to its end. *)
Definition ended (j : job) (th : vthread) (r : outcome Error X) (v : vview) : Prop :=
  current th = None /\ asks j th = None /\ j (view th) = (r, v).

(** A step of thread [i], for examples: the thread stays when it has ended. *)
Definition vexec (jobs : list job) (t : times) (c : list vthread * shared) (i : nat) : list vthread * shared :=
  match jobs !! i, c.1 !! i with
  | Some j, Some th =>
      match current th with
      | None => match asks j th with Some q => (<[i := in_call th (start_call t q)]> c.1, c.2) | None => c end
      | Some (Act _ f) => match f c.2 with Some (s', p) => (<[i := in_call th p]> c.1, s') | None => c end
      | Some (Done r) => (<[i := logged th r]> c.1, c.2)
      end
  | _, _ => c
  end.

Lemma vexec_steps jobs t schedule c : rtc (vstep jobs) c (foldl (vexec jobs t) c schedule).
Proof.
  revert c. induction schedule as [|i schedule IH]; intros c; [done|]. cbn. etrans; [|apply IH].
  unfold vexec. destruct c as [ths s]. cbn. destruct (jobs !! i) as [j|] eqn:Ej; [|done].
  destruct (ths !! i) as [th|] eqn:Et; [|done]. destruct (current th) as [[r|l f]|] eqn:Ec.
  - apply rtc_once. by eapply v_return.
  - destruct (f s) as [[s' p]|] eqn:Ef; [|done]. apply rtc_once. by eapply v_call.
  - destruct (asks j th) as [q|] eqn:Eq; [|done]. apply rtc_once. by eapply v_start.
Qed.

End jobs.

(** ** What holds of the shared state at any time *)

Record good_shared (s : shared) : Prop := {
  good_rim_cache : cache_inv (rim_cache s);
  good_ocsp_cache : cache_inv (ocsp_cache s);
  good_rims rim_id data : cache_content (rim_cache s) rim_id = Some data -> (rim_id, data) ∈ given_rims s;
  good_ocsp key r : cache_content (ocsp_cache s) key = Some r -> (key, r) ∈ given_ocsp s;
}.

Definition grows (s s' : shared) : Prop := given_rims s ⊆ given_rims s' /\ given_ocsp s ⊆ given_ocsp s'.

#[global] Instance grows_preorder : PreOrder grows.
Proof. split; [by intros s|]. intros a b c [H1 H2] [H3 H4]. split; by etrans. Qed.

(** A call in progress, relying on the others: it has a step in every good
    later state, leaves a good one, and in the end has a result with [Q]. *)
Fixpoint safe {A : Type} (Q : A -> shared -> Prop) (p : steps A) (s0 : shared) : Prop :=
  match p with
  | Done a => Q a s0
  | Act _ f => forall s, good_shared s -> grows s0 s ->
      match f s with
      | Some (s', p') => good_shared s' /\ grows s s' /\ safe Q p' s'
      | None => False
      end
  end.

Definition stable {A : Type} (Q : A -> shared -> Prop) : Prop := forall a s s', grows s s' -> Q a s -> Q a s'.

Lemma safe_stable {A : Type} (Q : A -> shared -> Prop) p s s' : stable Q -> grows s s' -> safe Q p s -> safe Q p s'.
Proof. intros HQ Hg. destruct p; cbn; [by apply HQ|]. intros Hp s1 H1 Hg1. apply Hp; [done|]. by etrans. Qed.

Lemma safe_bind {A B : Type} (Q : A -> shared -> Prop) (Q' : B -> shared -> Prop) p (k : A -> steps B) s :
  safe Q p s -> (forall a s, Q a s -> safe Q' (k a) s) -> safe Q' (pbind p k) s.
Proof.
  intros Hp Hk. revert s Hp. induction p as [a|l f IH] using prog_ind'; cbn; intros s Hp; [by apply Hk|].
  intros s1 H1 Hg. specialize (Hp s1 H1 Hg). destruct (f s1) as [[s' p']|] eqn:E; [|done].
  destruct Hp as (Hs' & Hg' & Hp'). split_and!; [done..|]. by eapply IH.
Qed.

Lemma safe_atomically {A : Type} (Q : A -> shared -> Prop) f s0 :
  (forall s, good_shared s -> grows s0 s -> good_shared (f s).2 /\ grows s (f s).2 /\ Q (f s).1 (f s).2) ->
  safe Q (atomically f) s0.
Proof. intros Hf s Hs Hg. specialize (Hf s Hs Hg). by destruct (f s). Qed.

(** *** The calls *)

Context (rims_bounded : Rim.data_bounded (S:=R)).

(** Keys leave room for the size of an answer. *)
Definition key_ok (key : string) : Prop := Z.of_nat (String.length key) < 2 ^ 63.

Definition rim_given (rim_id : string) (r : res Rim.RimDocument) (s : shared) : Prop :=
  forall d, r = Ret d -> (rim_id, Rim.m_rim_data d) ∈ given_rims s.

Definition ocsp_given (key : string) (r : res NvOcspResponse) (s : shared) : Prop :=
  forall o, r = Ret o -> (key, o) ∈ given_ocsp s.

Lemma rim_given_stable rim_id : stable (rim_given rim_id).
Proof. intros r s s' [Hr _] Hq d Hd. apply Hr. by apply Hq. Qed.

Lemma ocsp_given_stable key : stable (ocsp_given key).
Proof. intros r s s' [_ Ho] Hq o Hd. apply Ho. by apply Hq. Qed.

(** What a look-up finds was given. *)
Definition found_rim (rim_id : string) (r : res string) (s : shared) : Prop :=
  forall data, r = Ret data -> (rim_id, data) ∈ given_rims s.

Lemma rim_lookup_safe t rim_id s0 : safe (found_rim rim_id) (atomically (rim_lookup t rim_id)) s0.
Proof.
  apply safe_atomically. intros s Hs _. unfold rim_lookup.
  destruct (cache_get (rim_cache s) rim_id t) as [[data cache]|e|x|] eqn:E; try (split_and!; done).
  apply cache_get_law in E as (Hinv & Hk & Hc); [|apply Hs].
  split_and!; [|done|intros data' [= <-]; by apply (good_rims s Hs)].
  split; cbn; [done|apply Hs| |apply Hs]. intros id' d'. rewrite Hc. apply Hs.
Qed.

Lemma rim_request_safe rim_id s0 : safe (rim_given rim_id) (atomically (rim_request rim_id)) s0.
Proof.
  apply safe_atomically. intros s Hs _. unfold rim_request.
  destruct (Rim.get_rim (rim_inner s) rim_id) as [r inner]. cbn.
  assert (grows s (mk_shared inner (rim_cache s) (ocsp_inner s) (ocsp_cache s)
            (match r with Ret d => (rim_id, Rim.m_rim_data d) :: given_rims s | _ => given_rims s end) (given_ocsp s))) as Hg.
  { split; [|done]. destruct r; cbn; [|done..]. intros x Hx. by right. }
  split_and!; [|done|intros d ->; left].
  split; cbn; [apply Hs..| |apply Hs]. intros id' d' Hk. apply (proj1 Hg). by apply Hs.
Qed.

Lemma rim_insert_safe now rim_id d s0 :
  rim_given rim_id (Ret d) s0 -> Z.of_nat (String.length (Rim.m_rim_data d)) < 2 ^ 63 ->
  safe (rim_given rim_id) (atomically (rim_insert now rim_id d)) s0.
Proof.
  intros Hd Hlen. apply safe_atomically. intros s Hs Hg. apply (rim_given_stable _ _ _ _ Hg) in Hd.
  unfold rim_insert. destruct (cache_put _ _ _ _ now) as [cache|e|x|] eqn:E; try (split_and!; done).
  apply cache_put_law in E as (Hinv & Hk & Hc); [|apply Hs|lia]. split_and!; try done.
  split; cbn; [done|apply Hs| |apply Hs]. intros id' d' Hk'. destruct (decide (id' = rim_id)) as [->|Hne].
  - rewrite Hk in Hk'. injection Hk' as <-. by apply Hd.
  - destruct (Hc id' Hne) as [Hc'|Hc']; rewrite Hc' in Hk'; [by apply Hs|done].
Qed.

(** A document that the request has just given is as long as the store's. *)
Lemma rim_request_bounded rim_id s0 :
  safe (fun r s => rim_given rim_id r s /\ forall d, r = Ret d -> Z.of_nat (String.length (Rim.m_rim_data d)) < 2 ^ 63)
    (atomically (rim_request rim_id)) s0.
Proof.
  pose proof (rim_request_safe rim_id s0) as Hr. intros s Hs Hg. specialize (Hr s Hs Hg). cbn in *.
  unfold rim_request in *. destruct (Rim.get_rim (rim_inner s) rim_id) as [r inner] eqn:E.
  destruct Hr as (H1 & H2 & H3). refine (conj H1 (conj H2 (conj H3 _))). intros d ->. by eapply rims_bounded.
Qed.

Lemma rim_call_safe t now rim_id s0 : safe (rim_given rim_id) (rim_call t now rim_id) s0.
Proof.
  eapply safe_bind; [apply rim_lookup_safe|]. intros [data|e|x|] s Hq; [|case_bool_decide|..]; try (intros d Hd; done).
  - intros d Hd. apply Rim.create_data in Hd as [-> _]. by apply Hq.
  - eapply safe_bind; [apply rim_request_bounded|]. intros [d|e'|x|] s' [Hd Hlen]; try (intros d Hd'; done).
    apply rim_insert_safe; auto.
Qed.

Lemma ocsp_lookup_safe t key s0 : safe (ocsp_given key) (atomically (ocsp_lookup t key)) s0.
Proof.
  apply safe_atomically. intros s Hs _. unfold ocsp_lookup.
  destruct (cache_get (ocsp_cache s) key t) as [[r cache]|e|x|] eqn:E; try (split_and!; done).
  apply cache_get_law in E as (Hinv & Hk & Hc); [|apply Hs].
  split_and!; [|done|intros r' [= <-]; by apply (good_ocsp s Hs)].
  split; cbn; [apply Hs|done|apply Hs|]. intros k' r'. rewrite Hc. apply Hs.
Qed.

Lemma ocsp_request_safe key a s0 : safe (ocsp_given key) (atomically (ocsp_request key a)) s0.
Proof.
  apply safe_atomically. intros s Hs _. unfold ocsp_request.
  destruct (get_ocsp_response (ocsp_inner s) _ _ _ _) as [r inner]. cbn.
  assert (grows s (mk_shared (rim_inner s) (rim_cache s) inner (ocsp_cache s) (given_rims s)
            (match r with Ret o => (key, o) :: given_ocsp s | _ => given_ocsp s end))) as Hg.
  { split; [done|]. destruct r; cbn; [|done..]. intros x Hx. by right. }
  split_and!; [|done|intros o ->; left].
  split; cbn; [apply Hs..|]. intros k' r' Hk. apply (proj2 Hg). by apply Hs.
Qed.

Lemma ocsp_insert_safe now key r s0 :
  key_ok key -> ocsp_given key (Ret r) s0 -> safe (ocsp_given key) (atomically (ocsp_insert now key r)) s0.
Proof.
  intros Hlen Hr. apply safe_atomically. intros s Hs Hg. apply (ocsp_given_stable _ _ _ _ Hg) in Hr.
  unfold ocsp_insert. destruct (cache_put _ _ _ _ now) as [cache|e|x|] eqn:E; try (split_and!; done).
  apply cache_put_law in E as (Hinv & Hk & Hc); [|apply Hs|unfold key_ok, Ocsp.NV_OCSP_RESPONSE_SIZE_BYTES in *; lia].
  split_and!; try done. split; cbn; [apply Hs|done|apply Hs|]. intros k' r' Hk'.
  destruct (decide (k' = key)) as [->|Hne].
  - rewrite Hk in Hk'. injection Hk' as <-. by apply Hr.
  - destruct (Hc k' Hne) as [Hc'|Hc']; rewrite Hc' in Hk'; [by apply Hs|done].
Qed.

Lemma ocsp_call_safe t0 t1 now key a s0 : key_ok key -> safe (ocsp_given key) (ocsp_call t0 t1 now key a) s0.
Proof.
  intros Hlen. assert (forall s, safe (ocsp_given key)
    (pbind (atomically (ocsp_request key a)) (fun r =>
      match r with Ret o => atomically (ocsp_insert now key o) | r => Done r end)) s) as Hr.
  { intros s. eapply safe_bind; [apply ocsp_request_safe|]. intros [r|e|x|] s' Hq; try (intros o Ho; done).
    by apply ocsp_insert_safe. }
  eapply safe_bind; [apply ocsp_lookup_safe|]. intros [r|e|x|] s Hq; try (intros o Ho; done).
  - cbn. destruct (nextupd r <? t1); [apply Hr|done].
  - case_bool_decide; [apply Hr|intros o Ho; done].
Qed.

(** *** The pool *)

Context (keys_ok : forall subject issuer key, Ocsp.get_cache_key subject issuer = Ret key -> key_ok key).

Definition reply_given (r : reply) (s : shared) : Prop :=
  match r with
  | RimReply rim_id r => rim_given rim_id r s
  | OcspReply key r => ocsp_given key r s
  end.

Lemma reply_given_stable : stable reply_given.
Proof. intros [id r|key r] s s' Hg; [by apply rim_given_stable|by apply ocsp_given_stable]. Qed.

(** Every answer a thread has had came from the inner stores, and its call
    will end so. *)
Record thread_ok (th : vthread) (s : shared) : Prop := {
  ok_rims rim_id r : (rim_id, r) ∈ rim_log th -> rim_given rim_id r s;
  ok_ocsp key r : (key, r) ∈ ocsp_log th -> ocsp_given key r s;
  ok_call p : current th = Some p -> safe reply_given p s;
}.

Definition pool_ok (c : list vthread * shared) : Prop :=
  good_shared c.2 /\ forall i th, c.1 !! i = Some th -> thread_ok th c.2.

Lemma thread_ok_grows th s s' : grows s s' -> thread_ok th s -> thread_ok th s'.
Proof.
  intros Hg [H1 H2 H3]. split; intros.
  - eapply rim_given_stable; [done|]. by apply H1.
  - eapply ocsp_given_stable; [done|]. by apply H2.
  - eapply safe_stable; [apply reply_given_stable|done|]. by apply H3.
Qed.

Lemma asks_key {X : Type} (j : job (X:=X)) th key a : asks j th = Some (OcspRequest key a) -> key_ok key.
Proof.
  unfold asks. destruct (ro_asked _); [done|]. destruct (oo_asked _) as [a'|]; [|done].
  destruct (Ocsp.get_cache_key _ _) eqn:E; [|done..]. intros [= <- <-]. by eapply keys_ok.
Qed.

Lemma vstep_ok {X : Type} (jobs : list (job (X:=X))) c c' : pool_ok c -> vstep jobs c c' -> pool_ok c'.
Proof.
  intros [Hs Ht] Hv. destruct Hv as [i j th q t ths s Hj Hi Hc Hq|i th l f p s' ths s Hi Hc Hf|i th r ths s Hi Hc]; cbn in *.
  - split; [done|]. intros k th' [(_ & <- & _)|[_ Hk]]%list_lookup_insert_Some; [|by eapply Ht].
    destruct (Ht _ _ Hi) as [H1 H2 _]. split; [done..|]. intros p Hp. injection Hp as <-. destruct q as [id|key a]; unfold start_call.
    + eapply safe_bind; [apply rim_call_safe|]. done.
    + eapply safe_bind; [apply ocsp_call_safe; by eapply asks_key|]. done.
  - destruct (Ht _ _ Hi) as [H1 H2 H3]. specialize (H3 _ Hc s Hs (reflexivity s)). rewrite Hf in H3.
    destruct H3 as (Hs' & Hg & Hp). split; [done|].
    intros k th' [(_ & <- & _)|[_ Hk]]%list_lookup_insert_Some; cbn.
    + destruct (thread_ok_grows _ _ _ Hg (Ht _ _ Hi)) as [H4 H5 _]. split; [done..|]. by intros p' [= <-].
    + eapply thread_ok_grows; [done|]. by eapply Ht.
  - split; [done|]. intros k th' [(_ & <- & _)|[_ Hk]]%list_lookup_insert_Some; [|by eapply Ht].
    destruct (Ht _ _ Hi) as [H1 H2 H3]. specialize (H3 _ Hc). destruct r as [id r|key r]; cbn in *; (split; cbn; [..|done]).
    + intros id' r' [Hin|Hin%list_elem_of_singleton]%elem_of_app; [by apply H1|]. by injection Hin as -> ->.
    + done.
    + done.
    + intros k' r' [Hin|Hin%list_elem_of_singleton]%elem_of_app; [by apply H2|]. by injection Hin as -> ->.
Qed.

Lemma vsteps_ok {X : Type} (jobs : list (job (X:=X))) c c' : pool_ok c -> rtc (vstep jobs) c c' -> pool_ok c'.
Proof. intros Hc Hr. induction Hr; eauto using vstep_ok. Qed.

Lemma start_ok n s : good_shared s -> pool_ok (replicate n new_vthread, s).
Proof.
  intros Hs. split; [done|]. intros i th [-> _]%lookup_replicate. split; cbn; [..|done].
  - by intros ? ? ?%not_elem_of_nil.
  - by intros ? ? ?%not_elem_of_nil.
Qed.

(** Fresh caches are good. *)
Lemma fresh_good (r : R) (s : S) c1 c2 :
  cache_inv c1 -> cache_inv c2 -> (forall k, cache_content c1 k = None) -> (forall k, cache_content c2 k = None) ->
  good_shared (mk_shared r c1 s c2 [] []).
Proof. intros H1 H2 H3 H4. split; cbn; [done..| |]; intros k d; by rewrite ?H3, ?H4. Qed.

(** No thread is ever blocked: it has ended, or it has a step. *)
Lemma vthreads_move {X : Type} (jobs : list (job (X:=X))) c i j th :
  pool_ok c -> jobs !! i = Some j -> c.1 !! i = Some th ->
  (exists r v, ended j th r v) \/ exists th' s', vstep jobs c (<[i := th']> c.1, s').
Proof.
  intros [Hs Ht] Hj Hi. destruct c as [ths s]. cbn in *. destruct (current th) as [[r|l f]|] eqn:Ec.
  - right. exists (logged th r), s. by eapply v_return.
  - right. pose proof (ok_call _ _ (Ht _ _ Hi) _ Ec s Hs (reflexivity s)) as Hf.
    destruct (f s) as [[s' p]|] eqn:E; [|done]. exists (in_call th p), s'. by eapply v_call.
  - destruct (asks j th) as [q|] eqn:Ea.
    + right. exists (in_call th (start_call (mk_times 0 0 (fun _ => 0)) q)), s. by eapply v_start.
    + left. destruct (j (view th)) as [r v] eqn:E. by exists r, v.
Qed.

End stores.

(** ** Verification in threads *)

Section verification.
Context `{OSSL : OpenSSL} `{XML : LibXml2} `{env : Eat.Env}.
Context {R S C1 C2 : Type} `{!Rim.IRimStore R} `{!IOcspHttpClient S} `{!INvCache C1 string} `{!INvCache C2 NvOcspResponse}.

Abbreviation mem := (shared (R:=R) (S:=S) (C1:=C1) (C2:=C2)).
Abbreviation vview := (vstate (R:=RimOracle) (S:=OcspOracle)).
Abbreviation thread := (vthread (R:=R) (S:=S) (C1:=C1) (C2:=C2)).

(** The RIMs of an item of evidence have data that the inner store gave under
    the identifiers of the report. *)
Definition item_served (s : mem) (e : GpuEvidence.GpuEvidence) : Prop :=
  exists r driver_id driver vbios_id vbios,
    GpuEvidence.get_parsed_attestation_report e = Ret r /\
    GpuEvidence.get_driver_rim_id r (GpuEvidence.m_gpu_architecture e) = Ret driver_id /\
    (driver_id, Rim.m_rim_data driver) ∈ given_rims s /\
    GpuEvidence.get_vbios_rim_id r = Ret vbios_id /\
    (vbios_id, Rim.m_rim_data vbios) ∈ given_rims s /\
    exists dm vm, Rim.get_measurements driver = Ret dm /\ Rim.get_measurements vbios = Ret vm.

Lemma rim_oracle_Ret o rim_id d o' :
  Rim.get_rim o rim_id = (Ret d, o') -> (rim_id, Ret d) ∈ ro_answers o /\ ro_answers o' ⊆ ro_answers o.
Proof.
  unfold Rim.get_rim, rim_oracle. destruct (ro_answers o) as [|[id r] rest]; [done|].
  case_bool_decide; [|done]. intros [= -> <-]. subst. split; [left|]. cbn. intros x Hx. by right.
Qed.

Lemma all_served clock policy k es (v : vview) cs (s : mem) :
  (forall id r, (id, r) ∈ ro_answers (rims v) -> rim_given id r s) ->
  GpuVerify.all_verified clock policy k es v cs -> Forall (item_served s) es.
Proof.
  intros Hl Hall. induction Hall as [|k e es v v1 c cs Hv Hall IH]; constructor.
  - destruct Hv as (r & ec & did & d & r1 & vid & vb & s1 & s2 & dc & vc & dm & vm & Hp & _ & Hdid & Hd & _ & _ & Hvid & Hvb & _ & _ & Hdm & Hvm & _).
    apply rim_oracle_Ret in Hd as [Hd H1], Hvb as [Hvb _].
    exists r, did, d, vid, vb. split_and!; try done; [by eapply Hl| |by exists dm, vm]. eapply Hl; [by apply H1|done].
  - apply IH. cbn. destruct Hv as (r & ec & did & d & r1 & vid & vb & s1 & s2 & dc & vc & dm & vm & _ & _ & _ & Hd & _ & _ & _ & Hvb & _).
    apply rim_oracle_Ret in Hd as [_ H1], Hvb as [_ H2]. intros id r' Hin. apply Hl, H1, H2, Hin.
Qed.

(** What a thread runs in [nvat_verify_gpu_evidence] with a local verifier. *)
Definition verify_job (clock : nat -> Z) (options : Eat.DetachedEATOptions) (policy : Rim.EvidencePolicy) (want : bool)
    (evidence : list GpuEvidence.GpuEvidence) : job (X:=option string * option Error) :=
  GpuVerify.verify_evidence clock options evidence policy want.

(** A thread that has ended with claims: they are about its evidence, which was
    verified, against answers that the inner stores gave. *)
Lemma thread_verified clock options policy want evidence (th : thread) (s : mem) text err v :
  Rim.gpu_claims_version policy = GpuClaims.V3 -> thread_ok th s ->
  ended (verify_job clock options policy want evidence) th (Ret (text, err)) v ->
  length (out_claims v) = length evidence /\
  GpuVerify.all_verified clock policy 0 evidence (view th) (out_claims v) /\
  Forall (item_served s) evidence /\
  (forall key r, (key, Ret r) ∈ ocsp_log th -> (key, r) ∈ given_ocsp s).
Proof.
  intros Hp Hok (_ & _ & Hj). apply GpuVerify.local_gpu_sound in Hj as (cs & Ho & Hlen & Hall & _); [|done].
  cbn in Ho. rewrite Ho. split_and!; try done.
  - eapply all_served; [|exact Hall]. apply Hok.
  - intros key r Hin. by eapply (ok_ocsp _ _ Hok).
Qed.

(** *** The example: four threads, a slice of the evidence each *)

Definition num_threads : Z := 4.

(** [int evidences_per_thread = ctx.num_evidences / num_threads]. *)
Definition evidences_per_thread (num_evidences : Z) : Z := s32 (num_evidences / num_threads).

(** [data[i].evidences] and [data[i].num_evidences]: the last thread takes what
    is left. *)
Definition thread_slice {A : Type} (evidence_collection : list A) (i : Z) : list A :=
  let num_evidences := zlen evidence_collection in
  let start := i * evidences_per_thread num_evidences in
  let n := if i =? num_threads - 1 then u64 (num_evidences - start) else u64 (evidences_per_thread num_evidences) in
  slice evidence_collection start n.

(** The claims of the threads, in order. *)
Definition combine_claims (claims : list (list Collection.Claims)) : list Collection.Claims :=
  match claims with
  | [] => []
  | c :: cs => foldl Collection.extend c cs
  end.

Lemma slices_cover {A : Type} (l : list A) :
  zlen l < 2 ^ 31 -> thread_slice l 0 ++ thread_slice l 1 ++ thread_slice l 2 ++ thread_slice l 3 = l.
Proof.
  intros Hl. pose proof (zlen_nonneg l) as H0. unfold thread_slice, evidences_per_thread, num_threads.
  change (0 =? 4 - 1) with false. change (1 =? 4 - 1) with false. change (2 =? 4 - 1) with false.
  change (3 =? 4 - 1) with true. cbv beta iota zeta.
  assert (Hr : 0 <= 4 * (zlen l / 4) <= zlen l) by (split; [pose proof (Z.div_pos (zlen l) 4); lia|apply Z.mul_div_le; lia]).
  set (q := zlen l / 4) in *. rewrite (swrap_small 32 q) by lia.
  rewrite (wrap_small 64 q), (wrap_small 64 (zlen l - 3 * q)) by lia.
  rewrite (slice_glue _ (2 * q) q (3 * q)), (slice_glue _ (1 * q) q (2 * q)), (slice_glue _ (0 * q) q (1 * q)) by lia.
  apply slice_all. lia.
Qed.

Definition example_jobs (clocks : nat -> nat -> Z) (options : Eat.DetachedEATOptions) (policy : Rim.EvidencePolicy)
    (evidence : list GpuEvidence.GpuEvidence) : list (job (X:=option string * option Error)) :=
  (fun i => verify_job (clocks i) options policy false (thread_slice evidence (Z.of_nat i))) <$> seq 0 (Z.to_nat num_threads).

(** C5: verifying in threads is as good as verifying one after the other.  In
    whatever order the threads of the example run their calls of the shared
    caching stores: when all have ended with claims, the combined claims are
    one for every item of the evidence, each thread's claims are what a local
    verification of its slice says, and every RIM and every OCSP answer that a
    thread has used was given by the inner store, in this run, under the
    identifier or the cache key that the thread asked for. *)
Theorem parallel_verification_sound clocks options policy evidence (s0 s : mem) (ths : list thread) (vs : nat -> vview) :
  Rim.data_bounded (S:=R) ->
  (forall subject issuer key, Ocsp.get_cache_key subject issuer = Ret key -> key_ok key) ->
  Rim.gpu_claims_version policy = GpuClaims.V3 -> zlen evidence < 2 ^ 31 -> good_shared s0 ->
  rtc (vstep (example_jobs clocks options policy evidence)) (replicate 4 new_vthread, s0) (ths, s) ->
  (forall i, (i < 4)%nat -> exists th text err, ths !! i = Some th /\
     ended (verify_job (clocks i) options policy false (thread_slice evidence (Z.of_nat i))) th (Ret (text, err)) (vs i)) ->
  length (combine_claims ((fun i => out_claims (vs i)) <$> seq 0 4)) = length evidence /\
  Forall (item_served s) evidence /\
  forall i th, ths !! i = Some th -> (i < 4)%nat ->
    GpuVerify.all_verified (clocks i) policy 0 (thread_slice evidence (Z.of_nat i)) (view th) (out_claims (vs i)) /\
    (forall rim_id d, (rim_id, Ret d) ∈ rim_log th -> (rim_id, Rim.m_rim_data d) ∈ given_rims s) /\
    (forall key r, (key, Ret r) ∈ ocsp_log th -> (key, r) ∈ given_ocsp s).
Proof.
  intros Hb Hk Hp Hlen Hs0 Hr He. pose proof (vsteps_ok Hb Hk _ _ _ (start_ok 4 s0 Hs0) Hr) as [_ Hok].
  assert (forall i, (i < 4)%nat -> exists th, ths !! i = Some th /\
    length (out_claims (vs i)) = length (thread_slice evidence (Z.of_nat i)) /\
    GpuVerify.all_verified (clocks i) policy 0 (thread_slice evidence (Z.of_nat i)) (view th) (out_claims (vs i)) /\
    Forall (item_served s) (thread_slice evidence (Z.of_nat i)) /\
    (forall key r, (key, Ret r) ∈ ocsp_log th -> (key, r) ∈ given_ocsp s)) as Hi.
  { intros i Hi. destruct (He i Hi) as (th & text & err & Hth & Hend). exists th. split; [done|].
    eapply thread_verified; [done|by eapply (Hok i)|exact Hend]. }
  pose proof (slices_cover evidence Hlen) as Hc.
  destruct (Hi 0%nat) as (_ & _ & L0 & _ & F0 & _); [lia|]. destruct (Hi 1%nat) as (_ & _ & L1 & _ & F1 & _); [lia|].
  destruct (Hi 2%nat) as (_ & _ & L2 & _ & F2 & _); [lia|]. destruct (Hi 3%nat) as (_ & _ & L3 & _ & F3 & _); [lia|].
  split_and!.
  - cbn. unfold Collection.extend. rewrite !length_app, L0, L1, L2, L3. apply (f_equal length) in Hc.
    rewrite !length_app in Hc. rewrite <- Hc. cbn. by rewrite !Nat.add_assoc.
  - rewrite <- Hc. rewrite !Forall_app. auto.
  - intros i th Hth Hi4. destruct (Hi i Hi4) as (th' & Hth' & _ & Ha & _ & Ho). rewrite Hth in Hth'. injection Hth' as <-.
    split_and!; [done| |done]. intros id d Hin. by eapply (ok_rims _ _ (Hok i _ Hth)).
Qed.

(** A test that threads have ended, for examples. *)
Definition last_view (jb : nat -> job (X:=option string * option Error)) (ths : list thread) (i : nat) : vview :=
  match ths !! i with
  | Some th => (jb i (view th)).2
  | None => mk_vstate (mk_rim_oracle [] None) (mk_ocsp_oracle [] None) []
  end.

Definition has_ended (jb : nat -> job (X:=option string * option Error)) (ths : list thread) (i : nat) : bool :=
  match ths !! i with
  | Some th =>
      match current th, asks (jb i) th, (jb i (view th)).1 with None, None, Ret _ => true | _, _, _ => false end
  | None => false
  end.

Lemma all_ended jb ths n : forallb (has_ended jb ths) (seq 0 n) = true ->
  forall i, (i < n)%nat -> exists th text err, ths !! i = Some th /\ ended (jb i) th (Ret (text, err)) (last_view jb ths i).
Proof.
  intros Ha i Hi. apply (proj1 (forallb_forall _ _)) with (x := i) in Ha; [|apply in_seq; lia].
  unfold has_ended in Ha. unfold last_view, ended. destruct (ths !! i) as [th|]; [|done].
  destruct (current th) eqn:Ec; [done|]. destruct (asks _ th) eqn:Eq; [done|].
  destruct (jb i (view th)) as [[[text err]|e|x|] v] eqn:Ej; try done.
  exists th, text, err. split_and!; done.
Qed.

End verification.

(** *** The small report in the last of the four threads *)

#[local] Instance toy_rims : Rim.IRimStore (XML:=Rim.toy_xml) unit :=
  fun u rim_id =>
    (Rim.create_from_rim_data (XML:=Rim.toy_xml)
       (if String.prefix "NV_GPU_DRIVER" rim_id then "10a0b" else "0") (Rim.RimDocument_default (XML:=Rim.toy_xml)), u).

#[local] Existing Instances toy_openssl Rim.toy_xml toy_env.

Definition toy_mem : shared (R:=unit) (S:=Ocsp.RawProofOcspClient) (C1:=NvCache.NvCache string) (C2:=NvCache.NvCache NvOcspResponse) :=
  mk_shared tt (NvCache.ctor None) (Ocsp.mk_raw [] 1500) (NvCache.ctor None) [] [].

Definition toy_jobs := example_jobs (fun _ _ => 1500) toy_options Rim.EvidencePolicy_default [GpuEvidence.toy_evidence].

Definition toy_run :=
  foldl (vexec toy_jobs (mk_times 1500 1500 (fun _ => 1500))) (replicate 4 new_vthread, toy_mem) (replicate 60 3%nat).

Definition toy_job (i : nat) : job (X:=option string * option Error) :=
  verify_job (fun _ => 1500) toy_options Rim.EvidencePolicy_default false
    (thread_slice [GpuEvidence.toy_evidence] (Z.of_nat i)).

Definition toy_views : nat -> vstate (R:=RimOracle) (S:=OcspOracle) := last_view toy_job toy_run.1.

Example toy_threads : forallb (has_ended toy_job toy_run.1) (seq 0 4) = true.
Proof. vm_compute. reflexivity. Qed.

Lemma parallel_verification_sound_witness :
  length (combine_claims ((fun i => out_claims (toy_views i)) <$> seq 0 4)) = 1%nat.
Proof.
  apply (parallel_verification_sound (fun _ _ => 1500) toy_options Rim.EvidencePolicy_default [GpuEvidence.toy_evidence]
    toy_mem toy_run.2 toy_run.1 toy_views).
  - intros u id d u' Hd. injection Hd as Hd _. apply Rim.create_data in Hd as [-> _].
    by destruct (String.prefix "NV_GPU_DRIVER" id).
  - intros subject issuer key Hk. destruct subject as [id|]; [|discriminate Hk]. by injection Hk as <-.
  - reflexivity.
  - reflexivity.
  - apply fresh_good; [by apply NvCache.wf_empty..| |]; intros k; reflexivity.
  - rewrite <- surjective_pairing. apply vexec_steps.
  - apply (all_ended toy_job toy_run.1 4 toy_threads).
Defined.

End SharedStores.
