(* ===== verification/SwitchVerify.v ===== *)
(** * SwitchVerify: verification of NVSwitch evidence

    src/switch/verify.cpp and include/nv_attestation/switch/verify.h: the local
    verifier, which checks the report, fetches the BIOS RIM, checks it,
    compares measurements and fills the claims, and the remote one, an
    instance of the code in Verify.  Times are the readings of the clock, two
    per item of evidence. *)

From S2P Require Import Prelude Errors Utils SpdmReq SpdmMeasurementRecords SpdmOpaqueData SpdmResp SwitchOpaqueData.
From S2P Require Import Json OpenSsl NvCache Ocsp X509Chain Claims Evaluator DetachedEat.
From S2P Require Import Http Jwt Certs Base64 Rim Report SwitchEvidence Verify.

Module SwitchVerify.

Abbreviation Claims3 := SwitchClaims.SerializableSwitchClaimsV3.

Section switch_verify.
Context `{OSSL : OpenSSL} `{XML : LibXml2} `{env : Eat.Env}.

(** ** Filling the claims *)

(** [set_switch_evidence_claims], with the nonce, on fresh claims. *)
Definition set_switch_evidence_claims (nonce : string) (ec : SwitchEvidence.SwitchEvidenceClaims) : Claims3 :=
  let ar := SwitchEvidence.m_attestation_report_claims ec in
  let d := SwitchClaims.default in
  SwitchClaims.mk_switch_claims nonce (SwitchEvidence.m_hwmodel ar) (SwitchEvidence.m_ueid ar)
    (SwitchClaims.m_measurements_matching d) (SwitchClaims.m_secure_boot d) (SwitchClaims.m_debug_status d)
    (SwitchClaims.m_mismatched_measurements d) (SwitchEvidence.m_switch_arch_match ec)
    (SwitchEvidence.m_switch_ar_nonce_match ec) (SwitchEvidence.m_switch_bios_version ec)
    (SwitchEvidence.m_switch_pdi ec) (SwitchEvidence.m_switch_gpu_pdis ec)
    (Verify.serialize_chain (SwitchEvidence.m_cert_chain_claims ar)) (SwitchEvidence.m_fwid_match ar)
    (SwitchEvidence.m_parsed ar) (SwitchEvidence.m_signature_verified ar)
    (SwitchClaims.m_bios_rim_fetched d) (SwitchClaims.m_bios_rim_cert_chain d)
    (SwitchClaims.m_bios_rim_signature_verified d) (SwitchClaims.m_switch_bios_rim_version_match d)
    (SwitchClaims.m_bios_rim_measurements_available d) (SwitchClaims.m_version d).

(** The BIOS RIM: fetched, its chain, its signature, the version. *)
Definition with_bios_rim (c : Claims3) (chain : ChainClaims.SerializableCertChainClaims)
    (signature_verified : bool) : Claims3 :=
  SwitchClaims.mk_switch_claims (SwitchClaims.m_nonce c) (SwitchClaims.m_hwmodel c) (SwitchClaims.m_ueid c)
    (SwitchClaims.m_measurements_matching c) (SwitchClaims.m_secure_boot c) (SwitchClaims.m_debug_status c)
    (SwitchClaims.m_mismatched_measurements c) (SwitchClaims.m_switch_arch_match c)
    (SwitchClaims.m_switch_ar_nonce_match c) (SwitchClaims.m_switch_bios_version c)
    (SwitchClaims.m_switch_pdi c) (SwitchClaims.m_switch_gpu_pdis c) (SwitchClaims.m_ar_cert_chain_claims c)
    (SwitchClaims.m_ar_cert_chain_fwid_match c) (SwitchClaims.m_ar_parsed c)
    (SwitchClaims.m_ar_signature_verified c)
    true chain signature_verified true (SwitchClaims.m_bios_rim_measurements_available c) (SwitchClaims.m_version c).

(** The measurements: available, and the result. *)
Definition with_measurements (c : Claims3) (measres : SerializableMeasresClaim) (secure_boot : option bool)
    (debug_status : option string) (mismatched : option (list Mismatch.SerializableMismatchedMeasurements)) :
    Claims3 :=
  SwitchClaims.mk_switch_claims (SwitchClaims.m_nonce c) (SwitchClaims.m_hwmodel c) (SwitchClaims.m_ueid c)
    measres secure_boot debug_status mismatched (SwitchClaims.m_switch_arch_match c)
    (SwitchClaims.m_switch_ar_nonce_match c) (SwitchClaims.m_switch_bios_version c)
    (SwitchClaims.m_switch_pdi c) (SwitchClaims.m_switch_gpu_pdis c) (SwitchClaims.m_ar_cert_chain_claims c)
    (SwitchClaims.m_ar_cert_chain_fwid_match c) (SwitchClaims.m_ar_parsed c)
    (SwitchClaims.m_ar_signature_verified c)
    (SwitchClaims.m_bios_rim_fetched c) (SwitchClaims.m_bios_rim_cert_chain c)
    (SwitchClaims.m_bios_rim_signature_verified c) (SwitchClaims.m_switch_bios_rim_version_match c)
    true (SwitchClaims.m_version c).

(** Every golden measurement is compared. *)
Definition skip_none (index : Z) : bool := false.

Definition generate_set_measurement_claims (golden : Rim.Measurements)
    (r : SwitchEvidence.AttestationReport) (c : Claims3) : res Claims3 :=
  let runtime_measurements := SwitchEvidence.get_measurements r in
  let* acc := Verify.compare_all runtime_measurements skip_none golden VBIOS (true, []) in
  let* (measres, secure_boot, debug_status, mismatched) := Verify.measurement_result acc in
  Ret (with_measurements c measres secure_boot debug_status mismatched).

(** ** The local verifier *)

Section local.
Context {R S : Type} `{!Rim.IRimStore R} `{!IOcspHttpClient S}.

Record LocalSwitchVerifier : Type := mk_local {
  m_rim_store : R;
  m_ocsp_http_client : S;
  m_detached_eat_options : Eat.DetachedEATOptions;
}.

(** [LocalSwitchVerifier::create]; null pointers are [None]. *)
Definition create (rim_store : option R) (ocsp_http_client : option S)
    (detached_eat_options : Eat.DetachedEATOptions) : res LocalSwitchVerifier :=
  match rim_store, ocsp_http_client with
  | None, _ => Err BadArgument
  | _, None => Err BadArgument
  | Some rim_store, Some ocsp => Ret (mk_local rim_store ocsp detached_eat_options)
  end.

Abbreviation vsm A := (sm (vstate (R:=R) (S:=S)) Error A).

Definition set_vbios_rim_claims (now : Z) (vbios_rim : Rim.RimDocument) (policy : Rim.EvidencePolicy)
    (c : Claims3) : vsm Claims3 :=
  do* vbios_rim_claims := on_ocsp (Rim.generate_rim_claims now vbios_rim policy) in
  do* cc := slift (Rim.read_chain_claims vbios_rim_claims) in
  sret (with_bios_rim c (Verify.serialize_chain cc) (Rim.m_signature_verified vbios_rim_claims)).

(** The loop body of [generate_claims_v3]. *)
Definition verify_one (t0 t1 : Z) (policy : Rim.EvidencePolicy) (e : SwitchEvidence.SwitchEvidence) : vsm Claims3 :=
  do* report := slift (SwitchEvidence.get_parsed_attestation_report e) in
  do* ec := on_ocsp (SwitchEvidence.generate_switch_evidence_claims t0 e report) in
  let c := set_switch_evidence_claims (to_hex_string (SwitchEvidence.m_nonce e)) ec in
  do* vbios_rim_id := slift (SwitchEvidence.get_vbios_rim_id report (SwitchEvidence.m_switch_architecture e)) in
  do* vbios_rim := on_rims (fun r => Rim.get_rim r vbios_rim_id) in
  do* vbios_version_from_rim := slift (Rim.get_version vbios_rim) in
  guard* bool_decide (vbios_version_from_rim = SwitchEvidence.m_switch_bios_version ec)
    else SwitchEvidenceVbiosRimVersionMismatch in
  do* c := set_vbios_rim_claims t1 vbios_rim policy c in
  do* vbios_rim_measurements := slift (Rim.get_measurements vbios_rim) in
  slift (generate_set_measurement_claims vbios_rim_measurements report c).

Fixpoint verify_loop (clock : nat -> Z) (k : nat) (policy : Rim.EvidencePolicy)
    (evidence : list SwitchEvidence.SwitchEvidence) : vsm unit :=
  match evidence with
  | [] => sret tt
  | e :: evidence =>
      do* c := verify_one (clock k) (clock (k + 1)%nat) policy e in
      do* _ := append_claims (Collection.Switch c) in
      verify_loop clock (k + 2) policy evidence
  end.

(** [generate_claims_v3]: the detached EAT when it is asked for, and the error
    that is reported with it. *)
Definition generate_claims_v3 (clock : nat -> Z) (options : Eat.DetachedEATOptions)
    (evidence : list SwitchEvidence.SwitchEvidence) (policy : Rim.EvidencePolicy) (want_detached_eat : bool) :
    vsm (option string * option Error) :=
  do* _ := verify_loop clock 0 policy evidence in
  if want_detached_eat then
    fun v => (let* (text, err) := Eat.get_detached_eat (out_claims v) options in Ret (Some text, err), v)
  else sret (None, None).

(** [verify_evidence]: another claims version is refused. *)
Definition verify_evidence (clock : nat -> Z) (options : Eat.DetachedEATOptions)
    (evidence : list SwitchEvidence.SwitchEvidence) (policy : Rim.EvidencePolicy) (want_detached_eat : bool) :
    vsm (option string * option Error) :=
  match Rim.switch_claims_version policy with
  | SwitchClaims.V3 => generate_claims_v3 clock options evidence policy want_detached_eat
  end.

End local.

(** ** The remote verifier *)

Definition switch_device : Verify.device :=
  Verify.mk_device Verify.NVAT_DEVICE_NVSWITCH (SwitchClaims.version_to_string SwitchClaims.V3)
    (fun j => let* c := SwitchClaims.from_json j in Ret (Collection.Switch c)).

Definition to_remote (e : SwitchEvidence.SwitchEvidence) : Verify.remote_evidence :=
  Verify.mk_remote_evidence (SwitchEvidence.m_nonce e) (SwitchEvidence.m_attestation_report e)
    (SwitchEvidence.m_cert_chain e).

Definition remote_init_from_env (getenv : string -> option string) (nras_url : option string) :=
  Verify.remote_urls getenv "/v4/attest/switch" nras_url.

Definition remote_verify_evidence `{B64 : Base64Lib} `{L : JwtLib} {C : Type} `{!Http.INvHttpClient C}
    (verifier : Verify.NvRemoteVerifier) (clock : nat -> Z) (evidence : list SwitchEvidence.SwitchEvidence)
    (policy : Rim.EvidencePolicy) : sm (Verify.rstate (C:=C)) Error (string * option Error) :=
  Verify.remote_verify_evidence switch_device verifier clock
    (match evidence with
     | e :: _ => SwitchEvidence.arch_to_string (SwitchEvidence.m_switch_architecture e)
     | [] => ""
     end)
    (to_remote <$> evidence) policy.

(** ** Lemmas *)

(** The result of the comparison, and the record of what does not match. *)
Definition measres_meaning (golden : Rim.Measurements) (r : SwitchEvidence.AttestationReport) (c : Claims3) : Prop :=
  let runtime := SwitchEvidence.get_measurements r in
  let bad i := exists g, golden !! i = Some g /\ ~ Verify.matched runtime i g in
  (SwitchClaims.m_measurements_matching c = Success /\ SwitchClaims.m_secure_boot c = Some true /\
     SwitchClaims.m_debug_status c = Some "disabled" /\ SwitchClaims.m_mismatched_measurements c = None /\
     forall i g, golden !! i = Some g -> Verify.matched runtime i g) \/
  (SwitchClaims.m_measurements_matching c = Failure /\ SwitchClaims.m_secure_boot c = None /\
     SwitchClaims.m_debug_status c = None /\ (exists i, bad i) /\
     exists ms, SwitchClaims.m_mismatched_measurements c = Some ms /\
       forall j, j ∈ Mismatch.m_index <$> ms <-> exists i, bad i /\ j = u32 i).

Lemma switch_measurement_claims_sound golden r c c' :
  generate_set_measurement_claims golden r c = Ret c' ->
  measres_meaning golden r c' /\ exists measres sb dbg mm, c' = with_measurements c measres sb dbg mm.
Proof.
  unfold generate_set_measurement_claims.
  intros ([ok ms] & H1 & Hr)%obind_Ret.
  apply obind_Ret in Hr as ([[[measres sb] dbg] mm] & Hm & [= <-]).
  split; [|by exists measres, sb, dbg, mm].
  apply Verify.compare_all_sound in H1 as (n & -> & -> & Hbad). cbn [app andb] in Hm.
  unfold measres_meaning. cbv zeta. set (runtime := SwitchEvidence.get_measurements r) in *.
  assert (forall j, j ∈ Mismatch.m_index <$> n <->
     exists i, (exists g, golden !! i = Some g /\ ~ Verify.matched runtime i g) /\ j = u32 i) as Hb.
  { intros j. rewrite Hbad. unfold Verify.mismatching, skip_none. naive_solver. }
  apply Verify.measurement_result_Ret in Hm as [(-> & -> & -> & -> & ->)|(Hn & -> & -> & -> & ->)];
    [| |apply bool_decide_eq_true|apply bool_decide_eq_false].
  - left. cbn. split_and!; try done. intros i g Hg.
    destruct (Verify.matched_dec runtime i g) as [|Hno]; [done|exfalso].
    apply (proj1 (elem_of_nil (u32 i))), (Hb (u32 i)). exists i. split; [by exists g|done].
  - right. cbn. split_and!; try done; [|by exists n].
    destruct n as [|m ms']; [done|]. destruct (proj1 (Hb (Mismatch.m_index m))) as (i & Hi & _); [by left|].
    by exists i.
Qed.

(** *** One item of evidence *)

Section local_facts.
Context {R S : Type} `{!Rim.IRimStore R} `{!IOcspHttpClient S}.

(** The claims carry what was established: identity and version, the two
    chains, and every check as passed. *)
Definition claims_reflect (e : SwitchEvidence.SwitchEvidence) (ec : SwitchEvidence.SwitchEvidenceClaims)
    (bios_chain : CertChainClaims) (c : Claims3) : Prop :=
  SwitchClaims.m_nonce c = to_hex_string (SwitchEvidence.m_nonce e) /\
  SwitchClaims.m_switch_bios_version c = SwitchEvidence.m_switch_bios_version ec /\
  SwitchClaims.m_switch_pdi c = SwitchEvidence.m_switch_pdi ec /\
  SwitchClaims.m_switch_gpu_pdis c = SwitchEvidence.m_switch_gpu_pdis ec /\
  SwitchClaims.m_hwmodel c = SwitchEvidence.m_hwmodel (SwitchEvidence.m_attestation_report_claims ec) /\
  SwitchClaims.m_ueid c = SwitchEvidence.m_ueid (SwitchEvidence.m_attestation_report_claims ec) /\
  SwitchClaims.m_ar_cert_chain_claims c =
    Verify.serialize_chain (SwitchEvidence.m_cert_chain_claims (SwitchEvidence.m_attestation_report_claims ec)) /\
  SwitchClaims.m_bios_rim_cert_chain c = Verify.serialize_chain bios_chain /\
  forallb id [SwitchClaims.m_switch_arch_match c; SwitchClaims.m_ar_cert_chain_fwid_match c;
    SwitchClaims.m_ar_parsed c; SwitchClaims.m_switch_ar_nonce_match c; SwitchClaims.m_ar_signature_verified c;
    SwitchClaims.m_bios_rim_fetched c; SwitchClaims.m_switch_bios_rim_version_match c;
    SwitchClaims.m_bios_rim_measurements_available c] = true.

(** What the verifier establishes of an item of evidence before it has claims
    for it. *)
Definition switch_verified (t0 t1 : Z) (policy : Rim.EvidencePolicy) (e : SwitchEvidence.SwitchEvidence)
    (v v' : vstate (R:=R) (S:=S)) (c : Claims3) : Prop :=
  exists r ec bios_id bios s1 bios_chain bm,
    SwitchEvidence.get_parsed_attestation_report e = Ret r /\
    SwitchEvidence.claims_hold t0 e r (ocsp v) s1 ec /\
    SwitchEvidence.get_vbios_rim_id r (SwitchEvidence.m_switch_architecture e) = Ret bios_id /\
    Rim.get_rim (rims v) bios_id = (Ret bios, rims v') /\
    Rim.get_version bios = Ret (SwitchEvidence.m_switch_bios_version ec) /\
    Verify.rim_checked t1 policy bios s1 (ocsp v') bios_chain (SwitchClaims.m_bios_rim_signature_verified c) /\
    Rim.get_measurements bios = Ret bm /\
    measres_meaning bm r c /\ claims_reflect e ec bios_chain c.

Lemma switch_set_vbios_Ret t d policy c (v : vstate (R:=R) (S:=S)) c' v' :
  set_vbios_rim_claims t d policy c v = (Ret c', v') ->
  exists cc sig, Verify.rim_checked t policy d (ocsp v) (ocsp v') cc sig /\
    rims v' = rims v /\ out_claims v' = out_claims v /\
    c' = with_bios_rim c (Verify.serialize_chain cc) sig.
Proof.
  intros (rc & v1 & (Hrc & Hr & Ho)%on_ocsp_Ret & Hn)%sbind_Ret.
  apply sbind_Ret in Hn as (cc & v2 & [Hcc ->]%slift_Ret & [= <- <-]).
  exists cc, (Rim.m_signature_verified rc). split_and!; try done. by eapply Verify.rim_claims_checked.
Qed.

Lemma switch_verify_one_sound t0 t1 policy e v c v' :
  verify_one t0 t1 policy e v = (Ret c, v') ->
  switch_verified t0 t1 policy e v v' c /\ out_claims v' = out_claims v.
Proof.
  unfold verify_one. intros (r & v0 & [Hr ->]%slift_Ret & Hn)%sbind_Ret.
  apply sbind_Ret in Hn as (ec & v1 & (Hec%SwitchEvidence.switch_evidence_claims_sound & Hr1 & Ho1)%on_ocsp_Ret & Hn).
  apply sbind_Ret in Hn as (bid & v2 & [Hbid ->]%slift_Ret & Hn).
  apply sbind_Ret in Hn as (bios & v2 & (Hb & Hs2 & Ho2)%on_rims_Ret & Hn).
  apply sbind_Ret in Hn as (bver & v3 & [Hbv ->]%slift_Ret & Hn).
  case_bool_decide as Ed; [subst bver|done].
  apply sbind_Ret in Hn as (c2 & v3 & (bcc & bsig & Hbc & Hr3 & Ho3 & ->)%switch_set_vbios_Ret & Hn).
  apply sbind_Ret in Hn as (bm & v6 & [Hbm ->]%slift_Ret & Hn).
  apply slift_Ret in Hn as [(Hmeas & measres & sb & dbg & mm & ->)%switch_measurement_claims_sound ->].
  split; [|congruence]. rewrite Hr1 in Hb. rewrite Hs2 in Hbc.
  exists r, ec, bid, bios, (ocsp v1), bcc, bm.
  destruct (SwitchEvidence.ch_flags _ _ _ _ _ _ Hec) as (F1 & F2 & F3 & F4 & F5).
  rewrite Hr3. unfold claims_reflect. split_and!; try done. cbn. by rewrite F1, F2, F3, F4, F5.
Qed.

(** The loop: one more claim for every item, each verified from the state its
    predecessors left. *)
Inductive all_verified (clock : nat -> Z) (policy : Rim.EvidencePolicy) :
    nat -> list SwitchEvidence.SwitchEvidence -> vstate (R:=R) (S:=S) -> list Collection.Claims -> Prop :=
| all_nil k v : all_verified clock policy k [] v []
| all_cons k e es v v1 c cs :
    switch_verified (clock k) (clock (k + 1)%nat) policy e v v1 c ->
    all_verified clock policy (k + 2) es (mk_vstate (rims v1) (ocsp v1)
      (out_claims v1 ++ [Collection.Switch c])) cs ->
    all_verified clock policy k (e :: es) v (Collection.Switch c :: cs).

Lemma switch_verify_loop_sound clock policy es k v v' :
  verify_loop clock k policy es v = (Ret tt, v') ->
  exists cs, out_claims v' = out_claims v ++ cs /\ all_verified clock policy k es v cs.
Proof.
  revert k v. induction es as [|e es IH]; intros k v; cbn [verify_loop].
  { intros [= <-]. exists []. rewrite app_nil_r. split; [done|constructor]. }
  intros (c & v1 & [Hv Ho]%switch_verify_one_sound & Hn)%sbind_Ret.
  apply sbind_Ret in Hn as ([] & v2 & [= <-] & Hn). apply IH in Hn as (cs & Hcs & Hall).
  exists (Collection.Switch c :: cs). cbn in Hcs. rewrite Hcs, <- Ho. unfold Collection.append.
  rewrite <- app_assoc. split; [done|]. by eapply all_cons.
Qed.

End local_facts.

(** The local verification as a whole. *)
Lemma local_switch_sound {R S : Type} `{!Rim.IRimStore R} `{!IOcspHttpClient S} clock options evidence policy
    want (v : vstate (R:=R) (S:=S)) text err v' :
  verify_evidence clock options evidence policy want v = (Ret (text, err), v') ->
  exists cs, out_claims v' = out_claims v ++ cs /\ length cs = length evidence /\
    all_verified clock policy 0 evidence v cs /\
    (if want then exists t, text = Some t /\ Eat.get_detached_eat (out_claims v') options = Ret (t, err)
     else text = None /\ err = None).
Proof.
  unfold verify_evidence. destruct (Rim.switch_claims_version policy). unfold generate_claims_v3.
  intros ([] & v1 & (cs & Hcs & Hall)%switch_verify_loop_sound & Hn)%sbind_Ret.
  assert (v' = v1 /\ if want then exists t, text = Some t /\ Eat.get_detached_eat (out_claims v1) options = Ret (t, err)
     else text = None /\ err = None) as [-> Hw].
  { destruct want; [|by injection Hn as <- <- <-].
    injection Hn as Hg <-. split; [done|]. apply obind_Ret in Hg as ([t e'] & Hg & [= <- <-]). eauto. }
  exists cs. split_and!; try done. clear -Hall. induction Hall; cbn; auto.
Qed.

(** ** Properties *)

(** P: when local verification returns, one claim was appended for every item
    of evidence, and for each item: its report was parsed and authenticated,
    its nonce and firmware id match, the BIOS RIM came from the store under
    the identifier the report gives, carries the report's version and was
    verified as the policy asks, and the claims say exactly this, with the
    measurement result meaning that every golden measurement has the runtime
    value among its alternatives.  The detached EAT is made of these claims. *)
Theorem local_switch_verify_sound {R S : Type} `{!Rim.IRimStore R} `{!IOcspHttpClient S} clock options evidence policy
    want (v : vstate (R:=R) (S:=S)) text err v' :
  verify_evidence clock options evidence policy want v = (Ret (text, err), v') ->
  exists cs, out_claims v' = out_claims v ++ cs /\ length cs = length evidence /\
    all_verified clock policy 0 evidence v cs /\
    (if want then exists t, text = Some t /\ Eat.get_detached_eat (out_claims v') options = Ret (t, err)
     else text = None /\ err = None).
Proof. apply local_switch_sound. Qed.

(** P: the measurement result is a success exactly when every golden
    measurement of the BIOS RIM has the runtime value of its index among its
    alternatives; otherwise it is a failure, with neither secure boot nor
    debug status claimed, that lists exactly the indices that do not match. *)
Theorem switch_measres_iff golden r c c' :
  generate_set_measurement_claims golden r c = Ret c' -> measres_meaning golden r c'.
Proof. by intros [Hm _]%switch_measurement_claims_sound. Qed.

End switch_verify.

(** *** The small report against a small RIM with the measurement of index 1. *)

#[local] Instance toy_rims : Rim.IRimStore (XML:=Rim.toy_xml) unit :=
  fun u rim_id =>
    (Rim.create_from_rim_data (XML:=Rim.toy_xml)
       (if String.prefix "NV_SWITCH_BIOS_5612_0002_890_" rim_id then "10a0b" else "0")
       (Rim.RimDocument_default (XML:=Rim.toy_xml)), u).

Definition toy_vstate : vstate (R:=unit) (S:=Ocsp.RawProofOcspClient (OSSL:=toy_openssl)) :=
  mk_vstate tt (Ocsp.mk_raw (OSSL:=toy_openssl) [] 1500) [].

Definition toy_verify :=
  verify_evidence (OSSL:=toy_openssl) (XML:=Rim.toy_xml) (env:=toy_env) (fun _ => 1500) toy_options
    [SwitchEvidence.toy_evidence] Rim.EvidencePolicy_default false toy_vstate.

Example toy_switch_verify_answer : toy_verify.1 = Ret (None, None).
Proof. vm_compute. reflexivity. Qed.

Lemma local_switch_verify_sound_witness :
  exists cs, out_claims toy_verify.2 = cs /\ length cs = 1%nat.
Proof.
  destruct (local_switch_verify_sound (OSSL:=toy_openssl) (XML:=Rim.toy_xml) (env:=toy_env) (fun _ => 1500) toy_options
    [SwitchEvidence.toy_evidence] Rim.EvidencePolicy_default false toy_vstate None None toy_verify.2)
    as (cs & H1 & H2 & _).
  - rewrite <- toy_switch_verify_answer. apply surjective_pairing.
  - exists cs. exact (conj H1 H2).
Defined.

(** A golden measurement the runtime value does not have. *)
Definition toy_golden : Rim.Measurements := {[1 := Rim.mk_measurement true 1 4 1 [[10; 12]] "m"]}.

Definition toy_measres_run : res Claims3 :=
  let* r := SwitchEvidence.create (OSSL:=toy_openssl) SwitchEvidence.toy_data SwitchEvidence.toy_chain_text
              SwitchEvidence.LS10 in
  generate_set_measurement_claims (OSSL:=toy_openssl) toy_golden r SwitchClaims.default.

Example toy_switch_measres :
  (match toy_measres_run with Ret c => SwitchClaims.m_measurements_matching c | _ => Success end) = Failure.
Proof. vm_compute. reflexivity. Qed.

Lemma switch_measres_iff_witness :
  exists r c, measres_meaning (OSSL:=toy_openssl) toy_golden r c /\ SwitchClaims.m_measurements_matching c = Failure.
Proof.
  pose proof toy_switch_measres as Hs. destruct toy_measres_run as [c|e|x|] eqn:E; [|discriminate Hs..].
  unfold toy_measres_run in E. apply obind_Ret in E as (r & _ & E).
  pose proof (switch_measres_iff (OSSL:=toy_openssl) toy_golden r SwitchClaims.default c E) as H.
  exists r, c. exact (conj H Hs).
Defined.

End SwitchVerify.
