(* ===== verification/Attestation.v ===== *)
(** * Attestation: the attestation context

    src/attestation.cpp and include/nv_attestation/attestation.h:
    [AttestationContext], its setters, [ensure_init], which makes the stores,
    clients and verifiers that were not given, and [attest_device], which
    collects evidence, verifies it and applies the relying party's policy.

    A pointer to a RIM store or an OCSP client is a value that says which
    object it is: one of the library's kinds, or one the user implements.
    What changes in those objects (requests made, caches) is in the world the
    pointers share, so that two pointers to one caching store see one cache.
    A remote verifier belongs to its context.  Collecting
    evidence from the drivers is a parameter. *)

From S2P Require Import Prelude Errors Utils SpdmReq SpdmMeasurementRecords SpdmOpaqueData SpdmResp GpuOpaqueData.
From S2P Require Import SwitchOpaqueData Json OpenSsl NvCache Ocsp X509Chain Claims Evaluator DetachedEat.
From S2P Require Import Http Jwt Certs Base64 Rim Report GpuEvidence SwitchEvidence Verify GpuVerify SwitchVerify.

Module Attestation.

Definition GPU_SPDM_REQ_NONCE_SIZE : Z := 32.

Section attestation.
Context `{OSSL : OpenSSL} `{XML : LibXml2} `{env : Eat.Env} `{B64 : Base64Lib} `{L : JwtLib}.
Context `{P : Http.Platform}.

(** ** Stores and clients *)

(** The network of the RIM, OCSP and NRAS services, by request; the clock the
    [n]-th call of a caching store or client reads; the file system; and the
    collection of evidence from the drivers. *)
Class World : Type := {
  rim_network : nat -> Http.Curl;
  ocsp_network : nat -> Http.Curl;
  nras_network : nat -> Http.Curl;
  jwks_network : nat -> Http.Curl;
  NVAT_VERSION_STRING : string;
  RAND_bytes : Z -> option (list Z);
  cache_clock : nat -> nat -> Z;
  path_exists : string -> bool;
  path_is_directory : string -> bool;
  read_file : string -> option string;
  collect_evidence_nvml : list Z -> res (list GpuEvidence.GpuEvidence);
  collect_evidence_corelib : GpuEvidence.GpuArchitecture -> list Z -> res (list GpuEvidence.GpuEvidence);
  collect_evidence_nscq : list Z -> res (list SwitchEvidence.SwitchEvidence);
}.

Context `{W : World}.

(** The user's stores [U] and clients [V], with the state [WU] and [WV] that
    their calls change. *)
Context {U WU V WV : Type} `{!Rim.IRimStore (U * WU)} `{!IOcspHttpClient (V * WV)}.

(** A caching store or client names its cache; its inner pointer may be
    null. *)
#[warnings="-register-all"]
Inductive rim_store : Type :=
| RemoteRimStore (base_url : string) (client : Http.NvHttpClient)
| FilesystemRimStore (base_path : string)
| CachingRimStore (cache : nat) (inner : option rim_store)
| UserRimStore (u : U).

#[warnings="-register-all"]
Inductive ocsp_client : Type :=
| HttpOcspClient (ocsp_url : string) (client : Http.NvHttpClient)
| RawOcspClient (client : Ocsp.RawProofOcspClient)
| CachingOcspClient (cache : nat) (inner : option ocsp_client)
| UserOcspClient (v : V).

(** What the library's stores, or its clients, share: the requests made so
    far, the caches by name, and the calls of caches so far, which read the
    clock. *)
Record shared (A : Type) : Type := mk_shared {
  requests_made : nat;
  caches : gmap nat (NvCache.NvCache A);
  cache_calls : nat;
}.

Arguments mk_shared {A}.
Arguments requests_made {A}.
Arguments caches {A}.
Arguments cache_calls {A}.

Definition new_shared {A : Type} : shared A := mk_shared 0 ∅ 0.

Definition with_requests {A : Type} (e : shared A) (n : nat) : shared A :=
  mk_shared n (caches e) (cache_calls e).

Definition with_cache {A : Type} (e : shared A) (id : nat) (c : NvCache.NvCache A) : shared A :=
  mk_shared (requests_made e) (<[id := c]> (caches e)) (cache_calls e).

Definition next_call {A : Type} (e : shared A) : shared A :=
  mk_shared (requests_made e) (caches e) (S (cache_calls e)).

Abbreviation rim_env := (shared string * WU)%type.
Abbreviation ocsp_env := (shared NvOcspResponse * WV)%type.

(** [get_rim] of the store a pointer points to. *)
Fixpoint store_get_rim (store : rim_store) (w : rim_env) (rim_id : string) : res Rim.RimDocument * rim_env :=
  match store with
  | RemoteRimStore base_url client =>
      let '(r, s') := Rim.remote_get_rim Eat.json_parse
                        (Rim.mk_remote base_url (Http.mk_session client (requests_made w.1) rim_network)) rim_id in
      (r, (with_requests w.1 (Http.requests (Rim.m_http_client s')), w.2))
  | FilesystemRimStore base_path =>
      (Rim.filesystem_get_rim path_exists path_is_directory read_file base_path rim_id, w)
  | CachingRimStore id inner =>
      match caches w.1 !! id with
      | None => (UB, w)
      | Some cache =>
          let inner_store : Rim.IRimStore rim_env := fun w rim_id =>
            match inner with Some inner => store_get_rim inner w rim_id | None => (UB, w) end in
          let k := cache_calls w.1 in
          let '(r, s') := Rim.caching_get_rim (cache_clock k 0) (fun i => cache_clock k (S i))
                            (Rim.mk_caching (next_call w.1, w.2) cache) rim_id in
          (r, (with_cache (Rim.m_inner_client s').1 id (Rim.m_cache s'), (Rim.m_inner_client s').2))
      end
  | UserRimStore u => let '(r, uw) := Rim.get_rim (u, w.2) rim_id in (r, (w.1, uw.2))
  end.

#[global] Instance rim_stores : Rim.IRimStore (rim_store * rim_env) := fun s rim_id =>
  let '(r, w) := store_get_rim s.1 s.2 rim_id in (r, (s.1, w)).

(** The request of [NvHttpOcspClient::get_ocsp_response]. *)
Definition ocsp_post (ocsp_url : string) (client : Http.NvHttpClient) (n : nat) (request_payload : list Z) :
    res (Z * list Z) :=
  let* (http_status, response_body) :=
    Http.do_request_as_string (H:=ocsp_network n) client
      (Http.mk_request ocsp_url Http.HTTP_METHOD_POST
         [("Content-Type", "application/ocsp-request"); ("Accept", "application/ocsp-response");
          ("User-Agent", "nv-attestation-sdk/" +:+ NVAT_VERSION_STRING)]
         (string_of_bytes request_payload)) in
  Ret (http_status, bytes_of_string response_body).

(** [get_ocsp_response] of the client a pointer points to. *)
Fixpoint client_get_ocsp_response (client : ocsp_client) (w : ocsp_env) (subject issuer : option X509)
    (inter : list X509) (store : option X509_STORE) : res NvOcspResponse * ocsp_env :=
  match client with
  | HttpOcspClient ocsp_url c =>
      (Ocsp.http_get_ocsp_response (Ocsp.mk_http (ocsp_post ocsp_url c (requests_made w.1))) subject issuer inter store,
       (with_requests w.1 (S (requests_made w.1)), w.2))
  | RawOcspClient c => (Ocsp.raw_get_ocsp_response c subject issuer inter store, w)
  | CachingOcspClient id inner =>
      match caches w.1 !! id with
      | None => (UB, w)
      | Some cache =>
          let inner_client : IOcspHttpClient ocsp_env := fun w subject issuer inter store =>
            match inner with
            | Some inner => client_get_ocsp_response inner w subject issuer inter store
            | None => (UB, w)
            end in
          let k := cache_calls w.1 in
          let '(r, s') := Ocsp.cache_get_ocsp_response (cache_clock k 0) (cache_clock k 1)
                            (fun i => cache_clock k (S (S i))) (Ocsp.mk_cache_client (next_call w.1, w.2) cache)
                            subject issuer inter store in
          (r, (with_cache (Ocsp.m_inner_client s').1 id (Ocsp.m_cache s'), (Ocsp.m_inner_client s').2))
      end
  | UserOcspClient v =>
      let '(r, vw) := get_ocsp_response (v, w.2) subject issuer inter store in (r, (w.1, vw.2))
  end.

#[global] Instance ocsp_clients : IOcspHttpClient (ocsp_client * ocsp_env) := fun s subject issuer inter store =>
  let '(r, w) := client_get_ocsp_response s.1 s.2 subject issuer inter store in (r, (s.1, w)).

(** [NvRemoteRimStoreImpl::init_from_env]. *)
Definition make_rim_store (base_url service_key : string) (options : Http.HttpOptions) : rim_store :=
  let s := Rim.init_from_env Http.getenv (Some base_url) (Http.create service_key options) in
  RemoteRimStore (Rim.m_base_url s) (Rim.m_http_client s).

(** [NvHttpOcspClient::init_from_env]. *)
Definition make_ocsp_client (base_url service_key : string) (options : Http.HttpOptions) : ocsp_client :=
  HttpOcspClient (Ocsp.ocsp_base_url Http.getenv (Some base_url)) (Http.create service_key options).

(** ** Verifiers and sources of evidence *)

Inductive verifier : Type :=
| LocalVerifier (rim : rim_store) (ocsp : ocsp_client) (options : Eat.DetachedEATOptions)
| RemoteVerifier (urls : Verify.NvRemoteVerifier) (client : Http.NvHttpClient)
    (jwks : Jwt.JwkStore (C:=Http.session)).

(** [LocalGpuVerifier::create] and [LocalSwitchVerifier::create]; a null
    pointer is refused. *)
Definition make_local (rim : option rim_store) (ocsp : option ocsp_client) (options : Eat.DetachedEATOptions) :
    res verifier :=
  let* v := GpuVerify.create rim ocsp options in
  Ret (LocalVerifier (GpuVerify.m_rim_store v) (GpuVerify.m_ocsp_http_client v) (GpuVerify.m_detached_eat_options v)).

(** [init_from_env] of the remote verifiers, with the path of the device. *)
Definition make_remote (path nras_url service_key : string) (options : Http.HttpOptions) : verifier :=
  let '(urls, jwks_url) := Verify.remote_urls Http.getenv path (Some nras_url) in
  let client := Http.create service_key options in
  RemoteVerifier urls client
    (Jwt.init_from_env jwks_url (Http.mk_session client 0 jwks_network) Jwt.DEFAULT_JWKS_CACHE_DURATION_MS).

Inductive gpu_source : Type :=
| NvmlEvidenceCollector
| CorelibEvidenceCollector (architecture : GpuEvidence.GpuArchitecture)
| GpuEvidenceFromJson (m_evidence : list GpuEvidence.GpuEvidence).

Inductive switch_source : Type :=
| NscqEvidenceCollector
| SwitchEvidenceFromJson (m_evidence : list SwitchEvidence.SwitchEvidence).

Definition gpu_get_evidence (source : gpu_source) (nonce : list Z) : res (list GpuEvidence.GpuEvidence) :=
  match source with
  | NvmlEvidenceCollector => collect_evidence_nvml nonce
  | CorelibEvidenceCollector architecture => collect_evidence_corelib architecture nonce
  | GpuEvidenceFromJson es => GpuEvidence.source_get_evidence es nonce
  end.

Definition switch_get_evidence (source : switch_source) (nonce : list Z) :
    res (list SwitchEvidence.SwitchEvidence) :=
  match source with
  | NscqEvidenceCollector => collect_evidence_nscq nonce
  | SwitchEvidenceFromJson es => SwitchEvidence.source_get_evidence es nonce
  end.

(** ** The context *)

(** The claims evaluator by its Rego policy. *)
Record AttestationContext : Type := mk_context {
  m_default_verifier_type : Verify.VerifierType;
  m_default_http_options : Http.HttpOptions;
  m_default_ocsp_client : option ocsp_client;
  m_default_ocsp_url : string;
  m_default_rim_store : option rim_store;
  m_default_rim_store_url : string;
  m_gpu_enabled : bool;
  m_gpu_evidence_source : option gpu_source;
  m_gpu_verifier : option verifier;
  m_switch_enabled : bool;
  m_switch_evidence_source : option switch_source;
  m_switch_verifier : option verifier;
  m_default_nras_url : string;
  m_evidence_policy : Rim.EvidencePolicy;
  m_claims_evaluator : option string;
  m_eat_options : Eat.DetachedEATOptions;
  m_service_key : string;
}.

(** The default constructor. *)
Definition new_context : AttestationContext :=
  mk_context Verify.Remote Http.HttpOptions_default None "" None "" true None None false None None ""
    Rim.EvidencePolicy_default None (Eat.mk_options "" "NVAT-LOCAL-VERIFIER" "") "".

(** What [ensure_init] stores. *)
Definition with_rim_store (c : AttestationContext) (s : rim_store) : AttestationContext :=
  mk_context (m_default_verifier_type c) (m_default_http_options c) (m_default_ocsp_client c)
    (m_default_ocsp_url c) (Some s) (m_default_rim_store_url c) (m_gpu_enabled c) (m_gpu_evidence_source c)
    (m_gpu_verifier c) (m_switch_enabled c) (m_switch_evidence_source c) (m_switch_verifier c)
    (m_default_nras_url c) (m_evidence_policy c) (m_claims_evaluator c) (m_eat_options c) (m_service_key c).

Definition with_ocsp_client (c : AttestationContext) (o : ocsp_client) : AttestationContext :=
  mk_context (m_default_verifier_type c) (m_default_http_options c) (Some o) (m_default_ocsp_url c)
    (m_default_rim_store c) (m_default_rim_store_url c) (m_gpu_enabled c) (m_gpu_evidence_source c)
    (m_gpu_verifier c) (m_switch_enabled c) (m_switch_evidence_source c) (m_switch_verifier c)
    (m_default_nras_url c) (m_evidence_policy c) (m_claims_evaluator c) (m_eat_options c) (m_service_key c).

Definition with_gpu_source (c : AttestationContext) (s : gpu_source) : AttestationContext :=
  mk_context (m_default_verifier_type c) (m_default_http_options c) (m_default_ocsp_client c)
    (m_default_ocsp_url c) (m_default_rim_store c) (m_default_rim_store_url c) (m_gpu_enabled c) (Some s)
    (m_gpu_verifier c) (m_switch_enabled c) (m_switch_evidence_source c) (m_switch_verifier c)
    (m_default_nras_url c) (m_evidence_policy c) (m_claims_evaluator c) (m_eat_options c) (m_service_key c).

Definition with_gpu_verifier (c : AttestationContext) (v : verifier) : AttestationContext :=
  mk_context (m_default_verifier_type c) (m_default_http_options c) (m_default_ocsp_client c)
    (m_default_ocsp_url c) (m_default_rim_store c) (m_default_rim_store_url c) (m_gpu_enabled c)
    (m_gpu_evidence_source c) (Some v) (m_switch_enabled c) (m_switch_evidence_source c) (m_switch_verifier c)
    (m_default_nras_url c) (m_evidence_policy c) (m_claims_evaluator c) (m_eat_options c) (m_service_key c).

Definition with_switch_source (c : AttestationContext) (s : switch_source) : AttestationContext :=
  mk_context (m_default_verifier_type c) (m_default_http_options c) (m_default_ocsp_client c)
    (m_default_ocsp_url c) (m_default_rim_store c) (m_default_rim_store_url c) (m_gpu_enabled c)
    (m_gpu_evidence_source c) (m_gpu_verifier c) (m_switch_enabled c) (Some s) (m_switch_verifier c)
    (m_default_nras_url c) (m_evidence_policy c) (m_claims_evaluator c) (m_eat_options c) (m_service_key c).

Definition with_switch_verifier (c : AttestationContext) (v : verifier) : AttestationContext :=
  mk_context (m_default_verifier_type c) (m_default_http_options c) (m_default_ocsp_client c)
    (m_default_ocsp_url c) (m_default_rim_store c) (m_default_rim_store_url c) (m_gpu_enabled c)
    (m_gpu_evidence_source c) (m_gpu_verifier c) (m_switch_enabled c) (m_switch_evidence_source c) (Some v)
    (m_default_nras_url c) (m_evidence_policy c) (m_claims_evaluator c) (m_eat_options c) (m_service_key c).

(** *** The setters *)

Definition set_device_type (c : AttestationContext) (device_type : Z) : AttestationContext :=
  if negb (device_type =? Verify.NVAT_DEVICE_GPU) && negb (device_type =? Verify.NVAT_DEVICE_NVSWITCH) then c
  else
  mk_context (m_default_verifier_type c) (m_default_http_options c) (m_default_ocsp_client c)
    (m_default_ocsp_url c) (m_default_rim_store c) (m_default_rim_store_url c)
    (device_type =? Verify.NVAT_DEVICE_GPU) (m_gpu_evidence_source c) (m_gpu_verifier c)
    (device_type =? Verify.NVAT_DEVICE_NVSWITCH) (m_switch_evidence_source c) (m_switch_verifier c)
    (m_default_nras_url c) (m_evidence_policy c) (m_claims_evaluator c) (m_eat_options c) (m_service_key c).

Definition set_verifier_type (c : AttestationContext) (verifier_type : Verify.VerifierType) : AttestationContext :=
  let same := bool_decide (m_default_verifier_type c = verifier_type) in
  mk_context verifier_type (m_default_http_options c) (m_default_ocsp_client c) (m_default_ocsp_url c)
    (m_default_rim_store c) (m_default_rim_store_url c) (m_gpu_enabled c) (m_gpu_evidence_source c)
    (if same then m_gpu_verifier c else None) (m_switch_enabled c) (m_switch_evidence_source c)
    (if same then m_switch_verifier c else None) (m_default_nras_url c) (m_evidence_policy c)
    (m_claims_evaluator c) (m_eat_options c) (m_service_key c).

Definition set_default_http_options (c : AttestationContext) (http_options : Http.HttpOptions) : AttestationContext :=
  mk_context (m_default_verifier_type c) http_options (m_default_ocsp_client c) (m_default_ocsp_url c)
    (m_default_rim_store c) (m_default_rim_store_url c) (m_gpu_enabled c) (m_gpu_evidence_source c)
    (m_gpu_verifier c) (m_switch_enabled c) (m_switch_evidence_source c) (m_switch_verifier c)
    (m_default_nras_url c) (m_evidence_policy c) (m_claims_evaluator c) (m_eat_options c) (m_service_key c).

Definition set_default_rim_store_url (c : AttestationContext) (rim_store_url : string) : AttestationContext :=
  mk_context (m_default_verifier_type c) (m_default_http_options c) (m_default_ocsp_client c)
    (m_default_ocsp_url c) None rim_store_url (m_gpu_enabled c) (m_gpu_evidence_source c) None
    (m_switch_enabled c) (m_switch_evidence_source c) None (m_default_nras_url c) (m_evidence_policy c)
    (m_claims_evaluator c) (m_eat_options c) (m_service_key c).

Definition set_default_ocsp_url (c : AttestationContext) (ocsp_url : string) : AttestationContext :=
  mk_context (m_default_verifier_type c) (m_default_http_options c) None ocsp_url (m_default_rim_store c)
    (m_default_rim_store_url c) (m_gpu_enabled c) (m_gpu_evidence_source c) None (m_switch_enabled c)
    (m_switch_evidence_source c) None (m_default_nras_url c) (m_evidence_policy c) (m_claims_evaluator c)
    (m_eat_options c) (m_service_key c).

Definition set_default_nras_url (c : AttestationContext) (nras_url : string) : AttestationContext :=
  mk_context (m_default_verifier_type c) (m_default_http_options c) (m_default_ocsp_client c)
    (m_default_ocsp_url c) (m_default_rim_store c) (m_default_rim_store_url c) (m_gpu_enabled c)
    (m_gpu_evidence_source c) None (m_switch_enabled c) (m_switch_evidence_source c) None nras_url
    (m_evidence_policy c) (m_claims_evaluator c) (m_eat_options c) (m_service_key c).

Definition set_default_rim_store (c : AttestationContext) (rim_store : option rim_store) : AttestationContext :=
  mk_context (m_default_verifier_type c) (m_default_http_options c) (m_default_ocsp_client c)
    (m_default_ocsp_url c) rim_store (m_default_rim_store_url c) (m_gpu_enabled c) (m_gpu_evidence_source c)
    None (m_switch_enabled c) (m_switch_evidence_source c) None (m_default_nras_url c) (m_evidence_policy c)
    (m_claims_evaluator c) (m_eat_options c) (m_service_key c).

Definition set_default_ocsp_client (c : AttestationContext) (ocsp_client : option ocsp_client) : AttestationContext :=
  mk_context (m_default_verifier_type c) (m_default_http_options c) ocsp_client (m_default_ocsp_url c)
    (m_default_rim_store c) (m_default_rim_store_url c) (m_gpu_enabled c) (m_gpu_evidence_source c) None
    (m_switch_enabled c) (m_switch_evidence_source c) None (m_default_nras_url c) (m_evidence_policy c)
    (m_claims_evaluator c) (m_eat_options c) (m_service_key c).

Definition set_evidence_policy (c : AttestationContext) (policy : Rim.EvidencePolicy) : AttestationContext :=
  mk_context (m_default_verifier_type c) (m_default_http_options c) (m_default_ocsp_client c)
    (m_default_ocsp_url c) (m_default_rim_store c) (m_default_rim_store_url c) (m_gpu_enabled c)
    (m_gpu_evidence_source c) None (m_switch_enabled c) (m_switch_evidence_source c) None (m_default_nras_url c)
    policy (m_claims_evaluator c) (m_eat_options c) (m_service_key c).

Definition set_claims_evaluator (c : AttestationContext) (evaluator : option string) : AttestationContext :=
  mk_context (m_default_verifier_type c) (m_default_http_options c) (m_default_ocsp_client c)
    (m_default_ocsp_url c) (m_default_rim_store c) (m_default_rim_store_url c) (m_gpu_enabled c)
    (m_gpu_evidence_source c) (m_gpu_verifier c) (m_switch_enabled c) (m_switch_evidence_source c)
    (m_switch_verifier c) (m_default_nras_url c) (m_evidence_policy c) evaluator (m_eat_options c)
    (m_service_key c).

Definition set_gpu_evidence_source (c : AttestationContext) (evidence_source : option gpu_source) : AttestationContext :=
  mk_context (m_default_verifier_type c) (m_default_http_options c) (m_default_ocsp_client c)
    (m_default_ocsp_url c) (m_default_rim_store c) (m_default_rim_store_url c) (m_gpu_enabled c) evidence_source
    (m_gpu_verifier c) (m_switch_enabled c) (m_switch_evidence_source c) (m_switch_verifier c)
    (m_default_nras_url c) (m_evidence_policy c) (m_claims_evaluator c) (m_eat_options c) (m_service_key c).

Definition set_switch_evidence_source (c : AttestationContext) (evidence_source : option switch_source) : AttestationContext :=
  mk_context (m_default_verifier_type c) (m_default_http_options c) (m_default_ocsp_client c)
    (m_default_ocsp_url c) (m_default_rim_store c) (m_default_rim_store_url c) (m_gpu_enabled c)
    (m_gpu_evidence_source c) (m_gpu_verifier c) (m_switch_enabled c) evidence_source (m_switch_verifier c)
    (m_default_nras_url c) (m_evidence_policy c) (m_claims_evaluator c) (m_eat_options c) (m_service_key c).

Definition set_gpu_evidence_source_json_file (c : AttestationContext) (file_path : string) :
    res AttestationContext :=
  let* es := GpuEvidence.file_source_create Eat.json_parse read_file file_path in
  Ret (set_gpu_evidence_source c (Some (GpuEvidenceFromJson es))).

Definition set_switch_evidence_source_json_file (c : AttestationContext) (file_path : string) :
    res AttestationContext :=
  let* es := SwitchEvidence.file_source_create Eat.json_parse read_file file_path in
  Ret (set_switch_evidence_source c (Some (SwitchEvidenceFromJson es))).

Definition set_gpu_verifier (c : AttestationContext) (verifier : option verifier) : AttestationContext :=
  mk_context (m_default_verifier_type c) (m_default_http_options c) (m_default_ocsp_client c)
    (m_default_ocsp_url c) (m_default_rim_store c) (m_default_rim_store_url c) (m_gpu_enabled c)
    (m_gpu_evidence_source c) verifier (m_switch_enabled c) (m_switch_evidence_source c) (m_switch_verifier c)
    (m_default_nras_url c) (m_evidence_policy c) (m_claims_evaluator c) (m_eat_options c) (m_service_key c).

Definition set_switch_verifier (c : AttestationContext) (verifier : option verifier) : AttestationContext :=
  mk_context (m_default_verifier_type c) (m_default_http_options c) (m_default_ocsp_client c)
    (m_default_ocsp_url c) (m_default_rim_store c) (m_default_rim_store_url c) (m_gpu_enabled c)
    (m_gpu_evidence_source c) (m_gpu_verifier c) (m_switch_enabled c) (m_switch_evidence_source c) verifier
    (m_default_nras_url c) (m_evidence_policy c) (m_claims_evaluator c) (m_eat_options c) (m_service_key c).

Definition set_detached_eat_options (c : AttestationContext) (options : Eat.DetachedEATOptions) : AttestationContext :=
  mk_context (m_default_verifier_type c) (m_default_http_options c) (m_default_ocsp_client c)
    (m_default_ocsp_url c) (m_default_rim_store c) (m_default_rim_store_url c) (m_gpu_enabled c)
    (m_gpu_evidence_source c) None (m_switch_enabled c) (m_switch_evidence_source c) None (m_default_nras_url c)
    (m_evidence_policy c) (m_claims_evaluator c) options (m_service_key c).

Definition set_service_key (c : AttestationContext) (service_key : string) : AttestationContext :=
  mk_context (m_default_verifier_type c) (m_default_http_options c) None (m_default_ocsp_url c) None
    (m_default_rim_store_url c) (m_gpu_enabled c) (m_gpu_evidence_source c) None (m_switch_enabled c)
    (m_switch_evidence_source c) None (m_default_nras_url c) (m_evidence_policy c) (m_claims_evaluator c)
    (m_eat_options c) service_key.

(** ** Initialization *)

(** The verifier of the default type, for the path of the device. *)
Definition make_verifier (c : AttestationContext) (path : string) : res verifier :=
  match m_default_verifier_type c with
  | Verify.Local => make_local (m_default_rim_store c) (m_default_ocsp_client c) (m_eat_options c)
  | Verify.Remote => Ret (make_remote path (m_default_nras_url c) (m_service_key c) (m_default_http_options c))
  end.

Definition gpu_path : string := "/v4/attest/gpu".
Definition switch_path : string := "/v4/attest/switch".

(** The stores that are missing. *)
Definition ensure_stores (c : AttestationContext) : AttestationContext :=
  let c :=
    match m_default_rim_store c with
    | None => with_rim_store c (make_rim_store (m_default_rim_store_url c) (m_service_key c) (m_default_http_options c))
    | Some _ => c
    end in
  match m_default_ocsp_client c with
  | None => with_ocsp_client c (make_ocsp_client (m_default_ocsp_url c) (m_service_key c) (m_default_http_options c))
  | Some _ => c
  end.

Definition ensure_gpu : sm AttestationContext Error unit := fun c =>
  if m_gpu_enabled c then
    let c := match m_gpu_evidence_source c with None => with_gpu_source c NvmlEvidenceCollector | Some _ => c end in
    match m_gpu_verifier c with
    | Some _ => (Ret tt, c)
    | None => (do* v := slift (make_verifier c gpu_path) in fun c => (Ret tt, with_gpu_verifier c v)) c
    end
  else (Ret tt, c).

Definition ensure_switch : sm AttestationContext Error unit := fun c =>
  if m_switch_enabled c then
    let c :=
      match m_switch_evidence_source c with None => with_switch_source c NscqEvidenceCollector | Some _ => c end in
    match m_switch_verifier c with
    | Some _ => (Ret tt, c)
    | None => (do* v := slift (make_verifier c switch_path) in fun c => (Ret tt, with_switch_verifier c v)) c
    end
  else (Ret tt, c).

Definition ensure_init : sm AttestationContext Error unit :=
  do* _ := (fun c => (Ret tt, ensure_stores c)) in
  do* _ := ensure_gpu in
  ensure_switch.

(** ** Attestation *)

Record state : Type := mk_state {
  context : AttestationContext;
  rim_world : rim_env;
  ocsp_world : ocsp_env;
  nras_requests : nat;
  claims : Collection.ClaimsCollection;
}.

Definition on_context {A : Type} (f : sm AttestationContext Error A) : sm state Error A := fun st =>
  let '(o, c) := f (context st) in
  (o, mk_state c (rim_world st) (ocsp_world st) (nras_requests st) (claims st)).

Definition set_claims (cs : Collection.ClaimsCollection) : sm state Error unit := fun st =>
  (Ret tt, mk_state (context st) (rim_world st) (ocsp_world st) (nras_requests st) cs).

Definition get_state : sm state Error state := fun st => (Ret st, st).

Abbreviation local_state := (vstate (R:=rim_store * rim_env) (S:=ocsp_client * ocsp_env)).
Abbreviation remote_state := (Verify.rstate (C:=Http.session)).

(** A local verification, with the stores its verifier points to. *)
Definition run_local {A : Type} (rim : rim_store) (client : ocsp_client) (f : sm local_state Error A) :
    sm state Error A := fun st =>
  let '(o, v) := f (mk_vstate (rim, rim_world st) (client, ocsp_world st) (claims st)) in
  (o, mk_state (context st) (rims v).2 (ocsp v).2 (nras_requests st) (out_claims v)).

(** A remote verification; the keys its verifier holds afterwards are kept by
    [keep]. *)
Definition run_remote (urls : Verify.NvRemoteVerifier) (client : Http.NvHttpClient)
    (jwks : Jwt.JwkStore (C:=Http.session)) (keep : AttestationContext -> verifier -> AttestationContext)
    (want : bool) (f : sm remote_state Error (string * option Error)) :
    sm state Error (option string * option Error) := fun st =>
  let '(o, r) := f (Verify.mk_rstate (Http.mk_session client (nras_requests st) nras_network) jwks (claims st)) in
  (let* (text, err) := o in Ret (if want then Some text else None, err),
   mk_state (keep (context st) (RemoteVerifier urls client (Verify.r_jwks r))) (rim_world st) (ocsp_world st)
     (Http.requests (Verify.r_http r)) (Verify.r_out_claims r)).

(** The clock in seconds, as certificates are checked, and in milliseconds, as
    keys expire. *)
Section run.
Context (clock clock_ms : nat -> Z).

(** [IGpuVerifier::verify_evidence]. *)
Definition gpu_verify (v : verifier) (evidence : list GpuEvidence.GpuEvidence) (policy : Rim.EvidencePolicy)
    (want_detached_eat : bool) : sm state Error (option string * option Error) :=
  match v with
  | LocalVerifier rim ocsp options =>
      run_local rim ocsp (GpuVerify.verify_evidence clock options evidence policy want_detached_eat)
  | RemoteVerifier urls client jwks =>
      run_remote urls client jwks with_gpu_verifier want_detached_eat
        (GpuVerify.remote_verify_evidence urls clock_ms evidence policy)
  end.

Definition attest_gpus (nonce : list Z) (want_detached_eat : bool) :
    sm state Error (option string * option Error) :=
  do* st := get_state in
  match m_gpu_evidence_source (context st), m_gpu_verifier (context st) with
  | Some source, Some v =>
      do* evidence := slift (gpu_get_evidence source nonce) in
      gpu_verify v evidence (m_evidence_policy (context st)) want_detached_eat
  | _, _ => slift UB
  end.

(** [ISwitchVerifier::verify_evidence]. *)
Definition switch_verify (v : verifier) (evidence : list SwitchEvidence.SwitchEvidence) (policy : Rim.EvidencePolicy)
    (want_detached_eat : bool) : sm state Error (option string * option Error) :=
  match v with
  | LocalVerifier rim ocsp options =>
      run_local rim ocsp (SwitchVerify.verify_evidence clock options evidence policy want_detached_eat)
  | RemoteVerifier urls client jwks =>
      run_remote urls client jwks with_switch_verifier want_detached_eat
        (SwitchVerify.remote_verify_evidence urls clock_ms evidence policy)
  end.

Definition attest_switches (nonce : list Z) (want_detached_eat : bool) :
    sm state Error (option string * option Error) :=
  do* st := get_state in
  match m_switch_evidence_source (context st), m_switch_verifier (context st) with
  | Some source, Some v =>
      do* evidence := slift (switch_get_evidence source nonce) in
      switch_verify v evidence (m_evidence_policy (context st)) want_detached_eat
  | _, _ => slift UB
  end.

Definition evaluate (policy : string) (cs : Collection.ClaimsCollection) : res bool :=
  RegoClaimsEvaluator.evaluate_claims Eat.json_dump Eat.json_parse Eat.rego policy cs.

Definition choose_nonce (nonce : list Z) : res (list Z) :=
  if bool_decide (nonce = []) then generate_nonce RAND_bytes GPU_SPDM_REQ_NONCE_SIZE else Ret nonce.

(** What the relying party's policy makes of the verifier's status. *)
Definition apply_policy (text : option string) (err : option Error) :
    sm state Error (option string * option Error) :=
  do* st := get_state in
  match m_claims_evaluator (context st), err with
  | None, _ => sret (text, err)
  | Some policy, None | Some policy, Some OverallResultFalse =>
      do* policy_match := slift (evaluate policy (claims st)) in
      sret (text, if policy_match then None else Some RelyingPartyPolicyMismatch)
  | Some _, Some e => sret (text, Some e)
  end.

(** [attest_device]: the detached EAT, if it was asked for, and the error that
    is returned with it. *)
Definition attest_device (nonce : list Z) (want_detached_eat : bool) :
    sm state Error (option string * option Error) :=
  do* _ := on_context ensure_init in
  do* nonce := slift (choose_nonce nonce) in
  do* _ := set_claims [] in
  do* st := get_state in
  do* (text, err) :=
    if m_gpu_enabled (context st) then attest_gpus nonce want_detached_eat
    else if m_switch_enabled (context st) then attest_switches nonce want_detached_eat
    else slift (Err InternalError) in
  apply_policy text err.

End run.

(** ** Lemmas *)

(** *** What initialization amounts to *)

Definition rim_or_default (c : AttestationContext) : rim_store :=
  default (make_rim_store (m_default_rim_store_url c) (m_service_key c) (m_default_http_options c))
    (m_default_rim_store c).

Definition ocsp_or_default (c : AttestationContext) : ocsp_client :=
  default (make_ocsp_client (m_default_ocsp_url c) (m_service_key c) (m_default_http_options c))
    (m_default_ocsp_client c).

Definition new_verifier (c : AttestationContext) (path : string) : verifier :=
  match m_default_verifier_type c with
  | Verify.Local => LocalVerifier (rim_or_default c) (ocsp_or_default c) (m_eat_options c)
  | Verify.Remote => make_remote path (m_default_nras_url c) (m_service_key c) (m_default_http_options c)
  end.

(** The given objects stay, the missing ones are made. *)
Definition initialized (c : AttestationContext) : AttestationContext :=
  let or_new {A} (enabled : bool) (given : option A) (new : A) : option A :=
    if enabled then Some (default new given) else given in
  mk_context (m_default_verifier_type c) (m_default_http_options c)
    (Some (ocsp_or_default c)) (m_default_ocsp_url c) (Some (rim_or_default c)) (m_default_rim_store_url c)
    (m_gpu_enabled c) (or_new (m_gpu_enabled c) (m_gpu_evidence_source c) NvmlEvidenceCollector)
    (or_new (m_gpu_enabled c) (m_gpu_verifier c) (new_verifier c gpu_path))
    (m_switch_enabled c) (or_new (m_switch_enabled c) (m_switch_evidence_source c) NscqEvidenceCollector)
    (or_new (m_switch_enabled c) (m_switch_verifier c) (new_verifier c switch_path))
    (m_default_nras_url c) (m_evidence_policy c) (m_claims_evaluator c) (m_eat_options c) (m_service_key c).

Lemma ensure_init_eq c : ensure_init c = (Ret tt, initialized c).
Proof.
  unfold ensure_init, ensure_stores, ensure_gpu, ensure_switch, initialized, new_verifier, rim_or_default,
    ocsp_or_default, make_verifier, make_local.
  destruct c as [ty ho [oc|] ou [rs|] ru ge [gs|] [gv|] se [ss|] [sv|] nu pol ev eo key];
    destruct ge, se, ty; reflexivity.
Qed.

(** Nothing is missing. *)
Definition settled (c : AttestationContext) : Prop :=
  is_Some (m_default_rim_store c) /\ is_Some (m_default_ocsp_client c) /\
  (m_gpu_enabled c = true -> is_Some (m_gpu_evidence_source c) /\ is_Some (m_gpu_verifier c)) /\
  (m_switch_enabled c = true -> is_Some (m_switch_evidence_source c) /\ is_Some (m_switch_verifier c)).

Lemma settled_initialized c : settled (initialized c).
Proof. unfold settled. cbn. split_and!; [done..| |]; intros ->; done. Qed.

Lemma initialized_settled c : settled c -> initialized c = c.
Proof.
  intros ([rs Hr] & [oc Ho] & Hg & Hs). unfold initialized, rim_or_default, ocsp_or_default.
  destruct c as [ty ho oc' ou rs' ru ge gs gv se ss sv nu pol ev eo key]. cbn in *. subst. cbn. f_equal.
  - destruct ge; [|done]. by destruct (Hg eq_refl) as [[? ->] _].
  - destruct ge; [|done]. by destruct (Hg eq_refl) as [_ [? ->]].
  - destruct se; [|done]. by destruct (Hs eq_refl) as [[? ->] _].
  - destruct se; [|done]. by destruct (Hs eq_refl) as [_ [? ->]].
Qed.

(** *** Components that were made from the current settings

    The HTTP options are those of the time. *)

Definition made_verifier (c : AttestationContext) (path : string) (v : verifier) : Prop :=
  match v with
  | LocalVerifier rim client options =>
      m_default_verifier_type c = Verify.Local /\ m_default_rim_store c = Some rim /\
      m_default_ocsp_client c = Some client /\ options = m_eat_options c
  | RemoteVerifier urls client _ =>
      m_default_verifier_type c = Verify.Remote /\
      urls = (Verify.remote_urls Http.getenv path (Some (m_default_nras_url c))).1 /\
      exists options, client = Http.create (m_service_key c) options
  end.

(** The store, the client and the verifiers that were given last and not
    dropped since. *)
Record given : Type := mk_given {
  given_rim : option rim_store;
  given_ocsp : option ocsp_client;
  given_gpu : option verifier;
  given_switch : option verifier;
}.

(** One verifier, with the keys it holds now. *)
Definition same_verifier (v v' : verifier) : Prop :=
  match v, v' with
  | RemoteVerifier urls client _, RemoteVerifier urls' client' _ => urls' = urls /\ client' = client
  | _, _ => v' = v
  end.

(** What a given verifier has become, and what one that was made is. *)
Definition holds_verifier (g : option verifier) (c : AttestationContext) (path : string) (current : option verifier) : Prop :=
  match g with
  | Some v => exists v', current = Some v' /\ same_verifier v v'
  | None => forall v, current = Some v -> made_verifier c path v
  end.

Definition made_rim (g : given) (c : AttestationContext) (s : rim_store) : Prop :=
  given_rim g = Some s \/
  given_rim g = None /\
  exists options, s = make_rim_store (m_default_rim_store_url c) (m_service_key c) options.

Definition made_ocsp (g : given) (c : AttestationContext) (o : ocsp_client) : Prop :=
  given_ocsp g = Some o \/
  given_ocsp g = None /\
  exists options, o = make_ocsp_client (m_default_ocsp_url c) (m_service_key c) options.

Record coherent (g : given) (c : AttestationContext) : Prop := mk_coherent {
  co_given_rim : is_Some (given_rim g) -> m_default_rim_store c = given_rim g;
  co_given_ocsp : is_Some (given_ocsp g) -> m_default_ocsp_client c = given_ocsp g;
  co_rim : forall s, m_default_rim_store c = Some s -> made_rim g c s;
  co_ocsp : forall o, m_default_ocsp_client c = Some o -> made_ocsp g c o;
  co_gpu : holds_verifier (given_gpu g) c gpu_path (m_gpu_verifier c);
  co_switch : holds_verifier (given_switch g) c switch_path (m_switch_verifier c);
}.

Lemma coherent_init g c : coherent g c -> coherent g (initialized c).
Proof.
  intros [Hgr Hgo Hr Ho Hg Hs].
  assert (forall path v, made_verifier c path v -> made_verifier (initialized c) path v) as Hkeep.
  { intros path [rim client options|urls client jwks]; [|done]. intros (H1 & H2 & H3 & H4). cbn.
    unfold rim_or_default, ocsp_or_default. by rewrite H2, H3. }
  assert (forall path, made_verifier (initialized c) path (new_verifier c path)) as Hnew.
  { intros path. unfold new_verifier. destruct (m_default_verifier_type c) eqn:Et; [done|].
    unfold make_remote. destruct (Verify.remote_urls _ _ _) as [urls jw] eqn:Eu.
    unfold made_verifier. split_and!; [exact Et| |by eexists].
    change (m_default_nras_url (initialized c)) with (m_default_nras_url c). by rewrite Eu. }
  assert (forall gv path current (enabled : bool), holds_verifier gv c path current ->
    holds_verifier gv (initialized c) path
      (if enabled then Some (default (new_verifier c path) current) else current)) as Hverifier.
  { intros [v|] path current enabled; cbn.
    - intros (v' & -> & Hv). exists v'. by destruct enabled.
    - intros Hc v. destruct enabled; [|by intros ?%Hc%Hkeep]. intros [= <-].
      destruct current; [by apply Hkeep, Hc|apply Hnew]. }
  constructor; cbn.
  - intros Hi. specialize (Hgr Hi). destruct Hi as [s Hi]. unfold rim_or_default. by rewrite Hgr, Hi.
  - intros Hi. specialize (Hgo Hi). destruct Hi as [s Hi]. unfold ocsp_or_default. by rewrite Hgo, Hi.
  - intros s [= <-]. unfold rim_or_default. destruct (m_default_rim_store c) eqn:E; [by apply Hr|].
    destruct (given_rim g) eqn:Eg; [by specialize (Hgr ltac:(done))|right; split; [done|by eexists]].
  - intros o [= <-]. unfold ocsp_or_default. destruct (m_default_ocsp_client c) eqn:E; [by apply Ho|].
    destruct (given_ocsp g) eqn:Eg; [by specialize (Hgo ltac:(done))|right; split; [done|by eexists]].
  - by apply Hverifier.
  - by apply Hverifier.
Qed.

(** *** What an attestation keeps of the context *)

Definition keeps {A : Type} (m : sm state Error A) : Prop :=
  forall g st, coherent g (context st) -> coherent g (context (m st).2).

Lemma keeps_bind {A B : Type} (m : sm state Error A) (k : A -> sm state Error B) :
  keeps m -> (forall a, keeps (k a)) -> keeps (sbind m k).
Proof.
  intros Hm Hk g st Hc. specialize (Hm g st Hc). unfold sbind. destruct (m st) as [[a| | |] st1]; try done.
  by apply Hk.
Qed.

Lemma keeps_lift {A : Type} (m : res A) : keeps (slift m).
Proof. by intros g st. Qed.

Lemma keeps_local {A : Type} rim client (f : sm local_state Error A) : keeps (run_local rim client f).
Proof. intros g st Hc. unfold run_local. by destruct (f _). Qed.

Lemma holds_remote gv c path urls client jwks jwks' :
  holds_verifier gv c path (Some (RemoteVerifier urls client jwks)) ->
  holds_verifier gv c path (Some (RemoteVerifier urls client jwks')).
Proof.
  destruct gv as [v|]; cbn.
  - intros (v' & [= <-] & Hv). eexists. split; [done|]. by destruct v.
  - intros Hm v [= <-]. exact (Hm _ eq_refl).
Qed.

Lemma remote_gpu_keeps g st urls client jwks jwks' :
  coherent g (context st) -> m_gpu_verifier (context st) = Some (RemoteVerifier urls client jwks) ->
  coherent g (with_gpu_verifier (context st) (RemoteVerifier urls client jwks')).
Proof.
  intros [Hgr Hgo Hr Ho Hg Hs] Hv. rewrite Hv in Hg. constructor; try done. by eapply holds_remote.
Qed.

Lemma remote_switch_keeps g st urls client jwks jwks' :
  coherent g (context st) -> m_switch_verifier (context st) = Some (RemoteVerifier urls client jwks) ->
  coherent g (with_switch_verifier (context st) (RemoteVerifier urls client jwks')).
Proof.
  intros [Hgr Hgo Hr Ho Hg Hs] Hv. rewrite Hv in Hs. constructor; try done. by eapply holds_remote.
Qed.

Lemma attest_gpus_keeps clock clock_ms nonce want : keeps (attest_gpus clock clock_ms nonce want).
Proof.
  intros g st Hc. unfold attest_gpus, gpu_verify, get_state, sbind at 1.
  destruct (m_gpu_evidence_source (context st)) as [source|]; [|done].
  destruct (m_gpu_verifier (context st)) as [[rim client options|urls client jwks]|] eqn:Ev; [| |done].
  - apply keeps_bind; [apply keeps_lift|intros es; apply keeps_local|done].
  - unfold sbind, slift. destruct (gpu_get_evidence source nonce); try done.
    unfold run_remote. destruct (GpuVerify.remote_verify_evidence _ _ _ _ _) as [o r]. cbn.
    by eapply remote_gpu_keeps.
Qed.

Lemma attest_switches_keeps clock clock_ms nonce want : keeps (attest_switches clock clock_ms nonce want).
Proof.
  intros g st Hc. unfold attest_switches, switch_verify, get_state, sbind at 1.
  destruct (m_switch_evidence_source (context st)) as [source|]; [|done].
  destruct (m_switch_verifier (context st)) as [[rim client options|urls client jwks]|] eqn:Ev; [| |done].
  - apply keeps_bind; [apply keeps_lift|intros es; apply keeps_local|done].
  - unfold sbind, slift. destruct (switch_get_evidence source nonce); try done.
    unfold run_remote. destruct (SwitchVerify.remote_verify_evidence _ _ _ _ _) as [o r]. cbn.
    by eapply remote_switch_keeps.
Qed.

Lemma attest_device_keeps clock clock_ms nonce want : keeps (attest_device clock clock_ms nonce want).
Proof.
  unfold attest_device. apply keeps_bind; [|intros _].
  { intros g st Hc. unfold on_context. rewrite ensure_init_eq. by apply coherent_init. }
  apply keeps_bind; [apply keeps_lift|intros n]. apply keeps_bind; [by intros g st|intros _].
  apply keeps_bind; [by intros g st|intros st]. apply keeps_bind.
  - destruct (m_gpu_enabled _); [apply attest_gpus_keeps|].
    destruct (m_switch_enabled _); [apply attest_switches_keeps|apply keeps_lift].
  - intros [text err]. unfold apply_policy. apply keeps_bind; [by intros g st'|intros st'].
    assert (forall p : string, keeps (do* m := slift (evaluate p (claims st')) in
      sret (text, if m then None else Some RelyingPartyPolicyMismatch))) as Hp.
    { intros p. apply keeps_bind; [apply keeps_lift|intros m; apply keeps_lift]. }
    destruct (m_claims_evaluator _), err as [[]|]; try exact (keeps_lift (Ret _)); apply Hp.
Qed.

(** *** The operations on a context *)

Inductive operation : Type :=
| SetDeviceType (device_type : Z)
| SetVerifierType (verifier_type : Verify.VerifierType)
| SetHttpOptions (options : Http.HttpOptions)
| SetRimStoreUrl (url : string)
| SetOcspUrl (url : string)
| SetNrasUrl (url : string)
| SetRimStore (store : option rim_store)
| SetOcspClient (client : option ocsp_client)
| SetEvidencePolicy (policy : Rim.EvidencePolicy)
| SetEvaluator (policy : option string)
| SetGpuSource (source : option gpu_source)
| SetSwitchSource (source : option switch_source)
| SetGpuVerifier (v : option verifier)
| SetSwitchVerifier (v : option verifier)
| SetEatOptions (options : Eat.DetachedEATOptions)
| SetServiceKey (key : string)
| AttestDevice (clock clock_ms : nat -> Z) (nonce : list Z) (want : bool).

Definition configure (op : operation) (c : AttestationContext) : AttestationContext :=
  match op with
  | SetDeviceType d => set_device_type c d
  | SetVerifierType t => set_verifier_type c t
  | SetHttpOptions o => set_default_http_options c o
  | SetRimStoreUrl u => set_default_rim_store_url c u
  | SetOcspUrl u => set_default_ocsp_url c u
  | SetNrasUrl u => set_default_nras_url c u
  | SetRimStore u => set_default_rim_store c u
  | SetOcspClient v => set_default_ocsp_client c v
  | SetEvidencePolicy p => set_evidence_policy c p
  | SetEvaluator p => set_claims_evaluator c p
  | SetGpuSource s => set_gpu_evidence_source c s
  | SetSwitchSource s => set_switch_evidence_source c s
  | SetGpuVerifier v => set_gpu_verifier c v
  | SetSwitchVerifier v => set_switch_verifier c v
  | SetEatOptions o => set_detached_eat_options c o
  | SetServiceKey k => set_service_key c k
  | AttestDevice _ _ _ _ => c
  end.

Definition configure_state (op : operation) (st : state) : state :=
  mk_state (configure op (context st)) (rim_world st) (ocsp_world st) (nras_requests st) (claims st).

(** What was given, after an operation on [c]: most settings drop the
    verifiers. *)
Definition given_after (op : operation) (c : AttestationContext) (g : given) : given :=
  match op with
  | SetRimStore s => mk_given s (given_ocsp g) None None
  | SetRimStoreUrl _ => mk_given None (given_ocsp g) None None
  | SetOcspClient o => mk_given (given_rim g) o None None
  | SetOcspUrl _ => mk_given (given_rim g) None None None
  | SetServiceKey _ => mk_given None None None None
  | SetNrasUrl _ | SetEvidencePolicy _ | SetEatOptions _ => mk_given (given_rim g) (given_ocsp g) None None
  | SetVerifierType t =>
      if bool_decide (m_default_verifier_type c = t) then g else mk_given (given_rim g) (given_ocsp g) None None
  | SetGpuVerifier v => mk_given (given_rim g) (given_ocsp g) v (given_switch g)
  | SetSwitchVerifier v => mk_given (given_rim g) (given_ocsp g) (given_gpu g) v
  | SetDeviceType _ | SetHttpOptions _ | SetEvaluator _ | SetGpuSource _ | SetSwitchSource _
  | AttestDevice _ _ _ _ => g
  end.

Inductive step : given * state -> given * state -> Prop :=
| step_attest clock clock_ms nonce want g st o st' :
    attest_device clock clock_ms nonce want st = (o, st') -> step (g, st) (g, st')
| step_configure op g st :
    step (g, st) (given_after op (context st) g, configure_state op st).

Inductive reachable : given * state -> Prop :=
| reach_new rw ow n cs : reachable (mk_given None None None None, mk_state new_context rw ow n cs)
| reach_step s s' : reachable s -> step s s' -> reachable s'.

Lemma holds_given v c path : holds_verifier v c path v.
Proof. destruct v as [v|]; cbn; [|done]. exists v. split; [done|]. by destruct v. Qed.

Lemma configure_coherent op g c : coherent g c -> coherent (given_after op c g) (configure op c).
Proof.
  intros Hc. destruct op; cbn [configure given_after]; try exact Hc.
  2: unfold set_verifier_type; case_bool_decide as E; [subst; by destruct c|].
  all: destruct Hc as [Hgr Hgo Hr Ho Hg Hs].
  1: unfold set_device_type; destruct (_ && _); by constructor.
  all: constructor; cbn; try done; try (by intros [? ?]); try apply holds_given.
  - intros s ->. by left.
  - intros o ->. by left.
Qed.

Lemma reachable_coherent s : reachable s -> coherent s.1 (context s.2).
Proof.
  induction 1 as [rw ow n cs|s s' _ IH Hs].
  { constructor; cbn; by try intros [? ?]. }
  destruct Hs as [clock clock_ms nonce want g st o st' E|op g st]; [|by apply configure_coherent].
  pose proof (attest_device_keeps clock clock_ms nonce want g st IH) as Hk. by rewrite E in Hk.
Qed.

(** *** What an attestation comes to *)

Lemma attest_device_Ret clock clock_ms nonce want st text status st' :
  attest_device clock clock_ms nonce want st = (Ret (text, status), st') ->
  exists n err st1,
    let st0 := mk_state (initialized (context st)) (rim_world st) (ocsp_world st) (nras_requests st) [] in
    choose_nonce nonce = Ret n /\
    (m_gpu_enabled (context st) = true /\ attest_gpus clock clock_ms n want st0 = (Ret (text, err), st1) \/
     m_gpu_enabled (context st) = false /\ m_switch_enabled (context st) = true /\
     attest_switches clock clock_ms n want st0 = (Ret (text, err), st1)) /\
    apply_policy text err st1 = (Ret (text, status), st').
Proof.
  unfold attest_device. intros ([] & s1 & H1 & Hr)%sbind_Ret.
  unfold on_context in H1. rewrite ensure_init_eq in H1. injection H1 as <-.
  apply sbind_Ret in Hr as (n & s1 & [Hn ->]%slift_Ret & Hr).
  apply sbind_Ret in Hr as ([] & s1 & [= <-] & Hr).
  apply sbind_Ret in Hr as (s & s1 & [= <- <-] & Hr).
  cbn [context rim_world ocsp_world nras_requests initialized m_gpu_enabled m_switch_enabled] in Hr.
  apply sbind_Ret in Hr as ([t err] & s2 & Ha & Hp).
  assert (t = text) as ->.
  { unfold apply_policy in Hp. apply sbind_Ret in Hp as (s & s1 & [= <- <-] & Hp).
    destruct (m_claims_evaluator _), err as [[]|];
      first [by injection Hp as -> _ _ | by apply sbind_Ret in Hp as (? & ? & _ & [= -> _ _])]. }
  exists n, err, s2. cbv zeta. split; [done|]. split; [|done].
  destruct (m_gpu_enabled (context st)); [by left|right]. by destruct (m_switch_enabled (context st)).
Qed.

Lemma run_local_Ret {A : Type} rim client (f : sm local_state Error A) st a st' :
  run_local rim client f st = (Ret a, st') ->
  exists v, f (mk_vstate (rim, rim_world st) (client, ocsp_world st) (claims st)) = (Ret a, v) /\
    claims st' = out_claims v /\ context st' = context st.
Proof. unfold run_local. destruct (f _) as [o v]. intros [= -> <-]. by exists v. Qed.

(** The status of a verification: none, or the overall result. *)
Definition verdict_status (err : option Error) : Prop := err = None \/ err = Some OverallResultFalse.

Lemma eat_status claims options t err :
  Eat.get_detached_eat claims options = Ret (t, err) -> verdict_status err.
Proof. intros (r & _ & ->)%detached_eat_status. destruct r; [by left|by right]. Qed.

Lemma remote_status dev urls clock a es policy r text err r' :
  Verify.remote_verify_evidence (C:=Http.session) dev urls clock a es policy r = (Ret (text, err), r') ->
  verdict_status err.
Proof.
  unfold Verify.remote_verify_evidence. destruct es as [|e es]; [done|].
  intros (l & s1 & _ & Hr)%sbind_Ret. apply sbind_Ret in Hr as (p & s2 & _ & Hr).
  apply sbind_Ret in Hr as ([status body] & s3 & _ & Hr). apply sbind_Ret in Hr as ([] & s4 & _ & Hr).
  apply sbind_Ret in Hr as (eat & s5 & _ & Hr). apply sbind_Ret in Hr as ([[n cs] b] & s6 & _ & Hr).
  case_bool_decide; [|done]. apply sbind_Ret in Hr as ([] & s7 & _ & Hr).
  apply sbind_Ret in Hr as ([] & s8 & _ & [= _ <- _]). destruct b; [by left|by right].
Qed.

Lemma run_remote_Ret urls client jwks keep want f st text err st' :
  run_remote urls client jwks keep want f st = (Ret (text, err), st') ->
  exists t v v', f v = (Ret (t, err), v').
Proof.
  unfold run_remote. destruct (f _) as [o r] eqn:E. intros [= Hr _].
  apply obind_Ret in Hr as ([t e] & -> & [= _ ->]). eauto.
Qed.

Lemma local_gpu_status clock options es policy want v text err v' :
  GpuVerify.verify_evidence (R:=rim_store * rim_env) (S:=ocsp_client * ocsp_env) clock options es policy want v =
    (Ret (text, err), v') -> verdict_status err.
Proof.
  unfold GpuVerify.verify_evidence, GpuVerify.generate_claims_v3. case_bool_decide; [|by intros [= _ <- _]; left].
  intros ([] & v1 & _ & Hr)%sbind_Ret. destruct want; [|by injection Hr as _ <- _; left].
  injection Hr as Hg _. apply obind_Ret in Hg as ([t e] & Hg & [= _ <-]). by eapply eat_status.
Qed.

Lemma local_switch_status clock options es policy want v text err v' :
  SwitchVerify.verify_evidence (R:=rim_store * rim_env) (S:=ocsp_client * ocsp_env) clock options es policy want v =
    (Ret (text, err), v') -> verdict_status err.
Proof.
  unfold SwitchVerify.verify_evidence, SwitchVerify.generate_claims_v3. destruct (Rim.switch_claims_version _).
  intros ([] & v1 & _ & Hr)%sbind_Ret. destruct want; [|by injection Hr as _ <- _; left].
  injection Hr as Hg _. apply obind_Ret in Hg as ([t e] & Hg & [= _ <-]). by eapply eat_status.
Qed.

Lemma run_local_context {A : Type} rim client (f : sm local_state Error A) st :
  context (run_local rim client f st).2 = context st.
Proof. unfold run_local. by destruct (f _). Qed.

Lemma attest_gpus_status clock clock_ms n want st text err st' :
  attest_gpus clock clock_ms n want st = (Ret (text, err), st') ->
  verdict_status err /\ m_claims_evaluator (context st') = m_claims_evaluator (context st).
Proof.
  unfold attest_gpus, gpu_verify. intros (s & s1 & [= <- <-] & Hr)%sbind_Ret.
  destruct (m_gpu_evidence_source _); [|done]. destruct (m_gpu_verifier _) as [[rim cl o|urls cl j]|]; [| |done];
    apply sbind_Ret in Hr as (es & s1 & [_ ->]%slift_Ret & Hr).
  - split; [by apply run_local_Ret in Hr as (v & ?%local_gpu_status & _)|].
    pose proof (run_local_context rim cl (GpuVerify.verify_evidence clock o es (m_evidence_policy (context st)) want) st) as E.
    rewrite Hr in E. cbn in E. by rewrite E.
  - split; [by apply run_remote_Ret in Hr as (t & v & v' & ?%remote_status)|].
    unfold run_remote in Hr. destruct (GpuVerify.remote_verify_evidence _ _ _ _ _). by injection Hr as _ <-.
Qed.

Lemma attest_switches_status clock clock_ms n want st text err st' :
  attest_switches clock clock_ms n want st = (Ret (text, err), st') ->
  verdict_status err /\ m_claims_evaluator (context st') = m_claims_evaluator (context st).
Proof.
  unfold attest_switches, switch_verify. intros (s & s1 & [= <- <-] & Hr)%sbind_Ret.
  destruct (m_switch_evidence_source _); [|done].
  destruct (m_switch_verifier _) as [[rim cl o|urls cl j]|]; [| |done];
    apply sbind_Ret in Hr as (es & s1 & [_ ->]%slift_Ret & Hr).
  - split; [by apply run_local_Ret in Hr as (v & ?%local_switch_status & _)|].
    pose proof (run_local_context rim cl (SwitchVerify.verify_evidence clock o es (m_evidence_policy (context st)) want) st) as E.
    rewrite Hr in E. cbn in E. by rewrite E.
  - split; [by apply run_remote_Ret in Hr as (t & v & v' & ?%remote_status)|].
    unfold run_remote in Hr. destruct (SwitchVerify.remote_verify_evidence _ _ _ _ _). by injection Hr as _ <-.
Qed.

Lemma apply_policy_Ret text err st status st' :
  verdict_status err -> apply_policy text err st = (Ret (text, status), st') ->
  st' = st /\
  match m_claims_evaluator (context st) with
  | None => status = err
  | Some policy => exists b, evaluate policy (claims st) = Ret b /\
      status = if b then None else Some RelyingPartyPolicyMismatch
  end.
Proof.
  intros Hv. unfold apply_policy. intros (s & s1 & [= <- <-] & Hr)%sbind_Ret.
  destruct (m_claims_evaluator _) as [p|]; [|by injection Hr as -> ->].
  destruct Hv as [-> | ->]; apply sbind_Ret in Hr as (b & s1 & [Hb ->]%slift_Ret & [= <- <-]); split; try done;
    by exists b.
Qed.

(** *** The verdict of a verification *)

Definition policy_status (b : bool) : option Error := if b then None else Some OverallResultFalse.

(** The status of a verifier.  [checks] says that the claims are of the version
    the local verifier makes. *)
Definition verdict_of (v : verifier) (want checks : bool) (text : option string) (cs : Collection.ClaimsCollection)
    (status : option Error) : Prop :=
  match v with
  | LocalVerifier _ _ _ =>
      if want && checks
      then exists b, evaluate Eat.overall_result_policy cs = Ret b /\ status = policy_status b
      else status = None
  | RemoteVerifier urls _ _ =>
      exists answer eat payload overall,
        text = (if want then Some answer else None) /\
        deserialize_from_json Eat.json_parse Eat.eat_from_json answer = Ret eat /\
        Jwt.signed_token (fun _ _ => True) (Eat.m_overall_jwt_token eat) (Verify.m_eat_issuer urls) payload /\
        deserialize_from_json Eat.json_parse Eat.overall_from_json payload = Ret overall /\
        status = policy_status (Eat.m_overall_result overall)
  end.

(** The verifier of the device that is enabled. *)
Definition enabled_verifier (c : AttestationContext) : option verifier :=
  if m_gpu_enabled c then m_gpu_verifier c else m_switch_verifier c.

Definition has_verdict (c : AttestationContext) : bool :=
  if m_gpu_enabled c then bool_decide (Rim.gpu_claims_version (m_evidence_policy c) = GpuClaims.V3) else true.

Lemma verdict_of_status v want checks text cs err : verdict_of v want checks text cs err -> verdict_status err.
Proof.
  assert (forall b, verdict_status (policy_status b)) as Hp by (intros []; [by left|by right]).
  destruct v as [rim cl o|urls cl j]; cbn.
  - destruct (want && checks); [intros (b & _ & ->); apply Hp|by left].
  - intros (? & ? & ? & ? & _ & _ & _ & _ & ->). apply Hp.
Qed.

Lemma remote_verdict dev urls client jwks keep want clock a es policy st text err st' :
  run_remote urls client jwks keep want (Verify.remote_verify_evidence (C:=Http.session) dev urls clock a es policy) st =
    (Ret (text, err), st') ->
  forall checks cs, verdict_of (RemoteVerifier urls client jwks) want checks text cs err.
Proof.
  unfold run_remote. destruct (Verify.remote_verify_evidence _ _ _ _ _ _ _) as [o r] eqn:E. intros [= Hr _] checks cs.
  apply obind_Ret in Hr as ([body e] & -> & [= <- ->]). exists body. revert E.
  unfold Verify.remote_verify_evidence. destruct es as [|first es]; [done|].
  intros (l & s1 & [_ ->]%slift_Ret & Hv)%sbind_Ret. apply sbind_Ret in Hv as (p & s2 & [_ ->]%slift_Ret & Hv).
  apply sbind_Ret in Hv as ([status answer] & s3 & Hh & Hv). unfold Verify.on_http in Hh.
  destruct (Http.send_request _ _) as [o c1]. injection Hh as _ <-.
  apply sbind_Ret in Hv as ([] & s4 & [_ ->]%slift_Ret & Hv). apply sbind_Ret in Hv as (eat & s5 & [Heat ->]%slift_Ret & Hv).
  apply sbind_Ret in Hv as ([[n cs'] b] & s6 & He & Hv). unfold Verify.on_jwks in He. cbn in He.
  destruct (Verify.validate_and_decode_EAT _ _ _ _) as [o' j1] eqn:Eval. injection He as -> <-.
  apply (Verify.eat_sound (Jwt.m_jwks_url jwks) (fun _ _ => True)) in Eval
    as (_ & payload & overall & Hsig & Ho & _ & _ & -> & _); [|done..].
  case_bool_decide; [|done]. apply sbind_Ret in Hv as ([] & s7 & _ & Hv).
  apply sbind_Ret in Hv as ([] & s8 & _ & [= <- <- _]). exists eat, payload, overall. by destruct want.
Qed.

Lemma local_gpu_verdict clock options es policy want v text err v' :
  GpuVerify.verify_evidence (R:=rim_store * rim_env) (S:=ocsp_client * ocsp_env) clock options es policy want v =
    (Ret (text, err), v') ->
  if want && bool_decide (Rim.gpu_claims_version policy = GpuClaims.V3)
  then exists b, evaluate Eat.overall_result_policy (out_claims v') = Ret b /\ err = policy_status b else err = None.
Proof.
  unfold GpuVerify.verify_evidence, GpuVerify.generate_claims_v3. case_bool_decide; rewrite ?andb_true_r, ?andb_false_r;
    [|by intros [= _ <- _]].
  intros ([] & v1 & _ & Hr)%sbind_Ret. destruct want; [|by injection Hr as _ <- _].
  injection Hr as Hg <-. apply obind_Ret in Hg as ([t e] & Hg & [= _ <-]). by eapply detached_eat_status.
Qed.

Lemma local_switch_verdict clock options es policy want v text err v' :
  SwitchVerify.verify_evidence (R:=rim_store * rim_env) (S:=ocsp_client * ocsp_env) clock options es policy want v =
    (Ret (text, err), v') ->
  if want && true
  then exists b, evaluate Eat.overall_result_policy (out_claims v') = Ret b /\ err = policy_status b else err = None.
Proof.
  unfold SwitchVerify.verify_evidence, SwitchVerify.generate_claims_v3. destruct (Rim.switch_claims_version _).
  intros ([] & v1 & _ & Hr)%sbind_Ret. destruct want; [|by injection Hr as _ <- _].
  injection Hr as Hg <-. apply obind_Ret in Hg as ([t e] & Hg & [= _ <-]). by eapply detached_eat_status.
Qed.

Lemma attest_gpus_verdict clock clock_ms n want st text err st' :
  attest_gpus clock clock_ms n want st = (Ret (text, err), st') ->
  exists v, m_gpu_verifier (context st) = Some v /\
    verdict_of v want (bool_decide (Rim.gpu_claims_version (m_evidence_policy (context st)) = GpuClaims.V3)) text (claims st') err.
Proof.
  unfold attest_gpus, gpu_verify. intros (s & s1 & [= <- <-] & Hr)%sbind_Ret.
  destruct (m_gpu_evidence_source _); [|done]. destruct (m_gpu_verifier _) as [v|]; [|done]. exists v. split; [done|].
  destruct v as [rim cl o|urls cl j]; apply sbind_Ret in Hr as (es & s1 & [_ ->]%slift_Ret & Hr).
  - apply run_local_Ret in Hr as (v & Hl%local_gpu_verdict & -> & _). exact Hl.
  - by eapply remote_verdict.
Qed.

Lemma attest_switches_verdict clock clock_ms n want st text err st' :
  attest_switches clock clock_ms n want st = (Ret (text, err), st') ->
  exists v, m_switch_verifier (context st) = Some v /\ verdict_of v want true text (claims st') err.
Proof.
  unfold attest_switches, switch_verify. intros (s & s1 & [= <- <-] & Hr)%sbind_Ret.
  destruct (m_switch_evidence_source _); [|done]. destruct (m_switch_verifier _) as [v|]; [|done]. exists v. split; [done|].
  destruct v as [rim cl o|urls cl j]; apply sbind_Ret in Hr as (es & s1 & [_ ->]%slift_Ret & Hr).
  - apply run_local_Ret in Hr as (v & Hl%local_switch_verdict & -> & _). exact Hl.
  - by eapply remote_verdict.
Qed.

(** Evidence from a file carries the nonce. *)
Lemma gpu_file_nonces es0 n es :
  GpuEvidence.source_get_evidence es0 n = Ret es -> Forall (fun e => GpuEvidence.m_nonce e = n) es.
Proof.
  revert es. induction es0 as [|e es0 IH]; intros es; cbn; [intros [= <-]; constructor|].
  case_bool_decide; [|done]. intros (l & Hl & [= <-])%obind_Ret. constructor; auto.
Qed.

Lemma switch_file_nonces es0 n es :
  SwitchEvidence.source_get_evidence es0 n = Ret es -> Forall (fun e => SwitchEvidence.m_nonce e = n) es.
Proof.
  revert es. induction es0 as [|e es0 IH]; intros es; cbn; [intros [= <-]; constructor|].
  case_bool_decide; [|done]. intros (l & Hl & [= <-])%obind_Ret. constructor; auto.
Qed.

(** The policy engine gives, for the built-in policy, the verdict its rules
    have. *)
Definition rego_documented : Prop :=
  forall cs b, evaluate Eat.overall_result_policy cs = Ret b ->
    b = Policy.nv_match (Collection.to_json_object <$> cs).

Lemma attest_local_gpu_lemma clock clock_ms nonce st text st' rim client options :
  rego_documented ->
  let c := initialized (context st) in
  m_gpu_enabled c = true -> m_gpu_verifier c = Some (LocalVerifier rim client options) ->
  m_claims_evaluator c = None -> Rim.gpu_claims_version (m_evidence_policy c) = GpuClaims.V3 ->
  attest_device clock clock_ms nonce true st = (Ret (text, None), st') ->
  exists n source evidence,
    choose_nonce nonce = Ret n /\ m_gpu_evidence_source c = Some source /\
    gpu_get_evidence source n = Ret evidence /\
    (forall es, source = GpuEvidenceFromJson es -> Forall (fun e => GpuEvidence.m_nonce e = n) evidence) /\
    claims st' <> [] /\ length (claims st') = length evidence /\
    GpuVerify.all_verified clock (m_evidence_policy c) 0 evidence
      (mk_vstate (rim, rim_world st) (client, ocsp_world st) []) (claims st') /\
    Forall Policy.device_good (claims st').
Proof.
  intros Hrego c Hg Hv He Hp (n & err & s1 & Hn & Ha & Hpol)%attest_device_Ret. cbv zeta in Ha.
  destruct Ha as [[_ Ha]|[Hno _]]; [|by change (m_gpu_enabled (context st) = true) in Hg; rewrite Hg in Hno].
  destruct (attest_gpus_status _ _ _ _ _ _ _ _ Ha) as [Hst Hev]. cbn [context] in Hev.
  apply (apply_policy_Ret _ _ _ _ _ Hst) in Hpol as [-> Hpol].
  rewrite Hev in Hpol. fold c in Hpol. rewrite He in Hpol. subst err.
  unfold attest_gpus, gpu_verify in Ha. apply sbind_Ret in Ha as (s & s2 & [= <- <-] & Ha). cbn [context] in Ha. fold c in Ha.
  destruct (m_gpu_evidence_source c) as [source|]; [|done]. rewrite Hv in Ha.
  apply sbind_Ret in Ha as (es & s2 & [Hes ->]%slift_Ret & Ha).
  apply run_local_Ret in Ha as (v & Hl & Hcl & _).
  apply GpuVerify.local_gpu_sound in Hl as (cs & Hcs & Hlen & Hall & t & _ & Heat); [|done].
  cbn in Hcs. apply detached_eat_status in Heat as (b & Hb & Hbs). destruct b; [|done].
  apply Hrego in Hb. symmetry in Hb. apply nv_match_json in Hb as [Hne Hgood]. rewrite <- Hcl in *. rewrite Hcs in *.
  exists n, source, es. split_and!; try done.
  intros es0 ->. by eapply gpu_file_nonces.
Qed.

(** The same for switches, when GPUs are not enabled. *)
Lemma attest_local_switch_lemma clock clock_ms nonce st text st' rim client options :
  rego_documented ->
  let c := initialized (context st) in
  m_gpu_enabled c = false -> m_switch_enabled c = true -> m_switch_verifier c = Some (LocalVerifier rim client options) ->
  m_claims_evaluator c = None ->
  attest_device clock clock_ms nonce true st = (Ret (text, None), st') ->
  exists n source evidence,
    choose_nonce nonce = Ret n /\ m_switch_evidence_source c = Some source /\
    switch_get_evidence source n = Ret evidence /\
    (forall es, source = SwitchEvidenceFromJson es -> Forall (fun e => SwitchEvidence.m_nonce e = n) evidence) /\
    claims st' <> [] /\ length (claims st') = length evidence /\
    SwitchVerify.all_verified clock (m_evidence_policy c) 0 evidence
      (mk_vstate (rim, rim_world st) (client, ocsp_world st) []) (claims st') /\
    Forall Policy.device_good (claims st').
Proof.
  intros Hrego c Hg Hsw Hv He (n & err & s1 & Hn & Ha & Hpol)%attest_device_Ret. cbv zeta in Ha.
  destruct Ha as [[Hgpu _]|(_ & _ & Ha)]; [by change (m_gpu_enabled (context st) = false) in Hg; rewrite Hg in Hgpu|].
  destruct (attest_switches_status _ _ _ _ _ _ _ _ Ha) as [Hst Hev]. cbn [context] in Hev.
  apply (apply_policy_Ret _ _ _ _ _ Hst) in Hpol as [-> Hpol].
  rewrite Hev in Hpol. fold c in Hpol. rewrite He in Hpol. subst err.
  unfold attest_switches, switch_verify in Ha. apply sbind_Ret in Ha as (s & s2 & [= <- <-] & Ha). cbn [context] in Ha. fold c in Ha.
  destruct (m_switch_evidence_source c) as [source|]; [|done]. rewrite Hv in Ha.
  apply sbind_Ret in Ha as (es & s2 & [Hes ->]%slift_Ret & Ha).
  apply run_local_Ret in Ha as (v & Hl & Hcl & _).
  apply SwitchVerify.local_switch_sound in Hl as (cs & Hcs & Hlen & Hall & t & _ & Heat).
  cbn in Hcs. apply detached_eat_status in Heat as (b & Hb & Hbs). destruct b; [|done].
  apply Hrego in Hb. symmetry in Hb. apply nv_match_json in Hb as [Hne Hgood]. rewrite <- Hcl in *. rewrite Hcs in *.
  exists n, source, es. split_and!; try done.
  intros es0 ->. by eapply switch_file_nonces.
Qed.

(** The only errors that come with claims. *)
Lemma attest_status clock clock_ms nonce want st text status st' :
  attest_device clock clock_ms nonce want st = (Ret (text, status), st') ->
  status = None \/ status = Some OverallResultFalse \/ status = Some RelyingPartyPolicyMismatch.
Proof.
  intros (n & err & s1 & _ & Ha & Hpol)%attest_device_Ret. cbv zeta in Ha.
  assert (verdict_status err) as Hst.
  { destruct Ha as [[_ Ha]|(_ & _ & Ha)]; [apply attest_gpus_status in Ha|apply attest_switches_status in Ha];
      by destruct Ha. }
  apply (apply_policy_Ret _ _ _ _ _ Hst) in Hpol as [_ Hpol].
  destruct (m_claims_evaluator _) as [p|]; [destruct Hpol as ([] & _ & ->)|subst; destruct Hst as [-> | ->]]; auto.
Qed.

(** ** Properties *)

(** P: attesting GPUs locally end to end.  When [attest_device] returns without
    an error and with the token it was asked for, and no policy of the relying
    party replaces the built-in one, then there is at least one GPU, and for
    every item of the evidence its source gave for the nonce, one claim: the
    item was authenticated, is fresh, and was compared with RIMs that were
    themselves verified; and every device's measurements matched, with valid,
    good and fresh certificate chains throughout. *)
Theorem attest_local_gpu_sound clock clock_ms nonce st text st' rim client options :
  rego_documented ->
  let c := initialized (context st) in
  m_gpu_enabled c = true -> m_gpu_verifier c = Some (LocalVerifier rim client options) ->
  m_claims_evaluator c = None -> Rim.gpu_claims_version (m_evidence_policy c) = GpuClaims.V3 ->
  attest_device clock clock_ms nonce true st = (Ret (text, None), st') ->
  exists n source evidence,
    choose_nonce nonce = Ret n /\ m_gpu_evidence_source c = Some source /\
    gpu_get_evidence source n = Ret evidence /\
    (forall es, source = GpuEvidenceFromJson es -> Forall (fun e => GpuEvidence.m_nonce e = n) evidence) /\
    claims st' <> [] /\ length (claims st') = length evidence /\
    GpuVerify.all_verified clock (m_evidence_policy c) 0 evidence
      (mk_vstate (rim, rim_world st) (client, ocsp_world st) []) (claims st') /\
    Forall Policy.device_good (claims st').
Proof. apply attest_local_gpu_lemma. Qed.

(** C10: what decides the result of [attest_device]: with a policy of the relying
    party, that policy alone, on the claims that are returned.  Without one, the
    status is the verifier's: for a local verifier that was asked for the
    token, no error exactly when the built-in policy accepts the claims that
    are returned, and [OverallResultFalse] exactly when it does not; for a local
    verifier that was not asked, or GPU claims of another version, never an
    error; for a remote one, the overall result in the token of the service's answer.  No other error
    comes with claims. *)
Theorem attest_verdict clock clock_ms nonce want st text status st' :
  attest_device clock clock_ms nonce want st = (Ret (text, status), st') ->
  match m_claims_evaluator (context st) with
  | Some policy => exists b, evaluate policy (claims st') = Ret b /\
      status = if b then None else Some RelyingPartyPolicyMismatch
  | None => exists v, enabled_verifier (initialized (context st)) = Some v /\
      verdict_of v want (has_verdict (context st)) text (claims st') status
  end.
Proof.
  intros (n & err & s1 & _ & Ha & Hpol)%attest_device_Ret. cbv zeta in Ha.
  assert (m_claims_evaluator (context s1) = m_claims_evaluator (context st) /\
    exists v, enabled_verifier (initialized (context st)) = Some v /\
      verdict_of v want (has_verdict (context st)) text (claims s1) err) as [Hev (v & Hv & Hst)].
  { unfold enabled_verifier, has_verdict. destruct Ha as [[Hg Ha]|(Hg & _ & Ha)].
    - apply attest_gpus_status in Ha as Hs. split; [apply Hs|]. apply attest_gpus_verdict in Ha. cbn in *. by rewrite Hg in *.
    - apply attest_switches_status in Ha as Hs. split; [apply Hs|]. apply attest_switches_verdict in Ha. cbn in *. by rewrite Hg in *. }
  apply (apply_policy_Ret _ _ _ _ _ (verdict_of_status _ _ _ _ _ _ Hst)) in Hpol as [-> Hpol]. rewrite Hev in Hpol.
  destruct (m_claims_evaluator (context st)); [done|]. subst. by exists v.
Qed.

(** P: a local attestation that is not asked for the token checks nothing of
    the claims: without a policy of the relying party it succeeds whenever
    claims can be made, whatever they say of the measurements. *)
Theorem attest_without_token_unchecked clock clock_ms nonce st text status st' rim client options :
  let c := initialized (context st) in
  m_gpu_enabled c = true -> m_gpu_verifier c = Some (LocalVerifier rim client options) ->
  m_claims_evaluator c = None ->
  attest_device clock clock_ms nonce false st = (Ret (text, status), st') -> text = None /\ status = None.
Proof.
  intros c Hg Hv He (n & err & s1 & Hn & Ha & Hpol)%attest_device_Ret. cbv zeta in Ha.
  destruct Ha as [[_ Ha]|[Hno _]]; [|by change (m_gpu_enabled (context st) = true) in Hg; rewrite Hg in Hno].
  destruct (attest_gpus_status _ _ _ _ _ _ _ _ Ha) as [Hst Hev]. cbn [context] in Hev.
  apply (apply_policy_Ret _ _ _ _ _ Hst) in Hpol as [-> Hpol].
  rewrite Hev in Hpol. fold c in Hpol. rewrite He in Hpol. subst status.
  unfold attest_gpus, gpu_verify in Ha. apply sbind_Ret in Ha as (s & s2 & [= <- <-] & Ha). cbn [context] in Ha. fold c in Ha.
  destruct (m_gpu_evidence_source c) as [source|]; [|done]. rewrite Hv in Ha.
  apply sbind_Ret in Ha as (es & s2 & _ & Ha). apply run_local_Ret in Ha as (v & Hl & _).
  unfold GpuVerify.verify_evidence, GpuVerify.generate_claims_v3 in Hl. case_bool_decide; [|by injection Hl as <- <- _].
  by apply sbind_Ret in Hl as (? & ? & _ & [= <- <- _]).
Qed.

(** P: initialization always succeeds: what was given stays, and what is
    missing is made from the settings, for the device that is enabled.  A
    context that was initialized is left alone, and so ignores HTTP options
    that are set afterwards. *)
Theorem ensure_init_spec c options :
  ensure_init c = (Ret tt, initialized c) /\
  ensure_init (initialized c) = (Ret tt, initialized c) /\
  ensure_init (set_default_http_options (initialized c) options) =
    (Ret tt, set_default_http_options (initialized c) options).
Proof.
  rewrite !ensure_init_eq. pose proof (settled_initialized c) as Hs.
  rewrite (initialized_settled (initialized c)) by done. split_and!; [done..|].
  by rewrite (initialized_settled (set_default_http_options _ _)).
Qed.

(** C9: through any sequence of settings and attestations, failed ones too,
    the RIM store, the OCSP client and the verifiers of a context are those
    that were given last, unless a later setting dropped them (a URL or a service
    key for the store or the client; any but the device type, the HTTP
    options, the evaluator and the sources for a verifier).  Where none is in
    force, what the context made is made with its current URL and service key,
    and its verifiers agree with its current type, store, client and token
    options, or NRAS URL and service key.  Nothing is claimed of the HTTP
    options: what was made keeps the ones it was made with, and options that
    are set later do not reach it ([ensure_init_spec]). *)
Theorem context_coherent g st : reachable (g, st) -> coherent g (context st).
Proof. intros Hr. exact (reachable_coherent _ Hr). Qed.

(** P: setting a service key forgets a RIM store and an OCSP client the user
    supplied: the next attestation uses the default services instead. *)
Theorem service_key_drops_stores c key :
  let c' := initialized (set_service_key c key) in
  (exists url http, m_default_rim_store c' = Some (RemoteRimStore url http)) /\
  (exists url http, m_default_ocsp_client c' = Some (HttpOcspClient url http)).
Proof. split; eexists _, _; reflexivity. Qed.

End attestation.

(** *** Attesting the small report

    Its chain has three certificates, and the RIMs' chains two, so that each
    chain has a certificate to check; the user's OCSP client has a good answer
    for both.  The engine applies the built-in policy, and the printer shows it
    what that comes to. *)

Definition toy_platform : Http.Platform := {|
  Http.getenv := fun _ => None;
  Http.is_readable_regular_file := fun _ => true;
  Http.compiled_default_ca_bundle_path := "/etc/ca.pem";
|}.

Definition toy_world : World := {|
  rim_network := fun _ => Http.toy_curl;
  ocsp_network := fun _ => Http.toy_curl;
  nras_network := fun _ => Http.toy_curl;
  jwks_network := fun _ => Http.toy_curl;
  NVAT_VERSION_STRING := "1.0";
  RAND_bytes := fun n => Some (replicate (Z.to_nat n) 4);
  cache_clock := fun _ _ => 0;
  path_exists := fun _ => false;
  path_is_directory := fun _ => false;
  read_file := fun _ => None;
  collect_evidence_nvml := fun _ => Err NvmlInitFailed;
  collect_evidence_corelib := fun _ _ => Err CorelibInitFailed;
  collect_evidence_nscq := fun _ => Err NscqInitFailed;
|}.

Definition toy_xml : LibXml2 := {|
  xmlDoc := list (list (string * string));
  xmlNode := list (string * string);
  xmlXPathContext := list (list (string * string));
  xmlReadDoc := xmlReadDoc (LibXml2:=Rim.toy_xml);
  xmlXPathNewContext := id;
  xmlXPathRegisterNs := fun c _ _ => Some c;
  xmlXPathEvalExpression := fun e c =>
    Some (Some (if bool_decide (e = "//ns0:Resource[@type='Measurement']") then c
                else if bool_decide (e = "//ds:X509Certificate") then [[]; []]
                else [[("colloquialVersion", "96.00"); ("FirmwareManufacturerId", "nv")]]));
  xmlGetProp := Rim.toy_lookup;
  xmlGetNsProp := fun n name _ => Rim.toy_lookup n name;
  xmlNodeGetContent := fun _ => Some "cert";
  xmlDocGetRootElement := fun _ => Some [];
  xmlSecKeysMngrCreate := true;
  xmlSecCryptoAppDefaultKeysMngrInit := 0;
  xmlSecFindSignature := fun n => Some n;
  xmlSecDSigCtxCreate := true;
  xmlSecDSigCtxVerify := fun _ => Some true;
|}.

Definition toy_policy_env : Eat.Env := {|
  Eat.now := 1700000000;
  Eat.RAND_bytes := fun n len => Some (repeat (Z.of_nat n) (Z.to_nat len));
  Eat.sha256 := fun l => Some (take 2 l);
  Eat.sign_none := fun _ _ => "token";
  Eat.sign_es384 := fun _ _ _ => None;
  Eat.json_dump := fun j =>
    match j with
    | JArray (JArray _ :: _) => Some "token"
    | JArray l => Some (if Policy.nv_match l then "good" else "bad")
    | _ => None
    end;
  Eat.json_parse := fun text =>
    Some (jobject [("result", JArray [jobject [("expressions", JArray
      [jobject [("value", JBool (bool_decide (text = "good")))]])]])]);
  Eat.rego := fun _ text _ => Some text;
  Eat.overall_result_policy := "policy";
|}.

Lemma toy_rego_documented : rego_documented (env:=toy_policy_env).
Proof.
  intros cs b. unfold evaluate, RegoClaimsEvaluator.evaluate_claims, Collection.serialize_json. cbn.
  unfold Collection.to_json. destruct cs as [|[g|g] cs]; cbn [fmap list_fmap Collection.to_json_object];
    [by intros [= <-]|unfold GpuClaims.to_json, SwitchClaims.to_json, jobject..];
    by destruct (Policy.nv_match _); intros [= <-].
Qed.

(** A user's RIM store that has, for the driver, a measurement of index 1 with
    the value [measured], and a user's OCSP client. *)
Definition toy_user_rims (measured : string) : Rim.IRimStore (XML:=toy_xml) (unit * unit) :=
  fun u rim_id =>
    (Rim.create_from_rim_data (XML:=toy_xml)
       (if String.prefix "NV_GPU_DRIVER" rim_id then measured else "0") (Rim.RimDocument_default (XML:=toy_xml)), u).

#[local] Instance toy_user_ocsp : IOcspHttpClient (H:=toy_openssl) (unit * Ocsp.RawProofOcspClient (OSSL:=toy_openssl)) :=
  fun s subject issuer inter store =>
    let '(r, w) := get_ocsp_response s.2 subject issuer inter store in (r, (s.1, w)).

Definition toy_evidence : GpuEvidence.GpuEvidence :=
  GpuEvidence.mk_evidence GpuEvidence.Hopper None "" GpuEvidence.toy_data
    "A-----END CERTIFICATE-----BB-----END CERTIFICATE-----CCC-----END CERTIFICATE-----" (replicate 32 9).

Definition toy_context : AttestationContext (OSSL:=toy_openssl) (U:=unit) (V:=unit) :=
  set_gpu_evidence_source
    (set_default_ocsp_client
       (set_default_rim_store (set_verifier_type (new_context (P:=toy_platform)) Verify.Local)
          (Some (UserRimStore tt)))
       (Some (UserOcspClient tt)))
    (Some (GpuEvidenceFromJson [toy_evidence])).

Definition toy_state :
    state (OSSL:=toy_openssl) (U:=unit) (V:=unit) (WU:=unit) (WV:=Ocsp.RawProofOcspClient (OSSL:=toy_openssl)) :=
  mk_state toy_context (new_shared, tt) (new_shared, Ocsp.mk_raw (OSSL:=toy_openssl) [[270; 570]] 1500) 0 [].

Abbreviation toy_attest measured want :=
  (attest_device (OSSL:=toy_openssl) (XML:=toy_xml) (env:=toy_policy_env) (B64:=Base64.toy_base64) (L:=Jwt.toy_jwt)
    (P:=toy_platform) (W:=toy_world) (H:=toy_user_rims measured) (fun _ => 1500) (fun _ => 1500) (replicate 32 9) want
    toy_state).

(** With the reported value the token is made and the result is good; without
    it the result is bad, and a call that does not ask for the token does not
    say so. *)
Lemma run_pair {A B : Type} (p : A * B) a : p.1 = a -> p = (a, p.2).
Proof. by destruct p; intros <-. Qed.

Example toy_attest_good : (toy_attest "10a0b" true).1 = Ret (Some "token", None).
Proof. vm_compute. reflexivity. Qed.

Example toy_attest_bad : (toy_attest "10a0c" true).1 = Ret (Some "token", Some OverallResultFalse).
Proof. vm_compute. reflexivity. Qed.

Example toy_attest_unchecked : (toy_attest "10a0c" false).1 = Ret (None, None).
Proof. vm_compute. reflexivity. Qed.

Lemma toy_good_run : toy_attest "10a0b" true = (Ret (Some "token", None), (toy_attest "10a0b" true).2).
Proof. apply run_pair, toy_attest_good. Qed.

Lemma toy_bad_run :
  toy_attest "10a0c" true = (Ret (Some "token", Some OverallResultFalse), (toy_attest "10a0c" true).2).
Proof. apply run_pair, toy_attest_bad. Qed.

Lemma attest_local_gpu_sound_witness :
  claims (toy_attest "10a0b" true).2 <> [] /\ Forall Policy.device_good (claims (toy_attest "10a0b" true).2).
Proof.
  destruct (attest_local_gpu_sound (OSSL:=toy_openssl) (XML:=toy_xml) (env:=toy_policy_env) (B64:=Base64.toy_base64)
    (L:=Jwt.toy_jwt) (P:=toy_platform) (W:=toy_world) (H:=toy_user_rims "10a0b") (fun _ => 1500) (fun _ => 1500)
    (replicate 32 9) toy_state (Some "token") (toy_attest "10a0b" true).2 (UserRimStore tt) (UserOcspClient (OSSL:=toy_openssl) tt)
    (Eat.mk_options "" "NVAT-LOCAL-VERIFIER" ""))
    as (n & source & evidence & _ & _ & _ & _ & Hne & _ & _ & Hgood).
  - exact toy_rego_documented.
  - done.
  - done.
  - done.
  - done.
  - exact toy_good_run.
  - exact (conj Hne Hgood).
Defined.

Lemma attest_verdict_witness :
  exists b, evaluate (env:=toy_policy_env) (Eat.overall_result_policy (Env:=toy_policy_env)) (claims (toy_attest "10a0c" true).2) = Ret b /\
    Some OverallResultFalse = policy_status b.
Proof.
  destruct (attest_verdict (OSSL:=toy_openssl) (XML:=toy_xml) (env:=toy_policy_env) (B64:=Base64.toy_base64)
    (L:=Jwt.toy_jwt) (P:=toy_platform) (W:=toy_world) (H:=toy_user_rims "10a0c") (fun _ => 1500) (fun _ => 1500)
    (replicate 32 9) true toy_state (Some "token") (Some OverallResultFalse) (toy_attest "10a0c" true).2 toy_bad_run)
    as (v & Hv & Hd).
  injection Hv as <-. exact Hd.
Defined.

(** The claims say failure, the call says nothing. *)
Lemma attest_without_token_unchecked_witness :
  (toy_attest "10a0c" false).1 = Ret (None, None) /\
  (fun c => match c with Collection.Gpu g => GpuClaims.m_measurements_matching g | _ => Success end) <$>
    claims (toy_attest "10a0c" false).2 = [Failure].
Proof.
  split; [|vm_compute; reflexivity].
  destruct (toy_attest "10a0c" false) as [[[text status]| | |] st'] eqn:E;
    pose proof toy_attest_unchecked as Hu; rewrite E in Hu; [|discriminate Hu..].
  destruct (attest_without_token_unchecked (OSSL:=toy_openssl) (XML:=toy_xml) (env:=toy_policy_env)
    (B64:=Base64.toy_base64) (L:=Jwt.toy_jwt) (P:=toy_platform) (W:=toy_world) (H:=toy_user_rims "10a0c")
    (fun _ => 1500) (fun _ => 1500) (replicate 32 9) toy_state text status st' (UserRimStore tt) (UserOcspClient (OSSL:=toy_openssl) tt)
    (Eat.mk_options "" "NVAT-LOCAL-VERIFIER" "") eq_refl eq_refl eq_refl E) as [-> ->].
  reflexivity.
Defined.

(** A new context that was given a store. *)
Lemma context_coherent_witness :
  coherent (OSSL:=toy_openssl) (P:=toy_platform) (U:=unit) (V:=unit) (mk_given (Some (UserRimStore tt)) None None None)
    (set_default_rim_store (new_context (P:=toy_platform)) (Some (UserRimStore tt))).
Proof.
  apply (context_coherent (OSSL:=toy_openssl) (XML:=toy_xml) (env:=toy_policy_env) (B64:=Base64.toy_base64)
    (L:=Jwt.toy_jwt) (P:=toy_platform) (W:=toy_world) (H:=toy_user_rims "0") (mk_given (Some (UserRimStore tt)) None None None)
    (configure_state (SetRimStore (Some (UserRimStore tt))) (mk_state (new_context (P:=toy_platform)) (new_shared, tt)
       (new_shared, Ocsp.mk_raw (OSSL:=toy_openssl) [] 1500) 0 []))).
  eapply reach_step; [apply reach_new|].
  exact (step_configure (SetRimStore (Some (UserRimStore tt))) (mk_given None None None None) _).
Defined.

End Attestation.
