(* ===== verification/Collectors.v ===== *)
(** * Collectors: attestation over the drivers

    The evidence sources of src/gpu/evidence.cpp and src/switch/evidence.cpp,
    [NvmlEvidenceCollector], [CorelibEvidenceCollector] and
    [NscqEvidenceCollector], put under the attestation context: the world in
    which a context collects from the driver clients, each in a state of its
    life, and what a successful attestation means then. *)

From S2P Require Import Prelude Errors Utils SpdmReq SpdmMeasurementRecords SpdmOpaqueData SpdmResp GpuOpaqueData.
From S2P Require Import SwitchOpaqueData Json OpenSsl NvCache Ocsp X509Chain Claims Evaluator DetachedEat.
From S2P Require Import Http Jwt Certs Base64 Rim Report GpuEvidence SwitchEvidence Verify GpuVerify SwitchVerify.
From S2P Require Import Driver NvmlClient CorelibClient NscqClient Attestation.

Module Collectors.
Import Attestation.

Section collectors.
Context `{OSSL : OpenSSL} `{XML : LibXml2} `{env : Eat.Env} `{B64 : Base64Lib} `{L : JwtLib}.
Context `{P : Http.Platform} `{CD : !X509Codec} `{DL : DynamicLinker}.
Context `{NV : Nvml.NvmlLib} `{CL : Corelib.CorelibLib} `{NQ : Nscq.NscqLib}.

(** A world with the collectors of the clients of the drivers. *)
Definition driven (W : World) (nvml : Driver.client Nvml.nvml) (corelib : Driver.client Corelib.corelib)
    (nscq : Driver.client Nscq.nscq_driver) : World := {|
  rim_network := rim_network;
  ocsp_network := ocsp_network;
  nras_network := nras_network;
  jwks_network := jwks_network;
  NVAT_VERSION_STRING := NVAT_VERSION_STRING;
  RAND_bytes := RAND_bytes;
  cache_clock := cache_clock;
  path_exists := path_exists;
  path_is_directory := path_is_directory;
  read_file := read_file;
  collect_evidence_nvml nonce := Driver.collected (Nvml.get_evidence nonce) nvml;
  collect_evidence_corelib architecture nonce := Driver.collected (Corelib.get_evidence architecture nonce) corelib;
  collect_evidence_nscq nonce := Driver.collected (Nscq.get_evidence nonce) nscq;
|}.

Context (W : World) (nvml : Driver.client Nvml.nvml) (corelib : Driver.client Corelib.corelib).
Context (nscq : Driver.client Nscq.nscq_driver).
Context {U WU V WV : Type} `{!Rim.IRimStore (U * WU)} `{!IOcspHttpClient (V * WV)}.
Context (Hnvml : Driver.sound Nvml.nvml_symbols nvml) (Hnscq : Driver.sound Nscq.nscq_symbols nscq).

Lemma collected_Ret {S Ev : Type} (m : sm (S * list Ev) Error unit) s out :
  Driver.collected m s = Ret out -> exists s', m (s, []) = (Ret tt, (s', out)).
Proof.
  unfold Driver.collected. destruct (m (s, [])) as [r [s' out']]. destruct r as [[]|e|x|]; cbn; [|done..].
  intros [= <-]. eauto.
Qed.

(** The evidence a context gets through NVML: of every device. *)
Lemma nvml_evidence_of n evidence :
  gpu_get_evidence (W:=driven W nvml corelib nscq) NvmlEvidenceCollector n = Ret evidence ->
  Nvml.mode_reported /\
  exists count, Nvml.answered Nvml.nvmlDeviceGetCount count /\ count <> 0 /\ length evidence = Z.to_nat count /\
    forall k e, evidence !! k = Some e -> Nvml.item_of n (Z.of_nat k) e.
Proof.
  intros (s' & Hrun)%collected_Ret. apply Nvml.nvml_evidence_lemma in Hrun as (es & -> & Hitem & Hret); [|done].
  destruct (Hret eq_refl) as [Hm (count & Hc & Hc0 & Hlen)]. split; [done|]. by exists count.
Qed.

(** C2: Attesting the GPUs of a machine through NVML, end to end.  When the
    attestation succeeds with its token, a local verifier and the built-in
    policy, NVML reported confidential computing or protected PCIe and a
    number of devices that is not zero, and for every index there is evidence
    that NVML gave for the device with that index over the nonce of this
    attestation, which was authenticated, is fresh, and matched verified RIMs
    with good chains: no device is left out. *)
Theorem attest_nvml_sound clock clock_ms nonce st text st' rim client options :
  rego_documented ->
  let c := initialized (context st) in
  m_gpu_enabled c = true -> m_gpu_verifier c = Some (LocalVerifier rim client options) ->
  m_gpu_evidence_source c = Some NvmlEvidenceCollector ->
  m_claims_evaluator c = None -> Rim.gpu_claims_version (m_evidence_policy c) = GpuClaims.V3 ->
  attest_device (W:=driven W nvml corelib nscq) clock clock_ms nonce true st = (Ret (text, None), st') ->
  Nvml.mode_reported /\
  exists n count evidence,
    choose_nonce (W:=driven W nvml corelib nscq) nonce = Ret n /\
    Nvml.answered Nvml.nvmlDeviceGetCount count /\ count <> 0 /\ length evidence = Z.to_nat count /\
    (forall k e, evidence !! k = Some e -> Nvml.item_of n (Z.of_nat k) e) /\
    length (claims st') = Z.to_nat count /\
    GpuVerify.all_verified clock (m_evidence_policy c) 0 evidence
      (mk_vstate (rim, rim_world st) (client, ocsp_world st) []) (claims st') /\
    Forall Policy.device_good (claims st').
Proof.
  intros Hrego c Hg Hv Hs He Hver Hrun.
  destruct (attest_local_gpu_lemma (W:=driven W nvml corelib nscq) clock clock_ms nonce st text st' rim client options
              Hrego Hg Hv He Hver Hrun) as (n & source & evidence & Hn & Hsrc & Hev & _ & _ & Hlen & Hall & Hgood).
  assert (Some source = Some NvmlEvidenceCollector) as [= ->] by exact (eq_trans (eq_sym Hsrc) Hs).
  apply nvml_evidence_of in Hev as [Hm (count & Hc & Hc0 & Hel & Hitem)]. split; [done|].
  exists n, count, evidence. split_and!; try done. by rewrite Hlen.
Qed.

(** The evidence a context gets through NSCQ: of every switch it named. *)
Lemma nscq_evidence_of n evidence :
  switch_get_evidence (W:=driven W nvml corelib nscq) NscqEvidenceCollector n = Ret evidence ->
  exists uuids arch calls,
    Nscq.observed Nscq.anytime Nscq.NSCQ_PATH_NVSWITCH_UUID calls /\ uuids = omap Nscq.label_of calls /\ uuids <> [] /\
    Forall2 (Nscq.item_of arch n) uuids evidence.
Proof.
  intros (s' & Hrun)%collected_Ret. apply Nscq.nscq_evidence_lemma in Hrun as (es & uuids & arch & -> & Hitem & Hret); [|done].
  destruct (Hret eq_refl) as (Hne & Hu & calls & Ho & Hc). exists uuids, arch, calls. split_and!; try done.
  rewrite firstn_all2 in Hitem; [done|]. by rewrite <- Hu, length_fmap.
Qed.

(** C22: Attesting the switches of a machine through NSCQ, end to end.  When the
    attestation succeeds with its token, a local verifier and the built-in
    policy, then for every switch whose name NSCQ gave without an error there
    is evidence that NSCQ gave for this switch over the nonce of this
    attestation, which was authenticated, is fresh, and matched a verified RIM
    with a good chain; and there is at least one. *)
Theorem attest_nscq_sound clock clock_ms nonce st text st' rim client options :
  rego_documented ->
  let c := initialized (context st) in
  m_gpu_enabled c = false -> m_switch_enabled c = true -> m_switch_verifier c = Some (LocalVerifier rim client options) ->
  m_switch_evidence_source c = Some NscqEvidenceCollector -> m_claims_evaluator c = None ->
  attest_device (W:=driven W nvml corelib nscq) clock clock_ms nonce true st = (Ret (text, None), st') ->
  exists n uuids arch calls evidence,
    choose_nonce (W:=driven W nvml corelib nscq) nonce = Ret n /\
    Nscq.observed Nscq.anytime Nscq.NSCQ_PATH_NVSWITCH_UUID calls /\ uuids = omap Nscq.label_of calls /\ uuids <> [] /\
    Forall2 (Nscq.item_of arch n) uuids evidence /\
    length (claims st') = length uuids /\
    SwitchVerify.all_verified clock (m_evidence_policy c) 0 evidence
      (mk_vstate (rim, rim_world st) (client, ocsp_world st) []) (claims st') /\
    Forall Policy.device_good (claims st').
Proof.
  intros Hrego c Hg Hsw Hv Hs He Hrun.
  destruct (attest_local_switch_lemma (W:=driven W nvml corelib nscq) clock clock_ms nonce st text st' rim client options
              Hrego Hg Hsw Hv He Hrun) as (n & source & evidence & Hn & Hsrc & Hev & _ & _ & Hlen & Hall & Hgood).
  assert (Some source = Some NscqEvidenceCollector) as [= ->] by exact (eq_trans (eq_sym Hsrc) Hs).
  apply nscq_evidence_of in Hev as (uuids & arch & calls & Ho & Hu & Hne & Hitem).
  exists n, uuids, arch, calls, evidence. split_and!; try done. by rewrite Hlen, (Forall2_length _ _ _ Hitem).
Qed.

End collectors.

(** *** The small report, from a driver *)

Definition toy_chain : list Z :=
  bytes_of_string "A-----END CERTIFICATE-----BB-----END CERTIFICATE-----CCC-----END CERTIFICATE-----".

(** One GPU, which gives the report of GpuEvidence whatever the nonce. *)
Definition toy_gpu : Nvml.NvmlLib := {|
  Nvml.nvml := nat;
  Nvml.nvmlInit_v2 d := (0, S d);
  Nvml.nvmlShutdown d := (0, S d);
  Nvml.nvmlSystemGetConfComputeState d := ((0, Nvml.mk_system_state 0 1 0), S d);
  Nvml.nvmlSystemGetConfComputeSettings t d := ((0, t), S d);
  Nvml.nvmlSystemGetConfComputeGpusReadyState d := ((0, 1), S d);
  Nvml.nvmlSystemGetDriverVersion _ d := ((0, [53; 55; 48]), S d);
  Nvml.nvmlDeviceGetCount d := ((0, 1), S d);
  Nvml.nvmlDeviceGetHandleByIndex i d := ((0, 100 + i), S d);
  Nvml.nvmlDeviceGetConfComputeGpuCertificate h d := ((0, Nvml.mk_certificate 0 (zlen toy_chain) [] toy_chain), S d);
  Nvml.nvmlDeviceGetConfComputeGpuAttestationReport h n d :=
    ((0, Nvml.mk_attestation_report 0 (zlen GpuEvidence.toy_data) 0 n GpuEvidence.toy_data []), S d);
  Nvml.nvmlDeviceGetVbiosVersion _ _ d := ((0, [57; 54]), S d);
  Nvml.nvmlDeviceGetUUID h _ d := ((0, [71; 80; 85]), S d);
  Nvml.nvmlDeviceGetArchitecture _ d := ((0, 9), S d);
  Nvml.nvmlDeviceGetBoardId h d := ((0, h), S d);
|}.

(** One switch, which gives the report of SwitchEvidence whatever the nonce. *)
Definition toy_switch_callbacks (path : string) : list (Z * Nscq.nscq_data) :=
  match ascii_byte <$> reverse (String.list_ascii_of_string path) with
  | _ :: 105 :: _ => [(0, Nscq.DataUuid (Some [1]))]
  | _ :: 99 :: _ => [(0, Nscq.DataArch 2)]
  | _ :: 100 :: _ => [(0, Nscq.DataTnvl 3)]
  | _ :: 116 :: _ => [(0, Nscq.DataCertificate (Nscq.mk_certificate toy_chain (zlen toy_chain)))]
  | _ :: 114 :: _ => [(0, Nscq.DataReport (Nscq.mk_report (zlen SwitchEvidence.toy_data) SwitchEvidence.toy_data))]
  | _ => []
  end.

Definition toy_switch : Nscq.NscqLib := {|
  Nscq.nscq := list Z;
  Nscq.nscq_session_create _ d := ((0, 1), d);
  Nscq.nscq_session_destroy _ d := d;
  Nscq.nscq_session_path_observe _ path d := ((0, toy_switch_callbacks path), d);
  Nscq.nscq_session_set_input _ nonce _ := (0, nonce);
  Nscq.nscq_uuid_to_label uuid := (0, (fun b => 64 + b) <$> take 1 uuid);
|}.

Definition toy_driven : World :=
  driven (OSSL:=toy_openssl) (CD:=Corelib.toy_codec) (DL:=toy_linker) (NV:=toy_gpu) (CL:=Corelib.toy_corelib)
    (NQ:=Nscq.toy_nscq) toy_world (Driver.new_client (D:=Nvml.nvml (NvmlLib:=toy_gpu)) 0%nat) (Driver.new_client (D:=Corelib.corelib (CorelibLib:=Corelib.toy_corelib)) tt)
    (Nscq.new_client (NQ:=Nscq.toy_nscq) []).

Definition toy_nvml_state :
    state (OSSL:=toy_openssl) (U:=unit) (V:=unit) (WU:=unit) (WV:=Ocsp.RawProofOcspClient (OSSL:=toy_openssl)) :=
  mk_state (set_gpu_evidence_source toy_context (Some NvmlEvidenceCollector)) (new_shared, tt)
    (new_shared, Ocsp.mk_raw (OSSL:=toy_openssl) [[270; 570]] 1500) 0 [].

#[local] Existing Instance toy_user_ocsp.

Abbreviation toy_run :=
  (attest_device (OSSL:=toy_openssl) (XML:=toy_xml) (env:=toy_policy_env) (B64:=Base64.toy_base64) (L:=Jwt.toy_jwt)
    (P:=toy_platform) (W:=toy_driven) (H:=toy_user_rims "10a0b") (fun _ => 1500) (fun _ => 1500) (replicate 32 9) true
    toy_nvml_state).

Example toy_run_good : toy_run.1 = Ret (Some "token", None).
Proof. vm_compute. reflexivity. Qed.

Lemma attest_nvml_sound_witness :
  length (claims toy_run.2) = 1%nat /\ Forall Policy.device_good (claims toy_run.2).
Proof.
  destruct (attest_nvml_sound (OSSL:=toy_openssl) (XML:=toy_xml) (env:=toy_policy_env) (B64:=Base64.toy_base64)
    (L:=Jwt.toy_jwt) (P:=toy_platform) (CD:=Corelib.toy_codec) (DL:=toy_linker) (NV:=toy_gpu) (CL:=Corelib.toy_corelib)
    (NQ:=Nscq.toy_nscq) toy_world (Driver.new_client (D:=Nvml.nvml (NvmlLib:=toy_gpu)) 0%nat)
    (Driver.new_client (D:=Corelib.corelib (CorelibLib:=Corelib.toy_corelib)) tt) (Nscq.new_client (NQ:=Nscq.toy_nscq) [])
    (H:=toy_user_rims "10a0b") (Driver.new_client_sound _ _) (fun _ => 1500) (fun _ => 1500) (replicate 32 9)
    toy_nvml_state (Some "token") toy_run.2 (UserRimStore tt) (UserOcspClient (OSSL:=toy_openssl) tt)
    (Eat.mk_options "" "NVAT-LOCAL-VERIFIER" ""))
    as (_ & n & count & evidence & _ & (d & [= Hc]) & _ & _ & _ & Hlen & _ & Hgood).
  - exact toy_rego_documented.
  - done.
  - done.
  - done.
  - done.
  - done.
  - apply run_pair, toy_run_good.
  - subst count. exact (conj Hlen Hgood).
Defined.

(** The same with the switch. *)
Definition toy_switch_driven : World :=
  driven (OSSL:=toy_openssl) (CD:=Corelib.toy_codec) (DL:=toy_linker) (NV:=toy_gpu) (CL:=Corelib.toy_corelib)
    (NQ:=toy_switch) toy_world (Driver.new_client (D:=Nvml.nvml (NvmlLib:=toy_gpu)) 0%nat)
    (Driver.new_client (D:=Corelib.corelib (CorelibLib:=Corelib.toy_corelib)) tt) (Nscq.new_client (NQ:=toy_switch) []).

Definition toy_switch_state :
    state (OSSL:=toy_openssl) (U:=unit) (V:=unit) (WU:=unit) (WV:=Ocsp.RawProofOcspClient (OSSL:=toy_openssl)) :=
  mk_state (set_device_type toy_context Verify.NVAT_DEVICE_NVSWITCH) (new_shared, tt)
    (new_shared, Ocsp.mk_raw (OSSL:=toy_openssl) [[270; 570]] 1500) 0 [].

Abbreviation toy_switch_run :=
  (attest_device (OSSL:=toy_openssl) (XML:=toy_xml) (env:=toy_policy_env) (B64:=Base64.toy_base64) (L:=Jwt.toy_jwt)
    (P:=toy_platform) (W:=toy_switch_driven) (H:=toy_user_rims "10a0b") (fun _ => 1500) (fun _ => 1500) (replicate 32 9) true
    toy_switch_state).

Example toy_switch_run_good : toy_switch_run.1 = Ret (Some "token", None).
Proof. vm_compute. reflexivity. Qed.

Lemma attest_nscq_sound_witness :
  claims toy_switch_run.2 <> [] /\ Forall Policy.device_good (claims toy_switch_run.2).
Proof.
  destruct (attest_nscq_sound (OSSL:=toy_openssl) (XML:=toy_xml) (env:=toy_policy_env) (B64:=Base64.toy_base64)
    (L:=Jwt.toy_jwt) (P:=toy_platform) (CD:=Corelib.toy_codec) (DL:=toy_linker) (NV:=toy_gpu) (CL:=Corelib.toy_corelib)
    (NQ:=toy_switch) toy_world (Driver.new_client (D:=Nvml.nvml (NvmlLib:=toy_gpu)) 0%nat)
    (Driver.new_client (D:=Corelib.corelib (CorelibLib:=Corelib.toy_corelib)) tt) (Nscq.new_client (NQ:=toy_switch) [])
    (H:=toy_user_rims "10a0b") (Driver.new_client_sound _ _) (fun _ => 1500) (fun _ => 1500) (replicate 32 9)
    toy_switch_state (Some "token") toy_switch_run.2 (UserRimStore tt) (UserOcspClient (OSSL:=toy_openssl) tt)
    (Eat.mk_options "" "NVAT-LOCAL-VERIFIER" ""))
    as (n & uuids & arch & calls & evidence & _ & _ & _ & Hne & _ & Hlen & _ & Hgood).
  - exact toy_rego_documented.
  - done.
  - done.
  - done.
  - done.
  - done.
  - apply run_pair, toy_switch_run_good.
  - split; [|exact Hgood]. intros E. apply Hne. rewrite E in Hlen. destruct uuids; [reflexivity|discriminate Hlen].
Defined.

End Collectors.
