(* ===== verification/Nvat.v ===== *)
(** * Nvat: the C interface

    src/nvat.cpp and include/nv_attestation/nvat_private.hpp: opaque handles,
    the conversions between them and the C++ objects, the null checks, the
    boundary that turns exceptions into return codes, and the operations of
    the other files behind them.

    The heap maps addresses to objects; an address is never used again, so a
    handle to a freed object can be told from one to a live object.  A handle
    variable of the caller is a slot, and an output parameter is a slot or a
    null pointer.  Casting a handle to a C++ type that the object does not have
    is undefined behaviour, and so is following a handle that is null or whose
    object was freed. *)

From stdpp Require Import finite.
From S2P Require Import Prelude Errors Utils SpdmReq OpenSsl StatusBundle NvCache Ocsp X509Chain Json Claims Evaluator DetachedEat.
From S2P Require Import Http Jwt Certs Base64 Rim Report GpuEvidence SwitchEvidence Verify GpuVerify SwitchVerify Attestation.

Module Nvat.
Import Attestation.

Section nvat.
Context `{OSSL : OpenSSL} `{XML : LibXml2} `{env : Eat.Env} `{B64 : Base64Lib} `{L : JwtLib}.
Context `{P : Http.Platform} `{W : World}.
Context {U WU V WV : Type} `{!Rim.IRimStore (U * WU)} `{!IOcspHttpClient (V * WV)}.

(** ** Objects and handles *)

Abbreviation rim_store := (rim_store (U:=U)).
Abbreviation ocsp_client := (ocsp_client (V:=V)).
Abbreviation context_t := (AttestationContext (U:=U) (V:=V)).
Abbreviation verifier := (verifier (U:=U) (V:=V)).

(** [nullptr] is [None]. *)
Abbreviation handle := (option nat).

(** The objects behind handles.  A shared pointer to a store or a client is
    null when it was moved from. *)
Inductive object : Type :=
| o_str (s : string)
| o_nonce (bytes : list Z)
| o_gpu_evidence (e : GpuEvidence.GpuEvidence)
| o_gpu_evidence_array (handles : list handle)
| o_gpu_evidence_source (s : gpu_source)
| o_switch_evidence (e : SwitchEvidence.SwitchEvidence)
| o_switch_evidence_array (handles : list handle)
| o_switch_evidence_source (s : switch_source)
| o_evidence_policy (p : Rim.EvidencePolicy)
| o_relying_party_policy (rego : string)
| o_http_options (o : Http.HttpOptions)
| o_ocsp_client (c : option ocsp_client)
| o_rim_store (s : option rim_store)
| o_claims (c : Collection.Claims)
| o_claims_collection (c : Collection.ClaimsCollection)
| o_attestation_ctx (c : context_t)
| o_gpu_verifier (v : verifier)
| o_switch_verifier (v : verifier)
| o_detached_eat_options (o : Eat.DetachedEATOptions).

(** The handle types of nvat.h.  The verifiers of a kind share one, which the
    upcasts convert to. *)
Inductive ctype : Type :=
| T_str | T_nonce | T_gpu_evidence | T_gpu_evidence_array | T_gpu_evidence_source | T_switch_evidence
| T_switch_evidence_array | T_switch_evidence_source | T_evidence_policy | T_relying_party_policy
| T_http_options | T_ocsp_client | T_rim_store | T_claims | T_claims_collection | T_attestation_ctx
| T_gpu_verifier | T_switch_verifier | T_detached_eat_options.

#[global] Instance ctype_eq_dec : EqDecision ctype.
Proof. solve_decision. Defined.

Definition ctypes : list ctype :=
  [T_str; T_nonce; T_gpu_evidence; T_gpu_evidence_array; T_gpu_evidence_source; T_switch_evidence;
   T_switch_evidence_array; T_switch_evidence_source; T_evidence_policy; T_relying_party_policy;
   T_http_options; T_ocsp_client; T_rim_store; T_claims; T_claims_collection; T_attestation_ctx;
   T_gpu_verifier; T_switch_verifier; T_detached_eat_options].

#[global] Program Instance ctype_finite : Finite ctype := {| enum := ctypes |}.
Next Obligation. apply (bool_decide_unpack _). by vm_compute. Qed.
Next Obligation. intros []; apply (bool_decide_unpack _); by vm_compute. Qed.

Definition type_of (o : object) : ctype :=
  match o with
  | o_str _ => T_str | o_nonce _ => T_nonce | o_gpu_evidence _ => T_gpu_evidence
  | o_gpu_evidence_array _ => T_gpu_evidence_array | o_gpu_evidence_source _ => T_gpu_evidence_source
  | o_switch_evidence _ => T_switch_evidence | o_switch_evidence_array _ => T_switch_evidence_array
  | o_switch_evidence_source _ => T_switch_evidence_source | o_evidence_policy _ => T_evidence_policy
  | o_relying_party_policy _ => T_relying_party_policy | o_http_options _ => T_http_options
  | o_ocsp_client _ => T_ocsp_client | o_rim_store _ => T_rim_store | o_claims _ => T_claims
  | o_claims_collection _ => T_claims_collection | o_attestation_ctx _ => T_attestation_ctx
  | o_gpu_verifier _ => T_gpu_verifier | o_switch_verifier _ => T_switch_verifier
  | o_detached_eat_options _ => T_detached_eat_options
  end.

(** The caller's variables have the types C gives them: a variable is a type
    and a number. *)
Record capi : Type := mk_capi {
  slots : gmap (ctype * nat) handle;
  heap : gmap nat object;
  next : nat;
  c_rim_world : shared string * WU;
  c_ocsp_world : shared NvOcspResponse * WV;
  c_nras_requests : nat;
}.

Abbreviation api := (sm capi Error).

Definition get_capi : api capi := fun st => (Ret st, st).

Definition set_heap (h : gmap nat object) (st : capi) : capi :=
  mk_capi (slots st) h (next st) (c_rim_world st) (c_ocsp_world st) (c_nras_requests st).

(** [new]: the object gets the next address. *)
Definition alloc (o : object) : api handle := fun st =>
  (Ret (Some (next st)),
   mk_capi (slots st) (<[next st := o]> (heap st)) (S (next st)) (c_rim_world st) (c_ocsp_world st)
     (c_nras_requests st)).

(** [*nvat_x_to_cpp(h)]. *)
Definition deref (h : handle) : api object := fun st =>
  (match h ≫= (heap st !!.) with Some o => Ret o | None => UB end, st).

Definition deref_as {A : Type} (f : object -> option A) (h : handle) : api A :=
  do* o := deref h in slift (match f o with Some a => Ret a | None => UB end).

(** Assigning to the object of a handle, of the same type. *)
Definition assign (h : handle) (o : object) : api unit := fun st =>
  match h with
  | Some l =>
      if bool_decide (type_of <$> heap st !! l = Some (type_of o))
      then (Ret tt, set_heap (<[l := o]> (heap st)) st) else (UB, st)
  | None => (UB, st)
  end.

(** [delete]. *)
Definition delete_object (h : handle) : api unit :=
  do* _ := deref h in
  fun st => match h with Some l => (Ret tt, set_heap (delete l (heap st)) st) | None => (UB, st) end.

(** [*out = h], for a variable of type [t]. *)
Definition write (t : ctype) (out : option nat) (h : handle) : api unit := fun st =>
  match out with
  | None => (UB, st)
  | Some v =>
      (Ret tt, mk_capi (<[(t, v) := h]> (slots st)) (heap st) (next st) (c_rim_world st) (c_ocsp_world st)
                 (c_nras_requests st))
  end.

(** The value of a variable; of one that was never set, anything. *)
Definition read (t : ctype) (v : nat) : api handle := fun st =>
  (match slots st !! (t, v) with Some h => Ret h | None => UB end, st).

(** The casts. *)
Definition to_str (o : object) := match o with o_str s => Some s | _ => None end.
Definition to_nonce (o : object) := match o with o_nonce n => Some n | _ => None end.
Definition to_gpu_evidence (o : object) := match o with o_gpu_evidence e => Some e | _ => None end.
Definition to_gpu_array (o : object) := match o with o_gpu_evidence_array l => Some l | _ => None end.
Definition to_gpu_source (o : object) := match o with o_gpu_evidence_source s => Some s | _ => None end.
Definition to_switch_evidence (o : object) := match o with o_switch_evidence e => Some e | _ => None end.
Definition to_switch_array (o : object) := match o with o_switch_evidence_array l => Some l | _ => None end.
Definition to_switch_source (o : object) := match o with o_switch_evidence_source s => Some s | _ => None end.
Definition to_evidence_policy (o : object) := match o with o_evidence_policy p => Some p | _ => None end.
Definition to_policy (o : object) := match o with o_relying_party_policy p => Some p | _ => None end.
Definition to_http_options (o : object) := match o with o_http_options h => Some h | _ => None end.
Definition to_ocsp_client (o : object) := match o with o_ocsp_client c => Some c | _ => None end.
Definition to_rim_store (o : object) := match o with o_rim_store s => Some s | _ => None end.
Definition to_claims (o : object) := match o with o_claims c => Some c | _ => None end.
Definition to_collection (o : object) := match o with o_claims_collection c => Some c | _ => None end.
Definition to_ctx (o : object) := match o with o_attestation_ctx c => Some c | _ => None end.
Definition to_gpu_verifier (o : object) := match o with o_gpu_verifier v => Some v | _ => None end.
Definition to_switch_verifier (o : object) := match o with o_switch_verifier v => Some v | _ => None end.
Definition to_eat_options (o : object) := match o with o_detached_eat_options e => Some e | _ => None end.

Definition given_ptr {A : Type} (o : option A) : bool := bool_decide (is_Some o).

(** An optional object: the default for a null handle. *)
Definition deref_or {A : Type} (f : object -> option A) (default : A) (h : handle) : api A :=
  match h with None => sret default | Some _ => deref_as f h end.

(** [make_unique] of an object and its release into the output parameter. *)
Definition emit (out : option nat) (o : object) : api unit :=
  do* h := alloc o in write (type_of o) out h.

(** NVAT_FREE_FUNCTION, for the handle type [t]. *)
Definition free (t : ctype) (v : option nat) : api unit :=
  match v with
  | None => sret tt
  | Some v =>
      do* h := read t v in
      match h with
      | None => sret tt
      | Some _ =>
          do* _ := deref_as (fun o => if bool_decide (type_of o = t) then Some tt else None) h in
          do* _ := delete_object h in
          write t (Some v) None
      end
  end.

(** ** Strings, options and policies *)

Definition nvat_str_length (str : handle) (out_length : bool) : api Z :=
  guard* given_ptr str else BadArgument in
  do* s := deref_as to_str str in
  slift (if out_length then Ret (Z.of_nat (String.length s)) else UB).

Definition nvat_str_get_data (str : handle) (out_data : bool) : api string :=
  guard* given_ptr str else BadArgument in
  do* s := deref_as to_str str in
  slift (if out_data then Ret s else UB).

Definition nvat_http_options_create_default (http_options : option nat) : api unit :=
  guard* given_ptr http_options else BadArgument in
  emit http_options (o_http_options Http.HttpOptions_default).

(** The setters of numbers; a null handle is ignored. *)
Definition set_http_options (http_options : handle) (f : Http.HttpOptions -> Http.HttpOptions) : api unit :=
  match http_options with
  | None => sret tt
  | Some _ => do* o := deref_as to_http_options http_options in assign http_options (o_http_options (f o))
  end.

Definition nvat_http_options_set_max_retry_count (http_options : handle) (max_retries : Z) : api unit :=
  set_http_options http_options (fun o => Http.mk_http_options (Z.max 0 max_retries) (Http.base_backoff_ms o)
    (Http.max_backoff_ms o) (Http.connection_timeout_ms o) (Http.request_timeout_ms o) (Http.ca_bundle_path o)
    (Http.ca_bundle_path_tier o) (Http.ca_bundle_path_error o)).

Definition nvat_http_options_set_base_backoff_ms (http_options : handle) (base_backoff_ms : Z) : api unit :=
  set_http_options http_options (fun o => Http.mk_http_options (Http.max_retry_count o) (Z.max 0 base_backoff_ms)
    (Http.max_backoff_ms o) (Http.connection_timeout_ms o) (Http.request_timeout_ms o) (Http.ca_bundle_path o)
    (Http.ca_bundle_path_tier o) (Http.ca_bundle_path_error o)).

Definition nvat_http_options_set_max_backoff_ms (http_options : handle) (max_backoff_ms : Z) : api unit :=
  set_http_options http_options (fun o => Http.mk_http_options (Http.max_retry_count o) (Http.base_backoff_ms o)
    (Z.max 0 max_backoff_ms) (Http.connection_timeout_ms o) (Http.request_timeout_ms o) (Http.ca_bundle_path o)
    (Http.ca_bundle_path_tier o) (Http.ca_bundle_path_error o)).

Definition nvat_http_options_set_connection_timeout_ms (http_options : handle) (connection_timeout_ms : Z) : api unit :=
  set_http_options http_options (fun o => Http.mk_http_options (Http.max_retry_count o) (Http.base_backoff_ms o)
    (Http.max_backoff_ms o) (Z.max 0 connection_timeout_ms) (Http.request_timeout_ms o) (Http.ca_bundle_path o)
    (Http.ca_bundle_path_tier o) (Http.ca_bundle_path_error o)).

Definition nvat_http_options_set_request_timeout_ms (http_options : handle) (request_timeout_ms : Z) : api unit :=
  set_http_options http_options (fun o => Http.mk_http_options (Http.max_retry_count o) (Http.base_backoff_ms o)
    (Http.max_backoff_ms o) (Http.connection_timeout_ms o) (Z.max 0 request_timeout_ms) (Http.ca_bundle_path o)
    (Http.ca_bundle_path_tier o) (Http.ca_bundle_path_error o)).

(** The options keep what resolving the path came to, also an error. *)
Definition nvat_http_options_set_ca_bundle_path (http_options : handle) (path : option string) : api unit :=
  match http_options, path with
  | Some _, Some path =>
      do* o := deref_as to_http_options http_options in
      let '(err, o) := Http.set_ca_bundle_path o path in
      do* _ := assign http_options (o_http_options o) in
      slift (if bool_decide (err = Ok) then Ret tt else Err err)
  | _, _ => slift (Err BadArgument)
  end.

(** The output parameter is not checked. *)
Definition nvat_relying_party_policy_create_rego_from_str (rp_policy : option nat) (rego_str : option string) : api unit :=
  match rego_str with
  | None => slift (Err BadArgument)
  | Some rego => emit rp_policy (o_relying_party_policy rego)
  end.

Definition nvat_apply_relying_party_policy (policy claims : handle) : api unit :=
  guard* given_ptr claims else BadArgument in
  guard* given_ptr policy else BadArgument in
  do* cpp_claims := deref_as to_collection claims in
  do* cpp_policy := deref_as to_policy policy in
  do* cpp_match := slift (evaluate cpp_policy cpp_claims) in
  guard* cpp_match else RelyingPartyPolicyMismatch in
  sret tt.

Definition nvat_evidence_policy_create_default (out_policy : option nat) : api unit :=
  guard* given_ptr out_policy else BadArgument in
  emit out_policy (o_evidence_policy Rim.EvidencePolicy_default).

Definition set_policy (policy : handle) (f : Rim.EvidencePolicy -> Rim.EvidencePolicy) : api unit :=
  do* p := deref_as to_evidence_policy policy in assign policy (o_evidence_policy (f p)).

Definition nvat_evidence_policy_set_verify_rim_signature (policy : handle) (verify_rim_signature : bool) : api unit :=
  if negb (given_ptr policy) then sret tt
  else set_policy policy (fun p => Rim.mk_policy (Rim.gpu_claims_version p) (Rim.switch_claims_version p)
         verify_rim_signature (Rim.verify_rim_cert_chain p)).

Definition nvat_evidence_policy_set_verify_rim_cert_chain (policy : handle) (verify_rim_cert_chain : bool) : api unit :=
  if negb (given_ptr policy) then sret tt
  else set_policy policy (fun p => Rim.mk_policy (Rim.gpu_claims_version p) (Rim.switch_claims_version p)
         (Rim.verify_rim_signature p) verify_rim_cert_chain).

Definition nvat_evidence_policy_set_gpu_claims_version (policy : handle) (version : Z) : api unit :=
  guard* given_ptr policy else BadArgument in
  do* v := slift (GpuClaims.gpu_claims_version_from_c version) in
  set_policy policy (fun p => Rim.mk_policy v (Rim.switch_claims_version p) (Rim.verify_rim_signature p)
                              (Rim.verify_rim_cert_chain p)).

Definition nvat_evidence_policy_set_switch_claims_version (policy : handle) (version : Z) : api unit :=
  guard* given_ptr policy else BadArgument in
  do* v := slift (SwitchClaims.switch_claims_version_from_c version) in
  set_policy policy (fun p => Rim.mk_policy (Rim.gpu_claims_version p) v (Rim.verify_rim_signature p)
                              (Rim.verify_rim_cert_chain p)).

Definition nvat_detached_eat_options_create (out_options : option nat) (private_key_pem issuer kid : option string) :
    api unit :=
  guard* given_ptr out_options else BadArgument in
  emit out_options (o_detached_eat_options (Eat.mk_options (default "" private_key_pem)
                      (default "NVAT-LOCAL-VERIFIER" issuer) (default "" kid))).

(** ** OCSP clients and RIM stores *)

(** A null URL or key is as good as an empty one. *)
Definition nvat_ocsp_client_create_default (out_client : option nat) (base_url service_key : option string)
    (http_options : handle) : api unit :=
  guard* given_ptr out_client else BadArgument in
  do* options := deref_or to_http_options Http.HttpOptions_default http_options in
  emit out_client (o_ocsp_client (Some (make_ocsp_client (default "" base_url) (default "" service_key) options))).

(** [bundle_der] points to that many bytes. *)
Definition nvat_ocsp_client_create_raw_proofs (out_client : option nat) (bundle_der : option (list Z))
    (bundle_len verification_time_unix : Z) : api unit :=
  guard* given_ptr out_client else BadArgument in
  match bundle_der with
  | None => slift (Err BadArgument)
  | Some buffer =>
      guard* negb (bundle_len =? 0) else BadArgument in
      guard* negb (Bundle.MAX_BUNDLE_BYTES <? bundle_len) else BadArgument in
      guard* negb ((verification_time_unix <=? 0) || (Ocsp.MAX_VERIFICATION_TIME <? verification_time_unix))
        else BadArgument in
      do* bundle := slift (viter buffer 0 bundle_len) in
      do* client := slift (Ocsp.create_from_bundle bundle verification_time_unix) in
      emit out_client (o_ocsp_client (Some (RawOcspClient client)))
  end.

(** The new cache is named by the address of the handle's object. *)
Definition new_ocsp_cache (max_size_bytes ttl_seconds : Z) : api nat := fun st =>
  (Ret (next st),
   mk_capi (slots st) (heap st) (next st) (c_rim_world st)
     (with_cache (c_ocsp_world st).1 (next st)
        (NvCache.ctor (Some (NvCache.mk_options max_size_bytes ttl_seconds))), (c_ocsp_world st).2)
     (c_nras_requests st)).

Definition nvat_ocsp_client_create_cached (out_client : option nat) (inner_client : handle)
    (max_size_bytes ttl_seconds : Z) : api unit :=
  guard* given_ptr out_client else BadArgument in
  guard* given_ptr inner_client else BadArgument in
  do* inner := deref_as to_ocsp_client inner_client in
  do* cache := new_ocsp_cache max_size_bytes ttl_seconds in
  emit out_client (o_ocsp_client (Some (CachingOcspClient cache inner))).

Definition nvat_rim_store_create_remote (out_store : option nat) (base_url service_key : option string)
    (http_options : handle) : api unit :=
  guard* given_ptr out_store else BadArgument in
  do* options := deref_or to_http_options Http.HttpOptions_default http_options in
  emit out_store (o_rim_store (Some (make_rim_store (default "" base_url) (default "" service_key) options))).

Definition nvat_rim_store_create_filesystem (out_store : option nat) (base_path : option string) : api unit :=
  guard* given_ptr out_store else BadArgument in
  match base_path with
  | None => slift (Err BadArgument)
  | Some base_path => emit out_store (o_rim_store (Some (FilesystemRimStore base_path)))
  end.

Definition new_rim_cache (max_size_bytes ttl_seconds : Z) : api nat := fun st =>
  (Ret (next st),
   mk_capi (slots st) (heap st) (next st)
     (with_cache (c_rim_world st).1 (next st)
        (NvCache.ctor (Some (NvCache.mk_options max_size_bytes ttl_seconds))), (c_rim_world st).2)
     (c_ocsp_world st) (c_nras_requests st)).

Definition nvat_rim_store_create_cached (out_store : option nat) (inner_store : handle)
    (max_size_bytes ttl_seconds : Z) : api unit :=
  guard* given_ptr out_store else BadArgument in
  guard* given_ptr inner_store else BadArgument in
  do* inner := deref_as to_rim_store inner_store in
  do* cache := new_rim_cache max_size_bytes ttl_seconds in
  emit out_store (o_rim_store (Some (CachingRimStore cache inner))).

(** ** The context *)

Definition nvat_attestation_ctx_create (ctx : option nat) : api unit :=
  guard* given_ptr ctx else BadArgument in
  emit ctx (o_attestation_ctx new_context).

(** A setter of [AttestationContext] on the context of a handle. *)
Definition on_ctx (ctx : handle) (f : context_t -> context_t) : api unit :=
  do* c := deref_as to_ctx ctx in assign ctx (o_attestation_ctx (f c)).

Definition nvat_attestation_ctx_set_device_type (ctx : handle) (device_type : Z) : api unit :=
  guard* given_ptr ctx else BadArgument in
  on_ctx ctx (fun c => set_device_type c device_type).

Definition nvat_attestation_ctx_set_verifier_type (ctx : handle) (verifier_type : Z) : api unit :=
  guard* given_ptr ctx else BadArgument in
  do* cpp_verifier_type := slift (Verify.verifier_type_from_c verifier_type) in
  on_ctx ctx (fun c => set_verifier_type c cpp_verifier_type).

Definition nvat_attestation_ctx_set_default_http_options (ctx http_options : handle) : api unit :=
  guard* given_ptr ctx && given_ptr http_options else BadArgument in
  do* o := deref_as to_http_options http_options in
  on_ctx ctx (fun c => set_default_http_options c o).

(** The policy is deleted; the caller's variable still holds its address. *)
Definition nvat_attestation_ctx_set_evidence_policy (ctx : handle) (evidence_policy : option nat) : api unit :=
  guard* given_ptr ctx else BadArgument in
  do* h := match evidence_policy with None => sret None | Some v => read T_evidence_policy v end in
  match h with
  | None => on_ctx ctx (fun c => set_evidence_policy c Rim.EvidencePolicy_default)
  | Some _ =>
      do* p := deref_as to_evidence_policy h in
      do* _ := on_ctx ctx (fun c => set_evidence_policy c p) in
      delete_object h
  end.

Definition nvat_attestation_ctx_set_relying_party_policy (ctx rp_policy : handle) : api unit :=
  guard* given_ptr ctx else BadArgument in
  guard* given_ptr rp_policy else BadArgument in
  do* p := deref_as to_policy rp_policy in
  on_ctx ctx (fun c => set_claims_evaluator c (Some p)).

Definition nvat_attestation_ctx_set_default_ocsp_url (ctx : handle) (ocsp_url : option string) : api unit :=
  guard* given_ptr ctx else BadArgument in
  match ocsp_url with
  | None => slift (Err BadArgument)
  | Some url => on_ctx ctx (fun c => set_default_ocsp_url c url)
  end.

Definition nvat_attestation_ctx_set_default_nras_url (ctx : handle) (nras_url : option string) : api unit :=
  guard* given_ptr ctx else BadArgument in
  match nras_url with
  | None => slift (Err BadArgument)
  | Some url => on_ctx ctx (fun c => set_default_nras_url c url)
  end.

Definition nvat_attestation_ctx_set_default_rim_store_url (ctx : handle) (rim_store_url : option string) : api unit :=
  guard* given_ptr ctx else BadArgument in
  match rim_store_url with
  | None => slift (Err BadArgument)
  | Some url => on_ctx ctx (fun c => set_default_rim_store_url c url)
  end.

(** The store is moved out of the handle's object, which keeps a null
    pointer. *)
Definition nvat_attestation_ctx_set_default_rim_store (ctx rim_store : handle) : api unit :=
  guard* given_ptr ctx else BadArgument in
  guard* given_ptr rim_store else BadArgument in
  do* s := deref_as to_rim_store rim_store in
  do* _ := on_ctx ctx (fun c => set_default_rim_store c s) in
  assign rim_store (o_rim_store None).

Definition nvat_attestation_ctx_set_default_ocsp_client (ctx ocsp_client : handle) : api unit :=
  guard* given_ptr ctx else BadArgument in
  guard* given_ptr ocsp_client else BadArgument in
  do* o := deref_as to_ocsp_client ocsp_client in
  do* _ := on_ctx ctx (fun c => set_default_ocsp_client c o) in
  assign ocsp_client (o_ocsp_client None).

Definition nvat_attestation_ctx_set_gpu_evidence_source_json_file (ctx : handle) (file_path : option string) : api unit :=
  guard* given_ptr ctx else BadArgument in
  match file_path with
  | None => slift (Err BadArgument)
  | Some path =>
      do* c := deref_as to_ctx ctx in
      do* c := slift (set_gpu_evidence_source_json_file c path) in
      assign ctx (o_attestation_ctx c)
  end.

Definition nvat_attestation_ctx_set_switch_evidence_source_json_file (ctx : handle) (file_path : option string) : api unit :=
  guard* given_ptr ctx else BadArgument in
  match file_path with
  | None => slift (Err BadArgument)
  | Some path =>
      do* c := deref_as to_ctx ctx in
      do* c := slift (set_switch_evidence_source_json_file c path) in
      assign ctx (o_attestation_ctx c)
  end.

Definition nvat_attestation_ctx_set_service_key (ctx : handle) (service_key : option string) : api unit :=
  guard* given_ptr ctx else BadArgument in
  match service_key with
  | None => slift (Err BadArgument)
  | Some key => on_ctx ctx (fun c => set_service_key c key)
  end.

Definition nvat_attestation_ctx_set_detached_eat_options (ctx detached_eat_options : handle) : api unit :=
  guard* given_ptr ctx else BadArgument in
  guard* given_ptr detached_eat_options else BadArgument in
  do* o := deref_as to_eat_options detached_eat_options in
  on_ctx ctx (fun c => set_detached_eat_options c o).

(** ** Nonces *)

(** For the length zero the call is a success that leaves the output as it
    was. *)
Definition nvat_nonce_create (out_nonce : option nat) (length : Z) : api unit :=
  guard* given_ptr out_nonce else BadArgument in
  if length =? 0 then sret tt
  else
    do* n := slift (generate_nonce RAND_bytes length) in
    emit out_nonce (o_nonce n).

(** No boundary: a length of its own. *)
Definition nvat_nonce_get_length (nonce : handle) : api Z :=
  match nonce with
  | None => sret 0
  | Some _ => do* n := deref_as to_nonce nonce in sret (zlen n)
  end.

Definition nvat_nonce_get_bytes (nonce : handle) (bytes : bool) (bytes_len : Z) : api (list Z) :=
  guard* given_ptr nonce else BadArgument in
  guard* bytes else BadArgument in
  do* n := deref_as to_nonce nonce in
  guard* bytes_len =? zlen n else BadArgument in
  sret n.

Definition nvat_nonce_to_hex_string (nonce : handle) (out_str : option nat) : api unit :=
  guard* given_ptr nonce else BadArgument in
  guard* given_ptr out_str else BadArgument in
  do* n := deref_as to_nonce nonce in
  emit out_str (o_str (to_hex_string n)).

(** [isxdigit]. *)
Definition isxdigit (c : Ascii.ascii) : bool :=
  let b := ascii_byte c in
  ((48 <=? b) && (b <=? 57)) || ((65 <=? b) && (b <=? 70)) || ((97 <=? b) && (b <=? 102)).

Definition without_0x (hex : string) : string :=
  match hex with
  | String c (String d rest) =>
      if (ascii_byte c =? 48) && ((ascii_byte d =? 120) || (ascii_byte d =? 88)) then rest else hex
  | _ => hex
  end.

(** The bytes a text stands for. *)
Definition nonce_of_hex (hex_string : string) : res (list Z) :=
  let hex_no_prefix := without_0x hex_string in
  let size := Z.of_nat (String.length hex_no_prefix) in
  check* negb ((size =? 0) || negb (size mod 2 =? 0)) else BadArgument in
  check* forallb isxdigit (String.list_ascii_of_string hex_no_prefix) else BadArgument in
  let bytes := hex_string_to_bytes hex_no_prefix in
  check* negb (zlen bytes <? MIN_VALID_NONCE_LEN) else BadArgument in
  Ret bytes.

Definition nvat_nonce_from_hex (out_nonce : option nat) (hex_string : option string) : api unit :=
  guard* given_ptr out_nonce else BadArgument in
  match hex_string with
  | None => slift (Err BadArgument)
  | Some hex => do* n := slift (nonce_of_hex hex) in emit out_nonce (o_nonce n)
  end.

Definition nvat_nonce_from_bytes (out_nonce : option nat) (input_bytes : option (list Z)) (length : Z) : api unit :=
  guard* given_ptr out_nonce else BadArgument in
  match input_bytes with
  | None => slift (Err BadArgument)
  | Some buffer =>
      guard* negb (length <? MIN_VALID_NONCE_LEN) else BadArgument in
      do* n := slift (viter buffer 0 length) in
      emit out_nonce (o_nonce n)
  end.

(** ** Sources of evidence and its collection *)

Definition nvat_gpu_evidence_source_nvml_create (out_source : option nat) : api unit :=
  guard* given_ptr out_source else BadArgument in
  emit out_source (o_gpu_evidence_source NvmlEvidenceCollector).

Definition nvat_gpu_evidence_source_corelib_create (out_source : option nat) (gpu_architecture : option string) :
    api unit :=
  guard* given_ptr out_source else BadArgument in
  match gpu_architecture with
  | None => slift (Err BadArgument)
  | Some text =>
      let arch := GpuEvidence.arch_from_string text in
      guard* negb (bool_decide (arch = GpuEvidence.Unknown)) else BadArgument in
      guard* bool_decide (arch = GpuEvidence.Blackwell) else GpuArchitectureNotSupported in
      emit out_source (o_gpu_evidence_source (CorelibEvidenceCollector arch))
  end.

Definition nvat_gpu_evidence_source_from_json_string (out_source : option nat) (json_string : option string) : api unit :=
  guard* given_ptr out_source else BadArgument in
  match json_string with
  | None => slift (Err BadArgument)
  | Some text =>
      do* es := slift (GpuEvidence.source_create Eat.json_parse text) in
      emit out_source (o_gpu_evidence_source (GpuEvidenceFromJson es))
  end.

Definition nvat_gpu_evidence_source_from_json_file (out_source : option nat) (file_path : option string) : api unit :=
  guard* given_ptr out_source else BadArgument in
  match file_path with
  | None => slift (Err BadArgument)
  | Some path =>
      do* es := slift (GpuEvidence.file_source_create Eat.json_parse read_file path) in
      emit out_source (o_gpu_evidence_source (GpuEvidenceFromJson es))
  end.

Definition nvat_switch_evidence_source_nscq_create (out_source : option nat) : api unit :=
  guard* given_ptr out_source else BadArgument in
  emit out_source (o_switch_evidence_source NscqEvidenceCollector).

Definition nvat_switch_evidence_source_from_json_string (out_source : option nat) (json_string : option string) :
    api unit :=
  guard* given_ptr out_source else BadArgument in
  match json_string with
  | None => slift (Err BadArgument)
  | Some text =>
      do* es := slift (SwitchEvidence.source_create Eat.json_parse text) in
      emit out_source (o_switch_evidence_source (SwitchEvidenceFromJson es))
  end.

Definition nvat_switch_evidence_source_from_json_file (out_source : option nat) (file_path : option string) : api unit :=
  guard* given_ptr out_source else BadArgument in
  match file_path with
  | None => slift (Err BadArgument)
  | Some path =>
      do* es := slift (SwitchEvidence.file_source_create Eat.json_parse read_file path) in
      emit out_source (o_switch_evidence_source (SwitchEvidenceFromJson es))
  end.

(** The handles of new objects, one for each item. *)
Fixpoint alloc_all {A : Type} (f : A -> object) (l : list A) : api (list handle) :=
  match l with
  | [] => sret []
  | x :: l => do* h := alloc (f x) in do* hs := alloc_all f l in sret (h :: hs)
  end.

(** An array of handles of evidence, in the output parameter before its
    elements are made. *)
Definition emit_array {A : Type} (out : option nat) (array : list handle -> object) (f : A -> object) (l : list A) :
    api Z :=
  do* a := alloc (array (replicate (length l) None)) in
  do* _ := write (type_of (array [])) out a in
  do* hs := alloc_all f l in
  do* _ := assign a (array hs) in
  sret (zlen l).

(** The nonce of a handle, or a new one. *)
Definition nonce_or_new (nonce : handle) : api (list Z) :=
  match nonce with
  | Some _ => deref_as to_nonce nonce
  | None => slift (generate_nonce RAND_bytes GPU_SPDM_REQ_NONCE_SIZE)
  end.

(** The count is in [out_num_evidences]; the array variable is cleared first. *)
Definition nvat_gpu_evidence_collect (source nonce : handle) (out_gpu_evidence_array : option nat)
    (out_num_evidences : bool) : api Z :=
  guard* given_ptr source else BadArgument in
  guard* given_ptr out_gpu_evidence_array else BadArgument in
  guard* out_num_evidences else BadArgument in
  do* _ := write T_gpu_evidence_array out_gpu_evidence_array None in
  do* cpp_source := deref_as to_gpu_source source in
  do* n := nonce_or_new nonce in
  do* evidence_list := slift (gpu_get_evidence cpp_source n) in
  emit_array out_gpu_evidence_array o_gpu_evidence_array o_gpu_evidence evidence_list.

Definition nvat_switch_evidence_collect (source nonce : handle) (out_switch_evidence_array : option nat)
    (out_num_evidences : bool) : api Z :=
  guard* given_ptr source else BadArgument in
  guard* given_ptr out_switch_evidence_array else BadArgument in
  guard* out_num_evidences else BadArgument in
  do* cpp_source := deref_as to_switch_source source in
  do* n := nonce_or_new nonce in
  do* cpp_collection := slift (switch_get_evidence cpp_source n) in
  emit_array out_switch_evidence_array o_switch_evidence_array o_switch_evidence cpp_collection.

(** The first [n] handles of an array and their objects; the array itself is
    read only when there is one. *)
Fixpoint read_elements {A : Type} (f : object -> option A) (n : nat) (handles : list handle) : api (list A) :=
  match n with
  | O => sret []
  | S n =>
      match handles with
      | [] => slift UB
      | None :: _ => slift (Err BadArgument)
      | Some l :: handles =>
          do* e := deref_as f (Some l) in
          do* es := read_elements f n handles in
          sret (e :: es)
      end
  end.

Definition read_array {A : Type} (to_array : object -> option (list handle)) (f : object -> option A)
    (array : handle) (num_evidences : nat) : api (list A) :=
  match num_evidences with
  | O => sret []
  | S _ => do* handles := deref_as to_array array in read_elements f num_evidences handles
  end.

Definition nvat_gpu_evidence_serialize_json (gpu_evidence_array : handle) (num_evidences : nat)
    (out_serialized_evidence : option nat) : api unit :=
  guard* given_ptr gpu_evidence_array else BadArgument in
  guard* given_ptr out_serialized_evidence else BadArgument in
  do* es := read_array to_gpu_array to_gpu_evidence gpu_evidence_array num_evidences in
  do* text := slift (GpuEvidence.collection_to_json Eat.json_dump es) in
  emit out_serialized_evidence (o_str text).

Definition nvat_switch_evidence_serialize_json (switch_evidence_array : handle) (num_evidences : nat)
    (out_serialized_evidence : option nat) : api unit :=
  guard* given_ptr switch_evidence_array else BadArgument in
  guard* given_ptr out_serialized_evidence else BadArgument in
  do* es := read_array to_switch_array to_switch_evidence switch_evidence_array num_evidences in
  do* text := slift (SwitchEvidence.collection_to_json Eat.json_dump es) in
  emit out_serialized_evidence (o_str text).

(** NVAT_ARRAY_FREE_FUNCTION: the elements, then the array.  An element is
    freed through its place in the array, which is set to null. *)
Fixpoint free_elements (t : ctype) (n : nat) (handles : list handle) : api unit :=
  match n with
  | O => sret tt
  | S n =>
      match handles with
      | [] => slift UB
      | None :: handles => free_elements t n handles
      | Some l :: handles =>
          do* _ := deref_as (fun o => if bool_decide (type_of o = t) then Some tt else None) (Some l) in
          do* _ := delete_object (Some l) in
          free_elements t n handles
      end
  end.

Definition array_free (array_type : ctype) (to_array : object -> option (list handle)) (t : ctype) (v : option nat)
    (num_elements : nat) : api unit :=
  match v with
  | None => sret tt
  | Some v =>
      do* h := read array_type v in
      do* _ :=
        match num_elements with
        | O => sret tt
        | S _ => do* handles := deref_as to_array h in free_elements t num_elements handles
        end in
      do* _ := match h with None => sret tt | Some _ => delete_object h end in
      write array_type (Some v) None
  end.

(** ** Claims and tokens *)

Definition nvat_claims_serialize_json (claims : handle) (out_serialized_claims : option nat) : api unit :=
  guard* given_ptr claims else BadArgument in
  guard* given_ptr out_serialized_claims else BadArgument in
  do* c := deref_as to_claims claims in
  do* text := slift (match Eat.json_dump (Collection.to_json_object c) with
                     | Some text => Ret text | None => Err InternalError end) in
  emit out_serialized_claims (o_str text).

Definition nvat_claims_collection_serialize_json (claims : handle) (out_serialized_claims : option nat) : api unit :=
  guard* given_ptr claims else BadArgument in
  guard* given_ptr out_serialized_claims else BadArgument in
  do* cs := deref_as to_collection claims in
  do* text := slift (Collection.serialize_json Eat.json_dump cs) in
  emit out_serialized_claims (o_str text).

Definition nvat_claims_collection_extend (nvat_claims_collection other_claims_collection : handle) : api unit :=
  guard* given_ptr nvat_claims_collection else BadArgument in
  guard* given_ptr other_claims_collection else BadArgument in
  do* cs := deref_as to_collection nvat_claims_collection in
  do* other := deref_as to_collection other_claims_collection in
  assign nvat_claims_collection (o_claims_collection (Collection.extend cs other)).

(** An overall result that is false is an error like any other: no token. *)
Definition nvat_get_detached_eat_es384 (claims options : handle) (out_detached_eat : option nat) : api unit :=
  guard* given_ptr claims else BadArgument in
  guard* given_ptr out_detached_eat else BadArgument in
  do* cs := deref_as to_collection claims in
  do* o := deref_or to_eat_options (Eat.mk_options "" "NVAT-LOCAL-VERIFIER" "") options in
  do* (text, status) := slift (Eat.get_detached_eat cs o) in
  match status with
  | None => emit out_detached_eat (o_str text)
  | Some e => slift (Err e)
  end.

(** ** Verifiers *)

Definition nvat_gpu_nras_verifier_create (out_verifier : option nat) (base_url service_key : option string)
    (http_options : handle) : api unit :=
  guard* given_ptr out_verifier else BadArgument in
  do* options := deref_or to_http_options Http.HttpOptions_default http_options in
  emit out_verifier (o_gpu_verifier (make_remote gpu_path (default "" base_url) (default "" service_key) options)).

Definition nvat_switch_nras_verifier_create (out_verifier : option nat) (base_url service_key : option string)
    (http_options : handle) : api unit :=
  guard* given_ptr out_verifier else BadArgument in
  do* options := deref_or to_http_options Http.HttpOptions_default http_options in
  emit out_verifier (o_switch_verifier (make_remote switch_path (default "" base_url) (default "" service_key) options)).

(** The parts of a local verifier; the store and the client are shared. *)
Definition local_parts (rim_store ocsp_client detached_eat_options : handle) : api verifier :=
  guard* given_ptr rim_store else BadArgument in
  guard* given_ptr ocsp_client else BadArgument in
  do* o := deref_or to_eat_options (Eat.mk_options "" "NVAT-LOCAL-VERIFIER" "") detached_eat_options in
  do* s := deref_as to_rim_store rim_store in
  do* c := deref_as to_ocsp_client ocsp_client in
  slift (make_local s c o).

Definition nvat_gpu_local_verifier_create (out_verifier : option nat)
    (rim_store ocsp_client detached_eat_options : handle) : api unit :=
  guard* given_ptr out_verifier else BadArgument in
  do* v := local_parts rim_store ocsp_client detached_eat_options in
  emit out_verifier (o_gpu_verifier v).

Definition nvat_switch_local_verifier_create (out_verifier : option nat)
    (rim_store ocsp_client detached_eat_options : handle) : api unit :=
  guard* given_ptr out_verifier else BadArgument in
  do* v := local_parts rim_store ocsp_client detached_eat_options in
  emit out_verifier (o_switch_verifier v).

(** ** Verification and attestation *)

Section run.
Context (clock clock_ms : nat -> Z).

(** A computation of the context of [c], in the world the handles share; no
    claims yet. *)
Definition with_state {A : Type} (c : context_t) (f : sm (state (U:=U) (WU:=WU) (V:=V) (WV:=WV)) Error A) :
    api (outcome Error A * context_t * Collection.ClaimsCollection) := fun st =>
  let '(o, s) := f (mk_state c (c_rim_world st) (c_ocsp_world st) (c_nras_requests st) []) in
  (Ret (o, context s, claims s),
   mk_capi (slots st) (heap st) (next st) (rim_world s) (ocsp_world s) (nras_requests s)).

(** The token is given out if it was asked for. *)
Definition emit_token (out_detached_eat : option nat) (text : option string) : api unit :=
  match out_detached_eat with
  | None => sret tt
  | Some _ => emit out_detached_eat (o_str (default "" text))
  end.

(** What the verifier returned with the claims: [Ok] or a false overall
    result; anything else is an error. *)
Definition verification_result (out_detached_eat out_claims : option nat) (o : outcome Error (option string * option Error))
    (cs : Collection.ClaimsCollection) : api (option Error) :=
  do* (text, status) := slift o in
  if bool_decide (status = None \/ status = Some OverallResultFalse) then
    do* _ := emit out_claims (o_claims_collection cs) in
    do* _ := emit_token out_detached_eat text in
    sret status
  else slift (match status with Some e => Err e | None => Err InternalError end).

(** The verifier is run in a context of its own, which keeps its keys. *)
Definition nvat_verify_gpu_evidence (verifier gpu_evidence_array : handle) (num_evidences : nat) (policy : handle)
    (out_detached_eat out_claims : option nat) : api (option Error) :=
  guard* given_ptr verifier else BadArgument in
  guard* given_ptr gpu_evidence_array else BadArgument in
  guard* given_ptr policy else BadArgument in
  guard* given_ptr out_claims else BadArgument in
  do* es := read_array to_gpu_array to_gpu_evidence gpu_evidence_array num_evidences in
  do* v := deref_as to_gpu_verifier verifier in
  do* p := deref_as to_evidence_policy policy in
  do* (o, c, cs) := with_state (with_gpu_verifier new_context v)
                      (gpu_verify clock clock_ms v es p (given_ptr out_detached_eat)) in
  do* _ := assign verifier (o_gpu_verifier (default v (m_gpu_verifier c))) in
  verification_result out_detached_eat out_claims o cs.

Definition nvat_verify_switch_evidence (verifier switch_evidence_array : handle) (num_evidences : nat) (policy : handle)
    (out_detached_eat out_claims : option nat) : api (option Error) :=
  guard* given_ptr verifier else BadArgument in
  guard* given_ptr switch_evidence_array else BadArgument in
  guard* given_ptr policy else BadArgument in
  guard* given_ptr out_claims else BadArgument in
  do* es := read_array to_switch_array to_switch_evidence switch_evidence_array num_evidences in
  do* v := deref_as to_switch_verifier verifier in
  do* p := deref_as to_evidence_policy policy in
  do* (o, c, cs) := with_state (with_switch_verifier new_context v)
                      (switch_verify clock clock_ms v es p (given_ptr out_detached_eat)) in
  do* _ := assign verifier (o_switch_verifier (default v (m_switch_verifier c))) in
  verification_result out_detached_eat out_claims o cs.

(** The token's string is made before the attestation, and given out or, when
    that fails, forgotten. *)
Definition nvat_attest_device (ctx nonce : handle) (out_detached_eat out_claims : option nat) : api (option Error) :=
  guard* given_ptr ctx else BadArgument in
  do* token := match out_detached_eat with None => sret None | Some _ => alloc (o_str "") end in
  do* n := deref_or to_nonce [] nonce in
  do* c := deref_as to_ctx ctx in
  do* (o, c, cs) := with_state c (attest_device clock clock_ms n (given_ptr out_detached_eat)) in
  do* _ := assign ctx (o_attestation_ctx c) in
  do* (text, status) := slift o in
  guard* bool_decide (status = None \/ status = Some OverallResultFalse \/ status = Some RelyingPartyPolicyMismatch)
    else default InternalError status in
  do* _ := match out_claims with None => sret tt | Some _ => emit out_claims (o_claims_collection cs) end in
  do* _ :=
    match out_detached_eat with
    | None => sret tt
    | Some _ =>
        do* _ := assign token (o_str (default "" text)) in
        write T_str out_detached_eat token
    end in
  sret status.

End run.

(** ** The interface

    A call names variables for its handles ([None] is a literal [nullptr]) and
    its output parameters.  The caller can also copy a variable. *)

Abbreviation var := (option nat).

Inductive call : Type :=
| StrLength (str : var) (out_length : bool)
| StrGetData (str : var) (out_data : bool)
| HttpOptionsCreateDefault (out : var)
| HttpOptionsSetMaxRetryCount (http_options : var) (n : Z)
| HttpOptionsSetBaseBackoffMs (http_options : var) (n : Z)
| HttpOptionsSetMaxBackoffMs (http_options : var) (n : Z)
| HttpOptionsSetConnectionTimeoutMs (http_options : var) (n : Z)
| HttpOptionsSetRequestTimeoutMs (http_options : var) (n : Z)
| HttpOptionsSetCaBundlePath (http_options : var) (path : option string)
| RelyingPartyPolicyCreateRegoFromStr (out : var) (rego : option string)
| ApplyRelyingPartyPolicy (policy : var) (claims : var)
| EvidencePolicyCreateDefault (out : var)
| EvidencePolicySetVerifyRimSignature (policy : var) (b : bool)
| EvidencePolicySetVerifyRimCertChain (policy : var) (b : bool)
| EvidencePolicySetGpuClaimsVersion (policy : var) (n : Z)
| EvidencePolicySetSwitchClaimsVersion (policy : var) (n : Z)
| DetachedEatOptionsCreate (out : var) (key : option string) (issuer : option string) (kid : option string)
| OcspClientCreateDefault (out : var) (url : option string) (key : option string) (http_options : var)
| OcspClientCreateRawProofs (out : var) (bundle : option (list Z)) (n : Z) (time : Z)
| OcspClientCreateCached (out : var) (inner : var) (n : Z) (ttl : Z)
| RimStoreCreateRemote (out : var) (url : option string) (key : option string) (http_options : var)
| RimStoreCreateFilesystem (out : var) (path : option string)
| RimStoreCreateCached (out : var) (inner : var) (n : Z) (ttl : Z)
| CtxCreate (out : var)
| CtxSetDeviceType (ctx : var) (n : Z)
| CtxSetVerifierType (ctx : var) (n : Z)
| CtxSetDefaultHttpOptions (ctx : var) (http_options : var)
| CtxSetEvidencePolicy (ctx : var) (policy : var)
| CtxSetRelyingPartyPolicy (ctx : var) (policy : var)
| CtxSetDefaultOcspUrl (ctx : var) (url : option string)
| CtxSetDefaultNrasUrl (ctx : var) (url : option string)
| CtxSetDefaultRimStoreUrl (ctx : var) (url : option string)
| CtxSetDefaultRimStore (ctx : var) (store : var)
| CtxSetDefaultOcspClient (ctx : var) (client : var)
| CtxSetGpuEvidenceSourceJsonFile (ctx : var) (path : option string)
| CtxSetSwitchEvidenceSourceJsonFile (ctx : var) (path : option string)
| CtxSetServiceKey (ctx : var) (key : option string)
| CtxSetDetachedEatOptions (ctx : var) (options : var)
| NonceCreate (out : var) (n : Z)
| NonceGetLength (nonce : var)
| NonceGetBytes (nonce : var) (bytes : bool) (n : Z)
| NonceToHexString (nonce : var) (out : var)
| NonceFromHex (out : var) (hex : option string)
| NonceFromBytes (out : var) (bytes : option (list Z)) (n : Z)
| GpuEvidenceSourceNvmlCreate (out : var)
| GpuEvidenceSourceCorelibCreate (out : var) (arch : option string)
| GpuEvidenceSourceFromJsonString (out : var) (text : option string)
| GpuEvidenceSourceFromJsonFile (out : var) (path : option string)
| SwitchEvidenceSourceNscqCreate (out : var)
| SwitchEvidenceSourceFromJsonString (out : var) (text : option string)
| SwitchEvidenceSourceFromJsonFile (out : var) (path : option string)
| GpuEvidenceCollect (source : var) (nonce : var) (out : var) (out_num : bool)
| SwitchEvidenceCollect (source : var) (nonce : var) (out : var) (out_num : bool)
| GpuEvidenceSerializeJson (array : var) (n : nat) (out : var)
| SwitchEvidenceSerializeJson (array : var) (n : nat) (out : var)
| ClaimsSerializeJson (claims : var) (out : var)
| ClaimsCollectionSerializeJson (claims : var) (out : var)
| ClaimsCollectionExtend (claims : var) (other : var)
| GetDetachedEatEs384 (claims : var) (options : var) (out : var)
| GpuNrasVerifierCreate (out : var) (url : option string) (key : option string) (http_options : var)
| SwitchNrasVerifierCreate (out : var) (url : option string) (key : option string) (http_options : var)
| GpuLocalVerifierCreate (out : var) (store : var) (client : var) (options : var)
| SwitchLocalVerifierCreate (out : var) (store : var) (client : var) (options : var)
| VerifyGpuEvidence (clock : nat -> Z) (clock_ms : nat -> Z) (verifier : var) (array : var) (n : nat)
    (policy : var) (out_eat : var) (out_claims : var)
| VerifySwitchEvidence (clock : nat -> Z) (clock_ms : nat -> Z) (verifier : var) (array : var) (n : nat)
    (policy : var) (out_eat : var) (out_claims : var)
| AttestDevice (clock : nat -> Z) (clock_ms : nat -> Z) (ctx : var) (nonce : var) (out_eat : var) (out_claims : var)
| Free (t : ctype) (v : var)
| GpuEvidenceArrayFree (array : var) (num_elements : nat)
| SwitchEvidenceArrayFree (array : var) (num_elements : nat)
| Copy (t : ctype) (v w : nat)
| SetNull (t : ctype) (v : nat).

(** The value of an argument. *)
Definition arg (t : ctype) (v : var) : api handle :=
  match v with None => sret None | Some v => read t v end.

(** NVAT_C_API_BEGIN and NVAT_C_API_END: the return code; an exception is an
    internal error. *)
Definition returns {A : Type} (rc : A -> Z) (m : api A) : api Z := fun st =>
  match m st with
  | (Ret a, st) => (Ret (rc a), st)
  | (Err e, st) => (Ret (error_code e), st)
  | (Throw _, st) => (Ret (error_code InternalError), st)
  | (UB, st) => (UB, st)
  end.

Definition status_code (status : option Error) : Z :=
  match status with None => error_code Ok | Some e => error_code e end.

Definition returns_ok {A : Type} (m : api A) : api Z := returns (fun _ => error_code Ok) m.

Definition exec (c : call) : api Z :=
  match c with
  | StrLength str out_length =>
      returns_ok (do* str := arg T_str str in nvat_str_length str out_length)
  | StrGetData str out_data =>
      returns_ok (do* str := arg T_str str in nvat_str_get_data str out_data)
  | HttpOptionsCreateDefault out =>
      returns_ok (nvat_http_options_create_default out)
  | HttpOptionsSetMaxRetryCount http_options n =>
      returns_ok (do* http_options := arg T_http_options http_options in nvat_http_options_set_max_retry_count
        http_options n)
  | HttpOptionsSetBaseBackoffMs http_options n =>
      returns_ok (do* http_options := arg T_http_options http_options in nvat_http_options_set_base_backoff_ms
        http_options n)
  | HttpOptionsSetMaxBackoffMs http_options n =>
      returns_ok (do* http_options := arg T_http_options http_options in nvat_http_options_set_max_backoff_ms
        http_options n)
  | HttpOptionsSetConnectionTimeoutMs http_options n =>
      returns_ok (do* http_options := arg T_http_options http_options in
        nvat_http_options_set_connection_timeout_ms http_options n)
  | HttpOptionsSetRequestTimeoutMs http_options n =>
      returns_ok (do* http_options := arg T_http_options http_options in nvat_http_options_set_request_timeout_ms
        http_options n)
  | HttpOptionsSetCaBundlePath http_options path =>
      returns_ok (do* http_options := arg T_http_options http_options in nvat_http_options_set_ca_bundle_path
        http_options path)
  | RelyingPartyPolicyCreateRegoFromStr out rego =>
      returns_ok (nvat_relying_party_policy_create_rego_from_str out rego)
  | ApplyRelyingPartyPolicy policy claims =>
      returns_ok (do* policy := arg T_relying_party_policy policy in do* claims := arg T_claims_collection claims
        in nvat_apply_relying_party_policy policy claims)
  | EvidencePolicyCreateDefault out =>
      returns_ok (nvat_evidence_policy_create_default out)
  | EvidencePolicySetVerifyRimSignature policy b =>
      returns_ok (do* policy := arg T_evidence_policy policy in nvat_evidence_policy_set_verify_rim_signature
        policy b)
  | EvidencePolicySetVerifyRimCertChain policy b =>
      returns_ok (do* policy := arg T_evidence_policy policy in nvat_evidence_policy_set_verify_rim_cert_chain
        policy b)
  | EvidencePolicySetGpuClaimsVersion policy n =>
      returns_ok (do* policy := arg T_evidence_policy policy in nvat_evidence_policy_set_gpu_claims_version policy n)
  | EvidencePolicySetSwitchClaimsVersion policy n =>
      returns_ok (do* policy := arg T_evidence_policy policy in nvat_evidence_policy_set_switch_claims_version
        policy n)
  | DetachedEatOptionsCreate out key issuer kid =>
      returns_ok (nvat_detached_eat_options_create out key issuer kid)
  | OcspClientCreateDefault out url key http_options =>
      returns_ok (do* http_options := arg T_http_options http_options in nvat_ocsp_client_create_default out url
        key http_options)
  | OcspClientCreateRawProofs out bundle n time =>
      returns_ok (nvat_ocsp_client_create_raw_proofs out bundle n time)
  | OcspClientCreateCached out inner n ttl =>
      returns_ok (do* inner := arg T_ocsp_client inner in nvat_ocsp_client_create_cached out inner n ttl)
  | RimStoreCreateRemote out url key http_options =>
      returns_ok (do* http_options := arg T_http_options http_options in nvat_rim_store_create_remote out url key
        http_options)
  | RimStoreCreateFilesystem out path =>
      returns_ok (nvat_rim_store_create_filesystem out path)
  | RimStoreCreateCached out inner n ttl =>
      returns_ok (do* inner := arg T_rim_store inner in nvat_rim_store_create_cached out inner n ttl)
  | CtxCreate out =>
      returns_ok (nvat_attestation_ctx_create out)
  | CtxSetDeviceType ctx n =>
      returns_ok (do* ctx := arg T_attestation_ctx ctx in nvat_attestation_ctx_set_device_type ctx n)
  | CtxSetVerifierType ctx n =>
      returns_ok (do* ctx := arg T_attestation_ctx ctx in nvat_attestation_ctx_set_verifier_type ctx n)
  | CtxSetDefaultHttpOptions ctx http_options =>
      returns_ok (do* ctx := arg T_attestation_ctx ctx in do* http_options := arg T_http_options http_options in
        nvat_attestation_ctx_set_default_http_options ctx http_options)
  | CtxSetEvidencePolicy ctx policy =>
      returns_ok (do* ctx := arg T_attestation_ctx ctx in nvat_attestation_ctx_set_evidence_policy ctx policy)
  | CtxSetRelyingPartyPolicy ctx policy =>
      returns_ok (do* ctx := arg T_attestation_ctx ctx in do* policy := arg T_relying_party_policy policy in
        nvat_attestation_ctx_set_relying_party_policy ctx policy)
  | CtxSetDefaultOcspUrl ctx url =>
      returns_ok (do* ctx := arg T_attestation_ctx ctx in nvat_attestation_ctx_set_default_ocsp_url ctx url)
  | CtxSetDefaultNrasUrl ctx url =>
      returns_ok (do* ctx := arg T_attestation_ctx ctx in nvat_attestation_ctx_set_default_nras_url ctx url)
  | CtxSetDefaultRimStoreUrl ctx url =>
      returns_ok (do* ctx := arg T_attestation_ctx ctx in nvat_attestation_ctx_set_default_rim_store_url ctx url)
  | CtxSetDefaultRimStore ctx store =>
      returns_ok (do* ctx := arg T_attestation_ctx ctx in do* store := arg T_rim_store store in
        nvat_attestation_ctx_set_default_rim_store ctx store)
  | CtxSetDefaultOcspClient ctx client =>
      returns_ok (do* ctx := arg T_attestation_ctx ctx in do* client := arg T_ocsp_client client in
        nvat_attestation_ctx_set_default_ocsp_client ctx client)
  | CtxSetGpuEvidenceSourceJsonFile ctx path =>
      returns_ok (do* ctx := arg T_attestation_ctx ctx in nvat_attestation_ctx_set_gpu_evidence_source_json_file
        ctx path)
  | CtxSetSwitchEvidenceSourceJsonFile ctx path =>
      returns_ok (do* ctx := arg T_attestation_ctx ctx in
        nvat_attestation_ctx_set_switch_evidence_source_json_file ctx path)
  | CtxSetServiceKey ctx key =>
      returns_ok (do* ctx := arg T_attestation_ctx ctx in nvat_attestation_ctx_set_service_key ctx key)
  | CtxSetDetachedEatOptions ctx options =>
      returns_ok (do* ctx := arg T_attestation_ctx ctx in do* options := arg T_detached_eat_options options in
        nvat_attestation_ctx_set_detached_eat_options ctx options)
  | NonceCreate out n =>
      returns_ok (nvat_nonce_create out n)
  | NonceGetLength nonce =>
      returns_ok (do* nonce := arg T_nonce nonce in nvat_nonce_get_length nonce)
  | NonceGetBytes nonce bytes n =>
      returns_ok (do* nonce := arg T_nonce nonce in nvat_nonce_get_bytes nonce bytes n)
  | NonceToHexString nonce out =>
      returns_ok (do* nonce := arg T_nonce nonce in nvat_nonce_to_hex_string nonce out)
  | NonceFromHex out hex =>
      returns_ok (nvat_nonce_from_hex out hex)
  | NonceFromBytes out bytes n =>
      returns_ok (nvat_nonce_from_bytes out bytes n)
  | GpuEvidenceSourceNvmlCreate out =>
      returns_ok (nvat_gpu_evidence_source_nvml_create out)
  | GpuEvidenceSourceCorelibCreate out arch =>
      returns_ok (nvat_gpu_evidence_source_corelib_create out arch)
  | GpuEvidenceSourceFromJsonString out text =>
      returns_ok (nvat_gpu_evidence_source_from_json_string out text)
  | GpuEvidenceSourceFromJsonFile out path =>
      returns_ok (nvat_gpu_evidence_source_from_json_file out path)
  | SwitchEvidenceSourceNscqCreate out =>
      returns_ok (nvat_switch_evidence_source_nscq_create out)
  | SwitchEvidenceSourceFromJsonString out text =>
      returns_ok (nvat_switch_evidence_source_from_json_string out text)
  | SwitchEvidenceSourceFromJsonFile out path =>
      returns_ok (nvat_switch_evidence_source_from_json_file out path)
  | GpuEvidenceCollect source nonce out out_num =>
      returns_ok (do* source := arg T_gpu_evidence_source source in do* nonce := arg T_nonce nonce in
        nvat_gpu_evidence_collect source nonce out out_num)
  | SwitchEvidenceCollect source nonce out out_num =>
      returns_ok (do* source := arg T_switch_evidence_source source in do* nonce := arg T_nonce nonce in
        nvat_switch_evidence_collect source nonce out out_num)
  | GpuEvidenceSerializeJson array n out =>
      returns_ok (do* array := arg T_gpu_evidence_array array in nvat_gpu_evidence_serialize_json array n out)
  | SwitchEvidenceSerializeJson array n out =>
      returns_ok (do* array := arg T_switch_evidence_array array in nvat_switch_evidence_serialize_json array n out)
  | ClaimsSerializeJson claims out =>
      returns_ok (do* claims := arg T_claims claims in nvat_claims_serialize_json claims out)
  | ClaimsCollectionSerializeJson claims out =>
      returns_ok (do* claims := arg T_claims_collection claims in nvat_claims_collection_serialize_json claims out)
  | ClaimsCollectionExtend claims other =>
      returns_ok (do* claims := arg T_claims_collection claims in do* other := arg T_claims_collection other in
        nvat_claims_collection_extend claims other)
  | GetDetachedEatEs384 claims options out =>
      returns_ok (do* claims := arg T_claims_collection claims in do* options := arg T_detached_eat_options
        options in nvat_get_detached_eat_es384 claims options out)
  | GpuNrasVerifierCreate out url key http_options =>
      returns_ok (do* http_options := arg T_http_options http_options in nvat_gpu_nras_verifier_create out url key
        http_options)
  | SwitchNrasVerifierCreate out url key http_options =>
      returns_ok (do* http_options := arg T_http_options http_options in nvat_switch_nras_verifier_create out url
        key http_options)
  | GpuLocalVerifierCreate out store client options =>
      returns_ok (do* store := arg T_rim_store store in do* client := arg T_ocsp_client client in do* options :=
        arg T_detached_eat_options options in nvat_gpu_local_verifier_create out store client options)
  | SwitchLocalVerifierCreate out store client options =>
      returns_ok (do* store := arg T_rim_store store in do* client := arg T_ocsp_client client in do* options :=
        arg T_detached_eat_options options in nvat_switch_local_verifier_create out store client options)
  | VerifyGpuEvidence clock clock_ms verifier array n policy out_eat out_claims =>
      returns status_code (do* verifier := arg T_gpu_verifier verifier in do* array := arg T_gpu_evidence_array
        array in do* policy := arg T_evidence_policy policy in nvat_verify_gpu_evidence clock clock_ms verifier
        array n policy out_eat out_claims)
  | VerifySwitchEvidence clock clock_ms verifier array n policy out_eat out_claims =>
      returns status_code (do* verifier := arg T_switch_verifier verifier in do* array := arg
        T_switch_evidence_array array in do* policy := arg T_evidence_policy policy in nvat_verify_switch_evidence
        clock clock_ms verifier array n policy out_eat out_claims)
  | AttestDevice clock clock_ms ctx nonce out_eat out_claims =>
      returns status_code (do* ctx := arg T_attestation_ctx ctx in do* nonce := arg T_nonce nonce in
        nvat_attest_device clock clock_ms ctx nonce out_eat out_claims)
  | Free t v => returns_ok (free t v)
  | GpuEvidenceArrayFree array n => returns_ok (array_free T_gpu_evidence_array to_gpu_array T_gpu_evidence array n)
  | SwitchEvidenceArrayFree array n =>
      returns_ok (array_free T_switch_evidence_array to_switch_array T_switch_evidence array n)
  | Copy t v w => returns_ok (do* h := read t v in write t (Some w) h)
  | SetNull t v => returns_ok (write t (Some v) None)
  end.

(** A program of the caller: calls one after the other, until one is
    undefined. *)
Fixpoint exec_all (cs : list call) : api (list Z) :=
  match cs with
  | [] => sret []
  | c :: cs => do* rc := exec c in do* rcs := exec_all cs in sret (rc :: rcs)
  end.

(** ** Lemmas *)

(** *** Typed states *)

(** An address of type [t]: made already, and if its object still lives, of
    that type. *)
Definition points (t : ctype) (l : nat) (st : capi) : Prop :=
  (l < next st)%nat /\ forall o, heap st !! l = Some o -> type_of o = t.

Definition handle_ok (t : ctype) (h : handle) (st : capi) : Prop :=
  match h with None => True | Some l => points t l st end.

Definition object_ok (o : object) (st : capi) : Prop :=
  match o with
  | o_gpu_evidence_array hs => Forall (fun h => handle_ok T_gpu_evidence h st) hs
  | o_switch_evidence_array hs => Forall (fun h => handle_ok T_switch_evidence h st) hs
  | _ => True
  end.

Record well_typed (st : capi) : Prop := mk_well_typed {
  wt_slots : forall t v h, slots st !! (t, v) = Some h -> handle_ok t h st;
  wt_heap : forall l o, heap st !! l = Some o -> (l < next st)%nat /\ object_ok o st;
}.

(** What may happen to a state: objects are made and freed, and keep their
    types while they live. *)
Definition extends (st st' : capi) : Prop :=
  (next st <= next st')%nat /\
  forall l o', (l < next st)%nat -> heap st' !! l = Some o' ->
    exists o, heap st !! l = Some o /\ type_of o = type_of o'.

#[global] Instance extends_preorder : PreOrder extends.
Proof.
  split.
  - intros st. split; [done|]. intros l o' _ Ho. by exists o'.
  - intros s1 s2 s3 [Hn1 He1] [Hn2 He2]. split; [lia|]. intros l o' Hl Ho.
    destruct (He2 l o' ltac:(lia) Ho) as (o & Ho2 & Ht2). destruct (He1 l o Hl Ho2) as (o1 & Ho1 & Ht1).
    exists o1. split; [done|congruence].
Qed.

Lemma handle_ok_extends t h st st' : extends st st' -> handle_ok t h st -> handle_ok t h st'.
Proof.
  destruct h as [l|]; [|done]. intros [Hn He] [Hl Ht]. split; [lia|].
  intros o' (o & Ho & <-)%He; [by apply Ht|done].
Qed.

Lemma object_ok_extends o st st' : extends st st' -> object_ok o st -> object_ok o st'.
Proof.
  intros He. destruct o; cbn; try done; intros Hf; (eapply Forall_impl; [exact Hf|]);
    intros h; by apply handle_ok_extends.
Qed.

(** Only the slots or the world changed. *)
Lemma extends_same_heap st st' : heap st' = heap st -> next st' = next st -> extends st st'.
Proof. intros Hh Hn. split; [lia|]. rewrite Hh. intros l o' _ Ho. by exists o'. Qed.

Lemma well_typed_world st rw ow n :
  well_typed st -> well_typed (mk_capi (slots st) (heap st) (next st) rw ow n).
Proof.
  intros [Hs Hh].
  assert (extends st (mk_capi (slots st) (heap st) (next st) rw ow n)) as He by by apply extends_same_heap.
  split; cbn.
  - intros t v h E. eapply handle_ok_extends; eauto.
  - intros l o E. destruct (Hh l o E). split; [done|]. eapply object_ok_extends; eauto.
Qed.

(** *** A logic of typed computations

    From a typed state that extends [st0], the computation leaves one that
    extends it further, and what it returns satisfies [Q] there. *)
Definition typed {A : Type} (st0 : capi) (m : api A) (Q : A -> capi -> Prop) : Prop :=
  forall st, well_typed st -> extends st0 st ->
    well_typed (m st).2 /\ extends st (m st).2 /\ forall a, (m st).1 = Ret a -> Q a (m st).2.

Definition anything {A : Type} (_ : A) (_ : capi) : Prop := True.

Lemma typed_bind {A B : Type} st0 (m : api A) (k : A -> api B) Q R :
  typed st0 m Q -> (forall a st1, extends st0 st1 -> Q a st1 -> typed st1 (k a) R) -> typed st0 (sbind m k) R.
Proof.
  intros Hm Hk st Hw He. destruct (Hm st Hw He) as (Hw1 & He1 & Hq). unfold sbind.
  destruct (m st) as [[a|e|x|] st1] eqn:E; cbn in *; try (by split_and!).
  destruct (Hk a st1 ltac:(by etrans) (Hq a eq_refl) st1 Hw1 ltac:(reflexivity)) as (Hw2 & He2 & Hr).
  split_and!; [done|by etrans|done].
Qed.

Lemma typed_lift {A : Type} st0 (m : res A) (Q : A -> capi -> Prop) :
  (forall a st, m = Ret a -> extends st0 st -> Q a st) -> typed st0 (slift m) Q.
Proof. intros Hq st Hw He. split_and!; [done|done|]. cbn. intros a E. by apply Hq. Qed.

Lemma typed_weaken {A : Type} st0 (m : api A) (Q R : A -> capi -> Prop) :
  typed st0 m Q -> (forall a st, extends st0 st -> Q a st -> R a st) -> typed st0 m R.
Proof.
  intros Hm Hqr st Hw He. destruct (Hm st Hw He) as (Hw1 & He1 & Hq). split_and!; [done|done|].
  intros a E. apply Hqr; [by etrans|by apply Hq].
Qed.

Lemma typed_alloc st0 o : object_ok o st0 -> typed st0 (alloc o) (fun h st => handle_ok (type_of o) h st).
Proof.
  intros Ho st [Hs Hh] He.
  assert (extends st (alloc o st).2) as He1.
  { split; cbn; [lia|]. intros l o' Hl. rewrite lookup_insert_ne by lia. intros E. by exists o'. }
  split_and!; [|done|].
  - split.
    + intros t v h E. eapply handle_ok_extends; eauto.
    + cbn. intros l o'. rewrite lookup_insert. case_decide as E.
      * intros [= <-]. split; [lia|]. eapply object_ok_extends; [|exact Ho]. by etrans.
      * intros Ho'. destruct (Hh l o' Ho'). split; [lia|]. by eapply object_ok_extends.
  - cbn. intros h [= <-]. split; cbn; [lia|]. intros o'. rewrite lookup_insert_eq. by intros [= <-].
Qed.

Lemma typed_deref_as {A : Type} st0 (f : object -> option A) h :
  typed st0 (deref_as f h) (fun a st => exists o, f o = Some a /\ object_ok o st).
Proof.
  intros st Hw He. unfold deref_as, deref, sbind. destruct (h ≫= _) as [o|] eqn:E; cbn; [|by split_and!].
  split_and!; [done|done|]. intros a. destruct (f o) as [b|] eqn:Ef; [|done]. intros [= ->]. exists o. split; [done|].
  destruct h as [l|]; [|done]. cbn in E. by apply Hw in E as [_ ?].
Qed.

Lemma typed_assign st0 h o : object_ok o st0 -> typed st0 (assign h o) anything.
Proof.
  intros Ho st [Hs Hh] He. unfold assign. destruct h as [l|]; [|by split_and!].
  case_bool_decide as Ht; [|by split_and!]. cbn.
  destruct (heap st !! l) as [o1|] eqn:E1; [|done]. injection Ht as Ht.
  assert (extends st (set_heap (<[l := o]> (heap st)) st)) as He1.
  { split; cbn; [lia|]. intros l' o'. rewrite lookup_insert. intros _. case_decide; [|by eauto].
    intros [= <-]. subst. by exists o1. }
  split_and!; [|done|done]. split; cbn.
  - intros t v h E. eapply handle_ok_extends; eauto.
  - intros l' o'. rewrite lookup_insert. case_decide.
    + intros [= <-]. subst. split; [by apply (Hh l' o1)|]. eapply object_ok_extends; [|exact Ho]. by etrans.
    + intros Ho'. destruct (Hh l' o' Ho'). split; [done|]. by eapply object_ok_extends.
Qed.

Lemma typed_delete st0 h : typed st0 (delete_object h) anything.
Proof.
  intros st [Hs Hh] He. unfold delete_object, deref, sbind. destruct h as [l|]; cbn; [|by split_and!].
  destruct (heap st !! l) eqn:E; [|by split_and!].
  assert (extends st (set_heap (delete l (heap st)) st)) as He1.
  { split; cbn; [lia|]. intros l' o' _ [_ Ho]%lookup_delete_Some. by exists o'. }
  split_and!; [|done|done]. split; cbn.
  - intros t v h E'. eapply handle_ok_extends; eauto.
  - intros l' o' [_ Ho]%lookup_delete_Some. destruct (Hh l' o' Ho). split; [done|]. by eapply object_ok_extends.
Qed.

Lemma typed_write st0 t out h : handle_ok t h st0 -> typed st0 (write t out h) anything.
Proof.
  intros Hok st [Hs Hh] He. unfold write. destruct out as [v|]; [|by split_and!].
  assert (extends st (mk_capi (<[(t, v) := h]> (slots st)) (heap st) (next st) (c_rim_world st) (c_ocsp_world st)
                        (c_nras_requests st))) as He1 by by apply extends_same_heap.
  split_and!; [|done|done]. split; cbn.
  - intros t' v' h'. rewrite lookup_insert. case_decide as E.
    + intros [= <-]. injection E as -> ->. eapply handle_ok_extends; [|exact Hok]. by etrans.
    + intros E'. eapply handle_ok_extends; eauto.
  - intros l o E. destruct (Hh l o E). split; [done|]. by eapply object_ok_extends.
Qed.

Lemma typed_read st0 t v : typed st0 (read t v) (fun h st => handle_ok t h st).
Proof.
  intros st [Hs Hh] He. unfold read. split_and!; [done|done|]. cbn. intros h.
  destruct (slots st !! (t, v)) eqn:E; [|done]. intros [= <-]. by eapply Hs.
Qed.

(** A computation that changes the world only. *)
Lemma typed_world {A : Type} st0 (f : capi -> outcome Error A) (g : capi -> shared string * WU)
    (g' : capi -> shared NvOcspResponse * WV) (n : capi -> nat) :
  typed st0 (fun st => (f st, mk_capi (slots st) (heap st) (next st) (g st) (g' st) (n st))) anything.
Proof.
  intros st Hw He. cbn. split_and!; [by apply well_typed_world|by apply extends_same_heap|done].
Qed.

Lemma typed_with_state {A : Type} st0 c (f : sm (state (U:=U) (WU:=WU) (V:=V) (WV:=WV)) Error A) :
  typed st0 (with_state c f) anything.
Proof.
  intros st Hw He. unfold with_state. destruct (f _) as [o s]. cbn.
  split_and!; [by apply well_typed_world|by apply extends_same_heap|done].
Qed.

Lemma typed_returns {A : Type} st0 (rc : A -> Z) (m : api A) Q :
  typed st0 m Q -> typed st0 (returns rc m) anything.
Proof.
  intros Hm st Hw He. destruct (Hm st Hw He) as (Hw1 & He1 & _). unfold returns.
  destruct (m st) as [[a|e|x|] st1]; cbn in *; by split_and!.
Qed.

(** *** Every call is typed *)

Lemma typed_done {A : Type} st0 (m : api A) Q : typed st0 m Q -> typed st0 m anything.
Proof. intros Hm. by eapply typed_weaken. Qed.

Lemma typed_seq {A B : Type} st0 (m : api A) (k : A -> api B) Q R :
  typed st0 m Q -> (forall a st1, extends st0 st1 -> typed st1 (k a) R) -> typed st0 (sbind m k) R.
Proof. intros Hm Hk. eapply typed_bind; [exact Hm|]. intros a st1 He _. by apply Hk. Qed.

Lemma typed_emit st0 out o : object_ok o st0 -> typed st0 (emit out o) anything.
Proof. intros Ho. eapply typed_bind; [by apply typed_alloc|]. intros h st1 _ Hh. by apply typed_write. Qed.

Lemma typed_deref_or {A : Type} st0 (f : object -> option A) d h : typed st0 (deref_or f d h) anything.
Proof. destruct h; cbn; [eapply typed_done, typed_deref_as|by apply typed_lift]. Qed.

Lemma typed_alloc_all {A : Type} st0 (f : A -> object) t l :
  (forall x st, object_ok (f x) st /\ type_of (f x) = t) ->
  typed st0 (alloc_all f l) (fun hs st => Forall (fun h => handle_ok t h st) hs).
Proof.
  intros Hf. revert st0. induction l as [|x l IH]; intros st0; cbn [alloc_all].
  - apply typed_lift. intros a st [= <-] _. constructor.
  - eapply typed_bind; [apply typed_alloc, Hf|]. intros h st1 He1 Hh. cbn beta in Hh.
    eapply typed_bind; [apply IH|]. intros hs st2 He2 Hhs. apply typed_lift. intros a st [= <-] He3.
    constructor.
    + eapply handle_ok_extends; [|rewrite <- (proj2 (Hf x st1)); exact Hh]. by etrans.
    + eapply Forall_impl; [exact Hhs|]. intros h'. by apply handle_ok_extends.
Qed.

Lemma typed_read_elements {A : Type} st0 (f : object -> option A) n hs : typed st0 (read_elements f n hs) anything.
Proof.
  revert st0 hs. induction n as [|n IH]; intros st0 hs; cbn [read_elements]; [by apply typed_lift|].
  destruct hs as [|[l|] hs]; [by apply typed_lift| |by apply typed_lift].
  eapply typed_seq; [apply typed_deref_as|intros e st1 _]. eapply typed_seq; [apply IH|intros es st2 _].
  by apply typed_lift.
Qed.

Lemma typed_read_array {A : Type} st0 g (f : object -> option A) h n : typed st0 (read_array g f h n) anything.
Proof.
  destruct n; [by apply typed_lift|]. eapply typed_seq; [apply typed_deref_as|intros hs st1 _].
  apply typed_read_elements.
Qed.

Lemma typed_free_elements st0 t n hs : typed st0 (free_elements t n hs) anything.
Proof.
  revert st0 hs. induction n as [|n IH]; intros st0 hs; cbn [free_elements]; [by apply typed_lift|].
  destruct hs as [|[l|] hs]; [by apply typed_lift| |apply IH].
  eapply typed_seq; [apply typed_deref_as|intros e st1 _]. eapply typed_seq; [apply typed_delete|intros es st2 _].
  apply IH.
Qed.

Lemma typed_emit_array {A : Type} st0 out t (array : list handle -> object) (f : A -> object) l :
  (forall x st, object_ok (f x) st /\ type_of (f x) = t) ->
  (forall hs st, object_ok (array hs) st <-> Forall (fun h => handle_ok t h st) hs) ->
  (forall hs, type_of (array hs) = type_of (array [])) ->
  typed st0 (emit_array out array f l) anything.
Proof.
  intros Hf Ha Ht. eapply typed_bind.
  { apply typed_alloc, Ha, Forall_replicate. done. }
  intros a st1 _ Hh. cbn beta in Hh. rewrite Ht in Hh.
  eapply typed_seq; [by apply typed_write|intros _ st2 _]. eapply typed_bind; [by eapply typed_alloc_all|].
  intros hs st3 _ Hhs. eapply typed_seq; [apply typed_assign; by apply Ha|intros _ st4 _]. by apply typed_lift.
Qed.

Lemma typed_new_ocsp_cache st0 n ttl : typed st0 (new_ocsp_cache n ttl) anything.
Proof.
  exact (typed_world st0 (fun st => Ret (next st)) c_rim_world (fun st =>
    (with_cache (c_ocsp_world st).1 (next st) (NvCache.ctor (Some (NvCache.mk_options n ttl))), (c_ocsp_world st).2))
    c_nras_requests).
Qed.

Lemma typed_new_rim_cache st0 n ttl : typed st0 (new_rim_cache n ttl) anything.
Proof.
  exact (typed_world st0 (fun st => Ret (next st)) (fun st =>
    (with_cache (c_rim_world st).1 (next st) (NvCache.ctor (Some (NvCache.mk_options n ttl))), (c_rim_world st).2))
    c_ocsp_world c_nras_requests).
Qed.

Ltac head_of t := lazymatch t with ?f _ => head_of f | _ => t end.

(** One step through a computation none of whose handles is kept. *)
Ltac typed_step :=
  lazymatch goal with
  | |- typed _ (sret _) _ => by apply typed_lift
  | |- typed _ (slift _) _ => by apply typed_lift
  | |- typed _ (let '(_, _) := ?p in _) _ => destruct p
  | |- typed _ (match ?x with _ => _ end) _ => destruct x
  | |- typed _ (read _ _) _ => eapply typed_done, typed_read
  | |- typed _ (deref_as _ _) _ => eapply typed_done, typed_deref_as
  | |- typed _ (assign _ _) _ => by apply typed_assign
  | |- typed _ (write _ _ None) _ => by apply typed_write
  | |- typed _ (emit _ _) _ => by apply typed_emit
  | |- typed _ (deref_or _ _ _) _ => apply typed_deref_or
  | |- typed _ (read_array _ _ _ _) _ => apply typed_read_array
  | |- typed _ (free_elements _ _ _) _ => apply typed_free_elements
  | |- typed _ (delete_object _) _ => apply typed_delete
  | |- typed _ (with_state _ _) _ => apply typed_with_state
  | |- typed _ (new_ocsp_cache _ _) _ => apply typed_new_ocsp_cache
  | |- typed _ (new_rim_cache _ _) _ => apply typed_new_rim_cache
  | |- typed _ (emit_array _ o_gpu_evidence_array _ _) _ => by apply (typed_emit_array _ _ T_gpu_evidence)
  | |- typed _ (emit_array _ o_switch_evidence_array _ _) _ => by apply (typed_emit_array _ _ T_switch_evidence)
  | |- typed _ (sbind _ _) _ => eapply (typed_seq _ _ _ anything); [|intros ? ? _]
  | |- typed _ ?m _ => let f := head_of m in unfold f
  end.

(** A step that keeps what is known of a handle. *)
Ltac typed_keep Hh :=
  let He := fresh "He" in
  eapply (typed_seq _ _ _ anything);
    [repeat typed_step | intros ? ? He; apply (handle_ok_extends _ _ _ _ He) in Hh; clear He].

Ltac open_pair := repeat match goal with |- typed _ (let '(_, _) := ?p in _) _ => destruct p end.

Lemma typed_attest st0 clock clock_ms ctx nonce out_eat out_claims :
  typed st0 (nvat_attest_device clock clock_ms ctx nonce out_eat out_claims) anything.
Proof.
  unfold nvat_attest_device. destruct out_eat as [v|]; [|repeat typed_step].
  destruct (given_ptr ctx); [|by apply typed_lift].
  eapply typed_bind; [by apply typed_alloc|]. intros token st1 _ Hh. cbn beta in Hh.
  typed_keep Hh. typed_keep Hh. typed_keep Hh. open_pair. typed_keep Hh.
  typed_keep Hh. open_pair. case_bool_decide; [|by apply typed_lift].
  typed_keep Hh. eapply (typed_seq _ _ _ anything); [|by intros; apply typed_lift].
  eapply typed_bind; [by apply (typed_assign _ _ (o_str _))|]. intros _ st' He _. apply typed_write.
  by eapply handle_ok_extends.
Qed.

Lemma exec_typed c st0 : typed st0 (exec c) anything.
Proof.
  destruct c; cbn [exec]; unfold returns_ok; apply (typed_returns _ _ _ anything);
    try (repeat typed_step; done).
  - do 2 (eapply (typed_seq _ _ _ anything); [repeat typed_step|intros ? ? _]). apply typed_attest.
  - eapply typed_bind; [apply typed_read|]. intros h st1 _ Hh. by apply typed_write.
Qed.

(** *** Calls write to their output parameters only *)


(** The other variables keep their values. *)
Definition writes_only {A : Type} (outs : list (ctype * var)) (m : api A) : Prop :=
  forall st t v, (t, Some v) ∉ outs -> slots (m st).2 !! (t, v) = slots st !! (t, v).


Lemma writes_lift {A : Type} outs (m : res A) : writes_only outs (slift m).
Proof. done. Qed.
















(** *** Calls that fail change nothing *)

(** A value or undefined behaviour, and nothing else. *)
Definition sure {A : Type} (m : api A) : Prop :=
  forall st, match (m st).1 with Ret _ | UB => True | _ => False end.

(** The handles and the objects stay as they are. *)
Definition quiet {A : Type} (m : api A) : Prop :=
  forall st, heap (m st).2 = heap st /\ slots (m st).2 = slots st.

(** If it fails, or throws, the handles and the objects are as before. *)
Definition atomic {A : Type} (m : api A) : Prop :=
  forall st, match (m st).1 with
             | Ret _ | UB => True
             | _ => heap (m st).2 = heap st /\ slots (m st).2 = slots st
             end.

Lemma sure_atomic {A : Type} (m : api A) : sure m -> atomic m.
Proof. intros Hm st. specialize (Hm st). by destruct (m st).1. Qed.

Lemma sure_bind {A B : Type} (m : api A) (k : A -> api B) : sure m -> (forall a, sure (k a)) -> sure (sbind m k).
Proof. intros Hm Hk st. specialize (Hm st). unfold sbind. destruct (m st) as [[] st1]; try done. apply Hk. Qed.

Lemma quiet_bind {A B : Type} (m : api A) (k : A -> api B) : quiet m -> (forall a, quiet (k a)) -> quiet (sbind m k).
Proof.
  intros Hm Hk st. specialize (Hm st). unfold sbind. destruct (m st) as [[a|e|x|] st1]; try done.
  destruct Hm as [E1 E2], (Hk a st1) as [E3 E4]. cbn in *. split; congruence.
Qed.

Lemma atomic_bind {A B : Type} (m : api A) (k : A -> api B) :
  quiet m -> (forall a, atomic (k a)) -> atomic (sbind m k).
Proof.
  intros Hm Hk st. specialize (Hm st). unfold sbind. destruct (m st) as [[a|e|x|] st1]; try done.
  destruct Hm as [E1 E2]. cbn in E1, E2. specialize (Hk a st1). destruct (k a st1) as [[] st2]; cbn in *; try done;
    by rewrite <- E1, <- E2.
Qed.

Lemma quiet_lift {A : Type} (m : res A) : quiet (slift m).
Proof. done. Qed.

Lemma quiet_read t v : quiet (read t v).
Proof. done. Qed.

Lemma quiet_deref_as {A : Type} (f : object -> option A) h : quiet (deref_as f h).
Proof. intros st. unfold deref_as, deref, sbind. by destruct (h ≫= _). Qed.

Lemma quiet_read_elements {A : Type} (f : object -> option A) n hs : quiet (read_elements f n hs).
Proof.
  revert hs. induction n as [|n IH]; intros hs; cbn [read_elements]; [apply quiet_lift|].
  destruct hs as [|[l|] hs]; [apply quiet_lift| |apply quiet_lift].
  apply quiet_bind; [apply quiet_deref_as|intros e]. apply quiet_bind; [apply IH|intros es]. apply quiet_lift.
Qed.

Lemma sure_alloc o : sure (alloc o).
Proof. done. Qed.

Lemma sure_write t out h : sure (write t out h).
Proof. intros st. by destruct out. Qed.

Lemma sure_assign h o : sure (assign h o).
Proof. intros st. unfold assign. destruct h; [|done]. by case_bool_decide. Qed.

Lemma sure_delete h : sure (delete_object h).
Proof. intros st. unfold delete_object, deref, sbind. destruct h; cbn; [|done]. by destruct (_ !! _). Qed.

Lemma sure_alloc_all {A : Type} (f : A -> object) l : sure (alloc_all f l).
Proof.
  induction l as [|x l IH]; cbn [alloc_all]; [done|]. apply sure_bind; [apply sure_alloc|intros h].
  apply sure_bind; [apply IH|done].
Qed.

Lemma sure_free_elements t n hs : sure (free_elements t n hs).
Proof.
  revert hs. induction n as [|n IH]; intros hs; cbn [free_elements]; [done|].
  destruct hs as [|[l|] hs]; [done| |apply IH].
  apply sure_bind.
  - intros st. unfold deref_as, deref, sbind, slift. destruct (_ ≫= _); [|done]. by case_bool_decide.
  - intros _. apply sure_bind; [apply sure_delete|done].
Qed.

Ltac quiet_step :=
  lazymatch goal with
  | |- quiet (slift _) => apply quiet_lift
  | |- quiet (sret _) => done
  | |- quiet (if ?b then _ else _) => destruct b
  | |- quiet (let '(_, _) := ?p in _) => destruct p
  | |- quiet (match ?x with _ => _ end) => destruct x
  | |- quiet (read _ _) => apply quiet_read
  | |- quiet (deref_as _ _) => apply quiet_deref_as
  | |- quiet (read_elements _ _ _) => apply quiet_read_elements
  | |- quiet (new_ocsp_cache _ _) => done
  | |- quiet (new_rim_cache _ _) => done
  | |- quiet (sbind _ _) => apply quiet_bind; [|intros ?]
  | |- quiet ?m => let f := head_of m in unfold f
  end.

Lemma sure_deref_as {A : Type} (f : object -> option A) h : sure (deref_as f h).
Proof. intros st. unfold deref_as, deref, sbind, slift. destruct (_ ≫= _); [|done]. by destruct (f o). Qed.

Lemma sure_read t v : sure (read t v).
Proof. intros st. unfold read. by destruct (_ !! _). Qed.

Ltac sure_step :=
  lazymatch goal with
  | |- sure (sret _) => done
  | |- sure (if ?b then _ else _) => destruct b
  | |- sure (let '(_, _) := ?p in _) => destruct p
  | |- sure (match ?x with _ => _ end) => destruct x
  | |- sure (read _ _) => apply sure_read
  | |- sure (deref_as _ _) => apply sure_deref_as
  | |- sure (alloc _) => done
  | |- sure (assign _ _) => apply sure_assign
  | |- sure (write _ _ _) => apply sure_write
  | |- sure (delete_object _) => apply sure_delete
  | |- sure (alloc_all _ _) => apply sure_alloc_all
  | |- sure (free_elements _ _ _) => apply sure_free_elements
  | |- sure (sbind _ _) => apply sure_bind; [|intros ?]
  | |- sure ?m => let f := head_of m in unfold f
  end.

Lemma quiet_atomic {A : Type} (m : api A) : quiet m -> atomic m.
Proof. intros Hm st. specialize (Hm st). by destruct (m st).1. Qed.

(** Quiet steps first, then ones that cannot fail. *)
Ltac atomic_step :=
  lazymatch goal with
  | |- atomic (slift _) => apply quiet_atomic, quiet_lift
  | |- atomic (sret _) => by apply sure_atomic
  | |- atomic (if ?b then _ else _) => destruct b
  | |- atomic (let '(_, _) := ?p in _) => destruct p
  | |- atomic (match ?x with _ => _ end) => destruct x
  | |- atomic (sbind _ _) =>
      first [apply atomic_bind; [solve [repeat quiet_step]|intros ?] | apply sure_atomic; solve [repeat sure_step]]
  | |- atomic ?m => first [solve [apply sure_atomic; repeat sure_step] | let f := head_of m in unfold f]
  end.

(** The calls that may leave a trace when they fail: the options keep a path
    that does not resolve, the array variable is cleared, and an attestation
    or a verification changes what its object holds. *)
Definition traceless (c : call) : bool :=
  match c with
  | HttpOptionsSetCaBundlePath _ _ | GpuEvidenceCollect _ _ _ _ => false
  | VerifyGpuEvidence _ _ _ _ _ _ _ _ | VerifySwitchEvidence _ _ _ _ _ _ _ _ | AttestDevice _ _ _ _ _ _ => false
  | _ => true
  end.

(** [returns] of a computation that is atomic. *)
Definition returns_atomic (m : api Z) : Prop :=
  forall st rc st', m st = (Ret rc, st') -> rc <> error_code Ok -> heap st' = heap st /\ slots st' = slots st.

Lemma returns_ok_atomic {A : Type} (m : api A) : atomic m -> returns_atomic (returns_ok m).
Proof.
  intros Hm st rc st' E Hrc. specialize (Hm st). unfold returns_ok, returns in E.
  destruct (m st) as [[a|e|x|] st1]; cbn in Hm; [|by injection E as _ <-|by injection E as _ <-|done].
  by injection E as <- _.
Qed.

Lemma exec_atomic c : traceless c = true -> returns_atomic (exec c).
Proof.
  destruct c; try done; intros _; cbn [exec]; apply returns_ok_atomic; repeat atomic_step; done.
Qed.

(** *** Running calls *)

Lemma sbind_step {A B : Type} (m : api A) (k : A -> api B) a st st1 :
  m st = (Ret a, st1) -> sbind m k st = k a st1.
Proof. unfold sbind. by intros ->. Qed.

Lemma sbind_stop {A B : Type} (m : api A) (k : A -> api B) o st st1 :
  m st = (o, st1) -> (forall a, o <> Ret a) ->
  sbind m k st = (match o with Ret _ => UB | Err e => Err e | Throw x => Throw x | UB => UB end, st1).
Proof. unfold sbind. intros -> Ho. destruct o; [by edestruct Ho|done..]. Qed.

Lemma arg_run t v h st : slots st !! (t, v) = Some h -> arg t (Some v) st = (Ret h, st).
Proof. intros E. cbn [arg]. unfold read. by rewrite E. Qed.

Lemma deref_run {A : Type} (f : object -> option A) l o a st :
  heap st !! l = Some o -> f o = Some a -> deref_as f (Some l) st = (Ret a, st).
Proof. intros E Ef. unfold deref_as, deref, sbind, slift. cbn. by rewrite E, Ef. Qed.

Lemma assign_run l o o' st :
  heap st !! l = Some o' -> type_of o' = type_of o ->
  assign (Some l) o st = (Ret tt, set_heap (<[l := o]> (heap st)) st).
Proof. intros E Et. unfold assign. rewrite E. cbn. rewrite Et. by rewrite bool_decide_eq_true_2. Qed.

Definition emitted (v : nat) (o : object) (st : capi) : capi :=
  mk_capi (<[(type_of o, v) := Some (next st)]> (slots st)) (<[next st := o]> (heap st)) (S (next st))
    (c_rim_world st) (c_ocsp_world st) (c_nras_requests st).

Lemma emit_run v o st : emit (Some v) o st = (Ret tt, emitted v o st).
Proof. done. Qed.

(** The bytes of a nonce argument; none for a null handle. *)
Definition the_nonce (st : capi) (nonce : var) (n : list Z) : Prop :=
  match nonce with
  | None => n = []
  | Some y => slots st !! (T_nonce, y) = Some None /\ n = [] \/
      exists k, slots st !! (T_nonce, y) = Some (Some k) /\ heap st !! k = Some (o_nonce n)
  end.

Lemma the_nonce_arg st nonce n :
  the_nonce st nonce n ->
  exists h, arg T_nonce nonce st = (Ret h, st) /\ forall st', (forall k, h = Some k -> heap st' !! k = heap st !! k) ->
    deref_or to_nonce [] h st' = (Ret n, st').
Proof.
  destruct nonce as [y|]; cbn [the_nonce arg]; [|intros ->; by exists None].
  unfold read. intros [[-> ->]|(k & -> & Hk)]; [by exists None|]. exists (Some k). split; [done|]. intros st' Hst.
  cbn [deref_or]. apply (deref_run _ _ (o_nonce n)); [by rewrite Hst|done].
Qed.

(** The state an attestation runs in. *)
Definition attestation_state (c : context_t) (st : capi) : state (U:=U) (WU:=WU) (V:=V) (WV:=WV) :=
  mk_state c (c_rim_world st) (c_ocsp_world st) (c_nras_requests st) [].

Lemma attest_call clock clock_ms st x l c nonce n ve vc o s :
  well_typed st -> slots st !! (T_attestation_ctx, x) = Some (Some l) -> heap st !! l = Some (o_attestation_ctx c) ->
  the_nonce st nonce n -> attest_device clock clock_ms n true (attestation_state c st) = (o, s) ->
  exists orc st', exec (AttestDevice clock clock_ms (Some x) nonce (Some ve) (Some vc)) st = (orc, st') /\
    match o with
    | Ret (text, status) =>
        orc = Ret (status_code status) /\ heap st' !! l = Some (o_attestation_ctx (context s)) /\
        slots st' = <[(T_str, ve) := Some (next st)]>
                      (<[(T_claims_collection, vc) := Some (S (next st))]> (slots st)) /\
        heap st' !! next st = Some (o_str (default "" text)) /\
        heap st' !! S (next st) = Some (o_claims_collection (claims s))
    | Err _ | Throw _ =>
        orc = Ret (match o with Err e => error_code e | _ => error_code InternalError end) /\ slots st' = slots st /\
        heap st' = <[l := o_attestation_ctx (context s)]> (<[next st := o_str ""]> (heap st))
    | UB => orc = UB
    end.
Proof.
  intros Hw Hx Hl Hn Ha. destruct (the_nonce_arg _ _ _ Hn) as (h & Harg & Hh).
  assert (l < next st)%nat as Hlt by by apply (wt_heap _ Hw) in Hl as [].
  set (st1 := (alloc (o_str "") st).2).
  assert (heap st1 !! l = Some (o_attestation_ctx c)) as Hl1 by (cbn; by rewrite lookup_insert_ne by lia).
  assert (deref_or to_nonce [] h st1 = (Ret n, st1)) as Hn1.
  { apply Hh. intros k ->. cbn. apply lookup_insert_ne. intros <-. clear -Hn Harg Hw.
    destruct nonce as [y|]; [|done]. cbn [arg] in Harg. unfold read in Harg.
    destruct (slots st !! (T_nonce, y)) as [h|] eqn:E; [|done]. injection Harg as ->.
    apply (wt_slots _ Hw) in E. destruct E as [E _]. lia. }
  cbn [exec]. unfold returns. rewrite (sbind_step _ _ _ _ _ (arg_run _ _ _ _ Hx)).
  rewrite (sbind_step _ _ _ _ _ Harg). unfold nvat_attest_device.
  change (given_ptr (Some l)) with true. change (given_ptr (Some ve)) with true. cbv beta iota.
  rewrite (sbind_step (alloc _) _ (Some (next st)) st st1) by done.
  rewrite (sbind_step _ _ _ _ _ Hn1), (sbind_step _ _ _ _ _ (deref_run to_ctx _ _ c _ Hl1 eq_refl)).
  set (st2 := mk_capi (slots st) (heap st1) (S (next st)) (rim_world s) (ocsp_world s) (nras_requests s)).
  rewrite (sbind_step _ _ (o, context s, claims s) st1 st2); swap 1 2.
  { unfold with_state. unfold attestation_state in Ha. cbn. by rewrite Ha. }
  cbv beta iota. rewrite (sbind_step _ _ _ _ _ (assign_run l (o_attestation_ctx (context s)) _ st2 Hl1 eq_refl)).
  set (st3 := set_heap _ st2).
  destruct o as [[text status]|e|e|]; [|by eexists _, _|by eexists _, _|by eexists _, _].
  rewrite (sbind_step (slift (Ret (text, status))) _ _ st3 st3 eq_refl). cbv beta iota.
  rewrite bool_decide_eq_true_2 by by eapply attest_status.
  set (st4 := emitted vc (o_claims_collection (claims s)) st3).
  assert (heap st4 !! next st = Some (o_str "")) as Ht4.
  { cbn. rewrite lookup_insert_ne by lia. rewrite lookup_insert_ne by lia. apply lookup_insert_eq. }
  rewrite (sbind_step _ _ _ _ _ (emit_run vc (o_claims_collection (claims s)) st3)). fold st4.
  set (st5 := set_heap (<[next st := o_str (default "" text)]> (heap st4)) st4).
  rewrite (sbind_step _ _ tt st4 (mk_capi (<[(T_str, ve) := Some (next st)]> (slots st5)) (heap st5) (next st5)
                                    (c_rim_world st5) (c_ocsp_world st5) (c_nras_requests st5))); swap 1 2.
  { by rewrite (sbind_step _ _ _ _ _ (assign_run _ (o_str (default "" text)) _ _ Ht4 eq_refl)). }
  eexists _, _. split; [reflexivity|]. cbn.
  split_and!; [done| |done|apply lookup_insert_eq|].
  - do 2 rewrite lookup_insert_ne by lia. apply lookup_insert_eq.
  - rewrite lookup_insert_ne by lia. apply lookup_insert_eq.
Qed.
(** *** Nonces as text *)

Lemma hex_digit_isxdigit d : 0 <= d < 16 -> isxdigit (hex_digit d) = true.
Proof.
  intros Hd. assert (d ∈ seqZ 0 16) as Hin by (apply elem_of_seqZ; lia).
  clear Hd. revert d Hin. apply Forall_forall. apply (bool_decide_unpack _). by vm_compute.
Qed.

(** The second digit is no letter x. *)
Lemma not_x d : 0 <= d < 16 ->
  (ascii_byte (hex_digit d) =? 120) || (ascii_byte (hex_digit d) =? 88) = false.
Proof.
  intros Hd. assert (d ∈ seqZ 0 16) as Hin by (apply elem_of_seqZ; lia).
  clear Hd. revert d Hin. apply Forall_forall. apply (bool_decide_unpack _). by vm_compute.
Qed.

(** *** Giving a context a client *)

Lemma set_client_run st x y l k c (client : option ocsp_client) :
  slots st !! (T_attestation_ctx, x) = Some (Some l) -> heap st !! l = Some (o_attestation_ctx c) ->
  slots st !! (T_ocsp_client, y) = Some (Some k) -> heap st !! k = Some (o_ocsp_client client) ->
  exec (CtxSetDefaultOcspClient (Some x) (Some y)) st =
    (Ret (error_code Ok),
     set_heap (<[k := o_ocsp_client None]> (<[l := o_attestation_ctx (set_default_ocsp_client c client)]> (heap st))) st) /\
  l <> k.
Proof.
  intros Hx Hl Hy Hk. assert (l <> k) as Hne by (intros ->; by rewrite Hk in Hl). split; [|done].
  cbn [exec]. unfold returns_ok, returns. rewrite (sbind_step _ _ _ _ _ (arg_run _ _ _ _ Hx)).
  rewrite (sbind_step _ _ _ _ _ (arg_run _ _ _ _ Hy)). unfold nvat_attestation_ctx_set_default_ocsp_client.
  change (given_ptr (Some l)) with true. change (given_ptr (Some k)) with true. cbv beta iota.
  rewrite (sbind_step _ _ _ _ _ (deref_run to_ocsp_client _ _ client _ Hk eq_refl)).
  set (st1 := set_heap (<[l := o_attestation_ctx (set_default_ocsp_client c client)]> (heap st)) st).
  rewrite (sbind_step (on_ctx _ _) _ tt st st1); swap 1 2.
  { unfold on_ctx. rewrite (sbind_step _ _ _ _ _ (deref_run to_ctx _ _ c _ Hl eq_refl)).
    by rewrite (assign_run _ _ _ _ Hl). }
  assert (heap st1 !! k = Some (o_ocsp_client client)) as Hk1 by (cbn; by rewrite lookup_insert_ne).
  by rewrite (assign_run k (o_ocsp_client None) _ st1 Hk1).
Qed.

(** *** States the calls reach *)

Inductive creachable : capi -> Prop :=
| c_start rw ow n : creachable (mk_capi ∅ ∅ 0 rw ow n)
| c_call c st : creachable st -> creachable (exec c st).2.

Lemma creachable_typed st : creachable st -> well_typed st.
Proof.
  induction 1 as [rw ow n|c st _ IH].
  - split; cbn; intros *; by rewrite ?lookup_empty.
  - by destruct (exec_typed c st st IH ltac:(reflexivity)) as [? _].
Qed.

Lemma exec_all_creachable cs st : creachable st -> creachable (exec_all cs st).2.
Proof.
  revert st. induction cs as [|c cs IH]; intros st Hr; [done|]. cbn [exec_all]. unfold sbind.
  pose proof (c_call c st Hr) as Hr1. destruct (exec c st) as [[rc|e|x|] st1]; try done. specialize (IH st1 Hr1).
  by destruct (exec_all cs st1) as [[] st2].
Qed.

(** ** Properties *)


(** C12: a call that returns an error code has changed no handle variable and no
    object, and made none: nothing leaks and nothing is half done.  This holds
    of every call ([traceless]) but five: the setter of the CA bundle, whose
    options keep the path's error, the collection of GPU evidence, which clears its
    array variable, the two verifications, and the attestation, which may leave a
    string. *)
Theorem failed_call_changes_nothing c st rc st' :
  traceless c = true -> exec c st = (Ret rc, st') -> rc <> error_code Ok -> heap st' = heap st /\ slots st' = slots st.
Proof. intros Hc. by apply exec_atomic. Qed.

(** C13: [nvat_attest_device] is [AttestationContext::attest_device] on the
    context and the nonce behind its handles: the return code is its status,
    and when it has a result, the claims and the token are those behind the
    two output handles.  When it fails, the output variables are as they were,
    and the string made for the token stays in the heap with no handle to
    it. *)
Theorem nvat_attest_device_refines clock clock_ms st x l c nonce n ve vc o s :
  creachable st -> slots st !! (T_attestation_ctx, x) = Some (Some l) -> heap st !! l = Some (o_attestation_ctx c) ->
  the_nonce st nonce n -> attest_device clock clock_ms n true (attestation_state c st) = (o, s) ->
  exists orc st', exec (AttestDevice clock clock_ms (Some x) nonce (Some ve) (Some vc)) st = (orc, st') /\
    match o with
    | Ret (text, status) =>
        orc = Ret (status_code status) /\ heap st' !! l = Some (o_attestation_ctx (context s)) /\
        slots st' = <[(T_str, ve) := Some (next st)]>
                      (<[(T_claims_collection, vc) := Some (S (next st))]> (slots st)) /\
        heap st' !! next st = Some (o_str (default "" text)) /\
        heap st' !! S (next st) = Some (o_claims_collection (claims s))
    | Err _ | Throw _ =>
        orc = Ret (match o with Err e => error_code e | _ => error_code InternalError end) /\ slots st' = slots st /\
        heap st' = <[l := o_attestation_ctx (context s)]> (<[next st := o_str ""]> (heap st))
    | UB => orc = UB
    end.
Proof. intros Hr. by apply attest_call, creachable_typed. Qed.

(** C1: attesting GPUs through the C interface.  When [nvat_attest_device] is
    asked for the token, returns NVAT_RC_OK and fills the claims variable, with
    a local verifier and no policy of the relying party, then the claims
    behind the handle are, for every item of the evidence the source gave for
    the nonce, those of an item that was authenticated, is fresh and was
    compared with verified RIMs, and every device is good. *)
Theorem nvat_attest_gpu_sound clock clock_ms st x l c nonce n ve vc st' rim client options :
  rego_documented -> creachable st ->
  slots st !! (T_attestation_ctx, x) = Some (Some l) -> heap st !! l = Some (o_attestation_ctx c) ->
  the_nonce st nonce n ->
  m_gpu_enabled (initialized c) = true ->
  m_gpu_verifier (initialized c) = Some (LocalVerifier rim client options) ->
  m_claims_evaluator c = None -> Rim.gpu_claims_version (m_evidence_policy c) = GpuClaims.V3 ->
  slots st !! (T_claims_collection, vc) = Some None ->
  exec (AttestDevice clock clock_ms (Some x) nonce (Some ve) (Some vc)) st = (Ret (error_code Ok), st') ->
  slots st' !! (T_claims_collection, vc) <> Some None ->
  exists k cs n' source evidence,
    slots st' !! (T_claims_collection, vc) = Some (Some k) /\ heap st' !! k = Some (o_claims_collection cs) /\
    choose_nonce n = Ret n' /\ m_gpu_evidence_source (initialized c) = Some source /\
    gpu_get_evidence source n' = Ret evidence /\ cs <> [] /\ length cs = length evidence /\
    GpuVerify.all_verified clock (m_evidence_policy c) 0 evidence
      (mk_vstate (rim, c_rim_world st) (client, c_ocsp_world st) []) cs /\
    Forall Policy.device_good cs.
Proof.
  intros Hrego Hr%creachable_typed Hx Hl Hn Hg Hv He Hp Hnull Hrun Hset.
  destruct (attest_device clock clock_ms n true (attestation_state c st)) as [o s] eqn:Ea.
  destruct (attest_call clock clock_ms st x l c nonce n ve vc o s Hr Hx Hl Hn Ea) as (orc & st1 & E & Ho).
  rewrite E in Hrun. injection Hrun as -> ->.
  destruct o as [[text status]|e|e|]; [|by destruct Ho as (_ & Es & _); rewrite Es in Hset..|done].
  destruct Ho as (Hcode & _ & Hs & _ & Hc).
  assert (status = None) as ->.
  { destruct (attest_status _ _ _ _ _ _ _ _ Ea) as [-> | [-> | ->]]; done. }
  destruct (attest_local_gpu_lemma clock clock_ms n (attestation_state c st) text s rim client options Hrego Hg Hv He Hp Ea)
    as (n' & source & evidence & G1 & G2 & G3 & _ & G4 & G5 & G6 & G7).
  exists (S (next st)), (claims s), n', source, evidence. split_and!; try done.
  rewrite Hs, lookup_insert_ne by done. apply lookup_insert_eq.
Qed.

Lemma hex_isxdigit n : Forall is_byte n -> forallb isxdigit (String.list_ascii_of_string (to_hex_string n)) = true.
Proof.
  induction 1 as [|b n Hb _ IH]; [done|]. unfold is_byte in Hb.
  change (to_hex_string (b :: n)) with
    (String (hex_digit (b / 16)) (String (hex_digit (b mod 16)) (to_hex_string n))).
  cbn [String.list_ascii_of_string forallb]. rewrite !hex_digit_isxdigit, IH; [done| |].
  - apply Z.mod_pos_bound. lia.
  - split; [apply Z.div_pos|apply Z.div_lt_upper_bound]; lia.
Qed.

Lemma nonce_of_digits n :
  Forall is_byte n -> MIN_VALID_NONCE_LEN <= zlen n -> forall text, without_0x text = to_hex_string n ->
  nonce_of_hex text = Ret n.
Proof.
  intros Hb Hn text Ht. unfold nonce_of_hex, MIN_VALID_NONCE_LEN in *. rewrite Ht, to_hex_string_length.
  rewrite hex_isxdigit, hex_roundtrip_lemma by done. unfold zlen in *.
  replace (Z.of_nat (2 * length n) =? 0) with false by (symmetry; apply Z.eqb_neq; lia).
  replace (Z.of_nat (2 * length n) mod 2) with 0 by (rewrite Nat2Z.inj_mul, Z.mul_comm; symmetry; apply Z_mod_mult).
  by replace (Z.of_nat (length n) <? 32) with false by lia.
Qed.

(** P: a nonce written in hexadecimal and read back is the same nonce, with
    either prefix or none; and a nonce that is read has at least 32 bytes. *)
Theorem nonce_hex_roundtrip n :
  Forall is_byte n -> MIN_VALID_NONCE_LEN <= zlen n ->
  nonce_of_hex (to_hex_string n) = Ret n /\ nonce_of_hex ("0x" +:+ to_hex_string n) = Ret n /\
  nonce_of_hex ("0X" +:+ to_hex_string n) = Ret n /\
  forall text m, nonce_of_hex text = Ret m -> MIN_VALID_NONCE_LEN <= zlen m.
Proof.
  intros Hb Hn. split_and!; [|by apply nonce_of_digits|by apply nonce_of_digits|].
  - apply nonce_of_digits; [done..|]. destruct n as [|b n]; [done|]. inversion_clear Hb as [|? ? Hbyte _].
    unfold without_0x. change (to_hex_string (b :: n)) with
      (String (hex_digit (b / 16)) (String (hex_digit (b mod 16)) (to_hex_string n))).
    cbv beta iota. rewrite not_x by (apply Z.mod_pos_bound; lia). by rewrite andb_false_r.
  - intros text m. unfold nonce_of_hex. repeat case_match; try done. intros [= <-]. lia.
Qed.

(** P: an OCSP client that is given to two contexts through one handle
    arrives only at the first: the second call is a success too, but its
    context goes to the default responder over the network. *)
Theorem shared_client_dropped st x1 x2 y l1 l2 k c1 c2 client :
  l1 <> l2 ->
  slots st !! (T_attestation_ctx, x1) = Some (Some l1) -> heap st !! l1 = Some (o_attestation_ctx c1) ->
  slots st !! (T_attestation_ctx, x2) = Some (Some l2) -> heap st !! l2 = Some (o_attestation_ctx c2) ->
  slots st !! (T_ocsp_client, y) = Some (Some k) -> heap st !! k = Some (o_ocsp_client (Some client)) ->
  exists st' c1' c2' url http,
    exec_all [CtxSetDefaultOcspClient (Some x1) (Some y); CtxSetDefaultOcspClient (Some x2) (Some y)] st =
      (Ret [error_code Ok; error_code Ok], st') /\
    heap st' !! l1 = Some (o_attestation_ctx c1') /\ m_default_ocsp_client (initialized c1') = Some client /\
    heap st' !! l2 = Some (o_attestation_ctx c2') /\
    m_default_ocsp_client (initialized c2') = Some (HttpOcspClient url http).
Proof.
  intros Hne Hx1 Hl1 Hx2 Hl2 Hy Hk.
  assert (l1 <> k) as Hn1 by (intros ->; by rewrite Hk in Hl1). assert (l2 <> k) as Hn2 by (intros ->; by rewrite Hk in Hl2).
  destruct (set_client_run st x1 y l1 k c1 (Some client) Hx1 Hl1 Hy Hk) as (E1 & _).
  set (st1 := set_heap _ st) in E1.
  assert (heap st1 !! l2 = Some (o_attestation_ctx c2)) as Hl2'.
  { cbn. by rewrite !lookup_insert_ne by done. }
  assert (heap st1 !! k = Some (o_ocsp_client None)) as Hk' by apply lookup_insert_eq.
  destruct (set_client_run st1 x2 y l2 k c2 None Hx2 Hl2' Hy Hk') as (E2 & _).
  set (st2 := set_heap _ st1) in E2.
  assert (exec_all [CtxSetDefaultOcspClient (Some x2) (Some y)] st1 = (Ret [error_code Ok], st2)) as E3.
  { cbn [exec_all]. by rewrite (sbind_step _ _ _ _ _ E2). }
  eexists _, _, _, _, _. split_and!.
  - cbn [exec_all]. rewrite (sbind_step _ _ _ _ _ E1). by rewrite (sbind_step _ _ _ _ _ E3).
  - cbn. rewrite lookup_insert_ne by done. rewrite lookup_insert_ne by done. rewrite lookup_insert_ne by done.
    apply lookup_insert_eq.
  - reflexivity.
  - cbn. rewrite lookup_insert_ne by done. apply lookup_insert_eq.
  - reflexivity.
Qed.

(** P: a nonce of length zero is a success that sets no handle. *)
Theorem nonce_create_zero v st : exec (NonceCreate (Some v) 0) st = (Ret (error_code Ok), st).
Proof. done. Qed.

End nvat.

(** *** Attesting the small report through the interface

    As in Attestation, but with everything behind handles: the RIMs in files,
    the status proofs in a bundle, the evidence in a JSON file.  A CertID is
    below 25, so that a response is a list of bytes. *)

Definition toy_openssl_bytes : OpenSSL := {|
  X509 := X509 (OpenSSL:=toy_openssl);
  X509_STORE := X509_STORE (OpenSSL:=toy_openssl);
  EVP_PKEY := EVP_PKEY (OpenSSL:=toy_openssl);
  EVP_MD := EVP_MD (OpenSSL:=toy_openssl);
  ASN1_TIME := ASN1_TIME (OpenSSL:=toy_openssl);
  OCSP_RESPONSE := OCSP_RESPONSE (OpenSSL:=toy_openssl);
  OCSP_BASICRESP := OCSP_BASICRESP (OpenSSL:=toy_openssl);
  OCSP_SINGLERESP := OCSP_SINGLERESP (OpenSSL:=toy_openssl);
  OCSP_CERTID := OCSP_CERTID (OpenSSL:=toy_openssl);
  OCSP_REQUEST := OCSP_REQUEST (OpenSSL:=toy_openssl);
  PEM_read_bio_X509 := PEM_read_bio_X509 (OpenSSL:=toy_openssl);
  X509_STORE_new := X509_STORE_new (OpenSSL:=toy_openssl);
  X509_STORE_add_cert := X509_STORE_add_cert (OpenSSL:=toy_openssl);
  X509_cmp := X509_cmp (OpenSSL:=toy_openssl);
  X509_verify_cert := X509_verify_cert (OpenSSL:=toy_openssl);
  X509_get0_notAfter := X509_get0_notAfter (OpenSSL:=toy_openssl);
  ASN1_TIME_to_unix := ASN1_TIME_to_unix (OpenSSL:=toy_openssl);
  X509_get_pubkey := X509_get_pubkey (OpenSSL:=toy_openssl);
  EVP_sha384 := EVP_sha384 (OpenSSL:=toy_openssl);
  EVP_MD_CTX_new := EVP_MD_CTX_new (OpenSSL:=toy_openssl);
  EVP_DigestVerifyInit := EVP_DigestVerifyInit (OpenSSL:=toy_openssl);
  EVP_DigestVerifyUpdate := EVP_DigestVerifyUpdate (OpenSSL:=toy_openssl);
  EVP_DigestVerifyFinal := EVP_DigestVerifyFinal (OpenSSL:=toy_openssl);
  BN_new := BN_new (OpenSSL:=toy_openssl);
  BN_bin2bn := BN_bin2bn (OpenSSL:=toy_openssl);
  ECDSA_SIG_new := ECDSA_SIG_new (OpenSSL:=toy_openssl);
  ECDSA_SIG_set0 := ECDSA_SIG_set0 (OpenSSL:=toy_openssl);
  i2d_ECDSA_SIG := i2d_ECDSA_SIG (OpenSSL:=toy_openssl);
  OBJ_txt2obj := OBJ_txt2obj (OpenSSL:=toy_openssl);
  X509_get_ext_by_OBJ := X509_get_ext_by_OBJ (OpenSSL:=toy_openssl);
  X509_get_ext_data := X509_get_ext_data (OpenSSL:=toy_openssl);
  d2i_ASN1_SEQUENCE_ANY := d2i_ASN1_SEQUENCE_ANY (OpenSSL:=toy_openssl);
  X509_subject_common_name := X509_subject_common_name (OpenSSL:=toy_openssl);
  X509_serial_decimal := X509_serial_decimal (OpenSSL:=toy_openssl);
  sk_X509_new_null := sk_X509_new_null (OpenSSL:=toy_openssl);
  sk_X509_insert_ok := sk_X509_insert_ok (OpenSSL:=toy_openssl);
  X509_up_ref := X509_up_ref (OpenSSL:=toy_openssl);
  d2i_OCSP_RESPONSE := d2i_OCSP_RESPONSE (OpenSSL:=toy_openssl);
  i2d_OCSP_RESPONSE := i2d_OCSP_RESPONSE (OpenSSL:=toy_openssl);
  OCSP_response_status := OCSP_response_status (OpenSSL:=toy_openssl);
  OCSP_response_get1_basic := OCSP_response_get1_basic (OpenSSL:=toy_openssl);
  OCSP_response_create := OCSP_response_create (OpenSSL:=toy_openssl);
  OCSP_basic_verify := OCSP_basic_verify (OpenSSL:=toy_openssl);
  OCSP_resp_all := OCSP_resp_all (OpenSSL:=toy_openssl);
  OCSP_SINGLERESP_get0_id := OCSP_SINGLERESP_get0_id (OpenSSL:=toy_openssl);
  OCSP_id_cmp := OCSP_id_cmp (OpenSSL:=toy_openssl);
  OCSP_resp_find := OCSP_resp_find (OpenSSL:=toy_openssl);
  OCSP_single_get0_status := OCSP_single_get0_status (OpenSSL:=toy_openssl);
  OCSP_crl_reason_str := OCSP_crl_reason_str (OpenSSL:=toy_openssl);
  OCSP_cert_to_id s _ := (fun x : Z => x mod 25) <$> s;
  i2d_OCSP_CERTID := i2d_OCSP_CERTID (OpenSSL:=toy_openssl);
  OCSP_CERTID_dup := OCSP_CERTID_dup (OpenSSL:=toy_openssl);
  OCSP_request_with_nonce := OCSP_request_with_nonce (OpenSSL:=toy_openssl);
  OCSP_request_add0_id := OCSP_request_add0_id (OpenSSL:=toy_openssl);
  OCSP_request_der := OCSP_request_der (OpenSSL:=toy_openssl);
  OCSP_check_nonce := OCSP_check_nonce (OpenSSL:=toy_openssl);
|}.

Definition toy_evidence_json : json :=
  match GpuEvidence.to_json (B64:=Base64.toy_base64) Attestation.toy_evidence with Ret j => j | _ => JNull end.

Definition toy_env : Eat.Env := {|
  Eat.now := Eat.now (Env:=toy_policy_env);
  Eat.RAND_bytes := Eat.RAND_bytes (Env:=toy_policy_env);
  Eat.sha256 := Eat.sha256 (Env:=toy_policy_env);
  Eat.sign_none := Eat.sign_none (Env:=toy_policy_env);
  Eat.sign_es384 := Eat.sign_es384 (Env:=toy_policy_env);
  Eat.json_dump := Eat.json_dump (Env:=toy_policy_env);
  Eat.json_parse := fun text =>
    if bool_decide (text = "evidence") then Some (JArray [toy_evidence_json])
    else Eat.json_parse (Env:=toy_policy_env) text;
  Eat.rego := Eat.rego (Env:=toy_policy_env);
  Eat.overall_result_policy := Eat.overall_result_policy (Env:=toy_policy_env);
|}.

Definition toy_files : World := {|
  rim_network := rim_network (World:=toy_world);
  ocsp_network := ocsp_network (World:=toy_world);
  nras_network := nras_network (World:=toy_world);
  jwks_network := jwks_network (World:=toy_world);
  NVAT_VERSION_STRING := "1.0";
  Attestation.RAND_bytes := Attestation.RAND_bytes (World:=toy_world);
  cache_clock := fun _ _ => 1500;
  path_exists := fun _ => true;
  path_is_directory := fun p => bool_decide (p = "rims");
  read_file := fun p =>
    if bool_decide (p = "evidence.json") then Some "evidence"
    else Some (if String.prefix "rims/NV_GPU_DRIVER" p then "10a0b" else "0");
  collect_evidence_nvml := collect_evidence_nvml (World:=toy_world);
  collect_evidence_corelib := collect_evidence_corelib (World:=toy_world);
  collect_evidence_nscq := collect_evidence_nscq (World:=toy_world);
|}.

Lemma toy_env_rego : rego_documented (env:=toy_env).
Proof.
  intros cs b. unfold evaluate, RegoClaimsEvaluator.evaluate_claims, Collection.serialize_json. cbn.
  unfold Collection.to_json. destruct cs as [|[g|g] cs]; cbn [fmap list_fmap Collection.to_json_object];
    [by intros [= <-]|unfold GpuClaims.to_json, SwitchClaims.to_json, jobject..];
    by destruct (Policy.nv_match _); intros [= <-].
Qed.

#[local] Instance toy_no_rims : Rim.IRimStore (XML:=toy_xml) (unit * unit) := fun s _ => (Err RimNotFound, s).
#[local] Instance toy_no_ocsp : IOcspHttpClient (H:=toy_openssl_bytes) (unit * unit) :=
  fun s _ _ _ _ => (Err OcspServerError, s).

Abbreviation toy_exec := (exec_all (OSSL:=toy_openssl_bytes) (XML:=toy_xml) (env:=toy_env) (B64:=Base64.toy_base64)
  (L:=Jwt.toy_jwt) (P:=toy_platform) (W:=toy_files) (U:=unit) (WU:=unit) (V:=unit) (WV:=unit)).

Definition toy_setup : list call :=
  [CtxCreate (Some 0%nat); CtxSetVerifierType (Some 0%nat) Verify.NVAT_VERIFY_LOCAL;
   RimStoreCreateFilesystem (Some 0%nat) (Some "rims"); CtxSetDefaultRimStore (Some 0%nat) (Some 0%nat);
   OcspClientCreateRawProofs (Some 0%nat) (Some (Bundle.encode_bundle [[20; 70]]))
     (zlen (Bundle.encode_bundle [[20; 70]])) 1500;
   CtxSetDefaultOcspClient (Some 0%nat) (Some 0%nat);
   CtxSetGpuEvidenceSourceJsonFile (Some 0%nat) (Some "evidence.json");
   NonceFromBytes (Some 0%nat) (Some (replicate 32 9)) 32; SetNull T_claims_collection 0].

Definition toy_attest_call : call :=
  AttestDevice (fun _ => 1500) (fun _ => 1500) (Some 0%nat) (Some 0%nat) (Some 0%nat) (Some 0%nat).

Definition toy_start : capi (OSSL:=toy_openssl_bytes) (U:=unit) (WU:=unit) (V:=unit) (WV:=unit) :=
  mk_capi ∅ ∅ 0 (new_shared, tt) (new_shared, tt) 0.

Example toy_setup_ok : (toy_exec toy_setup toy_start).1 = Ret (replicate 9 0).
Proof. vm_compute. reflexivity. Qed.

Example toy_attest_ok : (toy_exec (toy_setup ++ [toy_attest_call]) toy_start).1 = Ret (replicate 10 0).
Proof. vm_compute. reflexivity. Qed.

Abbreviation toy_ready := (toy_exec toy_setup toy_start).2.
Abbreviation toy_run c := (exec (OSSL:=toy_openssl_bytes) (XML:=toy_xml) (env:=toy_env) (B64:=Base64.toy_base64)
  (L:=Jwt.toy_jwt) (P:=toy_platform) (W:=toy_files) (U:=unit) (WU:=unit) (V:=unit) (WV:=unit) c).
Abbreviation toy_done := (toy_run toy_attest_call toy_ready).2.

Lemma toy_ready_reachable :
  creachable (OSSL:=toy_openssl_bytes) (XML:=toy_xml) (env:=toy_env) (B64:=Base64.toy_base64) (L:=Jwt.toy_jwt)
    (P:=toy_platform) (W:=toy_files) (U:=unit) (WU:=unit) (V:=unit) (WV:=unit) toy_ready.
Proof. apply exec_all_creachable, c_start. Qed.

(** The context the set-up leaves. *)
Definition toy_ctx : AttestationContext (OSSL:=toy_openssl_bytes) (U:=unit) (V:=unit) :=
  match heap toy_ready !! 0%nat with Some (o_attestation_ctx c) => c | _ => new_context (P:=toy_platform) end.

Lemma toy_ctx_there : heap toy_ready !! 0%nat = Some (o_attestation_ctx toy_ctx).
Proof. vm_compute. reflexivity. Qed.

Lemma toy_nonce_there : the_nonce toy_ready (Some 0%nat) (replicate 32 9).
Proof. right. exists 3%nat. split; vm_compute; reflexivity. Qed.

Lemma toy_attest_run : toy_run toy_attest_call toy_ready = (Ret (error_code Ok), toy_done).
Proof. apply run_pair. vm_compute. reflexivity. Qed.

Lemma nvat_attest_gpu_sound_witness :
  exists k cs, slots toy_done !! (T_claims_collection, 0%nat) = Some (Some k) /\
    heap toy_done !! k = Some (o_claims_collection cs) /\ cs <> [] /\ Forall Policy.device_good cs.
Proof.
  destruct (nvat_attest_gpu_sound (OSSL:=toy_openssl_bytes) (XML:=toy_xml) (env:=toy_env) (B64:=Base64.toy_base64)
    (L:=Jwt.toy_jwt) (P:=toy_platform) (W:=toy_files) (U:=unit) (WU:=unit) (V:=unit) (WV:=unit) (fun _ => 1500) (fun _ => 1500)
    toy_ready 0 0 toy_ctx (Some 0%nat) (replicate 32 9) 0 0 toy_done (FilesystemRimStore "rims")
    (RawOcspClient (Ocsp.mk_raw (OSSL:=toy_openssl_bytes) [[20; 70]] 1500)) (Eat.mk_options "" "NVAT-LOCAL-VERIFIER" ""))
    as (k & cs & _ & _ & _ & Hk & Hcs & _ & _ & _ & Hne & _ & _ & Hgood).
  - exact toy_env_rego.
  - exact toy_ready_reachable.
  - vm_compute. reflexivity.
  - exact toy_ctx_there.
  - exact toy_nonce_there.
  - vm_compute. reflexivity.
  - vm_compute. reflexivity.
  - vm_compute. reflexivity.
  - vm_compute. reflexivity.
  - vm_compute. reflexivity.
  - exact toy_attest_run.
  - vm_compute. discriminate.
  - exists k, cs. exact (conj Hk (conj Hcs (conj Hne Hgood))).
Defined.

(** The same run, as an attestation of the context. *)
Lemma nvat_attest_device_refines_witness :
  exists orc st', toy_run toy_attest_call toy_ready = (orc, st').
Proof.
  destruct (nvat_attest_device_refines (OSSL:=toy_openssl_bytes) (XML:=toy_xml) (env:=toy_env) (B64:=Base64.toy_base64)
    (L:=Jwt.toy_jwt) (P:=toy_platform) (W:=toy_files) (U:=unit) (WU:=unit) (V:=unit) (WV:=unit) (fun _ => 1500) (fun _ => 1500)
    toy_ready 0 0 toy_ctx (Some 0%nat) (replicate 32 9) 0 0 _ _ toy_ready_reachable ltac:(vm_compute; reflexivity)
    toy_ctx_there toy_nonce_there (surjective_pairing _)) as (orc & st' & E & _).
  exists orc, st'. exact E.
Defined.


(** A nonce of five bytes is refused. *)
Lemma failed_call_changes_nothing_witness :
  heap (toy_run (NonceCreate (Some 1%nat) 5) toy_start).2 = heap toy_start /\
  slots (toy_run (NonceCreate (Some 1%nat) 5) toy_start).2 = slots toy_start.
Proof.
  apply (failed_call_changes_nothing (OSSL:=toy_openssl_bytes) (XML:=toy_xml) (env:=toy_env) (B64:=Base64.toy_base64)
    (L:=Jwt.toy_jwt) (P:=toy_platform) (W:=toy_files) (U:=unit) (WU:=unit) (V:=unit) (WV:=unit)
    (NonceCreate (Some 1%nat) 5) toy_start (error_code BadArgument) (toy_run (NonceCreate (Some 1%nat) 5) toy_start).2).
  - reflexivity.
  - apply run_pair. vm_compute. reflexivity.
  - discriminate.
Defined.

Lemma nonce_hex_roundtrip_witness : nonce_of_hex (to_hex_string (replicate 32 9)) = Ret (replicate 32 9).
Proof.
  destruct (nonce_hex_roundtrip (replicate 32 9)) as [E _]; [by repeat constructor|by vm_compute|exact E].
Defined.

(** Two contexts and an offline client. *)
Abbreviation toy_two := (toy_exec [CtxCreate (Some 0%nat); CtxCreate (Some 1%nat);
  OcspClientCreateRawProofs (Some 0%nat) (Some (Bundle.encode_bundle [[20; 70]]))
    (zlen (Bundle.encode_bundle [[20; 70]])) 1500] toy_start).2.

Lemma shared_client_dropped_witness :
  exists (st' : capi (OSSL:=toy_openssl_bytes) (U:=unit) (WU:=unit) (V:=unit) (WV:=unit))
      (c : AttestationContext (OSSL:=toy_openssl_bytes) (U:=unit) (V:=unit)) url http,
    toy_exec [CtxSetDefaultOcspClient (Some 0%nat) (Some 0%nat); CtxSetDefaultOcspClient (Some 1%nat) (Some 0%nat)] toy_two =
      (Ret [0; 0], st') /\
    heap st' !! 1%nat = Some (o_attestation_ctx c) /\
    m_default_ocsp_client (initialized (P:=toy_platform) (W:=toy_files) c) = Some (HttpOcspClient url http).
Proof.
  destruct (shared_client_dropped (OSSL:=toy_openssl_bytes) (XML:=toy_xml) (env:=toy_env) (B64:=Base64.toy_base64)
    (L:=Jwt.toy_jwt) (P:=toy_platform) (W:=toy_files) (U:=unit) (WU:=unit) (V:=unit) (WV:=unit) toy_two 0 1 0 0 1 2
    (new_context (P:=toy_platform)) (new_context (P:=toy_platform))
    (RawOcspClient (Ocsp.mk_raw (OSSL:=toy_openssl_bytes) [[20; 70]] 1500)))
    as (st' & c1 & c2 & url & http & E & _ & _ & E2 & E3); [discriminate|vm_compute; reflexivity..|].
  exists st', c2, url, http. exact (conj E (conj E2 E3)).
Defined.

End Nvat.
