(* ===== verification/Locals.v ===== *)
(** * Locals: code that keeps its handles in local variables

    A logic for the callers of the C interface (Nvat), such as the command line
    tool: what is in a function's variables, in the objects they own, and in
    the rest of the heap, before and after a computation.  The owner of an
    object is a variable; objects with no owner stay in the heap. *)

From S2P Require Import Prelude Errors Utils OpenSsl StatusBundle NvCache Ocsp X509Chain Json Claims Evaluator DetachedEat.
From S2P Require Import Http Jwt Certs Base64 Rim Report GpuEvidence SwitchEvidence Verify GpuVerify SwitchVerify.
From S2P Require Import Attestation Nvat.

Module Locals.
Import Attestation Nvat.

Section locals.
Context `{OSSL : OpenSSL} `{XML : LibXml2} `{env : Eat.Env} `{B64 : Base64Lib} `{L : JwtLib}.
Context `{P : Http.Platform} `{W : World}.
Context {U WU V WV : Type} `{RS : !Rim.IRimStore (U * WU)} `{OC : !IOcspHttpClient (V * WV)}.

Abbreviation object := (Nvat.object (U:=U) (V:=V)).
Abbreviation capi := (Nvat.capi (U:=U) (WU:=WU) (V:=V) (WV:=WV)).
Abbreviation api := (sm capi Error).
Abbreviation key := (ctype * nat)%type.

(** The variables: a null pointer, or the address of an object of its own. *)
Abbreviation locals := (gmap key (option (nat * object))).

(** The worlds behind the stores, the clients and the verifiers. *)
Abbreviation world := ((shared string * WU) * (shared NvOcspResponse * WV) * nat)%type.

Definition world_of (st : capi) : world := (c_rim_world st, c_ocsp_world st, c_nras_requests st).

Implicit Types (H : gmap nat object) (w : world) (M : locals) (st : capi).

(** ** States *)

(** The variables [M] hold what they hold, their objects are apart from each
    other and from the objects [H], and there are no other objects. *)
Record scope H w M st : Prop := mk_scope {
  sc_slot k x : M !! k = Some x -> slots st !! k = Some (fst <$> x);
  sc_heap k l o : M !! k = Some (Some (l, o)) -> heap st !! l = Some o /\ H !! l = None /\ type_of o = k.1;
  sc_inj k1 k2 l o1 o2 : M !! k1 = Some (Some (l, o1)) -> M !! k2 = Some (Some (l, o2)) -> k1 = k2;
  sc_frame l : heap st !! l = H !! l \/ exists k o, M !! k = Some (Some (l, o));
  sc_fresh l : is_Some (heap st !! l) -> (l < next st)%nat;
  sc_world : world_of st = w;
}.

Lemma scope_base H w M st l o : scope H w M st -> H !! l = Some o -> heap st !! l = Some o.
Proof.
  intros Hs Hl. destruct (sc_frame _ _ _ _ Hs l) as [-> | (k & o' & Hk)]; [done|].
  apply (sc_heap _ _ _ _ Hs) in Hk as (_ & Hn & _). congruence.
Qed.

Lemma scope_next H w M st : scope H w M st -> H !! next st = None /\ forall k o, M !! k <> Some (Some (next st, o)).
Proof.
  intros Hs. assert (heap st !! next st = None) as Hn.
  { apply eq_None_not_Some. intros Hx%(sc_fresh _ _ _ _ Hs). lia. }
  split.
  - destruct (H !! next st) as [o|] eqn:E; [|done]. apply (scope_base _ _ _ _ _ _ Hs) in E. congruence.
  - intros k o E. apply (sc_heap _ _ _ _ Hs) in E as [E _]. congruence.
Qed.

(** A state without variables. *)
Lemma scope_start st : (forall l, is_Some (heap st !! l) -> (l < next st)%nat) -> scope (heap st) (world_of st) ∅ st.
Proof. intros Hf. split; try done; try (intros *; by rewrite lookup_empty). intros l. by left. Qed.

(** When the variables own nothing, the heap is [H]. *)
Lemma scope_end H w M st :
  scope H w M st -> (forall k l o, M !! k <> Some (Some (l, o))) -> heap st = H.
Proof.
  intros Hs Hm. apply map_eq. intros l. destruct (sc_frame _ _ _ _ Hs l) as [?|(k & o & Hk)]; [done|].
  by apply Hm in Hk.
Qed.

(** ** Computations

    From any state with these variables, [m] ends with an outcome and variables
    that satisfy [Q]; after undefined behaviour there is no state. *)
Definition runs {A : Type} H w M (m : api A) (Q : outcome Error A -> gmap nat object -> world -> locals -> Prop) : Prop :=
  forall st, scope H w M st ->
    exists H' w' M', ((m st).1 <> UB -> scope H' w' M' (m st).2) /\ Q (m st).1 H' w' M'.

Lemma runs_weaken {A : Type} H w M (m : api A) (Q R : outcome Error A -> gmap nat object -> world -> locals -> Prop) :
  runs H w M m Q -> (forall o H' w' M', Q o H' w' M' -> R o H' w' M') -> runs H w M m R.
Proof. intros Hm Hqr st Hs. destruct (Hm st Hs) as (H' & w' & M' & ? & ?). exists H', w', M'. auto. Qed.

Lemma runs_lift {A : Type} H w M (o : outcome Error A) (Q : _ -> _ -> _ -> _ -> Prop) :
  Q o H w M -> runs H w M (slift o) Q.
Proof. intros Hq st Hs. by exists H, w, M. Qed.

Lemma runs_ret {A : Type} H w M (a : A) (Q : _ -> _ -> _ -> _ -> Prop) : Q (Ret a) H w M -> runs H w M (sret a) Q.
Proof. apply (runs_lift H w M (Ret a)). Qed.

(** What follows a value; anything else ends the computation. *)
Definition then_ {A B : Type} (k : A -> api B) (Q : outcome Error B -> gmap nat object -> world -> locals -> Prop)
    (o : outcome Error A) H w M : Prop :=
  match o with
  | Ret a => runs H w M (k a) Q
  | Err e => Q (Err e) H w M
  | Throw x => Q (Throw x) H w M
  | UB => Q UB H w M
  end.

Lemma runs_bind {A B : Type} H w M (m : api A) (k : A -> api B) (Q : _ -> _ -> _ -> _ -> Prop) :
  runs H w M m (then_ k Q) -> runs H w M (sbind m k) Q.
Proof.
  intros Hm st Hs. destruct (Hm st Hs) as (H' & w' & M' & Hs' & Hq). unfold sbind.
  destruct (m st) as [[a|e|x|] st'] eqn:E; cbn in *; [|exists H', w', M'; cbn; auto..].
  apply Hq. by apply Hs'.
Qed.

Lemma runs_guard {A : Type} H w M (b : bool) e (k : api A) (Q : _ -> _ -> _ -> _ -> Prop) :
  (if b then runs H w M k Q else Q (Err e) H w M) -> runs H w M (guard* b else e in k) Q.
Proof. destruct b; [done|]. apply runs_lift. Qed.

(** *** Variables and objects *)

Lemma runs_read H w M t v x (Q : _ -> _ -> _ -> _ -> Prop) :
  M !! (t, v) = Some x -> Q (Ret (fst <$> x)) H w M -> runs H w M (read t v) Q.
Proof.
  intros Hm Hq st Hs. exists H, w, M. unfold read. cbn. by rewrite (sc_slot _ _ _ _ Hs _ _ Hm).
Qed.

Lemma runs_arg H w M t v x (Q : _ -> _ -> _ -> _ -> Prop) :
  M !! (t, v) = Some x -> Q (Ret (fst <$> x)) H w M -> runs H w M (arg t (Some v)) Q.
Proof. apply runs_read. Qed.

Lemma runs_deref {A : Type} H w M k l o (f : object -> option A) a (Q : _ -> _ -> _ -> _ -> Prop) :
  M !! k = Some (Some (l, o)) -> f o = Some a -> Q (Ret a) H w M -> runs H w M (deref_as f (Some l)) Q.
Proof.
  intros Hm Hf Hq st Hs. exists H, w, M. apply (sc_heap _ _ _ _ Hs) in Hm as [Hm _].
  unfold deref_as, deref, sbind. cbn. rewrite Hm. cbn. by rewrite Hf.
Qed.

Lemma runs_deref_base {A : Type} H w M l o (f : object -> option A) a (Q : _ -> _ -> _ -> _ -> Prop) :
  H !! l = Some o -> f o = Some a -> Q (Ret a) H w M -> runs H w M (deref_as f (Some l)) Q.
Proof.
  intros Hm Hf Hq st Hs. exists H, w, M. apply (scope_base _ _ _ _ _ _ Hs) in Hm.
  unfold deref_as, deref, sbind. cbn. rewrite Hm. cbn. by rewrite Hf.
Qed.

(** A variable that owns nothing is set: to null, or to a new object. *)
Lemma scope_set H w M st k x h n :
  scope H w M st -> (forall l o, M !! k <> Some (Some (l, o))) ->
  match x with
  | None => h = heap st /\ n = next st
  | Some (l, o) => l = next st /\ type_of o = k.1 /\ h = <[l := o]> (heap st) /\ n = S l
  end ->
  scope H w (<[k := x]> M)
    (mk_capi (<[k := fst <$> x]> (slots st)) h n (c_rim_world st) (c_ocsp_world st) (c_nras_requests st)).
Proof.
  intros Hs Hk Hx. pose proof (scope_next _ _ _ _ Hs) as [Hn1 Hn2].
  assert (forall l o, x = Some (l, o) -> heap st !! l = None) as Hnew.
  { intros l o ->. destruct Hx as (-> & _). apply eq_None_not_Some. intros Hx%(sc_fresh _ _ _ _ Hs). lia. }
  assert (forall l, heap st !! l = H !! l \/ exists k0 o, k0 <> k /\ M !! k0 = Some (Some (l, o))) as Hfr.
  { intros l. destruct (sc_frame _ _ _ _ Hs l) as [?|(k0 & o & Hk0)]; [by left|]. right. exists k0, o.
    split; [|done]. intros ->. by apply Hk in Hk0. }
  split; cbn; [| | | | |apply Hs].
  - intros k' x'. rewrite !lookup_insert. case_decide; [by intros [= ->]|]. apply (sc_slot _ _ _ _ Hs).
  - intros k' l' o'. rewrite lookup_insert. case_decide as E.
    + intros [= ->]. destruct Hx as (-> & ? & -> & _). subst. by rewrite lookup_insert_eq.
    + intros Hk'. pose proof Hk' as (Hl & ? & ?)%(sc_heap _ _ _ _ Hs). split; [|done].
      destruct x as [[l o]|]; [|by destruct Hx as [-> _]]. destruct Hx as (-> & _ & -> & _).
      rewrite lookup_insert_ne; [done|]. intros <-. by apply Hn2 in Hk'.
  - intros k1 k2 l' o1 o2. rewrite !lookup_insert. do 2 case_decide; subst; try done.
    + intros [= ->] Hk2. destruct Hx as (-> & _). by apply Hn2 in Hk2.
    + intros Hk1 [= ->]. destruct Hx as (-> & _). by apply Hn2 in Hk1.
    + apply (sc_inj _ _ _ _ Hs).
  - intros l'. destruct x as [[l o]|].
    + destruct Hx as (-> & _ & -> & _). rewrite lookup_insert. case_decide; [subst|].
      { right. exists k, o. by rewrite lookup_insert_eq. }
      destruct (Hfr l') as [?|(k0 & o0 & ? & ?)]; [by left|right]. exists k0, o0. by rewrite lookup_insert_ne.
    + destruct Hx as [-> _].
      destruct (Hfr l') as [?|(k0 & o0 & ? & ?)]; [by left|right]. exists k0, o0. by rewrite lookup_insert_ne.
  - intros l'. destruct x as [[l o]|]; [|destruct Hx as [-> ->]; apply (sc_fresh _ _ _ _ Hs)].
    destruct Hx as (-> & _ & -> & ->). rewrite lookup_insert. case_decide; [lia|].
    intros Hl'%(sc_fresh _ _ _ _ Hs). lia.
Qed.

(** The object of a variable is changed, or is gone with its variable. *)
Lemma scope_change H w M st k l o o' :
  scope H w M st -> M !! k = Some (Some (l, o)) -> type_of o' = type_of o ->
  scope H w (<[k := Some (l, o')]> M) (set_heap (<[l := o']> (heap st)) st).
Proof.
  intros Hs Hk Ht. pose proof Hk as (Hl & Hh & Hty)%(sc_heap _ _ _ _ Hs).
  assert (forall k' o1, k' <> k -> M !! k' <> Some (Some (l, o1))) as Hother.
  { intros k' o1 Hne Hk'. apply Hne. by eapply (sc_inj _ _ _ _ Hs). }
  split; cbn; [| | | | |apply Hs].
  - intros k' x. rewrite lookup_insert. case_decide; [|apply (sc_slot _ _ _ _ Hs)]. intros [= <-]. subst.
    by apply (sc_slot _ _ _ _ Hs) in Hk.
  - intros k' l' o1. rewrite lookup_insert. case_decide.
    + intros [= -> ->]. subst. rewrite lookup_insert_eq. by rewrite Ht.
    + intros Hk'. rewrite lookup_insert_ne; [by apply (sc_heap _ _ _ _ Hs) in Hk'|]. intros ->. by eapply Hother.
  - intros k1 k2 l' o1 o2. rewrite !lookup_insert. do 2 case_decide; subst; try done.
    + intros [= -> ->] Hk2. exfalso. by eapply Hother.
    + intros Hk1 [= -> ->]. exfalso. by eapply Hother.
    + apply (sc_inj _ _ _ _ Hs).
  - intros l'. rewrite lookup_insert. case_decide.
    + subst. right. exists k, o'. by rewrite lookup_insert_eq.
    + destruct (sc_frame _ _ _ _ Hs l') as [?|(k0 & o0 & E)]; [by left|right]. exists k0, o0.
      rewrite lookup_insert_ne; [done|]. intros ->. congruence.
  - intros l'. rewrite lookup_insert. case_decide; [|apply (sc_fresh _ _ _ _ Hs)]. subst. intros _.
    by apply (sc_fresh _ _ _ _ Hs).
Qed.

Lemma scope_delete H w M st k l o :
  scope H w M st -> M !! k = Some (Some (l, o)) -> scope H w (delete k M) (set_heap (delete l (heap st)) st).
Proof.
  intros Hs Hk. pose proof Hk as (Hl & Hh & Hty)%(sc_heap _ _ _ _ Hs).
  assert (forall k' o1, k' <> k -> M !! k' <> Some (Some (l, o1))) as Hother.
  { intros k' o1 Hne Hk'. apply Hne. by eapply (sc_inj _ _ _ _ Hs). }
  split; cbn; [| | | | |apply Hs].
  - intros k' x [_ Hk']%lookup_delete_Some. by apply (sc_slot _ _ _ _ Hs).
  - intros k' l' o1 [Hne Hk']%lookup_delete_Some. rewrite lookup_delete_ne; [by apply (sc_heap _ _ _ _ Hs) in Hk'|].
    intros ->. by eapply Hother.
  - intros k1 k2 l' o1 o2 [_ H1]%lookup_delete_Some [_ H2]%lookup_delete_Some. by eapply (sc_inj _ _ _ _ Hs).
  - intros l'. rewrite lookup_delete. case_decide; [subst; by left|].
    destruct (sc_frame _ _ _ _ Hs l') as [?|(k0 & o0 & E)]; [by left|right]. exists k0, o0.
    rewrite lookup_delete_ne; [done|]. intros ->. congruence.
  - intros l'. rewrite lookup_delete. case_decide; [by intros []|]. apply (sc_fresh _ _ _ _ Hs).
Qed.

(** A variable that owns nothing is forgotten. *)
Lemma scope_forget H w M st k :
  scope H w M st -> (forall l o, M !! k <> Some (Some (l, o))) -> scope H w (delete k M) st.
Proof.
  intros Hs Hk. split; [| | | | |apply Hs].
  - intros k' x [_ Hk']%lookup_delete_Some. by apply (sc_slot _ _ _ _ Hs).
  - intros k' l' o1 [_ Hk']%lookup_delete_Some. by apply (sc_heap _ _ _ _ Hs).
  - intros k1 k2 l' o1 o2 [_ H1]%lookup_delete_Some [_ H2]%lookup_delete_Some. by eapply (sc_inj _ _ _ _ Hs).
  - intros l'. destruct (sc_frame _ _ _ _ Hs l') as [?|(k0 & o0 & E)]; [by left|right]. exists k0, o0.
    rewrite lookup_delete_ne; [done|]. intros ->. by apply Hk in E.
  - apply (sc_fresh _ _ _ _ Hs).
Qed.

(** An object loses its owner, and one without an owner gets one. *)
Lemma scope_leak H w M st k l o :
  scope H w M st -> M !! k = Some (Some (l, o)) -> scope (<[l := o]> H) w (delete k M) st.
Proof.
  intros Hs Hk. pose proof Hk as (Hl & Hh & Hty)%(sc_heap _ _ _ _ Hs).
  split; [| | | |apply (sc_fresh _ _ _ _ Hs)|apply Hs].
  - intros k' x [_ Hk']%lookup_delete_Some. by apply (sc_slot _ _ _ _ Hs).
  - intros k' l' o1 [Hne Hk']%lookup_delete_Some. rewrite lookup_insert_ne; [by apply (sc_heap _ _ _ _ Hs)|].
    intros ->. apply Hne. by eapply (sc_inj _ _ _ _ Hs).
  - intros k1 k2 l' o1 o2 [_ H1]%lookup_delete_Some [_ H2]%lookup_delete_Some. by eapply (sc_inj _ _ _ _ Hs).
  - intros l'. rewrite lookup_insert. case_decide; [subst; by left|].
    destruct (sc_frame _ _ _ _ Hs l') as [?|(k0 & o0 & E)]; [by left|right]. exists k0, o0.
    rewrite lookup_delete_ne; [done|]. intros ->. congruence.
Qed.

Lemma scope_adopt H w M st k l o :
  scope H w M st -> H !! l = Some o -> type_of o = k.1 -> (forall l' o', M !! k <> Some (Some (l', o'))) ->
  scope (delete l H) w (<[k := Some (l, o)]> M)
    (mk_capi (<[k := Some l]> (slots st)) (heap st) (next st) (c_rim_world st) (c_ocsp_world st) (c_nras_requests st)).
Proof.
  intros Hs Hl Ht Hk. pose proof (scope_base _ _ _ _ _ _ Hs Hl) as Hh.
  assert (forall k' o1, M !! k' <> Some (Some (l, o1))) as Hother.
  { intros k' o1 (_ & Hn & _)%(sc_heap _ _ _ _ Hs). congruence. }
  split; cbn; [| | | |apply (sc_fresh _ _ _ _ Hs)|apply Hs].
  - intros k' x. rewrite !lookup_insert. case_decide; [by intros [= <-]|]. apply (sc_slot _ _ _ _ Hs).
  - intros k' l' o1. rewrite lookup_insert. case_decide.
    + intros [= <- <-]. subst. by rewrite lookup_delete_eq.
    + intros Hk'. rewrite lookup_delete_ne; [by apply (sc_heap _ _ _ _ Hs)|]. intros ->. by eapply Hother.
  - intros k1 k2 l' o1 o2. rewrite !lookup_insert. do 2 case_decide; subst; try done.
    + intros [= <- <-] Hk2. exfalso. by eapply Hother.
    + intros Hk1 [= <- <-]. exfalso. by eapply Hother.
    + apply (sc_inj _ _ _ _ Hs).
  - intros l'. rewrite lookup_delete. case_decide.
    + subst. right. exists k, o. by rewrite lookup_insert_eq.
    + destruct (sc_frame _ _ _ _ Hs l') as [?|(k0 & o0 & E)]; [by left|right]. exists k0, o0.
      rewrite lookup_insert_ne; [done|]. intros <-. by apply Hk in E.
Qed.

(** Objects without an owner. *)
Lemma scope_alloc H w M st o : scope H w M st -> scope (<[next st := o]> H) w M (alloc o st).2.
Proof.
  intros Hs. pose proof (scope_next _ _ _ _ Hs) as [Hn1 Hn2].
  split; cbn; [apply (sc_slot _ _ _ _ Hs)| |apply (sc_inj _ _ _ _ Hs)| | |apply Hs].
  - intros k l o1 Hk. rewrite !lookup_insert_ne by (intros <-; by apply Hn2 in Hk). by apply (sc_heap _ _ _ _ Hs).
  - intros l. rewrite !lookup_insert. case_decide; [by left|]. apply (sc_frame _ _ _ _ Hs).
  - intros l. rewrite lookup_insert. case_decide; [lia|]. intros Hl%(sc_fresh _ _ _ _ Hs). lia.
Qed.

Lemma scope_change_base H w M st l o o' :
  scope H w M st -> H !! l = Some o -> scope (<[l := o']> H) w M (set_heap (<[l := o']> (heap st)) st).
Proof.
  intros Hs Hl. pose proof (scope_base _ _ _ _ _ _ Hs Hl) as Hh.
  assert (forall k' o1, M !! k' <> Some (Some (l, o1))) as Hother.
  { intros k' o1 (_ & Hn & _)%(sc_heap _ _ _ _ Hs). congruence. }
  split; cbn; [apply (sc_slot _ _ _ _ Hs)| |apply (sc_inj _ _ _ _ Hs)| | |apply Hs].
  - intros k l' o1 Hk. rewrite !lookup_insert_ne by (intros <-; by apply Hother in Hk). by apply (sc_heap _ _ _ _ Hs).
  - intros l'. rewrite !lookup_insert. case_decide; [by left|]. apply (sc_frame _ _ _ _ Hs).
  - intros l'. rewrite lookup_insert. case_decide; [|apply (sc_fresh _ _ _ _ Hs)]. subst. intros _.
    by apply (sc_fresh _ _ _ _ Hs).
Qed.

Lemma scope_delete_base H w M st l o :
  scope H w M st -> H !! l = Some o -> scope (delete l H) w M (set_heap (delete l (heap st)) st).
Proof.
  intros Hs Hl.
  assert (forall k' o1, M !! k' <> Some (Some (l, o1))) as Hother.
  { intros k' o1 (_ & Hn & _)%(sc_heap _ _ _ _ Hs). congruence. }
  split; cbn; [apply (sc_slot _ _ _ _ Hs)| |apply (sc_inj _ _ _ _ Hs)| | |apply Hs].
  - intros k l' o1 Hk. rewrite !lookup_delete_ne by (intros <-; by apply Hother in Hk). by apply (sc_heap _ _ _ _ Hs).
  - intros l'. rewrite !lookup_delete. case_decide; [by left|]. apply (sc_frame _ _ _ _ Hs).
  - intros l'. rewrite lookup_delete. case_decide; [by intros []|]. apply (sc_fresh _ _ _ _ Hs).
Qed.

Lemma scope_world H w M st rw ow n :
  scope H w M st -> scope H (rw, ow, n) M (mk_capi (slots st) (heap st) (next st) rw ow n).
Proof. intros []. by split. Qed.

(** A variable that can be set without losing an object. *)
Definition spare M (k : key) : Prop := forall l o, M !! k <> Some (Some (l, o)).

Lemma spare_none M k : M !! k = None -> spare M k.
Proof. intros Hk l o. by rewrite Hk. Qed.

Lemma spare_null M k : M !! k = Some None -> spare M k.
Proof. intros Hk l o. by rewrite Hk. Qed.

(** *** The operations of the heap *)

Lemma runs_null H w M t v (Q : _ -> _ -> _ -> _ -> Prop) :
  spare M (t, v) -> Q (Ret tt) H w (<[(t, v) := None]> M) -> runs H w M (write t (Some v) None) Q.
Proof.
  intros Hk Hq st Hs. exists H, w, (<[(t, v) := None]> M). split; [intros _|done].
  by apply (scope_set _ _ _ _ (t, v) None).
Qed.

Lemma runs_emit H w M v o (Q : _ -> _ -> _ -> _ -> Prop) :
  spare M (type_of o, v) ->
  (forall l, H !! l = None -> Q (Ret tt) H w (<[(type_of o, v) := Some (l, o)]> M)) ->
  runs H w M (emit (Some v) o) Q.
Proof.
  intros Hk Hq st Hs. exists H, w, (<[(type_of o, v) := Some (next st, o)]> M).
  split; [intros _|by apply Hq, (scope_next _ _ _ _ Hs)]. 
  exact (scope_set _ _ _ _ (type_of o, v) (Some (next st, o)) (<[next st := o]> (heap st)) (S (next st)) Hs Hk
    (conj eq_refl (conj eq_refl (conj eq_refl eq_refl)))).
Qed.

Lemma runs_assign H w M k l o o' (Q : _ -> _ -> _ -> _ -> Prop) :
  M !! k = Some (Some (l, o)) -> type_of o' = type_of o -> Q (Ret tt) H w (<[k := Some (l, o')]> M) ->
  runs H w M (assign (Some l) o') Q.
Proof.
  intros Hk Ht Hq st Hs. exists H, w, (<[k := Some (l, o')]> M). unfold assign.
  pose proof Hk as (-> & _)%(sc_heap _ _ _ _ Hs). cbn. rewrite Ht, bool_decide_true by done.
  split; [intros _|done]. by eapply scope_change.
Qed.

Lemma runs_assign_base H w M l o o' (Q : _ -> _ -> _ -> _ -> Prop) :
  H !! l = Some o -> type_of o' = type_of o -> Q (Ret tt) (<[l := o']> H) w M -> runs H w M (assign (Some l) o') Q.
Proof.
  intros Hl Ht Hq st Hs. exists (<[l := o']> H), w, M. unfold assign.
  pose proof (scope_base _ _ _ _ _ _ Hs Hl) as ->. cbn. rewrite Ht, bool_decide_true by done.
  split; [intros _|done]. by eapply scope_change_base.
Qed.

Lemma runs_delete H w M k l o (Q : _ -> _ -> _ -> _ -> Prop) :
  M !! k = Some (Some (l, o)) -> Q (Ret tt) H w (delete k M) -> runs H w M (delete_object (Some l)) Q.
Proof.
  intros Hk Hq st Hs. exists H, w, (delete k M). unfold delete_object, deref, sbind. cbn.
  pose proof Hk as (-> & _)%(sc_heap _ _ _ _ Hs). cbn. split; [intros _|done]. by eapply scope_delete.
Qed.

Lemma runs_delete_base H w M l o (Q : _ -> _ -> _ -> _ -> Prop) :
  H !! l = Some o -> Q (Ret tt) (delete l H) w M -> runs H w M (delete_object (Some l)) Q.
Proof.
  intros Hl Hq st Hs. exists (delete l H), w, M. unfold delete_object, deref, sbind. cbn.
  pose proof (scope_base _ _ _ _ _ _ Hs Hl) as ->. cbn. split; [intros _|done]. by eapply scope_delete_base.
Qed.

Lemma runs_alloc H w M o (Q : _ -> _ -> _ -> _ -> Prop) :
  (forall l, H !! l = None -> Q (Ret (Some l)) (<[l := o]> H) w M) -> runs H w M (alloc o) Q.
Proof.
  intros Hq st Hs. exists (<[next st := o]> H), w, M. split; [intros _; by apply scope_alloc|].
  by apply Hq, (scope_next _ _ _ _ Hs).
Qed.

(** A variable takes an object that has no owner. *)
Lemma runs_adopt H w M t v l o (Q : _ -> _ -> _ -> _ -> Prop) :
  H !! l = Some o -> type_of o = t -> spare M (t, v) -> Q (Ret tt) (delete l H) w (<[(t, v) := Some (l, o)]> M) ->
  runs H w M (write t (Some v) (Some l)) Q.
Proof.
  intros Hl Ht Hk Hq st Hs. exists (delete l H), w, (<[(t, v) := Some (l, o)]> M). split; [intros _|done].
  by apply scope_adopt.
Qed.

Lemma runs_free H w M t v x (Q : _ -> _ -> _ -> _ -> Prop) :
  M !! (t, v) = Some x -> Q (Ret tt) H w (<[(t, v) := None]> M) -> runs H w M (free t (Some v)) Q.
Proof.
  intros Hk Hq. apply runs_bind. eapply runs_read; [done|]. cbn. destruct x as [[l o]|]; cbn.
  2: { apply runs_ret. by rewrite insert_id in Hq. }
  apply runs_bind. intros st Hs. pose proof Hk as (_ & _ & Ht)%(sc_heap _ _ _ _ Hs). revert st Hs.
  eapply runs_deref; [done|by rewrite bool_decide_true|].
  apply runs_bind. eapply runs_delete; [done|]. apply runs_null.
  - apply spare_none, lookup_delete_eq.
  - by rewrite insert_delete_eq.
Qed.

(** A variable is copied to another, which owns the object from then on. *)
Lemma runs_move H w M t v v' x (Q : _ -> _ -> _ -> _ -> Prop) :
  M !! (t, v) = Some x -> spare M (t, v') -> v <> v' ->
  Q (Ret tt) H w (<[(t, v') := x]> (delete (t, v) M)) -> runs H w M (write t (Some v') (fst <$> x)) Q.
Proof.
  intros Hk Hk' Hv Hq. assert (spare (delete (t, v) M) (t, v')) as Hsp.
  { intros l o. rewrite lookup_delete_ne by congruence. apply Hk'. }
  destruct x as [[l o]|]; cbn.
  - intros st Hs. pose proof Hk as (_ & Hn & Ht)%(sc_heap _ _ _ _ Hs). cbn in Ht.
    exists H, w, (<[(t, v') := Some (l, o)]> (delete (t, v) M)). split; [intros _|done].
    replace H with (delete l (<[l := o]> H)) by by rewrite delete_insert_eq, delete_id.
    apply scope_adopt; [by apply scope_leak|apply lookup_insert_eq|done|done].
  - intros st Hs. exists H, w, (<[(t, v') := None]> (delete (t, v) M)). split; [intros _|done].
    refine (scope_set _ _ _ _ (t, v') None (heap st) (next st) _ Hsp (conj eq_refl eq_refl)).
    apply scope_forget; [done|]. intros l o. congruence.
Qed.

(** A computation on a context. *)
Lemma runs_with_state {A : Type} H w M c (f : sm (state (U:=U) (WU:=WU) (V:=V) (WV:=WV)) Error A)
    (Q : _ -> _ -> _ -> _ -> Prop) :
  (forall o s, f (mk_state c w.1.1 w.1.2 w.2 []) = (o, s) ->
     Q (Ret (o, context s, claims s)) H (rim_world s, ocsp_world s, nras_requests s) M) ->
  runs H w M (with_state c f) Q.
Proof.
  intros Hq st Hs. unfold with_state. pose proof (sc_world _ _ _ _ Hs) as Hw. unfold world_of in Hw. subst w. cbn in *.
  destruct (f _) as [o s] eqn:E. exists H, (rim_world s, ocsp_world s, nras_requests s), M. cbn.
  split; [intros _; by eapply scope_world|]. by apply Hq.
Qed.

(** *** Owners *)

(** [m], and then [destroy], however [m] ends. *)
Definition finally {S A : Type} (destroy : sm S Error unit) (m : sm S Error A) : sm S Error A := fun s =>
  let '(r, s) := m s in
  match r with
  | UB => (UB, s)
  | _ => match destroy s with (UB, s) => (UB, s) | (_, s) => (r, s) end
  end.

(** What [m] does while a variable owns its object ([nv_unique_ptr]). *)
Definition owning {A : Type} (t : ctype) (v : nat) (m : api A) : api A := finally (free t (Some v)) m.

Lemma runs_finally {A : Type} H w M (destroy : api unit) (m : api A) (Q : _ -> _ -> _ -> _ -> Prop) :
  runs H w M m (fun o H' w' M' => (o = UB -> Q UB H' w' M') /\
    (o <> UB -> runs H' w' M' destroy (fun d H1 w1 M1 => d <> UB /\ Q o H1 w1 M1))) ->
  runs H w M (finally destroy m) Q.
Proof.
  intros Hm st Hs. destruct (Hm st Hs) as (H' & w' & M' & Hs' & Hu & Hq). unfold finally.
  destruct (m st) as [r st'] eqn:E. cbn [fst snd] in *.
  assert (r = UB \/ r <> UB) as [-> | Hr] by (destruct r; auto).
  { exists H', w', M'. split; [done|]. by apply Hu. }
  destruct (Hq Hr st' (Hs' Hr)) as (H1 & w1 & M1 & Hs1 & Hd & Hq').
  destruct (destroy st') as [d sd]. cbn [fst snd] in *. exists H1, w1, M1.
  destruct r; [| | |done]; (destruct d; [..|done]); (split; [intros _; by apply Hs1|exact Hq']).
Qed.

Lemma runs_owning {A : Type} H w M t v (m : api A) (Q : _ -> _ -> _ -> _ -> Prop) :
  runs H w M m (fun o H' w' M' => (o = UB -> Q UB H' w' M') /\
    (o <> UB -> is_Some (M' !! (t, v)) /\ Q o H' w' (<[(t, v) := None]> M'))) ->
  runs H w M (owning t v m) Q.
Proof.
  intros Hm. apply runs_finally. eapply runs_weaken; [exact Hm|]. intros o H' w' M' [Hu Hq]. split; [done|].
  intros Ho. destruct (Hq Ho) as [[x Hx] Hq']. by eapply runs_free.
Qed.

(** The object of a variable that goes out of scope without an owner. *)
Lemma runs_leak {A : Type} H w M k (m : api A) (Q : _ -> _ -> _ -> _ -> Prop) :
  runs H w M m (fun o H' w' M' => (o = UB -> Q UB H' w' M') /\
    (o <> UB -> exists l obj, M' !! k = Some (Some (l, obj)) /\ (H' !! l = None -> Q o (<[l := obj]> H') w' (delete k M')))) ->
  runs H w M m Q.
Proof.
  intros Hm st Hs. destruct (Hm st Hs) as (H' & w' & M' & Hs' & Hu & Hq).
  assert ((m st).1 = UB \/ (m st).1 <> UB) as [E | Hr] by (destruct (m st) as [[] ?]; cbn; auto).
  { exists H', w', M'. rewrite E in *. split; [done|by apply Hu]. }
  destruct (Hq Hr) as (l & obj & Hk & Hq'). specialize (Hs' Hr).
  exists (<[l := obj]> H'), w', (delete k M'). split; [intros _; by apply scope_leak|].
  apply Hq'. by apply (sc_heap _ _ _ _ Hs') in Hk as (_ & ? & _).
Qed.

(** The boundary of a call: an exception is an internal error. *)
Definition c_call {S A : Type} (m : sm S Error A) : sm S Error A := fun s =>
  match m s with (Throw _, s) => (Err InternalError, s) | r => r end.

Definition returned {A : Type} (o : outcome Error A) : outcome Error A :=
  match o with Throw _ => Err InternalError | o => o end.

Lemma runs_c_call {A : Type} H w M (m : api A) (Q : _ -> _ -> _ -> _ -> Prop) :
  runs H w M m (fun o => Q (returned o)) -> runs H w M (c_call m) Q.
Proof.
  intros Hm st Hs. destruct (Hm st Hs) as (H' & w' & M' & Hs' & Hq). exists H', w', M'. unfold c_call.
  destruct (m st) as [[a|e|x|] st']; cbn in *; split; try done; intros _; by apply Hs'.
Qed.

Lemma runs_returns {A : Type} H w M (rc : A -> Z) (m : api A) (Q : _ -> _ -> _ -> _ -> Prop) :
  runs H w M m (fun o => Q (match o with
                            | Ret a => Ret (rc a)
                            | Err e => Ret (error_code e)
                            | Throw _ => Ret (error_code InternalError)
                            | UB => UB
                            end)) -> runs H w M (returns rc m) Q.
Proof.
  intros Hm st Hs. destruct (Hm st Hs) as (H' & w' & M' & Hs' & Hq). exists H', w', M'. unfold returns.
  destruct (m st) as [[a|e|x|] st']; cbn in *; split; try done; intros _; by apply Hs'.
Qed.

End locals.

(** Steps of a computation over variables: the head of a sequence, with the
    facts about variables by computation. *)
Ltac var_lookup := first
  [ eassumption
  | apply lookup_insert_eq
  | rewrite lookup_insert_ne by done; var_lookup
  | rewrite lookup_delete_eq; reflexivity
  | rewrite lookup_delete_ne by done; var_lookup ].

Ltac var_spare := first
  [ assumption
  | apply spare_null; var_lookup
  | apply spare_none; var_lookup ].

(** Arguments that are given, and the outcome of the step before. *)
Ltac given := repeat match goal with
  | |- context [given_ptr (Some ?x)] => change (given_ptr (Some x)) with true
  end; cbv beta iota; cbn [negb andb].

Ltac tidy := cbn [then_ returned fmap option_fmap option_map fst snd type_of]; given; rewrite ?insert_insert_eq.

End Locals.
