(* ===== verification/CliOptions.v ===== *)
(** * CliOptions: the options of the command line tool

    src/nvattest_options.h, and the options' part of src/utils.cpp and
    src/attest.cpp of the repository's src/nv-attestation-cli: the options, the
    checks after the command line was parsed, and the two readers of what the
    offline mode is given.  The parser of the command line (CLI11) is a
    parameter. *)

From S2P Require Import Prelude Errors Utils OpenSsl StatusBundle NvCache Ocsp X509Chain Json Claims Evaluator DetachedEat.
From S2P Require Import Http Jwt Certs Base64 Rim Report GpuEvidence SwitchEvidence Verify GpuVerify SwitchVerify.
From S2P Require Import Driver NvmlClient NscqClient Sdk Attestation Nvat Locals.

(** CLI11: the validator of a file that exists (the empty text when it does),
    and the value of an option that was given, on the command line or by its
    environment variable. *)
Class CommandLine : Type := {
  ExistingFile : string -> string;
  option_value : string -> option string;
}.

Module Options.

(** ** The options *)

Record EvidenceCollectionOptions : Type := mk_collection {
  nonce : string;
  device : string;
  gpu_evidence_source : string;
  switch_evidence_source : string;
  gpu_evidence_file : string;
  switch_evidence_file : string;
  gpu_architecture : string;
}.

Record EvidencePolicyOptions : Type := mk_policy_options {
  verify_rim_signature : bool;
  verify_rim_cert_chain : bool;
}.

Record EvidenceVerificationOptions : Type := mk_verification {
  verifier : string;
  relying_party_policy : string;
  rim_store : string;
  rim_url : string;
  rim_path : string;
  ocsp_url : string;
  nras_url : string;
  service_key : string;
  ca_bundle_path : string;
  ocsp_proof_bundle : string;
  ocsp_verification_time : string;
}.

Record CommonOptions : Type := mk_common {
  log_level_str : string;
  format : string;
}.

Definition pretty_device (o : EvidenceCollectionOptions) : string :=
  if bool_decide (device o = "gpu") then "GPU"
  else if bool_decide (device o = "nvswitch") then "NVSwitch"
  else device o.

Definition offline_status_proofs (o : EvidenceVerificationOptions) : bool :=
  negb (bool_decide (ocsp_proof_bundle o = "")).

Definition get_log_level (o : CommonOptions) : Z :=
  if bool_decide (log_level_str o = "trace") then Sdk.NVAT_LOG_LEVEL_TRACE
  else if bool_decide (log_level_str o = "debug") then Sdk.NVAT_LOG_LEVEL_DEBUG
  else if bool_decide (log_level_str o = "info") then Sdk.NVAT_LOG_LEVEL_INFO
  else if bool_decide (log_level_str o = "warn") then Sdk.NVAT_LOG_LEVEL_WARN
  else if bool_decide (log_level_str o = "error") then Sdk.NVAT_LOG_LEVEL_ERROR
  else if bool_decide (log_level_str o = "off") then Sdk.NVAT_LOG_LEVEL_OFF
  else Sdk.NVAT_LOG_LEVEL_INFO.

(** ** Characters *)

Definition is_digit (c : Ascii.ascii) : bool := (48 <=? ascii_byte c) && (ascii_byte c <=? 57).

(** [find_first_not_of] finds nothing. *)
Definition only (p : Ascii.ascii -> bool) (s : string) : bool := forallb p (String.list_ascii_of_string s).

Definition size (s : string) : Z := Z.of_nat (String.length s).

(** ** Reading what the offline mode is given *)

Definition MAX_BUNDLE_BYTES : Z := 16384.

(** A file that cannot be opened is [None]; at most one byte more than the
    limit is read. *)
Definition read_status_proof_bundle (file : option string) : res (list Z) :=
  match file with
  | None => Err BadArgument
  | Some contents =>
      let bundle := take (Z.to_nat (MAX_BUNDLE_BYTES + 1)) (bytes_of_string contents) in
      let read := zlen bundle in
      check* negb ((read <=? 0) || (MAX_BUNDLE_BYTES <? read)) else BadArgument in
      Ret bundle
  end.

(** A result that an [int64_t] does not hold is undefined. *)
Definition s64_or_ub (z : Z) : res Z := if (- 2 ^ 63 <=? z) && (z <? 2 ^ 63) then Ret z else UB.

Definition next_digit (parsed : Z) (digit : Ascii.ascii) : res Z :=
  let* tens := s64_or_ub (parsed * 10) in s64_or_ub (tens + (ascii_byte digit - 48)).

Definition parse_verification_time (value : string) : res Z :=
  check* negb (bool_decide (value = "") || (18 <? size value) || negb (only is_digit value)) else BadArgument in
  let* parsed := ofold next_digit (String.list_ascii_of_string value) 0 in
  check* negb (parsed <=? 0) else BadArgument in
  Ret parsed.

(** ** Checks after parsing

    [CLI::ValidationError]: the option and the message. *)
Abbreviation validation := (outcome (string * string) unit).

Section validate.
Context `{CL : CommandLine} `{P : Http.Platform}.

Definition existing (option path : string) : validation :=
  let result := ExistingFile path in
  check* bool_decide (result = "") else (option, result) in Ret tt.

Definition validate_evidence_collection_options (o : EvidenceCollectionOptions) : validation :=
  let* _ :=
    if bool_decide (device o = "gpu") && bool_decide (gpu_evidence_source o = "file") then
      check* negb (bool_decide (gpu_evidence_file o = ""))
        else ("--gpu-evidence-file", "--gpu-evidence-file must be provided when --gpu-evidence-source=file") in
      existing "--gpu-evidence-file" (gpu_evidence_file o)
    else Ret tt in
  check* negb (bool_decide (device o = "gpu") && bool_decide (gpu_evidence_source o = "corelib") &&
               bool_decide (gpu_architecture o = ""))
    else ("--gpu-architecture", "--gpu-architecture is required when --gpu-evidence-source=corelib") in
  if bool_decide (device o = "nvswitch") && bool_decide (switch_evidence_source o = "file") then
    check* negb (bool_decide (switch_evidence_file o = ""))
      else ("--nvswitch-evidence-file", "--nvswitch-evidence-file must be provided when --nvswitch-evidence-source=file") in
    existing "--nvswitch-evidence-file" (switch_evidence_file o)
  else Ret tt.

(** An option that has another value than its environment variable. *)
Definition given_on_command_line (name envname : string) : bool :=
  match option_value name with
  | None => false
  | Some value => match Http.getenv envname with None => true | Some environment => negb (bool_decide (value = environment)) end
  end.

Definition network_options : list (string * string) :=
  [("--ocsp-url", "NVAT_OCSP_BASE_URL"); ("--rim-url", "NVAT_RIM_SERVICE_BASE_URL"); ("--nras-url", "NVAT_NRAS_BASE_URL");
   ("--service-key", "NV_ATTESTATION_SERVICE_KEY"); ("--ca-bundle", "NVAT_CA_BUNDLE")].

Fixpoint no_network_option (options : list (string * string)) : validation :=
  match options with
  | [] => Ret tt
  | (name, envname) :: options =>
      check* negb (given_on_command_line name envname)
        else (name, "cannot be combined with --ocsp-proof-bundle, which contacts no service") in
      no_network_option options
  end.

Definition is_zero (c : Ascii.ascii) : bool := ascii_byte c =? 48.

Definition validate_offline_status_options (o : EvidenceVerificationOptions) : validation :=
  let time := ocsp_verification_time o in
  check* negb (bool_decide (time = "") || (18 <? size time) || negb (only is_digit time) || only is_zero time)
    else ("--ocsp-verification-time", "--ocsp-proof-bundle needs a positive decimal --ocsp-verification-time") in
  check* bool_decide (verifier o = "local") else ("--ocsp-proof-bundle", "requires --verifier local") in
  check* bool_decide (rim_store o = "dir") else ("--ocsp-proof-bundle", "requires --rim-store dir") in
  no_network_option network_options.

(** What is wrong with the CA bundle. *)
Definition ca_bundle_message (path : string) : string :=
  if bool_decide (path = "") then "No readable CA bundle was found; provide one with --ca-bundle or NVAT_CA_BUNDLE."
  else
    let tier := if bool_decide (Http.getenv "NVAT_CA_BUNDLE" = Some path) then "--ca-bundle or NVAT_CA_BUNDLE"
                else "--ca-bundle" in
    "CA bundle path '" +:+ path +:+ "' from " +:+ tier +:+
    " does not exist or is not readable; provide a readable file with --ca-bundle or NVAT_CA_BUNDLE.".

End validate.

(** *** The callback of the subcommands *)

Section callback.
Import Nvat Locals.
Context `{OSSL : OpenSSL} `{XML : LibXml2} `{env : Eat.Env} `{B64 : Base64Lib} `{L : JwtLib}.
Context `{CL : CommandLine} `{P : Http.Platform} `{W : Attestation.World}.
Context {U WU V WV : Type} `{RS : !Rim.IRimStore (U * WU)} `{OC : !IOcspHttpClient (V * WV)}.

Abbreviation capi := (Nvat.capi (U:=U) (WU:=WU) (V:=V) (WV:=WV)).
Abbreviation api := (sm capi Error).

(** Options that are made, given the path, and freed. *)
Definition ca_bundle_rc (path : string) : api Z :=
  do* _ := write T_http_options (Some 0%nat) None in
  do* rc := exec (HttpOptionsCreateDefault (Some 0%nat)) in
  do* rc := if rc =? error_code Ok then exec (HttpOptionsSetCaBundlePath (Some 0%nat) (Some path)) else sret rc in
  do* _ := exec (Free T_http_options (Some 0%nat)) in
  sret rc.

(** [collection_options] may be null. *)
Definition parse_complete_callback (options : EvidenceVerificationOptions)
    (collection_options : option EvidenceCollectionOptions) (st : capi) : validation * capi :=
  let checked :=
    let* _ := match collection_options with None => Ret tt | Some o => validate_evidence_collection_options o end in
    check* negb (negb (bool_decide (ocsp_verification_time options = "")) && negb (offline_status_proofs options))
      else ("--ocsp-verification-time", "is only used with --ocsp-proof-bundle") in
    if offline_status_proofs options then validate_offline_status_options options else Ret tt in
  match checked with
  | Ret _ =>
      if offline_status_proofs options then (Ret tt, st)
      else
        match ca_bundle_rc (ca_bundle_path options) st with
        | (Ret rc, st) =>
            ((if rc =? error_code Ok then Ret tt else Err ("--ca-bundle", ca_bundle_message (ca_bundle_path options))), st)
        | (_, st) => (UB, st)
        end
  | r => (r, st)
  end.

End callback.

(** ** Lemmas *)

(** The number a text of digits stands for. *)
Definition decimal (l : list Ascii.ascii) : Z := foldl (fun n d => 10 * n + (ascii_byte d - 48)) 0 l.

Definition decimal_from (n : Z) (l : list Ascii.ascii) : Z := foldl (fun n d => 10 * n + (ascii_byte d - 48)) n l.

Lemma is_digit_range c : is_digit c = true -> 0 <= ascii_byte c - 48 <= 9.
Proof. unfold is_digit. lia. Qed.

Lemma decimal_from_bounds n l :
  forallb is_digit l = true -> 0 <= n ->
  n * 10 ^ zlen l <= decimal_from n l < (n + 1) * 10 ^ zlen l.
Proof.
  revert n. induction l as [|c l IH]; intros n Hl Hn; cbn [decimal_from foldl].
  { change (zlen []) with 0. rewrite Z.pow_0_r. lia. }
  cbn [forallb] in Hl. apply andb_true_iff in Hl as [Hc%is_digit_range Hl].
  fold (decimal_from (10 * n + (ascii_byte c - 48)) l).
  destruct (IH (10 * n + (ascii_byte c - 48)) Hl ltac:(lia)) as [H1 H2].
  rewrite zlen_cons, Z.pow_add_r by (unfold zlen; lia). change (10 ^ 1) with 10.
  pose proof (Z.pow_nonneg 10 (zlen l) ltac:(lia)). nia.
Qed.

Lemma next_digit_ofold n l :
  forallb is_digit l = true -> 0 <= n -> (n + 1) * 10 ^ zlen l <= 10 ^ 18 ->
  ofold next_digit l n = Ret (decimal_from n l).
Proof.
  revert n. induction l as [|c l IH]; intros n Hl Hn Hb; [done|].
  cbn [forallb] in Hl. apply andb_true_iff in Hl as [Hc%is_digit_range Hl].
  rewrite zlen_cons, Z.pow_add_r in Hb by (unfold zlen; lia). change (10 ^ 1) with 10 in Hb.
  pose proof (Z.pow_pos_nonneg 10 (zlen l) ltac:(lia) ltac:(unfold zlen; lia)) as Hp.
  cbn [ofold]. unfold next_digit at 1, s64_or_ub.
  assert (n * 10 + 10 <= 10 ^ 18) as Hn10 by nia.
  replace (_ && _) with true by lia. cbn [obind]. replace (_ && _) with true by lia. cbn [obind].
  replace (n * 10 + (ascii_byte c - 48)) with (10 * n + (ascii_byte c - 48)) by lia.
  apply IH; [done|lia|nia].
Qed.

Lemma decimal_zero l : forallb is_digit l = true -> (decimal l = 0 <-> forallb is_zero l = true).
Proof.
  enough (forall n, 0 <= n -> forallb is_digit l = true -> (decimal_from n l = 0 <-> n = 0 /\ forallb is_zero l = true))
    as He. { intros Hl. rewrite (He 0 ltac:(lia) Hl). tauto. }
  induction l as [|c l IH]; intros n Hn Hl; cbn [decimal_from foldl forallb].
  { tauto. }
  cbn [forallb] in Hl. apply andb_true_iff in Hl as [Hc%is_digit_range Hl].
  rewrite (IH (10 * n + (ascii_byte c - 48)) ltac:(lia) Hl), andb_true_iff.
  unfold is_zero at 2. split; [intros [? ?]; split_and!; [lia|lia|done]|intros (? & ? & ?); split; [lia|done]].
Qed.

Lemma string_chars s : s = "" <-> String.list_ascii_of_string s = [].
Proof. by destruct s. Qed.

Lemma size_chars s : size s = zlen (String.list_ascii_of_string s).
Proof. unfold size, zlen. f_equal. induction s as [|c s IH]; [done|]. cbn. by rewrite IH. Qed.

Lemma parse_time_eq value :
  parse_verification_time value =
    if negb (bool_decide (value = "") || (18 <? size value) || negb (only is_digit value) || only is_zero value)
    then Ret (decimal (String.list_ascii_of_string value)) else Err BadArgument.
Proof.
  unfold parse_verification_time. set (l := String.list_ascii_of_string value).
  destruct (bool_decide (value = "") || (18 <? size value) || negb (only is_digit value)) eqn:E; [done|].
  apply orb_false_iff in E as [[Hne Hs]%orb_false_iff Hd%negb_false_iff]. cbn [negb orb].
  apply bool_decide_eq_false in Hne. rewrite string_chars in Hne. fold l in Hne.
  rewrite size_chars in Hs. fold l in Hs. unfold only in *. fold l in Hd. fold l.
  assert (10 ^ zlen l <= 10 ^ 18) as Hp by (apply Z.pow_le_mono_r; lia).
  rewrite (next_digit_ofold 0 l Hd) by lia. cbn [obind]. fold (decimal l).
  pose proof (decimal_from_bounds 0 l Hd ltac:(lia)) as [Hlo _]. fold (decimal l) in Hlo.
  destruct (forallb is_zero l) eqn:Ez.
  - apply decimal_zero in Ez; [|done]. change (decimal_from 0 l) with (decimal l) in *. rewrite Ez. done.
  - change (decimal_from 0 l) with (decimal l) in *. replace (decimal l <=? 0) with false; [done|].
    symmetry. apply Z.leb_gt. assert (decimal l <> 0); [|lia]. intros Hz. apply decimal_zero in Hz; [|done]. congruence.
Qed.

Section properties.
Import Nvat Locals.
Context `{OSSL : OpenSSL} `{XML : LibXml2} `{env : Eat.Env} `{B64 : Base64Lib} `{L : JwtLib}.
Context `{CL : CommandLine} `{P : Http.Platform} `{W : Attestation.World}.
Context {U WU V WV : Type} `{RS : !Rim.IRimStore (U * WU)} `{OC : !IOcspHttpClient (V * WV)}.

Lemma ca_bundle_rc_runs H w M path (Q : _ -> _ -> _ -> _ -> Prop) :
  spare M (T_http_options, 0%nat) ->
  Q (Ret (error_code (Http.set_ca_bundle_path Http.HttpOptions_default path).1)) H w (<[(T_http_options, 0%nat) := None]> M) ->
  runs (WU:=WU) (WV:=WV) H w M (ca_bundle_rc path) Q.
Proof.
  intros Hm Hq. apply runs_bind, runs_null; [done|]. apply runs_bind. cbn [exec].
  apply runs_returns. unfold nvat_http_options_create_default. cbn [given_ptr].
  apply runs_emit; [var_spare|]. intros l _. cbn [then_ type_of]. rewrite insert_insert_eq.
  change (error_code Ok =? error_code Ok) with true. cbv beta iota.
  apply runs_bind. cbn [exec]. apply runs_returns, runs_bind. eapply runs_arg; [var_lookup|].
  cbn [then_ fmap option_fmap option_map fst]. apply runs_bind. eapply runs_deref; [var_lookup|done|]. cbn [then_].
  destruct (Http.set_ca_bundle_path Http.HttpOptions_default path) as [err o] eqn:E.
  apply runs_bind. eapply runs_assign; [var_lookup|done|]. cbn [then_]. rewrite insert_insert_eq.
  assert (forall e, e = error_code err -> runs (WU:=WU) (WV:=WV) H w
    (<[(T_http_options, 0%nat) := Some (l, o_http_options o)]> M)
    (do* _ := exec (Free T_http_options (Some 0%nat)) in sret e) Q) as Hfree.
  { intros e ->. apply runs_bind. cbn [exec]. apply runs_returns. eapply runs_free; [var_lookup|].
    rewrite insert_insert_eq. by apply runs_ret. }
  apply runs_lift. case_bool_decide as He; apply Hfree; [by rewrite He|done].
Qed.

(** P: the time of the offline mode is read exactly: a text of 1 to 18 digits
    that is not zero is the number it stands for, any other text is refused,
    and no text overflows. *)
Theorem verification_time_iff value n :
  defined (parse_verification_time value) /\
  (parse_verification_time value = Ret n <->
   1 <= size value <= 18 /\ only is_digit value = true /\ n = decimal (String.list_ascii_of_string value) /\ 0 < n < 10 ^ 18).
Proof.
  rewrite parse_time_eq. set (l := String.list_ascii_of_string value). split; [by destruct (negb _)|].
  pose proof (size_chars value) as Hs. fold l in Hs.
  assert (value = "" <-> size value = 0) as He.
  { rewrite string_chars. fold l. rewrite Hs. unfold zlen. split; [by intros ->|]. by destruct l. }
  assert (0 <= size value) as Hpos by (unfold size; lia).
  unfold only. fold l. destruct (forallb is_digit l) eqn:Hd; cbn [negb].
  2: { rewrite orb_true_r. cbn. split; [done|]. by intros (_ & ? & _). }
  rewrite orb_false_r. pose proof (decimal_from_bounds 0 l Hd ltac:(lia)) as [Hlo Hhi]. fold (decimal l) in Hlo, Hhi.
  change (decimal_from 0 l) with (decimal l) in *. pose proof (decimal_zero l Hd) as Hz.
  destruct (bool_decide (value = "")) eqn:E1; cbn [orb negb].
  { apply bool_decide_eq_true in E1. rewrite He in E1. split; [done|]. lia. }
  apply bool_decide_eq_false in E1. rewrite He in E1.
  destruct (18 <? size value) eqn:E2; cbn [orb negb]; [split; [done|lia]|].
  assert (10 ^ zlen l <= 10 ^ 18) as Hp by (apply Z.pow_le_mono_r; lia).
  destruct (forallb is_zero l) eqn:E3; cbn [negb].
  { split; [done|]. rewrite (proj2 Hz) by done. lia. }
  assert (decimal l <> 0) by (rewrite Hz; done).
  split; [intros [= <-]; split_and!; lia|]. by intros (_ & _ & -> & _).
Qed.

Lemma no_network_option_Ret options :
  no_network_option options = Ret tt <-> Forall (fun o => given_on_command_line o.1 o.2 = false) options.
Proof.
  induction options as [|[name envname] options IH]; cbn [no_network_option]; [by split; [constructor|]|].
  rewrite Forall_cons. cbn. destruct (given_on_command_line name envname); cbn; [split; [done|by intros [? _]]|].
  rewrite IH. tauto.
Qed.

(** P: what the command line has to be.  Options that are accepted for the
    offline mode have a time that can be read, a local verifier and a directory
    of RIMs, and no option of a network service but from the environment;
    other options have no time and a CA bundle that can be read.  The check
    leaves no object behind. *)
Theorem accepted_options options collection st st' :
  (forall l, is_Some (heap st !! l) -> (l < next st)%nat) ->
  parse_complete_callback (WU:=WU) (WV:=WV) options collection st = (Ret tt, st') ->
  heap st' = heap st /\
  if offline_status_proofs options then
    (exists t, parse_verification_time (ocsp_verification_time options) = Ret t) /\
    verifier options = "local" /\ rim_store options = "dir" /\
    Forall (fun o => given_on_command_line o.1 o.2 = false) network_options
  else
    ocsp_verification_time options = "" /\
    (Http.set_ca_bundle_path Http.HttpOptions_default (ca_bundle_path options)).1 = Ok.
Proof.
  intros Hfresh. unfold parse_complete_callback.
  destruct (match collection with None => _ | Some o => _ end) as [[]|e|x|]; cbn [obind]; [|done..].
  destruct (negb (bool_decide _) && _) eqn:Et; cbn [negb]; [done|].
  destruct (offline_status_proofs options) eqn:Eo; cbn [negb] in Et.
  - destruct (validate_offline_status_options options) as [[]|e|x|] eqn:E; [|done..]. intros [= <-]. split; [done|].
    unfold validate_offline_status_options in E.
    destruct (negb _) eqn:E1 in E; [|done]. case_bool_decide; [|done]. case_bool_decide; [|done].
    apply no_network_option_Ret in E. split_and!; [|done..]. rewrite parse_time_eq, E1. by eexists.
  - rewrite andb_true_r in Et. apply negb_false_iff, bool_decide_eq_true in Et.
    destruct (ca_bundle_rc_runs (heap st) (world_of st) ∅ (ca_bundle_path options)
      (fun o H w M => o = Ret (error_code (Http.set_ca_bundle_path Http.HttpOptions_default (ca_bundle_path options)).1) /\
         H = heap st /\ M = <[(T_http_options, 0%nat) := None]> ∅) (spare_none _ _ (lookup_empty _)) ltac:(done) st (scope_start st Hfresh))
      as (H & w & M & Hs & Hrc & -> & ->).
    destruct (ca_bundle_rc (ca_bundle_path options) st) as [rc st1]. cbn in Hrc, Hs. subst rc.
    destruct (_ =? _) eqn:E; [|done]. intros [= <-]. split.
    + eapply scope_end; [by apply Hs|]. intros k l o. rewrite lookup_insert. by case_decide.
    + split; [done|]. clear -E. revert E. destruct (Http.set_ca_bundle_path _ _) as [e o]. cbn. by destruct e.
Qed.

End properties.

(** *** Options that are accepted *)

Definition toy_command_line : CommandLine := {| ExistingFile _ := ""; option_value _ := None |}.

Definition toy_offline : EvidenceVerificationOptions := mk_verification "local" "" "dir" "" "rims" "" "" "" "" "proofs" "1500".

Lemma accepted_options_witness : exists t, parse_verification_time "1500" = Ret t.
Proof.
  destruct (accepted_options (OSSL:=Nvat.toy_openssl_bytes) (XML:=Rim.toy_xml) (env:=Nvat.toy_env) (B64:=Base64.toy_base64)
    (L:=Jwt.toy_jwt) (CL:=toy_command_line) (P:=Attestation.toy_platform) (W:=Nvat.toy_files)
    (RS:=fun s _ => (Err RimNotFound, s)) (OC:=fun s _ _ _ _ => (Err OcspServerError, s))
    (U:=unit) (WU:=unit) (V:=unit) (WV:=unit) toy_offline None Nvat.toy_start Nvat.toy_start) as (_ & Ht & _).
  - intros l [o Ho]. done.
  - vm_compute. reflexivity.
  - exact Ht.
Defined.

End Options.
