(* ===== verification/CliOutput.v ===== *)
(** * CliOutput: what the command line tool prints

    src/logging.cpp, the printing of src/utils.cpp and src/attest.cpp, and the
    results of src/attest.cpp and src/collect_evidence.cpp, of the repository's
    src/nv-attestation-cli.  A line of the tool's logger is its level and its
    text; the lines that only report a problem of the JSON parser are left
    out. *)

From stdpp Require Import pretty.
From S2P Require Import Prelude Errors Utils OpenSsl NvCache Ocsp X509Chain Json Claims Evaluator DetachedEat.
From S2P Require Import SpdmReq SpdmMeasurementRecords SpdmOpaqueData SpdmResp GpuOpaqueData SwitchOpaqueData.
From S2P Require Import Certs Base64 Report GpuEvidence SwitchEvidence Driver NvmlClient NscqClient Sdk.

Module Output.

(** ** Loggers *)

(** The levels of spdlog. *)
Definition level_trace : Z := 0.
Definition level_debug : Z := 1.
Definition level_info : Z := 2.
Definition level_warn : Z := 3.
Definition level_err : Z := 4.
Definition level_critical : Z := 5.
Definition level_off : Z := 6.

Definition to_spdlog_level (level : Z) : Z :=
  if level =? Sdk.NVAT_LOG_LEVEL_TRACE then level_trace
  else if level =? Sdk.NVAT_LOG_LEVEL_DEBUG then level_debug
  else if level =? Sdk.NVAT_LOG_LEVEL_INFO then level_info
  else if level =? Sdk.NVAT_LOG_LEVEL_WARN then level_warn
  else if level =? Sdk.NVAT_LOG_LEVEL_ERROR then level_err
  else if level =? Sdk.NVAT_LOG_LEVEL_OFF then level_off
  else level_info.

(** The level of both loggers of spdlog is that of [m_min_level]. *)
Record CliLogger : Type := mk_logger {
  m_min_level : Z;
  m_error_messages : list string;
}.

Definition new_logger (level : Z) : CliLogger := mk_logger level [].

Definition should_log_impl (g : CliLogger) (level : Z) : bool := m_min_level g <=? level.

(** The line that the SDK's logger is given, and the message that is kept. *)
Definition log_impl (g : CliLogger) (level : Z) (message : string) : CliLogger * (Z * string) :=
  (mk_logger (m_min_level g)
     (if Sdk.NVAT_LOG_LEVEL_ERROR <=? level then m_error_messages g ++ [message] else m_error_messages g),
   (to_spdlog_level level, message)).

Definition clear_error_messages (g : CliLogger) : CliLogger := mk_logger (m_min_level g) [].

(** The callbacks, with a null [user_data]. *)
Definition should_log_callback (level : Z) (user_data : option CliLogger) : bool :=
  match user_data with None => false | Some g => should_log_impl g level end.

Definition log_callback (level : Z) (message : string) (user_data : option CliLogger) : option CliLogger :=
  match user_data with None => None | Some g => Some (log_impl g level message).1 end.

(** What a logger of spdlog shows. *)
Definition shown (g : CliLogger) (line : Z * string) : bool := to_spdlog_level (m_min_level g) <=? line.1.

(** A message of the SDK: it asks first. *)
Definition sdk_log (g : CliLogger) (m : Z * string) : CliLogger :=
  if should_log_callback m.1 (Some g) then default g (log_callback m.1 m.2 (Some g)) else g.

(** ** Lines *)

Abbreviation line := (Z * string)%type.

Definition critical (text : string) : line := (level_critical, text).
Definition info (text : string) : line := (level_info, text).

(** [std::getline] until the end: the parts between newlines; nothing after a
    last newline. *)
Fixpoint getlines (s : string) (acc : string) : list string :=
  match s with
  | "" => if String.eqb acc "" then [] else [acc]
  | String c s => if ascii_byte c =? 10 then acc :: getlines s "" else getlines s (acc +:+ String c "")
  end.

(** The first line of a message is marked, the others are indented. *)
Definition message_lines (message : string) : list line :=
  match getlines message "" with
  | [] => []
  | first :: others => critical ("  | " +:+ first) :: ((fun l => critical ("    " +:+ l)) <$> others)
  end.

(** [{:03d}]. *)
Definition padded3 (z : Z) : string :=
  let digits := pretty z in
  if (String.length digits <? 2)%nat then "00" +:+ digits
  else if (String.length digits <? 3)%nat then "0" +:+ digits else digits.

Definition error_hint (rc : Error) : list line :=
  match rc with
  | RelyingPartyPolicyMismatch =>
      [critical "Submitted evidence was appraised by the verifier, but did not match the relying party policy.";
       critical "Review the attestation results against the supplied relying party policy."]
  | OverallResultFalse => [critical "Submitted evidence did not match the verifier evidence appraisal policy."]
  | NvmlInitFailed => [critical "Ensure the NVIDIA Driver is installed and initialized."]
  | NscqInitFailed => [critical "Ensure libnvidia-nscq is installed and an NVSwitch is available on this node."]
  | CorelibInitFailed => [critical "Ensure libcorelib.so.1 is installed and available in the library search path."]
  | _ => []
  end.

(** The messages in reverse: the last error first. *)
Definition print_error_help (logger : CliLogger) (rc : Error) : list line :=
  if bool_decide (rc = Ok) then []
  else
    error_hint rc ++
    [critical ""; critical ("Error " +:+ padded3 (error_code rc) +:+ ": " +:+ error_to_string rc); critical "Backtrace:"] ++
    mjoin (message_lines <$> reverse (m_error_messages logger)) ++
    (if bool_decide (rc = BadArgument) then []
     else [critical ""; critical "Run with --log-level=debug for more information."]).

(** ** Results *)

Record AttestOutput : Type := mk_output {
  result_code : Error;
  claims : string;
  detached_eat : string;
}.

Definition failed (rc : Error) : AttestOutput := mk_output rc "" "".

Record CollectEvidenceOutput : Type := mk_collected {
  collect_code : Error;
  evidences : string;
}.

Section json.
Context `{env : Eat.Env}.

(** The text as JSON, or the empty object. *)
Definition parsed_or_empty (text : string) : json := default (JObject []) (Eat.json_parse text).

Definition to_json (o : AttestOutput) : json :=
  let with_claims :=
    bool_decide (result_code o = Ok \/ result_code o = RelyingPartyPolicyMismatch \/ result_code o = OverallResultFalse) in
  jobject
    [("result_code", JInt (error_code (result_code o)));
     ("result_message", JString (error_to_string (result_code o)));
     ("claims", if with_claims then parsed_or_empty (claims o) else JObject []);
     ("detached_eat", if with_claims then parsed_or_empty (detached_eat o) else JObject [])].

Definition collected_to_json (o : CollectEvidenceOutput) : json :=
  jobject
    [("result_code", JInt (error_code (collect_code o)));
     ("result_message", JString (error_to_string (collect_code o)));
     ("evidences", if bool_decide (collect_code o = Ok) then default JNull (Eat.json_parse (evidences o)) else JNull)].

(** ** The claims of the devices, as text *)

Definition claim_string (j : json) (key : string) : string :=
  match jfield j key with
  | Some (JString value) => if String.eqb value "" then "[blank]" else value
  | Some JNull => "[not set]"
  | _ => "[unknown]"
  end.

Definition string_key_not_blank (j : json) (key : string) : bool :=
  match jfield j key with Some (JString value) => negb (String.eqb value "") | _ => false end.

Definition print_cert_chain (device_claims : json) (key label : string) : list line :=
  match jfield device_claims key with
  | None => []
  | Some (JObject m) =>
      let cert_chain := JObject m in
      [critical ("    " +:+ label +:+ ":");
       critical ("        Status: " +:+ claim_string cert_chain "x-nvidia-cert-status" +:+
                 ", OCSP: " +:+ claim_string cert_chain "x-nvidia-cert-ocsp-status");
       critical ("        Expires: " +:+ claim_string cert_chain "x-nvidia-cert-expiration-date")] ++
      (if string_key_not_blank cert_chain "x-nvidia-cert-revocation-reason"
       then [critical ("        Revocation Reason: " +:+ claim_string cert_chain "x-nvidia-cert-revocation-reason")]
       else [])
  | Some _ => [critical ("    " +:+ label +:+ ": [invalid]")]
  end.

Definition string_or (j : json) (key dflt : string) : string :=
  match jfield j key with Some (JString value) => value | _ => dflt end.

Definition print_mismatch (mismatch : json) : list line :=
  match mismatch with
  | JObject _ =>
      let index := match jfield mismatch "index" with Some (JInt z) => u32 z | _ => 0 end in
      [critical ("      - Index " +:+ pretty index +:+ ": source=" +:+ string_or mismatch "measurementSource" "unknown");
       critical ("          Golden:  " +:+ string_or mismatch "goldenValue" "N/A");
       critical ("          Runtime: " +:+ string_or mismatch "runtimeValue" "N/A")]
  | _ => [critical "      - [invalid mismatch record]"]
  end.

Definition print_mismatches (device_claims : json) : list line :=
  match jfield device_claims "x-nvidia-mismatch-measurement-records" with
  | None | Some JNull | Some (JArray []) => []
  | Some (JArray mismatches) =>
      critical ("    Measurement Mismatches (" +:+ pretty (length mismatches) +:+ "):") ::
      mjoin (print_mismatch <$> mismatches)
  | Some _ => [critical "    Measurement Mismatches: [invalid record]"]
  end.

Definition print_device (idx : nat) (device_claims : json) : list line :=
  match device_claims with
  | JObject _ =>
      let device_type := claim_string device_claims "x-nvidia-device-type" in
      let is_gpu := String.eqb device_type "gpu" in
      let is_switch := String.eqb device_type "nvswitch" in
      [critical ("- Device " +:+ pretty idx +:+ ":");
       critical ("    Device Type: " +:+ device_type);
       critical ("    Hardware Model: " +:+ claim_string device_claims "hwmodel");
       critical ("    UEID: " +:+ claim_string device_claims "ueid")] ++
      (if is_gpu then
         [critical ("    VBIOS Version: " +:+ claim_string device_claims "x-nvidia-gpu-vbios-version");
          critical ("    Driver Version: " +:+ claim_string device_claims "x-nvidia-gpu-driver-version")]
       else if is_switch then
         [critical ("    BIOS Version: " +:+ claim_string device_claims "x-nvidia-switch-bios-version")]
       else []) ++
      [critical ("    Measurement Result: " +:+ claim_string device_claims "measres")] ++
      (if is_gpu && string_key_not_blank device_claims "x-nvidia-gpu-mode"
       then [critical ("    GPU Mode: " +:+ claim_string device_claims "x-nvidia-gpu-mode")] else []) ++
      (if is_gpu then
         print_cert_chain device_claims "x-nvidia-gpu-attestation-report-cert-chain" "Attestation Report Cert Chain" ++
         print_cert_chain device_claims "x-nvidia-gpu-driver-rim-cert-chain" "Driver RIM Cert Chain" ++
         print_cert_chain device_claims "x-nvidia-gpu-vbios-rim-cert-chain" "VBIOS RIM Cert Chain"
       else if is_switch then
         print_cert_chain device_claims "x-nvidia-switch-attestation-report-cert-chain" "Attestation Report Cert Chain" ++
         print_cert_chain device_claims "x-nvidia-switch-bios-rim-cert-chain" "BIOS RIM Cert Chain"
       else []) ++
      print_mismatches device_claims
  | _ => [critical ("- Device " +:+ pretty idx +:+ ": [invalid claims format]")]
  end.

Definition print_device_claims (claims_json : string) : list line :=
  critical "Devices: " ::
  if String.eqb claims_json "" then [critical "[no device claims]"]
  else
    match Eat.json_parse claims_json with
    | None => [critical "[failed to parse device JSON claims]"]
    | Some (JArray devices) => mjoin (imap print_device devices) ++ [critical ""]
    | Some _ => [critical "[expected array of device claims]"]
    end.

End json.

(** ** Properties *)

(** P: the backtrace is complete.  At every log level of the command line, also
    when logging is off, the messages kept for the backtrace are the errors the
    SDK logged, in order; and with logging off nothing is shown. *)
Theorem backtrace_complete level messages :
  Sdk.NVAT_LOG_LEVEL_OFF <= level <= Sdk.NVAT_LOG_LEVEL_ERROR ->
  let g := foldl sdk_log (new_logger level) messages in
  m_error_messages g = (filter (fun m => Sdk.NVAT_LOG_LEVEL_ERROR <= m.1) messages).*2 /\
  (level = Sdk.NVAT_LOG_LEVEL_OFF -> forall l, l.1 <= level_critical -> shown g l = false).
Proof.
  intros Hl. cbv zeta.
  enough (forall g0, m_min_level g0 = level ->
    m_min_level (foldl sdk_log g0 messages) = level /\
    m_error_messages (foldl sdk_log g0 messages) =
      m_error_messages g0 ++ (filter (fun m => Sdk.NVAT_LOG_LEVEL_ERROR <= m.1) messages).*2) as He.
  { destruct (He (new_logger level) eq_refl) as [Hm ->]. split; [done|]. intros -> l Hc. unfold shown. rewrite Hm.
    change (to_spdlog_level Sdk.NVAT_LOG_LEVEL_OFF) with 6. unfold level_critical in Hc. lia. }
  induction messages as [|[lv text] messages IH]; intros g0 Hg; cbn [foldl]; [by rewrite app_nil_r|].
  unfold sdk_log at 2 4, should_log_callback, should_log_impl. rewrite Hg. cbn [fst snd].
  unfold Sdk.NVAT_LOG_LEVEL_ERROR, Sdk.NVAT_LOG_LEVEL_OFF in *. rewrite filter_cons. cbn [fst].
  destruct (level <=? lv) eqn:E; cbn [default].
  - cbn. unfold Sdk.NVAT_LOG_LEVEL_ERROR. case_decide.
    + replace (5 <=? lv) with true by lia. destruct (IH (mk_logger (m_min_level g0) (m_error_messages g0 ++ [text])) Hg)
        as [? ->]. split; [done|]. cbn. by rewrite <- app_assoc.
    + replace (5 <=? lv) with false by lia. by apply (IH (mk_logger (m_min_level g0) (m_error_messages g0)) Hg).
  - case_decide; [lia|]. by apply IH.
Qed.

Lemma backtrace_complete_witness :
  m_error_messages (foldl sdk_log (new_logger 0) [(3, "a"); (5, "b")]) = ["b"].
Proof. exact (proj1 (backtrace_complete 0 [(3, "a"); (5, "b")] ltac:(vm_compute; by split))). Defined.

End Output.
