(* ===== verification/Cli.v ===== *)
(** * Cli: the command line tool

    src/attest.cpp, src/collect_evidence.cpp, [init_sdk] of src/utils.cpp,
    src/version.cpp and src/main.cpp of the repository's
    src/nv-attestation-cli, over the C interface (Nvat, Sdk), with the options
    of CliOptions and the output of CliOutput.  A C++ function that returns the
    error code of its first failing call is a computation that ends with that
    code; [nv_unique_ptr] is [owning]. *)

From S2P Require Import Prelude Errors Utils OpenSsl StatusBundle NvCache Ocsp X509Chain Json Claims Evaluator DetachedEat.
From S2P Require Import SpdmReq SpdmMeasurementRecords SpdmOpaqueData SpdmResp GpuOpaqueData SwitchOpaqueData.
From S2P Require Import Http Jwt Certs Base64 Rim Report GpuEvidence SwitchEvidence Verify GpuVerify SwitchVerify.
From S2P Require Import Driver NvmlClient NscqClient Sdk Attestation Nvat Locals CliOptions CliOutput.

(** What the build and CLI11 supply: the version, and the text of the help. *)
Class Build : Type := {
  NVATTEST_VERSION_STRING : string;
  NVATTEST_SYSTEM_NAME : string;
  NVATTEST_SYSTEM_PROCESSOR : string;
  app_help : string;
}.

Module Cli.
Import Nvat Locals.

Section cli.
Context `{OSSL : OpenSSL} `{XML : LibXml2} `{env : Eat.Env} `{B64 : Base64Lib} `{L : JwtLib}.
Context `{P : Http.Platform} `{W : Attestation.World}.
Context {U WU V WV : Type} `{RS : !Rim.IRimStore (U * WU)} `{OC : !IOcspHttpClient (V * WV)}.
Context `{XS : XmlSec} `{DL : DynamicLinker} `{NV : Nvml.NvmlLib} `{NQ : Nscq.NscqLib} `{BD : Build}.

Abbreviation object := (Nvat.object (U:=U) (V:=V)).
Abbreviation context_t := (Attestation.AttestationContext (U:=U) (V:=V)).
Abbreviation capi := (Nvat.capi (U:=U) (WU:=WU) (V:=V) (WV:=WV)).
Abbreviation api := (sm capi Error).
Abbreviation world := ((Attestation.shared string * WU) * (Attestation.shared NvOcspResponse * WV) * nat)%type.

Abbreviation equals s t := (bool_decide (s = t)).

(** A key that is not given is a null pointer. *)
Definition key_or_null (service_key : string) : option string := if equals service_key "" then None else Some service_key.

(** A call that fails, with something to do before its code is returned. *)
Definition on_failure {A : Type} (m : api A) (k : api unit) : api A := fun st =>
  match m st with
  | (Err e, st) => match k st with (UB, st) => (UB, st) | (_, st) => (Err e, st) end
  | r => r
  end.

(** A call whose code is not looked at. *)
Definition ignoring {A : Type} (m : api A) : api unit := fun st =>
  match m st with (UB, st) => (UB, st) | (_, st) => (Ret tt, st) end.

(** ** Configuring the context

    The variables: [http_options], [ctx], and those of the scopes below. *)

Definition http : nat := 0.
Definition ctx : nat := 0.

Definition with_ctx {A : Type} (f : option nat -> api A) : api A := c_call (do* c := arg T_attestation_ctx (Some ctx) in f c).

Definition with_http {A : Type} (f : option nat -> api A) : api A := do* h := arg T_http_options (Some http) in f h.

Definition set_policy_of (o : Options.EvidencePolicyOptions) : api unit :=
  let raw_policy := 0%nat in
  let policy_handle := 1%nat in
  do* _ := write T_evidence_policy (Some raw_policy) None in
  do* _ := c_call (nvat_evidence_policy_create_default (Some raw_policy)) in
  do* _ := ignoring (do* p := arg T_evidence_policy (Some raw_policy) in
                     nvat_evidence_policy_set_verify_rim_signature p (Options.verify_rim_signature o)) in
  do* _ := ignoring (do* p := arg T_evidence_policy (Some raw_policy) in
                     nvat_evidence_policy_set_verify_rim_cert_chain p (Options.verify_rim_cert_chain o)) in
  do* p := read T_evidence_policy raw_policy in
  do* _ := write T_evidence_policy (Some policy_handle) p in
  on_failure (with_ctx (fun c => nvat_attestation_ctx_set_evidence_policy c (Some policy_handle)))
    (free T_evidence_policy (Some policy_handle)).

Definition set_device (o : Options.EvidenceCollectionOptions) : api unit :=
  if equals (Options.device o) "gpu" then
    do* _ := with_ctx (fun c => nvat_attestation_ctx_set_device_type c Verify.NVAT_DEVICE_GPU) in
    guard* negb (equals (Options.gpu_evidence_source o) "corelib") else BadArgument in
    if equals (Options.gpu_evidence_source o) "file" then
      with_ctx (fun c => nvat_attestation_ctx_set_gpu_evidence_source_json_file c (Some (Options.gpu_evidence_file o)))
    else sret tt
  else if equals (Options.device o) "nvswitch" then
    do* _ := with_ctx (fun c => nvat_attestation_ctx_set_device_type c Verify.NVAT_DEVICE_NVSWITCH) in
    if equals (Options.switch_evidence_source o) "file" then
      with_ctx (fun c => nvat_attestation_ctx_set_switch_evidence_source_json_file c
                           (Some (Options.switch_evidence_file o)))
    else sret tt
  else sret tt.

Definition set_key (o : Options.EvidenceVerificationOptions) (offline : bool) : api unit :=
  if negb offline && negb (equals (Options.service_key o) "") then
    with_ctx (fun c => nvat_attestation_ctx_set_service_key c (Some (Options.service_key o)))
  else sret tt.

Definition set_rims (o : Options.EvidenceVerificationOptions) (offline : bool) : api unit :=
  let rim_store_raw := 0%nat in
  if equals (Options.verifier o) "local" then
    do* _ := write T_rim_store (Some rim_store_raw) None in
    owning T_rim_store rim_store_raw
      (do* _ :=
         if equals (Options.rim_store o) "remote" && negb offline then
           c_call (with_http (fun h => nvat_rim_store_create_remote (Some rim_store_raw) (Some (Options.rim_url o))
                                         (key_or_null (Options.service_key o)) h))
         else if equals (Options.rim_store o) "dir" then
           c_call (nvat_rim_store_create_filesystem (Some rim_store_raw) (Some (Options.rim_path o)))
         else slift (Err BadArgument) in
       with_ctx (fun c => do* s := arg T_rim_store (Some rim_store_raw) in nvat_attestation_ctx_set_default_rim_store c s))
  else sret tt.

(** Give the context the client that [create] makes. *)
Definition give_client (create : api unit) : api unit :=
  let ocsp_client_raw := 0%nat in
  do* _ := write T_ocsp_client (Some ocsp_client_raw) None in
  owning T_ocsp_client ocsp_client_raw
    (do* _ := c_call create in
     with_ctx (fun c => do* o := arg T_ocsp_client (Some ocsp_client_raw) in nvat_attestation_ctx_set_default_ocsp_client c o)).

Definition set_ocsp (o : Options.EvidenceVerificationOptions) (offline : bool) : api unit :=
  if offline then
    do* bundle := slift (Options.read_status_proof_bundle (Attestation.read_file (Options.ocsp_proof_bundle o))) in
    do* verification_time := slift (Options.parse_verification_time (Options.ocsp_verification_time o)) in
    give_client (nvat_ocsp_client_create_raw_proofs (Some 0%nat) (Some bundle) (zlen bundle) verification_time)
  else if negb (equals (Options.ocsp_url o) "") then
    give_client (with_http (fun h => nvat_ocsp_client_create_default (Some 0%nat) (Some (Options.ocsp_url o))
                                       (key_or_null (Options.service_key o)) h))
  else sret tt.

Definition set_relying_party_policy (relying_party_policy_filename : string) : api unit :=
  let rp_raw := 0%nat in
  if equals relying_party_policy_filename "" then sret tt
  else
    match Attestation.read_file relying_party_policy_filename with
    | None => slift (Err BadArgument)
    | Some rego_str =>
        do* _ := write T_relying_party_policy (Some rp_raw) None in
        owning T_relying_party_policy rp_raw
          (do* _ := c_call (nvat_relying_party_policy_create_rego_from_str (Some rp_raw) (Some (c_str rego_str))) in
           with_ctx (fun c => do* p := arg T_relying_party_policy (Some rp_raw) in
                              nvat_attestation_ctx_set_relying_party_policy c p))
    end.

Definition set_verifier (o : Options.EvidenceVerificationOptions) : api unit :=
  if equals (Options.verifier o) "local" then
    with_ctx (fun c => nvat_attestation_ctx_set_verifier_type c Verify.NVAT_VERIFY_LOCAL)
  else if equals (Options.verifier o) "remote" then
    with_ctx (fun c => nvat_attestation_ctx_set_verifier_type c Verify.NVAT_VERIFY_REMOTE)
  else slift (Err BadArgument).

(** The environment that the last calls see, after [setenv]. *)
Definition with_nras_url (o : Options.EvidenceVerificationOptions) (offline : bool) : Http.Platform :=
  if negb offline && negb (equals (Options.nras_url o) "") then {|
    Http.getenv := fun name => if equals name "NVAT_NRAS_BASE_URL" then Some (Options.nras_url o) else Http.getenv name;
    Http.is_readable_regular_file := Http.is_readable_regular_file;
    Http.compiled_default_ca_bundle_path := Http.compiled_default_ca_bundle_path;
  |}
  else P.

(** ** Attestation *)

(** The nonce is not freed. *)
Definition read_nonce (hex : string) : api unit :=
  do* _ := write T_nonce (Some 0%nat) None in
  if negb (equals hex "") then c_call (nvat_nonce_from_hex (Some 0%nat) (Some hex)) else sret tt.

(** With the nonce and the context ready: attest, and read the results. *)
Definition attest_and_read (clock clock_ms : nat -> Z) (platform : Http.Platform) : api Output.AttestOutput :=
  let raw_claims := 0%nat in
  let raw_detached_eat := 0%nat in
  let raw_serialized_claims := 1%nat in
  do* err := c_call (do* c := arg T_attestation_ctx (Some ctx) in
                     do* n := arg T_nonce (Some 0%nat) in
                     nvat_attest_device (P:=platform) clock clock_ms c n (Some raw_detached_eat) (Some raw_claims)) in
  owning T_claims_collection raw_claims
    (owning T_str raw_detached_eat
       (do* _ := c_call (do* cs := arg T_claims_collection (Some raw_claims) in
                         nvat_claims_collection_serialize_json cs (Some raw_serialized_claims)) in
        owning T_str raw_serialized_claims
          (do* serialized_claims_data := c_call (do* s := arg T_str (Some raw_serialized_claims) in nvat_str_get_data s true) in
           do* detached_eat_data := c_call (do* s := arg T_str (Some raw_detached_eat) in nvat_str_get_data s true) in
           sret (Output.mk_output (default Ok err) (c_str serialized_claims_data) (c_str detached_eat_data))))).

(** The calls of [attest] after the SDK is initialized. *)
Definition attest_calls (clock clock_ms : nat -> Z) (collection : Options.EvidenceCollectionOptions)
    (verification : Options.EvidenceVerificationOptions) (policy : Options.EvidencePolicyOptions) : api Output.AttestOutput :=
  let offline := Options.offline_status_proofs verification in
  guard* negb (offline && (negb (equals (Options.verifier verification) "local") || negb (equals (Options.rim_store verification) "dir")))
    else BadArgument in
  do* _ := write T_http_options (Some http) None in
  owning T_http_options http
    (do* _ :=
       if offline then sret tt
       else
         do* _ := c_call (nvat_http_options_create_default (Some http)) in
         c_call (with_http (fun h => nvat_http_options_set_ca_bundle_path h (Some (Options.ca_bundle_path verification)))) in
     do* _ := write T_attestation_ctx (Some ctx) None in
     owning T_attestation_ctx ctx
       (do* _ := c_call (nvat_attestation_ctx_create (Some ctx)) in
        do* _ :=
          if offline then sret tt
          else with_ctx (fun c => with_http (fun h => nvat_attestation_ctx_set_default_http_options c h)) in
        do* _ := set_policy_of policy in
        do* _ := set_device collection in
        do* _ := set_key verification offline in
        do* _ := set_rims verification offline in
        do* _ := set_ocsp verification offline in
        do* _ := set_relying_party_policy (Options.relying_party_policy verification) in
        do* _ := set_verifier verification in
        do* _ := write T_claims_collection (Some 0%nat) None in
        do* _ := write T_str (Some 0%nat) None in
        do* _ := read_nonce (Options.nonce collection) in
        attest_and_read clock clock_ms (with_nras_url verification offline))).

(** A function that returns its result, with the code of the first failure. *)
Definition to_output {A : Type} (failed : Error -> A) (o : outcome Error A) : outcome Error A :=
  match o with Err e => Ret (failed e) | o => o end.

(** ** Collecting evidence *)

(** A call whose failure is another code. *)
Definition failing_as {A : Type} (e : Error) (m : api A) : api A := fun st =>
  match m st with (Err _, st) => (Err e, st) | r => r end.

(** [GpuEvidenceWrapper] and [SwitchEvidenceWrapper]: the array and the number
    of its elements, while [m] runs.  Before there is an array, there is
    nothing to free. *)
Definition owning_array {A : Type} (array_type : ctype) (to_array : object -> option (list (option nat))) (t : ctype) (num : nat)
    (m : api A) : api A :=
  finally
    (do* h := read array_type 0 in
     match h with None => sret tt | Some _ => array_free array_type to_array t (Some 0%nat) num end) m.

Definition make_gpu_source (o : Options.EvidenceCollectionOptions) : api unit :=
  let raw_source := 0%nat in
  if equals (Options.gpu_evidence_source o) "file" then
    c_call (nvat_gpu_evidence_source_from_json_file (Some raw_source) (Some (Options.gpu_evidence_file o)))
  else if equals (Options.gpu_evidence_source o) "corelib" then
    c_call (nvat_gpu_evidence_source_corelib_create (Some raw_source) (Some (Options.gpu_architecture o)))
  else c_call (nvat_gpu_evidence_source_nvml_create (Some raw_source)).

Definition collect_gpu (o : Options.EvidenceCollectionOptions) : api unit :=
  guard* negb (equals (Options.gpu_evidence_source o) "corelib" && equals (Options.gpu_architecture o) "") else BadArgument in
  do* _ := write T_gpu_evidence_source (Some 0%nat) None in
  do* _ := make_gpu_source o in
  owning T_gpu_evidence_source 0
    (do* _ := write T_gpu_evidence_array (Some 0%nat) None in
     do* num_evidences :=
       c_call (do* s := arg T_gpu_evidence_source (Some 0%nat) in
               do* n := arg T_nonce (Some 0%nat) in
               nvat_gpu_evidence_collect s n (Some 0%nat) true) in
     owning_array T_gpu_evidence_array to_gpu_array T_gpu_evidence (Z.to_nat num_evidences)
       (failing_as InternalError
          (c_call (do* a := arg T_gpu_evidence_array (Some 0%nat) in
                   nvat_gpu_evidence_serialize_json a (Z.to_nat num_evidences) (Some 0%nat))))).

Definition make_switch_source (o : Options.EvidenceCollectionOptions) : api unit :=
  let raw_source := 0%nat in
  if equals (Options.switch_evidence_source o) "file" then
    c_call (nvat_switch_evidence_source_from_json_file (Some raw_source) (Some (Options.switch_evidence_file o)))
  else c_call (nvat_switch_evidence_source_nscq_create (Some raw_source)).

Definition collect_switch (o : Options.EvidenceCollectionOptions) : api unit :=
  do* _ := write T_switch_evidence_source (Some 0%nat) None in
  do* _ := make_switch_source o in
  owning T_switch_evidence_source 0
    (do* _ := write T_switch_evidence_array (Some 0%nat) None in
     do* num_evidences :=
       c_call (do* s := arg T_switch_evidence_source (Some 0%nat) in
               do* n := arg T_nonce (Some 0%nat) in
               nvat_switch_evidence_collect s n (Some 0%nat) true) in
     owning_array T_switch_evidence_array to_switch_array T_switch_evidence (Z.to_nat num_evidences)
       (failing_as InternalError
          (c_call (do* a := arg T_switch_evidence_array (Some 0%nat) in
                   nvat_switch_evidence_serialize_json a (Z.to_nat num_evidences) (Some 0%nat))))).

(** The calls of [collect_evidence] after the SDK is initialized. *)
Definition collect_calls (o : Options.EvidenceCollectionOptions) : api Output.CollectEvidenceOutput :=
  do* _ := read_nonce (Options.nonce o) in
  owning T_nonce 0
    (do* _ := write T_str (Some 0%nat) None in
     do* _ :=
       if equals (Options.device o) "gpu" then collect_gpu o
       else if equals (Options.device o) "nvswitch" then collect_switch o
       else sret tt in
     owning T_str 0
       (do* evidences_data := c_call (do* s := arg T_str (Some 0%nat) in nvat_str_get_data s true) in
        sret (Output.mk_collected Ok (c_str evidences_data)))).

(** ** The subcommands

    The state of the process: the SDK, and the C interface.  The SDK's logger
    is the client's. *)

Abbreviation sdk := (Sdk.sdk (L:=unit)).

Record process : Type := mk_process {
  p_sdk : sdk;
  p_api : capi;
}.

Definition on_sdk {A : Type} (m : sm sdk Error A) : sm process Error A := fun s =>
  let '(r, k) := m (p_sdk s) in (r, mk_process k (p_api s)).

Definition on_api {A : Type} (m : api A) : sm process Error A := fun s =>
  let '(r, a) := m (p_api s) in (r, mk_process (p_sdk s) a).

(** The options and the logger are only handed to the SDK. *)
Definition init_sdk : sm process Error unit :=
  on_sdk (c_call (Sdk.nvat_sdk_init (Some (Sdk.mk_options (Some (Sdk.ClientLogger tt)))))).

(** [nvat_sdk_shutdown] returns nothing, also when it fails. *)
Definition shutdown_sdk : sm process Error unit := fun s =>
  match on_sdk Sdk.nvat_sdk_shutdown s with (UB, s) => (UB, s) | (_, s) => (Ret tt, s) end.

(** A function whose result carries the code of the first call that failed. *)
Definition resulting {S A : Type} (failed : Error -> A) (m : sm S Error A) : sm S Error A := fun s =>
  match m s with (Err e, s) => (Ret (failed e), s) | r => r end.

Section run.
Context (clock clock_ms : nat -> Z) (collection : Options.EvidenceCollectionOptions).
Context (verification : Options.EvidenceVerificationOptions) (policy : Options.EvidencePolicyOptions).
Context (common : Options.CommonOptions).
(** What the SDK logged in the run. *)
Context (messages : list (Z * string)).

Definition attest : sm process Error Output.AttestOutput :=
  resulting Output.failed
    (do* _ := init_sdk in on_api (attest_calls clock clock_ms collection verification policy)).

Definition collect_evidence : sm process Error Output.CollectEvidenceOutput :=
  resulting (fun e => Output.mk_collected e "") (do* _ := init_sdk in on_api (collect_calls collection)).

(** What goes to standard output. *)
Inductive stdout : Type := Nothing | Json (j : json) | Text (text : string).

(** The exit code, the lines of the logger, and the standard output. *)
Record printed : Type := mk_printed {
  exit_code : Z;
  lines : list Output.line;
  standard_output : stdout;
}.

Definition logger : Output.CliLogger :=
  foldl Output.sdk_log (Output.new_logger (Options.get_log_level common)) messages.

Definition handle_attest_subcommand : sm process Error printed :=
  do* output := attest in
  do* _ := shutdown_sdk in
  let rc := Output.result_code output in
  sret (mk_printed (error_code rc)
          (if equals (Options.format common) "text" then
             Output.print_device_claims (Output.claims output) ++
             (if bool_decide (rc = Ok) then [Output.info (Options.pretty_device collection +:+ " attestation was successful")]
              else [Output.critical ""; Output.critical (Options.pretty_device collection +:+ " attestation failed!")] ++
                   Output.print_error_help logger rc)
           else [])
          (if equals (Options.format common) "json" then Json (Output.to_json output) else Nothing)).

Definition handle_collect_evidence_subcommand : sm process Error printed :=
  do* output := collect_evidence in
  do* _ := shutdown_sdk in
  let rc := Output.collect_code output in
  sret (mk_printed (error_code rc)
          (if equals (Options.format common) "text" then
             if bool_decide (rc = Ok) then
               [Output.info (Options.pretty_device collection +:+ " evidence collection was successful.");
                Output.info "Re-run with --format=json to print the collected evidence."]
             else [Output.critical "";
                   Output.critical (Options.pretty_device collection +:+ " evidence collection failed!")] ++
                  Output.print_error_help logger rc
           else [])
          (if equals (Options.format common) "json" then Json (Output.collected_to_json output) else Nothing)).

Definition handle_version_subcommand : printed :=
  mk_printed 0
    [Output.info ("nvattest " +:+ NVATTEST_VERSION_STRING +:+ " (" +:+ NVATTEST_SYSTEM_NAME +:+ "/" +:+
                  NVATTEST_SYSTEM_PROCESSOR +:+ ")")] Nothing.

(** ** The program *)

(** The subcommands that were parsed. *)
Record parsed : Type := mk_parsed {
  version_parsed : bool;
  attest_parsed : bool;
  collect_parsed : bool;
}.

Definition requests_hardware_collection (p : parsed) : bool :=
  if collect_parsed p then true
  else if negb (attest_parsed p) then false
  else if negb (equals (Options.verifier verification) "local") then true
  else if equals (Options.device collection) "gpu" then negb (equals (Options.gpu_evidence_source collection) "file")
  else if equals (Options.device collection) "nvswitch" then negb (equals (Options.switch_evidence_source collection) "file")
  else true.

Definition refusal : printed :=
  mk_printed (error_code FeatureNotEnabled) []
    (Json (jobject
       [("result_code", JInt (error_code FeatureNotEnabled));
        ("result_message", JString ("this build verifies evidence files locally; " +:+
           "hardware evidence collection and remote verification are not available"))])).

(** After the command line was parsed; [verification_only] is the build
    option. *)
Definition main (verification_only : bool) (p : parsed) : sm process Error printed :=
  if verification_only && requests_hardware_collection p then sret refusal
  else if version_parsed p then sret handle_version_subcommand
  else if attest_parsed p then handle_attest_subcommand
  else if collect_parsed p then handle_collect_evidence_subcommand
  else sret (mk_printed 0 [] (Text app_help)).

End run.

(** What the parent process sees. *)
Definition exit_status (code : Z) : Z := Z.land code 255.

(** ** What [attest] configures

    The same, without handles: the context that the options amount to. *)

Section spec.
Import Attestation.
Context (collection : Options.EvidenceCollectionOptions) (verification : Options.EvidenceVerificationOptions).
Context (policy : Options.EvidencePolicyOptions).

Definition offline : bool := Options.offline_status_proofs verification.

Definition spec_http : res (option Http.HttpOptions) :=
  if offline then Ret None
  else
    let '(err, o) := Http.set_ca_bundle_path Http.HttpOptions_default (Options.ca_bundle_path verification) in
    check* bool_decide (err = Ok) else err in Ret (Some o).

Definition spec_policy (c : context_t) : context_t :=
  set_evidence_policy c (Rim.mk_policy (Rim.gpu_claims_version Rim.EvidencePolicy_default)
    (Rim.switch_claims_version Rim.EvidencePolicy_default) (Options.verify_rim_signature policy)
    (Options.verify_rim_cert_chain policy)).

Definition spec_device (c : context_t) : res context_t :=
  if equals (Options.device collection) "gpu" then
    let c := set_device_type c Verify.NVAT_DEVICE_GPU in
    check* negb (equals (Options.gpu_evidence_source collection) "corelib") else BadArgument in
    if equals (Options.gpu_evidence_source collection) "file" then
      returned (set_gpu_evidence_source_json_file c (Options.gpu_evidence_file collection))
    else Ret c
  else if equals (Options.device collection) "nvswitch" then
    let c := set_device_type c Verify.NVAT_DEVICE_NVSWITCH in
    if equals (Options.switch_evidence_source collection) "file" then
      returned (set_switch_evidence_source_json_file c (Options.switch_evidence_file collection))
    else Ret c
  else Ret c.

Definition spec_key (c : context_t) : context_t :=
  if negb offline && negb (equals (Options.service_key verification) "")
  then set_service_key c (Options.service_key verification) else c.

Definition spec_rims (options : option Http.HttpOptions) (c : context_t) : res context_t :=
  if equals (Options.verifier verification) "local" then
    if equals (Options.rim_store verification) "remote" && negb offline then
      Ret (set_default_rim_store c (Some (make_rim_store (Options.rim_url verification) (Options.service_key verification)
                                            (default Http.HttpOptions_default options))))
    else if equals (Options.rim_store verification) "dir" then
      Ret (set_default_rim_store c (Some (FilesystemRimStore (Options.rim_path verification))))
    else Err BadArgument
  else Ret c.

(** The client of the offline mode. *)
Definition offline_client : res (Attestation.ocsp_client (V:=V)) :=
  let* bundle := Options.read_status_proof_bundle (read_file (Options.ocsp_proof_bundle verification)) in
  let* verification_time := Options.parse_verification_time (Options.ocsp_verification_time verification) in
  check* negb (Ocsp.MAX_VERIFICATION_TIME <? verification_time) else BadArgument in
  let* client := returned (Ocsp.create_from_bundle bundle verification_time) in
  Ret (RawOcspClient client).

Definition spec_ocsp (options : option Http.HttpOptions) (c : context_t) : res context_t :=
  if offline then let* client := offline_client in Ret (set_default_ocsp_client c (Some client))
  else if negb (equals (Options.ocsp_url verification) "") then
    Ret (set_default_ocsp_client c (Some (make_ocsp_client (Options.ocsp_url verification) (Options.service_key verification)
                                            (default Http.HttpOptions_default options))))
  else Ret c.

Definition spec_relying_party (c : context_t) : res context_t :=
  if equals (Options.relying_party_policy verification) "" then Ret c
  else match read_file (Options.relying_party_policy verification) with
       | None => Err BadArgument
       | Some rego_str => Ret (set_claims_evaluator c (Some (c_str rego_str)))
       end.

Definition spec_verifier (c : context_t) : res context_t :=
  if equals (Options.verifier verification) "local" then Ret (set_verifier_type c Verify.Local)
  else if equals (Options.verifier verification) "remote" then Ret (set_verifier_type c Verify.Remote)
  else Err BadArgument.

Definition spec_nonce : res (list Z) :=
  if negb (equals (Options.nonce collection) "") then nonce_of_hex (Options.nonce collection) else Ret [].

Definition spec_context : res context_t :=
  check* negb (offline && (negb (equals (Options.verifier verification) "local") ||
                           negb (equals (Options.rim_store verification) "dir"))) else BadArgument in
  let* options := spec_http in
  let c := match options with None => new_context | Some o => set_default_http_options new_context o end in
  let* c := spec_device (spec_policy c) in
  let* c := spec_rims options (spec_key c) in
  let* c := spec_ocsp options c in
  let* c := spec_relying_party c in
  spec_verifier c.

End spec.

(** What [attest] returns from a context, a nonce and the worlds, and the
    worlds afterwards. *)
Definition spec_attest (clock clock_ms : nat -> Z) (platform : Http.Platform) (c : context_t) (n : list Z) (w : world) :
    outcome Error Output.AttestOutput * world :=
  let '(o, s) :=
    Attestation.attest_device (P:=platform) clock clock_ms n true (Attestation.mk_state c w.1.1 w.1.2 w.2 []) in
  (let* (text, status) := returned o in
   let* serialized := returned (Collection.serialize_json Eat.json_dump (Attestation.claims s)) in
   Ret (Output.mk_output (default Ok status) (c_str serialized) (c_str (default "" text))),
   (Attestation.rim_world s, Attestation.ocsp_world s, Attestation.nras_requests s)).

Section spec_run.
Context (clock clock_ms : nat -> Z) (collection : Options.EvidenceCollectionOptions).
Context (verification : Options.EvidenceVerificationOptions) (policy : Options.EvidencePolicyOptions).

Abbreviation platform := (with_nras_url verification (offline verification)).

(** From a context, if the configuration made one, and the nonce. *)
Definition run_from (r : res context_t) (w : world) : outcome Error Output.AttestOutput * world :=
  match (let* c := r in let* n := spec_nonce collection in Ret (c, n)) with
  | Ret (c, n) => spec_attest clock clock_ms platform c n w
  | Err e => (Err e, w)
  | Throw x => (Throw x, w)
  | UB => (UB, w)
  end.

(** What is left in the heap: the nonce, and after a failed attestation the
    string that was made for the token. *)
Definition leaks_from (r : res context_t) (w : world) : list object :=
  match (let* c := r in let* n := spec_nonce collection in Ret (c, n)) with
  | Ret (c, n) =>
      match (Attestation.attest_device (P:=platform) clock clock_ms n true (Attestation.mk_state c w.1.1 w.1.2 w.2 [])).1 with
      | Err _ | Throw _ => [o_str ""]
      | _ => []
      end ++ (if equals (Options.nonce collection) "" then [] else [o_nonce n])
  | _ => []
  end.

Definition spec_calls : world -> outcome Error Output.AttestOutput * world :=
  run_from (spec_context collection verification policy).

Definition spec_leaks : world -> list object := leaks_from (spec_context collection verification policy).

End spec_run.

(** Objects that stay in the heap without an owner. *)
Inductive leaked : gmap nat object -> list object -> gmap nat object -> Prop :=
| leaked_nil H : leaked H [] H
| leaked_cons H l o os H' : H !! l = None -> leaked (<[l := o]> H) os H' -> leaked H (o :: os) H'.

(** ** Lemmas *)

Implicit Types (H : gmap nat object) (M : gmap (ctype * nat) (option (nat * object))) (c : context_t) (w : world).

(** *** Steps that set the context *)

Abbreviation options_var := (option (nat * Http.HttpOptions)).

(** The HTTP options [h], if there are any, and the context [c] at [lc]; no
    other object is owned. *)
Record vars (h : options_var) (lc : nat) c M : Prop := mk_vars {
  var_http : M !! (T_http_options, http) = Some ((fun p => (p.1, o_http_options p.2)) <$> h);
  var_ctx : M !! (T_attestation_ctx, ctx) = Some (Some (lc, o_attestation_ctx c));
  var_other k : k <> (T_http_options, http) -> k <> (T_attestation_ctx, ctx) -> spare M k;
}.

(** [m] is [f] on the context. *)
Definition sets (h : options_var) (lc : nat) (m : api unit) (f : context_t -> res context_t) : Prop :=
  forall H w c M, vars h lc c M ->
    runs H w M m (fun o H' w' M' => H' = H /\ w' = w /\ o = (let* _ := f c in Ret tt) /\
      exists c', vars h lc c' M' /\ forall c1, f c = Ret c1 -> c' = c1).

Lemma sets_ret h lc : sets h lc (sret tt) Ret.
Proof. intros H w c M Hv. apply runs_ret. split_and!; try done. exists c. split; [done|]. by intros c1 [= ->]. Qed.

Lemma sets_err h lc e : sets h lc (slift (Err e)) (fun _ => Err e).
Proof. intros H w c M Hv. apply runs_lift. split_and!; try done. by exists c. Qed.

Lemma sets_bind h lc m1 m2 f g : sets h lc m1 f -> sets h lc m2 g -> sets h lc (do* _ := m1 in m2) (fun c => let* c := f c in g c).
Proof.
  intros H1 H2 H w c M Hv. apply runs_bind. eapply runs_weaken; [by apply H1|].
  intros o H' w' M' (-> & -> & -> & c' & Hv' & Hc'). destruct (f c) as [c1|e|x|]; cbn; [|by split_and!; try done; exists c'..].
  rewrite <- (Hc' _ eq_refl). by apply H2.
Qed.

Lemma sets_if h lc (b : bool) m1 m2 f g :
  sets h lc m1 f -> sets h lc m2 g -> sets h lc (if b then m1 else m2) (fun c => if b then f c else g c).
Proof. by destruct b. Qed.

Lemma sets_ext h lc m f g : (forall c, f c = g c) -> sets h lc m f -> sets h lc m g.
Proof. intros He Hm H w c M Hv. rewrite <- (He c). by apply Hm. Qed.

Lemma vars_ctx h lc c c' M : vars h lc c M -> vars h lc c' (<[(T_attestation_ctx, ctx) := Some (lc, o_attestation_ctx c')]> M).
Proof.
  intros [Hh Hc Ho]. split; [by rewrite lookup_insert_ne|apply lookup_insert_eq|].
  intros k ? ?. unfold spare. rewrite lookup_insert_ne by done. by apply Ho.
Qed.

Lemma vars_null h lc c M k x :
  vars h lc c M -> k <> (T_http_options, http) -> k <> (T_attestation_ctx, ctx) ->
  (forall l o, x <> Some (l, o)) -> vars h lc c (<[k := x]> M).
Proof.
  intros [Hh Hc Ho] H1 H2 Hx. split; [by rewrite lookup_insert_ne..|]. intros k' ? ?. unfold spare. intros l o.
  rewrite lookup_insert. case_decide; [intros [= ->]; by eapply Hx|by apply Ho].
Qed.

(** A setter behind the boundary. *)
Lemma runs_on_ctx lc H w c M (f : context_t -> context_t) (Q : _ -> _ -> _ -> _ -> Prop) :
  M !! (T_attestation_ctx, ctx) = Some (Some (lc, o_attestation_ctx c)) ->
  Q (Ret tt) H w (<[(T_attestation_ctx, ctx) := Some (lc, o_attestation_ctx (f c))]> M) ->
  runs H w M (on_ctx (Some lc) f) Q.
Proof.
  intros Hv Hq. apply runs_bind. eapply runs_deref; [done|done|]. cbn [then_].
  eapply runs_assign; [done|done|done].
Qed.

Lemma runs_with_ctx {A : Type} lc H w c M (f : option nat -> api A) (Q : _ -> _ -> _ -> _ -> Prop) :
  M !! (T_attestation_ctx, ctx) = Some (Some (lc, o_attestation_ctx c)) ->
  runs H w M (f (Some lc)) (fun o => Q (returned o)) -> runs H w M (with_ctx f) Q.
Proof. intros Hv Hf. apply runs_c_call, runs_bind. eapply runs_arg; [exact Hv|]. exact Hf. Qed.

Lemma sets_ctx h lc (F : option nat -> api unit) (f : context_t -> context_t) :
  F (Some lc) = on_ctx (Some lc) f -> sets h lc (with_ctx F) (fun c => Ret (f c)).
Proof.
  intros HF H w c M Hv. pose proof (var_ctx _ _ _ _ Hv) as Hc.
  eapply runs_with_ctx; [done|]. rewrite HF. eapply runs_on_ctx; [done|].
  split_and!; try done. exists (f c). split; [by eapply vars_ctx|]. by intros c1 [= ->].
Qed.

Lemma runs_on_failure {A : Type} H w M (m : api A) k (Q : _ -> _ -> _ -> _ -> Prop) :
  runs H w M m (fun o H' w' M' => (forall e, o <> Err e) /\ Q o H' w' M') -> runs H w M (on_failure m k) Q.
Proof.
  intros Hm st Hs. destruct (Hm st Hs) as (H' & w' & M' & Hs' & Hne & Hq). exists H', w', M'. unfold on_failure.
  destruct (m st) as [[a|e|x|] st']; try done. by destruct (Hne e).
Qed.

Lemma runs_ignoring {A : Type} H w M (m : api A) (Q : _ -> _ -> _ -> _ -> Prop) :
  runs H w M m (fun o => Q (match o with UB => UB | _ => Ret tt end)) -> runs H w M (ignoring m) Q.
Proof.
  intros Hm st Hs. destruct (Hm st Hs) as (H' & w' & M' & Hs' & Hq). exists H', w', M'. unfold ignoring.
  destruct (m st) as [[a|e'|x|] st']; cbn in *; split; try done; intros _; by apply Hs'.
Qed.

Lemma runs_failing_as {A : Type} H w M e (m : api A) (Q : _ -> _ -> _ -> _ -> Prop) :
  runs H w M m (fun o => Q (match o with Err _ => Err e | o => o end)) -> runs H w M (failing_as e m) Q.
Proof.
  intros Hm st Hs. destruct (Hm st Hs) as (H' & w' & M' & Hs' & Hq). exists H', w', M'. unfold failing_as.
  destruct (m st) as [[a|e'|x|] st']; cbn in *; split; try done; intros _; by apply Hs'.
Qed.

Lemma spare_insert M k k' x : k <> k' -> spare M k -> spare (<[k' := x]> M) k.
Proof. intros Hk Hs l o. rewrite lookup_insert_ne by done. apply Hs. Qed.

Lemma spare_delete M k k' : spare M k -> spare (delete k' M) k.
Proof. intros Hs l o [_ Hk]%lookup_delete_Some. by apply Hs in Hk. Qed.

(** Variables other than the two. *)
Ltac other := first [discriminate | done].

(** The next lookup of a variable. *)
Ltac vlook Hv := first
  [ apply lookup_insert_eq
  | eassumption
  | apply (var_http _ _ _ _ Hv) | apply (var_ctx _ _ _ _ Hv)
  | rewrite lookup_insert_ne by other; vlook Hv
  | rewrite lookup_delete_ne by other; vlook Hv ].

Ltac vspare Hv := first
  [ assumption
  | apply spare_null; eassumption
  | apply (var_other _ _ _ _ Hv); other
  | apply spare_null, lookup_insert_eq
  | apply spare_none, lookup_delete_eq
  | apply spare_insert; [other|vspare Hv]
  | apply spare_delete; vspare Hv ].

(** One step of a computation over the variables, and a dereference of a
    variable's object. *)
Ltac deref Hv k := eapply (runs_deref _ _ _ k); [vlook Hv|reflexivity|]; tidy.
Ltac set_obj Hv k := eapply (runs_assign _ _ _ k); [vlook Hv|reflexivity|]; tidy.

Ltac step Hv := lazymatch goal with
  | |- runs _ _ _ (sbind _ _) _ => apply runs_bind
  | |- runs _ _ _ (c_call _) _ => apply runs_c_call
  | |- runs _ _ _ (ignoring _) _ => apply runs_ignoring
  | |- runs _ _ _ (with_ctx _) _ => eapply runs_with_ctx; [vlook Hv|]
  | |- runs _ _ _ (on_ctx (Some _) _) _ => eapply runs_on_ctx; [vlook Hv|]
  | |- runs _ _ _ (with_http _) _ => unfold with_http
  | |- runs _ _ _ (arg _ (Some _)) _ => eapply runs_arg; [vlook Hv|]
  | |- runs _ _ _ (read _ _) _ => eapply runs_read; [vlook Hv|]
  | |- runs _ _ _ (write _ (Some _) None) _ => apply runs_null; [vspare Hv|]
  | |- runs _ _ _ (emit (Some _) _) _ => apply runs_emit; [vspare Hv|intros ? ?]
  | |- runs _ _ _ (slift _) _ => apply runs_lift
  | |- runs _ _ _ (sret _) _ => apply runs_ret
  end; tidy.

Ltac steps Hv := repeat step Hv.

(** The variables are as [vars] says. *)
Ltac vars_done Hv :=
  split; [vlook Hv|vlook Hv|];
  let k := fresh "k" in intros k ? ? ? ?; repeat first [rewrite lookup_insert | rewrite lookup_delete];
  repeat (lazymatch goal with |- (if ?d then _ else _) <> _ => destruct d; [first [discriminate | subst; congruence]|] end); by apply (var_other _ _ _ _ Hv).

(** The end of a step that sets the context. *)
Ltac sets_done Hv c := split_and!; try done; exists c; split; [vars_done Hv|by intros ? [= <-]].

Lemma sets_policy h lc o : sets h lc (set_policy_of o) (fun c => Ret (spec_policy o c)).
Proof.
  intros H w c M Hv. unfold set_policy_of, nvat_evidence_policy_create_default,
    nvat_evidence_policy_set_verify_rim_signature, nvat_evidence_policy_set_verify_rim_cert_chain, set_policy.
  steps Hv. deref Hv (T_evidence_policy, 0%nat). set_obj Hv (T_evidence_policy, 0%nat).
  steps Hv. deref Hv (T_evidence_policy, 0%nat). set_obj Hv (T_evidence_policy, 0%nat). steps Hv.
  set (p := Rim.mk_policy _ _ _ _). match goal with |- runs _ _ _ (write _ _ (Some ?l)) _ =>
    apply (runs_move _ _ _ _ 0 1 (Some (l, o_evidence_policy p))) end; [vlook Hv|vspare Hv|done|]. tidy.
  apply runs_on_failure. unfold nvat_attestation_ctx_set_evidence_policy. steps Hv.
  deref Hv (T_evidence_policy, 1%nat). steps Hv.
  eapply (runs_delete _ _ _ (T_evidence_policy, 1%nat)); [vlook Hv|]. tidy. split; [done|].
  sets_done Hv (spec_policy o c).
Qed.

(** A source of evidence from a file. *)
Lemma sets_file h lc (F : option nat -> api unit) (f : context_t -> res context_t) :
  F (Some lc) = (do* c := deref_as to_ctx (Some lc) in do* c := slift (f c) in assign (Some lc) (o_attestation_ctx c)) ->
  sets h lc (with_ctx F) (fun c => returned (f c)).
Proof.
  intros HF H w c M Hv. steps Hv. rewrite HF. steps Hv. deref Hv (T_attestation_ctx, ctx). steps Hv.
  destruct (f c) as [c'|e|x|] eqn:E; tidy; [|by split_and!; try done; exists c..].
  set_obj Hv (T_attestation_ctx, ctx). sets_done Hv c'.
Qed.

Lemma sets_device h lc o : sets h lc (set_device o) (spec_device o).
Proof.
  unfold set_device, spec_device. apply sets_if; [|apply sets_if; [|apply sets_ret]].
  - eapply sets_ext; swap 1 2.
    { apply sets_bind; [by apply (sets_ctx _ _ _ (fun c => Attestation.set_device_type c Verify.NVAT_DEVICE_GPU))|].
      apply sets_if; [|apply sets_err]. apply sets_if; [by apply sets_file|apply sets_ret]. }
    intros c. reflexivity.
  - eapply sets_ext; swap 1 2.
    { apply sets_bind; [by apply (sets_ctx _ _ _ (fun c => Attestation.set_device_type c Verify.NVAT_DEVICE_NVSWITCH))|].
      apply sets_if; [by apply sets_file|apply sets_ret]. }
    intros c. reflexivity.
Qed.

Lemma sets_key h lc o : sets h lc (set_key o (offline o)) (fun c => Ret (spec_key o c)).
Proof.
  unfold set_key, spec_key. eapply sets_ext; swap 1 2.
  { apply sets_if; [|apply sets_ret]. by apply (sets_ctx _ _ _ (fun c => Attestation.set_service_key c (Options.service_key o))). }
  intros c. by destruct (_ && _).
Qed.

Lemma sets_verifier h lc o : sets h lc (set_verifier o) (spec_verifier o).
Proof.
  unfold set_verifier, spec_verifier. apply sets_if; [|apply sets_if; [|apply sets_err]].
  - by apply (sets_ctx _ _ _ (fun c => Attestation.set_verifier_type c Verify.Local)).
  - by apply (sets_ctx _ _ _ (fun c => Attestation.set_verifier_type c Verify.Remote)).
Qed.

Lemma default_key key : default "" (key_or_null key) = key.
Proof. unfold key_or_null. by case_bool_decide; subst. Qed.

(** The end of a scope: the owner's object is freed. *)
Ltac scope_done Hv := split; [done|intros _; split; [eexists; vlook Hv|tidy]].

Lemma sets_relying_party h lc o : sets h lc (set_relying_party_policy (Options.relying_party_policy o)) (spec_relying_party o).
Proof.
  unfold set_relying_party_policy, spec_relying_party. apply sets_if; [apply sets_ret|].
  destruct (Attestation.read_file _) as [rego_str|]; [|apply sets_err]. intros H w c M Hv.
  unfold nvat_relying_party_policy_create_rego_from_str, nvat_attestation_ctx_set_relying_party_policy.
  steps Hv. apply runs_owning. steps Hv. deref Hv (T_relying_party_policy, 0%nat). steps Hv. scope_done Hv.
  sets_done Hv (Attestation.set_claims_evaluator c (Some (c_str rego_str))).
Qed.

(** The options in the variables are those the context is configured with. *)
Definition options_of (h : options_var) : option Http.HttpOptions := snd <$> h.

Lemma sets_rims h lc o :
  (offline o = false -> is_Some h) -> sets h lc (set_rims o (offline o)) (spec_rims o (options_of h)).
Proof.
  intros Hh. unfold set_rims, spec_rims. apply sets_if; [|apply sets_ret]. intros H w c M Hv.
  steps Hv. apply runs_owning. steps Hv.
  destruct (equals (Options.rim_store o) "remote" && negb (offline o)) eqn:Er.
  - apply andb_true_iff in Er as [_ Hoff%negb_true_iff]. destruct (Hh Hoff) as [[lh ho] ->].
    unfold nvat_rim_store_create_remote, nvat_attestation_ctx_set_default_rim_store. steps Hv. cbn [deref_or].
    deref Hv (T_http_options, http). steps Hv. rewrite default_key.
    deref Hv (T_rim_store, 0%nat). steps Hv. set_obj Hv (T_rim_store, 0%nat). scope_done Hv. sets_done Hv (Attestation.set_default_rim_store c
      (Some (Attestation.make_rim_store (Options.rim_url o) (Options.service_key o) ho))).
  - destruct (equals (Options.rim_store o) "dir").
    + unfold nvat_rim_store_create_filesystem, nvat_attestation_ctx_set_default_rim_store. steps Hv.
      deref Hv (T_rim_store, 0%nat). steps Hv. set_obj Hv (T_rim_store, 0%nat). scope_done Hv.
      sets_done Hv (Attestation.set_default_rim_store c (Some (Attestation.FilesystemRimStore (Options.rim_path o)))).
    + steps Hv. scope_done Hv. split_and!; try done. exists c. split; [vars_done Hv|done].
Qed.

(** A scope in which something failed. *)
Ltac failed_scope Hv c := scope_done Hv; split_and!; try done; exists c; split; [vars_done Hv|done].

Lemma read_bundle_cases file :
  Options.read_status_proof_bundle file = Err BadArgument \/
  exists bundle, Options.read_status_proof_bundle file = Ret bundle /\ 0 < zlen bundle <= Bundle.MAX_BUNDLE_BYTES.
Proof.
  unfold Options.read_status_proof_bundle. destruct file as [contents|]; [|by left].
  destruct (negb _) eqn:E; [|by left]. right. eexists. split; [done|].
  unfold Options.MAX_BUNDLE_BYTES, Bundle.MAX_BUNDLE_BYTES in *. lia.
Qed.

Lemma sets_ocsp h lc o :
  (offline o = false -> is_Some h) -> sets h lc (set_ocsp o (offline o)) (spec_ocsp o (options_of h)).
Proof.
  intros Hh. unfold set_ocsp, spec_ocsp, offline_client. destruct (offline o) eqn:Eoff.
  - intros H w c M Hv. destruct (read_bundle_cases (Attestation.read_file (Options.ocsp_proof_bundle o))) as [-> |(b & -> & Hb)].
    { steps Hv. split_and!; try done. by exists c. }
    steps Hv. destruct (Options.parse_verification_time (Options.ocsp_verification_time o)) as [t|e|x|] eqn:Et; tidy;
      [|by split_and!; try done; exists c..].
    unfold give_client. steps Hv. apply runs_owning.
    unfold nvat_ocsp_client_create_raw_proofs, nvat_attestation_ctx_set_default_ocsp_client. steps Hv.
    replace (zlen b =? 0) with false by lia. replace (Bundle.MAX_BUNDLE_BYTES <? zlen b) with false by lia. cbn [negb].
    assert (0 < t) as Ht.
    { rewrite Options.parse_time_eq in Et. destruct (negb _) eqn:E in Et; [|done]. injection Et as <-.
      apply negb_true_iff, orb_false_iff in E as [[_ Hd%negb_false_iff]%orb_false_iff Hz].
      pose proof (Options.decimal_from_bounds 0 _ Hd (Z.le_refl 0)) as [Hlo _].
      assert (Options.decimal (String.list_ascii_of_string (Options.ocsp_verification_time o)) <> 0); [|unfold Options.decimal, Options.decimal_from in *; lia].
      rewrite Options.decimal_zero by done. by rewrite <- not_true_iff_false in Hz. }
    replace (t <=? 0) with false by lia. cbn [orb].
    cbn [obind]. destruct (Ocsp.MAX_VERIFICATION_TIME <? t); cbn [negb]; [steps Hv; failed_scope Hv c|].
    unfold viter. replace (_ && _) with true by lia. rewrite slice_all by done. steps Hv.
    destruct (Ocsp.create_from_bundle b t) as [client|e|x|]; tidy; steps Hv;
      [|failed_scope Hv c|failed_scope Hv c|].
    + deref Hv (T_ocsp_client, 0%nat). steps Hv. set_obj Hv (T_ocsp_client, 0%nat). scope_done Hv.
      sets_done Hv (Attestation.set_default_ocsp_client c (Some (Attestation.RawOcspClient client))).
    + split; [intros _|done]. split_and!; try done. exists c. split; [vars_done Hv|done].
  - intros H w c M Hv. destruct Hh as [[lh ho] ->]; [done|].
    destruct (equals (Options.ocsp_url o) ""); cbn [negb].
    { steps Hv. sets_done Hv c. }
    unfold give_client, nvat_ocsp_client_create_default, nvat_attestation_ctx_set_default_ocsp_client.
    steps Hv. apply runs_owning. steps Hv. cbn [deref_or]. deref Hv (T_http_options, http). steps Hv. rewrite default_key.
    deref Hv (T_ocsp_client, 0%nat). steps Hv. set_obj Hv (T_ocsp_client, 0%nat). scope_done Hv.
    sets_done Hv (Attestation.set_default_ocsp_client c
      (Some (Attestation.make_ocsp_client (Options.ocsp_url o) (Options.service_key o) ho))).
Qed.

(** *** Attesting and reading the results *)

(** The nonce of the variable: nothing, or its bytes. *)
Definition nonce_var (n : list Z) (x : option (nat * object)) : Prop :=
  (x = None /\ n = []) \/ exists l, x = Some (l, o_nonce n).

Definition token_leak {A : Type} (o : outcome Error A) : list object :=
  match o with Err _ | Throw _ => [o_str ""] | _ => [] end.

Definition attested (clock clock_ms : nat -> Z) (platform : Http.Platform) (c : context_t) (n : list Z) (w : world) :
    outcome Error (option string * option Error) :=
  (Attestation.attest_device (P:=platform) clock clock_ms n true (Attestation.mk_state c w.1.1 w.1.2 w.2 [])).1.

(** The call, with a handle [h] to the nonce. *)
Lemma attest_call_runs clock clock_ms platform lc c n h H w M (Q : _ -> _ -> _ -> _ -> Prop) :
  M !! (T_attestation_ctx, ctx) = Some (Some (lc, o_attestation_ctx c)) ->
  (h = None /\ n = [] \/ exists l k, h = Some l /\ M !! k = Some (Some (l, o_nonce n))) ->
  M !! (T_claims_collection, 0%nat) = Some None -> M !! (T_str, 0%nat) = Some None ->
  (forall o s, Attestation.attest_device (P:=platform) clock clock_ms n true (Attestation.mk_state c w.1.1 w.1.2 w.2 []) = (o, s) ->
    let w' := (Attestation.rim_world s, Attestation.ocsp_world s, Attestation.nras_requests s) in
    let M' := <[(T_attestation_ctx, ctx) := Some (lc, o_attestation_ctx (Attestation.context s))]> M in
    match o with
    | Ret (text, status) => forall l1 l2,
        Q (Ret status) H w' (<[(T_str, 0%nat) := Some (l1, o_str (default "" text))]>
          (<[(T_claims_collection, 0%nat) := Some (l2, o_claims_collection (Attestation.claims s))]> M'))
    | Err e => forall H', leaked H [o_str ""] H' -> Q (Err e) H' w' M'
    | Throw x => forall H', leaked H [o_str ""] H' -> Q (Throw x) H' w' M'
    | UB => forall H', Q UB H' w' M'
    end) ->
  runs H w M (nvat_attest_device (P:=platform) clock clock_ms (Some lc) h (Some 0%nat) (Some 0%nat)) Q.
Proof.
  intros Hc Hn Hcl Hstr Hq. unfold nvat_attest_device. given.
  apply runs_bind, runs_alloc. intros lt Hlt. tidy. set (H1 := <[lt := o_str ""]> H).
  assert (leaked H [o_str ""] H1) as Hleak by by repeat econstructor.
  apply runs_bind. assert (runs H1 w M (deref_or to_nonce [] h)
    (fun o H' w' M' => o = Ret n /\ H' = H1 /\ w' = w /\ M' = M)) as Hd.
  { destruct Hn as [[-> ->]|(ln & k & -> & Hk)]; cbn [deref_or]; [by apply runs_ret|].
    by eapply runs_deref. }
  eapply runs_weaken; [exact Hd|]. intros ? ? ? ? (-> & -> & -> & ->). tidy.
  apply runs_bind. eapply runs_deref; [exact Hc|reflexivity|]. tidy.
  apply runs_bind, runs_with_state. intros o s E. specialize (Hq o s E). cbv zeta in Hq. tidy.
  apply runs_bind. eapply runs_assign; [exact Hc|reflexivity|]. tidy.
  set (M1 := <[(T_attestation_ctx, ctx) := _]> M) in *. set (w1 := (_, _, _)) in *.
  apply runs_bind, runs_lift. destruct o as [[text status]|e|e|]; tidy; [|by apply Hq..].
  rewrite bool_decide_true by by eapply Attestation.attest_status.
  apply runs_bind, runs_emit; [apply spare_null; subst M1; by rewrite lookup_insert_ne|]. intros l2 _. tidy.
  apply runs_bind, runs_bind. eapply (runs_assign_base _ _ _ lt (o_str "")); [apply lookup_insert_eq|done|]. tidy.
  eapply (runs_adopt _ _ _ _ _ lt); [apply lookup_insert_eq|done| |].
  { apply spare_null. rewrite lookup_insert_ne by done. subst M1. by rewrite lookup_insert_ne. }
  tidy. apply runs_ret. tidy. subst H1. rewrite insert_insert_eq, delete_insert_eq, delete_id by done. apply Hq.
Qed.

Lemma attest_device_runs clock clock_ms platform lc c n x H w M (Q : _ -> _ -> _ -> _ -> Prop) :
  M !! (T_attestation_ctx, ctx) = Some (Some (lc, o_attestation_ctx c)) ->
  M !! (T_nonce, 0%nat) = Some x -> nonce_var n x ->
  M !! (T_claims_collection, 0%nat) = Some None -> M !! (T_str, 0%nat) = Some None ->
  (forall o s, Attestation.attest_device (P:=platform) clock clock_ms n true (Attestation.mk_state c w.1.1 w.1.2 w.2 []) = (o, s) ->
    let w' := (Attestation.rim_world s, Attestation.ocsp_world s, Attestation.nras_requests s) in
    let M' := <[(T_attestation_ctx, ctx) := Some (lc, o_attestation_ctx (Attestation.context s))]> M in
    match o with
    | Ret (text, status) => forall l1 l2,
        Q (Ret status) H w' (<[(T_str, 0%nat) := Some (l1, o_str (default "" text))]>
          (<[(T_claims_collection, 0%nat) := Some (l2, o_claims_collection (Attestation.claims s))]> M'))
    | Err e => forall H', leaked H [o_str ""] H' -> Q (Err e) H' w' M'
    | Throw _ => forall H', leaked H [o_str ""] H' -> Q (Err InternalError) H' w' M'
    | UB => forall H', Q UB H' w' M'
    end) ->
  runs H w M
    (c_call (do* a := arg T_attestation_ctx (Some ctx) in
             do* b := arg T_nonce (Some 0%nat) in
             nvat_attest_device (P:=platform) clock clock_ms a b (Some 0%nat) (Some 0%nat))) Q.
Proof.
  intros Hc Hx Hn Hcl Hstr Hq. apply runs_c_call, runs_bind. eapply runs_arg; [exact Hc|]. tidy.
  apply runs_bind. eapply runs_arg; [exact Hx|]. tidy.
  eapply attest_call_runs; [exact Hc| |done..|].
  { destruct Hn as [[-> ->]|[ln ->]]; [by left|right; by do 2 eexists]. }
  intros o s E. specialize (Hq o s E). by destruct o as [[text status]|e|x'|].
Qed.

(** Nothing but the context, the nonce and the HTTP options. *)
Definition only_outer M M' : Prop :=
  forall k, k <> (T_attestation_ctx, ctx) -> k <> (T_nonce, 0%nat) -> k <> (T_http_options, http) -> spare M k -> spare M' k.

Ltac outer_done :=
  split; [done|intros _; split_and!];
  [constructor
  |eexists; repeat (rewrite lookup_insert_ne by other); apply lookup_insert_eq
  |repeat (rewrite lookup_insert_ne by other); done
  |repeat (rewrite lookup_insert_ne by other); done
  |let k := fresh "k" in intros k ? ? ? ? ? ?; repeat rewrite lookup_insert;
   repeat (lazymatch goal with |- (if ?d then _ else _) <> _ => destruct d; [first [discriminate | subst; congruence]|] end);
   match goal with Hk : spare _ k |- _ => apply Hk end].

Lemma attest_and_read_runs clock clock_ms platform lc c n x H w M :
  M !! (T_attestation_ctx, ctx) = Some (Some (lc, o_attestation_ctx c)) ->
  M !! (T_nonce, 0%nat) = Some x -> nonce_var n x ->
  M !! (T_claims_collection, 0%nat) = Some None -> M !! (T_str, 0%nat) = Some None -> spare M (T_str, 1%nat) ->
  runs H w M (attest_and_read clock clock_ms platform) (fun o H' w' M' =>
    (o, w') = spec_attest clock clock_ms platform c n w /\
    (o <> UB ->
     leaked H (token_leak (attested clock clock_ms platform c n w)) H' /\
     is_Some (M' !! (T_attestation_ctx, ctx)) /\ M' !! (T_nonce, 0%nat) = Some x /\
     M' !! (T_http_options, http) = M !! (T_http_options, http) /\ only_outer M M')).
Proof.
  intros Hc Hx Hn Hcl Hstr Hsp. unfold attest_and_read. apply runs_bind.
  eapply attest_device_runs; [done..|]. intros o s E w' M1. subst M1. unfold spec_attest, attested. rewrite E. fold w'.
  destruct o as [[text status]|e|e|]; tidy.
  2,3: intros H' Hl; split; [done|]; intros _; split_and!; [done|eexists; vlook Hc| | |];
    [by rewrite lookup_insert_ne|by rewrite lookup_insert_ne|];
    intros k ? ? ? Hk; by apply spare_insert.
  2: { by intros H'. }
  intros l1 l2. apply runs_owning, runs_owning. unfold nvat_claims_collection_serialize_json, nvat_str_get_data. steps Hc.
  deref Hc (T_claims_collection, 0%nat). steps Hc.
  destruct (Collection.serialize_json Eat.json_dump (Attestation.claims s)) as [t|e|e|]; tidy.
  2,3: scope_done Hc; scope_done Hc; outer_done.
  2: { split; [intros _|done]. split; [intros _|done]. by split. }
  steps Hc. apply runs_owning. steps Hc. deref Hc (T_str, 1%nat). steps Hc. deref Hc (T_str, 0%nat). steps Hc.
  scope_done Hc. scope_done Hc. scope_done Hc. outer_done.
Qed.

(** *** The whole of [attest] *)

Lemma leaked_app H1 a H2 b H3 : leaked H1 a H2 -> leaked H2 b H3 -> leaked H1 (a ++ b) H3.
Proof. induction 1 as [|H l o os H' Hl _ IH]; [done|]. intros Hb. cbn. econstructor; [done|]. by apply IH. Qed.

(** A step that sets the context, and what follows. *)
Lemma runs_sets {A : Type} h lc H w c M m f (k : api A) (Q : _ -> _ -> _ -> _ -> Prop) :
  sets h lc m f -> vars h lc c M ->
  (forall c' M', f c = Ret c' -> vars h lc c' M' -> runs H w M' k Q) ->
  (forall M' c' o, vars h lc c' M' -> (forall a, f c <> Ret a) -> o = (let* _ := f c in UB) -> Q o H w M') ->
  runs H w M (do* _ := m in k) Q.
Proof.
  intros Hs Hv Hk Hq. apply runs_bind. eapply runs_weaken; [by apply Hs|].
  intros o H' w' M' (-> & -> & -> & c' & Hv' & Hc'). destruct (f c) as [c1|e|x|] eqn:E; cbn [obind then_].
  - eapply Hk; [done|]. by rewrite <- (Hc' _ eq_refl).
  - by eapply Hq.
  - by eapply Hq.
  - by eapply Hq.
Qed.

Lemma nonce_of_hex_cases hex : (exists n, nonce_of_hex hex = Ret n) \/ nonce_of_hex hex = Err BadArgument.
Proof.
  unfold nonce_of_hex. repeat (destruct (negb _); [|by right]). destruct (forallb _ _); [|by right].
  destruct (negb _); [left; by eexists|by right].
Qed.

Section whole.
Context (clock clock_ms : nat -> Z) (collection : Options.EvidenceCollectionOptions).
Context (verification : Options.EvidenceVerificationOptions) (policy : Options.EvidencePolicyOptions).

Abbreviation platform := (with_nras_url verification (offline verification)).
Abbreviation run_of := (run_from clock clock_ms collection verification).
Abbreviation leaks_of := (leaks_from clock clock_ms collection verification).

(** Inside the scopes of the options and the context. *)
Definition inner H w (r : res context_t) (o : outcome Error Output.AttestOutput) (H' : gmap nat object) (w' : world)
    (M' : gmap (ctype * nat) (option (nat * object))) : Prop :=
  (o, w') = run_of r w /\
  (o <> UB -> leaked H (leaks_of r w) H' /\ is_Some (M' !! (T_attestation_ctx, ctx)) /\
     is_Some (M' !! (T_http_options, http)) /\
     forall k, k <> (T_attestation_ctx, ctx) -> k <> (T_http_options, http) -> spare M' k).

Lemma inner_failed h lc c H w (r : res context_t) M o :
  vars h lc c M -> (forall a, r <> Ret a) -> o = (let* _ := r in UB) -> inner H w r o H w M.
Proof.
  intros Hv Hr ->. unfold inner, run_from, leaks_from. destruct r as [a|e|x|]; [by destruct (Hr a)|..]; cbn [obind].
  all: split; [done|]; intros ?; split_and!; [constructor|eexists; apply (var_ctx _ _ _ _ Hv)|eexists; apply (var_http _ _ _ _ Hv)|].
  all: intros k ? ?; by apply (var_other _ _ _ _ Hv).
Qed.

Lemma inner_step h lc c H w (r : res context_t) k M o :
  vars h lc c M -> (forall a, r <> Ret a) -> o = (let* _ := r in UB) -> inner H w (let* c := r in k c) o H w M.
Proof.
  intros Hv Hr Ho. eapply inner_failed; [done|..]; destruct r as [a|e|x|]; try done; by destruct (Hr a).
Qed.

(** The nonce, the attestation and its results. *)
Lemma attest_runs h lc c H w M :
  vars h lc c M ->
  runs H w M
    (do* _ := write T_claims_collection (Some 0%nat) None in
     do* _ := write T_str (Some 0%nat) None in
     do* _ := read_nonce (Options.nonce collection) in
     attest_and_read clock clock_ms platform) (inner H w (Ret c)).
Proof.
  intros Hv. steps Hv. unfold read_nonce. steps Hv.
  assert (forall M' k, only_outer (<[(T_nonce, 0%nat) := None]> (<[(T_str, 0%nat) := None]>
            (<[(T_claims_collection, 0%nat) := None]> M))) M' ->
          k <> (T_attestation_ctx, ctx) -> k <> (T_nonce, 0%nat) -> k <> (T_http_options, http) -> spare M' k) as Hout.
  { intros M' k Ho ? ? ?. apply Ho; [done..|]. apply spare_insert; [done|]. intros l o.
    repeat rewrite lookup_insert. destruct (decide _); [done|]. destruct (decide _); [done|]. by apply (var_other _ _ _ _ Hv). }
  destruct (equals (Options.nonce collection) "") eqn:En; cbn [negb].
  - steps Hv. eapply runs_weaken; [apply (attest_and_read_runs _ _ _ lc c [] None); [vlook Hv|vlook Hv|by left|vlook Hv|vlook Hv|vspare Hv]|].
    intros o H' w' M' [He Hr]. unfold inner, run_from, leaks_from, spec_nonce. rewrite En. cbn [negb obind].
    split; [done|]. intros Ho. destruct (Hr Ho) as (Hl & Hc & Hx & Hh & Hk). split_and!; [by rewrite app_nil_r|done| |].
    + rewrite Hh. eexists. vlook Hv.
    + intros k H1 H2. destruct (decide (k = (T_nonce, 0%nat))) as [-> |]; [by apply spare_null|]. by eapply Hout.
  - unfold nvat_nonce_from_hex. steps Hv.
    destruct (nonce_of_hex_cases (Options.nonce collection)) as [[n Hn]|Hn]; rewrite Hn; tidy.
    2: { unfold inner, run_from, leaks_from, spec_nonce. rewrite En. cbn [negb]. rewrite Hn. cbn [obind]. split; [done|].
         intros _. split_and!; [constructor|eexists; vlook Hv|eexists; vlook Hv|]. intros k H1 H2 l o.
         repeat rewrite lookup_insert. repeat (destruct (decide _); [done|]). by apply (var_other _ _ _ _ Hv). }
    steps Hv. match goal with |- runs _ _ (<[_ := Some (?ln, _)]> _) _ _ =>
      apply (runs_leak _ _ _ (T_nonce, 0%nat)); eapply runs_weaken;
        [apply (attest_and_read_runs _ _ _ lc c n (Some (ln, o_nonce n)));
           [vlook Hv|vlook Hv|right; by eexists|vlook Hv|vlook Hv|vspare Hv]|] end.
    intros o H' w' M' [He Hr]. unfold inner, run_from, leaks_from, spec_nonce. rewrite En. cbn [negb]. rewrite Hn. cbn [obind].
    split; [by intros -> |]. intros Ho. destruct (Hr Ho) as (Hl & Hc & Hx & Hh & Hk). do 2 eexists. split; [exact Hx|].
    intros Hfresh. split; [done|]. intros _. split_and!.
    + eapply leaked_app; [exact Hl|]. by repeat econstructor.
    + by rewrite lookup_delete_ne.
    + rewrite lookup_delete_ne by done. rewrite Hh. eexists. vlook Hv.
    + intros k H1 H2. destruct (decide (k = (T_nonce, 0%nat))) as [-> |]; [apply spare_none, lookup_delete_eq|].
      apply spare_delete. eapply Hout; [|done..]. intros k' ? ? ? Hs. apply Hk; [done..|]. apply spare_insert; [done|].
      intros l1 o1 E1. apply (Hs l1 o1). by rewrite lookup_insert_ne.
Qed.

(** The context's configuration from what the options of HTTP made of it. *)
Definition configured (options : option Http.HttpOptions) (c : context_t) : res context_t :=
  let* c := spec_device collection (spec_policy policy c) in
  let* c := spec_rims verification options (spec_key verification c) in
  let* c := spec_ocsp verification options c in
  let* c := spec_relying_party verification c in
  spec_verifier verification c.

Lemma configure_runs h lc c H w M :
  (offline verification = false -> is_Some h) -> vars h lc c M ->
  runs H w M
    (do* _ := set_policy_of policy in
     do* _ := set_device collection in
     do* _ := set_key verification (offline verification) in
     do* _ := set_rims verification (offline verification) in
     do* _ := set_ocsp verification (offline verification) in
     do* _ := set_relying_party_policy (Options.relying_party_policy verification) in
     do* _ := set_verifier verification in
     do* _ := write T_claims_collection (Some 0%nat) None in
     do* _ := write T_str (Some 0%nat) None in
     do* _ := read_nonce (Options.nonce collection) in
     attest_and_read clock clock_ms platform) (inner H w (configured (options_of h) c)).
Proof.
  intros Hh Hv. unfold configured.
  eapply runs_sets; [apply sets_policy|exact Hv| |by intros M' c' o _ Hne; destruct (Hne _ eq_refl)]. intros c1 M1 [= <-] Hv1.
  eapply runs_sets; [apply sets_device|exact Hv1| |].
  2: { intros M' c' o Hv' Hne Ho. by eapply inner_step. }
  intros c2 M2 -> Hv2. cbn [obind].
  eapply runs_sets; [apply sets_key|exact Hv2| |by intros M' c' o _ Hne; destruct (Hne _ eq_refl)]. intros c3 M3 [= <-] Hv3.
  eapply runs_sets; [by apply sets_rims|exact Hv3| |].
  2: { intros M' c' o Hv' Hne Ho. by eapply inner_step. }
  intros c4 M4 -> Hv4. cbn [obind].
  eapply runs_sets; [by apply sets_ocsp|exact Hv4| |].
  2: { intros M' c' o Hv' Hne Ho. by eapply inner_step. }
  intros c5 M5 -> Hv5. cbn [obind].
  eapply runs_sets; [apply sets_relying_party|exact Hv5| |].
  2: { intros M' c' o Hv' Hne Ho. by eapply inner_step. }
  intros c6 M6 -> Hv6. cbn [obind].
  eapply runs_sets; [apply sets_verifier|exact Hv6| |].
  2: { intros M' c' o Hv' Hne Ho. by eapply inner_failed. }
  intros c7 M7 -> Hv7. by eapply attest_runs.
Qed.

Definition finished H w (r : res context_t) (o : outcome Error Output.AttestOutput) (H' : gmap nat object) (w' : world)
    (M' : gmap (ctype * nat) (option (nat * object))) : Prop :=
  (o, w') = run_of r w /\ (o <> UB -> leaked H (leaks_of r w) H' /\ forall k, spare M' k).

(** The scope of the options ends. *)
Definition outer H w (r : res context_t) (o : outcome Error Output.AttestOutput) (H' : gmap nat object) (w' : world)
    (M' : gmap (ctype * nat) (option (nat * object))) : Prop :=
  (o = UB -> finished H w r UB H' w' M') /\
  (o <> UB -> is_Some (M' !! (T_http_options, http)) /\ finished H w r o H' w' (<[(T_http_options, http) := None]> M')).

(** The scope of the context ends. *)
Lemma inner_outer H w r o H' w' M' :
  inner H w r o H' w' M' ->
  (o = UB -> outer H w r UB H' w' M') /\
  (o <> UB -> is_Some (M' !! (T_attestation_ctx, ctx)) /\ outer H w r o H' w' (<[(T_attestation_ctx, ctx) := None]> M')).
Proof.
  intros [Ho Hr]. split.
  - intros ->. split; [|done]. intros _. split; [done|]. done.
  - intros Hne. destruct (Hr Hne) as (Hl & Hc & Hh & Hk). split; [done|]. split; [done|]. intros _.
    split; [by rewrite lookup_insert_ne|]. split; [done|]. intros _. split; [done|]. intros k.
    destruct (decide (k = (T_http_options, http))) as [-> |]; [apply spare_null, lookup_insert_eq|].
    apply spare_insert; [done|]. destruct (decide (k = (T_attestation_ctx, ctx))) as [-> |]; [apply spare_null, lookup_insert_eq|].
    apply spare_insert; [done|]. by apply Hk.
Qed.

(** The context is created, and what follows configures it and attests. *)
Lemma context_runs H w M h (set_http : api unit) :
  M !! (T_http_options, http) = Some ((fun p : nat * Http.HttpOptions => (p.1, o_http_options p.2)) <$> h) ->
  (forall k, k <> (T_http_options, http) -> spare M k) -> (offline verification = false -> is_Some h) ->
  (forall lc, sets h lc set_http (fun c => Ret (match h with None => c | Some p => Attestation.set_default_http_options c p.2 end))) ->
  runs H w M
    (do* _ := write T_attestation_ctx (Some ctx) None in
     owning T_attestation_ctx ctx
       (do* _ := c_call (nvat_attestation_ctx_create (Some ctx)) in
        do* _ := set_http in
        do* _ := set_policy_of policy in
        do* _ := set_device collection in
        do* _ := set_key verification (offline verification) in
        do* _ := set_rims verification (offline verification) in
        do* _ := set_ocsp verification (offline verification) in
        do* _ := set_relying_party_policy (Options.relying_party_policy verification) in
        do* _ := set_verifier verification in
        do* _ := write T_claims_collection (Some 0%nat) None in
        do* _ := write T_str (Some 0%nat) None in
        do* _ := read_nonce (Options.nonce collection) in
        attest_and_read clock clock_ms platform))
    (outer H w (configured (options_of h)
       (match options_of h with None => Attestation.new_context | Some o => Attestation.set_default_http_options Attestation.new_context o end))).
Proof.
  intros Hm Hs Hh Hset. apply runs_bind, runs_null; [by apply Hs|]. tidy.
  apply runs_owning. apply runs_bind, runs_c_call. unfold nvat_attestation_ctx_create. given.
  apply runs_emit; [apply spare_null, lookup_insert_eq|]. intros lc Hlc. tidy.
  eapply runs_weaken; [|intros o H' w' M'; apply inner_outer].
  eapply runs_sets; [apply (Hset lc)| | |by intros ? ? ? _ Hne; destruct (Hne _ eq_refl)].
  - split; [by rewrite lookup_insert_ne|apply lookup_insert_eq|]. intros k ? ?. apply spare_insert; [done|]. by apply Hs.
  - intros c' M' [= <-] Hv. destruct h as [[lh o]|]; by apply (configure_runs _ lc).
Qed.

Lemma attest_calls_runs H w :
  runs H w ∅ (attest_calls clock clock_ms collection verification policy)
    (finished H w (spec_context collection verification policy)).
Proof.
  unfold attest_calls. fold (offline verification). apply runs_guard. unfold spec_context.
  destruct (negb (offline verification && _)); cbn [negb].
  2: { split; [done|]. intros _. split; [constructor|]. intros k. apply spare_none, lookup_empty. }
  apply runs_bind, runs_null; [apply spare_none, lookup_empty|]. tidy. apply runs_owning.
  unfold spec_http. destruct (offline verification) eqn:Eoff.
  - apply runs_bind, runs_ret. tidy. rewrite <- Eoff. apply (context_runs _ _ _ None); [apply lookup_insert_eq| |by rewrite Eoff|].
    { intros k ?. apply spare_insert; [done|]. apply spare_none, lookup_empty. }
    intros lc. rewrite ?Eoff. apply sets_ret.
  - apply runs_bind, runs_bind, runs_c_call. unfold nvat_http_options_create_default. given.
    apply runs_emit; [apply spare_null, lookup_insert_eq|]. intros lh Hlh. tidy.
    apply runs_c_call. unfold with_http. apply runs_bind. eapply runs_arg; [apply lookup_insert_eq|]. tidy.
    unfold nvat_http_options_set_ca_bundle_path. given. apply runs_bind.
    eapply runs_deref; [apply lookup_insert_eq|reflexivity|]. tidy.
    destruct (Http.set_ca_bundle_path Http.HttpOptions_default (Options.ca_bundle_path verification)) as [err o] eqn:Eca.
    apply runs_bind. eapply runs_assign; [apply lookup_insert_eq|reflexivity|]. tidy.
    apply runs_lift. case_bool_decide as Ee; tidy.
    + rewrite <- Eoff. apply (context_runs _ _ _ (Some (lh, o))); [apply lookup_insert_eq| |by eexists|].
      { intros k ?. apply spare_insert; [done|]. apply spare_none, lookup_empty. }
      intros lc. rewrite ?Eoff.
      intros H' w' c M' Hv. unfold with_http. steps Hv. unfold nvat_attestation_ctx_set_default_http_options. given. steps Hv.
      deref Hv (T_http_options, http). steps Hv. sets_done Hv (Attestation.set_default_http_options c o).
    + split; [by destruct err|]. intros _.
      split; [eexists; apply lookup_insert_eq|]. split; [by destruct err|]. intros _.
      split; [constructor|]. intros k. destruct (decide (k = (T_http_options, http))) as [-> |]; [apply spare_null, lookup_insert_eq|].
      repeat (apply spare_insert; [done|]). apply spare_none, lookup_empty.
Qed.

End whole.

End cli.

End Cli.
