(* ===== verification/CliCollect.v ===== *)
(** * CliCollect: what the collect-evidence subcommand computes

    [collect_calls] (Cli) without handles: the evidence that the source of the
    options gives for the nonce, as text.  Arrays of evidence are objects whose
    elements are objects without a variable; the arrays, the elements, the
    source and the nonce are gone when the subcommand ends, however it ends. *)

From S2P Require Import Prelude Errors Utils OpenSsl StatusBundle NvCache Ocsp X509Chain Json Claims Evaluator DetachedEat.
From S2P Require Import Http Jwt Certs Base64 Rim Report GpuEvidence SwitchEvidence Verify GpuVerify SwitchVerify.
From S2P Require Import Driver NvmlClient NscqClient Sdk Attestation Nvat Locals CliOptions CliOutput Cli.

Module Collect.
Import Nvat Locals Cli.

Section collect.
Context `{OSSL : OpenSSL} `{XML : LibXml2} `{env : Eat.Env} `{B64 : Base64Lib} `{L : JwtLib}.
Context `{P : Http.Platform} `{W : Attestation.World}.
Context {U WU V WV : Type} `{RS : !Rim.IRimStore (U * WU)} `{OC : !IOcspHttpClient (V * WV)}.

Abbreviation object := (Nvat.object (U:=U) (V:=V)).
Abbreviation capi := (Nvat.capi (U:=U) (WU:=WU) (V:=V) (WV:=WV)).
Abbreviation api := (sm capi Error).
Abbreviation world := ((Attestation.shared string * WU) * (Attestation.shared NvOcspResponse * WV) * nat)%type.
Abbreviation locals := (gmap (ctype * nat) (option (nat * object))).
Abbreviation equals s t := (bool_decide (s = t)).

Implicit Types (H : gmap nat object) (M : locals) (w : world).

(** ** The subcommand without handles *)

Section spec.
Context (o : Options.EvidenceCollectionOptions).

(** The nonce of the options, or a new one. *)
Definition nonce_to_use : res (list Z) :=
  if equals (Options.nonce o) "" then returned (generate_nonce Attestation.RAND_bytes Attestation.GPU_SPDM_REQ_NONCE_SIZE)
  else nonce_of_hex (Options.nonce o).

Definition gpu_source_of : res Attestation.gpu_source :=
  if equals (Options.gpu_evidence_source o) "file" then
    let* es := returned (GpuEvidence.file_source_create Eat.json_parse Attestation.read_file (Options.gpu_evidence_file o)) in
    Ret (Attestation.GpuEvidenceFromJson es)
  else if equals (Options.gpu_evidence_source o) "corelib" then
    let arch := GpuEvidence.arch_from_string (Options.gpu_architecture o) in
    check* negb (bool_decide (arch = GpuEvidence.Unknown)) else BadArgument in
    check* bool_decide (arch = GpuEvidence.Blackwell) else GpuArchitectureNotSupported in
    Ret (Attestation.CorelibEvidenceCollector arch)
  else Ret Attestation.NvmlEvidenceCollector.

Definition switch_source_of : res Attestation.switch_source :=
  if equals (Options.switch_evidence_source o) "file" then
    let* es := returned (SwitchEvidence.file_source_create Eat.json_parse Attestation.read_file (Options.switch_evidence_file o)) in
    Ret (Attestation.SwitchEvidenceFromJson es)
  else Ret Attestation.NscqEvidenceCollector.

(** A failure of any kind as one code. *)
Definition internal {A : Type} (r : outcome Error A) : outcome Error A :=
  match r with Err _ | Throw _ => Err InternalError | r => r end.

Definition gpu_text : res string :=
  check* negb (equals (Options.gpu_evidence_source o) "corelib" && equals (Options.gpu_architecture o) "") else BadArgument in
  let* source := gpu_source_of in
  let* n := nonce_to_use in
  let* es := returned (Attestation.gpu_get_evidence source n) in
  internal (GpuEvidence.collection_to_json Eat.json_dump es).

Definition switch_text : res string :=
  let* source := switch_source_of in
  let* n := nonce_to_use in
  let* es := returned (Attestation.switch_get_evidence source n) in
  internal (SwitchEvidence.collection_to_json Eat.json_dump es).

(** Without a device there is no text, and the null string is refused. *)
Definition device_text : res string :=
  if equals (Options.device o) "gpu" then gpu_text
  else if equals (Options.device o) "nvswitch" then switch_text
  else Err BadArgument.

(** A nonce that cannot be read is refused first. *)
Definition spec_collect : res Output.CollectEvidenceOutput :=
  let* _ := spec_nonce o in
  let* text := device_text in
  Ret (Output.mk_collected Ok (c_str text)).

End spec.

(** ** Arrays of evidence *)

Section array.
Context {E : Type} (o_array : list (option nat) -> object) (to_array : object -> option (list (option nat))).
Context (o_elem : E -> object) (to_elem : object -> option E) (array_type elem_type : ctype).
Context (array_inv : forall hs, to_array (o_array hs) = Some hs) (elem_inv : forall e, to_elem (o_elem e) = Some e).
Context (array_typed : forall hs, type_of (o_array hs) = array_type) (elem_typed : forall e, type_of (o_elem e) = elem_type).

(** New objects, one for each item. *)
Inductive elements : gmap nat object -> list nat -> list E -> gmap nat object -> Prop :=
| elements_nil H : elements H [] [] H
| elements_cons H l ls e es H' :
    H !! l = None -> elements (<[l := o_elem e]> H) ls es H' -> elements H (l :: ls) (e :: es) H'.

Lemma elements_lookup H ls es H' : elements H ls es H' -> forall l o, H !! l = Some o -> H' !! l = Some o.
Proof.
  induction 1 as [|H l ls e es H' Hl _ IH]; [done|]. intros l' o' Hl'. apply IH.
  rewrite lookup_insert_ne; [done|]. congruence.
Qed.

Lemma elements_delete H l o ls es H' :
  elements (<[l := o]> H) ls es H' -> H !! l = None -> elements H ls es (delete l H').
Proof.
  remember (<[l := o]> H) as H0 eqn:E0. intros He. revert H E0.
  induction He as [H0|H0 l' ls e es H' Hl' _ IH]; intros H -> Hl.
  - rewrite delete_insert_eq, delete_id by done. constructor.
  - apply lookup_insert_None in Hl' as [Hl' Hne]. constructor; [done|]. apply IH; [by rewrite insert_insert_ne|].
    by rewrite lookup_insert_ne.
Qed.

Lemma alloc_all_runs es : forall H w M (Q : _ -> _ -> _ -> _ -> Prop),
  (forall ls H', elements H ls es H' -> Q (Ret (Some <$> ls)) H' w M) -> runs H w M (alloc_all o_elem es) Q.
Proof.
  induction es as [|e es IH]; intros H w M Q Hq; cbn [alloc_all]; [apply runs_ret, (Hq []); constructor|].
  apply runs_bind, runs_alloc. intros l Hl. cbn [then_]. apply runs_bind, IH. intros ls H' He. cbn [then_].
  apply runs_ret, (Hq (l :: ls)). by constructor.
Qed.

Lemma read_elements_runs H0 ls es H w M (Q : _ -> _ -> _ -> _ -> Prop) :
  elements H0 ls es H -> Q (Ret es) H w M -> runs H w M (read_elements to_elem (length es) (Some <$> ls)) Q.
Proof.
  intros He. revert Q. induction He as [H|H0 l ls e es H Hl He IH]; intros Q Hq; [by apply runs_ret|].
  change (Some <$> l :: ls) with (Some l :: (Some <$> ls)). cbn [length read_elements]. apply runs_bind.
  eapply runs_deref_base; [eapply elements_lookup; [exact He|apply lookup_insert_eq]|apply elem_inv|]. cbn [then_].
  apply runs_bind, IH. cbn [then_]. by apply runs_ret.
Qed.

Lemma free_elements_runs es : forall H0 ls H w M (Q : _ -> _ -> _ -> _ -> Prop),
  elements H0 ls es H -> Q (Ret tt) H0 w M -> runs H w M (free_elements elem_type (length es) (Some <$> ls)) Q.
Proof.
  induction es as [|e es IH]; intros H0 ls H w M Q He Hq; inversion He as [|? l ls' ? ? ? Hl He']; subst; [by apply runs_ret|].
  change (Some <$> l :: ls') with (Some l :: (Some <$> ls')). cbn [length free_elements].
  pose proof (elements_lookup _ _ _ _ He' l _ (lookup_insert_eq _ _ _)) as Hat.
  apply runs_bind. eapply runs_deref_base; [exact Hat|by rewrite elem_typed, bool_decide_true|]. cbn [then_].
  apply runs_bind. eapply runs_delete_base; [exact Hat|]. cbn [then_].
  eapply IH; [by eapply elements_delete|done].
Qed.

Lemma emit_array_runs H w M es (Q : _ -> _ -> _ -> _ -> Prop) :
  spare M (array_type, 0%nat) ->
  (forall la ls H', elements H ls es H' ->
     Q (Ret (zlen es)) H' w (<[(array_type, 0%nat) := Some (la, o_array (Some <$> ls))]> M)) ->
  runs H w M (emit_array (Some 0%nat) o_array o_elem es) Q.
Proof.
  intros Hs Hq. unfold emit_array. rewrite array_typed. apply runs_bind, runs_alloc. intros la Hla. cbn [then_].
  apply runs_bind. eapply (runs_adopt _ _ _ _ _ la); [apply lookup_insert_eq|apply array_typed|done|]. cbn [then_].
  rewrite delete_insert_eq, delete_id by done. apply runs_bind, alloc_all_runs. intros ls H' He. cbn [then_].
  apply runs_bind. eapply runs_assign; [apply lookup_insert_eq|by rewrite !array_typed|]. cbn [then_].
  rewrite insert_insert_eq. apply runs_ret. by apply Hq.
Qed.

Lemma array_free_runs H0 la ls es H w M (Q : _ -> _ -> _ -> _ -> Prop) :
  M !! (array_type, 0%nat) = Some (Some (la, o_array (Some <$> ls))) -> elements H0 ls es H ->
  Q (Ret tt) H0 w (<[(array_type, 0%nat) := None]> M) ->
  runs H w M (array_free array_type to_array elem_type (Some 0%nat) (length es)) Q.
Proof.
  intros Hm He Hq. unfold array_free. apply runs_bind. eapply runs_read; [exact Hm|]. cbn [fmap option_fmap option_map fst then_].
  assert (runs H0 w M (do* _ := delete_object (Some la) in write array_type (Some 0%nat) None) Q) as Hrest.
  { apply runs_bind. eapply runs_delete; [exact Hm|]. cbn [then_]. apply runs_null; [apply spare_none, lookup_delete_eq|].
    by rewrite insert_delete_eq. }
  apply runs_bind. destruct es as [|e es]; cbn [length].
  { inversion He; subst. apply runs_ret. exact Hrest. }
  apply runs_bind. eapply runs_deref; [exact Hm|apply array_inv|]. cbn [then_]. by eapply (free_elements_runs (e :: es)).
Qed.

(** The text of the evidence, while the array is owned. *)
Context (f : list E -> res string) (ser : option nat -> nat -> api unit).
Context (not_str : array_type <> T_str).
Context (ser_eq : forall l n, ser (Some l) n =
  (do* es := read_array to_array to_elem (Some l) n in do* text := slift (f es) in emit (Some 0%nat) (o_str text))).

Lemma array_scope_runs H0 la ls es H w M (Q : _ -> _ -> _ -> _ -> Prop) :
  M !! (array_type, 0%nat) = Some (Some (la, o_array (Some <$> ls))) -> elements H0 ls es H -> spare M (T_str, 0%nat) ->
  match f es with
  | Ret text => forall l, Q (Ret tt) H0 w (<[(array_type, 0%nat) := None]> (<[(T_str, 0%nat) := Some (l, o_str text)]> M))
  | UB => Q UB H w M
  | _ => Q (Err InternalError) H0 w (<[(array_type, 0%nat) := None]> M)
  end ->
  runs H w M
    (owning_array array_type to_array elem_type (length es)
       (failing_as InternalError (c_call (do* a := arg array_type (Some 0%nat) in ser a (length es))))) Q.
Proof.
  intros Hm He Hs Hq. apply runs_finally. apply runs_failing_as, runs_c_call, runs_bind.
  eapply runs_arg; [exact Hm|]. cbn [fmap option_fmap option_map fst then_]. rewrite ser_eq. apply runs_bind.
  eapply runs_weaken with (Q := fun o H' w' M' => o = Ret es /\ H' = H /\ w' = w /\ M' = M).
  { unfold read_array. destruct es as [|e es]; cbn [length]; [by apply runs_ret|].
    apply runs_bind. eapply runs_deref; [exact Hm|apply array_inv|]. cbn [then_]. by eapply (read_elements_runs _ _ (e :: es)). }
  intros ? ? ? ? (-> & -> & -> & ->). cbn [then_].
  assert (forall M' (R : _ -> _ -> _ -> _ -> Prop), M' !! (array_type, 0%nat) = Some (Some (la, o_array (Some <$> ls))) ->
    R (Ret tt) H0 w (<[(array_type, 0%nat) := None]> M') ->
    runs H w M' (do* h := read array_type 0 in
       match h with None => sret tt | Some _ => array_free array_type to_array elem_type (Some 0%nat) (length es) end) R) as Hfree.
  { intros M' R Hm' Hr. apply runs_bind. eapply runs_read; [exact Hm'|]. cbn [fmap option_fmap option_map fst then_].
    by eapply array_free_runs. }
  apply runs_bind, runs_lift. destruct (f es) as [text|e|x|]; cbn [then_ returned].
  - apply runs_emit; [done|]. intros l Hl. cbn [returned type_of]. split; [done|]. intros _.
    apply Hfree; [by rewrite lookup_insert_ne by congruence|]. by split.
  - split; [done|]. intros _. apply Hfree; [done|]. by split.
  - split; [done|]. intros _. apply Hfree; [done|]. by split.
  - by split.
Qed.

(** *** Collecting with a source *)

Context (collection : Options.EvidenceCollectionOptions).

(** The variable of the nonce: null, or the nonce of the options. *)
Definition nonce_slot M : Prop :=
  if equals (Options.nonce collection) "" then M !! (T_nonce, 0%nat) = Some None
  else exists l n, nonce_of_hex (Options.nonce collection) = Ret n /\ M !! (T_nonce, 0%nat) = Some (Some (l, o_nonce n)).

Lemma nonce_slot_eq M M' : nonce_slot M -> M' !! (T_nonce, 0%nat) = M !! (T_nonce, 0%nat) -> nonce_slot M'.
Proof. unfold nonce_slot. by intros H ->. Qed.

Lemma nonce_runs M H w (k : option nat -> api Z) (Q : _ -> _ -> _ -> _ -> Prop) :
  nonce_slot M ->
  (forall h r, returned r = nonce_to_use collection ->
     (forall H1 w1 M1 (R : _ -> _ -> _ -> _ -> Prop),
        M1 !! (T_nonce, 0%nat) = M !! (T_nonce, 0%nat) -> R r H1 w1 M1 -> runs H1 w1 M1 (nonce_or_new h) R) ->
     runs H w M (k h) Q) ->
  runs H w M (do* n := arg T_nonce (Some 0%nat) in k n) Q.
Proof.
  unfold nonce_slot, nonce_to_use. destruct (equals (Options.nonce collection) "").
  - intros Hm Hk. apply runs_bind. eapply runs_arg; [exact Hm|]. cbn [fmap option_fmap option_map then_].
    eapply Hk; [done|]. intros H1 w1 M1 R _ Hr. by apply runs_lift.
  - intros (l & n & -> & Hm) Hk. apply runs_bind. eapply runs_arg; [exact Hm|]. cbn [fmap option_fmap option_map fst then_].
    apply (Hk _ (Ret n)); [done|]. intros H1 w1 M1 R He Hr. by eapply runs_deref; [rewrite He; exact Hm|done|].
Qed.

Context {Src : Type} (o_source : Src -> object) (to_source : object -> option Src) (source_type : ctype).
Context (source_inv : forall s, to_source (o_source s) = Some s) (source_typed : forall s, type_of (o_source s) = source_type).
Context (get : Src -> list Z -> res (list E)) (collect : option nat -> option nat -> api Z).
Context (prepare : api unit) (prepare_runs : forall H w M (Q : _ -> _ -> _ -> _ -> Prop),
  M !! (array_type, 0%nat) = Some None -> Q (Ret tt) H w M -> runs H w M prepare Q).
Context (collect_eq : forall l n, collect (Some l) n =
  (do* _ := prepare in
   do* s := deref_as to_source (Some l) in
   do* n := nonce_or_new n in
   do* es := slift (get s n) in
   emit_array (Some 0%nat) o_array o_elem es)).
Context (make : api unit) (source : res Src).
Context (make_runs : forall H w M (Q : _ -> _ -> _ -> _ -> Prop), spare M (source_type, 0%nat) ->
  match source with
  | Ret s => forall l, Q (Ret tt) H w (<[(source_type, 0%nat) := Some (l, o_source s)]> M)
  | Err e => Q (Err e) H w M
  | Throw x => Q (Throw x) H w M
  | UB => Q UB H w M
  end -> runs H w M make Q).

Definition collect_with : api unit :=
  do* _ := write source_type (Some 0%nat) None in
  do* _ := make in
  owning source_type 0
    (do* _ := write array_type (Some 0%nat) None in
     do* num_evidences :=
       c_call (do* s := arg source_type (Some 0%nat) in do* n := arg T_nonce (Some 0%nat) in collect s n) in
     owning_array array_type to_array elem_type (Z.to_nat num_evidences)
       (failing_as InternalError (c_call (do* a := arg array_type (Some 0%nat) in ser a (Z.to_nat num_evidences))))).

Definition text_of : res string :=
  let* s := source in
  let* n := nonce_to_use collection in
  let* es := returned (get s n) in
  internal (f es).

(** Afterwards the text is in its variable, and nothing else is owned. *)
Definition collected M (r : res string) (o : outcome Error unit) H H' w w' M' : Prop :=
  o = (let* _ := r in Ret tt) /\
  (o <> UB -> H' = H /\ w' = w /\ M' !! (T_nonce, 0%nat) = M !! (T_nonce, 0%nat) /\
     (forall text, r = Ret text -> exists l, M' !! (T_str, 0%nat) = Some (Some (l, o_str text))) /\
     forall k, k <> (T_nonce, 0%nat) -> (forall text, r = Ret text -> k <> (T_str, 0%nat)) -> spare M' k).

Context (distinct : source_type <> array_type) (not_nonce : array_type <> T_nonce)
  (source_not_nonce : source_type <> T_nonce) (source_not_str : source_type <> T_str).

(** A variable that is not set in between. *)
Ltac spared Hs :=
  let l := fresh "l" in let x := fresh "x" in intros l x; repeat rewrite lookup_insert;
  repeat (lazymatch goal with |- (if ?d then _ else _) <> _ => destruct d; [first [discriminate | subst; congruence]|] end);
  apply Hs; congruence.

(** Nothing was collected: the source is freed. *)
Ltac closed_source Hs :=
  split; [done|]; intros _; split; [eexists; rewrite !lookup_insert_ne by congruence; apply lookup_insert_eq|];
  split; [done|]; intros _; split_and!; [done|done|by rewrite !lookup_insert_ne by congruence|done|];
  intros k Hk _; spared Hs.

Lemma collect_with_runs H w M :
  nonce_slot M -> (forall k, k <> (T_nonce, 0%nat) -> spare M k) ->
  runs H w M collect_with (fun o H' w' M' => collected M text_of o H H' w w' M').
Proof.
  intros Hn Hs. unfold collect_with, text_of. apply runs_bind, runs_null; [apply Hs; congruence|]. cbn [then_].
  apply runs_bind, make_runs; [apply spare_null, lookup_insert_eq|]. destruct source as [s|e|x|]; cbn [then_ obind].
  2,3: split; [done|]; intros _; split_and!; [done|done|by rewrite lookup_insert_ne by congruence|done|];
    intros k Hk _; spared Hs.
  2: { by split. }
  intros l. rewrite insert_insert_eq. apply runs_owning. apply runs_bind, runs_null; [spared Hs|]. cbn [then_].
  apply runs_bind, runs_c_call, runs_bind. eapply runs_arg; [rewrite lookup_insert_ne by congruence; apply lookup_insert_eq|].
  cbn [fmap option_fmap option_map fst then_]. apply nonce_runs.
  { eapply nonce_slot_eq; [exact Hn|]. by rewrite !lookup_insert_ne by congruence. }
  intros h r Hr Hnonce. rewrite collect_eq, <- Hr. apply runs_bind, prepare_runs; [apply lookup_insert_eq|]. cbn [then_]. apply runs_bind.
  eapply (runs_deref _ _ _ (source_type, 0%nat)); [rewrite lookup_insert_ne by congruence; apply lookup_insert_eq|apply source_inv|]. cbn [then_].
  apply runs_bind, Hnonce; [done|]. destruct r as [n|e|x|]; cbn [then_ returned obind].
  2,3: closed_source Hs.
  2: { by split. }
  apply runs_bind, runs_lift. destruct (get s n) as [es|e|x|]; cbn [then_ returned obind].
  2,3: closed_source Hs.
  2: { by split. }
  apply emit_array_runs; [apply spare_null, lookup_insert_eq|]. intros la ls H' He. cbn [returned then_].
  rewrite insert_insert_eq. replace (Z.to_nat (zlen es)) with (length es) by (unfold zlen; lia).
  eapply array_scope_runs; [apply lookup_insert_eq|exact He|spared Hs|].
  destruct (f es) as [text|e|x|]; cbn [internal obind].
  2,3: rewrite insert_insert_eq; closed_source Hs.
  2: { by split. }
  intros l1. split; [done|]. intros _. split; [eexists; rewrite !lookup_insert_ne by congruence; apply lookup_insert_eq|].
  split; [done|]. intros _. split_and!; [done|done|by rewrite !lookup_insert_ne by congruence| |].
  - intros t [= <-]. exists l1. rewrite !lookup_insert_ne by congruence. apply lookup_insert_eq.
  - intros k Hk Hstr. specialize (Hstr _ eq_refl). spared Hs.
Qed.

End array.

(** *** The two devices *)

Section devices.
Context (o : Options.EvidenceCollectionOptions).

Lemma make_gpu_runs H w M (Q : _ -> _ -> _ -> _ -> Prop) :
  spare M (T_gpu_evidence_source, 0%nat) ->
  match gpu_source_of o with
  | Ret s => forall l, Q (Ret tt) H w (<[(T_gpu_evidence_source, 0%nat) := Some (l, o_gpu_evidence_source s)]> M)
  | Err e => Q (Err e) H w M
  | Throw x => Q (Throw x) H w M
  | UB => Q UB H w M
  end -> runs H w M (make_gpu_source o) Q.
Proof.
  intros Hs. unfold make_gpu_source, gpu_source_of, nvat_gpu_evidence_source_from_json_file,
    nvat_gpu_evidence_source_corelib_create, nvat_gpu_evidence_source_nvml_create.
  destruct (equals (Options.gpu_evidence_source o) "file").
  - intros Hq. apply runs_c_call. cbn [given_ptr]. apply runs_guard, runs_bind, runs_lift.
    destruct (GpuEvidence.file_source_create _ _ _) as [es|e|x|]; cbn [returned obind then_] in *; [|done..].
    apply runs_emit; [done|]. intros l _. by apply Hq.
  - destruct (equals (Options.gpu_evidence_source o) "corelib"); intros Hq; apply runs_c_call; cbn [given_ptr]; apply runs_guard.
    + apply runs_guard. destruct (negb _); [|done]. apply runs_guard. destruct (bool_decide _); [|done].
      apply runs_emit; [done|]. intros l _. by apply Hq.
    + apply runs_emit; [done|]. intros l _. by apply Hq.
Qed.

Lemma make_switch_runs H w M (Q : _ -> _ -> _ -> _ -> Prop) :
  spare M (T_switch_evidence_source, 0%nat) ->
  match switch_source_of o with
  | Ret s => forall l, Q (Ret tt) H w (<[(T_switch_evidence_source, 0%nat) := Some (l, o_switch_evidence_source s)]> M)
  | Err e => Q (Err e) H w M
  | Throw x => Q (Throw x) H w M
  | UB => Q UB H w M
  end -> runs H w M (make_switch_source o) Q.
Proof.
  intros Hs. unfold make_switch_source, switch_source_of, nvat_switch_evidence_source_from_json_file,
    nvat_switch_evidence_source_nscq_create.
  destruct (equals (Options.switch_evidence_source o) "file"); intros Hq; apply runs_c_call; cbn [given_ptr]; apply runs_guard.
  - apply runs_bind, runs_lift.
    destruct (SwitchEvidence.file_source_create _ _ _) as [es|e|x|]; cbn [returned obind then_] in *; [|done..].
    apply runs_emit; [done|]. intros l _. by apply Hq.
  - apply runs_emit; [done|]. intros l _. by apply Hq.
Qed.

Lemma collect_gpu_runs H w M :
  nonce_slot o M -> (forall k, k <> (T_nonce, 0%nat) -> spare M k) ->
  runs H w M (collect_gpu o) (fun r H' w' M' => collected M (gpu_text o) r H H' w w' M').
Proof.
  intros Hn Hs. unfold collect_gpu, gpu_text. apply runs_guard. destruct (negb _).
  2: { split; [done|]. intros _. split_and!; try done. intros k Hk _. by apply Hs. }
  eapply (collect_with_runs o_gpu_evidence_array to_gpu_array o_gpu_evidence to_gpu_evidence T_gpu_evidence_array T_gpu_evidence)
    with (o_source := o_gpu_evidence_source) (to_source := to_gpu_source) (get := Attestation.gpu_get_evidence)
    (collect := fun s n => nvat_gpu_evidence_collect s n (Some 0%nat) true)
    (ser := fun a n => nvat_gpu_evidence_serialize_json a n (Some 0%nat))
    (f := GpuEvidence.collection_to_json Eat.json_dump) (make := make_gpu_source o) (source := gpu_source_of o)
    (prepare := write T_gpu_evidence_array (Some 0%nat) None); try done.
  - intros H1 w1 M1 Q Hm Hq. apply runs_null; [by apply spare_null|]. by rewrite insert_id.
  - intros. by apply make_gpu_runs.
Qed.

Lemma collect_switch_runs H w M :
  nonce_slot o M -> (forall k, k <> (T_nonce, 0%nat) -> spare M k) ->
  runs H w M (collect_switch o) (fun r H' w' M' => collected M (switch_text o) r H H' w w' M').
Proof.
  intros Hn Hs. unfold collect_switch, switch_text.
  eapply (collect_with_runs o_switch_evidence_array to_switch_array o_switch_evidence to_switch_evidence
    T_switch_evidence_array T_switch_evidence)
    with (o_source := o_switch_evidence_source) (to_source := to_switch_source) (get := Attestation.switch_get_evidence)
    (collect := fun s n => nvat_switch_evidence_collect s n (Some 0%nat) true)
    (ser := fun a n => nvat_switch_evidence_serialize_json a n (Some 0%nat))
    (f := SwitchEvidence.collection_to_json Eat.json_dump) (make := make_switch_source o) (source := switch_source_of o)
    (prepare := sret tt); try done.
  - intros H1 w1 M1 Q Hm Hq. by apply runs_ret.
  - intros. by apply make_switch_runs.
Qed.

Lemma device_runs H w M :
  nonce_slot o M -> (forall k, k <> (T_nonce, 0%nat) -> spare M k) -> M !! (T_str, 0%nat) = Some None ->
  runs H w M
    (do* _ :=
       if equals (Options.device o) "gpu" then collect_gpu o
       else if equals (Options.device o) "nvswitch" then collect_switch o
       else sret tt in
     owning T_str 0
       (do* evidences_data := c_call (do* s := arg T_str (Some 0%nat) in nvat_str_get_data s true) in
        sret (Output.mk_collected Ok (c_str evidences_data))))
    (fun r H' w' M' => r = (let* text := device_text o in Ret (Output.mk_collected Ok (c_str text))) /\
       (r <> UB -> H' = H /\ w' = w /\ M' !! (T_nonce, 0%nat) = M !! (T_nonce, 0%nat) /\
          forall k, k <> (T_nonce, 0%nat) -> spare M' k)).
Proof.
  intros Hn Hs Hstr. apply runs_bind. unfold device_text.
  assert (forall m text, runs H w M m (fun r H' w' M' => collected M text r H H' w w' M') ->
    runs H w M m (then_ (fun _ => owning T_str 0
      (do* evidences_data := c_call (do* s := arg T_str (Some 0%nat) in nvat_str_get_data s true) in
       sret (Output.mk_collected Ok (c_str evidences_data)))) (fun r H' w' M' =>
         r = (let* text := text in Ret (Output.mk_collected Ok (c_str text))) /\
         (r <> UB -> H' = H /\ w' = w /\ M' !! (T_nonce, 0%nat) = M !! (T_nonce, 0%nat) /\
            forall k, k <> (T_nonce, 0%nat) -> spare M' k)))) as Hdev.
  { intros m text Hm. eapply runs_weaken; [exact Hm|]. intros r H' w' M' [-> Hr].
    destruct text as [t|e|x|]; cbn [obind then_] in *.
    2,3: split; [done|]; intros _; destruct (Hr ltac:(done)) as (-> & -> & Hno & _ & Hk); split_and!; try done;
      intros k ?; by apply Hk.
    2: { by split. }
    destruct (Hr ltac:(done)) as (-> & -> & Hno & Ht & Hk). destruct (Ht _ eq_refl) as [l Hl].
    apply runs_owning, runs_bind, runs_c_call, runs_bind. eapply runs_arg; [exact Hl|].
    cbn [fmap option_fmap option_map fst then_]. unfold nvat_str_get_data. apply runs_guard. cbn [given_ptr].
    apply runs_bind. eapply runs_deref; [exact Hl|done|]. cbn [then_]. apply runs_lift. cbn [returned then_]. apply runs_ret.
    split; [done|]. intros _. split; [by eexists|]. split; [done|]. intros _. split_and!; [done|done|by rewrite lookup_insert_ne|].
    intros k Hk'. destruct (decide (k = (T_str, 0%nat))) as [-> | ]; [apply spare_null, lookup_insert_eq|].
    apply spare_insert; [done|]. by apply Hk. }
  destruct (equals (Options.device o) "gpu"); [by apply Hdev, collect_gpu_runs|].
  destruct (equals (Options.device o) "nvswitch"); [by apply Hdev, collect_switch_runs|].
  apply runs_ret. cbn [then_]. apply runs_owning, runs_bind, runs_c_call, runs_bind. eapply runs_arg; [exact Hstr|].
  cbn [fmap option_fmap option_map then_]. apply runs_guard. cbn [given_ptr returned then_]. split; [done|]. intros _.
  split; [by eexists|]. split; [done|]. intros _. split_and!; [done|done|by rewrite lookup_insert_ne|].
  intros k Hk. destruct (decide (k = (T_str, 0%nat))) as [-> | ]; [apply spare_null, lookup_insert_eq|].
  apply spare_insert; [done|]. by apply Hs.
Qed.

Lemma collect_calls_runs H w :
  runs H w ∅ (collect_calls o) (fun r H' w' M' =>
    r = spec_collect o /\ (r <> UB -> H' = H /\ w' = w /\ forall k, spare M' k)).
Proof.
  unfold collect_calls, read_nonce, spec_collect, spec_nonce. apply runs_bind, runs_bind, runs_null.
  { apply spare_none, lookup_empty. }
  cbn [then_]. 
  assert (forall M, nonce_slot o M -> (forall k, k <> (T_nonce, 0%nat) -> spare M k) ->
    runs H w M (owning T_nonce 0 (do* _ := write T_str (Some 0%nat) None in
       do* _ :=
         if equals (Options.device o) "gpu" then collect_gpu o
         else if equals (Options.device o) "nvswitch" then collect_switch o
         else sret tt in
       owning T_str 0
         (do* evidences_data := c_call (do* s := arg T_str (Some 0%nat) in nvat_str_get_data s true) in
          sret (Output.mk_collected Ok (c_str evidences_data)))))
      (fun r H' w' M' => r = (let* text := device_text o in Ret (Output.mk_collected Ok (c_str text))) /\
        (r <> UB -> H' = H /\ w' = w /\ forall k, spare M' k))) as Hrest.
  { intros M Hn Hs. apply runs_owning, runs_bind, runs_null; [by apply Hs|]. cbn [then_].
    assert (nonce_slot o (<[(T_str, 0%nat) := None]> M)) as Hn' by (eapply nonce_slot_eq; [exact Hn|by rewrite lookup_insert_ne]).
    eapply runs_weaken; [apply device_runs; [exact Hn'| |apply lookup_insert_eq]|].
    { intros k Hk. destruct (decide (k = (T_str, 0%nat))) as [-> | ]; [apply spare_null, lookup_insert_eq|].
      apply spare_insert; [done|]. by apply Hs. }
    intros r H' w' M' [-> Hr]. split; [intros E; by rewrite E|]. intros Hne. destruct (Hr Hne) as (-> & -> & Hno & Hk).
    split.
    { rewrite Hno. unfold nonce_slot in Hn'. destruct (equals (Options.nonce o) ""); [by eexists|].
      destruct Hn' as (l & n & _ & E). by eexists. }
    split; [done|]. intros _. split_and!; [done|done|]. intros k.
    destruct (decide (k = (T_nonce, 0%nat))) as [-> | ]; [apply spare_null, lookup_insert_eq|].
    apply spare_insert; [done|]. by apply Hk. }
  unfold nonce_slot in Hrest. destruct (equals (Options.nonce o) "") eqn:En; cbn [negb].
  - apply runs_ret. cbn [then_ obind]. apply Hrest; [apply lookup_insert_eq|]. intros k Hk. apply spare_insert; [done|].
    apply spare_none, lookup_empty.
  - apply runs_c_call. unfold nvat_nonce_from_hex. apply runs_guard. cbn [given_ptr]. apply runs_bind, runs_lift.
    destruct (nonce_of_hex_cases (Options.nonce o)) as [[n Hn]|Hn]; rewrite Hn in *; cbn [then_ returned obind].
    2: { split; [done|]. intros _. split_and!; [done|done|]. intros k.
         destruct (decide (k = (T_nonce, 0%nat))) as [-> | ]; [apply spare_null, lookup_insert_eq|].
         apply spare_insert; [done|]. apply spare_none, lookup_empty. }
    apply runs_emit; [apply spare_null, lookup_insert_eq|]. intros l Hl. cbn [returned then_ type_of]. rewrite insert_insert_eq.
    apply Hrest; [exists l, n; split; [done|]; apply lookup_insert_eq|]. intros k Hk. apply spare_insert; [done|].
    apply spare_none, lookup_empty.
Qed.

End devices.

End collect.
End Collect.
