(* ===== verification/Examples.v ===== *)
(** * Examples: the example programs

    examples/ of src/nv-attestation-sdk-cpp: clients of the C interface (Nvat)
    and of its loggers and options (Loggers), with examples/common.  The
    variables of a program are those of Nvat, and two for the options and the
    logger of the SDK.  What a program prints on the standard output is kept;
    its messages on the standard error are not.  parallel-verification is in
    SharedStores, custom-logger in Loggers, and the two examples that collect
    and verify step by step in EvidenceExamples. *)

From S2P Require Import Prelude Errors Utils OpenSsl StatusBundle NvCache Ocsp X509Chain Json Claims Evaluator DetachedEat.
From S2P Require Import SpdmReq SpdmMeasurementRecords SpdmOpaqueData SpdmResp GpuOpaqueData SwitchOpaqueData.
From S2P Require Import Http Jwt Certs Base64 Rim Report GpuEvidence SwitchEvidence Verify GpuVerify SwitchVerify.
From S2P Require Import Driver NvmlClient NscqClient Sdk Loggers Attestation Nvat Locals CliOptions CliOutput Cli CliCollect.

Module Examples.
Import Nvat Locals.

Section examples.
Context `{OSSL : OpenSSL} `{XML : LibXml2} `{env : Eat.Env} `{B64 : Base64Lib} `{L : JwtLib}.
Context `{P : Http.Platform} `{W : Attestation.World}.
Context {U WU V WV : Type} `{RS : !Rim.IRimStore (U * WU)} `{OC : !IOcspHttpClient (V * WV)}.
Context `{XS : Sdk.XmlSec} `{DL : DynamicLinker} `{NV : Nvml.NvmlLib} `{NQ : Nscq.NscqLib} `{SL : SpdLog}.
Context (clock clock_ms : nat -> Z) (version : string).

Abbreviation capi := (Nvat.capi (U:=U) (WU:=WU) (V:=V) (WV:=WV)).
Abbreviation api := (sm capi Error).
Abbreviation lib := Loggers.lib.
Abbreviation var := (option (option nat)).

(** ** Programs

    A variable of the SDK that was never set is [None]. *)
Record program : Type := mk_program {
  p_lib : lib;
  v_opts : var;
  v_logger : var;
  p_api : capi;
}.

Abbreviation prog := (sm program Error).

Definition on_lib {A : Type} (m : sm lib Error A) : prog A := fun s =>
  let '(r, l) := m (p_lib s) in (r, mk_program l (v_opts s) (v_logger s) (p_api s)).

Definition on_api {A : Type} (m : api A) : prog A := fun s =>
  let '(r, a) := m (p_api s) in (r, mk_program (p_lib s) (v_opts s) (v_logger s) a).

Definition get_opts : prog (option nat) := fun s => (match v_opts s with Some h => Ret h | None => UB end, s).
Definition get_logger : prog (option nat) := fun s => (match v_logger s with Some h => Ret h | None => UB end, s).
Definition put_opts (h : option nat) : prog unit := fun s => (Ret tt, mk_program (p_lib s) (Some h) (v_logger s) (p_api s)).
Definition put_logger (h : option nat) : prog unit := fun s => (Ret tt, mk_program (p_lib s) (v_opts s) (Some h) (p_api s)).

(** A C call whose code is looked at, and what the program does when it is not
    NVAT_RC_OK. *)
Definition orelse {S A B : Type} (m : sm S Error A) (failed : Error -> sm S Error B) (k : A -> sm S Error B) : sm S Error B :=
  fun s =>
  match m s with
  | (Ret a, s) => k a s
  | (Err e, s) => failed e s
  | (Throw x, s) => (Throw x, s)
  | (UB, s) => (UB, s)
  end.

(** The code of a call; [None] is NVAT_RC_OK. *)
Definition code {S A : Type} (m : sm S Error A) : sm S Error (option Error) :=
  orelse m (fun e => sret (Some e)) (fun _ => sret None).

(** A call whose code the program does not look at. *)
Definition ignoring {S A : Type} (m : sm S Error A) : sm S Error unit := orelse m (fun _ => sret tt) (fun _ => sret tt).

(** *** The calls on the options and the logger of the SDK *)

Definition sdk_opts_create : prog unit := do* h := on_lib (Loggers.nvat_sdk_opts_create true) in put_opts (Some h).

Definition logger_spdlog_create (name : string) (level : Z) : prog unit :=
  do* h := on_lib (Loggers.nvat_logger_spdlog_create true (Some name) level) in put_logger (Some h).

Definition sdk_opts_set_logger : prog unit :=
  do* o := get_opts in do* l := get_logger in on_lib (Loggers.nvat_sdk_opts_set_logger o l).

Definition sdk_init : prog unit := do* o := get_opts in on_lib (Loggers.nvat_sdk_init version o).

Definition sdk_opts_free : prog unit :=
  do* o := get_opts in do* _ := on_lib (Loggers.nvat_sdk_opts_free o) in put_opts None.

Definition logger_free : prog unit :=
  do* l := get_logger in do* _ := on_lib (Loggers.nvat_logger_free l) in put_logger None.

Definition sdk_shutdown : prog unit := fun s =>
  match on_lib Loggers.nvat_sdk_shutdown s with (UB, s) => (UB, s) | (_, s) => (Ret tt, s) end.

(** ** examples/common/example_utils.c *)

Definition get_log_level_from_env : Z :=
  let NVAT_LOG_LEVEL := Sdk.log_level_to_c in
  match Http.getenv "NVAT_SDK_EXAMPLES_LOG_LEVEL" with
  | None => NVAT_LOG_LEVEL Sdk.ERROR
  | Some env_val =>
      if bool_decide (env_val = "TRACE") then NVAT_LOG_LEVEL Sdk.TRACE
      else if bool_decide (env_val = "DEBUG") then NVAT_LOG_LEVEL Sdk.DEBUG
      else if bool_decide (env_val = "INFO") then NVAT_LOG_LEVEL Sdk.INFO
      else if bool_decide (env_val = "WARN") then NVAT_LOG_LEVEL Sdk.WARNING
      else NVAT_LOG_LEVEL Sdk.ERROR
  end.

Definition setup_sdk : prog unit :=
  do* _ := sdk_opts_create in
  orelse (logger_spdlog_create "nvat_example" get_log_level_from_env)
    (fun e => do* _ := sdk_opts_free in slift (Err e)) (fun _ =>
  do* _ := ignoring sdk_opts_set_logger in
  orelse sdk_init
    (fun e => do* _ := sdk_opts_free in do* _ := logger_free in slift (Err e)) (fun _ =>
  sret tt)).

Definition cleanup_sdk : prog unit := do* _ := sdk_opts_free in do* _ := logger_free in sdk_shutdown.

(** The context, in the variable [ctx]. *)
Abbreviation ctx := Cli.ctx.
Abbreviation with_ctx := Cli.with_ctx.

Definition ctx_free : api unit := free T_attestation_ctx (Some ctx).

Definition create_default_gpu_ctx : api unit :=
  do* _ := c_call (nvat_attestation_ctx_create (Some ctx)) in
  orelse (with_ctx (fun c => nvat_attestation_ctx_set_device_type c Verify.NVAT_DEVICE_GPU))
    (fun e => do* _ := ctx_free in slift (Err e)) (fun _ => sret tt).

(** The variables of the results. *)
Definition detached_eat : nat := 0.
Definition json_str : nat := 1.
Definition claims : nat := 0.

(** The text of a string variable, and what [printf] shows of it. *)
Definition str_data (v : nat) : api string := c_call (do* s := arg T_str (Some v) in nvat_str_get_data s true).

Definition claims_text (out : nat) : api unit :=
  c_call (do* cs := arg T_claims_collection (Some claims) in nvat_claims_collection_serialize_json cs (Some out)).

Definition print_results (attestation_rc : option Error) : api (list string) :=
  if bool_decide (attestation_rc <> None /\ attestation_rc <> Some RelyingPartyPolicyMismatch /\
                  attestation_rc <> Some OverallResultFalse) then sret []
  else
    let head := match attestation_rc with None => ["Attestation successful."] | _ => [] end in
    do* eat := read T_str detached_eat in
    do* eat_lines :=
      match eat with
      | None => sret []
      | Some _ => orelse (str_data detached_eat) (fun _ => sret []) (fun buf => sret ["Detached EAT: " +:+ c_str buf])
      end in
    do* cs := read T_claims_collection claims in
    do* claims_lines :=
      match cs with
      | None => sret []
      | Some _ =>
          orelse (claims_text json_str) (fun _ => sret []) (fun _ =>
          do* lines := orelse (str_data json_str) (fun _ => sret []) (fun buf => sret ["Claims: " +:+ c_str buf]) in
          do* _ := free T_str (Some json_str) in
          sret lines)
      end in
    sret (head ++ eat_lines ++ claims_lines).

(** ** attest_local, attest_remote, attest_policy_none, attest_policy_custom *)

(** [if (x) nvat_x_free(&x)] *)
Definition free_if (t : ctype) (v : nat) : api unit :=
  do* h := read t v in match h with None => sret tt | Some _ => free t (Some v) end.

Definition attest_device : api (option Error) :=
  with_ctx (fun c => nvat_attest_device clock clock_ms c None (Some detached_eat) (Some claims)).

(** NVAT_RC_OK, or the code that is not. *)
Definition attestation_rc : api (option Error) := orelse attest_device (fun e => sret (Some e)) sret.

(** What ends the programs: [exit_code] of the attestation's code, and the
    lines. *)
Definition attest_and_print (exit_code : option Error -> Z) : prog (Z * list string) :=
  do* _ := on_api (write T_str (Some detached_eat) None) in
  do* _ := on_api (write T_claims_collection (Some claims) None) in
  do* rc := on_api attestation_rc in
  do* lines := on_api (print_results rc) in
  do* _ := on_api (free_if T_str detached_eat) in
  do* _ := on_api (free_if T_claims_collection claims) in
  do* _ := on_api ctx_free in
  do* _ := cleanup_sdk in
  sret (exit_code rc, lines).

(** A setting that failed. *)
Definition settings_failed {A : Type} (_ : A) : prog (Z * list string) :=
  do* _ := on_api ctx_free in do* _ := cleanup_sdk in sret (1, []).

(** The start of the programs: the SDK and the context, then [k]. *)
Definition with_sdk_and_ctx (k : prog (Z * list string)) : prog (Z * list string) :=
  orelse setup_sdk (fun _ => sret (1, [])) (fun _ =>
  orelse (on_api create_default_gpu_ctx) (fun _ => do* _ := cleanup_sdk in sret (1, [])) (fun _ => k)).

Definition set_verifier_type (t : Z) : api unit := with_ctx (fun c => nvat_attestation_ctx_set_verifier_type c t).

Definition attest_local : prog (Z * list string) :=
  with_sdk_and_ctx (
  orelse (on_api (set_verifier_type Verify.NVAT_VERIFY_LOCAL)) settings_failed (fun _ =>
  attest_and_print (fun rc => if bool_decide (rc = None \/ rc = Some OverallResultFalse) then 0 else 1))).

Definition attest_policy_none : prog (Z * list string) :=
  with_sdk_and_ctx (
  orelse (on_api (set_verifier_type Verify.NVAT_VERIFY_LOCAL)) settings_failed (fun _ =>
  attest_and_print (fun rc => if bool_decide (rc = None) then 0 else if bool_decide (rc = Some OverallResultFalse) then 1 else 1))).

Definition attest_remote : prog (Z * list string) :=
  with_sdk_and_ctx (
  orelse (on_api (set_verifier_type Verify.NVAT_VERIFY_REMOTE)) settings_failed (fun _ =>
  orelse (match Http.getenv "EXAMPLE_NRAS_SERVICE_KEY" with
          | None => sret tt
          | Some api_key => on_api (with_ctx (fun c => nvat_attestation_ctx_set_service_key c (Some api_key)))
          end) settings_failed (fun _ =>
  attest_and_print (fun rc => if bool_decide (rc = None) then 0 else 1)))).

(** The text of the policy, with its quotes and line ends. *)
Definition quote : string := String (byte_ascii 34) "".
Definition lines_of (l : list string) : string := String.concat "" ((fun s => s +:+ String (byte_ascii 10) "") <$> l).

Definition REGO_RP_POLICY : string := lines_of
  ["package policy";
   "import future.keywords.every";
   "default nv_match := false";
   "nv_match {";
   "  every result in input {";
   "    result[" +:+ quote +:+ "x-nvidia-device-type" +:+ quote +:+ "] == " +:+ quote +:+ "gpu" +:+ quote;
   "    result.secboot";
   "    result.dbgstat == " +:+ quote +:+ "disabled" +:+ quote;
   "  }";
   "}"].

(** The variable of the policy. *)
Definition rp_policy : nat := 0.

Definition create_policy : api unit := c_call (nvat_relying_party_policy_create_rego_from_str (Some rp_policy) (Some REGO_RP_POLICY)).

Definition set_policy : api unit :=
  with_ctx (fun c => do* p := arg T_relying_party_policy (Some rp_policy) in nvat_attestation_ctx_set_relying_party_policy c p).

Definition attest_policy_custom : prog (Z * list string) :=
  with_sdk_and_ctx (
  orelse (on_api create_policy) settings_failed (fun _ =>
  do* err := on_api (code set_policy) in
  do* _ := on_api (free T_relying_party_policy (Some rp_policy)) in
  match err with
  | Some e => settings_failed e
  | None =>
      orelse (on_api (set_verifier_type Verify.NVAT_VERIFY_LOCAL)) settings_failed (fun _ =>
      attest_and_print (fun rc => if bool_decide (rc = None) then 0
                                  else if bool_decide (rc = Some RelyingPartyPolicyMismatch) then 1 else 1))
  end)).

(** ** examples/attest/main.c *)

(** What [attest] frees before it returns a code. *)
Definition attest_failed {A : Type} (rest : api unit) (e : Error) : prog A :=
  do* _ := on_api ctx_free in
  do* _ := sdk_opts_free in
  do* _ := sdk_shutdown in
  do* _ := on_api rest in
  slift (Err e).

(** A code that is not NVAT_RC_OK, also one that comes with results. *)
Definition strictly {S : Type} (m : sm S Error (option Error)) : sm S Error unit := fun s =>
  match m s with
  | (Ret None, s) => (Ret tt, s)
  | (Ret (Some e), s) => (Err e, s)
  | (Err e, s) => (Err e, s)
  | (Throw x, s) => (Throw x, s)
  | (UB, s) => (UB, s)
  end.

Definition attest : prog (list string) :=
  do* _ := sdk_opts_create in
  orelse (logger_spdlog_create "nvat_json_evidence" (Sdk.log_level_to_c Sdk.ERROR))
    (fun e => do* _ := sdk_opts_free in slift (Err e)) (fun _ =>
  do* _ := ignoring sdk_opts_set_logger in
  do* _ := logger_free in
  orelse sdk_init (fun e => do* _ := sdk_opts_free in slift (Err e)) (fun _ =>
  orelse (on_api (c_call (nvat_attestation_ctx_create (Some ctx))))
    (fun e => do* _ := sdk_opts_free in do* _ := sdk_shutdown in slift (Err e)) (fun _ =>
  orelse (on_api (with_ctx (fun c => nvat_attestation_ctx_set_device_type c Verify.NVAT_DEVICE_GPU)))
    (attest_failed (sret tt)) (fun _ =>
  orelse (on_api create_policy) (attest_failed (sret tt)) (fun _ =>
  do* _ := on_api (ignoring set_policy) in
  do* _ := on_api (free T_relying_party_policy (Some rp_policy)) in
  do* _ := on_api (ignoring (set_verifier_type Verify.NVAT_VERIFY_LOCAL)) in
  orelse (on_api (strictly attest_device)) (attest_failed (sret tt)) (fun _ =>
  orelse (on_api (str_data detached_eat))
    (attest_failed (do* _ := free T_claims_collection (Some claims) in free T_str (Some detached_eat))) (fun detached_buf =>
  do* _ := on_api (free T_str (Some detached_eat)) in
  orelse (on_api (claims_text json_str)) (attest_failed (free T_claims_collection (Some claims))) (fun _ =>
  orelse (on_api (str_data json_str))
    (attest_failed (do* _ := free T_claims_collection (Some claims) in free T_str (Some json_str))) (fun buf =>
  do* _ := on_api (free T_str (Some json_str)) in
  do* _ := on_api ctx_free in
  do* _ := sdk_opts_free in
  do* _ := sdk_shutdown in
  do* _ := on_api (free T_claims_collection (Some claims)) in
  sret ["Detached EAT: " +:+ c_str detached_buf; c_str buf]))))))))).

(** [main]: the variable of the context is not set before [attest] is called. *)
Definition attest_main : prog (Z * list string) := fun s =>
  let '(r, s) := attest s in
  (do* lines := slift (match r with Err _ => Ret [] | r => r end) in
   do* _ := on_api (free_if T_attestation_ctx ctx) in
   do* _ := sdk_shutdown in
   sret (match r with
         | Err RelyingPartyPolicyMismatch => 2
         | Err OverallResultFalse => 3
         | Err _ => 1
         | _ => 0
         end, lines)) s.

(** ** examples/attest-minimal/main.c

    The codes of the calls are not looked at, but for the attestation's; a null
    pointer stays when a call fails, and cannot be printed. *)
Definition printable (m : api string) : api string := orelse m (fun _ => slift UB) sret.

Definition minimal_vars : api unit :=
  do* _ := write T_attestation_ctx (Some ctx) None in
  do* _ := write T_str (Some detached_eat) None in
  do* _ := write T_claims_collection (Some claims) None in
  write T_str (Some json_str) None.

Definition minimal_show : api (string * string) :=
  do* _ := ignoring (claims_text json_str) in
  do* claims_data := printable (str_data json_str) in
  do* detached_eat_data := printable (str_data detached_eat) in
  do* _ := free T_str (Some json_str) in
  do* _ := free T_claims_collection (Some claims) in
  do* _ := free T_str (Some detached_eat) in
  do* _ := ctx_free in
  sret (claims_data, detached_eat_data).

Definition attest_minimal : prog (Z * list string) :=
  do* _ := put_opts None in
  do* _ := on_api minimal_vars in
  do* _ := ignoring sdk_opts_create in
  do* _ := ignoring sdk_init in
  do* _ := on_api (ignoring (c_call (nvat_attestation_ctx_create (Some ctx)))) in
  orelse (on_api (strictly attest_device)) (fun _ => sret (1, [])) (fun _ =>
  do* (claims_data, detached_eat_data) := on_api minimal_show in
  do* _ := sdk_opts_free in
  do* _ := sdk_shutdown in
  sret (0, ["Claims: "; c_str claims_data; "Detached EAT: "; c_str detached_eat_data])).

(** ** The library of a program *)

(** A program that starts. *)
Definition start (n : Nvml.nvml) (q : Nscq.nscq) (a : capi) : program := mk_program (Loggers.new_lib n q) None None a.

(** The calls of the XML libraries succeed. *)
Definition xml_ready : bool :=
  negb (Sdk.xmlSecInit_rc <? 0) && (Sdk.xmlSecCheckVersion_rc =? 1) && negb (Sdk.xmlSecCryptoAppInit_rc <? 0) &&
  negb (Sdk.xmlSecCryptoInit_rc <? 0).

Definition init_result : outcome Error unit := if xml_ready then Ret tt else Err XmlInitFailed.

(** The library is initialized, and the program has these handles of it. *)
Record up (hs : gmap nat Loggers.object) (l : lib) : Prop := mk_up {
  up_handles : Loggers.handles l = hs;
  up_sane : Sdk.sane (Loggers.sdk_of l);
  up_logger : Sdk.g_logger (Loggers.sdk_of l) <> None;
  up_options : Sdk.g_sdkOptions (Loggers.sdk_of l) <> None;
}.

Lemma xml_init s : Sdk.g_logger s <> None -> exists cs, Sdk.handle_init_xmlsec (L:=Loggers.CallbackLogger) s = (init_result, Sdk.with_xml s cs).
Proof.
  intros Hl. destruct (Sdk.handle_init_xmlsec s) as [r s'] eqn:E.
  destruct (Sdk.xml_only_init _ _ _ Hl E) as [[cs ->] _]. exists cs. f_equal.
  change r with (r, Sdk.with_xml s cs).1. rewrite <- E. clear E.
  unfold Sdk.handle_init_xmlsec, init_result, xml_ready, Sdk.xml_step, Sdk.LOG.
  destruct (negb (Sdk.xmlSecInit_rc <? 0)), (Sdk.xmlSecCheckVersion_rc =? 1), (negb (Sdk.xmlSecCryptoAppInit_rc <? 0)),
    (negb (Sdk.xmlSecCryptoInit_rc <? 0)); unfold sbind, Sdk.xml, sret, slift; cbn; try done;
    destruct (Sdk.g_logger s); cbn; try done; by destruct Hl.
Qed.

Lemma init_lib n q lg (l : lib) :
  Loggers.sdk_of l = Sdk.new_sdk n q -> Loggers.handles l !! 1%nat = Some (Loggers.o_sdk_opts 0) ->
  Loggers.options l !! 0%nat = Some (Some lg) ->
  exists l', Loggers.nvat_sdk_init version (Some 1%nat) l = (init_result, l') /\ up (Loggers.handles l) l'.
Proof.
  intros Hs Hh Ho. unfold Loggers.nvat_sdk_init, Loggers.api_end, sbind, Loggers.deref, Loggers.init_with. rewrite Hh. cbn -[Sdk.handle_init_xmlsec].
  rewrite Ho, Hs. cbn -[Sdk.handle_init_xmlsec]. unfold Sdk.init, Sdk.init_body, sbind, Sdk.handle_init_logger, Sdk.set_logger. cbn -[Sdk.handle_init_xmlsec].
  match goal with |- context [Sdk.handle_init_xmlsec ?s] => destruct (xml_init s) as [cs E]; [done|] end.
  rewrite E. unfold init_result. destruct xml_ready; cbn.
  - eexists. split; [done|]. by split.
  - eexists. split; [done|]. by split.
Qed.

(** The options of a program, its logger, and the library after they are
    made. *)
Definition made (name : string) (level : Z) (n : Nvml.nvml) (q : Nscq.nscq) (a : capi) : program :=
  let lg := Sdk.SpdLogLogger name (Sdk.log_level_from_c level) in
  mk_program
    (Loggers.mk_lib (Sdk.new_sdk n q) (<[0%nat := Some lg]> (<[0%nat := None]> ∅))
       (<[2%nat := Loggers.o_logger lg]> (<[1%nat := Loggers.o_sdk_opts 0]> ∅)) 3 None [])
    (Some (Some 1%nat)) (Some (Some 2%nat)) a.

Lemma made_eq name level n q o g a :
  Sdk.stderr_color_mt name = true ->
  exists s, (do* _ := sdk_opts_create in logger_spdlog_create name level) (mk_program (Loggers.new_lib n q) o g a) = (Ret tt, s) /\
    ignoring sdk_opts_set_logger s = (Ret tt, made name level n q a).
Proof.
  intros Hn. unfold sdk_opts_create, logger_spdlog_create, Loggers.nvat_logger_spdlog_create, sbind, on_lib, Loggers.api_end.
  cbn. rewrite Hn. cbn. by eexists.
Qed.

(** Up to the initialization. *)
Lemma setup_spec n q a :
  Sdk.stderr_color_mt "nvat_example" = true ->
  exists l o g, setup_sdk (start n q a) = (init_result, mk_program l o g a) /\
    if xml_ready
    then o = Some (Some 1%nat) /\ g = Some (Some 2%nat) /\ up (Loggers.handles (p_lib (made "nvat_example" get_log_level_from_env n q a))) l
    else o = Some None /\ g = Some None /\ Loggers.handles l = ∅.
Proof.
  intros Hn. destruct (made_eq "nvat_example" get_log_level_from_env n q None None a Hn) as (s & Hm & Hset).
  unfold setup_sdk. unfold sbind in Hm. unfold sbind at 1. destruct (sdk_opts_create _) as [[[]|e|x|] s1] eqn:E1; try done.
  unfold orelse at 1. rewrite Hm. unfold sbind at 1. rewrite Hset. unfold orelse, sdk_init, sbind at 1, get_opts, on_lib. cbn.
  edestruct (init_lib n q) as (l' & -> & Hup); [reflexivity|reflexivity|reflexivity|]. unfold init_result.
  destruct xml_ready; [by do 3 eexists|]. destruct Hup as [Hh _ _ _].
  unfold sdk_opts_free, logger_free, Loggers.nvat_sdk_opts_free, Loggers.nvat_logger_free, Loggers.free_handle, Loggers.deref, sbind, get_opts,
    get_logger, on_lib, put_opts, put_logger. cbn. rewrite Hh. cbn. do 3 eexists. split; [done|]. by split_and!.
Qed.

(** The end of a program: its handles are freed, and the library is shut
    down. *)
Lemma free_handles_spec lg l a :
  up (<[2%nat := Loggers.o_logger lg]> (<[1%nat := Loggers.o_sdk_opts 0]> ∅)) l ->
  exists l', (do* _ := sdk_opts_free in logger_free) (mk_program l (Some (Some 1%nat)) (Some (Some 2%nat)) a) =
      (Ret tt, mk_program l' (Some None) (Some None) a) /\ up ∅ l'.
Proof.
  intros [Hh Hs Hl Ho].
  unfold sdk_opts_free, logger_free, Loggers.nvat_sdk_opts_free, Loggers.nvat_logger_free, Loggers.free_handle,
    Loggers.deref, sbind, get_opts, get_logger, on_lib, put_opts, put_logger. cbn. rewrite Hh. rewrite lookup_insert_ne, lookup_insert_eq by done.
  cbn. rewrite lookup_delete_ne, lookup_insert_eq by done. cbn. eexists. split; [done|]. by split.
Qed.

Lemma sdk_shutdown_spec l o g a :
  up ∅ l -> exists l', sdk_shutdown (mk_program l o g a) = (Ret tt, mk_program l' o g a) /\ Loggers.handles l' = ∅.
Proof.
  intros [Hh Hs Hl Ho]. unfold sdk_shutdown, on_lib, Loggers.nvat_sdk_shutdown. cbn -[Sdk.shutdown].
  destruct (Sdk.shutdown_cases (Loggers.sdk_of l) Hs Ho) as [[Hn _]|(n & q & -> & _)]; [done|]. cbn. by eexists.
Qed.

Lemma cleanup_spec lg l a :
  up (<[2%nat := Loggers.o_logger lg]> (<[1%nat := Loggers.o_sdk_opts 0]> ∅)) l ->
  exists l', cleanup_sdk (mk_program l (Some (Some 1%nat)) (Some (Some 2%nat)) a) = (Ret tt, mk_program l' (Some None) (Some None) a) /\
    Loggers.handles l' = ∅.
Proof.
  intros Hup. destruct (free_handles_spec lg l a Hup) as (l1 & Hf & Hup1).
  destruct (sdk_shutdown_spec l1 (Some None) (Some None) a Hup1) as (l2 & Hs & Hh). exists l2. split; [|done].
  unfold cleanup_sdk, sbind in *. destruct (sdk_opts_free _) as [[[]|e|x|] s]; try done. rewrite Hf. exact Hs.
Qed.

(** ** The calls of a program on the C interface *)

Abbreviation object := (Nvat.object (U:=U) (V:=V)).
Abbreviation context_t := (Attestation.AttestationContext (U:=U) (V:=V)).
Abbreviation world := ((Attestation.shared string * WU) * (Attestation.shared NvOcspResponse * WV) * nat)%type.
Abbreviation locals := (gmap (ctype * nat) (option (nat * object))).
Abbreviation attest_result := (outcome Error (option string * option Error)).

Implicit Types (H : gmap nat object) (w : world) (M : locals) (c : context_t).

(** [attest_and_print] and [settings_failed] without the SDK. *)
Definition print_calls (exit_code : option Error -> Z) : api (Z * list string) :=
  do* _ := write T_str (Some detached_eat) None in
  do* _ := write T_claims_collection (Some claims) None in
  do* rc := attestation_rc in
  do* lines := print_results rc in
  do* _ := free_if T_str detached_eat in
  do* _ := free_if T_claims_collection claims in
  do* _ := ctx_free in
  sret (exit_code rc, lines).

Definition failed_calls {A : Type} (_ : A) : api (Z * list string) := do* _ := ctx_free in sret (1, []).

(** Between the initialization and the cleanup, [k] makes the calls [m]. *)
Definition settled (k : prog (Z * list string)) (m : api (Z * list string)) : Prop :=
  forall lg l a, up (<[2%nat := Loggers.o_logger lg]> (<[1%nat := Loggers.o_sdk_opts 0]> ∅)) l ->
  match (m a).1 with
  | Ret v => exists l', k (mk_program l (Some (Some 1%nat)) (Some (Some 2%nat)) a) =
                          (Ret v, mk_program l' (Some None) (Some None) (m a).2) /\ Loggers.handles l' = ∅
  | UB => (k (mk_program l (Some (Some 1%nat)) (Some (Some 2%nat)) a)).1 = UB
  | _ => True
  end.

Lemma handles_api_eq {A : Type} (m : api A) l o g a r a' : m a = (r, a') -> on_api m (mk_program l o g a) = (r, mk_program l o g a').
Proof. intros E. unfold on_api. cbn. by rewrite E. Qed.

Lemma settled_do {A : Type} (m : api A) k k' :
  (forall a, settled (k a) (k' a)) -> settled (do* a := on_api m in k a) (do* a := m in k' a).
Proof.
  intros Hk lg l a Hup. unfold sbind. destruct (m a) as [r a'] eqn:E. rewrite (handles_api_eq _ _ _ _ _ _ _ E).
  destruct r as [x|e|x|]; try done. by apply (Hk x lg l a').
Qed.

Lemma settled_orelse {A : Type} (m : api A) f f' k k' :
  (forall e, settled (f e) (f' e)) -> (forall a, settled (k a) (k' a)) ->
  settled (orelse (on_api m) f k) (orelse m f' k').
Proof.
  intros Hf Hk lg l a Hup. unfold orelse. destruct (m a) as [r a'] eqn:E. rewrite (handles_api_eq _ _ _ _ _ _ _ E).
  destruct r as [x|e|x|]; try done; [by apply (Hk x lg l a')|by apply (Hf e lg l a')].
Qed.

Lemma settled_end v : settled (do* _ := cleanup_sdk in sret v) (sret v).
Proof.
  intros lg l a Hup. unfold sbind, sret. cbn. destruct (cleanup_spec lg l a Hup) as (l' & -> & Hh). by exists l'.
Qed.

Lemma settled_failed {A : Type} (x : A) : settled (settings_failed x) (failed_calls x).
Proof. apply settled_do. intros _. apply settled_end. Qed.

Lemma settled_print f g : (forall rc, f rc = g rc) -> settled (attest_and_print f) (print_calls g).
Proof.
  intros E. do 2 (apply settled_do; intros _). apply settled_do; intros rc. apply settled_do; intros lines.
  do 3 (apply settled_do; intros _). rewrite E. apply settled_end.
Qed.

(** The whole of a program. *)
Lemma program_spec k m n q a :
  Sdk.stderr_color_mt "nvat_example" = true -> settled k m ->
  let calls := orelse create_default_gpu_ctx (fun _ => sret (1, [])) (fun _ => m) in
  if xml_ready then
    match (calls a).1 with
    | Ret v => exists l, with_sdk_and_ctx k (start n q a) = (Ret v, mk_program l (Some None) (Some None) (calls a).2) /\
                 Loggers.handles l = ∅
    | UB => (with_sdk_and_ctx k (start n q a)).1 = UB
    | _ => True
    end
  else exists l, with_sdk_and_ctx k (start n q a) = (Ret (1, []), mk_program l (Some None) (Some None) a) /\ Loggers.handles l = ∅.
Proof.
  intros Hn Hk calls. destruct (setup_spec n q a Hn) as (l & o & g & Hset & Hr).
  set (body := orelse (on_api create_default_gpu_ctx) (fun _ => do* _ := cleanup_sdk in sret (1, [])) (fun _ => k)).
  assert (with_sdk_and_ctx k (start n q a) =
    if xml_ready then body (mk_program l o g a) else (Ret (1, []), mk_program l o g a)) as ->.
  { unfold with_sdk_and_ctx. unfold orelse at 1. rewrite Hset. unfold init_result. by destruct xml_ready. }
  destruct xml_ready; destruct Hr as (-> & -> & Hup); [|by exists l].
  eapply (settled_orelse create_default_gpu_ctx _ (fun _ => sret (1, [])) _ (fun _ => m)); [|intros _; exact Hk|exact Hup].
  intros e. apply settled_end.
Qed.

(** *** What the calls come to *)

(** The attestation of a context, over a new nonce. *)
Definition attested c w : attest_result * Attestation.state :=
  Attestation.attest_device clock clock_ms [] true (Attestation.mk_state c w.1.1 w.1.2 w.2 []).

Definition rc_of (r : attest_result) : option Error :=
  match r with Ret (_, status) => status | Err e => Some e | Throw _ => Some InternalError | UB => None end.

Definition printed (r : attest_result) (cs : Collection.ClaimsCollection) : list string :=
  match r with
  | Ret (text, status) =>
      (match status with None => ["Attestation successful."] | _ => [] end) ++
      ["Detached EAT: " +:+ c_str (default "" text)] ++
      match Collection.serialize_json Eat.json_dump cs with Ret t => ["Claims: " +:+ c_str t] | _ => [] end
  | _ => []
  end.

(** What the calls leave: the result, the string of a token that was not made,
    and no variable with an object. *)
Definition done_with (exit_code : option Error -> Z) H w c (o : outcome Error (Z * list string)) (H' : gmap nat object)
    (w' : world) (M' : locals) : Prop :=
  let '(r, s) := attested c w in
  match r with
  | UB => o = UB
  | _ =>
    o = Ret (exit_code (rc_of r), printed r (Attestation.claims s)) /\ Cli.leaked H (Cli.token_leak r) H' /\
    w' = (Attestation.rim_world s, Attestation.ocsp_world s, Attestation.nras_requests s) /\ forall k, spare M' k
  end.

(** The variables of a program while it sets its context. *)
Record only_ctx (lc : nat) c M : Prop := mk_only_ctx {
  oc_ctx : M !! (T_attestation_ctx, ctx) = Some (Some (lc, o_attestation_ctx c));
  oc_other k : k <> (T_attestation_ctx, ctx) -> spare M k;
}.

Lemma runs_orelse {A B : Type} H w M (m : api A) (failed : Error -> api B) (k : A -> api B) (Q : _ -> _ -> _ -> _ -> Prop) :
  runs H w M m (fun o H' w' M' =>
    match o with
    | Ret a => runs H' w' M' (k a) Q
    | Err e => runs H' w' M' (failed e) Q
    | Throw x => Q (Throw x) H' w' M'
    | UB => Q UB H' w' M'
    end) -> runs H w M (orelse m failed k) Q.
Proof.
  intros Hm st Hs. destruct (Hm st Hs) as (H' & w' & M' & Hs' & Hq). unfold orelse.
  destruct (m st) as [[a|e|x|] st'] eqn:E; cbn [fst snd] in *; [by apply Hq, Hs'|by apply Hq, Hs'| |];
    exists H', w', M'; cbn; auto.
Qed.

Lemma setting_runs lc H w c M (F : option nat -> api unit) (f : context_t -> context_t) (Q : _ -> _ -> _ -> _ -> Prop) :
  F (Some lc) = on_ctx (Some lc) f -> only_ctx lc c M ->
  (forall M', only_ctx lc (f c) M' -> Q (Ret tt) H w M') -> runs H w M (with_ctx F) Q.
Proof.
  intros HF [Hc Ho] Hq. eapply Cli.runs_with_ctx; [exact Hc|]. rewrite HF. eapply Cli.runs_on_ctx; [exact Hc|]. apply Hq.
  split; [apply lookup_insert_eq|]. intros k Hk. apply Cli.spare_insert; [done|by apply Ho].
Qed.

Lemma create_runs H w (Q : _ -> _ -> _ -> _ -> Prop) :
  (forall lc M, only_ctx lc (Attestation.set_device_type Attestation.new_context Verify.NVAT_DEVICE_GPU) M -> Q (Ret tt) H w M) ->
  runs H w ∅ create_default_gpu_ctx Q.
Proof.
  intros Hq. unfold create_default_gpu_ctx. apply runs_bind, runs_c_call. unfold nvat_attestation_ctx_create. given.
  apply runs_emit; [apply spare_none, lookup_empty|]. intros lc _. tidy. apply runs_orelse.
  eapply (setting_runs lc _ _ Attestation.new_context _ _ (fun c => Attestation.set_device_type c Verify.NVAT_DEVICE_GPU)); [done| |].
  - split; [apply lookup_insert_eq|]. intros k Hk. apply Cli.spare_insert; [done|]. apply spare_none, lookup_empty.
  - intros M' Hm. apply runs_ret. by eapply Hq.
Qed.

Lemma ctx_free_runs lc c H w M (Q : _ -> _ -> _ -> _ -> Prop) :
  M !! (T_attestation_ctx, ctx) = Some (Some (lc, o_attestation_ctx c)) ->
  Q (Ret tt) H w (<[(T_attestation_ctx, ctx) := None]> M) -> runs H w M ctx_free Q.
Proof. apply runs_free. Qed.

Lemma serialized (cs : Collection.ClaimsCollection) :
  (exists t, Collection.serialize_json Eat.json_dump cs = Ret t) \/ Collection.serialize_json Eat.json_dump cs = Err InternalError.
Proof. unfold Collection.serialize_json. destruct (Eat.json_dump _); [left; by eexists|by right]. Qed.

Lemma str_data_runs H w M v l t (Q : _ -> _ -> _ -> _ -> Prop) :
  M !! (T_str, v) = Some (Some (l, o_str t)) -> Q (Ret t) H w M -> runs H w M (str_data v) Q.
Proof.
  intros Hm Hq. apply runs_c_call, runs_bind. eapply runs_arg; [exact Hm|]. tidy. unfold nvat_str_get_data. given.
  apply runs_bind. eapply runs_deref; [exact Hm|done|]. tidy. by apply runs_lift.
Qed.

Lemma claims_text_runs H w M v l cs (Q : _ -> _ -> _ -> _ -> Prop) :
  M !! (T_claims_collection, claims) = Some (Some (l, o_claims_collection cs)) -> spare M (T_str, v) ->
  match Collection.serialize_json Eat.json_dump cs with
  | Ret t => forall l', Q (Ret tt) H w (<[(T_str, v) := Some (l', o_str t)]> M)
  | _ => Q (Err InternalError) H w M
  end -> runs H w M (claims_text v) Q.
Proof.
  intros Hm Hs Hq. apply runs_c_call, runs_bind. eapply runs_arg; [exact Hm|]. tidy. unfold nvat_claims_collection_serialize_json. given.
  apply runs_bind. eapply runs_deref; [exact Hm|done|]. tidy. apply runs_bind, runs_lift.
  destruct (serialized cs) as [[t E]|E]; rewrite E in *; [|done]. tidy. apply runs_emit; [done|]. intros l' _. apply Hq.
Qed.

Lemma free_if_runs H w M t v x (Q : _ -> _ -> _ -> _ -> Prop) :
  M !! (t, v) = Some x -> Q (Ret tt) H w (<[(t, v) := None]> M) -> runs H w M (free_if t v) Q.
Proof.
  intros Hx Hq. apply runs_bind. eapply runs_read; [exact Hx|]. destruct x as [[l o]|]; cbn; [by eapply runs_free|].
  apply runs_ret. by rewrite insert_id in Hq.
Qed.

(** After an attestation with results. *)
Lemma print_results_runs H w M status l1 text l2 cs (Q : _ -> _ -> _ -> _ -> Prop) :
  status = None \/ status = Some OverallResultFalse \/ status = Some RelyingPartyPolicyMismatch ->
  M !! (T_str, detached_eat) = Some (Some (l1, o_str text)) ->
  M !! (T_claims_collection, claims) = Some (Some (l2, o_claims_collection cs)) -> spare M (T_str, json_str) ->
  (forall M', (M' = M \/ M' = <[(T_str, json_str) := None]> M) ->
     Q (Ret (printed (Ret (Some text, status)) cs)) H w M') ->
  runs H w M (print_results status) Q.
Proof.
  intros Hst Hs Hc Hj Hq. unfold print_results. rewrite bool_decide_false by naive_solver.
  apply runs_bind. eapply runs_read; [exact Hs|]. tidy. apply runs_bind, runs_orelse. eapply str_data_runs; [exact Hs|].
  apply runs_ret. tidy. apply runs_bind. eapply runs_read; [exact Hc|]. tidy. apply runs_bind, runs_orelse.
  eapply claims_text_runs; [exact Hc|done|]. unfold printed in Hq. cbn [default] in Hq.
  destruct (serialized cs) as [[t E]|E]; rewrite E in *.
  - intros l'. apply runs_bind, runs_orelse. eapply str_data_runs; [apply lookup_insert_eq|]. apply runs_ret. tidy.
    apply runs_bind. eapply runs_free; [apply lookup_insert_eq|]. tidy. apply runs_ret. tidy. apply runs_ret. apply Hq. by right.
  - apply runs_ret. tidy. apply runs_ret. apply Hq. by left.
Qed.

(** After one without. *)
Lemma print_results_none H w M e (Q : _ -> _ -> _ -> _ -> Prop) :
  M !! (T_str, detached_eat) = Some None -> M !! (T_claims_collection, claims) = Some None ->
  Q (Ret []) H w M -> runs H w M (print_results (Some e)) Q.
Proof.
  intros Hs Hc Hq. unfold print_results. case_bool_decide; [by apply runs_ret|].
  apply runs_bind. eapply runs_read; [exact Hs|]. tidy. apply runs_bind, runs_ret. tidy.
  apply runs_bind. eapply runs_read; [exact Hc|]. tidy. apply runs_bind, runs_ret. tidy. by apply runs_ret.
Qed.

(** What ends the calls. *)
Lemma end_runs {A : Type} (v : A) H w M x y lc c (Q : _ -> _ -> _ -> _ -> Prop) :
  M !! (T_str, detached_eat) = Some x -> M !! (T_claims_collection, claims) = Some y ->
  M !! (T_attestation_ctx, ctx) = Some (Some (lc, o_attestation_ctx c)) ->
  (forall k, k <> (T_str, detached_eat) -> k <> (T_claims_collection, claims) -> k <> (T_attestation_ctx, ctx) -> spare M k) ->
  (forall M', (forall k, spare M' k) -> Q (Ret v) H w M') ->
  runs H w M (do* _ := free_if T_str detached_eat in do* _ := free_if T_claims_collection claims in do* _ := ctx_free in sret v) Q.
Proof.
  intros Hs Hc Hx Ho Hq. apply runs_bind. eapply free_if_runs; [exact Hs|]. tidy.
  apply runs_bind. eapply free_if_runs; [by rewrite lookup_insert_ne|]. tidy.
  apply runs_bind. eapply ctx_free_runs; [by rewrite !lookup_insert_ne|]. tidy. apply runs_ret, Hq. intros k l o.
  rewrite !lookup_insert. repeat (case_decide; [done|]). by apply Ho.
Qed.

Lemma print_calls_runs ec lc c H w M : only_ctx lc c M -> runs H w M (print_calls ec) (done_with ec H w c).
Proof.
  intros [Hc Ho]. unfold print_calls. apply runs_bind, runs_null; [by apply Ho|]. tidy.
  apply runs_bind, runs_null; [apply Cli.spare_insert; [done|by apply Ho]|]. tidy.
  set (M1 := <[_ := _]> (<[_ := _]> M)).
  assert (M1 !! (T_attestation_ctx, ctx) = Some (Some (lc, o_attestation_ctx c))) as Hc1 by (unfold M1; by rewrite !lookup_insert_ne).
  assert (M1 !! (T_claims_collection, claims) = Some None) as Hcl by apply lookup_insert_eq.
  assert (M1 !! (T_str, detached_eat) = Some None) as Hstr by (unfold M1; rewrite lookup_insert_ne by done; apply lookup_insert_eq).
  assert (forall k, k <> (T_attestation_ctx, ctx) -> spare M1 k) as Ho1.
  { intros k Hk l o. unfold M1. rewrite !lookup_insert. repeat (case_decide; [done|]). by apply Ho. }
  clearbody M1. apply runs_bind, runs_orelse. eapply Cli.runs_with_ctx; [exact Hc1|].
  eapply Cli.attest_call_runs; [exact Hc1|by left|exact Hcl|exact Hstr|]. intros o s E. cbv zeta.
  unfold done_with, attested. rewrite E. destruct o as [[text status]|e|x|].
  - intros l1 l2. tidy. apply runs_ret. tidy. apply runs_bind.
    assert (printed (Ret (text, status)) (Attestation.claims s) = printed (Ret (Some (default "" text), status)) (Attestation.claims s)) as Hp by done.
    eapply print_results_runs; [by eapply Attestation.attest_status|apply lookup_insert_eq|by rewrite lookup_insert_ne; first apply lookup_insert_eq| |].
    { intros l o'. rewrite !lookup_insert_ne by done. by apply Ho1. }
    intros M' HM'. cbn [then_]. rewrite <- Hp.
    assert (forall k, M' !! k = Some None \/
      M' !! k = (<[(T_str, 0%nat):=Some (l1, o_str (default "" text))]>
        (<[(T_claims_collection, 0%nat):=Some (l2, o_claims_collection (Attestation.claims s))]>
           (<[(T_attestation_ctx, ctx):=Some (lc, o_attestation_ctx (Attestation.context s))]> M1))) !! k) as HM.
    { intros k. destruct HM' as [-> | ->]; [by right|]. rewrite lookup_insert. case_decide; [by left|by right]. }
    eapply end_runs.
    + destruct HM' as [-> | ->]; rewrite ?(lookup_insert_ne _ (T_str, json_str)) by done; apply lookup_insert_eq.
    + destruct HM' as [-> | ->]; rewrite ?(lookup_insert_ne _ (T_str, json_str)) by done; rewrite lookup_insert_ne by done; apply lookup_insert_eq.
    + destruct HM' as [-> | ->]; rewrite ?(lookup_insert_ne _ (T_str, json_str)) by done; rewrite !lookup_insert_ne by done; apply lookup_insert_eq.
    + intros k H1 H2 H3 l o'. destruct (HM k) as [-> | ->]; [done|]. rewrite !lookup_insert_ne by done. by apply Ho1.
    + intros M2 HM2. cbn [rc_of]. split_and!; try done. constructor.
  - intros H' Hl. tidy. apply runs_ret. tidy. apply runs_bind.
    eapply print_results_none; [by rewrite lookup_insert_ne..|]. tidy. eapply end_runs; [by rewrite lookup_insert_ne|by rewrite lookup_insert_ne|apply lookup_insert_eq| |].
    + intros k H1 H2 H3. apply Cli.spare_insert; [done|by apply Ho1].
    + intros M2 HM2. by split_and!.
  - intros H' Hl. tidy. apply runs_ret. tidy. apply runs_bind.
    eapply print_results_none; [by rewrite lookup_insert_ne..|]. tidy. eapply end_runs; [by rewrite lookup_insert_ne|by rewrite lookup_insert_ne|apply lookup_insert_eq| |].
    + intros k H1 H2 H3. apply Cli.spare_insert; [done|by apply Ho1].
    + intros M2 HM2. by split_and!.
  - intros H'. by tidy.
Qed.

(** ** The four programs *)

Inductive helper : Type := AttestLocal | AttestRemote | PolicyNone | PolicyCustom.

Definition helper_program (p : helper) : prog (Z * list string) :=
  match p with
  | AttestLocal => attest_local
  | AttestRemote => attest_remote
  | PolicyNone => attest_policy_none
  | PolicyCustom => attest_policy_custom
  end.

(** The context that each of them attests with. *)
Definition helper_context (p : helper) : context_t :=
  let c := Attestation.set_device_type Attestation.new_context Verify.NVAT_DEVICE_GPU in
  match p with
  | AttestLocal | PolicyNone => Attestation.set_verifier_type c Verify.Local
  | AttestRemote =>
      let c := Attestation.set_verifier_type c Verify.Remote in
      match Http.getenv "EXAMPLE_NRAS_SERVICE_KEY" with Some key => Attestation.set_service_key c key | None => c end
  | PolicyCustom => Attestation.set_verifier_type (Attestation.set_claims_evaluator c (Some REGO_RP_POLICY)) Verify.Local
  end.

(** The exit codes: attest_local also takes a false overall result. *)
Definition helper_exit (p : helper) (rc : option Error) : Z :=
  match p, rc with
  | _, None => 0
  | AttestLocal, Some OverallResultFalse => 0
  | _, _ => 1
  end.

Definition helper_calls (p : helper) : api (Z * list string) :=
  match p with
  | AttestLocal | PolicyNone =>
      orelse (set_verifier_type Verify.NVAT_VERIFY_LOCAL) failed_calls (fun _ => print_calls (helper_exit p))
  | AttestRemote =>
      orelse (set_verifier_type Verify.NVAT_VERIFY_REMOTE) failed_calls (fun _ =>
      orelse (match Http.getenv "EXAMPLE_NRAS_SERVICE_KEY" with
              | None => sret tt
              | Some api_key => with_ctx (fun h => nvat_attestation_ctx_set_service_key h (Some api_key))
              end) failed_calls (fun _ => print_calls (helper_exit p)))
  | PolicyCustom =>
      orelse create_policy failed_calls (fun _ =>
      do* err := code set_policy in
      do* _ := free T_relying_party_policy (Some rp_policy) in
      match err with
      | Some e => failed_calls e
      | None =>
          orelse (set_verifier_type Verify.NVAT_VERIFY_LOCAL) failed_calls (fun _ => print_calls (helper_exit p))
      end)
  end.

(** Each program makes these calls. *)
Lemma helper_settled p :
  exists k, helper_program p = with_sdk_and_ctx k /\ settled k (helper_calls p).
Proof.
  destruct p; eexists (_ : prog _); (split; [reflexivity|]); cbn [helper_calls].
  - apply settled_orelse; [intros; apply settled_failed|]. intros _. by apply settled_print; intros [[]|].
  - apply settled_orelse; [intros; apply settled_failed|]. intros _.
    destruct (Http.getenv _) as [key|].
    + apply settled_orelse; [intros; apply settled_failed|]. intros _. by apply settled_print; intros [[]|].
    + by apply settled_print; intros [[]|].
  - apply settled_orelse; [intros; apply settled_failed|]. intros _. by apply settled_print; intros [[]|].
  - apply settled_orelse; [intros; apply settled_failed|]. intros _.
    apply settled_do. intros err. apply settled_do. intros _. destruct err; [apply settled_failed|].
    apply settled_orelse; [intros; apply settled_failed|]. intros _. by apply settled_print; intros [[]|].
Qed.

Lemma failed_calls_runs {A : Type} (x : A) lc c H w M (Q : _ -> _ -> _ -> _ -> Prop) :
  M !! (T_attestation_ctx, ctx) = Some (Some (lc, o_attestation_ctx c)) ->
  Q (Ret (1, [])) H w (<[(T_attestation_ctx, ctx) := None]> M) -> runs H w M (failed_calls x) Q.
Proof. intros Hc Hq. apply runs_bind. eapply ctx_free_runs; [exact Hc|]. by apply runs_ret. Qed.

Lemma verifier_then lc c H w M t ty ec (f : Error -> api (Z * list string)) :
  Verify.verifier_type_from_c t = Ret ty -> only_ctx lc c M ->
  runs H w M (orelse (set_verifier_type t) f (fun _ => print_calls ec))
    (done_with ec H w (Attestation.set_verifier_type c ty)).
Proof.
  intros Ht Hm. apply runs_orelse. eapply (setting_runs lc _ _ c _ _ (fun c => Attestation.set_verifier_type c ty)); [|exact Hm|].
  - unfold nvat_attestation_ctx_set_verifier_type. cbn. by rewrite Ht.
  - intros M' Hm'. by eapply print_calls_runs.
Qed.

Lemma policy_runs lc c H w M (k : option Error -> api (Z * list string)) (Q : _ -> _ -> _ -> _ -> Prop) :
  only_ctx lc c M ->
  (forall M', only_ctx lc (Attestation.set_claims_evaluator c (Some REGO_RP_POLICY)) M' -> runs H w M' (k None) Q) ->
  runs H w M (orelse create_policy failed_calls (fun _ =>
    do* err := code set_policy in do* _ := free T_relying_party_policy (Some rp_policy) in k err)) Q.
Proof.
  intros [Hc Ho] Hk. apply runs_orelse. apply runs_c_call. unfold nvat_relying_party_policy_create_rego_from_str.
  apply runs_emit; [by apply Ho|]. intros l _. tidy. apply runs_bind. apply runs_orelse.
  eapply Cli.runs_with_ctx; [by rewrite lookup_insert_ne|]. tidy. apply runs_bind. eapply runs_arg; [apply lookup_insert_eq|]. tidy.
  unfold nvat_attestation_ctx_set_relying_party_policy. given. apply runs_bind. eapply runs_deref; [apply lookup_insert_eq|done|]. tidy.
  eapply Cli.runs_on_ctx; [by rewrite lookup_insert_ne|]. apply runs_ret. tidy. apply runs_bind. eapply runs_free; [by rewrite lookup_insert_ne; first apply lookup_insert_eq|].
  tidy. apply Hk. split; [by rewrite lookup_insert_ne; first apply lookup_insert_eq|]. intros k' Hk'.
  intros l' o. rewrite !lookup_insert. repeat (case_decide; [done || congruence|]). by apply Ho.
Qed.

Lemma helper_calls_runs p H w :
  runs H w ∅ (orelse create_default_gpu_ctx (fun _ => sret (1, [])) (fun _ => helper_calls p))
    (done_with (helper_exit p) H w (helper_context p)).
Proof.
  apply runs_orelse, create_runs. intros lc M Hm. destruct p; cbn [helper_calls].
  - by eapply verifier_then.
  - apply runs_orelse. eapply (setting_runs lc _ _ _ _ _ (fun c => Attestation.set_verifier_type c Verify.Remote)); [done|exact Hm|].
    intros M1 Hm1. apply runs_orelse. unfold helper_context. destruct (Http.getenv _) as [key|].
    + eapply (setting_runs lc _ _ _ _ _ (fun c => Attestation.set_service_key c key)); [done|exact Hm1|].
      intros M2 Hm2. by eapply print_calls_runs.
    + apply runs_ret. by eapply print_calls_runs.
  - by eapply verifier_then.
  - eapply policy_runs; [exact Hm|]. intros M1 Hm1. by eapply verifier_then.
Qed.

Lemma helper_programs_lemma (p : helper) n q a :
  Sdk.stderr_color_mt "nvat_example" = true -> heap a = ∅ ->
  let '(r, s) := attested (helper_context p) (world_of a) in
  let '(o, g) := helper_program p (start n q a) in
  if xml_ready then
    match r with
    | UB => o = UB
    | _ =>
      o = Ret (helper_exit p (rc_of r), printed r (Attestation.claims s)) /\ Loggers.handles (p_lib g) = ∅ /\
      Cli.leaked ∅ (Cli.token_leak r) (heap (p_api g)) /\
      world_of (p_api g) = (Attestation.rim_world s, Attestation.ocsp_world s, Attestation.nras_requests s)
    end
  else o = Ret (1, []) /\ Loggers.handles (p_lib g) = ∅ /\ p_api g = a.
Proof.
  intros Hn Ha. destruct (helper_settled p) as (k & Hp & Hk). rewrite Hp.
  pose proof (program_spec k _ n q a Hn Hk) as Hprog. cbv zeta in Hprog.
  set (calls := orelse create_default_gpu_ctx _ _) in Hprog.
  destruct (attested (helper_context p) (world_of a)) as [r s] eqn:Er.
  destruct (with_sdk_and_ctx k (start n q a)) as [o g] eqn:Eo.
  destruct xml_ready; [|by destruct Hprog as (l & [= -> ->] & Hh)].
  destruct (helper_calls_runs p (heap a) (world_of a) a) as (H' & w' & M' & Hs & Hd).
  { apply scope_start. rewrite Ha. intros l [x Hx]. by rewrite lookup_empty in Hx. }
  fold calls in Hs, Hd. unfold done_with in Hd. rewrite Er in Hd.
  destruct r as [[text status]|e|x|].
  4: { rewrite Hd in Hprog. exact Hprog. }
  all: destruct Hd as (Hv & Hl & Hw & Hm); rewrite Hv in Hprog, Hs; destruct Hprog as (l & [= -> ->] & Hh); cbn [p_lib p_api];
    specialize (Hs ltac:(done)); pose proof (scope_end _ _ _ _ Hs (fun k => Hm k)) as He; rewrite He, <- Ha, <- Hw;
    split_and!; [done..|apply (sc_world _ _ _ _ Hs)].
Qed.

(** C16: Each of the four programs makes one attestation, with its own context
    (the GPU, its verifier, its policy or key), over a new nonce.  It exits with
    the code that its outcome has and prints its detached EAT and its claims;
    then the options, the logger, the context and the results are freed, and
    only the string of a detached EAT that was not made stays in the heap.
    Nothing else is undefined behaviour.  When the XML libraries cannot be
    initialized it exits with 1 without an attestation, and frees the options
    and the logger. *)
Theorem helper_programs (p : helper) n q a :
  Sdk.stderr_color_mt "nvat_example" = true -> heap a = ∅ ->
  let '(r, s) := attested (helper_context p) (world_of a) in
  let '(o, g) := helper_program p (start n q a) in
  if xml_ready then
    match r with
    | UB => o = UB
    | _ =>
      o = Ret (helper_exit p (rc_of r), printed r (Attestation.claims s)) /\ Loggers.handles (p_lib g) = ∅ /\
      Cli.leaked ∅ (Cli.token_leak r) (heap (p_api g)) /\
      world_of (p_api g) = (Attestation.rim_world s, Attestation.ocsp_world s, Attestation.nras_requests s)
    end
  else o = Ret (1, []) /\ Loggers.handles (p_lib g) = ∅ /\ p_api g = a.
Proof. apply helper_programs_lemma. Qed.

(** What attest_policy_none verifies with. *)
Lemma policy_none_context :
  let c := helper_context PolicyNone in let i := Attestation.initialized c in
  Attestation.m_gpu_enabled i = true /\ Attestation.m_gpu_evidence_source i = Some Attestation.NvmlEvidenceCollector /\
  Attestation.m_gpu_verifier i =
    Some (Attestation.LocalVerifier (Attestation.rim_or_default c) (Attestation.ocsp_or_default c) (Attestation.m_eat_options c)) /\
  Attestation.m_claims_evaluator i = None /\ Attestation.m_evidence_policy i = Rim.EvidencePolicy_default.
Proof. by split_and!. Qed.

Lemma policy_none_run n q a lines g :
  Sdk.stderr_color_mt "nvat_example" = true -> heap a = ∅ ->
  attest_policy_none (start n q a) = (Ret (0, lines), g) ->
  exists text s, attested (helper_context PolicyNone) (world_of a) = (Ret (text, None), s) /\
    lines = printed (Ret (text, None)) (Attestation.claims s).
Proof.
  intros Hn Ha Hrun. pose proof (helper_programs_lemma PolicyNone n q a Hn Ha) as H. cbn [helper_program] in H. rewrite Hrun in H.
  destruct (attested (helper_context PolicyNone) (world_of a)) as [r s].
  destruct xml_ready; [|by destruct H as [[= ] _]].
  destruct r as [[text status]|e|x|]; cbn [rc_of] in H; [|by destruct H as [[= ] _]..|done].
  destruct H as [[= Hex ->] _]. destruct status as [e|]; [done|]. by exists text, s.
Qed.

Lemma local_attested c w text s :
  Attestation.rego_documented ->
  let i := Attestation.initialized c in
  Attestation.m_gpu_enabled i = true -> Attestation.m_gpu_evidence_source i = Some Attestation.NvmlEvidenceCollector ->
  Attestation.m_gpu_verifier i =
    Some (Attestation.LocalVerifier (Attestation.rim_or_default c) (Attestation.ocsp_or_default c) (Attestation.m_eat_options c)) ->
  Attestation.m_claims_evaluator i = None -> Attestation.m_evidence_policy i = Rim.EvidencePolicy_default ->
  attested c w = (Ret (text, None), s) ->
  exists nonce evidence,
    Attestation.choose_nonce [] = Ret nonce /\ Attestation.collect_evidence_nvml nonce = Ret evidence /\
    Attestation.claims s <> [] /\ length (Attestation.claims s) = length evidence /\
    GpuVerify.all_verified clock Rim.EvidencePolicy_default 0 evidence
      (mk_vstate (Attestation.rim_or_default c, w.1.1) (Attestation.ocsp_or_default c, w.1.2) []) (Attestation.claims s) /\
    Forall Policy.device_good (Attestation.claims s).
Proof.
  intros Hrego i Hg Hs Hv He Hpol E.
  destruct (Attestation.attest_local_gpu_lemma clock clock_ms [] (Attestation.mk_state c w.1.1 w.1.2 w.2 []) text s _ _ _ Hrego Hg Hv He)
    as (nonce & source & evidence & Hnonce & Hsrc & Hev & _ & Hne & Hlen & Hall & Hgood).
  - cbn [Attestation.context]. fold i. by rewrite Hpol.
  - exact E.
  - cbn [Attestation.context Attestation.rim_world Attestation.ocsp_world] in *. fold i in Hsrc, Hall.
    rewrite Hs in Hsrc. injection Hsrc as <-. rewrite Hpol in Hall. by exists nonce, evidence.
Qed.

(** P: attest_policy_none exits with 0 only if the evidence was verified: NVML
    gave it for a new nonce; there are claims, of as many items that were
    authenticated, are fresh and were compared with verified RIMs by the default
    policy; every device is good; and what is printed is the token and these
    claims. *)
Theorem attest_policy_none_sound n q a lines g :
  Attestation.rego_documented -> Sdk.stderr_color_mt "nvat_example" = true -> heap a = ∅ ->
  attest_policy_none (start n q a) = (Ret (0, lines), g) ->
  exists nonce evidence cs text,
    Attestation.choose_nonce [] = Ret nonce /\ Attestation.collect_evidence_nvml nonce = Ret evidence /\
    cs <> [] /\ length cs = length evidence /\
    GpuVerify.all_verified clock Rim.EvidencePolicy_default 0 evidence
      (mk_vstate (Attestation.rim_or_default (helper_context PolicyNone), (world_of a).1.1)
         (Attestation.ocsp_or_default (helper_context PolicyNone), (world_of a).1.2) []) cs /\
    Forall Policy.device_good cs /\ lines = printed (Ret (text, None)) cs.
Proof.
  intros Hrego Hn Ha Hrun. apply policy_none_run in Hrun as (text & s & E & ->); [|done..].
  destruct policy_none_context as (Hg & Hs & Hv & He & Hpol).
  destruct (local_attested _ _ _ _ Hrego Hg Hs Hv He Hpol E) as (nonce & evidence & Hx).
  exists nonce, evidence, (Attestation.claims s), text. tauto.
Qed.

Lemma logger_free_made name level n q a :
  let lg := Sdk.SpdLogLogger name (Sdk.log_level_from_c level) in
  logger_free (made name level n q a) =
    (Ret tt, mk_program (Loggers.mk_lib (Sdk.new_sdk n q) (<[0%nat := Some lg]> (<[0%nat := None]> ∅))
       (<[1%nat := Loggers.o_sdk_opts 0]> ∅) 3 None []) (Some (Some 1%nat)) (Some None) a).
Proof. reflexivity. Qed.

(** P: when the XML libraries cannot be initialized, [attest] fails before it
    makes the context, and [main] frees the context all the same: a variable
    that was never set. *)
Theorem attest_main_uninitialized n q a :
  Sdk.stderr_color_mt "nvat_json_evidence" = true -> xml_ready = false -> slots a !! (T_attestation_ctx, ctx) = None ->
  (attest_main (start n q a)).1 = UB.
Proof.
  intros Hn Hf Ha.
  assert (exists l o g e, attest (start n q a) = (Err e, mk_program l o g a)) as (l & o & g & e & Hat).
  { destruct (made_eq "nvat_json_evidence" (Sdk.log_level_to_c Sdk.ERROR) n q None None a Hn) as (s & Hm & Hset).
    unfold attest. unfold sbind in Hm. unfold sbind at 1. destruct (sdk_opts_create _) as [[[]|e|x|] s1] eqn:E1; try done.
    unfold orelse at 1. rewrite Hm. unfold sbind at 1. rewrite Hset. unfold sbind at 1. rewrite logger_free_made.
    unfold orelse at 1, sdk_init, sbind at 1, get_opts, on_lib. cbn.
    edestruct (init_lib n q) as (l' & -> & Hup); [reflexivity|reflexivity|reflexivity|]. unfold init_result. rewrite Hf.
    destruct Hup as [Hh _ _ _].
    unfold sdk_opts_free, Loggers.nvat_sdk_opts_free, Loggers.free_handle, Loggers.deref, sbind, get_opts, on_lib, put_opts.
    cbn. rewrite Hh. cbn. by do 4 eexists. }
  unfold attest_main. rewrite Hat. unfold sbind, on_api, free_if, read. cbn. by rewrite Ha.
Qed.

(** *** attest-minimal *)

Definition minimal_calls : api (option (string * string)) :=
  do* _ := minimal_vars in
  do* _ := ignoring (c_call (nvat_attestation_ctx_create (Some ctx))) in
  orelse (strictly attest_device) (fun _ => sret None) (fun _ => do* data := minimal_show in sret (Some data)).

(** What is left: on success nothing. *)
Definition minimal_done H w (o : outcome Error (option (string * string))) (H' : gmap nat object) (w' : world) M : Prop :=
  let '(r, s) := attested Attestation.new_context w in
  match r with
  | UB => o = UB
  | Ret (text, None) =>
      match Collection.serialize_json Eat.json_dump (Attestation.claims s) with
      | Ret t => o = Ret (Some (t, default "" text)) /\ H' = H /\ forall k, spare M k
      | _ => o = UB
      end
  | _ => o = Ret None /\ exists l c, M !! (T_attestation_ctx, ctx) = Some (Some (l, o_attestation_ctx c))
  end.

Lemma runs_strictly H w M (m : api (option Error)) (Q : _ -> _ -> _ -> _ -> Prop) :
  runs H w M m (fun o => Q (match o with Ret None => Ret tt | Ret (Some e) => Err e | Err e => Err e | Throw x => Throw x | UB => UB end)) ->
  runs H w M (strictly m) Q.
Proof.
  intros Hm st Hst. destruct (Hm st Hst) as (H' & w' & M' & Hs' & Hq). exists H', w', M'. unfold strictly.
  destruct (m st) as [[[]|e|x|] st']; cbn in *; by auto.
Qed.

Lemma minimal_show_runs lc c l1 text l2 cs H w M (Q : _ -> _ -> _ -> _ -> Prop) :
  M !! (T_attestation_ctx, ctx) = Some (Some (lc, o_attestation_ctx c)) ->
  M !! (T_str, detached_eat) = Some (Some (l1, o_str text)) ->
  M !! (T_claims_collection, claims) = Some (Some (l2, o_claims_collection cs)) -> M !! (T_str, json_str) = Some None ->
  (forall k, k <> (T_attestation_ctx, ctx) -> k <> (T_str, detached_eat) -> k <> (T_claims_collection, claims) -> spare M k) ->
  match Collection.serialize_json Eat.json_dump cs with
  | Ret t => forall M', (forall k, spare M' k) -> Q (Ret (t, text)) H w M'
  | _ => Q UB H w M
  end -> runs H w M minimal_show Q.
Proof.
  intros Hc Hd Hcl Hj Ho Hq. unfold minimal_show. apply runs_bind, runs_orelse. eapply claims_text_runs; [exact Hcl|by apply spare_null|].
  destruct (serialized cs) as [[t E]|E]; rewrite E in *.
  - intros lj. apply runs_ret. tidy. apply runs_bind, runs_orelse. eapply str_data_runs; [apply lookup_insert_eq|]. apply runs_ret. tidy.
    apply runs_bind, runs_orelse. eapply str_data_runs; [by rewrite lookup_insert_ne; first exact Hd|]. apply runs_ret. tidy.
    apply runs_bind. eapply runs_free; [apply lookup_insert_eq|]. tidy.
    apply runs_bind. eapply runs_free; [by rewrite lookup_insert_ne; first exact Hcl|]. tidy.
    apply runs_bind. eapply runs_free; [by rewrite !lookup_insert_ne; first exact Hd|]. tidy.
    apply runs_bind. eapply ctx_free_runs; [by rewrite !lookup_insert_ne; first exact Hc|]. tidy. apply runs_ret, Hq.
    intros k l o. rewrite !lookup_insert. repeat (case_decide; [done|]). by apply Ho.
  - apply runs_ret. tidy. apply runs_bind, runs_orelse. apply runs_c_call, runs_bind. eapply runs_arg; [exact Hj|]. tidy.
    unfold nvat_str_get_data. apply runs_lift. tidy. by apply runs_lift.
Qed.

Lemma minimal_calls_runs H w : runs H w ∅ minimal_calls (minimal_done H w).
Proof.
  unfold minimal_calls, minimal_vars.
  apply runs_bind, runs_bind, runs_null; [apply spare_none, lookup_empty|]. tidy.
  apply runs_bind, runs_null; [apply spare_none; by rewrite lookup_insert_ne|]. tidy.
  apply runs_bind, runs_null; [apply spare_none; by rewrite !lookup_insert_ne|]. tidy.
  apply runs_null; [apply spare_none; by rewrite !lookup_insert_ne|]. tidy.
  apply runs_bind, runs_orelse, runs_c_call. unfold nvat_attestation_ctx_create. given.
  apply runs_emit; [apply spare_null; rewrite !lookup_insert_ne by done; apply lookup_insert_eq|]. intros lc _. tidy. apply runs_ret. tidy.
  set (M1 := <[_ := _]> (<[_ := _]> _)).
  assert (M1 !! (T_attestation_ctx, ctx) = Some (Some (lc, o_attestation_ctx Attestation.new_context))) as Hc1 by apply lookup_insert_eq.
  assert (M1 !! (T_claims_collection, claims) = Some None) as Hcl by (unfold M1; rewrite !lookup_insert; repeat case_decide; done).
  assert (M1 !! (T_str, detached_eat) = Some None) as Hstr by (unfold M1; rewrite !lookup_insert; repeat case_decide; done).
  assert (M1 !! (T_str, json_str) = Some None) as Hj by (unfold M1; rewrite !lookup_insert; repeat case_decide; done).
  assert (forall k, k <> (T_attestation_ctx, ctx) -> spare M1 k) as Ho1.
  { intros k Hk l o. unfold M1. rewrite !lookup_insert. repeat (case_decide; [done|]). by rewrite lookup_empty. }
  clearbody M1. apply runs_orelse, runs_strictly. eapply Cli.runs_with_ctx; [exact Hc1|].
  eapply Cli.attest_call_runs; [exact Hc1|by left|exact Hcl|exact Hstr|]. intros o s E. cbv zeta.
  unfold minimal_done, attested. rewrite E. destruct o as [[text [e|]]|e|x|].
  - intros l1 l2. tidy. apply runs_ret. split; [done|]. exists lc, (Attestation.context s).
    rewrite !lookup_insert_ne by done. apply lookup_insert_eq.
  - intros l1 l2. tidy. apply runs_bind. eapply (minimal_show_runs lc (Attestation.context s) l1 _ l2 (Attestation.claims s)).
    + rewrite !lookup_insert_ne by done. apply lookup_insert_eq.
    + apply lookup_insert_eq.
    + rewrite lookup_insert_ne by done. apply lookup_insert_eq.
    + by rewrite !lookup_insert_ne.
    + intros k H1 H2 H3 l o'. rewrite !lookup_insert_ne by done. by apply Ho1.
    + destruct (serialized (Attestation.claims s)) as [[t Et]|Et]; rewrite Et; [|done]. intros M' Hm. tidy. by apply runs_ret.
  - intros H' Hl. tidy. apply runs_ret. split; [done|]. eexists _, _. apply lookup_insert_eq.
  - intros H' Hl. tidy. apply runs_ret. split; [done|]. eexists _, _. apply lookup_insert_eq.
  - intros H'. by tidy.
Qed.

(** The library with a logger of its own. *)
Lemma init_lib_default n q (l : lib) :
  Sdk.stderr_color_mt "nvat" = true -> xml_ready = true ->
  Loggers.sdk_of l = Sdk.new_sdk n q -> Loggers.handles l !! 1%nat = Some (Loggers.o_sdk_opts 0) ->
  Loggers.options l !! 0%nat = Some None ->
  exists l', Loggers.nvat_sdk_init version (Some 1%nat) l = (Ret tt, l') /\ up (Loggers.handles l) l'.
Proof.
  intros Hn Hx Hs Hh Ho. unfold Loggers.nvat_sdk_init, Loggers.api_end, sbind, Loggers.deref, Loggers.init_with. rewrite Hh. cbn -[Sdk.handle_init_xmlsec].
  rewrite Ho, Hs. cbn -[Sdk.handle_init_xmlsec]. unfold Sdk.init, Sdk.init_body, sbind, Sdk.handle_init_logger, Sdk.set_logger. cbn -[Sdk.handle_init_xmlsec].
  rewrite Hn. cbn -[Sdk.handle_init_xmlsec].
  match goal with |- context [Sdk.handle_init_xmlsec ?s] => destruct (xml_init s) as [cs E]; [done|] end.
  rewrite E. unfold init_result. rewrite Hx. cbn.
  unfold Loggers.LOG, Loggers.with_events. cbn. eexists. split; [done|]. by split.
Qed.

Lemma sbind_eq {S A B : Type} (m : sm S Error A) (k : A -> sm S Error B) s a s' :
  m s = (Ret a, s') -> sbind m k s = k a s'.
Proof. intros E. unfold sbind. by rewrite E. Qed.

Lemma sbind_eq2 {S A B C : Type} (m : sm S Error A) (m' : sm S Error B) (k : B -> sm S Error C) s b s' :
  (do* _ := m in m') s = (Ret b, s') -> (do* _ := m in do* b := m' in k b) s = k b s'.
Proof. unfold sbind. destruct (m s) as [[a|e|x|] s1]; [|done..]. by intros ->. Qed.

Lemma free_opts_spec l g a :
  up (<[1%nat := Loggers.o_sdk_opts 0]> ∅) l ->
  exists l', sdk_opts_free (mk_program l (Some (Some 1%nat)) g a) = (Ret tt, mk_program l' (Some None) g a) /\ up ∅ l'.
Proof.
  intros [Hh Hs Hl Ho].
  unfold sdk_opts_free, Loggers.nvat_sdk_opts_free, Loggers.free_handle, Loggers.deref, sbind, get_opts, on_lib, put_opts.
  cbn. rewrite Hh. cbn. eexists. split; [done|]. by split.
Qed.

(** attest-minimal in two parts: the library, and the calls on it. *)
Lemma minimal_program n q a :
  Sdk.stderr_color_mt "nvat" = true -> xml_ready = true ->
  exists l, up (<[1%nat := Loggers.o_sdk_opts 0]> ∅) l /\
    match minimal_calls a with
    | (Ret (Some (claims_data, detached_eat_data)), a') =>
        exists l', attest_minimal (start n q a) =
          (Ret (0, ["Claims: "; c_str claims_data; "Detached EAT: "; c_str detached_eat_data]), mk_program l' (Some None) None a') /\
          Loggers.handles l' = ∅
    | (Ret None, a') => attest_minimal (start n q a) = (Ret (1, []), mk_program l (Some (Some 1%nat)) None a')
    | (UB, _) => (attest_minimal (start n q a)).1 = UB
    | _ => True
    end.
Proof.
  intros Hn Hx.
  edestruct (init_lib_default n q (Loggers.mk_lib (Sdk.new_sdk n q) (<[0%nat := None]> ∅) (<[1%nat := Loggers.o_sdk_opts 0]> ∅) 2 None []) Hn Hx)
    as (l & Hinit & Hup); [reflexivity..|]. exists l. split; [done|].
  assert (forall o g a, (do* _ := ignoring sdk_opts_create in ignoring sdk_init) (mk_program (Loggers.new_lib n q) o g a) =
    (Ret tt, mk_program l (Some (Some 1%nat)) g a)) as Hsdk.
  { intros o g a'. unfold sdk_init, sbind, ignoring, orelse, get_opts, on_lib. cbn -[Loggers.nvat_sdk_init]. by rewrite Hinit. }
  assert (exists a0, minimal_vars a = (Ret tt, a0)) as [a0 Hv] by by eexists.
  assert (attest_minimal (start n q a) =
    (do* _ := on_api (ignoring (c_call (nvat_attestation_ctx_create (Some ctx)))) in
     orelse (on_api (strictly attest_device)) (fun _ => sret (1, [])) (fun _ =>
     do* (claims_data, detached_eat_data) := on_api minimal_show in
     do* _ := sdk_opts_free in
     do* _ := sdk_shutdown in
     sret (0, ["Claims: "; c_str claims_data; "Detached EAT: "; c_str detached_eat_data])))
    (mk_program l (Some (Some 1%nat)) None a0)) as ->.
  { unfold attest_minimal. etrans; [by eapply sbind_eq|]. etrans; [eapply sbind_eq, handles_api_eq, Hv|]. exact (sbind_eq2 (ignoring sdk_opts_create) (ignoring sdk_init) _ _ _ _ (Hsdk (Some None) None a0)). }
  unfold minimal_calls. rewrite (sbind_eq _ _ _ _ _ Hv).
  destruct (ignoring (c_call (nvat_attestation_ctx_create (Some ctx))) a0) as [r1 a1] eqn:E1.
  assert (r1 = Ret tt) as -> by by (revert E1; unfold ignoring, orelse; intros [= <- _]).
  rewrite (sbind_eq _ _ _ _ _ E1), (sbind_eq _ _ _ _ _ (handles_api_eq _ _ _ _ _ _ _ E1)).
  destruct (strictly attest_device a1) as [r2 a2] eqn:E2. unfold orelse. rewrite E2, (handles_api_eq _ _ _ _ _ _ _ E2).
  destruct r2 as [[]|e|x|]; try done.
  destruct (minimal_show a2) as [r3 a3] eqn:E3.
  destruct r3 as [[claims_data data]|e|x|]; [|unfold sbind; rewrite E3, ?(handles_api_eq _ _ _ _ _ _ _ E3); done..].
  rewrite (sbind_eq _ _ _ _ _ E3), (sbind_eq _ _ _ _ _ (handles_api_eq _ _ _ _ _ _ _ E3)). cbn [sret].
  destruct (free_opts_spec l None a3 Hup) as (l1 & Hf & Hup1). rewrite (sbind_eq _ _ _ _ _ Hf).
  destruct (sdk_shutdown_spec l1 (Some None) None a3 Hup1) as (l2 & Hs & Hh). rewrite (sbind_eq _ _ _ _ _ Hs). by exists l2.
Qed.

(** P: attest-minimal, when the SDK can be initialized: it makes one attestation
    with the default context.  It exits with 0 exactly when that is good and
    the claims have a text, prints both texts and frees everything; when the
    claims have none it prints a null pointer.  In every other case it exits
    with 1 and frees nothing: the context is still in the heap, the options are
    still there, and the library is not shut down. *)
Theorem attest_minimal_spec n q a :
  Sdk.stderr_color_mt "nvat" = true -> xml_ready = true -> heap a = ∅ ->
  let '(r, s) := attested Attestation.new_context (world_of a) in
  let '(o, g) := attest_minimal (start n q a) in
  match r with
  | UB => o = UB
  | Ret (text, None) =>
      match Collection.serialize_json Eat.json_dump (Attestation.claims s) with
      | Ret t => o = Ret (0, ["Claims: "; c_str t; "Detached EAT: "; c_str (default "" text)]) /\
          Loggers.handles (p_lib g) = ∅ /\ heap (p_api g) = ∅
      | _ => o = UB
      end
  | _ => o = Ret (1, []) /\ Loggers.handles (p_lib g) = <[1%nat := Loggers.o_sdk_opts 0]> ∅ /\
      Sdk.g_sdkOptions (Loggers.sdk_of (p_lib g)) <> None /\
      exists l c, slots (p_api g) !! (T_attestation_ctx, ctx) = Some (Some l) /\ heap (p_api g) !! l = Some (o_attestation_ctx c)
  end.
Proof.
  intros Hn Hx Ha. destruct (minimal_program n q a Hn Hx) as (l & Hup & Hprog).
  destruct (minimal_calls_runs (heap a) (world_of a) a) as (H' & w' & M' & Hs & Hd).
  { apply scope_start. rewrite Ha. intros l0 [x Hl0]. by rewrite lookup_empty in Hl0. }
  unfold minimal_done in Hd. destruct (attested Attestation.new_context (world_of a)) as [r s].
  destruct (minimal_calls a) as [o1 a1]. cbn [fst snd] in Hs, Hd.
  assert (forall lc c, M' !! (T_attestation_ctx, ctx) = Some (Some (lc, o_attestation_ctx c)) -> o1 <> UB ->
    slots a1 !! (T_attestation_ctx, ctx) = Some (Some lc) /\ heap a1 !! lc = Some (o_attestation_ctx c)) as Hctx.
  { intros lc c Hm Hu. specialize (Hs Hu). split; [by apply (sc_slot _ _ _ _ Hs _ _ Hm)|by apply (sc_heap _ _ _ _ Hs) in Hm as [? _]]. }
  destruct r as [[text [e|]]|e|x|].
  2: { destruct (Collection.serialize_json _ _) as [t|e|x|].
       2-4: subst o1; destruct (attest_minimal _); exact Hprog.
       destruct Hd as (-> & -> & Hm). destruct Hprog as (l' & -> & Hh). split_and!; [done..|].
       specialize (Hs ltac:(done)). cbn. rewrite (scope_end _ _ _ _ Hs); [done|]. intros k. apply Hm. }
  4: { subst o1. destruct (attest_minimal _). exact Hprog. }
  all: destruct Hd as (-> & lc & c & Hm); rewrite Hprog; destruct (Hctx lc c Hm ltac:(done)); split_and!; [done|apply Hup|apply Hup|by exists lc, c].
Qed.

End examples.

(** *** A machine with one GPU

    The GPU of Attestation behind NVML, over the nonce it reports; a RIM service
    that answers with the identifier it was asked for, which the parser takes
    for the answer about that RIM; and an OCSP service with a good status for
    both certificates. *)

Definition toy_rim_answer (rim_id : string) : option json :=
  if String.prefix "NV_GPU" rim_id then
    match Base64.encode_base64 (B64:=Base64.toy_base64)
            (bytes_of_string (if String.prefix "NV_GPU_DRIVER" rim_id then "10a0b" else "000")) with
    | Ret text => Some (jobject [("id", JString rim_id); ("rim", JString text); ("request_id", JString "1"); ("sha256", JString "0")])
    | _ => None
    end
  else None.

Definition toy_served : Eat.Env := {|
  Eat.now := Eat.now (Env:=toy_env);
  Eat.RAND_bytes := Eat.RAND_bytes (Env:=toy_env);
  Eat.sha256 := Eat.sha256 (Env:=toy_env);
  Eat.sign_none := Eat.sign_none (Env:=toy_env);
  Eat.sign_es384 := Eat.sign_es384 (Env:=toy_env);
  Eat.json_dump := Eat.json_dump (Env:=toy_env);
  Eat.json_parse := fun text =>
    match toy_rim_answer text with Some j => Some j | None => Eat.json_parse (Env:=toy_env) text end;
  Eat.rego := Eat.rego (Env:=toy_env);
  Eat.overall_result_policy := Eat.overall_result_policy (Env:=toy_env);
|}.

Definition toy_machine : Attestation.World := {|
  Attestation.rim_network := fun _ =>
    {| Http.curl_easy_perform := fun _ r =>
         (0, 200, String.substring (String.length (Rim.DEFAULT_BASE_URL +:+ "/v1/rim/")) 1000 (Http.c_url r));
       Http.jitter := fun _ b => b |};
  Attestation.ocsp_network := fun _ =>
    {| Http.curl_easy_perform := fun _ _ => (0, 200, string_of_bytes [20; 70]); Http.jitter := fun _ b => b |};
  Attestation.nras_network := fun _ => Http.toy_curl;
  Attestation.jwks_network := fun _ => Http.toy_curl;
  Attestation.NVAT_VERSION_STRING := "1.0";
  Attestation.RAND_bytes := fun n => Some (replicate (Z.to_nat n) 9);
  Attestation.cache_clock := fun _ _ => 1500;
  Attestation.path_exists := fun _ => false;
  Attestation.path_is_directory := fun _ => false;
  Attestation.read_file := fun _ => None;
  Attestation.collect_evidence_nvml := fun _ => Ret [Attestation.toy_evidence];
  Attestation.collect_evidence_corelib := fun _ _ => Err CorelibInitFailed;
  Attestation.collect_evidence_nscq := fun _ => Err NscqInitFailed;
|}.

#[local] Instance toy_no_rims : Rim.IRimStore (XML:=Attestation.toy_xml) (unit * unit) := fun s _ => (Err RimNotFound, s).
#[local] Instance toy_no_ocsp : IOcspHttpClient (H:=toy_openssl_bytes) (unit * unit) :=
  fun s _ _ _ _ => (Err OcspServerError, s).

Abbreviation toy_program := (start (NV:=Nvml.toy_nvml) (NQ:=Nscq.toy_nscq) 0%nat [] toy_start).

Abbreviation toy_none := (attest_policy_none (OSSL:=toy_openssl_bytes) (XML:=Attestation.toy_xml) (env:=toy_served) (B64:=Base64.toy_base64)
  (L:=Jwt.toy_jwt) (P:=Attestation.toy_platform) (W:=toy_machine) (XS:=Sdk.toy_xmlsec) (NV:=Nvml.toy_nvml) (NQ:=Nscq.toy_nscq)
  (SL:=Loggers.toy_spdlog) (U:=unit) (WU:=unit) (V:=unit) (WV:=unit) (fun _ => 1500) (fun _ => 1500) "1" toy_program).

Abbreviation toy_lines := ["Attestation successful."; "Detached EAT: token"; "Claims: good"].

Lemma toy_none_good : toy_none = (Ret (0, toy_lines), toy_none.2).
Proof. apply Attestation.run_pair. vm_compute. reflexivity. Qed.

Lemma toy_served_rego : Attestation.rego_documented (env:=toy_served).
Proof.
  intros cs b. unfold Attestation.evaluate, RegoClaimsEvaluator.evaluate_claims, Collection.serialize_json. cbn.
  unfold Collection.to_json. destruct cs as [|[g|g] cs]; cbn [fmap list_fmap Collection.to_json_object];
    [by intros [= <-]|unfold GpuClaims.to_json, SwitchClaims.to_json, jobject..];
    by destruct (Policy.nv_match _); intros [= <-].
Qed.

Lemma attest_policy_none_sound_witness :
  exists cs, cs <> [] /\ Forall Policy.device_good cs.
Proof.
  destruct (attest_policy_none_sound (OSSL:=toy_openssl_bytes) (XML:=Attestation.toy_xml) (env:=toy_served) (B64:=Base64.toy_base64)
    (L:=Jwt.toy_jwt) (P:=Attestation.toy_platform) (W:=toy_machine) (XS:=Sdk.toy_xmlsec) (NV:=Nvml.toy_nvml) (NQ:=Nscq.toy_nscq)
    (SL:=Loggers.toy_spdlog) (U:=unit) (WU:=unit) (V:=unit) (WV:=unit) (fun _ => 1500) (fun _ => 1500) "1" 0%nat [] toy_start
    toy_lines toy_none.2) as (nonce & evidence & cs & text & _ & _ & Hne & _ & _ & Hgood & _).
  - exact toy_served_rego.
  - reflexivity.
  - reflexivity.
  - exact toy_none_good.
  - exists cs. exact (conj Hne Hgood).
Defined.

Abbreviation toy_attested := (attested (OSSL:=toy_openssl_bytes) (XML:=Attestation.toy_xml) (env:=toy_served) (B64:=Base64.toy_base64)
  (L:=Jwt.toy_jwt) (P:=Attestation.toy_platform) (W:=toy_machine) (U:=unit) (WU:=unit) (V:=unit) (WV:=unit) (fun _ => 1500)
  (fun _ => 1500) (helper_context (P:=Attestation.toy_platform) PolicyNone) (world_of toy_start)).

Lemma toy_attested_good : toy_attested = (Ret (Some "token", None), toy_attested.2).
Proof. apply Attestation.run_pair. vm_compute. reflexivity. Qed.

Lemma helper_programs_witness :
  Loggers.handles (p_lib toy_none.2) = ∅ /\ Cli.leaked (OSSL:=toy_openssl_bytes) ∅ [] (heap (p_api toy_none.2)).
Proof.
  pose proof (helper_programs (OSSL:=toy_openssl_bytes) (XML:=Attestation.toy_xml) (env:=toy_served) (B64:=Base64.toy_base64)
    (L:=Jwt.toy_jwt) (P:=Attestation.toy_platform) (W:=toy_machine) (XS:=Sdk.toy_xmlsec) (NV:=Nvml.toy_nvml) (NQ:=Nscq.toy_nscq)
    (SL:=Loggers.toy_spdlog) (U:=unit) (WU:=unit) (V:=unit) (WV:=unit) (fun _ => 1500) (fun _ => 1500) "1" PolicyNone 0%nat [] toy_start
    eq_refl eq_refl) as H.
  rewrite toy_attested_good in H. unfold helper_program in H. rewrite toy_none_good in H.
  destruct H as (_ & Hh & Hl & _). exact (conj Hh Hl).
Defined.

Abbreviation toy_remote := (attested (OSSL:=toy_openssl_bytes) (XML:=Attestation.toy_xml) (env:=toy_served) (B64:=Base64.toy_base64)
  (L:=Jwt.toy_jwt) (P:=Attestation.toy_platform) (W:=toy_machine) (U:=unit) (WU:=unit) (V:=unit) (WV:=unit) (fun _ => 1500)
  (fun _ => 1500) (Attestation.new_context (P:=Attestation.toy_platform)) (world_of toy_start)).

Lemma toy_remote_fails : toy_remote = (Err InternalError, toy_remote.2).
Proof. apply Attestation.run_pair. vm_compute. reflexivity. Qed.

(** Nobody answers the remote verifier: the program leaves its context. *)
Lemma attest_minimal_spec_witness :
  Loggers.handles (p_lib (attest_minimal (OSSL:=toy_openssl_bytes) (XML:=Attestation.toy_xml) (env:=toy_served) (B64:=Base64.toy_base64)
    (L:=Jwt.toy_jwt) (P:=Attestation.toy_platform) (W:=toy_machine) (XS:=Sdk.toy_xmlsec) (NV:=Nvml.toy_nvml) (NQ:=Nscq.toy_nscq)
    (SL:=Loggers.toy_spdlog) (U:=unit) (WU:=unit) (V:=unit) (WV:=unit) (fun _ => 1500) (fun _ => 1500) "1" toy_program).2)
  = <[1%nat := Loggers.o_sdk_opts 0]> ∅.
Proof.
  pose proof (attest_minimal_spec (OSSL:=toy_openssl_bytes) (XML:=Attestation.toy_xml) (env:=toy_served) (B64:=Base64.toy_base64)
    (L:=Jwt.toy_jwt) (P:=Attestation.toy_platform) (W:=toy_machine) (XS:=Sdk.toy_xmlsec) (NV:=Nvml.toy_nvml) (NQ:=Nscq.toy_nscq)
    (SL:=Loggers.toy_spdlog) (U:=unit) (WU:=unit) (V:=unit) (WV:=unit) (fun _ => 1500) (fun _ => 1500) "1" 0%nat [] toy_start
    eq_refl eq_refl eq_refl) as H.
  rewrite toy_remote_fails in H. destruct (attest_minimal _ _ _ _). exact (proj1 (proj2 H)).
Defined.

(** A machine without a working libxmlsec1. *)
Definition toy_broken_xml : Sdk.XmlSec := {|
  Sdk.xmlSecInit_rc := -1;
  Sdk.xmlSecCheckVersion_rc := 1;
  Sdk.xmlSecCryptoAppInit_rc := 0;
  Sdk.xmlSecCryptoInit_rc := 0;
  Sdk.stderr_color_mt _ := true;
|}.

Lemma attest_main_uninitialized_witness :
  (attest_main (OSSL:=toy_openssl_bytes) (XML:=Attestation.toy_xml) (env:=toy_served) (B64:=Base64.toy_base64)
    (L:=Jwt.toy_jwt) (P:=Attestation.toy_platform) (W:=toy_machine) (XS:=toy_broken_xml) (NV:=Nvml.toy_nvml) (NQ:=Nscq.toy_nscq)
    (SL:=Loggers.toy_spdlog) (U:=unit) (WU:=unit) (V:=unit) (WV:=unit) (fun _ => 1500) (fun _ => 1500) "1" toy_program).1 = UB.
Proof. apply attest_main_uninitialized; reflexivity. Defined.

End Examples.
