(* ===== verification/EvidenceExamples.v ===== *)
(** * EvidenceExamples: the examples that collect and verify step by step

    examples/collect-gpu-evidence and examples/json-gpu-evidence: the evidence
    of the GPUs, from NVML over a new nonce or from a file over a nonce written
    in the program, verified by a local verifier that the program puts
    together.  Each keeps all its handles in one structure, which [teardown]
    frees. *)

From S2P Require Import Prelude Errors Utils OpenSsl StatusBundle NvCache Ocsp X509Chain Json Claims Evaluator DetachedEat.
From S2P Require Import Http Jwt Certs Base64 Rim Report GpuEvidence SwitchEvidence Verify GpuVerify SwitchVerify.
From S2P Require Import Driver NvmlClient NscqClient Sdk Loggers Attestation Nvat Locals CliOptions CliOutput Cli CliCollect Examples.

Module EvidenceExamples.
Import Nvat Locals Examples.

Section programs.
Context `{OSSL : OpenSSL} `{XML : LibXml2} `{env : Eat.Env} `{B64 : Base64Lib} `{L : JwtLib}.
Context `{P : Http.Platform} `{W : Attestation.World}.
Context {U WU V WV : Type} `{RS : !Rim.IRimStore (U * WU)} `{OC : !IOcspHttpClient (V * WV)}.
Context `{XS : Sdk.XmlSec} `{DL : DynamicLinker} `{NV : Nvml.NvmlLib} `{NQ : Nscq.NscqLib} `{SL : SpdLog}.
Context (clock clock_ms : nat -> Z) (version : string).

Abbreviation capi := (Nvat.capi (U:=U) (WU:=WU) (V:=V) (WV:=WV)).
Abbreviation api := (sm capi Error).
Abbreviation program := (program (U:=U) (WU:=WU) (V:=V) (WV:=WV)).
Abbreviation prog := (sm program Error).

(** ** The structure of the handles *)

Definition evidence_source : nat := 0.
Definition nonce : nat := 0.
Definition evidence_collection : nat := 0.
Definition verifier : nat := 0.
Definition evidence_policy : nat := 0.
Definition claims : nat := 0.
Definition ocsp_client : nat := 0.
Definition rim_store : nat := 0.
Definition evidence_str : nat := 0.
Definition nonce_str : nat := 1.
Definition claims_str : nat := 2.
Definition detached_eat_str : nat := 3.

(** [context_t ctx = {0}]. *)
Definition null_handles : api unit :=
  do* _ := write T_gpu_evidence_source (Some evidence_source) None in
  do* _ := write T_nonce (Some nonce) None in
  do* _ := write T_str (Some nonce_str) None in
  do* _ := write T_gpu_evidence_array (Some evidence_collection) None in
  do* _ := write T_str (Some evidence_str) None in
  do* _ := write T_gpu_verifier (Some verifier) None in
  do* _ := write T_evidence_policy (Some evidence_policy) None in
  do* _ := write T_claims_collection (Some claims) None in
  do* _ := write T_str (Some claims_str) None in
  do* _ := write T_ocsp_client (Some ocsp_client) None in
  do* _ := write T_rim_store (Some rim_store) None in
  write T_str (Some detached_eat_str) None.

Definition null_context : prog unit :=
  do* _ := put_opts None in do* _ := put_logger None in on_api null_handles.

(** What [teardown] frees of the C interface; none of the strings. *)
Definition teardown_calls (num_evidences : nat) : api unit :=
  do* _ := free T_gpu_evidence_source (Some evidence_source) in
  do* _ := free T_nonce (Some nonce) in
  do* _ := array_free T_gpu_evidence_array to_gpu_array T_gpu_evidence (Some evidence_collection) num_evidences in
  do* _ := free T_gpu_verifier (Some verifier) in
  do* _ := free T_claims_collection (Some claims) in
  do* _ := free T_evidence_policy (Some evidence_policy) in
  do* _ := free T_rim_store (Some rim_store) in
  free T_ocsp_client (Some ocsp_client).

Definition teardown (num_evidences : nat) : prog unit :=
  do* _ := sdk_opts_free in
  do* _ := logger_free in
  do* _ := on_api (teardown_calls num_evidences) in
  sdk_shutdown.

(** ** The two sources *)

Inductive source_kind : Type :=
| FromNvml
| FromJsonFile (json_file_path : string).

Definition logger_name (k : source_kind) : string :=
  match k with FromNvml => "nvat_collect_evidence" | FromJsonFile _ => "nvat_json_evidence" end.

Definition create_source (k : source_kind) : api unit :=
  c_call (match k with
          | FromNvml => nvat_gpu_evidence_source_nvml_create (Some evidence_source)
          | FromJsonFile path => nvat_gpu_evidence_source_from_json_file (Some evidence_source) (Some path)
          end).

(** [get_nonce_from_evidence]: whatever the file. *)
Definition get_nonce_from_evidence (file_path : string) : string :=
  "e97b23a1718095a0e9e35edca810768c70a6a5a389b705e753b197912bc11576".

Definition create_nonce (k : source_kind) : api unit :=
  c_call (match k with
          | FromNvml => nvat_nonce_create (Some nonce) 32
          | FromJsonFile path => nvat_nonce_from_hex (Some nonce) (Some (get_nonce_from_evidence path))
          end).

(** ** attest *)

(** Step 2: the source and the nonce, whose text goes to the standard error. *)
Definition set_up (k : source_kind) : api unit :=
  do* _ := create_source k in
  do* _ := create_nonce k in
  do* _ := c_call (do* n := arg T_nonce (Some nonce) in nvat_nonce_to_hex_string n (Some nonce_str)) in
  do* _ := str_data nonce_str in
  sret tt.

(** Step 3. *)
Definition collect : api Z :=
  c_call (do* s := arg T_gpu_evidence_source (Some evidence_source) in do* n := arg T_nonce (Some nonce) in
          nvat_gpu_evidence_collect s n (Some evidence_collection) true).

Definition evidence_text (num_evidences : nat) : api string :=
  do* _ := c_call (do* a := arg T_gpu_evidence_array (Some evidence_collection) in
                   nvat_gpu_evidence_serialize_json a num_evidences (Some evidence_str)) in
  str_data evidence_str.

(** Step 4; the local verifier is in a variable of its own until it is
    upcast. *)
Definition local_verifier : nat := 1.

Definition make_verifier : api unit :=
  do* _ := c_call (nvat_rim_store_create_remote (Some rim_store) None None None) in
  do* _ := c_call (nvat_ocsp_client_create_default (Some ocsp_client) None None None) in
  do* _ := c_call (do* s := arg T_rim_store (Some rim_store) in do* c := arg T_ocsp_client (Some ocsp_client) in
                   nvat_gpu_local_verifier_create (Some local_verifier) s c None) in
  do* v := arg T_gpu_verifier (Some local_verifier) in
  do* _ := write T_gpu_verifier (Some verifier) v in
  c_call (nvat_evidence_policy_create_default (Some evidence_policy)).

(** Step 5. *)
Definition verify (num_evidences : nat) : api unit :=
  strictly (c_call (do* v := arg T_gpu_verifier (Some verifier) in
    do* a := arg T_gpu_evidence_array (Some evidence_collection) in
    do* p := arg T_evidence_policy (Some evidence_policy) in
    nvat_verify_gpu_evidence clock clock_ms v a num_evidences p (Some detached_eat_str) (Some claims))).

Definition claims_data : api string :=
  do* _ := c_call (do* cs := arg T_claims_collection (Some claims) in
                   nvat_claims_collection_serialize_json cs (Some claims_str)) in
  str_data claims_str.

(** Steps 2 to 5: the number of the pieces of evidence, the lines that are
    printed on the standard output, and the code. *)
Definition evidence_calls (k : source_kind) : api (nat * list string * option Error) :=
  orelse (set_up k) (fun e => sret (0%nat, [], Some e)) (fun _ =>
  orelse collect (fun e => sret (0%nat, [], Some e)) (fun num_evidences =>
  let num_evidences := Z.to_nat num_evidences in
  orelse (evidence_text num_evidences) (fun e => sret (num_evidences, [], Some e)) (fun buf =>
  let lines := ["gpu evidence: " +:+ c_str buf] in
  orelse (do* _ := make_verifier in do* _ := verify num_evidences in claims_data)
    (fun e => sret (num_evidences, lines, Some e)) (fun buf =>
  let lines := lines ++ ["claims: " +:+ c_str buf] in
  orelse (str_data detached_eat_str) (fun e => sret (num_evidences, lines, Some e)) (fun buf =>
  sret (num_evidences, lines ++ ["detached eat: " +:+ c_str buf], None)))))).

Definition start_sdk (k : source_kind) : prog unit :=
  do* _ := sdk_opts_create in
  do* _ := logger_spdlog_create (logger_name k) (Sdk.log_level_to_c Sdk.ERROR) in
  do* _ := ignoring sdk_opts_set_logger in
  sdk_init version.

Definition attest (k : source_kind) : prog (list string * option Error) :=
  do* _ := null_context in
  orelse (start_sdk k) (fun e => do* _ := teardown 0 in sret ([], Some e)) (fun _ =>
  do* (num_evidences, lines, err) := on_api (evidence_calls k) in
  do* _ := teardown num_evidences in
  sret (lines, err)).

Definition main (k : source_kind) : prog (Z * list string) :=
  do* (lines, rc) := attest k in
  sret (if bool_decide (rc = None) then 0 else 1, lines).

(** json-gpu-evidence takes the file from its arguments, the program's name
    among them. *)
Definition DEFAULT_EVIDENCE_FILE : string := "../common-test-data/serialized_test_evidence/hopper_evidence.json".

Definition json_main (argv : list string) : prog (Z * list string) :=
  main (FromJsonFile (match argv with [_; evidence_file] => evidence_file | _ => DEFAULT_EVIDENCE_FILE end)).

(** ** What the calls come to *)

Abbreviation object := (Nvat.object (U:=U) (V:=V)).
Abbreviation world := ((Attestation.shared string * WU) * (Attestation.shared NvOcspResponse * WV) * nat)%type.
Abbreviation locals := (gmap (ctype * nat) (option (nat * object))).

Implicit Types (H : gmap nat object) (w : world) (M : locals) (ss : list (nat * string)).

(** What is printed and returned, the strings that are made, and the world. *)
Record result : Type := mk_result {
  r_lines : list string;
  r_code : option Error;
  r_strings : list (nat * string);
  r_world : world;
}.

Definition source_of (k : source_kind) : outcome Error Attestation.gpu_source :=
  match k with
  | FromNvml => Ret Attestation.NvmlEvidenceCollector
  | FromJsonFile path =>
      let* es := GpuEvidence.file_source_create Eat.json_parse Attestation.read_file path in
      Ret (Attestation.GpuEvidenceFromJson es)
  end.

Definition nonce_of (k : source_kind) : outcome Error (list Z) :=
  match k with
  | FromNvml => generate_nonce Attestation.RAND_bytes 32
  | FromJsonFile path => nonce_of_hex (get_nonce_from_evidence path)
  end.

(** The program's verifier. *)
Definition verifier_of : Attestation.verifier (U:=U) (V:=V) :=
  Attestation.LocalVerifier (Attestation.make_rim_store "" "" Http.HttpOptions_default)
    (Attestation.make_ocsp_client "" "" Http.HttpOptions_default) (Eat.mk_options "" "NVAT-LOCAL-VERIFIER" "").

(** A call that may be undefined behaviour ([None]) or fail. *)
Definition stage {A : Type} (o : outcome Error A) (failed : Error -> result) (k : A -> option result) : option result :=
  match o with
  | Ret a => k a
  | Err e => Some (failed e)
  | Throw _ => Some (failed InternalError)
  | UB => None
  end.

Definition verified w (es : list GpuEvidence.GpuEvidence) :=
  Attestation.gpu_verify clock clock_ms verifier_of es Rim.EvidencePolicy_default true
    (Attestation.mk_state (Attestation.with_gpu_verifier Attestation.new_context verifier_of) w.1.1 w.1.2 w.2 []).

(** From the verification, and from the collection, on. *)
Definition from_verification lines ss w (es : list GpuEvidence.GpuEvidence) : option result :=
  let '(o, s) := verified w es in
  let w := (Attestation.rim_world s, Attestation.ocsp_world s, Attestation.nras_requests s) in
  stage o (fun e => mk_result lines (Some e) ss w) (fun '(token, status) =>
  let ss := ss ++ [(detached_eat_str, default "" token)] in
  match status with
  | Some e => Some (mk_result lines (Some e) ss w)
  | None =>
      stage (Collection.serialize_json Eat.json_dump (Attestation.claims s)) (fun e => mk_result lines (Some e) ss w) (fun buf =>
      Some (mk_result (lines ++ ["claims: " +:+ c_str buf; "detached eat: " +:+ c_str (default "" token)]) None
              (ss ++ [(claims_str, buf)]) w))
  end).

Definition from_collection (source : Attestation.gpu_source) (n : list Z) ss w : option result :=
  stage (Attestation.gpu_get_evidence source n) (fun e => mk_result [] (Some e) ss w) (fun es =>
  stage (GpuEvidence.collection_to_json Eat.json_dump es) (fun e => mk_result [] (Some e) ss w) (fun text =>
  from_verification ["gpu evidence: " +:+ c_str text] (ss ++ [(evidence_str, text)]) w es)).

Definition spec_evidence (k : source_kind) w : option result :=
  stage (source_of k) (fun e => mk_result [] (Some e) [] w) (fun source =>
  stage (nonce_of k) (fun e => mk_result [] (Some e) [] w) (fun n =>
  from_collection source n [(nonce_str, to_hex_string n)] w)).

(** ** The variables *)

Definition single_types : list ctype :=
  [T_gpu_evidence_source; T_nonce; T_gpu_verifier; T_claims_collection; T_evidence_policy; T_rim_store; T_ocsp_client].

Definition single (k : ctype * nat) : Prop := k.1 ∈ single_types /\ k.2 = 0%nat.
Definition array_key : ctype * nat := (T_gpu_evidence_array, evidence_collection).

(** What [teardown] finds: the handles that it frees, set or null; the array,
    when there is one, with its elements; and the strings [ss]. *)
Record held H0 ss (num : nat) H M : Prop := mk_held {
  h_single k : single k -> is_Some (M !! k);
  h_other k : ~ single k -> k <> array_key -> k.1 <> T_str -> spare M k;
  h_string v s : (v, s) ∈ ss -> exists l, M !! (T_str, v) = Some (Some (l, o_str s));
  h_no_string v : v ∉ ss.*1 -> spare M (T_str, v);
  h_array :
    (num = 0%nat /\ M !! array_key = Some None /\ H = H0) \/
    exists la ls es, num = length es /\ M !! array_key = Some (Some (la, o_gpu_evidence_array (Some <$> ls))) /\
      Collect.elements o_gpu_evidence H0 ls es H;
}.

#[local] Instance single_dec k : Decision (single k).
Proof. unfold single. apply _. Defined.

Lemma single_type k : single k -> k.1 <> T_str /\ k.1 <> T_gpu_evidence_array.
Proof.
  intros [Hk _]. split; intros E; rewrite E in Hk; unfold single_types in Hk;
    repeat (apply elem_of_cons in Hk as [Hk|Hk]; [discriminate Hk|]); by apply elem_of_nil in Hk.
Qed.

Lemma held_single H0 ss num H M k x : single k -> held H0 ss num H M -> held H0 ss num H (<[k := x]> M).
Proof.
  intros Hk [H1 H2 H3 H4 H5]. assert (k <> array_key) as Ha.
  { intros ->. by apply single_type in Hk as []. }
  assert (forall v, k <> (T_str, v)) as Hs.
  { intros v ->. by apply single_type in Hk as []. }
  split.
  - intros k' Hk'. rewrite lookup_insert. case_decide; [by eexists|]. by apply H1.
  - intros k' Hn ? ?. apply Cli.spare_insert; [by intros ->|]. by apply H2.
  - intros v s Hv. rewrite lookup_insert_ne by done. by apply H3.
  - intros v Hv. apply Cli.spare_insert; [by intros ?; eapply Hs|]. by apply H4.
  - by rewrite lookup_insert_ne.
Qed.

Lemma held_string H0 ss num H M v l s :
  v ∉ ss.*1 -> held H0 ss num H M -> held H0 (ss ++ [(v, s)]) num H (<[(T_str, v) := Some (l, o_str s)]> M).
Proof.
  intros Hv [H1 H2 H3 H4 H5].
  assert (forall k, single k -> k <> (T_str, v)) as Hs.
  { intros k Hk ->. by apply single_type in Hk as []. }
  split.
  - intros k Hk. rewrite lookup_insert_ne by (intros E; by eapply Hs). by apply H1.
  - intros k ? ? Ht. apply Cli.spare_insert; [by intros ->|]. by apply H2.
  - intros v' s' [Hin|Hin]%elem_of_app.
    + rewrite lookup_insert_ne; [by apply H3|]. intros [= <-]. apply Hv. apply list_elem_of_fmap. by exists (v, s').
    + apply list_elem_of_singleton in Hin as [= -> ->]. exists l. apply lookup_insert_eq.
  - intros v' Hv'. rewrite fmap_app, not_elem_of_app in Hv'. destruct Hv' as [Hn Hne]. cbn in Hne. apply not_elem_of_cons in Hne as [Hne _].
    apply Cli.spare_insert; [congruence|]. by apply H4.
  - by rewrite lookup_insert_ne by done.
Qed.

Lemma held_array_set H0 ss H' M la ls es :
  held H0 ss 0 H0 M -> Collect.elements o_gpu_evidence H0 ls es H' ->
  held H0 ss (length es) H' (<[array_key := Some (la, o_gpu_evidence_array (Some <$> ls))]> M).
Proof.
  intros [H1 H2 H3 H4 _] He. split.
  - intros k Hk. rewrite lookup_insert_ne; [by apply H1|]. intros <-. by apply single_type in Hk as [].
  - intros k ? ? ?. apply Cli.spare_insert; [done|]. by apply H2.
  - intros v s Hv. rewrite lookup_insert_ne by done. by apply H3.
  - intros v Hv. apply Cli.spare_insert; [done|]. by apply H4.
  - right. exists la, ls, es. by rewrite lookup_insert_eq.
Qed.

(** The variable that the verifier was moved from. *)
Lemma held_moved H0 ss num H M k x :
  ~ single k -> k <> array_key -> k.1 <> T_str -> held H0 ss num H M -> held H0 ss num H (delete k (<[k := x]> M)).
Proof.
  intros Hs Ha Hstr [H1 H2 H3 H4 H5].
  assert (forall k', k' <> k -> delete k (<[k := x]> M) !! k' = M !! k') as Hk.
  { intros k' Hne. by rewrite lookup_delete_ne, lookup_insert_ne by done. }
  split.
  - intros k' Hk'. rewrite Hk by (by intros ->). by apply H1.
  - intros k' ? ? ?. destruct (decide (k' = k)) as [-> |]; [apply spare_none, lookup_delete_eq|]. intros l o. rewrite Hk by done. by apply H2.
  - intros v s Hv. rewrite Hk by (by intros <-). by apply H3.
  - intros v Hv l o. rewrite Hk by (by intros <-). by apply H4.
  - by rewrite Hk by done.
Qed.

Lemma held_spare H0 ss num H M k : held H0 ss num H M -> M !! k = Some None \/ (~ single k /\ k <> array_key /\ k.1 <> T_str) -> spare M k.
Proof. intros Hh [Hk|(? & ? & ?)]; [by apply spare_null|by apply (h_other _ _ _ _ _ Hh)]. Qed.

(** Only strings are left. *)
Definition strings_only ss M : Prop :=
  (forall v s, (v, s) ∈ ss -> exists l, M !! (T_str, v) = Some (Some (l, o_str s))) /\
  (forall v, v ∉ ss.*1 -> spare M (T_str, v)) /\ (forall k, k.1 <> T_str -> spare M k).

Lemma single_free_runs t H0 ss num H w M (Q : _ -> _ -> _ -> _ -> Prop) :
  single (t, 0%nat) -> held H0 ss num H M ->
  (forall M', held H0 ss num H M' -> (forall k, k <> (t, 0%nat) -> M' !! k = M !! k) -> M' !! (t, 0%nat) = Some None -> Q (Ret tt) H w M') ->
  runs H w M (free t (Some 0%nat)) Q.
Proof.
  intros Hs Hh Hq. destruct (h_single _ _ _ _ _ Hh _ Hs) as [x Hx]. eapply runs_free; [exact Hx|].
  apply Hq; [by apply held_single| |apply lookup_insert_eq]. intros k Hk. by rewrite lookup_insert_ne.
Qed.

Lemma teardown_runs H0 ss num H w M (Q : _ -> _ -> _ -> _ -> Prop) :
  held H0 ss num H M -> (forall M', strings_only ss M' -> Q (Ret tt) H0 w M') -> runs H w M (teardown_calls num) Q.
Proof.
  intros Hh Hq. unfold teardown_calls.
  assert (forall t, t ∈ single_types -> single (t, 0%nat)) as Hin by done.
  apply runs_bind. eapply (single_free_runs T_gpu_evidence_source); [by apply Hin; repeat constructor|exact Hh|].
  intros M1 Hh1 He1 Hn1. tidy. apply runs_bind. eapply (single_free_runs T_nonce); [by apply Hin; repeat constructor|exact Hh1|].
  intros M2 Hh2 He2 Hn2. tidy. apply runs_bind.
  assert (M2 !! (T_gpu_evidence_source, 0%nat) = Some None) as Hn1' by by rewrite He2.
  assert (runs H w M2 (array_free T_gpu_evidence_array to_gpu_array T_gpu_evidence (Some evidence_collection) num)
    (fun o H' w' M' => o = Ret tt /\ H' = H0 /\ w' = w /\ M' = <[array_key := None]> M2)) as Harr.
  { destruct (h_array _ _ _ _ _ Hh2) as [(-> & Ha & ->)|(la & ls & es & -> & Ha & He)].
    - unfold array_free. apply runs_bind. eapply runs_read; [exact Ha|]. tidy. apply runs_bind, runs_ret. tidy. apply runs_bind, runs_ret. tidy.
      apply runs_null; [by apply spare_null|done].
    - eapply (Collect.array_free_runs o_gpu_evidence_array to_gpu_array o_gpu_evidence T_gpu_evidence_array T_gpu_evidence); try done. }
  eapply runs_weaken; [exact Harr|]. intros ? ? ? ? (-> & -> & -> & ->). tidy.
  assert (held H0 ss 0 H0 (<[array_key := None]> M2)) as Hh3.
  { destruct Hh2 as [G1 G2 G3 G4 _]. split.
    - intros k Hk. rewrite lookup_insert_ne; [by apply G1|]. intros <-. by apply single_type in Hk as [].
    - intros k ? ? ?. apply Cli.spare_insert; [done|]. by apply G2.
    - intros v s Hv. rewrite lookup_insert_ne by done. by apply G3.
    - intros v Hv. apply Cli.spare_insert; [done|]. by apply G4.
    - left. by rewrite lookup_insert_eq. }
  assert (<[array_key := None]> M2 !! array_key = Some None) as Hn3 by apply lookup_insert_eq.
  assert (<[array_key := None]> M2 !! (T_gpu_evidence_source, 0%nat) = Some None) as Hn1'' by by rewrite lookup_insert_ne.
  assert (<[array_key := None]> M2 !! (T_nonce, 0%nat) = Some None) as Hn2'' by by rewrite lookup_insert_ne.
  revert Hh3 Hn3 Hn1'' Hn2''. generalize (<[array_key := None]> M2). clear -Hin Hq. intros M3 Hh3 Ha Hsrc Hno.
  apply runs_bind. eapply (single_free_runs T_gpu_verifier); [by apply Hin; repeat constructor|exact Hh3|]. intros M4 Hh4 He4 Hn4. tidy.
  apply runs_bind. eapply (single_free_runs T_claims_collection); [by apply Hin; repeat constructor|exact Hh4|]. intros M5 Hh5 He5 Hn5. tidy.
  apply runs_bind. eapply (single_free_runs T_evidence_policy); [by apply Hin; repeat constructor|exact Hh5|]. intros M6 Hh6 He6 Hn6. tidy.
  apply runs_bind. eapply (single_free_runs T_rim_store); [by apply Hin; repeat constructor|exact Hh6|]. intros M7 Hh7 He7 Hn7. tidy.
  eapply (single_free_runs T_ocsp_client); [by apply Hin; repeat constructor|exact Hh7|]. intros M8 Hh8 He8 Hn8.
  apply Hq. split; [apply Hh8|]. split; [apply Hh8|]. intros k Hk.
  destruct (decide (single k)) as [Hs|Hs].
  - destruct k as [t v]. destruct Hs as [Hs Hv]. cbn in Hs, Hv. subst v. apply spare_null. unfold single_types in Hs.
    repeat (apply elem_of_cons in Hs as [->|Hs]); [..|by apply elem_of_nil in Hs];
      rewrite ?He8, ?He7, ?He6, ?He5, ?He4 by done; done.
  - destruct (decide (k = array_key)) as [-> | Hne]; [|by apply Hh8].
    apply spare_null. by rewrite He8, He7, He6, He5, He4 by done.
Qed.

(** The strings stay in the heap. *)
Lemma strings_leaked ss : forall H w M st,
  scope H w M st -> strings_only ss M -> NoDup ss.*1 -> Cli.leaked H (o_str <$> ss.*2) (heap st).
Proof.
  induction ss as [|[v s] ss IH]; intros H w M st Hs (H1 & H2 & H3) Hn.
  - rewrite (scope_end _ _ _ _ Hs); [constructor|]. intros [t v] l o. destruct (decide (t = T_str)) as [-> | Ht].
    + apply H2. cbn. apply not_elem_of_nil.
    + by apply H3.
  - cbn in Hn. apply NoDup_cons in Hn as [Hv Hn]. destruct (H1 v s) as [l Hl]; [by left|]. cbn.
    pose proof Hl as (_ & Hfree & _)%(sc_heap _ _ _ _ Hs).
    eapply (Cli.leaked_cons H l); [done|]. eapply IH; [by eapply scope_leak| |done]. split_and!.
    + intros v' s' Hin. destruct (decide (v' = v)) as [-> | Hne].
      { exfalso. apply Hv, list_elem_of_fmap. by exists (v, s'). }
      rewrite lookup_delete_ne by congruence. apply H1. by right.
    + intros v' Hv'. destruct (decide (v' = v)) as [-> | Hne]; [apply spare_none, lookup_delete_eq|].
      apply Cli.spare_delete, H2. cbn. by apply not_elem_of_cons.
    + intros k Hk. by apply Cli.spare_delete, H3.
Qed.

(** *** The calls, step by step

    What follows a call that may fail, in one place. *)
Definition finished H0 (r : option result) (o : outcome Error (nat * list string * option Error)) H w M : Prop :=
  match r with
  | None => o = UB
  | Some r => exists num, o = Ret (num, r_lines r, r_code r) /\ w = r_world r /\ held H0 (r_strings r) num H M
  end.

Lemma claims_stage H0 ss num H w M lines token cs l1 l2 :
  held H0 ss num H M -> M !! (T_claims_collection, claims) = Some (Some (l1, o_claims_collection cs)) ->
  M !! (T_str, detached_eat_str) = Some (Some (l2, o_str token)) -> claims_str ∉ ss.*1 ->
  runs H w M
    (orelse claims_data (fun e => sret (num, lines, Some e)) (fun buf =>
     let lines := lines ++ ["claims: " +:+ c_str buf] in
     orelse (str_data detached_eat_str) (fun e => sret (num, lines, Some e)) (fun buf =>
     sret (num, lines ++ ["detached eat: " +:+ c_str buf], None))))
    (finished H0 (stage (Collection.serialize_json Eat.json_dump cs) (fun e => mk_result lines (Some e) ss w) (fun buf =>
       Some (mk_result (lines ++ ["claims: " +:+ c_str buf; "detached eat: " +:+ c_str token]) None (ss ++ [(claims_str, buf)]) w)))).
Proof.
  intros Hh Hc Hd Hn. apply runs_orelse, runs_bind. pose proof (h_no_string _ _ _ _ _ Hh _ Hn) as Hsp.
  apply runs_c_call, runs_bind. eapply runs_arg; [exact Hc|]. tidy. unfold nvat_claims_collection_serialize_json. given.
  apply runs_bind. eapply runs_deref; [exact Hc|done|]. tidy. apply runs_bind, runs_lift.
  destruct (Collection.serialize_json Eat.json_dump cs) as [t|e|x|]; cbn [then_ returned stage].
  2,3: apply runs_ret; by exists num.
  2: done.
  apply runs_emit; [done|]. intros l _. tidy. eapply str_data_runs; [apply lookup_insert_eq|]. cbv zeta.
  apply runs_orelse. eapply str_data_runs; [by rewrite lookup_insert_ne; first exact Hd|]. apply runs_ret.
  exists num. split; [by rewrite <- app_assoc|]. split; [done|]. by apply held_string.
Qed.

Lemma runs_ext {A : Type} H w M (m m' : api A) (Q : _ -> _ -> _ -> _ -> Prop) :
  (forall st, m st = m' st) -> runs H w M m' Q -> runs H w M m Q.
Proof. intros He Hm st Hs. rewrite He. by apply Hm. Qed.

Lemma orelse_bind {A B C : Type} (m : api A) (j : A -> api B) (f : Error -> api C) (k : B -> api C) st :
  orelse (sbind m j) f k st = orelse m f (fun a => orelse (j a) f k) st.
Proof. unfold orelse, sbind. by destruct (m st) as [[]]. Qed.

(** The variables that step 4 sets. *)
Record unset M : Prop := mk_unset {
  u_rim : M !! (T_rim_store, rim_store) = Some None;
  u_ocsp : M !! (T_ocsp_client, ocsp_client) = Some None;
  u_verifier : M !! (T_gpu_verifier, verifier) = Some None;
  u_policy : M !! (T_evidence_policy, evidence_policy) = Some None;
  u_claims : M !! (T_claims_collection, claims) = Some None;
}.

Lemma make_verifier_runs H0 ss num H w M (Q : _ -> _ -> _ -> _ -> Prop) :
  held H0 ss num H M -> unset M ->
  (forall M' lv lp, held H0 ss num H M' ->
     M' !! (T_gpu_verifier, verifier) = Some (Some (lv, o_gpu_verifier verifier_of)) ->
     M' !! (T_evidence_policy, evidence_policy) = Some (Some (lp, o_evidence_policy Rim.EvidencePolicy_default)) ->
     M' !! array_key = M !! array_key -> M' !! (T_claims_collection, claims) = Some None -> Q (Ret tt) H w M') ->
  runs H w M make_verifier Q.
Proof.
  intros Hh [Hr Ho Hv Hp Hc] Hq. unfold make_verifier.
  apply runs_bind, runs_c_call. unfold nvat_rim_store_create_remote. given. apply runs_bind, runs_ret. tidy.
  apply runs_emit; [by apply spare_null|]. intros l1 _. tidy.
  apply runs_bind, runs_c_call. unfold nvat_ocsp_client_create_default. given. apply runs_bind, runs_ret. tidy.
  apply runs_emit; [by apply spare_null; rewrite lookup_insert_ne|]. intros l2 _. tidy.
  apply runs_bind, runs_c_call, runs_bind. eapply runs_arg; [by rewrite lookup_insert_ne; first apply lookup_insert_eq|]. tidy.
  apply runs_bind. eapply runs_arg; [apply lookup_insert_eq|]. tidy.
  unfold nvat_gpu_local_verifier_create, local_parts. given. apply runs_bind. given. apply runs_bind, runs_ret. tidy.
  apply runs_bind. eapply runs_deref; [by rewrite lookup_insert_ne; first apply lookup_insert_eq|done|]. tidy.
  apply runs_bind. eapply runs_deref; [apply lookup_insert_eq|done|]. tidy. apply runs_lift. tidy.
  apply (runs_emit _ _ _ local_verifier (o_gpu_verifier verifier_of)).
  { apply Cli.spare_insert, Cli.spare_insert; [done..|]. by apply (h_other _ _ _ _ _ Hh); [intros []|..]. }
  intros lv _. tidy. apply runs_bind. eapply runs_arg; [apply lookup_insert_eq|]. tidy.
  apply runs_bind. eapply (runs_move _ _ _ _ local_verifier verifier (Some (lv, _))); [apply lookup_insert_eq| |done|].
  { apply spare_null. by rewrite !lookup_insert_ne. }
  tidy. apply runs_c_call. unfold nvat_evidence_policy_create_default. given. set (M1 := delete _ _).
  assert (held H0 ss num H M1) as Hh1.
  { apply held_moved; [by intros []|done|done|]. apply held_single; [by split; repeat constructor|].
    apply held_single; [by split; repeat constructor|]. done. }
  assert (forall k, k <> (T_gpu_verifier, local_verifier) -> k <> (T_ocsp_client, ocsp_client) -> k <> (T_rim_store, rim_store) ->
    M1 !! k = M !! k) as HM1.
  { intros k ? ? ?. unfold M1. by rewrite lookup_delete_ne, !lookup_insert_ne. }
  clearbody M1. apply runs_emit; [apply spare_null; rewrite lookup_insert_ne by done; by rewrite HM1|]. intros lp _. tidy.
  eapply (Hq _ lv lp).
  - apply held_single; [by split; repeat constructor|]. by apply held_single; [split; repeat constructor|].
  - rewrite lookup_insert_ne by done. apply lookup_insert_eq.
  - apply lookup_insert_eq.
  - by rewrite !lookup_insert_ne, HM1 by done.
  - by rewrite !lookup_insert_ne, HM1 by done.
Qed.

Lemma verified_status w es token status s :
  verified w es = (Ret (token, status), s) -> Attestation.verdict_status status.
Proof. unfold verified, Attestation.gpu_verify. by intros (v & ?%Attestation.local_gpu_status & _)%Attestation.run_local_Ret. Qed.

Lemma verify_stage H0 ss ls la es H w M lines lv lp :
  let num := length es in
  held H0 ss num H M -> Collect.elements o_gpu_evidence H0 ls es H ->
  M !! array_key = Some (Some (la, o_gpu_evidence_array (Some <$> ls))) ->
  M !! (T_gpu_verifier, verifier) = Some (Some (lv, o_gpu_verifier verifier_of)) ->
  M !! (T_evidence_policy, evidence_policy) = Some (Some (lp, o_evidence_policy Rim.EvidencePolicy_default)) ->
  M !! (T_claims_collection, claims) = Some None -> detached_eat_str ∉ ss.*1 -> claims_str ∉ ss.*1 ->
  runs H w M
    (orelse (verify num) (fun e => sret (num, lines, Some e)) (fun _ =>
     orelse claims_data (fun e => sret (num, lines, Some e)) (fun buf =>
     let lines := lines ++ ["claims: " +:+ c_str buf] in
     orelse (str_data detached_eat_str) (fun e => sret (num, lines, Some e)) (fun buf =>
     sret (num, lines ++ ["detached eat: " +:+ c_str buf], None)))))
    (finished H0 (from_verification lines ss w es)).
Proof.
  intros num Hh He Ha Hv Hp Hc Hd Hs. apply runs_orelse.
  assert (forall (m : api (option Error)) (Q : _ -> _ -> _ -> _ -> Prop),
    runs H w M m (fun o => Q (match o with Ret None => Ret tt | Ret (Some e) => Err e | Err e => Err e | Throw x => Throw x | UB => UB end)) ->
    runs H w M (strictly m) Q) as Hstrict.
  { intros m Q Hm st Hst. destruct (Hm st Hst) as (H' & w' & M' & Hs' & Hq). exists H', w', M'. unfold strictly.
    destruct (m st) as [[[]|e|x|] st']; cbn in *; by auto. }
  apply Hstrict, runs_c_call. apply runs_bind. eapply runs_arg; [exact Hv|]. tidy. apply runs_bind. eapply runs_arg; [exact Ha|]. tidy.
  apply runs_bind. eapply runs_arg; [exact Hp|]. tidy. unfold nvat_verify_gpu_evidence. given. apply runs_bind.
  eapply runs_weaken with (Q := fun o H' w' M' => o = Ret es /\ H' = H /\ w' = w /\ M' = M).
  { unfold read_array, num. destruct es as [|e es]; cbn [length]; [by apply runs_ret|].
    apply runs_bind. eapply runs_deref; [exact Ha|done|]. cbn [then_].
    by eapply (Collect.read_elements_runs o_gpu_evidence to_gpu_evidence (fun _ => eq_refl) _ _ (e :: es)). }
  intros ? ? ? ? (-> & -> & -> & ->). tidy. apply runs_bind. eapply runs_deref; [exact Hv|done|]. tidy.
  apply runs_bind. eapply runs_deref; [exact Hp|done|]. tidy. apply runs_bind, runs_with_state. intros o s E. tidy.
  unfold from_verification, verified. rewrite E. set (w1 := (_, _, _)). apply runs_bind. eapply runs_assign; [exact Hv|done|]. tidy.
  set (M1 := <[_ := _]> M). assert (held H0 ss num H M1) as Hh1 by by apply held_single; [split; repeat constructor|].
  assert (M1 !! (T_claims_collection, claims) = Some None) as Hc1 by (unfold M1; by rewrite lookup_insert_ne).
  clearbody M1. unfold verification_result. apply runs_bind, runs_lift. destruct o as [[token status]|e|x|]; cbn [then_ returned stage].
  2,3: by apply runs_ret; exists num.
  2: done.
  assert (Attestation.verdict_status status) as Hst by by eapply (verified_status w es).
  rewrite bool_decide_true by done. apply runs_bind, runs_emit; [by apply spare_null|]. intros l1 _. tidy.
  assert (held H0 ss num H (<[(T_claims_collection, claims) := Some (l1, o_claims_collection (Attestation.claims s))]> M1)) as Hh2
    by by apply held_single; [split; repeat constructor|].
  apply runs_bind. unfold emit_token. apply runs_emit; [by apply (h_no_string _ _ _ _ _ Hh2)|]. intros l2 _. tidy. apply runs_ret. tidy.
  destruct status as [e|].
  - apply runs_ret. exists num. split_and!; [done..|]. by apply held_string.
  - eapply claims_stage; [by apply held_string|by rewrite lookup_insert_ne; first apply lookup_insert_eq|apply lookup_insert_eq|].
    rewrite fmap_app, not_elem_of_app. split; [done|]. by apply not_elem_of_cons; split; [|apply not_elem_of_nil].
Qed.

(** A source or a nonce that is made, or not. *)
Lemma create_source_runs k H w M (Q : _ -> _ -> _ -> _ -> Prop) :
  spare M (T_gpu_evidence_source, evidence_source) ->
  match returned (source_of k) with
  | Ret s => forall l, Q (Ret tt) H w (<[(T_gpu_evidence_source, evidence_source) := Some (l, o_gpu_evidence_source s)]> M)
  | Err e => Q (Err e) H w M
  | Throw x => Q (Throw x) H w M
  | UB => Q UB H w M
  end -> runs H w M (create_source k) Q.
Proof.
  intros Hs Hq. apply runs_c_call. destruct k as [|path]; cbn [source_of] in Hq.
  - unfold nvat_gpu_evidence_source_nvml_create. given. apply runs_emit; [done|]. intros l _. apply Hq.
  - unfold nvat_gpu_evidence_source_from_json_file. given. apply runs_bind, runs_lift.
    destruct (GpuEvidence.file_source_create _ _ _) as [es|e|x|]; cbn [returned obind then_] in *; [|done..].
    apply runs_emit; [done|]. intros l _. apply Hq.
Qed.

Lemma create_nonce_runs k H w M (Q : _ -> _ -> _ -> _ -> Prop) :
  spare M (T_nonce, nonce) ->
  match returned (nonce_of k) with
  | Ret n => forall l, Q (Ret tt) H w (<[(T_nonce, nonce) := Some (l, o_nonce n)]> M)
  | Err e => Q (Err e) H w M
  | Throw x => Q (Throw x) H w M
  | UB => Q UB H w M
  end -> runs H w M (create_nonce k) Q.
Proof.
  intros Hs Hq. apply runs_c_call.
  assert (runs H w M (do* n := slift (nonce_of k) in emit (Some nonce) (o_nonce n)) (fun o => Q (returned o))) as Hk.
  { apply runs_bind, runs_lift. destruct (nonce_of k) as [n|e|x|]; cbn [returned then_] in *; [|done..].
    apply runs_emit; [done|]. intros l _. apply Hq. }
  destruct k; exact Hk.
Qed.

Lemma unset_insert M k x : unset M -> ~ (k.1 ∈ [T_rim_store; T_ocsp_client; T_gpu_verifier; T_evidence_policy; T_claims_collection]) ->
  unset (<[k := x]> M).
Proof. intros [] Hk. rewrite !not_elem_of_cons in Hk. destruct_and!. split; rewrite lookup_insert_ne; try done; by intros ->. Qed.

Lemma collection_stage H0 w M s n hex l1 l2 :
  held H0 [(nonce_str, hex)] 0 H0 M -> unset M -> M !! array_key = Some None ->
  M !! (T_gpu_evidence_source, evidence_source) = Some (Some (l1, o_gpu_evidence_source s)) ->
  M !! (T_nonce, nonce) = Some (Some (l2, o_nonce n)) ->
  runs H0 w M
    (orelse collect (fun e => sret (0%nat, [], Some e)) (fun num_evidences =>
     let num_evidences := Z.to_nat num_evidences in
     orelse (evidence_text num_evidences) (fun e => sret (num_evidences, [], Some e)) (fun buf =>
     let lines := ["gpu evidence: " +:+ c_str buf] in
     orelse (do* _ := make_verifier in do* _ := verify num_evidences in claims_data)
       (fun e => sret (num_evidences, lines, Some e)) (fun buf =>
     let lines := lines ++ ["claims: " +:+ c_str buf] in
     orelse (str_data detached_eat_str) (fun e => sret (num_evidences, lines, Some e)) (fun buf =>
     sret (num_evidences, lines ++ ["detached eat: " +:+ c_str buf], None))))))
    (finished H0 (from_collection s n [(nonce_str, hex)] w)).
Proof.
  intros Hh Hu Ha Hsrc Hno. unfold from_collection. apply runs_orelse, runs_c_call, runs_bind. eapply runs_arg; [exact Hsrc|]. tidy.
  apply runs_bind. eapply runs_arg; [exact Hno|]. tidy. unfold nvat_gpu_evidence_collect. given.
  apply runs_bind, runs_null; [by apply spare_null|]. rewrite insert_id by done. tidy.
  apply runs_bind. eapply runs_deref; [exact Hsrc|done|]. tidy. apply runs_bind. unfold nonce_or_new.
  eapply runs_deref; [exact Hno|done|]. tidy. apply runs_bind, runs_lift.
  destruct (Attestation.gpu_get_evidence s n) as [es|e|x|]; cbn [then_ returned stage].
  2,3: by apply runs_ret; exists 0%nat.
  2: done.
  apply (Collect.emit_array_runs o_gpu_evidence_array o_gpu_evidence T_gpu_evidence_array); [done|by apply spare_null|].
  intros la ls H' He. cbn [returned]. cbv zeta. replace (Z.to_nat (zlen es)) with (length es) by (unfold zlen; lia).
  fold array_key. set (M1 := <[_ := _]> M). assert (held H0 [(nonce_str, hex)] (length es) H' M1) as Hh1 by by apply held_array_set.
  assert (unset M1) as Hu1 by by apply unset_insert; [|rewrite !not_elem_of_cons; split_and!; try done; apply not_elem_of_nil].
  assert (M1 !! array_key = Some (Some (la, o_gpu_evidence_array (Some <$> ls)))) as Ha1 by apply lookup_insert_eq.
  clearbody M1. apply runs_orelse, runs_bind, runs_c_call, runs_bind. eapply runs_arg; [exact Ha1|]. tidy.
  unfold nvat_gpu_evidence_serialize_json. given. apply runs_bind.
  eapply runs_weaken with (Q := fun o H2 w' M' => o = Ret es /\ H2 = H' /\ w' = w /\ M' = M1).
  { unfold read_array. destruct es as [|e es]; cbn [length]; [by apply runs_ret|].
    apply runs_bind. eapply runs_deref; [exact Ha1|done|]. cbn [then_].
    by eapply (Collect.read_elements_runs o_gpu_evidence to_gpu_evidence (fun _ => eq_refl) _ _ (e :: es)). }
  intros ? ? ? ? (-> & -> & -> & ->). tidy. apply runs_bind, runs_lift.
  destruct (GpuEvidence.collection_to_json Eat.json_dump es) as [text|e|x|]; cbn [then_ returned stage].
  2,3: by apply runs_ret; exists (length es).
  2: done.
  assert (evidence_str ∉ [(nonce_str, hex)].*1) as Hfresh by by apply not_elem_of_cons; split; [|apply not_elem_of_nil].
  apply runs_emit; [by apply (h_no_string _ _ _ _ _ Hh1)|]. intros l3 _. tidy.
  eapply str_data_runs; [apply lookup_insert_eq|]. cbv zeta. eapply runs_ext; [intros st; apply orelse_bind|].
  apply runs_orelse. eapply make_verifier_runs; [by apply held_string| |].
  { apply unset_insert; [done|]. rewrite !not_elem_of_cons; split_and!; try done. apply not_elem_of_nil. }
  intros M2 lv lp Hh2 Hv Hp Ha2 Hc. eapply runs_ext; [intros st; apply orelse_bind|].
  eapply verify_stage; try done; [by rewrite Ha2, lookup_insert_ne|..];
    cbn; rewrite !not_elem_of_cons; split_and!; try done; apply not_elem_of_nil.
Qed.

(** A structure of null handles. *)
Record fresh_context H0 M : Prop := mk_fresh_context {
  fc_held : held H0 [] 0 H0 M;
  fc_unset : unset M;
  fc_source : M !! (T_gpu_evidence_source, evidence_source) = Some None;
  fc_nonce : M !! (T_nonce, nonce) = Some None;
  fc_array : M !! array_key = Some None;
}.

Lemma evidence_calls_runs k H0 w M :
  fresh_context H0 M -> runs H0 w M (evidence_calls k) (finished H0 (spec_evidence k w)).
Proof.
  intros [Hh Hu Hsrc Hno Ha]. unfold evidence_calls, spec_evidence. eapply runs_ext; [intros st; apply orelse_bind|].
  apply runs_orelse, create_source_runs; [by apply spare_null|].
  assert (forall e, finished H0 (Some (mk_result [] (Some e) [] w)) (Ret (0%nat, [], Some e)) H0 w M) as Hfail by (intros e; by exists 0%nat).
  destruct (source_of k) as [source|e|x|]; cbn [returned stage]; [|by apply runs_ret..|done].
  intros ls. set (M1 := <[_ := _]> M).
  assert (held H0 [] 0 H0 M1) as Hh1 by by apply held_single; [split; repeat constructor|].
  eapply runs_ext; [intros st; apply orelse_bind|]. apply runs_orelse, create_nonce_runs; [by apply spare_null; unfold M1; rewrite lookup_insert_ne|].
  destruct (nonce_of k) as [n|e|x|]; cbn [returned stage]; [|by apply runs_ret; exists 0%nat..|done].
  intros ln. set (M2 := <[_ := _]> M1).
  assert (held H0 [] 0 H0 M2) as Hh2 by by apply held_single; [split; repeat constructor|].
  eapply runs_ext; [intros st; apply orelse_bind|]. apply runs_orelse, runs_c_call, runs_bind.
  eapply runs_arg; [apply lookup_insert_eq|]. tidy. unfold nvat_nonce_to_hex_string. given.
  apply runs_bind. eapply runs_deref; [apply lookup_insert_eq|done|]. tidy.
  apply runs_emit; [by apply (h_no_string _ _ _ _ _ Hh2), not_elem_of_nil|]. intros lx _. tidy.
  eapply runs_ext; [intros st; apply orelse_bind|].
  apply runs_orelse. eapply str_data_runs; [apply lookup_insert_eq|]. apply runs_orelse, runs_ret.
  eapply (collection_stage H0 w _ source n (to_hex_string n)).
  - by apply (held_string H0 [] 0 H0 M2); [apply not_elem_of_nil|].
  - repeat (apply unset_insert; [|rewrite !not_elem_of_cons; split_and!; try done; apply not_elem_of_nil]). done.
  - unfold M2, M1. by rewrite !lookup_insert_ne.
  - unfold M2. rewrite !lookup_insert_ne by done. apply lookup_insert_eq.
  - rewrite lookup_insert_ne by done. apply lookup_insert_eq.
Qed.

(** ** The programs *)

Lemma null_handles_runs H w :
  runs H w ∅ null_handles (fun o H' w' M => o = Ret tt /\ H' = H /\ w' = w /\ fresh_context H M).
Proof.
  unfold null_handles.
  assert (forall (M : locals) (Q : _ -> _ -> _ -> _ -> Prop) t v (j : api unit), (forall k, spare M k) ->
    ((forall k, spare (<[(t, v) := None]> M) k) -> runs H w (<[(t, v) := None]> M) j Q) ->
    runs H w M (do* _ := write t (Some v) None in j) Q) as Hstep.
  { intros M Q t v j Hsp Hj. apply runs_bind, runs_null; [done|]. apply Hj. intros k l o. rewrite lookup_insert. case_decide; [done|]. apply Hsp. }
  assert (forall k, spare (∅ : locals) k) as H0 by (intros k; apply spare_none, lookup_empty).
  do 11 (apply Hstep; [done|clear H0; intros H0]). apply runs_null; [done|]. set (M := <[_ := _]> (<[_ := _]> _)).
  assert (forall k, spare M k) as Hsp by (intros k l o; unfold M; rewrite lookup_insert; case_decide; [done|apply H0]).
  split_and!; try done. split; [|by split|done..].
  split; [|by intros|intros v s Hv; by apply elem_of_nil in Hv|by intros|by left].
  intros [t v] [Ht Hv]. cbn in Ht, Hv. subst v. unfold single_types in Ht.
  repeat (apply elem_of_cons in Ht as [->|Ht]; [by eexists|]). by apply elem_of_nil in Ht.
Qed.

Lemma start_sdk_spec k n q o g a :
  Sdk.stderr_color_mt (logger_name k) = true ->
  exists lg l, start_sdk k (mk_program (Loggers.new_lib n q) o g a) =
      (init_result, mk_program l (Some (Some 1%nat)) (Some (Some 2%nat)) a) /\
    up (<[2%nat := Loggers.o_logger lg]> (<[1%nat := Loggers.o_sdk_opts 0]> ∅)) l.
Proof.
  intros Hn. destruct (made_eq (logger_name k) (Sdk.log_level_to_c Sdk.ERROR) n q o g a Hn) as (s & Hm & Hset).
  unfold start_sdk. unfold sbind in Hm. unfold sbind at 1. destruct (sdk_opts_create _) as [[[]|e|x|] s1]; try done.
  unfold sbind at 1. rewrite Hm. unfold sbind at 1. rewrite Hset. unfold sdk_init, sbind, get_opts, on_lib. cbn.
  edestruct (init_lib version n q) as (l & -> & Hup); [reflexivity|reflexivity|reflexivity|]. by exists (Sdk.SpdLogLogger (logger_name k) Sdk.ERROR), l.
Qed.

Lemma teardown_spec lg l num a a' :
  up (<[2%nat := Loggers.o_logger lg]> (<[1%nat := Loggers.o_sdk_opts 0]> ∅)) l -> teardown_calls num a = (Ret tt, a') ->
  exists l', teardown num (mk_program l (Some (Some 1%nat)) (Some (Some 2%nat)) a) =
      (Ret tt, mk_program l' (Some None) (Some None) a') /\ Loggers.handles l' = ∅.
Proof.
  intros Hup Ht. destruct (free_handles_spec lg l a Hup) as (l1 & Hf & Hup1).
  destruct (sdk_shutdown_spec l1 (Some None) (Some None) a' Hup1) as (l2 & Hs & Hh). exists l2. split; [|done].
  unfold teardown, sbind in *. destruct (sdk_opts_free _) as [[[]|e|x|] s]; try done. rewrite Hf. unfold on_api. cbn. by rewrite Ht.
Qed.

Lemma strings_nodup k w r : spec_evidence k w = Some r -> NoDup (r_strings r).*1.
Proof.
  unfold spec_evidence, from_collection, from_verification, stage. intros Hr.
  repeat (case_match; try done); simplify_eq; cbn; repeat constructor; set_solver.
Qed.

(** The calls of a program up to the teardown. *)
Lemma program_calls k a :
  heap a = ∅ ->
  exists a0, null_handles a = (Ret tt, a0) /\
    (exists a', teardown_calls 0 a0 = (Ret tt, a') /\ heap a' = ∅ /\ world_of a' = world_of a) /\
    match spec_evidence k (world_of a) with
    | None => (evidence_calls k a0).1 = UB
    | Some r => exists num a1 a', evidence_calls k a0 = (Ret (num, r_lines r, r_code r), a1) /\
        teardown_calls num a1 = (Ret tt, a') /\
        Cli.leaked ∅ (o_str <$> (r_strings r).*2) (heap a') /\ world_of a' = r_world r
    end.
Proof.
  intros Ha. destruct (null_handles_runs (heap a) (world_of a) a) as (H' & w' & M & Hs & Ho & -> & -> & Hf).
  { apply scope_start. rewrite Ha. intros l [x Hx]. by rewrite lookup_empty in Hx. }
  destruct (null_handles a) as [o0 a0]. cbn in Hs, Ho. subst o0. specialize (Hs ltac:(done)). rewrite Ha in *.
  assert (forall ss num H w M1 st, scope H w M1 st -> held ∅ ss num H M1 -> NoDup ss.*1 ->
    exists a', teardown_calls num st = (Ret tt, a') /\ Cli.leaked ∅ (o_str <$> ss.*2) (heap a') /\ world_of a' = w) as Htear.
  { intros ss num H w M1 st Hsc Hh Hn.
    destruct (teardown_runs ∅ ss num H w M1 (fun o H' w' M' => o = Ret tt /\ H' = ∅ /\ w' = w /\ strings_only ss M') Hh
      ltac:(by intros) st Hsc) as (H1 & w1 & M2 & Hs2 & Ho & -> & -> & Hst).
    destruct (teardown_calls num st) as [o a']. cbn in Hs2, Ho. subst o. specialize (Hs2 ltac:(done)).
    exists a'. split_and!; [done|by eapply strings_leaked|apply Hs2]. }
  exists a0. split; [done|]. split.
  - destruct (Htear [] 0%nat ∅ (world_of a) M a0 Hs (fc_held _ _ Hf) ltac:(constructor)) as (a' & Ht & Hl & Hw).
    exists a'. split_and!; try done. cbn in Hl. by inversion Hl.
  - destruct (evidence_calls_runs k ∅ (world_of a) M Hf a0 Hs) as (H1 & w1 & M1 & Hs1 & Hfin).
    pose proof (strings_nodup k (world_of a)) as Hnd. unfold finished in Hfin. destruct (spec_evidence k (world_of a)) as [r|]; [|done].
    destruct Hfin as (num & Ho & Hw & Hh). destruct (evidence_calls k a0) as [o a1]. cbn in Hs1, Ho. subst o. specialize (Hs1 ltac:(done)).
    destruct (Htear _ _ _ _ _ _ Hs1 Hh (Hnd r eq_refl)) as (a' & Ht & Hl & Hw'). exists num, a1, a'. split_and!; try done. congruence.
Qed.

Lemma null_context_eq n q a a0 :
  null_handles a = (Ret tt, a0) ->
  null_context (start n q a) = (Ret tt, mk_program (Loggers.new_lib n q) (Some None) (Some None) a0).
Proof. intros E. unfold null_context, sbind, put_opts, put_logger, on_api, start. cbn -[null_handles]. by rewrite E. Qed.

Lemma evidence_programs_lemma (k : source_kind) n q a :
  Sdk.stderr_color_mt (logger_name k) = true -> heap a = ∅ ->
  let '(o, g) := main k (start n q a) in
  if xml_ready then
    match spec_evidence k (world_of a) with
    | None => o = UB
    | Some r =>
      o = Ret (if bool_decide (r_code r = None) then 0 else 1, r_lines r) /\ Loggers.handles (p_lib g) = ∅ /\
      Cli.leaked ∅ (o_str <$> (r_strings r).*2) (heap (p_api g)) /\ world_of (p_api g) = r_world r
    end
  else o = Ret (1, []) /\ Loggers.handles (p_lib g) = ∅ /\ heap (p_api g) = ∅ /\ world_of (p_api g) = world_of a.
Proof.
  intros Hn Ha. destruct (program_calls k a Ha) as (a0 & Hnull & (a' & Ht & Hh & Hw) & Hcalls).
  apply (null_context_eq n q) in Hnull.
  destruct (start_sdk_spec k n q (Some None) (Some None) a0 Hn) as (lg & l & Hst & Hup). unfold init_result in Hst.
  assert (attest k (start n q a) =
    (if xml_ready
     then do* (num_evidences, lines, err) := on_api (evidence_calls k) in do* _ := teardown num_evidences in sret (lines, err)
     else do* _ := teardown 0 in sret ([], Some XmlInitFailed)) (mk_program l (Some (Some 1%nat)) (Some (Some 2%nat)) a0)) as Hat.
  { unfold attest. unfold sbind at 1. rewrite Hnull. unfold orelse. rewrite Hst. by destruct xml_ready. }
  unfold main. unfold sbind at 1. rewrite Hat. clear Hat Hst Hnull. destruct xml_ready.
  - destruct (spec_evidence k (world_of a)) as [r|].
    + destruct Hcalls as (num & a1 & a2 & He & Ht2 & Hl & Hwr).
      destruct (teardown_spec lg l num a1 a2 Hup Ht2) as (l2 & Htd & Hh2).
      unfold sbind, on_api. cbn [p_api p_lib v_opts v_logger]. rewrite He. rewrite Htd. cbn. by split_and!.
    + unfold sbind, on_api. cbn [p_api]. destruct (evidence_calls k a0) as [o a1]. cbn in Hcalls. by subst o.
  - destruct (teardown_spec lg l 0 a0 a' Hup Ht) as (l2 & Htd & Hh2). unfold sbind. rewrite Htd. cbn. by split_and!.
Qed.

(** P: the two programs: the code and the lines are those of the calls without
    handles, and all handles are freed however far they get, but for the
    strings: the text of the nonce, of the evidence, of the claims and of the
    detached EAT stay in the heap.  When the XML libraries cannot be
    initialized the program fails before it makes anything. *)
Theorem evidence_programs (k : source_kind) n q a :
  Sdk.stderr_color_mt (logger_name k) = true -> heap a = ∅ ->
  let '(o, g) := main k (start n q a) in
  if xml_ready then
    match spec_evidence k (world_of a) with
    | None => o = UB
    | Some r =>
      o = Ret (if bool_decide (r_code r = None) then 0 else 1, r_lines r) /\ Loggers.handles (p_lib g) = ∅ /\
      Cli.leaked ∅ (o_str <$> (r_strings r).*2) (heap (p_api g)) /\ world_of (p_api g) = r_world r
    end
  else o = Ret (1, []) /\ Loggers.handles (p_lib g) = ∅ /\ heap (p_api g) = ∅ /\ world_of (p_api g) = world_of a.
Proof. apply evidence_programs_lemma. Qed.

(** P: a program exits with 0 only if the evidence of its source over its nonce
    was verified: there are claims, of as many items that were authenticated,
    are fresh and were compared with verified RIMs by the default policy, and
    every device is good.  Then the strings of all four texts are left. *)
Theorem evidence_program_sound (k : source_kind) n q a lines g :
  Attestation.rego_documented -> Sdk.stderr_color_mt (logger_name k) = true -> heap a = ∅ ->
  main k (start n q a) = (Ret (0, lines), g) ->
  exists source nonce es cs text token buf,
    source_of k = Ret source /\ nonce_of k = Ret nonce /\ Attestation.gpu_get_evidence source nonce = Ret es /\
    cs <> [] /\ length cs = length es /\
    GpuVerify.all_verified clock Rim.EvidencePolicy_default 0 es
      (mk_vstate (Attestation.make_rim_store "" "" Http.HttpOptions_default, (world_of a).1.1)
         (Attestation.make_ocsp_client "" "" Http.HttpOptions_default, (world_of a).1.2) []) cs /\
    Forall Policy.device_good cs /\
    lines = ["gpu evidence: " +:+ c_str text; "claims: " +:+ c_str buf; "detached eat: " +:+ c_str token] /\
    Cli.leaked ∅ [o_str (to_hex_string nonce); o_str text; o_str token; o_str buf] (heap (p_api g)).
Proof.
  intros Hrego Hn Ha Hrun. pose proof (evidence_programs_lemma k n q a Hn Ha) as H. rewrite Hrun in H.
  destruct xml_ready; [|by destruct H as [[= ] _]]. destruct (spec_evidence k (world_of a)) as [r|] eqn:Er; [|done].
  destruct H as ([= Hcode ->] & _ & Hleak & _). case_bool_decide as Hok; [|done]. clear Hcode Hrun.
  unfold spec_evidence, stage in Er.
  destruct (source_of k) as [source|e|x|]; [|by simplify_eq..].
  destruct (nonce_of k) as [nonce|e|x|]; [|by simplify_eq..]. unfold from_collection, stage in Er.
  destruct (Attestation.gpu_get_evidence source nonce) as [es|e|x|] eqn:Ees; [|by simplify_eq..].
  destruct (GpuEvidence.collection_to_json _ es) as [text|e|x|]; [|by simplify_eq..]. unfold from_verification in Er.
  destruct (verified _ es) as [o s] eqn:Ev. destruct o as [[token status]|e|x|]; cbn [stage] in Er; [|by simplify_eq..].
  destruct status as [e|]; [by simplify_eq|].
  destruct (Collection.serialize_json _ _) as [buf|e|x|]; cbn [stage] in Er; [|by simplify_eq..]. injection Er as <-. cbn in Hleak.
  unfold verified, Attestation.gpu_verify in Ev. apply Attestation.run_local_Ret in Ev as (v & Hl & Hcl & _).
  apply GpuVerify.local_gpu_sound in Hl as (cs & Hcs & Hlen & Hall & t & -> & Heat); [|done].
  cbn in Hcs. apply detached_eat_status in Heat as (b & Hb & Hbs). destruct b; [|done].
  apply Hrego in Hb. symmetry in Hb. apply nv_match_json in Hb as [Hne Hgood]. rewrite Hcs in *.
  exists source, nonce, es, cs, text, t, buf. by split_and!.
Qed.

End programs.

(** *** On the machine of Examples *)

#[local] Instance toy_no_rims : Rim.IRimStore (XML:=Attestation.toy_xml) (unit * unit) := fun s _ => (Err RimNotFound, s).
#[local] Instance toy_no_ocsp : IOcspHttpClient (H:=toy_openssl_bytes) (unit * unit) :=
  fun s _ _ _ _ => (Err OcspServerError, s).

Abbreviation toy_main := (main (OSSL:=toy_openssl_bytes) (XML:=Attestation.toy_xml) (env:=toy_served) (B64:=Base64.toy_base64)
  (L:=Jwt.toy_jwt) (P:=Attestation.toy_platform) (W:=toy_machine) (XS:=Sdk.toy_xmlsec) (NV:=Nvml.toy_nvml) (NQ:=Nscq.toy_nscq)
  (SL:=Loggers.toy_spdlog) (U:=unit) (WU:=unit) (V:=unit) (WV:=unit) (fun _ => 1500) (fun _ => 1500) "1" FromNvml
  (start (NV:=Nvml.toy_nvml) (NQ:=Nscq.toy_nscq) 0%nat [] toy_start)).

Abbreviation toy_lines := ["gpu evidence: bad"; "claims: good"; "detached eat: token"].

Lemma toy_main_good : toy_main = (Ret (0, toy_lines), toy_main.2).
Proof. apply Attestation.run_pair. vm_compute. reflexivity. Qed.

(** Four strings are left. *)
Lemma evidence_program_sound_witness :
  exists cs text token buf, cs <> [] /\ Forall Policy.device_good cs /\
    Cli.leaked (OSSL:=toy_openssl_bytes) ∅ [o_str (to_hex_string (replicate 32 9)); o_str text; o_str token; o_str buf]
      (heap (p_api toy_main.2)).
Proof.
  destruct (evidence_program_sound (OSSL:=toy_openssl_bytes) (XML:=Attestation.toy_xml) (env:=toy_served) (B64:=Base64.toy_base64)
    (L:=Jwt.toy_jwt) (P:=Attestation.toy_platform) (W:=toy_machine) (XS:=Sdk.toy_xmlsec) (NV:=Nvml.toy_nvml) (NQ:=Nscq.toy_nscq)
    (SL:=Loggers.toy_spdlog) (U:=unit) (WU:=unit) (V:=unit) (WV:=unit) (fun _ => 1500) (fun _ => 1500) "1" FromNvml 0%nat [] toy_start
    toy_lines toy_main.2) as (source & nonce & es & cs & text & token & buf & _ & Hnonce & _ & Hne & _ & _ & Hgood & _ & Hleak).
  - exact toy_served_rego.
  - reflexivity.
  - reflexivity.
  - exact toy_main_good.
  - exists cs, text, token, buf. injection Hnonce as <-. exact (conj Hne (conj Hgood Hleak)).
Defined.

Abbreviation toy_spec := (spec_evidence (OSSL:=toy_openssl_bytes) (XML:=Attestation.toy_xml) (env:=toy_served) (B64:=Base64.toy_base64)
  (L:=Jwt.toy_jwt) (P:=Attestation.toy_platform) (W:=toy_machine) (U:=unit) (WU:=unit) (V:=unit) (WV:=unit) (fun _ => 1500)
  (fun _ => 1500) FromNvml (world_of toy_start)).

Lemma toy_spec_made : exists r, toy_spec = Some r.
Proof. destruct toy_spec as [r|] eqn:E; [by exists r|]. vm_compute in E. discriminate. Qed.

Lemma evidence_programs_witness :
  exists r, toy_spec = Some r /\ Loggers.handles (p_lib toy_main.2) = ∅ /\
    Cli.leaked (OSSL:=toy_openssl_bytes) ∅ (o_str <$> (r_strings r).*2) (heap (p_api toy_main.2)).
Proof.
  pose proof (evidence_programs (OSSL:=toy_openssl_bytes) (XML:=Attestation.toy_xml) (env:=toy_served) (B64:=Base64.toy_base64)
    (L:=Jwt.toy_jwt) (P:=Attestation.toy_platform) (W:=toy_machine) (XS:=Sdk.toy_xmlsec) (NV:=Nvml.toy_nvml) (NQ:=Nscq.toy_nscq)
    (SL:=Loggers.toy_spdlog) (U:=unit) (WU:=unit) (V:=unit) (WV:=unit) (fun _ => 1500) (fun _ => 1500) "1" FromNvml 0%nat [] toy_start
    eq_refl eq_refl) as H.
  rewrite toy_main_good in H. destruct toy_spec_made as [r Hr]. rewrite Hr in H.
  exists r. rewrite Hr. destruct H as (_ & Hh & Hl & _). exact (conj eq_refl (conj Hh Hl)).
Defined.

End EvidenceExamples.
