(* ===== verification/Offline.v ===== *)
(** * Offline: what verification does to its store and its client

    A local verification touches the RIM store and the OCSP client only through
    their one operation, so it stays every invariant that this operation stays.
    The file store and the client of status proofs (Attestation) do not change,
    and so an attestation with them makes no request to any service. *)

From S2P Require Import Prelude Errors Utils OpenSsl StatusBundle NvCache Ocsp X509Chain Json Claims Evaluator DetachedEat.
From S2P Require Import Http Jwt Certs Base64 Rim Report GpuEvidence SwitchEvidence Verify GpuVerify SwitchVerify.
From S2P Require Import Attestation.

Module Offline.

(** [m] does not leave [I]. *)
Definition stays {S A : Type} (I : S -> Prop) (m : sm S Error A) : Prop := forall s, I s -> I (m s).2.

Section stays.
Context {S : Type} (I : S -> Prop).

Lemma stays_lift {A : Type} (o : outcome Error A) : stays I (slift o).
Proof. by intros s Hs. Qed.

Lemma stays_ret {A : Type} (a : A) : stays I (sret a).
Proof. by intros s Hs. Qed.

Lemma stays_bind {A B : Type} (m : sm S Error A) (k : A -> sm S Error B) :
  stays I m -> (forall a, stays I (k a)) -> stays I (sbind m k).
Proof.
  intros Hm Hk s Hs. specialize (Hm s Hs). unfold sbind. destruct (m s) as [[a|e|x|] s']; try done. by apply Hk.
Qed.

End stays.

Create HintDb stays discriminated.
#[export] Hint Resolve stays_lift stays_ret : stays.

(** The body of a computation, step by step. *)
Ltac stay := repeat lazymatch goal with
  | |- stays _ (sbind _ _) => apply stays_bind; [|intros ?]
  | |- stays _ (if ?b then _ else _) => destruct b
  | |- stays _ (let '(_, _) := ?p in _) => destruct p
  | |- stays _ _ => solve [auto with stays]
  end.

Section offline.
Context `{OSSL : OpenSSL} `{XML : LibXml2} `{env : Eat.Env}.

(** ** Claims and the client *)

Section client.
Context {S : Type} `{OC : !IOcspHttpClient S} (I : S -> Prop).
Context (client_stays : forall subject issuer inter store, stays I (fun s => get_ocsp_response s subject issuer inter store)).

Lemma ocsp_loop_stays path store idxs : forall intermediates o b,
  stays I (fun s => X509CertChain.ocsp_loop path store idxs s intermediates o b).
Proof.
  induction idxs as [|i idxs IH]; intros intermediates o b s Hs; cbn; [done|].
  destruct (vget path i) as [subject| | |]; [|done..]. destruct (vget path (i + 1)) as [issuer| | |]; [|done..].
  pose proof (client_stays (Some subject) (Some issuer) intermediates store s Hs) as Hc. cbn in Hc.
  destruct (get_ocsp_response _ _ _ _ _) as [r s']. destruct r as [r| | |]; try done.
  destruct (X509CertChain.merge_response b o r) as [o'| | |]; try done.
  destruct sk_X509_insert_ok; [|done]. by apply IH.
Qed.

Lemma chain_claims_stay now c : stays I (X509CertChain.generate_cert_chain_claims now c).
Proof.
  intros s Hs. unfold X509CertChain.generate_cert_chain_claims, X509CertChain.generate_ocsp_claims_for_path.
  destruct (X509CertChain.calculate_min_expiration_time c) as [[]| | |]; try done. destruct (X509CertChain.verify c) as [path| | |]; try done.
  destruct (X509CertChain.m_trust_store c) as [store|]; [|done]. destruct (negb _); [done|].
  pose proof (ocsp_loop_stays path (Some store) (X509CertChain.subject_indices (X509CertChain.m_type c) path)
    [] OCSPClaims_default false s Hs) as Hk. cbn in Hk.
  destruct (X509CertChain.ocsp_loop _ _ _ _ _ _ _) as [r s']. exact Hk.
Qed.

#[local] Hint Resolve chain_claims_stay : stays.

Lemma rim_claims_stay now d policy : stays I (Rim.generate_rim_claims now d policy).
Proof. unfold Rim.generate_rim_claims. stay. Qed.

Lemma gpu_claims_stay now e r : stays I (GpuEvidence.generate_gpu_evidence_claims now e r).
Proof. unfold GpuEvidence.generate_gpu_evidence_claims, GpuEvidence.generate_attestation_report_claims. stay. Qed.

Lemma switch_claims_stay now e r : stays I (SwitchEvidence.generate_switch_evidence_claims now e r).
Proof. unfold SwitchEvidence.generate_switch_evidence_claims, SwitchEvidence.generate_attestation_report_claims. stay. Qed.

End client.

(** ** The local verifiers *)

Section local.
Context {R S : Type} `{RS : !Rim.IRimStore R} `{OC : !IOcspHttpClient S} (IR : R -> Prop) (IS : S -> Prop).
Context (store_stays : forall rim_id, stays IR (fun r => Rim.get_rim r rim_id)).
Context (client_stays : forall subject issuer inter store, stays IS (fun s => get_ocsp_response s subject issuer inter store)).

Definition within (v : vstate (R:=R) (S:=S)) : Prop := IR (rims v) /\ IS (ocsp v).

Lemma on_rims_stay rim_id : stays within (on_rims (fun r => Rim.get_rim r rim_id)).
Proof.
  intros v [Hr Hs]. unfold on_rims. pose proof (store_stays rim_id _ Hr) as Hk. cbn in Hk.
  by destruct (Rim.get_rim (rims v) rim_id) as [o r].
Qed.

Lemma on_ocsp_stay {A : Type} (f : sm S Error A) : stays IS f -> stays within (on_ocsp f).
Proof. intros Hf v [Hr Hs]. unfold on_ocsp. specialize (Hf _ Hs). by destruct (f (ocsp v)) as [o s]. Qed.

Lemma append_stay c : stays within (append_claims c).
Proof. by intros v Hv. Qed.

Lemma eat_stay {A : Type} (f : vstate (R:=R) (S:=S) -> outcome Error A) : stays within (fun v => (f v, v)).
Proof. by intros v Hv. Qed.

#[local] Hint Resolve on_rims_stay on_ocsp_stay append_stay rim_claims_stay gpu_claims_stay switch_claims_stay : stays.

Lemma gpu_loop_stays clock policy evidence : forall k, stays within (GpuVerify.verify_loop clock k policy evidence).
Proof.
  induction evidence as [|e evidence IH]; intros k; cbn [GpuVerify.verify_loop]; [apply stays_ret|].
  apply stays_bind; [|intros c; apply stays_bind; [auto with stays|intros _; apply IH]].
  unfold GpuVerify.verify_one, GpuVerify.set_driver_rim_claims, GpuVerify.set_vbios_rim_claims. stay.
Qed.

Lemma gpu_verification_stays clock options evidence policy want :
  stays within (GpuVerify.verify_evidence clock options evidence policy want).
Proof.
  unfold GpuVerify.verify_evidence, GpuVerify.generate_claims_v3. destruct (bool_decide _); [|apply stays_ret].
  apply stays_bind; [apply gpu_loop_stays|]. intros _. destruct want; [apply eat_stay|apply stays_ret].
Qed.

Lemma switch_loop_stays clock policy evidence : forall k, stays within (SwitchVerify.verify_loop clock k policy evidence).
Proof.
  induction evidence as [|e evidence IH]; intros k; cbn [SwitchVerify.verify_loop]; [apply stays_ret|].
  apply stays_bind; [|intros c; apply stays_bind; [auto with stays|intros _; apply IH]].
  unfold SwitchVerify.verify_one, SwitchVerify.set_vbios_rim_claims. stay.
Qed.

Lemma switch_verification_stays clock options evidence policy want :
  stays within (SwitchVerify.verify_evidence clock options evidence policy want).
Proof.
  unfold SwitchVerify.verify_evidence, SwitchVerify.generate_claims_v3. destruct (Rim.switch_claims_version policy).
  apply stays_bind; [apply switch_loop_stays|]. intros _. destruct want; [apply eat_stay|apply stays_ret].
Qed.

End local.

(** ** Attestation *)

Section attestation.
Import Attestation.
Context `{B64 : Base64Lib} `{L : JwtLib} `{P : Http.Platform} `{W : World}.
Context {U WU V WV : Type} `{RS : !Rim.IRimStore (U * WU)} `{OC : !IOcspHttpClient (V * WV)}.

(** A verifier that reads files and status proofs. *)
Definition verifier_offline (v : verifier (U:=U) (V:=V)) : Prop :=
  exists path client options, v = LocalVerifier (FilesystemRimStore path) (RawOcspClient client) options.

(** The verifiers of a context that are used are of this kind. *)
Definition context_offline (c : AttestationContext (U:=U) (V:=V)) : Prop :=
  (m_gpu_enabled c = true -> exists v, m_gpu_verifier c = Some v /\ verifier_offline v) /\
  (m_switch_enabled c = true -> exists v, m_switch_verifier c = Some v /\ verifier_offline v).

Definition worlds (s : state (U:=U) (WU:=WU) (V:=V) (WV:=WV)) := (rim_world s, ocsp_world s, nras_requests s).

Lemma file_store_stays path w rim_id :
  stays (fun x : rim_store * (shared string * WU) => x = (FilesystemRimStore (U:=U) path, w)) (fun x => Rim.get_rim x rim_id).
Proof. by intros r ->. Qed.

Lemma raw_client_stays client w subject issuer inter store :
  stays (fun x : ocsp_client * (shared NvOcspResponse * WV) => x = (RawOcspClient (V:=V) client, w))
    (fun x => get_ocsp_response x subject issuer inter store).
Proof. by intros s ->. Qed.

(** The state of a store, or of a client, is what it was. *)
Abbreviation as_before path client s :=
  (within (R:=rim_store * (shared string * WU)) (S:=ocsp_client * (shared NvOcspResponse * WV))
     (fun x => x = (FilesystemRimStore path, rim_world s)) (fun x => x = (RawOcspClient client, ocsp_world s))).

Lemma run_local_quiet {A : Type} path client (f : sm vstate Error A) (s : state (U:=U) (WU:=WU) (V:=V) (WV:=WV)) :
  stays (as_before path client s) f -> worlds (run_local (FilesystemRimStore path) (RawOcspClient client) f s).2 = worlds s.
Proof.
  intros Hf. unfold run_local.
  pose proof (Hf (mk_vstate (FilesystemRimStore path, rim_world s) (RawOcspClient client, ocsp_world s) (claims s))
    (conj eq_refl eq_refl)) as [Hr Ho].
  destruct (f _) as [o v]. cbn in *. unfold worlds. cbn. by rewrite Hr, Ho.
Qed.

Lemma attest_gpus_quiet clock clock_ms nonce want (s : state (U:=U) (WU:=WU) (V:=V) (WV:=WV)) v :
  m_gpu_verifier (context s) = Some v -> verifier_offline v ->
  worlds (attest_gpus clock clock_ms nonce want s).2 = worlds s.
Proof.
  intros Hv (path & client & options & ->). unfold attest_gpus, get_state, sbind. cbn. rewrite Hv.
  destruct (m_gpu_evidence_source (context s)) as [source|]; [|done]. cbn.
  destruct (gpu_get_evidence source nonce) as [es|e|x|]; try done. cbn.
  apply run_local_quiet, gpu_verification_stays; [apply file_store_stays|apply raw_client_stays].
Qed.

Lemma attest_switches_quiet clock clock_ms nonce want (s : state (U:=U) (WU:=WU) (V:=V) (WV:=WV)) v :
  m_switch_verifier (context s) = Some v -> verifier_offline v ->
  worlds (attest_switches clock clock_ms nonce want s).2 = worlds s.
Proof.
  intros Hv (path & client & options & ->). unfold attest_switches, get_state, sbind. cbn. rewrite Hv.
  destruct (m_switch_evidence_source (context s)) as [source|]; [|done]. cbn.
  destruct (switch_get_evidence source nonce) as [es|e|x|]; try done. cbn.
  apply run_local_quiet, switch_verification_stays; [apply file_store_stays|apply raw_client_stays].
Qed.

Lemma apply_policy_quiet text err (s : state (U:=U) (WU:=WU) (V:=V) (WV:=WV)) : (apply_policy text err s).2 = s.
Proof.
  unfold apply_policy, get_state, sbind. cbn. destruct (m_claims_evaluator (context s)) as [policy|]; [|done].
  assert ((let (o, s') := slift (evaluate policy (claims s)) s in
           match o with
           | Ret b => sret (E:=Error) (text, if b : bool then None else Some RelyingPartyPolicyMismatch) s'
           | Err e => (Err e, s') | Throw x => (Throw x, s') | UB => (UB, s')
           end).2 = s) as He by by cbn; destruct (evaluate policy (claims s)).
  destruct err as [[]|]; first [exact He | done].
Qed.

Lemma verdict_quiet m (s0 : state (U:=U) (WU:=WU) (V:=V) (WV:=WV)) :
  worlds (sbind m (fun '(text, err) => apply_policy text err) s0).2 = worlds (m s0).2.
Proof. unfold sbind. destruct (m s0) as [[[text err]|e|x|] s1]; try done. by rewrite apply_policy_quiet. Qed.

(** Whatever the evidence is, and however the attestation ends. *)
Lemma attest_quiet clock clock_ms nonce want (s : state (U:=U) (WU:=WU) (V:=V) (WV:=WV)) :
  context_offline (initialized (context s)) ->
  worlds (attest_device clock clock_ms nonce want s).2 = worlds s.
Proof.
  intros [Hg Hsw]. unfold attest_device, on_context. unfold sbind at 1. rewrite ensure_init_eq.
  unfold sbind at 1, slift at 1. destruct (choose_nonce nonce) as [n|e|x|]; try done.
  unfold sbind at 1. cbn [set_claims]. unfold sbind at 1. cbn [get_state]. rewrite verdict_quiet.
  cbn [context]. destruct (m_gpu_enabled (initialized (context s))) eqn:Eg.
  - destruct (Hg eq_refl) as (v & Hv & Hoff). by erewrite attest_gpus_quiet.
  - destruct (m_switch_enabled (initialized (context s))) eqn:Es; [|done].
    destruct (Hsw eq_refl) as (v & Hv & Hoff). by erewrite attest_switches_quiet.
Qed.

End attestation.
End offline.
End Offline.
