(* ===== verification/CliMain.v ===== *)
(** * CliMain: what a run of nvattest means

    The subcommands as a whole (Cli): the handles are gone (attest_calls_runs,
    CliCollect), so a run is what the options amount to; then what an exit
    status of zero means, what a build that only verifies can do, and what the
    offline mode does not do. *)

From S2P Require Import Prelude Errors Utils OpenSsl StatusBundle NvCache Ocsp X509Chain Json Claims Evaluator DetachedEat.
From S2P Require Import Http Jwt Certs Base64 Rim Report GpuEvidence SwitchEvidence Verify GpuVerify SwitchVerify.
From S2P Require Import Driver NvmlClient NscqClient Sdk Attestation Nvat Locals CorelibClient Collectors CliOptions CliOutput Cli CliCollect Offline.

Module Program.
Import Nvat Locals Cli Collect.

Section program.
Context `{OSSL : OpenSSL} `{XML : LibXml2} `{env : Eat.Env} `{B64 : Base64Lib} `{L : JwtLib}.
Context `{P : Http.Platform} `{W : Attestation.World}.
Context {U WU V WV : Type} `{RS : !Rim.IRimStore (U * WU)} `{OC : !IOcspHttpClient (V * WV)}.
Context `{XS : XmlSec} `{DL : DynamicLinker} `{NV : Nvml.NvmlLib} `{NQ : Nscq.NscqLib} `{BD : Build}.

Abbreviation context_t := (Attestation.AttestationContext (U:=U) (V:=V)).
Abbreviation process := (Cli.process (U:=U) (WU:=WU) (V:=V) (WV:=WV)).

Section run.
Context (clock clock_ms : nat -> Z) (collection : Options.EvidenceCollectionOptions).
Context (verification : Options.EvidenceVerificationOptions) (policy : Options.EvidencePolicyOptions).

Abbreviation spec_calls := (Cli.spec_calls clock clock_ms collection verification policy).
Abbreviation spec_leaks := (Cli.spec_leaks clock clock_ms collection verification policy).
Abbreviation spec_context := (Cli.spec_context collection verification policy).
Abbreviation attest := (Cli.attest clock clock_ms collection verification policy).
Abbreviation platform := (with_nras_url verification (offline verification)).

(** ** The context of the options *)

Import Attestation.

(** What the options of the device and the policy determine. *)
Record preset (a : context_t) : Prop := {
  pr_gpu_verifier : m_gpu_verifier a = None;
  pr_switch_verifier : m_switch_verifier a = None;
  pr_policy : m_evidence_policy a =
    Rim.mk_policy (Rim.gpu_claims_version Rim.EvidencePolicy_default) (Rim.switch_claims_version Rim.EvidencePolicy_default)
      (Options.verify_rim_signature policy) (Options.verify_rim_cert_chain policy);
  pr_gpu : m_gpu_enabled a = negb (bool_decide (Options.device collection = "nvswitch"));
  pr_switch : m_switch_enabled a = bool_decide (Options.device collection = "nvswitch");
  pr_gpu_file : Options.device collection = "gpu" -> Options.gpu_evidence_source collection = "file" ->
    exists es, m_gpu_evidence_source a = Some (GpuEvidenceFromJson es);
  pr_gpu_nvml : Options.gpu_evidence_source collection <> "file" -> m_gpu_evidence_source a = None;
  pr_switch_nscq : Options.switch_evidence_source collection <> "file" -> m_switch_evidence_source a = None;
  pr_switch_file : Options.device collection = "nvswitch" -> Options.switch_evidence_source collection = "file" ->
    exists es, m_switch_evidence_source a = Some (SwitchEvidenceFromJson es);
}.

Lemma device_preset options (a : context_t) :
  spec_device collection (spec_policy policy
    (match options with None => new_context | Some o => set_default_http_options new_context o end)) = Ret a ->
  preset a /\ m_claims_evaluator a = None.
Proof.
  set (c0 := match options with None => _ | Some _ => _ end).
  assert (m_gpu_verifier c0 = None /\ m_switch_verifier c0 = None /\ m_claims_evaluator c0 = None /\ m_gpu_enabled c0 = true /\
    m_switch_enabled c0 = false /\ m_gpu_evidence_source c0 = None /\ m_switch_evidence_source c0 = None)
    as (G & S & E & Gp & Sw & So & Ss) by by destruct options.
  unfold spec_device. case_bool_decide as Dg.
  - destruct (negb _); [|done]. case_bool_decide as Df.
    + unfold set_gpu_evidence_source_json_file.
      destruct (GpuEvidence.file_source_create _ _ _) as [es|e|x|]; [|done..]. intros [= <-].
      split; [|done]. split; cbn; rewrite ?Dg; try done. by eexists.
    + intros [= <-]. split; [|done]. split; cbn; rewrite ?Dg; try done.
  - case_bool_decide as Ds.
    + case_bool_decide as Df.
      * unfold set_switch_evidence_source_json_file.
        destruct (SwitchEvidence.file_source_create _ _ _) as [es|e|x|]; [|done..]. intros [= <-].
        split; [|done]. split; cbn; rewrite ?Ds; try done. by eexists.
      * intros [= <-]. split; [|done]. split; cbn; rewrite ?Ds; try done.
    + intros [= <-]. split; [|done]. split; cbn; rewrite ?bool_decide_false by done; done.
Qed.

Lemma key_preset (a : context_t) :
  preset a -> preset (spec_key verification a) /\ m_claims_evaluator (spec_key verification a) = m_claims_evaluator a.
Proof. intros Hp. unfold spec_key. destruct (_ && _); [|done]. destruct Hp; by split. Qed.

Lemma rims_preset options (a b : context_t) :
  preset a -> spec_rims verification options a = Ret b ->
  preset b /\ m_claims_evaluator b = m_claims_evaluator a /\
  (offline verification = true -> Options.verifier verification = "local" ->
   m_default_rim_store b = Some (FilesystemRimStore (Options.rim_path verification))).
Proof.
  intros Hp. unfold spec_rims. case_bool_decide; [|by intros [= <-]].
  destruct (_ && _) eqn:Er.
  - apply andb_true_iff in Er as [_ Hoff%negb_true_iff]. intros [= <-]. split; [destruct Hp; by split|]. split; [done|]. by rewrite Hoff.
  - clear Er. case_bool_decide; [|done]. intros [= <-]. split; [destruct Hp; by split|]. by split.
Qed.

Lemma ocsp_preset options (a b : context_t) :
  preset a -> spec_ocsp verification options a = Ret b ->
  preset b /\ m_claims_evaluator b = m_claims_evaluator a /\ m_default_rim_store b = m_default_rim_store a /\
  (offline verification = true -> exists client,
     m_default_ocsp_client b = Some (RawOcspClient client) /\ offline_client (V:=V) verification = Ret (RawOcspClient client)).
Proof.
  intros Hp. unfold spec_ocsp. destruct (offline verification) eqn:Eoff.
  - intros (client & Hc & [= <-])%obind_Ret. split; [destruct Hp; by split|]. split; [done|]. split; [done|]. intros _.
    pose proof Hc as Hc'. unfold offline_client in Hc'. apply obind_Ret in Hc' as (bundle & _ & Hc').
    apply obind_Ret in Hc' as (t & _ & Hc'). destruct (negb _); [|done].
    apply obind_Ret in Hc' as (raw & _ & [= <-]). by exists raw.
  - destruct (negb _); intros [= <-]; (split; [destruct Hp; by split|]); by split.
Qed.

Lemma relying_preset (a b : context_t) :
  preset a -> spec_relying_party verification a = Ret b ->
  preset b /\ m_default_rim_store b = m_default_rim_store a /\ m_default_ocsp_client b = m_default_ocsp_client a /\
  (Options.relying_party_policy verification = "" -> m_claims_evaluator b = m_claims_evaluator a).
Proof.
  intros Hp. unfold spec_relying_party. case_bool_decide as E; [by intros [= <-]|].
  destruct (read_file _); [|done]. intros [= <-]. split; [destruct Hp; by split|]. by split.
Qed.

Lemma verifier_preset (a b : context_t) :
  preset a -> spec_verifier verification a = Ret b ->
  preset b /\ m_default_rim_store b = m_default_rim_store a /\ m_default_ocsp_client b = m_default_ocsp_client a /\
  m_claims_evaluator b = m_claims_evaluator a /\
  m_default_verifier_type b = if bool_decide (Options.verifier verification = "local") then Verify.Local else Verify.Remote.
Proof.
  intros Hp. unfold spec_verifier. case_bool_decide as El; [|case_bool_decide as Er; [|done]]; intros [= <-].
  all: split; [destruct Hp as [Hg Hs]; split; cbn; try done; by destruct (bool_decide (m_default_verifier_type a = _))|]; by split_and!.
Qed.

(** A context that was configured. *)
Record configured_as (a : context_t) : Prop := {
  cf_preset : preset a;
  cf_type : m_default_verifier_type a = if bool_decide (Options.verifier verification = "local") then Verify.Local else Verify.Remote;
  cf_evaluator : Options.relying_party_policy verification = "" -> m_claims_evaluator a = None;
  cf_offline : offline verification = true ->
    Options.verifier verification = "local" /\ m_default_rim_store a = Some (FilesystemRimStore (Options.rim_path verification)) /\
    exists client, m_default_ocsp_client a = Some (RawOcspClient client) /\ offline_client (V:=V) verification = Ret (RawOcspClient client);
}.

Lemma spec_context_facts a : spec_context = Ret a -> configured_as a.
Proof.
  unfold Cli.spec_context. destruct (negb (offline verification && _)) eqn:Eg; [|done].
  intros (options & _ & (c1 & [H1 E1]%device_preset & H)%obind_Ret)%obind_Ret.
  apply key_preset in H1 as [H1' E1']. apply obind_Ret in H as (c2 & (H2 & E2 & Hr)%rims_preset & H); [|done].
  apply obind_Ret in H as (c3 & (H3 & E3 & Hr3 & Ho)%ocsp_preset & H); [|done].
  apply obind_Ret in H as (c4 & (H4 & Hr4 & Ho4 & E4)%relying_preset & H); [|done].
  apply verifier_preset in H as (H5 & Hr5 & Ho5 & E5 & Ht); [|done].
  split; [done|done| |].
  - intros Hrp. rewrite E5, E4, E3, E2, E1' by done. done.
  - intros Hoff. rewrite Hoff in Eg. cbn [andb] in Eg.
    apply negb_true_iff, orb_false_iff in Eg as [Hl%negb_false_iff%bool_decide_eq_true _].
    split; [done|]. rewrite Hr5, Hr4, Hr3, Ho5, Ho4. split; [by apply Hr|]. by apply Ho.
Qed.

(** ** The calls without handles *)

(** Every address in use is below the next one. *)
Definition fresh (a : Cli.process (U:=U) (WU:=WU) (V:=V) (WV:=WV)) : Prop :=
  forall l, is_Some (heap (p_api a) !! l) -> (l < next (p_api a))%nat.

Lemma on_api_eq {A : Type} (m : sm _ Error A) (a : process) :
  on_api m a = ((m (p_api a)).1, mk_process (p_sdk a) (m (p_api a)).2).
Proof. unfold on_api. by destruct (m (p_api a)). Qed.

Lemma init_sdk_api (a : process) : p_api (init_sdk a).2 = p_api a.
Proof. unfold init_sdk, on_sdk. by destruct (c_call _ (p_sdk a)). Qed.

(** [attest] returns the code of an initialization that fails, and otherwise
    what the options amount to. *)
Lemma attest_refines_lemma (a b : process) r :
  fresh a -> attest a = (r, b) -> r <> UB ->
  match (init_sdk a).1 with
  | Ret _ =>
      r = to_output Output.failed (spec_calls (world_of (p_api a))).1 /\ p_sdk b = p_sdk (init_sdk a).2 /\
      world_of (p_api b) = (spec_calls (world_of (p_api a))).2 /\
      leaked (heap (p_api a)) (spec_leaks (world_of (p_api a))) (heap (p_api b))
  | Err e => r = Ret (Output.failed e) /\ p_api b = p_api a
  | Throw x => r = Throw x /\ p_api b = p_api a
  | UB => False
  end.
Proof.
  intros Hf. unfold Cli.attest, resulting, sbind. pose proof (init_sdk_api a) as Hi.
  destruct (init_sdk a) as [[[]|e|x|] a1]; cbn [fst snd] in *; [|intros [= <- <-]; done..].
  rewrite on_api_eq. rewrite Hi.
  destruct (attest_calls_runs clock clock_ms collection verification policy (heap (p_api a)) (world_of (p_api a))
              (p_api a) (scope_start _ Hf)) as (H' & w' & M' & Hs & Hrun & Hfin).
  set (st := attest_calls _ _ _ _ _ (p_api a)) in *.
  assert (forall o, o = st.1 -> o <> UB ->
    world_of (st.2) = (spec_calls (world_of (p_api a))).2 /\
    leaked (heap (p_api a)) (spec_leaks (world_of (p_api a))) (heap st.2)) as Hend.
  { intros o -> Ho. destruct (Hfin Ho) as [Hl Hk]. specialize (Hs Ho). unfold Cli.spec_calls. rewrite <- Hrun.
    split; [apply (sc_world _ _ _ _ Hs)|]. by rewrite (scope_end _ _ _ _ Hs Hk). }
  assert (st.1 = (spec_calls (world_of (p_api a))).1) as Ho by (unfold Cli.spec_calls; by rewrite <- Hrun).
  rewrite <- Ho. destruct st as [o st']. cbn [fst snd] in *. destruct o as [out|e|x|]; intros [= <- <-] Hr; [| | |done].
  all: destruct (Hend _ eq_refl) as [? ?]; [done|]; by split_and!.
Qed.

(** The same for [collect_evidence], which leaves the heap as it was. *)
Lemma collect_refines_lemma (a b : process) r :
  fresh a -> Cli.collect_evidence collection a = (r, b) -> r <> UB ->
  match (init_sdk a).1 with
  | Ret _ =>
      r = to_output (fun e => Output.mk_collected e "") (spec_collect collection) /\ p_sdk b = p_sdk (init_sdk a).2 /\
      world_of (p_api b) = world_of (p_api a) /\ heap (p_api b) = heap (p_api a)
  | Err e => r = Ret (Output.mk_collected e "") /\ p_api b = p_api a
  | Throw x => r = Throw x /\ p_api b = p_api a
  | UB => False
  end.
Proof.
  intros Hf. unfold Cli.collect_evidence, resulting, sbind. pose proof (init_sdk_api a) as Hi.
  destruct (init_sdk a) as [[[]|e|x|] a1]; cbn [fst snd] in *; [|intros [= <- <-]; done..].
  rewrite on_api_eq. rewrite Hi.
  destruct (collect_calls_runs collection (heap (p_api a)) (world_of (p_api a)) (p_api a) (scope_start _ Hf))
    as (H' & w' & M' & Hs & Hrun & Hfin).
  set (st := collect_calls collection (p_api a)) in *. rewrite <- Hrun.
  assert (st.1 <> UB -> world_of st.2 = world_of (p_api a) /\ heap st.2 = heap (p_api a)) as Hend.
  { intros Ho. destruct (Hfin Ho) as (-> & -> & Hk). specialize (Hs Ho).
    split; [apply (sc_world _ _ _ _ Hs)|]. by apply (scope_end _ _ _ _ Hs). }
  destruct st as [o st']. cbn [fst snd] in *. destruct o as [out|e|x|]; intros [= <- <-] Hr; [| | |done].
  all: destruct Hend as [? ?]; [done|]; by split_and!.
Qed.

(** ** Exit statuses *)

Section handled.
Context (common : Options.CommonOptions) (messages : list (Z * string)).

Abbreviation main := (Cli.main clock clock_ms collection verification policy common messages).

(** The shell sees eight bits of a code, and no code but NVAT_RC_OK has eight
    zeros. *)
Lemma exit_status_ok e : exit_status (error_code e) = 0 -> e = Ok.
Proof. by destruct e. Qed.

Lemma refused_status only p (a b : process) pr :
  only && requests_hardware_collection collection verification p = true -> main only p a = (Ret pr, b) ->
  exit_status (exit_code pr) <> 0.
Proof. intros E. unfold Cli.main. rewrite E. by intros [= <- <-]. Qed.

(** What the attest subcommand prints and returns is the result of [attest]. *)
Lemma handled_attest (a b : process) pr :
  handle_attest_subcommand clock clock_ms collection verification policy common messages a = (Ret pr, b) ->
  exists output a1, attest a = (Ret output, a1) /\ p_api b = p_api a1 /\
    exit_code pr = error_code (Output.result_code output) /\
    standard_output pr = if bool_decide (Options.format common = "json") then Json (Output.to_json output) else Nothing.
Proof.
  unfold handle_attest_subcommand, sbind. destruct (attest a) as [[output|e|x|] a1]; try done.
  intros H. exists output, a1. split; [done|].
  assert (p_api (shutdown_sdk a1).2 = p_api a1) as Hs.
  { unfold shutdown_sdk, on_sdk. destruct (Sdk.nvat_sdk_shutdown (p_sdk a1)) as [[[]|e|x|] k]; done. }
  destruct (shutdown_sdk a1) as [[[]|e|x|] a2]; try done. cbn in Hs. injection H as <- <-. cbn. by split_and!.
Qed.

(** What a run returned when it returned a success. *)
Lemma spec_success w output w' :
  spec_calls w = (Ret output, w') -> Output.result_code output = Ok ->
  exists c n text s serialized,
    spec_context = Ret c /\ spec_nonce collection = Ret n /\
    attest_device (P:=platform) clock clock_ms n true (mk_state c w.1.1 w.1.2 w.2 []) = (Ret (text, None), s) /\
    Collection.serialize_json Eat.json_dump (claims s) = Ret serialized /\
    output = Output.mk_output Ok (c_str serialized) (c_str (default "" text)).
Proof.
  unfold Cli.spec_calls, run_from. destruct spec_context as [c|e|x|]; try done. cbn [obind].
  destruct (spec_nonce collection) as [n|e|x|]; try done. cbn [obind]. unfold spec_attest.
  destruct (attest_device (P:=platform) clock clock_ms n true (mk_state c w.1.1 w.1.2 w.2 [])) as [o s] eqn:Ea.
  destruct o as [[text status]|e|x|]; try done. cbn [returned obind].
  destruct (Collection.serialize_json Eat.json_dump (claims s)) as [serialized|e|x|] eqn:Es; try done. cbn [returned obind].
  intros [= <- _] Hok. cbn in Hok.
  assert (status = None) as -> by by destruct (attest_status _ _ _ _ _ _ _ _ Ea) as [-> | [-> | ->]].
  by exists c, n, text, s, serialized.
Qed.

(** [nlohmann::json::parse] refuses the empty text. *)
Definition parse_documented : Prop := Eat.json_parse "" = None.

(** A result with claims did not come from a failure. *)
Lemma claims_printed output j cl :
  parse_documented -> Json (Output.to_json output) = Json j -> jfield j "claims" = Some cl -> cl <> JObject [] ->
  Output.result_code output = Ok -> (forall e, output <> Output.failed e) /\ cl = Output.parsed_or_empty (Output.claims output).
Proof.
  intros Hp [= <-] Hj Hcl Hok. assert (cl = Output.parsed_or_empty (Output.claims output)) as ->.
  { unfold Output.to_json in Hj. rewrite Hok, bool_decide_true in Hj by by left. by injection Hj. }
  split; [|done]. intros e ->. apply Hcl. cbn. unfold Output.parsed_or_empty. by rewrite Hp.
Qed.

(** The run behind claims that are printed with the status 0. *)
Lemma printed_success only cp (a b : process) pr j cl :
  parse_documented -> fresh a ->
  main only (mk_parsed false true cp) a = (Ret pr, b) ->
  exit_status (exit_code pr) = 0 -> standard_output pr = Json j -> jfield j "claims" = Some cl -> cl <> JObject [] ->
  exists c n text s serialized,
    spec_context = Ret c /\ configured_as c /\ spec_nonce collection = Ret n /\
    attest_device (P:=platform) clock clock_ms n true
      (mk_state c (world_of (p_api a)).1.1 (world_of (p_api a)).1.2 (world_of (p_api a)).2 []) = (Ret (text, None), s) /\
    Collection.serialize_json Eat.json_dump (claims s) = Ret serialized /\ cl = Output.parsed_or_empty (c_str serialized).
Proof.
  intros Hparse Hf. unfold Cli.main.
  destruct (only && _); [by intros [= <- <-]|]. cbn [version_parsed attest_parsed].
  intros (output & a1 & Ha & _ & Hcode & Hjson)%handled_attest Hex Hout Hj Hcl.
  rewrite Hcode in Hex. apply exit_status_ok in Hex.
  rewrite Hjson in Hout. destruct (bool_decide (Options.format common = "json")); [|done].
  destruct (claims_printed _ _ _ Hparse Hout Hj Hcl Hex) as [Hne ->].
  pose proof (attest_refines_lemma _ _ _ Hf Ha ltac:(done)) as Hr.
  destruct (init_sdk a).1 as [[]|e|x|]; [|by destruct Hr as [[= ->] _]; destruct (Hne e)|by destruct Hr|done].
  destruct Hr as (Ho & _). destruct (spec_calls (world_of (p_api a))) as [o w'] eqn:Es. cbn in Ho.
  destruct o as [o|e|x|]; cbn in Ho; [|by injection Ho as ->; destruct (Hne e)|done..]. injection Ho as <-.
  apply spec_success in Es as (c & n & text & s & serialized & Hc & Hn & Hrun & Hser & ->); [|done].
  exists c, n, text, s, serialized. pose proof (spec_context_facts _ Hc). by split_and!.
Qed.

(** C3: nvattest attest, for GPUs, a local verifier and no policy of the relying
    party, exits with 0 and prints claims only if the evidence was verified.
    The context is the one the options amount to; the evidence is what its
    source gave for the nonce (a file is only used for the nonce it carries);
    for every item there are claims of an item that was authenticated, is fresh
    and was compared with verified RIMs, by the policy of the options; every
    device is good; and the claims that are printed are these. *)
Theorem nvattest_gpu_sound only cp (a b : process) pr j cl :
  rego_documented -> parse_documented -> fresh a ->
  Options.device collection = "gpu" -> Options.verifier verification = "local" ->
  Options.relying_party_policy verification = "" ->
  main only (mk_parsed false true cp) a = (Ret pr, b) ->
  exit_status (exit_code pr) = 0 -> standard_output pr = Json j -> jfield j "claims" = Some cl -> cl <> JObject [] ->
  exists c n n' source evidence cs serialized,
    spec_context = Ret c /\ spec_nonce collection = Ret n /\ choose_nonce n = Ret n' /\
    gpu_get_evidence source n' = Ret evidence /\
    (if bool_decide (Options.gpu_evidence_source collection = "file")
     then Forall (fun e => GpuEvidence.m_nonce e = n') evidence else source = NvmlEvidenceCollector) /\
    cs <> [] /\ length cs = length evidence /\
    GpuVerify.all_verified clock (m_evidence_policy c) 0 evidence
      (mk_vstate (rim_or_default (P:=platform) c, (world_of (p_api a)).1.1)
         (ocsp_or_default (P:=platform) c, (world_of (p_api a)).1.2) []) cs /\
    Rim.verify_rim_signature (m_evidence_policy c) = Options.verify_rim_signature policy /\
    Rim.verify_rim_cert_chain (m_evidence_policy c) = Options.verify_rim_cert_chain policy /\
    Forall Policy.device_good cs /\
    Collection.serialize_json Eat.json_dump cs = Ret serialized /\ cl = Output.parsed_or_empty (c_str serialized).
Proof.
  intros Hrego Hparse Hf Hdev Hver Hrp Hmain Hex Hout Hj Hcl.
  destruct (printed_success _ _ _ _ _ _ _ Hparse Hf Hmain Hex Hout Hj Hcl)
    as (c & n & text & s & serialized & Hc & [Hp Hty Hev _] & Hn & Hrun & Hser & ->).
  set (w := world_of (p_api a)) in *.
  destruct (attest_local_gpu_lemma (P:=platform) clock clock_ms n (mk_state c w.1.1 w.1.2 w.2 []) text s (rim_or_default (P:=platform) c)
    (ocsp_or_default (P:=platform) c) (m_eat_options c) Hrego) as (n' & source & evidence & H1 & H2 & H3 & Hfile & H4 & H5 & H6 & H7).
  - cbn. by rewrite (pr_gpu _ Hp), Hdev.
  - cbn. rewrite (pr_gpu _ Hp), Hdev, (pr_gpu_verifier _ Hp). unfold new_verifier. rewrite Hty, Hver. done.
  - by apply Hev.
  - cbn. by rewrite (pr_policy _ Hp).
  - exact Hrun.
  - exists c, n, n', source, evidence, (claims s), serialized. cbn in H2. rewrite (pr_gpu _ Hp), Hdev in H2. cbn in H2.
    split_and!; try done; [|by rewrite (pr_policy _ Hp)..].
    destruct (decide (Options.gpu_evidence_source collection = "file")) as [Df|Df].
    + rewrite bool_decide_true by done. destruct (pr_gpu_file _ Hp Hdev Df) as [es He]. rewrite He in H2. injection H2 as <-. by eapply Hfile.
    + rewrite bool_decide_false by done. rewrite (pr_gpu_nvml _ Hp Df) in H2. by injection H2 as <-.
Qed.

(** C4: nvattest attest, for switches, a local verifier and no policy of the relying
    party, exits with 0 and prints claims only if the evidence was verified.
    The context is the one the options amount to; the evidence is what its
    source gave for the nonce (a file is only used for the nonce it carries);
    for every item there are claims of an item that was authenticated, is fresh
    and was compared with verified RIMs, by the policy of the options; every
    device is good; and the claims that are printed are these. *)
Theorem nvattest_switch_sound only cp (a b : process) pr j cl :
  rego_documented -> parse_documented -> fresh a ->
  Options.device collection = "nvswitch" -> Options.verifier verification = "local" ->
  Options.relying_party_policy verification = "" ->
  main only (mk_parsed false true cp) a = (Ret pr, b) ->
  exit_status (exit_code pr) = 0 -> standard_output pr = Json j -> jfield j "claims" = Some cl -> cl <> JObject [] ->
  exists c n n' source evidence cs serialized,
    spec_context = Ret c /\ spec_nonce collection = Ret n /\ choose_nonce n = Ret n' /\
    switch_get_evidence source n' = Ret evidence /\
    (if bool_decide (Options.switch_evidence_source collection = "file")
     then Forall (fun e => SwitchEvidence.m_nonce e = n') evidence else source = NscqEvidenceCollector) /\
    cs <> [] /\ length cs = length evidence /\
    SwitchVerify.all_verified clock (m_evidence_policy c) 0 evidence
      (mk_vstate (rim_or_default (P:=platform) c, (world_of (p_api a)).1.1)
         (ocsp_or_default (P:=platform) c, (world_of (p_api a)).1.2) []) cs /\
    Rim.verify_rim_signature (m_evidence_policy c) = Options.verify_rim_signature policy /\
    Rim.verify_rim_cert_chain (m_evidence_policy c) = Options.verify_rim_cert_chain policy /\
    Forall Policy.device_good cs /\
    Collection.serialize_json Eat.json_dump cs = Ret serialized /\ cl = Output.parsed_or_empty (c_str serialized).
Proof.
  intros Hrego Hparse Hf Hdev Hver Hrp Hmain Hex Hout Hj Hcl.
  destruct (printed_success _ _ _ _ _ _ _ Hparse Hf Hmain Hex Hout Hj Hcl)
    as (c & n & text & s & serialized & Hc & [Hp Hty Hev _] & Hn & Hrun & Hser & ->).
  set (w := world_of (p_api a)) in *.
  destruct (attest_local_switch_lemma (P:=platform) clock clock_ms n (mk_state c w.1.1 w.1.2 w.2 []) text s (rim_or_default (P:=platform) c)
    (ocsp_or_default (P:=platform) c) (m_eat_options c) Hrego) as (n' & source & evidence & H1 & H2 & H3 & Hfile & H4 & H5 & H6 & H7).
  - cbn. by rewrite (pr_gpu _ Hp), Hdev.
  - cbn. by rewrite (pr_switch _ Hp), Hdev.
  - cbn. rewrite (pr_switch _ Hp), Hdev, (pr_switch_verifier _ Hp). unfold new_verifier. rewrite Hty, Hver. done.
  - by apply Hev.
  - exact Hrun.
  - exists c, n, n', source, evidence, (claims s), serialized. cbn in H2. rewrite (pr_switch _ Hp), Hdev in H2. cbn in H2.
    split_and!; try done; [|by rewrite (pr_policy _ Hp)..].
    destruct (decide (Options.switch_evidence_source collection = "file")) as [Df|Df].
    + rewrite bool_decide_true by done. destruct (pr_switch_file _ Hp Hdev Df) as [es He]. rewrite He in H2. injection H2 as <-. by eapply Hfile.
    + rewrite bool_decide_false by done. rewrite (pr_switch_nscq _ Hp Df) in H2. by injection H2 as <-.
Qed.

(** ** A build that only verifies *)

(** The device's verifier is local and its evidence is from a file. *)
Definition verifies_files (c : context_t) : Prop :=
  (m_gpu_enabled c = true ->
   (exists es, m_gpu_evidence_source c = Some (GpuEvidenceFromJson es)) /\
   exists rim client options, m_gpu_verifier c = Some (LocalVerifier rim client options)) /\
  (m_switch_enabled c = true ->
   (exists es, m_switch_evidence_source c = Some (SwitchEvidenceFromJson es)) /\
   exists rim client options, m_switch_verifier c = Some (LocalVerifier rim client options)).

(** P: a build that only verifies refuses, with a status that is not 0 and
    before it does anything, every command line that asks for collection or for
    another verifier; what it runs otherwise is what any build runs, never
    collects, and attests only with a local verifier over evidence from a file. *)
Theorem verification_only_build p (a : process) :
  if requests_hardware_collection collection verification p
  then main true p a = (Ret refusal, a) /\ exit_status (exit_code refusal) <> 0
  else main true p a = main false p a /\ collect_parsed p = false /\
    (attest_parsed p = true -> forall c, spec_context = Ret c -> verifies_files (initialized (P:=platform) c)).
Proof.
  unfold Cli.main. destruct (requests_hardware_collection _ _ p) eqn:E; cbn [andb]; [by split|]. split; [done|].
  unfold requests_hardware_collection in E. destruct (collect_parsed p); [done|]. split; [done|].
  intros Hp c Hc. rewrite Hp in E. cbn [negb] in E. destruct (bool_decide (Options.verifier _ = "local")) eqn:Ev; [|done].
  pose proof (spec_context_facts _ Hc) as [Hpre Hty _ _]. rewrite Ev in Hty. cbn [negb] in E.
  split; cbn; rewrite ?(pr_gpu _ Hpre), ?(pr_switch _ Hpre), ?(pr_gpu_verifier _ Hpre), ?(pr_switch_verifier _ Hpre).
  - intros Hg. rewrite Hg. unfold new_verifier. rewrite Hty. split; [|cbn; by do 3 eexists].
    destruct (bool_decide (Options.device collection = "gpu")) eqn:Ed; [|].
    + apply negb_false_iff, bool_decide_eq_true in E. apply bool_decide_eq_true in Ed.
      destruct (pr_gpu_file _ Hpre Ed E) as [es ->]. by exists es.
    + destruct (bool_decide (Options.device collection = "nvswitch")); done.
  - intros Hs. rewrite Hs. unfold new_verifier. rewrite Hty. split; [|cbn; by do 3 eexists]. rewrite Hs in E.
    apply bool_decide_eq_true in Hs. rewrite bool_decide_false in E by by rewrite Hs.
    apply negb_false_iff, bool_decide_eq_true in E. destruct (pr_switch_file _ Hpre Hs E) as [es ->]. by exists es.
Qed.

End handled.

(** ** The offline mode *)

Lemma offline_context a :
  configured_as a -> offline verification = true -> Offline.context_offline (initialized (P:=platform) a).
Proof.
  intros [Hp Hty _ Hoff] Ho. destruct (Hoff Ho) as (Hl & Hr & client & Hc & _).
  rewrite bool_decide_true in Hty by done.
  split; cbn; rewrite ?(pr_gpu_verifier _ Hp), ?(pr_switch_verifier _ Hp); intros ->; eexists; (split; [done|]).
  all: unfold new_verifier; rewrite Hty; unfold rim_or_default, ocsp_or_default; rewrite Hr, Hc; by do 3 eexists.
Qed.

(** C17: in the offline mode no request is made to any service: not for RIMs, not
    for revocation, and not to the remote verifier, however the attestation
    ends; revocation is decided by the bundle of the options alone. *)
Theorem offline_no_requests (a b : process) r :
  fresh a -> offline verification = true -> attest a = (r, b) -> r <> UB ->
  world_of (p_api b) = world_of (p_api a) /\
  forall c : context_t, spec_context = Ret c -> exists client,
    m_default_rim_store c = Some (FilesystemRimStore (Options.rim_path verification)) /\
    m_default_ocsp_client c = Some (RawOcspClient client) /\ offline_client (V:=V) verification = Ret (RawOcspClient client).
Proof.
  intros Hf Ho Ha Hr. split.
  2: { intros c Hc. destruct (cf_offline _ (spec_context_facts _ Hc) Ho) as (_ & H1 & client & H2 & H3). by exists client. }
  pose proof (attest_refines_lemma _ _ _ Hf Ha Hr) as H.
  destruct (init_sdk a).1 as [[]|e|x|]; [|by destruct H as [_ ->]..|done].
  destruct H as (_ & _ & -> & _). unfold Cli.spec_calls, run_from.
  destruct spec_context as [c|e|x|] eqn:Ec; try done. cbn [obind].
  destruct (spec_nonce collection) as [n|e|x|]; try done. cbn [obind]. unfold spec_attest.
  pose proof (Offline.attest_quiet (P:=platform) clock clock_ms n true
    (mk_state c (world_of (p_api a)).1.1 (world_of (p_api a)).1.2 (world_of (p_api a)).2 [])) as Hq.
  cbn [context] in Hq. specialize (Hq (offline_context _ (spec_context_facts _ Ec) Ho)).
  destruct (attest_device _ _ _ _ _) as [o s]. cbn in *. exact Hq.
Qed.

(** ** Refinement *)

(** C14: attest is what the options amount to, behind handles.  When the SDK does
    not start, its code is the result and no call is made; otherwise the result
    and the requests made are those of [spec_calls], and exactly the objects of
    [spec_leaks] stay in the heap: the nonce of the options, and the string
    made for the token when the attestation fails. *)
Theorem attest_refines (a b : process) r :
  fresh a -> attest a = (r, b) -> r <> UB ->
  match (init_sdk a).1 with
  | Ret _ =>
      r = to_output Output.failed (spec_calls (world_of (p_api a))).1 /\ p_sdk b = p_sdk (init_sdk a).2 /\
      world_of (p_api b) = (spec_calls (world_of (p_api a))).2 /\
      leaked (heap (p_api a)) (spec_leaks (world_of (p_api a))) (heap (p_api b))
  | Err e => r = Ret (Output.failed e) /\ p_api b = p_api a
  | Throw x => r = Throw x /\ p_api b = p_api a
  | UB => False
  end.
Proof. apply attest_refines_lemma. Qed.

(** C15: collect-evidence is what the options amount to, behind handles: the
    text of the evidence its source gives for the nonce, or the code of the
    first step that failed; sources, arrays, their elements and the nonce are
    freed however it ends, and no request is made. *)
Theorem collect_evidence_refines (a b : process) r :
  fresh a -> Cli.collect_evidence collection a = (r, b) -> r <> UB ->
  match (init_sdk a).1 with
  | Ret _ =>
      r = to_output (fun e => Output.mk_collected e "") (spec_collect collection) /\ p_sdk b = p_sdk (init_sdk a).2 /\
      world_of (p_api b) = world_of (p_api a) /\ heap (p_api b) = heap (p_api a)
  | Err e => r = Ret (Output.mk_collected e "") /\ p_api b = p_api a
  | Throw x => r = Throw x /\ p_api b = p_api a
  | UB => False
  end.
Proof. apply collect_refines_lemma. Qed.

End run.
End program.

(** ** Collecting from the driver *)

Import Attestation.

Section driven.
Context `{OSSL : OpenSSL} `{XML : LibXml2} `{env : Eat.Env} `{B64 : Base64Lib} `{W : Attestation.World}.
Context {U WU V WV : Type} `{XS : XmlSec} `{DL : DynamicLinker} `{NV : Nvml.NvmlLib} `{NQ : Nscq.NscqLib}.
Context `{CD : !X509Codec} `{CL : Corelib.CorelibLib}.
Context (nvml : Driver.client Nvml.nvml) (corelib : Driver.client Corelib.corelib) (nscq : Driver.client Nscq.nscq_driver).

Abbreviation driven := (Collectors.driven W nvml corelib nscq).

(** P: what nvattest collect-evidence prints for the GPUs of a machine.  When
    it succeeds with evidence through NVML, NVML reported confidential computing
    or protected PCIe and a number of devices that is not zero, and what is
    printed is the JSON text of one piece of evidence for each index, which is
    what NVML gave for the device with that index over the nonce of the
    options, or a new one. *)
Theorem collect_nvml_complete collection (a b : Cli.process (U:=U) (WU:=WU) (V:=V) (WV:=WV)) out :
  Driver.sound Nvml.nvml_symbols nvml -> fresh a ->
  Options.device collection = "gpu" -> Options.gpu_evidence_source collection = "nvml" ->
  Cli.collect_evidence (W:=driven) collection a = (Ret out, b) ->
  Output.collect_code out = Ok -> Output.evidences out <> "" ->
  Nvml.mode_reported /\
  exists n count evidence text,
    nonce_to_use (W:=driven) collection = Ret n /\
    Nvml.answered Nvml.nvmlDeviceGetCount count /\ count <> 0 /\ length evidence = Z.to_nat count /\
    (forall k e, evidence !! k = Some e -> Nvml.item_of n (Z.of_nat k) e) /\
    GpuEvidence.collection_to_json Eat.json_dump evidence = Ret text /\ Output.evidences out = c_str text.
Proof.
  intros Hnvml Hf Hdev Hsrc Hrun Hok Hne.
  pose proof (collect_refines_lemma (W:=driven) _ _ _ _ Hf Hrun ltac:(done)) as H.
  destruct (init_sdk a).1 as [[]|e|x|]; [|by destruct H as [[= ->] _]|by destruct H|done].
  destruct H as (Ho & _). unfold spec_collect, device_text, gpu_text, gpu_source_of in Ho. rewrite Hdev, Hsrc in Ho.
  change (bool_decide ("gpu" = "gpu")) with true in Ho. change (bool_decide ("nvml" = "corelib")) with false in Ho.
  change (bool_decide ("nvml" = "file")) with false in Ho. cbn [andb negb obind] in Ho.
  destruct (spec_nonce collection) as [n0|e|x|]; [|by injection Ho as ->|done..]. cbn [obind] in Ho.
  destruct (nonce_to_use collection) as [n|e|x|] eqn:En; [|by injection Ho as ->|done..]. cbn [obind] in Ho.
  destruct (gpu_get_evidence NvmlEvidenceCollector n) as [es|e|x|] eqn:Ee; [|by injection Ho as ->..|done]. cbn [returned obind] in Ho.
  destruct (GpuEvidence.collection_to_json Eat.json_dump es) as [text|e|x|] eqn:Et; [|by injection Ho as ->..|done].
  injection Ho as ->. apply Collectors.nvml_evidence_of in Ee as [Hm (count & Hc & Hc0 & Hl & Hitem)]; [|done].
  split; [done|]. exists n, count, es, text. by split_and!.
Qed.

End driven.

(** *** A run over the files of Nvat's example *)

(** The switch of Collectors, in a file. *)
Definition toy_switch_json : json :=
  match SwitchEvidence.to_json (B64:=Base64.toy_base64)
    (SwitchEvidence.mk_evidence SwitchEvidence.LS10 "" SwitchEvidence.toy_data
       (string_of_bytes Collectors.toy_chain) None None (replicate 32 9)) with Ret j => j | _ => JNull end.

(** Nvat's example, with a parser that refuses the empty text, and a file of
    status proofs. *)
Definition toy_parser : Eat.Env := {|
  Eat.now := Eat.now (Env:=toy_env);
  Eat.RAND_bytes := Eat.RAND_bytes (Env:=toy_env);
  Eat.sha256 := Eat.sha256 (Env:=toy_env);
  Eat.sign_none := Eat.sign_none (Env:=toy_env);
  Eat.sign_es384 := Eat.sign_es384 (Env:=toy_env);
  Eat.json_dump := Eat.json_dump (Env:=toy_env);
  Eat.json_parse := fun text =>
    if bool_decide (text = "") then None
    else if bool_decide (text = "switch") then Some (JArray [toy_switch_json])
    else Eat.json_parse (Env:=toy_env) text;
  Eat.rego := Eat.rego (Env:=toy_env);
  Eat.overall_result_policy := Eat.overall_result_policy (Env:=toy_env);
|}.

Definition toy_disk : World := {|
  rim_network := rim_network (World:=toy_files);
  ocsp_network := ocsp_network (World:=toy_files);
  nras_network := nras_network (World:=toy_files);
  jwks_network := jwks_network (World:=toy_files);
  NVAT_VERSION_STRING := "1.0";
  Attestation.RAND_bytes := Attestation.RAND_bytes (World:=toy_files);
  cache_clock := cache_clock (World:=toy_files);
  path_exists := path_exists (World:=toy_files);
  path_is_directory := path_is_directory (World:=toy_files);
  read_file := fun p =>
    if bool_decide (p = "proofs") then Some (string_of_bytes (Bundle.encode_bundle [[20; 70]]))
    else if bool_decide (p = "switch.json") then Some "switch"
    else if String.prefix "rims/NV_SWITCH" p then Some "10a0b"
    else read_file (World:=toy_files) p;
  collect_evidence_nvml := collect_evidence_nvml (World:=toy_files);
  collect_evidence_corelib := collect_evidence_corelib (World:=toy_files);
  collect_evidence_nscq := collect_evidence_nscq (World:=toy_files);
|}.

Definition toy_build : Build := {|
  NVATTEST_VERSION_STRING := "1.0"; NVATTEST_SYSTEM_NAME := "Linux"; NVATTEST_SYSTEM_PROCESSOR := "x86_64"; app_help := "usage";
|}.

Definition toy_collection : Options.EvidenceCollectionOptions :=
  Options.mk_collection (to_hex_string (replicate 32 9)) "gpu" "file" "nscq" "evidence.json" "" "".
Definition toy_verification : Options.EvidenceVerificationOptions :=
  Options.mk_verification "local" "" "dir" "" "rims" "" "" "" "" "proofs" "1500".
Definition toy_policy : Options.EvidencePolicyOptions := Options.mk_policy_options true true.
Definition toy_common : Options.CommonOptions := Options.mk_common "info" "json".

#[local] Instance toy_no_rims : Rim.IRimStore (XML:=toy_xml) (unit * unit) := fun s _ => (Err RimNotFound, s).
#[local] Instance toy_no_ocsp : IOcspHttpClient (H:=toy_openssl_bytes) (unit * unit) :=
  fun s _ _ _ _ => (Err OcspServerError, s).

Abbreviation toy_process := (mk_process (Sdk.new_sdk (NV:=Nvml.toy_nvml) (NQ:=Nscq.toy_nscq) (L:=unit) 0%nat []) toy_start).

Abbreviation toy_main := (main (OSSL:=toy_openssl_bytes) (XML:=toy_xml) (env:=toy_parser) (B64:=Base64.toy_base64)
  (L:=Jwt.toy_jwt) (P:=toy_platform) (W:=toy_disk) (XS:=Sdk.toy_xmlsec) (NV:=Nvml.toy_nvml) (NQ:=Nscq.toy_nscq)
  (BD:=toy_build) (U:=unit) (WU:=unit) (V:=unit) (WV:=unit) (fun _ => 1500) (fun _ => 1500) toy_collection toy_verification toy_policy
  toy_common [] true (mk_parsed false true false) toy_process).

Abbreviation toy_printed := (match toy_main.1 with Ret pr => pr | _ => refusal end).
Abbreviation toy_json := (match standard_output toy_printed with Json j => j | _ => JNull end).
Abbreviation toy_claims := (default JNull (jfield toy_json "claims")).

Lemma toy_main_pair : toy_main = (Ret toy_printed, toy_main.2).
Proof. apply run_pair. vm_compute. reflexivity. Qed.

Lemma toy_parser_rego : rego_documented (env:=toy_parser).
Proof.
  intros cs b. unfold evaluate, RegoClaimsEvaluator.evaluate_claims, Collection.serialize_json. cbn.
  unfold Collection.to_json. destruct cs as [|[g|g] cs]; cbn [fmap list_fmap Collection.to_json_object];
    [by intros [= <-]|unfold GpuClaims.to_json, SwitchClaims.to_json, jobject..];
    by destruct (Policy.nv_match _); intros [= <-].
Qed.

Lemma toy_fresh : fresh (OSSL:=toy_openssl_bytes) toy_process.
Proof. intros l [o Ho]. done. Qed.

Lemma nvattest_gpu_sound_witness :
  exists c cs, Cli.spec_context (OSSL:=toy_openssl_bytes) (env:=toy_parser) (B64:=Base64.toy_base64) (P:=toy_platform)
    (W:=toy_disk) (U:=unit) (V:=unit) toy_collection toy_verification toy_policy = Ret c /\ cs <> [] /\ Forall Policy.device_good cs.
Proof.
  destruct (nvattest_gpu_sound (OSSL:=toy_openssl_bytes) (XML:=toy_xml) (env:=toy_parser) (B64:=Base64.toy_base64)
    (L:=Jwt.toy_jwt) (P:=toy_platform) (W:=toy_disk) (XS:=Sdk.toy_xmlsec) (NV:=Nvml.toy_nvml) (NQ:=Nscq.toy_nscq)
    (BD:=toy_build) (U:=unit) (WU:=unit) (V:=unit) (WV:=unit) (fun _ => 1500) (fun _ => 1500) toy_collection toy_verification
    toy_policy toy_common [] true false toy_process toy_main.2 toy_printed toy_json toy_claims toy_parser_rego)
    as (c & n & n' & source & evidence & cs & serialized & Hc & Hn & Hn' & Hev & _ & Hne & Hlen & _ & _ & _ & Hgood & _).
  - reflexivity.
  - exact toy_fresh.
  - reflexivity.
  - reflexivity.
  - reflexivity.
  - exact toy_main_pair.
  - vm_compute. reflexivity.
  - vm_compute. reflexivity.
  - vm_compute. reflexivity.
  - vm_compute. discriminate.
  - exists c, cs. exact (conj Hc (conj Hne Hgood)).
Defined.

Definition toy_switch_collection : Options.EvidenceCollectionOptions :=
  Options.mk_collection (to_hex_string (replicate 32 9)) "nvswitch" "nvml" "file" "" "switch.json" "".

Abbreviation toy_switch_main := (main (OSSL:=toy_openssl_bytes) (XML:=toy_xml) (env:=toy_parser) (B64:=Base64.toy_base64)
  (L:=Jwt.toy_jwt) (P:=toy_platform) (W:=toy_disk) (XS:=Sdk.toy_xmlsec) (NV:=Nvml.toy_nvml) (NQ:=Nscq.toy_nscq)
  (BD:=toy_build) (U:=unit) (WU:=unit) (V:=unit) (WV:=unit) (fun _ => 1500) (fun _ => 1500) toy_switch_collection toy_verification
  toy_policy toy_common [] true (mk_parsed false true false) toy_process).

Abbreviation toy_switch_printed := (match toy_switch_main.1 with Ret pr => pr | _ => refusal end).
Abbreviation toy_switch_out := (match standard_output toy_switch_printed with Json j => j | _ => JNull end).

Lemma toy_switch_main_pair : toy_switch_main = (Ret toy_switch_printed, toy_switch_main.2).
Proof. apply run_pair. vm_compute. reflexivity. Qed.

Lemma nvattest_switch_sound_witness :
  exists c cs, Cli.spec_context (OSSL:=toy_openssl_bytes) (env:=toy_parser) (B64:=Base64.toy_base64) (P:=toy_platform)
    (W:=toy_disk) (U:=unit) (V:=unit) toy_switch_collection toy_verification toy_policy = Ret c /\ cs <> [] /\ Forall Policy.device_good cs.
Proof.
  destruct (nvattest_switch_sound (OSSL:=toy_openssl_bytes) (XML:=toy_xml) (env:=toy_parser) (B64:=Base64.toy_base64)
    (L:=Jwt.toy_jwt) (P:=toy_platform) (W:=toy_disk) (XS:=Sdk.toy_xmlsec) (NV:=Nvml.toy_nvml) (NQ:=Nscq.toy_nscq)
    (BD:=toy_build) (U:=unit) (WU:=unit) (V:=unit) (WV:=unit) (fun _ => 1500) (fun _ => 1500) toy_switch_collection toy_verification
    toy_policy toy_common [] true false toy_process toy_switch_main.2 toy_switch_printed toy_switch_out
    (default JNull (jfield toy_switch_out "claims")) toy_parser_rego)
    as (c & n & n' & source & evidence & cs & serialized & Hc & Hn & Hn' & Hev & _ & Hne & Hlen & _ & _ & _ & Hgood & _).
  - reflexivity.
  - exact toy_fresh.
  - reflexivity.
  - reflexivity.
  - reflexivity.
  - exact toy_switch_main_pair.
  - vm_compute. reflexivity.
  - vm_compute. reflexivity.
  - vm_compute. reflexivity.
  - vm_compute. discriminate.
  - exists c, cs. exact (conj Hc (conj Hne Hgood)).
Defined.

Lemma verification_only_build_witness : collect_parsed (mk_parsed false true false) = false.
Proof.
  exact (proj1 (proj2 (verification_only_build (OSSL:=toy_openssl_bytes) (XML:=toy_xml) (env:=toy_parser) (B64:=Base64.toy_base64)
    (L:=Jwt.toy_jwt) (P:=toy_platform) (W:=toy_disk) (XS:=Sdk.toy_xmlsec) (NV:=Nvml.toy_nvml) (NQ:=Nscq.toy_nscq)
    (BD:=toy_build) (U:=unit) (WU:=unit) (V:=unit) (WV:=unit) (fun _ => 1500) (fun _ => 1500) toy_collection toy_verification
    toy_policy toy_common [] (mk_parsed false true false) toy_process))).
Defined.

Abbreviation toy_attest := (attest (OSSL:=toy_openssl_bytes) (XML:=toy_xml) (env:=toy_parser) (B64:=Base64.toy_base64)
  (L:=Jwt.toy_jwt) (P:=toy_platform) (W:=toy_disk) (XS:=Sdk.toy_xmlsec) (NV:=Nvml.toy_nvml) (NQ:=Nscq.toy_nscq)
  (U:=unit) (WU:=unit) (V:=unit) (WV:=unit) (fun _ => 1500) (fun _ => 1500) toy_collection toy_verification toy_policy toy_process).

Lemma offline_no_requests_witness : world_of (p_api toy_attest.2) = world_of (p_api toy_process).
Proof.
  destruct (offline_no_requests (OSSL:=toy_openssl_bytes) (XML:=toy_xml) (env:=toy_parser) (B64:=Base64.toy_base64)
    (L:=Jwt.toy_jwt) (P:=toy_platform) (W:=toy_disk) (XS:=Sdk.toy_xmlsec) (NV:=Nvml.toy_nvml) (NQ:=Nscq.toy_nscq)
    (U:=unit) (WU:=unit) (V:=unit) (WV:=unit) (fun _ => 1500) (fun _ => 1500) toy_collection toy_verification
    toy_policy toy_process toy_attest.2 toy_attest.1) as [H _].
  - exact toy_fresh.
  - reflexivity.
  - apply surjective_pairing.
  - vm_compute. discriminate.
  - exact H.
Defined.

(** The nonce is what such a run leaves behind. *)
Lemma attest_refines_witness :
  leaked (OSSL:=toy_openssl_bytes) (heap (p_api toy_process)) [o_nonce (replicate 32 9)] (heap (p_api toy_attest.2)).
Proof.
  destruct (attest_refines (OSSL:=toy_openssl_bytes) (XML:=toy_xml) (env:=toy_parser) (B64:=Base64.toy_base64)
    (L:=Jwt.toy_jwt) (P:=toy_platform) (W:=toy_disk) (XS:=Sdk.toy_xmlsec) (NV:=Nvml.toy_nvml) (NQ:=Nscq.toy_nscq)
    (U:=unit) (WU:=unit) (V:=unit) (WV:=unit) (fun _ => 1500) (fun _ => 1500) toy_collection toy_verification
    toy_policy toy_process toy_attest.2 toy_attest.1) as (_ & _ & _ & H).
  - exact toy_fresh.
  - apply surjective_pairing.
  - vm_compute. discriminate.
  - vm_compute in H. vm_compute. exact H.
Defined.

Abbreviation toy_collect := (collect_evidence (OSSL:=toy_openssl_bytes) (env:=toy_parser) (B64:=Base64.toy_base64)
  (W:=toy_disk) (XS:=Sdk.toy_xmlsec) (NV:=Nvml.toy_nvml) (NQ:=Nscq.toy_nscq)
  (U:=unit) (WU:=unit) (V:=unit) (WV:=unit) toy_collection toy_process).

Lemma collect_evidence_refines_witness : heap (p_api toy_collect.2) = heap (p_api toy_process).
Proof.
  destruct (collect_evidence_refines (OSSL:=toy_openssl_bytes) (env:=toy_parser) (B64:=Base64.toy_base64)
    (W:=toy_disk) (XS:=Sdk.toy_xmlsec) (NV:=Nvml.toy_nvml) (NQ:=Nscq.toy_nscq)
    (U:=unit) (WU:=unit) (V:=unit) (WV:=unit) toy_collection toy_process toy_collect.2 toy_collect.1) as (_ & _ & _ & H).
  - exact toy_fresh.
  - apply surjective_pairing.
  - vm_compute. discriminate.
  - exact H.
Defined.

(** One GPU behind NVML (Collectors). *)
Definition toy_request : Options.EvidenceCollectionOptions :=
  Options.mk_collection (to_hex_string (replicate 32 9)) "gpu" "nvml" "nscq" "" "" "".

Abbreviation toy_nvml_process := (mk_process (OSSL:=toy_openssl) (U:=unit) (WU:=unit) (V:=unit) (WV:=unit)
  (Sdk.new_sdk (NV:=Collectors.toy_gpu) (NQ:=Nscq.toy_nscq) (L:=unit) 0%nat [])
  (mk_capi ∅ ∅ 0 (new_shared, tt) (new_shared, tt) 0)).

Abbreviation toy_nvml_collect := (collect_evidence (OSSL:=toy_openssl) (env:=toy_policy_env) (B64:=Base64.toy_base64)
  (W:=Collectors.toy_driven) (XS:=Sdk.toy_xmlsec) (NV:=Collectors.toy_gpu) (NQ:=Nscq.toy_nscq) toy_request toy_nvml_process).

Lemma toy_nvml_output : toy_nvml_collect.1 = Ret (Output.mk_collected Ok "bad").
Proof. vm_compute. reflexivity. Qed.

Lemma collect_nvml_complete_witness :
  Nvml.mode_reported (NV:=Collectors.toy_gpu) /\
  exists evidence text, length evidence = 1%nat /\ c_str text = "bad" /\
    GpuEvidence.collection_to_json (B64:=Base64.toy_base64) (Eat.json_dump (Env:=toy_policy_env)) evidence = Ret text.
Proof.
  destruct (collect_nvml_complete (OSSL:=toy_openssl) (env:=toy_policy_env) (B64:=Base64.toy_base64)
    (W:=toy_world) (XS:=Sdk.toy_xmlsec) (DL:=toy_linker) (NV:=Collectors.toy_gpu) (NQ:=Nscq.toy_nscq)
    (CD:=Corelib.toy_codec) (CL:=Corelib.toy_corelib)
    (Driver.new_client (D:=Nvml.nvml (NvmlLib:=Collectors.toy_gpu)) 0%nat)
    (Driver.new_client (D:=Corelib.corelib (CorelibLib:=Corelib.toy_corelib)) tt) (Nscq.new_client (NQ:=Nscq.toy_nscq) [])
    toy_request toy_nvml_process toy_nvml_collect.2 (Output.mk_collected Ok "bad") (Driver.new_client_sound _ _))
    as (Hm & n & count & evidence & text & _ & (d & [= Hc]) & _ & Hl & _ & Ht & He).
  - intros l [o Ho]. done.
  - reflexivity.
  - reflexivity.
  - apply run_pair, toy_nvml_output.
  - reflexivity.
  - discriminate.
  - subst count. split; [exact Hm|]. exists evidence, text. exact (conj Hl (conj (eq_sym He) Ht)).
Defined.

Example toy_main_ok : exit_status (exit_code toy_printed) = 0.
Proof. vm_compute. reflexivity. Qed.

End Program.
